(* ===== verification/_CoqProject ===== *)
-Q . S2P
Prelude.v
Bytes.v
Memory.v
OrderedCollection.v
PciCap.v
PciCapProofs.v
PciCapQueries.v
PciConfig.v
PciConfigProofs.v
PciConfigClaims.v
AcpiLoader.v
AcpiLoaderProofs.v
AcpiLoaderPasses.v
AcpiLoaderClaims.v
Virtio.v
VirtioProofs.v
VirtioDriver.v
VirtioMachine.v
VirtioBlk.v
VirtioBlkProofs.v
VirtioBlkInit.v
VirtioBlkClaims.v
VirtioScsi.v
VirtioScsiProofs.v
VirtioScsiPassThru.v
VirtioScsiInit.v
VirtioScsiTargets.v
VirtioScsiClaims.v
VirtioNet.v
VirtioNetRings.v
VirtioNetInit.v
VirtioNetTraffic.v
VirtioNetSystem.v
VirtioNetBind.v
VirtioNetClaims.v
VirtioRng.v
VirtioRngProofs.v
VirtioRngInit.v
VirtioRngClaims.v
Virtio10.v
Virtio10Proofs.v
Virtio10Bind.v
Virtio10BindProofs.v
Virtio10Claims.v
SerializeVars.v
SerializeVarsProofs.v
SerializeVarsSystem.v
SerializeVarsClaims.v
AmlString.v
AmlStringProofs.v
AmlStringClaims.v
AmlParse.v
AmlGrammar.v
AmlParseProofs.v
AmlChildProofs.v
AmlSdt.v
AmlSdtProofs.v
AmlNamespaceProofs.v
AmlNamespaceFind.v
AmlNamespaceBuild.v
AmlSdtClaims.v
FwCfg.v
FwCfgProofs.v
FwCfgClaims.v
FwCfgApi.v
KernelFs.v
KernelFsProofs.v
KernelFsClaims.v
PciDriver.v
VirtioPci.v
VirtioPciClaims.v
Sata.v
SataClaims.v
FlashFvb.v
FlashFvbInit.v
FlashDevice.v
FlashFvbProofs.v
FlashFvbInstance.v
FlashFvbStart.v
FlashFvbClaims.v
