(* ===== verification/Prelude.v ===== *)
(** * A verification library for the Patina QEMU platform firmware

    The repository builds UEFI firmware for QEMU: an EDK2-style tree of C
    modules.  This library models the modules that carry its own logic as
    executable functions, from the sources under src/, and proves what makes
    them correct.

    ** Style

    C code that keeps state, calls interfaces or may hit an [ASSERT] is a
    program of the monad [M] below: a function from a state to [Done] or to a
    [Trap] (a failed assertion, an invalid dereference or memory access, or
    the model's fuel).  [wp m Q s] is total correctness: the program [m] ends
    in [Done], with [Q].  So each [wp] theorem also states termination, memory
    safety and that no assertion fails.  Labels and [goto]s are definitions
    named after the label; loops are structural or take fuel, and a theorem
    says how much fuel is enough.  Unsigned integers are [Z] with their
    truncation written out ([u8] .. [u64]); status codes are the 64-bit
    numbers that the C code compares.

    Code outside the repository (EDK2 core libraries, boot services, devices,
    QEMU) is a type class: its operations, and the documented behaviour that
    the code relies on as laws.  Devices and allocators answer arbitrarily
    within those laws.  Every law class has an instance in an [Example] or
    [Machine] module, on which the models run and the theorems are applied.

    ** Files

    - Prelude: status codes, integers, the monad, [wp] and its tactics.
    - Bytes: little-endian fields.  Memory: byte memory, live page
      allocations, and overlays (resource maps relative to an earlier point).
    - OrderedCollection: the interface of OrderedCollectionLib and a sorted
      list instance.
    - PciCap, PciCapProofs, PciCapQueries: QemuPkg/Library/BasePciCapLib.
      [PCI_CAP] objects live in a heap that two ordered collections link; the
      device is adversarial.  Parsing terminates on cyclic capability lists
      within [PciCapListInit_fuel] steps (there are at most 64 + 1024 aligned
      offsets and each is inserted once), leaks nothing, and yields exactly
      the headers of the chains; queries and bounded transfers follow.
    - PciConfig, PciConfigProofs, PciConfigClaims: configuration accesses,
      BaseCachingPciExpressLib and DxePciLibI440FxQ35, as instances of one
      contract of register operations ([reg_contract]); the loops of the
      buffer transfers are bounded by the 1024 double words of a function.
    - AcpiLoader, AcpiLoaderProofs, AcpiLoaderPasses, AcpiLoaderClaims:
      QemuPkg/AcpiPlatformDxe/QemuFwCfgAcpi.c, the QEMU
      linker/loader.  [Inv] is the invariant of the first pass, [Inst] that of
      the second; [restored] and [loaded] are the contract of
      [InstallQemuFwCfgTables] on failure and on success.
    - Virtio, VirtioProofs: QemuPkg/Library/VirtioLib over the class [VirtIo]
      (VIRTIO_DEVICE_PROTOCOL) with its contract [VirtIoLaws].  The trace
      records what the driver tells the device.  The polling loop has no bound
      in C; its fuel is enough exactly when the device is [Responsive].
    - VirtioDriver, VirtioMachine: what the virtio drivers share (boot
      services, the lemmas on bring-up), and a concrete device and allocator.
    - VirtioBlk, VirtioBlkProofs, VirtioBlkInit, VirtioBlkClaims:
      QemuPkg/VirtioBlkDxe: block I/O requests, bring-up, driver binding.
    - VirtioScsi, VirtioScsiProofs, VirtioScsiPassThru, VirtioScsiInit,
      VirtioScsiTargets, VirtioScsiClaims: QemuPkg/VirtioScsiDxe: the
      pass-through request, enumeration of targets and LUNs (the loop ends
      after (MaxTarget + 1) * (MaxLun + 1) steps), bring-up, driver binding.
    - VirtioNet: QemuPkg/VirtioNetDxe, every Simple Network Protocol member,
      the events and the driver binding.  VirtioNetRings (queues, descriptor
      chains), VirtioNetInit (Initialize and its labels), VirtioNetTraffic
      (Transmit, Receive, GetStatus), VirtioNetSystem (any sequence of calls,
      interleaved with what the host writes, as a transition system),
      VirtioNetBind, VirtioNetClaims.  Some assertions of this driver test
      what the host wrote; these theorems use [wpe], which names the traps
      that remain.
    - VirtioRng, VirtioRngProofs, VirtioRngInit, VirtioRngClaims:
      QemuPkg/VirtioRngDxe: entropy requests (each answer has at least one
      byte, so the length is enough fuel), bring-up, driver binding.
    - Virtio10, Virtio10Proofs: the protocol members of QemuPkg/Virtio10Dxe
      over EFI_PCI_IO_PROTOCOL, proved an instance of [VirtIoLaws], so that
      the theorems on VirtioLib and on its drivers hold over it.
      Virtio10Bind, Virtio10BindProofs, Virtio10Claims: the rest of
      Virtio10Dxe and QemuPkg/Library/UefiPciCapPciIoLib, which instantiates
      the [PciCapDev] that BasePciCapLib is proved against; at most 1024
      vendor capabilities, so the UINT16 instance counter does not wrap and
      [PciCapListInit_fuel] is enough for the loop.  The example runs the
      stack from configuration space to a disk read.
    - PciDriver: what the two drivers below share: the services and the
      accounting of what a driver of a PCI device holds.
    - VirtioPci, VirtioPciClaims: QemuPkg/VirtioPciDeviceDxe, the members of
      the older transport and its driver binding.  It cannot keep the contract
      [VirtIoLaws]: all its mappings are NULL.
    - Sata, SataClaims: QemuPkg/SataControllerDxe: the calculation of transfer
      modes, EFI_IDE_CONTROLLER_INIT_PROTOCOL over the tables of the devices,
      and the driver binding.
    - SerializeVars, SerializeVarsProofs, SerializeVarsSystem,
      SerializeVarsClaims: SerializeVariablesLib.  A
      serialized variable takes at least 28 bytes, so the buffer's size is
      enough fuel for the iteration; the loop over the variable store takes
      one step per variable and one more.
    - AmlString, AmlStringProofs, AmlStringClaims:
      QemuPkg/AcpiSdtDxe/AmlString.c, AML names and ASL paths; every loop
      consumes a byte, so the length of the string and one more is enough.
    - AmlParse, AmlGrammar, AmlParseProofs, AmlChildProofs: Aml.c, AmlOption.c
      and AmlChild.c of AcpiSdtDxe, the table-driven parser, against a grammar
      of AML objects given as relations; a nested object has a smaller buffer,
      so its size and one more is enough fuel.  AmlSdt, AmlSdtProofs: handles
      and the members of EFI_ACPI_SDT_PROTOCOL (AcpiSdt.c).
      AmlNamespaceProofs, AmlNamespaceFind, AmlNamespaceBuild:
      AmlNamespace.c, linked nodes in a heap that are, at any time, the nodes
      of one tree.  AmlSdtClaims.
    - FlashFvb, FlashFvbInit: QemuFlashFvbServicesRuntimeDxe, the variable
      store in flash: QemuFlash.c and the members of the volume block protocol
      (FlashFvb), initialization and the module types (FlashFvbInit).
      FlashDevice: a flash with the Intel command set and memory that is none
      (RAM or ROM), as laws and as devices.  FlashFvbProofs (reads, writes, erases), FlashFvbInstance
      (attributes, block map), FlashFvbStart (detection, the store,
      FvbInitialize, EraseBlocks), FlashFvbClaims.  A block map is shorter than the instance that holds it,
      and the loop that erases the store takes at most as many steps as the
      store has bytes: both lengths are enough fuel.
    - FwCfg, FwCfgProofs, FwCfgClaims, FwCfgApi: QemuPkg/Library/QemuFwCfgLib
      (the port I/O and DMA transports of QemuFwCfgLib.c and QemuFwCfgPei.c),
      as a refinement of an item with an offset; waiting for a DMA takes as
      many polls as the device needs.  The data port drops what is written to
      it, and a DMA error the device reports ends in the library's assertion.
      FwCfgApi is the interface that its clients are proved against, provided
      by the library on a device that reports no error for reads.
    - KernelFs, KernelFsProofs, KernelFsClaims:
      QemuKernelLoaderFsDxe, the file system of kernel, initrd and command
      line; blobs are fetched in chunks of one megabyte (size / 1 MB + 1).

    ** Groups of theorems

    Parsers and codecs (PciCap, AmlString, AmlParse, SerializeVars):
    termination on every input, exactness against the format, round trips.  Drivers
    (VirtioBlk, VirtioScsi, VirtioNet, VirtioRng, Virtio10Bind, VirtioPci,
    Sata, KernelFs): each operation is complete or absent, whatever the device
    and the services answer: error paths give back exactly what was taken, and
    where the code asserts an answer, failing the assertion is a named end.
    Transports (Virtio10, VirtioPci, FwCfg): refinement of the interface their
    clients use.  The flash (FlashFvb): what the array holds after each
    operation, and the state of the device.  The loader (AcpiLoader): safety of
    interpreting a script from the host.

    ** Not modelled

    - Components that the manifest lists as not_modelled, with the reason for
      each; mainly register programs of emulated hardware, tables, PEI
      platform set-up that creates HOBs, and UEFI glue.
    - In the modelled components: DEBUG output, the component name protocols,
      entry points that only register a driver binding, and unreachable
      [ASSERT (FALSE)] defaults.
    - The memory encryption variants of QemuFwCfgLib (QemuFwCfgDxe.c, with an
      IOMMU mapping around each DMA), and its MMIO and SEC variants.
    - UEFI and PI interfaces whose code is not in the repository are
      parameters: boot services, runtime variable services, PCI I/O, ordered
      collections, memory allocation.
    - Concurrency: UEFI drivers run to completion at their task priority
      level; timer and exit-boot-services events appear as separate calls.
*)
From stdpp Require Export base numbers list gmap.

#[global] Open Scope Z_scope.

(** * UEFI status codes

    [EFI_STATUS] and [RETURN_STATUS] are the same 64-bit unsigned integers:
    the highest bit marks an error, zero is success, anything else is a
    warning.  They are kept as numbers because a callee may return a warning,
    and [EFI_ERROR (s)] and [s == EFI_SUCCESS] then differ. *)
Definition EFI_STATUS : Type := Z.
Definition MAX_BIT : Z := 2 ^ 63.
Definition ENCODE_ERROR (n : Z) : EFI_STATUS := MAX_BIT + n.

Definition EFI_SUCCESS : EFI_STATUS := 0.
Definition EFI_LOAD_ERROR : EFI_STATUS := ENCODE_ERROR 1.
Definition EFI_INVALID_PARAMETER : EFI_STATUS := ENCODE_ERROR 2.
Definition EFI_UNSUPPORTED : EFI_STATUS := ENCODE_ERROR 3.
Definition EFI_BAD_BUFFER_SIZE : EFI_STATUS := ENCODE_ERROR 4.
Definition EFI_BUFFER_TOO_SMALL : EFI_STATUS := ENCODE_ERROR 5.
Definition EFI_NOT_READY : EFI_STATUS := ENCODE_ERROR 6.
Definition EFI_DEVICE_ERROR : EFI_STATUS := ENCODE_ERROR 7.
Definition EFI_WRITE_PROTECTED : EFI_STATUS := ENCODE_ERROR 8.
Definition EFI_OUT_OF_RESOURCES : EFI_STATUS := ENCODE_ERROR 9.
Definition EFI_NOT_FOUND : EFI_STATUS := ENCODE_ERROR 14.
Definition EFI_ACCESS_DENIED : EFI_STATUS := ENCODE_ERROR 15.
Definition EFI_NOT_STARTED : EFI_STATUS := ENCODE_ERROR 19.
Definition EFI_ALREADY_STARTED : EFI_STATUS := ENCODE_ERROR 20.
Definition EFI_PROTOCOL_ERROR : EFI_STATUS := ENCODE_ERROR 24.

(** [EFI_ERROR (Status)] / [RETURN_ERROR (Status)]: the sign of the status
    read as a signed integer. *)
Definition EFI_ERROR (s : EFI_STATUS) : bool := MAX_BIT <=? s.

(** * Machine integers: unsigned values kept in [Z], truncated explicitly. *)
Definition u8 (x : Z) : Z := x mod 2 ^ 8.
Definition u16 (x : Z) : Z := x mod 2 ^ 16.
Definition u32 (x : Z) : Z := x mod 2 ^ 32.
Definition u64 (x : Z) : Z := x mod 2 ^ 64.

Definition is_u8 (x : Z) : Prop := 0 <= x < 2 ^ 8.
Definition is_u16 (x : Z) : Prop := 0 <= x < 2 ^ 16.
Definition is_u32 (x : Z) : Prop := 0 <= x < 2 ^ 32.
Definition is_u64 (x : Z) : Prop := 0 <= x < 2 ^ 64.

Definition EFI_PAGE_SIZE : Z := 4096.
Definition EFI_PAGE_SHIFT : Z := 12.
Definition EFI_PAGE_MASK : Z := 4095.

(** [EFI_SIZE_TO_PAGES] and [EFI_PAGES_TO_SIZE] of UefiBaseType.h. *)
Definition EFI_SIZE_TO_PAGES (size : Z) : Z :=
  u64 (Z.shiftr size EFI_PAGE_SHIFT
       + (if Z.land size EFI_PAGE_MASK =? 0 then 0 else 1)).
Definition EFI_PAGES_TO_SIZE (pages : Z) : Z := u64 (Z.shiftl pages EFI_PAGE_SHIFT).

(** * The effect monad

    C code that reads and writes shared state, calls through interfaces and
    may hit an [ASSERT] or an invalid dereference is a function from a state
    to an outcome.  [Trap] is a run that leaves the defined behaviour of the
    C code (or the fuel of a model loop); every total-correctness statement
    below excludes it. *)
Inductive trap : Type :=
  | AssertFailed
  | BadPointer
  | DivideByZero
  | OutOfFuel.

Inductive outcome (S A : Type) : Type :=
  | Done (a : A) (s : S)
  | Trap (t : trap).
Arguments Done {S A} a s.
Arguments Trap {S A} t.

Definition M (S A : Type) : Type := S -> outcome S A.

#[global] Instance M_ret {S} : MRet (M S) := fun A a s => Done a s.
#[global] Instance M_bind {S} : MBind (M S) := fun A B f m s =>
  match m s with
  | Done a s' => f a s'
  | Trap t => Trap t
  end.

Definition get {S} : M S S := fun s => Done s s.
Definition put {S} (s : S) : M S unit := fun _ => Done tt s.
Definition gets {S A} (f : S -> A) : M S A := fun s => Done (f s) s.
Definition modify {S} (f : S -> S) : M S unit := fun s => Done tt (f s).
Definition trapped {S A} (t : trap) : M S A := fun _ => Trap t.
(** [ASSERT (b)]. *)
Definition ASSERT {S} (b : bool) : M S unit :=
  fun s => if b then Done tt s else Trap AssertFailed.
(** Dereference of a pointer that must be valid. *)
Definition deref {S A} (o : option A) : M S A :=
  fun s => match o with Some a => Done a s | None => Trap BadPointer end.

(** ** Weakest preconditions (total correctness) *)
Definition wp {S A} (m : M S A) (Q : A -> S -> Prop) (s : S) : Prop :=
  match m s with
  | Done a s' => Q a s'
  | Trap _ => False
  end.

Section wp.
Context {S : Type}.
Implicit Types s : S.

Lemma wp_ret {A} (a : A) Q s : wp (S:=S) (mret a) Q s <-> Q a s.
Proof. done. Qed.

Lemma wp_bind {A B} (m : M S A) (f : A -> M S B) Q s :
  wp (m ≫= f) Q s <-> wp m (fun a s' => wp (f a) Q s') s.
Proof. unfold wp, mbind, M_bind. by destruct (m s). Qed.

(** The first two steps of a sequence, together. *)
Lemma wp_bind_bind {A B C} (m : M S A) (f : A -> M S B) (g : B -> M S C) Q s :
  wp (x ← m; y ← f x; g y) Q s <-> wp (x ← m; f x) (fun y s' => wp (g y) Q s') s.
Proof.
  unfold wp, mbind, M_bind. destruct (m s) as [a s'|]; [|done]. by destruct (f a s').
Qed.

Lemma wp_mono {A} (m : M S A) (P Q : A -> S -> Prop) s :
  wp m P s -> (forall a s', P a s' -> Q a s') -> wp m Q s.
Proof. unfold wp. destruct (m s); auto. Qed.

Lemma wp_get (Q : S -> S -> Prop) s : wp get Q s <-> Q s s.
Proof. done. Qed.
Lemma wp_put s' (Q : unit -> S -> Prop) s : wp (put s') Q s <-> Q tt s'.
Proof. done. Qed.
Lemma wp_gets {A} (f : S -> A) (Q : A -> S -> Prop) s : wp (gets f) Q s <-> Q (f s) s.
Proof. done. Qed.
Lemma wp_modify f (Q : unit -> S -> Prop) s : wp (modify f) Q s <-> Q tt (f s).
Proof. done. Qed.
Lemma wp_ASSERT b (Q : unit -> S -> Prop) s : wp (ASSERT b) Q s <-> b = true /\ Q tt s.
Proof. unfold wp, ASSERT. destruct b; naive_solver. Qed.
Lemma wp_deref {A} (o : option A) (Q : A -> S -> Prop) s :
  wp (deref o) Q s <-> exists a, o = Some a /\ Q a s.
Proof. unfold wp, deref. destruct o; naive_solver. Qed.

(** A total triple determines the run. *)
Lemma wp_run {A} (m : M S A) Q s :
  wp m Q s <-> exists a s', m s = Done a s' /\ Q a s'.
Proof. unfold wp. destruct (m s); naive_solver. Qed.
Lemma wp_elim {A} (m : M S A) Q s : wp m Q s -> exists a s', m s = Done a s' /\ Q a s'.
Proof. apply wp_run. Qed.
Lemma wp_Done {A} (m : M S A) (Q : A -> S -> Prop) s a s' :
  m s = Done a s' -> wp m Q s -> Q a s'.
Proof. unfold wp. by intros ->. Qed.
End wp.

(** ** Equations of programs, at a state *)
Lemma bind_assoc {T A B C} (m : M T A) (f : A -> M T B) (g : B -> M T C) (x : T) :
  (b ← (a ← m; f a); g b) x = (a ← m; b ← f a; g b) x.
Proof. unfold mbind, M_bind. by destruct (m x). Qed.
Lemma bind_ext {T A B} (m : M T A) (f g : A -> M T B) (x : T) :
  (forall a y, f a y = g a y) -> (a ← m; f a) x = (a ← m; g a) x.
Proof. intros H. unfold mbind, M_bind. by destruct (m x). Qed.
Lemma assert_bind {T A} (b : bool) (m m' : M T A) (x : T) :
  (b = true -> m x = m' x) -> (ASSERT b;; m) x = (ASSERT b;; m') x.
Proof. destruct b; intros H; [by apply H|done]. Qed.

(** ** Runs that may stop in a trap

    [wpe m Q E s]: [m] ends in [Done] with [Q], or in a trap that satisfies
    [E]; for code whose assertions a misbehaving device can fail. *)
Definition wpe {S A} (m : M S A) (Q : A -> S -> Prop) (E : trap -> Prop) (s : S) : Prop :=
  match m s with
  | Done a s' => Q a s'
  | Trap t => E t
  end.

Section wpe.
Context {S : Type} (E : trap -> Prop).
Implicit Types s : S.
Lemma wp_wpe {A} (m : M S A) Q s : wp m Q s -> wpe m Q E s.
Proof. unfold wp, wpe. by destruct (m s). Qed.
Lemma wpe_bind {A B} (m : M S A) (f : A -> M S B) Q s :
  wpe (m ≫= f) Q E s <-> wpe m (fun a s' => wpe (f a) Q E s') E s.
Proof. unfold wpe, mbind, M_bind. by destruct (m s). Qed.
(** A first step that cannot trap. *)
Lemma wpe_bind_wp {A B} (m : M S A) (f : A -> M S B) Q s :
  wp m (fun a s' => wpe (f a) Q E s') s -> wpe (m ≫= f) Q E s.
Proof. intros H. apply wpe_bind. by apply wp_wpe. Qed.
Lemma wpe_mono {A} (m : M S A) (P Q : A -> S -> Prop) s :
  wpe m P E s -> (forall a s', P a s' -> Q a s') -> wpe m Q E s.
Proof. unfold wpe. destruct (m s); auto. Qed.
Lemma wpe_ASSERT b (Q : unit -> S -> Prop) s :
  E AssertFailed -> (b = true -> Q tt s) -> wpe (ASSERT b) Q E s.
Proof. unfold wpe, ASSERT. destruct b; auto. Qed.
Lemma wpe_ASSERT_if b (Q : unit -> S -> Prop) s :
  (b = false -> E AssertFailed) -> (b = true -> Q tt s) -> wpe (ASSERT b) Q E s.
Proof. unfold wpe, ASSERT. destruct b; auto. Qed.
End wpe.
Lemma wpe_mono_trap {S A} (m : M S A) (P Q : A -> S -> Prop) (E F : trap -> Prop) s :
  wpe m P E s -> (forall a s', P a s' -> Q a s') -> (forall t, E t -> F t) -> wpe m Q F s.
Proof. unfold wpe. destruct (m s); auto. Qed.
Lemma wpe_wp {S A} (m : M S A) (Q : A -> S -> Prop) (E : trap -> Prop) s :
  (forall t, ~ E t) -> wpe m Q E s -> wp m Q s.
Proof. unfold wp, wpe. destruct (m s); naive_solver. Qed.

(** Traps of the program's own assertions. *)
Definition asserted (t : trap) : Prop := t = AssertFailed.

(** One step of symbolic execution through the structure of a program. *)
Ltac wp_step :=
  lazymatch goal with
  | |- wp (mret _) _ _ => rewrite wp_ret
  | |- wp (_ ≫= _) _ _ => rewrite wp_bind
  | |- wp get _ _ => rewrite wp_get
  | |- wp (put _) _ _ => rewrite wp_put
  | |- wp (gets _) _ _ => rewrite wp_gets
  | |- wp (modify _) _ _ => rewrite wp_modify
  | |- wp (ASSERT _) _ _ => rewrite wp_ASSERT; split
  | |- wp (let _ := _ in _) _ _ => cbv zeta
  end.
Ltac wp_steps := repeat (wp_step; cbn beta).

(** [lia] with constant divisions and remainders. *)
Ltac lia_div := Z.to_euclidean_division_equations; lia.
