(* ===== verification/Memory.v ===== *)
(** * Byte-addressed memory and page allocations

    Physical memory is a function from addresses to byte values; a page
    allocator's bookkeeping is a finite map from the base of each live
    allocation to its number of pages.  Components that access allocated
    memory do so through checked accesses: an access outside every live
    allocation is a [BadPointer] trap, so a total-correctness theorem of such
    a component is also a memory-safety theorem. *)
From S2P Require Import Prelude Bytes.

Definition memory : Type := Z -> Z.

Definition mem_get (m : memory) (a n : Z) : list Z := m <$> seqZ a n.

Definition mem_set (m : memory) (a : Z) (bs : list Z) : memory := fun x =>
  if (a <=? x) && (x <? a + Z.of_nat (length bs))
  then nth (Z.to_nat (x - a)) bs 0
  else m x.

Lemma length_mem_get m a n : length (mem_get m a n) = Z.to_nat n.
Proof. unfold mem_get. by rewrite length_fmap, length_seqZ. Qed.

Lemma mem_get_lookup m a n (i : nat) :
  Z.of_nat i < n -> mem_get m a n !! i = Some (m (a + Z.of_nat i)).
Proof. intros. unfold mem_get. rewrite list_lookup_fmap, lookup_seqZ_lt by lia. done. Qed.

Lemma mem_set_inside m a bs x :
  a <= x < a + Z.of_nat (length bs) -> mem_set m a bs x = nth (Z.to_nat (x - a)) bs 0.
Proof. intros. unfold mem_set. case_match; [done|lia]. Qed.

Lemma mem_set_outside m a bs x :
  x < a \/ a + Z.of_nat (length bs) <= x -> mem_set m a bs x = m x.
Proof. intros. unfold mem_set. case_match; [lia|done]. Qed.
Lemma mem_set_app m a b bs cs x :
  b = a + Z.of_nat (length bs) -> mem_set (mem_set m a bs) b cs x = mem_set m a (bs ++ cs) x.
Proof.
  intros ->. destruct (decide (a + Z.of_nat (length bs) <= x < a + Z.of_nat (length bs) + Z.of_nat (length cs))).
  { rewrite !mem_set_inside by (rewrite ?length_app; lia). rewrite app_nth2 by lia. f_equal. lia. }
  rewrite mem_set_outside by lia. destruct (decide (a <= x < a + Z.of_nat (length bs))).
  - rewrite !mem_set_inside by (rewrite ?length_app; lia). rewrite app_nth1 by lia. done.
  - rewrite !mem_set_outside by (rewrite ?length_app; lia). done.
Qed.

Lemma mem_get_ext m m' a n :
  (forall x, a <= x < a + n -> m x = m' x) -> mem_get m a n = mem_get m' a n.
Proof.
  intros H. unfold mem_get. apply list_fmap_ext. intros i x Hx.
  apply lookup_seqZ in Hx. apply H. lia.
Qed.

(** Writing then reading back the same range. *)
Lemma mem_get_set m a bs n :
  n = Z.of_nat (length bs) -> mem_get (mem_set m a bs) a n = bs.
Proof.
  intros ->. apply list_eq_same_length with (length bs); [done|rewrite length_mem_get; lia|].
  intros i x y Hi. rewrite mem_get_lookup by lia. rewrite mem_set_inside by lia.
  intros [= <-] Hy. replace (Z.to_nat (a + Z.of_nat i - a)) with i by lia.
  by apply nth_lookup_Some with (d := 0) in Hy.
Qed.

(** A write leaves disjoint ranges alone. *)
Lemma mem_get_set_disjoint m a bs b n :
  a + Z.of_nat (length bs) <= b \/ b + n <= a ->
  mem_get (mem_set m a bs) b n = mem_get m b n.
Proof. intros. apply mem_get_ext. intros x Hx. apply mem_set_outside. lia. Qed.

Lemma mem_get_app m a i j : 0 <= i -> 0 <= j -> mem_get m a (i + j) = mem_get m a i ++ mem_get m (a + i) j.
Proof. intros. unfold mem_get. by rewrite seqZ_app, fmap_app by lia. Qed.

Lemma mem_get_zeros m a n : (forall x, a <= x < a + n -> m x = 0) -> mem_get m a n = replicate (Z.to_nat n) 0.
Proof.
  intros H. apply list_eq_same_length with (Z.to_nat n); [by rewrite length_replicate|by rewrite length_mem_get|].
  intros i x y Hi. rewrite mem_get_lookup by lia. rewrite lookup_replicate. intros [= <-] [-> _]. apply H. lia.
Qed.

Lemma mem_get_1 m a : mem_get m a 1 = [m a].
Proof. unfold mem_get. by rewrite seqZ_cons, seqZ_nil by lia. Qed.

Definition mem_bytes (m : memory) : Prop := forall a, is_byte (m a).

Lemma mem_get_bytes m a n : mem_bytes m -> Forall is_byte (mem_get m a n).
Proof. intros H. unfold mem_get. apply Forall_fmap, Forall_forall. intros x _. apply H. Qed.

Lemma mem_set_bytes m a bs : mem_bytes m -> Forall is_byte bs -> mem_bytes (mem_set m a bs).
Proof.
  intros Hm Hb x. unfold mem_set. case_match; [|apply Hm].
  rewrite Forall_forall in Hb. apply Hb. apply list_elem_of_In, nth_In. lia.
Qed.

(** ** Live page allocations *)
Abbreviation page_map := (gmap Z Z).

Definition page_range (b n a len : Z) : Prop := b <= a /\ a + len <= b + EFI_PAGE_SIZE * n.

(** [a, a + len) lies inside one live allocation. *)
Definition in_pages (P : page_map) (a len : Z) : bool :=
  bool_decide (map_Exists (fun b n => page_range b n a len) P).
#[global] Instance page_range_dec b n a len : Decision (page_range b n a len).
Proof. unfold page_range. apply _. Defined.
#[global] Arguments in_pages : simpl never.

Lemma in_pages_intro P b n a len :
  P !! b = Some n -> page_range b n a len ->
  bool_decide (map_Exists (fun b n => page_range b n a len) P) = true.
Proof. intros. apply bool_decide_eq_true. exists b, n. done. Qed.

Definition disjoint_from (P : page_map) (b n : Z) : Prop :=
  forall b' n', P !! b' = Some n' ->
    b' <> b /\ (b + EFI_PAGE_SIZE * n <= b' \/ b' + EFI_PAGE_SIZE * n' <= b).

(** A size in bytes fits the pages that hold it. *)
Lemma EFI_SIZE_TO_PAGES_bound n :
  is_u32 n -> n <= EFI_PAGE_SIZE * EFI_SIZE_TO_PAGES n <= n + EFI_PAGE_MASK.
Proof.
  unfold is_u32, EFI_SIZE_TO_PAGES, EFI_PAGE_SHIFT, EFI_PAGE_MASK, EFI_PAGE_SIZE, u64. intros H.
  rewrite Z.shiftr_div_pow2 by lia. change (2 ^ 12) with 4096.
  change 4095 with (Z.ones 12). rewrite Z.land_ones by lia. change (2 ^ 12) with 4096.
  rewrite Z.mod_small; [|case_match; lia_div].
  change (Z.ones 12) with 4095. destruct (Z.eqb_spec (n mod 4096) 0); lia_div.
Qed.

Lemma EFI_PAGES_TO_SIZE_small n :
  0 <= n < 2 ^ 52 -> EFI_PAGES_TO_SIZE n = EFI_PAGE_SIZE * n.
Proof.
  intros H. unfold EFI_PAGES_TO_SIZE, u64, EFI_PAGE_SHIFT, EFI_PAGE_SIZE.
  rewrite Z.shiftl_mul_pow2, Z.mod_small by lia. lia.
Qed.

Lemma filter_none {A} (P : A -> Prop) `{forall x, Decision (P x)} (l : list A) :
  (forall x, ~ P x) -> filter P l = [].
Proof. intros HP. induction l as [|x l IH]; [done|]. by rewrite filter_cons_False. Qed.

(** * Overlays

    [overlay base l m]: [m] is [base] plus the fresh entries [l].  Resource
    maps are described this way against their contents at some earlier point,
    so that releasing every entry of [l] provably restores them. *)
Section overlay.
Context {K V : Type} `{Countable K}.
Implicit Types (base m : gmap K V) (l : list (K * V)).

Record overlay base l m : Prop := {
  overlay_nodup : NoDup l.*1;
  overlay_in k v : (k, v) ∈ l -> m !! k = Some v /\ base !! k = None;
  overlay_out k : k ∉ l.*1 -> m !! k = base !! k;
}.

Lemma overlay_nil base : overlay base [] base.
Proof. split; [constructor|by intros ?? ?%elem_of_nil|done]. Qed.

Lemma overlay_nil_eq base m : overlay base [] m -> m = base.
Proof. intros [_ _ Ho]. apply map_eq. intros k. apply Ho, not_elem_of_nil. Qed.

Lemma overlay_perm base l l' m : l ≡ₚ l' -> overlay base l m -> overlay base l' m.
Proof.
  intros Hp [Hn Hi Ho]. split; [by rewrite <-Hp| |].
  - intros k v. rewrite <-Hp. apply Hi.
  - intros k. rewrite <-Hp. apply Ho.
Qed.

Lemma overlay_insert base l m k v :
  overlay base l m -> m !! k = None -> overlay base ((k, v) :: l) (<[k := v]> m).
Proof.
  intros [Hn Hi Ho] Hk.
  assert (k ∉ l.*1) as Hkl.
  { intros ([k' v'] & -> & Hin)%list_elem_of_fmap. apply Hi in Hin as [? _]. cbn in *. congruence. }
  split; csimpl.
  - by constructor.
  - intros k' v' [[= -> ->]|Hin]%elem_of_cons.
    + rewrite lookup_insert_eq. split; [done|]. by rewrite <-Ho.
    + rewrite lookup_insert_ne; [by apply Hi|]. intros ->.
      apply Hkl, list_elem_of_fmap. by exists (k', v').
  - intros k' [Hne Hk']%not_elem_of_cons. rewrite lookup_insert_ne by done. by apply Ho.
Qed.

Lemma overlay_delete base l m k v : overlay base ((k, v) :: l) m -> overlay base l (delete k m).
Proof.
  intros [Hn Hi Ho]. csimpl in *. apply NoDup_cons in Hn as [Hkl Hn]. split; [done| |].
  - intros k' v' Hin. destruct (Hi k' v') as [??]; [by right|].
    rewrite lookup_delete_ne; [done|]. intros ->. apply Hkl, list_elem_of_fmap. by exists (k', v').
  - intros k' Hk'. destruct (decide (k = k')) as [<-|].
    + rewrite lookup_delete_eq. symmetry. apply (Hi k v). by left.
    + rewrite lookup_delete_ne by done. apply Ho. rewrite not_elem_of_cons. split; [|done].
      by apply not_eq_sym.
Qed.

Lemma overlay_update base l m k v v' :
  overlay base ((k, v) :: l) m -> overlay base ((k, v') :: l) (<[k := v']> m).
Proof.
  intros Ho. rewrite <-insert_delete_eq. apply overlay_insert.
  - by eapply overlay_delete.
  - by rewrite lookup_delete_eq.
Qed.

Lemma overlay_lookup base l m k v : overlay base l m -> (k, v) ∈ l -> m !! k = Some v.
Proof. intros Ho Hin. by apply (overlay_in _ _ _ Ho). Qed.

(** [holds base ks m]: the same, by the fresh keys alone. *)
Definition holds base (ks : list K) m : Prop := exists l, overlay base l m /\ l.*1 ≡ₚ ks.

Lemma holds_nil base : holds base [] base.
Proof. exists []. split; [apply overlay_nil|done]. Qed.
Lemma holds_nil_eq base m : holds base [] m -> m = base.
Proof.
  intros (l & Ho & Hp). apply Permutation_nil_r, fmap_nil_inv in Hp as ->. by apply overlay_nil_eq.
Qed.
Lemma holds_perm base ks ks' m : ks ≡ₚ ks' -> holds base ks m -> holds base ks' m.
Proof. intros Hp (l & Ho & Hl). exists l. by rewrite Hl. Qed.
Lemma holds_insert base ks m k v : holds base ks m -> m !! k = None -> holds base (k :: ks) (<[k := v]> m).
Proof. intros (l & Ho & Hl) Hk. exists ((k, v) :: l). split; [by apply overlay_insert|]. csimpl. by rewrite Hl. Qed.
Lemma holds_lookup base ks m k : holds base ks m -> k ∈ ks -> exists v, m !! k = Some v.
Proof.
  intros (l & Ho & Hl) Hk. rewrite <-Hl in Hk. apply list_elem_of_fmap in Hk as ([k' v] & -> & Hin).
  exists v. by eapply overlay_lookup.
Qed.
Lemma holds_delete base ks m k : holds base (k :: ks) m -> holds base ks (delete k m).
Proof.
  intros (l & Ho & Hl). assert (k ∈ l.*1) as Hk by (rewrite Hl; by left).
  apply list_elem_of_fmap in Hk as ([k' v] & -> & Hin). apply elem_of_Permutation in Hin as [l' Hp].
  exists l'. split; [eapply overlay_delete, overlay_perm; [exact Hp|done]|].
  rewrite Hp in Hl. csimpl in Hl. by apply Permutation_cons_inv in Hl.
Qed.
End overlay.
