(* ===== verification/OrderedCollection.v ===== *)
(** * The ordered collection interface

    [OrderedCollectionLib] is an EDK2 library class that the capability parser
    and the ACPI linker/loader use and that lives outside this repository.  It
    is therefore an interface here: the operations, and the documented
    behaviour their callers rely on as laws.  Keys are compared with the
    three-way comparison function given to [OrderedCollectionInit]; user
    structures are whatever the client links (usually a pointer).

    [SortedList] is a small instance that satisfies the laws: it is used only
    to run the models on concrete inputs. *)
From S2P Require Import Prelude.
From Stdlib Require Import Sorting.Sorted.

(** Requirements that the library puts on a comparison function. *)
Class ThreeWay {K : Type} (cmp : K -> K -> Z) : Prop := {
  cmp_eq a b : (cmp a b = 0) <-> (a = b);
  cmp_flip a b : (cmp a b < 0) <-> (0 < cmp b a);
  cmp_trans a b c : cmp a b < 0 -> cmp b c < 0 -> cmp a c < 0;
}.

(** Pool memory: whether the next allocation succeeds is up to the
    environment. *)
Class PoolEnv (W : Type) := pool_alloc : W -> bool * W.

(** Outcome of [OrderedCollectionInsert].  [AlreadyStarted u] carries the user
    structure of the entry that was output, the one that compares equal. *)
Inductive insert_result (U : Type) : Type :=
  | Inserted
  | AlreadyStarted (u : U)
  | OutOfResources.
Arguments Inserted {U}.
Arguments AlreadyStarted {U} u.
Arguments OutOfResources {U}.

Definition insert_status {U} (r : insert_result U) : EFI_STATUS :=
  match r with
  | Inserted => EFI_SUCCESS
  | AlreadyStarted _ => EFI_ALREADY_STARTED
  | OutOfResources => EFI_OUT_OF_RESOURCES
  end.

(** The operations.  [oc_entries] is the traversal that [OrderedCollectionMin]
    and [OrderedCollectionNext] perform. *)
Class OrderedCollection (K U W : Type) (cmp : K -> K -> Z) := {
  oc : Type;
  oc_entries : oc -> list (K * U);
  oc_init : W -> option oc * W;
  oc_insert : W -> oc -> K -> U -> insert_result U * oc * W;
  oc_find : oc -> K -> option U;
  oc_delete : oc -> K -> oc;
  (** the library's own data structure invariant *)
  oc_wf : oc -> Prop;
}.
Arguments oc {K U W cmp} _.
Arguments oc_wf {K U W cmp _} _.

Definition key_lt {K U} (cmp : K -> K -> Z) (a b : K * U) : Prop := cmp a.1 b.1 < 0.

(** The documented behaviour. *)
Class OrderedCollectionLaws {K U W cmp} (OC : OrderedCollection K U W cmp) : Prop := {
  oc_cmp :: ThreeWay cmp;
  oc_init_spec w c w' :
    oc_init w = (Some c, w') -> oc_wf c /\ oc_entries c = [];
  oc_sorted c : oc_wf c -> StronglySorted (key_lt cmp) (oc_entries c);
  oc_insert_spec w c k u r c' w' :
    oc_wf c -> oc_insert w c k u = (r, c', w') ->
    oc_wf c' /\
    match r with
    | Inserted => (k ∉ (oc_entries c).*1) /\ oc_entries c' ≡ₚ (k, u) :: oc_entries c
    | AlreadyStarted u0 => (k, u0) ∈ oc_entries c /\ c' = c
    | OutOfResources => c' = c
    end;
  oc_find_spec c k u :
    oc_wf c -> (oc_find c k = Some u) <-> ((k, u) ∈ oc_entries c);
  oc_delete_spec c k :
    oc_wf c -> oc_wf (oc_delete c k) /\
    oc_entries (oc_delete c k) = filter (fun e => cmp k e.1 <> 0) (oc_entries c);
}.

Section derived.
Context {K U W cmp} {OC : OrderedCollection K U W cmp} {L : OrderedCollectionLaws OC}.
Implicit Types c : oc OC.

Lemma ThreeWay_irrefl a : ~ cmp a a < 0.
Proof. rewrite (proj2 (cmp_eq a a) eq_refl). lia. Qed.

Lemma cmp_refl a : cmp a a = 0.
Proof. by apply cmp_eq. Qed.

Lemma oc_key_dec (a b : K) : {a = b} + {a <> b}.
Proof.
  destruct (decide (cmp a b = 0)) as [E|E]; [left|right].
  - by apply cmp_eq.
  - intros ->. by apply E, cmp_eq.
Qed.

Lemma sorted_keys_NoDup (l : list (K * U)) : StronglySorted (key_lt cmp) l -> NoDup l.*1.
Proof.
  induction 1 as [|[k u] l Hs IH Hall]; csimpl; constructor; auto.
  intros ([k' u'] & -> & Hin)%list_elem_of_fmap.
  rewrite Forall_forall in Hall. specialize (Hall _ Hin).
  by apply ThreeWay_irrefl in Hall.
Qed.

Lemma oc_keys_NoDup c : oc_wf c -> NoDup (oc_entries c).*1.
Proof. intros. by apply sorted_keys_NoDup, oc_sorted. Qed.

Lemma oc_entries_functional c k u u' :
  oc_wf c -> (k, u) ∈ oc_entries c -> (k, u') ∈ oc_entries c -> u = u'.
Proof.
  intros Hwf H1 H2. apply (oc_find_spec c k u Hwf) in H1.
  apply (oc_find_spec c k u' Hwf) in H2. congruence.
Qed.

Lemma oc_find_None c k :
  oc_wf c -> (oc_find c k = None) <-> (k ∉ (oc_entries c).*1).
Proof.
  intros Hwf. split.
  - intros Hn ([k' u] & -> & Hin)%list_elem_of_fmap.
    apply (oc_find_spec c k' u Hwf) in Hin. cbn in *. congruence.
  - intros Hni. destruct (oc_find c k) as [u|] eqn:E; [|done].
    apply oc_find_spec in E; [|done].
    by destruct Hni; apply list_elem_of_fmap; exists (k, u).
Qed.

(** Inserting a key that is present reports the entry; inserting one that is
    absent never reports a duplicate. *)
Lemma oc_insert_present w c k u u0 r c' w' :
  oc_wf c -> (k, u0) ∈ oc_entries c -> oc_insert w c k u = (r, c', w') ->
  c' = c /\ (r = AlreadyStarted u0 \/ r = OutOfResources).
Proof.
  intros Hwf Hin Hi.
  destruct (oc_insert_spec w c k u r c' w' Hwf Hi) as [Hwf' Hr].
  destruct r as [|u1|].
  - destruct Hr as [Hni _]. destruct Hni. apply list_elem_of_fmap. by exists (k, u0).
  - destruct Hr as [Hin1 ->]. split; [done|left]. f_equal.
    eapply oc_entries_functional; eauto.
  - auto.
Qed.

Lemma oc_insert_absent w c k u r c' w' :
  oc_wf c -> k ∉ (oc_entries c).*1 -> oc_insert w c k u = (r, c', w') ->
  oc_wf c' /\
  ((r = Inserted /\ oc_entries c' ≡ₚ (k, u) :: oc_entries c) \/
   (r = OutOfResources /\ c' = c)).
Proof.
  intros Hwf Hni Hi.
  destruct (oc_insert_spec w c k u r c' w' Hwf Hi) as [Hwf' Hr].
  split; [done|]. destruct r as [|u1|]; [naive_solver| |naive_solver].
  destruct Hr as [Hin _]. destruct Hni. apply list_elem_of_fmap. by exists (k, u1).
Qed.

Lemma filter_absent (k : K) (l : list (K * U)) : k ∉ l.*1 -> filter (fun e => cmp k e.1 <> 0) l = l.
Proof.
  clear -L. induction l as [|[k1 u1] l IH]; [done|]. csimpl. intros [Hne Hk]%not_elem_of_cons.
  rewrite filter_cons_True by (cbn; rewrite cmp_eq; naive_solver). by rewrite IH.
Qed.
(** Deleting the entry just inserted restores the collection's contents. *)
Lemma oc_delete_insert c c' k u :
  oc_wf c -> oc_wf c' -> oc_entries c' ≡ₚ (k, u) :: oc_entries c ->
  oc_wf (oc_delete c' k) /\ oc_entries (oc_delete c' k) ≡ₚ oc_entries c.
Proof.
  intros Hwf Hwf' Hp. destruct (oc_delete_spec c' k Hwf') as [Hd He].
  split; [done|]. rewrite He, Hp, filter_cons_False by (cbn; rewrite cmp_refl; lia).
  rewrite filter_absent; [done|].
  pose proof (oc_keys_NoDup c' Hwf') as Hnd. rewrite Hp in Hnd. by apply NoDup_cons in Hnd as [? _].
Qed.
(** Deleting an entry. *)
Lemma oc_delete_perm c k u :
  oc_wf c -> (k, u) ∈ oc_entries c ->
  oc_wf (oc_delete c k) /\ oc_entries c ≡ₚ (k, u) :: oc_entries (oc_delete c k).
Proof.
  intros Hwf Hin. destruct (oc_delete_spec c k Hwf) as [Hd He]. split; [done|].
  pose proof (oc_keys_NoDup c Hwf) as Hnd. apply elem_of_Permutation in Hin as [l Hp]. rewrite Hp in Hnd.
  apply NoDup_cons in Hnd as [Hk _]. rewrite He, Hp, filter_cons_False by (cbn; rewrite cmp_refl; lia).
  by rewrite filter_absent.
Qed.
(** Deleting the entries of a list of keys; deleting all leaves nothing. *)
Lemma oc_delete_list c (l : list (K * U)) :
  oc_wf c ->
  oc_wf (foldl (fun c e => oc_delete c e.1) c l) /\
  (forall e, (e ∈ oc_entries (foldl (fun c e => oc_delete c e.1) c l)) <->
             (e ∈ oc_entries c /\ e.1 ∉ l.*1)).
Proof.
  revert c. induction l as [|[k u] l IH]; intros c Hwf; csimpl.
  - split; [done|]. intros e. split; [|tauto]. intros ?. split; [done|]. apply not_elem_of_nil.
  - destruct (oc_delete_spec c k Hwf) as [Hd He]. destruct (IH (oc_delete c k) Hd) as [Hw Hi].
    split; [done|]. intros e. rewrite Hi, He, list_elem_of_filter, cmp_eq, not_elem_of_cons.
    split; [|naive_solver]. intros [[? ?] ?]. naive_solver.
Qed.

Lemma oc_delete_all c :
  oc_wf c -> oc_entries (foldl (fun c e => oc_delete c e.1) c (oc_entries c)) = [].
Proof.
  intros Hwf. destruct (oc_delete_list c (oc_entries c) Hwf) as [_ Hi].
  destruct (oc_entries (foldl _ _ _)) as [|e l]; [done|].
  destruct (proj1 (Hi e)) as [Hin Hni]; [by left|]. destruct Hni. apply list_elem_of_fmap. eauto.
Qed.
End derived.

(** * A concrete instance: strictly sorted association lists *)
Module SortedList.
Section instance.
Context {K U W : Type} (cmp : K -> K -> Z) {PE : PoolEnv W}.

Fixpoint lookup (l : list (K * U)) (k : K) : option U :=
  match l with
  | [] => None
  | (k', u) :: l' => if cmp k k' =? 0 then Some u else lookup l' k
  end.

Fixpoint place (l : list (K * U)) (k : K) (u : U) : list (K * U) :=
  match l with
  | [] => [(k, u)]
  | (k', u') :: l' =>
      if cmp k k' <? 0 then (k, u) :: (k', u') :: l' else (k', u') :: place l' k u
  end.

Definition insert (w : W) (l : list (K * U)) (k : K) (u : U) :=
  match lookup l k with
  | Some u0 => (AlreadyStarted u0, l, w)
  | None =>
      let '(ok, w') := pool_alloc w in
      if ok then (Inserted, place l k u, w') else (OutOfResources, l, w')
  end.

#[local] Instance collection : OrderedCollection K U W cmp := {|
  oc := list (K * U);
  oc_entries l := l;
  oc_init w := let '(ok, w') := pool_alloc w in (if ok then Some [] else None, w');
  oc_insert := insert;
  oc_find := lookup;
  oc_delete l k := filter (fun e => cmp k e.1 <> 0) l;
  oc_wf l := StronglySorted (key_lt cmp) l;
|}.

Context {TW : ThreeWay cmp}.

Lemma lookup_Some l k u :
  StronglySorted (key_lt cmp) l -> (lookup l k = Some u) <-> ((k, u) ∈ l).
Proof.
  induction 1 as [|[k' u'] l Hs IH Hall]; cbn [lookup].
  - split; [done|]. by intros ?%elem_of_nil.
  - rewrite elem_of_cons. destruct (Z.eqb_spec (cmp k k') 0) as [E|E].
    + apply cmp_eq in E as ->. split; [intros [= ->]; by left|].
      intros [[= ->]|Hin]; [done|].
      rewrite Forall_forall in Hall. specialize (Hall _ Hin). unfold key_lt in Hall. cbn in Hall.
      pose proof (proj2 (cmp_eq k' k') eq_refl). lia.
    + rewrite IH. split; [by right|]. intros [[= -> ->]|?]; [|done].
      by rewrite (proj2 (cmp_eq k' k') eq_refl) in E.
Qed.

Lemma lookup_None l k : (lookup l k = None) <-> (k ∉ l.*1).
Proof.
  induction l as [|[k' u'] l IH]; cbn [lookup]; csimpl.
  - split; [intros _ []%elem_of_nil|done].
  - rewrite not_elem_of_cons, <-IH. destruct (Z.eqb_spec (cmp k k') 0) as [E|E].
    + apply cmp_eq in E. naive_solver.
    + rewrite cmp_eq in E. naive_solver.
Qed.

Lemma place_perm l k u : place l k u ≡ₚ (k, u) :: l.
Proof.
  induction l as [|[k' u'] l IH]; cbn [place]; [done|].
  destruct (_ <? _); [done|]. rewrite IH. apply Permutation_swap.
Qed.

Lemma place_sorted l k u :
  StronglySorted (key_lt cmp) l -> k ∉ l.*1 -> StronglySorted (key_lt cmp) (place l k u).
Proof.
  induction 1 as [|[k' u'] l Hs IH Hall]; cbn [place]; csimpl; intros Hni.
  - repeat constructor.
  - apply not_elem_of_cons in Hni as [Hne Hni].
    destruct (Z.ltb_spec (cmp k k') 0) as [Hlt|Hge].
    + constructor; [by constructor|]. constructor; [done|].
      eapply Forall_impl; [done|]. intros [] ?. by eapply cmp_trans.
    + constructor; [auto|]. rewrite place_perm. constructor; [|done].
      unfold key_lt; cbn. apply cmp_flip.
      assert (cmp k k' <> 0) by (rewrite cmp_eq; done). lia.
Qed.

Lemma filter_sorted (P : K * U -> Prop) `{forall x, Decision (P x)} l :
  StronglySorted (key_lt cmp) l -> StronglySorted (key_lt cmp) (filter P l).
Proof.
  induction 1 as [|a l Hs IH Hall]; [constructor|].
  rewrite filter_cons. destruct (decide (P a)); [|done].
  constructor; [done|]. rewrite Forall_forall in *. intros x [_ ?]%list_elem_of_filter. auto.
Qed.

#[local] Instance laws : OrderedCollectionLaws collection.
Proof.
  split; cbn.
  - done.
  - intros w c w'. destruct (pool_alloc w) as [[] ?]; intros [= <- <-].
    split; [constructor|done].
  - done.
  - intros w c k u r c' w' Hwf. unfold insert.
    destruct (lookup c k) as [u0|] eqn:El.
    + intros [= <- <- <-]. apply (lookup_Some _ _ _ Hwf) in El. done.
    + apply lookup_None in El. destruct (pool_alloc w) as [[] w1]; intros [= <- <- <-].
      * split; [by apply place_sorted|]. split; [done|apply place_perm].
      * done.
  - intros c k u Hwf. by apply lookup_Some.
  - intros c k Hwf. split; [by apply filter_sorted|done].
Qed.
End instance.
End SortedList.
