(* ===== verification/PciCap.v ===== *)
(** * BasePciCapLib: the PCI capability list parser

    Models QemuPkg/Library/BasePciCapLib/BasePciCapLib.c: parsing the normal
    and the extended capability lists of a PCI device into a collection of
    [PCI_CAP] objects, the queries on that collection, and the bounded
    accesses to a capability.

    [PCI_CAP] objects are pool allocations that two collections link and that
    refer to each other ([InstanceZero]), so they live in a heap ([Pool]) and
    are updated through their address.  The device is adversarial: it answers
    [ReadConfig] with any status and any bytes. *)
From S2P Require Import Prelude Bytes OrderedCollection.

(** ** Data *)
Inductive PCI_CAP_DOMAIN : Type := PciCapNormal | PciCapExtended.
#[global] Instance PCI_CAP_DOMAIN_eq_dec : EqDecision PCI_CAP_DOMAIN.
Proof. solve_decision. Defined.

(** Enumerators compare as the integers C gives them. *)
Definition domain_value (d : PCI_CAP_DOMAIN) : Z :=
  match d with PciCapNormal => 0 | PciCapExtended => 1 end.

Record PCI_CAP_KEY : Type := mkKey { Domain : PCI_CAP_DOMAIN; CapId : Z; Instance_ : Z }.
#[global] Instance PCI_CAP_KEY_eq_dec : EqDecision PCI_CAP_KEY.
Proof. solve_decision. Defined.

Definition ptr : Type := positive.

(** The union: the instance count in instance 0, a link to instance 0 in the
    others. *)
Inductive PCI_CAP_NUM_INSTANCES : Type :=
  | NumInstances (n : Z)
  | InstanceZero (p : ptr).

Record PCI_CAP : Type := mkCap {
  Key : PCI_CAP_KEY;
  NumInstancesUnion : PCI_CAP_NUM_INSTANCES;
  Offset : Z;
  MaxSizeHint : Z;
  Version : Z;
}.

Record PCI_CAP_INFO : Type := mkInfo {
  Info_Domain : PCI_CAP_DOMAIN;
  Info_CapId : Z;
  Info_NumInstances : Z;
  Info_Instance : Z;
  Info_Offset : Z;
  Info_MaxSizeHint : Z;
  Info_Version : Z;
}.

(** Constants of the PCI headers. *)
Definition PCI_MAX_CONFIG_OFFSET : Z := 0x100.
Definition PCI_EXP_MAX_CONFIG_OFFSET : Z := 0x1000.
Definition PCI_PRIMARY_STATUS_OFFSET : Z := 0x06.
Definition PCI_CAPBILITY_POINTER_OFFSET : Z := 0x34.
Definition EFI_PCI_STATUS_CAPABILITY : Z := 0x10.
Definition EFI_PCI_CAPABILITY_ID_PCIEXP : Z := 0x10.

Definition ConfigSpaceSize (d : PCI_CAP_DOMAIN) : Z :=
  match d with
  | PciCapNormal => PCI_MAX_CONFIG_OFFSET
  | PciCapExtended => PCI_EXP_MAX_CONFIG_OFFSET
  end.

(** The two header layouts: [EFI_PCI_CAPABILITY_HDR] is two bytes,
    [PCI_EXPRESS_EXTENDED_CAPABILITIES_HEADER] a 32-bit word of bit fields
    16 / 4 / 12. *)
Record NORMAL_HDR : Type := mkNormalHdr { CapabilityID : Z; NextItemPtr : Z }.
Definition decode_normal (bs : list Z) : NORMAL_HDR :=
  {| CapabilityID := le_combine (take 1 bs); NextItemPtr := le_combine (drop 1 bs) |}.

Record EXTENDED_HDR : Type := mkExtendedHdr {
  CapabilityId : Z; CapabilityVersion : Z; NextCapabilityOffset : Z }.
Definition decode_extended (bs : list Z) : EXTENDED_HDR :=
  let w := le_combine bs in
  {| CapabilityId := Z.land w 0xFFFF;
     CapabilityVersion := Z.land (Z.shiftr w 16) 0xF;
     NextCapabilityOffset := Z.land (Z.shiftr w 20) 0xFFF |}.

Definition IsZeroBuffer (bs : list Z) : bool := forallb (fun b => b =? 0) bs.

(** ** Comparison functions handed to the ordered collections *)
Definition ComparePciCapKey (Key1 Key2 : PCI_CAP_KEY) : Z :=
  if domain_value (Domain Key1) <? domain_value (Domain Key2) then -1
  else if domain_value (Domain Key2) <? domain_value (Domain Key1) then 1
  else if CapId Key1 <? CapId Key2 then -1
  else if CapId Key2 <? CapId Key1 then 1
  else if Instance_ Key1 <? Instance_ Key2 then -1
  else if Instance_ Key2 <? Instance_ Key1 then 1
  else 0.

Definition ComparePciCapOffsetKey (Offset1 Offset2 : Z) : Z := Offset1 - Offset2.

#[global] Instance ComparePciCapKey_ThreeWay : ThreeWay ComparePciCapKey.
Proof.
  split.
  - intros [d1 c1 i1] [d2 c2 i2]. unfold ComparePciCapKey; cbn.
    split; [|intros [= <- <- <-]; by rewrite !Z.ltb_irrefl].
    destruct d1, d2; cbn; repeat case_match; try done; intros _; f_equal; lia.
  - intros [d1 c1 i1] [d2 c2 i2]. unfold ComparePciCapKey; cbn.
    destruct d1, d2; cbn; repeat case_match; lia.
  - intros [d1 c1 i1] [d2 c2 i2] [d3 c3 i3]. unfold ComparePciCapKey; cbn.
    destruct d1, d2, d3; cbn; repeat case_match; lia.
Qed.

#[global] Instance ComparePciCapOffsetKey_ThreeWay : ThreeWay ComparePciCapOffsetKey.
Proof. split; unfold ComparePciCapOffsetKey; lia. Qed.

(** ** The device interface ([PCI_CAP_DEV])

    [ReadConfig dev offset size] returns the status, the contents of the
    destination buffer, and the device's next state. *)
Class PciCapDev (W : Type) := {
  ReadConfig : W -> Z -> Z -> EFI_STATUS * list Z * W;
  WriteConfig : W -> Z -> list Z -> EFI_STATUS * W;
}.

(** The destination buffer is [size] bytes long, whatever the device does. *)
Class PciCapDevLaws (W : Type) {D : PciCapDev W} : Prop :=
  ReadConfig_buffer (w : W) off size s bs w' :
    0 <= size -> ReadConfig w off size = (s, bs, w') ->
    Z.of_nat (length bs) = size /\ Forall is_byte bs.

(** ** The library *)
Section PciCapLib.
Context {W : Type} {PE : PoolEnv W} {Dev : PciCapDev W}.
(** [OutCapList->Capabilities], ordered by key, owns the [PCI_CAP]s;
    [CapHdrOffsets] orders the same objects by config space offset. *)
Context {OCK : OrderedCollection PCI_CAP_KEY ptr W ComparePciCapKey}.
Context {OCO : OrderedCollection Z ptr W ComparePciCapOffsetKey}.

Record PCI_CAP_LIST : Type := mkList { Capabilities : oc OCK }.

(** The state: the environment (device and allocator), the [PCI_CAP]
    objects in pool memory, and the number of live [PCI_CAP_LIST]
    structures and of ordered collections that were initialised and not yet
    uninitialised. *)
Record st : Type := mkSt {
  Env : W;
  Pool : gmap ptr PCI_CAP;
  LiveLists : Z;
  LiveCollections : Z;
}.

Definition set_env (w : W) (s : st) : st :=
  mkSt w (Pool s) (LiveLists s) (LiveCollections s).
Definition set_pool (f : gmap ptr PCI_CAP -> gmap ptr PCI_CAP) (s : st) : st :=
  mkSt (Env s) (f (Pool s)) (LiveLists s) (LiveCollections s).
Definition add_lists (n : Z) (s : st) : st :=
  mkSt (Env s) (Pool s) (LiveLists s + n) (LiveCollections s).
Definition add_collections (n : Z) (s : st) : st :=
  mkSt (Env s) (Pool s) (LiveLists s) (LiveCollections s + n).

(** *** Services *)
Definition env_call {A} (f : W -> A * W) : M st A :=
  fun s => let '(a, w) := f (Env s) in Done a (set_env w s).

Definition AllocatePool (init : PCI_CAP) : M st (option ptr) :=
  ok ← env_call pool_alloc;
  s ← get;
  if ok : bool then
    let p := fresh (dom (Pool s)) in
    put (set_pool <[p := init]> s);; mret (Some p)
  else mret None.
Definition load (p : ptr) : M st PCI_CAP := s ← get; deref (Pool s !! p).
Definition store (p : ptr) (c : PCI_CAP) : M st unit :=
  _ ← load p; modify (set_pool <[p := c]>).
Definition FreePool (p : ptr) : M st unit :=
  _ ← load p; modify (set_pool (delete p)).
Definition ReadConfigM (off size : Z) : M st (EFI_STATUS * list Z) :=
  env_call (fun w => let '(s, bs, w') := ReadConfig w off size in (s, bs, w')).

(** *** InsertPciCap *)

(** An ordered collection call updates the collection and the allocator. *)
Definition InsertM {K cmp} {OC : OrderedCollection K ptr W cmp} (c : oc OC) (k : K) (p : ptr) :
    M st (insert_result ptr * oc OC) :=
  env_call (fun w => let '(r, c', w') := oc_insert w c k p in ((r, c'), w')).

Definition insert_out : Type := EFI_STATUS * oc OCK * oc OCO.

(** Label [FreePciCap]. *)
Definition FreePciCap (PciCap : ptr) (Status : EFI_STATUS) (CapList : oc OCK)
    (CapHdrOffsets : oc OCO) : M st insert_out :=
  FreePool PciCap;; mret (Status, CapList, CapHdrOffsets).

(** [InstanceZero->NumInstancesUnion.NumInstances++]. *)
Definition BumpNumInstances (Inst0 : ptr) : M st unit :=
  z ← load Inst0;
  match NumInstancesUnion z with
  | NumInstances n =>
      store Inst0 (mkCap (Key z) (NumInstances (u16 (n + 1)))
                         (Offset z) (MaxSizeHint z) (Version z))
  | InstanceZero _ => trapped BadPointer
  end.

(** The second half: PciCap has been inserted in CapList->Capabilities;
    [Inst0] is the local variable InstanceZero. *)
Definition LinkPciCap (PciCap : ptr) (Inst0 : option ptr) (Status : EFI_STATUS)
    (CapList : oc OCK) (CapHdrOffsets : oc OCO) : M st insert_out :=
  ASSERT (negb (EFI_ERROR Status));;
  c ← load PciCap;
  r ← InsertM CapHdrOffsets (Offset c) PciCap;
  let '(r, CapHdrOffsets) := r in
  let Status := insert_status r in
  if EFI_ERROR Status then
    FreePciCap PciCap
      (if Status =? EFI_ALREADY_STARTED then EFI_DEVICE_ERROR else Status)
      (oc_delete CapList (Key c)) CapHdrOffsets
  else
    (if 0 <? Instance_ (Key c)
     then Inst0 ← deref Inst0; BumpNumInstances Inst0
     else mret tt);;
    mret (EFI_SUCCESS, CapList, CapHdrOffsets).

Definition InsertPciCap (CapList : oc OCK) (CapHdrOffsets : oc OCO)
    (dom : PCI_CAP_DOMAIN) (id off ver : Z) : M st insert_out :=
  ASSERT (Z.land off 0x3 =? 0);;
  ASSERT (off <? ConfigSpaceSize dom);;
  ASSERT (bool_decide (dom = PciCapExtended) || (ver =? 0));;
  PciCap ← AllocatePool (mkCap (mkKey dom id 0) (NumInstances 1) off 0 ver);
  match PciCap with
  | None => mret (EFI_OUT_OF_RESOURCES, CapList, CapHdrOffsets)
  | Some PciCap =>
    r ← InsertM CapList (mkKey dom id 0) PciCap;
    let '(r, CapList) := r in
    match r with
    | OutOfResources => FreePciCap PciCap EFI_OUT_OF_RESOURCES CapList CapHdrOffsets
    | Inserted => LinkPciCap PciCap None EFI_SUCCESS CapList CapHdrOffsets
    | AlreadyStarted Inst0 =>
      z ← load Inst0;
      match NumInstancesUnion z with
      | InstanceZero _ => trapped BadPointer
      | NumInstances n =>
        store PciCap (mkCap (mkKey dom id n) (InstanceZero Inst0) off 0 ver);;
        ASSERT (0 <? n);;
        r ← InsertM CapList (mkKey dom id n) PciCap;
        let '(r, CapList) := r in
        if insert_status r =? EFI_OUT_OF_RESOURCES
        then FreePciCap PciCap EFI_OUT_OF_RESOURCES CapList CapHdrOffsets
        else LinkPciCap PciCap (Some Inst0) (insert_status r) CapList CapHdrOffsets
      end
    end
  end.

(** *** MaxSizeHint *)
Definition CalculatePciCapMaxSizeHint (PciCap : ptr) (NextPciCap : option ptr) : M st unit :=
  c ← load PciCap;
  let Size := ConfigSpaceSize (Domain (Key c)) in
  let set_hint h :=
    store PciCap (mkCap (Key c) (NumInstancesUnion c) (Offset c) (u16 h) (Version c)) in
  match NextPciCap with
  | None =>
      ASSERT (Offset c <? Size);;
      set_hint (Size - Offset c)
  | Some np =>
      n ← load np;
      ASSERT (Offset c <? Offset n);;
      ASSERT (Offset c <? Size);;
      if Size <=? Offset n then set_hint (Size - Offset c)
      else set_hint (Offset n - Offset c)
  end.

(** [EmptyAndUninitPciCapCollection]: delete entry after entry in traversal
    order, then release the (empty) collection. *)
Section EmptyAndUninit.
Context {K cmp} {OC : OrderedCollection K ptr W cmp}.

Definition OrderedCollectionUninit (c : oc OC) : M st unit :=
  ASSERT (bool_decide (oc_entries c = []));; modify (add_collections (-1)).

Fixpoint EmptyCollection (c : oc OC) (l : list (K * ptr)) (free : bool) : M st (oc OC) :=
  match l with
  | [] => mret c
  | (k, p) :: l =>
      let c := oc_delete c k in
      (if free then FreePool p else mret tt);;
      EmptyCollection c l free
  end.
End EmptyAndUninit.

Definition EmptyAndUninitPciCapCollection {K cmp} {OC : OrderedCollection K ptr W cmp}
    (c : oc OC) (free : bool) : M st unit :=
  c ← EmptyCollection c (oc_entries c) free;
  OrderedCollectionUninit c.

(** *** PciCapListInit

    The two list walks are loops whose length the device controls; they take
    fuel, and [PciCapListInit_fuel] below is enough for every device. *)
Fixpoint NormalCapWalk (fuel : nat) (NormalCapHdrOffset : Z) (DeviceIsExpress : bool)
    (CapList : oc OCK) (CapHdrOffsets : oc OCO) : M st (insert_out * bool) :=
  match fuel with
  | O => trapped OutOfFuel
  | S fuel =>
    if 0 <? NormalCapHdrOffset then
      r ← ReadConfigM NormalCapHdrOffset 2;
      let '(Status, bs) := r in
      if EFI_ERROR Status then mret ((Status, CapList, CapHdrOffsets), DeviceIsExpress)
      else
        let NormalCapHdr := decode_normal bs in
        r ← InsertPciCap CapList CapHdrOffsets PciCapNormal
              (CapabilityID NormalCapHdr) NormalCapHdrOffset 0;
        let '(Status, CapList, CapHdrOffsets) := r in
        if EFI_ERROR Status then mret (r, DeviceIsExpress)
        else
          NormalCapWalk fuel (Z.land (NextItemPtr NormalCapHdr) 0xFC)
            (if CapabilityID NormalCapHdr =? EFI_PCI_CAPABILITY_ID_PCIEXP
             then true else DeviceIsExpress)
            CapList CapHdrOffsets
    else mret ((EFI_SUCCESS, CapList, CapHdrOffsets), DeviceIsExpress)
  end.

Fixpoint ExtendedCapWalk (fuel : nat) (ExtendedCapHdrOffset : Z)
    (CapList : oc OCK) (CapHdrOffsets : oc OCO) : M st insert_out :=
  match fuel with
  | O => trapped OutOfFuel
  | S fuel =>
    if 0 <? ExtendedCapHdrOffset then
      r ← ReadConfigM ExtendedCapHdrOffset 4;
      let '(Status, bs) := r in
      if (ExtendedCapHdrOffset =? PCI_MAX_CONFIG_OFFSET)
         && (EFI_ERROR Status || IsZeroBuffer bs)
      then mret (EFI_SUCCESS, CapList, CapHdrOffsets)
      else if EFI_ERROR Status then mret (Status, CapList, CapHdrOffsets)
      else
        let ExtendedCapHdr := decode_extended bs in
        r ← InsertPciCap CapList CapHdrOffsets PciCapExtended
              (u16 (CapabilityId ExtendedCapHdr)) ExtendedCapHdrOffset
              (u8 (CapabilityVersion ExtendedCapHdr));
        let '(Status, CapList, CapHdrOffsets) := r in
        if EFI_ERROR Status then mret r
        else
          let Next := Z.land (NextCapabilityOffset ExtendedCapHdr) 0xFFC in
          if (0 <? Next) && (Next <? PCI_MAX_CONFIG_OFFSET)
          then mret (EFI_DEVICE_ERROR, CapList, CapHdrOffsets)
          else ExtendedCapWalk fuel Next CapList CapHdrOffsets
    else mret (EFI_SUCCESS, CapList, CapHdrOffsets)
  end.

(** Compute every [MaxSizeHint] while evacuating [CapHdrOffsets]: an entry is
    deleted, then sized against the next entry in offset order. *)
Fixpoint CalculateHints (c : oc OCO) (l : list (Z * ptr)) : M st (oc OCO) :=
  match l with
  | [] => mret c
  | (k, p) :: l =>
      let c := oc_delete c k in
      CalculatePciCapMaxSizeHint p (snd <$> head l);;
      CalculateHints c l
  end.

Definition FreeOutCapList (Status : EFI_STATUS) : M st (EFI_STATUS * option PCI_CAP_LIST) :=
  modify (add_lists (-1));; ASSERT (EFI_ERROR Status);; mret (Status, None).
Definition FreeCapabilities (Status : EFI_STATUS) (CapList : oc OCK) :=
  EmptyAndUninitPciCapCollection CapList true;; FreeOutCapList Status.
Definition FreeCapHdrOffsets (Status : EFI_STATUS) (CapList : oc OCK) (CapHdrOffsets : oc OCO) :=
  EmptyAndUninitPciCapCollection CapHdrOffsets false;; FreeCapabilities Status CapList.

Definition OrderedCollectionInitM {K cmp} (OC : OrderedCollection K ptr W cmp) :
    M st (option (oc OC)) :=
  c ← env_call oc_init;
  match c with
  | None => mret None
  | Some c => modify (add_collections 1);; mret (Some c)
  end.

(** From the first config space access to the end of the extended list. *)
Definition ParseCapabilities (fuel : nat) (CapList : oc OCK) (CapHdrOffsets : oc OCO) :
    M st insert_out :=
  r ← ReadConfigM PCI_PRIMARY_STATUS_OFFSET 2;
  let '(Status, bs) := r in
  if EFI_ERROR Status then mret (Status, CapList, CapHdrOffsets)
  else
    r ← (if negb (Z.land (le_combine bs) EFI_PCI_STATUS_CAPABILITY =? 0) then
           r ← ReadConfigM PCI_CAPBILITY_POINTER_OFFSET 1;
           let '(Status, bs) := r in
           if EFI_ERROR Status then mret ((Status, CapList, CapHdrOffsets), false)
           else NormalCapWalk fuel (Z.land (le_combine bs) 0xFC) false CapList CapHdrOffsets
         else mret ((EFI_SUCCESS, CapList, CapHdrOffsets), false));
    let '((Status, CapList, CapHdrOffsets), DeviceIsExpress) := r in
    if EFI_ERROR Status then mret (Status, CapList, CapHdrOffsets)
    else if DeviceIsExpress : bool then
      ExtendedCapWalk fuel PCI_MAX_CONFIG_OFFSET CapList CapHdrOffsets
    else mret (EFI_SUCCESS, CapList, CapHdrOffsets).

Definition PciCapListInit (fuel : nat) : M st (EFI_STATUS * option PCI_CAP_LIST) :=
  ok ← env_call pool_alloc;
  if negb ok then mret (EFI_OUT_OF_RESOURCES, None) else
  modify (add_lists 1);;
  CapList ← OrderedCollectionInitM OCK;
  match CapList with
  | None => FreeOutCapList EFI_OUT_OF_RESOURCES
  | Some CapList =>
    CapHdrOffsets ← OrderedCollectionInitM OCO;
    match CapHdrOffsets with
    | None => FreeCapabilities EFI_OUT_OF_RESOURCES CapList
    | Some CapHdrOffsets =>
      r ← ParseCapabilities fuel CapList CapHdrOffsets;
      let '(Status, CapList, CapHdrOffsets) := r in
      if EFI_ERROR Status then FreeCapHdrOffsets Status CapList CapHdrOffsets
      else
        CapHdrOffsets ← CalculateHints CapHdrOffsets (oc_entries CapHdrOffsets);
        OrderedCollectionUninit CapHdrOffsets;;
        mret (EFI_SUCCESS, Some (mkList CapList))
    end
  end.

Definition PciCapListUninit (CapList : PCI_CAP_LIST) : M st unit :=
  EmptyAndUninitPciCapCollection (Capabilities CapList) true;;
  modify (add_lists (-1)).

(** *** Queries *)
Definition PciCapListFindCap (CapList : PCI_CAP_LIST) (dom : PCI_CAP_DOMAIN)
    (id inst : Z) : EFI_STATUS * option ptr :=
  match oc_find (Capabilities CapList) (mkKey dom id inst) with
  | None => (EFI_NOT_FOUND, None)
  | Some p => (EFI_SUCCESS, Some p)
  end.

(** [OrderedCollectionFind] followed by [OrderedCollectionNext]s: the
    traversal from the entry with key [k] on. *)
Fixpoint entries_from (k : PCI_CAP_KEY) (l : list (PCI_CAP_KEY * ptr)) :=
  match l with
  | [] => []
  | e :: l' => if ComparePciCapKey k e.1 =? 0 then l else entries_from k l'
  end.

Fixpoint FindCapVersionLoop (dom : PCI_CAP_DOMAIN) (id MinVersion : Z)
    (l : list (PCI_CAP_KEY * ptr)) : M st (EFI_STATUS * option ptr) :=
  match l with
  | [] => mret (EFI_NOT_FOUND, None)
  | (_, p) :: l =>
      c ← load p;
      if negb (bool_decide (Domain (Key c) = dom)) || negb (CapId (Key c) =? id)
      then mret (EFI_NOT_FOUND, None)
      else if MinVersion <=? Version c then mret (EFI_SUCCESS, Some p)
      else FindCapVersionLoop dom id MinVersion l
  end.

Definition PciCapListFindCapVersion (CapList : PCI_CAP_LIST) (dom : PCI_CAP_DOMAIN)
    (id MinVersion : Z) : M st (EFI_STATUS * option ptr) :=
  FindCapVersionLoop dom id MinVersion
    (entries_from (mkKey dom id 0) (oc_entries (Capabilities CapList))).

Definition PciCapGetInfo (Cap : ptr) : M st (EFI_STATUS * PCI_CAP_INFO) :=
  c ← load Cap;
  z ← (if Instance_ (Key c) =? 0 then mret c
       else match NumInstancesUnion c with
            | InstanceZero p => load p
            | NumInstances _ => trapped BadPointer
            end);
  match NumInstancesUnion z with
  | NumInstances n =>
      mret (EFI_SUCCESS,
            mkInfo (Domain (Key c)) (CapId (Key c)) n (Instance_ (Key c))
                   (Offset c) (MaxSizeHint c) (Version c))
  | InstanceZero _ => trapped BadPointer
  end.

(** *** Accesses.  The arithmetic is on promoted 32-bit signed values, which
    two 16-bit values cannot overflow. *)
Definition PciCapRead (Cap : ptr) (SourceOffsetInCap Size : Z) :
    M st (EFI_STATUS * option (list Z)) :=
  c ← load Cap;
  if MaxSizeHint c <? SourceOffsetInCap + Size then mret (EFI_BAD_BUFFER_SIZE, None)
  else
    r ← ReadConfigM (u16 (Offset c + SourceOffsetInCap)) Size;
    mret (r.1, Some r.2).

Definition PciCapWrite (Cap : ptr) (DestinationOffsetInCap : Z) (SourceBuffer : list Z) :
    M st EFI_STATUS :=
  c ← load Cap;
  if MaxSizeHint c <? DestinationOffsetInCap + Z.of_nat (length SourceBuffer)
  then mret EFI_BAD_BUFFER_SIZE
  else env_call (fun w => WriteConfig w (u16 (Offset c + DestinationOffsetInCap)) SourceBuffer).
End PciCapLib.
