(* ===== verification/PciCapProofs.v ===== *)
(** * The capability parser: representation invariant and correctness *)
From S2P Require Import Prelude Bytes OrderedCollection PciCap.
From Stdlib Require Import Sorting.Sorted.

(** ** Abstract view

    A capability header as read from config space, in list traversal order. *)
Record hdr : Type := mkHdr { h_dom : PCI_CAP_DOMAIN; h_id : Z; h_off : Z; h_ver : Z }.

Definition same (d : PCI_CAP_DOMAIN) (i : Z) (h : hdr) : Prop := h_dom h = d /\ h_id h = i.
#[global] Instance same_dec d i h : Decision (same d i h).
Proof. unfold same. apply _. Defined.

(** How many headers of [L] carry capability [(d, i)]. *)
Definition occ (d : PCI_CAP_DOMAIN) (i : Z) (L : list hdr) : Z :=
  Z.of_nat (length (filter (same d i) L)).

(** Numbering of the headers: the instance of a header is the number of
    earlier headers with the same domain and identifier. *)
Fixpoint number_from (seen L : list hdr) : list PCI_CAP_KEY :=
  match L with
  | [] => []
  | h :: L => mkKey (h_dom h) (h_id h) (occ (h_dom h) (h_id h) seen)
              :: number_from (seen ++ [h]) L
  end.
Definition number (L : list hdr) : list PCI_CAP_KEY := number_from [] L.

Section number.
Lemma number_from_snoc seen L h :
  number_from seen (L ++ [h]) =
  number_from seen L ++ [mkKey (h_dom h) (h_id h) (occ (h_dom h) (h_id h) (seen ++ L))].
Proof.
  revert seen. induction L as [|h0 L IH]; intros seen; cbn.
  - by rewrite app_nil_r.
  - by rewrite IH, <-(assoc_L (++)).
Qed.
Lemma number_snoc L h :
  number (L ++ [h]) = number L ++ [mkKey (h_dom h) (h_id h) (occ (h_dom h) (h_id h) L)].
Proof. unfold number. by rewrite number_from_snoc. Qed.

Lemma occ_nonneg d i L : 0 <= occ d i L.
Proof. unfold occ. lia. Qed.
Lemma occ_le d i L : occ d i L <= Z.of_nat (length L).
Proof. unfold occ. pose proof (length_filter (same d i) L). lia. Qed.
Lemma occ_snoc d i L h :
  occ d i (L ++ [h]) = occ d i L + (if decide (same d i h) then 1 else 0).
Proof.
  unfold occ. rewrite filter_app, length_app, filter_cons, filter_nil.
  case_decide; cbn; lia.
Qed.
Lemma occ_snoc_same L h :
  occ (h_dom h) (h_id h) (L ++ [h]) = occ (h_dom h) (h_id h) L + 1.
Proof. rewrite occ_snoc, decide_True; done. Qed.

(** Instances are numbered 0, 1, .. without gaps. *)
Lemma in_number d i j L : (mkKey d i j ∈ number L) <-> (0 <= j < occ d i L).
Proof.
  induction L as [|h L IH] using rev_ind.
  - cbn. split; [by intros ?%elem_of_nil|]. unfold occ. cbn. lia.
  - rewrite number_snoc, elem_of_app, IH, list_elem_of_singleton, occ_snoc.
    pose proof (occ_nonneg d i L). case_decide as Hs.
    + destruct Hs as [<- <-]. split; [intros [?|[= ->]]; lia|]. intros ?.
      destruct (decide (j = occ (h_dom h) (h_id h) L)) as [->|]; [by right|left; lia].
    + split; [intros [?|[= -> -> ->]]; [lia|]|left; lia]. by destruct Hs.
Qed.
Lemma length_number_from seen L : length (number_from seen L) = length L.
Proof. revert seen. induction L; intros; cbn; auto. Qed.
End number.

(** ** Representation invariant *)

(** One parsed capability: its header, its key, and the address of its
    [PCI_CAP]. *)
Record ghost : Type := mkGhost { g_hdr : hdr; g_key : PCI_CAP_KEY; g_ptr : ptr }.
Definition g_off (g : ghost) : Z := h_off (g_hdr g).

Definition hdr_ok (h : hdr) : Prop :=
  0 <= h_off h < ConfigSpaceSize (h_dom h) /\ h_off h mod 4 = 0.

(** What the object at [g]'s address holds, among the capabilities [G]. *)
Definition obj_ok (G : list ghost) (g : ghost) (c : PCI_CAP) : Prop :=
  Key c = g_key g /\ Offset c = g_off g /\ Version c = h_ver (g_hdr g) /\
  match NumInstancesUnion c with
  | NumInstances n =>
      Instance_ (g_key g) = 0 /\ n = occ (h_dom (g_hdr g)) (h_id (g_hdr g)) (g_hdr <$> G)
  | InstanceZero p0 =>
      0 < Instance_ (g_key g) /\
      exists g0, g0 ∈ G /\ g_ptr g0 = p0 /\
                 g_key g0 = mkKey (h_dom (g_hdr g)) (h_id (g_hdr g)) 0
  end.

Section Rep.
Context {W : Type} {PE : PoolEnv W} {Dev : PciCapDev W}.
Context {OCK : OrderedCollection PCI_CAP_KEY ptr W ComparePciCapKey}.
Context {OCO : OrderedCollection Z ptr W ComparePciCapOffsetKey}.
Context {LK : OrderedCollectionLaws OCK} {LO : OrderedCollectionLaws OCO}.

(** The part that holds of the objects and of [CapList->Capabilities];
    [base] is the pool memory that existed before. *)
Record RepC (base : gmap ptr PCI_CAP) (G : list ghost) (C : oc OCK)
    (pool : gmap ptr PCI_CAP) : Prop := {
  rep_wfC : oc_wf C;
  rep_C : oc_entries C ≡ₚ (fun g => (g_key g, g_ptr g)) <$> G;
  rep_key : g_key <$> G = number (g_hdr <$> G);
  rep_hdr : Forall (fun g => hdr_ok (g_hdr g)) G;
  rep_nodup : NoDup (g_ptr <$> G);
  rep_obj g : g ∈ G -> exists c, pool !! g_ptr g = Some c /\ obj_ok G g c;
  rep_fresh g : g ∈ G -> base !! g_ptr g = None;
  rep_base p : p ∉ g_ptr <$> G -> pool !! p = base !! p;
}.
Record Rep (base : gmap ptr PCI_CAP) (G : list ghost) (C : oc OCK) (O : oc OCO)
    (pool : gmap ptr PCI_CAP) : Prop := {
  rep_RepC : RepC base G C pool;
  rep_wfO : oc_wf O;
  rep_O : oc_entries O ≡ₚ (fun g => (g_off g, g_ptr g)) <$> G;
}.

Lemma rep_nodup_off base G C O pool : Rep base G C O pool -> NoDup (g_off <$> G).
Proof.
  intros R. pose proof (oc_keys_NoDup O (rep_wfO _ _ _ _ _ R)) as H.
  rewrite (rep_O _ _ _ _ _ R), <-list_fmap_compose in H. exact H.
Qed.

Lemma rep_domain base G C pool g :
  RepC base G C pool -> g ∈ G ->
  Domain (g_key g) = h_dom (g_hdr g) /\ CapId (g_key g) = h_id (g_hdr g) /\
  0 <= Instance_ (g_key g) < occ (h_dom (g_hdr g)) (h_id (g_hdr g)) (g_hdr <$> G).
Proof.
  intros R. pose proof (rep_key _ _ _ _ R) as HG. clear R.
  revert g. induction G as [|g' G IH] using rev_ind; intros g; [by intros ?%elem_of_nil|].
  rewrite !fmap_app in *. cbn in *. rewrite number_snoc in HG.
  apply app_inj_tail in HG as [HG Hk]. rewrite elem_of_app, list_elem_of_singleton.
  intros [Hin | ->].
  - destruct (IH HG g Hin) as (-> & -> & ?). rewrite occ_snoc. case_decide; split; auto; lia.
  - rewrite Hk. cbn. rewrite occ_snoc_same.
    pose proof (occ_nonneg (h_dom (g_hdr g')) (h_id (g_hdr g')) (g_hdr <$> G)). split; auto; lia.
Qed.

(** Offsets are distinct, dword aligned and below 4 KiB: at most 1024. *)
Lemma offsets_bound (lo hi : Z) (l : list Z) :
  NoDup l -> 0 <= lo <= hi -> Forall (fun o => 4 * lo <= o < 4 * hi /\ o mod 4 = 0) l ->
  Z.of_nat (length l) <= hi - lo.
Proof.
  intros Hnd Hlh Hall.
  assert (NoDup ((fun o => o / 4) <$> l)) as Hnd4.
  { apply NoDup_fmap_2_strong; [|done]. rewrite Forall_forall in Hall.
    intros x y Hx%Hall Hy%Hall E. cbn in E. lia_div. }
  assert ((fun o => o / 4) <$> l ⊆ seqZ lo (hi - lo)) as Hsub.
  { intros x (o & -> & Ho)%list_elem_of_fmap. apply elem_of_seqZ.
    rewrite Forall_forall in Hall. specialize (Hall o Ho). lia_div. }
  pose proof (NoDup_submseteq _ _ Hnd4 Hsub) as Hs.
  apply submseteq_length in Hs. rewrite length_fmap, length_seqZ in Hs. lia.
Qed.

Lemma rep_length base G C O pool :
  Rep base G C O pool -> Z.of_nat (length G) <= 1024.
Proof.
  intros R. rewrite <-(length_fmap g_off G).
  apply (offsets_bound 0 1024); [by eapply rep_nodup_off|lia|].
  apply Forall_fmap. eapply Forall_impl; [apply (rep_hdr _ _ _ _ (rep_RepC _ _ _ _ _ R))|].
  intros g [Hr Ha]. unfold g_off. cbn.
  destruct (h_dom (g_hdr g)); cbn in Hr; unfold PCI_MAX_CONFIG_OFFSET, PCI_EXP_MAX_CONFIG_OFFSET in Hr; lia.
Qed.
End Rep.

(** ** Symbolic execution of the services *)
Section services.
Context {W : Type} {PE : PoolEnv W}.
Implicit Types s : st (W:=W).

Lemma wp_cap_env_call {A} (f : W -> A * W) (Q : A -> st -> Prop) s :
  wp (env_call f) Q s <-> (let '(a, w) := f (Env s) in Q a (set_env w s)).
Proof. unfold wp, env_call. by destruct (f (Env s)). Qed.

Lemma wp_cap_load p (Q : PCI_CAP -> st -> Prop) s :
  wp (load p) Q s <-> (exists c, Pool s !! p = Some c /\ Q c s).
Proof. unfold load. by rewrite wp_bind, wp_get, wp_deref. Qed.

Lemma wp_cap_store p c (Q : unit -> st -> Prop) s :
  wp (store p c) Q s <->
  (exists c0, Pool s !! p = Some c0 /\ Q tt (set_pool <[p := c]> s)).
Proof. unfold store. by rewrite wp_bind, wp_cap_load. Qed.

Lemma wp_FreePool p (Q : unit -> st -> Prop) s :
  wp (FreePool p) Q s <->
  (exists c0, Pool s !! p = Some c0 /\ Q tt (set_pool (delete p) s)).
Proof. unfold FreePool. by rewrite wp_bind, wp_cap_load. Qed.

Lemma wp_cap_AllocatePool c (Q : option ptr -> st -> Prop) s :
  (forall w, Q None (set_env w s)) ->
  (forall w p, Pool s !! p = None -> Q (Some p) (set_pool <[p := c]> (set_env w s))) ->
  wp (AllocatePool c) Q s.
Proof.
  intros HN HS. unfold AllocatePool. rewrite wp_bind, wp_cap_env_call.
  destruct (pool_alloc (Env s)) as [[] w]; [|apply HN].
  apply HS. cbn. apply not_elem_of_dom, is_fresh.
Qed.
End services.

(** One step of symbolic execution of the library's code. *)
Ltac cap_step :=
  cbn beta; lazymatch goal with
  | |- wp (env_call _) _ _ => rewrite wp_cap_env_call
  | |- wp (load _) _ _ => rewrite wp_cap_load
  | |- wp (store _ _) _ _ => rewrite wp_cap_store
  | |- wp (FreePool _) _ _ => rewrite wp_FreePool
  | |- wp (deref _) _ _ => rewrite wp_deref
  | _ => wp_step
  end; cbn beta.

Section Insert.
Context {W : Type} {PE : PoolEnv W} {Dev : PciCapDev W}.
Context {OCK : OrderedCollection PCI_CAP_KEY ptr W ComparePciCapKey}.
Context {OCO : OrderedCollection Z ptr W ComparePciCapOffsetKey}.
Context {LK : OrderedCollectionLaws OCK} {LO : OrderedCollectionLaws OCO}.
Implicit Types s : st (W:=W).

Definition same_live s s' : Prop :=
  LiveLists s' = LiveLists s /\ LiveCollections s' = LiveCollections s.

(** The capability that inserting header [h] at address [p] adds. *)
Definition next_ghost (G : list ghost) (h : hdr) (p : ptr) : ghost :=
  mkGhost h (mkKey (h_dom h) (h_id h) (occ (h_dom h) (h_id h) (g_hdr <$> G))) p.

Lemma obj_ok_snoc G g g' c :
  obj_ok G g c ->
  (same (h_dom (g_hdr g)) (h_id (g_hdr g)) (g_hdr g') -> Instance_ (g_key g) <> 0) ->
  obj_ok (G ++ [g']) g c.
Proof.
  intros (HK & HO & HV & HU) Hne. split_and!; try done.
  destruct (NumInstancesUnion c) as [n|p0].
  - destruct HU as [Hi ->]. split; [done|].
    rewrite fmap_app; csimpl; rewrite occ_snoc, decide_False; [lia|]. intros Hs. by apply Hne.
  - destruct HU as [Hi (g0 & Hg0 & ?)]. split; [done|]. exists g0.
    rewrite elem_of_app. auto.
Qed.

Lemma RepC_perm base G C C' pool :
  oc_wf C' -> oc_entries C' ≡ₚ oc_entries C -> RepC base G C pool -> RepC base G C' pool.
Proof. intros Hwf Hp []. split; try done. by rewrite Hp. Qed.

Lemma rep_key_ptr base G C pool g1 g2 :
  RepC base G C pool -> g1 ∈ G -> g2 ∈ G -> g_key g1 = g_key g2 -> g_ptr g1 = g_ptr g2.
Proof.
  intros R H1 H2 E. apply (oc_entries_functional C (g_key g1)); [by destruct R|..].
  - rewrite (rep_C _ _ _ _ R), list_elem_of_fmap. eauto.
  - rewrite (rep_C _ _ _ _ R), list_elem_of_fmap. exists g2. by rewrite E.
Qed.

(** Linking the new object: [pool0] is the memory before it was allocated,
    [pool] the memory once instance 0 has been updated. *)
Lemma Rep_snoc base G C C' (O O' : oc OCO) pool0 pool h p c :
  Rep base G C O pool0 -> pool0 !! p = None -> hdr_ok h ->
  oc_wf C' -> oc_entries C' ≡ₚ (g_key (next_ghost G h p), p) :: oc_entries C ->
  oc_wf O' -> oc_entries O' ≡ₚ (h_off h, p) :: oc_entries O ->
  pool !! p = Some c -> obj_ok (G ++ [next_ghost G h p]) (next_ghost G h p) c ->
  (forall g, g ∈ G -> exists c, pool !! g_ptr g = Some c /\ obj_ok (G ++ [next_ghost G h p]) g c) ->
  (forall q, q ∉ g_ptr <$> G -> q <> p -> pool !! q = pool0 !! q) ->
  Rep base (G ++ [next_ghost G h p]) C' O' pool.
Proof.
  intros R Hp Hh HwC HC HwO HO Hc Hobj Hobjs Hbase. destruct R as [RC _ HEO].
  assert (p ∉ g_ptr <$> G) as Hpf.
  { intros (g & -> & Hg)%list_elem_of_fmap.
    destruct (rep_obj _ _ _ _ RC g Hg) as (? & ? & _). congruence. }
  split; [split|done|].
  - done.
  - rewrite HC, (rep_C _ _ _ _ RC), fmap_app. csimpl. apply Permutation_cons_append.
  - rewrite !fmap_app, (rep_key _ _ _ _ RC). cbn. by rewrite number_snoc.
  - rewrite Forall_app, Forall_singleton. split; [apply (rep_hdr _ _ _ _ RC)|done].
  - rewrite fmap_app, NoDup_app. split; [apply (rep_nodup _ _ _ _ RC)|].
    split; [|apply NoDup_singleton]. intros x Hx ->%list_elem_of_singleton. done.
  - intros g [Hg| ->%list_elem_of_singleton]%elem_of_app; eauto.
  - intros g [Hg| ->%list_elem_of_singleton]%elem_of_app; [by eapply rep_fresh|].
    rewrite <-(rep_base _ _ _ _ RC) by done. done.
  - intros q. rewrite fmap_app. csimpl. rewrite not_elem_of_app, not_elem_of_cons. intros [Hq [Hqp _]].
    rewrite Hbase by done. by eapply rep_base.
  - rewrite HO, HEO, fmap_app. csimpl. apply Permutation_cons_append.
Qed.

(** Result of an insertion: either [h] has been appended, or nothing
    changed. *)
Definition insert_post (base : gmap ptr PCI_CAP) (G : list ghost) (h : hdr) s (r : insert_out (OCK:=OCK) (OCO:=OCO)) s' : Prop :=
  let '(Status, C, Of) := r in
  same_live s s' /\
  ((Status = EFI_SUCCESS /\ (h_off h ∉ g_off <$> G) /\
    exists p, Rep base (G ++ [next_ghost G h p]) C Of (Pool s')) \/
   (Rep base G C Of (Pool s') /\
    (Status = EFI_OUT_OF_RESOURCES \/
     Status = EFI_DEVICE_ERROR /\ (h_off h ∈ g_off <$> G)))).

Definition new_obj (G : list ghost) (h : hdr) (p0 : option ptr) : PCI_CAP :=
  mkCap (mkKey (h_dom h) (h_id h) (occ (h_dom h) (h_id h) (g_hdr <$> G)))
        (match p0 with None => NumInstances 1 | Some p => InstanceZero p end)
        (h_off h) 0 (h_ver h).

(** [None] when [h] is the first of its kind, the address of instance 0
    otherwise. *)
Definition inst0_ok (G : list ghost) (h : hdr) (p0 : option ptr) : Prop :=
  let n := occ (h_dom h) (h_id h) (g_hdr <$> G) in
  match p0 with
  | None => n = 0
  | Some p0 => 0 < n /\ exists g0, g0 ∈ G /\ g_ptr g0 = p0 /\
                                   g_key g0 = mkKey (h_dom h) (h_id h) 0
  end.

Lemma new_obj_ok G h p0 p :
  inst0_ok G h p0 -> obj_ok (G ++ [next_ghost G h p]) (next_ghost G h p) (new_obj G h p0).
Proof.
  unfold inst0_ok. intros Hi. split_and!; try done. cbn. destruct p0 as [p0|].
  - destruct Hi as [Hn (g0 & Hg0 & Hp & Hk)]. split; [done|]. exists g0.
    rewrite elem_of_app. auto.
  - rewrite Hi. split; [done|]. rewrite fmap_app. csimpl. by rewrite occ_snoc_same, Hi.
Qed.

Lemma NoDup_fmap_ptr (G : list ghost) g1 g2 :
  NoDup (g_ptr <$> G) -> g1 ∈ G -> g2 ∈ G -> g_ptr g1 = g_ptr g2 -> g1 = g2.
Proof.
  induction G as [|g G IH]; [by intros _ ?%elem_of_nil|]. csimpl.
  intros [Hni Hnd]%NoDup_cons [->|H1]%elem_of_cons [->|H2]%elem_of_cons E; [done| | |auto].
  - destruct Hni. rewrite E. apply list_elem_of_fmap. eauto.
  - destruct Hni. rewrite <-E. apply list_elem_of_fmap. eauto.
Qed.

Lemma bump_spec base G C Of pool0 h p0 s :
  Rep base G C Of pool0 -> Pool s !! p0 = pool0 !! p0 -> inst0_ok G h (Some p0) ->
  wp (BumpNumInstances p0) (fun _ s' => same_live s s' /\
    exists c, Pool s' = <[p0 := c]> (Pool s) /\
    forall g0 p, g0 ∈ G -> g_ptr g0 = p0 -> obj_ok (G ++ [next_ghost G h p]) g0 c) s.
Proof.
  intros R Hs [Hn (g0 & Hg0 & <- & Hk)]. unfold BumpNumInstances.
  pose proof (rep_RepC _ _ _ _ _ R) as RC.
  destruct (rep_obj _ _ _ _ RC g0 Hg0) as (c & Hc & HK & HO & HV & HU).
  repeat cap_step. exists c. split; [congruence|].
  destruct (rep_domain _ _ _ _ g0 RC Hg0) as (Hd & Hid & _). rewrite Hk in Hd, Hid. cbn in Hd, Hid.
  destruct (NumInstancesUnion c) as [n|p1]; [|rewrite Hk in HU; cbn in HU; lia].
  destruct HU as [_ ->]. repeat cap_step. exists c. split; [congruence|].
  split; [done|]. eexists. split; [done|]. intros g1 p Hg1 Hp.
  assert (g1 = g0) as ->.
  { apply (NoDup_fmap_ptr G); [by destruct RC|done..]. }
  split_and!; try done. cbn. rewrite fmap_app. csimpl. rewrite <-Hd, <-Hid, occ_snoc_same, Hk.
  split; [done|]. apply Z.mod_small.
  pose proof (rep_length _ _ _ _ _ R). pose proof (occ_le (h_dom h) (h_id h) (g_hdr <$> G)) as Hle.
  rewrite length_fmap in Hle. lia.
Qed.

(** The count update (or nothing, for a first instance) completes the
    insertion. *)
Lemma link_count base G C C' Of Of' s w pool0 h p p0 :
  Rep base G C Of pool0 -> pool0 !! p = None -> hdr_ok h -> inst0_ok G h p0 ->
  oc_wf C' -> oc_entries C' ≡ₚ (g_key (next_ghost G h p), p) :: oc_entries C ->
  oc_wf Of' -> oc_entries Of' ≡ₚ (h_off h, p) :: oc_entries Of ->
  Pool s = <[p := new_obj G h p0]> pool0 ->
  wp (if 0 <? occ (h_dom h) (h_id h) (g_hdr <$> G)
      then Inst0 ← deref p0; BumpNumInstances Inst0 else mret tt)
     (fun _ s' => same_live s s' /\ Rep base (G ++ [next_ghost G h p]) C' Of' (Pool s'))
     (set_env w s).
Proof.
  intros R Hp Hh Hi0 HwC HC HwO HO Hs. pose proof (rep_RepC _ _ _ _ _ R) as RC.
  assert (forall g, g ∈ G -> g_ptr g <> p) as Hne.
  { intros g Hg <-. destruct (rep_obj _ _ _ _ RC g Hg) as (? & ? & _). congruence. }
  assert (forall g c, g ∈ G -> obj_ok G g c -> g_key g <> mkKey (h_dom h) (h_id h) 0 ->
            obj_ok (G ++ [next_ghost G h p]) g c) as Hkeep.
  { intros g c Hg Hok Hk. apply obj_ok_snoc; [done|]. intros [E1 E2] Hi. apply Hk.
    destruct (rep_domain _ _ _ _ g RC Hg) as (? & ? & _). destruct (g_key g). cbn in *. congruence. }
  pose proof (new_obj_ok G h p0 p Hi0) as Hnew. destruct p0 as [p0|].
  - pose proof Hi0 as [Hn (g0 & Hg0 & <- & Hk0)].
    rewrite (proj2 (Z.ltb_lt _ _) Hn). repeat cap_step. eexists; split; [done|].
    eapply wp_mono.
    { eapply (bump_spec _ _ _ _ _ _ (g_ptr g0) _ R); [|done].
      cbn. by rewrite Hs, lookup_insert_ne by (by apply not_eq_sym, Hne). }
    intros [] s' [Hl (c & Hc & Hobj)]. split; [done|]. rewrite Hc. cbn.
    eapply (Rep_snoc _ _ C _ Of _ pool0); try done.
    + by rewrite lookup_insert_ne, Hs, lookup_insert_eq by (by apply Hne).
    + intros g Hg. destruct (decide (g_ptr g = g_ptr g0)) as [E|E].
      { exists c. rewrite E, lookup_insert_eq. eauto. }
      destruct (rep_obj _ _ _ _ RC g Hg) as (c1 & Hc1 & Hok). exists c1.
      rewrite lookup_insert_ne, Hs, lookup_insert_ne by (done || (by apply not_eq_sym, Hne)).
      split; [done|]. apply Hkeep; [done..|]. rewrite <-Hk0. intros Ek. apply E.
      by eapply rep_key_ptr.
    + intros q Hq Hqp. rewrite lookup_insert_ne, Hs, lookup_insert_ne; try done.
      intros <-. apply Hq, list_elem_of_fmap. eauto.
  - pose proof Hi0 as Hn. cbn in Hn. rewrite Hn, Z.ltb_irrefl. cap_step.
    split; [done|]. cbn. rewrite Hs.
    eapply (Rep_snoc _ _ C _ Of _ pool0); try done.
    + by rewrite lookup_insert_eq.
    + intros g Hg. destruct (rep_obj _ _ _ _ RC g Hg) as (c1 & Hc1 & Hok). exists c1.
      rewrite lookup_insert_ne by (by apply not_eq_sym, Hne). split; [done|].
      apply Hkeep; [done..|]. intros Ek. destruct (rep_domain _ _ _ _ g RC Hg) as (Hd & Hi & Hr).
      rewrite Ek in Hd, Hi. cbn in Hd, Hi. rewrite <-Hd, <-Hi in Hr. lia.
    + intros q Hq Hqp. by rewrite lookup_insert_ne.
Qed.

Lemma link_spec base G C C' Of s pool0 h p p0 :
  Rep base G C Of pool0 -> pool0 !! p = None -> hdr_ok h -> inst0_ok G h p0 ->
  oc_wf C' -> oc_entries C' ≡ₚ (g_key (next_ghost G h p), p) :: oc_entries C ->
  Pool s = <[p := new_obj G h p0]> pool0 ->
  wp (LinkPciCap p p0 EFI_SUCCESS C' Of) (insert_post base G h s) s.
Proof.
  intros R Hp Hh Hi0 HwC HC Hs. unfold LinkPciCap. pose proof (rep_RepC _ _ _ _ _ R) as RC.
  repeat cap_step; [done|]. exists (new_obj G h p0). split; [by rewrite Hs, lookup_insert_eq|].
  unfold InsertM. repeat cap_step. cbn [Offset new_obj Key].
  destruct (oc_insert (Env s) Of (h_off h) p) as [[r Of'] w] eqn:EI.
  destruct (decide (h_off h ∈ g_off <$> G)) as [Hin|Hni].
  - (* loop in the list *)
    apply list_elem_of_fmap in Hin as Hin'. destruct Hin' as (g & Eg & Hg).
    apply (oc_insert_present _ _ _ _ (g_ptr g)) in EI as [-> Hr];
      [|by destruct R|rewrite (rep_O _ _ _ _ _ R), list_elem_of_fmap; exists g; by rewrite Eg].
    assert (EFI_ERROR (insert_status r) = true) as -> by by destruct Hr as [-> | ->].
    unfold FreePciCap. repeat cap_step. eexists. split; [cbn; by rewrite Hs, lookup_insert_eq|].
    repeat cap_step. split; [done|]. right. split.
    + cbn. rewrite Hs, delete_insert_id by done.
      destruct (oc_delete_insert C C' _ _ (rep_wfC _ _ _ _ RC) HwC HC).
      destruct R. split; [by eapply RepC_perm|done|done].
    + destruct Hr as [-> | ->]; cbn; auto.
  - apply oc_insert_absent in EI as [HwO [[-> HO]|[-> ->]]];
      [| |by destruct R|by rewrite (rep_O _ _ _ _ _ R), <-list_fmap_compose].
    + cbn [insert_status]. change (EFI_ERROR EFI_SUCCESS) with false. cbn iota.
      cap_step. eapply wp_mono; [by eapply link_count|].
      intros [] s' [Hl HR]. cap_step. split; [done|]. left. eauto.
    + cbn [insert_status]. change (EFI_ERROR EFI_OUT_OF_RESOURCES) with true. cbn iota.
      unfold FreePciCap. repeat cap_step. eexists. split; [cbn; by rewrite Hs, lookup_insert_eq|].
      repeat cap_step. split; [done|]. right. split; [|by left].
      cbn. rewrite Hs, delete_insert_id by done.
      destruct (oc_delete_insert C C' _ _ (rep_wfC _ _ _ _ RC) HwC HC).
      destruct R. split; [by eapply RepC_perm|done|done].
Qed.

Lemma land3 x : Z.land x 3 = x mod 4.
Proof. by apply (Z.land_ones x 2). Qed.

(** First and second insertion into CapList->Capabilities, then linking. *)
Lemma InsertPciCap_spec base G C Of s h :
  Rep base G C Of (Pool s) -> hdr_ok h -> (h_dom h = PciCapExtended \/ h_ver h = 0) ->
  wp (InsertPciCap C Of (h_dom h) (h_id h) (h_off h) (h_ver h)) (insert_post base G h s) s.
Proof.
  intros R Hh Hv. unfold InsertPciCap. pose proof (rep_RepC _ _ _ _ _ R) as RC.
  pose proof Hh as [Hr Ha]. cap_step. cap_step; [by rewrite land3, Ha|].
  cap_step. cap_step; [lia|]. cap_step. cap_step; [destruct Hv as [-> | ->]; [done|by rewrite orb_true_r]|].
  cap_step. apply wp_cap_AllocatePool.
  { intros w. cap_step. split; [done|]. auto. }
  intros w p Hp. unfold InsertM. repeat cap_step. cbn [Env set_env set_pool].
  destruct (oc_insert w C (mkKey (h_dom h) (h_id h) 0) p) as [[r C'] w'] eqn:EI.
  assert (p ∉ g_ptr <$> G) as Hpf.
  { intros (g & -> & Hg)%list_elem_of_fmap.
    destruct (rep_obj _ _ _ _ RC g Hg) as (? & ? & _). congruence. }
  assert (forall c s0, Pool s0 = <[p := c]> (Pool s) -> same_live s s0 ->
    wp (FreePciCap p EFI_OUT_OF_RESOURCES C Of) (insert_post base G h s) s0) as Hfree.
  { intros c s0 Hs0 Hl. unfold FreePciCap. repeat cap_step. exists c.
    split; [by rewrite Hs0, lookup_insert_eq|]. repeat cap_step. split; [done|]. right.
    cbn. rewrite Hs0, delete_insert_id by done. auto. }
  assert (forall k, (k ∈ (oc_entries C).*1) <-> (k ∈ number (g_hdr <$> G))) as Hkeys.
  { intros k. rewrite <-(rep_key _ _ _ _ RC), (rep_C _ _ _ _ RC), <-list_fmap_compose. done. }
  destruct (decide (occ (h_dom h) (h_id h) (g_hdr <$> G) = 0)) as [Hocc|Hocc].
  - apply oc_insert_absent in EI as [HwC [[-> HC]|[-> ->]]]; [| |by destruct RC|].
    + eapply wp_mono; [eapply (link_spec base G C C' Of _ (Pool s) h p None); try done|].
      * by cbn; rewrite Hocc.
      * cbn. unfold new_obj. by rewrite Hocc.
      * intros [[]] s'. cbn. intros [? ?]. done.
    + by eapply Hfree.
    + rewrite Hkeys, in_number. lia.
  - pose proof (occ_nonneg (h_dom h) (h_id h) (g_hdr <$> G)) as Hnn.
    assert (mkKey (h_dom h) (h_id h) 0 ∈ g_key <$> G) as (g0 & Hk0 & Hg0)%list_elem_of_fmap.
    { rewrite (rep_key _ _ _ _ RC), in_number. lia. }
    apply (oc_insert_present _ _ _ _ (g_ptr g0)) in EI as [-> [-> | ->]];
      [|by eapply Hfree|by destruct RC|rewrite (rep_C _ _ _ _ RC), list_elem_of_fmap; exists g0; by rewrite Hk0].
    destruct (rep_obj _ _ _ _ RC g0 Hg0) as (c & Hc & HK & HO & HV & HU).
    assert (g_ptr g0 <> p) as Hne by (intros <-; congruence).
    repeat cap_step. exists c. split; [cbn; by rewrite lookup_insert_ne|].
    rewrite <-Hk0 in HU. cbn in HU. destruct (NumInstancesUnion c) as [n|]; [|lia].
    destruct HU as [_ ->].
    destruct (rep_domain _ _ _ _ g0 RC Hg0) as (Hd & Hi & _).
    rewrite <-Hk0 in Hd, Hi. cbn in Hd, Hi. rewrite <-Hd, <-Hi.
    repeat cap_step. eexists. split; [cbn; by rewrite lookup_insert_eq|].
    repeat cap_step; [lia|]. repeat cap_step. cbn [Env set_env set_pool].
    destruct (oc_insert w' C _ p) as [[r1 C1] w1] eqn:EI1.
    apply oc_insert_absent in EI1 as [HwC [[-> HC]|[-> ->]]]; [| |by destruct RC|].
    + cbn [insert_status]. change (EFI_SUCCESS =? EFI_OUT_OF_RESOURCES) with false. cbn iota.
      eapply wp_mono; [eapply (link_spec base G C C1 Of _ (Pool s) h p (Some (g_ptr g0))); try done|].
      * split; [lia|]. eauto.
      * cbn. by rewrite insert_insert_eq.
      * intros [[]] s'. cbn. intros [? ?]. done.
    + cbn [insert_status]. change (EFI_OUT_OF_RESOURCES =? EFI_OUT_OF_RESOURCES) with true. cbn iota.
      eapply Hfree; [cbn; by rewrite insert_insert_eq|done].
    + rewrite Hkeys, in_number. lia.
Qed.
End Insert.

(** ** The chains in config space

    [device_answers off n st bs]: the device may answer a read of [n] bytes at
    [off] with status [st] and buffer [bs].  The chains below follow the list
    pointers through such answers. *)
Section Chains.
Context {W : Type} {Dev : PciCapDev W}.

Definition device_answers (off n : Z) (st : EFI_STATUS) (bs : list Z) : Prop :=
  exists w w', ReadConfig w off n = (st, bs, w').

Definition normal_hdr (off : Z) (bs : list Z) : hdr :=
  mkHdr PciCapNormal (CapabilityID (decode_normal bs)) off 0.
Definition extended_hdr (off : Z) (bs : list Z) : hdr :=
  mkHdr PciCapExtended (u16 (CapabilityId (decode_extended bs))) off
        (u8 (CapabilityVersion (decode_extended bs))).

(** From header offset [off], the headers [L], then offset [e]. *)
Inductive normal_chain : Z -> list hdr -> Z -> Prop :=
  | normal_nil off : normal_chain off [] off
  | normal_cons off st bs L e :
      0 < off -> device_answers off 2 st bs -> EFI_ERROR st = false ->
      normal_chain (Z.land (NextItemPtr (decode_normal bs)) 0xFC) L e ->
      normal_chain off (normal_hdr off bs :: L) e.

Inductive extended_chain : Z -> list hdr -> Z -> Prop :=
  | extended_nil off : extended_chain off [] off
  | extended_cons off st bs L e :
      0 < off -> device_answers off 4 st bs -> EFI_ERROR st = false ->
      extended_chain (Z.land (NextCapabilityOffset (decode_extended bs)) 0xFFC) L e ->
      extended_chain off (extended_hdr off bs :: L) e.

(** The extended list ends at offset 0, or where the header at 0x100 cannot
    be read or is all zero (no extended capabilities). *)
Definition extended_end (e : Z) : Prop :=
  e = 0 \/
  e = PCI_MAX_CONFIG_OFFSET /\
  exists st bs, device_answers PCI_MAX_CONFIG_OFFSET 4 st bs /\
                (EFI_ERROR st = true \/ IsZeroBuffer bs = true).

Definition extended_list (off : Z) (L : list hdr) : Prop :=
  exists e, extended_chain off L e /\ extended_end e.

Definition is_express (L : list hdr) : bool :=
  existsb (fun h => h_id h =? EFI_PCI_CAPABILITY_ID_PCIEXP) L.

Definition normal_list (L : list hdr) : Prop :=
  exists st bs, device_answers PCI_PRIMARY_STATUS_OFFSET 2 st bs /\ EFI_ERROR st = false /\
  if negb (Z.land (le_combine bs) EFI_PCI_STATUS_CAPABILITY =? 0) then
    exists st' bs', device_answers PCI_CAPBILITY_POINTER_OFFSET 1 st' bs' /\
      EFI_ERROR st' = false /\ normal_chain (Z.land (le_combine bs') 0xFC) L 0
  else L = [].

(** All the capabilities of the device, in traversal order. *)
Definition capability_list (L : list hdr) : Prop :=
  exists Ln Le, L = Ln ++ Le /\ normal_list Ln /\
  if is_express Ln then extended_list PCI_MAX_CONFIG_OFFSET Le else Le = [].

End Chains.

(** Masked header pointers: dword aligned and inside their config space. *)
Lemma land_aligned m x :
  2 <= m -> Z.land x (Z.land (Z.ones m) (Z.lnot (Z.ones 2))) = x mod 2 ^ m / 4 * 4.
Proof.
  intros. rewrite Z.land_assoc, Z.land_ones, <-Z.ldiff_land, Z.ldiff_ones_r by lia.
  by rewrite Z.shiftl_mul_pow2, Z.shiftr_div_pow2 by lia.
Qed.

Lemma land_0xFC x : 0 <= Z.land x 0xFC <= 0xFC /\ Z.land x 0xFC mod 4 = 0.
Proof.
  pose proof (land_aligned 8 x ltac:(lia)) as E. change (Z.land (Z.ones 8) _) with 0xFC in E.
  rewrite E. lia_div.
Qed.

Lemma land_0xFFC x : 0 <= Z.land x 0xFFC <= 0xFFC /\ Z.land x 0xFFC mod 4 = 0.
Proof.
  pose proof (land_aligned 12 x ltac:(lia)) as E. change (Z.land (Z.ones 12) _) with 0xFFC in E.
  rewrite E. lia_div.
Qed.

(** ** The two list walks terminate and build the representation *)
Section Walks.
Context {W : Type} {PE : PoolEnv W} {Dev : PciCapDev W}.
Context {OCK : OrderedCollection PCI_CAP_KEY ptr W ComparePciCapKey}.
Context {OCO : OrderedCollection Z ptr W ComparePciCapOffsetKey}.
Context {LK : OrderedCollectionLaws OCK} {LO : OrderedCollectionLaws OCO}.
Implicit Types s : st (W:=W).

Lemma wp_ReadConfigM off n (Q : EFI_STATUS * list Z -> st -> Prop) s :
  (forall st bs w, device_answers off n st bs -> Q (st, bs) (set_env w s)) ->
  wp (ReadConfigM off n) Q s.
Proof.
  intros HQ. unfold ReadConfigM. rewrite wp_cap_env_call.
  destruct (ReadConfig (Env s) off n) as [[st bs] w] eqn:E. apply HQ. by exists (Env s), w.
Qed.

Lemma insert_error base G h s Status C Of s' :
  insert_post (OCK:=OCK) (OCO:=OCO) base G h s (Status, C, Of) s' ->
  same_live s s' /\
  (EFI_ERROR Status = true /\ Rep base G C Of (Pool s') \/
   EFI_ERROR Status = false /\ exists p, Rep base (G ++ [next_ghost G h p]) C Of (Pool s')).
Proof.
  intros [Hl [(-> & _ & Hp)|[R [-> | [-> _]]]]]; split; auto.
Qed.

Definition walk_post (base : gmap ptr PCI_CAP) (G : list ghost) (s : st (W:=W)) (chain : list hdr -> Prop)
    (r : insert_out (OCK:=OCK) (OCO:=OCO)) (s' : st (W:=W)) : Prop :=
  let '(Status, C, Of) := r in
  same_live s s' /\ exists G',
    Rep base (G ++ G') C Of (Pool s') /\
    (EFI_ERROR Status = true \/ Status = EFI_SUCCESS /\ chain (g_hdr <$> G')).

Lemma walk_post_stop base G s s' C Of Status (chain : list hdr -> Prop) :
  Rep base G C Of (Pool s') -> same_live s s' ->
  (EFI_ERROR Status = true \/ Status = EFI_SUCCESS /\ chain []) ->
  walk_post base G s chain (Status, C, Of) s'.
Proof. intros R Hl HS. split; [done|]. exists []. by rewrite app_nil_r. Qed.

Lemma walk_post_cons base G g s s1 s' (chain chain' : list hdr -> Prop) r :
  same_live s s1 -> (forall L, chain' L -> chain (g_hdr g :: L)) ->
  walk_post base (G ++ [g]) s1 chain' r s' -> walk_post base G s chain r s'.
Proof.
  destruct r as [[Status C] Of]. intros [H1 H2] Hc [[H3 H4] (G' & R & HS)].
  split; [split; congruence|]. exists (g :: G'). rewrite <-(assoc_L (++)) in R. split; [done|].
  destruct HS as [?|[? ?]]; [by left|right; split; [done|]]. csimpl. auto.
Qed.

Lemma NormalCapWalk_spec base fuel : forall off ex G C Of s,
  Rep base G C Of (Pool s) -> 0 <= off <= 0xFC -> off mod 4 = 0 ->
  1026 <= Z.of_nat fuel + Z.of_nat (length G) ->
  wp (NormalCapWalk fuel off ex C Of) (fun r s' =>
    walk_post base G s (fun L => normal_chain off L 0 /\ r.2 = ex || is_express L) r.1 s') s.
Proof.
  induction fuel as [|fuel IH]; intros off ex G C Of s R Hr Ha Hf.
  { pose proof (rep_length _ _ _ _ _ R). lia. }
  cbn [NormalCapWalk]. destruct (Z.ltb_spec 0 off) as [Hpos|Hz].
  2:{ replace off with 0 by lia. cap_step. apply walk_post_stop; [done..|].
      right. split; [done|]. split; [constructor|]. by rewrite orb_false_r. }
  cap_step. apply wp_ReadConfigM. intros st bs w Hans.
  destruct (EFI_ERROR st) eqn:Hst.
  { cap_step. apply walk_post_stop; auto. done. }
  repeat cap_step. eapply wp_mono.
  { apply (InsertPciCap_spec base G C Of _ (normal_hdr off bs)); [done| |by right].
    split; [cbn; unfold PCI_MAX_CONFIG_OFFSET; lia|done]. }
  intros [[Status C1] Of1] s1 Hp. apply insert_error in Hp as [Hl [[HE R1]|[HE [p R1]]]]; rewrite HE.
  { cap_step. apply walk_post_stop; auto. }
  destruct (land_0xFC (NextItemPtr (decode_normal bs))) as [Hr' Ha'].
  eapply wp_mono; [apply (IH _ _ _ _ _ _ R1 Hr' Ha')|].
  { rewrite length_app. cbn. lia. }
  intros [r ex'] s2. cbn [fst snd]. apply walk_post_cons; [done|].
  intros L [HC HX]. cbn. split; [by econstructor|]. cbn [existsb h_id normal_hdr].
  destruct (_ =? EFI_PCI_CAPABILITY_ID_PCIEXP); rewrite HX; cbn; [by rewrite orb_true_r|done].
Qed.

Lemma ExtendedCapWalk_spec base fuel : forall off G C Of s,
  Rep base G C Of (Pool s) -> (off = 0 \/ 0x100 <= off <= 0xFFC) -> off mod 4 = 0 ->
  1026 <= Z.of_nat fuel + Z.of_nat (length G) ->
  wp (ExtendedCapWalk fuel off C Of) (walk_post base G s (extended_list off)) s.
Proof.
  induction fuel as [|fuel IH]; intros off G C Of s R Hr Ha Hf.
  { pose proof (rep_length _ _ _ _ _ R). lia. }
  cbn [ExtendedCapWalk]. destruct (Z.ltb_spec 0 off) as [Hpos|Hz].
  2:{ replace off with 0 by lia. cap_step. apply walk_post_stop; [done..|].
      right. split; [done|]. exists 0. split; [constructor|by left]. }
  cap_step. apply wp_ReadConfigM. intros st bs w Hans.
  destruct ((off =? PCI_MAX_CONFIG_OFFSET) && (EFI_ERROR st || IsZeroBuffer bs)) eqn:Hz.
  { apply andb_true_iff in Hz as [->%Z.eqb_eq Hz%orb_true_iff].
    cap_step. apply walk_post_stop; [done..|]. right. split; [done|].
    eexists. split; [constructor|]. right. eauto. }
  clear Hz. destruct (EFI_ERROR st) eqn:Hst; [cap_step; apply walk_post_stop; auto; done|].
  repeat cap_step. eapply wp_mono.
  { apply (InsertPciCap_spec base G C Of _ (extended_hdr off bs)); [done| |by left].
    split; [cbn; unfold PCI_EXP_MAX_CONFIG_OFFSET; lia|done]. }
  intros [[Status C1] Of1] s1 Hp. apply insert_error in Hp as [Hl [[HE R1]|[HE [p R1]]]]; rewrite HE.
  { cap_step. apply walk_post_stop; auto. }
  destruct (land_0xFFC (NextCapabilityOffset (decode_extended bs))) as [Hr' Ha'].
  cbv zeta. set (next := Z.land (NextCapabilityOffset (decode_extended bs)) 0xFFC) in *.
  destruct ((0 <? next) && (next <? PCI_MAX_CONFIG_OFFSET)) eqn:Hn.
  { cap_step. split; [done|]. eexists. split; [exact R1|by left]. }
  apply andb_false_iff in Hn. unfold PCI_MAX_CONFIG_OFFSET in Hn.
  eapply wp_mono; [apply (IH next _ _ _ _ R1); [lia|done|rewrite length_app; cbn; lia]|].
  intros r s2. apply walk_post_cons; [done|]. intros L (e & HL & He).
  exists e. split; [|done]. by econstructor.
Qed.
End Walks.

(** ** Tear-down and size hints *)
Section Hints.
Context {W : Type} {PE : PoolEnv W} {Dev : PciCapDev W}.
Context {OCK : OrderedCollection PCI_CAP_KEY ptr W ComparePciCapKey}.
Context {OCO : OrderedCollection Z ptr W ComparePciCapOffsetKey}.
Context {LK : OrderedCollectionLaws OCK} {LO : OrderedCollectionLaws OCO}.
Implicit Types s : st (W:=W).

(** Deleting the first entry of a traversal leaves the rest of it. *)
Lemma delete_head {K cmp} (OC : OrderedCollection K ptr W cmp) {L : OrderedCollectionLaws OC}
    (c : oc OC) k p l :
  oc_wf c -> oc_entries c = (k, p) :: l ->
  oc_wf (oc_delete c k) /\ oc_entries (oc_delete c k) = l.
Proof.
  intros Hwf E. destruct (oc_delete_spec c k Hwf) as [Hd He]. split; [done|].
  rewrite He, E, filter_cons_False by (cbn; rewrite cmp_refl; lia).
  pose proof (oc_keys_NoDup c Hwf) as Hnd. rewrite E in Hnd. csimpl in Hnd.
  apply NoDup_cons in Hnd as [Hni _]. clear -Hni L. induction l as [|[k1 p1] l IH]; [done|].
  csimpl in Hni. apply not_elem_of_cons in Hni as [Hne Hni].
  rewrite filter_cons_True by (cbn; rewrite cmp_eq; done). by rewrite IH.
Qed.

Lemma EmptyCollection_keep {K cmp} (OC : OrderedCollection K ptr W cmp) {L : OrderedCollectionLaws OC}
    l (c : oc OC) s :
  oc_wf c -> oc_entries c = l ->
  wp (EmptyCollection c l false) (fun c' s' => s' = s /\ oc_entries c' = []) s.
Proof.
  revert c. induction l as [|[k p] l IH]; intros c Hwf E; cbn [EmptyCollection].
  - cap_step. by split.
  - destruct (delete_head OC c k p l Hwf E). repeat cap_step. by apply IH.
Qed.

Lemma EmptyCollection_free {K cmp} (OC : OrderedCollection K ptr W cmp) {L : OrderedCollectionLaws OC}
    l (c : oc OC) s :
  oc_wf c -> oc_entries c = l -> NoDup l.*2 -> (forall p, p ∈ l.*2 -> is_Some (Pool s !! p)) ->
  wp (EmptyCollection c l true) (fun c' s' =>
    same_live s s' /\ oc_entries c' = [] /\
    forall p, Pool s' !! p = if decide (p ∈ l.*2) then None else Pool s !! p) s.
Proof.
  revert c s. induction l as [|[k p] l IH]; intros c s Hwf E Hnd HP; cbn [EmptyCollection].
  - cap_step. by split_and!.
  - destruct (delete_head OC c k p l Hwf E) as [Hwf' E']. csimpl in *.
    apply NoDup_cons in Hnd as [Hni Hnd].
    destruct (HP p ltac:(by left)) as [x Hx].
    repeat cap_step. exists x. split; [done|]. eapply wp_mono.
    { apply (IH _ (set_pool (delete p) s) Hwf' E' Hnd). intros q Hq. cbn.
      rewrite lookup_delete_ne by (intros ->; done). apply HP. by right. }
    intros c' s' (Hl & He & HPool). split_and!; [by destruct Hl|done|]. intros q. rewrite HPool. cbn.
    destruct (decide (q = p)) as [->|Hne].
    + rewrite lookup_delete_eq. rewrite (decide_True (P:= p ∈ p :: l.*2)) by (by left).
      by case_decide.
    + rewrite lookup_delete_ne by done. repeat case_decide; try done; exfalso;
        rewrite elem_of_cons in *; tauto.
Qed.

Lemma wp_Uninit {K cmp} (OC : OrderedCollection K ptr W cmp) (c : oc OC) (Q : unit -> st -> Prop) s :
  oc_entries c = [] -> Q tt (add_collections (-1) s) -> wp (OrderedCollectionUninit c) Q s.
Proof.
  intros E HQ. unfold OrderedCollectionUninit. rewrite E. by repeat cap_step.
Qed.

Lemma wp_EmptyKeep {K cmp} (OC : OrderedCollection K ptr W cmp) {L : OrderedCollectionLaws OC}
    (c : oc OC) (Q : unit -> st -> Prop) s :
  oc_wf c -> Q tt (add_collections (-1) s) ->
  wp (EmptyAndUninitPciCapCollection c false) Q s.
Proof.
  intros Hwf HQ. unfold EmptyAndUninitPciCapCollection. cap_step.
  eapply wp_mono; [by apply EmptyCollection_keep|]. intros c' s' [-> He]. by apply wp_Uninit.
Qed.

(** The hint for a header at offset [o] of domain [d], given the next
    header's offset. *)
Definition hint_of (d : PCI_CAP_DOMAIN) (o : Z) (next : option Z) : Z :=
  let size := ConfigSpaceSize d in
  match next with
  | None => size - o
  | Some n => if size <=? n then size - o else n - o
  end.

Definition set_hint (c : PCI_CAP) (h : Z) : PCI_CAP :=
  mkCap (Key c) (NumInstancesUnion c) (Offset c) h (Version c).

Lemma RepC_set_hint base G C pool p c h :
  RepC (W:=W) (OCK:=OCK) base G C pool -> p ∈ g_ptr <$> G -> pool !! p = Some c ->
  RepC base G C (<[p := set_hint c h]> pool).
Proof.
  intros R Hp Hc. destruct R. split; try done.
  - intros g Hg. destruct (rep_obj0 g Hg) as (c0 & Hc0 & Hok).
    destruct (decide (g_ptr g = p)) as [<-|Hne].
    + exists (set_hint c h). rewrite lookup_insert_eq. split; [done|].
      by simplify_eq.
    + exists c0. by rewrite lookup_insert_ne.
  - intros q Hq. rewrite lookup_insert_ne by (by intros ->). auto.
Qed.

Lemma CalculateHint_spec base G C s g next :
  RepC base G C (Pool s) -> g ∈ G ->
  match next with
  | None => True
  | Some g' => g' ∈ G /\ g_off g < g_off g'
  end ->
  wp (CalculatePciCapMaxSizeHint (g_ptr g) (g_ptr <$> next)) (fun _ s' => same_live s s' /\
    exists c, Pool s !! g_ptr g = Some c /\
      Pool s' = <[g_ptr g := set_hint c (hint_of (h_dom (g_hdr g)) (g_off g) (g_off <$> next))]> (Pool s)) s.
Proof.
  intros R Hg Hn. destruct (rep_obj _ _ _ _ R g Hg) as (c & Hc & HK & HO & _).
  destruct (rep_domain _ _ _ _ g R Hg) as (Hd & _).
  pose proof (rep_hdr _ _ _ _ R) as Hh. rewrite Forall_forall in Hh.
  destruct (Hh g Hg) as [Hr _]. fold (g_off g) in Hr.
  unfold CalculatePciCapMaxSizeHint. cap_step. cap_step. exists c. split; [done|]. cbv zeta.
  rewrite HK, Hd. destruct next as [g'|]; cbn [fmap option_fmap option_map].
  - destruct Hn as [Hg' Hlt]. destruct (rep_obj _ _ _ _ R g' Hg') as (c' & Hc' & _ & HO' & _).
    cap_step. cap_step. exists c'. split; [done|].
    do 4 (cap_step; try lia). cbn [hint_of].
    pose proof (Zle_cases (ConfigSpaceSize (h_dom (g_hdr g))) (g_off g')) as Hle.
    rewrite HO'. destruct (_ <=? g_off g');
    repeat cap_step; exists c; (split; [done|]); split; try done; exists c; (split; [done|]);
      cbn; unfold set_hint; rewrite HK, !HO; repeat f_equal; apply Z.mod_small;
      destruct (h_dom (g_hdr g)); cbn in *; unfold PCI_MAX_CONFIG_OFFSET, PCI_EXP_MAX_CONFIG_OFFSET in *; lia.
  - repeat cap_step; [lia|]. exists c. split; [done|]. split; [done|]. exists c. split; [done|].
    cbn. unfold set_hint. rewrite HK, !HO. repeat f_equal. apply Z.mod_small.
    destruct (h_dom (g_hdr g)); cbn in *; unfold PCI_MAX_CONFIG_OFFSET, PCI_EXP_MAX_CONFIG_OFFSET in *; lia.
Qed.
End Hints.

(** ** PciCapListInit *)
Section ListInit.
Context {W : Type} {PE : PoolEnv W} {Dev : PciCapDev W}.
Context {OCK : OrderedCollection PCI_CAP_KEY ptr W ComparePciCapKey}.
Context {OCO : OrderedCollection Z ptr W ComparePciCapOffsetKey}.
Context {LK : OrderedCollectionLaws OCK} {LO : OrderedCollectionLaws OCO}.
Implicit Types s : st (W:=W).

Definition off_entry (g : ghost) : Z * ptr := (g_off g, g_ptr g).

(** Hints of the capabilities [gs], in offset order. *)
Definition hints (gs : list ghost) (pool : gmap ptr PCI_CAP) : Prop :=
  forall l1 g l2, gs = l1 ++ g :: l2 ->
    exists c, pool !! g_ptr g = Some c /\
              MaxSizeHint c = hint_of (h_dom (g_hdr g)) (g_off g) (g_off <$> head l2).

Lemma CalculateHints_spec base G C : forall gs (c : oc OCO) s,
  RepC base G C (Pool s) -> Forall (fun g => g ∈ G) gs -> NoDup (g_ptr <$> gs) ->
  oc_wf c -> oc_entries c = off_entry <$> gs ->
  wp (CalculateHints c (off_entry <$> gs)) (fun c' s' =>
    same_live s s' /\ oc_entries c' = [] /\ RepC base G C (Pool s') /\
    (forall p, p ∉ g_ptr <$> gs -> Pool s' !! p = Pool s !! p) /\ hints gs (Pool s')) s.
Proof.
  induction gs as [|g gs IH]; intros c s R HG Hnd Hwf E; cbn [CalculateHints]; csimpl.
  - cap_step. split_and!; try done. intros l1 g l2 El. by destruct l1.
  - csimpl in *. apply NoDup_cons in Hnd as [Hni Hnd]. apply Forall_cons in HG as [Hg HG].
    destruct (delete_head OCO c _ _ _ Hwf E) as [Hwf' E'].
    pose proof (oc_sorted c Hwf) as Hs. rewrite E in Hs. inversion Hs as [|? ? _ Hlt]; subst.
    replace (snd <$> head (off_entry <$> gs)) with (g_ptr <$> head gs) by (by destruct gs).
    repeat cap_step. eapply wp_mono.
    { apply (CalculateHint_spec base G C s g (head gs) R Hg).
      destruct gs as [|g' gs]; cbn; [done|]. csimpl in Hlt. apply Forall_cons in Hlt as [Hlt _].
      apply Forall_cons in HG as [Hg' _]. split; [done|].
      unfold key_lt, ComparePciCapOffsetKey in Hlt. cbn in Hlt. lia. }
    intros [] s1 [Hl1 (c0 & Hc0 & HP1)]. eapply wp_mono.
    { apply (IH (oc_delete c (g_off g)) s1); try done. rewrite HP1. apply RepC_set_hint; try done.
      apply list_elem_of_fmap. eauto. }
    intros c' s' (Hl & He & R' & Hother & Hh). destruct Hl, Hl1.
    split_and!; try done; try (split; congruence).
    + intros p Hp. apply not_elem_of_cons in Hp as [Hne Hp]. rewrite Hother by done.
      rewrite HP1, lookup_insert_ne; done.
    + intros l1 g1 l2 El. destruct l1 as [|g0 l1]; simplify_list_eq; [|by eapply Hh].
      rewrite Hother, HP1, lookup_insert_eq by done. eexists. split; [done|]. done.
Qed.

(** The parsed capabilities as a client sees them: [G] in traversal order,
    [pool] the memory, [base] the memory outside the list. *)
Definition CapList_ok (base : gmap ptr PCI_CAP) (G : list ghost) (CapList : PCI_CAP_LIST (OCK:=OCK))
    (pool : gmap ptr PCI_CAP) : Prop :=
  RepC base G (Capabilities CapList) pool /\
  exists gs, gs ≡ₚ G /\ StronglySorted (fun g1 g2 => g_off g1 < g_off g2) gs /\ hints gs pool.

Lemma RepC_nil base (C : oc OCK) : oc_wf C -> oc_entries C = [] -> RepC base [] C base.
Proof.
  intros Hwf E. split; try done; try (by intros ? ?%elem_of_nil).
  - by rewrite E.
  - constructor.
Qed.

Lemma RepC_free base G C s :
  RepC base G C (Pool s) ->
  wp (EmptyAndUninitPciCapCollection (OC:=OCK) C true)
     (fun _ s' => LiveLists s' = LiveLists s /\ LiveCollections s' = LiveCollections s - 1 /\
                  Pool s' = base) s.
Proof.
  intros R. unfold EmptyAndUninitPciCapCollection. cap_step. eapply wp_mono.
  { apply (EmptyCollection_free OCK _ C s (rep_wfC _ _ _ _ R) eq_refl).
    - rewrite (rep_C _ _ _ _ R), <-list_fmap_compose. apply (rep_nodup _ _ _ _ R).
    - intros p. rewrite (rep_C _ _ _ _ R), <-list_fmap_compose.
      intros (g & -> & Hg)%list_elem_of_fmap.
      destruct (rep_obj _ _ _ _ R g Hg) as (c & Hc & _). eauto. }
  intros c' s' ([Hl1 Hl2] & He & HP). apply wp_Uninit; [done|]. cbn.
  split_and!; [done|lia|]. apply map_eq. intros p. rewrite HP. case_decide as Hp;
    rewrite (rep_C _ _ _ _ R), <-list_fmap_compose in Hp.
  - apply list_elem_of_fmap in Hp as (g & -> & Hg). symmetry. by eapply rep_fresh.
  - by eapply rep_base.
Qed.

Lemma ParseCapabilities_spec base fuel C Of s :
  Rep base [] C Of (Pool s) -> 1026 <= Z.of_nat fuel ->
  wp (ParseCapabilities fuel C Of) (walk_post base [] s capability_list) s.
Proof.
  intros R Hf. unfold ParseCapabilities. cap_step. apply wp_ReadConfigM. intros st bs w Hans.
  destruct (EFI_ERROR st) eqn:Hst; [cap_step; apply walk_post_stop; auto; done|].
  cap_step. eapply (wp_mono _ (fun r s' => walk_post base [] s
    (fun L => normal_list L /\ r.2 = is_express L) r.1 s')).
  - destruct (negb (Z.land (le_combine bs) EFI_PCI_STATUS_CAPABILITY =? 0)) eqn:Hcap.
    + cap_step. apply wp_ReadConfigM. intros st1 bs1 w1 Hans1.
      destruct (EFI_ERROR st1) eqn:Hst1; [cap_step; apply walk_post_stop; auto; done|].
      destruct (land_0xFC (le_combine bs1)) as [Hr Ha].
      eapply wp_mono; [apply (NormalCapWalk_spec base fuel _ false [] C Of); [done..|cbn; lia]|].
      intros [[[Status C1] Of1] ex] s1 [[? ?] (G & R1 & HS)]. split; [done|]. exists G. split; [done|].
      destruct HS as [?|[-> [HL HX]]]; [by left|]. right. split; [done|]. split; [|done].
      exists st, bs. rewrite Hcap. eauto 10.
    + cap_step. apply walk_post_stop; [done..|]. right. split; [done|]. split; [|done].
      exists st, bs. by rewrite Hcap.
  - intros [[[Status C1] Of1] ex] s1 [Hl (G & R1 & HS)]. cbn [fst snd] in *.
    destruct (EFI_ERROR Status) eqn:HE.
    { cap_step. split; [done|]. exists G. split; [done|by left]. }
    destruct HS as [?|[-> [HL ->]]]; [congruence|]. destruct (is_express (g_hdr <$> G)) eqn:HX.
    + eapply wp_mono; [apply (ExtendedCapWalk_spec base fuel PCI_MAX_CONFIG_OFFSET G)|]; try done.
      { right. unfold PCI_MAX_CONFIG_OFFSET. lia. } { lia. }
      intros [[Status C2] Of2] s2 [[H1 H2] (G' & R2 & HS)]. destruct Hl.
      split; [split; congruence|]. exists (G ++ G'). split; [done|].
      destruct HS as [?|[-> HL']]; [by left|]. right. split; [done|]. rewrite fmap_app.
      exists (g_hdr <$> G), (g_hdr <$> G'). rewrite HX. done.
    + cap_step. split; [done|]. exists G. split; [done|]. right. split; [done|].
      exists (g_hdr <$> G), []. rewrite app_nil_r, HX. done.
Qed.
End ListInit.

(** ** Correctness of the library *)

(** Enough fuel for any device: at most 1024 distinct header offsets. *)
Definition PciCapListInit_fuel : nat := Z.to_nat 1026.

(** [m] is the largest extent that header [g] can have: it stays inside the
    configuration space of [g] and ends before the next header. *)
Definition extent_ok (G : list ghost) (g : ghost) (m : Z) : Prop :=
  0 < m /\ g_off g + m <= ConfigSpaceSize (h_dom (g_hdr g)) /\
  (forall g', g' ∈ G -> g_off g < g_off g' -> g_off g + m <= g_off g') /\
  (g_off g + m = ConfigSpaceSize (h_dom (g_hdr g)) \/
   exists g', g' ∈ G /\ g_off g' = g_off g + m).

(** The sizes computed by [CalculateHints] are the largest extents. *)
Lemma hints_extent G gs pool g :
  gs ≡ₚ G -> StronglySorted (fun g1 g2 => g_off g1 < g_off g2) gs ->
  Forall (fun g => hdr_ok (g_hdr g)) G -> hints gs pool -> g ∈ G ->
  exists c, pool !! g_ptr g = Some c /\ extent_ok G g (MaxSizeHint c).
Proof.
  intros Hp Hs Hok Hh Hg. rewrite <-Hp in Hg. apply list_elem_of_split in Hg as (l1 & l2 & ->).
  destruct (Hh l1 g l2 eq_refl) as (c & Hc & Hm). exists c. split; [done|].
  rewrite Forall_forall in Hok.
  assert (hdr_ok (g_hdr g)) as [Hr _].
  { apply Hok. rewrite <-Hp. set_solver. }
  fold (g_off g) in Hr. rewrite Hm. clear Hm Hh Hc.
  assert (forall g', g' ∈ G -> g_off g < g_off g' -> g' ∈ l2) as Hin.
  { intros g' Hg' Hlt. rewrite <-Hp in Hg'. clear -Hs Hg' Hlt.
    induction l1 as [|g1 l1 IH]; cbn in *.
    - apply elem_of_cons in Hg' as [->|]; [lia|done].
    - inversion Hs as [|? ? Hs' Hall]; subst. apply elem_of_cons in Hg' as [->|]; [|auto].
      rewrite Forall_forall in Hall. specialize (Hall g ltac:(set_solver)). lia. }
  assert (StronglySorted (fun g1 g2 => g_off g1 < g_off g2) (g :: l2)) as Hs2.
  { clear -Hs. induction l1; [done|]. inversion Hs; subst; auto. }
  inversion Hs2 as [|? ? Hs3 Hall]; subst. rewrite Forall_forall in Hall.
  unfold hint_of. destruct l2 as [|g2 l2]; cbn.
  { split_and!; [lia|lia| |left; lia]. intros g' Hg' Hlt. specialize (Hin g' Hg' Hlt). set_solver. }
  pose proof (Hall g2 ltac:(set_solver)) as Hlt2.
  assert (forall g', g' ∈ G -> g_off g < g_off g' -> g_off g2 <= g_off g') as Hnext.
  { intros g' Hg' Hlt. specialize (Hin g' Hg' Hlt). apply elem_of_cons in Hin as [->|Hin]; [lia|].
    inversion Hs3 as [|? ? _ Hall2]; subst. rewrite Forall_forall in Hall2.
    specialize (Hall2 g' Hin). lia. }
  assert (g2 ∈ G) as Hg2 by (rewrite <-Hp; set_solver).
  destruct (Z.leb_spec (ConfigSpaceSize (h_dom (g_hdr g))) (g_off g2)).
  - split_and!; [lia|lia| |left; lia]. intros g' Hg' Hlt. specialize (Hnext g' Hg' Hlt). lia.
  - split_and!; [lia|lia| |right; exists g2; split; [done|lia]].
    intros g' Hg' Hlt. specialize (Hnext g' Hg' Hlt). lia.
Qed.

Section Correctness.
Context {W : Type} {PE : PoolEnv W} {Dev : PciCapDev W}.
Context {OCK : OrderedCollection PCI_CAP_KEY ptr W ComparePciCapKey}.
Context {OCO : OrderedCollection Z ptr W ComparePciCapOffsetKey}.
Context {LK : OrderedCollectionLaws OCK} {LO : OrderedCollectionLaws OCO}.
Implicit Types s : st (W:=W).

Lemma FreeCapHdrOffsets_spec base G C (Of : oc OCO) s Status :
  RepC base G C (Pool s) -> oc_wf Of -> EFI_ERROR Status = true ->
  wp (FreeCapHdrOffsets Status C Of) (fun r s' =>
    r = (Status, None) /\ Pool s' = base /\ LiveLists s' = LiveLists s - 1 /\
    LiveCollections s' = LiveCollections s - 2) s.
Proof.
  intros R HwO HE. unfold FreeCapHdrOffsets, FreeCapabilities, FreeOutCapList.
  cap_step. apply (wp_EmptyKeep OCO); [done|]. cap_step. eapply wp_mono.
  { apply (RepC_free base G C (add_collections (-1) s)). done. }
  intros [] s1 (H1 & H2 & H3). repeat cap_step; [done|]. repeat cap_step. cbn in *.
  split_and!; (done || lia).
Qed.

Lemma PciCapListInit_spec s :
  wp (PciCapListInit PciCapListInit_fuel) (fun '(Status, CapList) s' =>
    match CapList with
    | None =>
        EFI_ERROR Status = true /\ Pool s' = Pool s /\
        LiveLists s' = LiveLists s /\ LiveCollections s' = LiveCollections s
    | Some CapList =>
        Status = EFI_SUCCESS /\
        LiveLists s' = LiveLists s + 1 /\ LiveCollections s' = LiveCollections s + 1 /\
        exists G, CapList_ok (Pool s) G CapList (Pool s') /\ capability_list (g_hdr <$> G)
    end) s.
Proof.
  unfold PciCapListInit. cap_step. rewrite wp_cap_env_call.
  destruct (pool_alloc (Env s)) as [[] w0]; cbn [negb]; [|by cap_step].
  repeat cap_step. unfold OrderedCollectionInitM. repeat cap_step. cbn [Env add_lists set_env].
  destruct (oc_init w0) as [[C|] w1] eqn:EC; repeat cap_step;
    [|unfold FreeOutCapList; repeat cap_step; [done|]; cbn; split_and!; try done; lia].
  apply oc_init_spec in EC as [HwC EC]. cbn [Env add_collections set_env].
  destruct (oc_init w1) as [[Of|] w2] eqn:EO; repeat cap_step.
  2:{ unfold FreeCapabilities. cap_step. eapply wp_mono.
      { eapply (RepC_free (Pool s) []). by apply RepC_nil. }
      intros [] s1 (H1 & H2 & H3). unfold FreeOutCapList. repeat cap_step; [done|].
      cbn in *. split_and!; try done; lia. }
  apply oc_init_spec in EO as [HwO EO]. eapply wp_mono.
  { apply (ParseCapabilities_spec (Pool s)); [|unfold PciCapListInit_fuel; lia].
    split; [by apply RepC_nil|done|]. by rewrite EO. }
  intros [[Status C1] Of1] s1 [[H1 H2] (G & R & HS)]. cbn in H1, H2. cbn [app] in R.
  destruct (EFI_ERROR Status) eqn:HE.
  { eapply wp_mono; [apply (FreeCapHdrOffsets_spec (Pool s) G); destruct R; done|].
    intros r s2 (-> & H3 & H4 & H5). split_and!; try done; lia. }
  destruct HS as [?|[-> HL]]; [congruence|].
  destruct (Permutation_map_inv _ _ (rep_O _ _ _ _ _ R)) as (gs & Egs & Hgs).
  cap_step. change (map ?f gs) with (off_entry <$> gs) in Egs. rewrite Egs. eapply wp_mono.
  { apply (CalculateHints_spec (Pool s) G C1 gs Of1 s1); [by destruct R| | |by destruct R|done].
    - apply Forall_forall. intros g. by rewrite Hgs.
    - rewrite <-Hgs. apply (rep_nodup _ _ _ _ (rep_RepC _ _ _ _ _ R)). }
  intros c s2 ([H3 H4] & He & R2 & _ & Hh). cap_step. apply wp_Uninit; [done|]. cap_step. cbn.
  split; [done|]. split; [lia|]. split; [lia|]. exists G. split; [|done]. split; [done|].
  exists gs. split; [done|]. split; [|done].
  pose proof (oc_sorted Of1 (rep_wfO _ _ _ _ _ R)) as Hs. rewrite Egs in Hs.
  clear -Hs. induction gs as [|g gs IH]; [constructor|]. csimpl in Hs.
  inversion Hs as [|? ? Hs' Hall]; subst. constructor; [auto|].
  rewrite Forall_fmap in Hall. eapply Forall_impl; [exact Hall|].
  unfold key_lt, ComparePciCapOffsetKey. cbn. intros; lia.
Qed.

(** C1: [PciCapListInit] terminates on every device (a cyclic capability
    list included) without failing an assertion; when it fails it reports an
    error and has released everything it allocated, and when it succeeds
    the list holds exactly the headers that the normal and extended
    capability chains of the device lead through. *)
Theorem PciCapListInit_correct s :
  wp (PciCapListInit PciCapListInit_fuel) (fun '(Status, CapList) s' =>
    match CapList with
    | None =>
        EFI_ERROR Status = true /\ Pool s' = Pool s /\
        LiveLists s' = LiveLists s /\ LiveCollections s' = LiveCollections s
    | Some CapList =>
        Status = EFI_SUCCESS /\
        LiveLists s' = LiveLists s + 1 /\ LiveCollections s' = LiveCollections s + 1 /\
        exists G, CapList_ok (Pool s) G CapList (Pool s') /\ capability_list (g_hdr <$> G)
    end) s.
Proof. apply PciCapListInit_spec. Qed.
End Correctness.
