(* ===== verification/PciCapQueries.v ===== *)
(** * Queries on a parsed capability list, and concrete runs

    What [PciCapListFindCap], [PciCapListFindCapVersion], [PciCapGetInfo],
    [PciCapRead], [PciCapWrite] and [PciCapListUninit] do on a list that
    [PciCapListInit] built ([CapList_ok]), and runs of the parser on a device
    with a concrete configuration space. *)
From S2P Require Import Prelude Bytes OrderedCollection PciCap PciCapProofs.
From Stdlib Require Import Sorting.Sorted.

Section Queries.
Context {W : Type} {PE : PoolEnv W} {Dev : PciCapDev W}.
Context {OCK : OrderedCollection PCI_CAP_KEY ptr W ComparePciCapKey}.
Context {LK : OrderedCollectionLaws OCK}.
Implicit Types s : st (W:=W).

Lemma entry_ghost base G (C : oc OCK) pool k p :
  RepC base G C pool ->
  ((k, p) ∈ oc_entries C) <-> (exists g, g ∈ G /\ g_key g = k /\ g_ptr g = p).
Proof.
  intros R. rewrite (rep_C _ _ _ _ R), list_elem_of_fmap. split.
  - intros (g & [= -> ->] & ?). eauto.
  - intros (g & ? & <- & <-). eauto.
Qed.

Lemma key_present base G (C : oc OCK) pool d i j :
  RepC base G C pool ->
  (exists g, g ∈ G /\ g_key g = mkKey d i j) <-> (0 <= j < occ d i (g_hdr <$> G)).
Proof.
  intros R. rewrite <-in_number, <-(rep_key _ _ _ _ R), list_elem_of_fmap. naive_solver.
Qed.

Lemma PciCapListFindCap_spec base G CapList pool d i j :
  CapList_ok base G CapList pool ->
  match PciCapListFindCap CapList d i j with
  | (Status, Some p) =>
      Status = EFI_SUCCESS /\ 0 <= j < occ d i (g_hdr <$> G) /\
      exists g, g ∈ G /\ g_key g = mkKey d i j /\ g_ptr g = p
  | (Status, None) =>
      Status = EFI_NOT_FOUND /\ ~ (0 <= j < occ d i (g_hdr <$> G))
  end.
Proof.
  intros [R _]. unfold PciCapListFindCap.
  destruct (oc_find (Capabilities CapList) (mkKey d i j)) as [p|] eqn:E.
  - apply (oc_find_spec _ _ _ (rep_wfC _ _ _ _ R)), (entry_ghost _ _ _ _ _ _ R) in E.
    split; [done|]. split; [|done]. rewrite <-(key_present _ _ _ _ _ _ _ R). naive_solver.
  - apply (oc_find_None _ _ (rep_wfC _ _ _ _ R)) in E. split; [done|].
    rewrite <-(key_present _ _ _ _ _ _ _ R). intros (g & Hg & Hk). apply E.
    apply list_elem_of_fmap. exists (mkKey d i j, g_ptr g). split; [done|].
    apply (entry_ghost _ _ _ _ _ _ R). eauto.
Qed.

(** [PciCapGetInfo] reports, for every capability of the list, the
    header read from config space, its position among the capabilities of
    the same kind and how many of these there are, and an extent that stays
    inside its config space and stops before the next header. *)
Lemma PciCapGetInfo_spec base G CapList s g :
  CapList_ok base G CapList (Pool s) -> g ∈ G ->
  exists m, extent_ok G g m /\
    PciCapGetInfo (g_ptr g) s =
      Done (EFI_SUCCESS,
            mkInfo (h_dom (g_hdr g)) (h_id (g_hdr g))
                   (occ (h_dom (g_hdr g)) (h_id (g_hdr g)) (g_hdr <$> G))
                   (Instance_ (g_key g)) (g_off g) m (h_ver (g_hdr g))) s.
Proof.
  intros [R (gs & Hp & Hs & Hh)] Hg.
  destruct (hints_extent G gs (Pool s) g Hp Hs (rep_hdr _ _ _ _ R) Hh Hg) as (c & Hc & Hm).
  exists (MaxSizeHint c). split; [done|].
  destruct (rep_obj _ _ _ _ R g Hg) as (c' & Hc' & HK & HO & HV & HU). simplify_eq.
  destruct (rep_domain _ _ _ _ g R Hg) as (Hd & Hi & _).
  assert (wp (PciCapGetInfo (g_ptr g)) (fun r s' => s' = s /\ r = (EFI_SUCCESS,
     mkInfo (h_dom (g_hdr g)) (h_id (g_hdr g))
            (occ (h_dom (g_hdr g)) (h_id (g_hdr g)) (g_hdr <$> G))
            (Instance_ (g_key g)) (g_off g) (MaxSizeHint c) (h_ver (g_hdr g)))) s) as Hwp.
  2:{ apply wp_elim in Hwp as (? & ? & Hrun & -> & ->). done. }
  unfold PciCapGetInfo. repeat cap_step. exists c. split; [done|].
  rewrite HK. destruct (NumInstancesUnion c) as [n|p0] eqn:EU.
  - destruct HU as [-> ->]. cbn [Z.eqb]. repeat cap_step. rewrite EU. repeat cap_step.
    by rewrite HO, HV, Hd, Hi.
  - destruct HU as [Hpos (g0 & Hg0 & <- & Hk0)]. rewrite (proj2 (Z.eqb_neq _ _)) by lia.
    repeat cap_step. destruct (rep_obj _ _ _ _ R g0 Hg0) as (c0 & Hc0 & HK0 & _ & _ & HU0).
    exists c0. split; [done|]. rewrite Hk0 in HU0. cbn in HU0.
    destruct (NumInstancesUnion c0); [|lia]. destruct HU0 as [_ ->]. repeat cap_step.
    destruct (rep_domain _ _ _ _ g0 R Hg0) as (Hd0 & Hi0 & _). rewrite Hk0 in Hd0, Hi0.
    cbn in Hd0, Hi0. by rewrite HO, HV, Hd, Hi, <-Hd0, <-Hi0.
Qed.

Lemma listed_extent base G CapList s g :
  CapList_ok base G CapList (Pool s) -> g ∈ G ->
  exists c, Pool s !! g_ptr g = Some c /\ Offset c = g_off g /\ extent_ok G g (MaxSizeHint c) /\
            0 <= g_off g /\ g_off g + MaxSizeHint c <= 0x1000.
Proof.
  intros [R (gs & Hp & Hs & Hh)] Hg.
  destruct (hints_extent G gs (Pool s) g Hp Hs (rep_hdr _ _ _ _ R) Hh Hg) as (c & Hc & Hm).
  destruct (rep_obj _ _ _ _ R g Hg) as (c' & Hc' & _ & HO & _). simplify_eq.
  exists c. split_and!; try done.
  - pose proof (rep_hdr _ _ _ _ R) as Hok. rewrite Forall_forall in Hok.
    destruct (Hok g Hg) as [? _]. unfold g_off. lia.
  - destruct Hm as (_ & Hm & _). destruct (h_dom (g_hdr g)); cbn in Hm;
      unfold PCI_MAX_CONFIG_OFFSET, PCI_EXP_MAX_CONFIG_OFFSET in Hm; lia.
Qed.

(** A read of a listed capability: refused, or one device access. *)
Lemma wp_PciCapRead base G CapList s g src size (Q : EFI_STATUS * option (list Z) -> st -> Prop) :
  CapList_ok base G CapList (Pool s) -> g ∈ G -> 0 <= src -> 0 <= size ->
  (forall m, extent_ok G g m -> m < src + size -> Q (EFI_BAD_BUFFER_SIZE, None) s) ->
  (forall m Status bs w, extent_ok G g m -> src + size <= m ->
     device_answers (g_off g + src) size Status bs -> Q (Status, Some bs) (set_env w s)) ->
  wp (PciCapRead (g_ptr g) src size) Q s.
Proof.
  intros HC Hg Hsrc Hsize HN HS.
  destruct (listed_extent _ _ _ _ _ HC Hg) as (c & Hc & HO & Hm & Hr0 & Hr1).
  unfold PciCapRead. repeat cap_step. exists c. split; [done|].
  destruct (Z.ltb_spec (MaxSizeHint c) (src + size)); repeat cap_step; [by eapply HN|].
  rewrite HO. unfold u16. rewrite Z.mod_small by lia. apply wp_ReadConfigM. intros St bs w HA.
  repeat cap_step. by eapply HS.
Qed.

(** [PciCapRead] and [PciCapWrite] forward a transfer to the device
    exactly when it lies inside the capability's extent, at the offset of
    the capability plus the requested one; otherwise they report
    RETURN_BAD_BUFFER_SIZE and do not touch the device. *)
Theorem PciCap_transfer_confined base G CapList s g src size data :
  CapList_ok base G CapList (Pool s) -> g ∈ G -> 0 <= src -> 0 <= size ->
  exists m, extent_ok G g m /\
    PciCapRead (g_ptr g) src size s =
      (if m <? src + size then Done (EFI_BAD_BUFFER_SIZE, None) s
       else let '(Status, bs, w) := ReadConfig (Env s) (g_off g + src) size in
            Done (Status, Some bs) (set_env w s)) /\
    PciCapWrite (g_ptr g) src data s =
      (if m <? src + Z.of_nat (length data) then Done EFI_BAD_BUFFER_SIZE s
       else let '(Status, w) := WriteConfig (Env s) (g_off g + src) data in
            Done Status (set_env w s)).
Proof.
  intros HC Hg Hsrc Hsize.
  destruct (listed_extent _ _ _ _ _ HC Hg) as (c & Hc & HO & Hm & Hr0 & Hr1).
  exists (MaxSizeHint c). split; [done|].
  unfold PciCapRead, PciCapWrite, load, deref, mbind, M_bind, get. rewrite Hc, HO. split.
  - destruct (Z.ltb_spec (MaxSizeHint c) (src + size)); [done|].
    unfold u16. rewrite Z.mod_small by lia. unfold ReadConfigM, env_call.
    by destruct (ReadConfig _ _ _) as [[] ?].
  - destruct (Z.ltb_spec (MaxSizeHint c) (src + Z.of_nat (length data))); [done|].
    unfold u16. rewrite Z.mod_small by lia. unfold env_call.
    by destruct (WriteConfig _ _ _).
Qed.

Lemma extent_unique G g m1 m2 : extent_ok G g m1 -> extent_ok G g m2 -> m1 = m2.
Proof.
  intros (H1 & H2 & H3 & H4) (H1' & H2' & H3' & H4').
  destruct H4 as [?|(g1 & Hg1 & E1)], H4' as [?|(g2 & Hg2 & E2)]; try lia.
  - specialize (H3 g2 Hg2). lia.
  - specialize (H3' g1 Hg1). lia.
  - specialize (H3 g2 Hg2). specialize (H3' g1 Hg1). lia.
Qed.

Lemma PciCapListUninit_spec base G CapList s :
  CapList_ok base G CapList (Pool s) ->
  wp (PciCapListUninit CapList) (fun _ s' =>
    Pool s' = base /\ LiveLists s' = LiveLists s - 1 /\
    LiveCollections s' = LiveCollections s - 1) s.
Proof.
  intros [R _]. unfold PciCapListUninit. cap_step. eapply wp_mono; [by eapply RepC_free|].
  intros [] s' (H1 & H2 & H3). repeat cap_step. cbn. split_and!; (done || lia).
Qed.

(** [PciCapListUninit] of a parsed list never frees an object twice and
    gives back all of its memory: the pool is what it was before the list
    was built. *)
Theorem PciCapListUninit_releases base G CapList s :
  CapList_ok base G CapList (Pool s) ->
  wp (PciCapListUninit CapList) (fun _ s' =>
    Pool s' = base /\ LiveLists s' = LiveLists s - 1 /\
    LiveCollections s' = LiveCollections s - 1) s.
Proof. apply PciCapListUninit_spec. Qed.

(** *** FindCapVersion *)
Lemma key_cmp_spec k1 k2 :
  ComparePciCapKey k1 k2 < 0 -> Domain k1 = Domain k2 -> CapId k1 = CapId k2 ->
  Instance_ k1 < Instance_ k2.
Proof.
  unfold ComparePciCapKey. intros H Ed Ec. rewrite Ed, Ec, !Z.ltb_irrefl in H.
  repeat case_match; lia.
Qed.

(** A key between instance 0 and another instance of a capability is an
    instance of it too: the ordering keeps a capability's instances
    adjacent. *)
Lemma run_contiguous k k' d i :
  ComparePciCapKey k k' < 0 -> 0 <= ComparePciCapKey k (mkKey d i 0) ->
  Domain k' = d -> CapId k' = i -> Domain k = d /\ CapId k = i.
Proof.
  destruct k as [d1 i1 n1], k' as [d2 i2 n2]. unfold ComparePciCapKey. cbn. intros Hlt Hge -> ->.
  destruct d1, d; cbn in *; repeat case_match; try lia; split; (done || lia).
Qed.

Lemma entries_from_spec k (l : list (PCI_CAP_KEY * ptr)) :
  StronglySorted (key_lt ComparePciCapKey) l ->
  StronglySorted (key_lt ComparePciCapKey) (entries_from k l) /\
  (forall e, e ∈ entries_from k l -> e ∈ l) /\
  ((k ∈ l.*1) -> forall e, e ∈ l -> 0 <= ComparePciCapKey e.1 k -> e ∈ entries_from k l).
Proof.
  induction 1 as [|a l Hs IH Hall]; cbn [entries_from].
  - split_and!; try done. constructor.
  - destruct (Z.eqb_spec (ComparePciCapKey k a.1) 0) as [E|E].
    { split_and!; [by constructor|done|done]. }
    destruct IH as (H1 & H2 & H3). split_and!; [done|set_solver|].
    csimpl. intros [->|Hk]%elem_of_cons; [by rewrite cmp_refl in E|].
    intros e [->|He]%elem_of_cons Hle; [|auto].
    apply list_elem_of_fmap in Hk as (x & -> & Hx). rewrite Forall_forall in Hall.
    specialize (Hall x Hx). unfold key_lt in Hall. lia.
Qed.

Lemma entries_from_ge k (l : list (PCI_CAP_KEY * ptr)) e :
  StronglySorted (key_lt ComparePciCapKey) l -> e ∈ entries_from k l ->
  0 <= ComparePciCapKey e.1 k.
Proof.
  induction 1 as [|a l Hs IH Hall]; cbn [entries_from]; [by intros ?%elem_of_nil|].
  destruct (Z.eqb_spec (ComparePciCapKey k a.1) 0) as [E|E]; [|done].
  apply cmp_eq in E as ->. intros [->|He]%elem_of_cons; [by rewrite cmp_refl|].
  rewrite Forall_forall in Hall. specialize (Hall e He). unfold key_lt in Hall.
  apply cmp_flip in Hall. lia.
Qed.

(** The loop, on a sorted run of entries that starts at or after instance 0
    of the capability and holds all of its instances. *)
Lemma FindCapVersionLoop_spec base G C d i v l s :
  RepC base G C (Pool s) -> (forall e, e ∈ l -> e ∈ oc_entries C) ->
  StronglySorted (key_lt ComparePciCapKey) l ->
  (forall e, e ∈ l -> 0 <= ComparePciCapKey e.1 (mkKey d i 0)) ->
  wp (FindCapVersionLoop d i v l) (fun r s' => s' = s /\
    let matches (g : ghost) := g ∈ G /\ (g_key g, g_ptr g) ∈ l /\ same d i (g_hdr g) in
    match r with
    | (Status, Some p) => Status = EFI_SUCCESS /\
        exists g, matches g /\ g_ptr g = p /\ v <= h_ver (g_hdr g) /\
          forall g', matches g' -> Instance_ (g_key g') < Instance_ (g_key g) -> h_ver (g_hdr g') < v
    | (Status, None) => Status = EFI_NOT_FOUND /\
        forall g', matches g' -> h_ver (g_hdr g') < v
    end) s.
Proof.
  intros R Hin Hs. revert Hin.
  induction Hs as [|[k p] l Hs IH Hall]; intros Hin Hge; cbn [FindCapVersionLoop].
  { cap_step. do 2 (split; [done|]). by intros g (_ & ?%elem_of_nil & _). }
  assert ((k, p) ∈ oc_entries C) as (g & Hg & <- & <-)%(entry_ghost _ _ _ _ _ _ R) by set_solver.
  destruct (rep_obj _ _ _ _ R g Hg) as (c & Hc & HK & _ & HV & _).
  destruct (rep_domain _ _ _ _ g R Hg) as (Hd & Hi & _).
  rewrite Forall_forall in Hall.
  repeat cap_step. exists c. split; [done|]. rewrite HK, HV, Hd, Hi.
  assert (forall g', (g_key g', g_ptr g') ∈ (g_key g, g_ptr g) :: l -> g' ∈ G ->
            same d i (g_hdr g') -> same d i (g_hdr g) -> g_key g' = g_key g \/
            (Instance_ (g_key g) < Instance_ (g_key g') /\ (g_key g', g_ptr g') ∈ l)) as Hcase.
  { intros g' [[= -> _]|Hl]%elem_of_cons Hg' [S1 S2] [S3 S4]; [by left|right].
    destruct (rep_domain _ _ _ _ g' R Hg') as (Hd' & Hi' & _).
    split; [|done]. apply key_cmp_spec; [apply (Hall _ Hl)|congruence|congruence]. }
  assert (forall g', g_key g' = g_key g -> g' ∈ G -> g' = g) as Huniq.
  { intros g' Ek Hg'. apply (NoDup_fmap_ptr G); [by destruct R|done..|].
    by eapply rep_key_ptr. }
  destruct (decide (same d i (g_hdr g))) as [Hsame|Hdiff].
  - pose proof Hsame as [-> ->]. rewrite bool_decide_true, Z.eqb_refl by done. cbn [negb orb].
    destruct (Z.leb_spec v (h_ver (g_hdr g))) as [Hv|Hv].
    + repeat cap_step. do 2 (split; [done|]). exists g. split_and!; try done; [by left|].
      intros g' (Hg' & Hl & Hs') Hlt. destruct (Hcase g' Hl Hg' Hs' ltac:(done)) as [Ek|[? _]]; [|lia].
      rewrite Ek in Hlt. lia.
    + eapply wp_mono; [apply IH; set_solver|]. intros [Status [q|]] s' (-> & -> & Hq).
      * do 2 (split; [done|]). destruct Hq as (g1 & (Hg1 & Hl1 & Hs1) & Hp & Hv1 & Hall1).
        exists g1. split_and!; try done; [set_solver|]. intros g' (Hg' & Hl & Hs') Hlt.
        destruct (Hcase g' Hl Hg' Hs' ltac:(done)) as [Ek|[? ?]].
        { by rewrite (Huniq g' Ek Hg'). }
        by apply Hall1.
      * do 2 (split; [done|]). intros g' (Hg' & Hl & Hs').
        destruct (Hcase g' Hl Hg' Hs' ltac:(done)) as [Ek|[? ?]].
        { by rewrite (Huniq g' Ek Hg'). }
        by apply Hq.
  - assert (forall b : bool, b = true -> wp (if b then mret (EFI_NOT_FOUND, None) else
       (if v <=? h_ver (g_hdr g) then mret (EFI_SUCCESS, Some (g_ptr g)) else FindCapVersionLoop d i v l))
       (fun r s' => s' = s /\ r = (EFI_NOT_FOUND, None)) s) as Hstop by (intros b ->; by cap_step).
    eapply wp_mono; [apply Hstop|].
    { unfold same in Hdiff. apply orb_true_iff. destruct (decide (h_dom (g_hdr g) = d)) as [E|E].
      - right. apply negb_true_iff, Z.eqb_neq. naive_solver.
      - left. by rewrite bool_decide_false. }
    intros r s' [-> ->]. do 2 (split; [done|]). intros g' (Hg' & Hl & S1 & S2). exfalso.
    destruct (rep_domain _ _ _ _ g' R Hg') as (Hd' & Hi' & _).
    apply elem_of_cons in Hl as [[= Ek Ep]|Hl].
    { apply Hdiff. rewrite (Huniq g' Ek Hg') in *. done. }
    destruct (run_contiguous (g_key g) (g_key g') d i) as [E1 E2].
    { apply (Hall _ Hl). } { apply (Hge (g_key g, g_ptr g)). set_solver. }
    { congruence. } { congruence. }
    apply Hdiff. split; congruence.
Qed.

(** [PciCapListFindCapVersion] returns the first instance (in traversal
    order) of the capability whose version is at least the requested one,
    and RETURN_NOT_FOUND exactly when no instance qualifies. *)
Lemma PciCapListFindCapVersion_spec base G CapList s d i v :
  CapList_ok base G CapList (Pool s) ->
  wp (PciCapListFindCapVersion CapList d i v) (fun '(Status, Cap) s' => s' = s /\
    match Cap with
    | Some p => Status = EFI_SUCCESS /\
        exists g, g ∈ G /\ same d i (g_hdr g) /\ g_ptr g = p /\ v <= h_ver (g_hdr g) /\
          forall g', g' ∈ G -> same d i (g_hdr g') ->
            Instance_ (g_key g') < Instance_ (g_key g) -> h_ver (g_hdr g') < v
    | None => Status = EFI_NOT_FOUND /\
        forall g', g' ∈ G -> same d i (g_hdr g') -> h_ver (g_hdr g') < v
    end) s.
Proof.
  intros [R _]. unfold PciCapListFindCapVersion.
  set (k0 := mkKey d i 0). set (C := Capabilities CapList) in *.
  destruct (entries_from_spec k0 (oc_entries C) (oc_sorted C (rep_wfC _ _ _ _ R))) as (H1 & H2 & H3).
  assert (forall g, g ∈ G -> same d i (g_hdr g) -> (g_key g, g_ptr g) ∈ entries_from k0 (oc_entries C)) as Hall.
  { intros g Hg [Ed Ei]. destruct (rep_domain _ _ _ _ g R Hg) as (Hd & Hi & Hr). apply H3.
    - destruct (proj2 (key_present _ _ _ _ d i 0 R)) as (g0 & Hg0 & Hk0); [subst d i; lia|].
      apply list_elem_of_fmap. exists (k0, g_ptr g0). split; [done|].
      apply (entry_ghost _ _ _ _ _ _ R). eauto.
    - apply (entry_ghost _ _ _ _ _ _ R). eauto.
    - unfold ComparePciCapKey, k0. cbn. rewrite Hd, Hi, Ed, Ei, !Z.ltb_irrefl.
      repeat case_match; lia. }
  eapply wp_mono; [apply (FindCapVersionLoop_spec base G C d i v _ s R H2 H1)|].
  { intros e He. eapply entries_from_ge; [|exact He]. apply (oc_sorted C (rep_wfC _ _ _ _ R)). }
  intros [Status [p|]] s' (-> & HS); (split; [done|]).
  - destruct HS as (-> & g & (Hg & _ & Hs) & Hp & Hv & Hmin). split; [done|].
    exists g. split_and!; try done. intros g' Hg' Hs' Hlt. apply Hmin; auto.
  - destruct HS as (-> & Hmin). split; [done|]. auto.
Qed.
(** Queries on a parsed list.  [PciCapListFindCap] finds instance [j] of a
    capability exactly when the device's chains contain more than [j] headers
    of it, and returns the object of the [j]-th one in traversal order.
    [PciCapListFindCapVersion] returns the first instance whose version is at
    least the requested one, and RETURN_NOT_FOUND exactly when none
    qualifies.  [PciCapGetInfo] reports the header read from config space,
    the instance number and count, and an extent that stays inside its
    config space and stops before the next header. *)
Theorem PciCap_queries base G CapList s d i j v :
  CapList_ok base G CapList (Pool s) ->
  match PciCapListFindCap CapList d i j with
  | (Status, Some p) =>
      Status = EFI_SUCCESS /\ 0 <= j < occ d i (g_hdr <$> G) /\
      exists g, g ∈ G /\ g_key g = mkKey d i j /\ g_ptr g = p
  | (Status, None) =>
      Status = EFI_NOT_FOUND /\ ~ (0 <= j < occ d i (g_hdr <$> G))
  end /\
  wp (PciCapListFindCapVersion CapList d i v) (fun '(Status, Cap) s' => s' = s /\
    match Cap with
    | Some p => Status = EFI_SUCCESS /\
        exists g, g ∈ G /\ same d i (g_hdr g) /\ g_ptr g = p /\ v <= h_ver (g_hdr g) /\
          forall g', g' ∈ G -> same d i (g_hdr g') ->
            Instance_ (g_key g') < Instance_ (g_key g) -> h_ver (g_hdr g') < v
    | None => Status = EFI_NOT_FOUND /\
        forall g', g' ∈ G -> same d i (g_hdr g') -> h_ver (g_hdr g') < v
    end) s /\
  forall g, g ∈ G -> exists m, extent_ok G g m /\
    PciCapGetInfo (g_ptr g) s =
      Done (EFI_SUCCESS,
            mkInfo (h_dom (g_hdr g)) (h_id (g_hdr g))
                   (occ (h_dom (g_hdr g)) (h_id (g_hdr g)) (g_hdr <$> G))
                   (Instance_ (g_key g)) (g_off g) m (h_ver (g_hdr g))) s.
Proof.
  intros HC. split_and!; [by apply (PciCapListFindCap_spec base G _ (Pool s))|by apply (PciCapListFindCapVersion_spec base)|].
  intros g Hg. by eapply PciCapGetInfo_spec.
Qed.
End Queries.

(** ** Concrete runs

    A device with three normal capabilities (two of them vendor specific) and
    one extended capability, over an allocator that never fails. *)
Module Example.
Definition config (o : Z) : Z :=
  if o =? 0x06 then 0x10 else if o =? 0x34 then 0x40 else
  if o =? 0x40 then 0x09 else if o =? 0x41 then 0x50 else
  if o =? 0x50 then 0x10 else if o =? 0x51 then 0x44 else
  if o =? 0x44 then 0x09 else if o =? 0x45 then 0x00 else
  if o =? 0x100 then 0x0B else if o =? 0x102 then 0x02 else 0.

#[local] Instance alloc : PoolEnv unit := fun w => (true, w).
#[local] Instance dev : PciCapDev unit := {|
  ReadConfig w off size := (EFI_SUCCESS, config <$> seqZ off size, w);
  WriteConfig w _ _ := (EFI_SUCCESS, w);
|}.
#[local] Instance OCK : OrderedCollection PCI_CAP_KEY ptr unit ComparePciCapKey :=
  SortedList.collection ComparePciCapKey.
#[local] Instance OCO : OrderedCollection Z ptr unit ComparePciCapOffsetKey :=
  SortedList.collection ComparePciCapOffsetKey.
#[local] Instance LK : OrderedCollectionLaws OCK := SortedList.laws ComparePciCapKey.
#[local] Instance LO : OrderedCollectionLaws OCO := SortedList.laws ComparePciCapOffsetKey.

Definition s0 : st (W:=unit) := mkSt tt ∅ 0 0.
Definition out := PciCapListInit PciCapListInit_fuel s0.

Definition summary : option (list (PCI_CAP_KEY * Z * Z)) :=
  match out with
  | Done (_, Some cl) s =>
      Some (omap (fun e => c ← Pool s !! e.2; Some (Key c, Offset c, MaxSizeHint c))
                 (oc_entries (Capabilities cl)))
  | _ => None
  end.
Example summary_ok : summary = Some [
  (mkKey PciCapNormal 0x09 0, 0x40, 0x04); (mkKey PciCapNormal 0x09 1, 0x44, 0x0C);
  (mkKey PciCapNormal 0x10 0, 0x50, 0xB0); (mkKey PciCapExtended 0x0B 0, 0x100, 0xF00)].
Proof. vm_compute. reflexivity. Qed.

(** The parsed list and the memory that holds it. *)
Definition cl : PCI_CAP_LIST (OCK:=OCK) :=
  match out with Done (_, Some cl) _ => cl | _ => mkList (OCK:=OCK) [] end.
Definition s1 : st (W:=unit) := match out with Done _ s => s | Trap _ => s0 end.

Lemma out_ok : out = Done (EFI_SUCCESS, Some cl) s1.
Proof. vm_compute. reflexivity. Qed.

Lemma find_present : negb (bool_decide (oc_find (Capabilities cl) (mkKey PciCapNormal 0x09 1) = None)) = true.
Proof. vm_compute. reflexivity. Qed.
Lemma find_absent : oc_find (Capabilities cl) (mkKey PciCapNormal 0x09 2) = None.
Proof. vm_compute. reflexivity. Qed.
Lemma find_version : negb (bool_decide (
    match PciCapListFindCapVersion cl PciCapExtended 0x0B 2 s1 with
    | Done (_, r) _ => r | Trap _ => None end = None)) = true.
Proof. vm_compute. reflexivity. Qed.
#[local] Opaque cl s1.

Lemma cl_ok : exists G, CapList_ok ∅ G cl (Pool s1) /\ 2 = occ PciCapNormal 0x09 (g_hdr <$> G).
Proof.
  pose proof (PciCapListInit_spec (OCK:=OCK) (OCO:=OCO) s0) as H.
  apply (wp_Done _ _ _ _ _ out_ok) in H.
  destruct H as (_ & _ & _ & G & HC & _). exists G. split; [exact HC|].
  destruct HC as [R _].
  pose proof find_present as H1. apply negb_true_iff, bool_decide_eq_false in H1.
  pose proof find_absent as H2.
  apply (oc_find_None _ _ (rep_wfC _ _ _ _ R)) in H2.
  apply not_eq_None_Some in H1 as [p E].
  apply (oc_find_spec _ _ _ (rep_wfC _ _ _ _ R)), (entry_ghost _ _ _ _ _ _ R) in E.
  assert (0 <= 1 < occ PciCapNormal 0x09 (g_hdr <$> G)) by (apply (key_present _ _ _ _ _ _ _ R); naive_solver).
  destruct (decide (2 < occ PciCapNormal 0x09 (g_hdr <$> G))) as [Hlt|]; [|lia]. exfalso. apply H2.
  destruct (proj2 (key_present _ _ _ _ PciCapNormal 0x09 2 R)) as (g & Hg & Hk); [lia|].
  apply list_elem_of_fmap. exists (mkKey PciCapNormal 0x09 2, g_ptr g). split; [done|].
  apply (entry_ghost _ _ _ _ _ _ R). eauto.
Qed.

Lemma PciCapListInit_witness :
  LiveLists s1 = 1 /\ exists G, CapList_ok (Pool s0) G cl (Pool s1) /\ capability_list (g_hdr <$> G).
Proof.
  pose proof (PciCapListInit_correct (OCK:=OCK) (OCO:=OCO) s0) as H.
  apply (wp_Done _ _ _ _ _ out_ok) in H. destruct H as (_ & Hl & _ & HG). exact (conj Hl HG).
Defined.

Lemma PciCap_queries_witness :
  exists G g m, CapList_ok ∅ G cl (Pool s1) /\ g ∈ G /\ extent_ok G g m /\
    PciCapListFindCap cl PciCapNormal 0x09 1 = (EFI_SUCCESS, Some (g_ptr g)) /\
    PciCapGetInfo (g_ptr g) s1 =
      Done (EFI_SUCCESS, mkInfo PciCapNormal 0x09 2 1 (g_off g) m (h_ver (g_hdr g))) s1 /\
    exists g', g' ∈ G /\ 2 <= h_ver (g_hdr g') /\
      PciCapListFindCapVersion cl PciCapExtended 0x0B 2 s1 = Done (EFI_SUCCESS, Some (g_ptr g')) s1.
Proof.
  destruct cl_ok as (G & HC & Hn).
  destruct (PciCap_queries ∅ G cl s1 PciCapNormal 0x09 1 0 HC) as (H & _ & Hinfo).
  destruct (PciCap_queries ∅ G cl s1 PciCapExtended 0x0B 0 2 HC) as (_ & Hv & _).
  destruct (PciCapListFindCap cl PciCapNormal 0x09 1) as [Status [p|]]; [|destruct H as (_ & H); lia].
  destruct H as (-> & _ & g & Hg & Hk & <-). destruct (Hinfo g Hg) as (m & Hm & Hi).
  exists G, g, m. split_and!; try assumption; try reflexivity.
  - rewrite Hi. destruct (rep_domain _ _ _ _ g (proj1 HC) Hg) as (Hd & Hid & _). rewrite Hk in *.
    cbn in Hd, Hid. rewrite <-Hd, <-Hid, <-Hn. reflexivity.
  - apply wp_elim in Hv as ([Status r] & s & Hrun & -> & Hv). rewrite Hrun. destruct r as [p|].
    + destruct Hv as (-> & g' & Hg' & _ & <- & Hv & _). exists g'. auto.
    + exfalso. pose proof find_version as Hf. rewrite Hrun in Hf. discriminate.
Defined.

Lemma PciCap_transfer_witness :
  exists G g m, CapList_ok ∅ G cl (Pool s1) /\ g ∈ G /\ extent_ok G g m /\
    PciCapRead (g_ptr g) m 1 s1 = Done (EFI_BAD_BUFFER_SIZE, None) s1.
Proof.
  destruct cl_ok as (G & HC & Hn).
  destruct (proj2 (key_present _ _ _ _ PciCapNormal 0x09 1 (proj1 HC))) as (g & Hg & Hk); [lia|].
  destruct (listed_extent _ _ _ _ _ HC Hg) as (c & Hc & _ & Hm & _).
  assert (0 <= MaxSizeHint c) as H0 by (destruct Hm; lia).
  destruct (PciCap_transfer_confined ∅ G cl s1 g (MaxSizeHint c) 1 [] HC Hg H0 ltac:(lia))
    as (m & Hm' & Hr & _).
  exists G, g, m. split_and!; try assumption.
  destruct (PciCap_transfer_confined ∅ G cl s1 g m 1 [] HC Hg ltac:(destruct Hm'; lia) ltac:(lia))
    as (m2 & Hm2 & Hr2 & _).
  rewrite Hr2. rewrite (extent_unique G g m m2 Hm' Hm2), (proj2 (Z.ltb_lt m2 (m2 + 1))) by lia.
  reflexivity.
Defined.

End Example.
