(* ===== verification/PciConfig.v ===== *)
(** * PCI configuration accesses

    BaseCachingPciExpressLib/PciExpressLib.c reaches the configuration space
    of every PCI function through the memory mapped ECAM window, with the MMIO
    functions of IoLib.  DxePciLibI440FxQ35/PciLib.c chooses between a PCI
    Express library and a PCI CF8 library once and for all.  All of them, and
    IoLib itself, offer the same operations on registers of 1, 2 or 4 bytes:
    [RegOps], with the contract [reg_contract]. *)
From S2P Require Import Prelude Bytes Memory.

(** ** The interface

    Widths [n] are in bytes. *)
Record RegOps (S : Type) : Type := mkReg {
  reg_read : Z -> Z -> M S Z;                    (* n, address *)
  reg_write : Z -> Z -> Z -> M S Z;              (* n, address, value *)
  reg_or : Z -> Z -> Z -> M S Z;
  reg_and : Z -> Z -> Z -> M S Z;
  reg_and_then_or : Z -> Z -> Z -> Z -> M S Z;
  reg_field_read : Z -> Z -> Z -> Z -> M S Z;    (* n, address, first and last bit *)
  reg_field_write : Z -> Z -> Z -> Z -> Z -> M S Z;
  reg_field_or : Z -> Z -> Z -> Z -> Z -> M S Z;
  reg_field_and : Z -> Z -> Z -> Z -> Z -> M S Z;
  reg_field_and_then_or : Z -> Z -> Z -> Z -> Z -> Z -> M S Z;
}.
Arguments reg_read {S}. Arguments reg_write {S}. Arguments reg_or {S}. Arguments reg_and {S}.
Arguments reg_and_then_or {S}. Arguments reg_field_read {S}. Arguments reg_field_write {S}.
Arguments reg_field_or {S}. Arguments reg_field_and {S}. Arguments reg_field_and_then_or {S}.

(** Buffers: what is read is returned next to the size ([nonnull]: the caller
    gave a buffer); what is written is the buffer's contents, [None]: NULL. *)
Record PciOps (S : Type) : Type := mkPci {
  pci_regs : RegOps S;
  pci_register : Z -> M S EFI_STATUS;
  pci_read_buffer : Z -> Z -> bool -> M S (Z * list Z);
  pci_write_buffer : Z -> Z -> option (list Z) -> M S Z;
}.
Arguments pci_regs {S}. Arguments pci_register {S}. Arguments pci_read_buffer {S}. Arguments pci_write_buffer {S}.

Definition by_width {A} (n : Z) (f8 f16 f32 : A) : A := if n =? 1 then f8 else if n =? 2 then f16 else f32.

(** ** PciExpressLib.c *)
Module Express.
Section PciExpressLib.
Context {W : Type} (IoLib : RegOps W) (PcdPciExpressBaseAddress : Z).

(** The library's static variable, and the machine. *)
Record st : Type := mkSt { mPciExpressBaseAddress : Z; Env : W }.
Definition mmio {A} (m : M W A) : M st A := fun s =>
  match m (Env s) with Done a w => Done a (mkSt (mPciExpressBaseAddress s) w) | Trap t => Trap t end.

Definition ASSERT_INVALID_PCI_ADDRESS (A : Z) : M st unit :=
  ASSERT (Z.land A (u64 (Z.lnot 0xfffffff)) =? 0).

Definition PciExpressRegisterForRuntimeAccess (Address : Z) : M st EFI_STATUS :=
  ASSERT_INVALID_PCI_ADDRESS Address;; mret EFI_UNSUPPORTED.
Definition PciExpressLibInitialize : M st EFI_STATUS :=
  modify (fun s => mkSt PcdPciExpressBaseAddress (Env s));; mret EFI_SUCCESS.
Definition GetPciExpressBaseAddress : M st Z := gets mPciExpressBaseAddress.

(** *** 8-bit registers *)
Definition PciExpressRead8 (Address : Z) : M st Z :=
  ASSERT_INVALID_PCI_ADDRESS Address;;
  Base ← GetPciExpressBaseAddress; mmio (reg_read IoLib 1 (u64 (Base + Address))).
Definition PciExpressWrite8 (Address Value : Z) : M st Z :=
  ASSERT_INVALID_PCI_ADDRESS Address;;
  Base ← GetPciExpressBaseAddress; mmio (reg_write IoLib 1 (u64 (Base + Address)) Value).
Definition PciExpressOr8 (Address OrData : Z) : M st Z :=
  ASSERT_INVALID_PCI_ADDRESS Address;;
  Base ← GetPciExpressBaseAddress; mmio (reg_or IoLib 1 (u64 (Base + Address)) OrData).
Definition PciExpressAnd8 (Address AndData : Z) : M st Z :=
  ASSERT_INVALID_PCI_ADDRESS Address;;
  Base ← GetPciExpressBaseAddress; mmio (reg_and IoLib 1 (u64 (Base + Address)) AndData).
Definition PciExpressAndThenOr8 (Address AndData OrData : Z) : M st Z :=
  ASSERT_INVALID_PCI_ADDRESS Address;;
  Base ← GetPciExpressBaseAddress; mmio (reg_and_then_or IoLib 1 (u64 (Base + Address)) AndData OrData).
Definition PciExpressBitFieldRead8 (Address StartBit EndBit : Z) : M st Z :=
  ASSERT_INVALID_PCI_ADDRESS Address;;
  Base ← GetPciExpressBaseAddress; mmio (reg_field_read IoLib 1 (u64 (Base + Address)) StartBit EndBit).
Definition PciExpressBitFieldWrite8 (Address StartBit EndBit Value : Z) : M st Z :=
  ASSERT_INVALID_PCI_ADDRESS Address;;
  Base ← GetPciExpressBaseAddress; mmio (reg_field_write IoLib 1 (u64 (Base + Address)) StartBit EndBit Value).
Definition PciExpressBitFieldOr8 (Address StartBit EndBit OrData : Z) : M st Z :=
  ASSERT_INVALID_PCI_ADDRESS Address;;
  Base ← GetPciExpressBaseAddress; mmio (reg_field_or IoLib 1 (u64 (Base + Address)) StartBit EndBit OrData).
Definition PciExpressBitFieldAnd8 (Address StartBit EndBit AndData : Z) : M st Z :=
  ASSERT_INVALID_PCI_ADDRESS Address;;
  Base ← GetPciExpressBaseAddress; mmio (reg_field_and IoLib 1 (u64 (Base + Address)) StartBit EndBit AndData).
Definition PciExpressBitFieldAndThenOr8 (Address StartBit EndBit AndData OrData : Z) : M st Z :=
  ASSERT_INVALID_PCI_ADDRESS Address;;
  Base ← GetPciExpressBaseAddress;
  mmio (reg_field_and_then_or IoLib 1 (u64 (Base + Address)) StartBit EndBit AndData OrData).

(** *** 16-bit registers *)
Definition PciExpressRead16 (Address : Z) : M st Z :=
  ASSERT_INVALID_PCI_ADDRESS Address;;
  Base ← GetPciExpressBaseAddress; mmio (reg_read IoLib 2 (u64 (Base + Address))).
Definition PciExpressWrite16 (Address Value : Z) : M st Z :=
  ASSERT_INVALID_PCI_ADDRESS Address;;
  Base ← GetPciExpressBaseAddress; mmio (reg_write IoLib 2 (u64 (Base + Address)) Value).
Definition PciExpressOr16 (Address OrData : Z) : M st Z :=
  ASSERT_INVALID_PCI_ADDRESS Address;;
  Base ← GetPciExpressBaseAddress; mmio (reg_or IoLib 2 (u64 (Base + Address)) OrData).
Definition PciExpressAnd16 (Address AndData : Z) : M st Z :=
  ASSERT_INVALID_PCI_ADDRESS Address;;
  Base ← GetPciExpressBaseAddress; mmio (reg_and IoLib 2 (u64 (Base + Address)) AndData).
Definition PciExpressAndThenOr16 (Address AndData OrData : Z) : M st Z :=
  ASSERT_INVALID_PCI_ADDRESS Address;;
  Base ← GetPciExpressBaseAddress; mmio (reg_and_then_or IoLib 2 (u64 (Base + Address)) AndData OrData).
Definition PciExpressBitFieldRead16 (Address StartBit EndBit : Z) : M st Z :=
  ASSERT_INVALID_PCI_ADDRESS Address;;
  Base ← GetPciExpressBaseAddress; mmio (reg_field_read IoLib 2 (u64 (Base + Address)) StartBit EndBit).
Definition PciExpressBitFieldWrite16 (Address StartBit EndBit Value : Z) : M st Z :=
  ASSERT_INVALID_PCI_ADDRESS Address;;
  Base ← GetPciExpressBaseAddress; mmio (reg_field_write IoLib 2 (u64 (Base + Address)) StartBit EndBit Value).
Definition PciExpressBitFieldOr16 (Address StartBit EndBit OrData : Z) : M st Z :=
  ASSERT_INVALID_PCI_ADDRESS Address;;
  Base ← GetPciExpressBaseAddress; mmio (reg_field_or IoLib 2 (u64 (Base + Address)) StartBit EndBit OrData).
Definition PciExpressBitFieldAnd16 (Address StartBit EndBit AndData : Z) : M st Z :=
  ASSERT_INVALID_PCI_ADDRESS Address;;
  Base ← GetPciExpressBaseAddress; mmio (reg_field_and IoLib 2 (u64 (Base + Address)) StartBit EndBit AndData).
Definition PciExpressBitFieldAndThenOr16 (Address StartBit EndBit AndData OrData : Z) : M st Z :=
  ASSERT_INVALID_PCI_ADDRESS Address;;
  Base ← GetPciExpressBaseAddress;
  mmio (reg_field_and_then_or IoLib 2 (u64 (Base + Address)) StartBit EndBit AndData OrData).

(** *** 32-bit registers *)
Definition PciExpressRead32 (Address : Z) : M st Z :=
  ASSERT_INVALID_PCI_ADDRESS Address;;
  Base ← GetPciExpressBaseAddress; mmio (reg_read IoLib 4 (u64 (Base + Address))).
Definition PciExpressWrite32 (Address Value : Z) : M st Z :=
  ASSERT_INVALID_PCI_ADDRESS Address;;
  Base ← GetPciExpressBaseAddress; mmio (reg_write IoLib 4 (u64 (Base + Address)) Value).
Definition PciExpressOr32 (Address OrData : Z) : M st Z :=
  ASSERT_INVALID_PCI_ADDRESS Address;;
  Base ← GetPciExpressBaseAddress; mmio (reg_or IoLib 4 (u64 (Base + Address)) OrData).
Definition PciExpressAnd32 (Address AndData : Z) : M st Z :=
  ASSERT_INVALID_PCI_ADDRESS Address;;
  Base ← GetPciExpressBaseAddress; mmio (reg_and IoLib 4 (u64 (Base + Address)) AndData).
Definition PciExpressAndThenOr32 (Address AndData OrData : Z) : M st Z :=
  ASSERT_INVALID_PCI_ADDRESS Address;;
  Base ← GetPciExpressBaseAddress; mmio (reg_and_then_or IoLib 4 (u64 (Base + Address)) AndData OrData).
Definition PciExpressBitFieldRead32 (Address StartBit EndBit : Z) : M st Z :=
  ASSERT_INVALID_PCI_ADDRESS Address;;
  Base ← GetPciExpressBaseAddress; mmio (reg_field_read IoLib 4 (u64 (Base + Address)) StartBit EndBit).
Definition PciExpressBitFieldWrite32 (Address StartBit EndBit Value : Z) : M st Z :=
  ASSERT_INVALID_PCI_ADDRESS Address;;
  Base ← GetPciExpressBaseAddress; mmio (reg_field_write IoLib 4 (u64 (Base + Address)) StartBit EndBit Value).
Definition PciExpressBitFieldOr32 (Address StartBit EndBit OrData : Z) : M st Z :=
  ASSERT_INVALID_PCI_ADDRESS Address;;
  Base ← GetPciExpressBaseAddress; mmio (reg_field_or IoLib 4 (u64 (Base + Address)) StartBit EndBit OrData).
Definition PciExpressBitFieldAnd32 (Address StartBit EndBit AndData : Z) : M st Z :=
  ASSERT_INVALID_PCI_ADDRESS Address;;
  Base ← GetPciExpressBaseAddress; mmio (reg_field_and IoLib 4 (u64 (Base + Address)) StartBit EndBit AndData).
Definition PciExpressBitFieldAndThenOr32 (Address StartBit EndBit AndData OrData : Z) : M st Z :=
  ASSERT_INVALID_PCI_ADDRESS Address;;
  Base ← GetPciExpressBaseAddress;
  mmio (reg_field_and_then_or IoLib 4 (u64 (Base + Address)) StartBit EndBit AndData OrData).

(** *** Buffers

    The C code moves [StartAddress], [Size] and [Buffer] along; so do the
    arguments of these definitions.  [Buffer] grows at its end when read
    into, and shrinks at its front when written from. *)

(** [while (Size >= sizeof (UINT32))] *)
Fixpoint ReadDwords (fuel : nat) (StartAddress Size : Z) (Buffer : list Z) : M st (Z * Z * list Z) :=
  if 4 <=? Size then
    match fuel with
    | O => trapped OutOfFuel
    | S fuel =>
        v ← PciExpressRead32 StartAddress;
        ReadDwords fuel (StartAddress + 4) (Size - 4) (Buffer ++ le_split 4 v)
    end
  else mret (StartAddress, Size, Buffer).

Definition ReadWordIf (c : bool) (StartAddress Size : Z) (Buffer : list Z) : M st (Z * Z * list Z) :=
  if c then
    v ← PciExpressRead16 StartAddress;
    mret (StartAddress + 2, Size - 2, Buffer ++ le_split 2 v)
  else mret (StartAddress, Size, Buffer).

Definition PciExpressReadBuffer (fuel : nat) (StartAddress Size : Z) (nonnull : bool) : M st (Z * list Z) :=
  ASSERT_INVALID_PCI_ADDRESS StartAddress;;
  ASSERT (u64 (Z.land StartAddress 0xFFF + Size) <=? 0x1000);;
  if Size =? 0 then mret (Size, []) else
  ASSERT nonnull;;
  let ReturnValue := Size in
  '(StartAddress, Size, Buffer) ← (if negb (Z.land StartAddress 1 =? 0) then
       v ← PciExpressRead8 StartAddress; mret (StartAddress + 1, Size - 1, le_split 1 v)
     else mret (StartAddress, Size, []));
  '(StartAddress, Size, Buffer) ←
    ReadWordIf ((2 <=? Size) && negb (Z.land StartAddress 2 =? 0)) StartAddress Size Buffer;
  '(StartAddress, Size, Buffer) ← ReadDwords fuel StartAddress Size Buffer;
  '(StartAddress, Size, Buffer) ← ReadWordIf (2 <=? Size) StartAddress Size Buffer;
  if 1 <=? Size then
    v ← PciExpressRead8 StartAddress; mret (ReturnValue, Buffer ++ le_split 1 v)
  else mret (ReturnValue, Buffer).

(** The next [n] bytes of the caller's buffer. *)
Definition fetch (n : nat) (Buffer : list Z) : M st (Z * list Z) :=
  if (n <=? length Buffer)%nat then mret (le_combine (take n Buffer), drop n Buffer) else trapped BadPointer.

Fixpoint WriteDwords (fuel : nat) (StartAddress Size : Z) (Buffer : list Z) : M st (Z * Z * list Z) :=
  if 4 <=? Size then
    match fuel with
    | O => trapped OutOfFuel
    | S fuel =>
        '(v, Buffer) ← fetch 4 Buffer;
        PciExpressWrite32 StartAddress v;;
        WriteDwords fuel (StartAddress + 4) (Size - 4) Buffer
    end
  else mret (StartAddress, Size, Buffer).

Definition WriteWordIf (c : bool) (StartAddress Size : Z) (Buffer : list Z) : M st (Z * Z * list Z) :=
  if c then
    '(v, Buffer) ← fetch 2 Buffer;
    PciExpressWrite16 StartAddress v;;
    mret (StartAddress + 2, Size - 2, Buffer)
  else mret (StartAddress, Size, Buffer).

Definition PciExpressWriteBuffer (fuel : nat) (StartAddress Size : Z) (Buffer : option (list Z)) : M st Z :=
  ASSERT_INVALID_PCI_ADDRESS StartAddress;;
  ASSERT (u64 (Z.land StartAddress 0xFFF + Size) <=? 0x1000);;
  if Size =? 0 then mret 0 else
  match Buffer with
  | None => trapped AssertFailed
  | Some Buffer =>
      let ReturnValue := Size in
      '(StartAddress, Size, Buffer) ← (if negb (Z.land StartAddress 1 =? 0) then
           '(v, Buffer) ← fetch 1 Buffer;
           PciExpressWrite8 StartAddress v;;
           mret (StartAddress + 1, Size - 1, Buffer)
         else mret (StartAddress, Size, Buffer));
      '(StartAddress, Size, Buffer) ←
        WriteWordIf ((2 <=? Size) && negb (Z.land StartAddress 2 =? 0)) StartAddress Size Buffer;
      '(StartAddress, Size, Buffer) ← WriteDwords fuel StartAddress Size Buffer;
      '(StartAddress, Size, Buffer) ← WriteWordIf (2 <=? Size) StartAddress Size Buffer;
      if 1 <=? Size then
        '(v, Buffer) ← fetch 1 Buffer; PciExpressWrite8 StartAddress v;; mret ReturnValue
      else mret ReturnValue
  end.

(** A transfer stays inside a function's 4096 bytes of registers: at most
    1024 double words. *)
Definition buffer_fuel : nat := 1024.

Definition regs : RegOps st := mkReg st
  (fun n => by_width n PciExpressRead8 PciExpressRead16 PciExpressRead32)
  (fun n => by_width n PciExpressWrite8 PciExpressWrite16 PciExpressWrite32)
  (fun n => by_width n PciExpressOr8 PciExpressOr16 PciExpressOr32)
  (fun n => by_width n PciExpressAnd8 PciExpressAnd16 PciExpressAnd32)
  (fun n => by_width n PciExpressAndThenOr8 PciExpressAndThenOr16 PciExpressAndThenOr32)
  (fun n => by_width n PciExpressBitFieldRead8 PciExpressBitFieldRead16 PciExpressBitFieldRead32)
  (fun n => by_width n PciExpressBitFieldWrite8 PciExpressBitFieldWrite16 PciExpressBitFieldWrite32)
  (fun n => by_width n PciExpressBitFieldOr8 PciExpressBitFieldOr16 PciExpressBitFieldOr32)
  (fun n => by_width n PciExpressBitFieldAnd8 PciExpressBitFieldAnd16 PciExpressBitFieldAnd32)
  (fun n => by_width n PciExpressBitFieldAndThenOr8 PciExpressBitFieldAndThenOr16 PciExpressBitFieldAndThenOr32).
Definition library : PciOps st := mkPci st regs PciExpressRegisterForRuntimeAccess
  (PciExpressReadBuffer buffer_fuel) (PciExpressWriteBuffer buffer_fuel).
End PciExpressLib.
End Express.

(** ** PciLib.c *)
Module Lib.
Section PciLib.
Context {T : Type} (PciExpress PciCf8 : PciOps T) (PcdOvmfHostBridgePciDevId : Z).

(** The library's static variable, and the state of the libraries below. *)
Record st : Type := mkSt { mRunningOnQ35 : bool; Sub : T }.
Definition below {A} (m : M T A) : M st A := fun s =>
  match m (Sub s) with Done a w => Done a (mkSt (mRunningOnQ35 s) w) | Trap t => Trap t end.
Definition INTEL_Q35_MCH_DEVICE_ID : Z := 0x29C0.

Definition InitializeConfigAccessMethod : M st EFI_STATUS :=
  modify (fun s => mkSt (PcdOvmfHostBridgePciDevId =? INTEL_Q35_MCH_DEVICE_ID) (Sub s));; mret EFI_SUCCESS.

(** [mRunningOnQ35 ? Express : Cf8] *)
Definition choose {A} (Express Cf8 : M T A) : M st A :=
  q ← gets mRunningOnQ35; below (if q : bool then Express else Cf8).

Definition PciRegisterForRuntimeAccess (Address : Z) : M st EFI_STATUS :=
  choose (pci_register PciExpress Address) (pci_register PciCf8 Address).

Local Abbreviation E := (pci_regs PciExpress).
Local Abbreviation C := (pci_regs PciCf8).

(** *** 8-bit registers *)
Definition PciRead8 (Address : Z) : M st Z :=
  choose (reg_read E 1 Address) (reg_read C 1 Address).
Definition PciWrite8 (Address Value : Z) : M st Z :=
  choose (reg_write E 1 Address Value) (reg_write C 1 Address Value).
Definition PciOr8 (Address OrData : Z) : M st Z :=
  choose (reg_or E 1 Address OrData) (reg_or C 1 Address OrData).
Definition PciAnd8 (Address AndData : Z) : M st Z :=
  choose (reg_and E 1 Address AndData) (reg_and C 1 Address AndData).
Definition PciAndThenOr8 (Address AndData OrData : Z) : M st Z :=
  choose (reg_and_then_or E 1 Address AndData OrData) (reg_and_then_or C 1 Address AndData OrData).
Definition PciBitFieldRead8 (Address StartBit EndBit : Z) : M st Z :=
  choose (reg_field_read E 1 Address StartBit EndBit) (reg_field_read C 1 Address StartBit EndBit).
Definition PciBitFieldWrite8 (Address StartBit EndBit Value : Z) : M st Z :=
  choose (reg_field_write E 1 Address StartBit EndBit Value) (reg_field_write C 1 Address StartBit EndBit Value).
Definition PciBitFieldOr8 (Address StartBit EndBit OrData : Z) : M st Z :=
  choose (reg_field_or E 1 Address StartBit EndBit OrData) (reg_field_or C 1 Address StartBit EndBit OrData).
Definition PciBitFieldAnd8 (Address StartBit EndBit AndData : Z) : M st Z :=
  choose (reg_field_and E 1 Address StartBit EndBit AndData) (reg_field_and C 1 Address StartBit EndBit AndData).
Definition PciBitFieldAndThenOr8 (Address StartBit EndBit AndData OrData : Z) : M st Z :=
  choose (reg_field_and_then_or E 1 Address StartBit EndBit AndData OrData) (reg_field_and_then_or C 1 Address StartBit EndBit AndData OrData).

(** *** 16-bit registers *)
Definition PciRead16 (Address : Z) : M st Z :=
  choose (reg_read E 2 Address) (reg_read C 2 Address).
Definition PciWrite16 (Address Value : Z) : M st Z :=
  choose (reg_write E 2 Address Value) (reg_write C 2 Address Value).
Definition PciOr16 (Address OrData : Z) : M st Z :=
  choose (reg_or E 2 Address OrData) (reg_or C 2 Address OrData).
Definition PciAnd16 (Address AndData : Z) : M st Z :=
  choose (reg_and E 2 Address AndData) (reg_and C 2 Address AndData).
Definition PciAndThenOr16 (Address AndData OrData : Z) : M st Z :=
  choose (reg_and_then_or E 2 Address AndData OrData) (reg_and_then_or C 2 Address AndData OrData).
Definition PciBitFieldRead16 (Address StartBit EndBit : Z) : M st Z :=
  choose (reg_field_read E 2 Address StartBit EndBit) (reg_field_read C 2 Address StartBit EndBit).
Definition PciBitFieldWrite16 (Address StartBit EndBit Value : Z) : M st Z :=
  choose (reg_field_write E 2 Address StartBit EndBit Value) (reg_field_write C 2 Address StartBit EndBit Value).
Definition PciBitFieldOr16 (Address StartBit EndBit OrData : Z) : M st Z :=
  choose (reg_field_or E 2 Address StartBit EndBit OrData) (reg_field_or C 2 Address StartBit EndBit OrData).
Definition PciBitFieldAnd16 (Address StartBit EndBit AndData : Z) : M st Z :=
  choose (reg_field_and E 2 Address StartBit EndBit AndData) (reg_field_and C 2 Address StartBit EndBit AndData).
Definition PciBitFieldAndThenOr16 (Address StartBit EndBit AndData OrData : Z) : M st Z :=
  choose (reg_field_and_then_or E 2 Address StartBit EndBit AndData OrData) (reg_field_and_then_or C 2 Address StartBit EndBit AndData OrData).

(** *** 32-bit registers *)
Definition PciRead32 (Address : Z) : M st Z :=
  choose (reg_read E 4 Address) (reg_read C 4 Address).
Definition PciWrite32 (Address Value : Z) : M st Z :=
  choose (reg_write E 4 Address Value) (reg_write C 4 Address Value).
Definition PciOr32 (Address OrData : Z) : M st Z :=
  choose (reg_or E 4 Address OrData) (reg_or C 4 Address OrData).
Definition PciAnd32 (Address AndData : Z) : M st Z :=
  choose (reg_and E 4 Address AndData) (reg_and C 4 Address AndData).
Definition PciAndThenOr32 (Address AndData OrData : Z) : M st Z :=
  choose (reg_and_then_or E 4 Address AndData OrData) (reg_and_then_or C 4 Address AndData OrData).
Definition PciBitFieldRead32 (Address StartBit EndBit : Z) : M st Z :=
  choose (reg_field_read E 4 Address StartBit EndBit) (reg_field_read C 4 Address StartBit EndBit).
Definition PciBitFieldWrite32 (Address StartBit EndBit Value : Z) : M st Z :=
  choose (reg_field_write E 4 Address StartBit EndBit Value) (reg_field_write C 4 Address StartBit EndBit Value).
Definition PciBitFieldOr32 (Address StartBit EndBit OrData : Z) : M st Z :=
  choose (reg_field_or E 4 Address StartBit EndBit OrData) (reg_field_or C 4 Address StartBit EndBit OrData).
Definition PciBitFieldAnd32 (Address StartBit EndBit AndData : Z) : M st Z :=
  choose (reg_field_and E 4 Address StartBit EndBit AndData) (reg_field_and C 4 Address StartBit EndBit AndData).
Definition PciBitFieldAndThenOr32 (Address StartBit EndBit AndData OrData : Z) : M st Z :=
  choose (reg_field_and_then_or E 4 Address StartBit EndBit AndData OrData) (reg_field_and_then_or C 4 Address StartBit EndBit AndData OrData).

Definition PciReadBuffer (StartAddress Size : Z) (nonnull : bool) : M st (Z * list Z) :=
  choose (pci_read_buffer PciExpress StartAddress Size nonnull) (pci_read_buffer PciCf8 StartAddress Size nonnull).
Definition PciWriteBuffer (StartAddress Size : Z) (Buffer : option (list Z)) : M st Z :=
  choose (pci_write_buffer PciExpress StartAddress Size Buffer) (pci_write_buffer PciCf8 StartAddress Size Buffer).

Definition regs : RegOps st := mkReg st
  (fun n => by_width n PciRead8 PciRead16 PciRead32)
  (fun n => by_width n PciWrite8 PciWrite16 PciWrite32)
  (fun n => by_width n PciOr8 PciOr16 PciOr32)
  (fun n => by_width n PciAnd8 PciAnd16 PciAnd32)
  (fun n => by_width n PciAndThenOr8 PciAndThenOr16 PciAndThenOr32)
  (fun n => by_width n PciBitFieldRead8 PciBitFieldRead16 PciBitFieldRead32)
  (fun n => by_width n PciBitFieldWrite8 PciBitFieldWrite16 PciBitFieldWrite32)
  (fun n => by_width n PciBitFieldOr8 PciBitFieldOr16 PciBitFieldOr32)
  (fun n => by_width n PciBitFieldAnd8 PciBitFieldAnd16 PciBitFieldAnd32)
  (fun n => by_width n PciBitFieldAndThenOr8 PciBitFieldAndThenOr16 PciBitFieldAndThenOr32).
Definition library : PciOps st := mkPci st regs PciRegisterForRuntimeAccess PciReadBuffer PciWriteBuffer.
End PciLib.
End Lib.
