(* ===== verification/PciConfigProofs.v ===== *)
(** * PCI configuration accesses: the contract, and who meets it *)
From S2P Require Import Prelude Bytes Memory PciConfig.

(** ** The contract of register accesses *)
Definition width (n : Z) : Prop := n = 1 \/ n = 2 \/ n = 4.
Definition in_width (n v : Z) : Prop := 0 <= v < 256 ^ n.
Definition field_ok (n b e : Z) : bool := (0 <=? b) && (b <=? e) && (e <? 8 * n).
Definition field_fits (b e v : Z) : bool := v <? 2 ^ (e - b + 1).
Definition field_get (r b e : Z) : Z := Z.land (Z.shiftr r b) (Z.ones (e - b + 1)).
Definition field_mask (b e : Z) : Z := Z.shiftl (Z.ones (e - b + 1)) b.
Definition field_set (r b e v : Z) : Z := Z.lor (Z.ldiff r (field_mask b e)) (Z.shiftl v b).

Section contract.
Context {T : Type} (ok : Z -> Z -> bool) (I : T -> Prop) (R : RegOps T).

Definition rmw (n a : Z) (f : Z -> Z) : M T Z := v ← reg_read R n a; reg_write R n a (f v).

(** [ok n a]: the register's address is valid.  Invalid ones are refused by an
    assertion; a valid one is read and written; the other operations are one
    read, with the named computation, and one write, or fail the assertion on
    their bit field. *)
Record reg_contract : Prop := {
  rc_read_bad n a s : I s -> width n -> is_u64 a -> ok n a = false -> reg_read R n a s = Trap AssertFailed;
  rc_write_bad n a v s : I s -> width n -> is_u64 a -> in_width n v -> ok n a = false ->
    reg_write R n a v s = Trap AssertFailed;
  rc_read n a s : I s -> width n -> is_u64 a -> ok n a = true ->
    wp (reg_read R n a) (fun v s' => in_width n v /\ I s') s;
  rc_write n a v s : I s -> width n -> is_u64 a -> in_width n v -> ok n a = true ->
    wp (reg_write R n a v) (fun r s' => r = v /\ I s') s;
  rc_or n a d s : I s -> width n -> is_u64 a -> in_width n d ->
    reg_or R n a d s = rmw n a (fun r => Z.lor r d) s;
  rc_and n a d s : I s -> width n -> is_u64 a -> in_width n d ->
    reg_and R n a d s = rmw n a (fun r => Z.land r d) s;
  rc_and_then_or n a d o s : I s -> width n -> is_u64 a -> in_width n d -> in_width n o ->
    reg_and_then_or R n a d o s = rmw n a (fun r => Z.lor (Z.land r d) o) s;
  rc_field_read n a b e s : I s -> width n -> is_u64 a ->
    reg_field_read R n a b e s = (ASSERT (field_ok n b e);; v ← reg_read R n a; mret (field_get v b e)) s;
  rc_field_write n a b e v s : I s -> width n -> is_u64 a -> in_width n v ->
    reg_field_write R n a b e v s =
      (ASSERT (field_ok n b e && field_fits b e v);; rmw n a (fun r => field_set r b e v)) s;
  rc_field_or n a b e v s : I s -> width n -> is_u64 a -> in_width n v ->
    reg_field_or R n a b e v s =
      (ASSERT (field_ok n b e && field_fits b e v);;
       rmw n a (fun r => field_set r b e (Z.lor (field_get r b e) v))) s;
  rc_field_and n a b e v s : I s -> width n -> is_u64 a -> in_width n v ->
    reg_field_and R n a b e v s =
      (ASSERT (field_ok n b e && field_fits b e v);;
       rmw n a (fun r => field_set r b e (Z.land (field_get r b e) v))) s;
  rc_field_and_then_or n a b e v o s : I s -> width n -> is_u64 a -> in_width n v -> in_width n o ->
    reg_field_and_then_or R n a b e v o s =
      (ASSERT (field_ok n b e && field_fits b e v && field_fits b e o);;
       rmw n a (fun r => field_set r b e (Z.lor (Z.land (field_get r b e) v) o))) s;
}.

(** ** Buffers: the widest aligned access that fits, one after the other *)
Definition widest (a n : Z) : Z :=
  if (a mod 4 =? 0) && (4 <=? n) then 4 else if (a mod 2 =? 0) && (2 <=? n) then 2 else 1.
Fixpoint cycles_upto (k : nat) (a n : Z) : list (Z * Z) :=
  match k with
  | O => []
  | S k => if n <=? 0 then [] else (a, widest a n) :: cycles_upto k (a + widest a n) (n - widest a n)
  end.
Definition cycles (a n : Z) : list (Z * Z) := cycles_upto (Z.to_nat n) a n.

Fixpoint read_all (l : list (Z * Z)) : M T (list Z) :=
  match l with
  | [] => mret []
  | (a, w) :: l => v ← reg_read R w a; bs ← read_all l; mret (le_split (Z.to_nat w) v ++ bs)
  end.
Fixpoint write_all (l : list (Z * Z)) (data : list Z) : M T unit :=
  match l with
  | [] => mret tt
  | (a, w) :: l =>
      if (Z.to_nat w <=? length data)%nat then
        reg_write R w a (le_combine (take (Z.to_nat w) data));;
        write_all l (drop (Z.to_nat w) data)
      else trapped BadPointer
  end.
End contract.

(** A PCI library whose functions have [limit] bytes of registers each. *)
Definition config_ok (limit n a : Z) : bool :=
  (a <=? 0xfffffff) && (a mod 4096 + n <=? limit) && (a mod n =? 0).
Record pci_contract {S} (limit : Z) (I : S -> Prop) (P : PciOps S) : Prop := {
  pc_limit : limit <= 4096;
  pc_regs : reg_contract (config_ok limit) I (pci_regs P);
  pc_read_buffer a n nonnull s : I s -> is_u64 a -> is_u64 n -> a mod 4096 + n < 2 ^ 64 ->
    pci_read_buffer P a n nonnull s =
      (ASSERT (a <=? 0xfffffff);; ASSERT (a mod 4096 + n <=? limit);;
       if n =? 0 then mret (0, []) else
       ASSERT nonnull;; bs ← read_all (pci_regs P) (cycles a n); mret (n, bs)) s;
  pc_write_buffer a n data s : I s -> is_u64 a -> is_u64 n -> Forall is_byte (default [] data) -> a mod 4096 + n < 2 ^ 64 ->
    pci_write_buffer P a n data s =
      (ASSERT (a <=? 0xfffffff);; ASSERT (a mod 4096 + n <=? limit);;
       if n =? 0 then mret 0 else
       match data with
       | None => trapped AssertFailed
       | Some data => write_all (pci_regs P) (cycles a n) data;; mret n
       end) s;
}.

(** ** Plans *)
Lemma widest_width a n : 0 < n -> width (widest a n) /\ widest a n <= n /\ a mod widest a n = 0.
Proof.
  intros Hn. unfold widest, width. destruct (Z.eqb_spec (a mod 4) 0), (Z.leb_spec 4 n); cbn; [lia| | |];
    (destruct (Z.eqb_spec (a mod 2) 0), (Z.leb_spec 2 n); cbn; rewrite ?Z.mod_1_r; lia).
Qed.
Lemma cycles_fuel k a n : n <= Z.of_nat k -> cycles_upto k a n = cycles a n.
Proof.
  unfold cycles. assert (forall j a n, n <= Z.of_nat j -> forall i, n <= Z.of_nat i -> cycles_upto j a n = cycles_upto i a n) as H.
  { induction j as [|j IH]; intros a' m Hj [|i] Hi; cbn; try done.
    1,2: destruct (Z.leb_spec m 0); [done|lia].
    destruct (Z.leb_spec m 0); [done|]. f_equal.
    pose proof (widest_width a' m ltac:(lia)) as ([->|[->| ->]] & ? & _); apply IH; lia. }
  intros Hk. apply H; [done|lia].
Qed.
Lemma cycles_nil a n : n <= 0 -> cycles a n = [].
Proof. intros. unfold cycles. rewrite Z2Nat.nonpos by done. done. Qed.
Lemma cycles_cons a n : 0 < n -> cycles a n = (a, widest a n) :: cycles (a + widest a n) (n - widest a n).
Proof.
  intros Hn. rewrite <-(cycles_fuel (S (Z.to_nat n))) by lia. cbn.
  rewrite (proj2 (Z.leb_gt n 0)) by done. f_equal. apply cycles_fuel.
  pose proof (widest_width a n Hn) as ([->|[->| ->]] & ? & _); lia.
Qed.
(** Induction on what is left of a transfer. *)
Lemma cycles_ind (P : Z -> Z -> Prop) :
  (forall a, P a 0) ->
  (forall a n, 0 < n -> P (a + widest a n) (n - widest a n) -> P a n) -> forall n a, 0 <= n -> P a n.
Proof.
  intros H0 HS n a Hn. revert a. pattern n. apply Zlt_0_ind; [|done]. clear n Hn.
  intros n IH Hn a. destruct (Z.eq_dec n 0) as [->|]; [apply H0|].
  apply HS; [lia|]. pose proof (widest_width a n ltac:(lia)) as ([->|[->| ->]] & ? & _); apply IH; lia.
Qed.

(** The plan covers the range in order without gap or overlap, by aligned
    accesses. *)
Inductive covers : Z -> Z -> list (Z * Z) -> Prop :=
  | covers_nil a : covers a 0 []
  | covers_cons a n w l : width w -> a mod w = 0 -> w <= n -> covers (a + w) (n - w) l -> covers a n ((a, w) :: l).
Lemma cycles_cover n a : 0 <= n -> covers a n (cycles a n).
Proof.
  apply (cycles_ind (fun a n => covers a n (cycles a n))).
  - intros. rewrite cycles_nil by done. constructor.
  - intros a' m Hm IH. rewrite cycles_cons by done. pose proof (widest_width a' m Hm) as (? & ? & ?).
    by constructor.
Qed.

(** A double word inside the range is one access: at most three are narrower
    before the first, or after the last. *)
Lemma cycles_dword a n d : 0 <= n -> d mod 4 = 0 -> a <= d -> d + 4 <= a + n -> (d, 4) ∈ cycles a n.
Proof.
  intros Hn Hd. revert n a Hn. refine (cycles_ind (fun a n => a <= d -> d + 4 <= a + n -> (d, 4) ∈ cycles a n) _ _).
  - lia.
  - intros a n Hn IH Ha Hf. rewrite cycles_cons by done. apply elem_of_cons.
    destruct (Z.eq_dec a d) as [->|]; [left|right].
    + unfold widest. rewrite Hd, (proj2 (Z.leb_le 4 n)) by lia. done.
    + apply IH; [|lia]. pose proof (widest_width a n Hn) as ([->|[->| ->]] & ? & Hm); [lia|lia_div|lia_div].
Qed.

Definition access_ok (x : Z * Z) : Prop := width x.2 /\ is_u64 x.1.
Lemma covers_within a n l : covers a n l -> 0 <= n /\ Forall (fun x => a <= x.1 /\ x.1 + x.2 <= a + n /\ width x.2 /\ x.1 mod x.2 = 0) l.
Proof.
  induction 1 as [a|a n w l Hw Hm Hle Hc [Hn IH]]; [by split|].
  assert (0 < w) by (destruct Hw as [->|[->| ->]]; lia). split; [lia|]. constructor; [cbn; split_and!; done || lia|].
  eapply Forall_impl; [exact IH|]. intros [x k] (? & ? & ? & ?). cbn in *. split_and!; done || lia.
Qed.
Lemma cycles_ok a n : is_u64 a -> a <= 0xfffffff -> 0 <= n -> n <= 2 ^ 63 -> Forall access_ok (cycles a n).
Proof.
  unfold is_u64. intros Ha Hle Hn Hn'. destruct (covers_within a n (cycles a n)) as [_ H]; [by apply cycles_cover|].
  eapply Forall_impl; [exact H|]. intros [x k] (? & ? & Hw & _). cbn in *. split; [done|]. unfold is_u64. cbn.
  assert (0 < k) by (destruct Hw as [->|[->| ->]]; lia). lia.
Qed.

(** ** Bit fields *)
Lemma testbit_high v k i : 0 <= v < 2 ^ k -> 0 <= k <= i -> Z.testbit v i = false.
Proof.
  intros Hv Hk. rewrite <-(Z.mod_small v (2 ^ k)) by done. apply Z.mod_pow2_bits_high. lia.
Qed.
Lemma field_mask_bits b e i : 0 <= b <= e -> 0 <= i ->
  Z.testbit (field_mask b e) i = bool_decide (b <= i <= e).
Proof.
  intros Hb Hi. unfold field_mask. rewrite Z.shiftl_spec by done.
  destruct (Z.lt_ge_cases i b) as [H|H].
  - rewrite Z.testbit_neg_r by lia. symmetry. apply bool_decide_eq_false. lia.
  - rewrite Z.testbit_ones by lia. case_bool_decide; lia.
Qed.
Lemma field_set_bits r b e v i : 0 <= b <= e -> 0 <= v < 2 ^ (e - b + 1) -> 0 <= i ->
  Z.testbit (field_set r b e v) i = if bool_decide (b <= i <= e) then Z.testbit v (i - b) else Z.testbit r i.
Proof.
  intros Hb Hv Hi. unfold field_set. rewrite Z.lor_spec, Z.ldiff_spec, field_mask_bits, Z.shiftl_spec by done.
  case_bool_decide as H; cbn; rewrite ?andb_false_r, ?andb_true_r; [done|].
  destruct (Z.lt_ge_cases i b); [by rewrite (Z.testbit_neg_r v), orb_false_r by lia|].
  rewrite (testbit_high v (e - b + 1)) by lia. by rewrite orb_false_r.
Qed.
Lemma field_get_set r b e v : 0 <= b <= e -> 0 <= v < 2 ^ (e - b + 1) -> field_get (field_set r b e v) b e = v.
Proof.
  intros Hb Hv. apply Z.bits_inj'. intros i Hi. unfold field_get.
  rewrite Z.land_spec, Z.shiftr_spec, field_set_bits, Z.testbit_ones by lia.
  destruct (Z.lt_ge_cases i (e - b + 1)).
  - rewrite bool_decide_eq_true_2, (proj2 (Z.leb_le 0 i)), (proj2 (Z.ltb_lt _ _)) by lia.
    cbn. rewrite andb_true_r. f_equal. lia.
  - rewrite (proj2 (Z.ltb_ge i _)), andb_false_r, andb_false_r by lia.
    by rewrite (testbit_high v (e - b + 1)) by lia.
Qed.
Lemma field_set_range n r b e v : width n -> field_ok n b e = true -> in_width n r ->
  0 <= v < 2 ^ (e - b + 1) -> in_width n (field_set r b e v).
Proof.
  unfold field_ok, in_width. intros Hn Hf [Hr0 Hr] Hv.
  apply andb_true_iff in Hf as [[Hb He]%andb_true_iff Hm].
  apply Z.leb_le in Hb, He. apply Z.ltb_lt in Hm.
  assert (256 ^ n = 2 ^ (8 * n)) as E by (destruct Hn as [->|[->| ->]]; reflexivity). rewrite E in *.
  assert (0 <= field_set r b e v) as H0.
  { unfold field_set. apply Z.lor_nonneg. split; [apply Z.ldiff_nonneg; lia|]. apply Z.shiftl_nonneg. lia. }
  split; [done|]. destruct (Z.eq_dec (field_set r b e v) 0) as [->|Hne]; [lia|].
  apply Z.log2_lt_pow2; [lia|]. destruct (Z.lt_ge_cases (Z.log2 (field_set r b e v)) (8 * n)) as [|Hge]; [done|exfalso].
  pose proof (Z.bit_log2 (field_set r b e v) ltac:(lia)) as Hbit.
  rewrite field_set_bits, bool_decide_eq_false_2 in Hbit by lia.
  rewrite (testbit_high r (8 * n)) in Hbit; [done|lia|lia].
Qed.

(** ** PciExpressLib.c meets the contract

    [aligned]: IoLib's registers are at the addresses aligned to their
    width. *)
Definition aligned (n a : Z) : bool := a mod n =? 0.
Definition window_size : Z := 2 ^ 28.

Section Express.
Import Express.
Context {W : Type} (Io : RegOps W) (J : W -> Prop) (Base : Z).
Context (HIo : reg_contract aligned J Io).
Context (HBase : 0 <= Base /\ Base mod window_size = 0 /\ Base + window_size <= 2 ^ 64).
Implicit Types s : st (W:=W).

Definition initialised s : Prop := mPciExpressBaseAddress s = Base /\ J (Env s).

Lemma valid_address A : is_u64 A -> (Z.land A (u64 (Z.lnot 0xfffffff)) =? 0) = (A <=? 0xfffffff).
Proof.
  unfold is_u64. intros HA. change (u64 (Z.lnot 0xfffffff)) with (Z.shiftl (Z.ones 36) 28).
  assert (Z.land A (Z.shiftl (Z.ones 36) 28) = Z.shiftl (Z.shiftr A 28) 28) as ->.
  { apply Z.bits_inj'. intros i Hi. rewrite Z.land_spec, !Z.shiftl_spec by done.
    destruct (Z.lt_ge_cases i 28).
    - rewrite !(Z.testbit_neg_r _ (i - 28)) by lia. apply andb_false_r.
    - rewrite Z.shiftr_spec, Z.testbit_ones by lia. replace (i - 28 + 28) with i by lia.
      destruct (Z.lt_ge_cases i 64).
      + replace ((0 <=? i - 28) && (i - 28 <? 36)) with true by lia. apply andb_true_r.
      + by rewrite (testbit_high A 64) by lia. }
  rewrite Z.shiftl_mul_pow2, Z.shiftr_div_pow2 by lia.
  destruct (Z.leb_spec A 0xfffffff); [rewrite Z.eqb_eq|rewrite Z.eqb_neq]; lia_div.
Qed.

(** Every access is [f], in the window. *)
Definition window {A} (Address : Z) (f : Z -> M W A) : M st A :=
  ASSERT_INVALID_PCI_ADDRESS Address;; b ← GetPciExpressBaseAddress; mmio (f (u64 (b + Address))).
Lemma window_run {A} Address (f : Z -> M W A) s : initialised s -> is_u64 Address ->
  window Address f s = if Address <=? 0xfffffff then mmio (f (Base + Address)) s else Trap AssertFailed.
Proof.
  unfold initialised, is_u64. intros [HI _] HA. unfold window, ASSERT_INVALID_PCI_ADDRESS. rewrite valid_address by done.
  unfold ASSERT, mbind, M_bind. destruct (Z.leb_spec Address 0xfffffff); [|done].
  unfold GetPciExpressBaseAddress, gets. rewrite HI. unfold u64, window_size in *. by rewrite Z.mod_small by lia.
Qed.
Lemma mmio_bind {A B} (m : M W A) (f : A -> M W B) s : mmio (m ≫= f) s = (x ← mmio m; mmio (f x)) s.
Proof. unfold mmio, mbind, M_bind. cbn. by destruct (m (Env s)). Qed.
Lemma mmio_ext {A} (m m' : M W A) s : m (Env s) = m' (Env s) -> mmio m s = mmio m' s.
Proof. unfold mmio. by intros ->. Qed.
Lemma wp_mmio {A} (m : M W A) (P : A -> Prop) s : initialised s -> wp m (fun a w => P a /\ J w) (Env s) ->
  wp (mmio m) (fun a s' => P a /\ initialised s') s.
Proof. unfold wp, mmio, initialised. intros [HI _]. destruct (m (Env s)); [naive_solver|done]. Qed.
(** Reads keep the invariant, whatever the address. *)
Lemma read_inv n a w v w' : width n -> is_u64 a -> J w -> reg_read Io n a w = Done v w' -> J w'.
Proof.
  intros Hn Ha HJ E. destruct (aligned n a) eqn:Eok.
  - pose proof (rc_read _ _ _ HIo n a w HJ Hn Ha Eok) as H. by apply (wp_Done _ _ _ _ _ E) in H as [_ ?].
  - by rewrite (rc_read_bad _ _ _ HIo) in E.
Qed.

Lemma window_aligned n A : width n -> is_u64 A -> A <= 0xfffffff ->
  aligned n (Base + A) = (A mod n =? 0) /\ is_u64 (Base + A) /\ (A mod 4096 + n <=? 4096) || negb (A mod n =? 0) = true.
Proof.
  unfold aligned, is_u64, window_size in *. intros Hn HA Hle. split_and!; [|lia..|].
  - f_equal. assert (Base = Base / 2 ^ 28 * 2 ^ 28) as -> by lia_div.
    destruct Hn as [->|[->| ->]]; lia_div.
  - destruct (Z.eqb_spec (A mod n) 0); cbn; [|by rewrite orb_true_r]. rewrite orb_false_r. apply Z.leb_le.
    destruct Hn as [->|[->| ->]]; lia_div.
Qed.
Lemma express_ok n A : width n -> is_u64 A ->
  config_ok 4096 n A = (A <=? 0xfffffff) && aligned n (Base + A).
Proof.
  intros Hn HA. unfold config_ok. destruct (Z.leb_spec A 0xfffffff) as [Hle|]; [|done].
  destruct (window_aligned n A Hn HA Hle) as (-> & _ & H). cbn.
  destruct (A mod n =? 0); [|by rewrite andb_false_r]. by rewrite orb_false_r in H; rewrite H.
Qed.

(** Read-modify-write in the window. *)
Lemma window_rmw n A (f : Z -> Z) s : initialised s -> width n -> is_u64 A ->
  window A (fun a => rmw Io n a f) s =
  (v ← window A (reg_read Io n); window A (fun a => reg_write Io n a (f v))) s.
Proof.
  intros HI Hn HA. unfold mbind at 1, M_bind at 1. rewrite !window_run by done.
  destruct (Z.leb_spec A 0xfffffff); [|done]. unfold rmw. rewrite mmio_bind. unfold mbind, M_bind.
  destruct (mmio (reg_read Io n (Base + A)) s) as [v s'|] eqn:E; [|done].
  rewrite window_run; [|..|done].
  - by rewrite (proj2 (Z.leb_le _ _)) by lia.
  - destruct (window_aligned n A Hn HA) as (_ & Hu & _); [done|].
    unfold mmio in E. destruct (reg_read Io n (Base + A) (Env s)) eqn:Er; [|done]. injection E as _ <-.
    destruct HI as [HB HJ]. split; [done|]. by eapply read_inv.
Qed.

(** The operations are accesses in the window, by width. *)
Local Abbreviation R := (Express.regs Io).
Ltac by_cases := intros [->|[->| ->]]; reflexivity.
Lemma regs_read n A : width n -> reg_read R n A = window A (reg_read Io n).
Proof. by_cases. Qed.
Lemma regs_write n A v : width n -> reg_write R n A v = window A (fun a => reg_write Io n a v).
Proof. by_cases. Qed.
Lemma regs_or n A v : width n -> reg_or R n A v = window A (fun a => reg_or Io n a v).
Proof. by_cases. Qed.
Lemma regs_and n A v : width n -> reg_and R n A v = window A (fun a => reg_and Io n a v).
Proof. by_cases. Qed.
Lemma regs_and_then_or n A v o : width n -> reg_and_then_or R n A v o = window A (fun a => reg_and_then_or Io n a v o).
Proof. by_cases. Qed.
Lemma regs_field_read n A b e : width n -> reg_field_read R n A b e = window A (fun a => reg_field_read Io n a b e).
Proof. by_cases. Qed.
Lemma regs_field_write n A b e v : width n ->
  reg_field_write R n A b e v = window A (fun a => reg_field_write Io n a b e v).
Proof. by_cases. Qed.
Lemma regs_field_or n A b e v : width n -> reg_field_or R n A b e v = window A (fun a => reg_field_or Io n a b e v).
Proof. by_cases. Qed.
Lemma regs_field_and n A b e v : width n -> reg_field_and R n A b e v = window A (fun a => reg_field_and Io n a b e v).
Proof. by_cases. Qed.
Lemma regs_field_and_then_or n A b e v o : width n ->
  reg_field_and_then_or R n A b e v o = window A (fun a => reg_field_and_then_or Io n a b e v o).
Proof. by_cases. Qed.

Lemma assert_true {T A} (m : M T A) (x : T) : (ASSERT true;; m) x = m x.
Proof. done. Qed.
(** An operation that IoLib computes as [m]. *)
Lemma window_rmw_op n A (f : Z -> M W Z) (g : Z -> Z) c s :
  initialised s -> width n -> is_u64 A ->
  (forall a w, J w -> is_u64 a -> f a w = (ASSERT c;; rmw Io n a g) w) ->
  window A f s = (ASSERT c;; rmw R n A g) s.
Proof.
  intros HI Hn HA Hf. transitivity ((ASSERT c;; window A (fun a => rmw Io n a g)) s).
  - rewrite window_run by done. destruct (Z.leb_spec A 0xfffffff) as [Hle|Hgt].
    + unfold mmio. rewrite Hf by (apply HI || by apply (window_aligned n)). destruct c; [|done].
      rewrite !assert_true, window_run, (proj2 (Z.leb_le _ _)) by done. done.
    + destruct c; [|done]. by rewrite assert_true, window_run, (proj2 (Z.leb_gt _ _)) by done.
  - destruct c; [|done]. rewrite !assert_true.
    rewrite window_rmw by done. unfold rmw. rewrite regs_read by done. unfold mbind, M_bind.
    destruct (window A (reg_read Io n) s); [|done]. by rewrite regs_write.
Qed.

Lemma express_regs : reg_contract (config_ok 4096) initialised R.
Proof.
  split; intros *; intros HI Hn HA.
  - intros Hok. rewrite regs_read, window_run by done. rewrite express_ok in Hok by done.
    destruct (Z.leb_spec a 0xfffffff); [|done]. unfold mmio.
    destruct (window_aligned n a Hn HA) as (_ & Hu & _); [done|]. by rewrite (rc_read_bad _ _ _ HIo) by (done || apply HI).
  - intros Hv Hok. rewrite regs_write, window_run by done. rewrite express_ok in Hok by done.
    destruct (Z.leb_spec a 0xfffffff); [|done]. unfold mmio.
    destruct (window_aligned n a Hn HA) as (_ & Hu & _); [done|]. by rewrite (rc_write_bad _ _ _ HIo) by (done || apply HI).
  - intros Hok. rewrite express_ok in Hok by done. apply andb_true_iff in Hok as [Hle Hok].
    destruct (window_aligned n a Hn HA) as (_ & Hu & _); [by apply Z.leb_le|].
    unfold wp. rewrite regs_read, window_run, Hle by done. fold (wp (mmio (reg_read Io n (Base + a))) (fun v s' => in_width n v /\ initialised s') s).
    apply wp_mmio; [done|]. apply (rc_read _ _ _ HIo); try done. apply HI.
  - intros Hv Hok. rewrite express_ok in Hok by done. apply andb_true_iff in Hok as [Hle Hok].
    destruct (window_aligned n a Hn HA) as (_ & Hu & _); [by apply Z.leb_le|].
    unfold wp. rewrite regs_write, window_run, Hle by done. fold (wp (mmio (reg_write Io n (Base + a) v)) (fun r s' => r = v /\ initialised s') s).
    apply wp_mmio; [done|]. apply (rc_write _ _ _ HIo); try done. apply HI.
  - intros Hd. rewrite regs_or by done. etrans; [|apply assert_true]. apply window_rmw_op; try done.
    intros a' w HJ Ha. rewrite assert_true. by apply (rc_or _ _ _ HIo).
  - intros Hd. rewrite regs_and by done. etrans; [|apply assert_true]. apply window_rmw_op; try done.
    intros a' w HJ Ha. rewrite assert_true. by apply (rc_and _ _ _ HIo).
  - intros Hd Ho. rewrite regs_and_then_or by done. etrans; [|apply assert_true]. apply window_rmw_op; try done.
    intros a' w HJ Ha. rewrite assert_true. by apply (rc_and_then_or _ _ _ HIo).
  - rewrite regs_field_read, window_run by done. unfold mbind, M_bind, ASSERT.
    destruct (field_ok n b e) eqn:Ef; (destruct (Z.leb_spec a 0xfffffff); [|]).
    + rewrite regs_read, window_run, (proj2 (Z.leb_le _ _)) by done. unfold mmio.
      rewrite (rc_field_read _ _ _ HIo) by (done || apply HI || by apply (window_aligned n)). rewrite Ef.
      unfold mbind, M_bind, ASSERT. by destruct (reg_read Io n (Base + a) (Env s)).
    + rewrite regs_read, window_run, (proj2 (Z.leb_gt _ _)) by done. done.
    + unfold mmio. rewrite (rc_field_read _ _ _ HIo) by (done || apply HI || by apply (window_aligned n)). by rewrite Ef.
    + done.
  - intros Hv. rewrite regs_field_write by done. apply window_rmw_op; try done.
    intros a' w HJ Ha. by apply (rc_field_write _ _ _ HIo).
  - intros Hv. rewrite regs_field_or by done. apply window_rmw_op; try done.
    intros a' w HJ Ha. by apply (rc_field_or _ _ _ HIo).
  - intros Hv. rewrite regs_field_and by done. apply window_rmw_op; try done.
    intros a' w HJ Ha. by apply (rc_field_and _ _ _ HIo).
  - intros Hv Ho. rewrite regs_field_and_then_or by done. apply window_rmw_op; try done.
    intros a' w HJ Ha. by apply (rc_field_and_then_or _ _ _ HIo).
Qed.

(** *** Buffers *)
Lemma read_all_cons {T} (X : RegOps T) a w l (x : T) :
  read_all X ((a, w) :: l) x = (v ← reg_read X w a; bs ← read_all X l; mret (le_split (Z.to_nat w) v ++ bs)) x.
Proof. done. Qed.
Lemma land_1 a : (Z.land a 1 =? 0) = (a mod 2 =? 0).
Proof. change 1 with (Z.ones 1). by rewrite Z.land_ones. Qed.
Lemma land_2 a : a mod 2 = 0 -> (Z.land a 2 =? 0) = (a mod 4 =? 0).
Proof.
  intros Ha. replace (Z.land a 2) with (Z.land a 3).
  - change 3 with (Z.ones 2). by rewrite Z.land_ones.
  - change 3 with (Z.lor 2 1). rewrite Z.land_lor_distr_r. change 1 with (Z.ones 1) at 1.
    rewrite Z.land_ones by done. change (2 ^ 1) with 2. by rewrite Ha, Z.lor_0_r.
Qed.

(** From an aligned address on. *)
Definition ReadTail (fuel : nat) (ReturnValue : Z) (r : Z * Z * list Z) : M (st (W:=W)) (Z * list Z) :=
  let '(StartAddress, Size, Buffer) := r in
  '(StartAddress, Size, Buffer) ← ReadDwords Io fuel StartAddress Size Buffer;
  '(StartAddress, Size, Buffer) ← ReadWordIf Io (2 <=? Size) StartAddress Size Buffer;
  if 1 <=? Size then
    v ← PciExpressRead8 Io StartAddress; mret (ReturnValue, Buffer ++ le_split 1 v)
  else mret (ReturnValue, Buffer).

(** The loop's step and the remaining accesses, in the same form. *)
Lemma read_step (V w a : Z) l buf s :
  (bs ← read_all R ((a, w) :: l); mret (V, buf ++ bs)) s =
  (v ← reg_read R w a; bs ← read_all R l; mret (V, (buf ++ le_split (Z.to_nat w) v) ++ bs)) s.
Proof.
  unfold mbind, M_bind. cbn [read_all]. unfold mbind, M_bind. destruct (reg_read R w a s); [|done].
  destruct (read_all R l _); [|done]. cbn. unfold mret, M_ret. by rewrite <-app_assoc.
Qed.
Lemma read_done (V : Z) buf s : (bs ← read_all R []; mret (V, buf ++ bs)) s = Done (V, buf) s.
Proof. unfold mbind, M_bind. cbn. unfold mret, M_ret. by rewrite app_nil_r. Qed.

Lemma ReadTail_run fuel : forall V a n buf s, a mod 4 = 0 \/ n <= 1 -> 0 <= n < 4 * Z.of_nat fuel + 4 ->
  ReadTail fuel V (a, n, buf) s = (bs ← read_all R (cycles a n); mret (V, buf ++ bs)) s.
Proof.
  induction fuel as [|fuel IH]; intros V a n buf s Ha Hn.
  2:{ destruct (Z.le_gt_cases 4 n) as [H4|H4].
      - destruct Ha as [Ha|]; [|lia].
        rewrite cycles_cons by lia. unfold widest. rewrite Ha, (proj2 (Z.leb_le _ _)) by done. cbn [Z.eqb andb].
        rewrite read_step. unfold ReadTail. cbn [ReadDwords]. rewrite (proj2 (Z.leb_le _ _)) by done.
        rewrite bind_assoc. apply bind_ext. intros v y. apply (IH V (a + 4) (n - 4) (buf ++ le_split 4 v) y); [left; lia_div|lia].
      - unfold ReadTail. cbn [ReadDwords]. rewrite (proj2 (Z.leb_gt 4 n)) by done.
        apply (IH V a n buf s) in Ha; [|lia]. unfold ReadTail in Ha. destruct fuel; cbn [ReadDwords] in Ha;
          rewrite (proj2 (Z.leb_gt 4 n)) in Ha by done; exact Ha. }
  unfold ReadTail. cbn [ReadDwords]. rewrite (proj2 (Z.leb_gt 4 n)) by lia.
  assert (n = 0 \/ n = 1 \/ n = 2 \/ n = 3) as Hc by lia.
  assert (widest a 1 = 1) as H1. { unfold widest. by rewrite !andb_false_r. }
  assert (forall m, a mod 4 = 0 -> 2 <= m < 4 -> widest a m = 2) as H2.
  { intros m Ha' Hm. unfold widest. replace (a mod 2) with 0 by lia_div. rewrite (proj2 (Z.leb_gt 4 m)), (proj2 (Z.leb_le 2 m)) by lia.
    by rewrite andb_false_r. }
  assert (widest (a + 2) 1 = 1) as H3. { unfold widest. by rewrite !andb_false_r. }
  destruct Hc as [->|[->|[->| ->]]].
  - by rewrite read_done.
  - rewrite cycles_cons, H1, read_step by lia. rewrite (cycles_nil _ (1 - 1)) by lia.
    match goal with |- ?l = _ => change l with ((v ← reg_read R 1 a; mret (V, buf ++ le_split 1 v)) s) end.
    apply bind_ext. intros v y. by rewrite read_done.
  - destruct Ha as [Ha|]; [|lia]. rewrite cycles_cons, H2, read_step by lia. rewrite (cycles_nil _ (2 - 2)) by lia. unfold ReadWordIf. cbn [Z.leb Z.compare Pos.compare Pos.compare_cont].
    match goal with |- ?l = _ => transitivity ((v ← reg_read R 2 a; mret (V, buf ++ le_split 2 v)) s) end.
    { unfold mbind, M_bind, mret, M_ret. lazy beta iota zeta delta [Z.leb Z.compare Pos.compare Pos.compare_cont].
      change (PciExpressRead16 Io a) with (reg_read R 2 a). by destruct (reg_read R 2 a s). }
    apply bind_ext. intros v y. by rewrite read_done.
  - destruct Ha as [Ha|]; [|lia]. rewrite cycles_cons, H2, read_step by lia. change (3 - 2) with 1. rewrite (cycles_cons (a + 2)), H3 by lia.
    rewrite (cycles_nil _ (1 - 1)) by lia. unfold ReadWordIf.
    match goal with |- ?l = _ => transitivity ((v ← reg_read R 2 a; v' ← reg_read R 1 (a + 2);
      mret (V, (buf ++ le_split 2 v) ++ le_split 1 v')) s) end.
    { unfold mbind, M_bind, mret, M_ret. lazy beta iota zeta delta [Z.leb Z.compare Pos.compare Pos.compare_cont].
      change (PciExpressRead16 Io a) with (reg_read R 2 a). by destruct (reg_read R 2 a s). }
    apply bind_ext. intros v y. rewrite read_step. apply bind_ext. intros v' y'. by rewrite read_done.
Qed.

Lemma ReadEven_run fuel V a n buf s : a mod 2 = 0 -> 0 <= n < 4 * Z.of_nat fuel + 4 ->
  (r ← ReadWordIf Io ((2 <=? n) && negb (Z.land a 2 =? 0)) a n buf; ReadTail fuel V r) s =
  (bs ← read_all R (cycles a n); mret (V, buf ++ bs)) s.
Proof.
  intros Ha Hn. rewrite land_2 by done. destruct (Z.eqb_spec (a mod 4) 0) as [E|E].
  - rewrite andb_false_r. apply ReadTail_run; [by left|done].
  - rewrite andb_true_r. destruct (Z.leb_spec 2 n); [|apply ReadTail_run; [right; lia|done]].
    rewrite cycles_cons by lia.
    assert (widest a n = 2) as ->.
    { unfold widest. rewrite (proj2 (Z.eqb_neq _ _)), (proj2 (Z.eqb_eq (a mod 2) 0)), (proj2 (Z.leb_le 2 n)) by done. done. }
    rewrite read_step. unfold ReadWordIf. rewrite bind_assoc. apply bind_ext. intros v y.
    apply (ReadTail_run fuel V (a + 2) (n - 2) (buf ++ le_split 2 v) y); [left; lia_div|lia].
Qed.
Lemma widest_odd a n : a mod 2 <> 0 -> widest a n = 1.
Proof.
  intros Ha. unfold widest. rewrite (proj2 (Z.eqb_neq (a mod 2) 0)) by done.
  by rewrite (proj2 (Z.eqb_neq (a mod 4) 0)) by lia_div.
Qed.

Lemma ReadBuffer_run a n nonnull s : initialised s -> is_u64 a -> is_u64 n -> a mod 4096 + n < 2 ^ 64 ->
  PciExpressReadBuffer Io buffer_fuel a n nonnull s =
  (ASSERT (a <=? 0xfffffff);; ASSERT (a mod 4096 + n <=? 4096);;
   if n =? 0 then mret (0, []) else
   ASSERT nonnull;; bs ← read_all R (cycles a n); mret (n, bs)) s.
Proof.
  unfold is_u64. intros HI Ha Hn Hsum. unfold PciExpressReadBuffer, ASSERT_INVALID_PCI_ADDRESS.
  rewrite valid_address by done. apply assert_bind. intros Hle.
  change 0xFFF with (Z.ones 12). rewrite Z.land_ones by done. change (2 ^ 12) with 4096.
  unfold u64. rewrite Z.mod_small by lia_div. apply assert_bind. intros Hb. apply Z.leb_le in Hb.
  destruct (Z.eqb_spec n 0) as [->|Hn0]; [done|]. apply assert_bind. intros _. rewrite land_1.
  assert (n < 4 * Z.of_nat buffer_fuel + 4) as Hfuel by (unfold buffer_fuel; lia_div).
  destruct (Z.eqb_spec (a mod 2) 0) as [E|E]; cbn [negb].
  - apply (ReadEven_run buffer_fuel n a n [] s); [done|lia].
  - rewrite cycles_cons, widest_odd by (done || lia). etrans; [|symmetry; apply (read_step n 1 a _ [] s)].
    rewrite bind_assoc. apply bind_ext. intros v y.
    apply (ReadEven_run buffer_fuel n (a + 1) (n - 1) (le_split 1 v) y); [lia_div|lia].
Qed.

(** The same for writes. *)
Definition WriteTail (fuel : nat) (ReturnValue : Z) (r : Z * Z * list Z) : M (st (W:=W)) Z :=
  let '(StartAddress, Size, Buffer) := r in
  '(StartAddress, Size, Buffer) ← WriteDwords Io fuel StartAddress Size Buffer;
  '(StartAddress, Size, Buffer) ← WriteWordIf Io (2 <=? Size) StartAddress Size Buffer;
  if 1 <=? Size then
    '(v, Buffer) ← fetch 1 Buffer; PciExpressWrite8 Io StartAddress v;; mret ReturnValue
  else mret ReturnValue.
Lemma write_step (V w a : Z) l data s :
  (write_all R ((a, w) :: l) data;; mret V) s =
  (x ← fetch (Z.to_nat w) data; reg_write R w a x.1;; write_all R l x.2;; mret V) s.
Proof.
  unfold mbind, M_bind. cbn [write_all]. unfold fetch. destruct (Z.to_nat w <=? length data)%nat; [|done].
  unfold mbind, M_bind, mret, M_ret. cbn [fst snd]. by destruct (reg_write R w a (le_combine (take (Z.to_nat w) data)) s).
Qed.
Lemma fetch_bind {A} n data (f g : Z * list Z -> M (st (W:=W)) A) s :
  (forall x y, f x y = g x y) -> (x ← fetch n data; f x) s = (x ← fetch n data; g x) s.
Proof. apply bind_ext. Qed.
Lemma WriteTail_run fuel : forall V a n data s, a mod 4 = 0 \/ n <= 1 -> 0 <= n < 4 * Z.of_nat fuel + 4 ->
  WriteTail fuel V (a, n, data) s = (write_all R (cycles a n) data;; mret V) s.
Proof.
  induction fuel as [|fuel IH]; intros V a n data s Ha Hn.
  2:{ destruct (Z.le_gt_cases 4 n) as [H4|H4].
      - destruct Ha as [Ha|]; [|lia].
        rewrite cycles_cons by lia. unfold widest. rewrite Ha, (proj2 (Z.leb_le _ _)) by done. cbn [Z.eqb andb].
        rewrite write_step. unfold WriteTail. cbn [WriteDwords]. rewrite (proj2 (Z.leb_le _ _)) by done.
        rewrite bind_assoc. apply bind_ext. intros [v data'] y. cbn [fst snd]. rewrite bind_assoc.
        apply bind_ext. intros u y'. apply (IH V (a + 4) (n - 4) data' y'); [left; lia_div|lia].
      - unfold WriteTail. cbn [WriteDwords]. rewrite (proj2 (Z.leb_gt 4 n)) by done.
        apply (IH V a n data s) in Ha; [|lia]. unfold WriteTail in Ha. destruct fuel; cbn [WriteDwords] in Ha;
          rewrite (proj2 (Z.leb_gt 4 n)) in Ha by done; exact Ha. }
  unfold WriteTail. cbn [WriteDwords]. rewrite (proj2 (Z.leb_gt 4 n)) by lia.
  assert (n = 0 \/ n = 1 \/ n = 2 \/ n = 3) as Hc by lia.
  assert (widest a 1 = 1) as H1. { unfold widest. by rewrite !andb_false_r. }
  assert (forall m, a mod 4 = 0 -> 2 <= m < 4 -> widest a m = 2) as H2.
  { intros m Ha' Hm. unfold widest. replace (a mod 2) with 0 by lia_div. rewrite (proj2 (Z.leb_gt 4 m)), (proj2 (Z.leb_le 2 m)) by lia.
    by rewrite andb_false_r. }
  assert (widest (a + 2) 1 = 1) as H3. { unfold widest. by rewrite !andb_false_r. }
  destruct Hc as [->|[->|[->| ->]]].
  - done.
  - rewrite cycles_cons, H1, write_step by lia. rewrite (cycles_nil _ (1 - 1)) by lia.
    unfold WriteWordIf, mbind, M_bind, mret, M_ret. lazy beta iota zeta delta [Z.leb Z.compare Pos.compare Pos.compare_cont].
    change (Z.to_nat 1) with 1%nat. destruct (fetch 1 data s) as [[v data'] y|]; [|done]. cbn [fst snd].
    change (PciExpressWrite8 Io a v) with (reg_write R 1 a v). by destruct (reg_write R 1 a v y).
  - destruct Ha as [Ha|]; [|lia]. rewrite cycles_cons, H2, write_step by lia. rewrite (cycles_nil _ (2 - 2)) by lia.
    unfold WriteWordIf. unfold mbind, M_bind, mret, M_ret. lazy beta iota zeta delta [Z.leb Z.compare Pos.compare Pos.compare_cont].
    change (Z.to_nat 2) with 2%nat. destruct (fetch 2 data s) as [[v data'] y|]; [|done]. cbn [fst snd].
    change (PciExpressWrite16 Io a v) with (reg_write R 2 a v). by destruct (reg_write R 2 a v y).
  - destruct Ha as [Ha|]; [|lia]. rewrite cycles_cons, H2, write_step by lia. change (3 - 2) with 1.
    rewrite (cycles_cons (a + 2)), H3 by lia. rewrite (cycles_nil _ (1 - 1)) by lia.
    unfold WriteWordIf. unfold mbind, M_bind, mret, M_ret.
    lazy beta iota zeta delta [Z.leb Z.compare Pos.compare Pos.compare_cont].
    change (Z.to_nat 2) with 2%nat. destruct (fetch 2 data s) as [[v data'] y|]; [|done]. cbn [fst snd].
    change (PciExpressWrite16 Io a v) with (reg_write R 2 a v). destruct (reg_write R 2 a v y) as [u y'|]; [|done].
    etrans; [|symmetry; exact (write_step V 1 (a + 2) [] data' y')].
    change (3 - 2) with 1. lazy beta iota.
    unfold mbind, M_bind. change (Z.to_nat 1) with 1%nat. destruct (fetch 1 data' y') as [[v' d'] y''|]; [|done].
    cbn [fst snd]. change (PciExpressWrite8 Io (a + 2) v') with (reg_write R 1 (a + 2) v').
    by destruct (reg_write R 1 (a + 2) v' y'').
Qed.

Lemma WriteEven_run fuel V a n data s : a mod 2 = 0 -> 0 <= n < 4 * Z.of_nat fuel + 4 ->
  (r ← WriteWordIf Io ((2 <=? n) && negb (Z.land a 2 =? 0)) a n data; WriteTail fuel V r) s =
  (write_all R (cycles a n) data;; mret V) s.
Proof.
  intros Ha Hn. rewrite land_2 by done. destruct (Z.eqb_spec (a mod 4) 0) as [E|E].
  - rewrite andb_false_r. apply WriteTail_run; [by left|done].
  - rewrite andb_true_r. destruct (Z.leb_spec 2 n); [|apply WriteTail_run; [right; lia|done]].
    rewrite cycles_cons by lia.
    assert (widest a n = 2) as ->.
    { unfold widest. rewrite (proj2 (Z.eqb_neq _ _)), (proj2 (Z.eqb_eq (a mod 2) 0)), (proj2 (Z.leb_le 2 n)) by done. done. }
    rewrite write_step. unfold WriteWordIf. rewrite bind_assoc. apply bind_ext. intros [v data'] y. cbn [fst snd].
    rewrite bind_assoc. apply bind_ext. intros u y'.
    apply (WriteTail_run fuel V (a + 2) (n - 2) data' y'); [left; lia_div|lia].
Qed.
Lemma WriteBuffer_run a n data s : initialised s -> is_u64 a -> is_u64 n -> Forall is_byte (default [] data) -> a mod 4096 + n < 2 ^ 64 ->
  PciExpressWriteBuffer Io buffer_fuel a n data s =
  (ASSERT (a <=? 0xfffffff);; ASSERT (a mod 4096 + n <=? 4096);;
   if n =? 0 then mret 0 else
   match data with
   | None => trapped AssertFailed
   | Some data => write_all R (cycles a n) data;; mret n
   end) s.
Proof.
  unfold is_u64. intros HI Ha Hn _ Hsum. unfold PciExpressWriteBuffer, ASSERT_INVALID_PCI_ADDRESS.
  rewrite valid_address by done. apply assert_bind. intros Hle.
  change 0xFFF with (Z.ones 12). rewrite Z.land_ones by done. change (2 ^ 12) with 4096.
  unfold u64. rewrite Z.mod_small by lia_div. apply assert_bind. intros Hb. apply Z.leb_le in Hb.
  destruct (Z.eqb_spec n 0) as [->|Hn0]; [done|]. destruct data as [data|]; [|done]. rewrite land_1.
  assert (n < 4 * Z.of_nat buffer_fuel + 4) as Hfuel by (unfold buffer_fuel; lia_div).
  destruct (Z.eqb_spec (a mod 2) 0) as [E|E]; cbn [negb].
  - apply (WriteEven_run buffer_fuel n a n data s); [done|lia].
  - rewrite cycles_cons, widest_odd by (done || lia). etrans; [|symmetry; apply (write_step n 1 a _ data s)].
    rewrite bind_assoc. apply bind_ext. intros [v data'] y. cbn [fst snd].
    rewrite bind_assoc. apply bind_ext. intros u y'.
    apply (WriteEven_run buffer_fuel n (a + 1) (n - 1) data' y'); [lia_div|lia].
Qed.

Lemma express_contract : pci_contract 4096 initialised (Express.library Io).
Proof. split; [done|apply express_regs|apply ReadBuffer_run|apply WriteBuffer_run]. Qed.
End Express.

(** ** PciLib.c meets the contract of the library it chose *)
Section Lib.
Import Lib.
Context {T : Type} (E C : PciOps T) (IE IC : T -> Prop) (LE LC : Z) (q : bool).
Context (HE : pci_contract LE IE E) (HC : pci_contract LC IC C).
Implicit Types s : st (T:=T).

Definition chosen : PciOps T := if q then E else C.
Definition limit : Z := if q then LE else LC.
Definition below_inv : T -> Prop := if q then IE else IC.
Definition settled s : Prop := mRunningOnQ35 s = q /\ below_inv (Sub s).
Lemma chosen_contract : pci_contract limit below_inv chosen.
Proof. unfold chosen, limit, below_inv. by destruct q. Qed.

Local Abbreviation R := (Lib.regs E C).
Local Abbreviation X := (pci_regs chosen).

Lemma choose_run {A} (f : PciOps T -> M T A) s : settled s -> choose (f E) (f C) s = below (f chosen) s.
Proof. intros [Hq _]. unfold choose, mbind, M_bind, gets, chosen. rewrite Hq. by destruct q. Qed.
Lemma below_bind {A B} (m : M T A) (f : A -> M T B) s : below (m ≫= f) s = (x ← below m; below (f x)) s.
Proof. unfold below, mbind, M_bind. cbn. by destruct (m (Sub s)). Qed.
Lemma below_ext {A} (m m' : M T A) s : m (Sub s) = m' (Sub s) -> below m s = below m' s.
Proof. unfold below. by intros ->. Qed.
Lemma wp_below {A} (m : M T A) (P : A -> Prop) s : settled s -> wp m (fun a x => P a /\ below_inv x) (Sub s) ->
  wp (below m) (fun a s' => P a /\ settled s') s.
Proof. unfold wp, below, settled. intros [Hq _]. destruct (m (Sub s)); naive_solver. Qed.
Lemma below_settled {A} (m : M T A) s a s' : below m s = Done a s' -> mRunningOnQ35 s = q -> mRunningOnQ35 s' = q.
Proof. unfold below. destruct (m (Sub s)); [|done]. by intros [= _ <-]. Qed.

(** On a settled state, an operation is the chosen library's. *)
Tactic Notation "by_choice" uconstr(f) := let H := fresh in intros H ?; rewrite <-(choose_run f) by done; by destruct H as [->|[->| ->]].
Lemma choice_read n a s : width n -> settled s -> reg_read R n a s = below (reg_read X n a) s.
Proof. by_choice (fun P => reg_read (pci_regs P) n a). Qed.
Lemma choice_write n a v s : width n -> settled s -> reg_write R n a v s = below (reg_write X n a v) s.
Proof. by_choice (fun P => reg_write (pci_regs P) n a v). Qed.
Lemma choice_or n a v s : width n -> settled s -> reg_or R n a v s = below (reg_or X n a v) s.
Proof. by_choice (fun P => reg_or (pci_regs P) n a v). Qed.
Lemma choice_and n a v s : width n -> settled s -> reg_and R n a v s = below (reg_and X n a v) s.
Proof. by_choice (fun P => reg_and (pci_regs P) n a v). Qed.
Lemma choice_and_then_or n a v o s : width n -> settled s ->
  reg_and_then_or R n a v o s = below (reg_and_then_or X n a v o) s.
Proof. by_choice (fun P => reg_and_then_or (pci_regs P) n a v o). Qed.
Lemma choice_field_read n a b e s : width n -> settled s -> reg_field_read R n a b e s = below (reg_field_read X n a b e) s.
Proof. by_choice (fun P => reg_field_read (pci_regs P) n a b e). Qed.
Lemma choice_field_write n a b e v s : width n -> settled s ->
  reg_field_write R n a b e v s = below (reg_field_write X n a b e v) s.
Proof. by_choice (fun P => reg_field_write (pci_regs P) n a b e v). Qed.
Lemma choice_field_or n a b e v s : width n -> settled s -> reg_field_or R n a b e v s = below (reg_field_or X n a b e v) s.
Proof. by_choice (fun P => reg_field_or (pci_regs P) n a b e v). Qed.
Lemma choice_field_and n a b e v s : width n -> settled s -> reg_field_and R n a b e v s = below (reg_field_and X n a b e v) s.
Proof. by_choice (fun P => reg_field_and (pci_regs P) n a b e v). Qed.
Lemma choice_field_and_then_or n a b e v o s : width n -> settled s ->
  reg_field_and_then_or R n a b e v o s = below (reg_field_and_then_or X n a b e v o) s.
Proof. by_choice (fun P => reg_field_and_then_or (pci_regs P) n a b e v o). Qed.

Local Abbreviation HX := (pc_regs _ _ _ chosen_contract).

Lemma chosen_read_inv n a x v x' : width n -> is_u64 a -> below_inv x -> reg_read X n a x = Done v x' -> below_inv x'.
Proof.
  intros Hn Ha HI Er. destruct (config_ok limit n a) eqn:Eok.
  - pose proof (rc_read _ _ _ HX n a x HI Hn Ha Eok) as H. by apply (wp_Done _ _ _ _ _ Er) in H as [_ ?].
  - by rewrite (rc_read_bad _ _ _ HX) in Er.
Qed.
Lemma below_rmw n a g s : width n -> is_u64 a -> settled s -> below (rmw X n a g) s = rmw R n a g s.
Proof.
  intros Hn Ha Hs. unfold rmw. rewrite below_bind. unfold mbind, M_bind. rewrite choice_read by done.
  destruct (below (reg_read X n a) s) as [v s'|] eqn:Er; [|done]. symmetry. apply choice_write; [done|].
  split; [eapply below_settled; [exact Er|apply Hs]|]. unfold below in Er.
  destruct (reg_read X n a (Sub s)) eqn:Ex; [|done]. injection Er as _ <-. eapply chosen_read_inv; [..|exact Ex]; try done. apply Hs.
Qed.
Lemma below_assert_rmw c n a g s : width n -> is_u64 a -> settled s ->
  below (ASSERT c;; rmw X n a g) s = (ASSERT c;; rmw R n a g) s.
Proof.
  intros Hn Ha Hs. destruct c; [|done]. rewrite assert_true, <-below_rmw by done. apply below_ext. apply assert_true.
Qed.
Lemma lib_regs : reg_contract (config_ok limit) settled R.
Proof.
  split; intros *; intros HI Hn HA.
  - intros Hok. rewrite choice_read by done. unfold below. by rewrite (rc_read_bad _ _ _ HX) by (done || apply HI).
  - intros Hv Hok. rewrite choice_write by done. unfold below. by rewrite (rc_write_bad _ _ _ HX) by (done || apply HI).
  - intros Hok. unfold wp. rewrite choice_read by done. apply (wp_below _ (in_width n)); [done|].
    apply (rc_read _ _ _ HX); try done. apply HI.
  - intros Hv Hok. unfold wp. rewrite choice_write by done. apply (wp_below _ (fun r => r = v)); [done|].
    apply (rc_write _ _ _ HX); try done. apply HI.
  - intros Hd. rewrite choice_or, <-below_rmw by done. apply below_ext, (rc_or _ _ _ HX); try done. apply HI.
  - intros Hd. rewrite choice_and, <-below_rmw by done. apply below_ext, (rc_and _ _ _ HX); try done. apply HI.
  - intros Hd Ho. rewrite choice_and_then_or, <-below_rmw by done. apply below_ext, (rc_and_then_or _ _ _ HX); try done. apply HI.
  - rewrite choice_field_read by done. etrans; [apply below_ext, (rc_field_read _ _ _ HX n a b e); [apply HI|done|done]|].
    destruct (field_ok n b e); [|done]. rewrite assert_true.
    etrans; [apply below_ext, assert_true|]. rewrite below_bind. unfold mbind, M_bind. rewrite choice_read by done.
    destruct (below (reg_read X n a) s) as [v [q' x]|]; done.
  - intros Hv. rewrite choice_field_write, <-below_assert_rmw by done. apply below_ext, (rc_field_write _ _ _ HX); try done. apply HI.
  - intros Hv. rewrite choice_field_or, <-below_assert_rmw by done. apply below_ext, (rc_field_or _ _ _ HX); try done. apply HI.
  - intros Hv. rewrite choice_field_and, <-below_assert_rmw by done. apply below_ext, (rc_field_and _ _ _ HX); try done. apply HI.
  - intros Hv Ho. rewrite choice_field_and_then_or, <-below_assert_rmw by done.
    apply below_ext, (rc_field_and_then_or _ _ _ HX); try done. apply HI.
Qed.

(** Sequences of accesses. *)
Lemma lib_read_all l s : Forall access_ok l -> settled s -> read_all R l s = below (read_all X l) s.
Proof.
  intros Hl. revert s. induction Hl as [|[a w] l [Hw Ha] Hl IH]; intros s Hs; [by destruct s|].
  cbn [read_all fst snd] in *. rewrite below_bind. unfold mbind, M_bind. rewrite choice_read by done.
  destruct (below (reg_read X w a) s) as [v s'|] eqn:Er; [|done].
  assert (settled s') as Hs'.
  { split; [eapply below_settled; [exact Er|apply Hs]|]. unfold below in Er.
    destruct (reg_read X w a (Sub s)) eqn:Ex; [|done]. injection Er as _ <-.
    eapply chosen_read_inv; [done|done|apply Hs|exact Ex]. }
  rewrite IH by done. unfold below. cbn. destruct (read_all X l (Sub s')); done.
Qed.
Lemma le_combine_fits w data : width w -> Forall is_byte data -> (Z.to_nat w <= length data)%nat ->
  in_width w (le_combine (take (Z.to_nat w) data)).
Proof.
  intros Hw Hd Hlen. pose proof (le_combine_range (take (Z.to_nat w) data) (Forall_take _ _ _ Hd)) as H.
  rewrite length_take_le in H by done. unfold in_width. by rewrite Z2Nat.id in H by (destruct Hw as [->|[->| ->]]; done).
Qed.
Lemma chosen_write_inv n a v x r x' : width n -> is_u64 a -> in_width n v -> below_inv x ->
  reg_write X n a v x = Done r x' -> below_inv x'.
Proof.
  intros Hn Ha Hv HI Er. destruct (config_ok limit n a) eqn:Eok.
  - pose proof (rc_write _ _ _ HX n a v x HI Hn Ha Hv Eok) as H. by apply (wp_Done _ _ _ _ _ Er) in H as [_ ?].
  - by rewrite (rc_write_bad _ _ _ HX) in Er.
Qed.
Lemma lib_write_all l : forall data s, Forall access_ok l -> Forall is_byte data -> settled s ->
  write_all R l data s = below (write_all X l data) s.
Proof.
  induction l as [|[a w] l IH]; intros data s Hl Hd Hs; [by destruct s|].
  apply Forall_cons in Hl as [[Hw Ha] Hl]. cbn [write_all fst snd] in *.
  destruct (Nat.leb_spec (Z.to_nat w) (length data)) as [Hlen|]; [|done].
  pose proof (le_combine_fits w data Hw Hd Hlen) as Hv.
  rewrite below_bind. unfold mbind, M_bind. rewrite choice_write by done.
  destruct (below (reg_write X w a _) s) as [v s'|] eqn:Er; [|done]. apply IH; [done|by apply Forall_drop|].
  split; [eapply below_settled; [exact Er|apply Hs]|]. unfold below in Er.
  destruct (reg_write X w a _ (Sub s)) eqn:Ex; [|done]. injection Er as _ <-.
  eapply chosen_write_inv; [done|done|exact Hv|apply Hs|exact Ex].
Qed.
Lemma lib_contract : pci_contract limit settled (Lib.library E C).
Proof.
  split; [apply chosen_contract|apply lib_regs| |].
  - intros a n nonnull s HI Ha Hn Hsum. transitivity (below (pci_read_buffer chosen a n nonnull) s).
    { symmetry. rewrite <-(choose_run (fun P => pci_read_buffer P a n nonnull)) by done. done. }
    etrans; [apply below_ext; exact (pc_read_buffer _ _ _ chosen_contract a n nonnull (Sub s) (proj2 HI) Ha Hn Hsum)|].
    destruct (Z.leb_spec a 0xfffffff) as [Hle|]; [|done]. destruct (Z.leb_spec (a mod 4096 + n) limit) as [Hb|]; [|done].
    destruct (n =? 0); [by destruct s|]. destruct nonnull; [|done].
    rewrite !assert_true. transitivity (below (bs ← read_all X (cycles a n); mret (n, bs)) s); [by apply below_ext|].
    rewrite below_bind. unfold mbind, M_bind. rewrite lib_read_all; [|apply cycles_ok; [done|done|apply Hn|pose proof (pc_limit _ _ _ chosen_contract); unfold is_u64 in *; lia_div]|done].
    destruct (below (read_all X (cycles a n)) s) as [bs [q' x]|]; done.
  - intros a n data s HI Ha Hn Hd Hsum. transitivity (below (pci_write_buffer chosen a n data) s).
    { symmetry. rewrite <-(choose_run (fun P => pci_write_buffer P a n data)) by done. done. }
    etrans; [apply below_ext; exact (pc_write_buffer _ _ _ chosen_contract a n data (Sub s) (proj2 HI) Ha Hn Hd Hsum)|].
    destruct (Z.leb_spec a 0xfffffff) as [Hle|]; [|done]. destruct (Z.leb_spec (a mod 4096 + n) limit) as [Hb|]; [|done].
    destruct (n =? 0); [by destruct s|]. destruct data as [data|]; [|done].
    rewrite !assert_true. transitivity (below (write_all X (cycles a n) data;; mret n) s); [by apply below_ext|].
    rewrite below_bind. unfold mbind, M_bind. rewrite lib_write_all; [|apply cycles_ok; [done|done|apply Hn|pose proof (pc_limit _ _ _ chosen_contract); unfold is_u64 in *; lia_div]|done|done].
    destruct (below (write_all X (cycles a n) data) s) as [bs [q' x]|]; done.
Qed.
End Lib.
