(* ===== verification/PciConfigClaims.v ===== *)
(** * PCI configuration accesses: the properties, and a concrete machine *)
From S2P Require Import Prelude Bytes Memory PciConfig PciConfigProofs.

(** ** Registers that hold what is written *)
Section RegisterFile.
Context {T : Type} (P : PciOps T) (limit : Z) (I : T -> Prop) (HP : pci_contract limit I P) (space : T -> memory).
Implicit Types s : T.

Record register_file : Prop := {
  rf_bytes s : I s -> mem_bytes (space s);
  rf_read n a s : I s -> width n -> is_u64 a -> config_ok limit n a = true ->
    reg_read (pci_regs P) n a s = Done (le_combine (mem_get (space s) a n)) s;
  rf_write n a v s : I s -> width n -> is_u64 a -> in_width n v -> config_ok limit n a = true ->
    wp (reg_write (pci_regs P) n a v) (fun _ s' => forall x, space s' x = mem_set (space s) a (le_split (Z.to_nat n) v) x) s;
}.
Context (RF : register_file).

Lemma plan_ok a n : is_u64 a -> a <= 0xfffffff -> 0 <= n -> a mod 4096 + n <= limit ->
  Forall (fun x => width x.2 /\ is_u64 x.1 /\ config_ok limit x.2 x.1 = true) (cycles a n).
Proof.
  unfold is_u64. intros Ha Hle Hn Hb. pose proof (pc_limit _ _ _ HP). pose proof (Z.mod_pos_bound a 4096 ltac:(lia)).
  destruct (covers_within a n (cycles a n)) as [_ Hall]; [by apply cycles_cover|].
  eapply Forall_impl; [exact Hall|]. intros [x k] (H1 & H2 & Hw & Hm). cbn in *.
  assert (0 < k) by (destruct Hw as [->|[->| ->]]; lia). split; [done|]. unfold is_u64, config_ok.
  split; [lia|]. rewrite Hm. replace (x mod 4096) with (a mod 4096 + (x - a)) by lia_div.
  rewrite andb_true_r. apply andb_true_iff. rewrite !Z.leb_le. split; [|lia]. lia_div.
Qed.
Lemma read_all_file s l a n : I s -> covers a n l ->
  Forall (fun x => width x.2 /\ is_u64 x.1 /\ config_ok limit x.2 x.1 = true) l ->
  read_all (pci_regs P) l s = Done (mem_get (space s) a n) s.
Proof.
  intros HI Hc. induction Hc as [a|a n w l Hw Hm Hle Hc IH]; intros HF; [done|].
  apply Forall_cons in HF as [(_ & Ha & Hok) HF]. cbn in Ha, Hok. cbn [read_all].
  unfold mbind, M_bind. rewrite (rf_read RF) by done. rewrite IH by done. unfold mret, M_ret. f_equal.
  replace n with (w + (n - w)) at 2 by lia. pose proof (covers_within _ _ _ Hc).
  rewrite mem_get_app by (destruct Hw as [->|[->| ->]]; lia). f_equal.
  rewrite <-(length_mem_get (space s) a w). apply le_split_combine, mem_get_bytes. by apply (rf_bytes RF).
Qed.
Lemma write_all_file l a n : covers a n l ->
  Forall (fun x => width x.2 /\ is_u64 x.1 /\ config_ok limit x.2 x.1 = true) l ->
  forall data s, I s -> Forall is_byte data -> Z.of_nat (length data) = n ->
  wp (write_all (pci_regs P) l data) (fun _ s' => I s' /\ forall x, space s' x = mem_set (space s) a data x) s.
Proof.
  induction 1 as [a|a n w l Hw Hm Hle Hc IH]; intros HF data s HI Hd Hlen.
  - destruct data; [|cbn in Hlen; lia]. cbn. split; [done|]. intros x. by rewrite mem_set_outside by (cbn; lia).
  - apply Forall_cons in HF as [(_ & Ha & Hok) HF]. cbn in Ha, Hok. cbn [write_all].
    assert (0 <= w) by (destruct Hw as [->|[->| ->]]; lia).
    rewrite (proj2 (Nat.leb_le _ _)) by lia. rewrite wp_bind.
    assert (in_width w (le_combine (take (Z.to_nat w) data))) as Hv by (apply le_combine_fits; done || lia).
    pose proof (rf_write RF w a _ s HI Hw Ha Hv Hok) as H1.
    pose proof (rc_write _ _ _ (pc_regs _ _ _ HP) w a _ s HI Hw Ha Hv Hok) as H2.
    apply wp_elim in H2 as (r & s1 & Hrun & _ & HI1). apply (wp_Done _ _ _ _ _ Hrun) in H1.
    unfold wp at 1. rewrite Hrun.
    assert (le_split (Z.to_nat w) (le_combine (take (Z.to_nat w) data)) = take (Z.to_nat w) data) as Es.
    { pose proof (le_split_combine (take (Z.to_nat w) data) (Forall_take _ _ _ Hd)) as Es.
      by rewrite length_take_le in Es by lia. }
    rewrite Es in H1.
    eapply wp_mono; [apply (IH HF (drop (Z.to_nat w) data) s1 HI1); [by apply Forall_drop|rewrite length_drop; lia]|].
    intros u s' [HI' Hsp]. split; [done|]. intros x. rewrite Hsp.
    rewrite <-(take_drop (Z.to_nat w) data) at 2. rewrite <-(mem_set_app _ a (a + w)) by (rewrite length_take_le by lia; lia).
    unfold mem_set at 1 2. by rewrite H1.
Qed.
Definition register_at s (n a : Z) : Z := le_combine (mem_get (space s) a n).
Lemma register_range n a s : I s -> width n -> in_width n (register_at s n a).
Proof.
  intros HI Hn. pose proof (le_combine_range (mem_get (space s) a n) (mem_get_bytes _ _ _ (rf_bytes RF _ HI))) as H.
  rewrite length_mem_get, Z2Nat.id in H by (destruct Hn as [->|[->| ->]]; done). done.
Qed.

Lemma read_buffer_file a n s : I s -> is_u64 a -> a <= 0xfffffff -> 0 <= n -> a mod 4096 + n <= limit ->
  pci_read_buffer P a n true s = Done (n, mem_get (space s) a n) s.
Proof.
  intros HI Ha Hle Hn Hb. pose proof (pc_limit _ _ _ HP). rewrite (pc_read_buffer _ _ _ HP) by (done || unfold is_u64; lia_div).
  rewrite (proj2 (Z.leb_le a _)), (proj2 (Z.leb_le _ limit)), !assert_true by done.
  destruct (Z.eqb_spec n 0) as [->|]; [done|]. rewrite assert_true. unfold mbind, M_bind.
  erewrite read_all_file; [done|done|by apply cycles_cover|by apply plan_ok].
Qed.
Lemma write_buffer_file a data s : I s -> is_u64 a -> a <= 0xfffffff -> Forall is_byte data ->
  let n := Z.of_nat (length data) in a mod 4096 + n <= limit ->
  wp (pci_write_buffer P a n (Some data)) (fun r s' => r = n /\ I s' /\ forall x, space s' x = mem_set (space s) a data x) s.
Proof.
  intros HI Ha Hle Hd n Hb. pose proof (pc_limit _ _ _ HP). unfold wp.
  rewrite (pc_write_buffer _ _ _ HP) by (done || unfold is_u64; lia_div).
  rewrite (proj2 (Z.leb_le a _)), (proj2 (Z.leb_le _ limit)), !assert_true by done.
  destruct (Z.eqb_spec n 0) as [E|].
  - destruct data; [|cbn in n; lia]. cbn. split_and!; [done|done|]. intros x. by rewrite mem_set_outside by (cbn; lia).
  - pose proof (write_all_file (cycles a n) a n ltac:(apply cycles_cover; lia) ltac:(apply plan_ok; done || lia) data s HI Hd eq_refl) as H1.
    apply wp_elim in H1 as (u & s' & Hrun & H1). unfold mbind, M_bind. rewrite Hrun. by split.
Qed.
Lemma field_write_file n a b e v s : I s -> width n -> is_u64 a -> config_ok limit n a = true ->
  field_ok n b e = true -> 0 <= v < 2 ^ (e - b + 1) ->
  wp (reg_field_write (pci_regs P) n a b e v) (fun r s' => I s' /\ r = register_at s' n a /\
    (forall i, 0 <= i -> Z.testbit r i =
       if bool_decide (b <= i <= e) then Z.testbit v (i - b) else Z.testbit (register_at s n a) i) /\
    (forall x, x < a \/ a + n <= x -> space s' x = space s x) /\
    reg_field_read (pci_regs P) n a b e s' = Done v s') s.
Proof.
  intros HI Hn Ha Hok Hf Hv. pose proof (pc_regs _ _ _ HP) as HR.
  pose proof (register_range n a s HI Hn) as Hr. pose proof (field_set_range n _ b e v Hn Hf Hr Hv) as Hset.
  assert (0 <= b <= e /\ e < 8 * n) as Hbe by (unfold field_ok in Hf; lia).
  assert (in_width n v) as Hvn.
  { unfold in_width. split; [lia|]. eapply Z.lt_le_trans; [apply Hv|].
    transitivity (2 ^ (8 * n)); [apply Z.pow_le_mono_r; lia|]. by destruct Hn as [->|[->| ->]]. }
  unfold wp. rewrite (rc_field_write _ _ _ HR) by done. unfold field_fits. rewrite Hf, (proj2 (Z.ltb_lt _ _)) by lia.
  rewrite assert_true. unfold rmw, mbind, M_bind. rewrite (rf_read RF) by done. fold (register_at s n a).
  pose proof (rf_write RF n a _ s HI Hn Ha Hset Hok) as H1.
  pose proof (rc_write _ _ _ HR n a _ s HI Hn Ha Hset Hok) as H2.
  apply wp_elim in H2 as (r & s' & Hrun & -> & HI'). apply (wp_Done _ _ _ _ _ Hrun) in H1. rewrite Hrun.
  assert (register_at s' n a = field_set (register_at s n a) b e v) as Er.
  { unfold register_at at 1. rewrite (mem_get_ext _ _ _ _ (fun x _ => H1 x)).
    rewrite mem_get_set by (rewrite length_le_split; destruct Hn as [->|[->| ->]]; done).
    rewrite le_combine_split, Z2Nat.id by (destruct Hn as [->|[->| ->]]; done). by apply Z.mod_small. }
  split_and!; [done|done|intros i Hi; apply field_set_bits; lia|..].
  - intros x Hx. rewrite H1. apply mem_set_outside. rewrite length_le_split. destruct Hn as [->|[->| ->]]; lia.
  - rewrite (rc_field_read _ _ _ HR), Hf, assert_true by done. unfold mbind, M_bind. rewrite (rf_read RF) by done.
    fold (register_at s' n a). unfold mret, M_ret. rewrite Er. by rewrite field_get_set by lia.
Qed.
End RegisterFile.

(** C2: BaseCachingPciExpressLib, once initialised, gives every valid address
    of the 256 MB window the contract that IoLib has for aligned addresses: an
    operation asserts its address, makes one read, one write, or one of each
    of the register's width with the documented result, and buffers are
    transferred by the widest aligned accesses that fit.  DxePciLibI440FxQ35,
    once initialised, has the contract of the library that the host bridge
    selects, and keeps to it. *)
Theorem pci_config_contract {W} (Io : RegOps W) (J : W -> Prop) (Base : Z) :
  reg_contract aligned J Io -> 0 <= Base -> Base mod window_size = 0 -> Base + window_size <= 2 ^ 64 ->
  (forall s, J (Express.Env s) -> wp (Express.PciExpressLibInitialize Base) (fun St s' =>
     St = EFI_SUCCESS /\ initialised J Base s' /\ Express.Env s' = Express.Env s) s) /\
  pci_contract 4096 (initialised J Base) (Express.library Io) /\
  forall T (E C : PciOps T) IE IC LE LC HostBridge, pci_contract LE IE E -> pci_contract LC IC C ->
    let q := HostBridge =? 0x29C0 in
    (forall s, below_inv IE IC q (Lib.Sub s) -> wp (Lib.InitializeConfigAccessMethod HostBridge) (fun St s' =>
       St = EFI_SUCCESS /\ settled IE IC q s' /\ Lib.Sub s' = Lib.Sub s) s) /\
    pci_contract (if q then LE else LC) (settled IE IC q) (Lib.library E C).
Proof.
  intros HIo H0 Hm Hw. split_and!.
  - intros s HJ. by split_and!.
  - by apply express_contract.
  - intros T E C IE IC LE LC HostBridge HE HC q. split; [|by apply lib_contract].
    intros s HI. by split_and!.
Qed.

(** Over registers that keep what is written, a library that meets the
    contract moves buffers exactly: ReadBuffer returns the bytes of the range
    and changes nothing, WriteBuffer writes exactly the range, and reading it
    back returns the data.  The accesses of a transfer cover the range in
    order, without gap or overlap, each aligned to its width, and every
    double word inside the range is one access.  Writing a bit field changes
    these bits only, and reading the field back returns the value. *)
Theorem pci_register_file {T} (P : PciOps T) limit I (space : T -> memory) s :
  pci_contract limit I P -> register_file P limit I space -> I s ->
  (forall a n, is_u64 a -> a <= 0xfffffff -> 0 <= n -> a mod 4096 + n <= limit ->
    pci_read_buffer P a n true s = Done (n, mem_get (space s) a n) s /\
    covers a n (cycles a n) /\
    forall d, d mod 4 = 0 -> a <= d -> d + 4 <= a + n -> (d, 4) ∈ cycles a n) /\
  (forall a data, let n := Z.of_nat (length data) in
    is_u64 a -> a <= 0xfffffff -> Forall is_byte data -> a mod 4096 + n <= limit ->
    wp (pci_write_buffer P a n (Some data)) (fun r s' => r = n /\ I s' /\
      (forall x, space s' x = mem_set (space s) a data x) /\
      pci_read_buffer P a n true s' = Done (n, data) s') s) /\
  (forall n a b e v, width n -> is_u64 a -> config_ok limit n a = true -> field_ok n b e = true -> 0 <= v < 2 ^ (e - b + 1) ->
    wp (reg_field_write (pci_regs P) n a b e v) (fun r s' => I s' /\ r = register_at space s' n a /\
      (forall i, 0 <= i -> Z.testbit r i =
         if bool_decide (b <= i <= e) then Z.testbit v (i - b) else Z.testbit (register_at space s n a) i) /\
      (forall x, x < a \/ a + n <= x -> space s' x = space s x) /\
      reg_field_read (pci_regs P) n a b e s' = Done v s') s).
Proof.
  intros HP RF HI. split_and!.
  - intros a n Ha Hle Hn Hb. split_and!; [by eapply read_buffer_file|by apply cycles_cover|]. intros d. by apply cycles_dword.
  - intros a data n Ha Hle Hd Hb.
    eapply wp_mono; [by apply (write_buffer_file P limit I HP space RF)|].
    intros r s' (-> & HI' & Hsp). split_and!; try done.
    rewrite (read_buffer_file P limit I HP space RF) by (done || lia). do 2 f_equal.
    rewrite (mem_get_ext _ (mem_set (space s) a data)) by auto. by apply mem_get_set.
  - intros n a b e v Hn Ha Hok Hf Hv. by eapply field_write_file.
Qed.

(** ** A concrete machine: the window is plain memory *)
Module Example.
Definition ram_read (n a : Z) : M memory Z := fun m =>
  if a mod n =? 0 then Done (le_combine (mem_get m a n)) m else Trap AssertFailed.
Definition ram_write (n a v : Z) : M memory Z := fun m =>
  if a mod n =? 0 then Done v (mem_set m a (le_split (Z.to_nat n) v)) else Trap AssertFailed.
Definition ram_rmw (n a : Z) (f : Z -> Z) : M memory Z := v ← ram_read n a; ram_write n a (f v).
Definition ram : RegOps memory := mkReg memory ram_read ram_write
  (fun n a d => ram_rmw n a (fun r => Z.lor r d)) (fun n a d => ram_rmw n a (fun r => Z.land r d))
  (fun n a d o => ram_rmw n a (fun r => Z.lor (Z.land r d) o))
  (fun n a b e => ASSERT (field_ok n b e);; v ← ram_read n a; mret (field_get v b e))
  (fun n a b e v => ASSERT (field_ok n b e && field_fits b e v);; ram_rmw n a (fun r => field_set r b e v))
  (fun n a b e v => ASSERT (field_ok n b e && field_fits b e v);;
     ram_rmw n a (fun r => field_set r b e (Z.lor (field_get r b e) v)))
  (fun n a b e v => ASSERT (field_ok n b e && field_fits b e v);;
     ram_rmw n a (fun r => field_set r b e (Z.land (field_get r b e) v)))
  (fun n a b e v o => ASSERT (field_ok n b e && field_fits b e v && field_fits b e o);;
     ram_rmw n a (fun r => field_set r b e (Z.lor (Z.land (field_get r b e) v) o))).

Lemma ram_contract : reg_contract aligned mem_bytes ram.
Proof.
  split; intros *; intros HI Hn Ha; try reflexivity; unfold aligned; cbn.
  - unfold ram_read. by intros ->.
  - intros _. unfold ram_write. by intros ->.
  - intros E. unfold wp, ram_read. rewrite E. split; [|done].
    pose proof (le_combine_range _ (mem_get_bytes s a n HI)) as H.
    rewrite length_mem_get, Z2Nat.id in H by (destruct Hn as [->|[->| ->]]; done). done.
  - intros Hv E. unfold wp, ram_write. rewrite E. split; [done|].
    apply mem_set_bytes; [done|]. apply le_split_bytes.
Qed.

Definition window_base : Z := 0xE0000000.
Definition machine : PciOps (Express.st (W:=memory)) := Express.library ram.
Definition start : Express.st (W:=memory) := Express.mkSt window_base (fun _ => 0).
Definition started (s : Express.st (W:=memory)) : Prop := initialised mem_bytes window_base s.
Lemma start_ok : started start.
Proof. split; [done|]. intros a. unfold is_byte. cbn. lia. Qed.

(** An unaligned write is a byte, a word, a double word and a byte. *)
Definition write_then_read : option (Z * list Z) :=
  match pci_write_buffer machine 0x10001 8 (Some [1; 2; 3; 4; 5; 6; 7; 8]) start with
  | Done _ s => match pci_read_buffer machine 0x10001 8 true s with Done r _ => Some r | Trap _ => None end
  | Trap _ => None
  end.
Example write_runs : write_then_read = Some (8, [1; 2; 3; 4; 5; 6; 7; 8]).
Proof. vm_compute. reflexivity. Qed.
Example unaligned_cycles : cycles 0x10001 8 = [(0x10001, 1); (0x10002, 2); (0x10004, 4); (0x10008, 1)].
Proof. vm_compute. reflexivity. Qed.
Example misaligned_asserts : Express.PciExpressRead16 ram 0x10001 start = Trap AssertFailed.
Proof. reflexivity. Qed.

Lemma pci_config_contract_witness :
  pci_contract 4096 started machine /\
  exists s, Lib.InitializeConfigAccessMethod 0x29C0 (Lib.mkSt false start) = Done EFI_SUCCESS s /\
    Lib.mRunningOnQ35 s = true /\ pci_contract 4096 (settled started started true) (Lib.library machine machine).
Proof.
  destruct (pci_config_contract ram mem_bytes window_base ram_contract ltac:(done) ltac:(done) ltac:(done)) as (_ & HP & HL).
  split; [exact HP|]. destruct (HL _ machine machine started started 4096 4096 0x29C0 HP HP) as [Hi Hc].
  specialize (Hi (Lib.mkSt false start) start_ok). apply wp_elim in Hi as (St & s & Hrun & -> & [Hq _] & _).
  exists s. split; [exact Hrun|]. split; [exact Hq|exact Hc].
Defined.

(** The configuration space is the window's memory. *)
Definition config (s : Express.st (W:=memory)) : memory := fun x => Express.Env s (window_base + x).
Lemma config_get s a n : mem_get (config s) a n = mem_get (Express.Env s) (window_base + a) n.
Proof.
  unfold mem_get, config. apply list_eq_same_length with (Z.to_nat n); [by rewrite length_fmap, length_seqZ..|].
  intros i x y Hi. rewrite !list_lookup_fmap, !lookup_seqZ_lt by lia. cbn. intros [= <-] [= <-]. f_equal. lia.
Qed.
Lemma machine_file : register_file machine 4096 started config.
Proof.
  split.
  - intros s [_ HJ] a. apply HJ.
  - intros n a s HI Hn Ha Hok. unfold machine. cbn [pci_regs Express.library].
    rewrite regs_read, (window_run mem_bytes window_base) by done. unfold config_ok in Hok.
    apply andb_true_iff in Hok as [Hok Hm]. apply andb_true_iff in Hok as [Hle _]. rewrite Hle.
    unfold Express.mmio. cbn [reg_read ram]. unfold ram_read.
    assert (((window_base + a) mod n =? 0) = true) as ->.
    { apply Z.eqb_eq. apply Z.eqb_eq in Hm. unfold window_base. destruct Hn as [->|[->| ->]]; lia_div. }
    rewrite config_get. by destruct s.
  - intros n a v s HI Hn Ha Hv Hok. unfold machine. cbn [pci_regs Express.library]. unfold wp.
    rewrite regs_write, (window_run mem_bytes window_base) by done. unfold config_ok in Hok.
    apply andb_true_iff in Hok as [Hok Hm]. apply andb_true_iff in Hok as [Hle _]. rewrite Hle.
    unfold Express.mmio. cbn [reg_write ram]. unfold ram_write.
    assert (((window_base + a) mod n =? 0) = true) as ->.
    { apply Z.eqb_eq. apply Z.eqb_eq in Hm. unfold window_base. destruct Hn as [->|[->| ->]]; lia_div. }
    intros x. unfold config, mem_set. cbn.
    replace (window_base + x - (window_base + a)) with (x - a) by lia.
    repeat case_match; done || lia.
Qed.

Lemma pci_register_file_witness :
  pci_read_buffer machine 0x10001 4 true start = Done (4, mem_get (config start) 0x10001 4) start /\
  wp (pci_write_buffer machine 0x10001 4 (Some [1; 2; 3; 4])) (fun r s' =>
    pci_read_buffer machine 0x10001 4 true s' = Done (4, [1; 2; 3; 4]) s') start /\
  wp (reg_field_write (pci_regs machine) 2 0x10004 3 6 5) (fun r s' =>
    reg_field_read (pci_regs machine) 2 0x10004 3 6 s' = Done 5 s') start.
Proof.
  assert (pci_contract 4096 started machine) as HP by (apply express_contract; [apply ram_contract|done]).
  destruct (pci_register_file machine 4096 started config start HP machine_file start_ok) as (Hr & Hw & Hf).
  split_and!.
  - apply Hr; unfold is_u64; lia || done.
  - eapply wp_mono; [apply (Hw 0x10001 [1; 2; 3; 4]); [unfold is_u64; lia|lia|repeat constructor; done|done]|].
    intros r s' (_ & _ & _ & H). exact H.
  - eapply wp_mono; [apply (Hf 2 0x10004 3 6 5); [by right; left|unfold is_u64; lia|done|done|lia]|].
    intros r s' (_ & _ & _ & _ & H). exact H.
Defined.
End Example.
