(* ===== verification/AcpiLoader.v ===== *)
(** * AcpiPlatformDxe: the QEMU linker/loader for ACPI tables

    Models QemuPkg/AcpiPlatformDxe/QemuFwCfgAcpi.c.  QEMU exports a script of
    128-byte commands in the fw_cfg file "etc/table-loader".  The first pass
    executes the commands: download blobs into ACPI NVS pages, relocate
    pointers between blobs, patch checksums, tell QEMU the addresses it needs.
    The second pass follows the relocated pointers and installs what looks
    like an ACPI table.  Every failure rolls everything back.

    The state keeps physical memory, the live page allocations, the pool
    objects ([BLOB]s), the fw_cfg position and the log of bytes written to
    fw_cfg files, and the tables that the ACPI table protocol currently holds.
    Memory accesses are checked against the live pages. *)
From S2P Require Import Prelude Bytes Memory OrderedCollection.
From stdpp Require Import strings.
#[local] Open Scope list_scope.
#[local] Open Scope Z_scope.

(** ** Data of QemuLoader.h *)
Definition QEMU_LOADER_FNAME_SIZE : Z := 56.

Record QEMU_LOADER_ALLOCATE : Type := mkAllocate {
  Allocate_File : list Z; Alignment : Z; Zone : Z }.
Record QEMU_LOADER_ADD_POINTER : Type := mkAddPointer {
  PointerFile : list Z; PointeeFile : list Z; PointerOffset : Z; PointerSize : Z }.
Record QEMU_LOADER_ADD_CHECKSUM : Type := mkAddChecksum {
  Checksum_File : list Z; ResultOffset : Z; Start : Z; Length : Z }.
Record QEMU_LOADER_WRITE_POINTER : Type := mkWritePointer {
  W_PointerFile : list Z; W_PointeeFile : list Z; W_PointerOffset : Z;
  PointeeOffset : Z; W_PointerSize : Z }.

(** The tagged union; any other [Type] is skipped by the loader. *)
Inductive QEMU_LOADER_ENTRY : Type :=
  | CmdAllocate (c : QEMU_LOADER_ALLOCATE)
  | CmdAddPointer (c : QEMU_LOADER_ADD_POINTER)
  | CmdAddChecksum (c : QEMU_LOADER_ADD_CHECKSUM)
  | CmdWritePointer (c : QEMU_LOADER_WRITE_POINTER)
  | CmdUnknown (Type_ : Z).

Definition LOADER_ENTRY_SIZE : Z := 128.

(** The packed layout: [field o n] is the [n]-byte field at offset [o]. *)
Definition field (bs : list Z) (o n : nat) : list Z := take n (drop o bs).
Definition decode_entry (bs : list Z) : QEMU_LOADER_ENTRY :=
  let num o n := le_combine (field bs o n) in
  let Type_ := num 0%nat 4%nat in
  let name o := field bs o 56%nat in
  if Type_ =? 1 then
    CmdAllocate (mkAllocate (name 4%nat) (num 60%nat 4%nat) (num 64%nat 1%nat))
  else if Type_ =? 2 then
    CmdAddPointer (mkAddPointer (name 4%nat) (name 60%nat) (num 116%nat 4%nat) (num 120%nat 1%nat))
  else if Type_ =? 3 then
    CmdAddChecksum (mkAddChecksum (name 4%nat) (num 60%nat 4%nat) (num 64%nat 4%nat) (num 68%nat 4%nat))
  else if Type_ =? 4 then
    CmdWritePointer (mkWritePointer (name 4%nat) (name 60%nat) (num 116%nat 4%nat)
                                    (num 120%nat 4%nat) (num 124%nat 1%nat))
  else CmdUnknown Type_.

Fixpoint decode_entries (count : nat) (bs : list Z) : list QEMU_LOADER_ENTRY :=
  match count with
  | O => []
  | S count => decode_entry (take 128 bs) :: decode_entries count (drop 128 bs)
  end.

(** [File[QEMU_LOADER_FNAME_SIZE - 1] != '\0'] *)
Definition malformed (File : list Z) : bool :=
  negb (nth (Z.to_nat (QEMU_LOADER_FNAME_SIZE - 1)) File 0 =? 0).

(** A string literal of the source. *)
Fixpoint ascii_bytes (s : string) : list Z :=
  match s with
  | EmptyString => []
  | String c s => Z.of_N (Ascii.N_of_ascii c) :: ascii_bytes s
  end.

Definition script_name : list Z := ascii_bytes "etc/table-loader".

Record BLOB : Type := mkBlob {
  File : list Z; Size : Z; Base : Z; HostsOnlyTableData : bool }.

Definition ptr : Type := positive.
Definition INSTALLED_TABLES_MAX : Z := 128.
Definition MAX_UINT32 : Z := 2 ^ 32 - 1.
Definition MAX_UINT64 : Z := 2 ^ 64 - 1.
Definition MAX_ADDRESS : Z := 2 ^ 64 - 1.

(** Layout of the two ACPI headers that are looked at (and of the FADT). *)
Definition FACS_SIZE : Z := 64.
Definition HEADER_SIZE : Z := 36.
Definition SIGNATURE_FACS : Z := 0x53434146.
Definition SIGNATURE_RSDT : Z := 0x54445352.
Definition SIGNATURE_XSDT : Z := 0x54445358.
Definition SIGNATURE_FACP : Z := 0x50434146.
Definition OFFSET_Length : Z := 4.
Definition OFFSET_Checksum : Z := 9.
Definition OFFSET_ArmBootArch : Z := 129.
Definition ARM_PSCI_COMPLIANT : Z := 1.

(** ** Comparison functions *)
Section compare.
Context (AsciiStrCmp : list Z -> list Z -> Z).

Definition BlobKeyCompare (StandaloneKey : list Z) (Blob : BLOB) : Z :=
  AsciiStrCmp StandaloneKey (cstr (File Blob)).
Definition BlobCompare (Blob1 Blob2 : BLOB) : Z := BlobKeyCompare (cstr (File Blob1)) Blob2.
Definition AsciiStringCompare (a b : list Z) : Z := AsciiStrCmp a b.
Definition PointerCompare (Pointer1 Pointer2 : Z) : Z :=
  if Pointer1 =? Pointer2 then 0 else if Pointer1 <? Pointer2 then -1 else 1.
End compare.

#[global] Instance PointerCompare_ThreeWay : ThreeWay PointerCompare.
Proof. split; unfold PointerCompare; intros; repeat case_match; lia. Qed.

(** ** Services outside this file *)

(** The fw_cfg device behind QemuFwCfgLib: the file directory is fixed while
    the guest runs; reads return [size] bytes of the item. *)
Class FwCfg (W : Type) := {
  FindFile : list Z -> EFI_STATUS * Z * Z;
  fw_read : W -> Z -> Z -> Z -> list Z * W;
}.
Class FwCfgLaws (W : Type) {F : FwCfg W} : Prop := {
  (** fw_cfg directory entries hold a 32-bit size *)
  FindFile_size n Status item size : FindFile n = (Status, item, size) -> is_u32 size;
  fw_read_buffer w item off size bs w' :
    fw_read w item off size = (bs, w') -> length bs = Z.to_nat size /\ Forall is_byte bs;
}.

(** [gBS->AllocatePages (AllocateMaxAddress, EfiACPIMemoryNVS, n, &Address)],
    given the live allocations. *)
Class PageEnv (W : Type) :=
  page_alloc : W -> page_map -> Z -> Z -> EFI_STATUS * Z * W.
Class PageLaws (W : Type) {P : PageEnv W} : Prop :=
  page_alloc_spec w live n max Status a w' :
    page_alloc w live n max = (Status, a, w') -> EFI_ERROR Status = false ->
    0 <= a /\ a + EFI_PAGE_SIZE * n <= max + 1 /\ a + EFI_PAGE_SIZE * n <= MAX_ADDRESS /\
    disjoint_from live a n.

(** [EFI_ACPI_TABLE_PROTOCOL.InstallAcpiTable], given address, size and the
    bytes found there; it may store a table key. *)
Class AcpiTableEnv (W : Type) := {
  InstallAcpiTable : W -> Z -> Z -> list Z -> EFI_STATUS * Z * W;
  UninstallAcpiTable : W -> Z -> W;
}.

(** PciDecoding.c brackets the download of the script. *)
Class PciDecodingEnv (W : Type) := {
  ORIGINAL_ATTRIBUTES : Type;
  EnablePciDecoding : W -> ORIGINAL_ATTRIBUTES * W;
  RestorePciDecoding : W -> ORIGINAL_ATTRIBUTES -> W;
}.

(** BaseLib's 8-bit sums. *)
Class Sum8 := {
  CalculateSum8 : list Z -> Z;
  CalculateCheckSum8 : list Z -> Z;
}.
Fixpoint sum (l : list Z) : Z := match l with [] => 0 | b :: l => b + sum l end.
Class Sum8Laws {S8 : Sum8} : Prop := {
  CalculateSum8_spec l : Forall is_byte l -> CalculateSum8 l = u8 (sum l);
  CalculateCheckSum8_spec l : Forall is_byte l -> CalculateCheckSum8 l = u8 (- sum l);
}.

Section Loader.
Context {W : Type} {PE : PoolEnv W} {FW : FwCfg W} {PG : PageEnv W}.
Context {AT : AcpiTableEnv W} {PD : PciDecodingEnv W} {S8 : Sum8}.
Context {AsciiStrCmp : list Z -> list Z -> Z}.
(** Tracker, AllocationsRestrictedTo32Bit, SeenPointers *)
Context {OCT : OrderedCollection (list Z) ptr W AsciiStrCmp}.
Context {OCR : OrderedCollection (list Z) (list Z) W AsciiStrCmp}.
Context {OCS : OrderedCollection Z Z W PointerCompare}.
Context (MDE_CPU_AARCH64 : bool).

Record st : Type := mkSt {
  Env : W;
  Mem : memory;
  Pages : page_map;
  Blobs : gmap ptr BLOB;
  LivePool : Z;                       (* LoaderStart, InstalledKey *)
  LiveCollections : Z;
  FwPos : Z * Z;                      (* selected item, offset in it *)
  FwWrites : list (Z * Z * list Z);   (* item, offset, bytes; oldest first *)
  Tables : list (Z * Z * Z);          (* key, address, size; newest first *)
}.

Definition set_env (w : W) (s : st) : st :=
  mkSt w (Mem s) (Pages s) (Blobs s) (LivePool s) (LiveCollections s) (FwPos s) (FwWrites s) (Tables s).
Definition set_mem (m : memory) (s : st) : st :=
  mkSt (Env s) m (Pages s) (Blobs s) (LivePool s) (LiveCollections s) (FwPos s) (FwWrites s) (Tables s).
Definition set_pages (P : page_map) (s : st) : st :=
  mkSt (Env s) (Mem s) P (Blobs s) (LivePool s) (LiveCollections s) (FwPos s) (FwWrites s) (Tables s).
Definition set_blobs (B : gmap ptr BLOB) (s : st) : st :=
  mkSt (Env s) (Mem s) (Pages s) B (LivePool s) (LiveCollections s) (FwPos s) (FwWrites s) (Tables s).
Definition add_pool (n : Z) (s : st) : st :=
  mkSt (Env s) (Mem s) (Pages s) (Blobs s) (LivePool s + n) (LiveCollections s) (FwPos s) (FwWrites s) (Tables s).
Definition add_collections (n : Z) (s : st) : st :=
  mkSt (Env s) (Mem s) (Pages s) (Blobs s) (LivePool s) (LiveCollections s + n) (FwPos s) (FwWrites s) (Tables s).
Definition set_fw (pos : Z * Z) (ws : list (Z * Z * list Z)) (s : st) : st :=
  mkSt (Env s) (Mem s) (Pages s) (Blobs s) (LivePool s) (LiveCollections s) pos ws (Tables s).
Definition set_tables (T : list (Z * Z * Z)) (s : st) : st :=
  mkSt (Env s) (Mem s) (Pages s) (Blobs s) (LivePool s) (LiveCollections s) (FwPos s) (FwWrites s) T.

(** *** Services *)
Definition env_call {A} (f : W -> A * W) : M st A :=
  fun s => let '(a, w) := f (Env s) in Done a (set_env w s).
Definition read_mem (a n : Z) : M st (list Z) :=
  s ← get; if in_pages (Pages s) a n then mret (mem_get (Mem s) a n) else trapped BadPointer.
Definition write_mem (a : Z) (bs : list Z) : M st unit :=
  s ← get;
  if in_pages (Pages s) a (Z.of_nat (length bs)) then put (set_mem (mem_set (Mem s) a bs) s)
  else trapped BadPointer.
(** A little-endian load of [n] bytes. *)
Definition read_le (a n : Z) : M st Z := bs ← read_mem a n; mret (le_combine bs).

Definition AllocatePages (max n : Z) : M st (EFI_STATUS * Z) :=
  s ← get;
  r ← env_call (fun w => let '(Status, a, w') := page_alloc w (Pages s) n max in ((Status, a), w'));
  (if EFI_ERROR r.1 then mret tt else modify (fun s => set_pages (<[r.2 := n]> (Pages s)) s));;
  mret r.
Definition FreePages (a n : Z) : M st unit :=
  s ← get;
  k ← deref (Pages s !! a);
  if k =? n then put (set_pages (delete a (Pages s)) s) else trapped BadPointer.

Definition AllocateBlob (b : BLOB) : M st (option ptr) :=
  ok ← env_call pool_alloc;
  s ← get;
  if ok : bool then
    let p := fresh (dom (Blobs s)) in put (set_blobs (<[p := b]> (Blobs s)) s);; mret (Some p)
  else mret None.
Definition load (p : ptr) : M st BLOB := s ← get; deref (Blobs s !! p).
Definition store (p : ptr) (b : BLOB) : M st unit :=
  _ ← load p; modify (fun s => set_blobs (<[p := b]> (Blobs s)) s).
Definition FreeBlobPool (p : ptr) : M st unit :=
  _ ← load p; modify (fun s => set_blobs (delete p (Blobs s)) s).
Definition AllocatePool : M st bool :=
  ok ← env_call pool_alloc; (if ok : bool then modify (add_pool 1) else mret tt);; mret ok.
Definition FreePool : M st unit := modify (add_pool (-1)).

Definition QemuFwCfgSelectItem (item : Z) : M st unit :=
  modify (fun s => set_fw (item, 0) (FwWrites s) s).
Definition QemuFwCfgSkipBytes (n : Z) : M st unit :=
  modify (fun s => set_fw ((FwPos s).1, (FwPos s).2 + n) (FwWrites s) s).
Definition QemuFwCfgReadBytes (n : Z) : M st (list Z) :=
  s ← get;
  bs ← env_call (fun w => fw_read w (FwPos s).1 (FwPos s).2 n);
  QemuFwCfgSkipBytes n;; mret bs.
Definition QemuFwCfgWriteBytes (bs : list Z) : M st unit :=
  modify (fun s => set_fw ((FwPos s).1, (FwPos s).2 + Z.of_nat (length bs))
                          (FwWrites s ++ [(FwPos s, bs)]) s).

Section collections.
Context {K U cmp} {OC : OrderedCollection K U W cmp}.
Definition CollectionInit : M st (option (oc OC)) :=
  r ← env_call oc_init;
  match r with
  | Some c => modify (add_collections 1);; mret (Some c)
  | None => mret None
  end.
Definition CollectionInsert (c : oc OC) (k : K) (u : U) : M st (insert_result U * oc OC) :=
  env_call (fun w => let '(r, c', w') := oc_insert w c k u in ((r, c'), w')).
(** OrderedCollectionUninit requires an empty collection. *)
Definition CollectionUninit (c : oc OC) : M st unit :=
  ASSERT (bool_decide (oc_entries c = []));; modify (add_collections (-1)).
(** Delete entry after entry in traversal order. *)
Definition DeleteAll (c : oc OC) : oc OC :=
  foldl (fun c e => oc_delete c e.1) c (oc_entries c).
End collections.

(** *** Allocations restricted to 32 bits *)
Definition ReleaseAllocationsRestrictedTo32Bit (c : oc OCR) : M st unit :=
  CollectionUninit (DeleteAll c).

Fixpoint CollectLoop (Collection : oc OCR) (l : list QEMU_LOADER_ENTRY)
    : M st (EFI_STATUS * option (oc OCR)) :=
  match l with
  | [] => mret (EFI_SUCCESS, Some Collection)
  | CmdAddPointer AddPointer :: l =>
      if 8 <=? PointerSize AddPointer then CollectLoop Collection l
      else if malformed (PointeeFile AddPointer) then
        ReleaseAllocationsRestrictedTo32Bit Collection;; mret (EFI_PROTOCOL_ERROR, None)
      else
        let name := cstr (PointeeFile AddPointer) in
        r ← CollectionInsert Collection name name;
        let '(r, Collection) := r in
        match r with
        | Inserted | AlreadyStarted _ => CollectLoop Collection l
        | OutOfResources =>
            ReleaseAllocationsRestrictedTo32Bit Collection;; mret (EFI_OUT_OF_RESOURCES, None)
        end
  | _ :: l => CollectLoop Collection l
  end.

Definition CollectAllocationsRestrictedTo32Bit (l : list QEMU_LOADER_ENTRY)
    : M st (EFI_STATUS * option (oc OCR)) :=
  c ← CollectionInit;
  match c with
  | None => mret (EFI_OUT_OF_RESOURCES, None)
  | Some Collection => CollectLoop Collection l
  end.

(** *** First pass *)
Definition ProcessCmdAllocate (Allocate : QEMU_LOADER_ALLOCATE) (Tracker : oc OCT)
    (Restricted : oc OCR) : M st (EFI_STATUS * oc OCT) :=
  if malformed (Allocate_File Allocate) then mret (EFI_PROTOCOL_ERROR, Tracker)
  else if EFI_PAGE_SIZE <? Alignment Allocate then mret (EFI_UNSUPPORTED, Tracker)
  else
    let name := cstr (Allocate_File Allocate) in
    let '(Status, FwCfgItem, FwCfgSize) := FindFile name in
    if EFI_ERROR Status then mret (Status, Tracker)
    else
      let NumPages := EFI_SIZE_TO_PAGES FwCfgSize in
      let Address := match oc_find Restricted name with Some _ => MAX_UINT32 | None => MAX_UINT64 end in
      r ← AllocatePages Address NumPages;
      let '(Status, Address) := r in
      if EFI_ERROR Status then mret (Status, Tracker)
      else
        Blob ← AllocateBlob (mkBlob (Allocate_File Allocate) FwCfgSize Address true);
        match Blob with
        | None => FreePages Address NumPages;; mret (EFI_OUT_OF_RESOURCES, Tracker)
        | Some Blob =>
          r ← CollectionInsert Tracker name Blob;
          let '(r, Tracker) := r in
          let Status := match r with AlreadyStarted _ => EFI_PROTOCOL_ERROR | _ => insert_status r end in
          if EFI_ERROR Status then
            FreeBlobPool Blob;; FreePages Address NumPages;; mret (Status, Tracker)
          else
            QemuFwCfgSelectItem FwCfgItem;;
            bs ← QemuFwCfgReadBytes FwCfgSize;
            write_mem Address bs;;
            write_mem (Address + FwCfgSize)
              (replicate (Z.to_nat (EFI_PAGES_TO_SIZE NumPages - FwCfgSize)) 0);;
            mret (EFI_SUCCESS, Tracker)
        end.

Definition valid_pointer_size (n : Z) : bool := (n =? 1) || (n =? 2) || (n =? 4) || (n =? 8).

Definition ProcessCmdAddPointer (AddPointer : QEMU_LOADER_ADD_POINTER) (Tracker : oc OCT)
    : M st EFI_STATUS :=
  if malformed (PointerFile AddPointer) || malformed (PointeeFile AddPointer)
  then mret EFI_PROTOCOL_ERROR
  else
    match oc_find Tracker (cstr (PointerFile AddPointer)),
          oc_find Tracker (cstr (PointeeFile AddPointer)) with
    | Some Blob, Some Blob2 =>
      Blob ← load Blob;
      Blob2 ← load Blob2;
      if negb (valid_pointer_size (PointerSize AddPointer))
         || (Size Blob <? PointerSize AddPointer)
         || (Size Blob - PointerSize AddPointer <? PointerOffset AddPointer)
      then mret EFI_PROTOCOL_ERROR
      else
        let PointerField := u64 (Base Blob + PointerOffset AddPointer) in
        PointerValue ← read_le PointerField (PointerSize AddPointer);
        if Size Blob2 <=? PointerValue then mret EFI_PROTOCOL_ERROR
        else
          ASSERT (Base Blob2 <=? MAX_ADDRESS - Size Blob2);;
          let PointerValue := u64 (PointerValue + Base Blob2) in
          if (PointerSize AddPointer <? 8)
             && negb (Z.shiftr PointerValue (PointerSize AddPointer * 8) =? 0)
          then mret EFI_PROTOCOL_ERROR
          else
            write_mem PointerField (le_split (Z.to_nat (PointerSize AddPointer)) PointerValue);;
            mret EFI_SUCCESS
    | _, _ => mret EFI_PROTOCOL_ERROR
    end.

Definition ProcessCmdAddChecksum (AddChecksum : QEMU_LOADER_ADD_CHECKSUM) (Tracker : oc OCT)
    : M st EFI_STATUS :=
  if malformed (Checksum_File AddChecksum) then mret EFI_PROTOCOL_ERROR
  else
    match oc_find Tracker (cstr (Checksum_File AddChecksum)) with
    | None => mret EFI_PROTOCOL_ERROR
    | Some Blob =>
      Blob ← load Blob;
      if (Size Blob <=? ResultOffset AddChecksum)
         || (Size Blob <? Length AddChecksum)
         || (Size Blob - Length AddChecksum <? Start AddChecksum)
      then mret EFI_PROTOCOL_ERROR
      else
        bs ← read_mem (u64 (Base Blob + Start AddChecksum)) (Length AddChecksum);
        write_mem (u64 (Base Blob + ResultOffset AddChecksum)) [CalculateCheckSum8 bs];;
        mret EFI_SUCCESS
    end.

Definition ProcessCmdWritePointer (WritePointer : QEMU_LOADER_WRITE_POINTER) (Tracker : oc OCT)
    : M st EFI_STATUS :=
  if malformed (W_PointerFile WritePointer) || malformed (W_PointeeFile WritePointer)
  then mret EFI_PROTOCOL_ERROR
  else
    let '(Status, PointerItem, PointerItemSize) := FindFile (cstr (W_PointerFile WritePointer)) in
    match oc_find Tracker (cstr (W_PointeeFile WritePointer)) with
    | None => mret EFI_PROTOCOL_ERROR
    | Some Pointee =>
      if EFI_ERROR Status then mret EFI_PROTOCOL_ERROR
      else if negb (valid_pointer_size (W_PointerSize WritePointer))
         || (PointerItemSize <? W_PointerSize WritePointer)
         || (PointerItemSize - W_PointerSize WritePointer <? W_PointerOffset WritePointer)
      then mret EFI_PROTOCOL_ERROR
      else
        PointeeBlob ← load Pointee;
        if Size PointeeBlob <=? PointeeOffset WritePointer then mret EFI_PROTOCOL_ERROR
        else
          ASSERT (Base PointeeBlob <=? MAX_ADDRESS - Size PointeeBlob);;
          let PointerValue := u64 (PointeeOffset WritePointer + Base PointeeBlob) in
          if (W_PointerSize WritePointer <? 8)
             && negb (Z.shiftr PointerValue (W_PointerSize WritePointer * 8) =? 0)
          then mret EFI_PROTOCOL_ERROR
          else
            QemuFwCfgSelectItem PointerItem;;
            QemuFwCfgSkipBytes (W_PointerOffset WritePointer);;
            QemuFwCfgWriteBytes (le_split (Z.to_nat (W_PointerSize WritePointer)) PointerValue);;
            store Pointee (mkBlob (File PointeeBlob) (Size PointeeBlob) (Base PointeeBlob) false);;
            mret EFI_SUCCESS
    end.

Definition UndoCmdWritePointer (WritePointer : QEMU_LOADER_WRITE_POINTER) : M st unit :=
  let '(Status, PointerItem, PointerItemSize) := FindFile (cstr (W_PointerFile WritePointer)) in
  ASSERT (negb (EFI_ERROR Status));;
  QemuFwCfgSelectItem PointerItem;;
  QemuFwCfgSkipBytes (W_PointerOffset WritePointer);;
  QemuFwCfgWriteBytes (le_split (Z.to_nat (W_PointerSize WritePointer)) 0).

(** *** Second pass *)

(** The size of the table at [PointerValue]: a FACS, else a table with the
    uniform header.  [None] is an RSDT or XSDT, which is skipped. *)
Definition ProbeFacs (PointerValue Blob2Remaining : Z) : M st Z :=
  if FACS_SIZE <=? Blob2Remaining then
    Length_ ← read_le (PointerValue + OFFSET_Length) 4;
    Signature ← read_le PointerValue 4;
    mret (if (FACS_SIZE <=? Length_) && (Length_ <=? Blob2Remaining) && (Signature =? SIGNATURE_FACS)
          then Length_ else 0)
  else mret 0.

Definition ProbeHeader (TableSize PointerValue Blob2Remaining : Z) : M st (option Z) :=
  if (TableSize =? 0) && (HEADER_SIZE <=? Blob2Remaining) then
    Length_ ← read_le (PointerValue + OFFSET_Length) 4;
    if (HEADER_SIZE <=? Length_) && (Length_ <=? Blob2Remaining) then
      bs ← read_mem PointerValue Length_;
      if CalculateSum8 bs =? 0 then
        Signature ← read_le PointerValue 4;
        if (Signature =? SIGNATURE_RSDT) || (Signature =? SIGNATURE_XSDT)
        then mret None
        else mret (Some Length_)
      else mret (Some TableSize)
    else mret (Some TableSize)
  else mret (Some TableSize).

(** AARCH64 builds patch the FADT before installing it. *)
Definition EnablePsci (PointerValue TableSize : Z) : M st unit :=
  Signature ← read_le PointerValue 4;
  if (Signature =? SIGNATURE_FACP) && (OFFSET_ArmBootArch + 2 <=? TableSize) then
    ArmBootArch ← read_le (PointerValue + OFFSET_ArmBootArch) 2;
    if Z.land ArmBootArch ARM_PSCI_COMPLIANT =? 0 then
      write_mem (PointerValue + OFFSET_ArmBootArch) (le_split 2 (Z.lor ArmBootArch ARM_PSCI_COMPLIANT));;
      write_mem (PointerValue + OFFSET_Checksum) [0];;
      bs ← read_mem PointerValue TableSize;
      write_mem (PointerValue + OFFSET_Checksum) [CalculateCheckSum8 bs]
    else mret tt
  else mret tt.

(** [&InstalledKey[*NumInstalled]]: the protocol stores the key there. *)
Definition InstallTable (PointerValue TableSize : Z) (InstalledKey : list Z) (NumInstalled : Z)
    : M st (EFI_STATUS * list Z) :=
  bs ← read_mem PointerValue TableSize;
  r ← env_call (fun w => let '(Status, key, w') := InstallAcpiTable w PointerValue TableSize bs in
                          ((Status, key), w'));
  let '(Status, key) := r in
  _ ← deref (InstalledKey !! Z.to_nat NumInstalled);
  (if EFI_ERROR Status then mret tt
   else modify (fun s => set_tables ((key, PointerValue, TableSize) :: Tables s) s));;
  mret (Status, <[Z.to_nat NumInstalled := key]> InstalledKey).

Definition second_out : Type := EFI_STATUS * list Z * Z * oc OCS.

Definition Process2ndPassCmdAddPointer (AddPointer : QEMU_LOADER_ADD_POINTER) (Tracker : oc OCT)
    (InstalledKey : list Z) (NumInstalled : Z) (SeenPointers : oc OCS) : M st second_out :=
  if (NumInstalled <? 0) || (INSTALLED_TABLES_MAX <? NumInstalled)
  then mret (EFI_INVALID_PARAMETER, InstalledKey, NumInstalled, SeenPointers)
  else
    TrackerEntry ← deref (oc_find Tracker (cstr (PointerFile AddPointer)));
    TrackerEntry2 ← deref (oc_find Tracker (cstr (PointeeFile AddPointer)));
    Blob ← load TrackerEntry;
    Blob2 ← load TrackerEntry2;
    PointerValue ← read_le (u64 (Base Blob + PointerOffset AddPointer)) (PointerSize AddPointer);
    ASSERT (Base Blob2 <=? PointerValue);;
    let Blob2Remaining := u64 (Base Blob2 + Size Blob2) in
    ASSERT (PointerValue <? Blob2Remaining);;
    r ← CollectionInsert SeenPointers PointerValue PointerValue;
    let '(r, SeenPointers) := r in
    match r with
    | AlreadyStarted _ => mret (EFI_SUCCESS, InstalledKey, NumInstalled, SeenPointers)
    | OutOfResources => mret (EFI_OUT_OF_RESOURCES, InstalledKey, NumInstalled, SeenPointers)
    | Inserted =>
      let Blob2Remaining := Blob2Remaining - PointerValue in
      TableSize ← ProbeFacs PointerValue Blob2Remaining;
      TableSize ← ProbeHeader TableSize PointerValue Blob2Remaining;
      match TableSize with
      | None => mret (EFI_SUCCESS, InstalledKey, NumInstalled, SeenPointers)
      | Some TableSize =>
        if TableSize =? 0 then
          store TrackerEntry2 (mkBlob (File Blob2) (Size Blob2) (Base Blob2) false);;
          mret (EFI_SUCCESS, InstalledKey, NumInstalled, SeenPointers)
        else if NumInstalled =? INSTALLED_TABLES_MAX then
          mret (EFI_OUT_OF_RESOURCES, InstalledKey, NumInstalled, oc_delete SeenPointers PointerValue)
        else
          (if MDE_CPU_AARCH64 then EnablePsci PointerValue TableSize else mret tt);;
          r ← InstallTable PointerValue TableSize InstalledKey NumInstalled;
          let '(Status, InstalledKey) := r in
          if EFI_ERROR Status
          then mret (Status, InstalledKey, NumInstalled, oc_delete SeenPointers PointerValue)
          else mret (EFI_SUCCESS, InstalledKey, NumInstalled + 1, SeenPointers)
      end
    end.

(** *** InstallQemuFwCfgTables, label by label *)
Definition FreeLoader (Status : EFI_STATUS) : M st EFI_STATUS := FreePool;; mret Status.

Definition FreeAllocationsRestrictedTo32Bit (Restricted : oc OCR) (Status : EFI_STATUS) :=
  ReleaseAllocationsRestrictedTo32Bit Restricted;; FreeLoader Status.

(** [while (LoaderEntry > LoaderStart)]: the entries below index [n], last first. *)
Fixpoint RollbackWritePointers (l : list QEMU_LOADER_ENTRY) (n : nat) : M st unit :=
  match n with
  | O => mret tt
  | S n =>
      e ← deref (l !! n);
      match e with
      | CmdWritePointer WritePointer => UndoCmdWritePointer WritePointer
      | _ => mret tt
      end;;
      RollbackWritePointers l n
  end.

Fixpoint TearDownTracker (Status : EFI_STATUS) (Tracker : oc OCT) (l : list (list Z * ptr))
    : M st (oc OCT) :=
  match l with
  | [] => mret Tracker
  | (k, Blob) :: l =>
      let Tracker := oc_delete Tracker k in
      b ← load Blob;
      (if EFI_ERROR Status || HostsOnlyTableData b
       then FreePages (Base b) (EFI_SIZE_TO_PAGES (Size b)) else mret tt);;
      FreeBlobPool Blob;;
      TearDownTracker Status Tracker l
  end.

Definition RollbackWritePointersAndFreeTracker (entries : list QEMU_LOADER_ENTRY)
    (WritePointerSubsetEnd : nat) (Tracker : oc OCT) (Restricted : oc OCR) (Status : EFI_STATUS) :=
  (if EFI_ERROR Status then RollbackWritePointers entries WritePointerSubsetEnd else mret tt);;
  Tracker ← TearDownTracker Status Tracker (oc_entries Tracker);
  CollectionUninit Tracker;;
  FreeAllocationsRestrictedTo32Bit Restricted Status.

(** [while (Installed > 0)]: UninstallAcpiTable removes the table it is given
    the key of. *)
Fixpoint remove_table (key : Z) (T : list (Z * Z * Z)) : list (Z * Z * Z) :=
  match T with
  | [] => []
  | t :: T => if t.1.1 =? key then T else t :: remove_table key T
  end.
Fixpoint UninstallAcpiTables (InstalledKey : list Z) (Installed : nat) : M st unit :=
  match Installed with
  | O => mret tt
  | S Installed =>
      key ← deref (InstalledKey !! Installed);
      env_call (fun w => (tt, UninstallAcpiTable w key));;
      modify (fun s => set_tables (remove_table key (Tables s)) s);;
      UninstallAcpiTables InstalledKey Installed
  end.

Fixpoint SecondPass (l : list QEMU_LOADER_ENTRY) (Status : EFI_STATUS) (Tracker : oc OCT)
    (InstalledKey : list Z) (Installed : Z) (SeenPointers : oc OCS) : M st second_out :=
  match l with
  | [] => mret (Status, InstalledKey, Installed, SeenPointers)
  | CmdAddPointer AddPointer :: l =>
      r ← Process2ndPassCmdAddPointer AddPointer Tracker InstalledKey Installed SeenPointers;
      let '(Status, InstalledKey, Installed, SeenPointers) := r in
      if EFI_ERROR Status then mret r
      else SecondPass l Status Tracker InstalledKey Installed SeenPointers
  | _ :: l => SecondPass l Status Tracker InstalledKey Installed SeenPointers
  end.

Definition ProcessCmd (e : QEMU_LOADER_ENTRY) (Status : EFI_STATUS) (Tracker : oc OCT)
    (Restricted : oc OCR) : M st (EFI_STATUS * oc OCT) :=
  match e with
  | CmdAllocate c => ProcessCmdAllocate c Tracker Restricted
  | CmdAddPointer c => Status ← ProcessCmdAddPointer c Tracker; mret (Status, Tracker)
  | CmdAddChecksum c => Status ← ProcessCmdAddChecksum c Tracker; mret (Status, Tracker)
  | CmdWritePointer c => Status ← ProcessCmdWritePointer c Tracker; mret (Status, Tracker)
  | CmdUnknown _ => mret (Status, Tracker)
  end.

(** [i] is the index of the head of [l]; [WPEnd] is WritePointerSubsetEnd. *)
Fixpoint FirstPass (l : list QEMU_LOADER_ENTRY) (i WPEnd : nat) (Status : EFI_STATUS)
    (Tracker : oc OCT) (Restricted : oc OCR) : M st (EFI_STATUS * nat * oc OCT) :=
  match l with
  | [] => mret (Status, WPEnd, Tracker)
  | e :: l =>
      r ← ProcessCmd e Status Tracker Restricted;
      let '(Status, Tracker) := r in
      let WPEnd := match e with
                   | CmdWritePointer _ => if EFI_ERROR Status then WPEnd else S i
                   | _ => WPEnd
                   end in
      if EFI_ERROR Status then mret (Status, WPEnd, Tracker)
      else FirstPass l (S i) WPEnd Status Tracker Restricted
  end.

(** The second pass and the labels UninstallAcpiTables and FreeKeys. *)
Definition InstallTables (entries : list QEMU_LOADER_ENTRY) (Tracker : oc OCT)
    (Status : EFI_STATUS) : M st EFI_STATUS :=
  ok ← AllocatePool;
  if negb ok then mret EFI_OUT_OF_RESOURCES
  else
    SeenPointers ← CollectionInit;
    match SeenPointers with
    | None => FreePool;; mret EFI_OUT_OF_RESOURCES
    | Some SeenPointers =>
      r ← SecondPass entries Status Tracker
            (replicate (Z.to_nat INSTALLED_TABLES_MAX) 0) 0 SeenPointers;
      let '(Status, InstalledKey, Installed, SeenPointers) := r in
      (if EFI_ERROR Status then UninstallAcpiTables InstalledKey (Z.to_nat Installed) else mret tt);;
      CollectionUninit (DeleteAll SeenPointers);;
      FreePool;;
      mret Status
    end.

Definition ProcessScript (entries : list QEMU_LOADER_ENTRY) : M st EFI_STATUS :=
  r ← CollectAllocationsRestrictedTo32Bit entries;
  let '(Status, Restricted) := r in
  match Restricted with
  | None => FreeLoader Status
  | Some Restricted =>
    Tracker ← CollectionInit;
    match Tracker with
    | None => FreeAllocationsRestrictedTo32Bit Restricted EFI_OUT_OF_RESOURCES
    | Some Tracker =>
      r ← FirstPass entries 0 0 Status Tracker Restricted;
      let '(Status, WPEnd, Tracker) := r in
      Status ← (if EFI_ERROR Status then mret Status else InstallTables entries Tracker Status);
      RollbackWritePointersAndFreeTracker entries WPEnd Tracker Restricted Status
    end
  end.

Definition InstallQemuFwCfgTables : M st EFI_STATUS :=
  let '(Status, FwCfgItem, FwCfgSize) := FindFile script_name in
  if EFI_ERROR Status then mret Status
  else if negb (FwCfgSize mod LOADER_ENTRY_SIZE =? 0) then mret EFI_PROTOCOL_ERROR
  else
    ok ← AllocatePool;
    if negb ok then mret EFI_OUT_OF_RESOURCES
    else
      OriginalPciAttributes ← env_call EnablePciDecoding;
      QemuFwCfgSelectItem FwCfgItem;;
      bs ← QemuFwCfgReadBytes FwCfgSize;
      env_call (fun w => (tt, RestorePciDecoding w OriginalPciAttributes));;
      ProcessScript (decode_entries (Z.to_nat (FwCfgSize / LOADER_ENTRY_SIZE)) bs).
End Loader.
