(* ===== verification/AcpiLoaderProofs.v ===== *)
(** * The linker/loader: services, invariant, and the commands *)
From S2P Require Import Prelude Bytes Memory OrderedCollection AcpiLoader.

(** ** Abstract view

    A downloaded blob: its file name array, the address of its [BLOB], its
    size and base, and whether it still hosts only table data. *)
Record gblob : Type := mkG {
  g_file : list Z; g_ptr : ptr; g_size : Z; g_base : Z; g_hosts : bool }.
Definition g_name (g : gblob) : list Z := cstr (g_file g).
Definition g_blob (g : gblob) : BLOB := mkBlob (g_file g) (g_size g) (g_base g) (g_hosts g).
Definition g_pages (g : gblob) : Z := EFI_SIZE_TO_PAGES (g_size g).
Definition g_opaque (g : gblob) : gblob := mkG (g_file g) (g_ptr g) (g_size g) (g_base g) false.

Definition add_pointers (l : list QEMU_LOADER_ENTRY) : list QEMU_LOADER_ADD_POINTER :=
  omap (fun e => match e with CmdAddPointer c => Some c | _ => None end) l.
Definition write_pointers (l : list QEMU_LOADER_ENTRY) : list QEMU_LOADER_WRITE_POINTER :=
  omap (fun e => match e with CmdWritePointer c => Some c | _ => None end) l.

(** The numeric fields are unsigned 32-bit and 8-bit integers. *)
Definition entry_ok (e : QEMU_LOADER_ENTRY) : Prop :=
  match e with
  | CmdAllocate c => is_u32 (Alignment c)
  | CmdAddPointer c => is_u32 (PointerOffset c) /\ is_u8 (PointerSize c)
  | CmdAddChecksum c => is_u32 (ResultOffset c) /\ is_u32 (Start c) /\ is_u32 (Length c)
  | CmdWritePointer c => is_u32 (W_PointerOffset c) /\ is_u32 (PointeeOffset c) /\ is_u8 (W_PointerSize c)
  | CmdUnknown _ => True
  end.

(** The bytes of a blob that a command writes: file, offset, length. *)
Definition entry_write (e : QEMU_LOADER_ENTRY) : option (list Z * Z * Z) :=
  match e with
  | CmdAddPointer c => Some (cstr (PointerFile c), PointerOffset c, PointerSize c)
  | CmdAddChecksum c => Some (cstr (Checksum_File c), ResultOffset c, 1)
  | _ => None
  end.
Definition clobbers (e : QEMU_LOADER_ENTRY) (c : QEMU_LOADER_ADD_POINTER) : Prop :=
  match entry_write e with
  | Some (n, o, k) => n = cstr (PointerFile c) /\
                      o < PointerOffset c + PointerSize c /\ PointerOffset c < o + k
  | None => False
  end.
#[global] Instance clobbers_dec e c : Decision (clobbers e c).
Proof. unfold clobbers. destruct (entry_write e) as [[[??]?]|]; apply _. Defined.

(** No command writes into a pointer field that an earlier ADD_POINTER
    relocated.  QEMU's scripts have this property. *)
Fixpoint no_clobber (l : list QEMU_LOADER_ENTRY) : Prop :=
  match l with
  | [] => True
  | CmdAddPointer c :: l => Forall (fun e => ~ clobbers e c) l /\ no_clobber l
  | _ :: l => no_clobber l
  end.
#[global] Instance no_clobber_dec l : Decision (no_clobber l).
Proof. induction l as [|[] l IH]; cbn; apply _. Defined.

Lemma no_clobber_snoc l e :
  no_clobber (l ++ [e]) <-> no_clobber l /\ Forall (fun c => ~ clobbers e c) (add_pointers l).
Proof.
  induction l as [|[] l IH]; cbn; try done.
  - split; [intros _; split; [done|constructor]|]. destruct e; cbn; auto.
  - rewrite IH, Forall_app, Forall_singleton, Forall_cons. tauto.
Qed.

Lemma no_clobber_app_l l1 l2 : no_clobber (l1 ++ l2) -> no_clobber l1.
Proof.
  induction l2 as [|e l2 IH] using rev_ind; [by rewrite app_nil_r|].
  rewrite (assoc_L (++)). intros [? _]%no_clobber_snoc. auto.
Qed.

Lemma add_pointers_snoc l e :
  add_pointers (l ++ [e]) = add_pointers l ++ (match e with CmdAddPointer c => [c] | _ => [] end).
Proof. unfold add_pointers. rewrite omap_app. by destruct e. Qed.
Lemma write_pointers_snoc l e :
  write_pointers (l ++ [e]) = write_pointers l ++ (match e with CmdWritePointer c => [c] | _ => [] end).
Proof. unfold write_pointers. rewrite omap_app. by destruct e. Qed.

(** The pointer field of [c] holds an address inside the pointee blob. *)
Definition field_at (c : QEMU_LOADER_ADD_POINTER) (g : gblob) : Prop :=
  g_name g = cstr (PointerFile c) /\ valid_pointer_size (PointerSize c) = true /\
  0 <= PointerOffset c /\ PointerOffset c + PointerSize c <= g_size g.
Definition pointer_ok (G : list gblob) (m : memory) (c : QEMU_LOADER_ADD_POINTER) : Prop :=
  exists g1 g2, g1 ∈ G /\ g2 ∈ G /\ field_at c g1 /\ g_name g2 = cstr (PointeeFile c) /\
    let v := le_combine (mem_get m (g_base g1 + PointerOffset c) (PointerSize c)) in
    g_base g2 <= v < g_base g2 + g_size g2.

(** What a WRITE_POINTER command tells QEMU. *)
Definition pointer_write `{FwCfg W} (G : list gblob) (c : QEMU_LOADER_WRITE_POINTER)
    (w : Z * Z * list Z) : Prop :=
  exists g Status item isz,
    g ∈ G /\ g_name g = cstr (W_PointeeFile c) /\ g_hosts g = false /\
    FindFile (cstr (W_PointerFile c)) = (Status, item, isz) /\ EFI_ERROR Status = false /\
    valid_pointer_size (W_PointerSize c) = true /\
    W_PointerOffset c + W_PointerSize c <= isz /\ PointeeOffset c < g_size g /\
    g_base g + PointeeOffset c < 256 ^ W_PointerSize c /\
    w = (item, W_PointerOffset c,
         le_split (Z.to_nat (W_PointerSize c)) (g_base g + PointeeOffset c)).

Lemma valid_pointer_size_range n :
  valid_pointer_size n = true -> 0 < n <= 8.
Proof. unfold valid_pointer_size. intros H. rewrite !orb_true_iff, !Z.eqb_eq in H. lia. Qed.

(** [RShiftU64 (v, 8 * n) != 0]: the value needs more than [n] bytes. *)
Lemma representable n v :
  valid_pointer_size n = true -> is_u64 v ->
  (n <? 8) && negb (Z.shiftr v (n * 8) =? 0) = negb (v <? 256 ^ n).
Proof.
  intros Hn Hv. pose proof (valid_pointer_size_range n Hn) as Hr.
  unfold is_u64 in Hv. destruct (Z.ltb_spec n 8) as [Hlt|Hge].
  - cbn [andb]. f_equal. rewrite Z.shiftr_div_pow2 by lia.
    replace (256 ^ n) with (2 ^ (n * 8)) by (rewrite (Z.mul_comm n), Z.pow_mul_r by lia; done).
    pose proof (Z.pow_pos_nonneg 2 (n * 8) ltac:(lia) ltac:(lia)) as Hp.
    apply eq_true_iff_eq. rewrite Z.eqb_eq, Z.ltb_lt. rewrite Z.div_small_iff by lia. lia.
  - assert (n = 8) as -> by lia. change (256 ^ 8) with (2 ^ 64).
    symmetry. apply negb_false_iff, Z.ltb_lt. lia.
Qed.

(** ** Symbolic execution of the services *)
Section services.
Context {W : Type} {PE : PoolEnv W} {FW : FwCfg W} {PG : PageEnv W}.
Implicit Types s : st (W:=W).

Lemma wp_env_call {A} (f : W -> A * W) (Q : A -> st -> Prop) s :
  wp (env_call f) Q s <-> (let '(a, w) := f (Env s) in Q a (set_env w s)).
Proof. unfold wp, env_call. by destruct (f (Env s)). Qed.

Lemma wp_read_mem a n (Q : list Z -> st -> Prop) s :
  in_pages (Pages s) a n = true -> Q (mem_get (Mem s) a n) s -> wp (read_mem a n) Q s.
Proof. intros E HQ. unfold read_mem. wp_steps. by rewrite E. Qed.

Lemma wp_read_le a n (Q : Z -> st -> Prop) s :
  in_pages (Pages s) a n = true -> Q (le_combine (mem_get (Mem s) a n)) s -> wp (read_le a n) Q s.
Proof. intros E HQ. unfold read_le. wp_steps. by apply wp_read_mem. Qed.

Lemma wp_write_mem a bs (Q : unit -> st -> Prop) s :
  in_pages (Pages s) a (Z.of_nat (length bs)) = true ->
  Q tt (set_mem (mem_set (Mem s) a bs) s) -> wp (write_mem a bs) Q s.
Proof. intros E HQ. unfold write_mem. wp_steps. by rewrite E. Qed.

Lemma wp_FreePages a n (Q : unit -> st -> Prop) s :
  Pages s !! a = Some n -> Q tt (set_pages (delete a (Pages s)) s) -> wp (FreePages a n) Q s.
Proof.
  intros E HQ. unfold FreePages. wp_steps. rewrite wp_deref. exists n. split; [done|].
  by rewrite Z.eqb_refl.
Qed.

Lemma wp_load p (Q : BLOB -> st -> Prop) s :
  wp (load p) Q s <-> (exists b, Blobs s !! p = Some b /\ Q b s).
Proof. unfold load. by rewrite wp_bind, wp_get, wp_deref. Qed.
Lemma wp_store p b (Q : unit -> st -> Prop) s :
  wp (store p b) Q s <->
  (exists b0, Blobs s !! p = Some b0 /\ Q tt (set_blobs (<[p := b]> (Blobs s)) s)).
Proof. unfold store. by rewrite wp_bind, wp_load. Qed.
Lemma wp_FreeBlobPool p (Q : unit -> st -> Prop) s :
  wp (FreeBlobPool p) Q s <->
  (exists b0, Blobs s !! p = Some b0 /\ Q tt (set_blobs (delete p (Blobs s)) s)).
Proof. unfold FreeBlobPool. by rewrite wp_bind, wp_load. Qed.

Lemma wp_AllocateBlob b (Q : option ptr -> st -> Prop) s :
  (forall w, Q None (set_env w s)) ->
  (forall w p, Blobs s !! p = None -> Q (Some p) (set_blobs (<[p := b]> (Blobs s)) (set_env w s))) ->
  wp (AllocateBlob b) Q s.
Proof.
  intros HN HS. unfold AllocateBlob. rewrite wp_bind, wp_env_call.
  destruct (pool_alloc (Env s)) as [[] w]; [|apply HN].
  apply HS. cbn. apply not_elem_of_dom, is_fresh.
Qed.

Lemma wp_AllocatePool (Q : bool -> st -> Prop) s :
  (forall w, Q false (set_env w s)) -> (forall w, Q true (add_pool 1 (set_env w s))) ->
  wp AllocatePool Q s.
Proof.
  intros HN HS. unfold AllocatePool. rewrite wp_bind, wp_env_call.
  destruct (pool_alloc (Env s)) as [[] w]; wp_steps; auto.
Qed.

Lemma wp_AllocatePages {PL : PageLaws W} max n (Q : EFI_STATUS * Z -> st -> Prop) s :
  (forall w Status a, EFI_ERROR Status = true -> Q (Status, a) (set_env w s)) ->
  (forall w Status a, EFI_ERROR Status = false ->
    0 <= a -> a + EFI_PAGE_SIZE * n <= max + 1 -> a + EFI_PAGE_SIZE * n <= MAX_ADDRESS ->
    disjoint_from (Pages s) a n ->
    Q (Status, a) (set_pages (<[a := n]> (Pages s)) (set_env w s))) ->
  wp (AllocatePages max n) Q s.
Proof.
  intros HN HS. unfold AllocatePages. wp_steps. rewrite wp_env_call.
  destruct (page_alloc (Env s) (Pages s) n max) as [[Status a] w] eqn:E. cbn [fst snd].
  wp_steps. destruct (EFI_ERROR Status) eqn:ES; wp_steps; [by apply HN|].
  destruct (page_alloc_spec _ _ _ _ _ _ _ E ES) as (?&?&?&?). by apply HS.
Qed.

Context {K U : Type} {cmp : K -> K -> Z} {OC : OrderedCollection K U W cmp}.
Context {L : OrderedCollectionLaws OC}.

Lemma wp_CollectionInit (Q : option (oc OC) -> st -> Prop) s :
  (forall w, Q None (set_env w s)) ->
  (forall w c, oc_wf c -> oc_entries c = [] -> Q (Some c) (add_collections 1 (set_env w s))) ->
  wp CollectionInit Q s.
Proof.
  intros HN HS. unfold CollectionInit. rewrite wp_bind, wp_env_call.
  destruct (oc_init (Env s)) as [[c|] w] eqn:E; wp_steps; [|auto].
  apply oc_init_spec in E as [??]. auto.
Qed.

Lemma wp_CollectionInsert (c : oc OC) k u (Q : insert_result U * oc OC -> st -> Prop) s :
  oc_wf c ->
  (forall w r c', oc_wf c' ->
    match r with
    | Inserted => (k ∉ (oc_entries c).*1) /\ oc_entries c' ≡ₚ (k, u) :: oc_entries c
    | AlreadyStarted u0 => (k, u0) ∈ oc_entries c /\ c' = c
    | OutOfResources => c' = c
    end -> Q (r, c') (set_env w s)) ->
  wp (CollectionInsert c k u) Q s.
Proof.
  intros Hwf HQ. unfold CollectionInsert. rewrite wp_env_call.
  destruct (oc_insert (Env s) c k u) as [[r c'] w] eqn:E.
  destruct (oc_insert_spec _ _ _ _ _ _ _ Hwf E). auto.
Qed.

Lemma wp_CollectionUninit (c : oc OC) (Q : unit -> st -> Prop) s :
  oc_entries c = [] -> Q tt (add_collections (-1) s) -> wp (CollectionUninit c) Q s.
Proof. intros E HQ. unfold CollectionUninit. wp_steps; [by apply bool_decide_eq_true|done]. Qed.

Lemma wp_ReleaseCollection (c : oc OC) (Q : unit -> st -> Prop) s :
  oc_wf c -> Q tt (add_collections (-1) s) -> wp (CollectionUninit (DeleteAll c)) Q s.
Proof. intros Hwf HQ. apply wp_CollectionUninit; [|done]. by apply oc_delete_all. Qed.
End services.

Ltac ld_step :=
  cbn beta iota; lazymatch goal with
  | |- wp (env_call _) _ _ => rewrite wp_env_call
  | |- wp (load _) _ _ => rewrite wp_load
  | |- wp (store _ _) _ _ => rewrite wp_store
  | |- wp (FreeBlobPool _) _ _ => rewrite wp_FreeBlobPool
  | |- wp (deref _) _ _ => rewrite wp_deref
  | _ => wp_step
  end; cbn beta iota.

(** ** Allocations restricted to 32 bits *)
Section Collect.
Context {W : Type} {PE : PoolEnv W}.
Context {AsciiStrCmp : list Z -> list Z -> Z}.
Context {OCR : OrderedCollection (list Z) (list Z) W AsciiStrCmp} {LR : OrderedCollectionLaws OCR}.
Implicit Types s : st (W:=W).

(** The blobs whose address goes into a field narrower than 8 bytes. *)
Definition restricted (l : list QEMU_LOADER_ENTRY) (n : list Z) : Prop :=
  exists c, c ∈ add_pointers l /\ PointerSize c < 8 /\ n = cstr (PointeeFile c).

Lemma restricted_cons e l n :
  restricted (e :: l) n <->
  (match e with CmdAddPointer c => PointerSize c < 8 /\ n = cstr (PointeeFile c) | _ => False end)
  \/ restricted l n.
Proof.
  unfold restricted. destruct e; cbn; [tauto| |tauto..].
  setoid_rewrite elem_of_cons. naive_solver.
Qed.

Definition only_env s s' : Prop := exists w, s' = set_env w s.

Lemma CollectLoop_spec c (l : list QEMU_LOADER_ENTRY) s :
  oc_wf c ->
  wp (CollectLoop c l) (fun '(Status, r) s' =>
    match r with
    | None => EFI_ERROR Status = true /\ only_env (add_collections (-1) s) s'
    | Some c' => Status = EFI_SUCCESS /\ oc_wf c' /\ only_env s s' /\
        forall n, (n ∈ (oc_entries c').*1) <-> (n ∈ (oc_entries c).*1 \/ restricted l n)
    end) s.
Proof.
  revert c s. induction l as [|e l IH]; intros c s Hwf; cbn [CollectLoop].
  - ld_step. split_and!; try done; [by exists (Env s); destruct s|].
    intros n. split; [by left|]. intros [?|(c0 & Hc0 & _)]; [done|]. by apply elem_of_nil in Hc0.
  - assert (forall s, (match e with CmdAddPointer p => 8 <= PointerSize p | _ => True end) ->
      wp (CollectLoop c l) (fun '(Status, r) s' =>
        match r with
        | None => EFI_ERROR Status = true /\ only_env (add_collections (-1) s) s'
        | Some c' => Status = EFI_SUCCESS /\ oc_wf c' /\ only_env s s' /\
            forall n, (n ∈ (oc_entries c').*1) <-> (n ∈ (oc_entries c).*1 \/ restricted (e :: l) n)
        end) s) as Hskip.
    { intros s0 He. eapply wp_mono; [by apply IH|]. intros [Status [c'|]] s1; [|done].
      intros (-> & Hw & Ho & Hn). split_and!; try done. intros n. rewrite Hn, restricted_cons.
      destruct e; try tauto. split; [tauto|]. intros [?|[[? _]|?]]; [tauto|lia|tauto]. }
    destruct e as [?|p|?|?|?]; try (by apply Hskip).
    destruct (Z.leb_spec 8 (PointerSize p)); [by apply Hskip|].
    assert (wp (ReleaseAllocationsRestrictedTo32Bit c)
              (fun _ s' => s' = add_collections (-1) s) s) as Hrel by by apply wp_ReleaseCollection.
    destruct (malformed (PointeeFile p)).
    { ld_step. eapply wp_mono; [apply Hrel|]. intros [] s' ->. ld_step.
      split; [done|]. exists (Env s). done. }
    ld_step. apply wp_CollectionInsert; [done|]. intros w r c' Hwf' Hr.
    assert (match r with OutOfResources => True | _ =>
      forall n, (n ∈ (oc_entries c').*1) <->
                (n ∈ (oc_entries c).*1 \/ n = cstr (PointeeFile p)) end) as Hn.
    { destruct r as [|u|]; [| |done].
      - destruct Hr as [_ Hp]. intros n. rewrite Hp. csimpl. rewrite elem_of_cons. tauto.
      - destruct Hr as [Hin ->]. intros n. split; [by left|]. intros [?| ->]; [done|].
        apply list_elem_of_fmap. eexists. split; [|exact Hin]. done. }
    destruct r as [|u|].
    1,2: eapply wp_mono; [by apply IH|]; intros [Status [c1|]] s1;
      [intros (-> & Hw & [w1 ->] & Hn1); split_and!; try done; [by exists w1|];
       intros n; rewrite Hn1, Hn, restricted_cons; tauto
      |intros [? [w1 ->]]; split; [done|by exists w1]].
    ld_step. subst c'. apply wp_ReleaseCollection; [done|]. ld_step.
    split; [done|]. by exists w.
Qed.

Lemma Collect_spec l s :
  wp (CollectAllocationsRestrictedTo32Bit l) (fun '(Status, r) s' =>
    match r with
    | None => EFI_ERROR Status = true /\ only_env s s'
    | Some c => Status = EFI_SUCCESS /\ oc_wf c /\ only_env (add_collections 1 s) s' /\
        forall n, oc_find c n <> None <-> restricted l n
    end) s.
Proof.
  unfold CollectAllocationsRestrictedTo32Bit. ld_step. apply wp_CollectionInit.
  { intros w. ld_step. split; [done|by exists w]. }
  intros w c Hwf Hc. eapply wp_mono; [by apply CollectLoop_spec|].
  intros [Status [c'|]] s'.
  - intros (-> & Hw & [w1 ->] & Hn). split_and!; try done; [by exists w1|].
    intros n. rewrite (oc_find_None c' n Hw). specialize (Hn n).
    rewrite Hc in Hn. cbn in Hn. rewrite elem_of_nil in Hn.
    destruct (decide (n ∈ (oc_entries c').*1)); tauto.
  - intros [? [w1 ->]]. split; [done|]. exists w1. destruct s; cbn.
    unfold set_env, add_collections; cbn. f_equal. lia.
Qed.
End Collect.

(** ** The invariant of the first pass *)
Section Inv.
Context {W : Type} {PE : PoolEnv W} {FW : FwCfg W} {PG : PageEnv W} {S8 : Sum8}.
Context {AsciiStrCmp : list Z -> list Z -> Z}.
Context {OCT : OrderedCollection (list Z) ptr W AsciiStrCmp} {LT : OrderedCollectionLaws OCT}.
Context {FWL : FwCfgLaws W} {PGL : PageLaws W} {S8L : Sum8Laws}.
Implicit Types s : st (W:=W).
Implicit Types T : oc OCT.

(** Where a blob may live; [R] holds of the restricted names. *)
Record g_ok (R : list Z -> Prop) (g : gblob) : Prop := {
  g_size_u32 : is_u32 (g_size g);
  g_base_nonneg : 0 <= g_base g;
  g_end : g_base g + EFI_PAGE_SIZE * g_pages g <= MAX_ADDRESS;
  g_below_4G : R (g_name g) -> g_base g + EFI_PAGE_SIZE * g_pages g <= 2 ^ 32;
}.
Definition g_apart (g1 g2 : gblob) : Prop :=
  g_base g1 + EFI_PAGE_SIZE * g_pages g1 <= g_base g2 \/
  g_base g2 + EFI_PAGE_SIZE * g_pages g2 <= g_base g1.

(** [s0] is the state before the first command; [done] the commands
    processed; [G] the blobs downloaded. *)
Record Inv s0 (R : list Z -> Prop) (done : list QEMU_LOADER_ENTRY) (G : list gblob) T s : Prop := {
  inv_wf : oc_wf T;
  inv_T : oc_entries T ≡ₚ (fun g => (g_name g, g_ptr g)) <$> G;
  inv_blobs : overlay (Blobs s0) ((fun g => (g_ptr g, g_blob g)) <$> G) (Blobs s);
  inv_pages : overlay (Pages s0) ((fun g => (g_base g, g_pages g)) <$> G) (Pages s);
  inv_ok : Forall (g_ok R) G;
  inv_apart g1 g2 : g1 ∈ G -> g2 ∈ G -> g_base g1 <> g_base g2 -> g_apart g1 g2;
  inv_mem : mem_bytes (Mem s);
  inv_writes : exists ws, FwWrites s = FwWrites s0 ++ ws /\
                          Forall2 (pointer_write G) (write_pointers done) ws;
  inv_ptrs : no_clobber done -> Forall (pointer_ok G (Mem s)) (add_pointers done);
}.

Definition same_other s s' : Prop :=
  LivePool s' = LivePool s /\ LiveCollections s' = LiveCollections s /\ Tables s' = Tables s.
(** Only the environment and the fw_cfg position moved. *)
Definition unchanged s s' : Prop := exists w pos, s' = set_fw pos (FwWrites s) (set_env w s).

Lemma unchanged_refl s : unchanged s s.
Proof. exists (Env s), (FwPos s). by destruct s. Qed.
Lemma unchanged_trans s1 s2 s3 : unchanged s1 s2 -> unchanged s2 s3 -> unchanged s1 s3.
Proof. intros (w & p & ->) (w' & p' & ->). by exists w', p'. Qed.

Lemma Inv_unchanged s0 R done G T s s' : Inv s0 R done G T s -> unchanged s s' -> Inv s0 R done G T s'.
Proof. intros [] (w & p & ->). by split. Qed.

Lemma Inv_perm s0 R done G G' T s : G ≡ₚ G' -> Inv s0 R done G T s -> Inv s0 R done G' T s.
Proof.
  intros Hp [Hwf HT HB HP Hok Hap Hm (ws & Hws & H2) Hptr]. split; try done.
  - by rewrite <-Hp.
  - eapply overlay_perm; [|done]. by rewrite Hp.
  - eapply overlay_perm; [|done]. by rewrite Hp.
  - by rewrite <-Hp.
  - intros g1 g2. rewrite <-!Hp. apply Hap.
  - exists ws. split; [done|]. eapply Forall2_impl; [done|]. intros c w.
    unfold pointer_write. by setoid_rewrite <-Hp.
  - intros Hn. eapply Forall_impl; [by apply Hptr|]. intros c. unfold pointer_ok.
    by setoid_rewrite <-Hp.
Qed.

Lemma g_size_pages R g : g_ok R g -> g_size g <= EFI_PAGE_SIZE * g_pages g.
Proof. intros []. unfold g_pages. by apply EFI_SIZE_TO_PAGES_bound. Qed.

Lemma inv_g_ok s0 R done G T s g : Inv s0 R done G T s -> g ∈ G -> g_ok R g.
Proof. intros I Hg. pose proof (inv_ok _ _ _ _ _ _ I) as H. rewrite Forall_forall in H. auto. Qed.

Lemma inv_in_pages s0 R done G T s g a n :
  Inv s0 R done G T s -> g ∈ G -> g_base g <= a -> a + n <= g_base g + g_size g ->
  in_pages (Pages s) a n = true.
Proof.
  intros I Hg Ha Hn. pose proof (g_size_pages R g (inv_g_ok _ _ _ _ _ _ _ I Hg)).
  eapply (in_pages_intro _ (g_base g) (g_pages g)).
  - eapply overlay_lookup; [apply (inv_pages _ _ _ _ _ _ I)|]. apply list_elem_of_fmap. eauto.
  - unfold page_range. lia.
Qed.

Lemma inv_find s0 R done G T s n p :
  Inv s0 R done G T s -> oc_find T n = Some p ->
  exists g, g ∈ G /\ g_name g = n /\ g_ptr g = p /\ Blobs s !! p = Some (g_blob g).
Proof.
  intros I Hf. apply (oc_find_spec _ _ _ (inv_wf _ _ _ _ _ _ I)) in Hf.
  rewrite (inv_T _ _ _ _ _ _ I) in Hf. apply list_elem_of_fmap in Hf as (g & [= -> ->] & Hg).
  exists g. split_and!; try done. eapply overlay_lookup; [apply (inv_blobs _ _ _ _ _ _ I)|].
  apply list_elem_of_fmap. eauto.
Qed.

Lemma inv_find_None s0 R done G T s n :
  Inv s0 R done G T s -> oc_find T n = None -> forall g, g ∈ G -> g_name g <> n.
Proof.
  intros I Hf g Hg <-. apply (oc_find_None _ _ (inv_wf _ _ _ _ _ _ I)) in Hf. apply Hf.
  rewrite (inv_T _ _ _ _ _ _ I). apply list_elem_of_fmap. exists (g_name g, g_ptr g). split; [done|].
  apply list_elem_of_fmap. eauto.
Qed.

(** A name identifies a blob. *)
Lemma NoDup_fmap_inj {A B} (f : A -> B) (l : list A) x y :
  NoDup (f <$> l) -> x ∈ l -> y ∈ l -> f x = f y -> x = y.
Proof.
  induction l as [|z l IH]; [by intros _ ?%elem_of_nil|]. csimpl.
  intros [Hni Hnd]%NoDup_cons [->|H1]%elem_of_cons [->|H2]%elem_of_cons E; [done| | |auto].
  - destruct Hni. rewrite E. apply list_elem_of_fmap. eauto.
  - destruct Hni. rewrite <-E. apply list_elem_of_fmap. eauto.
Qed.

Lemma inv_name_inj s0 R done G T s g1 g2 :
  Inv s0 R done G T s -> g1 ∈ G -> g2 ∈ G -> g_name g1 = g_name g2 -> g1 = g2.
Proof.
  intros I. apply NoDup_fmap_inj.
  pose proof (oc_keys_NoDup T (inv_wf _ _ _ _ _ _ I)) as H.
  rewrite (inv_T _ _ _ _ _ _ I), <-list_fmap_compose in H. exact H.
Qed.

Lemma inv_base_inj s0 R done G T s g1 g2 :
  Inv s0 R done G T s -> g1 ∈ G -> g2 ∈ G -> g_base g1 = g_base g2 -> g1 = g2.
Proof.
  intros I. apply NoDup_fmap_inj.
  pose proof (overlay_nodup _ _ _ (inv_pages _ _ _ _ _ _ I)) as H.
  rewrite <-list_fmap_compose in H. exact H.
Qed.

(** Writing inside a blob keeps the relocated fields it does not overlap. *)
Lemma pointer_ok_write s0 R done G T s g a bs c :
  Inv s0 R done G T s -> g ∈ G -> pointer_ok G (Mem s) c ->
  0 <= a -> a + Z.of_nat (length bs) <= g_size g ->
  (g_name g = cstr (PointerFile c) ->
   a + Z.of_nat (length bs) <= PointerOffset c \/ PointerOffset c + PointerSize c <= a) ->
  pointer_ok G (mem_set (Mem s) (g_base g + a) bs) c.
Proof.
  intros I Hg (g1 & g2 & Hg1 & Hg2 & (Hn1 & Hs1 & Ho1) & Hn2 & Hv) Ha Hlen Hdis.
  exists g1, g2. split_and!; try done. rewrite mem_get_set_disjoint; [done|].
  destruct (decide (g_base g = g_base g1)) as [E|E].
  - apply (inv_base_inj _ _ _ _ _ _ _ _ I Hg Hg1) in E as ->. specialize (Hdis Hn1). lia.
  - pose proof (g_size_pages R g (inv_g_ok _ _ _ _ _ _ _ I Hg)).
    pose proof (g_size_pages R g1 (inv_g_ok _ _ _ _ _ _ _ I Hg1)).
    pose proof (valid_pointer_size_range _ Hs1).
    destruct (inv_apart _ _ _ _ _ _ I g g1 Hg Hg1 E); lia.
Qed.

Lemma clobbers_disjoint e c n o k :
  entry_write e = Some (n, o, k) -> ~ clobbers e c ->
  n = cstr (PointerFile c) -> o + k <= PointerOffset c \/ PointerOffset c + PointerSize c <= o.
Proof.
  unfold clobbers. intros -> H ->.
  assert (~ (o < PointerOffset c + PointerSize c /\ PointerOffset c < o + k)) by tauto. lia.
Qed.

(** *** QEMU_LOADER_ADD_POINTER *)
Definition field_value s (c : QEMU_LOADER_ADD_POINTER) (g : gblob) : Z :=
  le_combine (mem_get (Mem s) (g_base g + PointerOffset c) (PointerSize c)).
Record add_pointer_valid (G : list gblob) s (c : QEMU_LOADER_ADD_POINTER) (g1 g2 : gblob) : Prop := {
  apv_file : malformed (PointerFile c) = false;
  apv_pointee : malformed (PointeeFile c) = false;
  apv_g1 : g1 ∈ G;
  apv_g2 : g2 ∈ G;
  apv_field : field_at c g1;
  apv_name : g_name g2 = cstr (PointeeFile c);
  apv_value : field_value s c g1 < g_size g2;
  apv_fits : field_value s c g1 + g_base g2 < 256 ^ PointerSize c;
}.
Definition relocated s (c : QEMU_LOADER_ADD_POINTER) (g1 g2 : gblob) : st (W:=W) :=
  set_mem (mem_set (Mem s) (g_base g1 + PointerOffset c)
             (le_split (Z.to_nat (PointerSize c)) (field_value s c g1 + g_base g2))) s.

Lemma field_value_range s c g : mem_bytes (Mem s) -> 0 <= field_value s c g.
Proof. intros Hm. apply le_combine_range, mem_get_bytes, Hm. Qed.

Lemma g_address_u64 R g off : g_ok R g -> 0 <= off <= g_size g -> u64 (g_base g + off) = g_base g + off.
Proof.
  intros Hok Hoff. pose proof (g_size_pages R g Hok). destruct Hok. apply Z.mod_small.
  unfold MAX_ADDRESS in *. lia.
Qed.

Lemma ProcessCmdAddPointer_spec s0 R done G T s c :
  Inv s0 R done G T s -> entry_ok (CmdAddPointer c) ->
  wp (ProcessCmdAddPointer c T) (fun Status s' =>
    (Status = EFI_SUCCESS /\ exists g1 g2, add_pointer_valid G s c g1 g2 /\ s' = relocated s c g1 g2) \/
    (Status = EFI_PROTOCOL_ERROR /\ s' = s /\ forall g1 g2, ~ add_pointer_valid G s c g1 g2)) s.
Proof.
  intros I [[Hoff _] [Hsz _]]. unfold ProcessCmdAddPointer.
  destruct (malformed (PointerFile c)) eqn:M1; cbn [orb].
  { ld_step. right. split_and!; try done. intros g1 g2 []. congruence. }
  destruct (malformed (PointeeFile c)) eqn:M2.
  { ld_step. right. split_and!; try done. intros g1 g2 []. congruence. }
  destruct (oc_find T (cstr (PointerFile c))) as [p1|] eqn:F1.
  2:{ ld_step. right. split_and!; try done. intros g1 g2 [].
      destruct apv_field0 as [Hn _]. by eapply inv_find_None in Hn. }
  destruct (oc_find T (cstr (PointeeFile c))) as [p2|] eqn:F2.
  2:{ ld_step. right. split_and!; try done. intros g1 g2 []. by eapply inv_find_None in apv_name0. }
  destruct (inv_find _ _ _ _ _ _ _ _ I F1) as (g1 & Hg1 & Hn1 & <- & HB1).
  destruct (inv_find _ _ _ _ _ _ _ _ I F2) as (g2 & Hg2 & Hn2 & <- & HB2).
  assert (forall g1' g2', add_pointer_valid G s c g1' g2' -> g1' = g1 /\ g2' = g2) as Huniq.
  { intros g1' g2' []. destruct apv_field0 as [Hn _].
    split; eapply inv_name_inj; (done || congruence). }
  repeat ld_step. eexists; split; [done|]. repeat ld_step. eexists; split; [done|].
  cbn [Size Base g_blob].
  destruct (valid_pointer_size (PointerSize c)) eqn:Hv; cbn [negb orb];
    [|ld_step; right; split_and!; try done; intros ? ? Hval;
      destruct (Huniq _ _ Hval) as [-> ->]; destruct Hval as [_ _ _ _ (_ & Hv' & _) _ _ _]; congruence].
  pose proof (valid_pointer_size_range _ Hv) as Hrange.
  pose proof (inv_g_ok _ _ _ _ _ _ _ I Hg1) as Hok1. pose proof (inv_g_ok _ _ _ _ _ _ _ I Hg2) as Hok2.
  destruct ((g_size g1 <? PointerSize c) || (g_size g1 - PointerSize c <? PointerOffset c)) eqn:Hfit.
  { ld_step. right. split_and!; try done. intros ? ? Hval.
    destruct (Huniq _ _ Hval) as [-> ->]. destruct Hval as [_ _ _ _ (_ & _ & ?) _ _ _]. lia. }
  apply orb_false_iff in Hfit as [_ Hfit]. apply Z.ltb_ge in Hfit.
  ld_step. rewrite (g_address_u64 R) by (done || lia). apply wp_read_le.
  { eapply inv_in_pages; [done|exact Hg1|lia..]. }
  fold (field_value s c g1). pose proof (field_value_range s c g1 (inv_mem _ _ _ _ _ _ I)) as Hv0.
  destruct (Z.leb_spec (g_size g2) (field_value s c g1)).
  { ld_step. right. split_and!; try done. intros ? ? Hval.
    destruct (Huniq _ _ Hval) as [-> ->]. destruct Hval. lia. }
  pose proof (g_size_pages R g2 Hok2) as Hp2. pose proof (g_end _ _ Hok2). pose proof (g_base_nonneg _ _ Hok2).
  ld_step. ld_step; [apply Z.leb_le; lia|].
  assert (u64 (field_value s c g1 + g_base g2) = field_value s c g1 + g_base g2) as Hu.
  { apply Z.mod_small. unfold MAX_ADDRESS in *. lia. }
  rewrite Hu, representable; [|done|unfold MAX_ADDRESS, is_u64 in *; lia].
  destruct (Z.ltb_spec (field_value s c g1 + g_base g2) (256 ^ PointerSize c)) as [Hlt|Hge]; cbn [negb].
  - ld_step. apply wp_write_mem.
    { rewrite length_le_split. eapply inv_in_pages; [done|exact Hg1|lia..]. }
    ld_step. left. split; [done|]. exists g1, g2. split; [|done].
    split; try done. split_and!; [done..|lia].
  - ld_step. right. split_and!; try done. intros ? ? Hval.
    destruct (Huniq _ _ Hval) as [-> ->]. destruct Hval. lia.
Qed.

Lemma pointer_write_mono G G' c w :
  (forall g, g ∈ G -> exists g', g' ∈ G' /\ g_name g' = g_name g /\ g_size g' = g_size g /\
                             g_base g' = g_base g /\ (g_hosts g = false -> g_hosts g' = false)) ->
  pointer_write G c w -> pointer_write G' c w.
Proof.
  intros Hm (g & St & item & isz & Hg & Hn & Hh & ?). destruct (Hm g Hg) as (g' & Hg' & En & Es & Eb & Eh).
  exists g', St, item, isz. rewrite En, Es, Eb. split_and!; try done; tauto.
Qed.

Lemma pointer_ok_mono G G' m c :
  (forall g, g ∈ G -> exists g', g' ∈ G' /\ g_name g' = g_name g /\ g_size g' = g_size g /\
                             g_base g' = g_base g) ->
  pointer_ok G m c -> pointer_ok G' m c.
Proof.
  intros Hm (g1 & g2 & Hg1 & Hg2 & Hf & Hn & Hv).
  destruct (Hm g1 Hg1) as (g1' & ? & E1 & E2 & E3). destruct (Hm g2 Hg2) as (g2' & ? & E4 & E5 & E6).
  exists g1', g2'. unfold field_at in *. rewrite E1, E2, E3, E4, E5, E6. done.
Qed.

Lemma relocated_value s c g1 g2 :
  valid_pointer_size (PointerSize c) = true ->
  0 <= field_value s c g1 + g_base g2 < 256 ^ PointerSize c ->
  field_value (relocated s c g1 g2) c g1 = field_value s c g1 + g_base g2.
Proof.
  intros Hv Hr. pose proof (valid_pointer_size_range _ Hv).
  unfold field_value at 1. unfold relocated at 1. cbn [Mem set_mem].
  rewrite mem_get_set by (rewrite length_le_split; lia).
  rewrite le_combine_split, Z2Nat.id by lia. by apply Z.mod_small.
Qed.

Lemma Inv_relocated s0 R done G T s c g1 g2 :
  Inv s0 R done G T s -> entry_ok (CmdAddPointer c) -> add_pointer_valid G s c g1 g2 ->
  Inv s0 R (done ++ [CmdAddPointer c]) G T (relocated s c g1 g2).
Proof.
  intros I [[Hoff _] _] Hval. pose proof Hval as [_ _ Hg1 Hg2 (Hn1 & Hv & Hfit) Hn2 Hlt Hf].
  pose proof (inv_g_ok _ _ _ _ _ _ _ I Hg2) as Hok2.
  pose proof (field_value_range s c g1 (inv_mem _ _ _ _ _ _ I)) as H0. pose proof (g_base_nonneg _ _ Hok2).
  pose proof (valid_pointer_size_range _ Hv).
  split; try apply I.
  - apply mem_set_bytes; [apply I|apply le_split_bytes].
  - rewrite write_pointers_snoc, app_nil_r. apply I.
  - rewrite no_clobber_snoc, add_pointers_snoc. intros [Hnc Hcl].
    apply Forall_app. split; [|constructor; [|constructor]].
    + pose proof (inv_ptrs _ _ _ _ _ _ I Hnc) as Hp. rewrite Forall_forall in Hp, Hcl |- *.
      intros c' Hc'. cbn. apply (pointer_ok_write s0 R done G T s g1 (PointerOffset c)); auto.
      * rewrite length_le_split. lia.
      * rewrite length_le_split, Z2Nat.id by lia. intros Hn'.
        eapply clobbers_disjoint; [|by apply Hcl|]; [done|congruence].
    + exists g1, g2. split_and!; try done.
      fold (field_value (relocated s c g1 g2) c g1). rewrite relocated_value by (done || lia). lia.
Qed.

(** *** QEMU_LOADER_ADD_CHECKSUM *)
Record add_checksum_valid (G : list gblob) (c : QEMU_LOADER_ADD_CHECKSUM) (g : gblob) : Prop := {
  acv_file : malformed (Checksum_File c) = false;
  acv_g : g ∈ G;
  acv_name : g_name g = cstr (Checksum_File c);
  acv_result : ResultOffset c < g_size g;
  acv_range : Start c + Length c <= g_size g;
}.
Definition checksummed s (c : QEMU_LOADER_ADD_CHECKSUM) (g : gblob) : st (W:=W) :=
  set_mem (mem_set (Mem s) (g_base g + ResultOffset c)
             [u8 (- sum (mem_get (Mem s) (g_base g + Start c) (Length c)))]) s.

Lemma ProcessCmdAddChecksum_spec s0 R done G T s c :
  Inv s0 R done G T s -> entry_ok (CmdAddChecksum c) ->
  wp (ProcessCmdAddChecksum c T) (fun Status s' =>
    (Status = EFI_SUCCESS /\ exists g, add_checksum_valid G c g /\ s' = checksummed s c g) \/
    (Status = EFI_PROTOCOL_ERROR /\ s' = s /\ forall g, ~ add_checksum_valid G c g)) s.
Proof.
  intros I ([Hr _] & [Hs _] & [Hl _]). unfold ProcessCmdAddChecksum.
  destruct (malformed (Checksum_File c)) eqn:M.
  { ld_step. right. split_and!; try done. intros g []. congruence. }
  destruct (oc_find T (cstr (Checksum_File c))) as [p|] eqn:F.
  2:{ ld_step. right. split_and!; try done. intros g []. by eapply inv_find_None in acv_name0. }
  destruct (inv_find _ _ _ _ _ _ _ _ I F) as (g & Hg & Hn & <- & HB).
  assert (forall g', add_checksum_valid G c g' -> g' = g) as Huniq.
  { intros g' []. eapply inv_name_inj; (done || congruence). }
  repeat ld_step. eexists; split; [done|]. cbn [Size Base g_blob].
  destruct ((g_size g <=? ResultOffset c) || (g_size g <? Length c)
            || (g_size g - Length c <? Start c)) eqn:Hfit.
  { ld_step. right. split_and!; try done. intros ? Hval. pose proof (Huniq _ Hval) as ->. destruct Hval. lia. }
  assert (ResultOffset c < g_size g /\ Start c + Length c <= g_size g) as [Hres Hrng] by lia.
  pose proof (inv_g_ok _ _ _ _ _ _ _ I Hg) as Hok.
  rewrite !(g_address_u64 R) by (done || lia). ld_step. apply wp_read_mem.
  { eapply inv_in_pages; [done|exact Hg|lia..]. }
  ld_step. apply wp_write_mem.
  { cbn. eapply inv_in_pages; [done|exact Hg|lia..]. }
  ld_step. left. split; [done|]. exists g. split; [by split|].
  rewrite CalculateCheckSum8_spec by (apply mem_get_bytes, I). done.
Qed.

Lemma Inv_checksummed s0 R done G T s c g :
  Inv s0 R done G T s -> entry_ok (CmdAddChecksum c) -> add_checksum_valid G c g ->
  Inv s0 R (done ++ [CmdAddChecksum c]) G T (checksummed s c g).
Proof.
  intros I ([Hr _] & _ & _) [_ Hg Hn Hres _]. split; try apply I.
  - apply mem_set_bytes; [apply I|]. repeat constructor; unfold is_byte, u8; lia_div.
  - rewrite write_pointers_snoc, app_nil_r. apply I.
  - rewrite no_clobber_snoc, add_pointers_snoc, app_nil_r. intros [Hnc Hcl].
    pose proof (inv_ptrs _ _ _ _ _ _ I Hnc) as Hp. rewrite Forall_forall in Hp, Hcl |- *.
    intros c' Hc'. cbn. apply (pointer_ok_write s0 R done G T s g (ResultOffset c)); auto.
    + cbn. lia.
    + intros Hn'. eapply clobbers_disjoint; [|by apply Hcl|]; [done|congruence].
Qed.

(** *** QEMU_LOADER_WRITE_POINTER *)
Record write_pointer_valid (G : list gblob) (c : QEMU_LOADER_WRITE_POINTER) (g : gblob) (item : Z) : Prop := {
  wpv_file : malformed (W_PointerFile c) = false;
  wpv_pointee : malformed (W_PointeeFile c) = false;
  wpv_g : g ∈ G;
  wpv_name : g_name g = cstr (W_PointeeFile c);
  wpv_find : exists Status isz, FindFile (cstr (W_PointerFile c)) = (Status, item, isz) /\
    EFI_ERROR Status = false /\ W_PointerOffset c + W_PointerSize c <= isz;
  wpv_size : valid_pointer_size (W_PointerSize c) = true;
  wpv_offset : PointeeOffset c < g_size g;
  wpv_fits : g_base g + PointeeOffset c < 256 ^ W_PointerSize c;
}.
Definition told s (c : QEMU_LOADER_WRITE_POINTER) (g : gblob) (item : Z) : st (W:=W) :=
  set_blobs (<[g_ptr g := g_blob (g_opaque g)]> (Blobs s))
    (set_fw (item, W_PointerOffset c + W_PointerSize c)
       (FwWrites s ++ [((item, W_PointerOffset c),
          le_split (Z.to_nat (W_PointerSize c)) (g_base g + PointeeOffset c))]) s).

Lemma ProcessCmdWritePointer_spec s0 R done G T s c :
  Inv s0 R done G T s -> entry_ok (CmdWritePointer c) ->
  wp (ProcessCmdWritePointer c T) (fun Status s' =>
    (Status = EFI_SUCCESS /\ exists g item, write_pointer_valid G c g item /\ s' = told s c g item) \/
    (Status = EFI_PROTOCOL_ERROR /\ s' = s /\ forall g item, ~ write_pointer_valid G c g item)) s.
Proof.
  intros I ([Hoff _] & [Hpo _] & [Hsz _]). unfold ProcessCmdWritePointer.
  destruct (malformed (W_PointerFile c)) eqn:M1; cbn [orb].
  { ld_step. right. split_and!; try done. intros g i []. congruence. }
  destruct (malformed (W_PointeeFile c)) eqn:M2.
  { ld_step. right. split_and!; try done. intros g i []. congruence. }
  destruct (FindFile (cstr (W_PointerFile c))) as [[Status item] isz] eqn:FF.
  destruct (oc_find T (cstr (W_PointeeFile c))) as [p|] eqn:F.
  2:{ ld_step. right. split_and!; try done. intros g i []. by eapply inv_find_None in wpv_name0. }
  destruct (inv_find _ _ _ _ _ _ _ _ I F) as (g & Hg & Hn & <- & HB).
  assert (forall g' i, write_pointer_valid G c g' i -> g' = g) as Huniq.
  { intros g' i []. eapply inv_name_inj; (done || congruence). }
  destruct (EFI_ERROR Status) eqn:ES.
  { ld_step. right. split_and!; try done. intros ? ? []. destruct wpv_find0 as (? & ? & ? & ? & ?). congruence. }
  destruct (valid_pointer_size (W_PointerSize c)) eqn:Hv; cbn [negb orb];
    [|ld_step; right; split_and!; try done; intros ? ? []; congruence].
  pose proof (valid_pointer_size_range _ Hv) as Hrange.
  destruct ((isz <? W_PointerSize c) || (isz - W_PointerSize c <? W_PointerOffset c)) eqn:Hfit.
  { ld_step. right. split_and!; try done. intros ? ? [].
    destruct wpv_find0 as (? & isz' & E & ? & ?). assert (isz' = isz) by congruence. lia. }
  repeat ld_step. eexists; split; [done|]. cbn [Size Base File g_blob].
  destruct (Z.leb_spec (g_size g) (PointeeOffset c)).
  { ld_step. right. split_and!; try done. intros ? ? Hval. pose proof (Huniq _ _ Hval) as ->. destruct Hval. lia. }
  pose proof (inv_g_ok _ _ _ _ _ _ _ I Hg) as Hok.
  pose proof (g_size_pages R g Hok). pose proof (g_end _ _ Hok). pose proof (g_base_nonneg _ _ Hok).
  ld_step. ld_step; [apply Z.leb_le; lia|].
  rewrite (Z.add_comm (PointeeOffset c)), (g_address_u64 R) by (done || lia).
  rewrite representable; [|done|unfold MAX_ADDRESS, is_u64 in *; lia].
  destruct (Z.ltb_spec (g_base g + PointeeOffset c) (256 ^ W_PointerSize c)) as [Hlt|Hge]; cbn [negb].
  2:{ ld_step. right. split_and!; try done. intros ? ? Hval. pose proof (Huniq _ _ Hval) as ->. destruct Hval. lia. }
  unfold QemuFwCfgSelectItem, QemuFwCfgSkipBytes, QemuFwCfgWriteBytes. repeat ld_step.
  eexists. split; [exact HB|]. ld_step. left. split; [done|]. exists g, item. split.
  - split; try done. exists Status, isz. split_and!; try done. lia.
  - unfold told, set_blobs, set_fw; cbn. rewrite length_le_split, Z2Nat.id by lia. done.
Qed.

Lemma g_opaque_name g : g_name (g_opaque g) = g_name g.
Proof. done. Qed.

(** Marking a blob opaque; [Gr] are the other blobs. *)
Lemma Inv_opaque s0 R done g Gr T s :
  Inv s0 R done (g :: Gr) T s ->
  Inv s0 R done (g_opaque g :: Gr) T (set_blobs (<[g_ptr g := g_blob (g_opaque g)]> (Blobs s)) s).
Proof.
  intros I.
  assert (forall g', g' ∈ g :: Gr -> exists g'', g'' ∈ g_opaque g :: Gr /\ g_name g'' = g_name g' /\
    g_size g'' = g_size g' /\ g_base g'' = g_base g' /\ (g_hosts g' = false -> g_hosts g'' = false)) as Hm.
  { intros g' [->|Hg']%elem_of_cons; [exists (g_opaque g); split; [by left|done]|].
    exists g'. split; [by right|done]. }
  destruct I as [Hwf HT HB HP Hok Hap Hmem (ws & Hws & H2) Hptr]. split; try done.
  - cbn. csimpl. apply (overlay_update _ _ _ _ (g_blob g)). exact HB.
  - inversion Hok as [|? ? [] ?]; subst. constructor; [by split|done].
  - intros g1 g2 H1 H3.
    assert (forall x, x ∈ g_opaque g :: Gr -> exists y, y ∈ g :: Gr /\ g_base y = g_base x /\ g_pages y = g_pages x) as Hb.
    { intros x [->|Hx]%elem_of_cons; [exists g|exists x]; (split; [|done]); [by left|by right]. }
    destruct (Hb _ H1) as (y1 & Hy1 & E1 & E2). destruct (Hb _ H3) as (y2 & Hy2 & E3 & E4).
    unfold g_apart in *. rewrite <-E1, <-E2, <-E3, <-E4. by apply Hap.
  - exists ws. split; [done|]. eapply Forall2_impl; [done|]. intros c w. by apply pointer_write_mono.
  - intros Hnc. eapply Forall_impl; [by apply Hptr|]. intros c. apply pointer_ok_mono.
    intros g' Hg'. destruct (Hm g' Hg') as (g'' & ? & ? & ? & ? & _). eauto.
Qed.

Lemma Inv_told s0 R done g Gr T s c item :
  Inv s0 R done (g :: Gr) T s -> entry_ok (CmdWritePointer c) -> write_pointer_valid (g :: Gr) c g item ->
  Inv s0 R (done ++ [CmdWritePointer c]) (g_opaque g :: Gr) T (told s c g item).
Proof.
  intros I _ [_ _ _ Hn (St & isz & HF & HE & Hfit) Hv Hoff Hf].
  pose proof (Inv_opaque _ _ _ _ _ _ _ I) as [Hwf HT HB HP Hok Hap Hmem (ws & Hws & H2) Hptr].
  split; try done.
  - exists (ws ++ [((item, W_PointerOffset c),
          le_split (Z.to_nat (W_PointerSize c)) (g_base g + PointeeOffset c))]).
    cbn in Hws |- *. split; [by rewrite Hws, (assoc_L (++))|].
    rewrite write_pointers_snoc. apply Forall2_app; [done|]. constructor; [|constructor].
    exists (g_opaque g), St, item, isz. split_and!; try done. by left.
  - rewrite no_clobber_snoc, add_pointers_snoc, app_nil_r. intros [Hnc _]. by apply Hptr.
Qed.

(** *** QEMU_LOADER_ALLOCATE *)
Record allocated (R : list Z -> Prop) (c : QEMU_LOADER_ALLOCATE) (T T' : oc OCT) s s' (g : gblob) (bs : list Z) : Prop := {
  al_file : malformed (Allocate_File c) = false /\ Alignment c <= EFI_PAGE_SIZE;
  al_g : g_file g = Allocate_File c /\ g_hosts g = true;
  al_size : exists Status item, FindFile (g_name g) = (Status, item, g_size g) /\ EFI_ERROR Status = false;
  al_ok : g_ok R g;
  al_fresh : disjoint_from (Pages s) (g_base g) (g_pages g);
  al_name : g_name g ∉ (oc_entries T).*1;
  al_wf : oc_wf T';
  al_T : oc_entries T' ≡ₚ (g_name g, g_ptr g) :: oc_entries T;
  al_ptr : Blobs s !! g_ptr g = None;
  al_bytes : Z.of_nat (length bs) = g_size g /\ Forall is_byte bs;
  al_state : exists w pos, s' = set_fw pos (FwWrites s)
     (set_mem (mem_set (mem_set (Mem s) (g_base g) bs) (g_base g + g_size g)
                 (replicate (Z.to_nat (EFI_PAGE_SIZE * g_pages g - g_size g)) 0))
       (set_blobs (<[g_ptr g := g_blob g]> (Blobs s))
         (set_pages (<[g_base g := g_pages g]> (Pages s)) (set_env w s))));
}.

Context {OCR : OrderedCollection (list Z) (list Z) W AsciiStrCmp}.

Lemma ProcessCmdAllocate_spec (R : list Z -> Prop) T (Restricted : oc OCR) s c :
  oc_wf T -> (forall n, (oc_find Restricted n <> None) <-> R n) ->
  wp (ProcessCmdAllocate c T Restricted) (fun '(Status, T') s' =>
    (Status = EFI_SUCCESS /\ exists g bs, allocated R c T T' s s' g bs) \/
    (EFI_ERROR Status = true /\ T' = T /\ unchanged s s')) s.
Proof.
  intros Hwf HR. unfold ProcessCmdAllocate.
  destruct (malformed (Allocate_File c)) eqn:M; [ld_step; right; by eauto using unchanged_refl|].
  destruct (Z.ltb_spec EFI_PAGE_SIZE (Alignment c)) as [|HA]; [ld_step; right; by eauto using unchanged_refl|].
  cbv zeta. set (n := cstr (Allocate_File c)).
  destruct (FindFile n) as [[Status item] size] eqn:FF.
  destruct (EFI_ERROR Status) eqn:ES; [ld_step; right; by eauto using unchanged_refl|].
  pose proof (FindFile_size _ _ _ _ FF) as Hsz. pose proof (EFI_SIZE_TO_PAGES_bound _ Hsz) as Hpg.
  set (pages := EFI_SIZE_TO_PAGES size) in *.
  ld_step. apply wp_AllocatePages.
  { intros w St a E. cbn beta iota. rewrite E. ld_step. right. split_and!; try done. by exists w, (FwPos s). }
  intros w St a E Ha Hmax Hend Hdis. cbn beta iota. rewrite E.
  assert (Pages s !! a = None) as HPa.
  { destruct (Pages s !! a) as [k|] eqn:EP; [|done]. by destruct (Hdis _ _ EP). }
  ld_step. apply wp_AllocateBlob.
  { intros w1. ld_step. apply wp_FreePages; [apply lookup_insert_eq|]. ld_step. right.
    split_and!; try done. exists w1, (FwPos s). unfold set_pages, set_env, set_fw; cbn.
    by rewrite delete_insert_id. }
  intros w1 p HBp. ld_step. apply wp_CollectionInsert; [done|]. intros w2 r T' HwT' Hr. cbn beta iota.
  destruct r as [|u|]; cbn [insert_status].
  - change (EFI_ERROR EFI_SUCCESS) with false. ld_step.
    unfold QemuFwCfgSelectItem, QemuFwCfgReadBytes, QemuFwCfgSkipBytes. repeat ld_step.
    match goal with |- context [fw_read ?w ?i ?o ?k] => destruct (fw_read w i o k) as [bs w3] eqn:ER end.
    destruct (fw_read_buffer _ _ _ _ _ _ ER) as [Hlen Hbs]. repeat ld_step.
    set (g := mkG (Allocate_File c) p size a true).
    destruct Hsz as [Hsz0 Hsz1]. assert (Z.of_nat (length bs) = size) as Hlen' by lia.
    assert (EFI_PAGES_TO_SIZE pages = EFI_PAGE_SIZE * pages) as HPS.
    { apply EFI_PAGES_TO_SIZE_small. unfold EFI_PAGE_SIZE, EFI_PAGE_MASK in *. lia. }
    apply wp_write_mem.
    { cbn [Pages set_fw set_env set_blobs]. eapply (in_pages_intro _ a pages); [apply lookup_insert_eq|].
      unfold page_range. lia. }
    ld_step. apply wp_write_mem.
    { cbn [Pages set_fw set_env set_blobs set_mem]. rewrite length_replicate, HPS.
      eapply (in_pages_intro _ a pages); [apply lookup_insert_eq|]. unfold page_range. lia. }
    ld_step. left. split; [done|]. exists g, bs. destruct Hr as [Hni HT]. split; try done.
    + exists Status, item. done.
    + split; [done..|]. intros HRn. apply HR in HRn. change (g_name g) with n in HRn.
      change (a + EFI_PAGE_SIZE * pages <= 2 ^ 32).
      destruct (oc_find Restricted n); [|done]. unfold MAX_UINT32 in Hmax. lia.
    + rewrite HPS. eexists w3, _. reflexivity.
  - change (EFI_ERROR EFI_PROTOCOL_ERROR) with true. destruct Hr as [_ ->]. repeat ld_step.
    eexists. split; [apply lookup_insert_eq|]. ld_step.
    apply wp_FreePages; [apply lookup_insert_eq|]. ld_step. right. split_and!; try done.
    exists w2, (FwPos s). unfold set_pages, set_env, set_fw, set_blobs; cbn. by rewrite !delete_insert_id.
  - change (EFI_ERROR EFI_OUT_OF_RESOURCES) with true. subst T'. repeat ld_step.
    eexists. split; [apply lookup_insert_eq|]. ld_step.
    apply wp_FreePages; [apply lookup_insert_eq|]. ld_step. right. split_and!; try done.
    exists w2, (FwPos s). unfold set_pages, set_env, set_fw, set_blobs; cbn. by rewrite !delete_insert_id.
Qed.

Lemma Inv_allocated s0 R done G T T' s s' c g bs :
  Inv s0 R done G T s -> allocated R c T T' s s' g bs ->
  Inv s0 R (done ++ [CmdAllocate c]) (g :: G) T' s'.
Proof.
  intros I [Hfile Hg Hsz Hok Hfr Hni HwT' HT' HBp [Hlen Hbs] (w & pos & ->)].
  assert (forall g', g' ∈ G -> exists g'', g'' ∈ g :: G /\ g_name g'' = g_name g' /\
    g_size g'' = g_size g' /\ g_base g'' = g_base g' /\ (g_hosts g' = false -> g_hosts g'' = false)) as Hm.
  { intros g' Hg'. exists g'. split; [by right|done]. }
  assert (Pages s !! g_base g = None) as HPa.
  { destruct (Pages s !! g_base g) as [k|] eqn:EP; [|done]. by destruct (Hfr _ _ EP). }
  assert (forall g', g' ∈ G -> g_apart g g') as Hap.
  { intros g' Hg'. unfold g_apart. eapply Hfr, overlay_lookup; [apply (inv_pages _ _ _ _ _ _ I)|].
    apply list_elem_of_fmap. eauto. }
  pose proof (g_size_pages R g Hok) as Hp. pose proof (g_base_nonneg _ _ Hok) as Hb0.
  pose proof (g_size_u32 _ _ Hok) as [Hsz0 _].
  split; try done; cbn.
  - rewrite HT', (inv_T _ _ _ _ _ _ I). done.
  - csimpl. apply overlay_insert; [apply I|done].
  - csimpl. apply overlay_insert; [apply I|done].
  - constructor; [done|apply I].
  - intros g1 g2 [->|H1]%elem_of_cons [->|H2]%elem_of_cons Hne; [done|by apply Hap| |by eapply inv_apart].
    unfold g_apart. destruct (Hap _ H1); auto.
  - apply mem_set_bytes; [apply mem_set_bytes; [apply I|done]|].
    apply Forall_replicate. unfold is_byte. lia.
  - rewrite write_pointers_snoc, app_nil_r. destruct (inv_writes _ _ _ _ _ _ I) as (ws & Hws & H2).
    exists ws. split; [done|]. eapply Forall2_impl; [done|]. intros c0 w0. by apply pointer_write_mono.
  - rewrite no_clobber_snoc, add_pointers_snoc, app_nil_r. intros [Hnc _].
    pose proof (inv_ptrs _ _ _ _ _ _ I Hnc) as Hps. eapply Forall_impl; [exact Hps|].
    intros c0 (g1 & g2 & Hg1 & Hg2 & (Hn1 & Hv1 & Ho1) & Hn2 & Hv).
    pose proof (g_size_pages R g1 (inv_g_ok _ _ _ _ _ _ _ I Hg1)).
    exists g1, g2. split_and!; try done; [by right|by right|].
    pose proof (valid_pointer_size_range _ Hv1).
    rewrite !mem_get_set_disjoint; [done|..]; rewrite ?length_replicate;
      destruct (Hap g1 Hg1); lia.
Qed.
End Inv.
