(* ===== verification/AcpiLoaderPasses.v ===== *)
(** * The linker/loader: the two passes, the roll-back and the whole

    Proves [InstallQemuFwCfgTables] against its contract: on every failure all
    pages, pool objects, collections and installed tables are released and
    every pointer told to QEMU is revoked; on success exactly the blobs that
    QEMU or the tables still refer to stay allocated. *)
From S2P Require Import Prelude Bytes Memory OrderedCollection AcpiLoader AcpiLoaderProofs.

(** ** The bytes of the writeable fw_cfg files *)

(** The byte last written at offset [x.2] of item [x.1]. *)
Definition covers (w : Z * Z * list Z) (x : Z * Z) : Prop :=
  w.1.1 = x.1 /\ w.1.2 <= x.2 < w.1.2 + Z.of_nat (length w.2).
#[global] Instance covers_dec w x : Decision (covers w x).
Proof. unfold covers. apply _. Defined.
Fixpoint fw_apply (ws : list (Z * Z * list Z)) (x : Z * Z) (old : option Z) : option Z :=
  match ws with
  | [] => old
  | w :: ws =>
      fw_apply ws x (if decide (covers w x) then w.2 !! Z.to_nat (x.2 - w.1.2) else old)
  end.

Lemma fw_apply_app ws1 ws2 x old : fw_apply (ws1 ++ ws2) x old = fw_apply ws2 x (fw_apply ws1 x old).
Proof. revert old. induction ws1 as [|w ws1 IH]; intros old; cbn; auto. Qed.
Lemma fw_apply_uncovered ws x old : Forall (fun w => ~ covers w x) ws -> fw_apply ws x old = old.
Proof. revert old. induction ws as [|w ws IH]; intros old; cbn; [done|]. intros [??]%Forall_cons. rewrite decide_False; auto. Qed.

Definition zero_write (w : Z * Z * list Z) : Z * Z * list Z := (w.1, replicate (length w.2) 0).
Lemma covers_zero w x : covers (zero_write w) x <-> covers w x.
Proof. unfold covers, zero_write. cbn. by rewrite length_replicate. Qed.

Lemma fw_apply_zeros ws x old b :
  fw_apply (zero_write <$> ws) x old = Some b -> b = 0 \/ (old = Some b /\ Forall (fun w => ~ covers w x) ws).
Proof.
  revert old. induction ws as [|w ws IH]; intros old; cbn; [by right|].
  intros H. apply IH in H as [->|[H Hall]]; [by left|].
  case_decide as Hc; [|right; split; [done|]; constructor; [|done]; by rewrite <-covers_zero].
  cbn in H. apply lookup_replicate in H as [-> _]. by left.
Qed.

(** Writing every range again with zeros, in reverse order, revokes all. *)
Lemma fw_apply_revoked ws x b :
  fw_apply (ws ++ reverse (zero_write <$> ws)) x None = Some b -> b = 0.
Proof.
  rewrite fw_apply_app, <-fmap_reverse. intros [->|[H Hall]]%fw_apply_zeros; [done|].
  rewrite Forall_reverse in Hall. by rewrite fw_apply_uncovered in H.
Qed.

(** ** Decoded scripts *)
Lemma field_range bs o n : Forall is_byte bs -> 0 <= le_combine (field bs o n) < 256 ^ Z.of_nat n.
Proof.
  intros Hb. unfold field.
  assert (Forall is_byte (take n (drop o bs))) as Hf by by apply Forall_take, Forall_drop.
  pose proof (le_combine_range _ Hf) as Hr. pose proof (length_take (drop o bs) n) as Hl.
  assert (256 ^ Z.of_nat (length (take n (drop o bs))) <= 256 ^ Z.of_nat n); [|lia].
  apply Z.pow_le_mono_r; lia.
Qed.

Lemma decode_entry_ok bs : Forall is_byte bs -> entry_ok (decode_entry bs).
Proof.
  intros Hb. unfold decode_entry.
  assert (forall o, is_u32 (le_combine (field bs o 4))) as H4
    by (intros o; pose proof (field_range bs o 4 Hb); unfold is_u32; done).
  assert (forall o, is_u8 (le_combine (field bs o 1))) as H1
    by (intros o; pose proof (field_range bs o 1 Hb); unfold is_u8; done).
  repeat case_match; cbn; auto.
Qed.

Lemma decode_entries_ok n bs : Forall is_byte bs -> Forall entry_ok (decode_entries n bs).
Proof.
  revert bs. induction n as [|n IH]; intros bs Hb; cbn; constructor.
  - by apply decode_entry_ok, Forall_take.
  - by apply IH, Forall_drop.
Qed.

(** ** First pass *)
Section Passes.
Context {W : Type} {PE : PoolEnv W} {FW : FwCfg W} {PG : PageEnv W}.
Context {AT : AcpiTableEnv W} {PD : PciDecodingEnv W} {S8 : Sum8}.
Context {AsciiStrCmp : list Z -> list Z -> Z}.
Context {OCT : OrderedCollection (list Z) ptr W AsciiStrCmp} {LT : OrderedCollectionLaws OCT}.
Context {OCR : OrderedCollection (list Z) (list Z) W AsciiStrCmp} {LR : OrderedCollectionLaws OCR}.
Context {OCS : OrderedCollection Z Z W PointerCompare} {LS : OrderedCollectionLaws OCS}.
Context {FWL : FwCfgLaws W} {PGL : PageLaws W} {S8L : Sum8Laws}.
Implicit Types s : st (W:=W).
Implicit Types T : oc OCT.

Lemma same_other_refl s : same_other s s.
Proof. done. Qed.
Lemma same_other_trans s1 s2 s3 : same_other s1 s2 -> same_other s2 s3 -> same_other s1 s3.
Proof. intros (?&?&?) (?&?&?). split_and!; congruence. Qed.
Lemma unchanged_other s s' : unchanged s s' -> same_other s s'.
Proof. by intros (w & p & ->). Qed.

(** The blobs are the files that the commands [l] allocate, of the size that
    fw_cfg reports; only a blob whose address a WRITE_POINTER command told
    QEMU does not host only table data. *)
Definition allocates (l : list QEMU_LOADER_ENTRY) : list QEMU_LOADER_ALLOCATE :=
  omap (fun e => match e with CmdAllocate c => Some c | _ => None end) l.
Definition told_to_qemu (l : list QEMU_LOADER_ENTRY) (g : gblob) : Prop :=
  exists c, c ∈ write_pointers l /\ cstr (W_PointeeFile c) = g_name g.
Record downloaded (l : list QEMU_LOADER_ENTRY) (G : list gblob) : Prop := {
  dl_files : g_file <$> G ≡ₚ Allocate_File <$> allocates l;
  dl_size : Forall (fun g => exists Status item, FindFile (g_name g) = (Status, item, g_size g) /\ EFI_ERROR Status = false) G;
  dl_kept : Forall (fun g => g_hosts g = false -> told_to_qemu l g) G;
}.

Lemma told_snoc l e g : told_to_qemu l g -> told_to_qemu (l ++ [e]) g.
Proof. intros (c & Hc & Hn). exists c. split; [|done]. rewrite write_pointers_snoc. apply elem_of_app. by left. Qed.
Lemma downloaded_snoc l e G :
  match e with CmdAllocate _ => False | _ => True end -> downloaded l G -> downloaded (l ++ [e]) G.
Proof.
  intros He [H1 H2 H3]. split; [|done|].
  - unfold allocates. rewrite omap_app. destruct e; [done|..]; cbn; by rewrite app_nil_r.
  - eapply Forall_impl; [exact H3|]. intros g Hg Hh. apply told_snoc. auto.
Qed.
Lemma downloaded_told l G c g Gr :
  G ≡ₚ g :: Gr -> g_name g = cstr (W_PointeeFile c) -> downloaded l G -> downloaded (l ++ [CmdWritePointer c]) (g_opaque g :: Gr).
Proof.
  intros Hp Hn Hd. apply (downloaded_snoc l (CmdWritePointer c)) in Hd; [|done]. destruct Hd as [H1 H2 H3].
  rewrite Hp in H1, H2, H3. apply Forall_cons in H2 as [Hg2 H2], H3 as [_ H3]. split; [exact H1|by constructor|].
  constructor; [|done]. intros _. exists c. split; [|done]. rewrite write_pointers_snoc. apply elem_of_app. right. by left.
Qed.
Lemma downloaded_allocated R c T T' s s' g bs l G :
  allocated R c T T' s s' g bs -> downloaded l G -> downloaded (l ++ [CmdAllocate c]) (g :: G).
Proof.
  intros [_ [Hf Hh] Hsz _ _ _ _ _ _ _ _] [H1 H2 H3]. split.
  - unfold allocates. rewrite omap_app. cbn. rewrite fmap_app. csimpl. rewrite Hf, H1. by rewrite Permutation_cons_append.
  - by constructor.
  - constructor; [congruence|]. eapply Forall_impl; [exact H3|]. intros g' Hg' ?. apply told_snoc. auto.
Qed.

Lemma ProcessCmd_spec s0 R done G T (Restricted : oc OCR) s e Status :
  Inv s0 R done G T s -> entry_ok e -> EFI_ERROR Status = false ->
  (forall n, (oc_find Restricted n <> None) <-> R n) ->
  wp (ProcessCmd e Status T Restricted) (fun '(Status', T') s' => same_other s s' /\
    if EFI_ERROR Status' then T' = T /\ Inv s0 R done G T s'
    else exists G', Inv s0 R (done ++ [e]) G' T' s' /\ (downloaded done G -> downloaded (done ++ [e]) G')) s.
Proof.
  intros I He HS HR. destruct e as [c|c|c|c|ty]; cbn [ProcessCmd].
  - eapply wp_mono; [apply ProcessCmdAllocate_spec; [by eapply inv_wf|done]|].
    intros [Status' T'] s' [[-> (g & bs & Hal)]|(-> & -> & Hu)].
    + change (EFI_ERROR EFI_SUCCESS) with false. split; [|eexists; split; [by eapply Inv_allocated|by eapply downloaded_allocated]].
      by destruct Hal as [_ _ _ _ _ _ _ _ _ _ (w & pos & ->)].
    + split; [by apply unchanged_other|]. split; [done|by eapply Inv_unchanged].
  - ld_step. eapply wp_mono; [by eapply ProcessCmdAddPointer_spec|].
    intros Status' s' [[-> (g1 & g2 & Hv & ->)]|(-> & -> & _)]; ld_step; (split; [done|]).
    + exists G. split; [by apply Inv_relocated|by apply downloaded_snoc].
    + done.
  - ld_step. eapply wp_mono; [by eapply ProcessCmdAddChecksum_spec|].
    intros Status' s' [[-> (g & Hv & ->)]|(-> & -> & _)]; ld_step; (split; [done|]).
    + exists G. split; [by apply Inv_checksummed|by apply downloaded_snoc].
    + done.
  - ld_step. eapply wp_mono; [by eapply ProcessCmdWritePointer_spec|].
    intros Status' s' [[-> (g & item & Hv & ->)]|(-> & -> & _)]; ld_step; (split; [done|]).
    + pose proof (wpv_g _ _ _ _ Hv) as Hg. apply elem_of_Permutation in Hg as (Gr & Hp).
      exists (g_opaque g :: Gr). split; [|apply downloaded_told; [done|by destruct Hv]].
      apply Inv_told; [by eapply Inv_perm|done|]. destruct Hv. split; try done. by left.
    + done.
  - ld_step. rewrite HS. split; [done|]. exists G. split; [|by apply downloaded_snoc]. destruct I. split; try done.
    + by rewrite write_pointers_snoc, app_nil_r.
    + rewrite no_clobber_snoc, add_pointers_snoc, app_nil_r. intros [? _]. auto.
Qed.

(** [WritePointerSubsetEnd] covers every WRITE_POINTER processed. *)
Definition subset_end (done : list QEMU_LOADER_ENTRY) (n : nat) : Prop :=
  (n <= length done)%nat /\ write_pointers (drop n done) = [].

Lemma FirstPass_spec s0 R l done G T (Restricted : oc OCR) s WPEnd Status :
  Inv s0 R done G T s -> Forall entry_ok l -> EFI_ERROR Status = false ->
  (forall n, (oc_find Restricted n <> None) <-> R n) -> subset_end done WPEnd ->
  wp (FirstPass l (length done) WPEnd Status T Restricted) (fun '(Status', WPEnd', T') s' =>
    same_other s s' /\ exists done' rest G', done ++ l = done' ++ rest /\
      Inv s0 R done' G' T' s' /\ subset_end done' WPEnd' /\
      (EFI_ERROR Status' = false -> rest = []) /\ (downloaded done G -> downloaded done' G')) s.
Proof.
  revert done G T s WPEnd Status.
  induction l as [|e l IH]; intros done G T s WPEnd Status I Hl HS HR Hsub; cbn [FirstPass].
  { ld_step. split; [done|]. exists done, [], G. done. }
  apply Forall_cons in Hl as [He Hl]. ld_step. eapply wp_mono; [by apply ProcessCmd_spec|].
  intros [Status' T'] s' [Ho H]. cbn beta iota. destruct (EFI_ERROR Status') eqn:ES.
  - ld_step. destruct H as [-> I']. split; [done|]. exists done, (e :: l), G. rewrite ES.
    split_and!; try done. by destruct e.
  - destruct H as (G' & I' & Hd'). eapply wp_mono.
    { replace (S (length done)) with (length (done ++ [e])) by (rewrite length_app; cbn; lia).
      apply (IH _ G'); try done. destruct Hsub as [Hle Hw].
      assert (subset_end (done ++ [e]) (length (done ++ [e]))) as Hend.
      { split; [done|]. by rewrite drop_all. }
      destruct e; try (split; [rewrite length_app; lia|];
        rewrite drop_app_le, write_pointers_snoc, Hw by done; done).
      done. }
    intros [[Status2 WP2] T2] s2 [Ho2 (done2 & rest & G2 & E & ? & ? & ? & ?)]. split; [by eapply same_other_trans|].
    exists done2, rest, G2. rewrite <-E, <-(assoc_L (++)). split_and!; auto.
Qed.

(** ** Roll-back of the WRITE_POINTER commands *)
Definition revoke (c : QEMU_LOADER_WRITE_POINTER) (w : Z * Z * list Z) : Prop :=
  exists Status item isz, FindFile (cstr (W_PointerFile c)) = (Status, item, isz) /\
    EFI_ERROR Status = false /\ w = ((item, W_PointerOffset c), replicate (Z.to_nat (W_PointerSize c)) 0).

Lemma le_split_0 n : le_split n 0 = replicate n 0.
Proof. induction n as [|n IH]; cbn; [done|]. by rewrite Z.mod_0_l, Z.div_0_l, IH. Qed.

Definition only_fw s s' : Prop := exists w pos ws, s' = set_fw pos ws (set_env w s).

Lemma RollbackWritePointers_spec l n ws zs s :
  (n <= length l)%nat -> Forall2 revoke (write_pointers (take n l)) zs -> FwWrites s = ws ->
  wp (RollbackWritePointers l n) (fun _ s' => only_fw s s' /\ FwWrites s' = ws ++ reverse zs) s.
Proof.
  revert ws zs s. induction n as [|n IH]; intros ws zs s Hn Hz Hws; cbn [RollbackWritePointers].
  { ld_step. cbn in Hz. inversion Hz; subst. rewrite app_nil_r. split; [|done].
    exists (Env s), (FwPos s), (FwWrites s). by destruct s. }
  destruct (lookup_lt_is_Some_2 l n) as [e He]; [lia|].
  rewrite (take_S_r _ _ _ He), write_pointers_snoc in Hz.
  repeat ld_step. exists e. split; [done|]. destruct e as [?|?|?|c|?].
  1,2,3,5: rewrite app_nil_r in Hz; ld_step; ld_step; apply IH; [lia|done|done].
  apply Forall2_app_inv_l in Hz as (zs1 & zs2 & Hz1 & Hz2 & ->).
  inversion Hz2 as [|? z ? ? (St & item & isz & HF & HE & ->) Hnil]; subst. inversion Hnil; subst.
  unfold UndoCmdWritePointer. rewrite HF. repeat ld_step; [by rewrite HE|].
  unfold QemuFwCfgSelectItem, QemuFwCfgSkipBytes, QemuFwCfgWriteBytes. repeat ld_step.
  eapply wp_mono; [eapply (IH _ zs1); [lia|done|reflexivity]|].
  intros [] s' [(w & pos & ws' & ->) Hws']. split; [by exists w, pos, ws'|].
  rewrite Hws'. cbn. by rewrite le_split_0, reverse_snoc, <-(assoc_L (++)).
Qed.

Lemma pointer_write_revoke G c w : pointer_write G c w -> revoke c (zero_write w).
Proof.
  intros (g & St & item & isz & _ & _ & _ & HF & HE & _ & _ & _ & _ & ->).
  exists St, item, isz. split_and!; try done. unfold zero_write; cbn. by rewrite length_le_split.
Qed.

Lemma Rollback_revokes s0 R done rest G T s n :
  Inv s0 R done G T s -> subset_end done n ->
  wp (RollbackWritePointers (done ++ rest) n) (fun _ s' => only_fw s s' /\
    exists ws, FwWrites s' = FwWrites s0 ++ ws /\ forall x b, fw_apply ws x None = Some b -> b = 0) s.
Proof.
  intros I [Hn Hd]. destruct (inv_writes _ _ _ _ _ _ I) as (ws & Hws & H2).
  eapply wp_mono.
  - eapply (RollbackWritePointers_spec _ _ _ (zero_write <$> ws)); [rewrite length_app; lia| |exact Hws].
    rewrite take_app_le by done.
    assert (write_pointers (take n done) = write_pointers done) as ->.
    { rewrite <-(take_drop n done) at 2. unfold write_pointers in *. by rewrite omap_app, Hd, app_nil_r. }
    apply Forall2_fmap_r. eapply Forall2_impl; [done|]. intros c w. apply pointer_write_revoke.
  - intros [] s' [Ho Hw]. split; [done|]. exists (ws ++ reverse (zero_write <$> ws)).
    rewrite Hw, (assoc_L (++)). split; [done|]. intros x b. apply fw_apply_revoked.
Qed.

(** ** Tearing down the tracker *)
Definition kept (Status : EFI_STATUS) (g : gblob) : bool := negb (EFI_ERROR Status || g_hosts g).
Definition pages_of (G : list gblob) : list (Z * Z) := (fun g => (g_base g, g_pages g)) <$> G.

Lemma pages_of_middle gs g K :
  pages_of (gs ++ g :: K) ≡ₚ (g_base g, g_pages g) :: pages_of (gs ++ K).
Proof. unfold pages_of. by rewrite <-Permutation_middle. Qed.

Lemma TearDown_loop (B0 : gmap ptr BLOB) (P0 : page_map) Status (gs K : list gblob) T s :
  overlay B0 ((fun g => (g_ptr g, g_blob g)) <$> gs) (Blobs s) ->
  overlay P0 (pages_of (gs ++ K)) (Pages s) ->
  wp (TearDownTracker Status T ((fun g => (g_name g, g_ptr g)) <$> gs)) (fun T' s' =>
    T' = foldl (fun c e => oc_delete c e.1) T ((fun g => (g_name g, g_ptr g)) <$> gs) /\
    (exists P, s' = set_blobs B0 (set_pages P s) /\
      overlay P0 (pages_of (filter (fun g => kept Status g = true) gs ++ K)) P)) s.
Proof.
  revert K T s. induction gs as [|g gs IH]; intros K T s HB HP; csimpl; cbn [TearDownTracker].
  - ld_step. split; [done|]. exists (Pages s). apply overlay_nil_eq in HB.
    split; [by destruct s; cbn in *; subst|done].
  - repeat ld_step. exists (g_blob g). split.
    { eapply overlay_lookup; [exact HB|]. by left. }
    rewrite filter_cons. csimpl in HB. csimpl in HP.
    change (HostsOnlyTableData (g_blob g)) with (g_hosts g).
    change (Base (g_blob g)) with (g_base g). change (Size (g_blob g)) with (g_size g).
    assert (Blobs s !! g_ptr g = Some (g_blob g)) as HBg.
    { eapply overlay_lookup; [exact HB|]. by left. }
    destruct (EFI_ERROR Status || g_hosts g) eqn:EK; ld_step.
    + apply wp_FreePages; [eapply overlay_lookup; [exact HP|]; by left|].
      repeat ld_step. exists (g_blob g). split; [done|].
      eapply wp_mono; [apply (IH K); [by eapply overlay_delete|by eapply overlay_delete]|].
      intros T' s' [-> (P & -> & HP')]. split; [done|]. exists P. rewrite decide_False by (unfold kept; by rewrite EK). done.
    + repeat ld_step. exists (g_blob g). split; [done|].
      eapply wp_mono; [apply (IH (g :: K)); [by eapply overlay_delete|]|].
      { eapply overlay_perm; [|exact HP]. by rewrite pages_of_middle. }
      intros T' s' [-> (P & -> & HP')]. split; [done|]. exists P. rewrite decide_True by (unfold kept; by rewrite EK).
      split; [done|]. eapply overlay_perm; [|exact HP'].
      by rewrite pages_of_middle.
Qed.

Lemma TearDown_spec (B0 : gmap ptr BLOB) (P0 : page_map) G T s Status :
  oc_wf T -> oc_entries T ≡ₚ (fun g => (g_name g, g_ptr g)) <$> G ->
  overlay B0 ((fun g => (g_ptr g, g_blob g)) <$> G) (Blobs s) -> overlay P0 (pages_of G) (Pages s) ->
  wp (T' ← TearDownTracker Status T (oc_entries T); CollectionUninit T') (fun _ s' =>
    exists P, s' = add_collections (-1) (set_blobs B0 (set_pages P s)) /\
      overlay P0 (pages_of (filter (fun g => kept Status g = true) G)) P) s.
Proof.
  intros Hwf HT HB HP. destruct (Permutation_map_inv _ _ HT) as (gs & Egs & Hgs).
  change (map ?f gs) with (f <$> gs) in Egs. ld_step. rewrite Egs. eapply wp_mono.
  { apply (TearDown_loop B0 P0 Status gs []).
    - eapply overlay_perm; [|exact HB]. by rewrite Hgs.
    - rewrite app_nil_r. eapply overlay_perm; [|exact HP]. unfold pages_of. by rewrite Hgs. }
  intros T' s' [-> (P & -> & HP')]. rewrite <-Egs. apply wp_CollectionUninit.
  - by apply oc_delete_all.
  - exists P. split; [done|]. eapply overlay_perm; [|exact HP']. rewrite app_nil_r.
    unfold pages_of. by rewrite Hgs.
Qed.
End Passes.

(** * The linker/loader: finding and installing the tables *)
(** ** What an address points at *)
Definition length_at (m : memory) (v : Z) : Z := le_combine (mem_get m (v + OFFSET_Length) 4).
Definition signature_at (m : memory) (v : Z) : Z := le_combine (mem_get m v 4).
(** [rem] bytes of the blob remain from [v] on. *)
Definition facs_at (m : memory) (v rem : Z) : Prop :=
  FACS_SIZE <= length_at m v <= rem /\ signature_at m v = SIGNATURE_FACS.
Definition header_at (m : memory) (v rem : Z) : Prop :=
  HEADER_SIZE <= length_at m v <= rem /\ u8 (sum (mem_get m v (length_at m v))) = 0.
Definition sdt_at (m : memory) (v : Z) : Prop :=
  signature_at m v = SIGNATURE_RSDT \/ signature_at m v = SIGNATURE_XSDT.
Definition table_at (m : memory) (v rem : Z) : Prop :=
  facs_at m v rem \/ (header_at m v rem /\ ~ sdt_at m v).

(** Neither a FACS nor a table with the uniform header. *)
Definition data_at (m : memory) (v rem : Z) : Prop := ~ facs_at m v rem /\ ~ header_at m v rem.

Definition in_blob (g : gblob) (v : Z) : Prop := g_base g <= v < g_base g + g_size g.
Definition rem_in (g : gblob) (v : Z) : Z := g_base g + g_size g - v.

(** The fate of a pointed-to address: skipped, installed, or kept in place
    because its blob is not a table. *)
Definition handled (G : list gblob) (inst : list (Z * Z * Z)) (m : memory) (v : Z) : Prop :=
  exists g, g ∈ G /\ in_blob g v /\
    ((header_at m v (rem_in g v) /\ sdt_at m v) \/
     (table_at m v (rem_in g v) /\ exists key, (key, v, length_at m v) ∈ inst) \/
     g_hosts g = false).

(** An installed table (key, address, size). *)
Definition installed_ok (G : list gblob) (m : memory) (t : Z * Z * Z) : Prop :=
  exists g, g ∈ G /\ in_blob g t.1.2 /\ table_at m t.1.2 (rem_in g t.1.2) /\ t.2 = length_at m t.1.2.

(** The pointer field of [c] has been followed. *)
Definition followed (G : list gblob) (seen : list Z) (m : memory) (c : QEMU_LOADER_ADD_POINTER) : Prop :=
  exists g, g ∈ G /\ g_name g = cstr (PointerFile c) /\
    le_combine (mem_get m (g_base g + PointerOffset c) (PointerSize c)) ∈ seen.

(** The same blobs, some of them marked opaque. *)
Definition g_le (G G' : list gblob) : Prop :=
  forall g, g ∈ G -> exists g', g' ∈ G' /\ g_name g' = g_name g /\ g_size g' = g_size g /\
    g_base g' = g_base g /\ (g_hosts g = false -> g_hosts g' = false).

Lemma g_le_refl G : g_le G G.
Proof. intros g Hg. by exists g. Qed.
Lemma g_le_opaque g Gr : g_le (g :: Gr) (g_opaque g :: Gr).
Proof.
  intros g' [->|Hg']%elem_of_cons; [exists (g_opaque g); split; [by left|done]|].
  exists g'. split; [by right|done].
Qed.
Lemma g_le_trans G1 G2 G3 : g_le G1 G2 -> g_le G2 G3 -> g_le G1 G3.
Proof.
  intros H1 H2 g Hg. destruct (H1 g Hg) as (g' & Hg' & <- & <- & <- & Hh).
  destruct (H2 g' Hg') as (g'' & Hg'' & ? & ? & ? & Hh'). exists g''. split_and!; auto.
Qed.
Lemma g_le_perm G1 G2 G3 : G1 ≡ₚ G2 -> g_le G2 G3 -> g_le G1 G3.
Proof. intros Hp H g. rewrite Hp. apply H. Qed.

Lemma handled_mono G G' inst inst' m v :
  g_le G G' -> inst ⊆ inst' -> handled G inst m v -> handled G' inst' m v.
Proof.
  intros Hm Hi (g & Hg & Hb & Hc). destruct (Hm g Hg) as (g' & Hg' & _ & E1 & E2 & E3).
  exists g'. unfold in_blob, rem_in in *. rewrite E1, E2. split_and!; try done; [lia..|].
  destruct Hc as [?|[(? & key & ?)|?]]; [by left| |by right; right; auto].
  right. left. split; [done|]. exists key. by apply Hi.
Qed.
Lemma installed_ok_mono G G' m t : g_le G G' -> installed_ok G m t -> installed_ok G' m t.
Proof.
  intros Hm (g & Hg & Hb & Hc). destruct (Hm g Hg) as (g' & Hg' & _ & E1 & E2 & _).
  exists g'. unfold in_blob, rem_in in *. by rewrite E1, E2.
Qed.
Lemma followed_mono G G' l l' m c : g_le G G' -> l ⊆ l' -> followed G l m c -> followed G' l' m c.
Proof.
  intros Hm Hl (g & Hg & Hn & Hv). destruct (Hm g Hg) as (g' & Hg' & E1 & _ & E2 & _).
  exists g'. rewrite E1, E2. auto.
Qed.

(** One of the pointers [l] leads into the blob [g], to something that is not
    a table. *)
Definition opaque_target (l : list QEMU_LOADER_ADD_POINTER) (G : list gblob) (m : memory) (g : gblob) : Prop :=
  exists c g1, c ∈ l /\ g1 ∈ G /\ g_name g1 = cstr (PointerFile c) /\
    let v := le_combine (mem_get m (g_base g1 + PointerOffset c) (PointerSize c)) in
    in_blob g v /\ data_at m v (rem_in g v).
Definition same_blob (g g' : gblob) : Prop :=
  g_file g' = g_file g /\ g_size g' = g_size g /\ g_base g' = g_base g.

Lemma opaque_target_mono l l' G G' m g g' :
  (forall c, c ∈ l -> c ∈ l') -> g_le G G' -> same_blob g g' -> opaque_target l G m g -> opaque_target l' G' m g'.
Proof.
  intros Hl Hle (_ & E2 & E3) (c & g1 & Hc & Hg1 & Hn & Hv). destruct (Hle g1 Hg1) as (x1 & Hx1 & Ex1 & _ & Ex3 & _).
  exists c, x1. unfold in_blob, rem_in in *. rewrite Ex1, Ex3, E2, E3. auto.
Qed.

(** The second pass, following the pointers [l], turns the blobs [G] into [G']:
    it only marks the blobs that these lead into as data. *)
Definition evolved (m : memory) (l : list QEMU_LOADER_ADD_POINTER) (G G' : list gblob) : Prop :=
  g_file <$> G' ≡ₚ g_file <$> G /\
  forall g', g' ∈ G' -> exists g, g ∈ G /\ same_blob g g' /\
    (g_hosts g' = false -> g_hosts g = false \/ opaque_target l G' m g').

Lemma evolved_refl m l G : evolved m l G G.
Proof. split; [done|]. intros g Hg. exists g. split; [done|]. split; [done|]. by left. Qed.
Lemma evolved_opaque m l G Gr g :
  G ≡ₚ g :: Gr -> opaque_target l (g_opaque g :: Gr) m (g_opaque g) -> evolved m l G (g_opaque g :: Gr).
Proof.
  intros Hp Ho. split; [by rewrite Hp|]. intros g' [->|Hg']%elem_of_cons.
  - exists g. split; [rewrite Hp; by left|]. split; [done|]. by right.
  - exists g'. split; [rewrite Hp; by right|]. split; [done|]. by left.
Qed.
Lemma evolved_trans m l1 l2 G1 G2 G3 :
  g_le G2 G3 -> evolved m l1 G1 G2 -> evolved m l2 G2 G3 -> evolved m (l1 ++ l2) G1 G3.
Proof.
  intros Hle [H1 H2] [H3 H4]. split; [by rewrite H3|]. intros g3 Hg3. destruct (H4 _ Hg3) as (g2 & Hg2 & S2 & Hh2).
  destruct (H2 _ Hg2) as (g1 & Hg1 & S1 & Hh1). exists g1. split; [done|].
  split; [destruct S1 as (?&?&?), S2 as (?&?&?); split_and!; congruence|]. intros Hh.
  assert (forall l, opaque_target l G2 m g2 -> opaque_target (l ++ l2) G3 m g3) as Hup
    by (intros l; apply opaque_target_mono; [intros; by apply elem_of_app; left|done|done]).
  destruct (Hh2 Hh) as [Hh'|Ho]; [destruct (Hh1 Hh') as [?|Ho]; [by left|right; by apply Hup]|right].
  eapply opaque_target_mono; [|apply g_le_refl| |exact Ho]; [intros; by apply elem_of_app; right|done].
Qed.

(** A blob stays exactly when QEMU was told its address, or a pointer leads to
    data in it. *)
Record tracked `{FwCfg W} (all : list QEMU_LOADER_ENTRY) (G : list gblob) (m : memory) : Prop := {
  tr_files : g_file <$> G ≡ₚ Allocate_File <$> allocates all;
  tr_size g : g ∈ G -> exists Status item, FindFile (g_name g) = (Status, item, g_size g) /\ EFI_ERROR Status = false;
  tr_kept g : g ∈ G -> (g_hosts g = false <-> told_to_qemu all g \/ opaque_target (add_pointers all) G m g);
}.

Section Second.
Context {W : Type} {PE : PoolEnv W} {FW : FwCfg W} {PG : PageEnv W}.
Context {AT : AcpiTableEnv W} {PD : PciDecodingEnv W} {S8 : Sum8}.
Context {AsciiStrCmp : list Z -> list Z -> Z}.
Context {OCT : OrderedCollection (list Z) ptr W AsciiStrCmp} {LT : OrderedCollectionLaws OCT}.
Context {OCR : OrderedCollection (list Z) (list Z) W AsciiStrCmp} {LR : OrderedCollectionLaws OCR}.
Context {OCS : OrderedCollection Z Z W PointerCompare} {LS : OrderedCollectionLaws OCS}.
Context {FWL : FwCfgLaws W} {PGL : PageLaws W} {S8L : Sum8Laws}.
Implicit Types s : st (W:=W).
Implicit Types T : oc OCT.

Lemma length_at_nonneg m v : mem_bytes m -> 0 <= length_at m v.
Proof. intros Hm. apply le_combine_range, mem_get_bytes, Hm. Qed.

(** *** The two probes *)
Lemma ProbeFacs_spec v rem s :
  (forall a n, v <= a -> a + n <= v + rem -> in_pages (Pages s) a n = true) ->
  wp (ProbeFacs v rem) (fun r s' => s' = s /\
    ((facs_at (Mem s) v rem /\ r = length_at (Mem s) v) \/ (~ facs_at (Mem s) v rem /\ r = 0))) s.
Proof.
  intros Hin. unfold ProbeFacs. destruct (Z.leb_spec FACS_SIZE rem) as [Hr|Hr].
  - unfold FACS_SIZE, OFFSET_Length in *. ld_step. apply wp_read_le; [apply Hin; lia|].
    ld_step. apply wp_read_le; [apply Hin; lia|]. ld_step.
    change (le_combine (mem_get (Mem s) (v + 4) 4)) with (length_at (Mem s) v).
    change (le_combine (mem_get (Mem s) v 4)) with (signature_at (Mem s) v). split; [done|].
    unfold facs_at, FACS_SIZE. case_match eqn:E.
    + left. rewrite !andb_true_iff, !Z.leb_le, Z.eqb_eq in E. tauto.
    + right. split; [|done]. rewrite !andb_false_iff, !Z.leb_gt, Z.eqb_neq in E. lia.
  - ld_step. split; [done|]. right. split; [|done]. unfold facs_at. lia.
Qed.

Lemma ProbeHeader_spec v rem size s :
  mem_bytes (Mem s) ->
  (forall a n, v <= a -> a + n <= v + rem -> in_pages (Pages s) a n = true) ->
  ((facs_at (Mem s) v rem /\ size = length_at (Mem s) v) \/ (~ facs_at (Mem s) v rem /\ size = 0)) ->
  wp (ProbeHeader size v rem) (fun r s' => s' = s /\
    match r with
    | None => header_at (Mem s) v rem /\ sdt_at (Mem s) v
    | Some n => (n = 0 /\ data_at (Mem s) v rem) \/
                (n = length_at (Mem s) v /\ HEADER_SIZE <= n <= rem /\ table_at (Mem s) v rem)
    end) s.
Proof.
  intros Hm Hin Hsize. unfold ProbeHeader.
  destruct (Z.eqb_spec size 0) as [->|Hne]; cbn [andb].
  2:{ ld_step. split; [done|]. right. destruct Hsize as [[Hf ->]|[? ?]]; [|lia].
      split; [done|]. split; [destruct Hf; unfold FACS_SIZE, HEADER_SIZE in *; lia|by left]. }
  assert (~ facs_at (Mem s) v rem) as Hnf.
  { destruct Hsize as [[[[? _] _] ?]|[? _]]; [unfold FACS_SIZE in *; lia|done]. }
  assert (~ header_at (Mem s) v rem -> data_at (Mem s) v rem) as Hno by done.
  destruct (Z.leb_spec HEADER_SIZE rem) as [Hr|Hr].
  2:{ ld_step. split; [done|]. left. split; [done|]. apply Hno. intros [? _]. lia. }
  unfold HEADER_SIZE, OFFSET_Length in *. ld_step. apply wp_read_le; [apply Hin; lia|].
  change (le_combine (mem_get (Mem s) (v + 4) 4)) with (length_at (Mem s) v).
  pose proof (length_at_nonneg (Mem s) v Hm) as H0.
  destruct (Z.leb_spec 36 (length_at (Mem s) v)) as [H36|]; cbn [andb].
  2:{ ld_step. split; [done|]. left. split; [done|]. apply Hno. intros [? _]. unfold HEADER_SIZE in *. lia. }
  destruct (Z.leb_spec (length_at (Mem s) v) rem) as [Hlen|].
  2:{ ld_step. split; [done|]. left. split; [done|]. apply Hno. intros [? _]. lia. }
  ld_step. apply wp_read_mem; [apply Hin; lia|].
  rewrite CalculateSum8_spec by by apply mem_get_bytes.
  destruct (Z.eqb_spec (u8 (sum (mem_get (Mem s) v (length_at (Mem s) v)))) 0) as [Hs|Hs].
  2:{ ld_step. split; [done|]. left. split; [done|]. apply Hno. intros [_ ?]. done. }
  assert (header_at (Mem s) v rem) as Hh by done.
  ld_step. apply wp_read_le; [apply Hin; lia|].
  change (le_combine (mem_get (Mem s) v 4)) with (signature_at (Mem s) v).
  destruct (Z.eqb_spec (signature_at (Mem s) v) SIGNATURE_RSDT) as [E|E]; cbn [orb].
  { ld_step. split; [done|]. split; [done|]. by left. }
  destruct (Z.eqb_spec (signature_at (Mem s) v) SIGNATURE_XSDT) as [E2|E2].
  { ld_step. split; [done|]. split; [done|]. by right. }
  ld_step. split; [done|]. right. split_and!; try done. right. split; [done|]. intros [?|?]; done.
Qed.

(** *** The state of the second pass

    [inst] are the tables installed so far, newest first. *)
Record Inst (Tables1 : list (Z * Z * Z)) (G : list gblob) (inst : list (Z * Z * Z))
    (Keys : list Z) (Num : Z) (Seen : oc OCS) s : Prop := {
  is_tables : Tables s = inst ++ Tables1;
  is_num : Num = Z.of_nat (length inst);
  is_max : (length inst <= 128)%nat;
  is_len : length Keys = 128%nat;
  is_keys i : (i < length inst)%nat ->
    exists t, reverse inst !! i = Some t /\ Keys !! i = Some t.1.1;
  is_seen : oc_wf Seen;
  is_fate v : v ∈ (oc_entries Seen).*1 -> handled G inst (Mem s) v;
  is_inst t : t ∈ inst -> t.1.2 ∈ (oc_entries Seen).*1 /\ installed_ok G (Mem s) t;
  is_once : NoDup ((fun t => t.1.2) <$> inst);
}.


Lemma Inst_mono Tables1 G G' inst Keys Num Seen Seen' s s' :
  g_le G G' -> Tables s' = Tables s -> Mem s' = Mem s -> oc_wf Seen' ->
  oc_entries Seen' ≡ₚ oc_entries Seen ->
  Inst Tables1 G inst Keys Num Seen s -> Inst Tables1 G' inst Keys Num Seen' s'.
Proof.
  intros Hm HT HM Hwf Hp []. split; rewrite ?HT, ?HM; try done.
  - intros v. rewrite Hp. intros Hv. eapply handled_mono; [done..|]. auto.
  - intros t Ht. rewrite Hp. destruct (is_inst0 t Ht). split; [done|]. by eapply installed_ok_mono.
Qed.

(** A new address is seen and dealt with without installing anything. *)
Lemma Inst_see Tables1 G G' inst Keys Num Seen Seen' s s' v :
  g_le G G' -> Tables s' = Tables s -> Mem s' = Mem s -> oc_wf Seen' ->
  oc_entries Seen' ≡ₚ (v, v) :: oc_entries Seen -> handled G' inst (Mem s) v ->
  Inst Tables1 G inst Keys Num Seen s -> Inst Tables1 G' inst Keys Num Seen' s'.
Proof.
  intros Hm HT HM Hwf Hp Hv []. split; rewrite ?HT, ?HM; try done.
  - intros v'. rewrite Hp. csimpl. intros [->|Hv']%elem_of_cons; [done|].
    eapply handled_mono; [done..|]. auto.
  - intros t Ht. rewrite Hp. csimpl. destruct (is_inst0 t Ht). split; [by right|].
    by eapply installed_ok_mono.
Qed.

(** The freshly seen address [v] is installed with key [key]. *)
Lemma Inst_install Tables1 G g inst Keys Num Seen Seen' s s' key v :
  g ∈ G -> in_blob g v -> table_at (Mem s) v (rem_in g v) ->
  Tables s' = (key, v, length_at (Mem s) v) :: Tables s -> Mem s' = Mem s -> oc_wf Seen' ->
  v ∉ (oc_entries Seen).*1 -> oc_entries Seen' ≡ₚ (v, v) :: oc_entries Seen -> Num < 128 ->
  Inst Tables1 G inst Keys Num Seen s ->
  Inst Tables1 G ((key, v, length_at (Mem s) v) :: inst) (<[Z.to_nat Num := key]> Keys) (Num + 1) Seen' s'.
Proof.
  intros Hg Hb Ht HT HM Hwf Hni Hp Hnum [E1 E2 E3 E4 E5 E6 E7 E8 E9].
  split; rewrite ?HT, ?HM, ?E1; try done.
  - cbn. lia.
  - cbn. lia.
  - by rewrite length_insert.
  - intros i Hi. cbn in Hi. rewrite reverse_cons, E2, Nat2Z.id.
    destruct (decide (i = length inst)) as [->|Hne].
    + rewrite lookup_app_r, length_reverse, Nat.sub_diag by (rewrite length_reverse; lia).
      eexists. split; [done|]. rewrite list_lookup_insert_eq by lia. done.
    + rewrite lookup_app_l by (rewrite length_reverse; lia).
      destruct (E5 i) as (t & Hti & Hk); [lia|]. exists t. split; [done|].
      by rewrite list_lookup_insert_ne.
  - intros v'. rewrite Hp. csimpl. intros [->|Hv']%elem_of_cons.
    + exists g. split_and!; try done; [apply Hb..|]. right. left. split; [done|]. exists key. by left.
    + eapply handled_mono; [apply g_le_refl| |by apply E7]. intros x ?. by right.
  - intros t [->|Hin]%elem_of_cons; rewrite Hp; csimpl.
    + split; [by left|]. by exists g.
    + destruct (E8 t Hin). split; [by right|done].
  - csimpl. constructor; [|done]. intros (t & Et & Hin)%list_elem_of_fmap.
    destruct (E8 t Hin) as [Hs _]. by rewrite <-Et in Hs.
Qed.

(** *** One pointer *)
Definition followed_all (G : list gblob) (Seen : oc OCS) (m : memory) (l : list QEMU_LOADER_ENTRY) : Prop :=
  Forall (followed G (oc_entries Seen).*1 m) (add_pointers l).

Record second_post s0 R (all : list QEMU_LOADER_ENTRY) Tables1 T (seen0 : list Z) s
    (r : second_out (OCS:=OCS)) s' (G G' : list gblob) (inst' : list (Z * Z * Z)) : Prop := {
  sp_inv : Inv s0 R all G' T s';
  sp_inst : Inst Tables1 G' inst' r.1.1.2 r.1.2 r.2 s';
  sp_mem : Mem s' = Mem s;
  sp_pool : LivePool s' = LivePool s;
  sp_coll : LiveCollections s' = LiveCollections s;
  sp_le : g_le G G';
  sp_seen : seen0 ⊆ (oc_entries r.2).*1;
}.

Lemma InstallTable_spec v n Keys Num s :
  in_pages (Pages s) v n = true -> (Z.to_nat Num < length Keys)%nat ->
  wp (InstallTable v n Keys Num) (fun '(Status, Keys') s' =>
    exists w key, Keys' = <[Z.to_nat Num := key]> Keys /\
      s' = set_tables (if EFI_ERROR Status then Tables s else (key, v, n) :: Tables s) (set_env w s)) s.
Proof.
  intros Hin Hlen. unfold InstallTable. ld_step. apply wp_read_mem; [done|]. ld_step. ld_step.
  destruct (InstallAcpiTable (Env s) v n (mem_get (Mem s) v n)) as [[Status key] w].
  cbn beta iota. ld_step. ld_step.
  destruct (lookup_lt_is_Some_2 Keys (Z.to_nat Num) Hlen) as [x Hx]. exists x. split; [done|].
  destruct (EFI_ERROR Status) eqn:E; repeat ld_step; exists w, key; rewrite E; split; done.
Qed.

Lemma Process2nd_spec s0 R all Tables1 G T s c inst Keys Num (Seen : oc OCS) :
  Inv s0 R all G T s -> Inst Tables1 G inst Keys Num Seen s -> pointer_ok G (Mem s) c ->
  wp (Process2ndPassCmdAddPointer false c T Keys Num Seen) (fun r s' =>
    exists G' inst', second_post s0 R all Tables1 T (oc_entries Seen).*1 s r s' G G' inst' /\
      evolved (Mem s) [c] G G' /\ (EFI_ERROR r.1.1.1 = false -> followed G' (oc_entries r.2).*1 (Mem s') c)) s.
Proof.
  intros I J (g1 & g2 & Hg1 & Hg2 & (Hn1 & Hv1 & Ho1 & Ho2) & Hn2 & Hv). cbn zeta in Hv.
  unfold Process2ndPassCmdAddPointer.
  assert (0 <= Num <= 128) as HNum.
  { rewrite (is_num _ _ _ _ _ _ _ J). pose proof (is_max _ _ _ _ _ _ _ J). lia. }
  replace ((Num <? 0) || (INSTALLED_TABLES_MAX <? Num)) with false by (unfold INSTALLED_TABLES_MAX; lia).
  destruct (oc_find T (cstr (PointerFile c))) as [p1|] eqn:F1; [|by eapply inv_find_None in Hn1].
  destruct (oc_find T (cstr (PointeeFile c))) as [p2|] eqn:F2; [|by eapply inv_find_None in Hn2].
  destruct (inv_find _ _ _ _ _ _ _ _ I F1) as (g1' & Hg1' & Hn1' & <- & HB1).
  destruct (inv_find _ _ _ _ _ _ _ _ I F2) as (g2' & Hg2' & Hn2' & <- & HB2).
  assert (g1' = g1) as -> by (eapply inv_name_inj; (done || congruence)).
  assert (g2' = g2) as -> by (eapply inv_name_inj; (done || congruence)).
  pose proof (valid_pointer_size_range _ Hv1) as Hr1.
  pose proof (inv_g_ok _ _ _ _ _ _ _ I Hg1) as Hok1. pose proof (inv_g_ok _ _ _ _ _ _ _ I Hg2) as Hok2.
  repeat ld_step. exists (g_ptr g1). split; [done|]. repeat ld_step. exists (g_ptr g2). split; [done|].
  repeat ld_step. exists (g_blob g1). split; [done|]. repeat ld_step. exists (g_blob g2). split; [done|].
  cbn [Base Size File g_blob]. rewrite (g_address_u64 R g1) by (done || lia).
  rewrite (g_address_u64 R g2) by (done || (destruct Hok2 as [[? ?] ?]; lia)).
  ld_step. apply wp_read_le; [eapply inv_in_pages; [done|exact Hg1|lia..]|].
  set (v := le_combine (mem_get (Mem s) (g_base g1 + PointerOffset c) (PointerSize c))) in *.
  repeat ld_step; [apply Z.leb_le; lia|apply Z.ltb_lt; lia|].
  assert (in_blob g2 v) as Hb by done.
  assert (forall G' Seen', g_le G G' -> v ∈ (oc_entries Seen').*1 -> followed G' (oc_entries (OrderedCollection:=OCS) Seen').*1 (Mem s) c) as Hfol.
  { intros G' Seen' Hle Hin. destruct (Hle g1 Hg1) as (g' & Hg' & E1 & _ & E2 & _).
    exists g'. rewrite E1, E2. done. }
  apply wp_CollectionInsert; [apply J|]. intros w r Seen' HwS Hr. cbn beta iota.
  assert (Inv s0 R all G T (set_env w s)) as I1.
  { eapply Inv_unchanged; [done|]. exists w, (FwPos s). done. }
  destruct r as [|u|].
  2:{ ld_step. destruct Hr as [Hin ->]. exists G, inst. split.
      - split; try done; [|apply g_le_refl]. by eapply Inst_mono; [apply g_le_refl|..|exact J]; destruct J.
      - split; [apply evolved_refl|]. intros _. apply Hfol; [apply g_le_refl|]. apply list_elem_of_fmap. by exists (v, u). }
  2:{ ld_step. subst Seen'. exists G, inst. split; [|split; [apply evolved_refl|done]].
      split; try done; [|apply g_le_refl]. by eapply Inst_mono; [apply g_le_refl|..|exact J]; destruct J. }
  destruct Hr as [Hni Hp].
  assert (forall a n, v <= a -> a + n <= v + rem_in g2 v -> in_pages (Pages s) a n = true) as Hin.
  { unfold rem_in. intros a n Ha Hn. eapply inv_in_pages; [exact I|exact Hg2|lia..]. }
  change (g_base g2 + g_size g2 - v) with (rem_in g2 v).
  assert (mem_bytes (Mem s)) as Hmem by apply I.
  ld_step. eapply wp_mono; [by apply ProbeFacs_spec|]. intros size1 s1 [-> Hs1]. cbn beta.
  ld_step. eapply wp_mono; [by apply ProbeHeader_spec|]. intros r s1 [-> Hr]. cbn beta.
  assert (oc_wf (oc_delete Seen' v) /\ oc_entries (oc_delete Seen' v) ≡ₚ oc_entries Seen) as [HwD HpD].
  { apply (oc_delete_insert Seen Seen' v v); [apply J|done|done]. }
  assert ((oc_entries Seen).*1 ⊆ (oc_entries Seen').*1) as Hsub.
  { rewrite Hp. csimpl. intros x ?. by right. }
  assert (v ∈ (oc_entries Seen').*1) as Hvin by (rewrite Hp; csimpl; by left).
  destruct r as [n|].
  2:{ ld_step. exists G, inst. split; [|split; [apply evolved_refl|intros _; apply Hfol; [apply g_le_refl|done]]].
      split; try done; [|apply g_le_refl].
      eapply (Inst_see _ _ _ _ _ _ _ _ _ _ v); [apply g_le_refl|..|exact J]; try done.
      exists g2. split; [done|]. split; [done|]. by left. }
  destruct Hr as [[-> Hnt]|(-> & Hlen & Ht)].
  - (* opaque blob *)
    cbn [Z.eqb]. repeat ld_step. exists (g_blob g2). split; [done|].
    repeat ld_step. apply elem_of_Permutation in Hg2 as Hperm. destruct Hperm as (Gr & Hperm).
    assert (g_le G (g_opaque g2 :: Gr)) as Hle by (eapply g_le_perm; [done|apply g_le_opaque]).
    exists (g_opaque g2 :: Gr), inst. split; [|split; [|intros _; by apply Hfol]].
    2:{ apply evolved_opaque; [done|]. destruct (Hle g1 Hg1) as (x1 & Hx1 & Ex1 & _ & Ex3 & _).
        exists c, x1. rewrite Ex1, Ex3. split; [by left|]. split; [done|]. split; [done|]. cbv zeta. by split. }
    split; try done.
    + apply (Inv_opaque _ _ _ _ _ _ (set_env w s)). by eapply Inv_perm.
    + eapply (Inst_see _ _ _ _ _ _ _ _ _ _ v); [exact Hle|..|exact J]; try done.
      exists (g_opaque g2). split; [by left|]. split; [done|]. by right; right.
  - assert (length_at (Mem s) v <> 0) as Hn0 by (unfold HEADER_SIZE in Hlen; cbn in Hlen; lia).
    cbn [Mem set_env] in *. apply Z.eqb_neq in Hn0. rewrite Hn0.
    destruct (Z.eqb_spec Num INSTALLED_TABLES_MAX) as [->|Hne].
    { ld_step. exists G, inst. split; [|split; [apply evolved_refl|done]].
      split; try done; [|apply g_le_refl|].
      - by eapply Inst_mono; [apply g_le_refl|..|exact J].
      - cbn. by rewrite HpD. }
    repeat ld_step. eapply wp_mono.
    { apply InstallTable_spec; [apply Hin; lia|]. rewrite (is_len _ _ _ _ _ _ _ J).
      unfold INSTALLED_TABLES_MAX in Hne. lia. }
    intros [Status Keys'] s' (w' & key & -> & ->). cbn beta iota.
    destruct (EFI_ERROR Status) eqn:ES; ld_step.
    + exists G, inst. split; [|split; [apply evolved_refl|cbn; congruence]]. split; try done; cbn; [| |apply g_le_refl|by rewrite HpD].
      * destruct I. by split.
      * destruct J. split; try done; cbn.
        -- by rewrite length_insert.
        -- intros i Hi. destruct (is_keys0 i Hi) as (t & ? & ?). exists t. split; [done|].
           rewrite list_lookup_insert_ne; [done|]. rewrite is_num0, Nat2Z.id. lia.
        -- intros v'. rewrite HpD. auto.
        -- intros t. rewrite HpD. auto.
    + exists G, ((key, v, length_at (Mem s) v) :: inst). split.
      * split; try done; [..|apply g_le_refl].
        -- destruct I. by split.
        -- eapply Inst_install; try done. unfold INSTALLED_TABLES_MAX in Hne. lia.
      * split; [apply evolved_refl|]. intros _. apply Hfol; [apply g_le_refl|done].
Qed.

Lemma pointer_ok_le G G' m c : g_le G G' -> pointer_ok G m c -> pointer_ok G' m c.
Proof.
  intros Hle. apply pointer_ok_mono. intros g Hg.
  destruct (Hle g Hg) as (g' & ? & ? & ? & ? & _). eauto.
Qed.

Lemma SecondPass_spec s0 R all Tables1 T l G s inst Keys Num (Seen : oc OCS) Status :
  Inv s0 R all G T s -> Inst Tables1 G inst Keys Num Seen s -> EFI_ERROR Status = false ->
  Forall (pointer_ok G (Mem s)) (add_pointers l) ->
  wp (SecondPass false l Status T Keys Num Seen) (fun r s' =>
    exists G' inst', second_post s0 R all Tables1 T (oc_entries Seen).*1 s r s' G G' inst' /\
      evolved (Mem s) (add_pointers l) G G' /\ (EFI_ERROR r.1.1.1 = false -> followed_all G' r.2 (Mem s') l)) s.
Proof.
  revert G s inst Keys Num Seen Status.
  induction l as [|e l IH]; intros G s inst Keys Num Seen Status I J HS Hl; cbn [SecondPass].
  { ld_step. exists G, inst. split; [|split; [apply evolved_refl|constructor]]. split; try done. apply g_le_refl. }
  destruct e as [?|c|?|?|?]; try (by eapply IH).
  change (add_pointers (CmdAddPointer c :: l)) with (c :: add_pointers l) in Hl.
  apply Forall_cons in Hl as [Hc Hl].
  ld_step. eapply wp_mono; [by eapply Process2nd_spec|].
  intros [[[Status1 Keys1] Num1] Seen1] s1 (G1 & inst1 & P1 & He1 & Hf1). cbn in P1, Hf1.
  destruct (EFI_ERROR Status1) eqn:ES.
  { ld_step. exists G1, inst1. split; [done|]. split; [|cbn; congruence].
    change (add_pointers (CmdAddPointer c :: l)) with ([c] ++ add_pointers l).
    eapply evolved_trans; [apply g_le_refl|exact He1|apply evolved_refl]. }
  destruct P1 as [I1 J1 HM1 HP1 HC1 HL1 HS1]. cbn in J1, HS1. eapply wp_mono.
  { eapply IH; [exact I1|exact J1|done|]. rewrite HM1. eapply Forall_impl; [exact Hl|].
    intros c'. by apply pointer_ok_le. }
  intros r s2 (G2 & inst2 & [I2 J2 HM2 HP2 HC2 HL2 HS2] & He2 & Hf2). exists G2, inst2. split; [|split].
  - split; try done; [congruence..|by eapply g_le_trans|]. etrans; done.
  - change (add_pointers (CmdAddPointer c :: l)) with ([c] ++ add_pointers l). rewrite HM1 in He2. by eapply evolved_trans.
  - intros HE. unfold followed_all. change (add_pointers (CmdAddPointer c :: l)) with (c :: add_pointers l).
    constructor; [|by apply Hf2]. rewrite HM2. eapply followed_mono; [done..|]. by apply Hf1.
Qed.

(** Uninstalling in reverse order leaves the tables that were there before. *)
Lemma Uninstall_spec inst Tables1 Keys s :
  Tables s = inst ++ Tables1 ->
  (forall i, (i < length inst)%nat -> exists t, reverse inst !! i = Some t /\ Keys !! i = Some t.1.1) ->
  wp (UninstallAcpiTables Keys (length inst)) (fun _ s' =>
    exists w, s' = set_tables Tables1 (set_env w s)) s.
Proof.
  revert s. induction inst as [|t inst IH]; intros s HT HK; cbn [length UninstallAcpiTables].
  { ld_step. exists (Env s). cbn in HT. subst. by destruct s. }
  destruct (HK (length inst)) as (t' & Ht & Hk); [cbn; lia|].
  rewrite reverse_cons, lookup_app_r, length_reverse, Nat.sub_diag in Ht by (by rewrite length_reverse).
  injection Ht as <-. repeat ld_step. exists t.1.1. split; [done|]. repeat ld_step.
  eapply wp_mono; [apply IH|].
  - cbn. rewrite HT. cbn. by rewrite Z.eqb_refl.
  - intros i Hi. destruct (HK i) as (t2 & Ht2 & Hk2); [cbn; lia|]. exists t2. split; [|done].
    by rewrite reverse_cons, lookup_app_l in Ht2 by (rewrite length_reverse; lia).
  - intros [] s' (w & ->). by exists w.
Qed.

(** *** The second pass with its resources *)
Record tables_ok (G : list gblob) (all : list QEMU_LOADER_ENTRY) (m : memory) (inst : list (Z * Z * Z)) : Prop := {
  tk_max : (length inst <= 128)%nat;
  tk_once : NoDup ((fun t => t.1.2) <$> inst);
  tk_ok t : t ∈ inst -> installed_ok G m t;
  tk_all c : c ∈ add_pointers all -> exists g, g ∈ G /\ g_name g = cstr (PointerFile c) /\
    handled G inst m (le_combine (mem_get m (g_base g + PointerOffset c) (PointerSize c)));
}.

Lemma InstallTables_spec s0 R all T G s Status :
  Inv s0 R all G T s -> EFI_ERROR Status = false -> no_clobber all ->
  wp (InstallTables (OCS:=OCS) false all T Status) (fun Status' s' => exists G',
    Inv s0 R all G' T s' /\ Mem s' = Mem s /\ LivePool s' = LivePool s /\
    LiveCollections s' = LiveCollections s /\
    if EFI_ERROR Status' then Tables s' = Tables s
    else evolved (Mem s) (add_pointers all) G G' /\
         exists inst, Tables s' = inst ++ Tables s /\ tables_ok G' all (Mem s') inst) s.
Proof.
  intros I HS Hnc. unfold InstallTables. ld_step. apply wp_AllocatePool.
  { intros w. cbn [negb]. ld_step. exists G. split_and!; try done. destruct I. by split. }
  intros w. cbn [negb]. ld_step. apply wp_CollectionInit.
  { intros w1. unfold FreePool. repeat ld_step. exists G. split_and!; try done; [destruct I; by split|]. cbn. lia. }
  intros w1 Seen HwS HeS. cbn beta iota. ld_step.
  set (s1 := add_collections 1 (set_env w1 (add_pool 1 (set_env w s)))).
  assert (Inv s0 R all G T s1) as I1 by (destruct I; by split).
  eapply wp_mono.
  { apply (SecondPass_spec s0 R all (Tables s) T all G s1 []); [done| |done|by apply I].
    split; try done; cbn; [lia|intros; lia| |by intros ? ?%elem_of_nil|constructor].
    rewrite HeS. by intros ? ?%elem_of_nil. }
  intros [[[Status' Keys] Num] Seen'] s2 (G' & inst & [I2 J2 HM HP HC HL _] & Hev & Hf).
  cbn in J2, Hf. change (Mem s1) with (Mem s) in HM. cbn [LivePool s1 add_collections set_env add_pool] in HP.
  cbn [LiveCollections s1 add_collections set_env add_pool] in HC. cbn beta iota.
  pose proof (is_seen _ _ _ _ _ _ _ J2) as HwS2.
  destruct (EFI_ERROR Status') eqn:ES.
  - ld_step. rewrite (is_num _ _ _ _ _ _ _ J2), Nat2Z.id. eapply wp_mono.
    { eapply Uninstall_spec; [by eapply is_tables|by eapply is_keys]. }
    intros [] s3 (w3 & ->). ld_step. apply wp_ReleaseCollection; [done|].
    unfold FreePool. repeat ld_step. exists G'. rewrite ES. cbn.
    split_and!; try done; [destruct I2; by split|lia..].
  - repeat ld_step. apply wp_ReleaseCollection; [done|]. unfold FreePool. repeat ld_step.
    exists G'. rewrite ES. cbn. split; [destruct I2; by split|]. split; [done|]. split; [lia|]. split; [lia|].
    split; [exact Hev|]. exists inst. split; [by eapply is_tables|]. split; [apply J2|apply J2| |].
    + intros t Ht. by apply (is_inst _ _ _ _ _ _ _ J2).
    + intros c Hc. specialize (Hf eq_refl). unfold followed_all in Hf. rewrite Forall_forall in Hf.
      destruct (Hf c Hc) as (g & Hg & Hn & Hv). exists g. split_and!; try done.
      by apply (is_fate _ _ _ _ _ _ _ J2).
Qed.

(** *** The whole script *)
Definition restored s s' : Prop :=
  Pages s' = Pages s /\ Blobs s' = Blobs s /\ LivePool s' = LivePool s /\
  LiveCollections s' = LiveCollections s /\ Tables s' = Tables s /\
  exists ws, FwWrites s' = FwWrites s ++ ws /\ forall x b, fw_apply ws x None = Some b -> b = 0.

Record loaded (all : list QEMU_LOADER_ENTRY) s s' : Prop := {
  ld_blobs : Blobs s' = Blobs s;
  ld_pool : LivePool s' = LivePool s;
  ld_coll : LiveCollections s' = LiveCollections s;
  ld_rest : exists G ws inst,
    overlay (Pages s) (pages_of (filter (fun g => g_hosts g = false) G)) (Pages s') /\
    FwWrites s' = FwWrites s ++ ws /\ Forall2 (pointer_write G) (write_pointers all) ws /\
    Tables s' = inst ++ Tables s /\ tables_ok G all (Mem s') inst /\ tracked all G (Mem s') /\
    Forall (pointer_ok G (Mem s')) (add_pointers all) /\
    Forall (g_ok (restricted all)) G;
}.

Definition script_post (all : list QEMU_LOADER_ENTRY) s (Status : EFI_STATUS) s' : Prop :=
  if EFI_ERROR Status then restored s s' else loaded all s s'.

Lemma Inv_nil R T s : oc_wf T -> oc_entries T = [] -> mem_bytes (Mem s) -> Inv s R [] [] T s.
Proof.
  intros Hwf HT Hm. split; try done.
  - by rewrite HT.
  - apply overlay_nil.
  - apply overlay_nil.
  - by intros ? ? ?%elem_of_nil.
  - exists []. split; [by rewrite app_nil_r|constructor].
Qed.

Lemma inv_blob_inj s0 R done G T s g1 g2 v :
  Inv s0 R done G T s -> g1 ∈ G -> g2 ∈ G -> in_blob g1 v -> in_blob g2 v -> g1 = g2.
Proof.
  intros I H1 H2 B1 B2. destruct (decide (g_base g1 = g_base g2)) as [E|Hne]; [by eapply inv_base_inj|].
  pose proof (g_size_pages R g1 (inv_g_ok _ _ _ _ _ _ _ I H1)). pose proof (g_size_pages R g2 (inv_g_ok _ _ _ _ _ _ _ I H2)).
  unfold in_blob in *. destruct (inv_apart _ _ _ _ _ _ I g1 g2 H1 H2 Hne); lia.
Qed.

Lemma tracked_spec s0 R all G G' T s m inst :
  downloaded all G -> evolved m (add_pointers all) G G' -> Inv s0 R all G' T s -> m = Mem s ->
  tables_ok G' all (Mem s) inst -> tracked all G' m.
Proof.
  intros [D1 D2 D3] [E1 E2] I -> Htk. rewrite Forall_forall in D2, D3. split.
  - by rewrite E1.
  - intros g' Hg'. destruct (E2 g' Hg') as (g & Hg & (F1 & F2 & _) & _). unfold g_name. rewrite F1, F2. by apply D2.
  - intros g' Hg'. split.
    + intros Hh. destruct (E2 g' Hg') as (g & Hg & (F1 & _) & Hk). destruct (Hk Hh) as [Hh'|Ho]; [left|by right].
      destruct (D3 g Hg Hh') as (c & Hc & Hn). exists c. unfold g_name in *. by rewrite F1.
    + intros [(c & Hc & Hn)|(c & g1 & Hc & Hg1 & Hn & Hb & Hf & Hhd)].
      * destruct (inv_writes _ _ _ _ _ _ I) as (ws & _ & H2).
        apply list_elem_of_lookup in Hc as [i Hi]. destruct (Forall2_lookup_l _ _ _ _ _ H2 Hi) as (x & _ & g2 & ? & ? & ? & Hg2 & Hn2 & Hh & _).
        assert (g2 = g') as <- by (eapply inv_name_inj; (done || congruence)). done.
      * destruct (tk_all _ _ _ _ Htk c Hc) as (g0 & Hg0 & Hn0 & g2 & Hg2 & Hb2 & Hcase).
        assert (g0 = g1) as -> by (eapply inv_name_inj; (done || congruence)).
        assert (g2 = g') as -> by by eapply inv_blob_inj.
        destruct Hcase as [[? _]|[[[?|[? _]] _]|?]]; done.
Qed.

Lemma ProcessScript_spec all s :
  Forall entry_ok all -> no_clobber all -> mem_bytes (Mem s) ->
  wp (ProcessScript (OCT:=OCT) (OCR:=OCR) (OCS:=OCS) false all) (script_post all s) (add_pool 1 s).
Proof.
  intros Hok Hnc Hm. unfold ProcessScript. ld_step. eapply wp_mono; [apply Collect_spec|].
  intros [Status [Rst|]] s1.
  2:{ intros [HE [w ->]]. unfold FreeLoader, FreePool. repeat ld_step. unfold script_post. rewrite HE.
      split_and!; try done; [cbn; lia|]. exists []. by rewrite app_nil_r. }
  intros (-> & HwR & [w ->] & HR). cbn beta iota. ld_step. apply wp_CollectionInit.
  { intros w1. cbn beta iota. unfold FreeAllocationsRestrictedTo32Bit, FreeLoader, FreePool. ld_step.
    apply wp_ReleaseCollection; [done|]. repeat ld_step.
    split_and!; try done; cbn; [lia..|]. exists []. by rewrite app_nil_r. }
  intros w1 T HwT HeT. cbn beta iota. ld_step.
  set (s2 := add_collections 1 (set_env w1 (set_env w (add_collections 1 (add_pool 1 s))))).
  eapply wp_mono.
  { apply (FirstPass_spec s2 (restricted all) all [] []); [|done..|done|split; [done|done]].
    by apply Inv_nil. }
  intros [[Status1 WPEnd] T1] s3 [(HP3 & HC3 & HT3) (done1 & rest & G1 & Eall & I1 & Hsub & Hrest & Hdl)].
  assert (downloaded done1 G1) as Hd1 by (apply Hdl; split; [done|constructor|constructor]).
  cbn [app] in Eall. cbn [LivePool LiveCollections Tables s2 add_collections set_env add_pool] in HP3, HC3, HT3.
  cbn beta iota. ld_step.
  assert (wp (if EFI_ERROR Status1 then mret Status1 else InstallTables (OCS:=OCS) false all T1 Status1)
    (fun Status' s' => exists G', Inv s2 (restricted all) done1 G' T1 s' /\
      LivePool s' = LivePool s + 1 /\ LiveCollections s' = LiveCollections s + 2 /\
      if EFI_ERROR Status' then Tables s' = Tables s
      else rest = [] /\ exists inst, Tables s' = inst ++ Tables s /\ tables_ok G' all (Mem s') inst /\ tracked all G' (Mem s')) s3) as Hmid.
  { destruct (EFI_ERROR Status1) eqn:ES.
    - ld_step. exists G1. rewrite ES. split_and!; try done; lia.
    - specialize (Hrest eq_refl). subst rest. rewrite app_nil_r in Eall. subst done1.
      eapply wp_mono; [by eapply InstallTables_spec|]. intros Status' s' (G' & I' & HM' & HP' & HC' & HT').
      exists G'. split; [done|]. split; [lia|]. split; [lia|]. destruct (EFI_ERROR Status'); [congruence|].
      split; [done|]. destruct HT' as (Hev & inst & ? & ?). exists inst. split; [congruence|]. split; [done|].
      rewrite <-HM' in Hev. by eapply tracked_spec. }
  eapply wp_mono; [exact Hmid|]. intros Status2 s4 (G2 & I2 & HP4 & HC4 & HT4). cbn beta.
  unfold RollbackWritePointersAndFreeTracker. ld_step.
  assert (wp (if EFI_ERROR Status2 then RollbackWritePointers all WPEnd else mret ())
    (fun _ s' => only_fw s4 s' /\
       exists ws, FwWrites s' = FwWrites s ++ ws /\
         if EFI_ERROR Status2 then forall x b, fw_apply ws x None = Some b -> b = 0
         else Forall2 (pointer_write G2) (write_pointers done1) ws) s4) as Hroll.
  { destruct (EFI_ERROR Status2).
    - rewrite Eall. change (FwWrites s) with (FwWrites s2). eapply Rollback_revokes; [exact I2|done].
    - ld_step. split; [exists (Env s4), (FwPos s4), (FwWrites s4); by destruct s4|].
      exact (inv_writes _ _ _ _ _ _ I2). }
  eapply wp_mono; [exact Hroll|]. intros [] s5 [(w5 & pos5 & ws5 & ->) (ws & Hws & Hrb)]. cbn beta.
  rewrite wp_bind_bind. eapply wp_mono.
  { eapply (TearDown_spec (Blobs s) (Pages s) G2); apply I2. }
  intros [] s6 (P & -> & HP6). cbn beta.
  unfold FreeAllocationsRestrictedTo32Bit, FreeLoader, FreePool. ld_step.
  apply wp_ReleaseCollection; [done|]. repeat ld_step. unfold script_post.
  cbn [FwWrites set_fw set_env] in Hws. unfold kept in HP6. destruct (EFI_ERROR Status2) eqn:ES2.
  - rewrite filter_none in HP6 by done.
    apply overlay_nil_eq in HP6 as ->. split_and!; try done; cbn; [lia..|]. by exists ws.
  - destruct HT4 as (-> & inst & HT4 & Htk & Htr). rewrite app_nil_r in Eall. subst done1.
    split; try done; cbn; [lia..|]. exists G2, ws, inst. split_and!; try done.
    + rewrite (list_filter_iff _ (fun g => g_hosts g = false)) in HP6; [done|].
      intros g. cbn. by rewrite negb_true_iff.
    + by apply I2.
    + apply I2.
Qed.

(** *** InstallQemuFwCfgTables *)
Definition script_read (all : list QEMU_LOADER_ENTRY) : Prop :=
  exists Status item size w bs w', FindFile script_name = (Status, item, size) /\
    fw_read w item 0 size = (bs, w') /\ all = decode_entries (Z.to_nat (size / LOADER_ENTRY_SIZE)) bs.

Lemma Install_spec s :
  (forall all, script_read all -> no_clobber all) -> mem_bytes (Mem s) ->
  wp (InstallQemuFwCfgTables (OCT:=OCT) (OCR:=OCR) (OCS:=OCS) false) (fun Status s' =>
    if EFI_ERROR Status then restored s s' else exists all, script_read all /\ loaded all s s') s.
Proof.
  intros Hnc Hm. unfold InstallQemuFwCfgTables.
  destruct (FindFile script_name) as [[Status item] size] eqn:FF.
  assert (forall s', only_fw s s' -> FwWrites s' = FwWrites s -> restored s s') as Hres.
  { intros s' (w & pos & ws & ->) Hws. split_and!; try done. exists []. by rewrite Hws, app_nil_r. }
  assert (forall w, only_fw s (set_env w s)) as Henv.
  { intros w. exists w, (FwPos s), (FwWrites s). by destruct s. }
  assert (only_fw s s) as Hself by (exists (Env s), (FwPos s), (FwWrites s); by destruct s).
  destruct (EFI_ERROR Status) eqn:ES; [ld_step; rewrite ES; by apply Hres|].
  destruct (negb (size mod LOADER_ENTRY_SIZE =? 0)); [ld_step; by apply Hres|].
  ld_step. apply wp_AllocatePool; [intros w; cbn [negb]; ld_step; by apply Hres|].
  intros w. cbn [negb]. repeat ld_step.
  destruct (EnablePciDecoding (Env (add_pool 1 (set_env w s)))) as [oa w1]. cbn beta iota.
  unfold QemuFwCfgSelectItem, QemuFwCfgReadBytes, QemuFwCfgSkipBytes. repeat ld_step.
  cbn [Env set_fw set_env FwPos fst snd].
  destruct (fw_read w1 item 0 size) as [bs w2] eqn:ER. cbn beta iota. repeat ld_step.
  set (all := decode_entries (Z.to_nat (size / LOADER_ENTRY_SIZE)) bs).
  assert (script_read all) as Hall by by exists Status, item, size, w1, bs, w2.
  set (s1 := set_env (RestorePciDecoding w2 oa) (set_fw (item, 0 + size) (FwWrites s) (set_env w2
               (set_fw (item, 0) (FwWrites s) (set_env w1 (set_env w s)))))).
  match goal with |- wp _ _ ?x => change x with (add_pool 1 s1) end.
  eapply wp_mono.
  { apply (ProcessScript_spec all s1); [|by apply Hnc|done].
    apply decode_entries_ok. by destruct (fw_read_buffer _ _ _ _ _ _ ER). }
  intros Status' s' H. unfold script_post in H. destruct (EFI_ERROR Status').
  - exact H.
  - exists all. split; [done|]. destruct H. by split.
Qed.
End Second.

(** *** 8-bit sums over memory *)
Lemma sum_app l1 l2 : sum (l1 ++ l2) = sum l1 + sum l2.
Proof. induction l1 as [|x l1 IH]; cbn; [done|]. lia. Qed.
Lemma sum_update m a n i x :
  0 <= i < n -> sum (mem_get (mem_set m (a + i) [x]) a n) = sum (mem_get m a n) - m (a + i) + x.
Proof.
  intros Hi. replace n with (i + (1 + (n - i - 1))) by lia.
  rewrite !mem_get_app, !sum_app by lia.
  rewrite (mem_get_set_disjoint m (a + i) [x] a i), (mem_get_set_disjoint m (a + i) [x] (a + i + 1)) by (cbn; lia).
  rewrite !mem_get_1. cbn [sum]. rewrite mem_set_inside by (cbn; lia).
  rewrite Z.sub_diag. change (nth (Z.to_nat 0) [x] 0) with x. lia.
Qed.

(** *** EnablePsci *)
Section Psci.
Context {W : Type} {S8 : Sum8} {S8L : Sum8Laws}.
Implicit Types s : st (W:=W).

Definition boot_arch (m : memory) (v : Z) : Z := le_combine (mem_get m (v + OFFSET_ArmBootArch) 2).

Lemma land_1_mod x : 0 <= x -> Z.land x 1 = x mod 2.
Proof. intros. change 1 with (Z.ones 1). by rewrite Z.land_ones by lia. Qed.

Lemma EnablePsci_spec v size s :
  mem_bytes (Mem s) -> HEADER_SIZE <= size ->
  (forall a n, v <= a -> a + n <= v + size -> in_pages (Pages s) a n = true) ->
  wp (EnablePsci v size) (fun _ s' =>
    if decide (signature_at (Mem s) v = SIGNATURE_FACP /\ OFFSET_ArmBootArch + 2 <= size /\
               boot_arch (Mem s) v mod 2 = 0)
    then exists m, s' = set_mem m s /\ boot_arch m v = boot_arch (Mem s) v + 1 /\
         u8 (sum (mem_get m v size)) = 0 /\
         forall a, a <> v + OFFSET_Checksum -> a <> v + OFFSET_ArmBootArch ->
                   a <> v + OFFSET_ArmBootArch + 1 -> m a = Mem s a
    else s' = s) s.
Proof.
  intros Hm Hsz Hin. unfold EnablePsci, HEADER_SIZE, OFFSET_ArmBootArch, OFFSET_Checksum, ARM_PSCI_COMPLIANT in *.
  ld_step. apply wp_read_le; [apply Hin; lia|].
  change (le_combine (mem_get (Mem s) v 4)) with (signature_at (Mem s) v).
  destruct (Z.eqb_spec (signature_at (Mem s) v) SIGNATURE_FACP) as [E1|E1]; cbn [andb];
    [|ld_step; rewrite decide_False by tauto; done].
  destruct (Z.leb_spec (129 + 2) size) as [E2|E2]; [|ld_step; rewrite decide_False by lia; done].
  ld_step. apply wp_read_le; [apply Hin; lia|].
  change (le_combine (mem_get (Mem s) (v + 129) 2)) with (boot_arch (Mem s) v).
  assert (0 <= boot_arch (Mem s) v < 65536) as Hr.
  { unfold boot_arch. pose proof (le_combine_range _ (mem_get_bytes (Mem s) (v + OFFSET_ArmBootArch) 2 Hm)) as Hr.
    rewrite length_mem_get in Hr. exact Hr. }
  rewrite land_1_mod by lia.
  destruct (Z.eqb_spec (boot_arch (Mem s) v mod 2) 0) as [E3|E3]; [|ld_step; rewrite decide_False by tauto; done].
  match goal with |- context [decide ?P] => destruct (decide P) as [_|n]; [|tauto] end.
  assert (Z.lor (boot_arch (Mem s) v) 1 = boot_arch (Mem s) v + 1) as Hor.
  { rewrite Z.add_nocarry_lxor, Z.lxor_lor; [done|..]; rewrite land_1_mod; lia. }
  rewrite Hor. set (m1 := mem_set (Mem s) (v + 129) (le_split 2 (boot_arch (Mem s) v + 1))).
  set (m2 := mem_set m1 (v + 9) [0]).
  assert (mem_bytes m2) as Hm2.
  { apply mem_set_bytes; [apply mem_set_bytes; [done|apply le_split_bytes]|].
    repeat constructor; lia. }
  ld_step. apply wp_write_mem; [apply Hin; cbn; lia|]. ld_step.
  apply wp_write_mem; [apply Hin; cbn; lia|]. ld_step.
  apply wp_read_mem; [apply Hin; lia|]. cbn [Mem set_mem].
  apply wp_write_mem; [apply Hin; cbn; lia|].
  change (mem_set (mem_set (Mem s) _ _) _ _) with m2.
  rewrite CalculateCheckSum8_spec by by apply mem_get_bytes.
  exists (mem_set m2 (v + 9) [u8 (- sum (mem_get m2 v size))]). split; [reflexivity|]. split_and!.
  - unfold boot_arch at 1, OFFSET_ArmBootArch. rewrite mem_get_set_disjoint by (cbn; lia).
    unfold m2. rewrite mem_get_set_disjoint by (cbn; lia). unfold m1.
    rewrite mem_get_set by (by rewrite length_le_split). rewrite le_combine_split. apply Z.mod_small.
    change (256 ^ Z.of_nat 2) with 65536. lia_div.
  - rewrite sum_update by lia. replace (m2 (v + 9)) with 0 
      by (unfold m2; rewrite mem_set_inside by (cbn; lia); by rewrite Z.sub_diag).
    unfold u8. lia_div.
  - intros a H1 H2 H3. rewrite mem_set_outside by (cbn; lia). unfold m2. rewrite mem_set_outside by (cbn; lia).
    unfold m1. rewrite mem_set_outside by (rewrite length_le_split; lia). done.
Qed.
End Psci.
