(* ===== verification/AcpiLoaderClaims.v ===== *)
(** * The linker/loader: theorems and a concrete machine

    The properties of QemuFwCfgAcpi.c, and a concrete environment (an fw_cfg
    directory, an allocator, an ACPI table protocol) on which the model runs
    and the theorems are applied. *)
From S2P Require Import Prelude Bytes Memory OrderedCollection.
From S2P Require Import AcpiLoader AcpiLoaderProofs AcpiLoaderPasses.
From Stdlib Require Import Sorting.Sorted.

Section Claims.
Context {W : Type} {PE : PoolEnv W} {FW : FwCfg W} {PG : PageEnv W}.
Context {AT : AcpiTableEnv W} {PD : PciDecodingEnv W} {S8 : Sum8}.
Context {AsciiStrCmp : list Z -> list Z -> Z}.
Context {OCT : OrderedCollection (list Z) ptr W AsciiStrCmp} {LT : OrderedCollectionLaws OCT}.
Context {OCR : OrderedCollection (list Z) (list Z) W AsciiStrCmp} {LR : OrderedCollectionLaws OCR}.
Context {OCS : OrderedCollection Z Z W PointerCompare} {LS : OrderedCollectionLaws OCS}.
Context {FWL : FwCfgLaws W} {PGL : PageLaws W} {S8L : Sum8Laws}.
Implicit Types s : st (W:=W).
Implicit Types T : oc OCT.


(** The first pass is memory safe and preserves the tracker's invariant on
    every script, whatever its contents: the tracked blobs are the live pages
    and pool objects, they do not overlap, and every command processed has
    had its effect. *)
Theorem FirstPass_safe R l T (Restricted : oc OCR) s :
  oc_wf T -> oc_entries T = [] -> mem_bytes (Mem s) -> Forall entry_ok l ->
  (forall n, (oc_find Restricted n <> None) <-> R n) ->
  wp (FirstPass l 0 0 EFI_SUCCESS T Restricted) (fun '(Status, WPEnd, T') s' =>
    same_other s s' /\ exists done rest G, l = done ++ rest /\
      Inv s R done G T' s' /\ subset_end done WPEnd /\ (EFI_ERROR Status = false -> rest = [])) s.
Proof.
  intros. eapply wp_mono; [by apply (FirstPass_spec s R l [] []); [apply Inv_nil|..]|].
  intros [[Status WPEnd] T'] s' (? & done & rest & G & ? & ? & ? & ? & _). split; [done|]. by exists done, rest, G.
Qed.

(** QEMU_LOADER_ALLOCATE either downloads the file into fresh pages,
    zero-fills their tail, and tracks it under its name (below 4 GB if a
    narrow pointer will be relocated against it), or reports an error and
    leaves memory, pages, pool and tracker as they were. *)
Theorem ProcessCmdAllocate_correct (R : list Z -> Prop) T (Restricted : oc OCR) s c :
  oc_wf T -> (forall n, (oc_find Restricted n <> None) <-> R n) ->
  wp (ProcessCmdAllocate c T Restricted) (fun '(Status, T') s' =>
    (Status = EFI_SUCCESS /\ exists g bs, allocated R c T T' s s' g bs /\
       mem_get (Mem s') (g_base g) (g_size g) = bs) \/
    (EFI_ERROR Status = true /\ T' = T /\ unchanged s s')) s.
Proof.
  intros Hwf HR. eapply wp_mono; [by apply ProcessCmdAllocate_spec|].
  intros [Status T'] s' [[-> (g & bs & Hal)]|?]; [left|by right]. split; [done|].
  exists g, bs. split; [done|]. destruct Hal as [_ _ _ _ _ _ _ _ _ [Hlen _] (w & pos & ->)]. cbn.
  rewrite mem_get_set_disjoint by lia. by rewrite mem_get_set.
Qed.

(** QEMU_LOADER_ADD_POINTER succeeds exactly when both files are tracked,
    the field lies inside the pointer blob, its old value inside the pointee
    and the new one fits the field; then the field holds the pointee's base
    plus the old value, an address inside the pointee, and nothing else has
    changed.  Otherwise it reports EFI_PROTOCOL_ERROR and changes nothing. *)
Lemma ProcessCmdAddPointer_effect s0 R done G T s c :
  Inv s0 R done G T s -> entry_ok (CmdAddPointer c) ->
  wp (ProcessCmdAddPointer c T) (fun Status s' =>
    (Status = EFI_SUCCESS /\ exists g1 g2, add_pointer_valid G s c g1 g2 /\
       field_value s' c g1 = field_value s c g1 + g_base g2 /\
       in_blob g2 (field_value s' c g1) /\
       (exists m, s' = set_mem m s /\ forall a, ~ (g_base g1 + PointerOffset c <= a <
          g_base g1 + PointerOffset c + PointerSize c) -> m a = Mem s a)) \/
    (Status = EFI_PROTOCOL_ERROR /\ s' = s /\ forall g1 g2, ~ add_pointer_valid G s c g1 g2)) s.
Proof.
  intros I He. eapply wp_mono; [by eapply ProcessCmdAddPointer_spec|].
  intros Status s' [[-> (g1 & g2 & Hv & ->)]|?]; [left|by right]. split; [done|].
  exists g1, g2. destruct Hv as [Hf1 Hf2 Hg1 Hg2 Hf Hn Hlt Hfit]. pose proof Hf as (_ & Hvs & _ & _).
  pose proof (field_value_range s c g1 (inv_mem _ _ _ _ _ _ I)).
  pose proof (g_base_nonneg _ _ (inv_g_ok _ _ _ _ _ _ _ I Hg2)).
  pose proof (valid_pointer_size_range _ Hvs).
  rewrite relocated_value by (done || lia). split_and!; try done; [unfold in_blob; lia..|].
  eexists. split; [reflexivity|]. intros a Ha. apply mem_set_outside. rewrite length_le_split. lia.
Qed.

(** QEMU_LOADER_ADD_CHECKSUM succeeds exactly when the file is tracked
    and the result byte and the range lie inside the blob; it writes only the
    result byte, and when that byte lies in the range and was zero, the range
    sums to zero modulo 256 afterwards. *)
Lemma ProcessCmdAddChecksum_effect s0 R done G T s c :
  Inv s0 R done G T s -> entry_ok (CmdAddChecksum c) ->
  wp (ProcessCmdAddChecksum c T) (fun Status s' =>
    (Status = EFI_SUCCESS /\ exists g m, add_checksum_valid G c g /\ s' = set_mem m s /\
       (forall a, a <> g_base g + ResultOffset c -> m a = Mem s a) /\
       (Start c <= ResultOffset c < Start c + Length c -> Mem s (g_base g + ResultOffset c) = 0 ->
        u8 (sum (mem_get m (g_base g + Start c) (Length c))) = 0)) \/
    (Status = EFI_PROTOCOL_ERROR /\ s' = s /\ forall g, ~ add_checksum_valid G c g)) s.
Proof.
  intros I He. eapply wp_mono; [by eapply ProcessCmdAddChecksum_spec|].
  intros Status s' [[-> (g & Hv & ->)]|?]; [left|by right]. split; [done|].
  eexists g, _. split; [done|]. split; [reflexivity|]. split.
  - intros a Ha. apply mem_set_outside. cbn. lia.
  - intros Hin H0. set (x := u8 (- sum (mem_get (Mem s) (g_base g + Start c) (Length c)))).
    replace (g_base g + ResultOffset c) with (g_base g + Start c + (ResultOffset c - Start c)) in * by lia.
    rewrite sum_update, H0 by lia. unfold x, u8. lia_div.
Qed.

(** QEMU_LOADER_WRITE_POINTER writes the address of the pointee to the
    fw_cfg file, at the given offset and in the given number of bytes, exactly
    when that is well-formed, and marks the blob as not releasable; otherwise
    it changes nothing. *)
Lemma ProcessCmdWritePointer_effect s0 R done G T s c :
  Inv s0 R done G T s -> entry_ok (CmdWritePointer c) ->
  wp (ProcessCmdWritePointer c T) (fun Status s' =>
    (Status = EFI_SUCCESS /\ exists g item bs, write_pointer_valid G c g item /\
       FwWrites s' = FwWrites s ++ [((item, W_PointerOffset c), bs)] /\
       le_combine bs = g_base g + PointeeOffset c /\
       Z.of_nat (length bs) = W_PointerSize c /\
       Blobs s' !! g_ptr g = Some (g_blob (g_opaque g)) /\
       Mem s' = Mem s /\ Pages s' = Pages s /\ same_other s s') \/
    (Status = EFI_PROTOCOL_ERROR /\ s' = s /\ forall g item, ~ write_pointer_valid G c g item)) s.
Proof.
  intros I He. eapply wp_mono; [by eapply ProcessCmdWritePointer_spec|].
  intros Status s' [[-> (g & item & Hv & ->)]|?]; [left|by right]. split; [done|].
  eexists g, item, _. split; [done|]. split; [reflexivity|].
  destruct Hv as [_ _ Hg _ _ Hvs _ Hfit]. pose proof (valid_pointer_size_range _ Hvs).
  pose proof (g_base_nonneg _ _ (inv_g_ok _ _ _ _ _ _ _ I Hg)). destruct He as (_ & [? _] & _).
  rewrite le_combine_split, length_le_split, Z2Nat.id by lia.
  split_and!; try done; [apply Z.mod_small; lia|]. cbn. apply lookup_insert_eq.
Qed.

(** C4: The three commands that patch what was downloaded, in a state of the
    first pass.  ADD_POINTER succeeds exactly when both files are tracked, the
    field lies inside the pointer blob, its old value inside the pointee and
    the new one fits the field; then the field holds an address inside the
    pointee and nothing else has changed.  ADD_CHECKSUM succeeds exactly when
    the file is tracked and the result byte and the range lie inside the blob;
    it writes only the result byte, and when that lies in the range and was
    zero the range then sums to zero modulo 256.  WRITE_POINTER tells QEMU the
    address of the pointee, at the given offset and width, exactly when that
    is well-formed, and marks the blob as not releasable.  Otherwise they
    report EFI_PROTOCOL_ERROR and change nothing. *)
Theorem ProcessCmd_patches s0 R done G T s :
  Inv s0 R done G T s ->
  (forall c, entry_ok (CmdAddPointer c) ->
    wp (ProcessCmdAddPointer c T) (fun Status s' =>
      (Status = EFI_SUCCESS /\ exists g1 g2, add_pointer_valid G s c g1 g2 /\
         field_value s' c g1 = field_value s c g1 + g_base g2 /\
         in_blob g2 (field_value s' c g1) /\
         (exists m, s' = set_mem m s /\ forall a, ~ (g_base g1 + PointerOffset c <= a <
            g_base g1 + PointerOffset c + PointerSize c) -> m a = Mem s a)) \/
      (Status = EFI_PROTOCOL_ERROR /\ s' = s /\ forall g1 g2, ~ add_pointer_valid G s c g1 g2)) s) /\
  (forall c, entry_ok (CmdAddChecksum c) ->
    wp (ProcessCmdAddChecksum c T) (fun Status s' =>
      (Status = EFI_SUCCESS /\ exists g m, add_checksum_valid G c g /\ s' = set_mem m s /\
         (forall a, a <> g_base g + ResultOffset c -> m a = Mem s a) /\
         (Start c <= ResultOffset c < Start c + Length c -> Mem s (g_base g + ResultOffset c) = 0 ->
          u8 (sum (mem_get m (g_base g + Start c) (Length c))) = 0)) \/
      (Status = EFI_PROTOCOL_ERROR /\ s' = s /\ forall g, ~ add_checksum_valid G c g)) s) /\
  (forall c, entry_ok (CmdWritePointer c) ->
    wp (ProcessCmdWritePointer c T) (fun Status s' =>
      (Status = EFI_SUCCESS /\ exists g item bs, write_pointer_valid G c g item /\
         FwWrites s' = FwWrites s ++ [((item, W_PointerOffset c), bs)] /\
         le_combine bs = g_base g + PointeeOffset c /\
         Z.of_nat (length bs) = W_PointerSize c /\
         Blobs s' !! g_ptr g = Some (g_blob (g_opaque g)) /\
         Mem s' = Mem s /\ Pages s' = Pages s /\ same_other s s') \/
      (Status = EFI_PROTOCOL_ERROR /\ s' = s /\ forall g item, ~ write_pointer_valid G c g item)) s).
Proof.
  intros I. split_and!; intros c He;
    [by eapply ProcessCmdAddPointer_effect|by eapply ProcessCmdAddChecksum_effect|by eapply ProcessCmdWritePointer_effect].
Qed.

(** [CollectAllocationsRestrictedTo32Bit] collects exactly the names of
    the blobs that an ADD_POINTER command refers to through a field narrower
    than 8 bytes, or fails and releases its collection. *)
Theorem CollectAllocationsRestrictedTo32Bit_correct l s :
  wp (CollectAllocationsRestrictedTo32Bit l) (fun '(Status, r) s' =>
    match r with
    | None => EFI_ERROR Status = true /\ only_env s s'
    | Some c => Status = EFI_SUCCESS /\ oc_wf (OrderedCollection:=OCR) c /\ only_env (add_collections 1 s) s' /\
        forall n, (oc_find c n <> None) <-> restricted l n
    end) s.
Proof. apply Collect_spec. Qed.

(** On AARCH64, a FADT that is about to be installed leaves [EnablePsci]
    with the PSCI flag set and a valid checksum, with no other byte changed;
    any other table, and a FADT that has the flag, is left alone. *)
Theorem EnablePsci_correct v size s :
  mem_bytes (Mem s) -> HEADER_SIZE <= size ->
  (forall a n, v <= a -> a + n <= v + size -> in_pages (Pages s) a n = true) ->
  wp (EnablePsci v size) (fun _ s' =>
    if decide (signature_at (Mem s) v = SIGNATURE_FACP /\ OFFSET_ArmBootArch + 2 <= size /\
               boot_arch (Mem s) v mod 2 = 0)
    then exists m, s' = set_mem m s /\ boot_arch m v = boot_arch (Mem s) v + 1 /\
         u8 (sum (mem_get m v size)) = 0 /\
         forall a, a <> v + OFFSET_Checksum -> a <> v + OFFSET_ArmBootArch ->
                   a <> v + OFFSET_ArmBootArch + 1 -> m a = Mem s a
    else s' = s) s.
Proof. apply EnablePsci_spec. Qed.
End Claims.

(** ** A concrete machine *)
Module Machine.
Fixpoint strcmp (a b : list Z) : Z :=
  match a, b with
  | [], [] => 0
  | [], _ => -1
  | _, [] => 1
  | x :: a, y :: b => if x <? y then -1 else if y <? x then 1 else strcmp a b
  end.
#[local] Instance strcmp_ThreeWay : ThreeWay strcmp.
Proof.
  split.
  - induction a as [|x a IH]; intros [|y b]; cbn; try done.
    destruct (Z.ltb_spec x y), (Z.ltb_spec y x); try lia; [split; [done|intros [= ??]; lia]..|].
    rewrite IH. split; [|by intros [= ??]]. intros ->. f_equal. lia.
  - induction a as [|x a IH]; intros [|y b]; cbn; try lia.
    destruct (Z.ltb_spec x y), (Z.ltb_spec y x); try lia. apply IH.
  - induction a as [|x a IH]; intros [|y b] [|z c]; cbn; try lia.
    destruct (Z.ltb_spec x y), (Z.ltb_spec y x), (Z.ltb_spec y z), (Z.ltb_spec z y),
      (Z.ltb_spec x z), (Z.ltb_spec z x); try lia. apply IH.
Qed.

Definition name (c : Z) : list Z := c :: replicate 55 0.
Definition enc (n : nat) (v : Z) : list Z := le_split n v.
Definition pad (l : list Z) : list Z := take 128 (l ++ replicate 128 0).
Definition allocate (f : Z) : list Z := pad (enc 4 1 ++ name f ++ enc 4 64 ++ [1]).
Definition add_pointer (f g o n : Z) : list Z := pad (enc 4 2 ++ name f ++ name g ++ enc 4 o ++ [n]).
Definition add_checksum (f r o n : Z) : list Z := pad (enc 4 3 ++ name f ++ enc 4 r ++ enc 4 o ++ enc 4 n).
Definition write_pointer (f g o p n : Z) : list Z :=
  pad (enc 4 4 ++ name f ++ name g ++ enc 4 o ++ enc 4 p ++ [n]).

(** Blob 'a' hosts a pointer, blob 'b' a 40-byte table, file 'w' is writeable. *)
Definition script_a : list (list Z) := [
  allocate 97; allocate 98; add_pointer 97 98 8 4; add_checksum 98 9 0 40; write_pointer 119 97 0 16 8].
(** A checksum lands in the relocated pointer. *)
Definition script_b : list (list Z) := [
  allocate 97; allocate 98; add_pointer 97 98 8 4; add_checksum 97 9 0 0].
Definition table_b : list Z := enc 4 0x54544154 ++ enc 4 40 ++ [1; 0] ++ replicate 30 7.

Section machine.
Context (script : list (list Z)).
Definition files (n : list Z) : EFI_STATUS * Z * Z :=
  if bool_decide (n = script_name) then (EFI_SUCCESS, 1, 128 * Z.of_nat (length script))
  else match n with
       | [97] => (EFI_SUCCESS, 2, 64) | [98] => (EFI_SUCCESS, 3, 40) | [119] => (EFI_SUCCESS, 4, 8)
       | _ => (EFI_NOT_FOUND, 0, 0)
       end.
Definition contents (item : Z) : list Z :=
  if item =? 1 then concat script else if item =? 3 then table_b else [].
#[local] Instance fw : FwCfg unit := {|
  FindFile n := let '(St, i, z) := files n in (St, i, u32 z);
  fw_read w item off size := ((fun i => u8 (nth (Z.to_nat i) (contents item) 0)) <$> seqZ off size, w) |}.
#[local] Instance fw_laws : FwCfgLaws unit.
Proof.
  split.
  - intros n St item size. cbn. destruct (files n) as [[??] z]. intros [= <- <- <-].
    unfold is_u32, u32. lia_div.
  - intros w item off size bs w' [= <- <-]. rewrite length_fmap, length_seqZ. split; [done|].
    apply Forall_fmap, Forall_forall. intros x _. cbn. unfold is_byte, u8. lia_div.
Qed.
End machine.

#[local] Instance pool : PoolEnv unit := fun w => (true, w).
(** Bump allocation above everything live. *)
Definition above (live : page_map) : Z :=
  foldr (fun e acc => Z.max acc (Z.max e.1 (e.1 + EFI_PAGE_SIZE * e.2) + EFI_PAGE_SIZE)) 0x10000 (map_to_list live).
Lemma above_0 live : 0x10000 <= above live.
Proof. unfold above. induction (map_to_list live); cbn; lia. Qed.
Lemma above_live live b n :
  live !! b = Some n -> b < above live /\ b + EFI_PAGE_SIZE * n <= above live.
Proof.
  rewrite <-elem_of_map_to_list. unfold above, EFI_PAGE_SIZE.
  induction (map_to_list live) as [|e l IH]; [by intros ?%elem_of_nil|].
  intros [<-|H]%elem_of_cons; cbn; [lia|]. specialize (IH H). lia.
Qed.
#[local] Instance page : PageEnv unit := fun w live n max =>
  let a := above live in
  if (a + EFI_PAGE_SIZE * n <=? max + 1) && (a + EFI_PAGE_SIZE * n <=? MAX_ADDRESS)
  then (EFI_SUCCESS, a, w) else (EFI_OUT_OF_RESOURCES, 0, w).
#[local] Instance page_laws : PageLaws unit.
Proof.
  intros w live n max St a w'. unfold page_alloc, page. case_match eqn:E; intros [= <- <- <-]; [|done].
  intros _. apply andb_true_iff in E as [E1 E2]. apply Z.leb_le in E1, E2.
  pose proof (above_0 live). split_and!; [lia..|]. intros b' n' Hb. apply above_live in Hb. lia.
Qed.
#[local] Instance tables : AcpiTableEnv unit := {|
  InstallAcpiTable w a n bs := (EFI_SUCCESS, a + 1, w); UninstallAcpiTable w k := w |}.
#[local] Instance decoding : PciDecodingEnv unit := {|
  ORIGINAL_ATTRIBUTES := unit; EnablePciDecoding w := (tt, w); RestorePciDecoding w _ := w |}.
#[local] Instance sums : Sum8 := {| CalculateSum8 l := u8 (sum l); CalculateCheckSum8 l := u8 (- sum l) |}.
#[local] Instance sum_laws : Sum8Laws.
Proof. split; done. Qed.
#[local] Instance OCT : OrderedCollection (list Z) ptr unit strcmp := SortedList.collection strcmp.
#[local] Instance OCR : OrderedCollection (list Z) (list Z) unit strcmp := SortedList.collection strcmp.
#[local] Instance OCS : OrderedCollection Z Z unit PointerCompare := SortedList.collection PointerCompare.
#[local] Instance LT : OrderedCollectionLaws OCT := SortedList.laws strcmp.
#[local] Instance LR : OrderedCollectionLaws OCR := SortedList.laws strcmp.
#[local] Instance LS : OrderedCollectionLaws OCS := SortedList.laws PointerCompare.

Definition s0 : st (W:=unit) := mkSt tt (fun _ => 0) ∅ ∅ 0 0 (0, 0) [] [].
Lemma s0_bytes : mem_bytes (Mem s0).
Proof. intros a. cbn. unfold is_byte. lia. Qed.

(** *** Runs of the whole *)
Definition run (script : list (list Z)) :=
  InstallQemuFwCfgTables (FW:=fw script) (OCT:=OCT) (OCR:=OCR) (OCS:=OCS) false s0.

Lemma run_a : match run script_a with
  | Done Status s => Status = EFI_SUCCESS /\ FwWrites s = [((4, 0), le_split 8 0x10010)] /\
                     Tables s = [(0x12001, 0x12000, 40)] /\ Pages s = {[ 0x10000 := 1 ]}
  | Trap _ => False end.
Proof. vm_compute. split_and!; reflexivity. Qed.

(** The assertion of the second pass, which a comment claims to follow
    from the checks of the first, is reachable: a script whose ADD_CHECKSUM
    result byte lies in a relocated pointer passes the first pass and fails
    [ASSERT (PointerValue >= Blob2Remaining)]. *)
Theorem second_pass_assert_reachable : run script_b = Trap AssertFailed.
Proof. vm_compute. reflexivity. Qed.

Lemma script_a_no_clobber (all : list QEMU_LOADER_ENTRY) :
  script_read (FW:=fw script_a) all -> no_clobber all.
Proof.
  intros (St & item & size & w & bs & w' & HF & HR & ->).
  assert (FindFile (FwCfg:=fw script_a) script_name = (EFI_SUCCESS, 1, 640)) as E by (vm_compute; reflexivity).
  rewrite E in HF. injection HF as <- <- <-.
  assert ((fw_read (FwCfg:=fw script_a) w 1 0 640).1 = bs) as <- by by rewrite HR.
  apply (@bool_decide_unpack _ (no_clobber_dec _)). vm_compute. exact I.
Qed.


(** *** Single commands, from the state that the first commands lead to *)
Definition entries : list QEMU_LOADER_ENTRY := decode_entries 5 (concat script_a).
Definition Rst : oc OCR := [([98], [98])].
Definition R (n : list Z) : Prop := n = [98].
Lemma Rst_R n : (oc_find (OrderedCollection:=OCR) Rst n <> None) <-> R n.
Proof.
  cbn. unfold R. destruct (Z.eqb_spec (strcmp n [98]) 0) as [E|E]; rewrite cmp_eq in E; [|tauto].
  split; [done|]. intros _. done.
Qed.
Lemma entries_ok k : Forall entry_ok (take k entries).
Proof.
  apply Forall_take, decode_entries_ok.
  assert (forallb (fun b => (0 <=? b) && (b <? 256)) (concat script_a) = true) as H by (vm_compute; reflexivity).
  apply Forall_forall. intros b Hb. rewrite forallb_forall in H. apply list_elem_of_In, H in Hb.
  unfold is_byte. lia.
Qed.

Definition pass (k : nat) := FirstPass (FW:=fw script_a) (OCT:=OCT) (OCR:=OCR) (take k entries) 0 0 EFI_SUCCESS [] Rst s0.
Definition T_ (k : nat) : oc OCT := match pass k with Done (_, T) _ => T | Trap _ => [] end.
Definition s_ (k : nat) : st (W:=unit) := match pass k with Done _ s => s | Trap _ => s0 end.

Lemma Collect_witness :
  match CollectAllocationsRestrictedTo32Bit (OCR:=OCR) entries s0 with
  | Done (_, r) _ => forall c, r = Some c -> forall n, (oc_find c n <> None) <-> restricted entries n
  | Trap _ => False
  end.
Proof.
  pose proof (CollectAllocationsRestrictedTo32Bit_correct (OCR:=OCR) entries s0) as H.
  apply wp_elim in H as ([Status r] & s' & Hrun & H). rewrite Hrun. intros c ->.
  destruct H as (_ & _ & _ & H). exact H.
Defined.

Lemma FirstPass_witness :
  exists Status WPEnd T' s', pass 4 = Done (Status, WPEnd, T') s' /\
    exists done rest G, take 4 entries = done ++ rest /\ Inv (FW:=fw script_a) s0 R done G T' s'.
Proof.
  pose proof (FirstPass_safe (FW:=fw script_a) (FWL:=fw_laws script_a) (OCT:=OCT) (OCR:=OCR)
    R (take 4 entries) [] Rst s0 (SSorted_nil _) eq_refl s0_bytes (entries_ok 4) Rst_R) as H.
  apply wp_elim in H as ([[Status WPEnd] T'] & s' & Hrun & _ & done & rest & G & E & I & _).
  exists Status, WPEnd, T', s'. split; [exact Hrun|]. exists done, rest, G. auto.
Defined.

Lemma pass_inv k :
  (match pass k with Done (Status, _, _) _ => Status =? 0 | Trap _ => false end) = true ->
  exists G, Inv (FW:=fw script_a) s0 R (take k entries) G (T_ k) (s_ k).
Proof.
  intros Hok.
  pose proof (FirstPass_spec (FW:=fw script_a) (FWL:=fw_laws script_a) (OCT:=OCT) (OCR:=OCR)
    s0 R (take k entries) [] [] [] Rst s0 0 EFI_SUCCESS) as H.
  apply wp_elim in H as ([[Status WPEnd] T'] & s' & Hrun & _ & done & rest & G & E & I & _ & Hr & _).
  - unfold T_, s_. cbn [length] in Hrun. unfold pass in Hok |- *. rewrite Hrun in Hok |- *.
    apply Z.eqb_eq in Hok. rewrite (Hr ltac:(by rewrite Hok)), app_nil_r in E. cbn in E. subst done. by exists G.
  - apply Inv_nil; [constructor|done|apply s0_bytes].
  - apply entries_ok.
  - done.
  - apply Rst_R.
  - done.
Qed.
Lemma inv2 : exists G, Inv (FW:=fw script_a) s0 R (take 2 entries) G (T_ 2) (s_ 2).
Proof. apply pass_inv. vm_compute. reflexivity. Qed.
Lemma inv3 : exists G, Inv (FW:=fw script_a) s0 R (take 3 entries) G (T_ 3) (s_ 3).
Proof. apply pass_inv. vm_compute. reflexivity. Qed.
Lemma inv4 : exists G, Inv (FW:=fw script_a) s0 R (take 4 entries) G (T_ 4) (s_ 4).
Proof. apply pass_inv. vm_compute. reflexivity. Qed.

Definition c_alloc : QEMU_LOADER_ALLOCATE := mkAllocate (name 97) 64 1.
Definition c_add : QEMU_LOADER_ADD_POINTER := mkAddPointer (name 97) (name 98) 8 4.
Definition c_sum : QEMU_LOADER_ADD_CHECKSUM := mkAddChecksum (name 98) 9 0 40.
Definition c_write : QEMU_LOADER_WRITE_POINTER := mkWritePointer (name 119) (name 97) 0 16 8.
Definition status_of {A} (f : A -> EFI_STATUS) (o : outcome (st (W:=unit)) A) : bool :=
  match o with Done a _ => f a =? 0 | Trap _ => false end.
Lemma alloc_ok : status_of fst (ProcessCmdAllocate (FW:=fw script_a) (OCT:=OCT) (OCR:=OCR) c_alloc [] Rst s0) = true.
Proof. vm_compute. reflexivity. Qed.
Lemma add_ok : status_of id (ProcessCmdAddPointer (OCT:=OCT) c_add (T_ 2) (s_ 2)) = true.
Proof. vm_compute. reflexivity. Qed.
Lemma sum_ok : status_of id (ProcessCmdAddChecksum (OCT:=OCT) c_sum (T_ 3) (s_ 3)) = true.
Proof. vm_compute. reflexivity. Qed.
Lemma write_ok : status_of id (ProcessCmdWritePointer (FW:=fw script_a) (OCT:=OCT) c_write (T_ 4) (s_ 4)) = true.
Proof. vm_compute. reflexivity. Qed.
#[local] Opaque T_ s_.

Lemma ProcessCmdAllocate_witness :
  exists T' s', ProcessCmdAllocate (FW:=fw script_a) (OCT:=OCT) (OCR:=OCR) c_alloc [] Rst s0 =
    Done (EFI_SUCCESS, T') s' /\ exists g bs, mem_get (Mem s') (g_base g) (g_size g) = bs /\
      allocated (FW:=fw script_a) R c_alloc ([] : oc OCT) T' s0 s' g bs.
Proof.
  pose proof (ProcessCmdAllocate_correct (FW:=fw script_a) (FWL:=fw_laws script_a) (OCT:=OCT) (OCR:=OCR)
    R [] Rst s0 c_alloc (SSorted_nil _) Rst_R) as H.
  apply wp_elim in H as ([Status T'] & s' & Hrun & H). pose proof alloc_ok as Hok.
  rewrite Hrun in Hok. apply Z.eqb_eq in Hok. cbn in Hok. subst Status. exists T', s'. split; [exact Hrun|].
  destruct H as [(_ & g & bs & Hal & Hb)|(HE & _)]; [|discriminate HE]. exists g, bs. auto.
Defined.

Lemma ProcessCmd_patches_witness :
  (exists G g1 g2 s', Inv (FW:=fw script_a) s0 R (take 2 entries) G (T_ 2) (s_ 2) /\
    ProcessCmdAddPointer (OCT:=OCT) c_add (T_ 2) (s_ 2) = Done EFI_SUCCESS s' /\
    in_blob g2 (field_value s' c_add g1)) /\
  (exists G g s', add_checksum_valid G c_sum g /\
    ProcessCmdAddChecksum (OCT:=OCT) c_sum (T_ 3) (s_ 3) = Done EFI_SUCCESS s') /\
  exists g item bs s', ProcessCmdWritePointer (FW:=fw script_a) (OCT:=OCT) c_write (T_ 4) (s_ 4) = Done EFI_SUCCESS s' /\
    FwWrites s' = FwWrites (s_ 4) ++ [((item, 0), bs)] /\ le_combine bs = g_base g + 16.
Proof.
  split_and!.
  - destruct inv2 as (G & I).
    destruct (ProcessCmd_patches (FW:=fw script_a) (OCT:=OCT) s0 R (take 2 entries) G (T_ 2) (s_ 2) I) as (H & _).
    specialize (H c_add ltac:(cbn; unfold is_u32, is_u8; lia)).
    apply wp_elim in H as (Status & s' & Hrun & H). pose proof add_ok as Hok.
    rewrite Hrun in Hok. apply Z.eqb_eq in Hok. cbn in Hok. subst Status.
    destruct H as [(_ & g1 & g2 & _ & _ & Hb & _)|(HE & _)]; [|discriminate HE].
    exists G, g1, g2, s'. auto.
  - destruct inv3 as (G & I).
    destruct (ProcessCmd_patches (FW:=fw script_a) (OCT:=OCT) s0 R (take 3 entries) G (T_ 3) (s_ 3) I) as (_ & H & _).
    specialize (H c_sum ltac:(cbn; unfold is_u32; lia)).
    apply wp_elim in H as (Status & s' & Hrun & H). pose proof sum_ok as Hok.
    rewrite Hrun in Hok. apply Z.eqb_eq in Hok. cbn in Hok. subst Status.
    destruct H as [(_ & g & m & Hv & _)|(HE & _)]; [|discriminate HE].
    exists G, g, s'. auto.
  - destruct inv4 as (G & I).
    destruct (ProcessCmd_patches (FW:=fw script_a) (OCT:=OCT) s0 R (take 4 entries) G (T_ 4) (s_ 4) I) as (_ & _ & H).
    specialize (H c_write ltac:(cbn; unfold is_u32, is_u8; lia)).
    apply wp_elim in H as (Status & s' & Hrun & H). pose proof write_ok as Hok.
    rewrite Hrun in Hok. apply Z.eqb_eq in Hok. cbn in Hok. subst Status.
    destruct H as [(_ & g & item & bs & _ & Hw & Hbs & _)|(HE & _)]; [|discriminate HE].
    exists g, item, bs, s'. auto.
Defined.

Definition fadt : list Z := enc 4 SIGNATURE_FACP ++ enc 4 140 ++ replicate 132 3.
Definition s_fadt : st (W:=unit) :=
  mkSt tt (mem_set (mem_set (fun _ => 0) 0x10000 fadt) (0x10000 + 129) [2; 0]) {[0x10000 := 1]} ∅ 0 0 (0, 0) [] [].
Lemma s_fadt_psci : signature_at (Mem s_fadt) 0x10000 = SIGNATURE_FACP /\ OFFSET_ArmBootArch + 2 <= 140 /\
  boot_arch (Mem s_fadt) 0x10000 mod 2 = 0.
Proof. vm_compute. split_and!; [reflexivity|discriminate|reflexivity]. Qed.

Lemma EnablePsci_witness :
  exists m, EnablePsci 0x10000 140 s_fadt = Done tt (set_mem m s_fadt) /\
    u8 (sum (mem_get m 0x10000 140)) = 0.
Proof.
  assert (mem_bytes (Mem s_fadt)) as Hm.
  { apply mem_set_bytes; [apply mem_set_bytes|]; [intros a; unfold is_byte; lia|..];
      apply Forall_forall; intros x Hx; unfold is_byte;
      [assert (forallb (fun b => (0 <=? b) && (b <? 256)) fadt = true) as H by (vm_compute; reflexivity)
      |assert (forallb (fun b => (0 <=? b) && (b <? 256)) [2; 0] = true) as H by (vm_compute; reflexivity)];
      rewrite forallb_forall in H; apply list_elem_of_In, H in Hx; lia. }
  pose proof (EnablePsci_correct 0x10000 140 s_fadt Hm ltac:(unfold HEADER_SIZE; lia)
    ltac:(intros a n Ha Hn; eapply (in_pages_intro _ 0x10000 1);
          [apply lookup_singleton_eq|unfold page_range, EFI_PAGE_SIZE; lia])) as H.
  destruct (decide _) as [_|n] in H; [|destruct n; exact s_fadt_psci].
  apply wp_elim in H as ([] & s' & Hrun & m & -> & _ & Hs & _). exists m. auto.
Defined.
End Machine.
