(* ===== verification/Virtio.v ===== *)
(** * VirtioLib: the virtio ring

    Models QemuPkg/Library/VirtioLib/VirtioLib.c over the interface
    VIRTIO_DEVICE_PROTOCOL: allocating and laying out a ring, building a
    descriptor chain, submitting it and polling for its completion, feature
    negotiation, and mapping buffers for the device.

    The device is adversarial: each call of its protocol, and each delay, may
    answer anything and change any byte of memory.  The trace records what
    the driver tells the device, with the memory at that moment. *)
From S2P Require Import Prelude Bytes Memory OrderedCollection.

(** ** Data of Virtio095.h, Virtio10.h and VirtioLib.h *)
Record VRING : Type := mkVring {
  NumPages : Z;
  Base : Z;
  Desc : Z;
  Avail_Flags : Z; Avail_Idx : Z; Avail_Ring : Z; Avail_UsedEvent : Z;
  Used_Flags : Z; Used_Idx : Z; Used_UsedElem : Z; Used_AvailEvent : Z;
  QueueSize : Z;
}.
Definition zero_vring : VRING := mkVring 0 0 0 0 0 0 0 0 0 0 0 0.
Record DESC_INDICES : Type := mkIndices { HeadDescIdx : Z; NextDescIdx : Z }.

Inductive VIRTIO_MAP_OPERATION : Type :=
  | VirtioOperationBusMasterRead
  | VirtioOperationBusMasterWrite
  | VirtioOperationBusMasterCommonBuffer.

Definition SIZEOF_DESC : Z := 16.
Definition SIZEOF_USED_ELEM : Z := 8.
Definition VRING_AVAIL_F_NO_INTERRUPT : Z := 1.
Definition VRING_DESC_F_NEXT : Z := 1.
Definition VRING_DESC_F_WRITE : Z := 2.
Definition VSTAT_ACK : Z := 1.
Definition VSTAT_DRIVER : Z := 2.
Definition VSTAT_DRIVER_OK : Z := 4.
Definition VSTAT_FEATURES_OK : Z := 8.
Definition VSTAT_FAILED : Z := 128.
Definition VIRTIO_F_VERSION_1 : Z := 2 ^ 32.
Definition VIRTIO_F_IOMMU_PLATFORM : Z := 2 ^ 33.
Definition VIRTIO_SPEC_REVISION (major minor revision : Z) : Z :=
  Z.lor (Z.lor (Z.shiftl major 16) (Z.shiftl minor 8)) revision.
Definition MAX_ADDRESS : Z := 2 ^ 64 - 1.

(** [ALIGN_VALUE] of Base.h, on UINTN. *)
Definition ALIGN_VALUE (v a : Z) : Z := u64 (v + Z.land (u64 (a - v)) (a - 1)).

(** ** VIRTIO_DEVICE_PROTOCOL *)

(** A call may change memory. *)
Definition vop (W A : Type) : Type := W -> memory -> A * memory * W.

(** A live mapping: operation, host address, size, device address. *)
Definition mapping : Type := VIRTIO_MAP_OPERATION * Z * Z * Z.

Class VirtIo (W : Type) := {
  Revision : Z;
  SubSystemDeviceId : Z;
  vio_GetDeviceFeatures : vop W (EFI_STATUS * Z);
  vio_SetGuestFeatures : Z -> vop W EFI_STATUS;
  vio_SetQueueAddress : VRING -> Z -> vop W EFI_STATUS;
  vio_SetQueueSel : Z -> vop W EFI_STATUS;
  vio_SetQueueNotify : Z -> vop W EFI_STATUS;
  vio_SetQueueAlign : Z -> vop W EFI_STATUS;
  vio_SetPageSize : Z -> vop W EFI_STATUS;
  vio_GetQueueNumMax : vop W (EFI_STATUS * Z);
  vio_SetQueueNum : Z -> vop W EFI_STATUS;
  vio_GetDeviceStatus : vop W (EFI_STATUS * Z);
  vio_SetDeviceStatus : Z -> vop W EFI_STATUS;
  vio_ReadDevice : Z -> Z -> vop W (EFI_STATUS * Z);
  vio_WriteDevice : Z -> Z -> Z -> vop W EFI_STATUS;
  vio_AllocateSharedPages : page_map -> Z -> vop W (EFI_STATUS * Z);
  vio_FreeSharedPages : Z -> Z -> vop W unit;
  vio_MapSharedBuffer : gmap Z mapping -> VIRTIO_MAP_OPERATION -> Z -> Z ->
    vop W (EFI_STATUS * Z * Z * Z);   (* status, bytes mapped, device address, token *)
  vio_UnmapSharedBuffer : Z -> vop W EFI_STATUS;
  vio_Stall : Z -> vop W unit;
}.

(** What the protocol documents, and the types of the out-parameters. *)
Class VirtIoLaws (W : Type) {V : VirtIo W} : Prop := {
  GetDeviceFeatures_u64 w m St v m' w' :
    vio_GetDeviceFeatures w m = (St, v, m', w') -> is_u64 v;
  GetQueueNumMax_u16 w m St v m' w' :
    vio_GetQueueNumMax w m = (St, v, m', w') -> is_u16 v;
  GetDeviceStatus_u8 w m St v m' w' :
    vio_GetDeviceStatus w m = (St, v, m', w') -> is_u8 v;
  ReadDevice_field off n w m St v m' w' :
    0 <= n -> vio_ReadDevice off n w m = (St, v, m', w') -> 0 <= v < 256 ^ n;
  AllocateSharedPages_fresh live n w m St a m' w' :
    vio_AllocateSharedPages live n w m = (St, a, m', w') -> EFI_ERROR St = false ->
    0 < a /\ a mod EFI_PAGE_SIZE = 0 /\ a + EFI_PAGE_SIZE * n <= MAX_ADDRESS /\ disjoint_from live a n;
  (** allocating does not disturb other memory *)
  AllocateSharedPages_frame live n w m St a m' w' :
    vio_AllocateSharedPages live n w m = (St, a, m', w') -> EFI_ERROR St = false ->
    forall x, ~ (a <= x < a + EFI_PAGE_SIZE * n) -> m' x = m x;
  MapSharedBuffer_fresh live op host size w m St n dev tok m' w' :
    vio_MapSharedBuffer live op host size w m = (St, n, dev, tok, m', w') ->
    EFI_ERROR St = false -> live !! tok = None /\ is_u64 dev;
}.

(** What the device is told. *)
Inductive event : Type :=
  | EvStatus (v : Z)
  | EvFeatures (v : Z)
  | EvConfig (off v : Z)
  | EvQueueAddress (base shift : Z)
  | EvNotify (queue : Z) (m : memory)
  | EvStall (usecs : Z)
  | EvMap (op : VIRTIO_MAP_OPERATION) (host size dev : Z) (m : memory)
  | EvUnmap (tok : Z)
  | EvFreePages (base n : Z).

Section VirtioLib.
Context {W : Type} {V : VirtIo W}.

(** [Pool], [Opens], [Events], [Interfaces]: the pool objects, protocol opens,
    event objects and installed interfaces that a driver holds. *)
Record st : Type := mkSt {
  Env : W;
  Mem : memory;
  Pages : page_map;
  Maps : gmap Z mapping;
  Trace : list event;
  Pool : Z; Opens : Z; Events : Z; Interfaces : Z;
}.
Definition set_world (w : W) (m : memory) (s : st) : st :=
  mkSt w m (Pages s) (Maps s) (Trace s) (Pool s) (Opens s) (Events s) (Interfaces s).
Definition set_mem (m : memory) (s : st) : st := set_world (Env s) m s.
Definition set_pages (P : page_map) (s : st) : st :=
  mkSt (Env s) (Mem s) P (Maps s) (Trace s) (Pool s) (Opens s) (Events s) (Interfaces s).
Definition set_maps (X : gmap Z mapping) (s : st) : st :=
  mkSt (Env s) (Mem s) (Pages s) X (Trace s) (Pool s) (Opens s) (Events s) (Interfaces s).
Definition log (e : event) (s : st) : st :=
  mkSt (Env s) (Mem s) (Pages s) (Maps s) (Trace s ++ [e]) (Pool s) (Opens s) (Events s) (Interfaces s).
Definition add_held (pool opens events interfaces : Z) (s : st) : st :=
  mkSt (Env s) (Mem s) (Pages s) (Maps s) (Trace s)
    (Pool s + pool) (Opens s + opens) (Events s + events) (Interfaces s + interfaces).

(** *** Calls and memory *)
Definition vcall {A} (f : vop W A) : M st A :=
  fun s => let '(a, m, w) := f (Env s) (Mem s) in Done a (set_world w m s).
Definition tell (e : event) : M st unit := modify (log e).
Definition read_le (a n : Z) : M st Z :=
  s ← get; if in_pages (Pages s) a n then mret (le_combine (mem_get (Mem s) a n)) else trapped BadPointer.
Definition write_mem (a : Z) (bs : list Z) : M st unit :=
  s ← get;
  if in_pages (Pages s) a (Z.of_nat (length bs)) then put (set_mem (mem_set (Mem s) a bs) s)
  else trapped BadPointer.
Definition write_le (a : Z) (n : nat) (v : Z) : M st unit := write_mem a (le_split n v).
(** Store to a local variable. *)
Definition poke (a : Z) (bs : list Z) : M st unit := modify (fun s => set_mem (mem_set (Mem s) a bs) s).
(** [x % n]. *)
Definition modulo (x n : Z) : M st Z := if n =? 0 then trapped DivideByZero else mret (x mod n).

Definition GetDeviceFeatures : M st (EFI_STATUS * Z) := vcall vio_GetDeviceFeatures.
Definition SetGuestFeatures (v : Z) : M st EFI_STATUS := tell (EvFeatures v);; vcall (vio_SetGuestFeatures v).
Definition SetQueueAddress (r : VRING) (shift : Z) : M st EFI_STATUS :=
  tell (EvQueueAddress (Base r) shift);; vcall (vio_SetQueueAddress r shift).
Definition SetQueueSel (v : Z) : M st EFI_STATUS := vcall (vio_SetQueueSel v).
Definition SetQueueNotify (q : Z) : M st EFI_STATUS :=
  s ← get; tell (EvNotify q (Mem s));; vcall (vio_SetQueueNotify q).
Definition SetQueueAlign (v : Z) : M st EFI_STATUS := vcall (vio_SetQueueAlign v).
Definition SetPageSize (v : Z) : M st EFI_STATUS := vcall (vio_SetPageSize v).
Definition GetQueueNumMax : M st (EFI_STATUS * Z) := vcall vio_GetQueueNumMax.
Definition SetQueueNum (v : Z) : M st EFI_STATUS := vcall (vio_SetQueueNum v).
Definition GetDeviceStatus : M st (EFI_STATUS * Z) := vcall vio_GetDeviceStatus.
Definition SetDeviceStatus (v : Z) : M st EFI_STATUS := tell (EvStatus v);; vcall (vio_SetDeviceStatus v).
Definition ReadDevice (off n : Z) : M st (EFI_STATUS * Z) := vcall (vio_ReadDevice off n).
Definition WriteDevice (off n v : Z) : M st EFI_STATUS := tell (EvConfig off v);; vcall (vio_WriteDevice off n v).
Definition Stall (usecs : Z) : M st unit := tell (EvStall usecs);; vcall (vio_Stall usecs).

Definition AllocateSharedPages (n : Z) : M st (EFI_STATUS * Z) :=
  s ← get;
  r ← vcall (vio_AllocateSharedPages (Pages s) n);
  (if EFI_ERROR r.1 then mret tt else modify (fun s => set_pages (<[r.2 := n]> (Pages s)) s));;
  mret r.
Definition FreeSharedPages (n a : Z) : M st unit :=
  s ← get;
  k ← deref (Pages s !! a);
  if k =? n then
    tell (EvFreePages a n);; modify (fun s => set_pages (delete a (Pages s)) s);;
    vcall (vio_FreeSharedPages n a)
  else trapped BadPointer.

Definition MapSharedBuffer (op : VIRTIO_MAP_OPERATION) (host size : Z)
    : M st (EFI_STATUS * Z * Z * Z) :=
  s ← get;
  r ← vcall (vio_MapSharedBuffer (Maps s) op host size);
  let '(Status, n, dev, tok) := r in
  (if EFI_ERROR Status then mret tt
   else modify (fun s' => log (EvMap op host n dev (Mem s))
                            (set_maps (<[tok := (op, host, n, dev)]> (Maps s')) s')));;
  mret r.
Definition UnmapSharedBuffer (tok : Z) : M st EFI_STATUS :=
  s ← get;
  _ ← deref (Maps s !! tok);
  tell (EvUnmap tok);; modify (fun s => set_maps (delete tok (Maps s)) s);;
  vcall (vio_UnmapSharedBuffer tok).

(** *** The ring *)
Definition AvailSize (Q : Z) : Z := SIZEOF_DESC * Q + 2 + 2 + 2 * Q + 2.
Definition UsedSize (Q : Z) : Z := 2 + 2 + SIZEOF_USED_ELEM * Q + 2.
Definition RingSize (Q : Z) : Z :=
  u64 (ALIGN_VALUE (AvailSize Q) EFI_PAGE_SIZE + ALIGN_VALUE (UsedSize Q) EFI_PAGE_SIZE).

(** The navigation pointers into the pages at [base]. *)
Definition LayOut (pages base Q : Z) : VRING :=
  let p0 := base in
  let p1 := p0 + SIZEOF_DESC * Q in
  let p2 := p1 + 2 in
  let p3 := p2 + 2 in
  let p4 := p3 + 2 * Q in
  let p5 := p4 + 2 in
  let u0 := base + ALIGN_VALUE (p5 - base) EFI_PAGE_SIZE in
  let u1 := u0 + 2 in
  let u2 := u1 + 2 in
  let u3 := u2 + SIZEOF_USED_ELEM * Q in
  mkVring pages base p0 p1 p2 p3 p4 u0 u1 u2 u3 Q.

Definition VirtioRingInit (Q : Z) : M st (EFI_STATUS * VRING) :=
  let size := RingSize Q in
  let pages := EFI_SIZE_TO_PAGES size in
  r ← AllocateSharedPages pages;
  let '(Status, base) := r in
  if EFI_ERROR Status then mret (Status, mkVring pages 0 0 0 0 0 0 0 0 0 0 0)
  else
    write_mem base (replicate (Z.to_nat size) 0);;
    mret (EFI_SUCCESS, LayOut pages base Q).

Definition VirtioRingUninit (Ring : VRING) : M st VRING :=
  FreeSharedPages (NumPages Ring) (Base Ring);; mret zero_vring.

Definition VirtioPrepare (Ring : VRING) : M st DESC_INDICES :=
  write_le (Avail_Flags Ring) 2 VRING_AVAIL_F_NO_INTERRUPT;;
  mret (mkIndices 0 0).

Definition VirtioAppendDesc (Ring : VRING) (BufferDeviceAddress BufferSize Flags : Z)
    (Indices : DESC_INDICES) : M st DESC_INDICES :=
  i ← modulo (NextDescIdx Indices) (QueueSize Ring);
  let p := Desc Ring + SIZEOF_DESC * i in
  let Indices := mkIndices (HeadDescIdx Indices) (u16 (NextDescIdx Indices + 1)) in
  write_le p 8 BufferDeviceAddress;;
  write_le (p + 8) 4 BufferSize;;
  write_le (p + 12) 2 Flags;;
  j ← modulo (NextDescIdx Indices) (QueueSize Ring);
  write_le (p + 14) 2 j;;
  mret Indices.

(** The polling loop; the C loop has no bound. *)
Fixpoint PollUsed (fuel : nat) (Ring : VRING) (NextAvailIdx PollPeriodUsecs : Z) : M st unit :=
  match fuel with
  | O => trapped OutOfFuel
  | S fuel =>
      i ← read_le (Used_Idx Ring) 2;
      if i =? NextAvailIdx then mret tt
      else
        Stall PollPeriodUsecs;;
        PollUsed fuel Ring NextAvailIdx
          (if PollPeriodUsecs <? 1024 then PollPeriodUsecs * 2 else PollPeriodUsecs)
  end.

(** [WantUsedLen]: the optional out-parameter is given. *)
Definition VirtioFlush (fuel : nat) (VirtQueueId : Z) (Ring : VRING) (Indices : DESC_INDICES)
    (WantUsedLen : bool) : M st (EFI_STATUS * Z) :=
  LastUsedIdx ← read_le (Avail_Idx Ring) 2;
  i ← modulo LastUsedIdx (QueueSize Ring);
  h ← modulo (HeadDescIdx Indices) (QueueSize Ring);
  let NextAvailIdx := u16 (LastUsedIdx + 1) in
  write_le (Avail_Ring Ring + 2 * i) 2 h;;
  write_le (Avail_Idx Ring) 2 NextAvailIdx;;
  Status ← SetQueueNotify VirtQueueId;
  if EFI_ERROR Status then mret (Status, 0)
  else
    PollUsed fuel Ring NextAvailIdx 1;;
    if WantUsedLen then
      j ← modulo LastUsedIdx (QueueSize Ring);
      Id ← read_le (Used_UsedElem Ring + SIZEOF_USED_ELEM * j) 4;
      ASSERT (Id =? HeadDescIdx Indices);;
      Len ← read_le (Used_UsedElem Ring + SIZEOF_USED_ELEM * j + 4) 4;
      mret (EFI_SUCCESS, Len)
    else mret (EFI_SUCCESS, 0).

Definition Virtio10WriteFeatures (Features DeviceStatus : Z) : M st (EFI_STATUS * Z) :=
  if Revision <? VIRTIO_SPEC_REVISION 1 0 0 then mret (EFI_UNSUPPORTED, DeviceStatus)
  else
    Status ← SetGuestFeatures Features;
    if EFI_ERROR Status then mret (Status, DeviceStatus)
    else
      let DeviceStatus := Z.lor DeviceStatus VSTAT_FEATURES_OK in
      Status ← SetDeviceStatus DeviceStatus;
      if EFI_ERROR Status then mret (Status, DeviceStatus)
      else
        r ← GetDeviceStatus;
        let '(Status, Got) := r in
        if EFI_ERROR Status then mret (Status, Got)
        else if Z.land Got VSTAT_FEATURES_OK =? 0 then mret (EFI_UNSUPPORTED, Got)
        else mret (Status, Got).

(** Status, device address, token. *)
Definition VirtioMapAllBytesInSharedBuffer (op : VIRTIO_MAP_OPERATION) (HostAddress NumberOfBytes : Z)
    : M st (EFI_STATUS * Z * Z) :=
  r ← MapSharedBuffer op HostAddress NumberOfBytes;
  let '(Status, Size, PhysicalAddress, MapInfo) := r in
  if EFI_ERROR Status then mret (Status, 0, 0)
  else if Size <? NumberOfBytes then
    _ ← UnmapSharedBuffer MapInfo; mret (EFI_OUT_OF_RESOURCES, 0, 0)
  else mret (EFI_SUCCESS, PhysicalAddress, MapInfo).

Definition VirtioRingMap (Ring : VRING) : M st (EFI_STATUS * Z * Z) :=
  r ← VirtioMapAllBytesInSharedBuffer VirtioOperationBusMasterCommonBuffer
        (Base Ring) (EFI_PAGES_TO_SIZE (NumPages Ring));
  let '(Status, DeviceAddress, Mapping) := r in
  if EFI_ERROR Status then mret (Status, 0, 0)
  else mret (EFI_SUCCESS, u64 (DeviceAddress - Base Ring), Mapping).
End VirtioLib.
