(* ===== verification/VirtioProofs.v ===== *)
(** * VirtioLib: layout, chains, submission *)
From S2P Require Import Prelude Bytes Memory OrderedCollection Virtio.

Lemma nth_zeros i n : nth i (replicate n 0) 0 = 0.
Proof. rewrite nth_lookup. destruct (replicate n 0 !! i) eqn:E; [|done]. by apply lookup_replicate in E as [-> _]. Qed.

(** ** Layout arithmetic *)
Lemma align_page v :
  0 <= v < 2 ^ 40 ->
  v <= ALIGN_VALUE v EFI_PAGE_SIZE < v + EFI_PAGE_SIZE /\ ALIGN_VALUE v EFI_PAGE_SIZE mod EFI_PAGE_SIZE = 0.
Proof.
  intros Hv. unfold ALIGN_VALUE, EFI_PAGE_SIZE. change (4096 - 1) with (Z.ones 12).
  rewrite Z.land_ones by lia. change (2 ^ 12) with 4096. unfold u64 at 2 4 6.
  assert ((4096 - v) mod 2 ^ 64 mod 4096 = (4096 - v) mod 4096) as ->.
  { change (2 ^ 64) with (4096 * 4503599627370496). rewrite Z.rem_mul_r by lia.
    rewrite Z.mul_comm, Z.mod_add by lia. by rewrite Z.mod_mod by lia. }
  unfold u64. rewrite Z.mod_small; lia_div.
Qed.

Record layout_facts (r : VRING) : Prop := {
  lf_size : RingSize (QueueSize r) = EFI_PAGE_SIZE * NumPages r;
  lf_desc : Desc r = Base r;
  lf_flags : Avail_Flags r = Desc r + SIZEOF_DESC * QueueSize r;
  lf_idx : Avail_Idx r = Avail_Flags r + 2;
  lf_ring : Avail_Ring r = Avail_Idx r + 2;
  lf_event : Avail_UsedEvent r = Avail_Ring r + 2 * QueueSize r;
  lf_used : Avail_UsedEvent r + 2 <= Used_Flags r;
  lf_used_page : (Used_Flags r - Base r) mod EFI_PAGE_SIZE = 0;
  lf_uidx : Used_Idx r = Used_Flags r + 2;
  lf_elem : Used_UsedElem r = Used_Idx r + 2;
  lf_aevent : Used_AvailEvent r = Used_UsedElem r + SIZEOF_USED_ELEM * QueueSize r;
  lf_end : Used_AvailEvent r + 2 <= Base r + EFI_PAGE_SIZE * NumPages r;
}.

Lemma ring_size Q : 0 <= Q < 2 ^ 16 ->
  RingSize Q = ALIGN_VALUE (AvailSize Q) EFI_PAGE_SIZE + ALIGN_VALUE (UsedSize Q) EFI_PAGE_SIZE /\
  RingSize Q mod EFI_PAGE_SIZE = 0 /\ 0 < RingSize Q < 2 ^ 32.
Proof.
  intros HQ. unfold RingSize.
  assert (0 <= AvailSize Q < 2 ^ 22 /\ 0 < AvailSize Q) as [H1 H1'] by (unfold AvailSize, SIZEOF_DESC; lia).
  assert (0 <= UsedSize Q < 2 ^ 22) as H2 by (unfold UsedSize, SIZEOF_USED_ELEM; lia).
  destruct (align_page (AvailSize Q)) as [H3 H4]; [lia|].
  destruct (align_page (UsedSize Q)) as [H5 H6]; [lia|].
  unfold u64, EFI_PAGE_SIZE in *. rewrite Z.mod_small by lia. split; [done|]. lia_div.
Qed.

Lemma size_pages_exact n : is_u32 n -> n mod EFI_PAGE_SIZE = 0 -> EFI_PAGE_SIZE * EFI_SIZE_TO_PAGES n = n.
Proof.
  intros Hn Hm. pose proof (EFI_SIZE_TO_PAGES_bound n Hn) as H.
  unfold EFI_PAGE_SIZE, EFI_PAGE_MASK in *. lia_div.
Qed.

Lemma LayOut_facts base Q :
  0 <= Q < 2 ^ 16 -> layout_facts (LayOut (EFI_SIZE_TO_PAGES (RingSize Q)) base Q).
Proof.
  intros HQ. destruct (ring_size Q HQ) as (E & Hmod & Hpos & Hlt).
  assert (is_u32 (RingSize Q)) as H32 by (unfold is_u32; lia).
  pose proof (size_pages_exact _ H32 Hmod) as Hp.
  assert (0 <= AvailSize Q < 2 ^ 22) as H1 by (unfold AvailSize, SIZEOF_DESC; lia).
  assert (0 <= UsedSize Q < 2 ^ 22) as H2 by (unfold UsedSize, SIZEOF_USED_ELEM; lia).
  destruct (align_page (AvailSize Q)) as [H3 H4]; [lia|].
  destruct (align_page (UsedSize Q)) as [H5 H6]; [lia|].
  assert (forall x, base + SIZEOF_DESC * Q + 2 + 2 + 2 * Q + 2 - base = AvailSize Q + x - x) as Ea
    by (unfold AvailSize; lia).
  specialize (Ea 0). rewrite Z.add_0_r, Z.sub_0_r in Ea.
  split; unfold LayOut; cbn [NumPages Base Desc Avail_Flags Avail_Idx Avail_Ring Avail_UsedEvent Used_Flags
    Used_Idx Used_UsedElem Used_AvailEvent QueueSize]; rewrite ?Ea; try done.
  - unfold AvailSize in *. lia.
  - rewrite <-H4. f_equal. lia.
  - rewrite Hp, E. unfold UsedSize in *. lia.
Qed.

(** A ring that owns its pages. *)
Record ring_ok (r : VRING) (P : page_map) : Prop := {
  ro_queue : 0 < QueueSize r < 2 ^ 16;
  ro_layout : layout_facts r;
  ro_pages : P !! Base r = Some (NumPages r);
  ro_base : 0 <= Base r /\ Base r mod EFI_PAGE_SIZE = 0;
  ro_end : Base r + EFI_PAGE_SIZE * NumPages r <= MAX_ADDRESS;
}.

Lemma ring_in_pages r P a n :
  ring_ok r P -> Base r <= a -> a + n <= Base r + EFI_PAGE_SIZE * NumPages r -> in_pages P a n = true.
Proof. intros [] ??. by eapply in_pages_intro. Qed.

(** The ring's parts are in its pages. *)
Lemma ring_part r P a n :
  ring_ok r P -> Desc r <= a -> a + n <= Used_AvailEvent r + 2 -> in_pages P a n = true.
Proof.
  intros Hr Ha Hn. destruct (ro_layout _ _ Hr). eapply ring_in_pages; [exact Hr|lia|lia].
Qed.
Lemma desc_part r P i k n :
  ring_ok r P -> 0 <= i < QueueSize r -> 0 <= k -> k + n <= SIZEOF_DESC ->
  in_pages P (Desc r + SIZEOF_DESC * i + k) n = true.
Proof.
  intros Hr Hi Hk Hn. pose proof (ro_queue _ _ Hr). destruct (ro_layout _ _ Hr).
  unfold SIZEOF_DESC, SIZEOF_USED_ELEM in *. apply (ring_part r); [done|lia|lia].
Qed.
Lemma avail_part r P i :
  ring_ok r P -> 0 <= i < QueueSize r -> in_pages P (Avail_Ring r + 2 * i) 2 = true.
Proof.
  intros Hr Hi. pose proof (ro_queue _ _ Hr). destruct (ro_layout _ _ Hr).
  unfold SIZEOF_DESC, SIZEOF_USED_ELEM in *. apply (ring_part r); [done|lia|lia].
Qed.
Lemma used_part r P i k :
  ring_ok r P -> 0 <= i < QueueSize r -> 0 <= k <= 4 ->
  in_pages P (Used_UsedElem r + SIZEOF_USED_ELEM * i + k) 4 = true.
Proof.
  intros Hr Hi Hk. pose proof (ro_queue _ _ Hr). destruct (ro_layout _ _ Hr).
  unfold SIZEOF_DESC, SIZEOF_USED_ELEM in *. apply (ring_part r); [done|lia|lia].
Qed.
Lemma flags_part r P : ring_ok r P -> in_pages P (Avail_Flags r) 2 = true /\ in_pages P (Avail_Idx r) 2 = true /\ in_pages P (Used_Idx r) 2 = true.
Proof.
  intros Hr. pose proof (ro_queue _ _ Hr). destruct (ro_layout _ _ Hr).
  unfold SIZEOF_DESC, SIZEOF_USED_ELEM in *. split_and!; apply (ring_part r); done || lia.
Qed.

Section VirtioLib.
Context {W : Type} {V : VirtIo W}.
Implicit Types s : st (W:=W).

(** ** Symbolic execution *)
(** Only the device and the memory changed. *)
Definition world s s' : Prop := exists w m, s' = set_world w m s.

Lemma world_refl s : world s s.
Proof. exists (Env s), (Mem s). by destruct s. Qed.
Lemma world_trans s1 s2 s3 : world s1 s2 -> world s2 s3 -> world s1 s3.
Proof. intros (w & m & ->) (w' & m' & ->). by exists w', m'. Qed.
Lemma world_mem s m : world s (set_mem m s).
Proof. by exists (Env s), m. Qed.

Lemma wp_vcall {A} (f : vop W A) (Q : A -> st -> Prop) s :
  wp (vcall f) Q s <-> (let '(a, m, w) := f (Env s) (Mem s) in Q a (set_world w m s)).
Proof. unfold wp, vcall. by destruct (f (Env s) (Mem s)) as [[??]?]. Qed.
(** When the answer does not matter. *)
Lemma wp_vcall_any {A} (f : vop W A) (Q : A -> st -> Prop) s :
  (forall a s', world s s' -> Q a s') -> wp (vcall f) Q s.
Proof.
  intros H. rewrite wp_vcall. destruct (f (Env s) (Mem s)) as [[a m] w]. apply H. by exists w, m.
Qed.

Lemma wp_vio_read_le a n (Q : Z -> st -> Prop) s :
  in_pages (Pages s) a n = true -> Q (le_combine (mem_get (Mem s) a n)) s -> wp (read_le a n) Q s.
Proof. intros E HQ. unfold read_le. wp_steps. by rewrite E. Qed.
Lemma wp_vio_write a bs (Q : unit -> st -> Prop) s :
  in_pages (Pages s) a (Z.of_nat (length bs)) = true ->
  Q tt (set_mem (mem_set (Mem s) a bs) s) -> wp (write_mem a bs) Q s.
Proof. intros E HQ. unfold write_mem. wp_steps. by rewrite E. Qed.
Lemma wp_modulo x n (Q : Z -> st -> Prop) s : n <> 0 -> Q (x mod n) s -> wp (modulo x n) Q s.
Proof. intros Hn HQ. unfold modulo. case_match; [lia|]. by wp_steps. Qed.
Lemma wp_tell e (Q : unit -> st -> Prop) s : wp (tell e) Q s <-> Q tt (log e s).
Proof. done. Qed.

Context {VL : VirtIoLaws W}.

Lemma wp_AllocateShared n (Q : EFI_STATUS * Z -> st -> Prop) s :
  (forall s' Status a, EFI_ERROR Status = true -> world s s' -> Q (Status, a) s') ->
  (forall s' Status a, EFI_ERROR Status = false -> world s s' ->
    0 < a -> a mod EFI_PAGE_SIZE = 0 -> a + EFI_PAGE_SIZE * n <= MAX_ADDRESS -> disjoint_from (Pages s) a n ->
    Q (Status, a) (set_pages (<[a := n]> (Pages s)) s')) ->
  wp (AllocateSharedPages n) Q s.
Proof.
  intros HN HS. unfold AllocateSharedPages. wp_steps. rewrite wp_vcall.
  destruct (vio_AllocateSharedPages (Pages s) n (Env s) (Mem s)) as [[[Status a] m] w] eqn:E.
  cbn [fst snd]. wp_steps. destruct (EFI_ERROR Status) eqn:ES; wp_steps.
  - apply HN; [done|]. by exists w, m.
  - destruct (AllocateSharedPages_fresh _ _ _ _ _ _ _ _ E ES) as (? & ? & ? & ?).
    apply (HS (set_world w m s)); try done. by exists w, m.
Qed.

Lemma wp_FreeShared n a (Q : unit -> st -> Prop) s :
  Pages s !! a = Some n ->
  (forall s', world (set_pages (delete a (Pages s)) (log (EvFreePages a n) s)) s' -> Q tt s') ->
  wp (FreeSharedPages n a) Q s.
Proof.
  intros E HQ. unfold FreeSharedPages. wp_steps. rewrite wp_deref. exists n. split; [done|].
  rewrite Z.eqb_refl. wp_steps. rewrite wp_tell. wp_steps. apply wp_vcall_any. intros [] s' Hw.
  apply HQ. exact Hw.
Qed.

Lemma wp_Map op host size (Q : EFI_STATUS * Z * Z * Z -> st -> Prop) s :
  (forall s' Status n dev tok, EFI_ERROR Status = true -> world s s' -> Q (Status, n, dev, tok) s') ->
  (forall s' Status n dev tok, EFI_ERROR Status = false -> world s s' -> Maps s !! tok = None -> is_u64 dev ->
    Q (Status, n, dev, tok)
      (log (EvMap op host n dev (Mem s)) (set_maps (<[tok := (op, host, n, dev)]> (Maps s)) s'))) ->
  wp (MapSharedBuffer op host size) Q s.
Proof.
  intros HN HS. unfold MapSharedBuffer. wp_steps. rewrite wp_vcall.
  destruct (vio_MapSharedBuffer (Maps s) op host size (Env s) (Mem s)) as [[[[[Status n] dev] tok] m] w] eqn:E.
  wp_steps. destruct (EFI_ERROR Status) eqn:ES; wp_steps.
  - apply HN; [done|]. by exists w, m.
  - destruct (MapSharedBuffer_fresh _ _ _ _ _ _ _ _ _ _ _ _ E ES).
    apply (HS (set_world w m s)); try done. by exists w, m.
Qed.

Lemma wp_Unmap tok x (Q : EFI_STATUS -> st -> Prop) s :
  Maps s !! tok = Some x ->
  (forall Status s', world (set_maps (delete tok (Maps s)) (log (EvUnmap tok) s)) s' -> Q Status s') ->
  wp (UnmapSharedBuffer tok) Q s.
Proof.
  intros E HQ. unfold UnmapSharedBuffer. wp_steps. rewrite wp_deref. exists x. split; [done|].
  wp_steps. rewrite wp_tell. wp_steps. apply wp_vcall_any. intros St s' Hw. apply HQ. exact Hw.
Qed.

(** ** VirtioRingInit, VirtioRingUninit *)
Lemma VirtioRingInit_spec Q s :
  0 < Q < 2 ^ 16 ->
  wp (VirtioRingInit Q) (fun '(Status, r) s' =>
    (EFI_ERROR Status = true /\ world s s') \/
    (Status = EFI_SUCCESS /\ QueueSize r = Q /\ ring_ok r (Pages s') /\
     disjoint_from (Pages s) (Base r) (NumPages r) /\
     (exists w m, s' = set_world w m (set_pages (<[Base r := NumPages r]> (Pages s)) s)) /\
     forall x, Base r <= x < Base r + EFI_PAGE_SIZE * NumPages r -> Mem s' x = 0)) s.
Proof.
  intros HQ. unfold VirtioRingInit. cbv zeta. wp_step. apply wp_AllocateShared.
  { intros s' Status a HE Hw. rewrite HE. wp_steps. by left. }
  intros s' Status base HE Hw H0 Hal Hend Hdis. rewrite HE. wp_steps.
  destruct (ring_size Q ltac:(lia)) as (E & Hmod & Hpos & Hlt).
  assert (is_u32 (RingSize Q)) as H32 by (unfold is_u32; lia).
  pose proof (size_pages_exact _ H32 Hmod) as Hp. set (pages := EFI_SIZE_TO_PAGES (RingSize Q)) in *.
  apply wp_vio_write.
  { rewrite length_replicate. eapply in_pages_intro; [apply lookup_insert_eq|]. unfold page_range. lia. }
  wp_steps. right. destruct Hw as (w & m & ->).
  assert (ring_ok (LayOut pages base Q) (<[base := pages]> (Pages s))) as Hro.
  { split; try done; [by apply LayOut_facts; lia|by rewrite lookup_insert_eq|split; [cbn; lia|done]]. }
  split; [done|]. split; [done|]. split; [exact Hro|]. split; [done|]. split; [by eexists w, _|].
  cbn. intros x Hx. fold pages in Hx. rewrite mem_set_inside by (rewrite length_replicate; lia).
  apply nth_zeros.
Qed.

Lemma VirtioRingUninit_spec r s :
  Pages s !! Base r = Some (NumPages r) ->
  wp (VirtioRingUninit r) (fun r' s' => r' = zero_vring /\
    world (set_pages (delete (Base r) (Pages s)) (log (EvFreePages (Base r) (NumPages r)) s)) s') s.
Proof. intros HP. unfold VirtioRingUninit. wp_step. apply wp_FreeShared; [done|]. intros s' Hw. by wp_steps. Qed.

(** ** Descriptors *)
Definition desc_addr (r : VRING) (i : Z) : Z := Desc r + SIZEOF_DESC * i.
(** Addr, Len, Flags, Next of descriptor [i]. *)
Definition desc_at (m : memory) (r : VRING) (i : Z) : Z * Z * Z * Z :=
  let p := desc_addr r i in
  (le_combine (mem_get m p 8), le_combine (mem_get m (p + 8) 4),
   le_combine (mem_get m (p + 12) 2), le_combine (mem_get m (p + 14) 2)).

Lemma desc_at_ext m m' r i :
  (forall x, desc_addr r i <= x < desc_addr r i + SIZEOF_DESC -> m x = m' x) -> desc_at m r i = desc_at m' r i.
Proof.
  unfold desc_at, SIZEOF_DESC. intros H. cbv zeta.
  repeat match goal with |- context [mem_get m ?a ?n] =>
    rewrite (mem_get_ext m m' a n) by (intros x Hx; apply H; lia) end. done.
Qed.

Lemma le_read_write m a n v :
  0 <= v < 256 ^ Z.of_nat n -> le_combine (mem_get (mem_set m a (le_split n v)) a (Z.of_nat n)) = v.
Proof.
  intros Hv. rewrite mem_get_set by (by rewrite length_le_split). rewrite le_combine_split. by apply Z.mod_small.
Qed.

Lemma VirtioAppendDesc_spec r addr size flags ind s :
  ring_ok r (Pages s) -> is_u64 addr -> is_u32 size -> is_u16 flags ->
  wp (VirtioAppendDesc r addr size flags ind) (fun ind' s' =>
    let i := NextDescIdx ind mod QueueSize r in
    ind' = mkIndices (HeadDescIdx ind) (u16 (NextDescIdx ind + 1)) /\
    exists m, s' = set_mem m s /\
      desc_at m r i = (addr, size, flags, NextDescIdx ind' mod QueueSize r) /\
      forall x, ~ (desc_addr r i <= x < desc_addr r i + SIZEOF_DESC) -> m x = Mem s x) s.
Proof.
  intros Hr Ha Hs Hf. pose proof (ro_queue _ _ Hr) as HQ. destruct (ro_layout _ _ Hr) as [L1 L2 L3 L4 L5 L6 L7 L8 L9 L10 L11 L12].
  unfold VirtioAppendDesc. wp_step. apply wp_modulo; [lia|]. cbv zeta.
  set (i := NextDescIdx ind mod QueueSize r).
  assert (0 <= i < QueueSize r) as Hi by (apply Z.mod_pos_bound; lia).
  set (p := Desc r + SIZEOF_DESC * i). unfold SIZEOF_DESC, SIZEOF_USED_ELEM in *.
  assert (forall k n, 0 <= k -> k + n <= 16 -> in_pages (Pages s) (p + k) n = true) as Hin.
  { intros k n Hk Hn. eapply ring_in_pages; [exact Hr|lia..]. }
  unfold write_le. wp_step. apply wp_vio_write; [rewrite length_le_split, <-(Z.add_0_r p); apply Hin; lia|].
  wp_step. apply wp_vio_write; [rewrite length_le_split; apply Hin; lia|].
  wp_step. apply wp_vio_write; [rewrite length_le_split; apply Hin; lia|].
  wp_step. apply wp_modulo; [lia|]. cbn [NextDescIdx HeadDescIdx].
  wp_step. apply wp_vio_write; [rewrite length_le_split; apply Hin; lia|].
  wp_steps. split; [done|]. eexists. split; [reflexivity|]. cbn [Mem set_mem set_world].
  assert (0 <= u16 (NextDescIdx ind + 1) mod QueueSize r < 2 ^ 16) as Hnext by lia_div.
  split.
  - unfold desc_at, desc_addr, SIZEOF_DESC. fold p. cbv zeta. unfold is_u64, is_u32, is_u16 in *.
    repeat f_equal.
    + rewrite !mem_get_set_disjoint by (rewrite length_le_split; lia). by apply (le_read_write _ _ 8).
    + rewrite !mem_get_set_disjoint by (rewrite length_le_split; lia). by apply (le_read_write _ _ 4).
    + rewrite !mem_get_set_disjoint by (rewrite length_le_split; lia). by apply (le_read_write _ _ 2).
    + by apply (le_read_write _ _ 2).
  - intros x Hx. unfold desc_addr, SIZEOF_DESC in Hx. fold p in Hx.
    rewrite !mem_set_outside by (rewrite length_le_split; lia). done.
Qed.

(** A whole chain: the buffers [l] as (address, size, flags). *)
Fixpoint AppendAll (r : VRING) (l : list (Z * Z * Z)) (ind : DESC_INDICES) : M (st (W:=W)) DESC_INDICES :=
  match l with
  | [] => mret ind
  | (a, n, f) :: l => ind ← VirtioAppendDesc r a n f ind; AppendAll r l ind
  end.
Definition buffer_ok (b : Z * Z * Z) : Prop := is_u64 b.1.1 /\ is_u32 b.1.2 /\ is_u16 b.2.
(** The descriptors from index [k] on are the buffers [l], each linked to the
    next slot. *)
Definition chain_at (m : memory) (r : VRING) (k : nat) (l : list (Z * Z * Z)) : Prop :=
  forall i b, l !! i = Some b ->
    desc_at m r (Z.of_nat (k + i)) = (b, (Z.of_nat (k + i) + 1) mod QueueSize r).

Definition in_table (r : VRING) (x : Z) : Prop := Desc r <= x < Desc r + SIZEOF_DESC * QueueSize r.

Lemma AppendAll_spec r l (k : nat) s :
  ring_ok r (Pages s) -> Forall buffer_ok l -> Z.of_nat (k + length l) <= QueueSize r ->
  wp (AppendAll r l (mkIndices 0 (Z.of_nat k))) (fun ind s' =>
    ind = mkIndices 0 (Z.of_nat (k + length l)) /\
    exists m, s' = set_mem m s /\ chain_at m r k l /\
      (forall x, ~ in_table r x -> m x = Mem s x) /\
      (forall x, x < desc_addr r (Z.of_nat k) -> m x = Mem s x)) s.
Proof.
  revert k s. induction l as [|[[a n] f] l IH]; intros k s Hr Hl Hk; cbn [AppendAll length] in *.
  { wp_steps. rewrite Nat.add_0_r. split; [done|]. exists (Mem s). split; [by destruct s|]. done. }
  apply Forall_cons in Hl as [(Ha & Hn & Hf) Hl]. cbn in Ha, Hn, Hf. pose proof (ro_queue _ _ Hr) as HQ.
  wp_step. eapply wp_mono; [by apply VirtioAppendDesc_spec|].
  intros ind s1 [-> (m1 & -> & Hd1 & Ho1)]. cbn [HeadDescIdx NextDescIdx] in *.
  rewrite Z.mod_small in Hd1, Ho1 by lia.
  assert (u16 (Z.of_nat k + 1) = Z.of_nat (S k)) as Hu by (unfold u16; rewrite Z.mod_small; lia).
  rewrite Hu in Hd1 |- *. eapply wp_mono; [apply (IH (S k)); [exact Hr|done|lia]|].
  intros ind s2 [-> (m2 & -> & Hc & Ht & Hlow)]. cbn [Mem set_mem set_world] in *.
  split; [f_equal; lia|]. exists m2. split; [done|]. unfold desc_addr, in_table, SIZEOF_DESC in *. split_and!.
  - intros [|i] b Hb; cbn in Hb.
    + injection Hb as <-. rewrite Nat.add_0_r. replace (Z.of_nat k + 1) with (Z.of_nat (S k)) by lia.
      rewrite <-Hd1. apply desc_at_ext. unfold desc_addr, SIZEOF_DESC. intros x Hx. apply Hlow. lia.
    + replace (k + S i)%nat with (S k + i)%nat by lia. by apply Hc.
  - intros x Hx. rewrite Ht by done. apply Ho1. lia.
  - intros x Hx. rewrite Hlow by lia. apply Ho1. lia.
Qed.

Definition u16_at (m : memory) (a : Z) : Z := le_combine (mem_get m a 2).

Lemma VirtioPrepare_spec r s :
  ring_ok r (Pages s) ->
  wp (VirtioPrepare r) (fun ind s' => ind = mkIndices 0 0 /\
    exists m, s' = set_mem m s /\ u16_at m (Avail_Flags r) = VRING_AVAIL_F_NO_INTERRUPT /\
      forall x, ~ (Avail_Flags r <= x < Avail_Flags r + 2) -> m x = Mem s x) s.
Proof.
  intros Hr. pose proof (ro_queue _ _ Hr) as HQ.
  destruct (ro_layout _ _ Hr) as [L1 L2 L3 L4 L5 L6 L7 L8 L9 L10 L11 L12].
  unfold VirtioPrepare, write_le, SIZEOF_DESC, SIZEOF_USED_ELEM in *. wp_step. apply wp_vio_write.
  { rewrite length_le_split. eapply ring_in_pages; [exact Hr|lia..]. }
  wp_steps. split; [done|]. eexists. split; [reflexivity|]. split.
  - by apply (le_read_write _ _ 2).
  - intros x Hx. apply mem_set_outside. rewrite length_le_split. lia.
Qed.

Lemma chain_spec r l s :
  ring_ok r (Pages s) -> Forall buffer_ok l -> Z.of_nat (length l) <= QueueSize r ->
  wp (ind ← VirtioPrepare r; AppendAll r l ind) (fun ind s' =>
    ind = mkIndices 0 (Z.of_nat (length l)) /\
    exists m, s' = set_mem m s /\ chain_at m r 0 l /\
      u16_at m (Avail_Flags r) = VRING_AVAIL_F_NO_INTERRUPT /\
      forall x, ~ (Desc r <= x < Avail_Flags r + 2) -> m x = Mem s x) s.
Proof.
  intros Hr Hl Hlen. pose proof (ro_queue _ _ Hr) as HQ.
  destruct (ro_layout _ _ Hr) as [L1 L2 L3 L4 L5 L6 L7 L8 L9 L10 L11 L12].
  wp_step. eapply wp_mono; [by apply VirtioPrepare_spec|]. intros ind s1 [-> (m1 & -> & Hf & Ho)].
  eapply wp_mono; [apply (AppendAll_spec r l 0); [exact Hr|done|lia]|].
  intros ind s2 [-> (m2 & -> & Hc & Ht & _)]. cbn [Mem set_mem set_world] in *. split; [done|].
  exists m2. split; [done|]. split; [done|]. unfold in_table, SIZEOF_DESC in *. split.
  - rewrite <-Hf. unfold u16_at. f_equal. apply mem_get_ext. intros x Hx. apply Ht. lia.
  - intros x Hx. rewrite Ht by lia. apply Ho. lia.
Qed.

(** ** Submission and polling *)
Definition next_period (p : Z) : Z := if p <? 1024 then p * 2 else p.
Fixpoint periods (k : nat) (p : Z) : list Z :=
  match k with O => [] | S k => p :: periods k (next_period p) end.
Definition logs (es : list event) (s : st (W:=W)) : st :=
  mkSt (Env s) (Mem s) (Pages s) (Maps s) (Trace s ++ es) (Pool s) (Opens s) (Events s) (Interfaces s).

(** The device and memory after [k] polling delays. *)
Fixpoint poll_world (k : nat) (p : Z) (x : W * memory) : W * memory :=
  match k with
  | O => x
  | S k => let '(_, m, w) := vio_Stall p x.1 x.2 in poll_world k (next_period p) (w, m)
  end.

Lemma PollUsed_done r next k p s :
  in_pages (Pages s) (Used_Idx r) 2 = true ->
  u16_at (poll_world k p (Env s, Mem s)).2 (Used_Idx r) = next ->
  forall fuel, (k < fuel)%nat ->
  wp (PollUsed fuel r next p) (fun _ s' => exists j w m, (j <= k)%nat /\
    poll_world j p (Env s, Mem s) = (w, m) /\ u16_at m (Used_Idx r) = next /\
    s' = logs (EvStall <$> periods j p) (set_world w m s)) s.
Proof.
  revert p s. induction k as [|k IH]; intros p s Hin Hu [|fuel] Hk; try lia; cbn [PollUsed].
  - wp_step. apply wp_vio_read_le; [done|]. cbn in Hu. unfold u16_at in Hu. rewrite Hu, Z.eqb_refl.
    wp_steps. exists 0%nat, (Env s), (Mem s). split_and!; try done. unfold logs.
    cbn. rewrite app_nil_r. by destruct s.
  - wp_step. apply wp_vio_read_le; [done|].
    destruct (Z.eqb_spec (le_combine (mem_get (Mem s) (Used_Idx r) 2)) next) as [E|E].
    { wp_steps. exists 0%nat, (Env s), (Mem s). split_and!; try done; [lia|]. unfold logs.
      cbn. rewrite app_nil_r. by destruct s. }
    unfold Stall. wp_steps. rewrite wp_tell. rewrite wp_vcall. cbn [Env Mem log].
    cbn [poll_world fst snd] in Hu. destruct (vio_Stall p (Env s) (Mem s)) as [[[] m] w] eqn:ES.
    fold (next_period p). eapply wp_mono; [apply (IH (next_period p)); [exact Hin|exact Hu|lia]|].
    intros [] s' (j & w' & m' & Hj & Hw & Hd & ->). exists (S j), w', m'. split_and!; try done; [lia|..].
    + cbn [poll_world fst snd]. by rewrite ES.
    + unfold logs, set_world, log. cbn. by rewrite <-(assoc_L (++)).
Qed.

(** The loop ends exactly when the device completes the request. *)
Lemma PollUsed_iff fuel r next p s :
  in_pages (Pages s) (Used_Idx r) 2 = true ->
  (PollUsed fuel r next p s = Trap OutOfFuel) <->
  (forall k, (k < fuel)%nat -> u16_at (poll_world k p (Env s, Mem s)).2 (Used_Idx r) <> next).
Proof.
  intros Hin. split.
  - intros Ht k Hk Hu. pose proof (PollUsed_done r next k p s Hin Hu fuel Hk) as H.
    unfold wp in H. by rewrite Ht in H.
  - revert p s Hin. induction fuel as [|fuel IH]; intros p s Hin H; [done|]. cbn [PollUsed].
    unfold mbind, M_bind, read_le, mbind, M_bind, get. cbn beta iota. rewrite Hin. cbn beta iota.
    destruct (Z.eqb_spec (le_combine (mem_get (Mem s) (Used_Idx r) 2)) next) as [E|E].
    { exfalso. apply (H 0%nat); [lia|]. exact E. }
    apply Z.eqb_neq in E. unfold mret, M_ret. cbn beta. rewrite E. unfold Stall, tell, modify, vcall, mbind, M_bind. cbn [Env Mem log].
    destruct (vio_Stall p (Env s) (Mem s)) as [[[] m] w] eqn:ES. fold (next_period p).
    apply IH; [exact Hin|]. intros k Hk. specialize (H (S k) ltac:(lia)). cbn [poll_world fst snd] in H.
    by rewrite ES in H.
Qed.

(** The device completes each accepted notification within [N] polls. *)
Definition Responsive (q : Z) (r : VRING) (N : nat) : Prop :=
  forall w m Status m1 w1, vio_SetQueueNotify q w m = (Status, m1, w1) -> EFI_ERROR Status = false ->
    exists k, (k <= N)%nat /\ u16_at (poll_world k 1 (w1, m1)).2 (Used_Idx r) = u16_at m (Avail_Idx r).

(** The available ring as the driver leaves it: one more entry, the head of
    the chain. *)
Definition submitted (r : VRING) (head : Z) (m0 m : memory) : Prop :=
  let a := u16_at m0 (Avail_Idx r) in
  u16_at m (Avail_Ring r + 2 * (a mod QueueSize r)) = head mod QueueSize r /\
  u16_at m (Avail_Idx r) = u16 (a + 1) /\
  forall x, ~ (Avail_Idx r <= x < Avail_Ring r + 2 * QueueSize r) -> m x = m0 x.

(** The device accepted the notification at [mn] and completed the request
    with memory [m]. *)
Definition completed (q : Z) (r : VRING) (mn m : memory) : Prop :=
  exists w Status m1 w1 k w2, vio_SetQueueNotify q w mn = (Status, m1, w1) /\ EFI_ERROR Status = false /\
    poll_world k 1 (w1, m1) = (w2, m) /\ u16_at m (Used_Idx r) = u16_at mn (Avail_Idx r).

(** The device refused the notification at [mn]. *)
Definition rejected (q : Z) (mn : memory) (Status : EFI_STATUS) : Prop :=
  exists w m1 w1, vio_SetQueueNotify q w mn = (Status, m1, w1) /\ EFI_ERROR Status = true.

(** The same, for a device in the state [w]: accepted and completed after [k]
    polls, in the state [w'] with memory [m'], or refused. *)
Definition answered (q : Z) (r : VRING) (w : W) (mn : memory) (k : nat) (w' : W) (m' : memory) : Prop :=
  exists Status m1 w1, vio_SetQueueNotify q w mn = (Status, m1, w1) /\ EFI_ERROR Status = false /\
    poll_world k 1 (w1, m1) = (w', m') /\ u16_at m' (Used_Idx r) = u16_at mn (Avail_Idx r).
Definition refused (q : Z) (w : W) (mn : memory) (Status : EFI_STATUS) (w' : W) (m' : memory) : Prop :=
  vio_SetQueueNotify q w mn = (Status, m', w') /\ EFI_ERROR Status = true.

Lemma answered_completed q r w mn k w' m' : answered q r w mn k w' m' -> completed q r mn m'.
Proof. intros (St & m1 & w1 & ? & ? & ? & ?). by exists w, St, m1, w1, k, w'. Qed.
Lemma refused_rejected q w mn St w' m' : refused q w mn St w' m' -> rejected q mn St.
Proof. intros [??]. by exists w, m', w'. Qed.

Lemma VirtioFlush_answer N q r ind s :
  ring_ok r (Pages s) -> Responsive q r N ->
  wp (VirtioFlush (S N) q r ind false) (fun '(Status, _) s' =>
    exists m w m' k, submitted r (HeadDescIdx ind) (Mem s) m /\
      s' = logs (EvNotify q m :: (EvStall <$> periods k 1)) (set_world w m' s) /\ (k <= N)%nat /\
      ((refused q (Env s) m Status w m' /\ k = 0%nat) \/ (Status = EFI_SUCCESS /\ answered q r (Env s) m k w m'))) s.
Proof.
  intros Hr HR. pose proof (ro_queue _ _ Hr) as HQ.
  destruct (ro_layout _ _ Hr) as [L1 L2 L3 L4 L5 L6 L7 L8 L9 L10 L11 L12].
  unfold VirtioFlush, write_le, SIZEOF_DESC, SIZEOF_USED_ELEM in *.
  wp_step. apply wp_vio_read_le; [eapply ring_in_pages; [exact Hr|lia..]|].
  set (a := le_combine (mem_get (Mem s) (Avail_Idx r) 2)).
  wp_step. apply wp_modulo; [lia|]. wp_step. apply wp_modulo; [lia|]. cbv zeta.
  assert (0 <= a mod QueueSize r < QueueSize r) as Hi by (apply Z.mod_pos_bound; lia).
  assert (0 <= HeadDescIdx ind mod QueueSize r < QueueSize r) as Hh by (apply Z.mod_pos_bound; lia).
  wp_step. apply wp_vio_write; [rewrite length_le_split; eapply ring_in_pages; [exact Hr|lia..]|].
  wp_step. apply wp_vio_write; [rewrite length_le_split; eapply ring_in_pages; [exact Hr|lia..]|].
  set (m := mem_set (Mem _) (Avail_Idx r) _).
  assert (submitted r (HeadDescIdx ind) (Mem s) m) as Hsub.
  { unfold submitted. change (u16_at (Mem s) (Avail_Idx r)) with a. cbv zeta. cbn [Mem set_mem set_world] in m. fold a in m. split_and!.
    - unfold u16_at, m. rewrite mem_get_set_disjoint by (rewrite length_le_split; lia).
      apply (le_read_write _ _ 2). lia.
    - unfold m. apply (le_read_write _ _ 2). unfold u16. lia_div.
    - intros x Hx. unfold m. rewrite !mem_set_outside by (rewrite length_le_split; lia). done. }
  unfold SetQueueNotify. wp_step. wp_step. wp_step. wp_step. rewrite wp_tell, wp_vcall.
  cbn [Env Mem log set_mem set_world].
  destruct (vio_SetQueueNotify q (Env s) m) as [[Status m1] w1] eqn:EN.
  destruct (EFI_ERROR Status) eqn:ES.
  { wp_steps. exists m, w1, m1, 0%nat. split; [done|]. split; [done|]. split; [lia|]. left.
    split; done. }
  destruct (HR _ _ _ _ _ EN ES) as (k & Hk & Hu).
  assert (u16_at m (Avail_Idx r) = u16 (a + 1)) as Hai by apply Hsub. rewrite Hai in Hu.
  wp_step. eapply wp_mono.
  { apply (PollUsed_done r (u16 (a + 1)) k 1); [|exact Hu|lia].
    eapply ring_in_pages; [exact Hr|lia..]. }
  intros [] s' (j & w' & m' & Hj & Hp & Hd & ->). wp_steps. exists m, w', m', j.
  split; [done|]. split; [unfold logs, log, set_mem, set_world; cbn; by rewrite <-(assoc_L (++))|].
  split; [lia|]. right. split; [done|]. exists Status, m1, w1. by rewrite Hai.
Qed.

Lemma VirtioFlush_spec N q r ind s :
  ring_ok r (Pages s) -> Responsive q r N ->
  wp (VirtioFlush (S N) q r ind false) (fun '(Status, _) s' =>
    exists m w m' k, submitted r (HeadDescIdx ind) (Mem s) m /\
      s' = logs (EvNotify q m :: (EvStall <$> periods k 1)) (set_world w m' s) /\ (k <= N)%nat /\
      ((rejected q m Status /\ k = 0%nat) \/ (Status = EFI_SUCCESS /\ completed q r m m'))) s.
Proof.
  intros Hr HR. eapply wp_mono; [by apply VirtioFlush_answer|].
  intros [Status n] s' (m & w & m' & k & Hs & -> & Hk & Hc). exists m, w, m', k. split_and!; try done.
  destruct Hc as [[H ->]|[-> H]]; [left; split; [by eapply refused_rejected|done]|right; split; [done|]].
  by eapply answered_completed.
Qed.

(** ** States in normal form

    [at_ s w m P X es]: the state [s] after the events [es], with device [w],
    memory [m], pages [P] and mappings [X]. *)
Definition at_ s (w : W) (m : memory) (P : page_map) (X : gmap Z mapping) (es : list event) : st (W:=W) :=
  mkSt w m P X (Trace s ++ es) (Pool s) (Opens s) (Events s) (Interfaces s).

Lemma at_self s : s = at_ s (Env s) (Mem s) (Pages s) (Maps s) [].
Proof. unfold at_. rewrite app_nil_r. by destruct s. Qed.

Lemma wp_at_self {A} (f : M (st (W:=W)) A) Q s :
  wp f Q (at_ s (Env s) (Mem s) (Pages s) (Maps s) []) -> wp f Q s.
Proof. by rewrite <-at_self. Qed.

Lemma log_at e s w m P X es : log e (at_ s w m P X es) = at_ s w m P X (es ++ [e]).
Proof. unfold log, at_. cbn. by rewrite (assoc_L (++)). Qed.
Lemma logs_at l s w m P X es w' m' :
  logs l (set_world w' m' (at_ s w m P X es)) = at_ s w' m' P X (es ++ l).
Proof. unfold logs, at_. cbn. by rewrite (assoc_L (++)). Qed.
Lemma logs_world_at l s w' m' : logs l (set_world w' m' s) = at_ s w' m' (Pages s) (Maps s) l.
Proof. done. Qed.

(** Everything but a notification. *)
Definition quiet (e : event) : Prop := match e with EvNotify _ _ => False | _ => True end.

Lemma wp_at_call {A} (f : vop W A) (Q : A -> st -> Prop) s w m P X es :
  (forall a w' m', Q a (at_ s w' m' P X es)) -> wp (vcall f) Q (at_ s w m P X es).
Proof. intros H. apply wp_vcall_any. intros a s' (w' & m' & ->). apply H. Qed.

Lemma wp_at_tell_call {A} e (f : vop W A) (Q : A -> st -> Prop) s w m P X es :
  (forall a w' m', Q a (at_ s w' m' P X (es ++ [e]))) -> wp (tell e;; vcall f) Q (at_ s w m P X es).
Proof. intros H. wp_step. rewrite wp_tell, log_at. by apply wp_at_call. Qed.

Lemma wp_at_SetDeviceStatus v (Q : EFI_STATUS -> st -> Prop) s w m P X es :
  (forall St w' m', Q St (at_ s w' m' P X (es ++ [EvStatus v]))) ->
  wp (SetDeviceStatus v) Q (at_ s w m P X es).
Proof. apply wp_at_tell_call. Qed.

Lemma wp_at_Unmap tok x (Q : EFI_STATUS -> st -> Prop) s w m P X es :
  X !! tok = Some x ->
  (forall St w' m', Q St (at_ s w' m' P (delete tok X) (es ++ [EvUnmap tok]))) ->
  wp (UnmapSharedBuffer tok) Q (at_ s w m P X es).
Proof.
  intros Hx HQ. eapply wp_Unmap; [exact Hx|]. intros St s' (w' & m' & ->). rewrite log_at. apply HQ.
Qed.

(** Memory accesses. *)
Lemma wp_at_read a n (Q : Z -> st -> Prop) s w m P X es :
  in_pages P a n = true -> Q (le_combine (mem_get m a n)) (at_ s w m P X es) ->
  wp (read_le a n) Q (at_ s w m P X es).
Proof. intros. by apply wp_vio_read_le. Qed.
Lemma wp_at_write_mem a bs (Q : unit -> st -> Prop) s w m P X es :
  in_pages P a (Z.of_nat (length bs)) = true -> Q tt (at_ s w (mem_set m a bs) P X es) ->
  wp (write_mem a bs) Q (at_ s w m P X es).
Proof. intros. by apply wp_vio_write. Qed.
Lemma wp_at_write a n v (Q : unit -> st -> Prop) s w m P X es :
  in_pages P a (Z.of_nat n) = true -> Q tt (at_ s w (mem_set m a (le_split n v)) P X es) ->
  wp (write_le a n v) Q (at_ s w m P X es).
Proof. intros. apply wp_at_write_mem; by rewrite ?length_le_split. Qed.
Lemma wp_at_poke a bs (Q : unit -> st -> Prop) s w m P X es :
  Q tt (at_ s w (mem_set m a bs) P X es) -> wp (poke a bs) Q (at_ s w m P X es).
Proof. done. Qed.

Lemma wp_at_Free n a (Q : unit -> st -> Prop) s w m P X es :
  P !! a = Some n ->
  (forall w' m', Q tt (at_ s w' m' (delete a P) X (es ++ [EvFreePages a n]))) ->
  wp (FreeSharedPages n a) Q (at_ s w m P X es).
Proof.
  intros Hx HQ. eapply wp_FreeShared; [exact Hx|]. intros s' (w' & m' & ->). rewrite log_at. apply HQ.
Qed.

Lemma wp_at_Map op host size (Q : EFI_STATUS * Z * Z -> st -> Prop) s w m P X es :
  (forall St dev tok w' m' l, EFI_ERROR St = true -> Forall quiet l ->
     Q (St, dev, tok) (at_ s w' m' P X (es ++ l))) ->
  (forall dev tok n w' m', X !! tok = None -> is_u64 dev -> size <= n ->
     Q (EFI_SUCCESS, dev, tok)
       (at_ s w' m' P (<[tok := (op, host, n, dev)]> X) (es ++ [EvMap op host n dev m]))) ->
  wp (VirtioMapAllBytesInSharedBuffer op host size) Q (at_ s w m P X es).
Proof.
  intros HN HS. unfold VirtioMapAllBytesInSharedBuffer. wp_step. apply wp_Map.
  { intros s' Status n dev tok HE (w' & m' & ->). rewrite HE. wp_steps.
    specialize (HN Status 0 0 w' m' [] HE). rewrite app_nil_r in HN. by apply HN. }
  intros s' Status n dev tok HE (w' & m' & ->) Hf Hd. rewrite HE.
  change (set_maps ?X' (set_world w' m' (at_ s w m P X es))) with (at_ s w' m' P X' es).
  rewrite log_at. cbn [Mem Maps at_] in *. destruct (Z.ltb_spec n size) as [Hlt|Hge].
  - wp_step. eapply wp_at_Unmap; [apply lookup_insert_eq|]. intros St w2 m2. wp_steps.
    rewrite delete_insert_id, <-(assoc_L (++)) by done. apply HN; [done|]. repeat constructor.
  - wp_steps. by apply HS.
Qed.

(** The same steps with the answers of the calls named. *)
Lemma wp_at_call_eq {A} (f : vop W A) (Q : A -> st -> Prop) s w m P X es :
  (forall a w' m', f w m = (a, m', w') -> Q a (at_ s w' m' P X es)) -> wp (vcall f) Q (at_ s w m P X es).
Proof. intros H. rewrite wp_vcall. cbn [Env Mem at_]. destruct (f w m) as [[a m'] w'] eqn:E. by apply (H a w' m'). Qed.

Lemma wp_at_Unmap_eq tok x (Q : EFI_STATUS -> st -> Prop) s w m P X es :
  X !! tok = Some x ->
  (forall St w' m', vio_UnmapSharedBuffer tok w m = (St, m', w') -> Q St (at_ s w' m' P (delete tok X) (es ++ [EvUnmap tok]))) ->
  wp (UnmapSharedBuffer tok) Q (at_ s w m P X es).
Proof.
  intros HX HQ. unfold UnmapSharedBuffer. wp_steps. rewrite wp_deref. exists x. split; [done|].
  wp_steps. rewrite wp_tell, log_at. wp_steps. change (set_maps _ (at_ s w m P X ?l)) with (at_ s w m P (delete tok X) l).
  by apply wp_at_call_eq.
Qed.

(** Mapping [size] bytes: the device maps [n] of them at [dev]; or the call
    fails, or maps too few and is undone, telling the device [l]. *)
Definition mapped (X : gmap Z mapping) op (host size : Z) (w : W) (m : memory) (n dev tok : Z) (w' : W) (m' : memory) : Prop :=
  exists St, vio_MapSharedBuffer X op host size w m = (St, n, dev, tok, m', w') /\ EFI_ERROR St = false.
Definition map_refused (X : gmap Z mapping) op (host size : Z) (w : W) (m : memory) (w' : W) (m' : memory) (l : list event) : Prop :=
  (l = [] /\ exists St n dev tok, vio_MapSharedBuffer X op host size w m = (St, n, dev, tok, m', w') /\ EFI_ERROR St = true) \/
  (exists n dev tok w1 m1 St, mapped X op host size w m n dev tok w1 m1 /\ n < size /\
     vio_UnmapSharedBuffer tok w1 m1 = (St, m', w') /\ l = [EvMap op host n dev m; EvUnmap tok]).

Lemma wp_at_Map_eq op host size (Q : EFI_STATUS * Z * Z -> st -> Prop) s w m P X es :
  (forall St dev tok w' m' l, EFI_ERROR St = true -> map_refused X op host size w m w' m' l ->
     Q (St, dev, tok) (at_ s w' m' P X (es ++ l))) ->
  (forall dev tok n w' m', mapped X op host size w m n dev tok w' m' -> X !! tok = None -> is_u64 dev -> size <= n ->
     Q (EFI_SUCCESS, dev, tok)
       (at_ s w' m' P (<[tok := (op, host, n, dev)]> X) (es ++ [EvMap op host n dev m]))) ->
  wp (VirtioMapAllBytesInSharedBuffer op host size) Q (at_ s w m P X es).
Proof.
  intros HN HS. unfold VirtioMapAllBytesInSharedBuffer, MapSharedBuffer. wp_steps. cbn [Maps at_].
  apply wp_at_call_eq. intros [[[Status n] dev] tok] w' m' E. cbn beta iota. wp_steps. destruct (EFI_ERROR Status) eqn:HE; wp_steps.
  { rewrite HE. wp_steps. specialize (HN Status 0 0 w' m' [] HE). rewrite app_nil_r in HN. apply HN. left. eauto 10. }
  rewrite HE. destruct (MapSharedBuffer_fresh _ _ _ _ _ _ _ _ _ _ _ _ E HE) as [Hf Hd].
  assert (mapped X op host size w m n dev tok w' m') as Hm by by exists Status.
  cbn [Maps Mem at_]. change (set_maps ?X' (at_ s w' m' P X es)) with (at_ s w' m' P X' es). rewrite log_at.
  destruct (Z.ltb_spec n size) as [Hlt|Hge].
  - wp_step. eapply wp_at_Unmap_eq; [apply lookup_insert_eq|]. intros St w2 m2 EU. wp_steps.
    rewrite delete_insert_id, <-(assoc_L (++)) by done. apply HN; [done|]. right. exists n, dev, tok, w', m', St. done.
  - wp_steps. by apply HS.
Qed.

(** A range of pages that other pages do not touch stays a ring. *)
Lemma ring_ok_insert r P a n : ring_ok r P -> disjoint_from P a n -> ring_ok r (<[a := n]> P).
Proof.
  intros [HQ HL HP HB HE] Hd. split; try done. rewrite lookup_insert_ne; [done|].
  intros ->. by destruct (Hd _ _ HP).
Qed.
End VirtioLib.
