(* ===== verification/VirtioDriver.v ===== *)
(** * What the virtio drivers share

    Boot services of a driver binding, configuration accesses, and the lemmas
    on initialisation, submission and release that every virtio driver's
    proofs use. *)
From S2P Require Import Prelude Bytes Memory OrderedCollection Virtio VirtioProofs.

(** Boot services of the driver binding. *)
Class BootServices (W : Type) := {
  bs_OpenByDriver : vop W EFI_STATUS;
  bs_CloseProtocol : vop W unit;
  bs_AllocateZeroPool : vop W bool;
  bs_CreateEvent : vop W EFI_STATUS;
  bs_CloseEvent : vop W unit;
  bs_InstallInterface : vop W EFI_STATUS;
  bs_UninstallInterface : vop W EFI_STATUS;
  bs_GetInterface : vop W EFI_STATUS;
}.

Section VirtioDriver.
Context {W : Type} {V : VirtIo W} {BS : BootServices W}.

Definition CfgRead (c : Z * Z) : M (st (W:=W)) (EFI_STATUS * Z) := ReadDevice c.1 c.2.

Definition Hold (pool opens events interfaces : Z) : M (st (W:=W)) unit :=
  modify (add_held pool opens events interfaces).

Definition OpenByDriver : M (st (W:=W)) EFI_STATUS :=
  Status ← vcall bs_OpenByDriver; (if EFI_ERROR Status then mret tt else Hold 0 1 0 0);; mret Status.
Definition CloseProtocol : M (st (W:=W)) unit := vcall bs_CloseProtocol;; Hold 0 (-1) 0 0.
Definition CreateEvent : M (st (W:=W)) EFI_STATUS :=
  Status ← vcall bs_CreateEvent; (if EFI_ERROR Status then mret tt else Hold 0 0 1 0);; mret Status.
Definition CloseEvent : M (st (W:=W)) unit := vcall bs_CloseEvent;; Hold 0 0 (-1) 0.
Definition InstallInterface : M (st (W:=W)) EFI_STATUS :=
  Status ← vcall bs_InstallInterface; (if EFI_ERROR Status then mret tt else Hold 0 0 0 1);; mret Status.
Definition UninstallInterface : M (st (W:=W)) EFI_STATUS :=
  Status ← vcall bs_UninstallInterface; (if EFI_ERROR Status then mret tt else Hold 0 0 0 (-1));; mret Status.

End VirtioDriver.

Section Lemmas.
Context {W : Type} {V : VirtIo W} {VL : VirtIoLaws W}.
Implicit Types s : st (W:=W).

(** ** Initialisation *)
(** [Status = f (); if (EFI_ERROR (Status)) goto label; ...] *)
Lemma wp_at_try {A} (f : vop W EFI_STATUS) (c : EFI_STATUS -> M (st (W:=W)) A) (k : M (st (W:=W)) A) Q s w m P X es :
  (forall St w' m', EFI_ERROR St = true -> wp (c St) Q (at_ s w' m' P X es)) ->
  (forall w' m', wp k Q (at_ s w' m' P X es)) ->
  wp (Status ← vcall f; if EFI_ERROR Status then c Status else k) Q (at_ s w m P X es).
Proof.
  intros HN HS. wp_step. apply wp_at_call. intros St w' m'. destruct (EFI_ERROR St) eqn:HE; auto.
Qed.
Lemma wp_at_tell_try {A} e (f : vop W EFI_STATUS) (c : EFI_STATUS -> M (st (W:=W)) A) (k : M (st (W:=W)) A) Q s w m P X es :
  (forall St w' m', EFI_ERROR St = true -> wp (c St) Q (at_ s w' m' P X (es ++ [e]))) ->
  (forall w' m', wp k Q (at_ s w' m' P X (es ++ [e]))) ->
  wp (Status ← (tell e;; vcall f); if EFI_ERROR Status then c Status else k) Q (at_ s w m P X es).
Proof.
  intros HN HS. wp_step. apply wp_at_tell_call. intros St w' m'. destruct (EFI_ERROR St) eqn:HE; auto.
Qed.

(** A configuration read changes only the device and the memory. *)
Lemma wp_CfgRead c (Q : EFI_STATUS * Z -> st -> Prop) s w m P X es :
  0 <= c.2 -> (forall St v w' m', 0 <= v < 256 ^ c.2 -> Q (St, v) (at_ s w' m' P X es)) ->
  wp (CfgRead c) Q (at_ s w m P X es).
Proof.
  intros Hc H. unfold CfgRead, ReadDevice. rewrite wp_vcall. cbn [Env Mem at_].
  destruct (vio_ReadDevice c.1 c.2 w m) as [[[St v] m'] w'] eqn:E.
  apply H. by eapply (ReadDevice_field _ _ _ _ _ _ _ _ Hc).
Qed.

Definition modern : bool := VIRTIO_SPEC_REVISION 1 0 0 <=? Revision.
Lemma legacy_modern : (Revision <? VIRTIO_SPEC_REVISION 1 0 0) = negb modern.
Proof. unfold modern. apply Z.ltb_antisym. Qed.

(** The features told to the host: below virtio 1.0, without the two of 1.0. *)
Definition told_features (F : Z) : Z :=
  if modern then F else Z.land F (u64 (Z.lnot (VIRTIO_F_VERSION_1 + VIRTIO_F_IOMMU_PLATFORM))).

Lemma Virtio10WriteFeatures_spec F nds s w m P X es :
  wp (Virtio10WriteFeatures F nds) (fun '(St, Got) s' =>
    (EFI_ERROR St = true /\ exists w' m' l, s' = at_ s w' m' P X (es ++ l)) \/
    (EFI_ERROR St = false /\ modern = true /\ is_u8 Got /\ Z.land Got VSTAT_FEATURES_OK <> 0 /\
     exists w' m', s' = at_ s w' m' P X (es ++ [EvFeatures F; EvStatus (Z.lor nds VSTAT_FEATURES_OK)])))
    (at_ s w m P X es).
Proof.
  unfold Virtio10WriteFeatures. rewrite legacy_modern. destruct modern eqn:HM; cbn [negb].
  2:{ wp_steps. left. split; [done|]. exists w, m, []. by rewrite app_nil_r. }
  apply wp_at_tell_try.
  { intros St w1 m1 HE. wp_steps. left. eauto. }
  intros w1 m1. cbv zeta. apply wp_at_tell_try.
  { intros St w2 m2 HE. wp_steps. left. split; [done|]. rewrite <-(assoc_L (++)). eauto. }
  intros w2 m2. rewrite <-(assoc_L (++)). cbn [app]. wp_step. unfold GetDeviceStatus. rewrite wp_vcall.
  cbn [Env Mem at_]. destruct (vio_GetDeviceStatus w2 m2) as [[[St Got] m3] w3] eqn:EG.
  change (set_world w3 m3 (at_ s w2 m2 P X ?es')) with (at_ s w3 m3 P X es').
  pose proof (GetDeviceStatus_u8 _ _ _ _ _ _ EG) as HG. destruct (EFI_ERROR St) eqn:HE.
  { wp_steps. left. eauto. }
  destruct (Z.eqb_spec (Z.land Got VSTAT_FEATURES_OK) 0) as [|Hne]; wp_steps.
  - left. eauto.
  - right. rewrite HE. eauto 10.
Qed.

(** What the host is told when the queue starts; [cfg]: the driver's own
    configuration writes. *)
Definition start_events (cfg : list event) (F nds base shift : Z) : list event :=
  [EvQueueAddress base shift] ++ (if modern then [] else [EvFeatures (told_features F)]) ++ cfg ++
  [EvStatus (Z.lor nds VSTAT_DRIVER_OK)].

Definition ring_events (cfg : list event) (F nds : Z) (r : VRING) (m : memory) (n dev : Z) : list event :=
  [EvMap VirtioOperationBusMasterCommonBuffer (Base r) n dev m] ++
  start_events cfg F nds (Base r) (u64 (dev - Base r)).

(** The state [s] left by a failed initialisation: nothing held, and the host
    told that the driver gave up. *)
Definition gave_up {D} s (P : page_map) (X : gmap Z mapping) (out : EFI_STATUS * D) s' : Prop :=
  EFI_ERROR out.1 = true /\ exists w' m' es v, s' = at_ s w' m' P X (es ++ [EvStatus (Z.lor v VSTAT_FAILED)]).

(** What was said to the host before the queue was set up. *)
Definition greeting (F : Z) : list event :=
  [EvStatus 0; EvStatus VSTAT_ACK; EvStatus (Z.lor VSTAT_ACK VSTAT_DRIVER)] ++
  (if modern then [EvFeatures F; EvStatus (Z.lor (Z.lor VSTAT_ACK VSTAT_DRIVER) VSTAT_FEATURES_OK)] else []).

(** ** Resources of the driver binding *)
Lemma add_held_at a b c d s w m P X es :
  add_held a b c d (at_ s w m P X es) = at_ (add_held a b c d s) w m P X es.
Proof. done. Qed.
Lemma add_held_add a b c d a' b' c' d' s :
  add_held a' b' c' d' (add_held a b c d s) = add_held (a + a') (b + b') (c + c') (d + d') s.
Proof. unfold add_held. cbn. f_equal; lia. Qed.
Lemma add_held_0 s : add_held 0 0 0 0 s = s.
Proof. unfold add_held. rewrite !Z.add_0_r. by destruct s. Qed.

Lemma wp_at_Hold a b c d (Q : unit -> st -> Prop) s w m P X es :
  Q tt (at_ (add_held a b c d s) w m P X es) -> wp (Hold a b c d) Q (at_ s w m P X es).
Proof. done. Qed.

(** Acquiring: all or nothing. *)
Lemma wp_at_acquire (f : vop W EFI_STATUS) a b c d (Q : EFI_STATUS -> st -> Prop) s w m P X es :
  (forall St w' m', EFI_ERROR St = true -> Q St (at_ s w' m' P X es)) ->
  (forall St w' m', EFI_ERROR St = false -> Q St (at_ (add_held a b c d s) w' m' P X es)) ->
  wp (Status ← vcall f; (if EFI_ERROR Status then mret tt else Hold a b c d);; mret Status) Q (at_ s w m P X es).
Proof.
  intros HN HS. wp_step. apply wp_at_call. intros St w' m'. wp_step. destruct (EFI_ERROR St) eqn:HE.
  - wp_steps. auto.
  - apply wp_at_Hold. wp_steps. auto.
Qed.
Lemma wp_at_release (f : vop W unit) a b c d (Q : unit -> st -> Prop) s w m P X es :
  (forall w' m', Q tt (at_ (add_held a b c d s) w' m' P X es)) ->
  wp (vcall f;; Hold a b c d) Q (at_ s w m P X es).
Proof. intros H. wp_step. apply wp_at_call. intros [] w' m'. apply wp_at_Hold. apply H. Qed.

Definition restored s (P : page_map) (X : gmap Z mapping) s' : Prop :=
  exists w' m' es, s' = at_ s w' m' P X es.

Lemma restored_held s a b c d P X w m es :
  a = 0 -> b = 0 -> c = 0 -> d = 0 -> restored s P X (at_ (add_held a b c d s) w m P X es).
Proof. intros -> -> -> ->. rewrite add_held_0. by exists w, m, es. Qed.

(** A failed start: no device, and everything given back. *)
Definition start_failed {D} s P X (out : EFI_STATUS * option D) s' : Prop :=
  EFI_ERROR out.1 = true /\ out.2 = None /\ restored s P X s'.

(** ** Submission *)
(** The memory [m] at a notification offers the host exactly one more entry,
    whose chain is the request. *)
Definition offers (r : VRING) (m : memory) (l : list (Z * Z * Z)) : Prop :=
  chain_at m r 0 l /\
  exists a, u16_at m (Avail_Idx r) = u16 (a + 1) /\ u16_at m (Avail_Ring r + 2 * (a mod QueueSize r)) = 0.

Lemma chain_at_ext m m' r l :
  (forall x, in_table r x -> m x = m' x) -> Z.of_nat (length l) <= QueueSize r ->
  chain_at m r 0 l -> chain_at m' r 0 l.
Proof.
  intros Hm Hl Hc i b Hb. rewrite <-(Hc i b Hb). apply desc_at_ext. intros x Hx. symmetry. apply Hm.
  apply lookup_lt_Some in Hb. unfold in_table, desc_addr, SIZEOF_DESC in *. lia.
Qed.

Lemma byte_at m a : le_combine (mem_get m a 1) = m a.
Proof. unfold mem_get. rewrite seqZ_cons, seqZ_nil by lia. cbn. lia. Qed.

(** A chain [l] laid out at descriptor 0, submitted and answered. *)
Lemma flush_chain N q r l s w mc P X es :
  ring_ok r P -> Z.of_nat (length l) <= QueueSize r -> chain_at mc r 0 l -> Responsive q r N ->
  wp (VirtioFlush (S N) q r (mkIndices 0 (Z.of_nat (length l))) false) (fun '(Status, _) s' =>
    exists mn w' m' k, s' = at_ s w' m' P X (es ++ EvNotify q mn :: (EvStall <$> periods k 1)) /\ (k <= N)%nat /\
      offers r mn l /\
      ((rejected q mn Status /\ Status <> EFI_SUCCESS) \/ (Status = EFI_SUCCESS /\ completed q r mn m')))
    (at_ s w mc P X es).
Proof.
  intros Hr Hl Hc HR. pose proof (ro_queue _ _ Hr) as HQ.
  eapply wp_mono; [by apply VirtioFlush_spec|].
  intros [Status n] s' (mn & w' & m' & k & Hsub & -> & Hk & Hcase). rewrite logs_at. cbn [HeadDescIdx] in *.
  destruct Hsub as (Hs1 & Hs2 & Hs3). cbn [Mem at_] in *.
  exists mn, w', m', k. split; [done|]. split; [done|]. split.
  - split.
    + eapply chain_at_ext; [|done|exact Hc].
      intros x Hx. symmetry. apply Hs3. unfold in_table in Hx.
      destruct (ro_layout _ _ Hr). unfold SIZEOF_DESC in *. lia.
    + exists (u16_at mc (Avail_Idx r)). split; [done|]. rewrite Hs1. apply Z.mod_0_l. lia.
  - destruct Hcase as [[Hrej _]|H]; [left|by right]. split; [done|]. intros ->.
    destruct Hrej as (? & ? & ? & _ & HE). discriminate HE.
Qed.

(** ** Pages and the ring *)
Lemma wp_at_Pages n (Q : EFI_STATUS * Z -> st -> Prop) s w m P X es :
  (forall St a w' m', EFI_ERROR St = true -> Q (St, a) (at_ s w' m' P X es)) ->
  (forall St a w' m', vio_AllocateSharedPages P n w m = (St, a, m', w') -> EFI_ERROR St = false ->
     0 < a -> a mod EFI_PAGE_SIZE = 0 -> a + EFI_PAGE_SIZE * n <= MAX_ADDRESS -> disjoint_from P a n ->
     (forall x, ~ (a <= x < a + EFI_PAGE_SIZE * n) -> m' x = m x) ->
     Q (St, a) (at_ s w' m' (<[a := n]> P) X es)) ->
  wp (AllocateSharedPages n) Q (at_ s w m P X es).
Proof.
  intros HN HS. unfold AllocateSharedPages. wp_steps. rewrite wp_vcall. cbn [Pages Env Mem at_].
  destruct (vio_AllocateSharedPages P n w m) as [[[Status a] m'] w'] eqn:E.
  cbn [fst snd]. wp_steps. destruct (EFI_ERROR Status) eqn:ES; wp_steps; [by apply HN|].
  destruct (AllocateSharedPages_fresh _ _ _ _ _ _ _ _ E ES) as (? & ? & ? & ?).
  pose proof (AllocateSharedPages_frame _ _ _ _ _ _ _ _ E ES) as Hfr. by apply HS.
Qed.

Lemma fresh_not_live (P : page_map) a n : disjoint_from P a n -> P !! a = None.
Proof. intros Hd. destruct (P !! a) eqn:E; [|done]. by destruct (Hd _ _ E). Qed.

Lemma wp_at_RingInit Q (K : EFI_STATUS * VRING -> st -> Prop) s w m P X es :
  0 < Q < 2 ^ 16 ->
  (forall St r w' m', EFI_ERROR St = true -> K (St, r) (at_ s w' m' P X es)) ->
  (forall r w' m', QueueSize r = Q -> ring_ok r (<[Base r := NumPages r]> P) -> P !! Base r = None ->
     disjoint_from P (Base r) (NumPages r) ->
     (forall x, Base r <= x < Base r + EFI_PAGE_SIZE * NumPages r -> m' x = 0) ->
     K (EFI_SUCCESS, r) (at_ s w' m' (<[Base r := NumPages r]> P) X es)) ->
  wp (VirtioRingInit Q) K (at_ s w m P X es).
Proof.
  intros HQ HN HS. eapply wp_mono; [by apply VirtioRingInit_spec|].
  intros [St r] s' [[HE (w' & m' & ->)]|(-> & HrQ & Hr & Hdis & (w' & m' & ->) & Hz)].
  - by apply (HN St r w' m').
  - cbn [Pages Mem set_world set_pages at_] in *. apply (HS r w' m'); try done.
    by eapply fresh_not_live.
Qed.

Lemma ring_bytes r P : ring_ok r P -> EFI_PAGES_TO_SIZE (NumPages r) = EFI_PAGE_SIZE * NumPages r.
Proof.
  intros Hr. destruct (ro_layout _ _ Hr) as [L1 _ _ _ _ _ _ _ _ _ _ _]. pose proof (ro_queue _ _ Hr) as HQ.
  destruct (ring_size (QueueSize r) ltac:(lia)) as (_ & _ & Hb & Hb').
  apply EFI_PAGES_TO_SIZE_small. unfold EFI_PAGE_SIZE in *. lia.
Qed.

Lemma wp_at_RingMap r (K : EFI_STATUS * Z * Z -> st -> Prop) s w m P X es :
  ring_ok r P ->
  (forall St d t w' m' l, EFI_ERROR St = true -> K (St, d, t) (at_ s w' m' P X (es ++ l))) ->
  (forall dev tok n w' m', X !! tok = None -> EFI_PAGE_SIZE * NumPages r <= n ->
     K (EFI_SUCCESS, u64 (dev - Base r), tok)
       (at_ s w' m' P (<[tok := (VirtioOperationBusMasterCommonBuffer, Base r, n, dev)]> X)
          (es ++ [EvMap VirtioOperationBusMasterCommonBuffer (Base r) n dev m]))) ->
  wp (VirtioRingMap r) K (at_ s w m P X es).
Proof.
  intros Hr HN HS. unfold VirtioRingMap. wp_step. rewrite (ring_bytes r P Hr). apply wp_at_Map.
  - intros St dev tok w' m' l HE _. cbn beta iota. rewrite HE. wp_steps. by apply HN.
  - intros dev tok n w' m' HX Hdev Hn. cbn beta iota. change (EFI_ERROR EFI_SUCCESS) with false. cbn iota.
    wp_step. by apply HS.
Qed.
End Lemmas.
