(* ===== verification/VirtioMachine.v ===== *)
(** * A concrete virtio device

    The device behind the examples: an identity mapping, an allocator with
    four fixed places, and a host that answers a notification at once: it
    applies [touch] to the memory and completes the queue at [ring_base]. *)
From S2P Require Import Prelude Bytes Memory OrderedCollection Virtio VirtioProofs VirtioDriver.

Definition ring_base : Z := 0x100000.
Definition ring : VRING := LayOut (EFI_SIZE_TO_PAGES (RingSize 8)) ring_base 8.
Definition second_base : Z := 0x200000.
Definition third_base : Z := 0x300000.
Definition fourth_base : Z := 0x400000.
Definition local_request : Z := 0x1000.
Definition places : list Z := [ring_base; second_base; third_base; fourth_base].

Definition free_at (live : page_map) (a n : Z) : bool :=
  forallb (fun '(b, k) => negb (b =? a) &&
    ((a + EFI_PAGE_SIZE * n <=? b) || (b + EFI_PAGE_SIZE * k <=? a))) (map_to_list live).
Definition allocate (live : page_map) (n : Z) : option Z :=
  if (0 <? n) && (n <? 256) then find (fun a => free_at live a n) places else None.
Definition fresh_token (live : gmap Z mapping) : option Z :=
  find (fun t => bool_decide (live !! t = None)) [1; 2; 3; 4; 5; 6; 7; 8; 9; 10].

Definition ok {A} (a : A) : vop unit A := fun w m => (a, m, w).

Lemma free_at_disjoint live a n : free_at live a n = true -> disjoint_from live a n.
Proof.
  unfold free_at. rewrite forallb_forall. intros H b k Hb.
  assert (In (b, k) (map_to_list live)) as Hin by (apply list_elem_of_In; by apply elem_of_map_to_list).
  specialize (H _ Hin). cbn in H. apply andb_true_iff in H as [H1 H2]. lia.
Qed.

Lemma allocate_spec live n a : allocate live n = Some a ->
  0 < n < 256 /\ 0x100000 <= a <= 0x400000 /\ a mod EFI_PAGE_SIZE = 0 /\ disjoint_from live a n.
Proof.
  unfold allocate. destruct ((0 <? n) && (n <? 256)) eqn:E; [|done]. intros H. apply find_some in H as [H1 H2].
  split; [lia|]. apply free_at_disjoint in H2.
  unfold places, ring_base, second_base, third_base, fourth_base in H1. cbn in H1.
  destruct H1 as [<-|[<-|[<-|[<-|[]]]]]; split_and!; done || lia.
Qed.

Lemma fresh_token_spec live t : fresh_token live = Some t -> live !! t = None.
Proof. intros H. apply find_some in H as [_ H%bool_decide_eq_true]. done. Qed.

#[export] Instance boot : BootServices unit := {|
  bs_OpenByDriver := ok EFI_SUCCESS; bs_CloseProtocol := ok tt; bs_AllocateZeroPool := ok true;
  bs_CreateEvent := ok EFI_SUCCESS; bs_CloseEvent := ok tt; bs_InstallInterface := ok EFI_SUCCESS;
  bs_UninstallInterface := ok EFI_SUCCESS; bs_GetInterface := ok EFI_SUCCESS |}.

Section Device.
Context (subsystem features : Z) (config : Z -> Z -> Z) (touch : memory -> memory).

Definition device : VirtIo unit := {|
  Revision := VIRTIO_SPEC_REVISION 1 0 0;
  SubSystemDeviceId := subsystem;
  vio_GetDeviceFeatures := ok (EFI_SUCCESS, features);
  vio_SetGuestFeatures _ := ok EFI_SUCCESS;
  vio_SetQueueAddress _ _ := ok EFI_SUCCESS;
  vio_SetQueueSel _ := ok EFI_SUCCESS;
  vio_SetQueueNotify _ := fun w m =>
    (EFI_SUCCESS, mem_set (touch m) (Used_Idx ring) (mem_get m (Avail_Idx ring) 2), w);
  vio_SetQueueAlign _ := ok EFI_SUCCESS;
  vio_SetPageSize _ := ok EFI_SUCCESS;
  vio_GetQueueNumMax := ok (EFI_SUCCESS, 8);
  vio_SetQueueNum _ := ok EFI_SUCCESS;
  vio_GetDeviceStatus := ok (EFI_SUCCESS, 11);
  vio_SetDeviceStatus _ := ok EFI_SUCCESS;
  vio_ReadDevice off n := ok (EFI_SUCCESS, config off n);
  vio_WriteDevice _ _ _ := ok EFI_SUCCESS;
  vio_AllocateSharedPages live n := ok
    match allocate live n with Some a => (EFI_SUCCESS, a) | None => (EFI_OUT_OF_RESOURCES, 0) end;
  vio_FreeSharedPages _ _ := ok tt;
  vio_MapSharedBuffer live op host size := ok
    match fresh_token live with
    | Some t => if (0 <=? host) && (host <? 2 ^ 64) then (EFI_SUCCESS, size, host, t)
                else (EFI_UNSUPPORTED, 0, 0, 0)
    | None => (EFI_OUT_OF_RESOURCES, 0, 0, 0)
    end;
  vio_UnmapSharedBuffer _ := ok EFI_SUCCESS;
  vio_Stall _ := ok tt;
|}.
#[local] Existing Instance device.

Lemma device_laws :
  is_u64 features -> (forall off n, 0 <= n -> 0 <= config off n < 256 ^ n) -> VirtIoLaws unit.
Proof.
  intros Hf Hc. split; unfold is_u64, is_u16, is_u8 in *.
  - intros w m St v m' w' E. injection E as <- <- <- <-. done.
  - intros w m St v m' w' E. injection E as <- <- <- <-. done.
  - intros w m St v m' w' E. injection E as <- <- <- <-. done.
  - intros off n w m St v m' w' Hn E. injection E as <- <- <- <-. by apply Hc.
  - intros live n w m St a m' w' E HS. cbn in E. unfold ok in E.
    destruct (allocate live n) as [a'|] eqn:EA; injection E as <- <- <- <-; [|discriminate HS].
    apply allocate_spec in EA as (Hn & Ha & Hm & Hd).
    unfold EFI_PAGE_SIZE, MAX_ADDRESS in *. split_and!; try done; lia.
  - intros live n w m St a m' w' E HS. cbn in E. unfold ok in E.
    destruct (allocate live n) as [a'|] eqn:EA; injection E as <- <- <- <-; done.
  - intros live op host size w m St n dev tok m' w' E HS. unfold vio_MapSharedBuffer, device, ok in E.
    destruct (fresh_token live) as [t|] eqn:ET.
    + apply fresh_token_spec in ET. destruct ((0 <=? host) && (host <? 2 ^ 64)) eqn:EH;
        injection E as <- <- <- <- <- <-; [|discriminate HS]. split; [done|]. lia.
    + injection E as <- <- <- <- <- <-. discriminate HS.
Qed.

(** The allocator's places are above the first megabyte. *)
Lemma device_apart live n (w : unit) m St a m' w' :
  vio_AllocateSharedPages live n w m = (St, a, m', w') -> EFI_ERROR St = false -> 0x100000 <= a.
Proof.
  cbn. unfold ok. intros E HS. destruct (allocate live n) as [a'|] eqn:EA; injection E as <- <- <- <-.
  - apply allocate_spec in EA. lia.
  - discriminate HS.
Qed.

Lemma device_responsive q : Responsive q ring 0.
Proof.
  intros w m St m1 w1 E _. injection E as <- <- <-. exists 0%nat. split; [done|].
  cbn [poll_world snd]. unfold u16_at. f_equal.
Qed.
End Device.

Definition ring_pages : page_map := <[ring_base := NumPages ring]> ∅.
Lemma ring_ok_example : ring_ok ring ring_pages.
Proof. split; [done|by apply (LayOut_facts ring_base 8)|apply lookup_insert_eq|done|done]. Qed.
