(* ===== verification/VirtioBlk.v ===== *)
(** * VirtioBlkDxe: the virtio block device driver

    Models QemuPkg/VirtioBlkDxe/VirtioBlk.c: device initialisation and tear
    down, request verification, the synchronous request, the Block I/O
    operations, and the driver binding. *)
From S2P Require Import Prelude Bytes Memory OrderedCollection Virtio VirtioProofs VirtioDriver.

(** ** Data *)
Record EFI_BLOCK_IO_MEDIA : Type := mkMedia {
  MediaId : Z; RemovableMedia : bool; MediaPresent : bool; LogicalPartition : bool;
  ReadOnly : bool; WriteCaching : bool; BlockSize : Z; IoAlign : Z; LastBlock : Z;
  LowestAlignedLba : Z; LogicalBlocksPerPhysicalBlock : Z; OptimalTransferLengthGranularity : Z;
}.
Definition zero_media : EFI_BLOCK_IO_MEDIA := mkMedia 0 false false false false false 0 0 0 0 0 0.
Record VBLK_DEV : Type := mkDev {
  Ring : VRING;
  BlockIo_Revision : Z;
  BlockIoMedia : EFI_BLOCK_IO_MEDIA;
  RingMap : Z;
}.
Definition zero_dev : VBLK_DEV := mkDev zero_vring 0 zero_media 0.

Definition SIZE_1GB : Z := 2 ^ 30.
Definition VIRTIO_SUBSYSTEM_BLOCK_DEVICE : Z := 2.
Definition VIRTIO_BLK_F_RO : Z := 2 ^ 5.
Definition VIRTIO_BLK_F_BLK_SIZE : Z := 2 ^ 6.
Definition VIRTIO_BLK_F_FLUSH : Z := 2 ^ 9.
Definition VIRTIO_BLK_F_TOPOLOGY : Z := 2 ^ 10.
Definition VIRTIO_BLK_T_IN : Z := 0.
Definition VIRTIO_BLK_T_OUT : Z := 1.
Definition VIRTIO_BLK_T_FLUSH : Z := 4.
Definition VIRTIO_BLK_S_OK : Z := 0.
Definition VIRTIO_BLK_S_IOERR : Z := 1.
Definition SIZEOF_REQ : Z := 16.
Definition EFI_BLOCK_IO_PROTOCOL_REVISION3 : Z := 0x20001F.

(** Offset and size in VIRTIO_BLK_CONFIG. *)
Definition Cfg_Capacity : Z * Z := (0, 8).
Definition Cfg_BlkSize : Z * Z := (20, 4).
Definition Cfg_PhysicalBlockExp : Z * Z := (24, 1).
Definition Cfg_AlignmentOffset : Z * Z := (25, 1).
Definition Cfg_OptIoSize : Z * Z := (28, 4).

(** VIRTIO_BLK_REQ as it lies in memory. *)
Definition encode_request (Type_ IoPrio Sector : Z) : list Z :=
  le_split 4 Type_ ++ le_split 4 IoPrio ++ le_split 8 Sector.

Section VirtioBlk.
Context {W : Type} {V : VirtIo W} {BS : BootServices W}.
(** The address of the local variable Request. *)
Context (Request : Z).

Definition VerifyReadWriteRequest (Media : EFI_BLOCK_IO_MEDIA) (Lba PositiveBufferSize : Z)
    (RequestIsWrite : bool) : M (st (W:=W)) EFI_STATUS :=
  ASSERT (0 <? PositiveBufferSize);;
  if SIZE_1GB <? PositiveBufferSize then mret EFI_BAD_BUFFER_SIZE
  else
    r ← modulo PositiveBufferSize (BlockSize Media);
    if 0 <? r then mret EFI_BAD_BUFFER_SIZE
    else
      let BlockCount := PositiveBufferSize / BlockSize Media in
      if (LastBlock Media <? Lba) || (LastBlock Media - Lba <? BlockCount - 1)
      then mret EFI_INVALID_PARAMETER
      else if RequestIsWrite && ReadOnly Media then mret EFI_WRITE_PROTECTED
      else mret EFI_SUCCESS.

(** *** SynchronousRequest, label by label *)
Definition FreeHostStatusBuffer (HostStatus : Z) (Status : EFI_STATUS) : M (st (W:=W)) EFI_STATUS :=
  FreeSharedPages (EFI_SIZE_TO_PAGES 1) HostStatus;; mret Status.

Definition UnmapRequestBuffer (RequestMapping HostStatus : Z) (Status : EFI_STATUS) :=
  _ ← UnmapSharedBuffer RequestMapping; FreeHostStatusBuffer HostStatus Status.

Definition UnmapDataBuffer (BufferSize BufferMapping RequestMapping HostStatus : Z)
    (RequestIsWrite : bool) (Status : EFI_STATUS) :=
  Status ← (if 0 <? BufferSize then
              UnmapStatus ← UnmapSharedBuffer BufferMapping;
              mret (if EFI_ERROR UnmapStatus && negb RequestIsWrite && negb (EFI_ERROR Status)
                    then EFI_DEVICE_ERROR else Status)
            else mret Status);
  UnmapRequestBuffer RequestMapping HostStatus Status.

(** Building the chain and running it: from VirtioPrepare to the status. *)
Definition RunRequest (fuel : nat) (Ring : VRING) (RequestAddress BufferAddress StatusAddress : Z)
    (BufferSize : Z) (RequestIsWrite : bool) (HostStatus : Z) : M (st (W:=W)) EFI_STATUS :=
  Indices ← VirtioPrepare Ring;
  ASSERT (3 <=? QueueSize Ring);;
  Indices ← VirtioAppendDesc Ring RequestAddress SIZEOF_REQ VRING_DESC_F_NEXT Indices;
  Indices ← (if 0 <? BufferSize then
               ASSERT (BufferSize <=? SIZE_1GB);;
               VirtioAppendDesc Ring BufferAddress (u32 BufferSize)
                 (Z.lor VRING_DESC_F_NEXT (if RequestIsWrite then 0 else VRING_DESC_F_WRITE)) Indices
             else mret Indices);
  Indices ← VirtioAppendDesc Ring StatusAddress 1 VRING_DESC_F_WRITE Indices;
  r ← VirtioFlush fuel 0 Ring Indices false;
  if r.1 =? EFI_SUCCESS then
    b ← read_le HostStatus 1;
    mret (if b =? VIRTIO_BLK_S_OK then EFI_SUCCESS else EFI_DEVICE_ERROR)
  else mret EFI_DEVICE_ERROR.

Definition SynchronousRequest (fuel : nat) (Dev : VBLK_DEV) (Lba BufferSize Buffer : Z)
    (RequestIsWrite : bool) : M (st (W:=W)) EFI_STATUS :=
  let BlockSize := BlockSize (BlockIoMedia Dev) in
  ASSERT (0 <? BlockSize);;
  ASSERT (BlockSize mod 512 =? 0);;
  r ← modulo BufferSize BlockSize;
  ASSERT (r =? 0);;
  let Type_ := if RequestIsWrite
               then if BufferSize =? 0 then VIRTIO_BLK_T_FLUSH else VIRTIO_BLK_T_OUT
               else VIRTIO_BLK_T_IN in
  poke Request (encode_request Type_ 0 (u64 (Lba * (BlockSize / 512))));;
  r ← AllocateSharedPages (EFI_SIZE_TO_PAGES 1);
  let '(Status, HostStatus) := r in
  if EFI_ERROR Status then mret EFI_DEVICE_ERROR
  else
    r ← VirtioMapAllBytesInSharedBuffer VirtioOperationBusMasterRead Request SIZEOF_REQ;
    let '(Status, RequestDeviceAddress, RequestMapping) := r in
    if EFI_ERROR Status then FreeHostStatusBuffer HostStatus EFI_DEVICE_ERROR
    else
      r ← (if 0 <? BufferSize then
             VirtioMapAllBytesInSharedBuffer
               (if RequestIsWrite then VirtioOperationBusMasterRead else VirtioOperationBusMasterWrite)
               Buffer BufferSize
           else mret (EFI_SUCCESS, 0, 0));
      let '(Status, BufferDeviceAddress, BufferMapping) := r in
      if EFI_ERROR Status then UnmapRequestBuffer RequestMapping HostStatus EFI_DEVICE_ERROR
      else
        write_le HostStatus 1 VIRTIO_BLK_S_IOERR;;
        r ← VirtioMapAllBytesInSharedBuffer VirtioOperationBusMasterCommonBuffer HostStatus 1;
        let '(Status, StatusDeviceAddress, StatusMapping) := r in
        if EFI_ERROR Status then
          UnmapDataBuffer BufferSize BufferMapping RequestMapping HostStatus RequestIsWrite EFI_DEVICE_ERROR
        else
          Status ← RunRequest fuel (Ring Dev) RequestDeviceAddress BufferDeviceAddress StatusDeviceAddress
                     BufferSize RequestIsWrite HostStatus;
          _ ← UnmapSharedBuffer StatusMapping;
          UnmapDataBuffer BufferSize BufferMapping RequestMapping HostStatus RequestIsWrite Status.

(** *** Block I/O *)
Definition VirtioBlkReset : EFI_STATUS := EFI_SUCCESS.

Definition VirtioBlkReadBlocks (fuel : nat) (Dev : VBLK_DEV) (Lba BufferSize Buffer : Z) :=
  if BufferSize =? 0 then mret EFI_SUCCESS
  else
    Status ← VerifyReadWriteRequest (BlockIoMedia Dev) Lba BufferSize false;
    if EFI_ERROR Status then mret Status
    else SynchronousRequest fuel Dev Lba BufferSize Buffer false.

Definition VirtioBlkWriteBlocks (fuel : nat) (Dev : VBLK_DEV) (Lba BufferSize Buffer : Z) :=
  if BufferSize =? 0 then mret EFI_SUCCESS
  else
    Status ← VerifyReadWriteRequest (BlockIoMedia Dev) Lba BufferSize true;
    if EFI_ERROR Status then mret Status
    else SynchronousRequest fuel Dev Lba BufferSize Buffer true.

Definition VirtioBlkFlushBlocks (fuel : nat) (Dev : VBLK_DEV) : M (st (W:=W)) EFI_STATUS :=
  if WriteCaching (BlockIoMedia Dev)
  then SynchronousRequest fuel Dev 0 0 0 true
  else mret EFI_SUCCESS.

(** *** VirtioBlkInit

    [try s k]: [Status = s; if (EFI_ERROR (Status)) goto Label; k]. *)
Definition init_out : Type := EFI_STATUS * VBLK_DEV.

(** Labels, innermost last.  [Failed] reports to the host. *)
Definition Failed (Dev : VBLK_DEV) (NextDevStat : Z) (Status : EFI_STATUS) : M (st (W:=W)) init_out :=
  _ ← SetDeviceStatus (Z.lor NextDevStat VSTAT_FAILED); mret (Status, Dev).
Definition ReleaseQueue (Dev : VBLK_DEV) (NextDevStat : Z) (Status : EFI_STATUS) : M (st (W:=W)) init_out :=
  r ← VirtioRingUninit (Ring Dev);
  Failed (mkDev r (BlockIo_Revision Dev) (BlockIoMedia Dev) (RingMap Dev)) NextDevStat Status.
Definition UnmapQueue (Dev : VBLK_DEV) (NextDevStat : Z) (Status : EFI_STATUS) : M (st (W:=W)) init_out :=
  _ ← UnmapSharedBuffer (RingMap Dev); ReleaseQueue Dev NextDevStat Status.

(** Step 4a: sectors, block size, topology. *)
Record geometry : Type := mkGeometry {
  NumSectors : Z; Geo_BlockSize : Z; PhysicalBlockExp : Z; AlignmentOffset : Z; OptIoSize : Z }.

Definition ReadBlockSize (Features NumSectors : Z) : M (st (W:=W)) (EFI_STATUS * Z) :=
  if Z.land Features VIRTIO_BLK_F_BLK_SIZE =? 0 then mret (EFI_SUCCESS, 512)
  else
    r ← CfgRead Cfg_BlkSize;
    let '(Status, BlockSize) := r in
    if EFI_ERROR Status then mret (Status, 0)
    else if BlockSize =? 0 then mret (EFI_UNSUPPORTED, 0)
    else if negb (BlockSize mod 512 =? 0) then mret (EFI_UNSUPPORTED, 0)
    else
      k ← modulo NumSectors (BlockSize / 512);
      if negb (k =? 0) then mret (EFI_UNSUPPORTED, 0) else mret (EFI_SUCCESS, BlockSize).

Definition ReadTopology (Features : Z) : M (st (W:=W)) (EFI_STATUS * (Z * Z * Z)) :=
  if Z.land Features VIRTIO_BLK_F_TOPOLOGY =? 0 then mret (EFI_SUCCESS, (0, 0, 0))
  else
    r ← CfgRead Cfg_PhysicalBlockExp;
    let '(Status, Exp) := r in
    if EFI_ERROR Status then mret (Status, (0, 0, 0))
    else if 32 <=? Exp then mret (EFI_UNSUPPORTED, (0, 0, 0))
    else
      r ← CfgRead Cfg_AlignmentOffset;
      let '(Status, Off) := r in
      if EFI_ERROR Status then mret (Status, (0, 0, 0))
      else
        r ← CfgRead Cfg_OptIoSize;
        let '(Status, Opt) := r in
        if EFI_ERROR Status then mret (Status, (0, 0, 0)) else mret (EFI_SUCCESS, (Exp, Off, Opt)).

Definition ReadGeometry (Features : Z) : M (st (W:=W)) (EFI_STATUS * geometry) :=
  let none := mkGeometry 0 0 0 0 0 in
  r ← CfgRead Cfg_Capacity;
  let '(Status, NumSectors) := r in
  if EFI_ERROR Status then mret (Status, none)
  else if NumSectors =? 0 then mret (EFI_UNSUPPORTED, none)
  else
    r ← ReadBlockSize Features NumSectors;
    let '(Status, BlockSize) := r in
    if EFI_ERROR Status then mret (Status, none)
    else
      r ← ReadTopology Features;
      let '(Status, (Exp, Off, Opt)) := r in
      if EFI_ERROR Status then mret (Status, none)
      else mret (EFI_SUCCESS, mkGeometry NumSectors BlockSize Exp Off Opt).

Definition DRIVER_FEATURES : Z :=
  VIRTIO_BLK_F_BLK_SIZE + VIRTIO_BLK_F_TOPOLOGY + VIRTIO_BLK_F_RO + VIRTIO_BLK_F_FLUSH
  + VIRTIO_F_VERSION_1 + VIRTIO_F_IOMMU_PLATFORM.

(** The exported media attributes. *)
Definition PopulateMedia (Features : Z) (g : geometry) : EFI_BLOCK_IO_MEDIA :=
  let topo := negb (Z.land Features VIRTIO_BLK_F_TOPOLOGY =? 0) in
  mkMedia 0 false true false
    (negb (Z.land Features VIRTIO_BLK_F_RO =? 0)) (negb (Z.land Features VIRTIO_BLK_F_FLUSH =? 0))
    (Geo_BlockSize g) 0 (NumSectors g / (Geo_BlockSize g / 512) - 1)
    (if topo then AlignmentOffset g else 0)
    (if topo then Z.shiftl 1 (PhysicalBlockExp g) else 0)
    (if topo then OptIoSize g else 0).

(** Steps 4c to 6, with the ring mapped. *)
Definition StartQueue (Dev : VBLK_DEV) (NextDevStat Features RingBaseShift Q : Z) (g : geometry)
    : M (st (W:=W)) init_out :=
  Status ← SetQueueNum Q;
  if EFI_ERROR Status then UnmapQueue Dev NextDevStat Status else
  Status ← SetQueueAlign EFI_PAGE_SIZE;
  if EFI_ERROR Status then UnmapQueue Dev NextDevStat Status else
  Status ← SetQueueAddress (Ring Dev) RingBaseShift;
  if EFI_ERROR Status then UnmapQueue Dev NextDevStat Status else
  r ← (if Revision <? VIRTIO_SPEC_REVISION 1 0 0 then
         let Features := Z.land Features (u64 (Z.lnot (VIRTIO_F_VERSION_1 + VIRTIO_F_IOMMU_PLATFORM))) in
         Status ← SetGuestFeatures Features; mret (Status, Features)
       else mret (EFI_SUCCESS, Features));
  let '(Status, Features) := r in
  if EFI_ERROR Status then UnmapQueue Dev NextDevStat Status else
  let NextDevStat := Z.lor NextDevStat VSTAT_DRIVER_OK in
  Status ← SetDeviceStatus NextDevStat;
  if EFI_ERROR Status then UnmapQueue Dev NextDevStat Status else
  mret (EFI_SUCCESS,
        mkDev (Ring Dev)
          (if Z.land Features VIRTIO_BLK_F_TOPOLOGY =? 0 then 0 else EFI_BLOCK_IO_PROTOCOL_REVISION3)
          (PopulateMedia Features g) (RingMap Dev)).

(** Step 4b: the queue. *)
Definition SetUpQueue (Dev : VBLK_DEV) (NextDevStat Features : Z) (g : geometry) : M (st (W:=W)) init_out :=
  Status ← SetQueueSel 0;
  if EFI_ERROR Status then Failed Dev NextDevStat Status else
  r ← GetQueueNumMax;
  let '(Status, Q) := r in
  if EFI_ERROR Status then Failed Dev NextDevStat Status else
  if Q <? 3 then Failed Dev NextDevStat EFI_UNSUPPORTED else
  r ← VirtioRingInit Q;
  let '(Status, ring) := r in
  let Dev := mkDev ring (BlockIo_Revision Dev) (BlockIoMedia Dev) (RingMap Dev) in
  if EFI_ERROR Status then Failed Dev NextDevStat Status else
  r ← VirtioRingMap ring;
  let '(Status, RingBaseShift, tok) := r in
  if EFI_ERROR Status then ReleaseQueue Dev NextDevStat Status else
  let Dev := mkDev ring (BlockIo_Revision Dev) (BlockIoMedia Dev) tok in
  StartQueue Dev NextDevStat Features RingBaseShift Q g.

Definition Negotiate (Dev : VBLK_DEV) (NextDevStat Features : Z) (g : geometry) : M (st (W:=W)) init_out :=
  let Features := Z.land Features DRIVER_FEATURES in
  r ← (if VIRTIO_SPEC_REVISION 1 0 0 <=? Revision
       then Virtio10WriteFeatures Features NextDevStat
       else mret (EFI_SUCCESS, NextDevStat));
  let '(Status, NextDevStat) := r in
  if EFI_ERROR Status then Failed Dev NextDevStat Status
  else SetUpQueue Dev NextDevStat Features g.

Definition VirtioBlkInit (Dev : VBLK_DEV) : M (st (W:=W)) init_out :=
  let NextDevStat := 0 in
  Status ← SetDeviceStatus NextDevStat;
  if EFI_ERROR Status then Failed Dev NextDevStat Status else
  let NextDevStat := Z.lor NextDevStat VSTAT_ACK in
  Status ← SetDeviceStatus NextDevStat;
  if EFI_ERROR Status then Failed Dev NextDevStat Status else
  let NextDevStat := Z.lor NextDevStat VSTAT_DRIVER in
  Status ← SetDeviceStatus NextDevStat;
  if EFI_ERROR Status then Failed Dev NextDevStat Status else
  Status ← SetPageSize EFI_PAGE_SIZE;
  if EFI_ERROR Status then Failed Dev NextDevStat Status else
  r ← GetDeviceFeatures;
  let '(Status, Features) := r in
  if EFI_ERROR Status then Failed Dev NextDevStat Status else
  r ← ReadGeometry Features;
  let '(Status, g) := r in
  if EFI_ERROR Status then Failed Dev NextDevStat Status
  else Negotiate Dev NextDevStat Features g.

Definition VirtioBlkUninit (Dev : VBLK_DEV) : M (st (W:=W)) VBLK_DEV :=
  _ ← SetDeviceStatus 0;
  _ ← UnmapSharedBuffer (RingMap Dev);
  r ← VirtioRingUninit (Ring Dev);
  mret (mkDev r 0 zero_media (RingMap Dev)).

Definition VirtioBlkExitBoot (Dev : VBLK_DEV) : M (st (W:=W)) unit := _ ← SetDeviceStatus 0; mret tt.

(** *** Driver binding *)
Definition VirtioBlkDriverBindingSupported : M (st (W:=W)) EFI_STATUS :=
  Status ← OpenByDriver;
  if EFI_ERROR Status then mret Status
  else
    let Status := if SubSystemDeviceId =? VIRTIO_SUBSYSTEM_BLOCK_DEVICE then Status else EFI_UNSUPPORTED in
    CloseProtocol;; mret Status.

Definition FreeVirtioBlk (Status : EFI_STATUS) : M (st (W:=W)) (EFI_STATUS * option VBLK_DEV) :=
  Hold (-1) 0 0 0;; mret (Status, None).
Definition CloseVirtIo (Status : EFI_STATUS) := CloseProtocol;; FreeVirtioBlk Status.
Definition UninitDev (Dev : VBLK_DEV) (Status : EFI_STATUS) := _ ← VirtioBlkUninit Dev; CloseVirtIo Status.
Definition CloseExitBoot (Dev : VBLK_DEV) (Status : EFI_STATUS) := CloseEvent;; UninitDev Dev Status.

Definition VirtioBlkDriverBindingStart : M (st (W:=W)) (EFI_STATUS * option VBLK_DEV) :=
  ok ← vcall bs_AllocateZeroPool;
  if negb ok then mret (EFI_OUT_OF_RESOURCES, None)
  else
    Hold 1 0 0 0;;
    Status ← OpenByDriver;
    if EFI_ERROR Status then FreeVirtioBlk Status
    else
      r ← VirtioBlkInit zero_dev;
      let '(Status, Dev) := r in
      if EFI_ERROR Status then CloseVirtIo Status
      else
        Status ← CreateEvent;
        if EFI_ERROR Status then UninitDev Dev Status
        else
          Status ← InstallInterface;
          if EFI_ERROR Status then CloseExitBoot Dev Status
          else mret (EFI_SUCCESS, Some Dev).

(** [Dev]: the device that the handle's Block I/O interface belongs to. *)
Definition VirtioBlkDriverBindingStop (Dev : VBLK_DEV) : M (st (W:=W)) EFI_STATUS :=
  Status ← vcall bs_GetInterface;
  if EFI_ERROR Status then mret Status
  else
    Status ← UninstallInterface;
    if EFI_ERROR Status then mret Status
    else
      CloseEvent;;
      _ ← VirtioBlkUninit Dev;
      CloseProtocol;;
      Hold (-1) 0 0 0;;
      mret EFI_SUCCESS.
End VirtioBlk.
