(* ===== verification/VirtioBlkProofs.v ===== *)
(** * VirtioBlkDxe: correctness *)
From S2P Require Import Prelude Bytes Memory OrderedCollection Virtio VirtioProofs VirtioDriver VirtioBlk.

(** ** Media and devices *)
Record media_ok (X : EFI_BLOCK_IO_MEDIA) : Prop := {
  mo_block : 0 < BlockSize X < 2 ^ 32 /\ BlockSize X mod 512 = 0;
  mo_last : 0 <= LastBlock X;
  (** the disk has fewer than 2^64 sectors *)
  mo_sectors : (LastBlock X + 1) * (BlockSize X / 512) < 2 ^ 64;
}.
Record dev_ok (d : VBLK_DEV) (P : page_map) : Prop := {
  do_media : media_ok (BlockIoMedia d);
  do_ring : ring_ok (Ring d) P;
  do_queue : 3 <= QueueSize (Ring d);
}.

(** The condition on a read or write request. *)
Record request_valid (X : EFI_BLOCK_IO_MEDIA) (Lba Size : Z) (write : bool) : Prop := {
  rv_size : Size <= SIZE_1GB;
  rv_blocks : Size mod BlockSize X = 0;
  rv_end : Lba + Size / BlockSize X <= LastBlock X + 1;
  rv_write : write = true -> ReadOnly X = false;
}.

Lemma sector_of_block X : media_ok X -> 0 < BlockSize X / 512.
Proof. intros [[? ?] _ _]. lia_div. Qed.

(** The sectors of a valid request lie in the disk, and their number does not
    wrap around. *)
Lemma sectors_in_disk X Lba size write :
  media_ok X -> request_valid X Lba size write -> 0 < size -> 0 <= Lba ->
  Lba * (BlockSize X / 512) + size / 512 <= (LastBlock X + 1) * (BlockSize X / 512) /\
  u64 (Lba * (BlockSize X / 512)) = Lba * (BlockSize X / 512).
Proof.
  intros HX [Hs Hm He _] Hpos HL. pose proof (sector_of_block X HX) as Hk. destruct HX as [[Hb Hb512] Hl Hcap].
  set (k := BlockSize X / 512) in *. assert (BlockSize X = 512 * k) as HB by (unfold k; lia_div).
  rewrite HB in Hm, He. set (n := size / (512 * k)) in *.
  assert (size = 512 * k * n) as Hn by (pose proof (Z.div_mod size (512 * k) ltac:(lia)); lia).
  assert (size / 512 = k * n) as -> by (rewrite Hn; replace (512 * k * n) with (k * n * 512) by lia; by apply Z.div_mul).
  assert (0 < n) by nia. split; [nia|]. unfold u64. apply Z.mod_small. nia.
Qed.

Section VirtioBlk.
Context {W : Type} {V : VirtIo W} {BS : BootServices W} {VL : VirtIoLaws W}.
Context (Request : Z).
(** The local variable is not in pages that the allocator hands out. *)
Context (Request_apart : forall live n w m St a m' w',
  vio_AllocateSharedPages live n w m = (St, a, m', w') -> EFI_ERROR St = false ->
  Request + SIZEOF_REQ <= a \/ a + EFI_PAGE_SIZE * n <= Request).
Implicit Types s : st (W:=W).

Lemma Verify_spec X Lba Size write s :
  media_ok X -> 0 < Size -> 0 <= Lba ->
  wp (VerifyReadWriteRequest X Lba Size write) (fun Status s' => s' = s /\
    ((Status = EFI_SUCCESS /\ request_valid X Lba Size write) \/
     (EFI_ERROR Status = true /\ ~ request_valid X Lba Size write))) s.
Proof.
  intros HX Hs HL. destruct HX as [[Hb0 Hb1] Hlast _]. unfold VerifyReadWriteRequest.
  wp_step. wp_step; [by apply Z.ltb_lt|].
  destruct (Z.ltb_spec SIZE_1GB Size) as [H1|H1].
  { wp_steps. split; [done|]. right. split; [done|]. intros []. lia. }
  wp_step. apply wp_modulo; [lia|]. destruct (Z.ltb_spec 0 (Size mod BlockSize X)) as [H2|H2].
  { wp_steps. split; [done|]. right. split; [done|]. intros []. lia. }
  assert (Size mod BlockSize X = 0) as H2' by (pose proof (Z.mod_pos_bound Size (BlockSize X)); lia).
  cbv zeta. destruct ((LastBlock X <? Lba) || (LastBlock X - Lba <? Size / BlockSize X - 1)) eqn:H3.
  { wp_steps. split; [done|]. right. split; [done|]. intros [_ _ He _].
    assert (0 < Size / BlockSize X); [|lia]. apply Z.div_str_pos.
    pose proof (Z.div_mod Size (BlockSize X) ltac:(lia)) as E.
    destruct (Z.lt_ge_cases Size (BlockSize X)); [|lia]. rewrite Z.mod_small in H2' by lia. lia. }
  apply orb_false_iff in H3 as [H3 H4]. apply Z.ltb_ge in H3, H4.
  destruct write, (ReadOnly X) eqn:HR; cbn [andb]; wp_steps; (split; [done|]).
  2,3,4: left; split; [done|]; split; try done; lia.
  right. split; [done|]. intros [_ _ _ Hw]. specialize (Hw eq_refl). congruence.
Qed.

Lemma wp_at_Alloc n (Q : EFI_STATUS * Z -> st -> Prop) s w m P X es :
  (forall St a w' m', EFI_ERROR St = true -> Q (St, a) (at_ s w' m' P X es)) ->
  (forall St a w' m', EFI_ERROR St = false -> 0 <= a -> a mod EFI_PAGE_SIZE = 0 ->
     a + EFI_PAGE_SIZE * n <= MAX_ADDRESS -> disjoint_from P a n ->
     (Request + SIZEOF_REQ <= a \/ a + EFI_PAGE_SIZE * n <= Request) ->
     (forall x, ~ (a <= x < a + EFI_PAGE_SIZE * n) -> m' x = m x) ->
     Q (St, a) (at_ s w' m' (<[a := n]> P) X es)) ->
  wp (AllocateSharedPages n) Q (at_ s w m P X es).
Proof.
  intros HN HS. apply wp_at_Pages; [done|]. intros St a w' m' E HE Ha Hal Hend Hd Hf.
  pose proof (Request_apart _ _ _ _ _ _ _ _ E HE). apply HS; auto; lia.
Qed.

(** ** The request *)

(** The descriptor chain of a request. *)
Definition request_chain (ra ba sa size : Z) (write : bool) : list (Z * Z * Z) :=
  [(ra, SIZEOF_REQ, VRING_DESC_F_NEXT)] ++
  (if 0 <? size
   then [(ba, size, Z.lor VRING_DESC_F_NEXT (if write then 0 else VRING_DESC_F_WRITE))] else []) ++
  [(sa, 1, VRING_DESC_F_WRITE)].

(** What RunRequest does before VirtioFlush. *)
Definition BuildChain (r : VRING) (ra ba sa size : Z) (write : bool)
    (k : DESC_INDICES -> M (st (W:=W)) EFI_STATUS) : M (st (W:=W)) EFI_STATUS :=
  Indices ← VirtioPrepare r;
  ASSERT (3 <=? QueueSize r);;
  Indices ← VirtioAppendDesc r ra SIZEOF_REQ VRING_DESC_F_NEXT Indices;
  Indices ← (if 0 <? size then
               ASSERT (size <=? SIZE_1GB);;
               VirtioAppendDesc r ba (u32 size)
                 (Z.lor VRING_DESC_F_NEXT (if write then 0 else VRING_DESC_F_WRITE)) Indices
             else mret Indices);
  Indices ← VirtioAppendDesc r sa 1 VRING_DESC_F_WRITE Indices;
  k Indices.

Lemma BuildChain_eq r ra ba sa size write k s :
  3 <= QueueSize r -> 0 <= size <= SIZE_1GB ->
  BuildChain r ra ba sa size write k s =
  (ind ← (ind ← VirtioPrepare r; AppendAll r (request_chain ra ba sa size write) ind); k ind) s.
Proof.
  intros HQ Hs. unfold BuildChain, request_chain, mbind, M_bind.
  destruct (VirtioPrepare r s) as [ind s1|]; [|done].
  apply Z.leb_le in HQ. unfold ASSERT. rewrite HQ.
  destruct (Z.ltb_spec 0 size) as [Hp|Hp]; cbn [app AppendAll]; unfold mbind, M_bind, mret, M_ret.
  - destruct (VirtioAppendDesc r ra _ _ ind s1) as [ind2 s2|]; [|done].
    assert (u32 size = size) as -> by (unfold u32, SIZE_1GB in *; rewrite Z.mod_small; lia).
    destruct Hs as [_ Hs%Z.leb_le]. rewrite Hs.
    destruct (VirtioAppendDesc r ba _ _ ind2 s2) as [ind3 s3|]; [|done].
    by destruct (VirtioAppendDesc r sa _ _ ind3 s3).
  - destruct (VirtioAppendDesc r ra _ _ ind s1) as [ind2 s2|]; [|done].
    by destruct (VirtioAppendDesc r sa _ _ ind2 s2).
Qed.

Lemma request_chain_ok ra ba sa size write :
  is_u64 ra -> is_u64 ba -> is_u64 sa -> 0 <= size <= SIZE_1GB ->
  Forall buffer_ok (request_chain ra ba sa size write) /\
  (length (request_chain ra ba sa size write) <= 3)%nat.
Proof.
  intros Hra Hba Hsa Hs. unfold request_chain. rewrite !Forall_app, !length_app. split.
  - split_and!; [apply Forall_singleton; by split_and!| |apply Forall_singleton; by split_and!].
    destruct (0 <? size); [|done]. apply Forall_singleton. split_and!; try done.
    + unfold is_u32, SIZE_1GB in *. cbn. lia.
    + by destruct write.
  - destruct (0 <? size); cbn; lia.
Qed.

Lemma append_request r ra ba sa size write s :
  ring_ok r (Pages s) -> 3 <= QueueSize r -> is_u64 ra -> is_u64 ba -> is_u64 sa -> 0 <= size <= SIZE_1GB ->
  forall (k : DESC_INDICES -> M (st (W:=W)) EFI_STATUS) Q,
  (forall m, chain_at m r 0 (request_chain ra ba sa size write) ->
     wp (k (mkIndices 0 (Z.of_nat (length (request_chain ra ba sa size write))))) Q (set_mem m s)) ->
  wp (BuildChain r ra ba sa size write k) Q s.
Proof.
  intros Hr HQ Hra Hba Hsa Hsize k Q Hk.
  destruct (request_chain_ok ra ba sa size write) as [Hok Hlen]; try done.
  unfold wp at 1. rewrite BuildChain_eq by done. change (wp (ind ← (ind ← VirtioPrepare r;
    AppendAll r (request_chain ra ba sa size write) ind); k ind) Q s). rewrite wp_bind.
  eapply wp_mono; [apply chain_spec; [done|exact Hok|lia]|].
  intros ind s' (-> & m & -> & Hch & _). by apply Hk.
Qed.

(** How the host answered the request offered at [mn], with the memory [m]
    when the driver looks at the status byte at [hs]. *)
Definition answered (r : VRING) (mn m : memory) (hs : Z) (Status : EFI_STATUS) : Prop :=
  (completed 0 r mn m /\ Status = (if m hs =? VIRTIO_BLK_S_OK then EFI_SUCCESS else EFI_DEVICE_ERROR)) \/
  ((exists St, rejected 0 mn St) /\ Status = EFI_DEVICE_ERROR).

Lemma RunRequest_spec N r ra ba sa size write hs s w m P X es :
  ring_ok r P -> 3 <= QueueSize r -> is_u64 ra -> is_u64 ba -> is_u64 sa -> 0 <= size <= SIZE_1GB ->
  in_pages P hs 1 = true -> Responsive 0 r N ->
  wp (RunRequest (S N) r ra ba sa size write hs) (fun Status s' => exists w' m' mn k,
    s' = at_ s w' m' P X (es ++ EvNotify 0 mn :: (EvStall <$> periods k 1)) /\ (k <= N)%nat /\
    offers r mn (request_chain ra ba sa size write) /\ answered r mn m' hs Status) (at_ s w m P X es).
Proof.
  intros Hr HQ Hra Hba Hsa Hsize Hhs HR. unfold RunRequest.
  apply append_request; try done. intros mc Hc. change (set_mem mc (at_ s w m P X es)) with (at_ s w mc P X es).
  destruct (request_chain_ok ra ba sa size write) as [_ Hlen]; try done.
  wp_step. eapply wp_mono; [apply flush_chain; try done; lia|].
  intros [Status n] s' (mn & w' & m' & k & -> & Hk & Hoff & [[Hrej Hne%Z.eqb_neq]|[-> Hcomp]]); cbn [fst].
  - rewrite Hne. wp_steps. exists w', m', mn, k. split_and!; try done. right. eauto.
  - rewrite Z.eqb_refl. wp_step. apply wp_vio_read_le; [done|]. wp_steps. exists w', m', mn, k. split_and!; try done.
    cbn [Mem at_]. rewrite byte_at. by left.
Qed.

(** ** SynchronousRequest *)
Definition Type_of (write : bool) (size : Z) : Z :=
  if write then if size =? 0 then VIRTIO_BLK_T_FLUSH else VIRTIO_BLK_T_OUT else VIRTIO_BLK_T_IN.

(** The events up to the notification: the request header and the data buffer
    mapped whole, the status byte preset to an error. *)
Record mapped_request (sector size Buffer : Z) (write : bool) (hs : Z)
    (pre : list event) (ra ba sa : Z) : Prop := {
  mr_header : exists n m, pre !! 0%nat = Some (EvMap VirtioOperationBusMasterRead Request n ra m) /\
    SIZEOF_REQ <= n /\ mem_get m Request SIZEOF_REQ = encode_request (Type_of write size) 0 sector;
  mr_data : 0 < size -> exists n m, pre !! 1%nat =
    Some (EvMap (if write then VirtioOperationBusMasterRead else VirtioOperationBusMasterWrite) Buffer n ba m) /\ size <= n;
  mr_status : exists n m, last pre = Some (EvMap VirtioOperationBusMasterCommonBuffer hs n sa m) /\
    m hs = VIRTIO_BLK_S_IOERR;
  mr_maps : Forall (fun e => exists op h n d m, e = EvMap op h n d m) pre;
}.

(** A request the host saw: offered once, with everything still mapped. *)
Definition served (r : VRING) (sector size Buffer : Z) (write : bool) (es : list event) (Status : EFI_STATUS) : Prop :=
  exists pre post ra ba sa hs mn m,
    es = pre ++ EvNotify 0 mn :: post /\ Forall quiet post /\
    mapped_request sector size Buffer write hs pre ra ba sa /\
    offers r mn (request_chain ra ba sa size write) /\
    exists St, answered r mn m hs St /\ (Status = St \/ (write = false /\ Status = EFI_DEVICE_ERROR)).

Lemma FreeHostStatusBuffer_spec hs St s w m P X es :
  P !! hs = None ->
  wp (FreeHostStatusBuffer hs St) (fun Status s' => Status = St /\
    exists w' m', s' = at_ s w' m' P X (es ++ [EvFreePages hs 1])) (at_ s w m (<[hs := 1]> P) X es).
Proof.
  intros HP. unfold FreeHostStatusBuffer. wp_step. eapply wp_at_Free; [apply lookup_insert_eq|].
  intros w' m'. rewrite delete_insert_id by done. wp_steps. eauto.
Qed.

Lemma UnmapRequestBuffer_spec tok x hs St s w m P X es :
  P !! hs = None -> X !! tok = None ->
  wp (UnmapRequestBuffer tok hs St) (fun Status s' => Status = St /\
    exists w' m', s' = at_ s w' m' P X (es ++ [EvUnmap tok; EvFreePages hs 1]))
    (at_ s w m (<[hs := 1]> P) (<[tok := x]> X) es).
Proof.
  intros HP HX. unfold UnmapRequestBuffer. wp_step. eapply wp_at_Unmap; [apply lookup_insert_eq|].
  intros U w1 m1. rewrite delete_insert_id by done.
  eapply wp_mono; [by apply FreeHostStatusBuffer_spec|]. intros Status s' (-> & w' & m' & ->).
  rewrite <-(assoc_L (++)). eauto.
Qed.

(** The mappings with the data buffer, when there is one. *)
Definition data_maps (size tok : Z) (x : mapping) (X : gmap Z mapping) : gmap Z mapping :=
  if 0 <? size then <[tok := x]> X else X.

Lemma UnmapDataBuffer_spec size btok bx rtok rx hs write St s w m P X es :
  P !! hs = None -> X !! rtok = None -> (0 < size -> <[rtok := rx]> X !! btok = None) ->
  wp (UnmapDataBuffer size btok rtok hs write St) (fun Status s' =>
    (Status = St \/ (write = false /\ Status = EFI_DEVICE_ERROR)) /\
    exists w' m' l, s' = at_ s w' m' P X (es ++ l) /\ Forall quiet l)
    (at_ s w m (<[hs := 1]> P) (data_maps size btok bx (<[rtok := rx]> X)) es).
Proof.
  intros HP HX HB. unfold UnmapDataBuffer, data_maps. wp_step. destruct (Z.ltb_spec 0 size) as [Hs|Hs].
  - wp_step. eapply wp_at_Unmap; [apply lookup_insert_eq|]. intros U w1 m1.
    rewrite delete_insert_id by auto. wp_step.
    eapply wp_mono; [by apply UnmapRequestBuffer_spec|]. intros Status s' (-> & w' & m' & ->). split.
    + destruct (EFI_ERROR U), write, (EFI_ERROR St); cbn; auto.
    + exists w', m'. eexists. rewrite <-(assoc_L (++)). split; [reflexivity|]. by repeat constructor.
  - wp_step. eapply wp_mono; [by apply UnmapRequestBuffer_spec|]. intros Status s' (-> & w' & m' & ->).
    split; [by left|]. exists w', m'. eexists. split; [reflexivity|]. by repeat constructor.
Qed.

(** From the preset of the status byte on. *)
Lemma run_mapped_spec N r size Buffer write hs ra ba rtok btok rx bx sector evs s w m P X :
  ring_ok r P -> 3 <= QueueSize r -> is_u64 ra -> is_u64 ba -> 0 <= size <= SIZE_1GB ->
  disjoint_from P hs 1 -> Responsive 0 r N ->
  X !! rtok = None -> (0 < size -> <[rtok := rx]> X !! btok = None) ->
  Forall quiet evs ->
  (forall pre sa ev, pre = evs ++ [ev] ->
     (exists n m, ev = EvMap VirtioOperationBusMasterCommonBuffer hs n sa m /\ m hs = VIRTIO_BLK_S_IOERR) ->
     mapped_request sector size Buffer write hs pre ra ba sa) ->
  wp (write_le hs 1 VIRTIO_BLK_S_IOERR;;
      r' ← VirtioMapAllBytesInSharedBuffer VirtioOperationBusMasterCommonBuffer hs 1;
      let '(Status, StatusDeviceAddress, StatusMapping) := r' in
      if EFI_ERROR Status then UnmapDataBuffer size btok rtok hs write EFI_DEVICE_ERROR
      else
        Status ← RunRequest (S N) r ra ba StatusDeviceAddress size write hs;
        _ ← UnmapSharedBuffer StatusMapping;
        UnmapDataBuffer size btok rtok hs write Status)
    (fun Status s' => exists w' m' es, s' = at_ s w' m' P X es /\
       (Status = EFI_SUCCESS \/ Status = EFI_DEVICE_ERROR) /\
       ((Status = EFI_DEVICE_ERROR /\ Forall quiet es) \/ served r sector size Buffer write es Status))
    (at_ s w m (<[hs := 1]> P) (data_maps size btok bx (<[rtok := rx]> X)) evs).
Proof.
  intros Hr HQ Hra Hba Hsize Hdis HR HX HB Hev Hpre.
  assert (P !! hs = None) as HP.
  { destruct (P !! hs) eqn:E; [|done]. by destruct (Hdis _ _ E). }
  assert (in_pages (<[hs := 1]> P) hs 1 = true) as Hin.
  { eapply in_pages_intro; [apply lookup_insert_eq|]. unfold page_range, EFI_PAGE_SIZE. lia. }
  wp_step. apply wp_vio_write; [by rewrite length_le_split|].
  set (m1 := mem_set _ hs _). cbn [Mem at_] in m1.
  change (set_mem m1 (at_ s w m ?P' ?X' evs)) with (at_ s w m1 P' X' evs).
  wp_step. apply wp_at_Map.
  { intros St dev tok w2 m2 l HE Hl. cbn beta iota. rewrite HE.
    eapply wp_mono; [by apply UnmapDataBuffer_spec|].
    intros Status s' (HS & w3 & m3 & l' & -> & Hl'). exists w3, m3. eexists. split; [by rewrite <-!(assoc_L (++))|].
    assert (Status = EFI_DEVICE_ERROR) as -> by naive_solver. split; [by right|]. left. split; [done|].
    by rewrite !Forall_app. }
  intros sa tok n w2 m2 Htok Hsa Hn. cbn beta iota. cbn [EFI_ERROR]. change (EFI_ERROR EFI_SUCCESS) with false. cbn iota.
  wp_step. eapply wp_mono; [apply RunRequest_spec; try done; by apply ring_ok_insert|].
  intros St s' (w3 & m3 & mn & k & -> & Hk & Hoff & Hans). wp_step.
  eapply wp_at_Unmap; [apply lookup_insert_eq|]. intros U w4 m4. rewrite delete_insert_id by done.
  eapply wp_mono; [by apply UnmapDataBuffer_spec|].
  intros Status s' (HS & w5 & m5 & l & -> & Hl).
  assert (Status = EFI_SUCCESS \/ Status = EFI_DEVICE_ERROR) as Hstat.
  { destruct HS as [->|[_ ->]]; [|by right]. destruct Hans as [[_ ->]|[_ ->]]; [|by right].
    destruct (_ =? _); auto. }
  set (ev := EvMap _ hs n sa m1). exists w5, m5. eexists. split; [reflexivity|]. split; [done|]. right.
  exists (evs ++ [ev]), ((EvStall <$> periods k 1) ++ [EvUnmap tok] ++ l), ra, ba, sa, hs, mn, m3.
  split_and!; try done.
  - by rewrite <-!(assoc_L (++)).
  - rewrite !Forall_app. split_and!; [|by repeat constructor|done]. apply Forall_fmap, Forall_true. done.
  - apply (Hpre _ sa ev eq_refl). exists n, m1. split; [done|]. unfold m1.
    pose proof (le_read_write m hs 1 VIRTIO_BLK_S_IOERR ltac:(done)) as H1. by rewrite byte_at in H1.
  - exists St. split; [done|]. exact HS.
Qed.
Lemma encode_request_length a b c : length (encode_request a b c) = 16%nat.
Proof. unfold encode_request. by rewrite !length_app, !length_le_split. Qed.

Lemma SynchronousRequest_spec N Dev Lba size Buffer write s :
  dev_ok Dev (Pages s) -> 0 <= size <= SIZE_1GB -> size mod BlockSize (BlockIoMedia Dev) = 0 ->
  Responsive 0 (Ring Dev) N ->
  wp (SynchronousRequest Request (S N) Dev Lba size Buffer write) (fun Status s' => exists w' m' es,
    s' = at_ s w' m' (Pages s) (Maps s) es /\
    (Status = EFI_SUCCESS \/ Status = EFI_DEVICE_ERROR) /\
    ((Status = EFI_DEVICE_ERROR /\ Forall quiet es) \/
     served (Ring Dev) (u64 (Lba * (BlockSize (BlockIoMedia Dev) / 512))) size Buffer write es Status)) s.
Proof.
  intros [[[Hb0 Hb] _ _] Hr HQ] Hsize Hmod HR. unfold SynchronousRequest.
  set (BS' := BlockSize (BlockIoMedia Dev)) in *. set (sector := u64 (Lba * (BS' / 512))).
  cbv zeta. wp_step. wp_step; [apply Z.ltb_lt; lia|]. wp_step. wp_step; [by apply Z.eqb_eq|].
  wp_step. apply wp_modulo; [lia|]. wp_step. wp_step; [by apply Z.eqb_eq|]. cbv zeta.
  fold (Type_of write size). unfold poke. wp_step. wp_step.
  set (m0 := mem_set (Mem s) Request _).
  assert (mem_get m0 Request SIZEOF_REQ = encode_request (Type_of write size) 0 sector) as Hm0.
  { apply mem_get_set. by rewrite encode_request_length. }
  change (set_mem m0 s) with (set_mem m0 s). rewrite (at_self (set_mem m0 s)).
  change (EFI_SIZE_TO_PAGES 1) with 1. cbn [Env Mem Pages Maps set_mem set_world].
  assert (forall w m P X es, at_ (set_mem m0 s) w m P X es = at_ s w m P X es) as Hat by done.
  wp_step. apply wp_at_Alloc.
  { intros St a w1 m1 HE. rewrite HE. wp_steps. exists w1, m1, []. rewrite Hat. split_and!; auto. }
  intros St hs w1 m1 HE Ha0 Hal Hend Hdis Hap Hfr. rewrite HE.
  assert (Pages s !! hs = None) as HP.
  { destruct (Pages s !! hs) eqn:E; [|done]. by destruct (Hdis _ _ E). }
  assert (mem_get m1 Request SIZEOF_REQ = encode_request (Type_of write size) 0 sector) as Hm1.
  { rewrite <-Hm0. apply mem_get_ext. intros x Hx. apply Hfr. lia. }
  wp_step. apply wp_at_Map.
  { intros St2 dev tok w2 m2 l HE2 Hl. cbn beta iota. rewrite HE2.
    eapply wp_mono; [by apply FreeHostStatusBuffer_spec|]. intros Status s' (-> & w3 & m3 & ->).
    rewrite Hat, <-(assoc_L (++)). eexists w3, m3, _. split; [reflexivity|]. split; [by right|]. left.
    split; [done|]. rewrite app_nil_l, Forall_app. split; [done|]. by repeat constructor. }
  intros ra rtok nr w2 m2 Hrtok Hra Hnr. cbn beta iota. change (EFI_ERROR EFI_SUCCESS) with false. cbn iota.
  rewrite Hat. cbn [app]. clear Hat. set (ev1 := EvMap _ Request nr ra m1).
  wp_step. destruct (Z.ltb_spec 0 size) as [Hs|Hs].
  - apply wp_at_Map.
    { intros St2 dev tok w3 m3 l HE2 Hl. cbn beta iota. rewrite HE2.
      eapply wp_mono; [by apply UnmapRequestBuffer_spec|]. intros Status s' (-> & w4 & m4 & ->).
      rewrite <-(assoc_L (++)). eexists w4, m4, _. split; [reflexivity|]. split; [by right|]. left.
      split; [done|]. cbn [app]. apply Forall_cons. split; [done|]. rewrite Forall_app. split; [done|].
      by repeat constructor. }
    intros ba btok nb w3 m3 Hbtok Hba Hnb. cbn beta iota. change (EFI_ERROR EFI_SUCCESS) with false. cbn iota.
    pose proof (run_mapped_spec N (Ring Dev) size Buffer write hs ra ba rtok btok
      (VirtioOperationBusMasterRead, Request, nr, ra)
      (if write then VirtioOperationBusMasterRead else VirtioOperationBusMasterWrite, Buffer, nb, ba)
      sector ([ev1] ++ [EvMap (if write then VirtioOperationBusMasterRead else VirtioOperationBusMasterWrite) Buffer nb ba m2])
      s w3 m3 (Pages s) (Maps s)) as H.
    unfold data_maps in H. destruct (Z.ltb_spec 0 size); [|lia]. apply H; clear H; try done.
    { repeat constructor. }
    intros pre sa ev -> Hst. split.
    + by exists nr, m1.
    + intros _. by exists nb, m2.
    + destruct Hst as (n & m & -> & ?). exists n, m. by rewrite last_snoc.
    + destruct Hst as (n & m & -> & ?). repeat constructor; eexists _, _, _, _, _; reflexivity.
  - wp_step. change (EFI_ERROR EFI_SUCCESS) with false. cbn iota.
    pose proof (run_mapped_spec N (Ring Dev) size Buffer write hs ra 0 rtok 0
      (VirtioOperationBusMasterRead, Request, nr, ra) (VirtioOperationBusMasterRead, 0, 0, 0)
      sector [ev1] s w2 m2 (Pages s) (Maps s)) as H.
    unfold data_maps in H. destruct (Z.ltb_spec 0 size); [lia|]. apply H; clear H; try done; try lia.
    { repeat constructor. }
    intros pre sa ev -> Hst. split.
    + by exists nr, m1.
    + lia.
    + destruct Hst as (n & m & -> & ?). exists n, m. by rewrite last_snoc.
    + destruct Hst as (n & m & -> & ?). repeat constructor; eexists _, _, _, _, _; reflexivity.
Qed.
End VirtioBlk.
