(* ===== verification/VirtioBlkInit.v ===== *)
(** * VirtioBlkDxe: device initialisation and tear down *)
From S2P Require Import Prelude Bytes Memory OrderedCollection Virtio VirtioProofs VirtioDriver VirtioBlk VirtioBlkProofs.

Section VirtioBlkInit.
Context {W : Type} {V : VirtIo W} {BS : BootServices W} {VL : VirtIoLaws W}.
Implicit Types s : st (W:=W).

Lemma Failed_spec Dev v St s w m P X es :
  EFI_ERROR St = true -> wp (Failed Dev v St) (gave_up s P X) (at_ s w m P X es).
Proof.
  intros HE. unfold Failed. wp_step. apply wp_at_SetDeviceStatus. intros U w' m'. wp_steps. split; [done|].
  by exists w', m', es, v.
Qed.

Lemma ReleaseQueue_spec Dev v St s w m P X es :
  EFI_ERROR St = true -> P !! Base (Ring Dev) = None ->
  wp (ReleaseQueue Dev v St) (gave_up s P X)
    (at_ s w m (<[Base (Ring Dev) := NumPages (Ring Dev)]> P) X es).
Proof.
  intros HE HP. unfold ReleaseQueue, VirtioRingUninit. wp_step. wp_step.
  eapply wp_at_Free; [apply lookup_insert_eq|]. intros w' m'. rewrite delete_insert_id by done. wp_steps.
  by apply Failed_spec.
Qed.

Lemma UnmapQueue_spec Dev v St x s w m P X es :
  EFI_ERROR St = true -> P !! Base (Ring Dev) = None -> X !! RingMap Dev = None ->
  wp (UnmapQueue Dev v St) (gave_up s P X)
    (at_ s w m (<[Base (Ring Dev) := NumPages (Ring Dev)]> P) (<[RingMap Dev := x]> X) es).
Proof.
  intros HE HP HX. unfold UnmapQueue. wp_step. eapply wp_at_Unmap; [apply lookup_insert_eq|].
  intros U w' m'. rewrite delete_insert_id by done. by apply ReleaseQueue_spec.
Qed.

(** ** Device configuration *)
Definition geometry_ok (g : geometry) : Prop :=
  is_u64 (NumSectors g) /\ NumSectors g <> 0 /\
  0 < Geo_BlockSize g < 2 ^ 32 /\ Geo_BlockSize g mod 512 = 0 /\ NumSectors g mod (Geo_BlockSize g / 512) = 0 /\
  0 <= PhysicalBlockExp g < 32.

Lemma ReadBlockSize_spec F n s w m P X es :
  is_u64 n ->
  wp (ReadBlockSize F n) (fun '(St, b) s' => (exists w' m', s' = at_ s w' m' P X es) /\
    (EFI_ERROR St = true \/
     (St = EFI_SUCCESS /\ 0 < b < 2 ^ 32 /\ b mod 512 = 0 /\ n mod (b / 512) = 0))) (at_ s w m P X es).
Proof.
  intros Hn. unfold ReadBlockSize. destruct (_ =? 0).
  { wp_steps. split; [eauto|]. right. split; [done|]. split; [done|]. split; [done|]. apply Z.mod_1_r. }
  wp_step. apply wp_CfgRead; [done|]. intros St b w' m' Hb. cbn in Hb. destruct (EFI_ERROR St) eqn:HE.
  { wp_steps. split; [eauto|]. by left. }
  destruct (Z.eqb_spec b 0) as [|H0]; [wp_steps; split; [eauto|by left]|].
  destruct (Z.eqb_spec (b mod 512) 0) as [H1|]; cbn [negb]; [|wp_steps; split; [eauto|by left]].
  wp_step. apply wp_modulo; [lia_div|].
  destruct (Z.eqb_spec (n mod (b / 512)) 0) as [H2|]; cbn [negb]; wp_steps; (split; [eauto|]); [|by left].
  right. split; [done|]. split; [lia|]. done.
Qed.

Lemma ReadTopology_spec F s w m P X es :
  wp (ReadTopology F) (fun '(St, (e, _, _)) s' => (exists w' m', s' = at_ s w' m' P X es) /\
    (EFI_ERROR St = true \/ (St = EFI_SUCCESS /\ 0 <= e < 32))) (at_ s w m P X es).
Proof.
  unfold ReadTopology. destruct (_ =? 0).
  { wp_steps. split; [eauto|]. by right. }
  wp_step. apply wp_CfgRead; [done|]. intros St e w1 m1 He. destruct (EFI_ERROR St) eqn:HE.
  { wp_steps. split; [eauto|]. by left. }
  destruct (Z.leb_spec 32 e) as [|H1]; [wp_steps; split; [eauto|by left]|].
  wp_step. apply wp_CfgRead; [done|]. intros St2 e2 w2 m2 _. destruct (EFI_ERROR St2) eqn:HE2.
  { wp_steps. split; [eauto|]. by left. }
  wp_step. apply wp_CfgRead; [done|]. intros St3 e3 w3 m3 _. destruct (EFI_ERROR St3) eqn:HE3; wp_steps; (split; [eauto|]).
  - by left.
  - right. lia.
Qed.

Lemma ReadGeometry_spec F s w m P X es :
  wp (ReadGeometry F) (fun '(St, g) s' => (exists w' m', s' = at_ s w' m' P X es) /\
    (EFI_ERROR St = true \/ (St = EFI_SUCCESS /\ geometry_ok g))) (at_ s w m P X es).
Proof.
  unfold ReadGeometry. cbv zeta. wp_step. apply wp_CfgRead; [done|]. intros St n w1 m1 Hn. cbn in Hn.
  destruct (EFI_ERROR St) eqn:HE; [wp_steps; split; [eauto|by left]|].
  destruct (Z.eqb_spec n 0) as [|H0]; [wp_steps; split; [eauto|by left]|].
  wp_step. eapply wp_mono; [apply (ReadBlockSize_spec F n); unfold is_u64; lia|].
  intros [St2 b] s' [(w2 & m2 & ->) Hb].
  destruct (EFI_ERROR St2) eqn:HE2; [wp_steps; split; [eauto|by left]|].
  destruct Hb as [Hb|(_ & Hb)]; [congruence|].
  wp_step. eapply wp_mono; [apply (ReadTopology_spec F)|].
  intros [St3 [[e o] i]] s' [(w3 & m3 & ->) He].
  destruct (EFI_ERROR St3) eqn:HE3; wp_steps; (split; [eauto|]); [by left|].
  destruct He as [He|(_ & He)]; [congruence|]. right. split; [done|]. unfold geometry_ok, is_u64. cbn. tauto.
Qed.

Lemma PopulateMedia_ok F g : geometry_ok g -> media_ok (PopulateMedia F g).
Proof.
  intros (Hn & H0 & Hb & Hb512 & Hd & He). unfold is_u64 in *.
  assert (0 < Geo_BlockSize g / 512) as Hk by lia_div.
  pose proof (Z.div_mod (NumSectors g) (Geo_BlockSize g / 512) ltac:(lia)) as E. rewrite Hd in E.
  assert (0 < NumSectors g / (Geo_BlockSize g / 512)) as Hq by nia.
  split; cbn [BlockSize LastBlock PopulateMedia]; [done|lia|].
  rewrite Z.sub_add. lia.
Qed.

(** ** The queue and the negotiation *)
Lemma StartQueue_spec Dev nds F shift Q g x s w m P X es :
  P !! Base (Ring Dev) = None -> X !! RingMap Dev = None ->
  wp (StartQueue Dev nds F shift Q g) (fun out s' => gave_up s P X out s' \/
    (out.1 = EFI_SUCCESS /\ Ring out.2 = Ring Dev /\ RingMap out.2 = RingMap Dev /\
     BlockIoMedia out.2 = PopulateMedia (told_features F) g /\
     exists w' m', s' = at_ s w' m' (<[Base (Ring Dev) := NumPages (Ring Dev)]> P) (<[RingMap Dev := x]> X)
       (es ++ start_events [] F nds (Base (Ring Dev)) shift)))
    (at_ s w m (<[Base (Ring Dev) := NumPages (Ring Dev)]> P) (<[RingMap Dev := x]> X) es).
Proof.
  intros HP HX. unfold StartQueue.
  assert (forall St v w' m' es', EFI_ERROR St = true ->
    wp (UnmapQueue Dev v St) (fun out s' => gave_up s P X out s' \/
      (out.1 = EFI_SUCCESS /\ Ring out.2 = Ring Dev /\ RingMap out.2 = RingMap Dev /\
       BlockIoMedia out.2 = PopulateMedia (told_features F) g /\
       exists w' m', s' = at_ s w' m' (<[Base (Ring Dev) := NumPages (Ring Dev)]> P) (<[RingMap Dev := x]> X)
         (es ++ start_events [] F nds (Base (Ring Dev)) shift)))
      (at_ s w' m' (<[Base (Ring Dev) := NumPages (Ring Dev)]> P) (<[RingMap Dev := x]> X) es')) as Hfail.
  { intros. eapply wp_mono; [by apply UnmapQueue_spec|]. auto. }
  apply wp_at_try; [auto|]. intros w1 m1. apply wp_at_try; [auto|]. intros w2 m2.
  apply wp_at_tell_try; [auto|]. intros w3 m3. rewrite legacy_modern. unfold start_events, told_features.
  assert (forall w' m' es' F', wp (Status ← SetDeviceStatus (Z.lor nds VSTAT_DRIVER_OK);
      if EFI_ERROR Status then UnmapQueue Dev (Z.lor nds VSTAT_DRIVER_OK) Status
      else mret (EFI_SUCCESS, mkDev (Ring Dev)
          (if Z.land F' VIRTIO_BLK_F_TOPOLOGY =? 0 then 0 else EFI_BLOCK_IO_PROTOCOL_REVISION3)
          (PopulateMedia F' g) (RingMap Dev)))
    (fun out s' => gave_up s P X out s' \/
      (out.1 = EFI_SUCCESS /\ Ring out.2 = Ring Dev /\ RingMap out.2 = RingMap Dev /\
       BlockIoMedia out.2 = PopulateMedia F' g /\
       exists w' m', s' = at_ s w' m' (<[Base (Ring Dev) := NumPages (Ring Dev)]> P) (<[RingMap Dev := x]> X)
         (es' ++ [EvStatus (Z.lor nds VSTAT_DRIVER_OK)])))
    (at_ s w' m' (<[Base (Ring Dev) := NumPages (Ring Dev)]> P) (<[RingMap Dev := x]> X) es')) as Hok.
  { intros w' m' es' F'. apply wp_at_tell_try.
    - intros St w4 m4 HE. eapply wp_mono; [by apply UnmapQueue_spec|]. auto.
    - intros w4 m4. wp_steps. right. eauto 10. }
  destruct modern; cbn [negb].
  - wp_step. wp_step. change (EFI_ERROR EFI_SUCCESS) with false. cbn beta iota zeta.
    eapply wp_mono; [apply Hok|]. intros out s'. rewrite <-!(assoc_L (++)). auto.
  - wp_step. cbv zeta. wp_step. apply wp_at_tell_call. intros St w4 m4. wp_step. cbn beta iota.
    destruct (EFI_ERROR St) eqn:HE; [eapply wp_mono; [by apply UnmapQueue_spec|]; auto|]. cbv zeta.
    eapply wp_mono; [apply Hok|]. intros out s'. rewrite <-!(assoc_L (++)). auto.
Qed.

(** A queue that works: a zeroed ring in pages of its own, mapped whole at
    the device address that the host was told. *)
Definition set_up s (P : page_map) (X : gmap Z mapping) (F nds : Z) (g : geometry)
    (es : list event) (out : init_out) s' : Prop :=
  out.1 = EFI_SUCCESS /\ BlockIoMedia out.2 = PopulateMedia (told_features F) g /\
  3 <= QueueSize (Ring out.2) /\ ring_ok (Ring out.2) (Pages s') /\
  P !! Base (Ring out.2) = None /\ disjoint_from P (Base (Ring out.2)) (NumPages (Ring out.2)) /\
  X !! RingMap out.2 = None /\
  exists w' m' mz n dev, EFI_PAGE_SIZE * NumPages (Ring out.2) <= n /\
    (forall x, Base (Ring out.2) <= x < Base (Ring out.2) + EFI_PAGE_SIZE * NumPages (Ring out.2) -> mz x = 0) /\
    s' = at_ s w' m' (<[Base (Ring out.2) := NumPages (Ring out.2)]> P)
      (<[RingMap out.2 := (VirtioOperationBusMasterCommonBuffer, Base (Ring out.2), n, dev)]> X)
      (es ++ ring_events [] F nds (Ring out.2) mz n dev).

Lemma SetUpQueue_spec Dev nds F g s w m P X es :
  wp (SetUpQueue Dev nds F g) (fun out s' => gave_up s P X out s' \/ set_up s P X F nds g es out s')
    (at_ s w m P X es).
Proof.
  unfold SetUpQueue.
  assert (forall Dev St w' m' es', EFI_ERROR St = true ->
    wp (Failed Dev nds St) (fun out s' => gave_up s P X out s' \/ set_up s P X F nds g es out s')
      (at_ s w' m' P X es')) as Hfail.
  { intros. eapply wp_mono; [by apply Failed_spec|]. auto. }
  apply wp_at_try; [auto|]. intros w1 m1.
  wp_step. unfold GetQueueNumMax. rewrite wp_vcall. cbn [Env Mem at_].
  destruct (vio_GetQueueNumMax w1 m1) as [[[St Q] m2] w2] eqn:EQ.
  pose proof (GetQueueNumMax_u16 _ _ _ _ _ _ EQ) as HQ.
  change (set_world w2 m2 (at_ s w1 m1 P X es)) with (at_ s w2 m2 P X es).
  destruct (EFI_ERROR St) eqn:HE; [by apply Hfail|]. clear EQ.
  destruct (Z.ltb_spec Q 3) as [|HQ3]; [by apply Hfail|].
  wp_step. apply wp_at_RingInit; [unfold is_u16 in HQ; lia|..].
  { intros St2 r w3 m3 HE2. cbn beta iota zeta. rewrite HE2. by apply Hfail. }
  intros r w3 m3 HrQ Hr HP Hdis Hz. cbn beta iota zeta. change (EFI_ERROR EFI_SUCCESS) with false. cbn iota.
  wp_step. apply wp_at_RingMap; [done|..].
  { intros St3 d t w4 m4 l HE3. cbn beta iota. rewrite HE3.
    eapply wp_mono; [by apply (ReleaseQueue_spec (mkDev r _ _ _))|]. auto. }
  intros dev tok n w4 m4 HX Hn. cbn beta iota. change (EFI_ERROR EFI_SUCCESS) with false. cbn iota zeta.
  eapply wp_mono; [by apply (StartQueue_spec (mkDev r _ _ tok))|].
  intros [St4 Dev'] s' [Hg|(HS & HR & HM & Hmed & w5 & m5 & ->)]; [by left|]. right. cbn [fst snd] in *.
  cbn [Ring RingMap] in *. unfold set_up. cbn [fst snd]. rewrite HR, HM. split_and!; try done; [lia|].
  exists w5, m5, m3, n, dev. split; [done|]. split; [done|]. unfold ring_events. by rewrite <-(assoc_L (++)).
Qed.

(** A device brought up: features that the host offered and the driver
    knows, a host that accepted them, and a working queue. *)
Definition brought_up s (P : page_map) (X : gmap Z mapping) (out : init_out) s' : Prop :=
  exists offered nds g,
    (exists w St m' w' m, vio_GetDeviceFeatures w m = (St, offered, m', w') /\ EFI_ERROR St = false) /\
    (if modern then Z.land nds VSTAT_FEATURES_OK <> 0 else nds = Z.lor VSTAT_ACK VSTAT_DRIVER) /\
    geometry_ok g /\
    set_up s P X (Z.land offered DRIVER_FEATURES) nds g (greeting (Z.land offered DRIVER_FEATURES)) out s'.

Lemma Negotiate_spec Dev offered g s w m P X :
  (exists w St m' w' m, vio_GetDeviceFeatures w m = (St, offered, m', w') /\ EFI_ERROR St = false) ->
  geometry_ok g ->
  wp (Negotiate Dev (Z.lor VSTAT_ACK VSTAT_DRIVER) offered g)
    (fun out s' => gave_up s P X out s' \/ brought_up s P X out s')
    (at_ s w m P X [EvStatus 0; EvStatus VSTAT_ACK; EvStatus (Z.lor VSTAT_ACK VSTAT_DRIVER)]).
Proof.
  intros Hoff Hg. unfold Negotiate. cbv zeta. fold modern. set (F := Z.land offered DRIVER_FEATURES).
  destruct modern eqn:HM; wp_step.
  - eapply wp_mono; [apply Virtio10WriteFeatures_spec|].
    intros [St Got] s' [[HE (w1 & m1 & l & ->)]|(HE & _ & HG & Hne & w1 & m1 & ->)]; cbn beta iota; rewrite HE.
    { eapply wp_mono; [by apply Failed_spec|]. auto. }
    eapply wp_mono; [apply SetUpQueue_spec|]. intros out s' [H|H]; [by left|]. right.
    exists offered, Got, g. rewrite HM. split_and!; try done. unfold greeting. by rewrite HM.
  - wp_step. cbn beta iota. change (EFI_ERROR EFI_SUCCESS) with false. cbn iota.
    eapply wp_mono; [apply SetUpQueue_spec|]. intros out s' [H|H]; [by left|]. right.
    exists offered, (Z.lor VSTAT_ACK VSTAT_DRIVER), g. rewrite HM. split_and!; try done. unfold greeting. by rewrite HM.
Qed.

Lemma VirtioBlkInit_spec Dev s w m P X :
  wp (VirtioBlkInit Dev) (fun out s' => gave_up s P X out s' \/ brought_up s P X out s') (at_ s w m P X []).
Proof.
  unfold VirtioBlkInit. cbv zeta.
  assert (forall v St w' m' es', EFI_ERROR St = true ->
    wp (Failed Dev v St) (fun out s' => gave_up s P X out s' \/ brought_up s P X out s') (at_ s w' m' P X es')) as Hfail.
  { intros. eapply wp_mono; [by apply Failed_spec|]. auto. }
  apply wp_at_tell_try; [auto|]. intros w1 m1. cbn [app]. apply wp_at_tell_try; [auto|]. intros w2 m2. cbn [app].
  apply wp_at_tell_try; [auto|]. intros w3 m3. cbn [app]. apply wp_at_try; [auto|]. intros w4 m4.
  wp_step. unfold GetDeviceFeatures. rewrite wp_vcall. cbn [Env Mem at_].
  destruct (vio_GetDeviceFeatures w4 m4) as [[[St F] m5] w5] eqn:EF.
  change (set_world w5 m5 (at_ s w4 m4 P X ?es')) with (at_ s w5 m5 P X es').
  destruct (EFI_ERROR St) eqn:HE; [by apply Hfail|].
  wp_step. eapply wp_mono; [apply ReadGeometry_spec|]. intros [St2 g] s' [(w6 & m6 & ->) Hg]. cbn beta iota.
  destruct (EFI_ERROR St2) eqn:HE2; [by apply Hfail|]. destruct Hg as [|[_ Hg]]; [congruence|].
  apply Negotiate_spec; [|done]. by exists w4, St, m5, w5, m4.
Qed.

(** What a device that was brought up gives to the Block I/O operations. *)
Lemma brought_up_ok s P X out s' : brought_up s P X out s' -> dev_ok out.2 (Pages s').
Proof.
  intros (F & nds & g & _ & _ & Hg & _ & Hm & HQ & Hr & _). split; [|done|done]. rewrite Hm. by apply PopulateMedia_ok.
Qed.

(** ** Tear down *)
Lemma VirtioBlkUninit_spec Dev x s w m P X es :
  P !! Base (Ring Dev) = None -> X !! RingMap Dev = None ->
  wp (VirtioBlkUninit Dev) (fun _ s' => exists w' m', s' = at_ s w' m' P X
      (es ++ [EvStatus 0; EvUnmap (RingMap Dev); EvFreePages (Base (Ring Dev)) (NumPages (Ring Dev))]))
    (at_ s w m (<[Base (Ring Dev) := NumPages (Ring Dev)]> P) (<[RingMap Dev := x]> X) es).
Proof.
  intros HP HX. unfold VirtioBlkUninit, VirtioRingUninit. wp_step. apply wp_at_SetDeviceStatus. intros U w1 m1.
  wp_step. eapply wp_at_Unmap; [apply lookup_insert_eq|]. intros U2 w2 m2. rewrite delete_insert_id by done.
  wp_step. wp_step. eapply wp_at_Free; [apply lookup_insert_eq|]. intros w3 m3. rewrite delete_insert_id by done.
  wp_steps. exists w3, m3. by rewrite <-!(assoc_L (++)).
Qed.

(** ** Driver binding *)
Lemma FreeVirtioBlk_spec St s w m P X es :
  EFI_ERROR St = true ->
  wp (FreeVirtioBlk St) (start_failed s P X) (at_ (add_held 1 0 0 0 s) w m P X es).
Proof.
  intros HE. unfold FreeVirtioBlk. wp_step. apply wp_at_Hold. wp_steps. rewrite add_held_add.
  split; [done|]. split; [done|]. by apply restored_held.
Qed.
Lemma CloseVirtIo_spec St s w m P X es :
  EFI_ERROR St = true ->
  wp (CloseVirtIo St) (start_failed s P X) (at_ (add_held 1 1 0 0 s) w m P X es).
Proof.
  intros HE. unfold CloseVirtIo. wp_step. apply wp_at_release. intros w' m'. rewrite add_held_add.
  by apply FreeVirtioBlk_spec.
Qed.
Lemma UninitDev_spec Dev x St s w m P X es :
  EFI_ERROR St = true -> P !! Base (Ring Dev) = None -> X !! RingMap Dev = None ->
  wp (UninitDev Dev St) (start_failed s P X)
    (at_ (add_held 1 1 0 0 s) w m (<[Base (Ring Dev) := NumPages (Ring Dev)]> P) (<[RingMap Dev := x]> X) es).
Proof.
  intros HE HP HX. unfold UninitDev. wp_step. eapply wp_mono; [by apply VirtioBlkUninit_spec|].
  intros d' s' (w' & m' & ->). by apply CloseVirtIo_spec.
Qed.
Lemma CloseExitBoot_spec Dev x St s w m P X es :
  EFI_ERROR St = true -> P !! Base (Ring Dev) = None -> X !! RingMap Dev = None ->
  wp (CloseExitBoot Dev St) (start_failed s P X)
    (at_ (add_held 1 1 1 0 s) w m (<[Base (Ring Dev) := NumPages (Ring Dev)]> P) (<[RingMap Dev := x]> X) es).
Proof.
  intros HE HP HX. unfold CloseExitBoot. wp_step. apply wp_at_release. intros w' m'. rewrite add_held_add.
  by apply UninitDev_spec.
Qed.

(** The driver holds exactly one device: its pool object, its protocol open,
    its event, its interface, its ring and the mapping of the ring. *)
Definition managing s (P : page_map) (X : gmap Z mapping) (Dev : VBLK_DEV) s' : Prop :=
  dev_ok Dev (Pages s') /\ P !! Base (Ring Dev) = None /\ X !! RingMap Dev = None /\
  exists x w' m' es, s' = at_ (add_held 1 1 1 1 s) w' m'
    (<[Base (Ring Dev) := NumPages (Ring Dev)]> P) (<[RingMap Dev := x]> X) es.

Lemma Start_spec s w m P X :
  wp VirtioBlkDriverBindingStart (fun out s' => start_failed s P X out s' \/
    (out.1 = EFI_SUCCESS /\ exists Dev, out.2 = Some Dev /\ managing s P X Dev s')) (at_ s w m P X []).
Proof.
  unfold VirtioBlkDriverBindingStart. wp_step. apply wp_at_call. intros ok w1 m1. destruct ok; cbn [negb].
  2:{ wp_steps. left. split; [done|]. split; [done|]. by exists w1, m1, []. }
  wp_step. apply wp_at_Hold. wp_step. apply wp_at_acquire.
  { intros St w2 m2 HE. rewrite HE. eapply wp_mono; [by apply FreeVirtioBlk_spec|]. auto. }
  intros St w2 m2 HE. rewrite HE, add_held_add. wp_step. eapply wp_mono; [apply VirtioBlkInit_spec|].
  intros [St2 Dev] s' [[HE2 (w3 & m3 & es & v & ->)]|Hup].
  { cbn [fst] in HE2. rewrite HE2. eapply wp_mono; [by apply CloseVirtIo_spec|]. auto. }
  pose proof (brought_up_ok _ _ _ _ _ Hup) as Hok.
  destruct Hup as (F & nds & g & _ & _ & _ & HS & _ & _ & _ & HP & _ & HX & w3 & m3 & mz & n & dev & _ & _ & ->).
  cbn [fst snd] in *. rewrite HS. change (EFI_ERROR EFI_SUCCESS) with false. cbn iota.
  cbn [Pages at_] in Hok. wp_step. apply wp_at_acquire.
  { intros St3 w4 m4 HE3. rewrite HE3. eapply wp_mono; [by apply UninitDev_spec|]. auto. }
  intros St3 w4 m4 HE3. rewrite HE3, add_held_add. wp_step. apply wp_at_acquire.
  { intros St4 w5 m5 HE4. rewrite HE4. eapply wp_mono; [by apply CloseExitBoot_spec|]. auto. }
  intros St4 w5 m5 HE4. rewrite HE4, add_held_add. wp_steps. right. split; [done|]. exists Dev. split; [done|].
  split_and!; try done. by eexists _, w5, m5, _.
Qed.

Lemma Stop_spec Dev s P X s1 :
  managing s P X Dev s1 ->
  wp (VirtioBlkDriverBindingStop Dev) (fun Status s' =>
    (EFI_ERROR Status = true /\ managing s P X Dev s') \/
    (Status = EFI_SUCCESS /\ restored s P X s')) s1.
Proof.
  intros (Hok & HP & HX & x & w & m & es & ->). unfold VirtioBlkDriverBindingStop.
  assert (forall w' m', managing s P X Dev (at_ (add_held 1 1 1 1 s) w' m'
    (<[Base (Ring Dev) := NumPages (Ring Dev)]> P) (<[RingMap Dev := x]> X) es)) as Hm.
  { intros w' m'. split_and!; try done. by exists x, w', m', es. }
  apply wp_at_try.
  { intros St w1 m1 HE. wp_steps. by left. }
  intros w1 m1. wp_step. apply wp_at_acquire.
  { intros St w2 m2 HE. rewrite HE. wp_steps. by left. }
  intros St w2 m2 HE. rewrite HE, add_held_add. wp_step. apply wp_at_release. intros w3 m3.
  rewrite add_held_add. wp_step. eapply wp_mono; [by apply VirtioBlkUninit_spec|]. intros d' s' (w4 & m4 & ->).
  wp_step. apply wp_at_release. intros w5 m5. rewrite add_held_add. wp_step. apply wp_at_Hold.
  rewrite add_held_add. wp_steps. right. split; [done|]. by apply restored_held.
Qed.
End VirtioBlkInit.
