(* ===== verification/VirtioBlkClaims.v ===== *)
(** * VirtioLib and VirtioBlkDxe: the properties, and a concrete device *)
From S2P Require Import Prelude Bytes Memory OrderedCollection Virtio VirtioProofs VirtioDriver VirtioBlk VirtioBlkProofs VirtioBlkInit VirtioMachine.

Section Claims.
Context {W : Type} {V : VirtIo W} {BS : BootServices W} {VL : VirtIoLaws W}.
Implicit Types s : st (W:=W).

(** Memory is taken whole or not at all.  For every queue size of the
    device, VirtioRingInit either fails and holds nothing new, or returns a
    ring in freshly allocated pages that touch no other live pages, zeroed,
    whose descriptor table, available ring and page-aligned used ring lie in
    the pages in order and without overlap.  VirtioMapAllBytesInSharedBuffer
    succeeds only with a mapping, under a token that was free, of at least all
    the bytes asked for; when the device maps fewer bytes or fails, no mapping
    is left behind. *)
Theorem virtio_memory (Q : Z) op host size s :
  0 < Q < 2 ^ 16 ->
  wp (VirtioRingInit Q) (fun '(Status, r) s' =>
    (EFI_ERROR Status = true /\ Pages s' = Pages s) \/
    (Status = EFI_SUCCESS /\ QueueSize r = Q /\ ring_ok r (Pages s') /\
     Pages s' = <[Base r := NumPages r]> (Pages s) /\ disjoint_from (Pages s) (Base r) (NumPages r) /\
     forall x, Base r <= x < Base r + EFI_PAGE_SIZE * NumPages r -> Mem s' x = 0)) s /\
  wp (VirtioMapAllBytesInSharedBuffer op host size) (fun '(Status, dev, tok) s' => Pages s' = Pages s /\
    ((EFI_ERROR Status = true /\ Maps s' = Maps s) \/
     (Status = EFI_SUCCESS /\ Maps s !! tok = None /\
      exists n, size <= n /\ Maps s' = <[tok := (op, host, n, dev)]> (Maps s)))) s.
Proof.
  intros HQ. split.
  - eapply wp_mono; [by apply VirtioRingInit_spec|].
    intros [Status r] s' [[HE (w & m & ->)]|(-> & HrQ & Hr & Hd & (w & m & ->) & Hz)]; [by left|]. right. auto 10.
  - apply wp_at_self, wp_at_Map.
    + intros St dev tok w' m' l HE _. split; [done|]. by left.
    + intros dev tok n w' m' HX _ Hn. split; [done|]. right. eauto.
Qed.

(** C7: Submitting a request.  A chain built by VirtioPrepare and successive
    VirtioAppendDesc calls stands in the descriptor table in order, each
    descriptor with its address, length and flags and linked to the next slot,
    with interrupts suppressed and no byte outside the table and the flags
    changed.  VirtioFlush makes exactly one new entry of the available ring point at
    the head of the chain, advances the index by one modulo 2^16, changes
    nothing else, notifies the device after that, and, when the device
    completes each accepted request within [N] polls, returns success with
    the used index caught up, after at most [N] delays of doubling length.
    The polling loop has no bound in the code: it exhausts a bound of [fuel]
    polls if and only if the used index differs from the awaited one at each
    of them. *)
Theorem virtio_submission N q r ind s :
  ring_ok r (Pages s) -> Responsive q r N ->
  (forall l, Forall buffer_ok l -> Z.of_nat (length l) <= QueueSize r ->
    wp (ind ← VirtioPrepare r; AppendAll r l ind) (fun ind s' =>
      ind = mkIndices 0 (Z.of_nat (length l)) /\
      exists m, s' = set_mem m s /\ chain_at m r 0 l /\
        u16_at m (Avail_Flags r) = VRING_AVAIL_F_NO_INTERRUPT /\
        forall x, ~ (Desc r <= x < Avail_Flags r + 2) -> m x = Mem s x) s) /\
  wp (VirtioFlush (S N) q r ind false) (fun '(Status, _) s' =>
    exists m w m' k, submitted r (HeadDescIdx ind) (Mem s) m /\
      s' = logs (EvNotify q m :: (EvStall <$> periods k 1)) (set_world w m' s) /\ (k <= N)%nat /\
      ((rejected q m Status /\ k = 0%nat) \/ (Status = EFI_SUCCESS /\ completed q r m m'))) s /\
  forall fuel next p, (PollUsed fuel r next p s = Trap OutOfFuel) <->
    (forall k, (k < fuel)%nat -> u16_at (poll_world k p (Env s, Mem s)).2 (Used_Idx r) <> next).
Proof.
  intros Hr HR. split_and!; [intros l; by apply chain_spec|by apply VirtioFlush_spec|].
  intros fuel next p. apply PollUsed_iff. by eapply flags_part.
Qed.

(** C6: The life of the driver.  VirtioBlkInit either fails with every page and mapping released and the host
    told, last of all, that the driver failed, or brings the device up: the
    status bits are set in the order of the specification, the features
    accepted are among those offered and known, a queue of at least three
    zeroed descriptors is mapped and announced at its device address, and the
    media description satisfies what the transfers rely on.
    VirtioBlkDriverBindingStart either fails with everything it took given
    back (pages, mappings, pool, protocol, event, interface), or returns a
    device that it manages with exactly one of each; then
    VirtioBlkDriverBindingStop either fails and leaves the device managed, or
    gives back everything that Start took. *)
Theorem blk_lifecycle Dev0 s :
  wp (VirtioBlkInit Dev0) (fun out s' =>
    gave_up s (Pages s) (Maps s) out s' \/
    (brought_up s (Pages s) (Maps s) out s' /\ dev_ok out.2 (Pages s'))) s /\
  wp VirtioBlkDriverBindingStart (fun out s' =>
    start_failed s (Pages s) (Maps s) out s' \/
    (out.1 = EFI_SUCCESS /\ exists Dev, out.2 = Some Dev /\ managing s (Pages s) (Maps s) Dev s' /\
     wp (VirtioBlkDriverBindingStop Dev) (fun Status s'' =>
       (EFI_ERROR Status = true /\ managing s (Pages s) (Maps s) Dev s'') \/
       (Status = EFI_SUCCESS /\ restored s (Pages s) (Maps s) s'')) s')) s.
Proof.
  split; apply wp_at_self.
  - eapply wp_mono; [apply VirtioBlkInit_spec|].
    intros out s' [H|H]; [by left|]. right. split; [done|]. by eapply brought_up_ok.
  - eapply wp_mono; [apply Start_spec|].
    intros out s' [H|(HS & Dev & HD & Hm)]; [by left|]. right. split; [done|]. exists Dev. split; [done|].
    split; [done|]. by apply Stop_spec.
Qed.

Section Blocks.
Context (Request : Z).
Context (Request_apart : forall live n w m St a m' w',
  vio_AllocateSharedPages live n w m = (St, a, m', w') -> EFI_ERROR St = false ->
  Request + SIZEOF_REQ <= a \/ a + EFI_PAGE_SIZE * n <= Request).

Definition TransferBlocks (write : bool) (fuel : nat) (Dev : VBLK_DEV) (Lba size Buffer : Z) :=
  if write then VirtioBlkWriteBlocks Request fuel Dev Lba size Buffer
  else VirtioBlkReadBlocks Request fuel Dev Lba size Buffer.

(** C5: VirtioBlkReadBlocks and VirtioBlkWriteBlocks give back every page and
    mapping they take, on every path.  An empty transfer does nothing; an
    invalid one is refused without touching the host; a valid one fails with
    a device error without the host being notified, or offers the host
    exactly one request whose sectors lie inside the disk, with header,
    data and status buffers mapped whole, and its status is the host's. *)
Theorem blk_transfer N Dev Lba size Buffer write s :
  dev_ok Dev (Pages s) -> Responsive 0 (Ring Dev) N -> 0 <= Lba -> 0 <= size ->
  wp (TransferBlocks write (S N) Dev Lba size Buffer) (fun Status s' =>
    Pages s' = Pages s /\ Maps s' = Maps s /\
    ((size = 0 /\ Status = EFI_SUCCESS /\ s' = s) \/
     (0 < size /\ ~ request_valid (BlockIoMedia Dev) Lba size write /\ EFI_ERROR Status = true /\ s' = s) \/
     (0 < size /\ request_valid (BlockIoMedia Dev) Lba size write /\
      exists es sector, Trace s' = Trace s ++ es /\
        sector = Lba * (BlockSize (BlockIoMedia Dev) / 512) /\
        sector + size / 512 <= (LastBlock (BlockIoMedia Dev) + 1) * (BlockSize (BlockIoMedia Dev) / 512) /\
        ((Status = EFI_DEVICE_ERROR /\ Forall quiet es) \/
         served Request (Ring Dev) sector size Buffer write es Status)))) s.
Proof.
  intros Hdev HR HL Hs. pose proof (do_media _ _ Hdev) as Hmed.
  assert (0 < size -> wp (Status ← VerifyReadWriteRequest (BlockIoMedia Dev) Lba size write;
    if EFI_ERROR Status then mret Status else SynchronousRequest Request (S N) Dev Lba size Buffer write)
    (fun Status s' => Pages s' = Pages s /\ Maps s' = Maps s /\
    ((~ request_valid (BlockIoMedia Dev) Lba size write /\ EFI_ERROR Status = true /\ s' = s) \/
     (request_valid (BlockIoMedia Dev) Lba size write /\
      exists es sector, Trace s' = Trace s ++ es /\
        sector = Lba * (BlockSize (BlockIoMedia Dev) / 512) /\
        sector + size / 512 <= (LastBlock (BlockIoMedia Dev) + 1) * (BlockSize (BlockIoMedia Dev) / 512) /\
        ((Status = EFI_DEVICE_ERROR /\ Forall quiet es) \/
         served Request (Ring Dev) sector size Buffer write es Status)))) s) as Hcore.
  { intros Hpos. wp_step. eapply wp_mono; [by apply Verify_spec|].
    intros St s' [-> [[-> Hv]|[HE Hv]]].
    2:{ rewrite HE. wp_steps. split_and!; auto. }
    change (EFI_ERROR EFI_SUCCESS) with false. cbn iota.
    destruct (sectors_in_disk _ _ _ _ Hmed Hv Hpos HL) as [Hsec Hu].
    eapply wp_mono; [apply SynchronousRequest_spec; try done; destruct Hv; lia|].
    intros Status s' (w' & m' & es & -> & HS & Hcase). rewrite Hu in Hcase. cbn. split_and!; try done. right.
    split; [done|]. exists es. eauto. }
  unfold TransferBlocks, VirtioBlkWriteBlocks, VirtioBlkReadBlocks.
  destruct (Z.eqb_spec size 0) as [H0|H0].
  - destruct write; wp_steps; (split; [done|]); split; [done|by left|done|by left].
  - assert (0 < size) as Hpos by lia. specialize (Hcore Hpos).
    destruct write; (eapply wp_mono; [exact Hcore|]); intros Status s' (? & ? & [?|?]); auto 10.
Qed.
End Blocks.
End Claims.

(** ** A concrete disk

    A virtio 1.0 disk of 2048 sectors, which clears the status byte. *)
Module Example.
Definition disk_config (off n : Z) : Z :=
  if (off =? 0) && (n =? 8) then 2048 else if (off =? 20) && (n =? 4) then 512 else 0.
Definition disk : VirtIo unit :=
  device VIRTIO_SUBSYSTEM_BLOCK_DEVICE (VIRTIO_F_VERSION_1 + VIRTIO_BLK_F_BLK_SIZE + 2 ^ 28) disk_config
    (fun m => mem_set m second_base [0]).
#[local] Existing Instance disk.

#[local] Instance disk_laws : VirtIoLaws unit.
Proof.
  apply device_laws; [done|]. intros off n Hn. unfold disk_config.
  assert (0 < 256 ^ n) by (apply Z.pow_pos_nonneg; lia).
  destruct (Z.eqb_spec n 8) as [->|]; [destruct (off =? 0); [done|]; by destruct (off =? 20)|].
  rewrite andb_false_r. destruct (Z.eqb_spec n 4) as [->|]; [by destruct (off =? 20)|].
  rewrite andb_false_r. lia.
Qed.

Lemma request_apart live n (w : unit) m St a m' w' :
  vio_AllocateSharedPages live n w m = (St, a, m', w') -> EFI_ERROR St = false ->
  local_request + SIZEOF_REQ <= a \/ a + EFI_PAGE_SIZE * n <= local_request.
Proof. intros E HS. pose proof (device_apart _ _ _ _ _ _ _ _ _ _ _ _ E HS). unfold local_request, SIZEOF_REQ. lia. Qed.

Lemma ring_responsive q : Responsive q ring 0.
Proof. apply device_responsive. Qed.

Definition no_pages : page_map := ∅.
Definition start : st (W:=unit) := mkSt tt (fun _ => 0) no_pages ∅ [] 0 0 0 0.
Definition running : st (W:=unit) := mkSt tt (fun _ => 0) ring_pages ∅ [] 0 0 0 0.
Definition dev : VBLK_DEV := mkDev ring 0 (mkMedia 0 false true false false false 512 0 2047 0 0 0) 1.

Lemma dev_ok_example : dev_ok dev ring_pages.
Proof. split; [by split|apply ring_ok_example|done]. Qed.

(** The model runs: a read succeeds, with one notification. *)
Example read_runs :
  match VirtioBlkReadBlocks local_request 1 dev 3 1024 0x5000 running with
  | Done Status s' => Status = EFI_SUCCESS /\ map_size (Pages s') = 1%nat /\
      length (List.filter (fun e => match e with EvNotify _ _ => true | _ => false end) (Trace s')) = 1%nat
  | Trap _ => False
  end.
Proof. vm_compute. split_and!; reflexivity. Qed.

Lemma virtio_memory_witness : exists r s', VirtioRingInit 8 start = Done (EFI_SUCCESS, r) s' /\ ring_ok r (Pages s').
Proof.
  pose proof (proj1 (virtio_memory 8 VirtioOperationBusMasterRead 0x5000 64 start ltac:(lia))) as H. unfold wp in H.
  destruct (VirtioRingInit 8 start) as [[St r] s'|t] eqn:E; [|destruct H].
  exists r, s'. destruct H as [[HE _]|(-> & _ & Hr & _)]; [|by split].
  exfalso. apply (f_equal (fun o => match o with Done a _ => EFI_ERROR a.1 | Trap _ => false end)) in E.
  cbn [fst] in E. rewrite HE in E. vm_compute in E. discriminate E.
Defined.

Lemma virtio_submission_witness :
  wp (VirtioFlush 1 0 ring (mkIndices 0 1) false) (fun '(Status, _) s' => Status = EFI_SUCCESS) running.
Proof.
  eapply wp_mono; [apply (proj1 (proj2 (virtio_submission 0 0 ring (mkIndices 0 1) running ring_ok_example (ring_responsive 0))))|].
  intros [Status n] s' (m & w & m' & k & _ & _ & _ & [[(w1 & m1 & w2 & E & HE) _]|[HS _]]); [|exact HS].
  injection E as <- <- <-. discriminate HE.
Defined.

Lemma blk_transfer_witness :
  request_valid (BlockIoMedia dev) 3 1024 false /\
  wp (TransferBlocks local_request false 1 dev 3 1024 0x5000) (fun _ s' => Pages s' = ring_pages) running.
Proof.
  split; [split; vm_compute; done|].
  eapply wp_mono; [apply (blk_transfer local_request request_apart 0 dev 3 1024 0x5000 false running
    dev_ok_example (ring_responsive 0)); lia|].
  intros St s' [H _]. exact H.
Defined.

Lemma blk_lifecycle_witness :
  wp (VirtioBlkInit zero_dev) (fun out s' => out.1 = EFI_SUCCESS -> dev_ok out.2 (Pages s')) start.
Proof.
  eapply wp_mono; [apply (proj1 (blk_lifecycle zero_dev start))|]. intros out s' [[HE _]|[_ H]] HS; [|exact H].
  rewrite HS in HE. discriminate HE.
Defined.

(** A life cycle on the concrete disk. *)
Example start_stop_runs :
  match VirtioBlkDriverBindingStart start with
  | Done (_, Some d) s1 =>
      match VirtioBlkDriverBindingStop d s1 with
      | Done Status s2 => Status = EFI_SUCCESS /\ Pages s2 = no_pages /\ map_size (Pages s1) = 1%nat
      | Trap _ => False
      end
  | _ => False
  end.
Proof. vm_compute. split_and!; reflexivity. Qed.
End Example.
