(* ===== verification/VirtioScsi.v ===== *)
(** * VirtioScsiDxe: the virtio SCSI host driver

    Models QemuPkg/VirtioScsiDxe/VirtioScsi.c: the synchronous SCSI request
    (PopulateRequest, VirtioScsiPassThru, ParseResponse), the enumeration and
    the device paths of targets, bring-up and tear down, and the driver
    binding. *)
From S2P Require Import Prelude Bytes Memory OrderedCollection Virtio VirtioProofs VirtioDriver.

(** ** Data *)
Record EFI_EXT_SCSI_PASS_THRU_MODE : Type := mkMode { AdapterId : Z; Attributes : Z; IoAlign : Z }.
Definition zero_mode : EFI_EXT_SCSI_PASS_THRU_MODE := mkMode 0 0 0.
(** [PassThru]: the interface's function pointers are in place. *)
Record VSCSI_DEV : Type := mkDev {
  InOutSupported : bool; MaxTarget : Z; MaxLun : Z; MaxSectors : Z;
  Ring : VRING; PassThru : bool; PassThruMode : EFI_EXT_SCSI_PASS_THRU_MODE; RingMap : Z;
}.
Definition zero_dev : VSCSI_DEV := mkDev false 0 0 0 zero_vring false zero_mode 0.

(** The request packet; pointers are addresses, NULL is 0. *)
Record PACKET : Type := mkPacket {
  InDataBuffer : Z; OutDataBuffer : Z; SenseData : Z; Cdb : Z;
  InTransferLength : Z; OutTransferLength : Z;
  CdbLength : Z; DataDirection : Z;
  HostAdapterStatus : Z; TargetStatus : Z; SenseDataLength : Z;
}.
(** The five scalar output fields. *)
Definition report (p : PACKET) (In Out Host Target Sense : Z) : PACKET :=
  mkPacket (InDataBuffer p) (OutDataBuffer p) (SenseData p) (Cdb p) In Out
    (CdbLength p) (DataDirection p) Host Target Sense.

Definition SIZE_1GB : Z := 2 ^ 30.
Definition TARGET_MAX_BYTES : Z := 16.
Definition VIRTIO_SUBSYSTEM_SCSI_HOST : Z := 8.
Definition VIRTIO_SCSI_F_INOUT : Z := 1.
Definition VIRTIO_SCSI_CDB_SIZE : Z := 32.
Definition VIRTIO_SCSI_SENSE_SIZE : Z := 96.
Definition VIRTIO_SCSI_REQUEST_QUEUE : Z := 2.
Definition VIRTIO_SCSI_S_OK : Z := 0.
Definition VIRTIO_SCSI_S_OVERRUN : Z := 1.
Definition VIRTIO_SCSI_S_BAD_TARGET : Z := 3.
Definition VIRTIO_SCSI_S_RESET : Z := 4.
Definition VIRTIO_SCSI_S_BUSY : Z := 5.
Definition VIRTIO_SCSI_S_FAILURE : Z := 9.

(** The UEFI specification's. *)
Definition EFI_TIMEOUT : EFI_STATUS := ENCODE_ERROR 18.
Definition DIRECTION_READ : Z := 0.
Definition DIRECTION_WRITE : Z := 1.
Definition DIRECTION_BIDIRECTIONAL : Z := 2.
Definition HOST_ADAPTER_OK : Z := 0x00.
Definition HOST_ADAPTER_TIMEOUT_COMMAND : Z := 0x09.
Definition HOST_ADAPTER_BUS_RESET : Z := 0x0e.
Definition HOST_ADAPTER_DATA_OVERRUN_UNDERRUN : Z := 0x12.
Definition HOST_ADAPTER_OTHER : Z := 0x7f.
Definition TARGET_GOOD : Z := 0.
Definition MESSAGING_DEVICE_PATH : Z := 3.
Definition MSG_SCSI_DP : Z := 2.
Definition SIZEOF_SCSI_DEVICE_PATH : Z := 8.

(** Offset and size in VIRTIO_SCSI_CONFIG. *)
Definition Cfg_NumQueues : Z * Z := (0, 4).
Definition Cfg_MaxSectors : Z * Z := (8, 4).
Definition Cfg_SenseSize : Z * Z := (20, 4).
Definition Cfg_CdbSize : Z * Z := (24, 4).
Definition Cfg_MaxChannel : Z * Z := (28, 2).
Definition Cfg_MaxTarget : Z * Z := (30, 2).
Definition Cfg_MaxLun : Z * Z := (32, 4).

(** VIRTIO_SCSI_REQ: Lun at 0, Cdb at 19. *)
Definition SIZEOF_REQ : Z := 51.
Definition Off_Cdb : Z := 19.
(** VIRTIO_SCSI_RESP. *)
Definition SIZEOF_RESP : Z := 108.
Definition Off_SenseLen : Z := 0.
Definition Off_Residual : Z := 4.
Definition Off_Status : Z := 10.
Definition Off_Response : Z := 11.
Definition Off_Sense : Z := 12.

(** [ALIGN_VALUE] of Base.h, on UINT32. *)
Definition ALIGN_VALUE32 (v a : Z) : Z := u32 (v + Z.land (u32 (a - v)) (a - 1)).

(** ** Targets *)

(** The two-byte target number at the front of a target identifier. *)
Definition TargetValue (Target : list Z) : Z := le_combine (take 2 Target).

(** The loop over the identifier's bytes: all are 0xFF. *)
Fixpoint AllOnes (Target : list Z) : bool :=
  match Target with [] => true | b :: Target => if b =? 0xFF then AllOnes Target else false end.

(** Status, the identifier, the LUN. *)
Definition VirtioScsiGetNextTargetLun (Dev : VSCSI_DEV) (Target : list Z) (Lun : Z)
    : EFI_STATUS * list Z * Z :=
  if AllOnes Target then (EFI_SUCCESS, replicate (Z.to_nat TARGET_MAX_BYTES) 0, 0)
  else
    let LastTarget := TargetValue Target in
    if (MaxTarget Dev <? LastTarget) || (MaxLun Dev <? Lun) then (EFI_INVALID_PARAMETER, Target, Lun)
    else if Lun <? MaxLun Dev then (EFI_SUCCESS, Target, u64 (Lun + 1))
    else if LastTarget <? MaxTarget Dev then
      (EFI_SUCCESS, le_split 2 (u16 (LastTarget + 1)) ++ drop 2 Target, 0)
    else (EFI_NOT_FOUND, Target, Lun).

Definition VirtioScsiGetNextTarget (Dev : VSCSI_DEV) (Target : list Z) : EFI_STATUS * list Z :=
  if AllOnes Target then (EFI_SUCCESS, replicate (Z.to_nat TARGET_MAX_BYTES) 0)
  else
    let LastTarget := TargetValue Target in
    if MaxTarget Dev <? LastTarget then (EFI_INVALID_PARAMETER, Target)
    else if LastTarget <? MaxTarget Dev then
      (EFI_SUCCESS, le_split 2 (u16 (LastTarget + 1)) ++ drop 2 Target)
    else (EFI_NOT_FOUND, Target).

(** SCSI_DEVICE_PATH as bytes: type, subtype, length, Pun, Lun.
    [DevicePath]: the out-parameter is given; [pool]: AllocatePool's answer. *)
Definition VirtioScsiBuildDevicePath (Dev : VSCSI_DEV) (pool : bool) (Target : list Z) (Lun : Z)
    (DevicePath : bool) : EFI_STATUS * option (list Z) :=
  if negb DevicePath then (EFI_INVALID_PARAMETER, None)
  else if (MaxTarget Dev <? TargetValue Target) || (MaxLun Dev <? Lun) || (0xFFFF <? Lun)
  then (EFI_NOT_FOUND, None)
  else if negb pool then (EFI_OUT_OF_RESOURCES, None)
  else
    (EFI_SUCCESS,
     Some ([MESSAGING_DEVICE_PATH; MSG_SCSI_DP; u8 SIZEOF_SCSI_DEVICE_PATH;
            u8 (Z.shiftr SIZEOF_SCSI_DEVICE_PATH 8)]
           ++ le_split 2 (TargetValue Target) ++ le_split 2 (u16 Lun))).

(** [None]: a NULL pointer. *)
Definition VirtioScsiGetTargetLun (Dev : VSCSI_DEV) (DevicePath Target : option (list Z)) (Lun : option Z)
    : EFI_STATUS * option (list Z) * option Z :=
  match DevicePath, Target, Lun with
  | Some path, Some T, Some L =>
      if negb (nth 0 path 0 =? MESSAGING_DEVICE_PATH) || negb (nth 1 path 0 =? MSG_SCSI_DP)
      then (EFI_UNSUPPORTED, Target, Lun)
      else
        let Pun := le_combine (take 2 (drop 4 path)) in
        let PathLun := le_combine (take 2 (drop 6 path)) in
        if (MaxTarget Dev <? Pun) || (MaxLun Dev <? PathLun) then (EFI_NOT_FOUND, Target, Lun)
        else (EFI_SUCCESS,
              Some (le_split 2 Pun ++ replicate (Z.to_nat (TARGET_MAX_BYTES - 2)) 0), Some PathLun)
  | _, _, _ => (EFI_INVALID_PARAMETER, Target, Lun)
  end.

Definition VirtioScsiResetChannel : EFI_STATUS := EFI_UNSUPPORTED.
Definition VirtioScsiResetTargetLun (Target : list Z) (Lun : Z) : EFI_STATUS := EFI_UNSUPPORTED.

(** ** The request *)
Definition ReportHostAdapterError (Packet : PACKET) : EFI_STATUS * PACKET :=
  (EFI_DEVICE_ERROR, report Packet 0 0 HOST_ADAPTER_OTHER TARGET_GOOD 0).

(** The local variables of VirtioScsiPassThru. *)
Record LOCALS : Type := mkLocals {
  RequestDeviceAddress : Z; RequestMapping : Z;
  InBuffer : Z; InDataNumPages : Z; InDataDeviceAddress : Z; InDataMapping : Z;
  OutDataBufferIsMapped : bool; OutDataDeviceAddress : Z; OutDataMapping : Z;
  ResponseBuffer : Z; ResponseDeviceAddress : Z; ResponseMapping : Z;
}.
Definition set_in (a n d t : Z) (L : LOCALS) : LOCALS :=
  mkLocals (RequestDeviceAddress L) (RequestMapping L) a n d t
    (OutDataBufferIsMapped L) (OutDataDeviceAddress L) (OutDataMapping L)
    (ResponseBuffer L) (ResponseDeviceAddress L) (ResponseMapping L).
Definition set_out (d t : Z) (L : LOCALS) : LOCALS :=
  mkLocals (RequestDeviceAddress L) (RequestMapping L)
    (InBuffer L) (InDataNumPages L) (InDataDeviceAddress L) (InDataMapping L) true d t
    (ResponseBuffer L) (ResponseDeviceAddress L) (ResponseMapping L).
Definition set_response (a d t : Z) (L : LOCALS) : LOCALS :=
  mkLocals (RequestDeviceAddress L) (RequestMapping L)
    (InBuffer L) (InDataNumPages L) (InDataDeviceAddress L) (InDataMapping L)
    (OutDataBufferIsMapped L) (OutDataDeviceAddress L) (OutDataMapping L) a d t.

Section VirtioScsi.
Context {W : Type} {V : VirtIo W} {BS : BootServices W}.
(** The address of the local variable Request; the PCD limits. *)
Context (Request : Z) (PcdVirtioScsiMaxTargetLimit PcdVirtioScsiMaxLunLimit : Z).

Definition passthru_out : Type := EFI_STATUS * PACKET.

(** Load from the caller's memory. *)
Definition peek (a : Z) : M (st (W:=W)) Z := gets (fun s => Mem s a).

(** The loop that copies the CDB. *)
Fixpoint CopyCdb (n : nat) (Cdb Idx : Z) : M (st (W:=W)) unit :=
  match n with
  | O => mret tt
  | S n => b ← peek (Cdb + Idx); poke (Request + Off_Cdb + Idx) [b];; CopyCdb n Cdb (Idx + 1)
  end.

Definition PopulateRequest (Dev : VSCSI_DEV) (Target Lun : Z) (Packet : PACKET) : M (st (W:=W)) passthru_out :=
  if ((0 <? InTransferLength Packet) && (0 <? OutTransferLength Packet) && negb (InOutSupported Dev)) ||
     (0xFF <? Target) || (0x4000 <=? Lun) ||
     (VIRTIO_SCSI_CDB_SIZE <? CdbLength Packet) ||
     (SIZE_1GB <? InTransferLength Packet + OutTransferLength Packet)
  then mret (EFI_UNSUPPORTED, Packet)
  else
  if (MaxTarget Dev <? Target) || (MaxLun Dev <? Lun) ||
     (DIRECTION_BIDIRECTIONAL <? DataDirection Packet) ||
     ((0 <? InTransferLength Packet) &&
       ((InDataBuffer Packet =? 0) || (DataDirection Packet =? DIRECTION_WRITE))) ||
     ((0 <? OutTransferLength Packet) &&
       ((OutDataBuffer Packet =? 0) || (DataDirection Packet =? DIRECTION_READ)))
  then mret (EFI_INVALID_PARAMETER, Packet)
  else
  if (MaxSectors Dev / 2 <? ALIGN_VALUE32 (OutTransferLength Packet) 512 / 512) ||
     (MaxSectors Dev / 2 <? ALIGN_VALUE32 (InTransferLength Packet) 512 / 512)
  then
    mret (EFI_BAD_BUFFER_SIZE,
          report Packet (u32 (MaxSectors Dev / 2 * 512)) (u32 (MaxSectors Dev / 2 * 512))
            HOST_ADAPTER_DATA_OVERRUN_UNDERRUN TARGET_GOOD 0)
  else
    poke Request [1; u8 Target; u8 (Z.lor (Z.shiftr (u32 Lun) 8) 0x40); u8 Lun];;
    CopyCdb (Z.to_nat (CdbLength Packet)) (Cdb Packet) 0;;
    mret (EFI_SUCCESS, Packet).

(** A field of [n] bytes, of the type of that width. *)
Definition read_field (a n : Z) : M (st (W:=W)) Z := v ← read_le a n; mret (v mod 256 ^ n).

(** The loop that copies the sense data. *)
Fixpoint CopySense (n : nat) (Sense Response Idx : Z) : M (st (W:=W)) unit :=
  match n with
  | O => mret tt
  | S n =>
      b ← read_le (Response + Off_Sense + Idx) 1;
      poke (Sense + Idx) [b];;
      CopySense n Sense Response (Idx + 1)
  end.

Definition ParseResponse (Packet : PACKET) (Response : Z) : M (st (W:=W)) passthru_out :=
  SenseLen ← read_field (Response + Off_SenseLen) 4;
  let ResponseSenseLen := Z.min SenseLen VIRTIO_SCSI_SENSE_SIZE in
  let SenseLen' := if ResponseSenseLen <? SenseDataLength Packet then u8 ResponseSenseLen
                   else SenseDataLength Packet in
  CopySense (Z.to_nat SenseLen') (SenseData Packet) Response 0;;
  Residual ← read_field (Response + Off_Residual) 4;
  let '(In, Out) :=
    if Residual <=? InTransferLength Packet
    then (u32 (InTransferLength Packet - Residual), OutTransferLength Packet)
    else (0, u32 (OutTransferLength Packet - u32 (Residual - InTransferLength Packet))) in
  Status ← read_field (Response + Off_Status) 1;
  Response ← read_field (Response + Off_Response) 1;
  let done_ Host St := mret (St, report Packet In Out Host Status SenseLen') in
  if Response =? VIRTIO_SCSI_S_OK then done_ HOST_ADAPTER_OK EFI_SUCCESS
  else if Response =? VIRTIO_SCSI_S_OVERRUN then done_ HOST_ADAPTER_DATA_OVERRUN_UNDERRUN EFI_DEVICE_ERROR
  else if Response =? VIRTIO_SCSI_S_BAD_TARGET then done_ HOST_ADAPTER_TIMEOUT_COMMAND EFI_TIMEOUT
  else if Response =? VIRTIO_SCSI_S_RESET then done_ HOST_ADAPTER_BUS_RESET EFI_DEVICE_ERROR
  else if Response =? VIRTIO_SCSI_S_BUSY then done_ HOST_ADAPTER_OK EFI_NOT_READY
  else done_ HOST_ADAPTER_OTHER EFI_DEVICE_ERROR.

(** CopyMem from pages that the driver holds to the caller's memory. *)
Definition CopyOut (dst src n : Z) : M (st (W:=W)) unit :=
  s ← get;
  if (n =? 0) || in_pages (Pages s) src n then poke dst (mem_get (Mem s) src n) else trapped BadPointer.

(** *** VirtioScsiPassThru, label by label *)
Definition UnmapRequestBuffer (L : LOCALS) (r : passthru_out) : M (st (W:=W)) passthru_out :=
  _ ← UnmapSharedBuffer (RequestMapping L); mret r.

Definition FreeInDataBuffer (L : LOCALS) (r : passthru_out) : M (st (W:=W)) passthru_out :=
  (if InBuffer L =? 0 then mret tt else FreeSharedPages (InDataNumPages L) (InBuffer L));;
  UnmapRequestBuffer L r.

Definition UnmapInDataBuffer (L : LOCALS) (r : passthru_out) : M (st (W:=W)) passthru_out :=
  (if InBuffer L =? 0 then mret tt else _ ← UnmapSharedBuffer (InDataMapping L); mret tt);;
  FreeInDataBuffer L r.

Definition UnmapOutDataBuffer (L : LOCALS) (r : passthru_out) : M (st (W:=W)) passthru_out :=
  (if OutDataBufferIsMapped L then _ ← UnmapSharedBuffer (OutDataMapping L); mret tt else mret tt);;
  UnmapInDataBuffer L r.

Definition FreeResponseBuffer (L : LOCALS) (r : passthru_out) : M (st (W:=W)) passthru_out :=
  FreeSharedPages (EFI_SIZE_TO_PAGES SIZEOF_RESP) (ResponseBuffer L);; UnmapOutDataBuffer L r.

Definition UnmapResponseBuffer (L : LOCALS) (r : passthru_out) : M (st (W:=W)) passthru_out :=
  _ ← UnmapSharedBuffer (ResponseMapping L); FreeResponseBuffer L r.

(** Building the chain and running it: from VirtioPrepare to the copy of the
    data. *)
Definition RunRequest (fuel : nat) (Ring : VRING) (Packet : PACKET) (L : LOCALS) : M (st (W:=W)) passthru_out :=
  Indices ← VirtioPrepare Ring;
  ASSERT (4 <=? QueueSize Ring);;
  Indices ← VirtioAppendDesc Ring (RequestDeviceAddress L) SIZEOF_REQ VRING_DESC_F_NEXT Indices;
  Indices ← (if 0 <? OutTransferLength Packet then
               VirtioAppendDesc Ring (OutDataDeviceAddress L) (OutTransferLength Packet) VRING_DESC_F_NEXT Indices
             else mret Indices);
  Indices ← VirtioAppendDesc Ring (ResponseDeviceAddress L) SIZEOF_RESP
              (Z.lor VRING_DESC_F_WRITE (if 0 <? InTransferLength Packet then VRING_DESC_F_NEXT else 0)) Indices;
  Indices ← (if 0 <? InTransferLength Packet then
               VirtioAppendDesc Ring (InDataDeviceAddress L) (InTransferLength Packet) VRING_DESC_F_WRITE Indices
             else mret Indices);
  r ← VirtioFlush fuel VIRTIO_SCSI_REQUEST_QUEUE Ring Indices false;
  if r.1 =? EFI_SUCCESS then
    r ← ParseResponse Packet (ResponseBuffer L);
    (if InBuffer L =? 0 then mret tt
     else CopyOut (InDataBuffer r.2) (InBuffer L) (InTransferLength r.2));;
    mret r
  else mret (ReportHostAdapterError Packet).

(** The response buffer. *)
Definition MapResponse (fuel : nat) (Ring : VRING) (Packet : PACKET) (L : LOCALS) : M (st (W:=W)) passthru_out :=
  r ← AllocateSharedPages (EFI_SIZE_TO_PAGES SIZEOF_RESP);
  let '(Status, Response) := r in
  if EFI_ERROR Status then UnmapOutDataBuffer L (ReportHostAdapterError Packet)
  else
    write_mem Response (replicate (Z.to_nat SIZEOF_RESP) 0);;
    write_le (Response + Off_Response) 1 VIRTIO_SCSI_S_FAILURE;;
    r ← VirtioMapAllBytesInSharedBuffer VirtioOperationBusMasterCommonBuffer Response SIZEOF_RESP;
    let '(Status, dev, tok) := r in
    if EFI_ERROR Status then FreeResponseBuffer (set_response Response 0 0 L) (ReportHostAdapterError Packet)
    else
      let L := set_response Response dev tok L in
      r ← RunRequest fuel Ring Packet L;
      UnmapResponseBuffer L r.

(** The output buffer. *)
Definition MapOutData (fuel : nat) (Ring : VRING) (Packet : PACKET) (L : LOCALS) : M (st (W:=W)) passthru_out :=
  if 0 <? OutTransferLength Packet then
    r ← VirtioMapAllBytesInSharedBuffer VirtioOperationBusMasterRead
          (OutDataBuffer Packet) (OutTransferLength Packet);
    let '(Status, dev, tok) := r in
    if EFI_ERROR Status then UnmapInDataBuffer L (ReportHostAdapterError Packet)
    else MapResponse fuel Ring Packet (set_out dev tok L)
  else MapResponse fuel Ring Packet L.

(** The intermediate input buffer. *)
Definition MapInData (fuel : nat) (Ring : VRING) (Packet : PACKET) (L : LOCALS) : M (st (W:=W)) passthru_out :=
  if 0 <? InTransferLength Packet then
    let InDataNumPages := EFI_SIZE_TO_PAGES (InTransferLength Packet) in
    r ← AllocateSharedPages InDataNumPages;
    let '(Status, buffer) := r in
    if EFI_ERROR Status then UnmapRequestBuffer L (ReportHostAdapterError Packet)
    else
      write_mem buffer (replicate (Z.to_nat (InTransferLength Packet)) 0);;
      r ← VirtioMapAllBytesInSharedBuffer VirtioOperationBusMasterCommonBuffer
            buffer (InTransferLength Packet);
      let '(Status, dev, tok) := r in
      if EFI_ERROR Status then
        FreeInDataBuffer (set_in buffer InDataNumPages 0 0 L) (ReportHostAdapterError Packet)
      else MapOutData fuel Ring Packet (set_in buffer InDataNumPages dev tok L)
  else MapOutData fuel Ring Packet L.

Definition VirtioScsiPassThru (fuel : nat) (Dev : VSCSI_DEV) (Target : list Z) (Lun : Z) (Packet : PACKET)
    : M (st (W:=W)) passthru_out :=
  poke Request (replicate (Z.to_nat SIZEOF_REQ) 0);;
  r ← PopulateRequest Dev (TargetValue Target) Lun Packet;
  let '(Status, Packet) := r in
  if EFI_ERROR Status then mret (Status, Packet)
  else
    r ← VirtioMapAllBytesInSharedBuffer VirtioOperationBusMasterRead Request SIZEOF_REQ;
    let '(Status, dev, tok) := r in
    if EFI_ERROR Status then mret (ReportHostAdapterError Packet)
    else MapInData fuel (Ring Dev) Packet (mkLocals dev tok 0 0 0 0 false 0 0 0 0 0).

(** *** VirtioScsiInit *)
Definition init_out : Type := EFI_STATUS * VSCSI_DEV.
Definition set_ring (r : VRING) (tok : Z) (Dev : VSCSI_DEV) : VSCSI_DEV :=
  mkDev (InOutSupported Dev) (MaxTarget Dev) (MaxLun Dev) (MaxSectors Dev) r (PassThru Dev) (PassThruMode Dev) tok.
Definition set_limits (inout : bool) (target lun sectors : Z) (Dev : VSCSI_DEV) : VSCSI_DEV :=
  mkDev inout target lun sectors (Ring Dev) (PassThru Dev) (PassThruMode Dev) (RingMap Dev).

(** Labels, innermost last. *)
Definition Failed (Dev : VSCSI_DEV) (NextDevStat : Z) (Status : EFI_STATUS) : M (st (W:=W)) init_out :=
  _ ← SetDeviceStatus (Z.lor NextDevStat VSTAT_FAILED);
  mret (Status, set_limits false 0 0 0 Dev).
Definition ReleaseQueue (Dev : VSCSI_DEV) (NextDevStat : Z) (Status : EFI_STATUS) : M (st (W:=W)) init_out :=
  r ← VirtioRingUninit (Ring Dev); Failed (set_ring r (RingMap Dev) Dev) NextDevStat Status.
Definition UnmapQueue (Dev : VSCSI_DEV) (NextDevStat : Z) (Status : EFI_STATUS) : M (st (W:=W)) init_out :=
  _ ← UnmapSharedBuffer (RingMap Dev); ReleaseQueue Dev NextDevStat Status.

Definition CfgWrite (c : Z * Z) (v : Z) : M (st (W:=W)) EFI_STATUS := WriteDevice c.1 c.2 v.

(** Step 4a: the configuration, with the PCD limits applied. *)
Definition ReadLimits (Dev : VSCSI_DEV) : M (st (W:=W)) init_out :=
  r ← CfgRead Cfg_MaxChannel;
  let '(Status, MaxChannel) := r in
  if EFI_ERROR Status then mret (Status, Dev) else
  if negb (MaxChannel =? 0) then mret (EFI_UNSUPPORTED, Dev) else
  r ← CfgRead Cfg_NumQueues;
  let '(Status, NumQueues) := r in
  if EFI_ERROR Status then mret (Status, Dev) else
  if NumQueues <? 1 then mret (EFI_UNSUPPORTED, Dev) else
  r ← CfgRead Cfg_MaxTarget;
  let '(Status, T) := r in
  if EFI_ERROR Status then mret (Status, Dev) else
  let T := if PcdVirtioScsiMaxTargetLimit <? T then PcdVirtioScsiMaxTargetLimit else T in
  r ← CfgRead Cfg_MaxLun;
  let '(Status, L) := r in
  if EFI_ERROR Status then mret (Status, Dev) else
  let L := if PcdVirtioScsiMaxLunLimit <? L then PcdVirtioScsiMaxLunLimit else L in
  r ← CfgRead Cfg_MaxSectors;
  let '(Status, N) := r in
  if EFI_ERROR Status then mret (Status, Dev) else
  if N <? 2 then mret (EFI_UNSUPPORTED, Dev) else
  mret (EFI_SUCCESS, set_limits (InOutSupported Dev) T L N Dev).

Definition DRIVER_FEATURES : Z := VIRTIO_SCSI_F_INOUT + VIRTIO_F_VERSION_1 + VIRTIO_F_IOMMU_PLATFORM.

(** The exported interface. *)
Definition Populate (Dev : VSCSI_DEV) : VSCSI_DEV :=
  mkDev (InOutSupported Dev) (MaxTarget Dev) (MaxLun Dev) (MaxSectors Dev) (Ring Dev) true
    (mkMode 0xFFFFFFFF 3 0) (RingMap Dev).

(** Steps 4c to 6, with the ring mapped. *)
Definition StartQueue (Dev : VSCSI_DEV) (NextDevStat Features RingBaseShift Q : Z) : M (st (W:=W)) init_out :=
  Status ← SetQueueNum Q;
  if EFI_ERROR Status then UnmapQueue Dev NextDevStat Status else
  Status ← SetQueueAlign EFI_PAGE_SIZE;
  if EFI_ERROR Status then UnmapQueue Dev NextDevStat Status else
  Status ← SetQueueAddress (Ring Dev) RingBaseShift;
  if EFI_ERROR Status then UnmapQueue Dev NextDevStat Status else
  Status ← (if Revision <? VIRTIO_SPEC_REVISION 1 0 0 then
              SetGuestFeatures (Z.land Features (u64 (Z.lnot (VIRTIO_F_VERSION_1 + VIRTIO_F_IOMMU_PLATFORM))))
            else mret EFI_SUCCESS);
  if EFI_ERROR Status then UnmapQueue Dev NextDevStat Status else
  Status ← CfgWrite Cfg_CdbSize VIRTIO_SCSI_CDB_SIZE;
  if EFI_ERROR Status then UnmapQueue Dev NextDevStat Status else
  Status ← CfgWrite Cfg_SenseSize VIRTIO_SCSI_SENSE_SIZE;
  if EFI_ERROR Status then UnmapQueue Dev NextDevStat Status else
  let NextDevStat := Z.lor NextDevStat VSTAT_DRIVER_OK in
  Status ← SetDeviceStatus NextDevStat;
  if EFI_ERROR Status then UnmapQueue Dev NextDevStat Status else
  mret (EFI_SUCCESS, Populate Dev).

(** Step 4b: the queue. *)
Definition SetUpQueue (Dev : VSCSI_DEV) (NextDevStat Features : Z) : M (st (W:=W)) init_out :=
  Status ← SetQueueSel VIRTIO_SCSI_REQUEST_QUEUE;
  if EFI_ERROR Status then Failed Dev NextDevStat Status else
  r ← GetQueueNumMax;
  let '(Status, Q) := r in
  if EFI_ERROR Status then Failed Dev NextDevStat Status else
  if Q <? 4 then Failed Dev NextDevStat EFI_UNSUPPORTED else
  r ← VirtioRingInit Q;
  let '(Status, ring) := r in
  let Dev := set_ring ring (RingMap Dev) Dev in
  if EFI_ERROR Status then Failed Dev NextDevStat Status else
  r ← VirtioRingMap ring;
  let '(Status, RingBaseShift, tok) := r in
  if EFI_ERROR Status then ReleaseQueue Dev NextDevStat Status else
  StartQueue (set_ring ring tok Dev) NextDevStat Features RingBaseShift Q.

Definition Negotiate (Dev : VSCSI_DEV) (NextDevStat Features : Z) : M (st (W:=W)) init_out :=
  let Features := Z.land Features DRIVER_FEATURES in
  r ← (if VIRTIO_SPEC_REVISION 1 0 0 <=? Revision
       then Virtio10WriteFeatures Features NextDevStat
       else mret (EFI_SUCCESS, NextDevStat));
  let '(Status, NextDevStat) := r in
  if EFI_ERROR Status then Failed Dev NextDevStat Status
  else SetUpQueue Dev NextDevStat Features.

Definition VirtioScsiInit (Dev : VSCSI_DEV) : M (st (W:=W)) init_out :=
  let NextDevStat := 0 in
  Status ← SetDeviceStatus NextDevStat;
  if EFI_ERROR Status then Failed Dev NextDevStat Status else
  let NextDevStat := Z.lor NextDevStat VSTAT_ACK in
  Status ← SetDeviceStatus NextDevStat;
  if EFI_ERROR Status then Failed Dev NextDevStat Status else
  let NextDevStat := Z.lor NextDevStat VSTAT_DRIVER in
  Status ← SetDeviceStatus NextDevStat;
  if EFI_ERROR Status then Failed Dev NextDevStat Status else
  Status ← SetPageSize EFI_PAGE_SIZE;
  if EFI_ERROR Status then Failed Dev NextDevStat Status else
  r ← GetDeviceFeatures;
  let '(Status, Features) := r in
  if EFI_ERROR Status then Failed Dev NextDevStat Status else
  let Dev := set_limits (negb (Z.land Features VIRTIO_SCSI_F_INOUT =? 0))
               (MaxTarget Dev) (MaxLun Dev) (MaxSectors Dev) Dev in
  r ← ReadLimits Dev;
  let '(Status, Dev) := r in
  if EFI_ERROR Status then Failed Dev NextDevStat Status
  else Negotiate Dev NextDevStat Features.

Definition VirtioScsiUninit (Dev : VSCSI_DEV) : M (st (W:=W)) VSCSI_DEV :=
  _ ← SetDeviceStatus 0;
  _ ← UnmapSharedBuffer (RingMap Dev);
  r ← VirtioRingUninit (Ring Dev);
  mret (mkDev false 0 0 0 r false zero_mode (RingMap Dev)).

Definition VirtioScsiExitBoot (Dev : VSCSI_DEV) : M (st (W:=W)) unit := _ ← SetDeviceStatus 0; mret tt.

(** *** Driver binding *)
Definition VirtioScsiDriverBindingSupported : M (st (W:=W)) EFI_STATUS :=
  Status ← OpenByDriver;
  if EFI_ERROR Status then mret Status
  else
    let Status := if SubSystemDeviceId =? VIRTIO_SUBSYSTEM_SCSI_HOST then Status else EFI_UNSUPPORTED in
    CloseProtocol;; mret Status.

Definition FreeVirtioScsi (Status : EFI_STATUS) : M (st (W:=W)) (EFI_STATUS * option VSCSI_DEV) :=
  Hold (-1) 0 0 0;; mret (Status, None).
Definition CloseVirtIo (Status : EFI_STATUS) := CloseProtocol;; FreeVirtioScsi Status.
Definition UninitDev (Dev : VSCSI_DEV) (Status : EFI_STATUS) := _ ← VirtioScsiUninit Dev; CloseVirtIo Status.
Definition CloseExitBoot (Dev : VSCSI_DEV) (Status : EFI_STATUS) := CloseEvent;; UninitDev Dev Status.

Definition VirtioScsiDriverBindingStart : M (st (W:=W)) (EFI_STATUS * option VSCSI_DEV) :=
  ok ← vcall bs_AllocateZeroPool;
  if negb ok then mret (EFI_OUT_OF_RESOURCES, None)
  else
    Hold 1 0 0 0;;
    Status ← OpenByDriver;
    if EFI_ERROR Status then FreeVirtioScsi Status
    else
      r ← VirtioScsiInit zero_dev;
      let '(Status, Dev) := r in
      if EFI_ERROR Status then CloseVirtIo Status
      else
        Status ← CreateEvent;
        if EFI_ERROR Status then UninitDev Dev Status
        else
          Status ← InstallInterface;
          if EFI_ERROR Status then CloseExitBoot Dev Status
          else mret (EFI_SUCCESS, Some Dev).

(** [Dev]: the device that the handle's interface belongs to. *)
Definition VirtioScsiDriverBindingStop (Dev : VSCSI_DEV) : M (st (W:=W)) EFI_STATUS :=
  Status ← vcall bs_GetInterface;
  if EFI_ERROR Status then mret Status
  else
    Status ← UninstallInterface;
    if EFI_ERROR Status then mret Status
    else
      CloseEvent;;
      _ ← VirtioScsiUninit Dev;
      CloseProtocol;;
      Hold (-1) 0 0 0;;
      mret EFI_SUCCESS.
End VirtioScsi.
