(* ===== verification/VirtioScsiProofs.v ===== *)
(** * VirtioScsiDxe: the request *)
From S2P Require Import Prelude Bytes Memory OrderedCollection Virtio VirtioProofs VirtioDriver VirtioScsi.

(** ** Valid requests *)
Record request_ok (Dev : VSCSI_DEV) (Target Lun : Z) (p : PACKET) : Prop := {
  rk_bidi : 0 < InTransferLength p -> 0 < OutTransferLength p -> InOutSupported Dev = true;
  rk_target : Target <= MaxTarget Dev /\ Target <= 0xFF;
  rk_lun : Lun <= MaxLun Dev /\ Lun < 0x4000;
  rk_cdb : CdbLength p <= VIRTIO_SCSI_CDB_SIZE;
  rk_size : InTransferLength p + OutTransferLength p <= SIZE_1GB;
  rk_direction : DataDirection p <= DIRECTION_BIDIRECTIONAL;
  rk_in : 0 < InTransferLength p -> InDataBuffer p <> 0 /\ DataDirection p <> DIRECTION_WRITE;
  rk_out : 0 < OutTransferLength p -> OutDataBuffer p <> 0 /\ DataDirection p <> DIRECTION_READ;
  rk_sectors : InTransferLength p <= MaxSectors Dev / 2 * 512 /\ OutTransferLength p <= MaxSectors Dev / 2 * 512;
}.

(** The types of the packet's fields. *)
Record packet_typed (p : PACKET) : Prop := {
  pt_in : is_u32 (InTransferLength p);
  pt_out : is_u32 (OutTransferLength p);
  pt_cdb : is_u8 (CdbLength p);
  pt_sense : is_u8 (SenseDataLength p);
}.

(** How an invalid request is refused: an oversized one is told the largest
    transfer that the device takes. *)
Definition refusal (Dev : VSCSI_DEV) (p : PACKET) (out : passthru_out) : Prop :=
  (out = (EFI_UNSUPPORTED, p)) \/ (out = (EFI_INVALID_PARAMETER, p)) \/
  (out = (EFI_BAD_BUFFER_SIZE,
          report p (MaxSectors Dev / 2 * 512) (MaxSectors Dev / 2 * 512)
            HOST_ADAPTER_DATA_OVERRUN_UNDERRUN TARGET_GOOD 0) /\
   MaxSectors Dev / 2 * 512 < Z.max (InTransferLength p) (OutTransferLength p)).

Lemma align_512 v : 0 <= v <= SIZE_1GB -> ALIGN_VALUE32 v 512 / 512 = (v + 511) / 512.
Proof.
  intros Hv. unfold ALIGN_VALUE32, SIZE_1GB in *. change (512 - 1) with (Z.ones 9).
  rewrite Z.land_ones by lia. change (2 ^ 9) with 512. unfold u32.
  assert ((512 - v) mod 2 ^ 32 mod 512 = (512 - v) mod 512) as ->.
  { change (2 ^ 32) with (512 * 8388608). rewrite Z.rem_mul_r by lia.
    rewrite Z.mul_comm, Z.mod_add by lia. by rewrite Z.mod_mod by lia. }
  rewrite (Z.mod_small (v + _)) by lia_div. lia_div.
Qed.

(** VIRTIO_SCSI_REQ of a request. *)
Definition scsi_header (Target Lun : Z) (cdb : list Z) : list Z :=
  [1; u8 Target; u8 (Z.lor (Z.shiftr (u32 Lun) 8) 0x40); u8 Lun] ++ replicate 15 0 ++
  cdb ++ replicate (32 - length cdb) 0.

(** ** What a response says *)
Definition field_at (m : memory) (a n : Z) : Z := le_combine (mem_get m a n) mod 256 ^ n.

(** The length of the sense data that is returned. *)
Definition sense_len (p : PACKET) (m : memory) (r : Z) : Z :=
  Z.min (SenseDataLength p) (Z.min (field_at m (r + Off_SenseLen) 4) VIRTIO_SCSI_SENSE_SIZE).

(** The residual counts from the end of a write followed by a read. *)
Definition transferred (p : PACKET) (residual : Z) : Z * Z :=
  if residual <=? InTransferLength p then (InTransferLength p - residual, OutTransferLength p)
  else (0, u32 (OutTransferLength p - (residual - InTransferLength p))).

(** Function status and host adapter status of a response code. *)
Definition host_status (response : Z) : EFI_STATUS * Z :=
  if response =? VIRTIO_SCSI_S_OK then (EFI_SUCCESS, HOST_ADAPTER_OK)
  else if response =? VIRTIO_SCSI_S_OVERRUN then (EFI_DEVICE_ERROR, HOST_ADAPTER_DATA_OVERRUN_UNDERRUN)
  else if response =? VIRTIO_SCSI_S_BAD_TARGET then (EFI_TIMEOUT, HOST_ADAPTER_TIMEOUT_COMMAND)
  else if response =? VIRTIO_SCSI_S_RESET then (EFI_DEVICE_ERROR, HOST_ADAPTER_BUS_RESET)
  else if response =? VIRTIO_SCSI_S_BUSY then (EFI_NOT_READY, HOST_ADAPTER_OK)
  else (EFI_DEVICE_ERROR, HOST_ADAPTER_OTHER).

(** The answer to the caller, from the response at [r]. *)
Definition parsed (p : PACKET) (m : memory) (r : Z) : passthru_out :=
  let '(In, Out) := transferred p (field_at m (r + Off_Residual) 4) in
  let '(Status, Host) := host_status (field_at m (r + Off_Response) 1) in
  (Status, report p In Out Host (field_at m (r + Off_Status) 1) (sense_len p m r)).

(** [m']: [m] with the sense data delivered. *)
Definition sense_copied (p : PACKET) (m : memory) (r : Z) (m' : memory) : Prop :=
  mem_get m' (SenseData p) (sense_len p m r) = mem_get m (r + Off_Sense) (sense_len p m r) /\
  forall x, ~ (SenseData p <= x < SenseData p + sense_len p m r) -> m' x = m x.

Section VirtioScsi.
Context {W : Type} {V : VirtIo W} {VL : VirtIoLaws W}.
Context (Request : Z).
Implicit Types s : st (W:=W).

Lemma CopyCdb_spec n a i s :
  (a + i + Z.of_nat n <= Request \/ Request + SIZEOF_REQ <= a + i) -> 0 <= i -> i + Z.of_nat n <= 32 ->
  wp (CopyCdb Request n a i) (fun _ s' => exists m, s' = set_mem m s /\
    mem_get m (Request + Off_Cdb + i) (Z.of_nat n) = mem_get (Mem s) (a + i) (Z.of_nat n) /\
    forall x, ~ (Request + Off_Cdb + i <= x < Request + Off_Cdb + i + Z.of_nat n) -> m x = Mem s x) s.
Proof.
  revert i s. unfold SIZEOF_REQ, Off_Cdb. induction n as [|n IH]; intros i s Hap Hi Hn; cbn [CopyCdb].
  { wp_steps. exists (Mem s). split; [by destruct s|done]. }
  unfold peek, poke, Off_Cdb. wp_steps. set (m1 := mem_set _ _ _).
  eapply wp_mono; [apply (IH (i + 1) (set_mem m1 s)); lia|].
  intros _ s' (m & -> & Hm & Ho). exists m. split; [done|]. cbn [Mem set_mem set_world] in *.
  assert (m1 (Request + 19 + i) = Mem s (a + i)) as H1.
  { unfold m1. rewrite mem_set_inside by (cbn; lia). by rewrite Z.sub_diag. }
  assert (forall x, x <> Request + 19 + i -> m1 x = Mem s x) as H2.
  { intros x Hx. unfold m1. apply mem_set_outside. cbn. lia. }
  replace (Z.of_nat (S n)) with (1 + Z.of_nat n) by lia. split.
  - rewrite !mem_get_app by lia.
    replace (Request + 19 + i + 1) with (Request + 19 + (i + 1)) by lia. rewrite Hm.
    replace (a + (i + 1)) with (a + i + 1) by lia. f_equal.
    + rewrite !mem_get_1, <-H1. f_equal. apply Ho. lia.
    + apply mem_get_ext. intros x Hx. apply H2. lia.
  - intros x Hx. rewrite Ho by lia. apply H2. lia.
Qed.

Lemma PopulateRequest_spec Dev T L p s :
  packet_typed p -> 0 <= T -> 0 <= L -> 0 <= MaxSectors Dev ->
  (Cdb p + CdbLength p <= Request \/ Request + SIZEOF_REQ <= Cdb p) ->
  (forall x, Request <= x < Request + SIZEOF_REQ -> Mem s x = 0) ->
  wp (PopulateRequest Request Dev T L p) (fun out s' =>
    (~ request_ok Dev T L p /\ refusal Dev p out /\ s' = s) \/
    (request_ok Dev T L p /\ out = (EFI_SUCCESS, p) /\ exists m, s' = set_mem m s /\
      mem_get m Request SIZEOF_REQ = scsi_header T L (mem_get (Mem s) (Cdb p) (CdbLength p)) /\
      forall x, ~ (Request <= x < Request + SIZEOF_REQ) -> m x = Mem s x)) s.
Proof.
  intros [Hin Hout Hcdb _] HT HL HM Hap Hz. unfold PopulateRequest, is_u32, is_u8 in *.
  unfold VIRTIO_SCSI_CDB_SIZE, SIZE_1GB, DIRECTION_BIDIRECTIONAL, DIRECTION_READ, DIRECTION_WRITE in *.
  match goal with |- context [if ?b then _ else _] => destruct b eqn:C1 end.
  { wp_steps. left. split; [|split; [by left|done]]. intros [].
    unfold SIZE_1GB, VIRTIO_SCSI_CDB_SIZE in *. destruct (InOutSupported Dev); cbn in C1; [lia|].
    destruct (Z.lt_ge_cases 0 (InTransferLength p)); destruct (Z.lt_ge_cases 0 (OutTransferLength p));
      try specialize (rk_bidi0 ltac:(lia) ltac:(lia)); try done; lia. }
  match goal with |- context [if ?b then _ else _] => destruct b eqn:C2 end.
  { wp_steps. left. split; [|split; [by right; left|done]]. intros [].
    unfold DIRECTION_BIDIRECTIONAL, DIRECTION_READ, DIRECTION_WRITE in *.
    destruct (Z.lt_ge_cases 0 (InTransferLength p)); destruct (Z.lt_ge_cases 0 (OutTransferLength p));
      try specialize (rk_in0 ltac:(lia)); try specialize (rk_out0 ltac:(lia)); lia. }
  assert (InTransferLength p + OutTransferLength p <= 2 ^ 30) as H1G by (unfold SIZE_1GB in C1; lia).
  rewrite !align_512 by (unfold SIZE_1GB; lia).
  match goal with |- context [if ?b then _ else _] => destruct b eqn:C3 end.
  { wp_steps. left.
    assert (MaxSectors Dev / 2 * 512 < Z.max (InTransferLength p) (OutTransferLength p)) as Hmax by lia_div.
    split; [intros []; lia|]. split; [|done]. right. right. split; [|done].
    unfold u32. rewrite Z.mod_small; [done|]. lia_div. }
  wp_steps. unfold poke. wp_steps. set (m1 := mem_set _ _ _).
  assert (request_ok Dev T L p) as Hok.
  { unfold VIRTIO_SCSI_CDB_SIZE, SIZE_1GB, DIRECTION_BIDIRECTIONAL, DIRECTION_READ, DIRECTION_WRITE in *.
    split; unfold VIRTIO_SCSI_CDB_SIZE, SIZE_1GB, DIRECTION_BIDIRECTIONAL, DIRECTION_READ, DIRECTION_WRITE in *;
    try lia; [|lia_div]. intros. destruct (InOutSupported Dev); [done|]. cbn in C1. lia. }
  assert (CdbLength p <= 32) by apply Hok. unfold SIZEOF_REQ in *.
  eapply wp_mono; [apply (CopyCdb_spec (Z.to_nat (CdbLength p)) (Cdb p) 0 (set_mem m1 s)); unfold SIZEOF_REQ; lia|].
  intros _ s' (m & -> & Hm & Ho). wp_steps. right. split; [done|]. split; [done|].
  exists m. split; [done|]. cbn [Mem set_mem set_world] in *. rewrite !Z.add_0_r in *.
  rewrite Z2Nat.id in * by lia. unfold Off_Cdb in *.
  assert (forall x, ~ (Request <= x < Request + 4) -> m1 x = Mem s x) as H1.
  { intros x Hx. apply mem_set_outside. cbn. lia. }
  split; [|intros x Hx; rewrite Ho by lia; apply H1; lia].
  unfold scsi_header. rewrite length_mem_get.
  replace 51 with (4 + (15 + (CdbLength p + (32 - CdbLength p)))) by lia.
  rewrite !mem_get_app by lia. f_equal; [|f_equal; [|f_equal]].
  - rewrite (mem_get_ext m m1) by (intros; apply Ho; lia). by apply mem_get_set.
  - rewrite mem_get_zeros; [done|]. intros x Hx. rewrite Ho by lia. rewrite H1 by lia. apply Hz. lia.
  - replace (Request + 4 + 15) with (Request + 19) by lia. rewrite Hm.
    apply mem_get_ext. intros x Hx. apply H1. lia.
  - rewrite mem_get_zeros; [f_equal; lia|]. intros x Hx. rewrite Ho by lia. rewrite H1 by lia. apply Hz. lia.
Qed.

(** ** The response *)
Lemma wp_read_field a n (Q : Z -> st -> Prop) s :
  in_pages (Pages s) a n = true -> Q (field_at (Mem s) a n) s -> wp (read_field a n) Q s.
Proof. intros Hin HQ. unfold read_field. wp_step. apply wp_vio_read_le; [done|]. by wp_steps. Qed.

Lemma CopySense_spec n d r i s :
  (forall k, 0 <= k < i + Z.of_nat n -> in_pages (Pages s) (r + Off_Sense + k) 1 = true) ->
  (n = 0%nat \/ d + i + Z.of_nat n <= r \/ r + SIZEOF_RESP <= d + i) -> 0 <= i -> i + Z.of_nat n <= VIRTIO_SCSI_SENSE_SIZE ->
  wp (CopySense n d r i) (fun _ s' => exists m, s' = set_mem m s /\
    mem_get m (d + i) (Z.of_nat n) = mem_get (Mem s) (r + Off_Sense + i) (Z.of_nat n) /\
    forall x, ~ (d + i <= x < d + i + Z.of_nat n) -> m x = Mem s x) s.
Proof.
  revert i s. unfold SIZEOF_RESP, Off_Sense, VIRTIO_SCSI_SENSE_SIZE.
  induction n as [|n IH]; intros i s Hin Hap Hi Hn; cbn [CopySense].
  { wp_steps. exists (Mem s). split; [by destruct s|done]. }
  wp_step. apply wp_vio_read_le; [apply Hin; lia|]. rewrite byte_at. unfold poke, Off_Sense. wp_steps.
  set (m1 := mem_set _ _ _).
  eapply wp_mono; [apply (IH (i + 1) (set_mem m1 s)); [intros k Hk; apply Hin; lia|lia..]|].
  intros _ s' (m & -> & Hm & Ho). exists m. split; [done|]. cbn [Mem set_mem set_world] in *.
  assert (m1 (d + i) = Mem s (r + 12 + i)) as H1.
  { unfold m1. rewrite mem_set_inside by (cbn; lia). by rewrite Z.sub_diag. }
  assert (forall x, x <> d + i -> m1 x = Mem s x) as H2.
  { intros x Hx. unfold m1. apply mem_set_outside. cbn. lia. }
  replace (Z.of_nat (S n)) with (1 + Z.of_nat n) by lia. split.
  - rewrite !mem_get_app by lia.
    replace (d + i + 1) with (d + (i + 1)) by lia. rewrite Hm.
    replace (r + 12 + (i + 1)) with (r + 12 + i + 1) by lia. f_equal.
    + rewrite !mem_get_1, <-H1. f_equal. apply Ho. lia.
    + apply mem_get_ext. intros x Hx. apply H2. lia.
  - intros x Hx. rewrite Ho by lia. apply H2. lia.
Qed.

Lemma field_at_ext m m' a n : (forall x, a <= x < a + n -> m x = m' x) -> field_at m a n = field_at m' a n.
Proof. intros H. unfold field_at. by rewrite (mem_get_ext m m' a n). Qed.

Lemma ParseResponse_spec p r s :
  packet_typed p -> (forall k n, 0 <= k -> k + n <= SIZEOF_RESP -> in_pages (Pages s) (r + k) n = true) ->
  (SenseDataLength p = 0 \/ SenseData p + SenseDataLength p <= r \/ r + SIZEOF_RESP <= SenseData p) ->
  wp (ParseResponse p r) (fun out s' => out = parsed p (Mem s) r /\ exists m, s' = set_mem m s /\
    sense_copied p (Mem s) r m) s.
Proof.
  intros [Hin Hout _ Hsn] Hpg Hap. unfold ParseResponse. unfold is_u32, is_u8 in *.
  wp_step. apply wp_read_field; [apply Hpg; done|]. cbv zeta. change (field_at _ _ 4) with (field_at (Mem s) (r + Off_SenseLen) 4).
  assert (0 <= field_at (Mem s) (r + Off_SenseLen) 4) as Hf by (apply Z.mod_pos_bound; lia).
  set (n := if _ <? _ then _ else _). unfold VIRTIO_SCSI_SENSE_SIZE in *.
  assert (n = sense_len p (Mem s) r) as Hn.
  { unfold n, sense_len, VIRTIO_SCSI_SENSE_SIZE. destruct (Z.ltb_spec (Z.min (field_at (Mem s) (r + Off_SenseLen) 4) 96) (SenseDataLength p)); [|lia].
    unfold u8. rewrite Z.mod_small; lia. }
  clearbody n. subst n.
  assert (0 <= sense_len p (Mem s) r <= SenseDataLength p /\ sense_len p (Mem s) r <= 96) as Hb
    by (unfold sense_len, VIRTIO_SCSI_SENSE_SIZE; lia).
  unfold SIZEOF_RESP in *.
  wp_step. eapply wp_mono.
  { apply (CopySense_spec _ (SenseData p) r 0 s); unfold SIZEOF_RESP, VIRTIO_SCSI_SENSE_SIZE; [|lia..].
    intros k Hk. unfold Off_Sense. rewrite <-Z.add_assoc. apply Hpg; lia. }
  intros _ s' (m & -> & Hm & Ho). rewrite !Z.add_0_r, Z2Nat.id in * by lia.
  assert (forall k n, 0 <= k -> k + n <= 108 -> field_at m (r + k) n = field_at (Mem s) (r + k) n) as Hfe.
  { intros k n Hk Hkn. apply field_at_ext. intros x Hx. apply Ho. lia. }
  wp_step. apply wp_read_field; [by apply Hpg|]. cbn [Mem set_mem set_world]. rewrite Hfe by done.
  assert (0 <= field_at (Mem s) (r + Off_Residual) 4 < 2 ^ 32) as Hres by (apply Z.mod_pos_bound; lia).
  destruct (if _ <=? _ then _ else _) as [In' Out'] eqn:HIO.
  assert (transferred p (field_at (Mem s) (r + Off_Residual) 4) = (In', Out')) as HT.
  { rewrite <-HIO. unfold transferred. destruct (Z.leb_spec (field_at (Mem s) (r + Off_Residual) 4) (InTransferLength p)).
    - unfold u32. by rewrite Z.mod_small by lia.
    - unfold u32 at 3. by rewrite (Z.mod_small (_ - InTransferLength p)) by lia. }
  wp_step. apply wp_read_field; [by apply Hpg|]. cbn [Mem set_mem set_world]. rewrite Hfe by done.
  wp_step. apply wp_read_field; [by apply Hpg|]. cbn [Mem set_mem set_world]. rewrite Hfe by done. cbv zeta.
  assert (exists m0, set_mem m s = set_mem m0 s /\ sense_copied p (Mem s) r m0) as Hsc.
  { exists m. split; [done|]. by split. }
  unfold parsed. rewrite HT. unfold host_status.
  repeat (destruct (_ =? _); [by wp_steps|]). by wp_steps.
Qed.
End VirtioScsi.
