(* ===== verification/VirtioScsiPassThru.v ===== *)
(** * VirtioScsiDxe: VirtioScsiPassThru, from mapping to release *)
From S2P Require Import Prelude Bytes Memory OrderedCollection Virtio VirtioProofs VirtioDriver VirtioScsi VirtioScsiProofs.

(** The descriptor chain of a request. *)
Definition scsi_chain (p : PACKET) (L : LOCALS) : list (Z * Z * Z) :=
  [(RequestDeviceAddress L, SIZEOF_REQ, VRING_DESC_F_NEXT)] ++
  (if 0 <? OutTransferLength p then [(OutDataDeviceAddress L, OutTransferLength p, VRING_DESC_F_NEXT)] else []) ++
  [(ResponseDeviceAddress L, SIZEOF_RESP,
    Z.lor VRING_DESC_F_WRITE (if 0 <? InTransferLength p then VRING_DESC_F_NEXT else 0))] ++
  (if 0 <? InTransferLength p then [(InDataDeviceAddress L, InTransferLength p, VRING_DESC_F_WRITE)] else []).

Record addresses_ok (L : LOCALS) : Prop := {
  ao_request : is_u64 (RequestDeviceAddress L); ao_in : is_u64 (InDataDeviceAddress L);
  ao_out : is_u64 (OutDataDeviceAddress L); ao_response : is_u64 (ResponseDeviceAddress L);
}.

Lemma scsi_chain_ok p L :
  packet_typed p -> addresses_ok L ->
  Forall buffer_ok (scsi_chain p L) /\ (length (scsi_chain p L) <= 4)%nat.
Proof.
  intros [Hin Hout _ _] []. unfold scsi_chain. rewrite !Forall_app, !length_app. split.
  - split_and!; try (apply Forall_singleton; by split_and!).
    + destruct (0 <? OutTransferLength p); [|done]. apply Forall_singleton. by split_and!.
    + apply Forall_singleton. split_and!; [done..|]. by destruct (0 <? InTransferLength p).
    + destruct (0 <? InTransferLength p); [|done]. apply Forall_singleton. by split_and!.
  - destruct (0 <? OutTransferLength p), (0 <? InTransferLength p); cbn; lia.
Qed.

Lemma transferred_bounds p residual :
  0 <= residual -> 0 <= InTransferLength p -> 0 <= (transferred p residual).1 <= InTransferLength p.
Proof. intros. unfold transferred. destruct (Z.leb_spec residual (InTransferLength p)); cbn; lia. Qed.

Lemma parsed_in p m r : 0 <= InTransferLength p -> 0 <= InTransferLength (parsed p m r).2 <= InTransferLength p.
Proof.
  intros H. pose proof (transferred_bounds p (field_at m (r + Off_Residual) 4) ltac:(apply Z.mod_pos_bound; lia) H) as Hb.
  unfold parsed. destruct (transferred _ _) as [In' Out']. by destruct (host_status _).
Qed.
Lemma parsed_buffer p m r : InDataBuffer (parsed p m r).2 = InDataBuffer p.
Proof. unfold parsed. destruct (transferred _ _), (host_status _). done. Qed.

(** The memory [m'] after a completed request, found as [mc]: sense data and
    input data are with the caller. *)
Definition delivered (p : PACKET) (L : LOCALS) (mc : memory) (out : passthru_out) (m' : memory) : Prop :=
  exists ms, sense_copied p mc (ResponseBuffer L) ms /\
    m' = if InBuffer L =? 0 then ms
         else mem_set ms (InDataBuffer p) (mem_get ms (InBuffer L) (InTransferLength out.2)).

Section PassThru.
Context {W : Type} {V : VirtIo W} {VL : VirtIoLaws W}.
Implicit Types s : st (W:=W).

(** ** The chain *)
Definition BuildChain (Ring : VRING) (Packet : PACKET) (L : LOCALS) : M (st (W:=W)) DESC_INDICES :=
  Indices ← VirtioPrepare Ring;
  ASSERT (4 <=? QueueSize Ring);;
  Indices ← VirtioAppendDesc Ring (RequestDeviceAddress L) SIZEOF_REQ VRING_DESC_F_NEXT Indices;
  Indices ← (if 0 <? OutTransferLength Packet then
               VirtioAppendDesc Ring (OutDataDeviceAddress L) (OutTransferLength Packet) VRING_DESC_F_NEXT Indices
             else mret Indices);
  Indices ← VirtioAppendDesc Ring (ResponseDeviceAddress L) SIZEOF_RESP
              (Z.lor VRING_DESC_F_WRITE (if 0 <? InTransferLength Packet then VRING_DESC_F_NEXT else 0)) Indices;
  if 0 <? InTransferLength Packet then
    VirtioAppendDesc Ring (InDataDeviceAddress L) (InTransferLength Packet) VRING_DESC_F_WRITE Indices
  else mret Indices.

Lemma scsi_BuildChain_eq r p L s :
  4 <= QueueSize r ->
  BuildChain r p L s = (ind ← VirtioPrepare r; AppendAll r (scsi_chain p L) ind) s.
Proof.
  intros HQ%Z.leb_le. unfold BuildChain, scsi_chain, mbind, M_bind.
  destruct (VirtioPrepare r s) as [ind s1|]; [|done]. unfold ASSERT. rewrite HQ. cbn [app AppendAll].
  unfold mbind, M_bind, mret, M_ret. destruct (VirtioAppendDesc r (RequestDeviceAddress L) _ _ ind s1) as [i2 s2|]; [|done].
  destruct (0 <? OutTransferLength p), (0 <? InTransferLength p); cbn [app AppendAll]; unfold mbind, M_bind, mret, M_ret;
  repeat lazymatch goal with |- context [match VirtioAppendDesc ?r ?a ?n ?f ?i ?t with _ => _ end] =>
    destruct (VirtioAppendDesc r a n f i t) end; done.
Qed.

Lemma BuildChain_spec r p L s :
  ring_ok r (Pages s) -> 4 <= QueueSize r -> packet_typed p -> addresses_ok L ->
  wp (BuildChain r p L) (fun ind s' => ind = mkIndices 0 (Z.of_nat (length (scsi_chain p L))) /\
    exists m, s' = set_mem m s /\ chain_at m r 0 (scsi_chain p L)) s.
Proof.
  intros Hr HQ Hp HL. destruct (scsi_chain_ok p L Hp HL) as [Hok Hlen].
  unfold wp at 1. rewrite scsi_BuildChain_eq by done.
  eapply wp_mono; [apply chain_spec; [done|exact Hok|lia]|]. intros ind s' (-> & m & -> & Hch & _). eauto.
Qed.

(** What RunRequest does after BuildChain. *)
Lemma RunRequest_eq fuel r p L s :
  RunRequest fuel r p L s =
  (Indices ← BuildChain r p L;
   o ← VirtioFlush fuel VIRTIO_SCSI_REQUEST_QUEUE r Indices false;
   if o.1 =? EFI_SUCCESS then
     out ← ParseResponse p (ResponseBuffer L);
     (if InBuffer L =? 0 then mret tt
      else CopyOut (InDataBuffer out.2) (InBuffer L) (InTransferLength out.2));;
     mret out
   else mret (ReportHostAdapterError p)) s.
Proof.
  unfold RunRequest, BuildChain, mbind, M_bind, mret, M_ret.
  destruct (VirtioPrepare r s) as [ind s1|]; [|done]. destruct (ASSERT _ s1) as [[] s2|]; [|done].
  destruct (VirtioAppendDesc r _ _ _ ind s2) as [i2 s3|]; [|done].
  destruct (if 0 <? OutTransferLength p then _ else _) as [i3 s4|]; [|done].
  by destruct (VirtioAppendDesc r _ _ _ i3 s4) as [i4 s5|].
Qed.

(** How a submitted request was answered. *)
Definition answered (r : VRING) (p : PACKET) (L : LOCALS) (mn m' : memory) (out : passthru_out) : Prop :=
  ((exists St, rejected VIRTIO_SCSI_REQUEST_QUEUE mn St) /\ out = ReportHostAdapterError p) \/
  (exists mc, completed VIRTIO_SCSI_REQUEST_QUEUE r mn mc /\ out = parsed p mc (ResponseBuffer L) /\
     delivered p L mc out m').

Lemma CopyOut_spec d a n s :
  in_pages (Pages s) a n = true ->
  wp (CopyOut d a n) (fun _ s' => s' = set_mem (mem_set (Mem s) d (mem_get (Mem s) a n)) s) s.
Proof. intros H. unfold CopyOut. wp_steps. rewrite H, orb_true_r. unfold poke. by wp_steps. Qed.

Lemma scsi_RunRequest_spec N r p L s w m P X es :
  ring_ok r P -> 4 <= QueueSize r -> packet_typed p -> addresses_ok L -> Responsive VIRTIO_SCSI_REQUEST_QUEUE r N ->
  (forall k n, 0 <= k -> k + n <= SIZEOF_RESP -> in_pages P (ResponseBuffer L + k) n = true) ->
  (SenseDataLength p = 0 \/ SenseData p + SenseDataLength p <= ResponseBuffer L \/ ResponseBuffer L + SIZEOF_RESP <= SenseData p) ->
  (InBuffer L <> 0 -> forall n, n <= InTransferLength p -> in_pages P (InBuffer L) n = true) ->
  wp (RunRequest (S N) r p L) (fun out s' => exists w' m' mn k,
    s' = at_ s w' m' P X (es ++ EvNotify VIRTIO_SCSI_REQUEST_QUEUE mn :: (EvStall <$> periods k 1)) /\ (k <= N)%nat /\
    offers r mn (scsi_chain p L) /\ answered r p L mn m' out) (at_ s w m P X es).
Proof.
  intros Hr HQ Hp HL HR Hresp Hsense Hbuf. destruct (scsi_chain_ok p L Hp HL) as [Hok Hlen].
  unfold wp at 1. rewrite RunRequest_eq. apply wp_bind.
  eapply wp_mono; [by apply BuildChain_spec|]. intros ind s1 (-> & mc & -> & Hch). change (set_mem mc (at_ s w m P X es)) with (at_ s w mc P X es).
  wp_step. eapply wp_mono; [apply flush_chain; try done; lia|].
  intros [St n] s2 (mn & w' & m' & k & -> & Hk & Hoff & [[Hrej Hne%Z.eqb_neq]|[-> Hcomp]]); cbn [fst].
  { rewrite Hne. wp_steps. exists w', m', mn, k. split_and!; try done. left. eauto. }
  rewrite Z.eqb_refl. wp_step. eapply wp_mono; [by apply ParseResponse_spec|].
  intros out s3 (-> & ms & -> & Hs). cbn [Mem at_] in Hs |- *. change (set_mem ms (at_ s w' m' P X ?es')) with (at_ s w' ms P X es').
  destruct (Z.eqb_spec (InBuffer L) 0) as [H0|H0].
  - wp_steps. exists w', ms, mn, k. split_and!; try done. right. exists m'. split_and!; try done.
    exists ms. split; [done|]. by rewrite H0.
  - wp_step. eapply wp_mono; [apply CopyOut_spec; apply Hbuf; [done|apply parsed_in, Hp]|].
    intros _ s4 ->. wp_steps. eexists w', _, mn, k. split; [reflexivity|]. split_and!; try done. right. exists m'.
    split_and!; try done. exists ms. split; [done|]. apply Z.eqb_neq in H0. rewrite H0.
    cbn [Mem at_]. by rewrite parsed_buffer.
Qed.

(** ** Release *)

(** What the labels release, from the innermost resource outwards. *)
Definition held_in (L : LOCALS) (P : page_map) : page_map :=
  if InBuffer L =? 0 then P else <[InBuffer L := InDataNumPages L]> P.
Definition in_map (L : LOCALS) (x : mapping) (X : gmap Z mapping) : gmap Z mapping :=
  if InBuffer L =? 0 then X else <[InDataMapping L := x]> X.
Definition out_map (L : LOCALS) (x : mapping) (X : gmap Z mapping) : gmap Z mapping :=
  if OutDataBufferIsMapped L then <[OutDataMapping L := x]> X else X.
Record fresh (L : LOCALS) (rx ix : mapping) (P : page_map) (X : gmap Z mapping) : Prop := {
  fr_request : X !! RequestMapping L = None;
  fr_in_pages : InBuffer L <> 0 -> P !! InBuffer L = None;
  fr_in_map : InBuffer L <> 0 -> <[RequestMapping L := rx]> X !! InDataMapping L = None;
  fr_out_map : OutDataBufferIsMapped L = true ->
    in_map L ix (<[RequestMapping L := rx]> X) !! OutDataMapping L = None;
}.

Lemma fresh_set_response a d t L rx ix P X : fresh L rx ix P X -> fresh (set_response a d t L) rx ix P X.
Proof. intros []. by split. Qed.

Definition released s (P : page_map) (X : gmap Z mapping) es (r out : passthru_out) s' : Prop :=
  out = r /\ exists w' m' l, s' = at_ s w' m' P X (es ++ l) /\ Forall quiet l.

Lemma released_app s P X es l r out s' :
  Forall quiet l -> released s P X (es ++ l) r out s' -> released s P X es r out s'.
Proof.
  intros Hl (-> & w & m & l' & -> & Hl'). split; [done|]. exists w, m, (l ++ l').
  by rewrite (assoc_L (++)), Forall_app.
Qed.

(** Releasing an optional resource, then the rest. *)
Lemma wp_release_map (b : bool) tok x r (k : M (st (W:=W)) passthru_out) s w m P P' X X' es :
  (b = true -> X !! tok = None) ->
  (forall w' m' es', wp k (released s P' X' es' r) (at_ s w' m' P X es')) ->
  wp ((if b then _ ← UnmapSharedBuffer tok; mret tt else mret tt);; k) (released s P' X' es r)
    (at_ s w m P (if b then <[tok := x]> X else X) es).
Proof.
  intros HX Hk. destruct b; wp_step; [|wp_step; apply Hk].
  wp_step. eapply wp_at_Unmap; [apply lookup_insert_eq|]. intros St w' m'. rewrite delete_insert_id by auto.
  wp_steps. eapply wp_mono; [apply Hk|]. intros out s'. apply released_app. by repeat constructor.
Qed.

Lemma scsi_UnmapRequestBuffer_spec L rx r s w m P X es :
  X !! RequestMapping L = None ->
  wp (UnmapRequestBuffer L r) (released s P X es r) (at_ s w m P (<[RequestMapping L := rx]> X) es).
Proof.
  intros HX. unfold UnmapRequestBuffer. wp_step. eapply wp_at_Unmap; [apply lookup_insert_eq|].
  intros U w1 m1. rewrite delete_insert_id by done. wp_steps. split; [done|]. eexists _, _, _. split; [done|].
  by repeat constructor.
Qed.

Lemma FreeInDataBuffer_spec L rx r s w m P X es :
  X !! RequestMapping L = None -> (InBuffer L <> 0 -> P !! InBuffer L = None) ->
  wp (FreeInDataBuffer L r) (released s P X es r) (at_ s w m (held_in L P) (<[RequestMapping L := rx]> X) es).
Proof.
  intros Hq Hp. unfold FreeInDataBuffer, held_in. destruct (Z.eqb_spec (InBuffer L) 0); wp_step.
  - wp_step. by apply scsi_UnmapRequestBuffer_spec.
  - eapply wp_at_Free; [apply lookup_insert_eq|]. intros w' m'. rewrite delete_insert_id by auto.
    eapply wp_mono; [by apply scsi_UnmapRequestBuffer_spec|]. intros out s'. apply released_app. by repeat constructor.
Qed.

Lemma UnmapInDataBuffer_spec L rx ix r s w m P X es :
  fresh L rx ix P X ->
  wp (UnmapInDataBuffer L r) (released s P X es r)
    (at_ s w m (held_in L P) (in_map L ix (<[RequestMapping L := rx]> X)) es).
Proof.
  intros Hf. unfold UnmapInDataBuffer.
  assert (forall w' m' es', wp (FreeInDataBuffer L r) (released s P X es' r)
    (at_ s w' m' (held_in L P) (<[RequestMapping L := rx]> X) es')) as Hk by (destruct Hf; intros; by apply FreeInDataBuffer_spec).
  pose proof (wp_release_map (negb (InBuffer L =? 0)) (InDataMapping L) ix r (FreeInDataBuffer L r) s w m (held_in L P) P
    (<[RequestMapping L := rx]> X) X es) as H. unfold in_map.
  destruct (Z.eqb_spec (InBuffer L) 0) as [|Hne]; cbn [negb] in H; apply H; try done.
  intros _. by apply Hf.
Qed.

Lemma UnmapOutDataBuffer_spec L rx ix ox r s w m P X es :
  fresh L rx ix P X ->
  wp (UnmapOutDataBuffer L r) (released s P X es r)
    (at_ s w m (held_in L P) (out_map L ox (in_map L ix (<[RequestMapping L := rx]> X))) es).
Proof.
  intros Hf. unfold UnmapOutDataBuffer, out_map. apply wp_release_map; [apply Hf|].
  intros. by apply UnmapInDataBuffer_spec.
Qed.

Lemma FreeResponseBuffer_spec L rx ix ox r s w m P X es :
  fresh L rx ix P X -> held_in L P !! ResponseBuffer L = None ->
  wp (FreeResponseBuffer L r) (released s P X es r)
    (at_ s w m (<[ResponseBuffer L := 1]> (held_in L P))
       (out_map L ox (in_map L ix (<[RequestMapping L := rx]> X))) es).
Proof.
  intros Hf Hp. unfold FreeResponseBuffer. change (EFI_SIZE_TO_PAGES SIZEOF_RESP) with 1. wp_step.
  eapply wp_at_Free; [apply lookup_insert_eq|]. intros w' m'. rewrite delete_insert_id by done.
  eapply wp_mono; [by apply UnmapOutDataBuffer_spec|]. intros out s'. apply released_app. by repeat constructor.
Qed.

Lemma UnmapResponseBuffer_spec L rx ix ox sx r s w m P X es :
  fresh L rx ix P X -> held_in L P !! ResponseBuffer L = None ->
  out_map L ox (in_map L ix (<[RequestMapping L := rx]> X)) !! ResponseMapping L = None ->
  wp (UnmapResponseBuffer L r) (released s P X es r)
    (at_ s w m (<[ResponseBuffer L := 1]> (held_in L P))
       (<[ResponseMapping L := sx]> (out_map L ox (in_map L ix (<[RequestMapping L := rx]> X)))) es).
Proof.
  intros Hf Hp Hx. unfold UnmapResponseBuffer. wp_step.
  eapply wp_at_Unmap; [apply lookup_insert_eq|]. intros U w' m'. rewrite delete_insert_id by done.
  eapply wp_mono; [by apply FreeResponseBuffer_spec|]. intros out s'. apply released_app. by repeat constructor.
Qed.

(** ** What the host is given before the notification *)
Definition is_map (e : event) : Prop := match e with EvMap _ _ _ _ _ => True | _ => False end.
Lemma is_map_quiet l : Forall is_map l -> Forall quiet l.
Proof. intros H. eapply Forall_impl; [exact H|]. by intros []. Qed.

Definition header_mapped (Request : Z) (header : list Z) (L : LOCALS) (pre : list event) : Prop :=
  exists n m, EvMap VirtioOperationBusMasterRead Request n (RequestDeviceAddress L) m ∈ pre /\ SIZEOF_REQ <= n /\
    mem_get m Request SIZEOF_REQ = header.
Definition in_mapped (p : PACKET) (L : LOCALS) (pre : list event) : Prop :=
  0 < InTransferLength p -> exists n m,
    EvMap VirtioOperationBusMasterCommonBuffer (InBuffer L) n (InDataDeviceAddress L) m ∈ pre /\
    InTransferLength p <= n /\ forall x, InBuffer L <= x < InBuffer L + InTransferLength p -> m x = 0.
Definition out_mapped (p : PACKET) (L : LOCALS) (pre : list event) : Prop :=
  0 < OutTransferLength p -> exists n m,
    EvMap VirtioOperationBusMasterRead (OutDataBuffer p) n (OutDataDeviceAddress L) m ∈ pre /\
    OutTransferLength p <= n.
Definition response_mapped (L : LOCALS) (pre : list event) : Prop :=
  exists n m, EvMap VirtioOperationBusMasterCommonBuffer (ResponseBuffer L) n (ResponseDeviceAddress L) m ∈ pre /\
    SIZEOF_RESP <= n /\ m (ResponseBuffer L + Off_Response) = VIRTIO_SCSI_S_FAILURE.

(** A request that the host saw: offered once, with everything still mapped,
    and answered with the host's response. *)
Definition served s (Request : Z) (header : list Z) (r : VRING) (p : PACKET) (es : list event)
    (out : passthru_out) s' : Prop :=
  exists L pre post mn,
    es = pre ++ EvNotify VIRTIO_SCSI_REQUEST_QUEUE mn :: post /\ Forall quiet post /\ Forall is_map pre /\
    header_mapped Request header L pre /\ in_mapped p L pre /\ out_mapped p L pre /\ response_mapped L pre /\
    offers r mn (scsi_chain p L) /\
    (((exists St, rejected VIRTIO_SCSI_REQUEST_QUEUE mn St) /\ out = ReportHostAdapterError p) \/
     (exists mc k w1 m1 P1 X1, completed VIRTIO_SCSI_REQUEST_QUEUE r mn mc /\
        out = parsed p mc (ResponseBuffer L) /\ delivered p L mc out m1 /\
        UnmapResponseBuffer L out (at_ s w1 m1 P1 X1
          (pre ++ EvNotify VIRTIO_SCSI_REQUEST_QUEUE mn :: (EvStall <$> periods k 1))) = Done out s')).

(** Everything is given back; the host is asked nothing, or served. *)
Definition passed s Request header (r : VRING) (p : PACKET) (P : page_map) (X : gmap Z mapping)
    (out : passthru_out) s' : Prop :=
  exists w m es, s' = at_ s w m P X es /\
    ((out = ReportHostAdapterError p /\ Forall quiet es) \/ served s Request header r p es out s').

Lemma released_passed s Request header r p P X es out s' :
  Forall quiet es -> released s P X es (ReportHostAdapterError p) out s' -> passed s Request header r p P X out s'.
Proof.
  intros Hes (-> & w & m & l & -> & Hl). exists w, m, (es ++ l). split; [done|]. left. split; [done|].
  by apply Forall_app.
Qed.

Lemma in_pages_insert P b k a n : P !! b = None -> in_pages P a n = true -> in_pages (<[b := k]> P) a n = true.
Proof.
  intros Hb H. apply bool_decide_eq_true in H as (b' & k' & Hb' & Hr).
  eapply in_pages_intro; [|exact Hr]. rewrite lookup_insert_ne; [done|]. congruence.
Qed.

Context (own : Z -> Prop).
Context (own_apart : forall live n w m St a m' w',
  vio_AllocateSharedPages live n w m = (St, a, m', w') -> EFI_ERROR St = false ->
  forall x, a <= x < a + EFI_PAGE_SIZE * n -> ~ own x).
Context (Request : Z) (header : list Z) (N : nat) (r : VRING) (p : PACKET).
Context (HQ : 4 <= QueueSize r) (HR : Responsive VIRTIO_SCSI_REQUEST_QUEUE r N) (Hp : packet_typed p).
Context (Hown : forall x, SenseData p <= x < SenseData p + SenseDataLength p -> own x).

Lemma MapResponse_spec L rx ix ox s w m P X es :
  ring_ok r (held_in L P) -> addresses_ok L -> fresh L rx ix P X -> Forall is_map es ->
  header_mapped Request header L es -> in_mapped p L es -> out_mapped p L es ->
  (InBuffer L <> 0 -> forall n, n <= InTransferLength p -> in_pages (held_in L P) (InBuffer L) n = true) ->
  wp (MapResponse (S N) r p L) (passed s Request header r p P X)
    (at_ s w m (held_in L P) (out_map L ox (in_map L ix (<[RequestMapping L := rx]> X))) es).
Proof.
  intros Hr [A1 A2 A3 _] Hf Hes Hh Hi Ho Hbuf. unfold MapResponse. change (EFI_SIZE_TO_PAGES SIZEOF_RESP) with 1.
  wp_step. apply wp_at_Pages.
  { intros St a w1 m1 HE. rewrite HE. eapply wp_mono; [by apply UnmapOutDataBuffer_spec|].
    intros out s'. by apply released_passed, is_map_quiet. }
  intros St resp w1 m1 EA HE Ha Hal Hend Hdis Hfr. rewrite HE.
  pose proof (own_apart _ _ _ _ _ _ _ _ EA HE) as Hap. pose proof (fresh_not_live _ _ _ Hdis) as Hnl.
  unfold EFI_PAGE_SIZE, SIZEOF_RESP in *.
  assert (forall k n, 0 <= k -> k + n <= 108 -> in_pages (<[resp := 1]> (held_in L P)) (resp + k) n = true) as Hin.
  { intros k n Hk Hn. eapply in_pages_intro; [apply lookup_insert_eq|]. unfold page_range, EFI_PAGE_SIZE. lia. }
  assert (in_pages (<[resp := 1]> (held_in L P)) resp 108 = true) as Hin0.
  { rewrite <-(Z.add_0_r resp) at 2. by apply Hin. }
  wp_step. apply wp_vio_write; [exact Hin0|].
  unfold write_le. wp_step. apply wp_vio_write; [by apply Hin|].
  set (m2 := mem_set (Mem _) (resp + Off_Response) _).
  assert (m2 (resp + Off_Response) = VIRTIO_SCSI_S_FAILURE) as Hpre.
  { unfold m2. rewrite mem_set_inside by (cbn; lia). by rewrite Z.sub_diag. }
  change (set_mem m2 (set_mem ?m0 (at_ s w1 m1 ?P1 ?X1 es))) with (at_ s w1 m2 P1 X1 es). clearbody m2.
  wp_step. apply wp_at_Map.
  { intros St2 dev tok w3 m3 l HE2 Hl. cbn beta iota. rewrite HE2.
    eapply wp_mono; [apply (FreeResponseBuffer_spec (set_response resp 0 0 L) rx ix ox); [|done]|].
    { by apply fresh_set_response. }
    intros out s'. apply released_passed. rewrite Forall_app. split; [by apply is_map_quiet|done]. }
  intros sa tok n w3 m3 Htok Hsa Hn. cbn beta iota. change (EFI_ERROR EFI_SUCCESS) with false. cbn iota zeta.
  set (L' := set_response resp sa tok L). set (es' := es ++ [EvMap _ _ _ _ _]).
  assert (forall e, e ∈ es -> e ∈ es') as Hsub by (intros e He; apply elem_of_app; by left).
  wp_step. eapply wp_mono.
  { apply (scsi_RunRequest_spec N r p L'); try done.
    - by apply ring_ok_insert.
    - change (ResponseBuffer L') with resp. unfold SIZEOF_RESP. pose proof (pt_sense _ Hp) as Hs. unfold is_u8 in Hs.
      destruct (Z.eq_dec (SenseDataLength p) 0) as [E0|E0]; [by left|]. right.
      destruct (Z.le_gt_cases (SenseData p + SenseDataLength p) resp); [by left|].
      destruct (Z.le_gt_cases (resp + 108) (SenseData p)); [by right|]. exfalso.
      apply (Hap (Z.max resp (SenseData p))); [lia|]. apply Hown. lia.
    - intros H0 k Hk. apply in_pages_insert; [done|]. by apply Hbuf. }
  intros out s1 (w4 & m4 & mn & k & -> & Hk & Hoff & Hans).
  destruct (wp_elim _ _ _ (UnmapResponseBuffer_spec L' rx ix ox
    (VirtioOperationBusMasterCommonBuffer, resp, n, sa) out s w4 m4 P X
    (es' ++ EvNotify VIRTIO_SCSI_REQUEST_QUEUE mn :: (EvStall <$> periods k 1))
    (fresh_set_response _ _ _ _ _ _ _ _ Hf) Hnl Htok))
    as (out' & s' & Erun & -> & w5 & m5 & l & Es & Hl).
  apply wp_run. exists out, s'. split; [exact Erun|].
  exists w5, m5, (es' ++ (EvNotify VIRTIO_SCSI_REQUEST_QUEUE mn :: (EvStall <$> periods k 1)) ++ l).
  split; [by rewrite Es, <-(assoc_L (++))|]. right.
  exists L', es', ((EvStall <$> periods k 1) ++ l), mn. split; [done|]. split.
  { rewrite Forall_app. split; [|done]. by apply Forall_fmap, Forall_true. }
  split; [by apply Forall_app; split; [|repeat constructor]|].
  split; [destruct Hh as (n' & m' & Hn' & ?); exists n', m'; split; [by apply Hsub|done]|].
  split; [intros H0; destruct (Hi H0) as (n' & m' & ? & ?); exists n', m'; split; [by apply Hsub|done]|].
  split; [intros H0; destruct (Ho H0) as (n' & m' & ? & ?); exists n', m'; split; [by apply Hsub|done]|].
  split; [exists n, m2; split; [apply elem_of_app; right; by left|done]|]. split; [done|].
  destruct Hans as [H|(mc & Hc & Hout & Hd)]; [by left|]. right.
  eexists mc, k, w4, m4, _, _. split_and!; try done.
Qed.

Lemma header_mapped_app L l es : header_mapped Request header L es -> header_mapped Request header L (es ++ l).
Proof. intros (n & m & H & ?). exists n, m. split; [apply elem_of_app; by left|done]. Qed.
Lemma in_mapped_app L l es : in_mapped p L es -> in_mapped p L (es ++ l).
Proof. intros H H0. destruct (H H0) as (n & m & Hi & ?). exists n, m. split; [apply elem_of_app; by left|done]. Qed.

Lemma MapOutData_spec L rx ix s w m P X es :
  ring_ok r (held_in L P) -> addresses_ok L -> fresh L rx ix P X -> Forall is_map es ->
  OutDataBufferIsMapped L = false -> header_mapped Request header L es -> in_mapped p L es ->
  (InBuffer L <> 0 -> forall n, n <= InTransferLength p -> in_pages (held_in L P) (InBuffer L) n = true) ->
  wp (MapOutData (S N) r p L) (passed s Request header r p P X)
    (at_ s w m (held_in L P) (in_map L ix (<[RequestMapping L := rx]> X)) es).
Proof.
  intros Hr [A1 A2 A3 A4] Hf Hes HOut Hh Hi Hbuf. unfold MapOutData. destruct (Z.ltb_spec 0 (OutTransferLength p)) as [H0|H0].
  - wp_step. apply wp_at_Map.
    { intros St dev tok w1 m1 l HE Hl. cbn beta iota. rewrite HE. eapply wp_mono; [by apply UnmapInDataBuffer_spec|].
      intros out s'. apply released_passed. rewrite Forall_app. split; [by apply is_map_quiet|done]. }
    intros dev tok n w1 m1 Htok Hdev Hn. cbn beta iota. change (EFI_ERROR EFI_SUCCESS) with false. cbn iota.
    apply (MapResponse_spec (set_out dev tok L) rx ix (VirtioOperationBusMasterRead, OutDataBuffer p, n, dev));
      try done.
    + destruct Hf. by split.
    + apply Forall_app. split; [done|by repeat constructor].
    + by apply (header_mapped_app L).
    + by apply (in_mapped_app L).
    + intros _. exists n, m. split; [apply elem_of_app; right; by left|done].
  - pose proof (MapResponse_spec L rx ix rx s w m P X es) as H. unfold out_map in H. rewrite HOut in H.
    apply H; try done. intros H1. lia.
Qed.

Lemma MapInData_spec dev tok rx s w m P X es :
  ring_ok r P -> is_u64 dev -> X !! tok = None -> Forall is_map es ->
  let L := mkLocals dev tok 0 0 0 0 false 0 0 0 0 0 in
  header_mapped Request header L es ->
  wp (MapInData (S N) r p L) (passed s Request header r p P X) (at_ s w m P (<[tok := rx]> X) es).
Proof.
  intros Hr Hdev Htok Hes L Hh. unfold MapInData. pose proof (pt_in _ Hp) as H32. unfold is_u32 in H32.
  destruct (Z.ltb_spec 0 (InTransferLength p)) as [H0|H0].
  - cbv zeta. pose proof (EFI_SIZE_TO_PAGES_bound _ H32) as Hpg. set (pages := EFI_SIZE_TO_PAGES _) in *.
    wp_step. apply wp_at_Pages.
    { intros St a w1 m1 HE. rewrite HE. eapply wp_mono; [by apply (scsi_UnmapRequestBuffer_spec L)|].
      intros out s'. by apply released_passed, is_map_quiet. }
    intros St buf w1 m1 EA HE Ha Hal Hend Hdis Hfr. rewrite HE. pose proof (fresh_not_live _ _ _ Hdis) as Hnl.
    assert (forall n, n <= InTransferLength p -> in_pages (<[buf := pages]> P) buf n = true) as Hin.
    { intros n Hn. eapply in_pages_intro; [apply lookup_insert_eq|]. unfold page_range. lia. }
    wp_step. apply wp_vio_write; [rewrite length_replicate; apply Hin; lia|].
    set (m2 := mem_set (Mem _) buf _). change (set_mem m2 (at_ s w1 m1 ?P1 ?X1 es)) with (at_ s w1 m2 P1 X1 es).
    assert (forall x, buf <= x < buf + InTransferLength p -> m2 x = 0) as Hz.
    { intros x Hx. unfold m2. rewrite mem_set_inside by (rewrite length_replicate; lia). apply nth_zeros. }
    clearbody m2.
    assert (forall d t, held_in (set_in buf pages d t L) P = <[buf := pages]> P) as Hheld.
    { intros d t. unfold held_in. cbn. by destruct (Z.eqb_spec buf 0); [lia|]. }
    wp_step. apply wp_at_Map.
    { intros St2 d t w3 m3 l HE2 Hl. cbn beta iota. rewrite HE2. rewrite <-(Hheld 0 0).
      eapply wp_mono; [by apply (FreeInDataBuffer_spec (set_in buf pages 0 0 L))|].
      intros out s'. apply released_passed. rewrite Forall_app. split; [by apply is_map_quiet|done]. }
    intros d t n w3 m3 Ht Hd Hn. cbn beta iota. change (EFI_ERROR EFI_SUCCESS) with false. cbn iota.
    pose proof (MapOutData_spec (set_in buf pages d t L) rx
      (VirtioOperationBusMasterCommonBuffer, buf, n, d) s w3 m3 P X
      (es ++ [EvMap VirtioOperationBusMasterCommonBuffer buf n d m2])) as H.
    rewrite Hheld in H. unfold in_map in H. cbn [InBuffer set_in InDataMapping RequestMapping] in H.
    destruct (Z.eqb_spec buf 0); [lia|]. apply H; try done.
    + by apply ring_ok_insert.
    + apply Forall_app. split; [done|by repeat constructor].
    + by apply (header_mapped_app L).
    + intros _. exists n, m2. split; [apply elem_of_app; right; by left|done].
  - apply (MapOutData_spec L rx rx); try done. intros H1. lia.
Qed.
End PassThru.

(** ** The whole operation *)
Section Whole.
Context {W : Type} {V : VirtIo W} {VL : VirtIoLaws W}.
Implicit Types s : st (W:=W).
Context (own : Z -> Prop).
Context (own_apart : forall live n w m St a m' w',
  vio_AllocateSharedPages live n w m = (St, a, m', w') -> EFI_ERROR St = false ->
  forall x, a <= x < a + EFI_PAGE_SIZE * n -> ~ own x).
Context (Request : Z).

(** Devices that VirtioScsiInit leaves. *)
Record dev_ok (T L : Z) (Dev : VSCSI_DEV) (P : page_map) : Prop := {
  do_ring : ring_ok (Ring Dev) P;
  do_queue : 4 <= QueueSize (Ring Dev);
  do_target : 0 <= MaxTarget Dev <= T;
  do_lun : 0 <= MaxLun Dev <= L;
  do_sectors : 2 <= MaxSectors Dev < 2 ^ 32;
}.

Definition cdb_of s (p : PACKET) : list Z := mem_get (Mem s) (Cdb p) (CdbLength p).

Lemma PassThru_spec N T L Dev Target Lun p s :
  dev_ok T L Dev (Pages s) -> Responsive VIRTIO_SCSI_REQUEST_QUEUE (Ring Dev) N -> packet_typed p ->
  0 <= TargetValue Target -> 0 <= Lun ->
  (Cdb p + CdbLength p <= Request \/ Request + SIZEOF_REQ <= Cdb p) ->
  (forall x, SenseData p <= x < SenseData p + SenseDataLength p -> own x) ->
  wp (VirtioScsiPassThru Request (S N) Dev Target Lun p) (fun out s' =>
    Pages s' = Pages s /\ Maps s' = Maps s /\
    ((~ request_ok Dev (TargetValue Target) Lun p /\ refusal Dev p out /\ Trace s' = Trace s) \/
     (request_ok Dev (TargetValue Target) Lun p /\
      passed s Request (scsi_header (TargetValue Target) Lun (cdb_of s p)) (Ring Dev) p (Pages s) (Maps s) out s'))) s.
Proof.
  intros [Hr HQ HT HL HS] HR Hp Ht Hl Hap Hown. unfold VirtioScsiPassThru, poke. wp_steps.
  set (m0 := mem_set (Mem s) Request _).
  assert (forall x, Request <= x < Request + SIZEOF_REQ -> m0 x = 0) as Hz.
  { intros x Hx. unfold m0. rewrite mem_set_inside by (rewrite length_replicate; done). apply nth_zeros. }
  assert (mem_get m0 (Cdb p) (CdbLength p) = cdb_of s p) as Hcdb.
  { unfold m0. apply mem_get_set_disjoint. rewrite length_replicate. unfold SIZEOF_REQ in *. lia. }
  clearbody m0. pose proof (pt_cdb _ Hp) as Hc. unfold is_u8 in Hc.
  eapply wp_mono; [apply PopulateRequest_spec; try done; lia|].
  intros out s1 [(Hno & Href & ->)|(Hok & -> & m1 & -> & Hm1 & _)].
  { destruct out as [St p']. assert (EFI_ERROR St = true) as HE.
    { by destruct Href as [[= -> ->]|[[= -> ->]|[[= -> ->] _]]]. }
    rewrite HE. wp_steps. split; [done|]. split; [done|]. by left. }
  change (EFI_ERROR EFI_SUCCESS) with false. cbn iota. cbn [Mem set_mem set_world] in Hm1. rewrite Hcdb in Hm1.
  change (set_mem m1 (set_mem m0 s)) with (set_mem m1 s). rewrite (at_self (set_mem m1 s)).
  cbn [Env Mem Pages Maps set_mem set_world].
  assert (forall w m P X es, at_ (set_mem m1 s) w m P X es = at_ s w m P X es) as Hat by done. rewrite Hat.
  set (header := scsi_header _ _ _) in *.
  assert (forall out s', passed s Request header (Ring Dev) p (Pages s) (Maps s) out s' ->
    Pages s' = Pages s /\ Maps s' = Maps s /\
    ((~ request_ok Dev (TargetValue Target) Lun p /\ refusal Dev p out /\ Trace s' = Trace s) \/
     (request_ok Dev (TargetValue Target) Lun p /\
      passed s Request header (Ring Dev) p (Pages s) (Maps s) out s'))) as Hfin.
  { intros out s' Hpass. pose proof Hpass as (w & m & es & -> & _). split; [done|]. split; [done|]. by right. }
  wp_step. apply wp_at_Map.
  { intros St dev tok w2 m2 l HE Hl'. cbn beta iota. rewrite HE. wp_steps. apply Hfin.
    exists w2, m2, l. split; [done|]. by left. }
  intros dev tok n w2 m2 Htok Hdev Hn. cbn beta iota. change (EFI_ERROR EFI_SUCCESS) with false. cbn iota.
  eapply wp_mono; [|exact Hfin]. apply (MapInData_spec own own_apart); try done; [by repeat constructor|].
  exists n, m1. split; [by left|]. by split.
Qed.
End Whole.
