(* ===== verification/VirtioScsiInit.v ===== *)
(** * VirtioScsiDxe: bring-up, tear down, and driver binding *)
From S2P Require Import Prelude Bytes Memory OrderedCollection Virtio VirtioProofs VirtioDriver VirtioScsi VirtioScsiProofs VirtioScsiPassThru.

Section VirtioScsiInit.
Context {W : Type} {V : VirtIo W} {BS : BootServices W} {VL : VirtIoLaws W}.
Context (TL LL : Z) (HTL : is_u16 TL) (HLL : is_u32 LL).
Implicit Types s : st (W:=W).

(** A failed bring-up: nothing held, the host told, and no capacity left in
    the device structure. *)
Definition failed s (P : page_map) (X : gmap Z mapping) (out : init_out) s' : Prop :=
  gave_up s P X out s' /\ InOutSupported out.2 = false /\
  MaxTarget out.2 = 0 /\ MaxLun out.2 = 0 /\ MaxSectors out.2 = 0.

Lemma scsi_Failed_spec Dev v St s w m P X es :
  EFI_ERROR St = true -> wp (Failed Dev v St) (failed s P X) (at_ s w m P X es).
Proof.
  intros HE. unfold Failed. wp_step. apply wp_at_SetDeviceStatus. intros U w' m'. wp_steps. split; [|done].
  split; [done|]. by exists w', m', es, v.
Qed.

Lemma scsi_ReleaseQueue_spec Dev v St s w m P X es :
  EFI_ERROR St = true -> P !! Base (Ring Dev) = None ->
  wp (ReleaseQueue Dev v St) (failed s P X)
    (at_ s w m (<[Base (Ring Dev) := NumPages (Ring Dev)]> P) X es).
Proof.
  intros HE HP. unfold ReleaseQueue, VirtioRingUninit. wp_step. wp_step.
  eapply wp_at_Free; [apply lookup_insert_eq|]. intros w' m'. rewrite delete_insert_id by done. wp_steps.
  by apply scsi_Failed_spec.
Qed.

Lemma scsi_UnmapQueue_spec Dev v St x s w m P X es :
  EFI_ERROR St = true -> P !! Base (Ring Dev) = None -> X !! RingMap Dev = None ->
  wp (UnmapQueue Dev v St) (failed s P X)
    (at_ s w m (<[Base (Ring Dev) := NumPages (Ring Dev)]> P) (<[RingMap Dev := x]> X) es).
Proof.
  intros HE HP HX. unfold UnmapQueue. wp_step. eapply wp_at_Unmap; [apply lookup_insert_eq|].
  intros U w' m'. rewrite delete_insert_id by done. by apply scsi_ReleaseQueue_spec.
Qed.

(** ** Configuration *)
Record limits_ok (inout : bool) (Dev : VSCSI_DEV) : Prop := {
  li_inout : InOutSupported Dev = inout;
  li_target : 0 <= MaxTarget Dev <= TL;
  li_lun : 0 <= MaxLun Dev <= LL;
  li_sectors : 2 <= MaxSectors Dev < 2 ^ 32;
}.

Lemma ReadLimits_spec Dev s w m P X es :
  wp (ReadLimits TL LL Dev) (fun '(St, Dev') s' => (exists w' m', s' = at_ s w' m' P X es) /\
    (EFI_ERROR St = true \/ (St = EFI_SUCCESS /\ limits_ok (InOutSupported Dev) Dev'))) (at_ s w m P X es).
Proof.
  unfold is_u16, is_u32 in *. unfold ReadLimits.
  wp_step. apply wp_CfgRead; [done|]. intros S1 v1 w1 m1 H1.
  destruct (EFI_ERROR S1) eqn:E1; [wp_steps; split; [eauto|by left]|].
  destruct (Z.eqb_spec v1 0); cbn [negb]; [|wp_steps; split; [eauto|by left]].
  wp_step. apply wp_CfgRead; [done|]. intros S2 v2 w2 m2 H2.
  destruct (EFI_ERROR S2) eqn:E2; [wp_steps; split; [eauto|by left]|].
  destruct (Z.ltb_spec v2 1); [wp_steps; split; [eauto|by left]|].
  wp_step. apply wp_CfgRead; [done|]. intros S3 T w3 m3 H3.
  destruct (EFI_ERROR S3) eqn:E3; [wp_steps; split; [eauto|by left]|]. cbv zeta.
  wp_step. apply wp_CfgRead; [done|]. intros S4 L w4 m4 H4.
  destruct (EFI_ERROR S4) eqn:E4; [wp_steps; split; [eauto|by left]|]. cbv zeta.
  wp_step. apply wp_CfgRead; [done|]. intros S5 N w5 m5 H5.
  destruct (EFI_ERROR S5) eqn:E5; [wp_steps; split; [eauto|by left]|].
  destruct (Z.ltb_spec N 2); wp_steps; (split; [eauto|]); [by left|]. right. split; [done|].
  cbn [Cfg_MaxTarget Cfg_MaxLun Cfg_MaxSectors snd] in *.
  split; cbn [InOutSupported MaxTarget MaxLun MaxSectors set_limits]; [done|..].
  - destruct (Z.ltb_spec TL T); lia.
  - destruct (Z.ltb_spec LL L); lia.
  - lia.
Qed.

(** ** The queue *)
Definition config_events : list event :=
  [EvConfig 24 VIRTIO_SCSI_CDB_SIZE; EvConfig 20 VIRTIO_SCSI_SENSE_SIZE].

Lemma wp_legacy_features F St0 (K : EFI_STATUS -> st -> Prop) s w m P X es :
  St0 = EFI_SUCCESS ->
  (forall St w' m' l, EFI_ERROR St = true -> K St (at_ s w' m' P X (es ++ l))) ->
  (forall St w' m', EFI_ERROR St = false ->
     K St (at_ s w' m' P X (es ++ if modern then [] else [EvFeatures (told_features F)]))) ->
  wp (if Revision <? VIRTIO_SPEC_REVISION 1 0 0 then
        SetGuestFeatures (Z.land F (u64 (Z.lnot (VIRTIO_F_VERSION_1 + VIRTIO_F_IOMMU_PLATFORM))))
      else mret St0) K (at_ s w m P X es).
Proof.
  intros -> HN HS. rewrite legacy_modern. unfold told_features in *. destruct modern eqn:HM; cbn [negb].
  - wp_step. specialize (HS EFI_SUCCESS w m eq_refl). by rewrite app_nil_r in HS.
  - apply wp_at_tell_call. intros St w' m'. destruct (EFI_ERROR St) eqn:HE; auto.
Qed.

Lemma scsi_StartQueue_spec Dev nds F shift Q x s w m P X es :
  P !! Base (Ring Dev) = None -> X !! RingMap Dev = None ->
  wp (StartQueue Dev nds F shift Q) (fun out s' => failed s P X out s' \/
    (out = (EFI_SUCCESS, Populate Dev) /\
     exists w' m', s' = at_ s w' m' (<[Base (Ring Dev) := NumPages (Ring Dev)]> P) (<[RingMap Dev := x]> X)
       (es ++ start_events config_events F nds (Base (Ring Dev)) shift)))
    (at_ s w m (<[Base (Ring Dev) := NumPages (Ring Dev)]> P) (<[RingMap Dev := x]> X) es).
Proof.
  intros HP HX. unfold StartQueue. set (ok_out := fun (out : init_out) s' => _ \/ _).
  assert (forall St v w' m' es', EFI_ERROR St = true ->
    wp (UnmapQueue Dev v St) ok_out
      (at_ s w' m' (<[Base (Ring Dev) := NumPages (Ring Dev)]> P) (<[RingMap Dev := x]> X) es')) as Hfail.
  { intros. eapply wp_mono; [by apply scsi_UnmapQueue_spec|]. by left. }
  apply wp_at_try; [auto|]. intros w1 m1. apply wp_at_try; [auto|]. intros w2 m2.
  apply wp_at_tell_try; [auto|]. intros w3 m3. wp_step. apply wp_legacy_features; [done|..].
  { intros St w4 m4 l HE. rewrite HE. by apply Hfail. }
  intros St w4 m4 HE. rewrite HE. unfold CfgWrite, WriteDevice.
  apply wp_at_tell_try; [auto|]. intros w5 m5. apply wp_at_tell_try; [auto|]. intros w6 m6. cbv zeta.
  apply wp_at_tell_try; [auto|]. intros w7 m7. wp_steps. right. split; [done|]. exists w7, m7.
  unfold start_events, config_events. by rewrite <-!(assoc_L (++)).
Qed.

(** A queue that works: a zeroed ring in pages of its own, mapped whole at
    the device address that the host was told. *)
Definition set_up s (P : page_map) (X : gmap Z mapping) (F nds : Z) (inout : bool)
    (es : list event) (out : init_out) s' : Prop :=
  out.1 = EFI_SUCCESS /\ limits_ok inout out.2 /\ PassThru out.2 = true /\
  PassThruMode out.2 = mkMode 0xFFFFFFFF 3 0 /\ dev_ok TL LL out.2 (Pages s') /\
  P !! Base (Ring out.2) = None /\ disjoint_from P (Base (Ring out.2)) (NumPages (Ring out.2)) /\
  X !! RingMap out.2 = None /\
  exists w' m' mz n dev, EFI_PAGE_SIZE * NumPages (Ring out.2) <= n /\
    (forall x, Base (Ring out.2) <= x < Base (Ring out.2) + EFI_PAGE_SIZE * NumPages (Ring out.2) -> mz x = 0) /\
    s' = at_ s w' m' (<[Base (Ring out.2) := NumPages (Ring out.2)]> P)
      (<[RingMap out.2 := (VirtioOperationBusMasterCommonBuffer, Base (Ring out.2), n, dev)]> X)
      (es ++ ring_events config_events F nds (Ring out.2) mz n dev).

Lemma scsi_SetUpQueue_spec Dev nds F inout s w m P X es :
  limits_ok inout Dev ->
  wp (SetUpQueue Dev nds F) (fun out s' => failed s P X out s' \/ set_up s P X F nds inout es out s')
    (at_ s w m P X es).
Proof.
  intros Hlim. unfold SetUpQueue. set (post := fun (out : init_out) s' => _ \/ _).
  assert (forall Dev St w' m' es', EFI_ERROR St = true -> wp (Failed Dev nds St) post (at_ s w' m' P X es')) as Hfail.
  { intros. eapply wp_mono; [by apply scsi_Failed_spec|]. by left. }
  apply wp_at_try; [auto|]. intros w1 m1.
  wp_step. unfold GetQueueNumMax. rewrite wp_vcall. cbn [Env Mem at_].
  destruct (vio_GetQueueNumMax w1 m1) as [[[St Q] m2] w2] eqn:EQ.
  pose proof (GetQueueNumMax_u16 _ _ _ _ _ _ EQ) as HQ.
  change (set_world w2 m2 (at_ s w1 m1 P X es)) with (at_ s w2 m2 P X es).
  destruct (EFI_ERROR St) eqn:HE; [by apply Hfail|]. clear EQ.
  destruct (Z.ltb_spec Q 4) as [|HQ4]; [by apply Hfail|].
  wp_step. apply wp_at_RingInit; [unfold is_u16 in HQ; lia|..].
  { intros St2 r w3 m3 HE2. cbn beta iota zeta. rewrite HE2. by apply Hfail. }
  intros r w3 m3 HrQ Hr HP Hdis Hz. cbn beta iota zeta. change (EFI_ERROR EFI_SUCCESS) with false. cbn iota.
  wp_step. apply wp_at_RingMap; [done|..].
  { intros St3 d t w4 m4 l HE3. cbn beta iota. rewrite HE3.
    eapply wp_mono; [by apply (scsi_ReleaseQueue_spec (set_ring r _ _))|]. by left. }
  intros dev tok n w4 m4 HX Hn. cbn beta iota. change (EFI_ERROR EFI_SUCCESS) with false. cbn iota.
  eapply wp_mono; [by apply (scsi_StartQueue_spec (set_ring r tok _))|].
  intros out s' [Hg|(-> & w5 & m5 & ->)]; [by left|]. right. destruct Hlim.
  unfold set_up. cbn [fst snd Populate set_ring Ring RingMap PassThru PassThruMode]. split_and!; try done.
  - split; cbn; try done. lia.
  - exists w5, m5, m3, n, dev. split; [done|]. split; [done|]. unfold ring_events. by rewrite <-(assoc_L (++)).
Qed.

(** A device brought up. *)
Definition brought_up s (P : page_map) (X : gmap Z mapping) (out : init_out) s' : Prop :=
  exists offered nds,
    (exists w St m' w' m, vio_GetDeviceFeatures w m = (St, offered, m', w') /\ EFI_ERROR St = false) /\
    (if modern then Z.land nds VSTAT_FEATURES_OK <> 0 else nds = Z.lor VSTAT_ACK VSTAT_DRIVER) /\
    set_up s P X (Z.land offered DRIVER_FEATURES) nds (negb (Z.land offered VIRTIO_SCSI_F_INOUT =? 0))
      (greeting (Z.land offered DRIVER_FEATURES)) out s'.

Lemma scsi_Negotiate_spec Dev offered s w m P X :
  (exists w St m' w' m, vio_GetDeviceFeatures w m = (St, offered, m', w') /\ EFI_ERROR St = false) ->
  limits_ok (negb (Z.land offered VIRTIO_SCSI_F_INOUT =? 0)) Dev ->
  wp (Negotiate Dev (Z.lor VSTAT_ACK VSTAT_DRIVER) offered)
    (fun out s' => failed s P X out s' \/ brought_up s P X out s')
    (at_ s w m P X [EvStatus 0; EvStatus VSTAT_ACK; EvStatus (Z.lor VSTAT_ACK VSTAT_DRIVER)]).
Proof.
  intros Hoff Hlim. unfold Negotiate. cbv zeta. fold modern. set (F := Z.land offered DRIVER_FEATURES).
  destruct modern eqn:HM; wp_step.
  - eapply wp_mono; [apply Virtio10WriteFeatures_spec|].
    intros [St Got] s' [[HE (w1 & m1 & l & ->)]|(HE & _ & HG & Hne & w1 & m1 & ->)]; cbn beta iota; rewrite HE.
    { eapply wp_mono; [by apply scsi_Failed_spec|]. auto. }
    eapply wp_mono; [by apply scsi_SetUpQueue_spec|]. intros out s' [H|H]; [by left|]. right.
    exists offered, Got. rewrite HM. split_and!; try done. unfold greeting. by rewrite HM.
  - wp_step. cbn beta iota. change (EFI_ERROR EFI_SUCCESS) with false. cbn iota.
    eapply wp_mono; [by apply scsi_SetUpQueue_spec|]. intros out s' [H|H]; [by left|]. right.
    exists offered, (Z.lor VSTAT_ACK VSTAT_DRIVER). rewrite HM. split_and!; try done. unfold greeting. by rewrite HM.
Qed.

Lemma VirtioScsiInit_spec Dev s w m P X :
  wp (VirtioScsiInit TL LL Dev) (fun out s' => failed s P X out s' \/ brought_up s P X out s') (at_ s w m P X []).
Proof.
  unfold VirtioScsiInit. cbv zeta. set (post := fun (out : init_out) s' => _ \/ _).
  assert (forall Dev v St w' m' es', EFI_ERROR St = true -> wp (Failed Dev v St) post (at_ s w' m' P X es')) as Hfail.
  { intros. eapply wp_mono; [by apply scsi_Failed_spec|]. by left. }
  apply wp_at_tell_try; [auto|]. intros w1 m1. cbn [app]. apply wp_at_tell_try; [auto|]. intros w2 m2. cbn [app].
  apply wp_at_tell_try; [auto|]. intros w3 m3. cbn [app]. apply wp_at_try; [auto|]. intros w4 m4.
  wp_step. unfold GetDeviceFeatures. rewrite wp_vcall. cbn [Env Mem at_].
  destruct (vio_GetDeviceFeatures w4 m4) as [[[St F] m5] w5] eqn:EF.
  change (set_world w5 m5 (at_ s w4 m4 P X ?es')) with (at_ s w5 m5 P X es').
  destruct (EFI_ERROR St) eqn:HE; [by apply Hfail|].
  wp_step. eapply wp_mono; [apply ReadLimits_spec|]. intros [St2 Dev2] s' [(w6 & m6 & ->) Hg]. cbn beta iota.
  destruct (EFI_ERROR St2) eqn:HE2; [by apply Hfail|]. destruct Hg as [|[_ Hg]]; [congruence|].
  apply scsi_Negotiate_spec; [|exact Hg]. by exists w4, St, m5, w5, m4.
Qed.

(** ** Tear down and driver binding *)
Lemma VirtioScsiUninit_spec Dev x s w m P X es :
  P !! Base (Ring Dev) = None -> X !! RingMap Dev = None ->
  wp (VirtioScsiUninit Dev) (fun _ s' => exists w' m', s' = at_ s w' m' P X
      (es ++ [EvStatus 0; EvUnmap (RingMap Dev); EvFreePages (Base (Ring Dev)) (NumPages (Ring Dev))]))
    (at_ s w m (<[Base (Ring Dev) := NumPages (Ring Dev)]> P) (<[RingMap Dev := x]> X) es).
Proof.
  intros HP HX. unfold VirtioScsiUninit, VirtioRingUninit. wp_step. apply wp_at_SetDeviceStatus. intros U w1 m1.
  wp_step. eapply wp_at_Unmap; [apply lookup_insert_eq|]. intros U2 w2 m2. rewrite delete_insert_id by done.
  wp_step. wp_step. eapply wp_at_Free; [apply lookup_insert_eq|]. intros w3 m3. rewrite delete_insert_id by done.
  wp_steps. exists w3, m3. by rewrite <-!(assoc_L (++)).
Qed.

Lemma FreeVirtioScsi_spec St s w m P X es :
  EFI_ERROR St = true ->
  wp (FreeVirtioScsi St) (start_failed s P X) (at_ (add_held 1 0 0 0 s) w m P X es).
Proof.
  intros HE. unfold FreeVirtioScsi. wp_step. apply wp_at_Hold. wp_steps. rewrite add_held_add.
  split; [done|]. split; [done|]. by apply restored_held.
Qed.
Lemma scsi_CloseVirtIo_spec St s w m P X es :
  EFI_ERROR St = true ->
  wp (CloseVirtIo St) (start_failed s P X) (at_ (add_held 1 1 0 0 s) w m P X es).
Proof.
  intros HE. unfold CloseVirtIo. wp_step. apply wp_at_release. intros w' m'. rewrite add_held_add.
  by apply FreeVirtioScsi_spec.
Qed.
Lemma scsi_UninitDev_spec Dev x St s w m P X es :
  EFI_ERROR St = true -> P !! Base (Ring Dev) = None -> X !! RingMap Dev = None ->
  wp (UninitDev Dev St) (start_failed s P X)
    (at_ (add_held 1 1 0 0 s) w m (<[Base (Ring Dev) := NumPages (Ring Dev)]> P) (<[RingMap Dev := x]> X) es).
Proof.
  intros HE HP HX. unfold UninitDev. wp_step. eapply wp_mono; [by apply VirtioScsiUninit_spec|].
  intros d' s' (w' & m' & ->). by apply scsi_CloseVirtIo_spec.
Qed.
Lemma scsi_CloseExitBoot_spec Dev x St s w m P X es :
  EFI_ERROR St = true -> P !! Base (Ring Dev) = None -> X !! RingMap Dev = None ->
  wp (CloseExitBoot Dev St) (start_failed s P X)
    (at_ (add_held 1 1 1 0 s) w m (<[Base (Ring Dev) := NumPages (Ring Dev)]> P) (<[RingMap Dev := x]> X) es).
Proof.
  intros HE HP HX. unfold CloseExitBoot. wp_step. apply wp_at_release. intros w' m'. rewrite add_held_add.
  by apply scsi_UninitDev_spec.
Qed.

(** The driver holds exactly one device. *)
Definition managing s (P : page_map) (X : gmap Z mapping) (Dev : VSCSI_DEV) s' : Prop :=
  dev_ok TL LL Dev (Pages s') /\ P !! Base (Ring Dev) = None /\ X !! RingMap Dev = None /\
  exists x w' m' es, s' = at_ (add_held 1 1 1 1 s) w' m'
    (<[Base (Ring Dev) := NumPages (Ring Dev)]> P) (<[RingMap Dev := x]> X) es.

Lemma scsi_Start_spec s w m P X :
  wp (VirtioScsiDriverBindingStart TL LL) (fun out s' => start_failed s P X out s' \/
    (out.1 = EFI_SUCCESS /\ exists Dev, out.2 = Some Dev /\ managing s P X Dev s')) (at_ s w m P X []).
Proof.
  unfold VirtioScsiDriverBindingStart. wp_step. apply wp_at_call. intros ok w1 m1. destruct ok; cbn [negb].
  2:{ wp_steps. left. split; [done|]. split; [done|]. by exists w1, m1, []. }
  wp_step. apply wp_at_Hold. wp_step. apply wp_at_acquire.
  { intros St w2 m2 HE. rewrite HE. eapply wp_mono; [by apply FreeVirtioScsi_spec|]. auto. }
  intros St w2 m2 HE. rewrite HE, add_held_add. wp_step. eapply wp_mono; [apply VirtioScsiInit_spec|].
  intros [St2 Dev] s' [[[HE2 (w3 & m3 & es & v & ->)] _]|Hup].
  { cbn [fst] in HE2. rewrite HE2. eapply wp_mono; [by apply scsi_CloseVirtIo_spec|]. auto. }
  destruct Hup as (F & nds & _ & _ & HS & _ & _ & _ & Hok & HP & _ & HX & w3 & m3 & mz & n & dev & _ & _ & ->).
  cbn [fst snd] in *. rewrite HS. change (EFI_ERROR EFI_SUCCESS) with false. cbn iota.
  cbn [Pages at_] in Hok. wp_step. apply wp_at_acquire.
  { intros St3 w4 m4 HE3. rewrite HE3. eapply wp_mono; [by apply scsi_UninitDev_spec|]. auto. }
  intros St3 w4 m4 HE3. rewrite HE3, add_held_add. wp_step. apply wp_at_acquire.
  { intros St4 w5 m5 HE4. rewrite HE4. eapply wp_mono; [by apply scsi_CloseExitBoot_spec|]. auto. }
  intros St4 w5 m5 HE4. rewrite HE4, add_held_add. wp_steps. right. split; [done|]. exists Dev. split; [done|].
  split_and!; try done. by eexists _, w5, m5, _.
Qed.

Lemma scsi_Stop_spec Dev s P X s1 :
  managing s P X Dev s1 ->
  wp (VirtioScsiDriverBindingStop Dev) (fun Status s' =>
    (EFI_ERROR Status = true /\ managing s P X Dev s') \/
    (Status = EFI_SUCCESS /\ restored s P X s')) s1.
Proof.
  intros (Hok & HP & HX & x & w & m & es & ->). unfold VirtioScsiDriverBindingStop.
  assert (forall w' m', managing s P X Dev (at_ (add_held 1 1 1 1 s) w' m'
    (<[Base (Ring Dev) := NumPages (Ring Dev)]> P) (<[RingMap Dev := x]> X) es)) as Hm.
  { intros w' m'. split_and!; try done. by exists x, w', m', es. }
  apply wp_at_try.
  { intros St w1 m1 HE. wp_steps. by left. }
  intros w1 m1. wp_step. apply wp_at_acquire.
  { intros St w2 m2 HE. rewrite HE. wp_steps. by left. }
  intros St w2 m2 HE. rewrite HE, add_held_add. wp_step. apply wp_at_release. intros w3 m3.
  rewrite add_held_add. wp_step. eapply wp_mono; [by apply VirtioScsiUninit_spec|]. intros d' s' (w4 & m4 & ->).
  wp_step. apply wp_at_release. intros w5 m5. rewrite add_held_add. wp_step. apply wp_at_Hold.
  rewrite add_held_add. wp_steps. right. split; [done|]. by apply restored_held.
Qed.
End VirtioScsiInit.
