(* ===== verification/VirtioScsiTargets.v ===== *)
(** * VirtioScsiDxe: enumeration and device paths of targets *)
From S2P Require Import Prelude Bytes Memory OrderedCollection Virtio VirtioProofs VirtioDriver VirtioScsi.

Definition target_id (t : Z) : list Z := le_split 2 t ++ replicate 14 0.

Lemma TargetValue_id t : is_u16 t -> TargetValue (target_id t) = t.
Proof.
  intros Ht. unfold TargetValue, target_id. rewrite take_app_length' by (by rewrite length_le_split).
  rewrite le_combine_split. by apply Z.mod_small.
Qed.
Lemma AllOnes_id t : AllOnes (target_id t) = false.
Proof. unfold target_id, le_split. cbn. by repeat case_match. Qed.
Lemma id_zero : replicate (Z.to_nat TARGET_MAX_BYTES) 0 = target_id 0.
Proof. reflexivity. Qed.
Lemma id_next t : le_split 2 (u16 (t + 1)) ++ drop 2 (target_id t) = target_id (u16 (t + 1)).
Proof. unfold target_id. by rewrite drop_app_length' by (by rewrite length_le_split). Qed.

(** The identifier with which an enumeration starts. *)
Definition all_ones : list Z := replicate (Z.to_nat TARGET_MAX_BYTES) 0xFF.

(** A client that asks for the next target and LUN until an error: the
    answers, and the error. *)
Fixpoint Enumerate (fuel : nat) (Dev : VSCSI_DEV) (T : list Z) (L : Z) : list (list Z * Z) * EFI_STATUS :=
  match fuel with
  | O => ([], EFI_SUCCESS)
  | S fuel =>
      let '(Status, T', L') := VirtioScsiGetNextTargetLun Dev T L in
      if EFI_ERROR Status then ([], Status)
      else let '(l, St) := Enumerate fuel Dev T' L' in ((T', L') :: l, St)
  end.
Fixpoint EnumerateTargets (fuel : nat) (Dev : VSCSI_DEV) (T : list Z) : list (list Z) * EFI_STATUS :=
  match fuel with
  | O => ([], EFI_SUCCESS)
  | S fuel =>
      let '(Status, T') := VirtioScsiGetNextTarget Dev T in
      if EFI_ERROR Status then ([], Status)
      else let '(l, St) := EnumerateTargets fuel Dev T' in (T' :: l, St)
  end.

(** The [k]-th address, LUNs of a target first. *)
Definition address (ML k : Z) : list Z * Z := (target_id (k / (ML + 1)), k mod (ML + 1)).

Section Targets.
Context (Dev : VSCSI_DEV) (HT : is_u16 (MaxTarget Dev)) (HL : is_u32 (MaxLun Dev)).
Local Abbreviation MT := (MaxTarget Dev).
Local Abbreviation ML := (MaxLun Dev).
Local Abbreviation total := ((MT + 1) * (ML + 1)).

Lemma next_address k : 0 <= k < total ->
  VirtioScsiGetNextTargetLun Dev (address ML k).1 (address ML k).2 =
  if k + 1 <? total then (EFI_SUCCESS, (address ML (k + 1)).1, (address ML (k + 1)).2)
  else (EFI_NOT_FOUND, (address ML k).1, (address ML k).2).
Proof.
  intros Hk. unfold is_u16, is_u32 in *. cbn [address fst snd]. set (t := k / (ML + 1)). set (l := k mod (ML + 1)).
  assert (k = t * (ML + 1) + l /\ 0 <= l <= ML) as [Ek Hl] by (unfold t, l; lia_div).
  assert (0 <= t <= MT) as Ht by nia.
  unfold VirtioScsiGetNextTargetLun. rewrite AllOnes_id, TargetValue_id by (unfold is_u16; lia). cbv zeta.
  destruct (Z.ltb_spec MT t); [lia|]. destruct (Z.ltb_spec ML l); [lia|]. cbn [orb].
  destruct (Z.ltb_spec l ML) as [H1|H1].
  - destruct (Z.ltb_spec (k + 1) total); [|nia].
    assert ((k + 1) / (ML + 1) = t) as -> by (symmetry; apply (Z.div_unique_pos _ _ _ (l + 1)); lia).
    assert ((k + 1) mod (ML + 1) = l + 1) as -> by (symmetry; apply (Z.mod_unique_pos _ _ t); lia).
    unfold u64. by rewrite Z.mod_small by lia.
  - assert (l = ML) as El by lia.
    assert ((k + 1) / (ML + 1) = t + 1) as -> by (symmetry; apply (Z.div_unique_pos _ _ _ 0); lia).
    assert ((k + 1) mod (ML + 1) = 0) as -> by (symmetry; apply (Z.mod_unique_pos _ _ (t + 1)); lia).
    destruct (Z.ltb_spec t MT) as [H2|H2].
    + destruct (Z.ltb_spec (k + 1) total); [|nia]. rewrite id_next. unfold u16. by rewrite Z.mod_small by lia.
    + destruct (Z.ltb_spec (k + 1) total); [nia|done].
Qed.

Lemma Enumerate_from fuel k : 0 <= k < total -> total - k <= Z.of_nat fuel ->
  Enumerate fuel Dev (address ML k).1 (address ML k).2 =
  (address ML <$> seqZ (k + 1) (total - (k + 1)), EFI_NOT_FOUND).
Proof.
  revert k. induction fuel as [|fuel IH]; intros k Hk Hf; [lia|]. cbn [Enumerate]. rewrite next_address by done.
  destruct (Z.ltb_spec (k + 1) total) as [H1|H1].
  - change (EFI_ERROR EFI_SUCCESS) with false. cbn iota. rewrite IH by lia.
    rewrite (seqZ_cons (k + 1)) by lia. cbn [fmap list_fmap]. rewrite <-surjective_pairing.
    repeat f_equal; lia.
  - change (EFI_ERROR EFI_NOT_FOUND) with true. cbn iota. by rewrite seqZ_nil by lia.
Qed.

Lemma Enumerate_spec L0 fuel : total < Z.of_nat fuel ->
  Enumerate fuel Dev all_ones L0 = (address ML <$> seqZ 0 total, EFI_NOT_FOUND).
Proof.
  intros Hf. unfold is_u16, is_u32 in *. assert (0 < total) as Hpos by nia. destruct fuel as [|fuel]; [lia|]. cbn [Enumerate].
  change (VirtioScsiGetNextTargetLun Dev all_ones L0) with (EFI_SUCCESS, target_id 0, 0).
  change (EFI_ERROR EFI_SUCCESS) with false. cbn iota.
  assert ((target_id 0, 0) = address ML 0) as E0.
  { unfold address. by rewrite Z.div_0_l, Z.mod_0_l by lia. }
  pose proof (Enumerate_from fuel 0 ltac:(lia) ltac:(lia)) as H. rewrite <-E0 in H. cbn [fst snd] in H. rewrite H.
  rewrite (seqZ_cons 0) by lia. cbn [fmap list_fmap]. rewrite E0. repeat f_equal; lia.
Qed.

Lemma EnumerateTargets_from fuel t : 0 <= t <= MT -> MT + 1 - t <= Z.of_nat fuel ->
  EnumerateTargets fuel Dev (target_id t) = (target_id <$> seqZ (t + 1) (MT - t), EFI_NOT_FOUND).
Proof.
  revert t. unfold is_u16 in *. induction fuel as [|fuel IH]; intros t Ht Hf; [lia|]. cbn [EnumerateTargets].
  unfold VirtioScsiGetNextTarget. rewrite AllOnes_id, TargetValue_id by (unfold is_u16; lia). cbv zeta.
  destruct (Z.ltb_spec MT t); [lia|]. destruct (Z.ltb_spec t MT) as [H1|H1].
  - change (EFI_ERROR EFI_SUCCESS) with false. cbn iota. rewrite id_next. unfold u16. rewrite Z.mod_small by lia.
    rewrite IH by lia. rewrite (seqZ_cons (t + 1)) by lia. cbn [fmap list_fmap]. repeat f_equal; lia.
  - change (EFI_ERROR EFI_NOT_FOUND) with true. cbn iota. by rewrite seqZ_nil by lia.
Qed.

Lemma EnumerateTargets_spec fuel : MT + 1 < Z.of_nat fuel ->
  EnumerateTargets fuel Dev all_ones = (target_id <$> seqZ 0 (MT + 1), EFI_NOT_FOUND).
Proof.
  intros Hf. unfold is_u16 in *. destruct fuel as [|fuel]; [lia|]. cbn [EnumerateTargets].
  change (VirtioScsiGetNextTarget Dev all_ones) with (EFI_SUCCESS, target_id 0).
  change (EFI_ERROR EFI_SUCCESS) with false. cbn iota. rewrite EnumerateTargets_from by lia.
  rewrite (seqZ_cons 0) by lia. cbn [fmap list_fmap]. repeat f_equal; lia.
Qed.

(** Every address is met exactly once. *)
Lemma target_id_inj t t' : is_u16 t -> is_u16 t' -> target_id t = target_id t' -> t = t'.
Proof. intros H H' E. apply (f_equal TargetValue) in E. by rewrite !TargetValue_id in E. Qed.

Lemma addresses_once : NoDup (address ML <$> seqZ 0 total) /\
  forall t l, 0 <= t <= MT -> 0 <= l <= ML -> (target_id t, l) ∈ (address ML <$> seqZ 0 total).
Proof.
  unfold is_u16, is_u32 in *. split.
  - apply NoDup_fmap_2_strong; [|apply NoDup_seqZ]. intros k k' Hk Hk' E.
    pose proof (f_equal fst E) as Et. pose proof (f_equal snd E) as El. cbn [fst snd address] in Et, El.
    apply elem_of_seqZ in Hk, Hk'.
    assert (k / (ML + 1) = k' / (ML + 1)) as Ed.
    { apply target_id_inj; [| |done]; unfold is_u16;
        (split; [apply Z.div_pos; lia|apply Z.div_lt_upper_bound; nia]). }
    rewrite (Z.div_mod k (ML + 1)), (Z.div_mod k' (ML + 1)) by lia. by rewrite Ed, El.
  - intros t l Ht Hl. apply list_elem_of_fmap. exists (t * (ML + 1) + l). split.
    + unfold address. f_equal; [f_equal; apply (Z.div_unique_pos _ _ _ l); lia|].
      apply (Z.mod_unique_pos _ _ t); lia.
    + apply elem_of_seqZ. nia.
Qed.

(** A device path leads back to its target and LUN. *)
Lemma path_roundtrip t l T0 L0 : 0 <= t <= MT -> 0 <= l <= ML -> l <= 0xFFFF ->
  exists path, VirtioScsiBuildDevicePath Dev true (target_id t) l true = (EFI_SUCCESS, Some path) /\
    length path = Z.to_nat SIZEOF_SCSI_DEVICE_PATH /\
    VirtioScsiGetTargetLun Dev (Some path) (Some T0) (Some L0) = (EFI_SUCCESS, Some (target_id t), Some l).
Proof.
  unfold is_u16, is_u32 in *. intros Ht Hl H16. unfold VirtioScsiBuildDevicePath. cbn [negb].
  rewrite TargetValue_id by (unfold is_u16; lia).
  destruct (Z.ltb_spec MT t); [lia|]. destruct (Z.ltb_spec ML l); [lia|]. destruct (Z.ltb_spec 0xFFFF l); [lia|].
  cbn [orb]. eexists. split; [reflexivity|]. split; [by rewrite !length_app, !length_le_split|].
  unfold VirtioScsiGetTargetLun. set (path := _ ++ _ ++ _).
  assert (le_combine (take 2 (drop 4 path)) = t) as ->.
  { change (drop 4 path) with (le_split 2 t ++ le_split 2 (u16 l)).
    rewrite take_app_length' by (by rewrite length_le_split). rewrite le_combine_split. apply Z.mod_small. cbn. lia. }
  assert (le_combine (take 2 (drop 6 path)) = l) as ->.
  { change (drop 6 path) with (le_split 2 (u16 l)). rewrite take_ge by (by rewrite length_le_split).
    rewrite le_combine_split. unfold u16. rewrite Z.mod_mod by lia. apply Z.mod_small. cbn. lia. }
  change (nth 0 path 0) with MESSAGING_DEVICE_PATH. change (nth 1 path 0) with MSG_SCSI_DP. rewrite !Z.eqb_refl.
  cbn [negb orb]. cbv zeta. destruct (Z.ltb_spec MT t); [lia|]. by destruct (Z.ltb_spec ML l); [lia|].
Qed.
End Targets.
