(* ===== verification/VirtioScsiClaims.v ===== *)
(** * VirtioScsiDxe: the properties, and a concrete host adapter *)
From S2P Require Import Prelude Bytes Memory OrderedCollection Virtio VirtioProofs VirtioDriver VirtioMachine VirtioScsi VirtioScsiProofs VirtioScsiPassThru VirtioScsiInit VirtioScsiTargets.

Section Claims.
Context {W : Type} {V : VirtIo W} {BS : BootServices W} {VL : VirtIoLaws W}.
Implicit Types s : st (W:=W).

(** C8: VirtioScsiPassThru gives back every page and mapping it takes, on every
    path.  An invalid request is refused without touching the host, with the
    packet unchanged or, when it is too long, told the longest transfer.  A
    valid one fails with a faked host adapter error and no notification, or
    offers the host exactly one chain (header, output, response, input) whose
    buffers are mapped whole, with the LUN and CDB encoded in the header, the
    input buffer zeroed and the response preset to a failure; then the status
    and the packet are those of the host's response, and the sense and input
    data are with the caller before the buffers are released. *)
Theorem scsi_pass_thru (own : Z -> Prop)
    (own_apart : forall live n w m St a m' w',
      vio_AllocateSharedPages live n w m = (St, a, m', w') -> EFI_ERROR St = false ->
      forall x, a <= x < a + EFI_PAGE_SIZE * n -> ~ own x)
    Request N T L Dev Target Lun p s :
  dev_ok T L Dev (Pages s) -> Responsive VIRTIO_SCSI_REQUEST_QUEUE (Ring Dev) N -> packet_typed p ->
  0 <= TargetValue Target -> 0 <= Lun ->
  (Cdb p + CdbLength p <= Request \/ Request + SIZEOF_REQ <= Cdb p) ->
  (forall x, SenseData p <= x < SenseData p + SenseDataLength p -> own x) ->
  wp (VirtioScsiPassThru Request (S N) Dev Target Lun p) (fun out s' =>
    Pages s' = Pages s /\ Maps s' = Maps s /\
    ((~ request_ok Dev (TargetValue Target) Lun p /\ refusal Dev p out /\ Trace s' = Trace s) \/
     (request_ok Dev (TargetValue Target) Lun p /\
      passed s Request (scsi_header (TargetValue Target) Lun (cdb_of s p)) (Ring Dev) p (Pages s) (Maps s) out s'))) s.
Proof. intros. by eapply PassThru_spec. Qed.

(** C9: VirtioScsiInit either fails with every page and mapping released, the
    host told, last of all, that the driver failed, and no capacity left in
    the device structure, or leaves a well-formed device: limits within their
    types and the configured maxima, at least two sectors, a ring of at least
    four descriptors in pages of its own, the CDB and sense sizes announced
    before DRIVER_OK, and features that the host offered. *)
Theorem scsi_init TL LL Dev s :
  is_u16 TL -> is_u32 LL ->
  wp (VirtioScsiInit TL LL Dev) (fun out s' =>
    failed s (Pages s) (Maps s) out s' \/
    (brought_up TL LL s (Pages s) (Maps s) out s' /\ dev_ok TL LL out.2 (Pages s'))) s.
Proof.
  intros HT HL. apply wp_at_self. eapply wp_mono; [by apply VirtioScsiInit_spec|].
  intros out s' [H|H]; [by left|]. right. split; [done|]. destruct H as (F & nds & _ & _ & H). apply H.
Qed.

(** What Start takes, Stop gives back. *)
Theorem scsi_binding TL LL s :
  is_u16 TL -> is_u32 LL ->
  wp (VirtioScsiDriverBindingStart TL LL) (fun out s' =>
    start_failed s (Pages s) (Maps s) out s' \/
    (out.1 = EFI_SUCCESS /\ exists Dev, out.2 = Some Dev /\ managing TL LL s (Pages s) (Maps s) Dev s' /\
     wp (VirtioScsiDriverBindingStop Dev) (fun Status s'' =>
       (EFI_ERROR Status = true /\ managing TL LL s (Pages s) (Maps s) Dev s'') \/
       (Status = EFI_SUCCESS /\ restored s (Pages s) (Maps s) s'')) s')) s.
Proof.
  intros HT HL. apply wp_at_self. eapply wp_mono; [by apply scsi_Start_spec|].
  intros out s' [H|(HS & Dev & HD & Hm)]; [by left|]. right. split; [done|]. exists Dev. split; [done|].
  split; [done|]. by apply scsi_Stop_spec.
Qed.
End Claims.

(** C10: A client that asks VirtioScsiGetNextTargetLun for the next address, from
    the all-ones identifier on, gets every target and LUN up to the device's
    limits exactly once, in order, then EFI_NOT_FOUND, and likewise for
    VirtioScsiGetNextTarget; and the device path that
    VirtioScsiBuildDevicePath makes of an address is eight bytes from which
    VirtioScsiGetTargetLun returns that address. *)
Theorem scsi_targets Dev L0 fuel :
  is_u16 (MaxTarget Dev) -> is_u32 (MaxLun Dev) ->
  (MaxTarget Dev + 1) * (MaxLun Dev + 1) < Z.of_nat fuel ->
  (exists l, Enumerate fuel Dev all_ones L0 = (l, EFI_NOT_FOUND) /\ NoDup l /\
    l = address (MaxLun Dev) <$> seqZ 0 ((MaxTarget Dev + 1) * (MaxLun Dev + 1)) /\
    forall t u, 0 <= t <= MaxTarget Dev -> 0 <= u <= MaxLun Dev -> (target_id t, u) ∈ l) /\
  EnumerateTargets fuel Dev all_ones = (target_id <$> seqZ 0 (MaxTarget Dev + 1), EFI_NOT_FOUND) /\
  (forall t u T0 U0, 0 <= t <= MaxTarget Dev -> 0 <= u <= MaxLun Dev -> u <= 0xFFFF ->
    exists path, VirtioScsiBuildDevicePath Dev true (target_id t) u true = (EFI_SUCCESS, Some path) /\
      length path = Z.to_nat SIZEOF_SCSI_DEVICE_PATH /\
      VirtioScsiGetTargetLun Dev (Some path) (Some T0) (Some U0) = (EFI_SUCCESS, Some (target_id t), Some u)).
Proof.
  intros HT HL Hf. destruct (addresses_once Dev HT HL) as [Hnd Hin]. split_and!.
  - eexists. split; [by apply Enumerate_spec|]. done.
  - apply EnumerateTargets_spec; [done|]. unfold is_u16, is_u32 in *. nia.
  - intros. by apply path_roundtrip.
Qed.

(** ** A concrete host adapter

    Seven targets of eight LUNs; the host answers each request with status
    "busy" of the target, and sense data of four bytes. *)
Module Example.
Definition adapter_config (off n : Z) : Z :=
  if (off =? 0) && (n =? 4) then 1 else if (off =? 8) && (n =? 4) then 0xFFFF
  else if (off =? 30) && (n =? 2) then 6 else if (off =? 32) && (n =? 4) then 16383 else 0.
(** The response is behind the input buffer. *)
Definition adapter : VirtIo unit :=
  device VIRTIO_SUBSYSTEM_SCSI_HOST (VIRTIO_F_VERSION_1 + VIRTIO_SCSI_F_INOUT) adapter_config
    (fun m => mem_set m third_base ([4; 0; 0; 0; 12; 0; 0; 0; 0; 0; 8; 0; 0x70; 0; 6; 0])).
#[local] Existing Instance adapter.

#[local] Instance adapter_laws : VirtIoLaws unit.
Proof.
  apply device_laws; [done|]. intros off n Hn. unfold adapter_config.
  assert (0 < 256 ^ n) by (apply Z.pow_pos_nonneg; lia).
  destruct (Z.eqb_spec n 4) as [->|]; [destruct (off =? 0), (off =? 8), (off =? 32); cbn; try lia; by rewrite andb_false_r|].
  rewrite !andb_false_r. destruct (Z.eqb_spec n 2) as [->|]; [by destruct (off =? 30)|].
  rewrite andb_false_r. lia.
Qed.

Definition caller_data : Z := 0x5000.
Definition caller_sense : Z := 0x6000.
Definition caller_cdb : Z := 0x7000.
Definition own (x : Z) : Prop := x < 0x100000.

Lemma own_apart live n (w : unit) m St a m' w' :
  vio_AllocateSharedPages live n w m = (St, a, m', w') -> EFI_ERROR St = false ->
  forall x, a <= x < a + EFI_PAGE_SIZE * n -> ~ own x.
Proof. intros E HS x Hx. pose proof (device_apart _ _ _ _ _ _ _ _ _ _ _ _ E HS). unfold own. lia. Qed.

Definition dev : VSCSI_DEV := mkDev true 6 7 0xFFFF ring true (mkMode 0xFFFFFFFF 3 0) 1.
Lemma scsi_dev_ok_example : dev_ok 31 7 dev ring_pages.
Proof. split; [apply ring_ok_example|done..]. Qed.

Definition start : st (W:=unit) := mkSt tt (fun _ => 0) ∅ ∅ [] 0 0 0 0.
Definition running : st (W:=unit) :=
  mkSt tt (mem_set (fun _ => 0) caller_cdb [0x28; 0; 0; 0; 0; 0; 0; 0; 1; 0]) ring_pages ∅ [] 0 0 0 0.
(** READ(10) of one block. *)
Definition packet : PACKET := mkPacket caller_data 0 caller_sense caller_cdb 512 0 10 DIRECTION_READ 0 0 18.

(** The model runs: the request is served, with 500 of 512 bytes. *)
Example scsi_read_runs :
  match VirtioScsiPassThru local_request 1 dev (target_id 2) 3 packet running with
  | Done (Status, p) s' => Status = EFI_SUCCESS /\ InTransferLength p = 500 /\ TargetStatus p = 8 /\
      mem_get (Mem s') caller_sense 4 = [0x70; 0; 6; 0] /\ SenseDataLength p = 4 /\ map_size (Pages s') = 1%nat /\
      length (List.filter (fun e => match e with EvNotify _ _ => true | _ => false end) (Trace s')) = 1%nat
  | Trap _ => False
  end.
Proof. vm_compute. split_and!; reflexivity. Qed.

(** A LUN beyond the limit is refused. *)
Example lun_refused :
  match VirtioScsiPassThru local_request 1 dev (target_id 2) 8 packet running with
  | Done (Status, p) s' => Status = EFI_INVALID_PARAMETER /\ p = packet /\ Trace s' = []
  | Trap _ => False
  end.
Proof. vm_compute. split_and!; reflexivity. Qed.

Lemma scsi_pass_thru_witness :
  wp (VirtioScsiPassThru local_request (S 0) dev (target_id 2) 3 packet)
    (fun _ s' => Pages s' = ring_pages) running.
Proof.
  eapply wp_mono; [apply (scsi_pass_thru own own_apart local_request 0 31 7 dev (target_id 2) 3 packet running
    scsi_dev_ok_example (device_responsive _ _ _ _ VIRTIO_SCSI_REQUEST_QUEUE))|].
  - by split.
  - done.
  - done.
  - right. done.
  - intros x. unfold own. cbn. unfold caller_sense. lia.
  - intros out s' [H _]. exact H.
Defined.

Lemma scsi_init_witness :
  wp (VirtioScsiInit 31 7 zero_dev) (fun out s' => out.1 = EFI_SUCCESS -> dev_ok 31 7 out.2 (Pages s')) start.
Proof.
  eapply wp_mono; [apply (scsi_init 31 7 zero_dev start); done|].
  intros out s' [[[HE _] _]|[_ H]] HS; [|exact H]. rewrite HS in HE. discriminate HE.
Defined.

(** The configuration, capped by the limits. *)
Example init_runs :
  match VirtioScsiInit 31 7 zero_dev start with
  | Done (Status, d) _ => Status = EFI_SUCCESS /\ MaxTarget d = 6 /\ MaxLun d = 7 /\ InOutSupported d = true
  | Trap _ => False
  end.
Proof. vm_compute. split_and!; reflexivity. Qed.

Lemma scsi_targets_witness :
  is_u16 (MaxTarget dev) /\ EnumerateTargets 100 dev all_ones = (target_id <$> seqZ 0 7, EFI_NOT_FOUND).
Proof.
  split; [done|]. exact (proj1 (proj2 (scsi_targets dev 0 100 ltac:(done) ltac:(done) ltac:(done)))).
Defined.
End Example.
