(* ===== verification/VirtioNet.v ===== *)
(** * VirtioNetDxe: the virtio network driver

    Models QemuPkg/VirtioNetDxe: the Simple Network Protocol over two virtio
    queues (SnpStart.c, SnpStop.c, SnpInitialize.c, SnpShutdown.c,
    SnpTransmit.c, SnpReceive.c, SnpGetStatus.c, SnpReceiveFilters.c,
    SnpMcastIpToMac.c, SnpUnsupported.c, SnpSharedHelpers.c, Events.c) and the
    driver binding (DriverBinding.c).  The functions run at TPL_CALLBACK: none
    interrupts another.  The device structure is an argument and a result; the
    check that [This] is not NULL has no counterpart. *)
From S2P Require Import Prelude Bytes Memory OrderedCollection Virtio VirtioProofs VirtioDriver.

(** ** Data *)
Inductive EFI_SIMPLE_NETWORK_STATE : Type :=
  | EfiSimpleNetworkStopped
  | EfiSimpleNetworkStarted
  | EfiSimpleNetworkInitialized.
#[global] Instance network_state_eq_dec : EqDecision EFI_SIMPLE_NETWORK_STATE.
Proof. solve_decision. Defined.

(** MAC addresses: the six bytes that are used of EFI_MAC_ADDRESS. *)
Record EFI_SIMPLE_NETWORK_MODE : Type := mkSnm {
  State : EFI_SIMPLE_NETWORK_STATE;
  HwAddressSize : Z; MediaHeaderSize : Z; MaxPacketSize : Z; NvRamSize : Z; NvRamAccessSize : Z;
  ReceiveFilterMask : Z; ReceiveFilterSetting : Z; MaxMCastFilterCount : Z; MCastFilterCount : Z;
  CurrentAddress : list Z; BroadcastAddress : list Z; PermanentAddress : list Z;
  IfType : Z; MacAddressChangeable : bool; MultipleTxSupported : bool;
  MediaPresentSupported : bool; MediaPresent : bool;
}.
Definition zero_mac : list Z := [0; 0; 0; 0; 0; 0].
Definition zero_snm : EFI_SIMPLE_NETWORK_MODE :=
  mkSnm EfiSimpleNetworkStopped 0 0 0 0 0 0 0 0 0 zero_mac zero_mac zero_mac 0 false false false false.
Definition set_state (v : EFI_SIMPLE_NETWORK_STATE) (m : EFI_SIMPLE_NETWORK_MODE) : EFI_SIMPLE_NETWORK_MODE :=
  mkSnm v (HwAddressSize m) (MediaHeaderSize m) (MaxPacketSize m) (NvRamSize m) (NvRamAccessSize m)
    (ReceiveFilterMask m) (ReceiveFilterSetting m) (MaxMCastFilterCount m) (MCastFilterCount m)
    (CurrentAddress m) (BroadcastAddress m) (PermanentAddress m)
    (IfType m) (MacAddressChangeable m) (MultipleTxSupported m) (MediaPresentSupported m) (MediaPresent m).
Definition set_addresses (current broadcast permanent : list Z) (m : EFI_SIMPLE_NETWORK_MODE) : EFI_SIMPLE_NETWORK_MODE :=
  mkSnm (State m) (HwAddressSize m) (MediaHeaderSize m) (MaxPacketSize m) (NvRamSize m) (NvRamAccessSize m)
    (ReceiveFilterMask m) (ReceiveFilterSetting m) (MaxMCastFilterCount m) (MCastFilterCount m)
    current broadcast permanent
    (IfType m) (MacAddressChangeable m) (MultipleTxSupported m) (MediaPresentSupported m) (MediaPresent m).
Definition set_media (supported present : bool) (m : EFI_SIMPLE_NETWORK_MODE) : EFI_SIMPLE_NETWORK_MODE :=
  mkSnm (State m) (HwAddressSize m) (MediaHeaderSize m) (MaxPacketSize m) (NvRamSize m) (NvRamAccessSize m)
    (ReceiveFilterMask m) (ReceiveFilterSetting m) (MaxMCastFilterCount m) (MCastFilterCount m)
    (CurrentAddress m) (BroadcastAddress m) (PermanentAddress m)
    (IfType m) (MacAddressChangeable m) (MultipleTxSupported m) supported present.

Record TX_BUF_MAP_INFO : Type := mkInfo { Info_Buffer : Z; DeviceAddress : Z; BufMap : Z }.

Definition CompareAddress (a b : Z) : Z := if a <? b then -1 else if b <? a then 1 else 0.
Definition VirtioNetTxBufMapInfoCompare (MapInfo1 MapInfo2 : TX_BUF_MAP_INFO) : Z :=
  CompareAddress (DeviceAddress MapInfo1) (DeviceAddress MapInfo2).
Definition VirtioNetTxBufDeviceAddressCompare (StandaloneKey : Z) (MapInfo : TX_BUF_MAP_INFO) : Z :=
  CompareAddress StandaloneKey (DeviceAddress MapInfo).
#[global] Instance CompareAddress_ThreeWay : ThreeWay CompareAddress.
Proof. split; unfold CompareAddress; intros; repeat case_match; lia. Qed.

Definition VNET_MAX_PENDING : Z := 64.
Definition VIRTIO_SUBSYSTEM_NETWORK_CARD : Z := 1.
Definition VIRTIO_NET_Q_RX : Z := 0.
Definition VIRTIO_NET_Q_TX : Z := 1.
Definition VIRTIO_NET_F_MAC : Z := 2 ^ 5.
Definition VIRTIO_NET_F_STATUS : Z := 2 ^ 16.
Definition VIRTIO_NET_HDR_GSO_NONE : Z := 0.
Definition VIRTIO_NET_S_LINK_UP : Z := 1.
Definition SIZEOF_NET_REQ : Z := 10.
Definition SIZEOF_1_0_NET_REQ : Z := 12.
Definition Off_GsoType : Z := 1.
Definition Off_NumBuffers : Z := 10.
(** Offset and size in VIRTIO_NET_CONFIG. *)
Definition Cfg_Mac : Z * Z := (0, 6).
Definition Cfg_LinkStatus : Z * Z := (6, 2).
(** The UEFI specification's. *)
Definition RECEIVE_UNICAST : Z := 0x01.
Definition RECEIVE_BROADCAST : Z := 0x04.
Definition RECEIVE_PROMISCUOUS : Z := 0x08.
Definition RECEIVE_INTERRUPT : Z := 0x01.
Definition TRANSMIT_INTERRUPT : Z := 0x02.
Definition RECEIVE_FILTERS_NO_MCAST : Z := Z.lor (Z.lor RECEIVE_UNICAST RECEIVE_BROADCAST) RECEIVE_PROMISCUOUS.

(** Services that only this driver calls. *)
Class NetServices (W : Type) := {
  gbs_AllocatePool : W -> bool * W;   (* live memory is left alone *)
  gbs_AppendDevicePathNode : vop W bool;
  gbs_GetDevicePath : vop W EFI_STATUS;
  gbs_OpenByChild : vop W EFI_STATUS;
  gbs_GetSnp : vop W EFI_STATUS;
  gbs_SignalEvent : vop W unit;
}.

Section VirtioNet.
Context {W : Type} {V : VirtIo W} {BS : BootServices W} {NS : NetServices W}.
Context {OC : OrderedCollection Z TX_BUF_MAP_INFO W CompareAddress}.
Local Abbreviation st := (st (W:=W)).

(** VNET_DEV, by direction.  [TxFreeStack]: the array's contents. *)
Record RX_STATE : Type := mkRx {
  RxRing : VRING; RxRingMap : Z; RxBuf : Z; RxLastUsed : Z; RxBufNrPages : Z; RxBufDeviceBase : Z; RxBufMap : Z;
}.
Record TX_STATE : Type := mkTx {
  TxRing : VRING; TxRingMap : Z; TxMaxPending : Z; TxCurPending : Z; TxFreeStack : list Z;
  TxSharedReq : Z; TxSharedReqMap : Z; TxLastUsed : Z; TxBufCollection : option (oc OC);
}.
Record VNET_DEV : Type := mkDev { Snm : EFI_SIMPLE_NETWORK_MODE; Rx : RX_STATE; Tx : TX_STATE }.
Definition zero_dev : VNET_DEV :=
  mkDev zero_snm (mkRx zero_vring 0 0 0 0 0 0) (mkTx zero_vring 0 0 0 [] 0 0 0 None).
Definition set_snm (m : EFI_SIMPLE_NETWORK_MODE) (Dev : VNET_DEV) : VNET_DEV := mkDev m (Rx Dev) (Tx Dev).
Definition set_rx (r : RX_STATE) (Dev : VNET_DEV) : VNET_DEV := mkDev (Snm Dev) r (Tx Dev).
Definition set_tx (t : TX_STATE) (Dev : VNET_DEV) : VNET_DEV := mkDev (Snm Dev) (Rx Dev) t.
Definition set_net_state (v : EFI_SIMPLE_NETWORK_STATE) (Dev : VNET_DEV) : VNET_DEV :=
  set_snm (set_state v (Snm Dev)) Dev.

Definition net_out : Type := EFI_STATUS * VNET_DEV.

(** *** Services *)
Definition AllocatePool : M st bool :=
  ok ← vcall (fun w m => let '(ok, w) := gbs_AllocatePool w in (ok, m, w)); (if ok : bool then Hold 1 0 0 0 else mret tt);; mret ok.
Definition FreePool : M st unit := Hold (-1) 0 0 0.
Definition OrderedCollectionInit : M st (option (oc OC)) :=
  c ← vcall (fun w m => let '(c, w) := oc_init w in (c, m, w));
  (match c with Some _ => Hold 1 0 0 0 | None => mret tt end);; mret c.
Definition OrderedCollectionInsert (c : oc OC) (info : TX_BUF_MAP_INFO) : M st (EFI_STATUS * oc OC) :=
  r ← vcall (fun w m => let '(r, c, w) := oc_insert w c (DeviceAddress info) info in ((r, c), m, w));
  mret (insert_status r.1, r.2).
Definition OrderedCollectionUninit (c : oc OC) : M st unit :=
  ASSERT (bool_decide (oc_entries c = []));; Hold (-1) 0 0 0.

(** ** SnpSharedHelpers.c *)
Definition VirtioNetShutdownRx (Dev : VNET_DEV) : M st unit :=
  _ ← UnmapSharedBuffer (RxBufMap (Rx Dev));
  FreeSharedPages (RxBufNrPages (Rx Dev)) (RxBuf (Rx Dev)).

Fixpoint ReleaseTxBufs (c : oc OC) (l : list (Z * TX_BUF_MAP_INFO)) : M st (oc OC) :=
  match l with
  | [] => mret c
  | (k, TxBufMapInfo) :: l =>
      let c := oc_delete c k in
      _ ← UnmapSharedBuffer (BufMap TxBufMapInfo);
      FreePool;;
      ReleaseTxBufs c l
  end.

Definition VirtioNetShutdownTx (Dev : VNET_DEV) : M st unit :=
  _ ← UnmapSharedBuffer (TxSharedReqMap (Tx Dev));
  FreeSharedPages (EFI_SIZE_TO_PAGES SIZEOF_1_0_NET_REQ) (TxSharedReq (Tx Dev));;
  c ← deref (TxBufCollection (Tx Dev));
  c ← ReleaseTxBufs c (oc_entries c);
  OrderedCollectionUninit c;;
  FreePool.

Definition VirtioNetUninitRing (Ring : VRING) (RingMap : Z) : M st VRING :=
  _ ← UnmapSharedBuffer RingMap; VirtioRingUninit Ring.

(** The collection is updated in place. *)
Definition FreeTxBufMapInfo (Status : EFI_STATUS) (c : oc OC) : M st (EFI_STATUS * Z * oc OC) :=
  FreePool;; mret (Status, 0, c).
Definition UnmapTxBuf (Mapping : Z) (Status : EFI_STATUS) (c : oc OC) : M st (EFI_STATUS * Z * oc OC) :=
  _ ← UnmapSharedBuffer Mapping; FreeTxBufMapInfo Status c.
Definition VirtioNetMapTxBuf (c : oc OC) (Buffer NumberOfBytes : Z) : M st (EFI_STATUS * Z * oc OC) :=
  ok ← AllocatePool;
  if negb ok then mret (EFI_OUT_OF_RESOURCES, 0, c) else
  r ← VirtioMapAllBytesInSharedBuffer VirtioOperationBusMasterRead Buffer NumberOfBytes;
  let '(Status, Address, Mapping) := r in
  if EFI_ERROR Status then FreeTxBufMapInfo Status c else
  r ← OrderedCollectionInsert c (mkInfo Buffer Address Mapping);
  let '(Status, c) := r in
  if Status =? EFI_OUT_OF_RESOURCES then UnmapTxBuf Mapping Status c
  else if Status =? EFI_ALREADY_STARTED then
    ASSERT false;; UnmapTxBuf Mapping EFI_INVALID_PARAMETER c
  else ASSERT (negb (EFI_ERROR Status));; mret (EFI_SUCCESS, Address, c).

Definition VirtioNetUnmapTxBuf (c : oc OC) (Address : Z) : M st (EFI_STATUS * Z * oc OC) :=
  match oc_find c Address with
  | None => mret (EFI_INVALID_PARAMETER, 0, c)
  | Some TxBufMapInfo =>
      let c := oc_delete c Address in
      _ ← UnmapSharedBuffer (BufMap TxBufMapInfo);
      FreePool;;
      mret (EFI_SUCCESS, Info_Buffer TxBufMapInfo, c)
  end.

(** ** SnpInitialize.c *)

(** Ring, mapping; labels innermost last. *)
Definition ring_out : Type := EFI_STATUS * VRING * Z.
Definition ReleaseQueue (Ring : VRING) (Mapping : Z) (Status : EFI_STATUS) : M st ring_out :=
  Ring ← VirtioRingUninit Ring; mret (Status, Ring, Mapping).
Definition UnmapQueue (Ring : VRING) (MapInfo Mapping : Z) (Status : EFI_STATUS) : M st ring_out :=
  _ ← UnmapSharedBuffer MapInfo; ReleaseQueue Ring Mapping Status.

Definition VirtioNetInitRing (Selector : Z) (Ring : VRING) (Mapping : Z) : M st ring_out :=
  Status ← SetQueueSel Selector;
  if EFI_ERROR Status then mret (Status, Ring, Mapping) else
  r ← GetQueueNumMax;
  let '(Status, Q) := r in
  if EFI_ERROR Status then mret (Status, Ring, Mapping) else
  if Q <? 2 then mret (EFI_UNSUPPORTED, Ring, Mapping) else
  r ← VirtioRingInit Q;
  let '(Status, Ring) := r in
  if EFI_ERROR Status then mret (Status, Ring, Mapping) else
  r ← VirtioRingMap Ring;
  let '(Status, RingBaseShift, MapInfo) := r in
  if EFI_ERROR Status then ReleaseQueue Ring Mapping Status else
  Status ← SetQueueNum Q;
  if EFI_ERROR Status then UnmapQueue Ring MapInfo Mapping Status else
  Status ← SetQueueAlign EFI_PAGE_SIZE;
  if EFI_ERROR Status then UnmapQueue Ring MapInfo Mapping Status else
  Status ← SetQueueAddress Ring RingBaseShift;
  if EFI_ERROR Status then UnmapQueue Ring MapInfo Mapping Status else
  mret (EFI_SUCCESS, Ring, MapInfo).

(** The chains of the transmit queue: [PktIdx] from 0; the free stack. *)
Fixpoint LayOutTx (Ring : VRING) (Address Size : Z) (PktIdx : list Z) : M st (list Z) :=
  match PktIdx with
  | [] => mret []
  | i :: PktIdx =>
      let DescIdx := u16 (2 * i) in
      let p := Desc Ring + SIZEOF_DESC * DescIdx in
      write_le p 8 Address;;
      write_le (p + 8) 4 (u32 Size);;
      write_le (p + 12) 2 VRING_DESC_F_NEXT;;
      write_le (p + 14) 2 (u16 (DescIdx + 1));;
      write_le (p + SIZEOF_DESC + 12) 2 0;;
      stack ← LayOutTx Ring Address Size PktIdx;
      mret (DescIdx :: stack)
  end.

Definition NetReqSize : Z :=
  if Revision <? VIRTIO_SPEC_REVISION 1 0 0 then SIZEOF_NET_REQ else SIZEOF_1_0_NET_REQ.
Definition MaxPending (Ring : VRING) : Z := u16 (Z.min (QueueSize Ring / 2) VNET_MAX_PENDING).

Definition FreeTxFreeStack (Dev : VNET_DEV) (Status : EFI_STATUS) : M st net_out := FreePool;; mret (Status, Dev).
Definition UninitTxBufCollection (c : oc OC) (Dev : VNET_DEV) (Status : EFI_STATUS) : M st net_out :=
  OrderedCollectionUninit c;; FreeTxFreeStack Dev Status.
Definition FreeTxSharedReqBuffer (Buffer : Z) (c : oc OC) (Dev : VNET_DEV) (Status : EFI_STATUS) : M st net_out :=
  FreeSharedPages (EFI_SIZE_TO_PAGES SIZEOF_1_0_NET_REQ) Buffer;; UninitTxBufCollection c Dev Status.

Definition VirtioNetInitTx (Dev : VNET_DEV) : M st net_out :=
  let t := Tx Dev in
  let r := TxRing t in
  let max := MaxPending r in
  let Dev := set_tx (mkTx r (TxRingMap t) max 0 (TxFreeStack t) (TxSharedReq t) (TxSharedReqMap t) (TxLastUsed t)
                       (TxBufCollection t)) Dev in
  ok ← AllocatePool;
  if negb ok then mret (EFI_OUT_OF_RESOURCES, Dev) else
  c ← OrderedCollectionInit;
  match c with
  | None => FreeTxFreeStack Dev EFI_OUT_OF_RESOURCES
  | Some c =>
      a ← AllocateSharedPages (EFI_SIZE_TO_PAGES SIZEOF_1_0_NET_REQ);
      let '(Status, Buffer) := a in
      if EFI_ERROR Status then UninitTxBufCollection c Dev Status else
      write_mem Buffer (replicate (Z.to_nat SIZEOF_1_0_NET_REQ) 0);;
      a ← VirtioMapAllBytesInSharedBuffer VirtioOperationBusMasterCommonBuffer Buffer SIZEOF_1_0_NET_REQ;
      let '(Status, Address, Map) := a in
      if EFI_ERROR Status then FreeTxSharedReqBuffer Buffer c Dev Status else
      stack ← LayOutTx r Address NetReqSize (seqZ 0 max);
      write_le Buffer 1 0;;
      write_le (Buffer + Off_GsoType) 1 VIRTIO_NET_HDR_GSO_NONE;;
      write_le (Buffer + Off_NumBuffers) 2 0;;
      LastUsed ← read_le (Used_Idx r) 2;
      ASSERT (LastUsed =? 0);;
      write_le (Avail_Flags r) 2 VRING_AVAIL_F_NO_INTERRUPT;;
      mret (EFI_SUCCESS, set_tx (mkTx r (TxRingMap t) max 0 stack Buffer Map LastUsed (Some c)) Dev)
  end.

(** The chains of the receive queue; the fields' lengths are read back. *)
Fixpoint LayOutRx (Ring : VRING) (ReqSize DataSize DescIdx Address : Z) (PktIdx : list Z) : M st unit :=
  match PktIdx with
  | [] => mret tt
  | i :: PktIdx =>
      write_le (Avail_Ring Ring + 2 * i) 2 DescIdx;;
      let p := Desc Ring + SIZEOF_DESC * DescIdx in
      write_le p 8 Address;;
      write_le (p + 8) 4 (u32 ReqSize);;
      write_le (p + 12) 2 (Z.lor VRING_DESC_F_WRITE VRING_DESC_F_NEXT);;
      write_le (p + 14) 2 (u16 (DescIdx + 1));;
      n ← read_le (p + 8) 4;
      let DescIdx := u16 (DescIdx + 1) in
      let Address := u64 (Address + n) in
      let p := Desc Ring + SIZEOF_DESC * DescIdx in
      write_le p 8 Address;;
      write_le (p + 8) 4 (u32 DataSize);;
      write_le (p + 12) 2 VRING_DESC_F_WRITE;;
      n ← read_le (p + 8) 4;
      LayOutRx Ring ReqSize DataSize (u16 (DescIdx + 1)) (u64 (Address + n)) PktIdx
  end.

Definition FreeSharedBuffer (Dev : VNET_DEV) (Pages Buffer : Z) (Status : EFI_STATUS) : M st net_out :=
  FreeSharedPages Pages Buffer;; mret (Status, Dev).
Definition UnmapSharedRxBuffer (Dev : VNET_DEV) (Pages Buffer Map : Z) (Status : EFI_STATUS) : M st net_out :=
  _ ← UnmapSharedBuffer Map; FreeSharedBuffer Dev Pages Buffer Status.

Definition VirtioNetInitRx (Dev : VNET_DEV) : M st net_out :=
  let r := RxRing (Rx Dev) in
  let DataSize := MediaHeaderSize (Snm Dev) + MaxPacketSize (Snm Dev) in
  let RxBufSize := NetReqSize + DataSize in
  let RxAlwaysPending := MaxPending r in
  let NumBytes := RxAlwaysPending * RxBufSize in
  let Pages := EFI_SIZE_TO_PAGES NumBytes in
  a ← AllocateSharedPages Pages;
  let '(Status, Buffer) := a in
  let with_rx Buf Used Base Map :=
    set_rx (mkRx r (RxRingMap (Rx Dev)) Buf Used Pages Base Map) Dev in
  let Old := with_rx (RxBuf (Rx Dev)) (RxLastUsed (Rx Dev)) (RxBufDeviceBase (Rx Dev)) (RxBufMap (Rx Dev)) in
  if EFI_ERROR Status then mret (Status, Old) else
  write_mem Buffer (replicate (Z.to_nat NumBytes) 0);;
  a ← VirtioMapAllBytesInSharedBuffer VirtioOperationBusMasterCommonBuffer Buffer NumBytes;
  let '(Status, DeviceBase, Map) := a in
  if EFI_ERROR Status then FreeSharedBuffer Old Pages Buffer Status else
  LastUsed ← read_le (Used_Idx r) 2;
  ASSERT (LastUsed =? 0);;
  let Dev := with_rx Buffer LastUsed DeviceBase Map in
  write_le (Avail_Flags r) 2 VRING_AVAIL_F_NO_INTERRUPT;;
  LayOutRx r NetReqSize DataSize 0 DeviceBase (seqZ 0 RxAlwaysPending);;
  write_le (Avail_Idx r) 2 RxAlwaysPending;;
  Status ← SetQueueNotify VIRTIO_NET_Q_RX;
  if EFI_ERROR Status then
    _ ← SetDeviceStatus 0; UnmapSharedRxBuffer Dev Pages Buffer Map Status
  else mret (Status, Dev).

(** Labels of VirtioNetInitialize. *)
Definition DeviceFailed (Dev : VNET_DEV) (Status : EFI_STATUS) : M st net_out :=
  _ ← SetDeviceStatus 0; mret (Status, Dev).
Definition ReleaseRxRing (Dev : VNET_DEV) (Status : EFI_STATUS) : M st net_out :=
  _ ← VirtioNetUninitRing (RxRing (Rx Dev)) (RxRingMap (Rx Dev)); DeviceFailed Dev Status.
Definition ReleaseTxRing (Dev : VNET_DEV) (Status : EFI_STATUS) : M st net_out :=
  _ ← VirtioNetUninitRing (TxRing (Tx Dev)) (TxRingMap (Tx Dev)); ReleaseRxRing Dev Status.
Definition AbortDevice (Dev : VNET_DEV) (Status : EFI_STATUS) : M st net_out :=
  _ ← SetDeviceStatus 0; ReleaseTxRing Dev Status.
Definition ReleaseTxAux (Dev : VNET_DEV) (Status : EFI_STATUS) : M st net_out :=
  VirtioNetShutdownTx Dev;; AbortDevice Dev Status.

Definition NET_FEATURES : Z :=
  VIRTIO_NET_F_MAC + VIRTIO_NET_F_STATUS + VIRTIO_F_VERSION_1 + VIRTIO_F_IOMMU_PLATFORM.

(** From DRIVER_OK on, with both rings. *)
Definition StartQueues (Dev : VNET_DEV) (NextDevStat : Z) : M st net_out :=
  Status ← SetDeviceStatus (Z.lor NextDevStat VSTAT_DRIVER_OK);
  if EFI_ERROR Status then ReleaseTxRing Dev Status else
  r ← VirtioNetInitTx Dev;
  let '(Status, Dev) := r in
  if EFI_ERROR Status then AbortDevice Dev Status else
  r ← VirtioNetInitRx Dev;
  let '(Status, Dev) := r in
  if EFI_ERROR Status then ReleaseTxAux Dev Status else
  mret (EFI_SUCCESS, set_net_state EfiSimpleNetworkInitialized Dev).

(** Steps 4b to 5: the rings, and the features of a legacy device. *)
Definition SetUpRings (Dev : VNET_DEV) (NextDevStat Features : Z) : M st net_out :=
  r ← VirtioNetInitRing VIRTIO_NET_Q_RX (RxRing (Rx Dev)) (RxRingMap (Rx Dev));
  let '(Status, Ring, Map) := r in
  let x := Rx Dev in
  let Dev := set_rx (mkRx Ring Map (RxBuf x) (RxLastUsed x) (RxBufNrPages x) (RxBufDeviceBase x) (RxBufMap x)) Dev in
  if EFI_ERROR Status then DeviceFailed Dev Status else
  r ← VirtioNetInitRing VIRTIO_NET_Q_TX (TxRing (Tx Dev)) (TxRingMap (Tx Dev));
  let '(Status, Ring, Map) := r in
  let t := Tx Dev in
  let Dev := set_tx (mkTx Ring Map (TxMaxPending t) (TxCurPending t) (TxFreeStack t) (TxSharedReq t)
                       (TxSharedReqMap t) (TxLastUsed t) (TxBufCollection t)) Dev in
  if EFI_ERROR Status then ReleaseRxRing Dev Status else
  Status ← (if Revision <? VIRTIO_SPEC_REVISION 1 0 0
            then SetGuestFeatures (Z.land Features (u64 (Z.lnot (VIRTIO_F_VERSION_1 + VIRTIO_F_IOMMU_PLATFORM))))
            else mret EFI_SUCCESS);
  if EFI_ERROR Status then ReleaseTxRing Dev Status else
  StartQueues Dev NextDevStat.

Definition VirtioNetInitialize (Dev : VNET_DEV) (ExtraRxBufferSize ExtraTxBufferSize : Z) : M st net_out :=
  if (0 <? ExtraRxBufferSize) || (0 <? ExtraTxBufferSize) then mret (EFI_UNSUPPORTED, Dev) else
  if negb (bool_decide (State (Snm Dev) = EfiSimpleNetworkStarted)) then mret (EFI_NOT_STARTED, Dev) else
  let NextDevStat := VSTAT_ACK in
  Status ← SetDeviceStatus NextDevStat;
  if EFI_ERROR Status then mret (Status, Dev) else
  let NextDevStat := Z.lor NextDevStat VSTAT_DRIVER in
  Status ← SetDeviceStatus NextDevStat;
  if EFI_ERROR Status then DeviceFailed Dev Status else
  Status ← SetPageSize EFI_PAGE_SIZE;
  if EFI_ERROR Status then DeviceFailed Dev Status else
  r ← GetDeviceFeatures;
  let '(Status, Features) := r in
  if EFI_ERROR Status then DeviceFailed Dev Status else
  ASSERT (negb (Z.land Features VIRTIO_NET_F_MAC =? 0));;
  ASSERT (Bool.eqb (MediaPresentSupported (Snm Dev)) (negb (Z.land Features VIRTIO_NET_F_STATUS =? 0)));;
  let Features := Z.land Features NET_FEATURES in
  r ← (if VIRTIO_SPEC_REVISION 1 0 0 <=? Revision
       then Virtio10WriteFeatures Features NextDevStat
       else mret (EFI_SUCCESS, NextDevStat));
  let '(Status, NextDevStat) := r in
  if EFI_ERROR Status then DeviceFailed Dev Status
  else SetUpRings Dev NextDevStat Features.

(** ** SnpStart.c, SnpStop.c, SnpShutdown.c *)
Definition VirtioNetStart (Dev : VNET_DEV) : M st net_out :=
  if negb (bool_decide (State (Snm Dev) = EfiSimpleNetworkStopped)) then mret (EFI_ALREADY_STARTED, Dev)
  else mret (EFI_SUCCESS, set_net_state EfiSimpleNetworkStarted Dev).
Definition VirtioNetStop (Dev : VNET_DEV) : M st net_out :=
  if negb (bool_decide (State (Snm Dev) = EfiSimpleNetworkStarted)) then mret (EFI_NOT_STARTED, Dev)
  else mret (EFI_SUCCESS, set_net_state EfiSimpleNetworkStopped Dev).

Definition VirtioNetShutdown (Dev : VNET_DEV) : M st net_out :=
  match State (Snm Dev) with
  | EfiSimpleNetworkStopped => mret (EFI_NOT_STARTED, Dev)
  | EfiSimpleNetworkStarted => mret (EFI_DEVICE_ERROR, Dev)
  | EfiSimpleNetworkInitialized =>
      _ ← SetDeviceStatus 0;
      VirtioNetShutdownRx Dev;;
      VirtioNetShutdownTx Dev;;
      TxRing' ← VirtioNetUninitRing (TxRing (Tx Dev)) (TxRingMap (Tx Dev));
      RxRing' ← VirtioNetUninitRing (RxRing (Rx Dev)) (RxRingMap (Rx Dev));
      let x := Rx Dev in
      let t := Tx Dev in
      mret (EFI_SUCCESS,
        mkDev (set_state EfiSimpleNetworkStarted (Snm Dev))
          (mkRx RxRing' (RxRingMap x) (RxBuf x) (RxLastUsed x) (RxBufNrPages x) (RxBufDeviceBase x) (RxBufMap x))
          (mkTx TxRing' (TxRingMap t) (TxMaxPending t) (TxCurPending t) (TxFreeStack t) (TxSharedReq t)
             (TxSharedReqMap t) (TxLastUsed t) None))
  end.

(** ** SnpTransmit.c.  Optional pointers are [option]s of what they point to. *)

(** The media header, when the caller wants it filled in; false: refused. *)
Definition FillMediaHeader (m : EFI_SIMPLE_NETWORK_MODE) (HeaderSize Buffer : Z) (SrcAddr DestAddr : option (list Z))
    (Protocol : option Z) : M st bool :=
  if negb (HeaderSize =? 0) then
    match DestAddr, Protocol with
    | Some Dest, Some Proto =>
        if negb (HeaderSize =? MediaHeaderSize m) then mret false else
        poke Buffer (take 6 Dest);;
        poke (Buffer + 6) (take 6 (default (CurrentAddress m) SrcAddr));;
        poke (Buffer + 12) [u8 (Z.shiftr Proto 8)];;
        poke (Buffer + 13) [u8 Proto];;
        ASSERT (14 =? MediaHeaderSize m);;
        mret true
    | _, _ => mret false
    end
  else mret true.

(** Entry [AvailIdx % QueueSize] of the available ring, and the index. *)
Definition MakeAvailable (Ring : VRING) (DescIdx : Z) : M st unit :=
  AvailIdx ← read_le (Avail_Idx Ring) 2;
  i ← modulo AvailIdx (QueueSize Ring);
  write_le (Avail_Ring Ring + 2 * i) 2 (u16 DescIdx);;
  write_le (Avail_Idx Ring) 2 (u16 (AvailIdx + 1)).

(** The rest of VirtioNetTransmit, in state Initialized with a sane size. *)
Definition SubmitPacket (Dev : VNET_DEV) (BufferSize Buffer : Z) : M st net_out :=
  let t := Tx Dev in
  c ← deref (TxBufCollection t);
  r ← VirtioNetMapTxBuf c Buffer BufferSize;
  let '(Status, Address, c) := r in
  let with_tx cur := set_tx (mkTx (TxRing t) (TxRingMap t) (TxMaxPending t) cur (TxFreeStack t) (TxSharedReq t)
                               (TxSharedReqMap t) (TxLastUsed t) (Some c)) Dev in
  if EFI_ERROR Status then mret (EFI_DEVICE_ERROR, with_tx (TxCurPending t)) else
  DescIdx ← deref (TxFreeStack t !! Z.to_nat (TxCurPending t));
  let p := Desc (TxRing t) + SIZEOF_DESC * (DescIdx + 1) in
  write_le p 8 Address;;
  write_le (p + 8) 4 (u32 BufferSize);;
  MakeAvailable (TxRing t) DescIdx;;
  Status ← SetQueueNotify VIRTIO_NET_Q_TX;
  mret (Status, with_tx (u16 (TxCurPending t + 1))).

Definition QueuePacket (Dev : VNET_DEV) (HeaderSize BufferSize Buffer : Z) (SrcAddr DestAddr : option (list Z))
    (Protocol : option Z) : M st net_out :=
  ok ← FillMediaHeader (Snm Dev) HeaderSize Buffer SrcAddr DestAddr Protocol;
  if negb ok then mret (EFI_INVALID_PARAMETER, Dev) else SubmitPacket Dev BufferSize Buffer.

Definition VirtioNetTransmit (Dev : VNET_DEV) (HeaderSize BufferSize Buffer : Z) (SrcAddr DestAddr : option (list Z))
    (Protocol : option Z) : M st net_out :=
  if (BufferSize =? 0) || (Buffer =? 0) then mret (EFI_INVALID_PARAMETER, Dev) else
  match State (Snm Dev) with
  | EfiSimpleNetworkStopped => mret (EFI_NOT_STARTED, Dev)
  | EfiSimpleNetworkStarted => mret (EFI_DEVICE_ERROR, Dev)
  | EfiSimpleNetworkInitialized =>
      if BufferSize <? MediaHeaderSize (Snm Dev) then mret (EFI_BUFFER_TOO_SMALL, Dev) else
      if MediaHeaderSize (Snm Dev) + MaxPacketSize (Snm Dev) <? BufferSize then mret (EFI_INVALID_PARAMETER, Dev) else
      ASSERT (TxCurPending (Tx Dev) <=? TxMaxPending (Tx Dev));;
      if TxCurPending (Tx Dev) =? TxMaxPending (Tx Dev) then mret (EFI_NOT_READY, Dev) else
      QueuePacket Dev HeaderSize BufferSize Buffer SrcAddr DestAddr Protocol
  end.

(** ** SnpReceive.c *)
Definition read_bytes (a n : Z) : M st (list Z) :=
  s ← get; if in_pages (Pages s) a n then mret (mem_get (Mem s) a n) else trapped BadPointer.

(** BufferSize and the optional out-parameters. *)
Record rx_out : Type := mkRxOut {
  Out_BufferSize : Z; Out_HeaderSize : option Z; Out_Src : option (list Z); Out_Dest : option (list Z);
  Out_Protocol : option Z;
}.
Record rx_wants : Type := mkWants { WantHeaderSize : bool; WantSrc : bool; WantDest : bool; WantProtocol : bool }.

(** Label RecycleDesc. *)
Definition RecycleDesc (Dev : VNET_DEV) (DescIdx : Z) (Status : EFI_STATUS) (out : rx_out)
    : M st (EFI_STATUS * rx_out * VNET_DEV) :=
  let x := Rx Dev in
  let Dev := set_rx (mkRx (RxRing x) (RxRingMap x) (RxBuf x) (u16 (RxLastUsed x + 1)) (RxBufNrPages x)
                       (RxBufDeviceBase x) (RxBufMap x)) Dev in
  MakeAvailable (RxRing x) DescIdx;;
  NotifyStatus ← SetQueueNotify VIRTIO_NET_Q_RX;
  mret (if EFI_ERROR Status then Status else NotifyStatus, out, Dev).

(** The packet's bytes and their parts. *)
Definition DeliverPacket (Dev : VNET_DEV) (want : rx_wants) (Buffer DescIdx RxLen : Z)
    : M st (EFI_STATUS * rx_out * VNET_DEV) :=
  let x := Rx Dev in
  a ← read_le (Desc (RxRing x) + SIZEOF_DESC * u32 (DescIdx + 1)) 8;
  let RxPtr := u64 (RxBuf x + u64 (a - RxBufDeviceBase x)) in
  bs ← read_bytes RxPtr RxLen;
  poke Buffer bs;;
  dest ← read_bytes RxPtr 6;
  src ← read_bytes (RxPtr + 6) 6;
  hi ← read_le (RxPtr + 12) 1;
  lo ← read_le (RxPtr + 13) 1;
  RecycleDesc Dev DescIdx EFI_SUCCESS
    (mkRxOut RxLen
       (if WantHeaderSize want then Some (MediaHeaderSize (Snm Dev)) else None)
       (if WantSrc want then Some src else None)
       (if WantDest want then Some dest else None)
       (if WantProtocol want then Some (u16 (Z.lor (Z.shiftl hi 8) lo)) else None)).

Definition VirtioNetReceive (Dev : VNET_DEV) (want : rx_wants) (BufferSize Buffer : Z)
    : M st (EFI_STATUS * rx_out * VNET_DEV) :=
  let x := Rx Dev in
  let r := RxRing x in
  let unchanged := mkRxOut BufferSize None None None None in
  if Buffer =? 0 then mret (EFI_INVALID_PARAMETER, unchanged, Dev) else
  match State (Snm Dev) with
  | EfiSimpleNetworkStopped => mret (EFI_NOT_STARTED, unchanged, Dev)
  | EfiSimpleNetworkStarted => mret (EFI_DEVICE_ERROR, unchanged, Dev)
  | EfiSimpleNetworkInitialized =>
      RxCurUsed ← read_le (Used_Idx r) 2;
      if RxLastUsed x =? RxCurUsed then mret (EFI_NOT_READY, unchanged, Dev) else
      UsedElemIdx ← modulo (RxLastUsed x) (QueueSize r);
      DescIdx ← read_le (Used_UsedElem r + SIZEOF_USED_ELEM * UsedElemIdx) 4;
      RxLen ← read_le (Used_UsedElem r + SIZEOF_USED_ELEM * UsedElemIdx + 4) 4;
      n ← read_le (Desc r + SIZEOF_DESC * DescIdx + 8) 4;
      ASSERT (n <=? RxLen);;
      let RxLen := RxLen - n in
      n ← read_le (Desc r + SIZEOF_DESC * u32 (DescIdx + 1) + 8) 4;
      ASSERT (RxLen <=? n);;
      let short := mkRxOut RxLen None None None None in
      if BufferSize <? RxLen then mret (EFI_BUFFER_TOO_SMALL, short, Dev) else
      if RxLen <? MediaHeaderSize (Snm Dev) then RecycleDesc Dev DescIdx EFI_DEVICE_ERROR short else
      DeliverPacket Dev want Buffer DescIdx RxLen
  end.

(** ** SnpGetStatus.c *)
Record status_out : Type := mkStatusOut { Out_InterruptStatus : option Z; Out_TxBuf : option Z }.

(** One completed transmission is taken back; [NULL]: none is. *)
Definition RecycleTxBuf (Dev : VNET_DEV) (TxCurUsed : Z) : M st (EFI_STATUS * Z * VNET_DEV) :=
  let t := Tx Dev in
  let r := TxRing t in
  if TxLastUsed t =? TxCurUsed then mret (EFI_SUCCESS, 0, Dev) else
  ASSERT (0 <? TxCurPending t);;
  ASSERT (TxCurPending t <=? TxMaxPending t);;
  UsedElemIdx ← modulo (TxLastUsed t) (QueueSize r);
  DescIdx ← read_le (Used_UsedElem r + SIZEOF_USED_ELEM * UsedElemIdx) 4;
  let DescIdx := u32 DescIdx in   (* UINT32, whatever the host wrote *)
  ASSERT (DescIdx <? u32 (2 * TxMaxPending t - 1));;
  Address ← read_le (Desc r + SIZEOF_DESC * (DescIdx + 1)) 8;
  let cur := u16 (TxCurPending t - 1) in
  _ ← deref (TxFreeStack t !! Z.to_nat cur);
  let stack := <[Z.to_nat cur := u16 DescIdx]> (TxFreeStack t) in
  c ← deref (TxBufCollection t);
  res ← VirtioNetUnmapTxBuf c Address;
  let '(Status, TxBuf, c) := res in
  let Dev := set_tx (mkTx r (TxRingMap t) (TxMaxPending t) cur stack (TxSharedReq t) (TxSharedReqMap t)
                       (u16 (TxLastUsed t + 1)) (Some c)) Dev in
  if EFI_ERROR Status then ASSERT false;; mret (EFI_DEVICE_ERROR, 0, Dev)
  else mret (EFI_SUCCESS, TxBuf, Dev).

Definition ReadLinkStatus (Dev : VNET_DEV) : M st net_out :=
  if MediaPresentSupported (Snm Dev) then
    r ← CfgRead Cfg_LinkStatus;
    let '(Status, LinkStatus) := r in
    if EFI_ERROR Status then mret (Status, Dev)
    else mret (Status, set_snm (set_media true (negb (Z.land LinkStatus VIRTIO_NET_S_LINK_UP =? 0)) (Snm Dev)) Dev)
  else mret (EFI_SUCCESS, Dev).

(** The queues' part of VirtioNetGetStatus. *)
Definition ReportStatus (Dev : VNET_DEV) (WantInterrupt WantTxBuf : bool) : M st (EFI_STATUS * status_out * VNET_DEV) :=
  RxCurUsed ← read_le (Used_Idx (RxRing (Rx Dev))) 2;
  TxCurUsed ← read_le (Used_Idx (TxRing (Tx Dev))) 2;
  let rx := if RxLastUsed (Rx Dev) =? RxCurUsed then 0 else RECEIVE_INTERRUPT in
  i ← (if WantInterrupt then
         if TxLastUsed (Tx Dev) =? TxCurUsed then mret (Some rx)
         else ASSERT (0 <? TxCurPending (Tx Dev));; mret (Some (Z.lor rx TRANSMIT_INTERRUPT))
       else mret None);
  if WantTxBuf then
    r ← RecycleTxBuf Dev TxCurUsed;
    let '(Status, TxBuf, Dev) := r in
    mret (Status, mkStatusOut i (Some TxBuf), Dev)
  else mret (EFI_SUCCESS, mkStatusOut i None, Dev).

Definition VirtioNetGetStatus (Dev : VNET_DEV) (WantInterrupt WantTxBuf : bool)
    : M st (EFI_STATUS * status_out * VNET_DEV) :=
  let none := mkStatusOut None None in
  match State (Snm Dev) with
  | EfiSimpleNetworkStopped => mret (EFI_NOT_STARTED, none, Dev)
  | EfiSimpleNetworkStarted => mret (EFI_DEVICE_ERROR, none, Dev)
  | EfiSimpleNetworkInitialized =>
      r ← ReadLinkStatus Dev;
      let '(Status, Dev) := r in
      if EFI_ERROR Status then mret (Status, none, Dev)
      else ReportStatus Dev WantInterrupt WantTxBuf
  end.

(** ** SnpReceiveFilters.c, SnpMcastIpToMac.c, SnpUnsupported.c *)
Definition VirtioNetReceiveFilters (Dev : VNET_DEV) (Enable Disable : Z) (ResetMCastFilter : bool) (Cnt : Z) : EFI_STATUS :=
  match State (Snm Dev) with
  | EfiSimpleNetworkStopped => EFI_NOT_STARTED
  | EfiSimpleNetworkStarted => EFI_DEVICE_ERROR
  | EfiSimpleNetworkInitialized =>
      if negb (Z.land (Z.lor Enable Disable) (u32 (Z.lnot (ReceiveFilterMask (Snm Dev)))) =? 0)
         || (negb ResetMCastFilter && (MaxMCastFilterCount (Snm Dev) <? Cnt))
      then EFI_INVALID_PARAMETER else EFI_SUCCESS
  end.

(** [Ip]: the bytes of the address. *)
Definition VirtioNetMcastIpToMac (Dev : VNET_DEV) (IPv6 : bool) (Ip : list Z) : EFI_STATUS * list Z :=
  if (IPv6 && negb (nth 0 Ip 0 =? 0xFF)) || (negb IPv6 && negb (Z.land (nth 0 Ip 0) 0xF0 =? 0xE0))
  then (EFI_INVALID_PARAMETER, []) else
  match State (Snm Dev) with
  | EfiSimpleNetworkStopped => (EFI_NOT_STARTED, [])
  | EfiSimpleNetworkStarted => (EFI_DEVICE_ERROR, [])
  | EfiSimpleNetworkInitialized =>
      (EFI_SUCCESS,
       if IPv6 then [0x33; 0x33; nth 12 Ip 0; nth 13 Ip 0; nth 14 Ip 0; nth 15 Ip 0]
       else [0x01; 0x00; 0x5E; Z.land (nth 1 Ip 0) 0x7F; nth 2 Ip 0; nth 3 Ip 0])
  end.

Definition VirtioNetReset (ExtendedVerification : bool) : EFI_STATUS := EFI_UNSUPPORTED.
Definition VirtioNetStationAddress (Reset : bool) : EFI_STATUS := EFI_UNSUPPORTED.
Definition VirtioNetStatistics (Reset : bool) : EFI_STATUS := EFI_UNSUPPORTED.
Definition VirtioNetNvData (ReadWrite : bool) : EFI_STATUS := EFI_UNSUPPORTED.

(** ** Events.c *)
Definition VirtioNetIsPacketAvailable (Dev : VNET_DEV) : M st unit :=
  if negb (bool_decide (State (Snm Dev) = EfiSimpleNetworkInitialized)) then mret tt else
  RxCurUsed ← read_le (Used_Idx (RxRing (Rx Dev))) 2;
  if negb (RxLastUsed (Rx Dev) =? RxCurUsed) then vcall gbs_SignalEvent else mret tt.
Definition VirtioNetExitBoot (Dev : VNET_DEV) : M st unit :=
  if bool_decide (State (Snm Dev) = EfiSimpleNetworkInitialized) then _ ← SetDeviceStatus 0; mret tt else mret tt.

(** ** DriverBinding.c *)
Definition YieldDevice (Status : EFI_STATUS) (m : EFI_SIMPLE_NETWORK_MODE) : M st (EFI_STATUS * EFI_SIMPLE_NETWORK_MODE) :=
  _ ← SetDeviceStatus (if EFI_ERROR Status then VSTAT_FAILED else 0); mret (Status, m).

(** The bytes of the MAC address from [MacIdx] on, up to an error. *)
Fixpoint ReadMac (MacIdx : list Z) : M st (EFI_STATUS * list Z) :=
  match MacIdx with
  | [] => mret (EFI_SUCCESS, [])
  | i :: MacIdx =>
      r ← ReadDevice (Cfg_Mac.1 + i) 1;
      let '(Status, b) := r in
      if EFI_ERROR Status then mret (Status, []) else
      r ← ReadMac MacIdx;
      mret (r.1, b :: r.2)
  end.

Definition VirtioNetGetFeatures (m : EFI_SIMPLE_NETWORK_MODE) : M st (EFI_STATUS * EFI_SIMPLE_NETWORK_MODE) :=
  let NextDevStat := 0 in
  Status ← SetDeviceStatus NextDevStat;
  if EFI_ERROR Status then mret (Status, m) else
  let NextDevStat := Z.lor NextDevStat VSTAT_ACK in
  Status ← SetDeviceStatus NextDevStat;
  if EFI_ERROR Status then YieldDevice Status m else
  let NextDevStat := Z.lor NextDevStat VSTAT_DRIVER in
  Status ← SetDeviceStatus NextDevStat;
  if EFI_ERROR Status then YieldDevice Status m else
  r ← GetDeviceFeatures;
  let '(Status, Features) := r in
  if EFI_ERROR Status then YieldDevice Status m else
  if Z.land Features VIRTIO_NET_F_MAC =? 0 then YieldDevice EFI_UNSUPPORTED m else
  r ← ReadMac (seqZ 0 6);
  let '(Status, mac) := r in
  let m := set_addresses (mac ++ drop (length mac) (CurrentAddress m)) (BroadcastAddress m) (PermanentAddress m) m in
  if EFI_ERROR Status then YieldDevice Status m else
  if Z.land Features VIRTIO_NET_F_STATUS =? 0 then YieldDevice Status (set_media false (MediaPresent m) m) else
  r ← CfgRead Cfg_LinkStatus;
  let '(Status, LinkStatus) := r in
  if EFI_ERROR Status then YieldDevice Status (set_media true (MediaPresent m) m)
  else YieldDevice Status (set_media true (negb (Z.land LinkStatus VIRTIO_NET_S_LINK_UP =? 0)) m).

Definition CloseWaitForPacket (Dev : VNET_DEV) (Status : EFI_STATUS) : M st net_out :=
  CloseEvent;; mret (Status, Dev).
Definition initial_mode (m : EFI_SIMPLE_NETWORK_MODE) : EFI_SIMPLE_NETWORK_MODE :=
  mkSnm EfiSimpleNetworkStopped 6 (6 + 6 + 2) 1500 0 0 RECEIVE_FILTERS_NO_MCAST RECEIVE_FILTERS_NO_MCAST 0 0
    (CurrentAddress m) (BroadcastAddress m) (PermanentAddress m) 1 false true
    (MediaPresentSupported m) (MediaPresent m).
Definition VirtioNetSnpPopulate (Dev : VNET_DEV) : M st net_out :=
  Status ← CreateEvent;
  if EFI_ERROR Status then mret (Status, Dev) else
  r ← VirtioNetGetFeatures (initial_mode (Snm Dev));
  let '(Status, m) := r in
  let Dev := set_snm m Dev in
  if EFI_ERROR Status then CloseWaitForPacket Dev Status else
  let Dev := set_snm (set_addresses (CurrentAddress m) (replicate 6 0xFF) (CurrentAddress m) m) Dev in
  Status ← CreateEvent;
  if EFI_ERROR Status then CloseWaitForPacket Dev Status else
  mret (EFI_SUCCESS, Dev).
Definition VirtioNetSnpEvacuate : M st unit := CloseEvent;; CloseEvent.

Definition VirtioNetDriverBindingSupported : M st EFI_STATUS :=
  Status ← OpenByDriver;
  if EFI_ERROR Status then mret Status
  else
    let Status := if SubSystemDeviceId =? VIRTIO_SUBSYSTEM_NETWORK_CARD then Status else EFI_UNSUPPORTED in
    CloseProtocol;; mret Status.

Definition bind_out : Type := EFI_STATUS * option VNET_DEV.
Definition FreeVirtioNet (Status : EFI_STATUS) : M st bind_out := FreePool;; mret (Status, None).
Definition CloseVirtIo (Status : EFI_STATUS) : M st bind_out := CloseProtocol;; FreeVirtioNet Status.
Definition Evacuate (Status : EFI_STATUS) : M st bind_out := VirtioNetSnpEvacuate;; CloseVirtIo Status.
Definition FreeMacDevicePath (Status : EFI_STATUS) : M st bind_out := FreePool;; Evacuate Status.
Definition UninstallMultiple (Status : EFI_STATUS) : M st bind_out := _ ← UninstallInterface; FreeMacDevicePath Status.

Definition VirtioNetDriverBindingStart : M st bind_out :=
  ok ← vcall bs_AllocateZeroPool;
  if negb ok then mret (EFI_OUT_OF_RESOURCES, None) else
  Hold 1 0 0 0;;
  Status ← OpenByDriver;
  if EFI_ERROR Status then FreeVirtioNet Status else
  r ← VirtioNetSnpPopulate zero_dev;
  let '(Status, Dev) := r in
  if EFI_ERROR Status then CloseVirtIo Status else
  Status ← vcall gbs_GetDevicePath;
  if EFI_ERROR Status then Evacuate Status else
  ok ← vcall gbs_AppendDevicePathNode;
  if negb ok then Evacuate EFI_OUT_OF_RESOURCES else
  Hold 1 0 0 0;;
  Status ← InstallInterface;
  if EFI_ERROR Status then FreeMacDevicePath Status else
  Status ← vcall gbs_OpenByChild;
  if EFI_ERROR Status then UninstallMultiple Status else
  Hold 0 1 0 0;;
  mret (EFI_SUCCESS, Some Dev).

(** [Dev]: the child's, when there is one. *)
Definition VirtioNetDriverBindingStop (NumberOfChildren : Z) (Dev : VNET_DEV) : M st EFI_STATUS :=
  if 0 <? NumberOfChildren then
    ASSERT (NumberOfChildren =? 1);;
    Status ← vcall gbs_GetSnp;
    ASSERT (negb (EFI_ERROR Status));;
    if negb (bool_decide (State (Snm Dev) = EfiSimpleNetworkStopped)) then mret EFI_DEVICE_ERROR
    else
      CloseProtocol;;
      _ ← UninstallInterface;
      FreePool;;
      VirtioNetSnpEvacuate;;
      FreePool;;
      mret Status
  else CloseProtocol;; mret EFI_SUCCESS.
End VirtioNet.
