(* ===== verification/VirtioNetRings.v ===== *)
(** * VirtioNetDxe: rings and descriptor layout *)
From S2P Require Import Prelude Bytes Memory OrderedCollection Virtio VirtioProofs VirtioDriver VirtioNet.

(** A write, then reads of single fields. *)
Ltac read_back := rewrite ?mem_get_set_disjoint by (rewrite length_le_split; lia);
  first [reflexivity | apply (le_read_write _ _ 8); (lia || done) | apply (le_read_write _ _ 4); (lia || done) | apply (le_read_write _ _ 2); (lia || done)].

Section Rings.
Context {W : Type} {V : VirtIo W} {VL : VirtIoLaws W}.
Implicit Types s : st (W:=W).

(** ** Memory accesses in normal form *)
Lemma wp_at_bytes a n (Q : list Z -> st -> Prop) s w m P X es :
  in_pages P a n = true -> Q (mem_get m a n) (at_ s w m P X es) -> wp (read_bytes a n) Q (at_ s w m P X es).
Proof. intros E HQ. unfold read_bytes. wp_steps. cbn [Pages at_]. by rewrite E. Qed.

(** ** VirtioNetInitRing *)
Definition ring_failed s P X (out : ring_out) s' : Prop :=
  EFI_ERROR out.1.1 = true /\ exists w' m' es', s' = at_ s w' m' P X es'.

Lemma net_ReleaseQueue_spec r map St s w m P X es :
  EFI_ERROR St = true -> P !! Base r = None ->
  wp (ReleaseQueue r map St) (ring_failed s P X) (at_ s w m (<[Base r := NumPages r]> P) X es).
Proof.
  intros HE HP. unfold ReleaseQueue, VirtioRingUninit. wp_step. wp_step.
  eapply wp_at_Free; [apply lookup_insert_eq|]. intros w' m'. rewrite delete_insert_id by done. wp_steps.
  split; [done|]. eauto.
Qed.
Lemma net_UnmapQueue_spec r tok x map St s w m P X es :
  EFI_ERROR St = true -> P !! Base r = None -> X !! tok = None ->
  wp (UnmapQueue r tok map St) (ring_failed s P X)
    (at_ s w m (<[Base r := NumPages r]> P) (<[tok := x]> X) es).
Proof.
  intros HE HP HX. unfold UnmapQueue. wp_step. eapply wp_at_Unmap; [apply lookup_insert_eq|].
  intros U w' m'. rewrite delete_insert_id by done. by apply net_ReleaseQueue_spec.
Qed.

Definition ring_up s P X (out : ring_out) s' : Prop :=
  let r := out.1.2 in
  out.1.1 = EFI_SUCCESS /\ 2 <= QueueSize r /\ ring_ok r (<[Base r := NumPages r]> P) /\
  P !! Base r = None /\ disjoint_from P (Base r) (NumPages r) /\ X !! out.2 = None /\
  exists w' m' x es', s' = at_ s w' m' (<[Base r := NumPages r]> P) (<[out.2 := x]> X) es'.

Lemma VirtioNetInitRing_spec sel r0 map0 s w m P X es :
  wp (VirtioNetInitRing sel r0 map0) (fun out s' => ring_failed s P X out s' \/ ring_up s P X out s')
    (at_ s w m P X es).
Proof.
  unfold VirtioNetInitRing.
  assert (forall St r w' m' es', EFI_ERROR St = true ->
    ring_failed s P X (St, r, map0) (at_ s w' m' P X es')) as Hfail by (intros; split; [done|eauto]).
  apply wp_at_try; [intros; wp_steps; auto|]. intros w1 m1.
  wp_step. unfold GetQueueNumMax. rewrite wp_vcall. cbn [Env Mem at_].
  destruct (vio_GetQueueNumMax w1 m1) as [[[St Q] m2] w2] eqn:EQ.
  pose proof (GetQueueNumMax_u16 _ _ _ _ _ _ EQ) as HQ. clear EQ.
  change (set_world w2 m2 (at_ s w1 m1 P X es)) with (at_ s w2 m2 P X es).
  destruct (EFI_ERROR St) eqn:HE; [wp_steps; auto|].
  destruct (Z.ltb_spec Q 2) as [|HQ2]; [wp_steps; auto|].
  wp_step. apply wp_at_RingInit; [unfold is_u16 in HQ; lia|..].
  { intros St2 r w3 m3 HE2. cbn beta iota. rewrite HE2. wp_steps. auto. }
  intros r w3 m3 HrQ Hr HP Hdis Hz. cbn beta iota. change (EFI_ERROR EFI_SUCCESS) with false. cbn iota.
  wp_step. apply wp_at_RingMap; [done|..].
  { intros St3 d t w4 m4 l HE3. cbn beta iota. rewrite HE3.
    eapply wp_mono; [by apply net_ReleaseQueue_spec|]. auto. }
  intros dev tok n w4 m4 HX Hn. cbn beta iota. change (EFI_ERROR EFI_SUCCESS) with false. cbn iota.
  assert (forall St w' m' es', EFI_ERROR St = true ->
    wp (UnmapQueue r tok map0 St) (fun out s' => ring_failed s P X out s' \/ ring_up s P X out s')
      (at_ s w' m' (<[Base r := NumPages r]> P)
        (<[tok := (VirtioOperationBusMasterCommonBuffer, Base r, n, dev)]> X) es')) as Hunmap.
  { intros. eapply wp_mono; [by apply net_UnmapQueue_spec|]. auto. }
  apply wp_at_try; [auto|]. intros w5 m5. apply wp_at_try; [auto|]. intros w6 m6.
  apply wp_at_tell_try; [auto|]. intros w7 m7. wp_steps. right. unfold ring_up. cbn [fst snd].
  split_and!; try done; [lia|]. eauto 10.
Qed.

Lemma VirtioNetUninitRing_spec r tok s w m P X x es (Q : VRING -> st -> Prop) :
  P !! Base r = Some (NumPages r) -> X !! tok = Some x ->
  (forall w' m' es', Q zero_vring (at_ s w' m' (delete (Base r) P) (delete tok X) es')) ->
  wp (VirtioNetUninitRing r tok) Q (at_ s w m P X es).
Proof.
  intros HP HX HQ. unfold VirtioNetUninitRing, VirtioRingUninit. wp_step. eapply wp_at_Unmap; [done|].
  intros U w1 m1. wp_step. eapply wp_at_Free; [done|]. intros w2 m2. wp_steps. apply HQ.
Qed.

(** ** Sizes *)
Lemma MaxPending_bounds r P :
  ring_ok r P -> 2 <= QueueSize r -> 1 <= MaxPending r <= VNET_MAX_PENDING /\ 2 * MaxPending r <= QueueSize r.
Proof.
  intros Hr HQ. pose proof (ro_queue _ _ Hr). unfold MaxPending, VNET_MAX_PENDING, u16.
  rewrite Z.mod_small by lia_div. lia_div.
Qed.
Lemma NetReqSize_cases : NetReqSize = 10 \/ NetReqSize = 12.
Proof. unfold NetReqSize. destruct (_ <? _); auto. Qed.

(** ** The chains of the transmit queue

    Packet [i] uses descriptors [2i], the shared request header, and [2i + 1],
    the packet, which is filled in later. *)
Definition tx_chain (m : memory) (r : VRING) (addr size i : Z) : Prop :=
  desc_at m r (2 * i) = (addr, size, VRING_DESC_F_NEXT, 2 * i + 1) /\
  (desc_at m r (2 * i + 1)).1.2 = 0.

Definition tx_heads (max : Z) : list Z := (fun i => 2 * i) <$> seqZ 0 max.

Lemma tx_step {A} r addr size i (k : M st A) s w m P X es (Q : A -> st -> Prop) :
  ring_ok r P -> 0 <= i -> 2 * i + 2 <= QueueSize r -> is_u64 addr -> is_u32 size ->
  (forall m', tx_chain m' r addr size i ->
     (forall x, ~ (desc_addr r (2 * i) <= x < desc_addr r (2 * i + 2)) -> m' x = m x) ->
     wp k Q (at_ s w m' P X es)) ->
  let p := Desc r + SIZEOF_DESC * (2 * i) in
  wp (write_le p 8 addr;; write_le (p + 8) 4 size;; write_le (p + 12) 2 VRING_DESC_F_NEXT;;
      write_le (p + 14) 2 (2 * i + 1);; write_le (p + SIZEOF_DESC + 12) 2 0;; k) Q (at_ s w m P X es).
Proof.
  intros Hr Hi HiQ Ha Hs HQ p. pose proof (ro_queue _ _ Hr) as HQ16. unfold is_u64, is_u32 in *.
  assert (forall k n, 0 <= k -> k + n <= 32 -> in_pages P (p + k) n = true) as Hin.
  { intros k' n Hk Hn. subst p. destruct (ro_layout _ _ Hr). unfold SIZEOF_DESC, SIZEOF_USED_ELEM in *.
    apply (ring_part r); [done|lia|lia]. }
  unfold SIZEOF_DESC in *.
  wp_step. apply wp_at_write; [rewrite <-(Z.add_0_r p); apply Hin; lia|].
  wp_step. apply wp_at_write; [apply Hin; lia|]. wp_step. apply wp_at_write; [apply Hin; lia|].
  wp_step. apply wp_at_write; [apply Hin; lia|].
  wp_step. apply wp_at_write; [rewrite <-Z.add_assoc; apply Hin; lia|]. apply HQ.
  - unfold tx_chain, desc_at, desc_addr, SIZEOF_DESC, VRING_DESC_F_NEXT. cbn [fst snd].
    replace (Desc r + 16 * (2 * i)) with p by done.
    replace (Desc r + 16 * (2 * i + 1)) with (p + 16) by (unfold p; lia).
    split; [repeat f_equal|]; read_back.
  - unfold desc_addr, SIZEOF_DESC. intros x Hx. rewrite !mem_set_outside by (rewrite length_le_split; lia). done.
Qed.

Lemma tx_chain_ext m m' r addr size i :
  (forall x, desc_addr r (2 * i) <= x < desc_addr r (2 * i + 2) -> m' x = m x) ->
  tx_chain m r addr size i -> tx_chain m' r addr size i.
Proof.
  unfold desc_addr, SIZEOF_DESC. intros Hm [H1 H2]. unfold tx_chain.
  rewrite !(desc_at_ext m' m); [done|unfold desc_addr, SIZEOF_DESC; intros; apply Hm; lia..].
Qed.

Lemma LayOutTx_spec r addr size s w P X es (k : nat) j m (Q : list Z -> st -> Prop) :
  ring_ok r P -> 0 <= j -> 2 * (j + Z.of_nat k) <= QueueSize r -> is_u64 addr -> is_u32 size ->
  (forall m', (forall i, j <= i < j + Z.of_nat k -> tx_chain m' r addr size i) ->
     (forall x, ~ (desc_addr r (2 * j) <= x < desc_addr r (2 * (j + Z.of_nat k))) -> m' x = m x) ->
     Q ((fun i => 2 * i) <$> seqZ j (Z.of_nat k)) (at_ s w m' P X es)) ->
  wp (LayOutTx r addr size (seqZ j (Z.of_nat k))) Q (at_ s w m P X es).
Proof.
  intros Hr Hj Hk Ha Hs. revert j m Q Hj Hk. induction k as [|k IH]; intros j m Q Hj Hk HQ.
  - rewrite seqZ_nil by lia. cbn [LayOutTx]. wp_step. apply (HQ m); [lia|done].
  - rewrite seqZ_cons in HQ |- * by lia. replace (Z.pred (Z.of_nat (S k))) with (Z.of_nat k) in * by lia.
    replace (Z.succ j) with (j + 1) in * by lia. cbn [LayOutTx].
    pose proof (ro_queue _ _ Hr) as HQ16.
    assert (2 * j + 2 <= QueueSize r) as Hj2 by lia.
    assert (u16 (2 * j) = 2 * j) as E1 by (unfold u16; apply Z.mod_small; lia).
    assert (u16 (2 * j + 1) = 2 * j + 1) as E2 by (unfold u16; apply Z.mod_small; lia).
    assert (u32 size = size) as E3 by (unfold u32; by apply Z.mod_small).
    cbv zeta. rewrite E1, E2, E3. apply tx_step; try done. intros m1 Hc Ho.
    wp_step. apply IH; [lia..|]. intros m2 Hc2 Ho2. wp_step. unfold desc_addr, SIZEOF_DESC in *. apply HQ.
    + intros i Hi. destruct (decide (i = j)) as [->|]; [|apply Hc2; lia].
      eapply tx_chain_ext; [|exact Hc]. unfold desc_addr, SIZEOF_DESC. intros x Hx. apply Ho2. lia.
    + intros x Hx. rewrite Ho2, Ho by lia. done.
Qed.

(** ** The chains of the receive queue

    Packet [i] uses descriptors [2i], for the request header, and [2i + 1],
    for the data, in consecutive parts of the receive buffer. *)
Definition rx_addr (base req data i : Z) : Z := u64 (base + i * (req + data)).
Definition rx_chain (m : memory) (r : VRING) (base req data i : Z) : Prop :=
  desc_at m r (2 * i) =
    (rx_addr base req data i, req, Z.lor VRING_DESC_F_WRITE VRING_DESC_F_NEXT, 2 * i + 1) /\
  (desc_at m r (2 * i + 1)).1 = (u64 (rx_addr base req data i + req), data, VRING_DESC_F_WRITE) /\
  u16_at m (Avail_Ring r + 2 * i) = 2 * i.

Lemma u64_range x : is_u64 (u64 x).
Proof. unfold is_u64, u64. lia_div. Qed.
Lemma rx_addr_next base req data i :
  u64 (u64 (rx_addr base req data i + req) + data) = rx_addr base req data (i + 1).
Proof.
  unfold rx_addr, u64. rewrite Z.add_mod_idemp_l, <-Z.add_assoc, Z.add_mod_idemp_l by lia. f_equal. lia.
Qed.

(** What one step of LayOutRx writes, and where. *)
Definition rx_touched (r : VRING) (i k x : Z) : Prop :=
  desc_addr r (2 * i) <= x < desc_addr r (2 * k) \/ Avail_Ring r + 2 * i <= x < Avail_Ring r + 2 * k.

Lemma rx_step {A} r base req data i (k : Z -> Z -> M st A) s w m P X es (Q : A -> st -> Prop) :
  ring_ok r P -> 0 <= i -> 2 * i + 2 <= QueueSize r -> is_u32 req -> is_u32 data ->
  (forall m', rx_chain m' r base req data i -> (forall x, ~ rx_touched r i (i + 1) x -> m' x = m x) ->
     wp (k req data) Q (at_ s w m' P X es)) ->
  let p := Desc r + SIZEOF_DESC * (2 * i) in
  let q := Desc r + SIZEOF_DESC * (2 * i + 1) in
  wp (write_le (Avail_Ring r + 2 * i) 2 (2 * i);;
      write_le p 8 (rx_addr base req data i);; write_le (p + 8) 4 req;;
      write_le (p + 12) 2 (Z.lor VRING_DESC_F_WRITE VRING_DESC_F_NEXT);; write_le (p + 14) 2 (2 * i + 1);;
      n ← read_le (p + 8) 4;
      write_le q 8 (u64 (rx_addr base req data i + n));; write_le (q + 8) 4 data;;
      write_le (q + 12) 2 VRING_DESC_F_WRITE;;
      n' ← read_le (q + 8) 4; k n n') Q (at_ s w m P X es).
Proof.
  intros Hr Hi HiQ Hs Hd HQ p q. pose proof (ro_queue _ _ Hr) as HQ16. unfold is_u32 in *.
  destruct (ro_layout _ _ Hr) as [L1 L2 L3 L4 L5 L6 L7 L8 L9 L10 L11 L12].
  pose proof (u64_range (base + i * (req + data))) as Ha. pose proof (u64_range (rx_addr base req data i + req)) as Ha'.
  change (u64 (base + i * (req + data))) with (rx_addr base req data i) in Ha. unfold is_u64 in *.
  assert (forall k n, 0 <= k -> k + n <= 32 -> in_pages P (p + k) n = true) as Hin.
  { intros k' n Hk Hn. subst p. unfold SIZEOF_DESC, SIZEOF_USED_ELEM in *. apply (ring_part r); [done|lia|lia]. }
  assert (q = p + 16) as Eq by (unfold p, q, SIZEOF_DESC; lia). rewrite Eq.
  assert (in_pages P (Avail_Ring r + 2 * i) 2 = true) as Hav by (apply avail_part; [done|lia]).
  assert (p + 32 <= Avail_Ring r) as Hsep by (unfold p, SIZEOF_DESC in *; lia).
  wp_step. apply wp_at_write; [done|].
  wp_step. apply wp_at_write; [rewrite <-(Z.add_0_r p); apply Hin; lia|].
  wp_step. apply wp_at_write; [apply Hin; lia|]. wp_step. apply wp_at_write; [apply Hin; lia|].
  wp_step. apply wp_at_write; [apply Hin; lia|].
  wp_step. apply wp_at_read; [apply Hin; lia|].
  match goal with |- context [u64 (_ + ?n)] => assert (n = req) as -> by read_back end.
  wp_step. apply wp_at_write; [apply Hin; lia|].
  rewrite <-!Z.add_assoc. change (16 + 8) with 24. change (16 + 12) with 28.
  wp_step. apply wp_at_write; [apply Hin; lia|]. wp_step. apply wp_at_write; [apply Hin; lia|].
  wp_step. apply wp_at_read; [apply Hin; lia|].
  match goal with |- wp (k _ ?n) _ _ => assert (n = data) as -> by read_back end.
  apply HQ.
  - unfold rx_chain, desc_at, desc_addr, u16_at, SIZEOF_DESC, VRING_DESC_F_NEXT, VRING_DESC_F_WRITE. cbn [fst snd].
    replace (Desc r + 16 * (2 * i)) with p by done.
    replace (Desc r + 16 * (2 * i + 1)) with (p + 16) by (unfold p, SIZEOF_DESC; lia).
    rewrite <-!(Z.add_assoc p 16). change (16 + 8) with 24. change (16 + 12) with 28.
    change (Z.lor 2 1) with 3. split_and!; repeat f_equal; read_back.
  - unfold rx_touched, desc_addr, SIZEOF_DESC in *. intros x Hx.
    rewrite !mem_set_outside by (rewrite length_le_split; lia). done.
Qed.

Lemma rx_chain_ext m m' r base req data i :
  (forall x, rx_touched r i (i + 1) x -> m' x = m x) -> rx_chain m r base req data i -> rx_chain m' r base req data i.
Proof.
  intros Hm (H1 & H2 & H3). unfold rx_touched, desc_addr, SIZEOF_DESC, u16_at in *. unfold rx_chain, u16_at.
  rewrite !(desc_at_ext m' m), (mem_get_ext m' m); [done|unfold desc_addr, SIZEOF_DESC; intros; apply Hm; lia..].
Qed.

Lemma LayOutRx_spec r base req data s w P X es (k : nat) j m (Q : unit -> st -> Prop) :
  ring_ok r P -> 0 <= j -> 2 * (j + Z.of_nat k) <= QueueSize r -> is_u32 req -> is_u32 data ->
  (forall m', (forall i, j <= i < j + Z.of_nat k -> rx_chain m' r base req data i) ->
     (forall x, ~ rx_touched r j (j + Z.of_nat k) x -> m' x = m x) ->
     Q tt (at_ s w m' P X es)) ->
  wp (LayOutRx r req data (2 * j) (rx_addr base req data j) (seqZ j (Z.of_nat k))) Q (at_ s w m P X es).
Proof.
  intros Hr Hj Hk Ha Hs. revert j m Q Hj Hk. induction k as [|k IH]; intros j m Q Hj Hk HQ.
  - rewrite seqZ_nil by lia. cbn [LayOutRx]. wp_step. apply (HQ m); [lia|done].
  - rewrite seqZ_cons by lia. replace (Z.pred (Z.of_nat (S k))) with (Z.of_nat k) in * by lia.
    replace (Z.succ j) with (j + 1) in * by lia. cbn [LayOutRx].
    pose proof (ro_queue _ _ Hr) as HQ16. unfold is_u32 in *.
    assert (u16 (2 * j + 1) = 2 * j + 1) as E2 by (unfold u16; apply Z.mod_small; lia).
    assert (u16 (2 * j + 1 + 1) = 2 * (j + 1)) as E1 by (unfold u16; rewrite Z.mod_small; lia).
    assert (u32 req = req) as E3 by (unfold u32; apply Z.mod_small; lia).
    assert (u32 data = data) as E4 by (unfold u32; apply Z.mod_small; lia).
    cbv zeta. rewrite E2, E3, E4.
    apply (rx_step r base req data j (fun n n' => LayOutRx r req data (u16 (2 * j + 1 + 1))
       (u64 (u64 (rx_addr base req data j + n) + n')) (seqZ (j + 1) (Z.of_nat k)))); try done; [lia|].
    intros m1 Hc Ho. rewrite rx_addr_next, E1. apply IH; [lia..|]. intros m2 Hc2 Ho2.
    destruct (ro_layout _ _ Hr). unfold rx_touched, desc_addr, SIZEOF_DESC in *. apply HQ.
    + intros i Hi. destruct (decide (i = j)) as [->|]; [|apply Hc2; lia].
      eapply rx_chain_ext; [|exact Hc].
      unfold rx_touched, desc_addr, SIZEOF_DESC. intros x Hx. apply Ho2. lia.
    + intros x Hx. rewrite Ho2, Ho by lia. done.
Qed.
End Rings.
