(* ===== verification/VirtioNetInit.v ===== *)
(** * VirtioNetDxe: bring-up and shutdown *)
From S2P Require Import Prelude Bytes Memory OrderedCollection Virtio VirtioProofs VirtioDriver VirtioNet VirtioNetRings.

(** The sizes that VirtioNetSnpPopulate sets, and that never change. *)
Definition snm_ok (m : EFI_SIMPLE_NETWORK_MODE) : Prop := MediaHeaderSize m = 14 /\ MaxPacketSize m = 1500.

Section Init.
Context {W : Type} {V : VirtIo W} {VL : VirtIoLaws W} {BS : BootServices W} {NS : NetServices W}.
Context {OC : OrderedCollection Z TX_BUF_MAP_INFO W CompareAddress} {OL : OrderedCollectionLaws OC}.
Implicit Types (s : st (W:=W)) (Dev : VNET_DEV (OC:=OC)).

Lemma wpe_at_self {A} (f : M st A) Q E s :
  wpe f Q E (at_ s (Env s) (Mem s) (Pages s) (Maps s) []) -> wpe f Q E s.
Proof. by rewrite <-at_self. Qed.

(** ** Pool objects *)
Lemma wp_at_pool (Q : bool -> st -> Prop) s w m P X es :
  (forall w', Q false (at_ s w' m P X es)) -> (forall w', Q true (at_ (add_held 1 0 0 0 s) w' m P X es)) ->
  wp AllocatePool Q (at_ s w m P X es).
Proof.
  intros HF HT. unfold AllocatePool. wp_step. rewrite wp_vcall. cbn [Env Mem at_].
  destruct (gbs_AllocatePool w) as [ok w']. wp_step. change (set_world w' m (at_ s w m P X es)) with (at_ s w' m P X es).
  destruct ok; [apply wp_at_Hold|]; wp_steps; auto.
Qed.
Lemma wp_at_free_pool (Q : unit -> st -> Prop) s w m P X es :
  Q tt (at_ (add_held (-1) 0 0 0 s) w m P X es) -> wp FreePool Q (at_ s w m P X es).
Proof. apply wp_at_Hold. Qed.
Lemma wp_at_collection (Q : option (oc OC) -> st -> Prop) s w m P X es :
  (forall w', Q None (at_ s w' m P X es)) ->
  (forall c w', oc_wf c -> oc_entries c = [] -> Q (Some c) (at_ (add_held 1 0 0 0 s) w' m P X es)) ->
  wp OrderedCollectionInit Q (at_ s w m P X es).
Proof.
  intros HN HS. unfold OrderedCollectionInit. wp_step. rewrite wp_vcall. cbn [Env Mem at_].
  destruct (oc_init w) as [[c|] w'] eqn:E; cbn beta iota; wp_step;
    change (set_world w' m (at_ s w m P X es)) with (at_ s w' m P X es).
  - apply oc_init_spec in E as [H1 H2]. apply wp_at_Hold. wp_step. by apply HS.
  - wp_steps. apply HN.
Qed.
(** Taken and given back. *)
Lemma held_cancel n k s : n + k = 0 -> add_held k 0 0 0 (add_held n 0 0 0 s) = s.
Proof. intros H. rewrite add_held_add, H. apply add_held_0. Qed.

Definition same_but_tx Dev Dev' : Prop :=
  Snm Dev' = Snm Dev /\ Rx Dev' = Rx Dev /\ TxRing (Tx Dev') = TxRing (Tx Dev) /\ TxRingMap (Tx Dev') = TxRingMap (Tx Dev).

(** ** VirtioNetInitTx *)
Definition tx_failed s P X Dev (out : net_out) s' : Prop :=
  EFI_ERROR out.1 = true /\ same_but_tx Dev out.2 /\ restored s P X s'.

(** The queue is laid out when the function returns. *)
Definition tx_ready s P X Dev (out : net_out (OC:=OC)) s' : Prop :=
  out.1 = EFI_SUCCESS /\ exists c Buffer Map addr n w' m' es',
    let r := TxRing (Tx Dev) in
    out.2 = set_tx (mkTx r (TxRingMap (Tx Dev)) (MaxPending r) 0 (tx_heads (MaxPending r)) Buffer Map 0 (Some c)) Dev /\
    oc_wf c /\ oc_entries c = [] /\
    P !! Buffer = None /\ disjoint_from P Buffer 1 /\ X !! Map = None /\
    s' = at_ (add_held 2 0 0 0 s) w' m' (<[Buffer := 1]> P)
           (<[Map := (VirtioOperationBusMasterCommonBuffer, Buffer, n, addr)]> X) es' /\
    (forall i, 0 <= i < MaxPending r -> tx_chain m' r addr NetReqSize i) /\
    m' Buffer = 0 /\ m' (Buffer + Off_GsoType) = VIRTIO_NET_HDR_GSO_NONE /\ u16_at m' (Buffer + Off_NumBuffers) = 0 /\
    u16_at m' (Avail_Flags r) = VRING_AVAIL_F_NO_INTERRUPT.

(** Other pages are entirely before or after the ring. *)
Lemma page_ring_apart r P b n :
  ring_ok r P -> disjoint_from P b n ->
  (b + EFI_PAGE_SIZE * n <= Desc r \/ Used_AvailEvent r + 2 <= b) /\
  Desc r <= Desc r + SIZEOF_DESC * QueueSize r <= Avail_Flags r /\ Avail_Flags r + 2 <= Used_AvailEvent r.
Proof.
  intros Hr Hd. destruct (ro_layout _ _ Hr). destruct (Hd _ _ (ro_pages _ _ Hr)).
  pose proof (ro_queue _ _ Hr). unfold SIZEOF_DESC, SIZEOF_USED_ELEM in *. lia.
Qed.

Lemma VirtioNetInitTx_spec Dev s w m P X es :
  ring_ok (TxRing (Tx Dev)) P -> 2 <= QueueSize (TxRing (Tx Dev)) ->
  wpe (VirtioNetInitTx Dev) (fun out s' => tx_failed s P X Dev out s' \/ tx_ready s P X Dev out s') asserted
    (at_ s w m P X es).
Proof.
  intros Hr HQ2. unfold VirtioNetInitTx. cbv zeta. set (r := TxRing (Tx Dev)) in *.
  destruct (MaxPending_bounds r P Hr HQ2) as [Hmax HmaxQ].
  match goal with |- context [FreeTxFreeStack ?D] => remember D as Dev1 eqn:EDev1 end.
  assert (same_but_tx Dev Dev1) as Hsame by (by rewrite EDev1).
  assert (forall St w' m' es', EFI_ERROR St = true -> tx_failed s P X Dev (St, Dev1) (at_ s w' m' P X es')) as Hfail.
  { intros. split; [done|]. split; [done|]. eexists _, _, _. reflexivity. }
  assert (forall St w' m' es', EFI_ERROR St = true ->
    wp (FreeTxFreeStack Dev1 St) (fun out s' => tx_failed s P X Dev out s')
      (at_ (add_held 1 0 0 0 s) w' m' P X es')) as Hstack.
  { intros. unfold FreeTxFreeStack. wp_step. apply wp_at_free_pool. rewrite held_cancel by done. wp_step. auto. }
  apply wpe_bind_wp, wp_at_pool; [intros; left; by apply Hfail|]. intros w1. cbn [negb].
  apply wpe_bind_wp, wp_at_collection.
  { intros. apply wp_wpe. eapply wp_mono; [by apply Hstack|]. auto. }
  intros c w2 Hwf He. rewrite add_held_add. change (add_held (1 + 1) _ _ _ s) with (add_held 2 0 0 0 s).
  assert (forall St w' m' es', EFI_ERROR St = true ->
    wp (UninitTxBufCollection c Dev1 St) (fun out s' => tx_failed s P X Dev out s')
      (at_ (add_held 2 0 0 0 s) w' m' P X es')) as Huninit.
  { intros. unfold UninitTxBufCollection, OrderedCollectionUninit. wp_step. wp_step. wp_step.
    - by rewrite He.
    - apply wp_at_free_pool. rewrite add_held_add. by apply Hstack. }
  apply wpe_bind_wp, wp_at_Pages.
  { intros. cbn beta iota. rewrite H. apply wp_wpe. eapply wp_mono; [by apply Huninit|]. auto. }
  intros St Buffer w3 m3 _ HSt HB0 HBal HBend HBd _. cbn beta iota. rewrite HSt.
  change (EFI_SIZE_TO_PAGES SIZEOF_1_0_NET_REQ) with 1 in *.
  pose proof (fresh_not_live _ _ _ HBd) as HBP.
  assert (ring_ok r (<[Buffer := 1]> P)) as Hr' by (by apply ring_ok_insert).
  assert (forall k n, 0 <= k -> k + n <= 12 -> in_pages (<[Buffer := 1]> P) (Buffer + k) n = true) as Hin.
  { intros k n Hk Hn. eapply in_pages_intro; [apply lookup_insert_eq|]. unfold page_range, EFI_PAGE_SIZE. lia. }
  pose proof (Hin 0 12 ltac:(lia) ltac:(lia)) as Hin0. pose proof (Hin 0 1 ltac:(lia) ltac:(lia)) as Hin1.
  rewrite Z.add_0_r in Hin0, Hin1.
  apply wpe_bind_wp, wp_at_write_mem; [exact Hin0|].
  apply wpe_bind_wp, wp_at_Map.
  { intros St' dev tok w' m' l HE _. cbn beta iota. rewrite HE. unfold FreeTxSharedReqBuffer. apply wp_wpe.
    wp_step. eapply wp_at_Free; [apply lookup_insert_eq|]. intros. rewrite delete_insert_id by done.
    eapply wp_mono; [by apply Huninit|]. auto. }
  intros addr tok n w4 m4 HX Haddr _. cbn beta iota. change (EFI_ERROR EFI_SUCCESS) with false. cbn iota.
  destruct (flags_part _ _ Hr') as (Hfl & _ & Hui).
  assert (is_u32 NetReqSize) as Hsz by (destruct NetReqSize_cases as [-> | ->]; done).
  rewrite <-(Z2Nat.id (MaxPending r)) at 1 by lia. apply wpe_bind_wp.
  apply LayOutTx_spec; [done|lia|lia|done|done|]. intros m5 Hc _. rewrite Z2Nat.id in * by lia.
  change (0 + MaxPending r) with (MaxPending r) in Hc.
  apply wpe_bind_wp, wp_at_write; [exact Hin1|].
  apply wpe_bind_wp, wp_at_write; [apply Hin; unfold Off_GsoType; lia|].
  apply wpe_bind_wp, wp_at_write; [apply Hin; unfold Off_NumBuffers; lia|].
  apply wpe_bind_wp, wp_at_read; [exact Hui|]. match goal with |- wpe (ASSERT (?n =? 0) ;; _) _ _ _ => remember n as used end.
  apply wpe_bind, wpe_ASSERT; [done|]. intros Hu%Z.eqb_eq. rewrite Hu.
  apply wpe_bind_wp, wp_at_write; [exact Hfl|]. apply wp_wpe. wp_step. right. split; [done|].
  destruct (page_ring_apart _ _ _ _ Hr HBd) as (Hap & Hap1 & Hap2).
  unfold Off_GsoType, Off_NumBuffers, EFI_PAGE_SIZE in *.
  exists c, Buffer, tok, addr, n, w4. eexists _, _. cbv zeta. fold r.
  split; [rewrite EDev1; unfold tx_heads; done|]. split_and!; try done.
  - intros i Hi. eapply tx_chain_ext; [|apply Hc; lia]. intros x Hx.
    unfold desc_addr, SIZEOF_DESC, Off_GsoType, Off_NumBuffers in *.
    rewrite !mem_set_outside by (rewrite length_le_split; lia). done.
  - rewrite 3!(mem_set_outside _ _ _ Buffer), mem_set_inside by (rewrite length_le_split; lia).
    by rewrite Z.sub_diag.
  - rewrite 2!(mem_set_outside _ _ _ (Buffer + 1)), mem_set_inside by (rewrite length_le_split; lia).
    by rewrite Z.sub_diag.
  - unfold u16_at. read_back.
  - read_back.
Qed.

(** ** VirtioNetInitRx *)
Definition same_but_rx Dev Dev' : Prop :=
  Snm Dev' = Snm Dev /\ Tx Dev' = Tx Dev /\ RxRing (Rx Dev') = RxRing (Rx Dev) /\ RxRingMap (Rx Dev') = RxRingMap (Rx Dev).
Definition rx_failed s P X Dev (out : net_out) s' : Prop :=
  EFI_ERROR out.1 = true /\ same_but_rx Dev out.2 /\ restored s P X s'.

Definition rx_bytes (r : VRING) : Z := MaxPending r * (NetReqSize + 1514).

(** The memory [mn] at the notification that hands the whole queue to the
    host. *)
Definition rx_offered (mn : memory) (r : VRING) (base : Z) : Prop :=
  (forall i, 0 <= i < MaxPending r -> rx_chain mn r base NetReqSize 1514 i) /\
  u16_at mn (Avail_Idx r) = MaxPending r /\ u16_at mn (Avail_Flags r) = VRING_AVAIL_F_NO_INTERRUPT.

Definition rx_ready s P X Dev (out : net_out (OC:=OC)) s' : Prop :=
  EFI_ERROR out.1 = false /\ exists Buffer Map base n pages mn w' m' es',
    let r := RxRing (Rx Dev) in
    out.2 = set_rx (mkRx r (RxRingMap (Rx Dev)) Buffer 0 pages base Map) Dev /\
    P !! Buffer = None /\ disjoint_from P Buffer pages /\ rx_bytes r <= EFI_PAGE_SIZE * pages /\
    0 <= Buffer /\ Buffer + EFI_PAGE_SIZE * pages <= MAX_ADDRESS /\ is_u64 base /\ X !! Map = None /\
    s' = at_ s w' m' (<[Buffer := pages]> P)
           (<[Map := (VirtioOperationBusMasterCommonBuffer, Buffer, n, base)]> X)
           (es' ++ [EvNotify VIRTIO_NET_Q_RX mn]) /\
    rx_offered mn r base.

Lemma rx_bytes_bounds r P :
  ring_ok r P -> 2 <= QueueSize r ->
  rx_bytes r <= EFI_PAGE_SIZE * EFI_SIZE_TO_PAGES (rx_bytes r) /\ 0 < rx_bytes r.
Proof.
  intros Hr HQ. destruct (MaxPending_bounds r P Hr HQ) as [Hm _]. unfold VNET_MAX_PENDING in Hm.
  unfold rx_bytes. destruct NetReqSize_cases as [-> | ->];
    (split; [apply EFI_SIZE_TO_PAGES_bound; unfold is_u32; lia|lia]).
Qed.

Lemma wp_at_notify q (Q : EFI_STATUS -> st -> Prop) s w m P X es :
  (forall St w' m', vio_SetQueueNotify q w m = (St, m', w') -> Q St (at_ s w' m' P X (es ++ [EvNotify q m]))) ->
  wp (SetQueueNotify q) Q (at_ s w m P X es).
Proof.
  intros HQ. unfold SetQueueNotify. wp_step. wp_step. wp_step. rewrite wp_tell, log_at, wp_vcall. cbn [Env Mem at_].
  destruct (vio_SetQueueNotify q w m) as [[St m'] w'] eqn:E. by apply HQ.
Qed.

Lemma VirtioNetInitRx_spec Dev s w m P X es :
  snm_ok (Snm Dev) -> ring_ok (RxRing (Rx Dev)) P -> 2 <= QueueSize (RxRing (Rx Dev)) ->
  wpe (VirtioNetInitRx Dev) (fun out s' => rx_failed s P X Dev out s' \/ rx_ready s P X Dev out s') asserted
    (at_ s w m P X es).
Proof.
  intros [HMH HMP] Hr HQ2. unfold VirtioNetInitRx. rewrite HMH, HMP. change (14 + 1500) with 1514. cbv zeta.
  remember (RxRing (Rx Dev)) as r eqn:Er. fold (rx_bytes r).
  destruct (MaxPending_bounds r P Hr HQ2) as [Hmax HmaxQ]. unfold VNET_MAX_PENDING in Hmax.
  destruct (rx_bytes_bounds r P Hr HQ2) as [Hpg Hpos]. set (pages := EFI_SIZE_TO_PAGES (rx_bytes r)) in *.
  apply wpe_bind_wp, wp_at_Pages.
  { intros. cbn beta iota. rewrite H. apply wp_wpe. wp_step. left. split; [done|]. split; [done|]. eexists _, _, _. reflexivity. }
  intros St Buffer w1 m1 _ HSt HB0 HBal HBend HBd _. cbn beta iota. rewrite HSt.
  pose proof (fresh_not_live _ _ _ HBd) as HBP.
  assert (ring_ok r (<[Buffer := pages]> P)) as Hr' by (by apply ring_ok_insert).
  apply wpe_bind_wp, wp_at_write_mem.
  { rewrite length_replicate, Z2Nat.id by lia. eapply in_pages_intro; [apply lookup_insert_eq|]. unfold page_range. lia. }
  assert (forall D St w' m' es', EFI_ERROR St = true -> same_but_rx Dev D ->
    wp (FreeSharedBuffer D pages Buffer St) (fun out s' => rx_failed s P X Dev out s')
      (at_ s w' m' (<[Buffer := pages]> P) X es')) as Hfree.
  { intros. unfold FreeSharedBuffer. wp_step. eapply wp_at_Free; [apply lookup_insert_eq|]. intros.
    rewrite delete_insert_id by done. wp_step. split; [done|]. split; [done|]. eexists _, _, _. reflexivity. }
  apply wpe_bind_wp, wp_at_Map.
  { intros St' dev tok w' m' l HE _. cbn beta iota. rewrite HE. apply wp_wpe.
    eapply wp_mono; [by apply Hfree|]. auto. }
  intros base tok n w2 m2 HX Hbase _. cbn beta iota. change (EFI_ERROR EFI_SUCCESS) with false. cbn iota.
  destruct (flags_part _ _ Hr') as (Hfl & Hai & Hui).
  apply wpe_bind_wp, wp_at_read; [exact Hui|]. match goal with |- wpe (ASSERT (?n =? 0) ;; _) _ _ _ => remember n as used end.
  apply wpe_bind, wpe_ASSERT; [done|]. intros Hu%Z.eqb_eq. rewrite Hu.
  apply wpe_bind_wp, wp_at_write; [exact Hfl|].
  assert (rx_addr base NetReqSize 1514 0 = base) as Ebase by (unfold rx_addr, u64; rewrite Z.mul_0_l, Z.add_0_r; by apply Z.mod_small).
  assert (is_u32 NetReqSize) as Hsz by (destruct NetReqSize_cases as [-> | ->]; done).
  replace (LayOutRx (W:=W) r NetReqSize 1514 0 base (seqZ 0 (MaxPending r))) with
    (LayOutRx (W:=W) r NetReqSize 1514 (2 * 0) (rx_addr base NetReqSize 1514 0) (seqZ 0 (Z.of_nat (Z.to_nat (MaxPending r)))))
    by (rewrite Z2Nat.id, Ebase by lia; done).
  apply wpe_bind_wp.
  apply LayOutRx_spec; [done|lia|lia|done|done|]. intros m3 Hc Ho. rewrite Z2Nat.id in * by lia.
  change (0 + MaxPending r) with (MaxPending r) in *.
  apply wpe_bind_wp, wp_at_write; [exact Hai|]. apply wp_wpe. wp_step. apply wp_at_notify. intros St3 w3 m4 _.
  destruct (EFI_ERROR St3) eqn:E3.
  { wp_step. apply wp_at_SetDeviceStatus. intros. unfold UnmapSharedRxBuffer. wp_step.
    eapply wp_at_Unmap; [apply lookup_insert_eq|]. intros. rewrite delete_insert_id by done.
    eapply wp_mono; [by apply Hfree|]. auto. }
  wp_step. right. split; [done|]. exists Buffer, tok, base, n, pages. eexists _, _, _, _. cbv zeta. rewrite <-Er.
  split; [done|]. split_and!; try done; [lia|].
  destruct (ro_layout _ _ Hr). unfold rx_touched, desc_addr, SIZEOF_DESC, SIZEOF_USED_ELEM in *. split_and!.
  - intros i Hi. eapply rx_chain_ext; [|by apply Hc].
    unfold rx_touched, desc_addr, SIZEOF_DESC. intros x Hx.
    apply mem_set_outside. rewrite length_le_split. lia.
  - unfold u16_at. apply (le_read_write _ _ 2). lia.
  - unfold u16_at. rewrite mem_get_set_disjoint by (rewrite length_le_split; lia).
    rewrite (mem_get_ext _ (mem_set m2 (Avail_Flags r) (le_split 2 VRING_AVAIL_F_NO_INTERRUPT))).
    + by apply (le_read_write _ _ 2).
    + intros x Hx. apply Ho. unfold rx_touched, desc_addr, SIZEOF_DESC. lia.
Qed.

(** ** VirtioNetShutdown *)
Definition bufmaps (c : oc OC) : list Z := (fun e => BufMap e.2) <$> oc_entries c.
(** Pool objects behind the transmit queue: the stack, the collection, and an
    object for each pending packet. *)
Definition tx_pool (c : oc OC) : Z := 2 + Z.of_nat (length (oc_entries c)).

Lemma ReleaseTxBufs_spec l c ts k s w m P X X' es (Q : oc OC -> st -> Prop) :
  holds X (((fun e => BufMap e.2) <$> l) ++ ts) X' ->
  (forall w' m' X'' es', holds X ts X'' ->
     Q (foldl (fun c e => oc_delete c e.1) c l) (at_ (add_held k 0 0 0 s) w' m' P X'' es')) ->
  wp (ReleaseTxBufs c l) Q (at_ (add_held (k + Z.of_nat (length l)) 0 0 0 s) w m P X' es).
Proof.
  revert c k w m X' es. induction l as [|[a info] l IH]; intros c k w m X' es HX HQ.
  - cbn [ReleaseTxBufs foldl length]. rewrite Z.add_0_r. wp_step. by apply HQ.
  - cbn [ReleaseTxBufs foldl]. csimpl in *. wp_step.
    destruct (holds_lookup _ _ _ (BufMap info) HX) as [x Hx]; [by left|].
    eapply wp_at_Unmap; [exact Hx|]. intros _ w1 m1. wp_step. apply wp_at_free_pool. rewrite add_held_add.
    replace (k + Z.of_nat (S (length l)) + -1) with (k + Z.of_nat (length l)) by lia.
    apply IH; [by apply holds_delete|done].
Qed.

Lemma VirtioNetShutdownTx_spec Dev c ts s w m P X X' es (Q : unit -> st -> Prop) :
  TxBufCollection (Tx Dev) = Some c -> oc_wf c -> P !! TxSharedReq (Tx Dev) = Some 1 ->
  holds X (TxSharedReqMap (Tx Dev) :: bufmaps c ++ ts) X' ->
  (forall w' m' X'' es', holds X ts X'' -> Q tt (at_ s w' m' (delete (TxSharedReq (Tx Dev)) P) X'' es')) ->
  wp (VirtioNetShutdownTx Dev) Q (at_ (add_held (tx_pool c) 0 0 0 s) w m P X' es).
Proof.
  intros Hc Hwf HP HX HQ. unfold VirtioNetShutdownTx, tx_pool. wp_step.
  destruct (holds_lookup _ _ _ (TxSharedReqMap (Tx Dev)) HX) as [x Hx]; [by left|].
  eapply wp_at_Unmap; [exact Hx|]. intros _ w1 m1. wp_step. eapply wp_at_Free; [exact HP|]. intros w2 m2.
  wp_step. rewrite wp_deref. exists c. split; [done|]. wp_step.
  eapply (ReleaseTxBufs_spec _ _ ts); [by apply holds_delete|]. intros w3 m3 X3 es3 HX3.
  wp_step. unfold OrderedCollectionUninit. wp_step. wp_step; [by rewrite oc_delete_all|].
  apply wp_at_free_pool. apply wp_at_free_pool. rewrite !add_held_add. change (2 + -1 + -1) with 0.
  rewrite add_held_0. by apply HQ.
Qed.

(** The queues and what the driver holds for them, while the interface is in
    state Initialized; [P] and [X] are the pages and mappings of others. *)
Record net_live (P : page_map) (X : gmap Z mapping) Dev (c : oc OC) (P' : page_map) (X' : gmap Z mapping) : Prop := {
  nl_collection : TxBufCollection (Tx Dev) = Some c;
  nl_wf : oc_wf c;
  nl_pages : overlay P [(RxBuf (Rx Dev), RxBufNrPages (Rx Dev)); (TxSharedReq (Tx Dev), 1);
    (Base (TxRing (Tx Dev)), NumPages (TxRing (Tx Dev))); (Base (RxRing (Rx Dev)), NumPages (RxRing (Rx Dev)))] P';
  nl_maps : holds X (RxBufMap (Rx Dev) :: TxSharedReqMap (Tx Dev) :: bufmaps c ++ [TxRingMap (Tx Dev); RxRingMap (Rx Dev)]) X';
  nl_rx : ring_ok (RxRing (Rx Dev)) P';
  nl_tx : ring_ok (TxRing (Tx Dev)) P';
  nl_queue : 2 <= QueueSize (TxRing (Tx Dev)) /\ 2 <= QueueSize (RxRing (Rx Dev));
  nl_rxbuf : 0 <= RxBuf (Rx Dev) /\ RxBuf (Rx Dev) + EFI_PAGE_SIZE * RxBufNrPages (Rx Dev) <= MAX_ADDRESS /\
    rx_bytes (RxRing (Rx Dev)) <= EFI_PAGE_SIZE * RxBufNrPages (Rx Dev);
  nl_max : TxMaxPending (Tx Dev) = MaxPending (TxRing (Tx Dev));
  nl_cur : TxCurPending (Tx Dev) = Z.of_nat (length (oc_entries c)) /\ TxCurPending (Tx Dev) <= TxMaxPending (Tx Dev);
  nl_stack : Z.of_nat (length (TxFreeStack (Tx Dev))) = TxMaxPending (Tx Dev);
  nl_heads : Forall (fun h => 0 <= h <= 2 * TxMaxPending (Tx Dev) - 2) (TxFreeStack (Tx Dev));
}.

Lemma VirtioNetShutdown_spec Dev c s w m P X P' X' es :
  State (Snm Dev) = EfiSimpleNetworkInitialized -> net_live P X Dev c P' X' ->
  wp (VirtioNetShutdown Dev) (fun out s' =>
    out.1 = EFI_SUCCESS /\ Snm out.2 = set_state EfiSimpleNetworkStarted (Snm Dev) /\ restored s P X s')
    (at_ (add_held (tx_pool c) 0 0 0 s) w m P' X' es).
Proof.
  intros HS []. unfold VirtioNetShutdown. rewrite HS. wp_step. apply wp_at_SetDeviceStatus. intros _ w1 m1.
  unfold VirtioNetShutdownRx. wp_step. wp_step.
  destruct (holds_lookup _ _ _ (RxBufMap (Rx Dev)) nl_maps0) as [x Hx]; [by left|].
  apply holds_delete in nl_maps0. eapply wp_at_Unmap; [exact Hx|]. intros _ w2 m2.
  pose proof (overlay_lookup _ _ _ (RxBuf (Rx Dev)) _ nl_pages0 ltac:(by left)) as HPr.
  apply overlay_delete in nl_pages0. eapply wp_at_Free; [exact HPr|]. intros w3 m3. wp_step.
  pose proof (overlay_lookup _ _ _ (TxSharedReq (Tx Dev)) _ nl_pages0 ltac:(by left)) as HPt.
  apply overlay_delete in nl_pages0. eapply VirtioNetShutdownTx_spec; [done..|]. intros w4 m4 X4 es4 HX4.
  wp_step.
  destruct (holds_lookup _ _ _ (TxRingMap (Tx Dev)) HX4) as [y Hy]; [by left|]. apply holds_delete in HX4.
  pose proof (overlay_lookup _ _ _ (Base (TxRing (Tx Dev))) _ nl_pages0 ltac:(by left)) as HPx.
  apply overlay_delete in nl_pages0. eapply VirtioNetUninitRing_spec; [done..|]. intros w5 m5 es5. wp_step.
  destruct (holds_lookup _ _ _ (RxRingMap (Rx Dev)) HX4) as [z Hz]; [by left|]. apply holds_delete in HX4.
  pose proof (overlay_lookup _ _ _ (Base (RxRing (Rx Dev))) _ nl_pages0 ltac:(by left)) as HPy.
  apply overlay_delete in nl_pages0. eapply VirtioNetUninitRing_spec; [done..|]. intros w6 m6 es6. cbv zeta. wp_step.
  apply overlay_nil_eq in nl_pages0. apply holds_nil_eq in HX4. rewrite nl_pages0, HX4.
  split; [done|]. split; [done|]. eexists _, _, _. reflexivity.
Qed.

(** ** VirtioNetInitialize *)
(** A failure: the mode is as before, nothing is held, and the device was
    reset last (unless it did not even accept ACKNOWLEDGE). *)
Definition net_failed s P X Dev (out : net_out) s' : Prop :=
  EFI_ERROR out.1 = true /\ Snm out.2 = Snm Dev /\
  exists w' m' es, s' = at_ s w' m' P X es /\ (last es = Some (EvStatus 0) \/ es = [EvStatus VSTAT_ACK]).

Lemma DeviceFailed_spec Dev Dev' St s w m P X es :
  EFI_ERROR St = true -> Snm Dev' = Snm Dev ->
  wp (DeviceFailed Dev' St) (net_failed s P X Dev) (at_ s w m P X es).
Proof.
  intros HE HS. unfold DeviceFailed. wp_step. apply wp_at_SetDeviceStatus. intros _ w1 m1. wp_step.
  split; [done|]. split; [done|]. exists w1, m1, (es ++ [EvStatus 0]). by rewrite last_snoc; auto.
Qed.

Lemma ReleaseRxRing_spec Dev Dev' St s w m P X x es :
  let r := RxRing (Rx Dev') in
  EFI_ERROR St = true -> Snm Dev' = Snm Dev -> P !! Base r = None -> X !! RxRingMap (Rx Dev') = None ->
  wp (ReleaseRxRing Dev' St) (net_failed s P X Dev)
    (at_ s w m (<[Base r := NumPages r]> P) (<[RxRingMap (Rx Dev') := x]> X) es).
Proof.
  intros r HE HS HP HX. unfold ReleaseRxRing. wp_step.
  eapply VirtioNetUninitRing_spec; [apply lookup_insert_eq..|]. intros. rewrite !delete_insert_id by done.
  by apply DeviceFailed_spec.
Qed.

(** The two rings of [Dev] over [P] and [X], in the order of set-up. *)
Record two_rings (P : page_map) (X : gmap Z mapping) Dev (P1 : page_map) (X1 : gmap Z mapping) (xr xt : mapping) : Prop := {
  tr_pages : P1 = <[Base (RxRing (Rx Dev)) := NumPages (RxRing (Rx Dev))]> P;
  tr_maps : X1 = <[RxRingMap (Rx Dev) := xr]> X;
  tr_rx_fresh : P !! Base (RxRing (Rx Dev)) = None /\ X !! RxRingMap (Rx Dev) = None;
  tr_tx_fresh : P1 !! Base (TxRing (Tx Dev)) = None /\ X1 !! TxRingMap (Tx Dev) = None;
  tr_rx : ring_ok (RxRing (Rx Dev)) (<[Base (TxRing (Tx Dev)) := NumPages (TxRing (Tx Dev))]> P1);
  tr_tx : ring_ok (TxRing (Tx Dev)) (<[Base (TxRing (Tx Dev)) := NumPages (TxRing (Tx Dev))]> P1);
  tr_queues : 2 <= QueueSize (RxRing (Rx Dev)) /\ 2 <= QueueSize (TxRing (Tx Dev));
}.

Lemma two_rings_ext P X Dev Dev' P1 X1 xr xt :
  RxRing (Rx Dev') = RxRing (Rx Dev) -> RxRingMap (Rx Dev') = RxRingMap (Rx Dev) ->
  TxRing (Tx Dev') = TxRing (Tx Dev) -> TxRingMap (Tx Dev') = TxRingMap (Tx Dev) ->
  two_rings P X Dev P1 X1 xr xt -> two_rings P X Dev' P1 X1 xr xt.
Proof. intros E1 E2 E3 E4 []. split; by rewrite ?E1, ?E2, ?E3, ?E4. Qed.

Lemma ReleaseTxRing_spec Dev Dev' St s w m P X P1 X1 xr xt es :
  two_rings P X Dev' P1 X1 xr xt -> EFI_ERROR St = true -> Snm Dev' = Snm Dev ->
  wp (ReleaseTxRing Dev' St) (net_failed s P X Dev)
    (at_ s w m (<[Base (TxRing (Tx Dev')) := NumPages (TxRing (Tx Dev'))]> P1) (<[TxRingMap (Tx Dev') := xt]> X1) es).
Proof.
  intros [] HE HS. unfold ReleaseTxRing. wp_step.
  eapply VirtioNetUninitRing_spec; [apply lookup_insert_eq..|]. intros. destruct tr_tx_fresh0, tr_rx_fresh0.
  rewrite !delete_insert_id by done. subst P1 X1. by apply ReleaseRxRing_spec.
Qed.
Lemma AbortDevice_spec Dev Dev' St s w m P X P1 X1 xr xt es :
  two_rings P X Dev' P1 X1 xr xt -> EFI_ERROR St = true -> Snm Dev' = Snm Dev ->
  wp (AbortDevice Dev' St) (net_failed s P X Dev)
    (at_ s w m (<[Base (TxRing (Tx Dev')) := NumPages (TxRing (Tx Dev'))]> P1) (<[TxRingMap (Tx Dev') := xt]> X1) es).
Proof.
  intros HT HE HS. unfold AbortDevice. wp_step. apply wp_at_SetDeviceStatus. intros. by eapply ReleaseTxRing_spec.
Qed.

(** Success: state Initialized, no packet pending, all transmit chains free,
    and the whole receive queue handed to the host. *)
Definition net_up s P X Dev (out : net_out (OC:=OC)) s' : Prop :=
  out.1 = EFI_SUCCESS /\ Snm out.2 = set_state EfiSimpleNetworkInitialized (Snm Dev) /\
  exists c w' m' P' X' es mn,
    s' = at_ (add_held (tx_pool c) 0 0 0 s) w' m' P' X' (es ++ [EvNotify VIRTIO_NET_Q_RX mn]) /\
    net_live P X out.2 c P' X' /\ oc_entries c = [] /\
    TxFreeStack (Tx out.2) = tx_heads (TxMaxPending (Tx out.2)) /\
    TxLastUsed (Tx out.2) = 0 /\ RxLastUsed (Rx out.2) = 0 /\
    rx_offered mn (RxRing (Rx out.2)) (RxBufDeviceBase (Rx out.2)).

Lemma tx_heads_facts max : 0 <= max ->
  Z.of_nat (length (tx_heads max)) = max /\ Forall (fun h => 0 <= h <= 2 * max - 2) (tx_heads max).
Proof.
  intros H. unfold tx_heads. split; [rewrite length_fmap, length_seqZ; lia|].
  apply Forall_fmap, Forall_forall. intros i Hi. apply elem_of_seqZ in Hi. cbn. lia.
Qed.

Lemma StartQueues_spec Dev Dev' nds s w m P X P1 X1 xr xt es :
  two_rings P X Dev' P1 X1 xr xt -> snm_ok (Snm Dev) -> Snm Dev' = Snm Dev ->
  wpe (StartQueues Dev' nds) (fun out s' => net_failed s P X Dev out s' \/ net_up s P X Dev out s') asserted
    (at_ s w m (<[Base (TxRing (Tx Dev')) := NumPages (TxRing (Tx Dev'))]> P1) (<[TxRingMap (Tx Dev') := xt]> X1) es).
Proof.
  intros HT Hok HSnm. pose proof HT as [HP1 HX1 [Hr1 Hr2] [Ht1 Ht2] Hrx Htx [HQr HQt]].
  unfold StartQueues. apply wpe_bind_wp, wp_at_SetDeviceStatus. intros St w1 m1. destruct (EFI_ERROR St) eqn:HE.
  { apply wp_wpe. eapply wp_mono; [by eapply ReleaseTxRing_spec|]. auto. }
  apply wpe_bind. eapply wpe_mono; [by apply VirtioNetInitTx_spec|].
  intros [St2 D2] s2 [(HE2 & (HS2 & HR2 & HT2 & HM2) & (w2 & m2 & es2 & ->))|H]; cbn [fst snd] in *.
  { rewrite HE2. apply wp_wpe. rewrite <-HT2, <-HM2. 
    eapply wp_mono; [eapply (AbortDevice_spec Dev D2); [|done|congruence]|intros; by left].
    eapply two_rings_ext; [..|exact HT]; congruence. }
  destruct H as (E2 & c & B & map & addr & n & w2 & m2 & es2 & HD2 & Hwf & Hc & HBP & HBd & HBX & -> & _).
  cbn [fst snd] in *. subst St2. change (EFI_ERROR EFI_SUCCESS) with false. cbv iota.
  assert (Snm D2 = Snm Dev /\ Rx D2 = Rx Dev') as [HS2 HR2] by (by subst D2).
  apply wpe_bind. eapply wpe_mono.
  { apply VirtioNetInitRx_spec; [by rewrite HS2|rewrite HR2; by apply ring_ok_insert|by rewrite HR2]. }
  intros [St3 D3] s3 [(HE3 & (HS3 & HT3 & HR3 & HM3) & (w3 & m3 & es3 & ->))|H]; cbn [fst snd] in *.
  { rewrite HE3. apply wp_wpe. unfold ReleaseTxAux. wp_step.
    replace (add_held 2 0 0 0 s) with (add_held (tx_pool c) 0 0 0 s) by (unfold tx_pool; by rewrite Hc).
    eapply (VirtioNetShutdownTx_spec D3 c []); rewrite ?HT3, ?HD2; cbn [Tx set_tx TxBufCollection TxSharedReq TxSharedReqMap].
    - done.
    - done.
    - apply lookup_insert_eq.
    - unfold bufmaps. rewrite Hc. apply holds_insert; [apply holds_nil|done].
    - intros w4 m4 X4 es4 HX4%holds_nil_eq. subst X4. rewrite delete_insert_id by done.
      replace (TxRing (Tx Dev')) with (TxRing (Tx D3)) by (by rewrite HT3, HD2).
      replace (TxRingMap (Tx Dev')) with (TxRingMap (Tx D3)) by (by rewrite HT3, HD2).
      eapply wp_mono; [eapply (AbortDevice_spec Dev D3); [|done|congruence]|intros; by left].
      eapply two_rings_ext; [..|exact HT]; rewrite ?HR3, ?HM3, ?HT3, ?HR2, ?HD2; done. }
  destruct H as (HE3 & RB & rm & base & n3 & pg & mn & w3 & m3 & es3 & HD3 & HRP & HRd & HRb & HR0 & HRe & _ & HRX & -> & Hoff).
  cbn [fst snd] in *. rewrite HE3. apply wp_wpe. wp_step. right.
  assert (ring_ok (RxRing (Rx Dev')) (<[B := 1]> (<[Base (TxRing (Tx Dev')) := NumPages (TxRing (Tx Dev'))]> P1))) as Hrx2
    by (by apply ring_ok_insert).
  destruct (tx_heads_facts (MaxPending (TxRing (Tx Dev')))) as [Hlen Hheads].
  { pose proof (MaxPending_bounds _ _ Htx HQt). lia. }
  split; [done|]. split; [by rewrite HD3, HD2; cbn; rewrite HSnm|].
  exists c. eexists _, _, _, _, _, _. split.
  { unfold tx_pool. rewrite Hc. reflexivity. }
  rewrite HD3, HR2, HD2. cbn [snd set_net_state set_snm set_rx set_tx Rx Tx RxRing RxRingMap RxBuf RxLastUsed RxBufDeviceBase
    TxRing TxFreeStack TxMaxPending TxLastUsed].
  split; [|split_and!; try done; by rewrite <-HR2]. subst P1 X1. split; cbn; try done.
  - apply overlay_insert; [|done]. apply overlay_insert; [|done]. apply overlay_insert; [|done].
    apply overlay_insert; [|done]. apply overlay_nil.
  - apply holds_insert; [|done]. apply holds_insert; [|done]. unfold bufmaps. rewrite Hc. cbn.
    apply holds_insert; [|done]. apply holds_insert; [|done]. apply holds_nil.
  - by apply ring_ok_insert.
  - apply ring_ok_insert; [|done]. by apply ring_ok_insert.
  - by rewrite <-HR2.
  - rewrite Hc. split; [done|]. cbn. pose proof (MaxPending_bounds _ _ Htx HQt). lia.
Qed.

Lemma SetUpRings_spec Dev nds F s w m P X es :
  snm_ok (Snm Dev) ->
  wpe (SetUpRings Dev nds F) (fun out s' => net_failed s P X Dev out s' \/ net_up s P X Dev out s') asserted
    (at_ s w m P X es).
Proof.
  intros Hok. unfold SetUpRings. apply wpe_bind_wp. eapply wp_mono; [by apply VirtioNetInitRing_spec|].
  intros [[St1 r1] t1] s1 [(HE1 & w1 & m1 & es1 & ->)|H]; cbn [fst snd] in *; cbv zeta.
  { rewrite HE1. apply wp_wpe. eapply wp_mono; [by apply (DeviceFailed_spec Dev)|intros; by left]. }
  destruct H as (HE1 & HQ1 & Hr1 & HP1 & _ & HX1 & w1 & m1 & x1 & es1 & ->). cbn [fst snd] in *. subst St1.
  change (EFI_ERROR EFI_SUCCESS) with false. cbv iota.
  apply wpe_bind_wp. eapply wp_mono; [by apply VirtioNetInitRing_spec|].
  intros [[St2 r2] t2] s2 [(HE2 & w2 & m2 & es2 & ->)|H]; cbn [fst snd] in *; cbv zeta.
  { rewrite HE2. apply wp_wpe. eapply wp_mono; [by eapply (ReleaseRxRing_spec Dev)|intros; by left]. }
  destruct H as (HE2 & HQ2 & Hr2 & HP2 & Hd2 & HX2 & w2 & m2 & x2 & es2 & ->). cbn [fst snd] in *. subst St2.
  change (EFI_ERROR EFI_SUCCESS) with false. cbv iota.
  match goal with |- context [StartQueues ?D] => set (D2 := D) end.
  assert (two_rings P X D2 (<[Base r1 := NumPages r1]> P) (<[t1 := x1]> X) x1 x2) as HT.
  { split; cbn; try done. by apply ring_ok_insert. }
  assert (Snm D2 = Snm Dev) as HS by done.
  apply wpe_bind_wp. destruct (Revision <? _); [|wp_step; by eapply (StartQueues_spec Dev)].
  apply wp_at_tell_call. intros St3 w3 m3. destruct (EFI_ERROR St3) eqn:HE3.
  - apply wp_wpe. eapply wp_mono; [by eapply (ReleaseTxRing_spec Dev)|intros; by left].
  - by eapply (StartQueues_spec Dev).
Qed.

Lemma VirtioNetInitialize_spec Dev s :
  snm_ok (Snm Dev) -> State (Snm Dev) = EfiSimpleNetworkStarted ->
  wpe (VirtioNetInitialize Dev 0 0)
    (fun out s' => net_failed s (Pages s) (Maps s) Dev out s' \/ net_up s (Pages s) (Maps s) Dev out s') asserted s.
Proof.
  intros Hok HS. apply wpe_at_self. unfold VirtioNetInitialize. rewrite bool_decide_true by done.
  cbn [Z.ltb orb negb]. change (0 <? 0) with false. cbv zeta. cbn [orb]. cbv iota.
  apply wpe_bind_wp, wp_at_SetDeviceStatus. intros St1 w1 m1. destruct (EFI_ERROR St1) eqn:HE1.
  { apply wp_wpe. wp_step. left. split; [done|]. split; [done|]. eexists _, _, _. split; [done|]. by right. }
  assert (forall St w m es, EFI_ERROR St = true -> wpe (DeviceFailed Dev St)
    (fun out s' => net_failed s (Pages s) (Maps s) Dev out s' \/ net_up s (Pages s) (Maps s) Dev out s') asserted
    (at_ s w m (Pages s) (Maps s) es)) as Hfail.
  { intros. apply wp_wpe. eapply wp_mono; [by apply (DeviceFailed_spec Dev)|intros; by left]. }
  apply wpe_bind_wp, wp_at_SetDeviceStatus. intros St2 w2 m2. destruct (EFI_ERROR St2) eqn:HE2; [by apply Hfail|].
  apply wpe_bind_wp, wp_at_call. intros St3 w3 m3. destruct (EFI_ERROR St3) eqn:HE3; [by apply Hfail|].
  apply wpe_bind_wp, wp_at_call. intros [St4 F] w4 m4. destruct (EFI_ERROR St4) eqn:HE4; [by apply Hfail|].
  apply wpe_bind, wpe_ASSERT; [done|]. intros _. apply wpe_bind, wpe_ASSERT; [done|]. intros _.
  apply wpe_bind_wp. destruct (_ <=? Revision).
  - eapply wp_mono; [apply Virtio10WriteFeatures_spec|].
    intros [St5 got] s' [(HE5 & w5 & m5 & l & ->)|(HE5 & _ & _ & _ & w5 & m5 & ->)]; rewrite HE5; [by apply Hfail|].
    by apply SetUpRings_spec.
  - wp_step. by apply SetUpRings_spec.
Qed.
End Init.
