(* ===== verification/VirtioNetTraffic.v ===== *)
(** * VirtioNetDxe: packets *)
From S2P Require Import Prelude Bytes Memory OrderedCollection Virtio VirtioProofs VirtioDriver VirtioNet VirtioNetRings VirtioNetInit.

(** Forgetting what made an assertion fail. *)
Lemma wpe_asserted {S A} (f : M S A) (Q : A -> S -> Prop) (R : Prop) s :
  wpe f Q (fun t => t = AssertFailed /\ R) s -> wpe f Q asserted s.
Proof. intros H. eapply wpe_mono_trap; [exact H|done|by intros t [-> _]]. Qed.

Section Traffic.
Context {W : Type} {V : VirtIo W} {VL : VirtIoLaws W} {BS : BootServices W} {NS : NetServices W}.
Context {OC : OrderedCollection Z TX_BUF_MAP_INFO W CompareAddress} {OL : OrderedCollectionLaws OC}.
Implicit Types (s : st (W:=W)) (Dev : VNET_DEV (OC:=OC)).

(** ** Offering a chain *)
Definition made_available (r : VRING) (d : Z) (m m' : memory) : Prop :=
  let a := u16_at m (Avail_Idx r) in
  u16_at m' (Avail_Ring r + 2 * (a mod QueueSize r)) = u16 d /\ u16_at m' (Avail_Idx r) = u16 (a + 1) /\
  forall x, ~ (Avail_Idx r <= x < Avail_Ring r + 2 * QueueSize r) -> m' x = m x.

Lemma MakeAvailable_spec r d s w m P X es (Q : unit -> st -> Prop) :
  ring_ok r P -> (forall m', made_available r d m m' -> Q tt (at_ s w m' P X es)) ->
  wp (MakeAvailable r d) Q (at_ s w m P X es).
Proof.
  intros Hr HQ. unfold MakeAvailable. pose proof (ro_queue _ _ Hr) as HQ16. destruct (flags_part _ _ Hr) as (_ & Hai & _).
  destruct (ro_layout _ _ Hr).
  wp_step. apply wp_at_read; [done|]. fold (u16_at m (Avail_Idx r)). set (a := u16_at m (Avail_Idx r)).
  wp_step. apply wp_modulo; [lia|].
  assert (0 <= a mod QueueSize r < QueueSize r) as Ha by (apply Z.mod_pos_bound; lia).
  wp_step. apply wp_at_write; [by apply avail_part|]. apply wp_at_write; [done|]. apply HQ.
  assert (forall x, 0 <= u16 x < 256 ^ Z.of_nat 2) as Hu by (intros; unfold u16; lia_div).
  unfold made_available, u16_at. fold (u16_at m (Avail_Idx r)). fold a. split_and!.
  - rewrite mem_get_set_disjoint by (rewrite length_le_split; lia). by apply (le_read_write _ _ 2).
  - by apply (le_read_write _ _ 2).
  - intros x Hx. rewrite !mem_set_outside by (rewrite length_le_split; lia). done.
Qed.

(** ** VirtioNetTransmit *)
(** The header that FillMediaHeader writes. *)
Definition media_header (dest src : list Z) (proto : Z) : list Z :=
  take 6 dest ++ take 6 src ++ [u8 (Z.shiftr proto 8); u8 proto].

(** What becomes of the caller's memory. *)
Definition filled (snm : EFI_SIMPLE_NETWORK_MODE) (HeaderSize Buffer : Z) (SrcAddr DestAddr : option (list Z))
    (Protocol : option Z) (m m' : memory) : Prop :=
  match DestAddr, Protocol with
  | Some dest, Some proto =>
      let src := default (CurrentAddress snm) SrcAddr in
      HeaderSize = 14 /\
      ((6 <= length dest)%nat -> (6 <= length src)%nat ->
       forall x, m' x = mem_set m Buffer (media_header dest src proto) x)
  | _, _ => False
  end.

Lemma FillMediaHeader_spec snm hs B src dest proto s w m P X es (Q : bool -> st -> Prop) :
  snm_ok snm ->
  (hs <> 0 -> ~ filled snm hs B src dest proto m m -> Q false (at_ s w m P X es)) ->
  (hs = 0 -> Q true (at_ s w m P X es)) ->
  (forall m', hs <> 0 -> filled snm hs B src dest proto m m' -> Q true (at_ s w m' P X es)) ->
  wp (FillMediaHeader snm hs B src dest proto) Q (at_ s w m P X es).
Proof.
  intros [HM _] HF H0 HT. unfold FillMediaHeader. rewrite HM.
  destruct (Z.eqb_spec hs 0) as [E|E]; cbn [negb]; [wp_step; by apply H0|].
  destruct dest as [dest|], proto as [proto|]; [|wp_step; apply HF; [done|unfold filled; tauto]..].
  destruct (Z.eqb_spec hs 14) as [->|E']; cbn [negb].
  2:{ wp_step. apply HF; [done|]. unfold filled. tauto. }
  do 4 (wp_step; apply wp_at_poke). wp_step. wp_step; [done|]. wp_step. apply HT; [done|].
  split; [done|]. intros H1 H2 x. unfold media_header.
  by rewrite !mem_set_app by (rewrite ?length_take; cbn [length]; lia).
Qed.

(** The buffer, with the memory [m], is mapped for the device at [a]. *)
Definition tx_mapped (X : gmap Z mapping) (B n : Z) (w : W) (m : memory) (a tok k : Z) (w' : W) (m' : memory) : Prop :=
  exists w1, gbs_AllocatePool w = (true, w1) /\
    mapped X VirtioOperationBusMasterRead B n w1 m k a tok w' m' /\ n <= k.
(** It is not: no pool memory, no mapping, or no memory for the collection. *)
Definition tx_refused (X : gmap Z mapping) (c : oc OC) (B n : Z) (w : W) (m : memory) (w' : W) (m' : memory) (l : list event) : Prop :=
  (gbs_AllocatePool w = (false, w') /\ m' = m /\ l = []) \/
  (exists w1, gbs_AllocatePool w = (true, w1) /\ map_refused X VirtioOperationBusMasterRead B n w1 m w' m' l) \/
  (exists a tok k w1 m1 w2 St, tx_mapped X B n w m a tok k w1 m1 /\
     oc_insert w1 c a (mkInfo B a tok) = (OutOfResources, c, w2) /\ vio_UnmapSharedBuffer tok w2 m1 = (St, m', w') /\
     l = [EvMap VirtioOperationBusMasterRead B k a m; EvUnmap tok]).
(** Its device address is that of a pending packet. *)
Definition tx_clash (X : gmap Z mapping) (c : oc OC) (B n : Z) (w : W) (m : memory) : Prop :=
  exists a tok k w' m', tx_mapped X B n w m a tok k w' m' /\ a ∈ (oc_entries c).*1.

(** The buffer is mapped for the device, or nothing is held.  The only trap
    is the assertion that the device address is not in use yet. *)
Lemma VirtioNetMapTxBuf_spec c B n s w m P X es (Q : EFI_STATUS * Z * oc OC -> st -> Prop) :
  oc_wf c ->
  (forall St a w' m' l, EFI_ERROR St = true -> tx_refused X c B n w m w' m' l -> Q (St, a, c) (at_ s w' m' P X (es ++ l))) ->
  (forall a tok k c' w1 w' m', tx_mapped X B n w m a tok k w1 m' -> is_u64 a -> a ∉ (oc_entries c).*1 -> oc_wf c' ->
     oc_entries c' ≡ₚ (a, mkInfo B a tok) :: oc_entries c -> X !! tok = None -> n <= k ->
     Q (EFI_SUCCESS, a, c')
       (at_ (add_held 1 0 0 0 s) w' m' P (<[tok := (VirtioOperationBusMasterRead, B, k, a)]> X)
          (es ++ [EvMap VirtioOperationBusMasterRead B k a m]))) ->
  wpe (VirtioNetMapTxBuf c B n) Q (fun t => t = AssertFailed /\ tx_clash X c B n w m) (at_ s w m P X es).
Proof.
  intros Hwf HN HS. unfold VirtioNetMapTxBuf. apply wpe_bind_wp. unfold AllocatePool. wp_step. apply wp_at_call_eq.
  intros ok1 w2 m2 EP. destruct (gbs_AllocatePool w) as [ok w1] eqn:EP'. injection EP as <- <- <-. wp_step.
  destruct ok.
  2:{ wp_step. wp_step. cbn [negb]. apply wp_wpe. wp_step. specialize (HN EFI_OUT_OF_RESOURCES 0 w1 m [] eq_refl).
      rewrite app_nil_r in HN. apply HN. left. done. }
  apply wp_at_Hold. wp_step. cbn [negb].
  assert (forall St w' m' l, EFI_ERROR St = true -> tx_refused X c B n w m w' m' l ->
    wp (FreeTxBufMapInfo St c) Q (at_ (add_held 1 0 0 0 s) w' m' P X (es ++ l))) as Hfree.
  { intros. unfold FreeTxBufMapInfo. wp_step. apply wp_at_free_pool. rewrite held_cancel by done. wp_step. by apply HN. }
  apply wpe_bind_wp, wp_at_Map_eq.
  { intros St dev tok w' m' l HE Hre. cbn beta iota. rewrite HE. apply wp_wpe. apply Hfree; [done|]. right; left. by exists w1. }
  intros a tok k w2 m2 Hmap HX Ha Hk. cbn beta iota. change (EFI_ERROR EFI_SUCCESS) with false. cbv iota.
  assert (tx_mapped X B n w m a tok k w2 m2) as HM by by exists w1.
  apply wpe_bind_wp. unfold OrderedCollectionInsert. wp_step. rewrite wp_vcall. cbn [Env Mem at_ DeviceAddress].
  destruct (oc_insert w2 c a (mkInfo B a tok)) as [[r c'] w3] eqn:EI. cbn beta iota. cbn [fst snd]. wp_step.
  match goal with |- context [set_world w3 m2 (at_ ?s' w2 ?m' ?P' ?X' ?es')] =>
    change (set_world w3 m2 (at_ s' w2 m' P' X' es')) with (at_ s' w3 m2 P' X' es') end.
  destruct (oc_insert_spec _ _ _ _ _ _ _ Hwf EI) as [Hwf' Hr]. destruct r as [|u|]; cbn [insert_status].
  - destruct Hr as [Hni Hp]. change (EFI_SUCCESS =? EFI_OUT_OF_RESOURCES) with false.
    change (EFI_SUCCESS =? EFI_ALREADY_STARTED) with false. cbv iota. apply wp_wpe. wp_step.
    wp_step; [done|]. wp_step. by apply (HS a tok k c' w2).
  - destruct Hr as [Hin _]. apply wpe_bind, wpe_ASSERT; [|done]. split; [done|]. exists a, tok, k, w2, m2. split; [done|].
    apply list_elem_of_fmap. by exists (a, u).
  - subst c'. change (EFI_OUT_OF_RESOURCES =? EFI_OUT_OF_RESOURCES) with true. cbv iota. apply wp_wpe.
    unfold UnmapTxBuf. wp_step. eapply wp_at_Unmap_eq; [apply lookup_insert_eq|]. intros U w4 m4 EU.
    rewrite delete_insert_id, <-(assoc_L (++)) by done. apply Hfree; [done|]. right; right.
    by exists a, tok, k, w2, m2, w3, U.
Qed.

(** The transmit state with another collection and count. *)
Definition with_pending (c : oc OC) (cur : Z) Dev : VNET_DEV :=
  let t := Tx Dev in
  set_tx (mkTx (TxRing t) (TxRingMap t) (TxMaxPending t) cur (TxFreeStack t) (TxSharedReq t)
            (TxSharedReqMap t) (TxLastUsed t) (Some c)) Dev.
Lemma with_pending_id c Dev : TxBufCollection (Tx Dev) = Some c -> with_pending c (TxCurPending (Tx Dev)) Dev = Dev.
Proof. destruct Dev as [snm rx []]. unfold with_pending. cbn. by intros ->. Qed.

(** The packet is handed to the host.  The buffer, as it is in [mf], is mapped
    at device address [a]; at the notification ([mn]) the second descriptor of
    chain [h] is the packet, and the chain is available. *)
Definition packet_queued s (P' : page_map) (X' : gmap Z mapping) (es : list event) (w : W) (mf : memory) Dev (c : oc OC)
    (B n h : Z) (out : net_out (OC:=OC)) s' : Prop :=
  exists a tok k c' w' m1 m2 mn m',
    (exists w1, tx_mapped X' B n w mf a tok k w1 m1) /\
    out.2 = with_pending c' (TxCurPending (Tx Dev) + 1) Dev /\
    is_u64 a /\ (a ∉ (oc_entries c).*1) /\ oc_wf c' /\
    oc_entries c' ≡ₚ (a, mkInfo B a tok) :: oc_entries c /\ X' !! tok = None /\ n <= k /\
    s' = at_ (add_held 1 0 0 0 s) w' m' P' (<[tok := (VirtioOperationBusMasterRead, B, k, a)]> X')
           (es ++ [EvMap VirtioOperationBusMasterRead B k a mf; EvNotify VIRTIO_NET_Q_TX mn]) /\
    (exists w1, vio_SetQueueNotify VIRTIO_NET_Q_TX w1 mn = (out.1, m', w')) /\
    (desc_at mn (TxRing (Tx Dev)) (h + 1)).1.1 = (a, n) /\ made_available (TxRing (Tx Dev)) h m2 mn /\
    (forall x, ~ (desc_addr (TxRing (Tx Dev)) (h + 1) <= x < desc_addr (TxRing (Tx Dev)) (h + 1) + 12) -> m2 x = m1 x).

Lemma SubmitPacket_spec Dev c n B s w m P X P' X' es (Q : net_out -> st -> Prop) :
  net_live P X Dev c P' X' -> TxCurPending (Tx Dev) < TxMaxPending (Tx Dev) -> is_u32 n ->
  (forall w' m' l, tx_refused X' c B n w m w' m' l -> Q (EFI_DEVICE_ERROR, Dev) (at_ s w' m' P' X' (es ++ l))) ->
  (forall h out s', TxFreeStack (Tx Dev) !! Z.to_nat (TxCurPending (Tx Dev)) = Some h ->
     packet_queued s P' X' es w m Dev c B n h out s' -> Q out s') ->
  wpe (SubmitPacket Dev n B) Q (fun t => t = AssertFailed /\ tx_clash X' c B n w m) (at_ s w m P' X' es).
Proof.
  intros HL Hcur Hn HQ1 HQ2. unfold SubmitPacket. cbv zeta.
  pose proof HL as [Hc Hwf _ _ _ Htx [HQt _] _ Hmax [Hcl _] Hst Hheads]. pose proof (MaxPending_bounds _ _ Htx HQt) as [Hm1 Hm2].
  unfold VNET_MAX_PENDING in Hm1. rewrite <-Hmax in Hm1, Hm2. remember (TxRing (Tx Dev)) as r eqn:Er.
  rewrite Hc. apply wpe_bind_wp. rewrite wp_deref. exists c. split; [done|].
  apply wpe_bind, VirtioNetMapTxBuf_spec; [done|..].
  { intros St a w' m' l HE Hre. cbn beta iota. rewrite HE. apply wp_wpe. wp_step. rewrite Er.
    change (Q (EFI_DEVICE_ERROR, with_pending c (TxCurPending (Tx Dev)) Dev) (at_ s w' m' P' X' (es ++ l))).
    rewrite with_pending_id by done. by apply HQ1. }
  intros a tok k c' w0 w1 m1 HM Ha Hni Hwf' Hp HX Hk. cbn beta iota. change (EFI_ERROR EFI_SUCCESS) with false. cbv iota.
  destruct (lookup_lt_is_Some_2 (TxFreeStack (Tx Dev)) (Z.to_nat (TxCurPending (Tx Dev)))) as [h Hh]; [lia|].
  pose proof (Forall_lookup_1 _ _ _ _ Hheads Hh) as Hhb. cbn beta in Hhb.
  rewrite Hh. apply wp_wpe. wp_step. rewrite wp_deref. exists h. split; [done|].
  assert (0 <= h + 1 < QueueSize r) as Hh1 by lia.
  pose proof (desc_part _ _ (h + 1) 0 8 Htx Hh1 ltac:(lia) ltac:(unfold SIZEOF_DESC; lia)) as HD0. rewrite Z.add_0_r in HD0.
  wp_step. apply wp_at_write; [exact HD0|].
  wp_step. apply wp_at_write; [apply desc_part; [done|done|lia|unfold SIZEOF_DESC; lia]|].
  wp_step. apply MakeAvailable_spec; [done|]. intros mn Hmn. wp_step. apply wp_at_notify. intros St w2 m2 HN. wp_step.
  eapply HQ2; [exact Hh|]. assert (u32 n = n) as Eu by (unfold u32; by apply Z.mod_small). rewrite Eu in Hmn.
  eexists a, tok, k, c', w2, m1, _, mn, m2. rewrite <-Er. split; [by exists w0|].
  split; [unfold with_pending; rewrite <-Er; cbn; repeat f_equal; unfold u16; apply Z.mod_small; lia|].
  split_and!; try done.
  - by rewrite <-(assoc_L (++)).
  - eauto.
  - unfold is_u64, is_u32 in *. destruct Hmn as (_ & _ & Hmn). destruct (ro_layout _ _ Htx).
    match type of Hmn with forall x, _ -> _ = mem_set ?M ?a ?b _ => rewrite (desc_at_ext mn (mem_set M a b) r (h + 1)) end.
    2:{ intros x Hx. apply Hmn. unfold desc_addr, SIZEOF_DESC in *. lia. }
    unfold desc_at, desc_addr. cbn [fst snd]. f_equal; read_back.
  - intros x Hx. unfold desc_addr in Hx. rewrite !mem_set_outside by (rewrite length_le_split; lia). done.
Qed.

(** The memory with the header that the caller asked for. *)
Definition headed (snm : EFI_SIMPLE_NETWORK_MODE) (HeaderSize Buffer : Z) (SrcAddr DestAddr : option (list Z))
    (Protocol : option Z) (m m' : memory) : Prop :=
  if HeaderSize =? 0 then m' = m else filled snm HeaderSize Buffer SrcAddr DestAddr Protocol m m'.

(** QueuePacket: refused, not mapped, or queued. *)
Lemma QueuePacket_spec Dev c hs n B src dest proto s w m P X P' X' es (Q : net_out -> st -> Prop) :
  snm_ok (Snm Dev) -> net_live P X Dev c P' X' -> TxCurPending (Tx Dev) < TxMaxPending (Tx Dev) -> is_u32 n ->
  (hs <> 0 -> ~ filled (Snm Dev) hs B src dest proto m m -> Q (EFI_INVALID_PARAMETER, Dev) (at_ s w m P' X' es)) ->
  (forall mf w' m' l, headed (Snm Dev) hs B src dest proto m mf -> tx_refused X' c B n w mf w' m' l ->
     Q (EFI_DEVICE_ERROR, Dev) (at_ s w' m' P' X' (es ++ l))) ->
  (forall h mf out s', TxFreeStack (Tx Dev) !! Z.to_nat (TxCurPending (Tx Dev)) = Some h ->
     headed (Snm Dev) hs B src dest proto m mf -> packet_queued s P' X' es w mf Dev c B n h out s' -> Q out s') ->
  wpe (QueuePacket Dev hs n B src dest proto) Q
    (fun t => t = AssertFailed /\ exists mf, headed (Snm Dev) hs B src dest proto m mf /\ tx_clash X' c B n w mf)
    (at_ s w m P' X' es).
Proof.
  intros Hok HL Hcur Hn HQ1 HQ2 HQ3. unfold QueuePacket. apply wpe_bind_wp, FillMediaHeader_spec; cbn [negb]; [done|..].
  - intros. apply wp_wpe. wp_step. by apply HQ1.
  - intros ->. assert (headed (Snm Dev) 0 B src dest proto m m) as Hh by done.
    eapply wpe_mono_trap with (P := Q);
      [eapply SubmitPacket_spec; [done..| |]; intros; eauto|done|intros t [-> ?]; split; [done|by exists m]].
  - intros mf H0 Hf. assert (headed (Snm Dev) hs B src dest proto m mf) as Hh by (unfold headed; destruct (Z.eqb_spec hs 0); done).
    eapply wpe_mono_trap with (P := Q);
      [eapply SubmitPacket_spec; [done..| |]; intros; eauto|done|intros t [-> ?]; split; [done|by exists mf]].
Qed.

(** A queued packet is one more pending packet. *)
Lemma packet_queued_live s P X P' X' es w0 mf Dev c B n h out s' :
  net_live P X Dev c P' X' -> TxCurPending (Tx Dev) < TxMaxPending (Tx Dev) ->
  packet_queued s P' X' es w0 mf Dev c B n h out s' ->
  exists c' X'' w m es', net_live P X out.2 c' P' X'' /\ tx_pool c' = tx_pool c + 1 /\
    s' = at_ (add_held 1 0 0 0 s) w m P' X'' es'.
Proof.
  intros [] Hcur (a & tok & k & c' & w' & m1 & m2 & mn & m' & _ & HD & _ & _ & Hwf' & Hp & HX & _ & -> & _).
  assert (length (oc_entries c') = S (length (oc_entries c))) as Hl by by rewrite Hp.
  exists c'. eexists _, _, _, _. split; [|split; [unfold tx_pool; lia|reflexivity]].
  rewrite HD. split; cbn; try done.
  - eapply holds_perm; [|by apply holds_insert].
    unfold bufmaps. rewrite Hp. csimpl. by rewrite !(Permutation_swap tok).
  - rewrite Hl. lia.
Qed.

(** ** VirtioNetReceive *)
Definition with_last_rx (k : Z) Dev : VNET_DEV :=
  let x := Rx Dev in
  set_rx (mkRx (RxRing x) (RxRingMap x) (RxBuf x) k (RxBufNrPages x) (RxBufDeviceBase x) (RxBufMap x)) Dev.

(** Chain [d] is handed back to the host. *)
Definition chain_recycled s (P' : page_map) (X' : gmap Z mapping) (es : list event) (m : memory) Dev (d : Z)
    (NotifyStatus : EFI_STATUS) Dev' s' : Prop :=
  Dev' = with_last_rx (u16 (RxLastUsed (Rx Dev) + 1)) Dev /\
  exists mn w1 w' m', made_available (RxRing (Rx Dev)) d m mn /\
    vio_SetQueueNotify VIRTIO_NET_Q_RX w1 mn = (NotifyStatus, m', w') /\
    s' = at_ s w' m' P' X' (es ++ [EvNotify VIRTIO_NET_Q_RX mn]).

Lemma RecycleDesc_spec Dev d St o s w m P X es :
  ring_ok (RxRing (Rx Dev)) P ->
  wp (RecycleDesc Dev d St o) (fun '(St', o', Dev') s' => o' = o /\
    exists N, chain_recycled s P X es m Dev d N Dev' s' /\ St' = if EFI_ERROR St then St else N) (at_ s w m P X es).
Proof.
  intros Hr. unfold RecycleDesc. cbv zeta. wp_step. apply MakeAvailable_spec; [done|]. intros mn Hmn.
  wp_step. apply wp_at_notify. intros N w' m' HN. wp_step. split; [done|]. exists N. split; [|done].
  split; [done|]. by exists mn, w, w', m'.
Qed.

(** Whatever the host wrote: at worst a failed assertion or a read outside
    the shared pages, and at most one chain is handed back. *)
Definition rx_trap (t : trap) : Prop := t = AssertFailed \/ t = BadPointer.

Lemma wpe_at_read E a n (Q : Z -> st -> Prop) s w m P X es :
  E BadPointer -> (forall v, Q v (at_ s w m P X es)) -> wpe (read_le a n) Q E (at_ s w m P X es).
Proof. intros HE HQ. unfold wpe, read_le, mbind, M_bind, get. destruct (in_pages _ _ _); [apply HQ|done]. Qed.
Lemma wpe_at_bytes E a n (Q : list Z -> st -> Prop) s w m P X es :
  E BadPointer -> (forall v, Q v (at_ s w m P X es)) -> wpe (read_bytes a n) Q E (at_ s w m P X es).
Proof. intros HE HQ. unfold wpe, read_bytes, mbind, M_bind, get. destruct (in_pages _ _ _); [apply HQ|done]. Qed.

Definition received s (P : page_map) (X : gmap Z mapping) Dev (r : EFI_STATUS * rx_out * VNET_DEV) s' : Prop :=
  exists k w' m' es', (r.2 = Dev \/ (State (Snm Dev) = EfiSimpleNetworkInitialized /\ r.2 = with_last_rx k Dev)) /\
    s' = at_ s w' m' P X es'.
Lemma VirtioNetReceive_any Dev want n B s w m P X es :
  (State (Snm Dev) = EfiSimpleNetworkInitialized -> ring_ok (RxRing (Rx Dev)) P) ->
  wpe (VirtioNetReceive Dev want n B) (received s P X Dev) rx_trap
    (at_ s w m P X es).
Proof.
  intros Hr. unfold VirtioNetReceive. cbv zeta.
  assert (forall (St : EFI_STATUS) (o : rx_out) w' m' es', wpe (mret (St, o, Dev)) (received s P X Dev) rx_trap
    (at_ s w' m' P X es')) as Hsame.
  { intros. apply wp_wpe. wp_step. exists 0, w', m', es'. split; [by left|done]. }
  destruct (B =? 0); [apply Hsame|]. destruct (State (Snm Dev)) eqn:HS; [apply Hsame..|]. specialize (Hr eq_refl).
  assert (forall d St o m' es', wpe (RecycleDesc Dev d St o) (received s P X Dev) rx_trap
    (at_ s w m' P X es')) as Hrec.
  { intros. apply wp_wpe. eapply wp_mono; [by apply RecycleDesc_spec|].
    intros [[St' o'] D] s' (_ & N & (-> & mn & w1 & w2 & m2 & _ & _ & ->) & _). eexists _, _, _, _. split; [by right|done]. }
  destruct (flags_part _ _ Hr) as (_ & _ & Hui). pose proof (ro_queue _ _ Hr) as HQ.
  assert (rx_trap BadPointer) as HB by (by right). assert (rx_trap AssertFailed) as HA by (by left).
  apply wpe_bind_wp, wp_at_read; [done|]. case_match; [apply Hsame|].
  apply wpe_bind_wp, wp_modulo; [lia|].
  do 3 (apply wpe_bind, wpe_at_read; [done|intros]). apply wpe_bind, wpe_ASSERT; [done|]. intros _.
  apply wpe_bind, wpe_at_read; [done|intros]. apply wpe_bind, wpe_ASSERT; [done|]. intros _.
  case_match; [apply Hsame|]. case_match; [apply Hrec|].
  unfold DeliverPacket. cbv zeta. apply wpe_bind, wpe_at_read; [done|intros].
  apply wpe_bind, wpe_at_bytes; [done|intros]. apply wpe_bind_wp, wp_at_poke.
  do 2 (apply wpe_bind, wpe_at_bytes; [done|intros]). do 2 (apply wpe_bind, wpe_at_read; [done|intros]). apply Hrec.
Qed.

(** The next used element is the intact chain [i], with [L] bytes written. *)
Definition used_elem (m : memory) (r : VRING) (k : Z) : Z * Z :=
  let p := Used_UsedElem r + SIZEOF_USED_ELEM * k in (le_combine (mem_get m p 4), le_combine (mem_get m (p + 4) 4)).
Definition rx_completed (m : memory) Dev (i L : Z) : Prop :=
  let r := RxRing (Rx Dev) in
  u16_at m (Used_Idx r) <> RxLastUsed (Rx Dev) /\
  used_elem m r (RxLastUsed (Rx Dev) mod QueueSize r) = (2 * i, L) /\
  0 <= i < MaxPending r /\ rx_chain m r (RxBufDeviceBase (Rx Dev)) NetReqSize 1514 i /\
  NetReqSize <= L <= NetReqSize + 1514.

(** Where the driver finds the packet of chain [i], behind its header. *)
Definition packet_addr Dev (i : Z) : Z := RxBuf (Rx Dev) + i * (NetReqSize + 1514) + NetReqSize.

(** The caller's buffer shares no page with the device. *)
Definition apart (P : page_map) (B n : Z) : Prop :=
  forall b k, P !! b = Some k -> B + n <= b \/ b + EFI_PAGE_SIZE * k <= B.

Definition big_endian (hi lo : Z) : Z := u16 (Z.lor (Z.shiftl hi 8) lo).
Definition packet_out (want : rx_wants) (frame : list Z) : rx_out :=
  mkRxOut (Z.of_nat (length frame)) (if WantHeaderSize want then Some 14 else None)
    (if WantSrc want then Some (take 6 (drop 6 frame)) else None)
    (if WantDest want then Some (take 6 frame) else None)
    (if WantProtocol want then Some (big_endian (nth 12 frame 0) (nth 13 frame 0)) else None).

Lemma packet_addr_spec P X P' X' c Dev i m :
  net_live P X Dev c P' X' -> 0 <= i < MaxPending (RxRing (Rx Dev)) ->
  rx_chain m (RxRing (Rx Dev)) (RxBufDeviceBase (Rx Dev)) NetReqSize 1514 i ->
  u64 (RxBuf (Rx Dev) + u64 ((desc_at m (RxRing (Rx Dev)) (2 * i + 1)).1.1.1 - RxBufDeviceBase (Rx Dev))) = packet_addr Dev i /\
  P' !! RxBuf (Rx Dev) = Some (RxBufNrPages (Rx Dev)) /\ RxBuf (Rx Dev) <= packet_addr Dev i /\
  packet_addr Dev i + 1514 <= RxBuf (Rx Dev) + EFI_PAGE_SIZE * RxBufNrPages (Rx Dev).
Proof.
  intros [] Hi (_ & Hc & _). rewrite Hc. cbn [fst snd]. destruct nl_rxbuf as (H1 & H2 & H3).
  pose proof (overlay_lookup _ _ _ (RxBuf (Rx Dev)) _ nl_pages ltac:(by left)) as HP.
  destruct (MaxPending_bounds _ _ nl_rx (proj2 nl_queue)) as [Hm _]. unfold VNET_MAX_PENDING, rx_bytes, MAX_ADDRESS in *.
  unfold packet_addr, rx_addr. set (base := RxBufDeviceBase (Rx Dev)) in *.
  assert (0 < NetReqSize <= 12) as Hreq by (destruct NetReqSize_cases as [-> | ->]; lia).
  assert (i * (NetReqSize + 1514) + NetReqSize + 1514 <= MaxPending (RxRing (Rx Dev)) * (NetReqSize + 1514)) as Hle by nia.
  assert (0 <= i * (NetReqSize + 1514)) as H0 by nia.
  split; [|split_and!; [done|lia|lia]]. unfold u64. rewrite Z.add_mod_idemp_l, Zminus_mod_idemp_l, Z.add_mod_idemp_r by lia.
  rewrite Z.mod_small; lia.
Qed.

(** The packet is delivered to [B] and its chain handed back. *)
Definition packet_delivered s (P' : page_map) (X' : gmap Z mapping) es m Dev (want : rx_wants) (B i len : Z)
    (r : EFI_STATUS * rx_out * VNET_DEV) s' : Prop :=
  let frame := mem_get m (packet_addr Dev i) len in
  r.1.2 = packet_out want frame /\ chain_recycled s P' X' es (mem_set m B frame) Dev (2 * i) r.1.1 r.2 s'.

Lemma mem_get_sub m a n k j :
  0 <= k -> 0 <= j -> k + j <= n -> mem_get m (a + k) j = take (Z.to_nat j) (drop (Z.to_nat k) (mem_get m a n)).
Proof.
  intros Hk Hj Hn. replace n with (k + (j + (n - k - j))) by lia. rewrite !mem_get_app by lia.
  rewrite drop_app_length' by (by rewrite length_mem_get). by rewrite take_app_length' by (by rewrite length_mem_get).
Qed.
Lemma mem_get_nth m a n k : 0 <= k < n -> nth (Z.to_nat k) (mem_get m a n) 0 = m (a + k).
Proof.
  intros Hk. apply nth_lookup_Some. rewrite mem_get_lookup by lia. by rewrite Z2Nat.id by lia.
Qed.

Lemma DeliverPacket_spec Dev want B i len c s w m P X P' X' es :
  snm_ok (Snm Dev) -> net_live P X Dev c P' X' -> 0 <= i < MaxPending (RxRing (Rx Dev)) ->
  rx_chain m (RxRing (Rx Dev)) (RxBufDeviceBase (Rx Dev)) NetReqSize 1514 i -> 14 <= len <= 1514 -> apart P' B len ->
  wp (DeliverPacket Dev want B (2 * i) len) (packet_delivered s P' X' es m Dev want B i len) (at_ s w m P' X' es).
Proof.
  intros [HM _] HL Hi Hch Hlen Hap. destruct (packet_addr_spec _ _ _ _ _ _ _ _ HL Hi Hch) as (Hptr & HP & Hlo & Hhi).
  pose proof (nl_rx _ _ _ _ _ _ HL) as Hr. pose proof (ro_queue _ _ Hr) as HQ.
  destruct (MaxPending_bounds _ _ Hr (proj2 (nl_queue _ _ _ _ _ _ HL))) as [_ HmQ].
  remember (RxRing (Rx Dev)) as r eqn:Er. specialize (Hap _ _ HP).
  assert (forall k n, 0 <= k -> k + n <= 1514 -> in_pages P' (packet_addr Dev i + k) n = true) as Hin.
  { intros k n Hk Hn. eapply in_pages_intro; [exact HP|]. unfold page_range. lia. }
  assert (u32 (2 * i + 1) = 2 * i + 1) as Eu by (unfold u32; apply Z.mod_small; lia).
  unfold DeliverPacket. cbv zeta. rewrite <-Er, Eu, HM. wp_step.
  pose proof (desc_part r P' (2 * i + 1) 0 8 Hr ltac:(lia) ltac:(lia) ltac:(unfold SIZEOF_DESC; lia)) as HD.
  rewrite Z.add_0_r in HD. apply wp_at_read; [exact HD|].
  change (le_combine (mem_get m (Desc r + SIZEOF_DESC * (2 * i + 1)) 8)) with (desc_at m r (2 * i + 1)).1.1.1.
  rewrite Hptr. wp_step. apply wp_at_bytes; [rewrite <-(Z.add_0_r (packet_addr Dev i)); apply Hin; lia|].
  set (frame := mem_get m (packet_addr Dev i) len).
  assert (length frame = Z.to_nat len) as Hfl by apply length_mem_get.
  assert (forall k j, 0 <= k -> 0 <= j -> k + j <= len ->
    mem_get (mem_set m B frame) (packet_addr Dev i + k) j = take (Z.to_nat j) (drop (Z.to_nat k) frame)) as Hget.
  { intros k j Hk Hj Hkj. rewrite mem_get_set_disjoint by lia. by apply mem_get_sub. }
  wp_step. apply wp_at_poke. wp_step. apply wp_at_bytes; [rewrite <-(Z.add_0_r (packet_addr Dev i)); apply Hin; lia|].
  wp_step. apply wp_at_bytes; [apply Hin; lia|]. wp_step. apply wp_at_read; [apply Hin; lia|].
  wp_step. apply wp_at_read; [apply Hin; lia|].
  rewrite !byte_at. rewrite !(mem_set_outside m B) by lia.
  pose proof (Hget 0 6 ltac:(lia) ltac:(lia) ltac:(lia)) as Hg0. rewrite Z.add_0_r in Hg0.
  rewrite Hg0, (Hget 6 6) by lia.
  eapply wp_mono; [by apply RecycleDesc_spec; rewrite <-Er|].
  intros [[St o] D] s' (-> & N & Hrec & ->). split; cbn [fst snd]; [|exact Hrec].
  unfold packet_out, big_endian. fold frame. rewrite Hfl, Z2Nat.id by lia.
  rewrite <-(mem_get_nth m (packet_addr Dev i) len 12), <-(mem_get_nth m (packet_addr Dev i) len 13) by lia. done.
Qed.

Lemma VirtioNetReceive_spec Dev want n B i L c s w m P X P' X' es :
  let len := L - NetReqSize in
  let short := mkRxOut len None None None None in
  State (Snm Dev) = EfiSimpleNetworkInitialized -> snm_ok (Snm Dev) -> net_live P X Dev c P' X' ->
  rx_completed m Dev i L -> B <> 0 -> apart P' B len ->
  wp (VirtioNetReceive Dev want n B) (fun r s' =>
    if n <? len then r = (EFI_BUFFER_TOO_SMALL, short, Dev) /\ s' = at_ s w m P' X' es
    else if len <? 14 then exists N, r.1 = (EFI_DEVICE_ERROR, short) /\ chain_recycled s P' X' es m Dev (2 * i) N r.2 s'
    else packet_delivered s P' X' es m Dev want B i len r s')
    (at_ s w m P' X' es).
Proof.
  intros len short HS Hok HL (Hne & Hel & Hi & Hch & HLb) HB Hap. pose proof (nl_rx _ _ _ _ _ _ HL) as Hr.
  pose proof (ro_queue _ _ Hr) as HQ.
  destruct (MaxPending_bounds _ _ Hr (proj2 (nl_queue _ _ _ _ _ _ HL))) as [_ HmQ].
  destruct (flags_part _ _ Hr) as (_ & _ & Hui).
  unfold VirtioNetReceive. cbv zeta. rewrite HS. destruct (Z.eqb_spec B 0); [done|].
  wp_step. apply wp_at_read; [done|]. change (le_combine (mem_get m ?a 2)) with (u16_at m a).
  destruct (Z.eqb_spec (RxLastUsed (Rx Dev)) (u16_at m (Used_Idx (RxRing (Rx Dev))))); [congruence|].
  wp_step. apply wp_modulo; [lia|]. remember (RxLastUsed (Rx Dev) mod QueueSize (RxRing (Rx Dev))) as k eqn:Ek.
  assert (0 <= k < QueueSize (RxRing (Rx Dev))) as Hk by (subst k; apply Z.mod_pos_bound; lia).
  unfold used_elem in Hel. cbv zeta in Hel. apply pair_eq in Hel as [Hel1 Hel2].
  pose proof (used_part _ _ k 0 Hr Hk ltac:(lia)) as HU. rewrite Z.add_0_r in HU.
  wp_step. apply wp_at_read; [exact HU|]. wp_step. apply wp_at_read; [by apply used_part|]. rewrite Hel1, Hel2.
  destruct Hch as (Hc1 & Hc2 & Hc3). pose proof (conj Hc1 (conj Hc2 Hc3)) as Hch.
  assert (u32 (2 * i + 1) = 2 * i + 1) as Eu by (unfold u32; apply Z.mod_small; lia). rewrite Eu.
  wp_step. apply wp_at_read; [apply desc_part; [done|lia|lia|unfold SIZEOF_DESC; lia]|].
  change (le_combine (mem_get m (Desc (RxRing (Rx Dev)) + SIZEOF_DESC * (2 * i) + 8) 4))
    with (desc_at m (RxRing (Rx Dev)) (2 * i)).1.1.2. rewrite Hc1. cbn [fst snd].
  wp_step. wp_step; [lia|].
  wp_step. apply wp_at_read; [apply desc_part; [done|lia|lia|unfold SIZEOF_DESC; lia]|].
  change (le_combine (mem_get m (Desc (RxRing (Rx Dev)) + SIZEOF_DESC * (2 * i + 1) + 8) 4))
    with (desc_at m (RxRing (Rx Dev)) (2 * i + 1)).1.1.2. rewrite Hc2. cbn [fst snd].
  wp_step. wp_step; [lia|]. fold len. destruct (n <? len); [by wp_step|].
  rewrite (proj1 Hok). destruct (Z.ltb_spec len 14).
  - eapply wp_mono; [by apply RecycleDesc_spec|]. intros [[St o] D] s' (-> & N & Hrec & ->). exists N. done.
  - eapply DeliverPacket_spec; try done. lia.
Qed.

(** ** VirtioNetGetStatus *)
(** The transmit state once the packet of chain [h] is taken back. *)
Definition with_recycled (c : oc OC) (h : Z) Dev : VNET_DEV :=
  let t := Tx Dev in
  let cur := TxCurPending t - 1 in
  set_tx (mkTx (TxRing t) (TxRingMap t) (TxMaxPending t) cur (<[Z.to_nat cur := h]> (TxFreeStack t)) (TxSharedReq t)
            (TxSharedReqMap t) (u16 (TxLastUsed t + 1)) (Some c)) Dev.

(** The chain that the next used element names, and its packet's address. *)
Definition tx_used (m : memory) Dev : Z :=
  u32 (used_elem m (TxRing (Tx Dev)) (TxLastUsed (Tx Dev) mod QueueSize (TxRing (Tx Dev)))).1.
Definition tx_used_addr (m : memory) Dev : Z := (desc_at m (TxRing (Tx Dev)) (tx_used m Dev + 1)).1.1.1.

(** The element is one of the driver's chains, with a pending packet. *)
Definition tx_completed (m : memory) Dev (c : oc OC) : Prop :=
  0 < TxCurPending (Tx Dev) /\ tx_used m Dev < 2 * TxMaxPending (Tx Dev) - 1 /\ tx_used_addr m Dev ∈ (oc_entries c).*1.

(** Its packet is unmapped and forgotten, its chain is free again. *)
Definition tx_recycled s (P' : page_map) (X' : gmap Z mapping) es m Dev (c : oc OC) (r : EFI_STATUS * Z * VNET_DEV) s' : Prop :=
  exists info c' w' m',
    r = (EFI_SUCCESS, Info_Buffer info, with_recycled c' (tx_used m Dev) Dev) /\
    0 < TxCurPending (Tx Dev) /\ 0 <= tx_used m Dev <= 2 * TxMaxPending (Tx Dev) - 2 /\ oc_wf c' /\
    oc_entries c ≡ₚ (tx_used_addr m Dev, info) :: oc_entries c' /\
    s' = at_ (add_held (-1) 0 0 0 s) w' m' P' (delete (BufMap info) X') (es ++ [EvUnmap (BufMap info)]).

Lemma RecycleTxBuf_spec Dev c k s w m P X P' X' es :
  net_live P X Dev c P' X' ->
  wpe (RecycleTxBuf Dev k) (fun r s' =>
    if TxLastUsed (Tx Dev) =? k then r = (EFI_SUCCESS, 0, Dev) /\ s' = at_ s w m P' X' es
    else tx_recycled s P' X' es m Dev c r s')
    (fun t => t = AssertFailed /\ ~ tx_completed m Dev c) (at_ s w m P' X' es).
Proof.
  intros HL. pose proof HL as [Hc Hwf _ Hmaps _ Htx [HQt _] _ Hmax [Hcl Hcm] Hst _].
  pose proof (MaxPending_bounds _ _ Htx HQt) as [Hm1 Hm2]. unfold VNET_MAX_PENDING in Hm1. rewrite <-Hmax in Hm1, Hm2.
  unfold RecycleTxBuf. cbv zeta. destruct (_ =? k); [by apply wp_wpe; wp_step|].
  pose proof (ro_queue _ _ Htx) as HQ.
  apply wpe_bind, wpe_ASSERT_if; [intros; split; [done|unfold tx_completed; lia]|]. intros Hcur.
  apply wpe_bind, wpe_ASSERT_if; [intros; split; [done|unfold tx_completed; lia]|]. intros _.
  apply wpe_bind_wp, wp_modulo; [lia|].
  remember (TxLastUsed (Tx Dev) mod QueueSize (TxRing (Tx Dev))) as j eqn:Ej.
  assert (0 <= j < QueueSize (TxRing (Tx Dev))) as Hj by (subst j; apply Z.mod_pos_bound; lia).
  pose proof (used_part _ _ j 0 Htx Hj ltac:(lia)) as HU. rewrite Z.add_0_r in HU.
  apply wpe_bind_wp, wp_at_read; [exact HU|].
  match goal with |- context [u32 ?v] => assert (u32 v = tx_used m Dev) as -> by (unfold tx_used; by rewrite <-Ej) end.
  remember (tx_used m Dev) as h eqn:Eh.
  assert (0 <= h) as H0 by (subst h; unfold tx_used, u32; apply Z.mod_pos_bound; lia).
  assert (u32 (2 * TxMaxPending (Tx Dev) - 1) = 2 * TxMaxPending (Tx Dev) - 1) as -> by (unfold u32; apply Z.mod_small; lia).
  apply wpe_bind, wpe_ASSERT_if; [intros; split; [done|unfold tx_completed; lia]|]. intros Hh.
  assert (0 <= h + 1 < QueueSize (TxRing (Tx Dev))) as Hh1 by lia.
  pose proof (desc_part _ _ (h + 1) 0 8 Htx Hh1 ltac:(lia) ltac:(unfold SIZEOF_DESC; lia)) as HD. rewrite Z.add_0_r in HD.
  apply wpe_bind_wp, wp_at_read; [exact HD|].
  match goal with |- context [VirtioNetUnmapTxBuf _ ?a] => assert (a = tx_used_addr m Dev) as Ea by (unfold tx_used_addr; by rewrite <-Eh) end.
  rewrite Ea. clear Ea.
  assert (u16 (TxCurPending (Tx Dev) - 1) = TxCurPending (Tx Dev) - 1) as -> by (unfold u16; apply Z.mod_small; lia).
  assert (u16 h = h) as -> by (unfold u16; apply Z.mod_small; lia).
  destruct (lookup_lt_is_Some_2 (TxFreeStack (Tx Dev)) (Z.to_nat (TxCurPending (Tx Dev) - 1))) as [old Hold]; [lia|].
  apply wpe_bind_wp. rewrite wp_deref. exists old. split; [done|].
  apply wpe_bind_wp. rewrite wp_deref. exists c. split; [done|].
  unfold VirtioNetUnmapTxBuf. destruct (oc_find c (tx_used_addr m Dev)) as [info|] eqn:EF.
  2:{ apply wpe_bind_wp. wp_step. change (EFI_ERROR EFI_INVALID_PARAMETER) with true. cbv iota.
      apply wpe_bind, wpe_ASSERT_if; [|done]. intros _. split; [done|]. intros (_ & _ & Hin).
      by apply (oc_find_None c _ Hwf) in EF. }
  apply (oc_find_spec _ _ _ Hwf) in EF. destruct (oc_delete_perm _ _ _ Hwf EF) as [Hwf' Hp].
  destruct (holds_lookup _ _ _ (BufMap info) Hmaps) as [x Hx].
  { right; right. apply elem_of_app. left. unfold bufmaps. rewrite Hp. by left. }
  apply wpe_bind_wp. wp_step. eapply wp_at_Unmap; [exact Hx|]. intros _ w1 m1. wp_step. apply wp_at_free_pool. wp_step.
  change (EFI_ERROR EFI_SUCCESS) with false. cbv iota. apply wp_wpe. wp_step.
  exists info, (oc_delete c (tx_used_addr m Dev)), w1, m1. rewrite <-Eh. split_and!; try done; lia.
Qed.

Lemma tx_recycled_live s P X P' X' es m Dev c r s' :
  net_live P X Dev c P' X' -> tx_recycled s P' X' es m Dev c r s' ->
  exists c' X'' w' m' es', net_live P X r.2 c' P' X'' /\ tx_pool c' = tx_pool c - 1 /\
    s' = at_ (add_held (-1) 0 0 0 s) w' m' P' X'' es'.
Proof.
  intros [] (info & c' & w' & m' & -> & Hcur & Hh & Hwf' & Hp & ->).
  assert (length (oc_entries c) = S (length (oc_entries c'))) as Hl by by rewrite Hp.
  exists c'. eexists _, _, _, _. split; [|split; [unfold tx_pool; lia|reflexivity]]. cbn [snd].
  split; cbn; try done.
  - apply holds_delete. eapply holds_perm; [|exact nl_maps]. unfold bufmaps. rewrite Hp. csimpl.
    by rewrite !(Permutation_swap (BufMap info)).
  - lia.
  - by rewrite length_insert.
  - apply Forall_insert; [done|lia].
Qed.

(** The mode once the link status is read ([present]: the link is up). *)
Definition link_read (present : bool) Dev : VNET_DEV :=
  if MediaPresentSupported (Snm Dev) then set_snm (set_media true present (Snm Dev)) Dev else Dev.

Lemma net_live_snm P X Dev c P' X' snm : net_live P X Dev c P' X' -> net_live P X (set_snm snm Dev) c P' X'.
Proof. by intros []. Qed.
Lemma net_live_link P X Dev c P' X' b : net_live P X Dev c P' X' -> net_live P X (link_read b Dev) c P' X'.
Proof. unfold link_read. destruct (MediaPresentSupported _); [apply net_live_snm|done]. Qed.

Definition pending_interrupts (m : memory) Dev : Z :=
  Z.lor (if RxLastUsed (Rx Dev) =? u16_at m (Used_Idx (RxRing (Rx Dev))) then 0 else RECEIVE_INTERRUPT)
    (if TxLastUsed (Tx Dev) =? u16_at m (Used_Idx (TxRing (Tx Dev))) then 0 else TRANSMIT_INTERRUPT).

(** What is reported at the memory [m]. *)
Definition reported s (P' : page_map) (X' : gmap Z mapping) es w m Dev (c : oc OC) (wi wt : bool)
    (r : EFI_STATUS * status_out * VNET_DEV) s' : Prop :=
  Out_InterruptStatus r.1.2 = (if wi then Some (pending_interrupts m Dev) else None) /\
  if wt && negb (TxLastUsed (Tx Dev) =? u16_at m (Used_Idx (TxRing (Tx Dev)))) then
    exists TxBuf, Out_TxBuf r.1.2 = Some TxBuf /\ tx_recycled s P' X' es m Dev c (r.1.1, TxBuf, r.2) s'
  else r.1.1 = EFI_SUCCESS /\ Out_TxBuf r.1.2 = (if wt then Some 0 else None) /\ r.2 = Dev /\ s' = at_ s w m P' X' es.

Lemma ReportStatus_spec Dev c wi wt s w m P X P' X' es :
  net_live P X Dev c P' X' ->
  wpe (ReportStatus Dev wi wt) (reported s P' X' es w m Dev c wi wt)
    (fun t => t = AssertFailed /\ ~ tx_completed m Dev c) (at_ s w m P' X' es).
Proof.
  intros HL. unfold ReportStatus. cbv zeta.
  destruct (flags_part _ _ (nl_rx _ _ _ _ _ _ HL)) as (_ & _ & HU1).
  destruct (flags_part _ _ (nl_tx _ _ _ _ _ _ HL)) as (_ & _ & HU2).
  apply wpe_bind_wp, wp_at_read; [exact HU1|]. apply wpe_bind_wp, wp_at_read; [exact HU2|].
  fold (u16_at m (Used_Idx (RxRing (Rx Dev)))). fold (u16_at m (Used_Idx (TxRing (Tx Dev)))).
  set (k := u16_at m (Used_Idx (TxRing (Tx Dev)))).
  apply wpe_bind. eapply wpe_mono with (P := fun i s' => i = (if wi then Some (pending_interrupts m Dev) else None) /\
    s' = at_ s w m P' X' es).
  { destruct wi; [|by apply wp_wpe; wp_step]. unfold pending_interrupts. fold k. destruct (_ =? k).
    - apply wp_wpe. wp_step. by rewrite Z.lor_0_r.
    - apply wpe_bind, wpe_ASSERT_if; [intros; split; [done|unfold tx_completed; lia]|]. intros _. apply wp_wpe. by wp_step. }
  intros i s' [-> ->]. destruct wt; [|apply wp_wpe; by wp_step].
  apply wpe_bind. eapply wpe_mono; [by eapply RecycleTxBuf_spec|].
  intros [[St b] D] s' H. apply wp_wpe. wp_step. unfold reported. fold k. cbn [fst snd andb Out_InterruptStatus Out_TxBuf].
  split; [done|]. destruct (TxLastUsed (Tx Dev) =? k); cbn [negb].
  - destruct H as [[= -> -> ->] ->]. done.
  - by exists b.
Qed.

(** The link status is not readable, or it and the queues are reported. *)
Definition status_result s (P' : page_map) (X' : gmap Z mapping) es Dev (c : oc OC) (wi wt : bool)
    (r : EFI_STATUS * status_out * VNET_DEV) s' : Prop :=
  (EFI_ERROR r.1.1 = true /\ r.1.2 = mkStatusOut None None /\ r.2 = Dev /\ exists w' m', s' = at_ s w' m' P' X' es) \/
  exists w1 m1 present, reported s P' X' es w1 m1 (link_read present Dev) c wi wt r s'.

(** Reading the link status, where the device has one. *)
Definition link_world Dev (w : W) (m : memory) (w1 : W) (m1 : memory) : Prop :=
  if MediaPresentSupported (Snm Dev)
  then exists St v, vio_ReadDevice Cfg_LinkStatus.1 Cfg_LinkStatus.2 w m = (St, v, m1, w1) /\ EFI_ERROR St = false
  else w1 = w /\ m1 = m.

Lemma VirtioNetGetStatus_spec Dev c wi wt s w m P X P' X' es :
  State (Snm Dev) = EfiSimpleNetworkInitialized -> net_live P X Dev c P' X' ->
  wpe (VirtioNetGetStatus Dev wi wt) (status_result s P' X' es Dev c wi wt)
    (fun t => t = AssertFailed /\ exists w1 m1, link_world Dev w m w1 m1 /\ ~ tx_completed m1 Dev c)
    (at_ s w m P' X' es).
Proof.
  intros HS HL. unfold VirtioNetGetStatus. cbv zeta. rewrite HS. apply wpe_bind. unfold ReadLinkStatus, link_world.
  destruct (MediaPresentSupported (Snm Dev)) eqn:HM; apply wp_wpe.
  - wp_step. apply wp_at_call_eq. intros [St v] w1 m1 ER. destruct (EFI_ERROR St) eqn:HE; wp_step; rewrite HE.
    + apply wp_wpe. wp_step. left. split; [done|]. split; [done|]. split; [done|]. by exists w1, m1.
    + set (up := negb _). change (set_snm _ Dev) with (set_snm (set_media true up (Snm Dev)) Dev).
      replace (set_snm (set_media true up (Snm Dev)) Dev) with (link_read up Dev) by (unfold link_read; by rewrite HM).
      eapply wpe_mono_trap; [eapply ReportStatus_spec; by apply net_live_link|intros; right; by exists w1, m1, up|].
      intros t [-> Hn]. split; [done|]. exists w1, m1. split; [eauto|]. intros Hc. apply Hn. unfold link_read. by rewrite HM.
  - wp_step. change (EFI_ERROR EFI_SUCCESS) with false. cbv iota.
    eapply wpe_mono_trap; [by eapply ReportStatus_spec| |].
    + intros r s' H. right. exists w, m, false. unfold link_read. by rewrite HM.
    + intros t [-> H]. split; [done|]. by exists w, m.
Qed.
End Traffic.
