(* ===== verification/VirtioNetSystem.v ===== *)
(** * VirtioNetDxe: the interface as a transition system

    Any sequence of calls, interleaved with arbitrary changes of the shared
    memory by the host. *)
From S2P Require Import Prelude Bytes Memory OrderedCollection Virtio VirtioProofs VirtioDriver VirtioNet VirtioNetRings VirtioNetInit VirtioNetTraffic.
From stdpp Require Import relations.
#[local] Open Scope Z_scope.

(** Calls of the Simple Network Protocol and of the event handlers. *)
Inductive net_op : Type :=
  | OpStart
  | OpStop
  | OpInitialize (ExtraRx ExtraTx : Z)
  | OpShutdown
  | OpTransmit (HeaderSize BufferSize Buffer : Z) (SrcAddr DestAddr : option (list Z)) (Protocol : option Z)
  | OpReceive (want : rx_wants) (BufferSize Buffer : Z)
  | OpGetStatus (WantInterrupt WantTxBuf : bool)
  | OpIsPacketAvailable
  | OpExitBoot.

Section System.
Context {W : Type} {V : VirtIo W} {VL : VirtIoLaws W} {BS : BootServices W} {NS : NetServices W}.
Context {OC : OrderedCollection Z TX_BUF_MAP_INFO W CompareAddress} {OL : OrderedCollectionLaws OC}.
Implicit Types (s : st (W:=W)) (Dev : VNET_DEV (OC:=OC)).

Definition run_op (op : net_op) Dev : M st VNET_DEV :=
  match op with
  | OpStart => r ← VirtioNetStart Dev; mret r.2
  | OpStop => r ← VirtioNetStop Dev; mret r.2
  | OpInitialize a b => r ← VirtioNetInitialize Dev a b; mret r.2
  | OpShutdown => r ← VirtioNetShutdown Dev; mret r.2
  | OpTransmit hs n B src dest proto => r ← VirtioNetTransmit Dev hs n B src dest proto; mret r.2
  | OpReceive want n B => r ← VirtioNetReceive Dev want n B; mret r.2
  | OpGetStatus wi wt => r ← VirtioNetGetStatus Dev wi wt; mret r.2
  | OpIsPacketAvailable => VirtioNetIsPacketAvailable Dev;; mret Dev
  | OpExitBoot => VirtioNetExitBoot Dev;; mret Dev
  end.

Inductive net_step : VNET_DEV * st -> VNET_DEV * st -> Prop :=
  | step_call op Dev s Dev' s' : run_op op Dev s = Done Dev' s' -> net_step (Dev, s) (Dev', s')
  | step_host w m Dev s : net_step (Dev, s) (Dev, set_world w m s).

(** [s0]: the state when the interface was stopped. *)
Definition net_inv s0 Dev s : Prop :=
  snm_ok (Snm Dev) /\
  match State (Snm Dev) with
  | EfiSimpleNetworkInitialized => exists c w m P' X' es,
      s = at_ (add_held (tx_pool c) 0 0 0 s0) w m P' X' es /\ net_live (Pages s0) (Maps s0) Dev c P' X'
  | _ => restored s0 (Pages s0) (Maps s0) s
  end.

(** The calls that may trap, and on what: Initialize on an assertion;
    Transmit on a device address that is in use by a pending packet; GetStatus
    on a used element that is not one of the pending chains; Receive on a used
    element that is not one of the driver's chains, intact, with a length
    within it (or on a caller's buffer inside the driver's own pages). *)
Definition op_trap (op : net_op) Dev s (t : trap) : Prop :=
  match op with
  | OpInitialize _ _ => t = AssertFailed
  | OpTransmit hs n B src dest proto => t = AssertFailed /\ exists c mf, TxBufCollection (Tx Dev) = Some c /\
      headed (Snm Dev) hs B src dest proto (Mem s) mf /\ tx_clash (Maps s) c B n (Env s) mf
  | OpReceive _ _ B => rx_trap t /\ forall i L, rx_completed (Mem s) Dev i L -> ~ apart (Pages s) B (L - NetReqSize)
  | OpGetStatus _ _ => t = AssertFailed /\ exists c w1 m1, TxBufCollection (Tx Dev) = Some c /\
      link_world Dev (Env s) (Mem s) w1 m1 /\ ~ tx_completed m1 Dev c
  | _ => False
  end.

Lemma net_inv_host s0 Dev s w m : net_inv s0 Dev s -> net_inv s0 Dev (set_world w m s).
Proof.
  intros [Hok H]. split; [done|]. destruct (State (Snm Dev)).
  - destruct H as (w' & m' & es & ->). by exists w, m, es.
  - destruct H as (w' & m' & es & ->). by exists w, m, es.
  - destruct H as (c & w' & m' & P' & X' & es & -> & HL). by exists c, w, m, P', X', es.
Qed.

(** One call. *)
Lemma run_fst {A} (m : M st (A * VNET_DEV)) (Q : VNET_DEV -> st -> Prop) E s :
  wpe m (fun r s' => Q r.2 s') E s -> wpe (r ← m; mret r.2) Q E s.
Proof. intros H. apply wpe_bind. eapply wpe_mono; [exact H|]. intros. by apply wp_wpe, wp_ret. Qed.

(** A trap excluded by another argument. *)
Lemma wpe_refine_trap {A} (f : M st A) (P Q : A -> st -> Prop) (E F : trap -> Prop) s :
  wpe f P E s -> (forall a s', P a s' -> Q a s') -> (forall t, E t -> f s = Trap t -> F t) -> wpe f Q F s.
Proof. unfold wpe. destruct (f s) as [a s'|t]; auto. Qed.

Lemma same_inv {A} s0 Dev s (a : A) E : net_inv s0 Dev s -> wpe (mret (a, Dev)) (fun r s' => net_inv s0 r.2 s') E s.
Proof. done. Qed.

Lemma initialize_inv s0 Dev a b s :
  net_inv s0 Dev s -> wpe (VirtioNetInitialize Dev a b) (fun r s' => net_inv s0 r.2 s') (op_trap (OpInitialize a b) Dev s) s.
Proof.
  intros HI. destruct ((0 <? a) || (0 <? b)) eqn:E0.
  { unfold VirtioNetInitialize. rewrite E0. by apply same_inv. }
  destruct (decide (State (Snm Dev) = EfiSimpleNetworkStarted)) as [HS|HS].
  2:{ unfold VirtioNetInitialize. rewrite E0, bool_decide_false by done. by apply same_inv. }
  assert (VirtioNetInitialize Dev a b = VirtioNetInitialize Dev 0 0) as -> by (unfold VirtioNetInitialize; by rewrite E0).
  destruct HI as [Hok H]. rewrite HS in H. destruct H as (w & m & es & ->).
  eapply wpe_mono; [by apply VirtioNetInitialize_spec|].
  intros [St D] s' [(HE & HSn & w' & m' & es' & -> & _)|(HE & HSn & c & w' & m' & P' & X' & es' & mn & -> & HL & _)]; cbn [snd] in *.
  - split; [by rewrite HSn|]. rewrite HSn, HS. exists w', m', (es ++ es'). unfold at_. cbn. by rewrite <-(assoc_L (++)).
  - split; [by rewrite HSn|]. rewrite HSn. cbn [set_state State]. exists c, w', m', P', X'. eexists. split; [|exact HL].
    unfold at_, add_held. cbn. by rewrite <-(assoc_L (++)).
Qed.

Lemma transmit_inv s0 Dev hs n B src dest proto s :
  net_inv s0 Dev s ->
  wpe (VirtioNetTransmit Dev hs n B src dest proto) (fun r s' => net_inv s0 r.2 s') (op_trap (OpTransmit hs n B src dest proto) Dev s) s.
Proof.
  intros HI. unfold VirtioNetTransmit. destruct (_ || _); [by apply same_inv|].
  destruct (State (Snm Dev)) eqn:HS; [by apply same_inv..|].
  pose proof HI as [Hok H]. rewrite HS in H. destruct H as (c & w & m & P' & X' & es & -> & HL).
  rewrite (proj1 Hok), (proj2 Hok). destruct (Z.ltb_spec n 14); [by apply same_inv|].
  destruct (Z.ltb_spec (14 + 1500) n); [by apply same_inv|].
  pose proof (proj2 (nl_cur _ _ _ _ _ _ HL)) as Hcm. apply wpe_bind, wpe_ASSERT_if; [lia|]. intros _.
  destruct (Z.eqb_spec (TxCurPending (Tx Dev)) (TxMaxPending (Tx Dev))); [by apply same_inv|].
  eapply wpe_mono_trap with (P := fun r s' => net_inv s0 r.2 s'); [|done|];
    [eapply QueuePacket_spec; [done|exact HL|lia|unfold is_u32; lia|..]|].
  - intros _ _. exact HI.
  - intros mf w' m' l _ _. split; [done|]. cbn [snd]. rewrite HS. by exists c, w', m', P', X', (es ++ l).
  - intros h mf out s' _ _ HQ. pose proof HQ as (? & ? & ? & ? & ? & ? & ? & ? & ? & _ & HD & _).
    eapply packet_queued_live in HQ as (c' & X'' & w' & m' & es' & HL' & Hpool & ->); [|done|lia].
    split; rewrite HD in *; [done|]. cbn [with_pending Snm set_tx]. rewrite HS. exists c', w', m', P', X'', es'.
    split; [|done]. by rewrite add_held_add, Hpool.
  - intros t (-> & mf & Hh & Hcl). split; [done|]. exists c, mf. split; [by destruct HL|]. by split.
Qed.

Lemma receive_inv s0 Dev want n B s :
  net_inv s0 Dev s ->
  wpe (VirtioNetReceive Dev want n B) (fun r s' => net_inv s0 r.2 s') (op_trap (OpReceive want n B) Dev s) s.
Proof.
  intros HI. pose proof HI as [Hok H]. destruct (State (Snm Dev)) eqn:HS.
  1,2: unfold VirtioNetReceive; cbv zeta; rewrite HS; destruct (B =? 0); by apply same_inv.
  destruct H as (c & w & m & P' & X' & es & -> & HL).
  destruct (Z.eqb_spec B 0) as [->|HB]; [unfold VirtioNetReceive; cbv zeta; by apply same_inv|].
  eapply wpe_refine_trap; [apply VirtioNetReceive_any; intros; apply (nl_rx _ _ _ _ _ _ HL)|..].
  - intros [[St o] D] s' (k & w' & m' & es' & HD & ->). cbn [snd] in *.
    assert (snm_ok (Snm D) /\ State (Snm D) = EfiSimpleNetworkInitialized /\ net_live (Pages s0) (Maps s0) D c P' X') as (H1 & H2 & H3).
    { destruct HD as [->|[_ ->]]; [done|]. split; [done|]. split; [done|]. by destruct HL. }
    split; [done|]. rewrite H2. by exists c, w', m', P', X', es'.
  - intros t Ht Hrun. split; [done|]. intros i L Hc Hap. cbn [Mem Pages at_] in *.
    pose proof (VirtioNetReceive_spec Dev want n B i L c (add_held (tx_pool c) 0 0 0 s0) w m _ _ _ _ es HS Hok HL Hc HB Hap) as Hwp.
    unfold wp in Hwp. by rewrite Hrun in Hwp.
Qed.

Lemma get_status_inv s0 Dev wi wt s :
  net_inv s0 Dev s ->
  wpe (VirtioNetGetStatus Dev wi wt) (fun r s' => net_inv s0 r.2 s') (op_trap (OpGetStatus wi wt) Dev s) s.
Proof.
  intros HI. pose proof HI as [Hok H]. destruct (State (Snm Dev)) eqn:HS.
  1,2: unfold VirtioNetGetStatus; rewrite HS; by apply same_inv.
  destruct H as (c & w & m & P' & X' & es & -> & HL).
  eapply wpe_mono_trap; [by eapply VirtioNetGetStatus_spec| |].
  2:{ intros t (-> & w1 & m1 & ? & ?). split; [done|]. exists c, w1, m1. split; [by destruct HL|]. by split. }
  assert (forall b, snm_ok (Snm (link_read b Dev)) /\ State (Snm (link_read b Dev)) = EfiSimpleNetworkInitialized) as Hlink.
  { intros b. unfold link_read. by destruct (MediaPresentSupported (Snm Dev)). }
  intros r s' [(_ & _ & -> & w' & m' & ->)|(w1 & m1 & b & _ & Hr)].
  { split; [done|]. rewrite HS. by exists c, w', m', P', X', es. }
  destruct (Hlink b) as [H1 H2]. apply (net_live_link _ _ _ _ _ _ b) in HL. destruct (wt && _).
  - destruct Hr as (buf & _ & Hr). pose proof Hr as (? & ? & ? & ? & [= _ _ HD] & _).
    eapply tx_recycled_live in Hr as (c' & X'' & w' & m' & es' & HL' & Hpool & ->); [|done].
    cbn [snd] in HL'. rewrite HD in *. split; [done|]. cbn [with_recycled Snm set_tx]. rewrite H2.
    exists c', w', m', P', X'', es'. split; [|done]. rewrite add_held_add, Hpool. done.
  - destruct Hr as (_ & _ & -> & ->). split; [done|]. rewrite H2. by exists c, w1, m1, P', X', es.
Qed.

Lemma restored_trans s s0 P X w m es s' : restored (at_ s0 w m P X es) P X s' -> restored s0 P X s'.
Proof. intros (w' & m' & es' & ->). exists w', m', (es ++ es'). unfold at_. cbn. by rewrite (assoc_L (++)). Qed.

Lemma shutdown_inv s0 Dev s :
  net_inv s0 Dev s -> wp (VirtioNetShutdown Dev) (fun r s' => net_inv s0 r.2 s' /\
    (State (Snm Dev) = EfiSimpleNetworkInitialized ->
     r.1 = EFI_SUCCESS /\ State (Snm r.2) = EfiSimpleNetworkStarted /\ restored s0 (Pages s0) (Maps s0) s')) s.
Proof.
  intros HI. pose proof HI as [Hok H]. destruct (State (Snm Dev)) eqn:HS.
  1,2: unfold VirtioNetShutdown; rewrite HS; wp_step; split; [exact HI|discriminate].
  destruct H as (c & w & m & P' & X' & es & -> & HL).
  eapply wp_mono; [by eapply VirtioNetShutdown_spec|]. intros [St D] s' (HE & HD & HR). cbn [fst snd] in *.
  split; [split; rewrite HD; done|]. intros _. by rewrite HD.
Qed.

Lemma start_stop_inv s0 Dev s :
  net_inv s0 Dev s ->
  wp (VirtioNetStart Dev) (fun r s' => net_inv s0 r.2 s') s /\
  wp (VirtioNetStop Dev) (fun r s' => net_inv s0 r.2 s' /\
    (State (Snm Dev) = EfiSimpleNetworkStarted -> r.1 = EFI_SUCCESS /\ State (Snm r.2) = EfiSimpleNetworkStopped /\ s' = s)) s.
Proof.
  intros HI. pose proof HI as [Hok H]. unfold VirtioNetStart, VirtioNetStop.
  destruct (State (Snm Dev)) eqn:HS; repeat case_bool_decide; try congruence; cbn [negb];
    (split; [wp_step; try exact HI|wp_step; (split; [try exact HI|done])]); cbn [snd]; (split; [done|exact H]).
Qed.

Lemma run_op_inv s0 op Dev s : net_inv s0 Dev s -> wpe (run_op op Dev) (net_inv s0) (op_trap op Dev s) s.
Proof.
  intros HI. destruct op; cbn [run_op]; try apply run_fst.
  - apply wp_wpe. by apply start_stop_inv.
  - apply wp_wpe. eapply wp_mono; [by apply start_stop_inv|]. by intros r s' [H _].
  - by apply initialize_inv.
  - apply wp_wpe. eapply wp_mono; [by apply shutdown_inv|]. by intros r s' [H _].
  - by apply transmit_inv.
  - by apply receive_inv.
  - by apply get_status_inv.
  - apply wp_wpe. unfold VirtioNetIsPacketAvailable. wp_step. pose proof HI as [Hok H].
    destruct (State (Snm Dev)) eqn:HS; case_bool_decide; try congruence; cbn [negb]; [wp_steps; exact HI..|].
    destruct H as (c & w & m & P' & X' & es & -> & HL).
    destruct (flags_part _ _ (nl_rx _ _ _ _ _ _ HL)) as (_ & _ & HU). wp_step. apply wp_at_read; [exact HU|].
    destruct (negb _); [|by wp_steps]. apply wp_at_call. intros _ w' m'. wp_step. by apply (net_inv_host _ _ _ w' m' HI).
  - apply wp_wpe. unfold VirtioNetExitBoot. wp_step. pose proof HI as [Hok H].
    destruct (State (Snm Dev)) eqn:HS; case_bool_decide; try congruence; [wp_steps; exact HI..|].
    destruct H as (c & w & m & P' & X' & es & -> & HL). wp_step. apply wp_at_SetDeviceStatus. intros _ w' m'. wp_steps.
    split; [done|]. rewrite HS. by exists c, w', m', P', X', (es ++ [EvStatus 0]).
Qed.

Lemma net_step_inv s0 Dev s Dev' s' : net_step (Dev, s) (Dev', s') -> net_inv s0 Dev s -> net_inv s0 Dev' s'.
Proof.
  intros Hs HI. inversion Hs as [op ? ? ? ? Hrun|]; subst; [|by apply net_inv_host].
  pose proof (run_op_inv s0 op Dev s HI) as H. unfold wpe in H. by rewrite Hrun in H.
Qed.

(** Everything reachable satisfies the invariant. *)
Lemma net_reachable_inv s0 Dev0 Dev s :
  snm_ok (Snm Dev0) -> State (Snm Dev0) = EfiSimpleNetworkStopped -> rtc net_step (Dev0, s0) (Dev, s) -> net_inv s0 Dev s.
Proof.
  intros Hok HS HR. remember (Dev0, s0) as x eqn:Ex. remember (Dev, s) as y eqn:Ey.
  assert (net_inv s0 x.1 x.2) as HI.
  { subst x. split; [done|]. cbn [fst snd]. rewrite HS. exists (Env s0), (Mem s0), []. apply at_self. }
  replace Dev with y.1 by (by subst y). replace s with y.2 by (by subst y). clear Ex Ey Hok HS Dev s.
  induction HR as [|[D1 s1] [D2 s2] y H12 _ IH]; [done|]. apply IH. by eapply net_step_inv.
Qed.

(** The way down from state Initialized. *)
Lemma net_inv_down s0 Dev s :
  net_inv s0 Dev s -> State (Snm Dev) = EfiSimpleNetworkInitialized ->
  wp (r ← VirtioNetShutdown Dev; VirtioNetStop r.2)
    (fun r s' => r.1 = EFI_SUCCESS /\ State (Snm r.2) = EfiSimpleNetworkStopped /\ restored s0 (Pages s0) (Maps s0) s') s.
Proof.
  intros HI HS. wp_step. eapply wp_mono; [by apply shutdown_inv|]. intros r s1 [HI1 H1].
  destruct (H1 HS) as (_ & HS1 & HR). eapply wp_mono; [by apply (start_stop_inv s0)|]. intros r2 s2 [_ H2].
  destruct (H2 HS1) as (-> & HS2 & ->). done.
Qed.
End System.
