(* ===== verification/VirtioNetBind.v ===== *)
(** * VirtioNetDxe: the driver binding *)
From S2P Require Import Prelude Bytes Memory OrderedCollection Virtio VirtioProofs VirtioDriver VirtioNet VirtioNetRings VirtioNetInit.

Section Bind.
Context {W : Type} {V : VirtIo W} {VL : VirtIoLaws W} {BS : BootServices W} {NS : NetServices W}.
Context {OC : OrderedCollection Z TX_BUF_MAP_INFO W CompareAddress}.
Implicit Types (s : st (W:=W)) (Dev : VNET_DEV (OC:=OC)).

(** UninstallMultipleProtocolInterfaces refused once; its status is ignored. *)
Definition uninstall_refused : Prop :=
  exists w m St m' w', bs_UninstallInterface w m = (St, m', w') /\ EFI_ERROR St = true.

(** Everything is given back, but for an interface whose removal failed. *)
Definition given_back s (P : page_map) (X : gmap Z mapping) s' : Prop :=
  restored s P X s' \/ (uninstall_refused /\ restored (add_held 0 0 0 1 s) P X s').

Lemma wp_at_uninstall a b c d (Q : EFI_STATUS -> st -> Prop) s w m P X es :
  (forall St w' m' k, k = -1 \/ (k = 0 /\ uninstall_refused) ->
     Q St (at_ (add_held a b c (d + k) s) w' m' P X es)) ->
  wp UninstallInterface Q (at_ (add_held a b c d s) w m P X es).
Proof.
  intros HQ. unfold UninstallInterface. wp_step. rewrite wp_vcall. cbn [Env Mem at_].
  destruct (bs_UninstallInterface w m) as [[St m'] w'] eqn:E.
  change (set_world w' m' (at_ ?s0 w m P X es)) with (at_ s0 w' m' P X es). wp_step. destruct (EFI_ERROR St) eqn:HE.
  - wp_steps. rewrite <-(Z.add_0_r d). apply HQ. right. split; [done|]. by exists w, m, St, m', w'.
  - apply wp_at_Hold. rewrite add_held_add, !Z.add_0_r. wp_step. apply HQ. by left.
Qed.

(** ** Reading the MAC address *)
Lemma YieldDevice_spec St snm s w m P X es :
  wp (YieldDevice St snm) (fun out s' => out = (St, snm) /\ exists w' m' es', s' = at_ s w' m' P X es') (at_ s w m P X es).
Proof. unfold YieldDevice. wp_step. apply wp_at_SetDeviceStatus. intros. wp_step. eauto. Qed.

Lemma ReadMac_spec l s w m P X es :
  wp (ReadMac l) (fun out s' => (exists w' m', s' = at_ s w' m' P X es) /\
    (EFI_ERROR out.1 = false -> length out.2 = length l)) (at_ s w m P X es).
Proof.
  revert w m. induction l as [|i l IH]; intros w m; cbn [ReadMac]; [wp_step; eauto|].
  wp_step. apply wp_at_call. intros [St b] w1 m1. destruct (EFI_ERROR St) eqn:HE.
  - wp_step. split; [eauto|]. cbn [fst]. congruence.
  - wp_step. eapply wp_mono; [apply IH|]. intros [St2 l2] s' [(w2 & m2 & ->) H]. wp_step. cbn [fst snd] in *.
    split; [eauto|]. intros H2. cbn. by rewrite (H H2).
Qed.

(** Only addresses and media fields of the mode change. *)
Definition same_shape (a b : EFI_SIMPLE_NETWORK_MODE) : Prop :=
  State b = State a /\ MediaHeaderSize b = MediaHeaderSize a /\ MaxPacketSize b = MaxPacketSize a.

Lemma VirtioNetGetFeatures_spec snm s w m P X es :
  length (CurrentAddress snm) = 6%nat ->
  wp (VirtioNetGetFeatures snm) (fun out s' => same_shape snm out.2 /\
    (EFI_ERROR out.1 = false -> length (CurrentAddress out.2) = 6%nat) /\
    exists w' m' es', s' = at_ s w' m' P X es') (at_ s w m P X es).
Proof.
  intros H6. unfold VirtioNetGetFeatures. cbv zeta.
  apply wp_at_tell_try; [intros St w1 m1 HE; wp_step; split; [done|]; split; [cbn; congruence|eauto]|]. intros w1 m1.
  assert (forall St snm' w m es, same_shape snm snm' -> (EFI_ERROR St = false -> length (CurrentAddress snm') = 6%nat) ->
    wp (YieldDevice St snm') (fun out s' => same_shape snm out.2 /\
      (EFI_ERROR out.1 = false -> length (CurrentAddress out.2) = 6%nat) /\
      exists w' m' es', s' = at_ s w' m' P X es') (at_ s w m P X es)) as Hy.
  { intros. eapply wp_mono; [apply YieldDevice_spec|]. intros out s' [-> H']. done. }
  assert (forall St w m es, EFI_ERROR St = true ->
    wp (YieldDevice St snm) (fun out s' => same_shape snm out.2 /\
      (EFI_ERROR out.1 = false -> length (CurrentAddress out.2) = 6%nat) /\
      exists w' m' es', s' = at_ s w' m' P X es') (at_ s w m P X es)) as Hf.
  { intros. apply Hy; [done|congruence]. }
  apply wp_at_tell_try; [auto|]. intros w2 m2. apply wp_at_tell_try; [auto|]. intros w3 m3.
  wp_step. apply wp_at_call. intros [St4 F] w4 m4. destruct (EFI_ERROR St4) eqn:E4; [auto|].
  destruct (_ =? 0); [by apply Hf|]. wp_step. eapply wp_mono; [apply ReadMac_spec|].
  intros [St5 mac] s' [(w5 & m5 & ->) Hlen]. cbn [fst snd] in *. destruct (EFI_ERROR St5) eqn:E5; [by apply Hy; [|congruence]|].
  specialize (Hlen eq_refl).
  assert (length (mac ++ drop (length mac) (CurrentAddress snm)) = 6%nat) as Hmac.
  { rewrite length_app, length_drop, Hlen, H6. done. }
  destruct (_ =? 0); [by apply Hy|].
  wp_step. apply wp_CfgRead; [done|]. intros St6 v w6 m6 _. destruct (EFI_ERROR St6) eqn:E6; apply Hy; done.
Qed.

(** A fresh interface: stopped, with the advertised sizes, the address read
    from the device, and no packet. *)
Definition fresh_interface Dev : Prop :=
  snm_ok (Snm Dev) /\ State (Snm Dev) = EfiSimpleNetworkStopped /\ length (CurrentAddress (Snm Dev)) = 6%nat /\
  PermanentAddress (Snm Dev) = CurrentAddress (Snm Dev) /\ BroadcastAddress (Snm Dev) = replicate 6 0xFF.

Lemma VirtioNetSnpPopulate_spec Dev s w m P X es :
  length (CurrentAddress (Snm Dev)) = 6%nat ->
  wp (VirtioNetSnpPopulate Dev) (fun out s' =>
    (EFI_ERROR out.1 = true /\ exists w' m' es', s' = at_ s w' m' P X es') \/
    (out.1 = EFI_SUCCESS /\ fresh_interface out.2 /\ exists w' m' es', s' = at_ (add_held 0 0 2 0 s) w' m' P X es'))
    (at_ s w m P X es).
Proof.
  intros H6. unfold VirtioNetSnpPopulate. cbv zeta. wp_step. apply wp_at_acquire.
  { intros St w1 m1 HE. rewrite HE. wp_step. left. eauto. }
  intros St w1 m1 HE. rewrite HE.
  assert (forall St D w m es, EFI_ERROR St = true -> wp (CloseWaitForPacket D St) (fun out s' =>
    (EFI_ERROR out.1 = true /\ exists w' m' es', s' = at_ s w' m' P X es') \/
    (out.1 = EFI_SUCCESS /\ fresh_interface out.2 /\ exists w' m' es', s' = at_ (add_held 0 0 2 0 s) w' m' P X es'))
    (at_ (add_held 0 0 1 0 s) w m P X es)) as Hclose.
  { intros. unfold CloseWaitForPacket. wp_step. apply wp_at_release. intros. rewrite add_held_add.
    change (add_held (0 + 0) _ _ _ s) with (add_held 0 0 0 0 s). rewrite add_held_0. wp_step. left. eauto. }
  wp_step. eapply wp_mono; [by apply VirtioNetGetFeatures_spec|].
  intros [St2 snm] s' (Hsh & Hlen & w2 & m2 & es2 & ->). cbn [fst snd] in *.
  destruct (EFI_ERROR St2) eqn:E2; [by apply Hclose|].
  wp_step. apply wp_at_acquire; [intros St3 w3 m3 E3; rewrite E3; by apply Hclose|]. intros St3 w3 m3 E3. rewrite E3, add_held_add.
  wp_step. right. split; [done|]. split; [|eauto]. destruct Hsh as (H1 & H2 & H3). unfold fresh_interface, snm_ok. cbn.
  rewrite H1, H2, H3. split_and!; auto.
Qed.

(** The labels of VirtioNetDriverBindingStart. *)
Definition net_start_failed s (P : page_map) (X : gmap Z mapping) (out : bind_out (OC:=OC)) s' : Prop :=
  EFI_ERROR out.1 = true /\ out.2 = None /\ given_back s P X s'.

Lemma net_FreeVirtioNet_spec St k s w m P X es :
  EFI_ERROR St = true -> k = 0 \/ (k = 1 /\ uninstall_refused) ->
  wp (FreeVirtioNet St) (net_start_failed s P X) (at_ (add_held 1 0 0 k s) w m P X es).
Proof.
  intros HE Hk. unfold FreeVirtioNet. wp_step. apply wp_at_free_pool. rewrite add_held_add. wp_step.
  split; [done|]. split; [done|]. destruct Hk as [->|[-> Hu]].
  - left. by apply restored_held.
  - right. split; [done|]. by exists w, m, es.
Qed.
Lemma net_CloseVirtIo_spec St k s w m P X es :
  EFI_ERROR St = true -> k = 0 \/ (k = 1 /\ uninstall_refused) ->
  wp (CloseVirtIo St) (net_start_failed s P X) (at_ (add_held 1 1 0 k s) w m P X es).
Proof.
  intros HE Hk. unfold CloseVirtIo. wp_step. apply wp_at_release. intros. rewrite add_held_add, !Z.add_0_r.
  by apply net_FreeVirtioNet_spec.
Qed.
Lemma net_Evacuate_spec St k s w m P X es :
  EFI_ERROR St = true -> k = 0 \/ (k = 1 /\ uninstall_refused) ->
  wp (Evacuate St) (net_start_failed s P X) (at_ (add_held 1 1 2 k s) w m P X es).
Proof.
  intros HE Hk. unfold Evacuate, VirtioNetSnpEvacuate. wp_step. wp_step. apply wp_at_release. intros. apply wp_at_release.
  intros. rewrite !add_held_add, !Z.add_0_r. by apply net_CloseVirtIo_spec.
Qed.
Lemma net_FreeMac_spec St k s w m P X es :
  EFI_ERROR St = true -> k = 0 \/ (k = 1 /\ uninstall_refused) ->
  wp (FreeMacDevicePath St) (net_start_failed s P X) (at_ (add_held 2 1 2 k s) w m P X es).
Proof.
  intros HE Hk. unfold FreeMacDevicePath. wp_step. apply wp_at_free_pool. rewrite add_held_add, !Z.add_0_r.
  by apply net_Evacuate_spec.
Qed.

Definition managed s (P : page_map) (X : gmap Z mapping) s' : Prop :=
  exists w m es, s' = at_ (add_held 2 2 2 1 s) w m P X es.

Lemma net_Start_spec s w m P X es :
  wp VirtioNetDriverBindingStart (fun out s' => net_start_failed s P X out s' \/
    (out.1 = EFI_SUCCESS /\ exists Dev, out.2 = Some Dev /\ fresh_interface Dev /\ managed s P X s')) (at_ s w m P X es).
Proof.
  unfold VirtioNetDriverBindingStart. wp_step. apply wp_at_call. intros ok w1 m1. destruct ok; cbn [negb].
  2:{ wp_step. left. split; [done|]. split; [done|]. left. by exists w1, m1, es. }
  wp_step. apply wp_at_Hold. wp_step. apply wp_at_acquire.
  { intros St w2 m2 HE. rewrite HE. eapply wp_mono; [by apply net_FreeVirtioNet_spec; auto|]. auto. }
  intros St w2 m2 HE. rewrite HE, add_held_add. wp_step. eapply wp_mono; [by apply VirtioNetSnpPopulate_spec|].
  intros [St3 D] s' [(HE3 & w3 & m3 & es3 & ->)|(HE3 & Hfresh & w3 & m3 & es3 & ->)]; cbn [fst snd] in *.
  { rewrite HE3. eapply wp_mono; [by apply net_CloseVirtIo_spec; auto|]. auto. }
  subst St3. change (EFI_ERROR EFI_SUCCESS) with false. cbv iota. rewrite add_held_add.
  wp_step. apply wp_at_call. intros St4 w4 m4. destruct (EFI_ERROR St4) eqn:E4.
  { eapply wp_mono; [by apply net_Evacuate_spec; auto|]. auto. }
  wp_step. apply wp_at_call. intros ok5 w5 m5. destruct ok5; cbn [negb].
  2:{ eapply wp_mono; [by apply net_Evacuate_spec; auto|]. auto. }
  wp_step. apply wp_at_Hold. rewrite add_held_add. wp_step. apply wp_at_acquire.
  { intros St6 w6 m6 E6. rewrite E6. eapply wp_mono; [by apply net_FreeMac_spec; auto|]. auto. }
  intros St6 w6 m6 E6. rewrite E6, add_held_add. wp_step. apply wp_at_call. intros St7 w7 m7. destruct (EFI_ERROR St7) eqn:E7.
  - unfold UninstallMultiple. wp_step. apply wp_at_uninstall. intros St8 w8 m8 k Hk.
    eapply wp_mono; [apply net_FreeMac_spec; [done|]|auto]. destruct Hk as [->|[-> Hu]]; auto.
  - wp_step. apply wp_at_Hold. rewrite add_held_add. wp_step. right. split; [done|]. exists D. split; [done|]. split; [done|].
    by eexists _, _, _.
Qed.

(** Stopping: the child first, then the controller. *)
Lemma net_Stop_spec Dev s P X s1 :
  managed s P X s1 ->
  (State (Snm Dev) <> EfiSimpleNetworkStopped ->
   wpe (VirtioNetDriverBindingStop 1 Dev) (fun St s' => St = EFI_DEVICE_ERROR /\ managed s P X s') asserted s1) /\
  (State (Snm Dev) = EfiSimpleNetworkStopped ->
   wpe (_ ← VirtioNetDriverBindingStop 1 Dev; VirtioNetDriverBindingStop 0 Dev)
     (fun St s' => St = EFI_SUCCESS /\ given_back s P X s') asserted s1).
Proof.
  intros (w & m & es & ->). unfold VirtioNetDriverBindingStop. change (0 <? 1) with true. change (0 <? 0) with false. cbv iota.
  split; intros HS.
  - apply wpe_bind, wpe_ASSERT; [done|]. intros _. apply wpe_bind_wp, wp_at_call. intros St w1 m1.
    apply wpe_bind, wpe_ASSERT; [done|]. intros _. rewrite bool_decide_false by done. cbn [negb]. apply wp_wpe. wp_step.
    split; [done|]. by exists w1, m1, es.
  - apply wpe_bind. apply wpe_bind, wpe_ASSERT; [done|]. intros _. apply wpe_bind_wp, wp_at_call. intros St w1 m1.
    apply wpe_bind, wpe_ASSERT; [done|]. intros _. rewrite bool_decide_true by done. cbn [negb]. apply wp_wpe.
    wp_step. apply wp_at_release. intros w2 m2. rewrite add_held_add. wp_step. apply wp_at_uninstall.
    intros St3 w3 m3 k Hk. wp_step. apply wp_at_free_pool. unfold VirtioNetSnpEvacuate. wp_step. wp_step. apply wp_at_release.
    intros w4 m4. apply wp_at_release. intros w5 m5. wp_step. apply wp_at_free_pool. wp_step. apply wp_wpe.
    wp_step. apply wp_at_release. intros w6 m6. wp_step. split; [done|]. rewrite !add_held_add.
    destruct Hk as [->|[-> Hu]]; [left; by apply restored_held|right; split; [done|]]. by exists w6, m6, es.
Qed.
End Bind.
