(* ===== verification/VirtioNetClaims.v ===== *)
(** * VirtioNetDxe: properties, and a concrete network card *)
From S2P Require Import Prelude Bytes Memory OrderedCollection Virtio VirtioProofs VirtioDriver VirtioNet VirtioNetRings VirtioNetInit VirtioNetTraffic VirtioNetSystem VirtioNetBind VirtioMachine.
From stdpp Require Import relations.
#[local] Open Scope Z_scope.

Section Claims.
Context {W : Type} {V : VirtIo W} {VL : VirtIoLaws W} {BS : BootServices W} {NS : NetServices W}.
Context {OC : OrderedCollection Z TX_BUF_MAP_INFO W CompareAddress} {OL : OrderedCollectionLaws OC}.
Implicit Types (s : st (W:=W)) (Dev : VNET_DEV (OC:=OC)).

(** ** Ownership of the transmit chains *)
(** [pend]: the chains the host has; the others are on the free stack. *)
Definition tx_ledger Dev (pend : list Z) : Prop :=
  pend ++ drop (Z.to_nat (TxCurPending (Tx Dev))) (TxFreeStack (Tx Dev)) ≡ₚ tx_heads (TxMaxPending (Tx Dev)).

Lemma tx_heads_NoDup max : NoDup (tx_heads max).
Proof. unfold tx_heads. apply NoDup_fmap_2; [intros x y; lia|apply NoDup_seqZ]. Qed.

Lemma ledger_push c' h Dev pend :
  tx_ledger Dev pend -> 0 <= TxCurPending (Tx Dev) -> TxFreeStack (Tx Dev) !! Z.to_nat (TxCurPending (Tx Dev)) = Some h ->
  h ∈ tx_heads (TxMaxPending (Tx Dev)) /\ (h ∉ pend) /\ tx_ledger (with_pending c' (TxCurPending (Tx Dev) + 1) Dev) (h :: pend).
Proof.
  unfold tx_ledger. intros HL Hc Hh. cbn [with_pending set_tx Tx TxCurPending TxFreeStack TxMaxPending].
  replace (Z.to_nat (TxCurPending (Tx Dev) + 1)) with (S (Z.to_nat (TxCurPending (Tx Dev)))) by lia.
  rewrite (drop_S _ _ _ Hh) in HL. rewrite <-Permutation_middle in HL.
  pose proof (tx_heads_NoDup (TxMaxPending (Tx Dev))) as Hnd. rewrite <-HL in Hnd |- *.
  apply NoDup_cons in Hnd as [Hni _]. split; [by left|]. split; [|done]. intros ?. apply Hni, elem_of_app. by left.
Qed.

Lemma ledger_pop c' h Dev pend pend' :
  tx_ledger Dev pend -> pend ≡ₚ h :: pend' -> 0 < TxCurPending (Tx Dev) <= Z.of_nat (length (TxFreeStack (Tx Dev))) ->
  tx_ledger (with_recycled c' h Dev) pend'.
Proof.
  unfold tx_ledger. intros HL Hp Hc. cbn [with_recycled set_tx Tx TxCurPending TxFreeStack TxMaxPending]. rewrite <-HL, Hp.
  set (k := Z.to_nat (TxCurPending (Tx Dev) - 1)).
  replace (Z.to_nat (TxCurPending (Tx Dev))) with (S k) by lia.
  rewrite (drop_S _ h) by (apply list_lookup_insert_eq; lia).
  rewrite drop_insert_lt by lia. by rewrite <-Permutation_middle.
Qed.

(** C12: The transmit chains and the ring.  [pend] are the chains that the
    available ring has given the host and that are not taken back; the others
    are on the free stack.  Bring-up starts with all of them free.  A call of
    SubmitPacket either cannot map the packet, tells the host nothing and
    changes nothing of this; or the entry of the available ring that it
    publishes with its notification is a chain [h] that the host does not
    have, whose packet descriptor is the caller's buffer, and the host then has
    [h] and [pend].  A call of RecycleTxBuf, when the used element at
    TxLastUsed names a chain that the host has, takes back exactly that chain,
    in whatever order chains are completed, moves TxLastUsed on by one and
    unmaps the buffer of the chain's packet; it does nothing if nothing is
    completed. *)
Theorem net_chains Dev c pend pend' n B k s w m P X P' X' es :
  net_live P X Dev c P' X' ->
  (TxFreeStack (Tx Dev) = tx_heads (TxMaxPending (Tx Dev)) -> TxCurPending (Tx Dev) = 0 -> tx_ledger Dev []) /\
  (tx_ledger Dev pend -> TxCurPending (Tx Dev) < TxMaxPending (Tx Dev) -> is_u32 n -> wpe (SubmitPacket Dev n B) (fun out s' =>
     (out = (EFI_DEVICE_ERROR, Dev) /\ exists w' m' l, tx_refused X' c B n w m w' m' l /\ s' = at_ s w' m' P' X' (es ++ l)) \/
     exists h, h ∈ tx_heads (TxMaxPending (Tx Dev)) /\ (h ∉ pend) /\ packet_queued s P' X' es w m Dev c B n h out s' /\
       tx_ledger out.2 (h :: pend)) asserted (at_ s w m P' X' es)) /\
  (tx_ledger Dev pend -> pend ≡ₚ tx_used m Dev :: pend' -> wpe (RecycleTxBuf Dev k) (fun r s' =>
     if TxLastUsed (Tx Dev) =? k then r = (EFI_SUCCESS, 0, Dev) /\ s' = at_ s w m P' X' es
     else tx_recycled s P' X' es m Dev c r s' /\ tx_ledger r.2 pend') asserted (at_ s w m P' X' es)).
Proof.
  intros HL. destruct (nl_cur _ _ _ _ _ _ HL) as [Hc0 Hc1]. split_and!.
  - unfold tx_ledger. intros -> ->. done.
  - intros HT Hcur Hn. eapply wpe_asserted, SubmitPacket_spec; [exact HL|done|done|..].
    + intros w' m' l Hre. left. split; [done|]. by exists w', m', l.
    + intros h out s' Hh HQ. right. exists h. pose proof HQ as (a & tok & n' & c' & w' & m1 & m2 & mn & m' & _ & -> & _).
      destruct (ledger_push c' h Dev pend HT) as (H1 & H2 & H3); [lia|done|]. done.
  - intros HT Hp. eapply wpe_asserted, wpe_mono; [by eapply RecycleTxBuf_spec|].
    intros r s'. destruct (_ =? k); [done|]. intros H. split; [done|].
    destruct H as (info & c' & w' & m' & -> & Hpos & _). eapply ledger_pop; [exact HT|exact Hp|].
    pose proof (nl_stack _ _ _ _ _ _ HL). lia.
Qed.

(** C11: In every state that any sequence of calls can reach from a stopped
    interface, whatever the device and the services answer and however the
    host changes memory in between: what the driver holds is exactly the two
    rings, the request header, the receive buffer and one mapping and map
    entry per pending packet while the interface is Initialized, and nothing
    otherwise; Shutdown and Stop give everything back.  Most calls cannot
    trap.  The others trap only as [op_trap] says: Initialize on a failed
    assertion (which one, the theorem does not say); Transmit on its assertion
    that the device address it is given for the caller's buffer is not that of
    a packet still pending (as when a buffer is queued twice); GetStatus on an
    assertion when the used element is not a chain with a pending packet; and
    Receive on an assertion or on a read outside the driver's pages, when the
    used element is not one of its chains, intact and with a length within it,
    or the caller's buffer lies in the driver's pages. *)
Theorem net_reachable s0 Dev0 Dev s :
  snm_ok (Snm Dev0) -> State (Snm Dev0) = EfiSimpleNetworkStopped -> rtc net_step (Dev0, s0) (Dev, s) ->
  net_inv s0 Dev s /\
  (forall op, wpe (run_op op Dev) (net_inv s0) (op_trap op Dev s) s) /\
  (State (Snm Dev) = EfiSimpleNetworkInitialized ->
   wp (r ← VirtioNetShutdown Dev; VirtioNetStop r.2)
     (fun r s' => r.1 = EFI_SUCCESS /\ State (Snm r.2) = EfiSimpleNetworkStopped /\ restored s0 (Pages s0) (Maps s0) s') s).
Proof.
  intros Hok HS HR. pose proof (net_reachable_inv _ _ _ _ Hok HS HR) as HI. split; [done|]. split.
  - intros op. by apply run_op_inv.
  - by apply net_inv_down.
Qed.

(** C13: VirtioNetInitialize is all or nothing.  On failure nothing is held, the
    interface stays Started, and the device has been reset; on success the
    interface is Initialized, all transmit chains are free, and the last
    notification offers the host the whole receive queue, each packet as a
    header and 1514 bytes in its own part of the receive buffer. *)
Theorem net_initialize Dev s :
  snm_ok (Snm Dev) -> State (Snm Dev) = EfiSimpleNetworkStarted ->
  wpe (VirtioNetInitialize Dev 0 0)
    (fun out s' => net_failed s (Pages s) (Maps s) Dev out s' \/ net_up s (Pages s) (Maps s) Dev out s') asserted s.
Proof. apply VirtioNetInitialize_spec. Qed.

(** C14: VirtioNetTransmit on an Initialized interface: bad arguments, a packet
    too short or too long, and a full queue are refused and change nothing; a
    header that cannot be built is refused.  Otherwise the media header is
    filled in as asked.  If then the packet cannot be mapped, the answer is
    EFI_DEVICE_ERROR, the host is not notified, and memory is as the failed
    service calls left it.  If it is mapped, it is the second descriptor of a
    free chain, is offered to the host by the notification, and is recorded as
    pending -- also when the notification is refused, whose status is the
    answer.  The only trap is the assertion that no pending packet has the
    device address that the packet is mapped at. *)
Theorem net_transmit Dev c hs n B src dest proto s w m P X P' X' es :
  State (Snm Dev) = EfiSimpleNetworkInitialized -> snm_ok (Snm Dev) -> net_live P X Dev c P' X' -> 0 <= n ->
  wpe (VirtioNetTransmit Dev hs n B src dest proto) (fun out s' =>
    let unchanged St := out = (St, Dev) /\ s' = at_ s w m P' X' es in
    if (n =? 0) || (B =? 0) then unchanged EFI_INVALID_PARAMETER
    else if n <? 14 then unchanged EFI_BUFFER_TOO_SMALL
    else if 1514 <? n then unchanged EFI_INVALID_PARAMETER
    else if TxCurPending (Tx Dev) =? TxMaxPending (Tx Dev) then unchanged EFI_NOT_READY
    else
      (unchanged EFI_INVALID_PARAMETER /\ hs <> 0 /\ ~ filled (Snm Dev) hs B src dest proto m m) \/
      exists mf, headed (Snm Dev) hs B src dest proto m mf /\
        ((out = (EFI_DEVICE_ERROR, Dev) /\ exists w' m' l, tx_refused X' c B n w mf w' m' l /\
            s' = at_ s w' m' P' X' (es ++ l)) \/
         exists h, TxFreeStack (Tx Dev) !! Z.to_nat (TxCurPending (Tx Dev)) = Some h /\
           packet_queued s P' X' es w mf Dev c B n h out s'))
    (fun t => t = AssertFailed /\ exists mf, headed (Snm Dev) hs B src dest proto m mf /\ tx_clash X' c B n w mf)
    (at_ s w m P' X' es).
Proof.
  intros HS Hok HL Hn. unfold VirtioNetTransmit. rewrite HS, (proj1 Hok), (proj2 Hok). change (14 + 1500) with 1514.
  destruct (_ || _); [done|]. destruct (Z.ltb_spec n 14); [done|]. destruct (Z.ltb_spec 1514 n); [done|].
  pose proof (proj2 (nl_cur _ _ _ _ _ _ HL)) as Hcm. apply wpe_bind, wpe_ASSERT_if; [lia|]. intros _.
  destruct (Z.eqb_spec (TxCurPending (Tx Dev)) (TxMaxPending (Tx Dev))); [done|].
  eapply QueuePacket_spec; [done|exact HL|lia|unfold is_u32; lia|..].
  - intros. left. done.
  - intros mf w' m' l Hf Hre. right. exists mf. split; [done|]. left. split; [done|]. by exists w', m', l.
  - intros h mf out s' Hh Hf HQ. right. exists mf. split; [done|]. right. by exists h.
Qed.

(** C15: VirtioNetReceive, when the host completed one of the driver's chains
    with a length within the chain: the frame is copied to the caller's buffer
    with its addresses and type, and the chain is handed back by the
    notification; if the buffer is too small only the size is reported and the
    packet stays; a frame shorter than a media header is dropped. *)
Theorem net_receive Dev want n B i L c s w m P X P' X' es :
  let len := L - NetReqSize in
  let short := mkRxOut len None None None None in
  State (Snm Dev) = EfiSimpleNetworkInitialized -> snm_ok (Snm Dev) -> net_live P X Dev c P' X' ->
  rx_completed m Dev i L -> B <> 0 -> apart P' B len ->
  wp (VirtioNetReceive Dev want n B) (fun r s' =>
    if n <? len then r = (EFI_BUFFER_TOO_SMALL, short, Dev) /\ s' = at_ s w m P' X' es
    else if len <? 14 then exists N, r.1 = (EFI_DEVICE_ERROR, short) /\ chain_recycled s P' X' es m Dev (2 * i) N r.2 s'
    else packet_delivered s P' X' es m Dev want B i len r s')
    (at_ s w m P' X' es).
Proof. apply VirtioNetReceive_spec. Qed.

(** VirtioNetGetStatus reports the link status and the pending interrupts,
    and, if asked, takes back the packet of the next completed chain: exactly
    its buffer is returned and unmapped and its chain becomes free.  No
    assertion fails if the chain is one with a pending packet. *)
Theorem net_get_status Dev c wi wt s w m P X P' X' es :
  State (Snm Dev) = EfiSimpleNetworkInitialized -> net_live P X Dev c P' X' ->
  wpe (VirtioNetGetStatus Dev wi wt) (status_result s P' X' es Dev c wi wt)
    (fun t => t = AssertFailed /\ exists w1 m1, link_world Dev w m w1 m1 /\ ~ tx_completed m1 Dev c)
    (at_ s w m P' X' es).
Proof. apply VirtioNetGetStatus_spec. Qed.

(** The driver binding's Start either fails and gives everything back, or
    returns a stopped interface with the address read from the device; Stop
    refuses while the interface is in use, and otherwise stopping the child
    and then the controller gives everything back.  An interface stays
    installed only if its removal failed, which the code does not check. *)
Theorem net_binding s :
  wp VirtioNetDriverBindingStart (fun out s1 =>
    net_start_failed s (Pages s) (Maps s) out s1 \/
    (out.1 = EFI_SUCCESS /\ exists Dev, out.2 = Some Dev /\ fresh_interface Dev /\
     forall Dev', 
       (State (Snm Dev') <> EfiSimpleNetworkStopped ->
        wpe (VirtioNetDriverBindingStop 1 Dev')
          (fun St s' => St = EFI_DEVICE_ERROR /\ managed s (Pages s) (Maps s) s') asserted s1) /\
       (State (Snm Dev') = EfiSimpleNetworkStopped ->
        wpe (_ ← VirtioNetDriverBindingStop 1 Dev'; VirtioNetDriverBindingStop 0 Dev')
          (fun St s' => St = EFI_SUCCESS /\ given_back s (Pages s) (Maps s) s') asserted s1))) s.
Proof.
  apply wp_at_self. eapply wp_mono; [apply net_Start_spec|]. intros out s1 [H|(HE & Dev & HD & HF & HM)]; [by left|].
  right. split; [done|]. exists Dev. split; [done|]. split; [done|]. intros Dev'. by apply net_Stop_spec.
Qed.
End Claims.

(** ** A concrete card

    At the first notification of the receive queue the host completes chain 0
    with a frame of 60 bytes. *)
Module Example.
Definition mac : list Z := [0x52; 0x54; 0; 0x12; 0x34; 0x56].
Definition frame : list Z := mac ++ [2; 4; 6; 8; 10; 12] ++ [0x86; 0xDD] ++ replicate 46 7.
Definition card_config (off n : Z) : Z := if n =? 1 then u8 (nth (Z.to_nat off) mac 0) else 0.
Definition card : VirtIo unit :=
  device VIRTIO_SUBSYSTEM_NETWORK_CARD (VIRTIO_NET_F_MAC + VIRTIO_F_VERSION_1) card_config
    (fun m => mem_set (mem_set m (fourth_base + 12) frame) (Used_UsedElem ring) [0; 0; 0; 0; 72; 0; 0; 0]).
#[local] Existing Instance card.
#[local] Instance card_laws : VirtIoLaws unit.
Proof.
  apply device_laws; [done|]. intros off n Hn. unfold card_config.
  destruct (Z.eqb_spec n 1) as [->|]; [unfold u8; change (256 ^ 1) with 256; lia_div|].
  assert (0 < 256 ^ n) by (apply Z.pow_pos_nonneg; lia). lia.
Qed.
#[local] Instance net_pool : PoolEnv unit := fun w => (true, w).
#[local] Instance net_services : NetServices unit := {|
  gbs_AllocatePool := fun w => (true, w); gbs_AppendDevicePathNode := ok true; gbs_GetDevicePath := ok EFI_SUCCESS;
  gbs_OpenByChild := ok EFI_SUCCESS; gbs_GetSnp := ok EFI_SUCCESS; gbs_SignalEvent := ok tt |}.
#[local] Instance OCN : OrderedCollection Z TX_BUF_MAP_INFO unit CompareAddress := SortedList.collection CompareAddress.
#[local] Instance LN : OrderedCollectionLaws OCN := SortedList.laws CompareAddress.

Definition start : st (W:=unit) := mkSt tt (fun _ => 0) ∅ ∅ [] 0 0 0 0.
(** The interface that the driver binding produces, once started. *)
Definition card_mode : EFI_SIMPLE_NETWORK_MODE :=
  set_state EfiSimpleNetworkStarted
    (set_media false false (set_addresses mac (replicate 6 0xFF) mac (initial_mode zero_snm))).
Definition card_dev : VNET_DEV (OC:=OCN) := mkDev card_mode (Rx zero_dev) (Tx zero_dev).

Example binding_runs :
  match VirtioNetDriverBindingStart start with
  | Done (Status, Some Dev) s => Status = EFI_SUCCESS /\ set_net_state EfiSimpleNetworkStarted Dev = card_dev /\ Pool s = 2
  | _ => False
  end.
Proof. vm_compute. split_and!; reflexivity. Qed.

(** Bring-up, a received frame, a transmitted packet, its completion. *)
Definition is_up (o : outcome st (net_out (OC:=OCN))) : VNET_DEV * st :=
  match o with Done out s => (out.2, s) | Trap _ => (zero_dev, start) end.
Definition up : VNET_DEV * st := is_up (VirtioNetInitialize card_dev 0 0 start).
Definition all_wanted : rx_wants := mkWants true true true true.
Definition buffer : Z := 0x5000.

Example up_runs :
  match VirtioNetInitialize card_dev 0 0 start with
  | Done (Status, Dev) s => Status = EFI_SUCCESS /\ State (Snm Dev) = EfiSimpleNetworkInitialized /\
      TxFreeStack (Tx Dev) = [0; 2; 4; 6] /\ map_size (Pages s) = 4%nat /\ map_size (Maps s) = 4%nat /\ Pool s = 2
  | Trap _ => False
  end.
Proof. vm_compute. split_and!; reflexivity. Qed.

Example receive_runs :
  match VirtioNetReceive up.1 all_wanted 2048 buffer up.2 with
  | Done (Status, out, Dev) s => Status = EFI_SUCCESS /\ Out_BufferSize out = 60 /\ Out_Dest out = Some mac /\
      Out_Protocol out = Some 0x86DD /\ mem_get (Mem s) buffer 60 = frame /\ RxLastUsed (Rx Dev) = 1
  | Trap _ => False
  end.
Proof. vm_compute. split_and!; reflexivity. Qed.

Definition succeeded (o : outcome (st (W:=unit)) (net_out (OC:=OCN))) : bool :=
  match o with Done out _ => out.1 =? EFI_SUCCESS | Trap _ => false end.
Lemma is_up_run o : succeeded o = true -> o = Done (EFI_SUCCESS, (is_up o).1) (is_up o).2.
Proof. destruct o as [[St D] s|t]; cbn; [|done]. by intros ->%Z.eqb_eq. Qed.

(** An ARP frame of 60 bytes, broadcast. *)
Definition packet : Z := 0x6000.
Definition send : M (st (W:=unit)) (net_out (OC:=OCN)) :=
  VirtioNetTransmit up.1 14 60 packet None (Some (replicate 6 0xFF)) (Some 0x806).
Definition sent : VNET_DEV * st (W:=unit) := is_up (send up.2).
(** The host completes it. *)
Definition completed_state : st (W:=unit) :=
  let r := TxRing (Tx sent.1) in
  set_mem (mem_set (mem_set (Mem sent.2) (Used_UsedElem r) [0; 0; 0; 0; 0; 0; 0; 0]) (Used_Idx r) [1; 0]) sent.2.

Example transmit_runs :
  match send up.2 with
  | Done (Status, Dev) s => Status = EFI_SUCCESS /\ TxCurPending (Tx Dev) = 1 /\ map_size (Maps s) = 5%nat /\
      mem_get (Mem s) packet 14 = replicate 6 0xFF ++ mac ++ [8; 6] /\
      (desc_at (Mem s) (TxRing (Tx Dev)) 1).1.1 = (packet, 60)
  | Trap _ => False
  end.
Proof. vm_compute. split_and!; reflexivity. Qed.

Example get_status_runs :
  match VirtioNetGetStatus sent.1 true true completed_state with
  | Done (Status, out, Dev) s => Status = EFI_SUCCESS /\ Out_TxBuf out = Some packet /\
      Out_InterruptStatus out = Some 3 /\ TxCurPending (Tx Dev) = 0 /\ TxFreeStack (Tx Dev) = [0; 2; 4; 6] /\
      map_size (Maps s) = 4%nat
  | Trap _ => False
  end.
Proof. vm_compute. split_and!; reflexivity. Qed.

(** The same packet twice: the assertion of VirtioNetMapTxBuf fails. *)
Example send_twice_asserts : VirtioNetTransmit sent.1 0 60 packet None None None sent.2 = Trap AssertFailed.
Proof. vm_compute. reflexivity. Qed.

(** *** The theorems, applied *)
Lemma card_snm : snm_ok (Snm card_dev).
Proof. done. Qed.
Lemma up_run : VirtioNetInitialize card_dev 0 0 start = Done (EFI_SUCCESS, up.1) up.2.
Proof. apply is_up_run. vm_compute. reflexivity. Qed.
Lemma up_mode : State (Snm up.1) = EfiSimpleNetworkInitialized /\ snm_ok (Snm up.1) /\ MediaPresentSupported (Snm up.1) = false /\
  TxCurPending (Tx up.1) = 0 /\ TxMaxPending (Tx up.1) = 4.
Proof. unfold snm_ok. vm_compute. split_and!; reflexivity. Qed.
Lemma up_live : exists c w m P' X' es,
  up.2 = at_ (add_held (tx_pool c) 0 0 0 start) w m P' X' es /\ net_live ∅ ∅ up.1 c P' X'.
Proof.
  pose proof (VirtioNetInitialize_spec card_dev start card_snm eq_refl) as H. unfold wpe in H. rewrite up_run in H.
  destruct H as [(HE & _)|(_ & _ & c & w & m & P' & X' & es & mn & E & HL & _)]; [discriminate HE|].
  exists c, w, m, P', X'. eexists. split; [exact E|exact HL].
Qed.
Lemma up_step : rtc net_step (set_net_state EfiSimpleNetworkStopped card_dev, start) (up.1, up.2).
Proof.
  eapply rtc_l; [apply (step_call OpStart); reflexivity|]. apply rtc_once, (step_call (OpInitialize 0 0)).
  cbn [run_op]. unfold mbind, M_bind.
  change (VirtioNetInitialize _ 0 0 start) with (VirtioNetInitialize card_dev 0 0 start). rewrite up_run. reflexivity.
Qed.
Lemma up_completed : rx_completed (Mem up.2) up.1 0 72 /\ TxFreeStack (Tx up.1) = tx_heads 4.
Proof. unfold rx_completed, rx_chain. vm_compute. split_and!; done. Qed.
Lemma up_apart : apart (Pages up.2) buffer 60.
Proof.
  assert (bool_decide (map_Forall (fun b k => buffer + 60 <= b) (Pages up.2)) = true) as H by (vm_compute; reflexivity).
  apply bool_decide_eq_true in H. intros b k Hb. left. exact (H b k Hb).
Qed.
#[local] Opaque up.

Lemma net_reachable_witness :
  wp (r ← VirtioNetShutdown up.1; VirtioNetStop r.2) (fun r s' => r.1 = EFI_SUCCESS /\ Pages s' = ∅ /\ Pool s' = 0) up.2.
Proof.
  pose proof (net_reachable start (set_net_state EfiSimpleNetworkStopped card_dev) up.1 up.2 card_snm eq_refl up_step) as H.
  destruct H as (_ & _ & H). eapply wp_mono; [apply H, up_mode|].
  intros r s' (HE & _ & w & m & es & ->). split; [exact HE|]. split; reflexivity.
Defined.

Lemma net_initialize_witness :
  wpe (VirtioNetInitialize card_dev 0 0) (fun out s' => out.1 = EFI_SUCCESS -> State (Snm out.2) = EfiSimpleNetworkInitialized)
    asserted start.
Proof.
  eapply wpe_mono; [apply (net_initialize card_dev start card_snm eq_refl)|].
  intros out s' [[HE _]|(_ & HS & _)] HOK; [rewrite HOK in HE; discriminate HE|]. rewrite HS. reflexivity.
Defined.

Lemma net_transmit_witness :
  wpe (VirtioNetTransmit up.1 0 60 packet None None None)
    (fun out s' => out = (EFI_DEVICE_ERROR, up.1) \/ TxCurPending (Tx out.2) = 1) asserted up.2.
Proof.
  destruct up_live as (c & w & m & P' & X' & es & E & HL). destruct up_mode as (HS & Hok & _ & Hc & Hm). rewrite E.
  eapply wpe_asserted, wpe_mono; [apply (net_transmit up.1 c 0 60 packet None None None _ w m ∅ ∅ P' X' es HS Hok HL); lia|].
  rewrite Hc, Hm. change (60 =? 0) with false. change (packet =? 0) with false. change (60 <? 14) with false.
  change (1514 <? 60) with false. change (0 =? 4) with false. cbn [orb].
  intros out s' [(_ & H & _)|(mf & _ & [[-> _]|(h & _ & HQ)])]; [destruct H; reflexivity|left; reflexivity|right].
  destruct HQ as (a & tok & k & c' & w' & m1 & m2 & mn & m' & _ & -> & _). cbn. rewrite Hc. reflexivity.
Defined.

Lemma net_receive_witness :
  wp (VirtioNetReceive up.1 all_wanted 2048 buffer) (fun r s' => Out_BufferSize r.1.2 = 60) up.2.
Proof.
  destruct up_live as (c & w & m & P' & X' & es & E & HL). destruct up_mode as (HS & Hok & _).
  pose proof (proj1 up_completed) as Hc. pose proof up_apart as Ha. rewrite E in Hc, Ha |- *.
  change (Mem (at_ _ w m P' X' es)) with m in Hc. change (Pages (at_ _ w m P' X' es)) with P' in Ha.
  eapply wp_mono; [apply (net_receive up.1 all_wanted 2048 buffer 0 72 c _ w m ∅ ∅ P' X' es HS Hok HL Hc ltac:(done) Ha)|].
  change (72 - NetReqSize) with 60. change (2048 <? 60) with false. change (60 <? 14) with false. cbv iota.
  intros r s' [-> _]. unfold packet_out. cbn [Out_BufferSize]. rewrite length_mem_get. reflexivity.
Defined.

Lemma net_get_status_witness :
  wpe (VirtioNetGetStatus up.1 true true) (fun r s' => EFI_ERROR r.1.1 = false -> exists i, Out_InterruptStatus r.1.2 = Some i)
    (fun t => t = AssertFailed) up.2.
Proof.
  destruct up_live as (c & w & m & P' & X' & es & E & HL). destruct up_mode as (HS & _). rewrite E.
  eapply wpe_mono_trap; [apply (net_get_status up.1 c true true _ w m ∅ ∅ P' X' es HS HL)| |intros t [-> _]; reflexivity].
  intros r s' [(HE & _)|(w1 & m1 & b & Hi & _)] HOK; [rewrite HOK in HE; discriminate HE|]. eexists. exact Hi.
Defined.

Lemma net_chains_witness :
  wpe (SubmitPacket up.1 60 packet) (fun out _ => out.2 = up.1 \/ exists h, h ∈ tx_heads 4 /\ tx_ledger out.2 [h]) asserted up.2.
Proof.
  destruct up_live as (c & w & m & P' & X' & es & E & HL). destruct up_mode as (_ & _ & _ & Hc & Hm). rewrite E.
  destruct (net_chains up.1 c [] [] 60 packet 0 (add_held (tx_pool c) 0 0 0 start) w m ∅ ∅ P' X' es HL) as (H1 & H2 & _).
  rewrite Hm in H1. eapply wpe_mono; [apply H2; [apply H1; [exact (proj2 up_completed)|exact Hc]|rewrite Hc, Hm; lia|unfold is_u32; lia]|].
  intros out s' [[-> _]|(h & Hh & _ & _ & HT)]; [left; reflexivity|right]. exists h. rewrite Hm in Hh. split; [exact Hh|exact HT].
Defined.

Lemma net_binding_witness :
  wp VirtioNetDriverBindingStart (fun out s1 => out.1 = EFI_SUCCESS -> exists Dev, out.2 = Some Dev /\ snm_ok (Snm Dev)) start.
Proof.
  eapply wp_mono; [apply (net_binding start)|]. intros out s1 [[HE _]|(_ & Dev & HD & HF & _)] HOK; [rewrite HOK in HE; discriminate HE|].
  exists Dev. split; [exact HD|apply HF].
Defined.
End Example.
