(* ===== verification/VirtioRng.v ===== *)
(** * VirtioRngDxe: the entropy source driver (QemuPkg/VirtioRngDxe/VirtioRng.c) *)
From S2P Require Import Prelude Bytes Memory Virtio VirtioDriver.

Definition VIRTIO_SUBSYSTEM_ENTROPY_SOURCE : Z := 4.
Definition MAX_UINT32 : Z := 2 ^ 32 - 1.

(** EFI_RNG_ALGORITHM: GUIDs as their bytes. *)
Definition SIZEOF_RNG_ALGORITHM : Z := 16.

(** Pool memory for data: [None] is NULL. *)
Class RngServices (W : Type) := {
  gEfiRngAlgorithmRaw : list Z;
  gbs_AllocateBuffer : Z -> vop W (option Z);
}.

Section VirtioRng.
Context {W : Type} {V : VirtIo W} {BS : BootServices W} {RS : RngServices W}.
Local Abbreviation st := (st (W:=W)).

Record VIRTIO_RNG_DEV : Type := mkDev { Ring : VRING; RingMap : Z }.
Definition zero_dev : VIRTIO_RNG_DEV := mkDev zero_vring 0.

(** The status, and the size and list that are stored; [list]: the caller gave
    a buffer. *)
Definition VirtioRngGetInfo (RNGAlgorithmListSize : Z) (RNGAlgorithmList : bool) : EFI_STATUS * Z * option (list Z) :=
  if RNGAlgorithmListSize <? SIZEOF_RNG_ALGORITHM then (EFI_BUFFER_TOO_SMALL, SIZEOF_RNG_ALGORITHM, None)
  else if negb RNGAlgorithmList then (EFI_INVALID_PARAMETER, RNGAlgorithmListSize, None)
  else (EFI_SUCCESS, SIZEOF_RNG_ALGORITHM, Some gEfiRngAlgorithmRaw).

(** *** VirtioRngGetRNG *)
Definition FreeBuffer (Status : EFI_STATUS) : M st EFI_STATUS := Hold (-1) 0 0 0;; mret Status.
Definition UnmapBuffer (Mapping : Z) (Status : EFI_STATUS) : M st EFI_STATUS :=
  (if EFI_ERROR Status then _ ← UnmapSharedBuffer Mapping; mret tt else mret tt);; FreeBuffer Status.

(** One request per iteration, for what is left of the buffer. *)
Fixpoint RequestBytes (fuel : nat) (flush_fuel : nat) (Dev : VIRTIO_RNG_DEV) (DeviceAddress RNGValueLength Index : Z)
    : M st EFI_STATUS :=
  if Index <? RNGValueLength then
    match fuel with
    | O => trapped OutOfFuel
    | S fuel =>
        let BufferSize := u32 (Z.min (RNGValueLength - Index) MAX_UINT32) in
        Indices ← VirtioPrepare (Ring Dev);
        Indices ← VirtioAppendDesc (Ring Dev) (u64 (DeviceAddress + Index)) BufferSize VRING_DESC_F_WRITE Indices;
        r ← VirtioFlush flush_fuel 0 (Ring Dev) Indices true;
        let '(Status, Len) := r in
        if negb (Status =? EFI_SUCCESS) then mret EFI_DEVICE_ERROR else
        ASSERT (0 <? Len);;
        ASSERT (Len <=? BufferSize);;
        RequestBytes fuel flush_fuel Dev DeviceAddress RNGValueLength (Index + Len)
    end
  else mret EFI_SUCCESS.

(** [RNGAlgorithm]: [None] is NULL.  [RNGValue]: the caller's buffer. *)
Definition VirtioRngGetRNG (fuel flush_fuel : nat) (Dev : VIRTIO_RNG_DEV) (RNGAlgorithm : option (list Z))
    (RNGValueLength RNGValue : Z) : M st EFI_STATUS :=
  if (RNGValueLength =? 0) || (RNGValue =? 0) then mret EFI_INVALID_PARAMETER else
  if match RNGAlgorithm with Some a => negb (bool_decide (a = gEfiRngAlgorithmRaw)) | None => false end
  then mret EFI_UNSUPPORTED else
  o ← vcall (gbs_AllocateBuffer RNGValueLength);
  match o with
  | None => mret EFI_DEVICE_ERROR
  | Some Buffer =>
      Hold 1 0 0 0;;
      r ← VirtioMapAllBytesInSharedBuffer VirtioOperationBusMasterWrite Buffer RNGValueLength;
      let '(Status, DeviceAddress, Mapping) := r in
      if EFI_ERROR Status then FreeBuffer EFI_DEVICE_ERROR else
      Status ← RequestBytes fuel flush_fuel Dev DeviceAddress RNGValueLength 0;
      if EFI_ERROR Status then UnmapBuffer Mapping Status else
      Status ← UnmapSharedBuffer Mapping;
      if EFI_ERROR Status then FreeBuffer EFI_DEVICE_ERROR else
      m ← gets Mem;
      poke RNGValue (mem_get m Buffer RNGValueLength);;
      UnmapBuffer Mapping EFI_SUCCESS
  end.

(** *** VirtioRngInit *)
Definition init_out : Type := EFI_STATUS * VIRTIO_RNG_DEV.
Definition Failed (Dev : VIRTIO_RNG_DEV) (NextDevStat : Z) (Status : EFI_STATUS) : M st init_out :=
  _ ← SetDeviceStatus (Z.lor NextDevStat VSTAT_FAILED); mret (Status, Dev).
Definition ReleaseQueue (Dev : VIRTIO_RNG_DEV) (NextDevStat : Z) (Status : EFI_STATUS) : M st init_out :=
  r ← VirtioRingUninit (Ring Dev); Failed (mkDev r (RingMap Dev)) NextDevStat Status.
Definition UnmapQueue (Dev : VIRTIO_RNG_DEV) (NextDevStat : Z) (Status : EFI_STATUS) : M st init_out :=
  _ ← UnmapSharedBuffer (RingMap Dev); ReleaseQueue Dev NextDevStat Status.

Definition DRIVER_FEATURES : Z := VIRTIO_F_VERSION_1 + VIRTIO_F_IOMMU_PLATFORM.

(** Steps 4c to 6, with the ring mapped. *)
Definition StartQueue (Dev : VIRTIO_RNG_DEV) (NextDevStat Features RingBaseShift Q : Z) : M st init_out :=
  Status ← SetQueueNum Q;
  if EFI_ERROR Status then UnmapQueue Dev NextDevStat Status else
  Status ← SetQueueAlign EFI_PAGE_SIZE;
  if EFI_ERROR Status then UnmapQueue Dev NextDevStat Status else
  Status ← SetQueueAddress (Ring Dev) RingBaseShift;
  if EFI_ERROR Status then UnmapQueue Dev NextDevStat Status else
  Status ← (if Revision <? VIRTIO_SPEC_REVISION 1 0 0
            then SetGuestFeatures (Z.land Features (u64 (Z.lnot (VIRTIO_F_VERSION_1 + VIRTIO_F_IOMMU_PLATFORM))))
            else mret EFI_SUCCESS);
  if EFI_ERROR Status then UnmapQueue Dev NextDevStat Status else
  let NextDevStat := Z.lor NextDevStat VSTAT_DRIVER_OK in
  Status ← SetDeviceStatus NextDevStat;
  if EFI_ERROR Status then UnmapQueue Dev NextDevStat Status else
  mret (EFI_SUCCESS, Dev).

(** Step 4b: the queue. *)
Definition SetUpQueue (Dev : VIRTIO_RNG_DEV) (NextDevStat Features : Z) : M st init_out :=
  Status ← SetQueueSel 0;
  if EFI_ERROR Status then Failed Dev NextDevStat Status else
  r ← GetQueueNumMax;
  let '(Status, Q) := r in
  if EFI_ERROR Status then Failed Dev NextDevStat Status else
  if Q <? 1 then Failed Dev NextDevStat EFI_UNSUPPORTED else
  r ← VirtioRingInit Q;
  let '(Status, ring) := r in
  let Dev := mkDev ring (RingMap Dev) in
  if EFI_ERROR Status then Failed Dev NextDevStat Status else
  r ← VirtioRingMap ring;
  let '(Status, RingBaseShift, tok) := r in
  if EFI_ERROR Status then ReleaseQueue Dev NextDevStat Status else
  StartQueue (mkDev ring tok) NextDevStat Features RingBaseShift Q.

Definition Negotiate (Dev : VIRTIO_RNG_DEV) (NextDevStat Features : Z) : M st init_out :=
  let Features := Z.land Features DRIVER_FEATURES in
  r ← (if VIRTIO_SPEC_REVISION 1 0 0 <=? Revision
       then Virtio10WriteFeatures Features NextDevStat
       else mret (EFI_SUCCESS, NextDevStat));
  let '(Status, NextDevStat) := r in
  if EFI_ERROR Status then Failed Dev NextDevStat Status else SetUpQueue Dev NextDevStat Features.

Definition VirtioRngInit (Dev : VIRTIO_RNG_DEV) : M st init_out :=
  let NextDevStat := 0 in
  Status ← SetDeviceStatus NextDevStat;
  if EFI_ERROR Status then Failed Dev NextDevStat Status else
  let NextDevStat := Z.lor NextDevStat VSTAT_ACK in
  Status ← SetDeviceStatus NextDevStat;
  if EFI_ERROR Status then Failed Dev NextDevStat Status else
  let NextDevStat := Z.lor NextDevStat VSTAT_DRIVER in
  Status ← SetDeviceStatus NextDevStat;
  if EFI_ERROR Status then Failed Dev NextDevStat Status else
  Status ← SetPageSize EFI_PAGE_SIZE;
  if EFI_ERROR Status then Failed Dev NextDevStat Status else
  r ← GetDeviceFeatures;
  let '(Status, Features) := r in
  if EFI_ERROR Status then Failed Dev NextDevStat Status else Negotiate Dev NextDevStat Features.

Definition VirtioRngUninit (Dev : VIRTIO_RNG_DEV) : M st VIRTIO_RNG_DEV :=
  _ ← SetDeviceStatus 0;
  _ ← UnmapSharedBuffer (RingMap Dev);
  r ← VirtioRingUninit (Ring Dev);
  mret (mkDev r (RingMap Dev)).

Definition VirtioRngExitBoot (Dev : VIRTIO_RNG_DEV) : M st unit := _ ← SetDeviceStatus 0; mret tt.

(** *** Driver binding *)
Definition VirtioRngDriverBindingSupported : M st EFI_STATUS :=
  Status ← OpenByDriver;
  if EFI_ERROR Status then mret Status
  else
    let Status := if SubSystemDeviceId =? VIRTIO_SUBSYSTEM_ENTROPY_SOURCE then Status else EFI_UNSUPPORTED in
    CloseProtocol;; mret Status.

Definition FreeVirtioRng (Status : EFI_STATUS) : M st (EFI_STATUS * option VIRTIO_RNG_DEV) :=
  Hold (-1) 0 0 0;; mret (Status, None).
Definition CloseVirtIo (Status : EFI_STATUS) := CloseProtocol;; FreeVirtioRng Status.
Definition UninitDev (Dev : VIRTIO_RNG_DEV) (Status : EFI_STATUS) := _ ← VirtioRngUninit Dev; CloseVirtIo Status.
Definition CloseExitBoot (Dev : VIRTIO_RNG_DEV) (Status : EFI_STATUS) := CloseEvent;; UninitDev Dev Status.

Definition VirtioRngDriverBindingStart : M st (EFI_STATUS * option VIRTIO_RNG_DEV) :=
  ok ← vcall bs_AllocateZeroPool;
  if negb ok then mret (EFI_OUT_OF_RESOURCES, None) else
  Hold 1 0 0 0;;
  Status ← OpenByDriver;
  if EFI_ERROR Status then FreeVirtioRng Status else
  r ← VirtioRngInit zero_dev;
  let '(Status, Dev) := r in
  if EFI_ERROR Status then CloseVirtIo Status else
  Status ← CreateEvent;
  if EFI_ERROR Status then UninitDev Dev Status else
  Status ← InstallInterface;
  if EFI_ERROR Status then CloseExitBoot Dev Status else
  mret (EFI_SUCCESS, Some Dev).

(** [Dev]: the device that the handle's RNG interface belongs to. *)
Definition VirtioRngDriverBindingStop (Dev : VIRTIO_RNG_DEV) : M st EFI_STATUS :=
  Status ← vcall bs_GetInterface;
  if EFI_ERROR Status then mret Status else
  Status ← UninstallInterface;
  if EFI_ERROR Status then mret Status else
  CloseEvent;;
  _ ← VirtioRngUninit Dev;
  CloseProtocol;;
  Hold (-1) 0 0 0;;
  mret EFI_SUCCESS.
End VirtioRng.
