(* ===== verification/VirtioRngProofs.v ===== *)
(** * VirtioRngDxe: requests, bring-up and driver binding *)
From S2P Require Import Prelude Bytes Memory OrderedCollection Virtio VirtioProofs VirtioDriver VirtioRng.

Section VirtioRng.
Context {W : Type} {V : VirtIo W} {BS : BootServices W} {RS : RngServices W} {VL : VirtIoLaws W}.
Local Abbreviation st := (st (W:=W)).
Implicit Types s : st.

(** ** VirtioFlush with the used length *)
Lemma VirtioFlush_true fuel q r ind s :
  VirtioFlush fuel q r ind true s =
  match VirtioFlush fuel q r ind false s with
  | Done (St, n) s' =>
      if EFI_ERROR St then Done (St, n) s'
      else
        (j ← modulo (u16_at (Mem s) (Avail_Idx r)) (QueueSize r);
         Id ← read_le (Used_UsedElem r + SIZEOF_USED_ELEM * j) 4;
         ASSERT (Id =? HeadDescIdx ind);;
         Len ← read_le (Used_UsedElem r + SIZEOF_USED_ELEM * j + 4) 4;
         mret (EFI_SUCCESS, Len)) s'
  | Trap t => Trap t
  end.
Proof.
  unfold VirtioFlush. unfold mbind, M_bind.
  destruct (read_le (Avail_Idx r) 2 s) as [a s0|] eqn:Ea; [|done].
  assert (a = u16_at (Mem s) (Avail_Idx r) /\ s0 = s) as [-> ->].
  { unfold read_le, mbind, M_bind, get in Ea. destruct (in_pages _ _ _); [|done]. by injection Ea as <- <-. }
  destruct (modulo (u16_at (Mem s) (Avail_Idx r)) (QueueSize r) s) as [i s1|]; [|done].
  destruct (modulo (HeadDescIdx ind) (QueueSize r) s1) as [h s2|]; [|done].
  destruct (write_le _ 2 h s2) as [? s3|]; [|done]. destruct (write_le _ 2 _ s3) as [? s4|]; [|done].
  destruct (SetQueueNotify q s4) as [St s5|]; [|done]. destruct (EFI_ERROR St) eqn:HE.
  - cbn. by rewrite HE.
  - by destruct (PollUsed fuel r _ 1 s5) as [? s6|].
Qed.

(** The driver's request with the buffers [l] in memory [mn], made from [m]:
    one more entry of the available ring, whose chain is [l]. *)
Definition laid (r : VRING) (m mc : memory) (l : list (Z * Z * Z)) : Prop :=
  chain_at mc r 0 l /\ forall x, ~ (Desc r <= x < Avail_Flags r + 2) -> mc x = m x.
Definition request (r : VRING) (m mn : memory) (l : list (Z * Z * Z)) : Prop :=
  chain_at mn r 0 l /\ u16_at mn (Avail_Ring r + 2 * (u16_at m (Avail_Idx r) mod QueueSize r)) = 0 /\
  u16_at mn (Avail_Idx r) = u16 (u16_at m (Avail_Idx r) + 1) /\
  forall x, ~ (Desc r <= x < Avail_Ring r + 2 * QueueSize r) -> mn x = m x.
(** The length that the host reports in [m'] for a request made from [m]. *)
Definition used_len (r : VRING) (m m' : memory) : Z :=
  le_combine (mem_get m' (Used_UsedElem r + SIZEOF_USED_ELEM * (u16_at m (Avail_Idx r) mod QueueSize r) + 4) 4).

Lemma laid_idx r P m mc l : ring_ok r P -> laid r m mc l -> u16_at mc (Avail_Idx r) = u16_at m (Avail_Idx r).
Proof.
  intros Hr [_ Ho]. unfold u16_at. f_equal. apply mem_get_ext. intros x Hx. apply Ho.
  destruct (ro_layout _ _ Hr). lia.
Qed.

Lemma submitted_request r P m mc mn l :
  ring_ok r P -> Z.of_nat (length l) <= QueueSize r -> laid r m mc l -> submitted r 0 mc mn -> request r m mn l.
Proof.
  intros Hr Hl Hla (H1 & H2 & H3). pose proof (ro_queue _ _ Hr) as HQ. rewrite (laid_idx r P m mc l Hr Hla) in H1, H2.
  destruct Hla as [Hc Ho], (ro_layout _ _ Hr). unfold SIZEOF_DESC in *. split_and!.
  - eapply chain_at_ext; [|done|exact Hc]. intros x Hx. symmetry. apply H3. unfold in_table, SIZEOF_DESC in Hx. lia.
  - rewrite H1. apply Z.mod_0_l. lia.
  - done.
  - intros x Hx. rewrite H3, Ho by lia. done.
Qed.

Lemma flush_chain_len N q r l s w m mc P X es :
  ring_ok r P -> Z.of_nat (length l) <= QueueSize r -> laid r m mc l -> Responsive q r N ->
  wpe (VirtioFlush (S N) q r (mkIndices 0 (Z.of_nat (length l))) true) (fun '(Status, Len) s' =>
    exists mn w' m' k, s' = at_ s w' m' P X (es ++ EvNotify q mn :: (EvStall <$> periods k 1)) /\
      request r m mn l /\
      ((refused q w mn Status w' m' /\ k = 0%nat /\ Status <> EFI_SUCCESS) \/
       (Status = EFI_SUCCESS /\ answered q r w mn k w' m' /\ Len = used_len r m m')))
    asserted (at_ s w mc P X es).
Proof.
  intros Hr Hl Hla HR. pose proof (VirtioFlush_answer N q r (mkIndices 0 (Z.of_nat (length l))) (at_ s w mc P X es) Hr HR) as H.
  apply wp_elim in H as ([St n] & s1 & Hrun & H). unfold wpe. rewrite VirtioFlush_true, Hrun. cbn [HeadDescIdx Mem Env at_] in H.
  destruct H as (mn & w' & m' & k & Hsub & -> & Hk & Hcase). rewrite logs_at.
  assert (request r m mn l) as Hreq by by eapply submitted_request.
  destruct (EFI_ERROR St) eqn:HE.
  { exists mn, w', m', k. split; [done|]. split; [done|]. left. destruct Hcase as [[? ->]|[-> _]]; [|discriminate HE].
    split_and!; try done. intros ->. discriminate HE. }
  destruct Hcase as [[[_ HE'] _]|[-> Hans]]; [congruence|].
  set (s' := at_ s w' m' P X (es ++ EvNotify q mn :: (EvStall <$> periods k 1))). pose proof (ro_queue _ _ Hr) as HQ.
  cbn [Mem at_]. rewrite (laid_idx r P m mc l Hr Hla). set (a := u16_at m (Avail_Idx r)).
  assert (0 <= a mod QueueSize r < QueueSize r) as Hj by (apply Z.mod_pos_bound; lia).
  assert (wpe (j ← modulo a (QueueSize r);
         Id ← read_le (Used_UsedElem r + SIZEOF_USED_ELEM * j) 4;
         ASSERT (Id =? HeadDescIdx (mkIndices 0 (Z.of_nat (length l))));;
         Len ← read_le (Used_UsedElem r + SIZEOF_USED_ELEM * j + 4) 4;
         mret (EFI_SUCCESS, Len)) (fun '(St, Len) s1 => St = EFI_SUCCESS /\ Len = used_len r m m' /\ s1 = s') asserted s') as H.
  { apply wpe_bind_wp, wp_modulo; [lia|]. apply wpe_bind_wp, wp_at_read.
    { rewrite <-(Z.add_0_r (_ + _)). apply used_part; [done|done|lia]. }
    apply wpe_bind, wpe_ASSERT; [done|]. intros _. apply wp_wpe. wp_step. apply wp_at_read.
    { apply used_part; [done|done|lia]. }
    by wp_steps. }
  unfold wpe in H. fold s'.
  destruct ((j ← modulo a (QueueSize r); _) s') as [[St1 L1] s1|t] eqn:E in H; rewrite E; [|done].
  destruct H as (-> & -> & ->). exists mn, w', m', k. split; [done|]. split; [done|]. by right.
Qed.

(** ** Requests *)
(** What is asked for at [i] of [n] bytes at device address [dev]. *)
Definition request_at (dev n i : Z) : list (Z * Z * Z) :=
  [(u64 (dev + i), Z.min (n - i) MAX_UINT32, VRING_DESC_F_WRITE)].

(** The requests that take the device and memory from [(w, m)] to [(w', m')]
    and fill the bytes from [i] up to [j]: each offers the host one writable
    buffer, at the first byte that is missing, and moves on by the length that
    the host reports. *)
Inductive filled (r : VRING) (dev n j : Z) (w' : W) (m' : memory) : Z -> W -> memory -> list event -> Prop :=
  | filled_end : filled r dev n j w' m' j w' m' []
  | filled_step i w m mn k w1 m1 es :
      request r m mn (request_at dev n i) -> answered 0 r w mn k w1 m1 ->
      0 < used_len r m m1 <= Z.min (n - i) MAX_UINT32 -> filled r dev n j w' m' (i + used_len r m m1) w1 m1 es ->
      filled r dev n j w' m' i w m (EvNotify 0 mn :: (EvStall <$> periods k 1) ++ es).

(** The host refuses a notification when [j] bytes are there. *)
Definition interrupted (r : VRING) (dev n : Z) (w : W) (m : memory) (w' : W) (m' : memory) (l : list event) : Prop :=
  exists j w1 m1 l1 mn Status, 0 <= j < n /\ filled r dev n j w1 m1 0 w m l1 /\
    request r m1 mn (request_at dev n j) /\ refused 0 w1 mn Status w' m' /\ l = l1 ++ [EvNotify 0 mn].

Lemma prepare_request {A} r b (k : DESC_INDICES -> M st A) (Q : A -> st -> Prop) E s w m P X es :
  ring_ok r P -> buffer_ok b ->
  (forall m', laid r m m' [b] -> wpe (k (mkIndices 0 1)) Q E (at_ s w m' P X es)) ->
  wpe (Indices ← VirtioPrepare r; Indices ← VirtioAppendDesc r b.1.1 b.1.2 b.2 Indices; k Indices) Q E (at_ s w m P X es).
Proof.
  intros Hr Hb HQ. pose proof (ro_queue _ _ Hr). destruct (ro_layout _ _ Hr).
  apply wpe_bind_wp. eapply wp_mono; [by apply VirtioPrepare_spec|]. intros ind s1 [-> (m1 & -> & _ & Ho1)].
  destruct b as [[a n] f]. destruct Hb as (Ha & Hn & Hf). cbn [fst snd] in *. apply wpe_bind_wp.
  eapply wp_mono; [by apply VirtioAppendDesc_spec|].
  intros ind s2 [-> (m2 & -> & Hd & Ho2)]. cbn [HeadDescIdx NextDescIdx Mem set_mem set_world at_] in *.
  rewrite Z.mod_0_l in Hd, Ho2 by lia. apply HQ. split.
  - intros i b Hb. destruct i as [|i]; [|done]. injection Hb as <-. exact Hd.
  - unfold desc_addr, SIZEOF_DESC in *. intros x Hx. rewrite Ho2, Ho1 by lia. done.
Qed.

Lemma RequestBytes_spec N Dev dev n fuel i s w m P X es :
  ring_ok (Ring Dev) P -> Responsive 0 (Ring Dev) N -> 0 <= i <= n -> (Z.to_nat (n - i) <= fuel)%nat ->
  wpe (RequestBytes fuel (S N) Dev dev n i) (fun Status s' => exists w' m' l, s' = at_ s w' m' P X (es ++ l) /\
    ((Status = EFI_SUCCESS /\ filled (Ring Dev) dev n n w' m' i w m l) \/
     (Status = EFI_DEVICE_ERROR /\ exists j w1 m1 l1 mn St, i <= j < n /\ filled (Ring Dev) dev n j w1 m1 i w m l1 /\
        request (Ring Dev) m1 mn (request_at dev n j) /\ refused 0 w1 mn St w' m' /\ l = l1 ++ [EvNotify 0 mn])))
    asserted (at_ s w m P X es).
Proof.
  intros Hr HR. revert i w m es. induction fuel as [|fuel IH]; intros i w m es Hi Hf; cbn [RequestBytes].
  all: destruct (Z.ltb_spec i n) as [Hlt|Hge].
  1: lia.
  1, 3: apply wp_wpe; wp_steps; exists w, m, []; rewrite app_nil_r; split; [done|]; left; split; [done|];
    replace i with n by lia; constructor.
  cbv zeta. pose proof (ro_queue _ _ Hr).
  assert (u32 (Z.min (n - i) MAX_UINT32) = Z.min (n - i) MAX_UINT32) as ->
    by (unfold u32, MAX_UINT32; rewrite Z.mod_small; lia).
  set (b := (u64 (dev + i), Z.min (n - i) MAX_UINT32, VRING_DESC_F_WRITE)).
  assert (buffer_ok b) as Hb.
  { unfold buffer_ok, b, is_u64, is_u32, is_u16, u64, MAX_UINT32. cbn [fst snd].
    split; [apply Z.mod_pos_bound; lia|]. split; [lia|]. split; vm_compute; done. }
  apply (prepare_request (Ring Dev) b); [done|done|].
  intros m1 Hc. apply wpe_bind. eapply wpe_mono.
  { apply (flush_chain_len N 0 (Ring Dev) [b]); [done|cbn; lia|done|done]. }
  intros [St Len] s' (mn & w2 & m2 & k & -> & Hreq & Hcase). cbn beta iota.
  destruct (Z.eqb_spec St EFI_SUCCESS) as [->|Hne]; cbn [negb].
  2:{ apply wp_wpe. wp_steps. destruct Hcase as [(Href & -> & _)|[? _]]; [|done]. eexists _, _, _. split; [done|]. right.
      split; [done|]. exists i, w, m, [], mn, St. split; [lia|]. split; [constructor|]. done. }
  destruct Hcase as [(_ & _ & ?)|(_ & Hans & ->)]; [done|].
  apply wpe_bind, wpe_ASSERT; [done|]. intros Hpos%Z.ltb_lt. apply wpe_bind, wpe_ASSERT; [done|]. intros Hle%Z.leb_le.
  eapply wpe_mono; [apply IH; lia|]. intros St s' (w3 & m3 & l & -> & Hl).
  rewrite <-(assoc_L (++)). exists w3, m3. eexists. split; [done|]. rewrite <-app_comm_cons.
  destruct Hl as [[-> Hl]|(-> & j & w4 & m4 & l1 & mn' & St' & Hj & Hfl & Hreq' & Href & ->)]; [left|right]; (split; [done|]).
  - by apply (filled_step _ _ _ _ _ _ i w m mn k w2 m2).
  - exists j, w4, m4. eexists _, mn', St'. split; [lia|].
    split; [by apply (filled_step _ _ _ _ _ _ i w m mn k w2 m2)|]. split; [done|]. split; [done|].
    by rewrite (assoc_L (++)).
Qed.

(** ** VirtioRngGetRNG *)
(** The private buffer [buf] is mapped whole, at device address [dev]. *)
Definition rng_mapped s (n buf size dev tok : Z) (w : W) (m0 m : memory) : Prop :=
  exists w0, gbs_AllocateBuffer n (Env s) (Mem s) = (Some buf, m0, w0) /\
    mapped (Maps s) VirtioOperationBusMasterWrite buf n w0 m0 size dev tok w m /\ Maps s !! tok = None /\ n <= size.

(** The one success: the buffer mapped whole, filled by the host, unmapped,
    and only then copied to the caller. *)
Definition delivered s (r : VRING) (n dst : Z) s' : Prop :=
  exists buf size dev tok w0 m0 m1 w1 m2 l St w2 m3,
    rng_mapped s n buf size dev tok w0 m0 m1 /\ filled r dev n n w1 m2 0 w0 m1 l /\
    vio_UnmapSharedBuffer tok w1 m2 = (St, m3, w2) /\ EFI_ERROR St = false /\
    s' = at_ s w2 (mem_set m3 dst (mem_get m3 buf n)) (Pages s) (Maps s)
      ([EvMap VirtioOperationBusMasterWrite buf size dev m0] ++ l ++ [EvUnmap tok]).

(** The failures, with what was taken given back: no buffer; the buffer is not
    mapped; the host refuses a request; the buffer is not unmapped. *)
Definition rng_failed s (r : VRING) (n : Z) s' : Prop :=
  exists w' m' l, s' = at_ s w' m' (Pages s) (Maps s) l /\
   ((l = [] /\ gbs_AllocateBuffer n (Env s) (Mem s) = (None, m', w')) \/
    (exists buf w0 m0, gbs_AllocateBuffer n (Env s) (Mem s) = (Some buf, m0, w0) /\
       map_refused (Maps s) VirtioOperationBusMasterWrite buf n w0 m0 w' m' l) \/
    exists buf size dev tok w0 m0 m1 w1 m2 l1 St, rng_mapped s n buf size dev tok w0 m0 m1 /\
       l = [EvMap VirtioOperationBusMasterWrite buf size dev m0] ++ l1 ++ [EvUnmap tok] /\
       vio_UnmapSharedBuffer tok w1 m2 = (St, m', w') /\
       (interrupted r dev n w0 m1 w1 m2 l1 \/ (filled r dev n n w1 m2 0 w0 m1 l1 /\ EFI_ERROR St = true))).

Lemma FreeBuffer_spec St s w m P X es :
  wp (FreeBuffer St) (fun Status s' => Status = St /\ s' = at_ s w m P X es) (at_ (add_held 1 0 0 0 s) w m P X es).
Proof.
  unfold FreeBuffer. wp_step. apply wp_at_Hold. wp_steps. by rewrite add_held_add, add_held_0.
Qed.

Lemma GetRNG_spec N Dev alg n dst s :
  ring_ok (Ring Dev) (Pages s) -> Responsive 0 (Ring Dev) N -> 0 < n -> dst <> 0 ->
  match alg with Some a => a = gEfiRngAlgorithmRaw | None => True end ->
  wpe (VirtioRngGetRNG (Z.to_nat n) (S N) Dev alg n dst) (fun Status s' =>
    (Status = EFI_DEVICE_ERROR /\ rng_failed s (Ring Dev) n s') \/
    (Status = EFI_SUCCESS /\ delivered s (Ring Dev) n dst s')) asserted s.
Proof.
  intros Hr HR Hn Hd Ha. unfold VirtioRngGetRNG.
  destruct (Z.eqb_spec n 0); [lia|]. destruct (Z.eqb_spec dst 0); [lia|]. cbn [orb].
  assert (match alg with Some a => negb (bool_decide (a = gEfiRngAlgorithmRaw)) | None => false end = false) as ->
    by (destruct alg as [a|]; [by rewrite bool_decide_true|done]).
  apply wpe_bind_wp, wp_at_self, wp_at_call_eq. intros [buf|] w0 m0 EA; apply wpe_bind_wp || apply wp_wpe.
  2:{ wp_steps. left. split; [done|]. exists w0, m0, []. split; [done|]. by left. }
  apply wp_at_Hold. apply wpe_bind_wp, wp_at_Map_eq.
  { intros St dev tok w2 m2 l HE Hre. cbn beta iota. rewrite HE. apply wp_wpe.
    eapply wp_mono; [apply FreeBuffer_spec|]. intros ? s' [-> ->]. left. split; [done|].
    eexists _, _, _. split; [done|]. right; left. by exists buf, w0, m0. }
  intros dev tok size w1 m1 Hmap HX Hdev Hsize. cbn beta iota. change (EFI_ERROR EFI_SUCCESS) with false. cbv iota.
  assert (rng_mapped s n buf size dev tok w1 m0 m1) as HM by (exists w0; done).
  apply wpe_bind. eapply wpe_mono; [by apply RequestBytes_spec; [..|lia|rewrite Z.sub_0_r]|].
  intros St s' (w3 & m3 & l & -> & [[-> Hl]|(-> & Hl)]); cbv iota beta.
  - change (EFI_ERROR EFI_SUCCESS) with false. cbv iota.
    apply wpe_bind_wp. eapply wp_at_Unmap_eq; [apply lookup_insert_eq|]. intros U w4 m4 EU. rewrite delete_insert_id by done.
    rewrite <-(assoc_L (++)). destruct (EFI_ERROR U) eqn:HU; apply wp_wpe.
    { eapply wp_mono; [apply FreeBuffer_spec|]. intros ? s' [-> ->]. left. split; [done|]. eexists _, _, _. split; [done|].
      right; right. exists buf, size, dev, tok, w1, m0, m1, w3, m3, l, U. split_and!; try done. by right. }
    wp_step. wp_step. wp_step. apply wp_at_poke. unfold UnmapBuffer. change (EFI_ERROR EFI_SUCCESS) with false. cbv iota.
    wp_step. wp_step. eapply wp_mono; [apply FreeBuffer_spec|]. intros ? s' [-> ->]. right. split; [done|].
    exists buf, size, dev, tok, w1, m0, m1, w3, m3, l, U, w4, m4. by cbn [app Mem at_].
  - change (EFI_ERROR EFI_DEVICE_ERROR) with true. cbv iota. apply wp_wpe. unfold UnmapBuffer.
    change (EFI_ERROR EFI_DEVICE_ERROR) with true. cbv iota. wp_step. wp_step.
    eapply wp_at_Unmap_eq; [apply lookup_insert_eq|]. intros U w4 m4 EU. rewrite delete_insert_id by done. wp_steps.
    rewrite <-(assoc_L (++)).
    eapply wp_mono; [apply FreeBuffer_spec|]. intros ? s' [-> ->]. left. split; [done|]. eexists _, _, _. split; [done|].
    right; right. exists buf, size, dev, tok, w1, m0, m1, w3, m3, l, U. split_and!; try done. left. exact Hl.
Qed.
End VirtioRng.
