(* ===== verification/VirtioRngInit.v ===== *)
(** * VirtioRngDxe: device initialisation, tear down and driver binding *)
From S2P Require Import Prelude Bytes Memory OrderedCollection Virtio VirtioProofs VirtioDriver VirtioRng.

Section VirtioRngInit.
Context {W : Type} {V : VirtIo W} {BS : BootServices W} {VL : VirtIoLaws W}.
Implicit Types s : st (W:=W).

Lemma rng_Failed_spec Dev v St s w m P X es :
  EFI_ERROR St = true -> wp (Failed Dev v St) (gave_up s P X) (at_ s w m P X es).
Proof.
  intros HE. unfold Failed. wp_step. apply wp_at_SetDeviceStatus. intros U w' m'. wp_steps. split; [done|].
  by exists w', m', es, v.
Qed.

Lemma rng_ReleaseQueue_spec Dev v St s w m P X es :
  EFI_ERROR St = true -> P !! Base (Ring Dev) = None ->
  wp (ReleaseQueue Dev v St) (gave_up s P X)
    (at_ s w m (<[Base (Ring Dev) := NumPages (Ring Dev)]> P) X es).
Proof.
  intros HE HP. unfold ReleaseQueue, VirtioRingUninit. wp_step. wp_step.
  eapply wp_at_Free; [apply lookup_insert_eq|]. intros w' m'. rewrite delete_insert_id by done. wp_steps.
  by apply rng_Failed_spec.
Qed.

Lemma rng_UnmapQueue_spec Dev v St x s w m P X es :
  EFI_ERROR St = true -> P !! Base (Ring Dev) = None -> X !! RingMap Dev = None ->
  wp (UnmapQueue Dev v St) (gave_up s P X)
    (at_ s w m (<[Base (Ring Dev) := NumPages (Ring Dev)]> P) (<[RingMap Dev := x]> X) es).
Proof.
  intros HE HP HX. unfold UnmapQueue. wp_step. eapply wp_at_Unmap; [apply lookup_insert_eq|].
  intros U w' m'. rewrite delete_insert_id by done. by apply rng_ReleaseQueue_spec.
Qed.

(** ** The queue and the negotiation *)
Lemma rng_StartQueue_spec Dev nds F shift Q x s w m P X es :
  P !! Base (Ring Dev) = None -> X !! RingMap Dev = None ->
  wp (StartQueue Dev nds F shift Q) (fun out s' => gave_up s P X out s' \/
    (out = (EFI_SUCCESS, Dev) /\
     exists w' m', s' = at_ s w' m' (<[Base (Ring Dev) := NumPages (Ring Dev)]> P) (<[RingMap Dev := x]> X)
       (es ++ start_events [] F nds (Base (Ring Dev)) shift)))
    (at_ s w m (<[Base (Ring Dev) := NumPages (Ring Dev)]> P) (<[RingMap Dev := x]> X) es).
Proof.
  intros HP HX. unfold StartQueue. match goal with |- wp _ ?K _ => set (Post := K) end.
  assert (forall St v w' m' es', EFI_ERROR St = true ->
    wp (UnmapQueue Dev v St) Post
      (at_ s w' m' (<[Base (Ring Dev) := NumPages (Ring Dev)]> P) (<[RingMap Dev := x]> X) es')) as Hfail.
  { intros. eapply wp_mono; [by apply rng_UnmapQueue_spec|]. by left. }
  apply wp_at_try; [auto|]. intros w1 m1. apply wp_at_try; [auto|]. intros w2 m2.
  apply wp_at_tell_try; [auto|]. intros w3 m3. rewrite legacy_modern.
  assert (forall w' m' es', es' ++ [EvStatus (Z.lor nds VSTAT_DRIVER_OK)] = es ++ start_events [] F nds (Base (Ring Dev)) shift ->
    wp (Status ← SetDeviceStatus (Z.lor nds VSTAT_DRIVER_OK);
      if EFI_ERROR Status then UnmapQueue Dev (Z.lor nds VSTAT_DRIVER_OK) Status else mret (EFI_SUCCESS, Dev)) Post
    (at_ s w' m' (<[Base (Ring Dev) := NumPages (Ring Dev)]> P) (<[RingMap Dev := x]> X) es')) as Hok.
  { intros w' m' es' He. apply wp_at_tell_try; [auto|]. intros w4 m4. wp_steps. right. rewrite He. eauto. }
  unfold start_events, told_features in Hok. destruct modern; cbn [negb].
  - wp_step. wp_step. change (EFI_ERROR EFI_SUCCESS) with false. cbn beta iota zeta. apply Hok.
    by rewrite <-!(assoc_L (++)).
  - wp_step. cbv zeta. apply wp_at_tell_call. intros St w4 m4. cbn beta iota.
    destruct (EFI_ERROR St) eqn:HE; [auto|]. cbv zeta. apply Hok. by rewrite <-!(assoc_L (++)).
Qed.

(** A queue that works: a zeroed ring in pages of its own, mapped whole at
    the device address that the host was told. *)
Definition set_up s (P : page_map) (X : gmap Z mapping) (F nds : Z)
    (es : list event) (out : init_out) s' : Prop :=
  out.1 = EFI_SUCCESS /\  1 <= QueueSize (Ring out.2) /\ ring_ok (Ring out.2) (Pages s') /\
  P !! Base (Ring out.2) = None /\ disjoint_from P (Base (Ring out.2)) (NumPages (Ring out.2)) /\
  X !! RingMap out.2 = None /\
  exists w' m' mz n dev, EFI_PAGE_SIZE * NumPages (Ring out.2) <= n /\
    (forall x, Base (Ring out.2) <= x < Base (Ring out.2) + EFI_PAGE_SIZE * NumPages (Ring out.2) -> mz x = 0) /\
    s' = at_ s w' m' (<[Base (Ring out.2) := NumPages (Ring out.2)]> P)
      (<[RingMap out.2 := (VirtioOperationBusMasterCommonBuffer, Base (Ring out.2), n, dev)]> X)
      (es ++ ring_events [] F nds (Ring out.2) mz n dev).

Lemma rng_SetUpQueue_spec Dev nds F s w m P X es :
  wp (SetUpQueue Dev nds F) (fun out s' => gave_up s P X out s' \/ set_up s P X F nds es out s')
    (at_ s w m P X es).
Proof.
  unfold SetUpQueue.
  assert (forall Dev St w' m' es', EFI_ERROR St = true ->
    wp (Failed Dev nds St) (fun out s' => gave_up s P X out s' \/ set_up s P X F nds es out s')
      (at_ s w' m' P X es')) as Hfail.
  { intros. eapply wp_mono; [by apply rng_Failed_spec|]. auto. }
  apply wp_at_try; [auto|]. intros w1 m1.
  wp_step. unfold GetQueueNumMax. rewrite wp_vcall. cbn [Env Mem at_].
  destruct (vio_GetQueueNumMax w1 m1) as [[[St Q] m2] w2] eqn:EQ.
  pose proof (GetQueueNumMax_u16 _ _ _ _ _ _ EQ) as HQ.
  change (set_world w2 m2 (at_ s w1 m1 P X es)) with (at_ s w2 m2 P X es).
  destruct (EFI_ERROR St) eqn:HE; [by apply Hfail|]. clear EQ.
  destruct (Z.ltb_spec Q 1) as [|HQ1]; [by apply Hfail|].
  wp_step. apply wp_at_RingInit; [unfold is_u16 in HQ; lia|..].
  { intros St2 r w3 m3 HE2. cbn beta iota zeta. rewrite HE2. by apply Hfail. }
  intros r w3 m3 HrQ Hr HP Hdis Hz. cbn beta iota zeta. change (EFI_ERROR EFI_SUCCESS) with false. cbn iota.
  wp_step. apply wp_at_RingMap; [done|..].
  { intros St3 d t w4 m4 l HE3. cbn beta iota. rewrite HE3.
    eapply wp_mono; [by apply (rng_ReleaseQueue_spec (mkDev r _))|]. auto. }
  intros dev tok n w4 m4 HX Hn. cbn beta iota. change (EFI_ERROR EFI_SUCCESS) with false. cbn iota zeta.
  eapply wp_mono; [by apply (rng_StartQueue_spec (mkDev r tok))|].
  intros [St4 Dev'] s' [Hg|([= -> ->] & w5 & m5 & ->)]; [by left|]. right.
  unfold set_up. cbn [fst snd Ring RingMap] in *. split_and!; try done; [lia|].
  exists w5, m5, m3, n, dev. split; [done|]. split; [done|]. unfold ring_events. by rewrite <-(assoc_L (++)).
Qed.

(** A device brought up: features that the host offered and the driver
    knows, a host that accepted them, and a working queue. *)
Definition brought_up s (P : page_map) (X : gmap Z mapping) (out : init_out) s' : Prop :=
  exists offered nds,
    (exists w St m' w' m, vio_GetDeviceFeatures w m = (St, offered, m', w') /\ EFI_ERROR St = false) /\
    (if modern then Z.land nds VSTAT_FEATURES_OK <> 0 else nds = Z.lor VSTAT_ACK VSTAT_DRIVER) /\
    set_up s P X (Z.land offered DRIVER_FEATURES) nds (greeting (Z.land offered DRIVER_FEATURES)) out s'.

Lemma rng_Negotiate_spec Dev offered s w m P X :
  (exists w St m' w' m, vio_GetDeviceFeatures w m = (St, offered, m', w') /\ EFI_ERROR St = false) ->
  wp (Negotiate Dev (Z.lor VSTAT_ACK VSTAT_DRIVER) offered)
    (fun out s' => gave_up s P X out s' \/ brought_up s P X out s')
    (at_ s w m P X [EvStatus 0; EvStatus VSTAT_ACK; EvStatus (Z.lor VSTAT_ACK VSTAT_DRIVER)]).
Proof.
  intros Hoff. unfold Negotiate. cbv zeta. fold modern. set (F := Z.land offered DRIVER_FEATURES).
  destruct modern eqn:HM; wp_step.
  - eapply wp_mono; [apply Virtio10WriteFeatures_spec|].
    intros [St Got] s' [[HE (w1 & m1 & l & ->)]|(HE & _ & HG & Hne & w1 & m1 & ->)]; cbn beta iota; rewrite HE.
    { eapply wp_mono; [by apply rng_Failed_spec|]. auto. }
    eapply wp_mono; [apply rng_SetUpQueue_spec|]. intros out s' [H|H]; [by left|]. right.
    exists offered, Got. rewrite HM. split_and!; try done. unfold greeting. by rewrite HM.
  - wp_step. cbn beta iota. change (EFI_ERROR EFI_SUCCESS) with false. cbn iota.
    eapply wp_mono; [apply rng_SetUpQueue_spec|]. intros out s' [H|H]; [by left|]. right.
    exists offered, (Z.lor VSTAT_ACK VSTAT_DRIVER). rewrite HM. split_and!; try done. unfold greeting. by rewrite HM.
Qed.

Lemma rng_VirtioRngInit_spec Dev s w m P X :
  wp (VirtioRngInit Dev) (fun out s' => gave_up s P X out s' \/ brought_up s P X out s') (at_ s w m P X []).
Proof.
  unfold VirtioRngInit. cbv zeta.
  assert (forall v St w' m' es', EFI_ERROR St = true ->
    wp (Failed Dev v St) (fun out s' => gave_up s P X out s' \/ brought_up s P X out s') (at_ s w' m' P X es')) as Hfail.
  { intros. eapply wp_mono; [by apply rng_Failed_spec|]. auto. }
  apply wp_at_tell_try; [auto|]. intros w1 m1. cbn [app]. apply wp_at_tell_try; [auto|]. intros w2 m2. cbn [app].
  apply wp_at_tell_try; [auto|]. intros w3 m3. cbn [app]. apply wp_at_try; [auto|]. intros w4 m4.
  wp_step. unfold GetDeviceFeatures. rewrite wp_vcall. cbn [Env Mem at_].
  destruct (vio_GetDeviceFeatures w4 m4) as [[[St F] m5] w5] eqn:EF.
  change (set_world w5 m5 (at_ s w4 m4 P X ?es')) with (at_ s w5 m5 P X es').
  destruct (EFI_ERROR St) eqn:HE; [by apply Hfail|].
  apply rng_Negotiate_spec. by exists w4, St, m5, w5, m4.
Qed.

(** What a device that was brought up gives to VirtioRngGetRNG. *)
Lemma rng_brought_up_ok s P X out s' : brought_up s P X out s' -> ring_ok (Ring out.2) (Pages s').
Proof. intros (F & nds & _ & _ & _ & HQ & Hr & _). done. Qed.

(** ** Tear down *)
Lemma rng_VirtioRngUninit_spec Dev x s w m P X es :
  P !! Base (Ring Dev) = None -> X !! RingMap Dev = None ->
  wp (VirtioRngUninit Dev) (fun _ s' => exists w' m', s' = at_ s w' m' P X
      (es ++ [EvStatus 0; EvUnmap (RingMap Dev); EvFreePages (Base (Ring Dev)) (NumPages (Ring Dev))]))
    (at_ s w m (<[Base (Ring Dev) := NumPages (Ring Dev)]> P) (<[RingMap Dev := x]> X) es).
Proof.
  intros HP HX. unfold VirtioRngUninit, VirtioRingUninit. wp_step. apply wp_at_SetDeviceStatus. intros U w1 m1.
  wp_step. eapply wp_at_Unmap; [apply lookup_insert_eq|]. intros U2 w2 m2. rewrite delete_insert_id by done.
  wp_step. wp_step. eapply wp_at_Free; [apply lookup_insert_eq|]. intros w3 m3. rewrite delete_insert_id by done.
  wp_steps. exists w3, m3. by rewrite <-!(assoc_L (++)).
Qed.

(** ** Driver binding *)
Lemma rng_FreeVirtioRng_spec St s w m P X es :
  EFI_ERROR St = true ->
  wp (FreeVirtioRng St) (start_failed s P X) (at_ (add_held 1 0 0 0 s) w m P X es).
Proof.
  intros HE. unfold FreeVirtioRng. wp_step. apply wp_at_Hold. wp_steps. rewrite add_held_add.
  split; [done|]. split; [done|]. by apply restored_held.
Qed.
Lemma rng_CloseVirtIo_spec St s w m P X es :
  EFI_ERROR St = true ->
  wp (CloseVirtIo St) (start_failed s P X) (at_ (add_held 1 1 0 0 s) w m P X es).
Proof.
  intros HE. unfold CloseVirtIo. wp_step. apply wp_at_release. intros w' m'. rewrite add_held_add.
  by apply rng_FreeVirtioRng_spec.
Qed.
Lemma rng_UninitDev_spec Dev x St s w m P X es :
  EFI_ERROR St = true -> P !! Base (Ring Dev) = None -> X !! RingMap Dev = None ->
  wp (UninitDev Dev St) (start_failed s P X)
    (at_ (add_held 1 1 0 0 s) w m (<[Base (Ring Dev) := NumPages (Ring Dev)]> P) (<[RingMap Dev := x]> X) es).
Proof.
  intros HE HP HX. unfold UninitDev. wp_step. eapply wp_mono; [by apply rng_VirtioRngUninit_spec|].
  intros d' s' (w' & m' & ->). by apply rng_CloseVirtIo_spec.
Qed.
Lemma rng_CloseExitBoot_spec Dev x St s w m P X es :
  EFI_ERROR St = true -> P !! Base (Ring Dev) = None -> X !! RingMap Dev = None ->
  wp (CloseExitBoot Dev St) (start_failed s P X)
    (at_ (add_held 1 1 1 0 s) w m (<[Base (Ring Dev) := NumPages (Ring Dev)]> P) (<[RingMap Dev := x]> X) es).
Proof.
  intros HE HP HX. unfold CloseExitBoot. wp_step. apply wp_at_release. intros w' m'. rewrite add_held_add.
  by apply rng_UninitDev_spec.
Qed.

(** The driver holds exactly one device: its pool object, its protocol open,
    its event, its interface, its ring and the mapping of the ring. *)
Definition managing s (P : page_map) (X : gmap Z mapping) (Dev : VIRTIO_RNG_DEV) s' : Prop :=
  ring_ok (Ring Dev) (Pages s') /\ P !! Base (Ring Dev) = None /\ X !! RingMap Dev = None /\
  exists x w' m' es, s' = at_ (add_held 1 1 1 1 s) w' m'
    (<[Base (Ring Dev) := NumPages (Ring Dev)]> P) (<[RingMap Dev := x]> X) es.

Lemma rng_Start_spec s w m P X :
  wp VirtioRngDriverBindingStart (fun out s' => start_failed s P X out s' \/
    (out.1 = EFI_SUCCESS /\ exists Dev, out.2 = Some Dev /\ managing s P X Dev s')) (at_ s w m P X []).
Proof.
  unfold VirtioRngDriverBindingStart. wp_step. apply wp_at_call. intros ok w1 m1. destruct ok; cbn [negb].
  2:{ wp_steps. left. split; [done|]. split; [done|]. by exists w1, m1, []. }
  wp_step. apply wp_at_Hold. wp_step. apply wp_at_acquire.
  { intros St w2 m2 HE. rewrite HE. eapply wp_mono; [by apply rng_FreeVirtioRng_spec|]. auto. }
  intros St w2 m2 HE. rewrite HE, add_held_add. wp_step. eapply wp_mono; [apply rng_VirtioRngInit_spec|].
  intros [St2 Dev] s' [[HE2 (w3 & m3 & es & v & ->)]|Hup].
  { cbn [fst] in HE2. rewrite HE2. eapply wp_mono; [by apply rng_CloseVirtIo_spec|]. auto. }
  pose proof (rng_brought_up_ok _ _ _ _ _ Hup) as Hok.
  destruct Hup as (F & nds & _ & _ & HS & _ & _ & HP & _ & HX & w3 & m3 & mz & n & dev & _ & _ & ->).
  cbn [fst snd] in *. rewrite HS. change (EFI_ERROR EFI_SUCCESS) with false. cbn iota.
  cbn [Pages at_] in Hok. wp_step. apply wp_at_acquire.
  { intros St3 w4 m4 HE3. rewrite HE3. eapply wp_mono; [by apply rng_UninitDev_spec|]. auto. }
  intros St3 w4 m4 HE3. rewrite HE3, add_held_add. wp_step. apply wp_at_acquire.
  { intros St4 w5 m5 HE4. rewrite HE4. eapply wp_mono; [by apply rng_CloseExitBoot_spec|]. auto. }
  intros St4 w5 m5 HE4. rewrite HE4, add_held_add. wp_steps. right. split; [done|]. exists Dev. split; [done|].
  split_and!; try done. by eexists _, w5, m5, _.
Qed.

Lemma rng_Stop_spec Dev s P X s1 :
  managing s P X Dev s1 ->
  wp (VirtioRngDriverBindingStop Dev) (fun Status s' =>
    (EFI_ERROR Status = true /\ managing s P X Dev s') \/
    (Status = EFI_SUCCESS /\ restored s P X s')) s1.
Proof.
  intros (Hok & HP & HX & x & w & m & es & ->). unfold VirtioRngDriverBindingStop.
  assert (forall w' m', managing s P X Dev (at_ (add_held 1 1 1 1 s) w' m'
    (<[Base (Ring Dev) := NumPages (Ring Dev)]> P) (<[RingMap Dev := x]> X) es)) as Hm.
  { intros w' m'. split_and!; try done. by exists x, w', m', es. }
  apply wp_at_try.
  { intros St w1 m1 HE. wp_steps. by left. }
  intros w1 m1. wp_step. apply wp_at_acquire.
  { intros St w2 m2 HE. rewrite HE. wp_steps. by left. }
  intros St w2 m2 HE. rewrite HE, add_held_add. wp_step. apply wp_at_release. intros w3 m3.
  rewrite add_held_add. wp_step. eapply wp_mono; [by apply rng_VirtioRngUninit_spec|]. intros d' s' (w4 & m4 & ->).
  wp_step. apply wp_at_release. intros w5 m5. rewrite add_held_add. wp_step. apply wp_at_Hold.
  rewrite add_held_add. wp_steps. right. split; [done|]. by apply restored_held.
Qed.
End VirtioRngInit.
