(* ===== verification/VirtioRngClaims.v ===== *)
(** * VirtioRngDxe: the properties, and a concrete entropy source *)
From S2P Require Import Prelude Bytes Memory OrderedCollection Virtio VirtioProofs VirtioDriver VirtioRng VirtioRngProofs VirtioRngInit VirtioMachine.

Section Claims.
Context {W : Type} {V : VirtIo W} {BS : BootServices W} {RS : RngServices W} {VL : VirtIoLaws W}.
Implicit Types s : st (W:=W).

(** An algorithm that the driver does not implement. *)
Definition foreign (alg : option (list Z)) : Prop :=
  match alg with Some a => a <> gEfiRngAlgorithmRaw | None => False end.


(** The life of the driver.  VirtioRngInit either fails with every page and
    mapping released and the host told, last of all, that the driver failed,
    or brings the device up with the status bits in order, features among
    those offered and known, and a zeroed queue of at least one descriptor
    mapped and announced.  VirtioRngDriverBindingStart either fails with
    everything it took given back or returns a device with one of each
    resource, whose queue is ready for VirtioRngGetRNG; then
    VirtioRngDriverBindingStop either fails and leaves the device managed, or
    gives back everything that Start took. *)
Theorem rng_binding Dev0 s :
  wp (VirtioRngInit Dev0) (fun out s' =>
    gave_up s (Pages s) (Maps s) out s' \/ brought_up s (Pages s) (Maps s) out s') s /\
  wp VirtioRngDriverBindingStart (fun out s' =>
    start_failed s (Pages s) (Maps s) out s' \/
    (out.1 = EFI_SUCCESS /\ exists Dev, out.2 = Some Dev /\ managing s (Pages s) (Maps s) Dev s' /\
     wp (VirtioRngDriverBindingStop Dev) (fun Status s'' =>
       (EFI_ERROR Status = true /\ managing s (Pages s) (Maps s) Dev s'') \/
       (Status = EFI_SUCCESS /\ restored s (Pages s) (Maps s) s'')) s')) s.
Proof.
  split; apply wp_at_self; [apply rng_VirtioRngInit_spec|]. eapply wp_mono; [apply rng_Start_spec|].
  intros out s' [H|(HS & Dev & HD & Hm)]; [by left|]. right. split; [done|]. exists Dev. split; [done|].
  split; [done|]. by apply rng_Stop_spec.
Qed.
End Claims.

(** ** A concrete entropy source

    It delivers two bytes at a time, whatever was asked for. *)
Module Example.
Definition used_elem (j len : Z) (m : memory) : memory :=
  mem_set m (Used_UsedElem ring + SIZEOF_USED_ELEM * j) (le_split 4 0 ++ le_split 4 len).
Definition source : VirtIo unit :=
  device VIRTIO_SUBSYSTEM_ENTROPY_SOURCE VIRTIO_F_VERSION_1 (fun _ _ => 0)
    (fun m => used_elem 1 2 (used_elem 0 2 (mem_set m 0x5000 [7; 8; 9; 10]))).
#[local] Existing Instance source.
#[local] Instance source_laws : VirtIoLaws unit.
Proof. apply device_laws; [done|]. intros off n Hn. split; [done|]. apply Z.pow_pos_nonneg; lia. Qed.
#[local] Instance services : RngServices unit := {|
  gEfiRngAlgorithmRaw := [0xd7; 0x76; 0x31; 0xe4; 0xe8; 0xb6; 0x27; 0x48; 0xb7; 0x84; 0x7f; 0xfd; 0xc4; 0xb6; 0x85; 0x61];
  gbs_AllocateBuffer _ := ok (Some 0x5000);
|}.

Definition start : st (W:=unit) := mkSt tt (fun _ => 0) ∅ ∅ [] 0 0 0 0.
Definition running : st (W:=unit) := mkSt tt (fun _ => 0) ring_pages ∅ [] 0 0 0 0.
Definition rng : VIRTIO_RNG_DEV := mkDev ring 1.

(** Four bytes take two requests. *)
Definition four_bytes : option (EFI_STATUS * list Z * nat) :=
  match VirtioRngGetRNG 4 1 rng None 4 0x6000 running with
  | Done Status s' => Some (Status, mem_get (Mem s') 0x6000 4,
      length (List.filter (fun e => match e with EvNotify _ _ => true | _ => false end) (Trace s')))
  | Trap _ => None
  end.
Example four_bytes_run : four_bytes = Some (EFI_SUCCESS, [7; 8; 9; 10], 2%nat).
Proof. vm_compute. reflexivity. Qed.


Lemma rng_binding_witness :
  wp VirtioRngDriverBindingStart (fun out s' => out.1 = EFI_SUCCESS -> exists Dev, out.2 = Some Dev) start.
Proof.
  eapply wp_mono; [apply (proj2 (rng_binding zero_dev start))|].
  intros out s' [[HE _]|(_ & Dev & HD & _)] HS; [|exists Dev; exact HD].
  rewrite HS in HE. discriminate HE.
Defined.
End Example.
