(* ===== verification/Virtio10.v ===== *)
(** * Virtio10Dxe: VIRTIO_DEVICE_PROTOCOL over a PCI device

    Models the protocol member functions of
    QemuPkg/Virtio10Dxe/Virtio10.c: registers in the blocks that the PCI
    capabilities announced, reached through EFI_PCI_IO_PROTOCOL.  The
    functions together are an instance of [VirtIo], the interface that
    VirtioLib and the virtio drivers are written against.

    EFI_PCI_IO_PROTOCOL is adversarial: it may answer anything and change any
    memory.  Every register access is logged. *)
From S2P Require Import Prelude Bytes Memory OrderedCollection Virtio.

(** ** Data *)
Inductive VIRTIO_1_0_BAR_TYPE : Type := Virtio10BarTypeMem | Virtio10BarTypeIo.
Record VIRTIO_1_0_CONFIG : Type := mkConfig {
  Exists : bool; BarType : VIRTIO_1_0_BAR_TYPE; Bar : Z; Config_Offset : Z; Config_Length : Z;
}.
Definition zero_config : VIRTIO_1_0_CONFIG := mkConfig false Virtio10BarTypeMem 0 0 0.
(** [DeviceId]: SubSystemDeviceId of the protocol instance. *)
Record VIRTIO_1_0_DEV : Type := mkDev10 {
  DeviceId : Z;
  OriginalPciAttributes : Z;
  CommonConfig : VIRTIO_1_0_CONFIG;
  NotifyConfig : VIRTIO_1_0_CONFIG;
  NotifyOffsetMultiplier : Z;
  SpecificConfig : VIRTIO_1_0_CONFIG;
}.
Definition zero_dev10 : VIRTIO_1_0_DEV := mkDev10 0 0 zero_config zero_config 0 zero_config.

(** Offset and size in VIRTIO_PCI_COMMON_CFG. *)
Definition Reg_DeviceFeatureSelect : Z * Z := (0, 4).
Definition Reg_DeviceFeature : Z * Z := (4, 4).
Definition Reg_DriverFeatureSelect : Z * Z := (8, 4).
Definition Reg_DriverFeature : Z * Z := (12, 4).
Definition Reg_DeviceStatus : Z * Z := (20, 1).
Definition Reg_QueueSelect : Z * Z := (22, 2).
Definition Reg_QueueSize : Z * Z := (24, 2).
Definition Reg_QueueEnable : Z * Z := (28, 2).
Definition Reg_QueueNotifyOff : Z * Z := (30, 2).
Definition Reg_QueueDesc : Z * Z := (32, 8).
Definition Reg_QueueAvail : Z * Z := (40, 8).
Definition Reg_QueueUsed : Z * Z := (48, 8).

(** ** EFI_PCI_IO_PROTOCOL

    Width in bytes; the buffer of a transfer as one little-endian number. *)
Inductive EFI_PCI_IO_PROTOCOL_OPERATION : Type :=
  | EfiPciIoOperationBusMasterRead
  | EfiPciIoOperationBusMasterWrite
  | EfiPciIoOperationBusMasterCommonBuffer.

Class PciIo (W : Type) := {
  pci_Read : VIRTIO_1_0_BAR_TYPE -> Z -> Z -> Z -> Z -> vop W (EFI_STATUS * Z);  (* Width Bar Offset Count *)
  pci_Write : VIRTIO_1_0_BAR_TYPE -> Z -> Z -> Z -> Z -> Z -> vop W EFI_STATUS;
  pci_AllocateBuffer : page_map -> Z -> vop W (EFI_STATUS * Z);
  pci_FreeBuffer : Z -> Z -> vop W unit;
  pci_Map : gmap Z mapping -> EFI_PCI_IO_PROTOCOL_OPERATION -> Z -> Z -> vop W (EFI_STATUS * Z * Z * Z);
  pci_Unmap : Z -> vop W EFI_STATUS;
  bs_Stall : Z -> vop W unit;
}.

(** The types of the out-parameters, and what AllocateBuffer and Map
    document. *)
Class PciIoLaws (W : Type) {P : PciIo W} : Prop := {
  pci_Read_range t wd bar off c w m St v m' w' :
    0 < wd -> 0 <= c -> pci_Read t wd bar off c w m = (St, v, m', w') -> 0 <= v < 256 ^ (wd * c);
  pci_AllocateBuffer_fresh live n w m St a m' w' :
    pci_AllocateBuffer live n w m = (St, a, m', w') -> EFI_ERROR St = false ->
    0 < a /\ a mod EFI_PAGE_SIZE = 0 /\ a + EFI_PAGE_SIZE * n <= MAX_ADDRESS /\ disjoint_from live a n;
  pci_AllocateBuffer_frame live n w m St a m' w' :
    pci_AllocateBuffer live n w m = (St, a, m', w') -> EFI_ERROR St = false ->
    forall x, ~ (a <= x < a + EFI_PAGE_SIZE * n) -> m' x = m x;
  pci_Map_fresh live op host size w m St n dev tok m' w' :
    pci_Map live op host size w m = (St, n, dev, tok, m', w') ->
    EFI_ERROR St = false -> live !! tok = None /\ is_u64 dev;
}.

(** ** The monad of [vop] *)
#[global] Instance vop_ret {W} : MRet (vop W) := fun A a w m => (a, m, w).
#[global] Instance vop_bind {W} : MBind (vop W) := fun A B f x w m =>
  let '(a, m, w) := x w m in f a w m.

(** A register access. *)
Record access : Type := mkAccess {
  Acc_Write : bool; Acc_Type : VIRTIO_1_0_BAR_TYPE; Acc_Bar : Z;
  Acc_Offset : Z; Acc_Width : Z; Acc_Count : Z; Acc_Value : Z;
}.

Section Virtio10.
Context {W : Type} {P : PciIo W}.
(** The world of the protocol: that of the PCI device, and the accesses made. *)
Definition world10 : Type := W * list access.

Definition lift {A} (f : vop W A) : vop world10 A := fun w m =>
  let '(a, m, w') := f w.1 m in (a, m, (w', w.2)).
Definition record (a : access) : vop world10 unit := fun w m => (tt, m, (w.1, w.2 ++ [a])).

(** [Buffer]: in-out; the result's second part. *)
Definition Virtio10Transfer (Config : VIRTIO_1_0_CONFIG) (Write : bool) (FieldOffset FieldSize Buffer : Z)
    : vop world10 (EFI_STATUS * Z) :=
  if negb (Exists Config) || (Config_Length Config <? FieldSize) ||
     (Config_Length Config - FieldSize <? FieldOffset)
  then mret (EFI_INVALID_PARAMETER, Buffer)
  else
    let go (Width Count : Z) : vop world10 (EFI_STATUS * Z) :=
      let Offset := Config_Offset Config + FieldOffset in
      if Write then
        let data := Buffer mod 256 ^ (Width * Count) in
        record (mkAccess true (BarType Config) (Bar Config) Offset Width Count data);;
        Status ← lift (pci_Write (BarType Config) Width (Bar Config) Offset Count data);
        mret (Status, Buffer)
      else
        r ← lift (pci_Read (BarType Config) Width (Bar Config) Offset Count);
        record (mkAccess false (BarType Config) (Bar Config) Offset Width Count r.2);;
        mret r in
    if FieldSize =? 1 then go 1 1
    else if FieldSize =? 2 then go 2 1
    else if FieldSize =? 8 then go 4 2
    else if FieldSize =? 4 then go 4 1
    else mret (EFI_INVALID_PARAMETER, Buffer).

Section Device.
Context (Dev : VIRTIO_1_0_DEV).

Definition CommonRead (reg : Z * Z) : vop world10 (EFI_STATUS * Z) :=
  Virtio10Transfer (CommonConfig Dev) false reg.1 reg.2 0.
Definition CommonWrite (reg : Z * Z) (v : Z) : vop world10 EFI_STATUS :=
  r ← Virtio10Transfer (CommonConfig Dev) true reg.1 reg.2 v; mret r.1.

(** The loop over the two feature words; [acc]: those read so far. *)
Fixpoint GetFeatureWords (l : list Z) (acc : list Z) : vop world10 (EFI_STATUS * list Z) :=
  match l with
  | [] => mret (EFI_SUCCESS, acc)
  | Selector :: l =>
      Status ← CommonWrite Reg_DeviceFeatureSelect Selector;
      if EFI_ERROR Status then mret (Status, acc)
      else
        r ← CommonRead Reg_DeviceFeature;
        if EFI_ERROR r.1 then mret (r.1, acc)
        else GetFeatureWords l (acc ++ [r.2])
  end.
Definition Virtio10GetDeviceFeatures : vop world10 (EFI_STATUS * Z) :=
  r ← GetFeatureWords [0; 1] [];
  if EFI_ERROR r.1 then mret (r.1, 0)
  else mret (EFI_SUCCESS, Z.lor (Z.shiftl (nth 1 r.2 0) 32) (nth 0 r.2 0)).

Fixpoint SetFeatureWords (l : list (Z * Z)) : vop world10 EFI_STATUS :=
  match l with
  | [] => mret EFI_SUCCESS
  | (Selector, Features32) :: l =>
      Status ← CommonWrite Reg_DriverFeatureSelect Selector;
      if EFI_ERROR Status then mret Status
      else
        Status ← CommonWrite Reg_DriverFeature Features32;
        if EFI_ERROR Status then mret Status else SetFeatureWords l
  end.
Definition Virtio10SetGuestFeatures (Features : Z) : vop world10 EFI_STATUS :=
  SetFeatureWords [(0, u32 Features); (1, u32 (Z.shiftr Features 32))].

Definition Virtio10SetQueueAddress (Ring : VRING) (RingBaseShift : Z) : vop world10 EFI_STATUS :=
  Status ← CommonWrite Reg_QueueDesc (u64 (Desc Ring + RingBaseShift));
  if EFI_ERROR Status then mret Status else
  Status ← CommonWrite Reg_QueueAvail (u64 (Avail_Flags Ring + RingBaseShift));
  if EFI_ERROR Status then mret Status else
  Status ← CommonWrite Reg_QueueUsed (u64 (Used_Flags Ring + RingBaseShift));
  if EFI_ERROR Status then mret Status else
  CommonWrite Reg_QueueEnable 1.

Definition Virtio10SetQueueSel (Index : Z) : vop world10 EFI_STATUS := CommonWrite Reg_QueueSelect Index.

Definition Virtio10SetQueueNotify (Index : Z) : vop world10 EFI_STATUS :=
  r ← CommonRead Reg_QueueSelect;
  if EFI_ERROR r.1 then mret r.1 else
  let SavedQueueSelect := r.2 in
  Status ← CommonWrite Reg_QueueSelect Index;
  if EFI_ERROR Status then mret Status else
  r ← CommonRead Reg_QueueNotifyOff;
  if EFI_ERROR r.1 then mret r.1 else
  let NotifyOffset := r.2 in
  Status ← CommonWrite Reg_QueueSelect SavedQueueSelect;
  if EFI_ERROR Status then mret Status else
  r ← Virtio10Transfer (NotifyConfig Dev) true (u32 (NotifyOffset * NotifyOffsetMultiplier Dev)) 2 Index;
  mret r.1.

Definition Virtio10SetQueueAlign (Alignment : Z) : vop world10 EFI_STATUS :=
  mret (if Alignment =? EFI_PAGE_SIZE then EFI_SUCCESS else EFI_UNSUPPORTED).
Definition Virtio10SetPageSize (PageSize : Z) : vop world10 EFI_STATUS :=
  mret (if PageSize =? EFI_PAGE_SIZE then EFI_SUCCESS else EFI_UNSUPPORTED).

Definition Virtio10GetQueueNumMax : vop world10 (EFI_STATUS * Z) := CommonRead Reg_QueueSize.
Definition Virtio10SetQueueNum (QueueSize : Z) : vop world10 EFI_STATUS :=
  r ← Virtio10GetQueueNumMax;
  if EFI_ERROR r.1 then mret r.1
  else mret (if r.2 =? QueueSize then EFI_SUCCESS else EFI_UNSUPPORTED).

Definition Virtio10GetDeviceStatus : vop world10 (EFI_STATUS * Z) := CommonRead Reg_DeviceStatus.
Definition Virtio10SetDeviceStatus (DeviceStatus : Z) : vop world10 EFI_STATUS :=
  CommonWrite Reg_DeviceStatus DeviceStatus.

Definition Virtio10WriteDevice (FieldOffset FieldSize Value : Z) : vop world10 EFI_STATUS :=
  r ← Virtio10Transfer (SpecificConfig Dev) true FieldOffset FieldSize Value; mret r.1.
Definition Virtio10ReadDevice (FieldOffset FieldSize BufferSize : Z) : vop world10 (EFI_STATUS * Z) :=
  if FieldSize =? BufferSize then Virtio10Transfer (SpecificConfig Dev) false FieldOffset FieldSize 0
  else mret (EFI_INVALID_PARAMETER, 0).

Definition Virtio10AllocateSharedPages (live : page_map) (Pages : Z) : vop world10 (EFI_STATUS * Z) :=
  lift (pci_AllocateBuffer live Pages).
Definition Virtio10FreeSharedPages (Pages HostAddress : Z) : vop world10 unit :=
  lift (pci_FreeBuffer Pages HostAddress).
Definition PciIoOperation (Operation : VIRTIO_MAP_OPERATION) : EFI_PCI_IO_PROTOCOL_OPERATION :=
  match Operation with
  | VirtioOperationBusMasterRead => EfiPciIoOperationBusMasterRead
  | VirtioOperationBusMasterWrite => EfiPciIoOperationBusMasterWrite
  | VirtioOperationBusMasterCommonBuffer => EfiPciIoOperationBusMasterCommonBuffer
  end.
Definition Virtio10MapSharedBuffer (live : gmap Z mapping) (Operation : VIRTIO_MAP_OPERATION)
    (HostAddress NumberOfBytes : Z) : vop world10 (EFI_STATUS * Z * Z * Z) :=
  lift (pci_Map live (PciIoOperation Operation) HostAddress NumberOfBytes).
Definition Virtio10UnmapSharedBuffer (Mapping : Z) : vop world10 EFI_STATUS := lift (pci_Unmap Mapping).

(** The protocol instance that BindingStart installs: mVirtIoTemplate. *)
#[local] Instance mVirtIoTemplate : VirtIo world10 := {|
  Revision := VIRTIO_SPEC_REVISION 1 0 0;
  SubSystemDeviceId := DeviceId Dev;
  vio_GetDeviceFeatures := Virtio10GetDeviceFeatures;
  vio_SetGuestFeatures := Virtio10SetGuestFeatures;
  vio_SetQueueAddress := Virtio10SetQueueAddress;
  vio_SetQueueSel := Virtio10SetQueueSel;
  vio_SetQueueNotify := Virtio10SetQueueNotify;
  vio_SetQueueAlign := Virtio10SetQueueAlign;
  vio_SetPageSize := Virtio10SetPageSize;
  vio_GetQueueNumMax := Virtio10GetQueueNumMax;
  vio_SetQueueNum := Virtio10SetQueueNum;
  vio_GetDeviceStatus := Virtio10GetDeviceStatus;
  vio_SetDeviceStatus := Virtio10SetDeviceStatus;
  vio_ReadDevice off n := Virtio10ReadDevice off n n;
  vio_WriteDevice := Virtio10WriteDevice;
  vio_AllocateSharedPages := Virtio10AllocateSharedPages;
  vio_FreeSharedPages := Virtio10FreeSharedPages;
  vio_MapSharedBuffer := Virtio10MapSharedBuffer;
  vio_UnmapSharedBuffer := Virtio10UnmapSharedBuffer;
  vio_Stall usecs := lift (bs_Stall usecs);
|}.
End Device.
End Virtio10.
