(* ===== verification/Virtio10Proofs.v ===== *)
(** * Virtio10Dxe: the protocol members keep the contract of [VirtIo] *)
From S2P Require Import Prelude Bytes Memory OrderedCollection Virtio VirtioProofs Virtio10.

(** Weakest precondition of a [vop]. *)
Definition vwp {X A} (f : vop X A) (Q : A -> X -> memory -> Prop) (x : X) (m : memory) : Prop :=
  let '(a, m', x') := f x m in Q a x' m'.

Lemma vwp_ret {X A} (a : A) (Q : A -> X -> memory -> Prop) x m : vwp (mret a) Q x m <-> Q a x m.
Proof. done. Qed.
Lemma vwp_bind {X A B} (f : vop X A) (g : A -> vop X B) Q x m :
  vwp (f ≫= g) Q x m <-> vwp f (fun a x' m' => vwp (g a) Q x' m') x m.
Proof. unfold vwp, mbind, vop_bind. by destruct (f x m) as [[??]?]. Qed.
Lemma vwp_mono {X A} (f : vop X A) (Q R : A -> X -> memory -> Prop) x m :
  vwp f Q x m -> (forall a x' m', Q a x' m' -> R a x' m') -> vwp f R x m.
Proof. unfold vwp. destruct (f x m) as [[??]?]. auto. Qed.
Lemma vwp_elim {X A} (f : vop X A) Q x m a m' x' : f x m = (a, m', x') -> vwp f Q x m -> Q a x' m'.
Proof. unfold vwp. by intros ->. Qed.

Ltac vwp_step :=
  lazymatch goal with
  | |- vwp (mret _) _ _ _ => rewrite vwp_ret
  | |- vwp (_ ≫= _) _ _ _ => rewrite vwp_bind
  end.

(** An access inside a register block. *)
Definition in_block (C : VIRTIO_1_0_CONFIG) (a : access) : Prop :=
  Exists C = true /\ Acc_Type a = BarType C /\ Acc_Bar a = Bar C /\
  Config_Offset C <= Acc_Offset a /\
  Acc_Offset a + Acc_Width a * Acc_Count a <= Config_Offset C + Config_Length C.
Definition confined (Dev : VIRTIO_1_0_DEV) (a : access) : Prop :=
  in_block (CommonConfig Dev) a \/ in_block (NotifyConfig Dev) a \/ in_block (SpecificConfig Dev) a.

Definition width_of (n : Z) : Z := if n =? 8 then 4 else n.
Definition count_of (n : Z) : Z := if n =? 8 then 2 else 1.
Definition size_ok (n : Z) : bool := (n =? 1) || (n =? 2) || (n =? 4) || (n =? 8).
(** The access to a register at [off] of [n] bytes. *)
Definition reg_access (write : bool) (C : VIRTIO_1_0_CONFIG) (off n v : Z) : access :=
  mkAccess write (BarType C) (Bar C) (Config_Offset C + off) (width_of n) (count_of n) v.

(** A register block of a 32-bit offset and length. *)
Definition in_config (C : VIRTIO_1_0_CONFIG) (off n : Z) : bool :=
  Exists C && size_ok n && (off + n <=? Config_Length C).

(** ** Register programs

    A reference for the members: register reads and writes, each depending on
    the values that were read. *)
Record reg_op : Type := mkRegOp {
  Op_Write : bool; Op_Config : VIRTIO_1_0_CONFIG; Op_Offset : Z; Op_Size : Z; Op_Value : Z;
}.
Inductive reg_prog : Type :=
  | Finish
  | Then (o : reg_op) (k : Z -> reg_prog).
Definition set_reg (C : VIRTIO_1_0_CONFIG) (reg : Z * Z) (v : Z) (p : reg_prog) : reg_prog :=
  Then (mkRegOp true C reg.1 reg.2 v) (fun _ => p).
Definition get_reg (C : VIRTIO_1_0_CONFIG) (reg : Z * Z) (k : Z -> reg_prog) : reg_prog :=
  Then (mkRegOp false C reg.1 reg.2 0) k.
Definition op_access (o : reg_op) (d : Z) : access := reg_access (Op_Write o) (Op_Config o) (Op_Offset o) (Op_Size o) d.

Section Proofs.
Context {W : Type} {P : PciIo W} {PL : PciIoLaws W}.
Local Abbreviation world := (world10 (W:=W)).
Implicit Types x : world.

Lemma width_count n : size_ok n = true -> width_of n * count_of n = n.
Proof. unfold size_ok, width_of, count_of. intros H. destruct (Z.eqb_spec n 8); lia. Qed.

Lemma feature_word lo hi : is_u32 lo -> is_u32 hi -> Z.lor (Z.shiftl hi 32) lo = hi * 2 ^ 32 + lo.
Proof.
  unfold is_u32. intros Hlo Hhi. rewrite Z.shiftl_mul_pow2 by lia. symmetry.
  rewrite <-Z.lxor_lor, <-Z.add_nocarry_lxor; try done;
  apply Z.bits_inj'; intros i Hi; rewrite Z.land_spec, Z.bits_0;
  (destruct (Z.lt_ge_cases i 32);
    [rewrite Z.mul_pow2_bits_low by lia; done
    |rewrite (Z.bits_above_log2 lo), andb_false_r;
      [done|lia|destruct (Z.eq_dec lo 0) as [->|]; [cbn; lia|apply Z.log2_lt_pow2; [lia|]];
        eapply Z.lt_le_trans; [apply Hlo|apply Z.pow_le_mono_r; lia]]]).
Qed.
(** A transfer is refused without an access, or is one access at the register. *)
Lemma Virtio10Transfer_spec C write off n v x m :
  0 <= off ->
  vwp (Virtio10Transfer C write off n v) (fun r x' _ =>
    if in_config C off n then
      exists d, x'.2 = x.2 ++ [reg_access write C off n d] /\ 0 <= d < 256 ^ n /\
        (if write then d = v mod 256 ^ n /\ r.2 = v else d = r.2)
    else r = (EFI_INVALID_PARAMETER, v) /\ x' = x) x m.
Proof.
  intros Hoff. unfold Virtio10Transfer, in_config.
  destruct (Exists C); cbn [negb orb andb]; [|done].
  destruct (_ || (_ <? off)) eqn:HB.
  { assert (size_ok n && (off + n <=? Config_Length C) = false) as ->; [|done].
    apply andb_false_iff. right. lia. }
  assert ((off + n <=? Config_Length C) = true) as -> by lia. rewrite andb_true_r.
  assert (forall wd c, 0 < wd -> 0 <= c -> wd * c = n -> wd = width_of n -> c = count_of n ->
    vwp (if write then
        record (mkAccess true (BarType C) (Bar C) (Config_Offset C + off) wd c (v mod 256 ^ (wd * c)));;
        Status ← lift (pci_Write (BarType C) wd (Bar C) (Config_Offset C + off) c (v mod 256 ^ (wd * c)));
        mret (Status, v)
      else
        r ← lift (pci_Read (BarType C) wd (Bar C) (Config_Offset C + off) c);
        record (mkAccess false (BarType C) (Bar C) (Config_Offset C + off) wd c r.2);;
        mret r) (fun r x' _ => exists d, x'.2 = x.2 ++ [reg_access write C off n d] /\ 0 <= d < 256 ^ n /\
        (if write then d = v mod 256 ^ n /\ r.2 = v else d = r.2)) x m) as Hgo.
  { intros wd c H1 H2 H3 Hw Hc.
    assert (0 < 256 ^ n) as Hpow by (apply Z.pow_pos_nonneg; nia).
    destruct write; unfold vwp, mbind, vop_bind, mret, vop_ret, record, lift; cbn [fst snd].
    - destruct (pci_Write _ _ _ _ _ _ _ _) as [[St m1] w1]. cbn [fst snd].
      exists (v mod 256 ^ n). rewrite H3. unfold reg_access. rewrite <-Hw, <-Hc. split; [done|].
      split; [by apply Z.mod_pos_bound|done].
    - destruct (pci_Read _ _ _ _ _ _ _) as [[[St d] m1] w1] eqn:E. cbn [fst snd].
      exists d. unfold reg_access. rewrite <-Hw, <-Hc. split; [done|]. split; [|done].
      rewrite <-H3. by eapply pci_Read_range. }
  unfold size_ok. cbv zeta.
  destruct (Z.eqb_spec n 1) as [->|]; [by apply Hgo|].
  destruct (Z.eqb_spec n 2) as [->|]; [by apply Hgo|].
  destruct (Z.eqb_spec n 8) as [->|]; [by apply Hgo|].
  destruct (Z.eqb_spec n 4) as [->|]; [by apply Hgo|]. done.
Qed.

Lemma reg_access_in_block C write off n d :
  0 <= off -> in_config C off n = true -> in_block C (reg_access write C off n d).
Proof.
  unfold in_config. intros Hoff H. apply andb_true_iff in H as [H HL]. apply andb_true_iff in H as [HE HS].
  unfold in_block, reg_access; cbn. rewrite width_count by done. split_and!; try done; lia.
Qed.

(** ** Confinement

    [tame Q f]: the run of [f] makes accesses that satisfy [Q] only. *)
Definition tame (Q : access -> Prop) {A} (f : vop world A) : Prop :=
  forall x m, vwp f (fun _ x' _ => exists k, x'.2 = x.2 ++ k /\ Forall Q k) x m.

Lemma tame_ret Q {A} (a : A) : tame Q (mret a).
Proof. intros x m. apply vwp_ret. exists []. by rewrite app_nil_r. Qed.
Lemma tame_bind Q {A B} (f : vop world A) (g : A -> vop world B) :
  tame Q f -> (forall a, tame Q (g a)) -> tame Q (f ≫= g).
Proof.
  intros Hf Hg x m. apply vwp_bind. eapply vwp_mono; [apply Hf|]. intros a x1 m1 (k1 & E1 & H1).
  eapply vwp_mono; [apply Hg|]. intros b x2 m2 (k2 & E2 & H2). exists (k1 ++ k2).
  rewrite E2, E1, (assoc_L (++)), Forall_app. done.
Qed.
Lemma tame_if Q {A} (b : bool) (f g : vop world A) : tame Q f -> tame Q g -> tame Q (if b then f else g).
Proof. by destruct b. Qed.
Lemma tame_lift Q {A} (f : vop W A) : tame Q (lift f).
Proof.
  intros x m. unfold vwp, lift. destruct (f x.1 m) as [[a m'] w']. exists []. by rewrite app_nil_r.
Qed.
Lemma tame_transfer (Q : access -> Prop) C write off n v :
  0 <= off -> (forall a, in_block C a -> Q a) -> tame Q (Virtio10Transfer C write off n v).
Proof.
  intros Hoff HQ x m. eapply vwp_mono; [by apply Virtio10Transfer_spec|]. intros r x' m' H.
  destruct (in_config C off n) eqn:E.
  - destruct H as (d & -> & _). eexists. split; [done|]. apply Forall_singleton, HQ. by apply reg_access_in_block.
  - destruct H as [_ ->]. exists []. by rewrite app_nil_r.
Qed.

Lemma vwp_transfer C write off n v (Q : EFI_STATUS * Z -> world -> memory -> Prop) x m :
  0 <= off ->
  (forall St d x' m', EFI_ERROR St = true -> 0 <= d < Z.max (256 ^ n) (v + 1) \/ write = true \/ d = v -> Q (St, d) x' m') ->
  (forall St d r x' m', EFI_ERROR St = false -> 0 <= d < 256 ^ n -> in_config C off n = true ->
     x'.2 = x.2 ++ [reg_access write C off n d] -> (if write then d = v mod 256 ^ n /\ r = v else d = r) ->
     Q (St, r) x' m') ->
  vwp (Virtio10Transfer C write off n v) Q x m.
Proof.
  intros Hoff HN HS. eapply vwp_mono; [by apply Virtio10Transfer_spec|]. intros [St r] x' m' H. cbn [snd] in H.
  destruct (in_config C off n) eqn:E.
  - destruct H as (d & Hx & Hd & Hr). destruct (EFI_ERROR St) eqn:HE.
    + apply HN; [done|]. destruct write; [by right; left|]. subst. left. lia.
    + by eapply HS.
  - destruct H as [[= -> ->] ->]. apply HN; [done|]. by right; right.
Qed.

Lemma vwp_CommonRead Dev reg (Q : EFI_STATUS * Z -> world -> memory -> Prop) x m :
  0 <= reg.1 -> 0 <= reg.2 ->
  (forall St d x' m', EFI_ERROR St = true -> 0 <= d < 256 ^ reg.2 -> Q (St, d) x' m') ->
  (forall St d x' m', EFI_ERROR St = false -> 0 <= d < 256 ^ reg.2 -> x'.2 = x.2 ++ [reg_access false (CommonConfig Dev) reg.1 reg.2 d] -> Q (St, d) x' m') ->
  vwp (CommonRead Dev reg) Q x m.
Proof.
  intros Hoff Hn HN HS. unfold CommonRead. assert (0 < 256 ^ reg.2) by (apply Z.pow_pos_nonneg; lia).
  apply vwp_transfer; [done|..].
  - intros St d x' m' HE H1. apply HN; [done|]. destruct H1 as [?|[?|?]]; lia || done.
  - intros St d r x' m' HE Hd _ Hx ->. by apply HS.
Qed.

(** EFI_PCI_IO_PROTOCOL transfers [d] with status [St]. *)
Definition transferred (o : reg_op) (w : W) (m : memory) (St : EFI_STATUS) (d : Z) (w' : W) (m' : memory) : Prop :=
  let C := Op_Config o in let n := Op_Size o in
  in_config C (Op_Offset o) n = true /\
  if Op_Write o then d = Op_Value o mod 256 ^ n /\
    pci_Write (BarType C) (width_of n) (Bar C) (Config_Offset C + Op_Offset o) (count_of n) d w m = (St, m', w')
  else pci_Read (BarType C) (width_of n) (Bar C) (Config_Offset C + Op_Offset o) (count_of n) w m = (St, d, m', w').

(** The program runs up to its end, or to a register that is not in its block,
    or to a transfer that fails; [St]: the status of the last step, [St0]
    before the first; the data transferred, and the accesses. *)
Inductive programmed : reg_prog -> EFI_STATUS -> W -> memory -> EFI_STATUS -> list Z -> W -> memory -> list access -> Prop :=
  | programmed_end St0 w m : programmed Finish St0 w m St0 [] w m []
  | programmed_refused o k St0 w m :
      in_config (Op_Config o) (Op_Offset o) (Op_Size o) = false ->
      programmed (Then o k) St0 w m EFI_INVALID_PARAMETER [] w m []
  | programmed_failed o k St0 w m St d w' m' :
      transferred o w m St d w' m' -> EFI_ERROR St = true ->
      programmed (Then o k) St0 w m St [d] w' m' [op_access o d]
  | programmed_next o k St0 w m St1 d w1 m1 St ds w' m' l :
      transferred o w m St1 d w1 m1 -> EFI_ERROR St1 = false -> programmed (k d) St1 w1 m1 St ds w' m' l ->
      programmed (Then o k) St0 w m St (d :: ds) w' m' (op_access o d :: l).

(** [f] makes exactly the accesses of the program [p], and its result is
    related by [res] to the final status and the data. *)
Definition runs {A} (f : vop world A) (p : reg_prog) (St0 : EFI_STATUS) (res : EFI_STATUS -> list Z -> A -> Prop) : Prop :=
  forall x m, vwp f (fun r x' m' => exists St ds l,
    programmed p St0 x.1 m St ds x'.1 m' l /\ x'.2 = x.2 ++ l /\ res St ds r) x m.

Lemma runs_ret {A} (a : A) St0 (res : EFI_STATUS -> list Z -> A -> Prop) : res St0 [] a -> runs (mret a) Finish St0 res.
Proof. intros H x m. vwp_step. exists St0, [], []. split; [constructor|]. by rewrite app_nil_r. Qed.

Lemma vwp_op o (Q : EFI_STATUS * Z -> world -> memory -> Prop) x m :
  0 <= Op_Offset o ->
  (in_config (Op_Config o) (Op_Offset o) (Op_Size o) = false -> Q (EFI_INVALID_PARAMETER, Op_Value o) x m) ->
  (forall St d w' m', transferred o x.1 m St d w' m' -> 0 <= d < 256 ^ Op_Size o ->
     Q (St, if Op_Write o then Op_Value o else d) (w', x.2 ++ [op_access o d]) m') ->
  vwp (Virtio10Transfer (Op_Config o) (Op_Write o) (Op_Offset o) (Op_Size o) (Op_Value o)) Q x m.
Proof.
  destruct o as [wr C off n v]. cbn [Op_Write Op_Config Op_Offset Op_Size Op_Value]. intros Hoff HN HS.
  unfold transferred, op_access in HS. cbn [Op_Write Op_Config Op_Offset Op_Size Op_Value] in HS.
  unfold Virtio10Transfer. unfold in_config in *. destruct (Exists C); cbn [negb orb andb] in *; [|by apply HN].
  destruct (_ || (_ <? off)) eqn:HB.
  { apply HN. apply andb_false_iff. right. lia. }
  assert ((off + n <=? Config_Length C) = true) as HL by lia. rewrite HL, andb_true_r in HS, HN.
  assert (forall wd c, 0 < wd -> 0 <= c -> wd * c = n -> wd = width_of n -> c = count_of n -> size_ok n = true ->
    vwp (if wr then
        record (mkAccess true (BarType C) (Bar C) (Config_Offset C + off) wd c (v mod 256 ^ (wd * c)));;
        Status ← lift (pci_Write (BarType C) wd (Bar C) (Config_Offset C + off) c (v mod 256 ^ (wd * c)));
        mret (Status, v)
      else
        r ← lift (pci_Read (BarType C) wd (Bar C) (Config_Offset C + off) c);
        record (mkAccess false (BarType C) (Bar C) (Config_Offset C + off) wd c r.2);;
        mret r) Q x m) as Hgo.
  { intros wd c H1 H2 H3 Hw Hc Hs.
    assert (0 < 256 ^ n) as Hpow by (rewrite <-H3; apply Z.pow_pos_nonneg; [lia|apply Z.mul_nonneg_nonneg; lia]).
    rewrite <-Hw, <-Hc in HS. unfold reg_access in HS. rewrite <-Hw, <-Hc in HS.
    destruct wr; unfold vwp, mbind, vop_bind, mret, vop_ret, record, lift; cbn [fst snd].
    - destruct (pci_Write _ _ _ _ _ _ _ _) as [[St m1] w1] eqn:E. cbn [fst snd]. rewrite H3 in *.
      apply HS; [|by apply Z.mod_pos_bound]. split; [done|]. split; [done|exact E].
    - destruct (pci_Read _ _ _ _ _ _ _) as [[[St d] m1] w1] eqn:E. cbn [fst snd].
      apply HS; [by split|]. rewrite <-H3. by eapply pci_Read_range. }
  unfold size_ok in *. cbv zeta.
  destruct (Z.eqb_spec n 1) as [->|]; [by apply Hgo|]. destruct (Z.eqb_spec n 2) as [->|]; [by apply Hgo|].
  destruct (Z.eqb_spec n 8) as [->|]; [by apply Hgo|]. destruct (Z.eqb_spec n 4) as [->|]; [by apply Hgo|].
  by apply HN.
Qed.

Lemma runs_op {A} o (g : EFI_STATUS * Z -> vop world A) k St0 (res : EFI_STATUS -> list Z -> A -> Prop) :
  0 <= Op_Offset o ->
  runs (g (EFI_INVALID_PARAMETER, Op_Value o)) Finish EFI_INVALID_PARAMETER res ->
  (forall St d, 0 <= d < 256 ^ Op_Size o ->
     runs (g (St, if Op_Write o then Op_Value o else d)) (if EFI_ERROR St then Finish else k d) St
       (fun St' ds r => res St' (d :: ds) r)) ->
  runs (Virtio10Transfer (Op_Config o) (Op_Write o) (Op_Offset o) (Op_Size o) (Op_Value o) ≫= g) (Then o k) St0 res.
Proof.
  intros Hoff HN HS x m. vwp_step. apply vwp_op; [done|..].
  - intros Hin. eapply vwp_mono; [apply HN|]. intros a x' m' (St & ds & l & Hp & Hx & Hr). inversion Hp; subst.
    exists EFI_INVALID_PARAMETER, [], []. split; [|done]. cbn in *.
    by apply programmed_refused.
  - intros St d w' m' Ht Hd. eapply vwp_mono; [apply (HS St d Hd)|]. intros a x' m2 (St' & ds & l & Hp & Hx & Hr).
    cbn [fst snd] in *. exists St', (d :: ds), (op_access o d :: l).
    split; [|split; [by rewrite Hx, <-(assoc_L (++))|done]].
    destruct (EFI_ERROR St) eqn:HE; [|by eapply programmed_next]. inversion Hp; subst. by apply programmed_failed.
Qed.
Lemma runs_tail {A} (f : vop world A) p St0 (res : EFI_STATUS -> list Z -> A -> Prop) :
  runs (f ≫= mret) p St0 res -> runs f p St0 res.
Proof. intros H x m. specialize (H x m). by rewrite vwp_bind in H. Qed.
Lemma runs_assoc {A B C} (f : vop world A) (g : A -> vop world B) (h : B -> vop world C) p St0 res :
  runs (f ≫= (fun a => g a ≫= h)) p St0 res -> runs ((f ≫= g) ≫= h) p St0 res.
Proof. intros H x m. specialize (H x m). rewrite !vwp_bind in *. eapply vwp_mono; [exact H|]. intros. by rewrite vwp_bind in *. Qed.

(** ** The members *)
Context (Dev : VIRTIO_1_0_DEV).

(** The members, against their programs *)
Lemma runs_get {A} reg (g : EFI_STATUS * Z -> vop world A) k St0 (res : EFI_STATUS -> list Z -> A -> Prop) :
  0 <= reg.1 -> runs (g (EFI_INVALID_PARAMETER, 0)) Finish EFI_INVALID_PARAMETER res ->
  (forall St d, 0 <= d < 256 ^ reg.2 -> runs (g (St, d)) (if EFI_ERROR St then Finish else k d) St (fun St' ds r => res St' (d :: ds) r)) ->
  runs (CommonRead Dev reg ≫= g) (get_reg (CommonConfig Dev) reg k) St0 res.
Proof. intros. by apply (runs_op (mkRegOp false (CommonConfig Dev) reg.1 reg.2 0)). Qed.
Lemma runs_set {A} reg v (g : EFI_STATUS -> vop world A) p St0 (res : EFI_STATUS -> list Z -> A -> Prop) :
  0 <= reg.1 -> runs (g EFI_INVALID_PARAMETER) Finish EFI_INVALID_PARAMETER res ->
  (forall St d, runs (g St) (if EFI_ERROR St then Finish else p) St (fun St' ds r => res St' (d :: ds) r)) ->
  runs (CommonWrite Dev reg v ≫= g) (set_reg (CommonConfig Dev) reg v p) St0 res.
Proof.
  intros H1 H2 H3. apply runs_assoc. apply (runs_op (mkRegOp true (CommonConfig Dev) reg.1 reg.2 v)); [done|exact H2|].
  intros St d _. exact (H3 St d).
Qed.
Definition get_features_prog : reg_prog :=
  let C := CommonConfig Dev in
  set_reg C Reg_DeviceFeatureSelect 0 (get_reg C Reg_DeviceFeature (fun _ =>
  set_reg C Reg_DeviceFeatureSelect 1 (get_reg C Reg_DeviceFeature (fun _ => Finish)))).
Definition set_features_prog (F : Z) : reg_prog :=
  let C := CommonConfig Dev in
  set_reg C Reg_DriverFeatureSelect 0 (set_reg C Reg_DriverFeature (u32 F)
  (set_reg C Reg_DriverFeatureSelect 1 (set_reg C Reg_DriverFeature (u32 (Z.shiftr F 32)) Finish))).
Definition queue_address_prog (r : VRING) (shift : Z) : reg_prog :=
  let C := CommonConfig Dev in
  set_reg C Reg_QueueDesc (u64 (Desc r + shift)) (set_reg C Reg_QueueAvail (u64 (Avail_Flags r + shift))
  (set_reg C Reg_QueueUsed (u64 (Used_Flags r + shift)) (set_reg C Reg_QueueEnable 1 Finish))).
(** The queue selector is put back before the notification. *)
Definition queue_notify_prog (q : Z) : reg_prog :=
  let C := CommonConfig Dev in
  get_reg C Reg_QueueSelect (fun saved => set_reg C Reg_QueueSelect q (get_reg C Reg_QueueNotifyOff (fun off =>
  set_reg C Reg_QueueSelect saved (set_reg (NotifyConfig Dev) (u32 (off * NotifyOffsetMultiplier Dev), 2) q Finish)))).

Lemma runs_SetQueueAddress r shift :
  runs (Virtio10SetQueueAddress Dev r shift) (queue_address_prog r shift) EFI_SUCCESS (fun St _ out => out = St).
Proof.
  unfold Virtio10SetQueueAddress, queue_address_prog. cbv zeta.
  do 3 (apply runs_set; [done|by apply runs_ret|]; intros ? ?; case_match; [by apply runs_ret|]).
  apply runs_tail, runs_set; [done|by apply runs_ret|]. intros ? ?. case_match; by apply runs_ret.
Qed.
Lemma runs_SetGuestFeatures F :
  runs (Virtio10SetGuestFeatures Dev F) (set_features_prog F) EFI_SUCCESS (fun St _ out => out = if EFI_ERROR St then St else EFI_SUCCESS).
Proof.
  unfold Virtio10SetGuestFeatures, set_features_prog. cbv zeta. cbn [SetFeatureWords].
  do 4 (apply runs_set; [done|by apply runs_ret|]; intros ? ?; case_match; [apply runs_ret; by case_match|]).
  apply runs_ret. by case_match.
Qed.
Lemma runs_SetQueueNotify q :
  runs (Virtio10SetQueueNotify Dev q) (queue_notify_prog q) EFI_SUCCESS (fun St _ out => out = St).
Proof.
  unfold Virtio10SetQueueNotify, queue_notify_prog. cbv zeta.
  apply runs_get; [done|by apply runs_ret|]; intros S1 saved _; cbn [fst snd]; destruct (EFI_ERROR S1); [by apply runs_ret|].
  apply runs_set; [done|by apply runs_ret|]; intros S2 ?; destruct (EFI_ERROR S2); [by apply runs_ret|].
  apply runs_get; [done|by apply runs_ret|]; intros S3 off _; cbn [fst snd]; destruct (EFI_ERROR S3); [by apply runs_ret|].
  apply runs_set; [done|by apply runs_ret|]; intros S4 ?; destruct (EFI_ERROR S4); [by apply runs_ret|].
  apply (runs_op (mkRegOp true (NotifyConfig Dev) (u32 (off * NotifyOffsetMultiplier Dev)) 2 q)); [cbn; unfold u32; lia_div|by apply runs_ret|].
  intros S5 ? _. destruct (EFI_ERROR S5); by apply runs_ret.
Qed.

(** A member that is one access. *)
Lemma runs_one_set reg v :
  0 <= reg.1 -> runs (CommonWrite Dev reg v) (set_reg (CommonConfig Dev) reg v Finish) EFI_SUCCESS (fun St _ out => out = St).
Proof. intros. apply runs_tail, runs_set; [done|by apply runs_ret|]. intros S ?. destruct (EFI_ERROR S); by apply runs_ret. Qed.
(** A failed read may still have stored a value; a refused one stores 0. *)
Lemma runs_one_get reg :
  0 <= reg.1 -> runs (CommonRead Dev reg) (get_reg (CommonConfig Dev) reg (fun _ => Finish)) EFI_SUCCESS
    (fun St ds out => out = (St, nth 0%nat ds 0)).
Proof. intros. apply runs_tail, runs_get; [done|by apply runs_ret|]. intros S d ?. destruct (EFI_ERROR S); by apply runs_ret. Qed.
Lemma runs_SetQueueNum n :
  runs (Virtio10SetQueueNum Dev n) (get_reg (CommonConfig Dev) Reg_QueueSize (fun _ => Finish)) EFI_SUCCESS
    (fun St ds out => out = if EFI_ERROR St then St else if nth 0%nat ds 0 =? n then EFI_SUCCESS else EFI_UNSUPPORTED).
Proof.
  unfold Virtio10SetQueueNum, Virtio10GetQueueNumMax. apply runs_get; [done|by apply runs_ret|].
  intros S d _. cbn [fst snd]. destruct (EFI_ERROR S) eqn:HE; apply runs_ret; by rewrite HE.
Qed.
Lemma runs_WriteDevice off n v :
  0 <= off -> runs (Virtio10WriteDevice Dev off n v) (set_reg (SpecificConfig Dev) (off, n) v Finish) EFI_SUCCESS (fun St _ out => out = St).
Proof.
  intros. apply (runs_op (mkRegOp true (SpecificConfig Dev) off n v)); [done|by apply runs_ret|].
  intros S ? _. destruct (EFI_ERROR S); by apply runs_ret.
Qed.
Lemma runs_ReadDevice off n :
  0 <= off -> runs (Virtio10ReadDevice Dev off n n) (get_reg (SpecificConfig Dev) (off, n) (fun _ => Finish)) EFI_SUCCESS
    (fun St ds out => out = (St, nth 0%nat ds 0)).
Proof.
  intros. unfold Virtio10ReadDevice. rewrite Z.eqb_refl. apply runs_tail.
  apply (runs_op (mkRegOp false (SpecificConfig Dev) off n 0)); [done|by apply runs_ret|].
  intros S ? _. destruct (EFI_ERROR S); by apply runs_ret.
Qed.
Lemma runs_ret_bind {A B} (a : A) (h : A -> vop world B) p St0 res : runs (h a) p St0 res -> runs (mret a ≫= h) p St0 res.
Proof. intros H x m. exact (H x m). Qed.
Lemma runs_GetDeviceFeatures :
  runs (Virtio10GetDeviceFeatures Dev) get_features_prog EFI_SUCCESS (fun St ds out =>
    if EFI_ERROR St then out = (St, 0)
    else exists a lo b hi, ds = [a; lo; b; hi] /\ is_u32 lo /\ is_u32 hi /\ out = (EFI_SUCCESS, hi * 2 ^ 32 + lo)).
Proof.
  unfold Virtio10GetDeviceFeatures, get_features_prog. cbv zeta. cbn [GetFeatureWords].
  change (256 ^ Reg_DeviceFeature.2) with (2 ^ 32).
  apply runs_assoc, runs_set; [done|by apply runs_ret_bind, runs_ret|].
  intros S1 a; destruct (EFI_ERROR S1) eqn:E1; [apply runs_ret_bind; cbn [fst]; rewrite E1; apply runs_ret; by rewrite E1|].
  apply runs_assoc, runs_get; [done|by apply runs_ret_bind, runs_ret|]. intros S2 lo Hlo; cbn [fst snd].
  destruct (EFI_ERROR S2) eqn:E2; [apply runs_ret_bind; cbn [fst]; rewrite E2; apply runs_ret; by rewrite E2|].
  apply runs_assoc, runs_set; [done|by apply runs_ret_bind, runs_ret|].
  intros S3 b; destruct (EFI_ERROR S3) eqn:E3; [apply runs_ret_bind; cbn [fst]; rewrite E3; apply runs_ret; by rewrite E3|].
  apply runs_assoc, runs_get; [done|by apply runs_ret_bind, runs_ret|]. intros S4 hi Hhi; cbn [fst snd].
  destruct (EFI_ERROR S4) eqn:E4; [apply runs_ret_bind; cbn [fst]; rewrite E4; apply runs_ret; by rewrite E4|].
  apply runs_ret_bind. cbn [fst snd app nth]. change (EFI_ERROR EFI_SUCCESS) with false. cbv iota. apply runs_ret. rewrite E4.
  exists a, lo, b, hi. split; [done|]. split; [done|]. split; [done|]. by rewrite feature_word.
Qed.

(** The contract. *)
Lemma features_range x m : vwp (Virtio10GetDeviceFeatures Dev) (fun r _ _ => is_u64 r.2) x m.
Proof.
  eapply vwp_mono; [apply runs_GetDeviceFeatures|]. intros r x' m' (St & ds & l & _ & _ & H).
  destruct (EFI_ERROR St); [by subst r|]. destruct H as (? & lo & ? & hi & _ & Hlo & Hhi & ->).
  unfold is_u64, is_u32 in *. cbn [snd]. lia.
Qed.

Lemma CommonRead_range reg x m : 0 <= reg.1 -> 0 <= reg.2 ->
  vwp (CommonRead Dev reg) (fun r _ _ => 0 <= r.2 < 256 ^ reg.2) x m.
Proof. intros. by apply vwp_CommonRead. Qed.

Lemma mVirtIoTemplate_laws : VirtIoLaws world (V := mVirtIoTemplate Dev).
Proof.
  split; cbn.
  - intros w m St v m' w' E. exact (vwp_elim _ _ _ _ _ _ _ E (features_range w m)).
  - intros w m St v m' w' E. exact (vwp_elim _ _ _ _ _ _ _ E (CommonRead_range Reg_QueueSize w m ltac:(done) ltac:(done))).
  - intros w m St v m' w' E. exact (vwp_elim _ _ _ _ _ _ _ E (CommonRead_range Reg_DeviceStatus w m ltac:(done) ltac:(done))).
  - intros off n w m St v m' w' Hn E. unfold Virtio10ReadDevice in E. rewrite Z.eqb_refl in E.
    assert (0 < 256 ^ n) by (apply Z.pow_pos_nonneg; lia).
    unfold Virtio10Transfer in E. destruct (Exists (SpecificConfig Dev)); cbn [negb orb] in E; [|injection E as _ <- _ _; lia].
    destruct (_ || _) in E; [injection E as _ <- _ _; lia|]. cbv zeta in E.
    unfold mbind, vop_bind, mret, vop_ret, record, lift in E. cbn [fst snd] in E.
    destruct (Z.eqb_spec n 1) as [->|].
    { destruct (pci_Read _ _ _ _ _ _ _) as [[[S1 d] m1] w1] eqn:E1. injection E as _ <- _ _.
      by eapply (pci_Read_range _ 1 _ _ 1) in E1. }
    destruct (Z.eqb_spec n 2) as [->|].
    { destruct (pci_Read _ _ _ _ _ _ _) as [[[S1 d] m1] w1] eqn:E1. injection E as _ <- _ _.
      by eapply (pci_Read_range _ 2 _ _ 1) in E1. }
    destruct (Z.eqb_spec n 8) as [->|].
    { destruct (pci_Read _ _ _ _ _ _ _) as [[[S1 d] m1] w1] eqn:E1. injection E as _ <- _ _.
      by eapply (pci_Read_range _ 4 _ _ 2) in E1. }
    destruct (Z.eqb_spec n 4) as [->|].
    { destruct (pci_Read _ _ _ _ _ _ _) as [[[S1 d] m1] w1] eqn:E1. injection E as _ <- _ _.
      by eapply (pci_Read_range _ 4 _ _ 1) in E1. }
    injection E as _ <- _ _. lia.
  - intros live n w m St a m' w' E HE. unfold Virtio10AllocateSharedPages, lift in E.
    destruct (pci_AllocateBuffer _ _ _ _) as [[[S1 a1] m1] w1] eqn:E1. injection E as -> -> -> _.
    by eapply pci_AllocateBuffer_fresh.
  - intros live n w m St a m' w' E HE. unfold Virtio10AllocateSharedPages, lift in E.
    destruct (pci_AllocateBuffer _ _ _ _) as [[[S1 a1] m1] w1] eqn:E1. injection E as -> -> -> _.
    by eapply pci_AllocateBuffer_frame.
  - intros live op host size w m St n dev tok m' w' E HE. unfold Virtio10MapSharedBuffer, lift in E.
    destruct (pci_Map _ _ _ _ _ _) as [[[[[S1 n1] d1] t1] m1] w1] eqn:E1. injection E as -> -> -> -> -> _.
    by eapply pci_Map_fresh.
Qed.

(** *** Every member stays inside the register blocks *)
Lemma tame_CommonWrite reg v : 0 <= reg.1 -> tame (confined Dev) (CommonWrite Dev reg v).
Proof. intros H. apply tame_bind; [|intros; apply tame_ret]. apply tame_transfer; [done|]. by left. Qed.
Lemma tame_CommonRead reg : 0 <= reg.1 -> tame (confined Dev) (CommonRead Dev reg).
Proof. intros H. apply tame_transfer; [done|]. by left. Qed.
Ltac tame :=
  repeat lazymatch goal with
  | |- tame _ (mret _) => apply tame_ret
  | |- tame _ (CommonWrite _ _ _) => by apply tame_CommonWrite
  | |- tame _ (CommonRead _ _) => by apply tame_CommonRead
  | |- tame _ (lift _) => apply tame_lift
  | |- tame _ (_ ≫= _) => apply tame_bind; [|intros]
  | |- tame _ (if _ then _ else _) => apply tame_if
  end.

Lemma tame_GetDeviceFeatures : tame (confined Dev) (Virtio10GetDeviceFeatures Dev).
Proof. unfold Virtio10GetDeviceFeatures. cbn [GetFeatureWords]. tame. Qed.
Lemma tame_SetGuestFeatures F : tame (confined Dev) (Virtio10SetGuestFeatures Dev F).
Proof. unfold Virtio10SetGuestFeatures. cbn [SetFeatureWords]. tame. Qed.
Lemma tame_SetQueueAddress r shift : tame (confined Dev) (Virtio10SetQueueAddress Dev r shift).
Proof. unfold Virtio10SetQueueAddress. tame. Qed.
Lemma tame_SetQueueNotify q : tame (confined Dev) (Virtio10SetQueueNotify Dev q).
Proof.
  unfold Virtio10SetQueueNotify. tame. apply tame_transfer; [unfold u32; lia_div|]. by right; left.
Qed.
Lemma tame_SetQueueNum q : tame (confined Dev) (Virtio10SetQueueNum Dev q).
Proof. unfold Virtio10SetQueueNum, Virtio10GetQueueNumMax. tame. Qed.
Lemma tame_WriteDevice off n v : 0 <= off -> tame (confined Dev) (Virtio10WriteDevice Dev off n v).
Proof. intros H. unfold Virtio10WriteDevice. tame. apply tame_transfer; [done|]. by right; right. Qed.
Lemma tame_ReadDevice off n b : 0 <= off -> tame (confined Dev) (Virtio10ReadDevice Dev off n b).
Proof. intros H. unfold Virtio10ReadDevice. tame. apply tame_transfer; [done|]. by right; right. Qed.
End Proofs.
