(* ===== verification/Virtio10Bind.v ===== *)
(** * Virtio10Dxe and UefiPciCapPciIoLib: finding and binding the device

    Models QemuPkg/Library/UefiPciCapPciIoLib/UefiPciCapPciIoLib.c (the
    [PCI_CAP_DEV] over EFI_PCI_IO_PROTOCOL, an instance of [PciCapDev]) and the
    rest of QemuPkg/Virtio10Dxe/Virtio10.c: the traversal of the vendor
    capabilities with BasePciCapLib, and the driver binding. *)
From S2P Require Import Prelude Bytes Memory OrderedCollection Virtio Virtio10 PciCap.

Definition EFI_PCI_CAPABILITY_ID_VENDOR : Z := 0x09.
Definition VIRTIO_PCI_CAP_COMMON_CFG : Z := 1.
Definition VIRTIO_PCI_CAP_NOTIFY_CFG : Z := 2.
Definition VIRTIO_PCI_CAP_DEVICE_CFG : Z := 4.
Definition SIZEOF_VIRTIO_PCI_CAP : Z := 16.
Definition VIRTIO_VENDOR_ID : Z := 0x1AF4.
Definition ACPI_QWORD_ADDRESS_SPACE_DESCRIPTOR : Z := 0x8A.
Definition ACPI_ADDRESS_SPACE_TYPE_MEM : Z := 0.
Definition ACPI_ADDRESS_SPACE_TYPE_IO : Z := 1.
Definition EFI_PCI_IO_ATTRIBUTE_IO : Z := 0x100.
Definition EFI_PCI_IO_ATTRIBUTE_MEMORY : Z := 0x200.
Definition EFI_PCI_IO_ATTRIBUTE_BUS_MASTER : Z := 0x400.
Definition EFI_PCI_IO_ATTRIBUTE_DUAL_ADDRESS_CYCLE : Z := 0x8000.

(** VIRTIO_PCI_CAP behind the vendor header: ConfigType at 3, Bar at 4,
    Offset at 8, Length at 12. *)
Record VIRTIO_PCI_CAP : Type := mkVirtioCap { ConfigType : Z; Cap_Bar : Z; Cap_Offset : Z; Cap_Length : Z }.
Definition decode_virtio_cap (bs : list Z) : VIRTIO_PCI_CAP :=
  mkVirtioCap (nth 3 bs 0) (nth 4 bs 0) (le_combine (take 4 (drop 8 bs))) (le_combine (take 4 (drop 12 bs))).

(** ** The PCI device's configuration side, and the boot services *)
Class PciBus (W : Type) := {
  cfg_Read : Z -> Z -> Z -> W -> EFI_STATUS * list Z * W;     (* Width Offset Count *)
  cfg_Write : Z -> Z -> list Z -> W -> EFI_STATUS * W;
  pci_GetBarAttributes : Z -> W -> EFI_STATUS * (Z * Z) * W;  (* descriptor, ResType *)
  pci_AttributesGet : W -> EFI_STATUS * Z * W;
  pci_AttributesEnable : Z -> W -> EFI_STATUS * W;
  pci_AttributesSet : Z -> W -> EFI_STATUS * W;
  gbs_OpenProtocol : W -> EFI_STATUS * W;
  gbs_InstallProtocolInterface : W -> EFI_STATUS * W;
  gbs_GetProtocol : W -> EFI_STATUS * W;
  gbs_UninstallProtocolInterface : W -> EFI_STATUS * W;
}.
(** A read fills the buffer. *)
Class PciBusLaws (W : Type) {B : PciBus W} : Prop :=
  cfg_Read_buffer (w : W) wd off c St bs w' :
    0 <= wd -> 0 <= c -> cfg_Read wd off c w = (St, bs, w') ->
    Z.of_nat (length bs) = wd * c /\ Forall is_byte bs.

(** ** UefiPciCapPciIoLib *)
Section ProtoDev.
Context {W : Type}.

(** Width and count of the next access. *)
Definition NextAccess (ConfigOffset Size : Z) : Z * Z :=
  if (4 <=? Size) && (Z.land ConfigOffset 3 =? 0) then (4, Z.shiftr Size 2)
  else if (2 <=? Size) && (Z.land ConfigOffset 1 =? 0) then (2, 1)
  else (1, 1).

(** [TransferFunction Width Offset Count Buffer]: the buffer afterwards. *)
Fixpoint ProtoDevTransferConfig (fuel : nat)
    (TransferFunction : Z -> Z -> Z -> list Z -> W -> EFI_STATUS * list Z * W)
    (ConfigOffset : Z) (Buffer : list Z) (Size : Z) (w : W) : EFI_STATUS * list Z * W :=
  match fuel with
  | O => (EFI_DEVICE_ERROR, Buffer, w)
  | S fuel =>
      if 0 <? Size then
        let '(Width, Count) := NextAccess ConfigOffset Size in
        let Progress := Width * Count in
        let n := Z.to_nat Progress in
        let '(Status, chunk, w) := TransferFunction Width ConfigOffset Count (take n Buffer) w in
        if EFI_ERROR Status then (Status, chunk ++ drop n Buffer, w)
        else
          let '(Status, rest, w) :=
            ProtoDevTransferConfig fuel TransferFunction (u16 (ConfigOffset + Progress)) (drop n Buffer)
              (Size - Progress) w in
          (Status, chunk ++ rest, w)
      else (EFI_SUCCESS, Buffer, w)
  end.

Context {B : PciBus W}.
Definition ProtoDevReadConfig (w : W) (SourceOffset Size : Z) : EFI_STATUS * list Z * W :=
  ProtoDevTransferConfig (S (Z.to_nat Size)) (fun wd off c _ w => cfg_Read wd off c w)
    SourceOffset (replicate (Z.to_nat Size) 0) Size w.
Definition ProtoDevWriteConfig (w : W) (DestinationOffset : Z) (SourceBuffer : list Z) : EFI_STATUS * W :=
  let '(Status, _, w) :=
    ProtoDevTransferConfig (S (length SourceBuffer))
      (fun wd off c bs w => let '(St, w) := cfg_Write wd off bs w in (St, bs, w))
      DestinationOffset SourceBuffer (Z.of_nat (length SourceBuffer)) w in
  (Status, w).
#[global] Instance ProtoDev : PciCapDev W :=
  {| ReadConfig := ProtoDevReadConfig; WriteConfig := ProtoDevWriteConfig |}.
End ProtoDev.

(** ** The driver *)
Inductive attribute_op : Type := AttrEnable (v : Z) | AttrSet (v : Z).

Section Bind.
Context {W : Type} {PE : PoolEnv W} {B : PciBus W}.
Context {OCK : OrderedCollection PCI_CAP_KEY ptr W ComparePciCapKey}.
Context {OCO : OrderedCollection Z ptr W ComparePciCapOffsetKey}.

(** [Core]: the state of BasePciCapLib with the environment.  The counters:
    PROTO_DEV and BAR resource buffers, device structures, protocol opens,
    installed interfaces.  [AttrLog]: the changes of the PCI attributes. *)
Record st10 : Type := mkSt10 {
  Core : st (W:=W);
  ProtoDevs : Z; Resources : Z; Devices : Z; Opens10 : Z; Interfaces10 : Z;
  AttrLog : list attribute_op;
}.
Definition set_core (c : st (W:=W)) (s : st10) : st10 :=
  mkSt10 c (ProtoDevs s) (Resources s) (Devices s) (Opens10 s) (Interfaces10 s) (AttrLog s).
Definition add_counts (p r d o i : Z) (s : st10) : st10 :=
  mkSt10 (Core s) (ProtoDevs s + p) (Resources s + r) (Devices s + d) (Opens10 s + o) (Interfaces10 s + i) (AttrLog s).
Definition log_attr (a : attribute_op) (s : st10) : st10 :=
  mkSt10 (Core s) (ProtoDevs s) (Resources s) (Devices s) (Opens10 s) (Interfaces10 s) (AttrLog s ++ [a]).

(** A call of BasePciCapLib. *)
Definition zoom {A} (f : M (st (W:=W)) A) : M st10 A := fun s =>
  match f (Core s) with Done a c => Done a (set_core c s) | Trap t => Trap t end.
Definition env10 {A} (f : W -> A * W) : M st10 A := zoom (env_call f).
Definition Count (p r d o i : Z) : M st10 unit := modify (add_counts p r d o i).

Definition PciCapPciIoDeviceInit : M st10 EFI_STATUS :=
  ok ← env10 pool_alloc;
  if ok : bool then Count 1 0 0 0 0;; mret EFI_SUCCESS else mret EFI_OUT_OF_RESOURCES.
Definition PciCapPciIoDeviceUninit : M st10 unit := Count (-1) 0 0 0 0.

Definition GetBarType (BarIndex : Z) : M st10 (EFI_STATUS * VIRTIO_1_0_BAR_TYPE) :=
  r ← env10 (pci_GetBarAttributes BarIndex);
  let '(Status, (Descriptor, ResType)) := r in
  if EFI_ERROR Status then mret (Status, Virtio10BarTypeMem)
  else
    Count 0 1 0 0 0;;
    let out :=
      if Descriptor =? ACPI_QWORD_ADDRESS_SPACE_DESCRIPTOR then
        if ResType =? ACPI_ADDRESS_SPACE_TYPE_MEM then (EFI_SUCCESS, Virtio10BarTypeMem)
        else if ResType =? ACPI_ADDRESS_SPACE_TYPE_IO then (EFI_SUCCESS, Virtio10BarTypeIo)
        else (EFI_UNSUPPORTED, Virtio10BarTypeMem)
      else (EFI_UNSUPPORTED, Virtio10BarTypeMem) in
    Count 0 (-1) 0 0 0;;
    mret out.

(** Device->CommonConfig, ->NotifyConfig, ->SpecificConfig by ConfigType. *)
Definition ParsedConfig (t : Z) (Dev : VIRTIO_1_0_DEV) : option VIRTIO_1_0_CONFIG :=
  if t =? VIRTIO_PCI_CAP_COMMON_CFG then Some (CommonConfig Dev)
  else if t =? VIRTIO_PCI_CAP_NOTIFY_CFG then Some (NotifyConfig Dev)
  else if t =? VIRTIO_PCI_CAP_DEVICE_CFG then Some (SpecificConfig Dev)
  else None.
Definition set_config (t : Z) (c : VIRTIO_1_0_CONFIG) (Dev : VIRTIO_1_0_DEV) : VIRTIO_1_0_DEV :=
  mkDev10 (DeviceId Dev) (OriginalPciAttributes Dev)
    (if t =? VIRTIO_PCI_CAP_COMMON_CFG then c else CommonConfig Dev)
    (if t =? VIRTIO_PCI_CAP_NOTIFY_CFG then c else NotifyConfig Dev)
    (NotifyOffsetMultiplier Dev)
    (if t =? VIRTIO_PCI_CAP_DEVICE_CFG then c else SpecificConfig Dev).
Definition set_multiplier (v : Z) (Dev : VIRTIO_1_0_DEV) : VIRTIO_1_0_DEV :=
  mkDev10 (DeviceId Dev) (OriginalPciAttributes Dev) (CommonConfig Dev) (NotifyConfig Dev) v (SpecificConfig Dev).

(** PciCapRead of exactly the bytes asked for. *)
Definition CapRead (Cap : ptr) (off n : Z) : M st10 (EFI_STATUS * list Z) :=
  r ← zoom (PciCapRead Cap off n); mret (r.1, default [] r.2).

(** One turn of the loop; a set error bit leaves it for UninitCapList. *)
Definition ParseVendorCap (VendorCap : ptr) (Device : VIRTIO_1_0_DEV) : M st10 (EFI_STATUS * VIRTIO_1_0_DEV) :=
  r ← CapRead VendorCap 2 1;
  let '(Status, bs) := r in
  if EFI_ERROR Status then mret (Status, Device) else
  let CapLen := le_combine bs in
  if CapLen <? SIZEOF_VIRTIO_PCI_CAP then mret (Status, Device) else
  r ← CapRead VendorCap 0 SIZEOF_VIRTIO_PCI_CAP;
  let '(Status, bs) := r in
  if EFI_ERROR Status then mret (Status, Device) else
  let VirtIoCap := decode_virtio_cap bs in
  match ParsedConfig (ConfigType VirtIoCap) Device with
  | None => mret (Status, Device)
  | Some config =>
      r ← GetBarType (Cap_Bar VirtIoCap);
      let '(Status, type) := r in
      if EFI_ERROR Status then mret (Status, Device) else
      let located := mkConfig (Exists config) type (Cap_Bar VirtIoCap) (Cap_Offset VirtIoCap) (Cap_Length VirtIoCap) in
      let found := mkConfig true type (Cap_Bar VirtIoCap) (Cap_Offset VirtIoCap) (Cap_Length VirtIoCap) in
      if ConfigType VirtIoCap =? VIRTIO_PCI_CAP_NOTIFY_CFG then
        if CapLen <? SIZEOF_VIRTIO_PCI_CAP + 4 then
          mret (Status, set_config (ConfigType VirtIoCap) located Device)
        else
          r ← zoom (PciCapRead VendorCap SIZEOF_VIRTIO_PCI_CAP 4);
          let '(Status, bs) := r in
          let Device := match bs with Some bs => set_multiplier (le_combine bs) Device | None => Device end in
          mret (Status, set_config (ConfigType VirtIoCap) (if EFI_ERROR Status then located else found) Device)
      else mret (Status, set_config (ConfigType VirtIoCap) found Device)
  end.

Fixpoint VendorLoop (fuel : nat) (CapList : PCI_CAP_LIST (OCK:=OCK)) (VendorInstance : Z) (Status : EFI_STATUS)
    (Device : VIRTIO_1_0_DEV) : M st10 (EFI_STATUS * VIRTIO_1_0_DEV) :=
  match fuel with
  | O => trapped OutOfFuel
  | S fuel =>
      match PciCapListFindCap CapList PciCapNormal EFI_PCI_CAPABILITY_ID_VENDOR VendorInstance with
      | (_, None) => ASSERT (negb (EFI_ERROR Status));; mret (Status, Device)
      | (_, Some VendorCap) =>
          r ← ParseVendorCap VendorCap Device;
          let '(Status, Device) := r in
          if EFI_ERROR Status then mret (Status, Device)
          else VendorLoop fuel CapList (u16 (VendorInstance + 1)) Status Device
      end
  end.

Definition ParseCapabilities (fuel : nat) (Device : VIRTIO_1_0_DEV) : M st10 (EFI_STATUS * VIRTIO_1_0_DEV) :=
  Status ← PciCapPciIoDeviceInit;
  if EFI_ERROR Status then mret (Status, Device) else
  r ← zoom (PciCapListInit fuel);
  let '(Status, CapList) := r in
  match CapList with
  | None => PciCapPciIoDeviceUninit;; mret (Status, Device)
  | Some CapList =>
      r ← VendorLoop fuel CapList 0 Status Device;
      zoom (PciCapListUninit CapList);;
      PciCapPciIoDeviceUninit;;
      mret r
  end.

Definition UpdateAttributes (Config : VIRTIO_1_0_CONFIG) (Attributes : Z) : Z :=
  if Exists Config then
    Z.lor Attributes
      (match BarType Config with
       | Virtio10BarTypeMem => EFI_PCI_IO_ATTRIBUTE_MEMORY
       | Virtio10BarTypeIo => EFI_PCI_IO_ATTRIBUTE_IO
       end)
  else Attributes.

(** *** Driver binding *)
Definition OpenPciIo : M st10 EFI_STATUS :=
  Status ← env10 gbs_OpenProtocol; (if EFI_ERROR Status then mret tt else Count 0 0 0 1 0);; mret Status.
Definition ClosePciIoProtocol : M st10 unit := Count 0 0 0 (-1) 0.
Definition AttributesEnable (v : Z) : M st10 EFI_STATUS :=
  Status ← env10 (pci_AttributesEnable v);
  (if EFI_ERROR Status then mret tt else modify (log_attr (AttrEnable v)));; mret Status.
Definition AttributesSet (v : Z) : M st10 unit :=
  _ ← env10 (pci_AttributesSet v); modify (log_attr (AttrSet v)).

(** PCI_TYPE00. *)
Definition field16 (bs : list Z) (off : nat) : Z := le_combine (take 2 (drop off bs)).
Definition IS_PCI_VGA (Pci : list Z) : bool :=
  (nth 11 Pci 0 =? 3) && (nth 10 Pci 0 =? 0) && (nth 9 Pci 0 =? 0).
Definition IsVirtio10 (Pci : list Z) : bool :=
  (field16 Pci 0 =? VIRTIO_VENDOR_ID) && (0x1040 <=? field16 Pci 2) && (field16 Pci 2 <=? 0x107F) &&
  (1 <=? nth 8 Pci 0) && (0x40 <=? field16 Pci 0x2E) &&
  negb (Z.land (field16 Pci 6) EFI_PCI_STATUS_CAPABILITY =? 0) &&
  (negb (field16 Pci 2 =? 0x1050) || negb (IS_PCI_VGA Pci)).
Definition ReadHeader : M st10 (EFI_STATUS * list Z) := env10 (fun w => cfg_Read 4 0 16 w).

Definition Virtio10BindingSupported : M st10 EFI_STATUS :=
  Status ← OpenPciIo;
  if EFI_ERROR Status then mret Status else
  r ← ReadHeader;
  let '(Status, Pci) := r in
  let Status := if EFI_ERROR Status then Status
                else if IsVirtio10 Pci then EFI_SUCCESS else EFI_UNSUPPORTED in
  ClosePciIoProtocol;; mret Status.

Definition FreeDevice (Status : EFI_STATUS) : M st10 (EFI_STATUS * option VIRTIO_1_0_DEV) :=
  Count 0 0 (-1) 0 0;; mret (Status, None).
Definition ClosePciIo (Status : EFI_STATUS) := ClosePciIoProtocol;; FreeDevice Status.
Definition RestorePciAttributes (Device : VIRTIO_1_0_DEV) (Status : EFI_STATUS) :=
  AttributesSet (OriginalPciAttributes Device);; ClosePciIo Status.

Definition SetAttributes (Device : VIRTIO_1_0_DEV) : Z :=
  UpdateAttributes (SpecificConfig Device)
    (UpdateAttributes (NotifyConfig Device)
      (UpdateAttributes (CommonConfig Device)
        (Z.lor EFI_PCI_IO_ATTRIBUTE_BUS_MASTER EFI_PCI_IO_ATTRIBUTE_DUAL_ADDRESS_CYCLE))).

Definition Virtio10BindingStart (fuel : nat) : M st10 (EFI_STATUS * option VIRTIO_1_0_DEV) :=
  ok ← env10 pool_alloc;
  if negb ok then mret (EFI_OUT_OF_RESOURCES, None) else
  Count 0 0 1 0 0;;
  Status ← OpenPciIo;
  if EFI_ERROR Status then FreeDevice Status else
  r ← ReadHeader;
  let '(Status, Pci) := r in
  if EFI_ERROR Status then ClosePciIo Status else
  r ← ParseCapabilities fuel (mkDev10 (field16 Pci 2 - 0x1040) 0 zero_config zero_config 0 zero_config);
  let '(Status, Device) := r in
  if EFI_ERROR Status then ClosePciIo Status else
  r ← env10 pci_AttributesGet;
  let '(Status, Original) := r in
  if EFI_ERROR Status then ClosePciIo Status else
  let Device := mkDev10 (DeviceId Device) Original (CommonConfig Device) (NotifyConfig Device)
                  (NotifyOffsetMultiplier Device) (SpecificConfig Device) in
  Status ← AttributesEnable (SetAttributes Device);
  if EFI_ERROR Status then ClosePciIo Status else
  Status ← env10 gbs_InstallProtocolInterface;
  if EFI_ERROR Status then RestorePciAttributes Device Status else
  Count 0 0 0 0 1;; mret (EFI_SUCCESS, Some Device).

(** [Device]: the one that the handle's protocol instance belongs to. *)
Definition Virtio10BindingStop (Device : VIRTIO_1_0_DEV) : M st10 EFI_STATUS :=
  Status ← env10 gbs_GetProtocol;
  if EFI_ERROR Status then mret Status else
  Status ← env10 gbs_UninstallProtocolInterface;
  if EFI_ERROR Status then mret Status else
  Count 0 0 0 0 (-1);;
  AttributesSet (OriginalPciAttributes Device);;
  ClosePciIoProtocol;;
  Count 0 0 (-1) 0 0;;
  mret EFI_SUCCESS.
End Bind.
