(* ===== verification/Virtio10BindProofs.v ===== *)
(** * Virtio10Dxe: configuration transfers, capability traversal, binding *)
From S2P Require Import Prelude Bytes Memory OrderedCollection Virtio Virtio10 PciCap PciCapProofs PciCapQueries Virtio10Bind.
From Stdlib Require Import Sorting.Sorted.

(** ** ProtoDevTransferConfig *)

(** Contiguous, naturally aligned accesses [(Width, Offset, Count)] from [o] to [e]. *)
Fixpoint tiles (o : Z) (l : list (Z * Z * Z)) (e : Z) : Prop :=
  match l with
  | [] => o = e
  | (wd, o', c) :: l =>
      o' = o /\ (wd = 1 \/ wd = 2 \/ wd = 4) /\ o mod wd = 0 /\ 1 <= c /\ tiles (o + wd * c) l e
  end.

Definition transfer (W : Type) : Type := Z -> Z -> Z -> list Z -> W -> EFI_STATUS * list Z * W.
(** The same transfers, with the accesses made. *)
Definition logged {W} (TF : transfer W) : transfer (W * list (Z * Z * Z)) := fun wd o c bs x =>
  let '(St, bs, w) := TF wd o c bs x.1 in (St, bs, (w, x.2 ++ [(wd, o, c)])).
(** A transfer that fills its buffer. *)
Definition fills {W} (TF : transfer W) : Prop := forall wd o c bs w St bs' w',
  0 <= wd -> 0 <= c -> TF wd o c bs w = (St, bs', w') ->
  Z.of_nat (length bs') = wd * c /\ Forall is_byte bs'.

Section ProtoDevProofs.
Context {W : Type}.
Implicit Types (TF : transfer W) (w : W).

Lemma land_low n x : 0 <= n -> Z.land x (Z.ones n) = x mod 2 ^ n.
Proof. intros. by apply Z.land_ones. Qed.

Lemma NextAccess_spec o size wd c :
  0 < size -> NextAccess o size = (wd, c) ->
  (wd = 1 \/ wd = 2 \/ wd = 4) /\ o mod wd = 0 /\ 1 <= c /\ wd * c <= size.
Proof.
  intros Hs. unfold NextAccess. change 3 with (Z.ones 2). change (Z.land o 1) with (Z.land o (Z.ones 1)).
  rewrite !land_low by lia. change (2 ^ 2) with 4. change (2 ^ 1) with 2.
  rewrite Z.shiftr_div_pow2 by lia. change (2 ^ 2) with 4.
  destruct ((4 <=? size) && _) eqn:C1; [|destruct ((2 <=? size) && _) eqn:C2]; intros [= <- <-].
  - split_and!; [auto|lia|lia_div|lia_div].
  - split_and!; [auto|lia|lia|lia].
  - split_and!; [auto|apply Z.mod_1_r|lia|lia].
Qed.

(** The buffer keeps its size, and holds bytes. *)
Lemma ProtoDevTransferConfig_buffer TF fuel o buf size w St buf' w' :
  fills TF -> Forall is_byte buf -> Z.of_nat (length buf) = size ->
  ProtoDevTransferConfig fuel TF o buf size w = (St, buf', w') ->
  length buf' = length buf /\ Forall is_byte buf'.
Proof.
  intros HT. revert o buf size w St buf' w'. induction fuel as [|fuel IH]; intros o buf size w St buf' w' Hb Hl E;
    cbn in E; [by simplify_eq|].
  destruct (Z.ltb_spec 0 size); [|by simplify_eq].
  destruct (NextAccess o size) as [wd c] eqn:EN. apply NextAccess_spec in EN as (Hwd & _ & Hc & Hsz); [|done].
  destruct (TF wd o c _ w) as [[St1 chunk] w1] eqn:ET. apply HT in ET as [Hcl Hcb]; [|lia..].
  remember (Z.to_nat (wd * c)) as n eqn:En.
  assert (length (drop n buf) = length buf - n)%nat as Hdl by apply length_drop.
  assert (Forall is_byte (drop n buf)) as Hdb by by apply Forall_drop.
  destruct (EFI_ERROR St1).
  - simplify_eq. rewrite length_app, Forall_app. split; [lia|done].
  - destruct (ProtoDevTransferConfig fuel TF _ (drop n buf) _ w1) as [[St2 rest] w2] eqn:ER. simplify_eq.
    apply IH in ER as [Hrl Hrb]; [|done|lia]. rewrite length_app, Forall_app. split; [lia|done].
Qed.

(** The accesses of a transfer tile the requested range, or a prefix of it
    when one of them fails. *)
Lemma ProtoDevTransferConfig_tiles TF fuel : forall o buf size w l,
  0 <= o -> 0 <= size -> o + size < 2 ^ 16 -> (Z.to_nat size < fuel)%nat ->
  exists St buf' w' k e,
    ProtoDevTransferConfig fuel TF o buf size w = (St, buf', w') /\
    ProtoDevTransferConfig fuel (logged TF) o buf size (w, l) = (St, buf', (w', l ++ k)) /\
    tiles o k e /\ (if EFI_ERROR St then e <= o + size else e = o + size).
Proof.
  induction fuel as [|fuel IH]; intros o buf size w l Ho Hs Hos Hf; [lia|]. cbn [ProtoDevTransferConfig].
  destruct (Z.ltb_spec 0 size).
  2:{ exists EFI_SUCCESS, buf, w, [], o. rewrite app_nil_r. split_and!; try done.
      change (EFI_ERROR EFI_SUCCESS) with false. cbv iota. lia. }
  destruct (NextAccess o size) as [wd c] eqn:EN. apply NextAccess_spec in EN as (Hwd & Hal & Hc & Hsz); [|done].
  unfold logged at 1. cbn [fst snd]. set (n := Z.to_nat (wd * c)).
  destruct (TF wd o c (take n buf) w) as [[St1 chunk] w1].
  destruct (EFI_ERROR St1) eqn:E1.
  - eexists _, _, _, _, (o + wd * c). split; [done|]. split; [done|]. cbn. rewrite E1. split_and!; try done; lia.
  - unfold u16. rewrite Z.mod_small by nia.
    destruct (IH (o + wd * c) (drop n buf) (size - wd * c) w1 (l ++ [(wd, o, c)]))
      as (St & buf' & w' & k & e & H1 & H2 & H3 & H4); [nia|lia|lia|nia|].
    rewrite H1, H2. eexists _, _, _, ((wd, o, c) :: k), e. split; [done|].
    split; [by rewrite <-(assoc_L (++))|]. split; [cbn; auto|]. destruct (EFI_ERROR St); lia.
Qed.

(** From a configuration space that can be read as memory, the transfer is
    a read of the whole range. *)
Lemma ProtoDevTransferConfig_memory TF fuel (cfg : Z -> Z) : forall o buf size w,
  (forall wd o c bs w, TF wd o c bs w = (EFI_SUCCESS, cfg <$> seqZ o (wd * c), w)) ->
  0 <= o -> 0 <= size -> o + size < 2 ^ 16 -> (Z.to_nat size < fuel)%nat -> Z.of_nat (length buf) = size ->
  ProtoDevTransferConfig fuel TF o buf size w = (EFI_SUCCESS, cfg <$> seqZ o size, w).
Proof.
  intros o buf size w HT. revert o buf size w.
  induction fuel as [|fuel IH]; intros o buf size w Ho Hs Hos Hf Hl; [lia|]. cbn.
  destruct (Z.ltb_spec 0 size).
  2:{ assert (size = 0) as -> by lia. by destruct buf. }
  destruct (NextAccess o size) as [wd c] eqn:EN. apply NextAccess_spec in EN as (Hwd & Hal & Hc & Hsz); [|done].
  rewrite HT. change (EFI_ERROR EFI_SUCCESS) with false. cbv iota.
  unfold u16. rewrite Z.mod_small by nia. rewrite IH; [| nia..|].
  - rewrite <-fmap_app, <-seqZ_app by nia. by replace (wd * c + (size - wd * c)) with size by lia.
  - rewrite length_drop. lia.
Qed.
End ProtoDevProofs.

#[global] Instance ProtoDev_laws {W} {B : PciBus W} {BL : PciBusLaws W} : PciCapDevLaws W.
Proof.
  intros w off size s bs w' Hs E. change (ProtoDevReadConfig w off size = (s, bs, w')) in E.
  unfold ProtoDevReadConfig in E.
  apply ProtoDevTransferConfig_buffer in E as [Hl Hb].
  - rewrite Hl, length_replicate. split; [lia|done].
  - intros wd o c _ w0 St bs' w1 Hwd Hc E'. by eapply cfg_Read_buffer.
  - apply Forall_replicate. done.
  - rewrite length_replicate. lia.
Qed.

(** ** Vendor capabilities *)

(** Headers are numbered in traversal order. *)
Lemma number_lookup (G : list ghost) g :
  g_key <$> G = number (g_hdr <$> G) -> g ∈ G ->
  filter (same (Domain (g_key g)) (CapId (g_key g))) (g_hdr <$> G) !! Z.to_nat (Instance_ (g_key g)) = Some (g_hdr g).
Proof.
  revert g. induction G as [|g' G IH] using rev_ind; intros g HG; [by intros ?%elem_of_nil|].
  rewrite !fmap_app in *. cbn in *. rewrite number_snoc in HG.
  apply app_inj_tail in HG as [HG Hk]. rewrite elem_of_app, list_elem_of_singleton, filter_app.
  intros [Hin | ->].
  - apply lookup_app_l_Some. by apply IH.
  - rewrite Hk. cbn [Domain CapId Instance_]. unfold occ. rewrite Nat2Z.id, filter_cons, decide_True by done.
    rewrite lookup_app_r by lia. by rewrite Nat.sub_diag.
Qed.

Section Effects.
Context {W : Type} {B : PciBus W}.

(** What the platform says of a BAR: the status and type that its resource
    descriptor stands for. *)
Definition bar_type (b : Z) (St : EFI_STATUS) (type : VIRTIO_1_0_BAR_TYPE) : Prop :=
  exists w St' desc res w', pci_GetBarAttributes b w = (St', (desc, res), w') /\
  if EFI_ERROR St' then St = St'
  else if (desc =? ACPI_QWORD_ADDRESS_SPACE_DESCRIPTOR) && (res =? ACPI_ADDRESS_SPACE_TYPE_MEM) then
    St = EFI_SUCCESS /\ type = Virtio10BarTypeMem
  else if (desc =? ACPI_QWORD_ADDRESS_SPACE_DESCRIPTOR) && (res =? ACPI_ADDRESS_SPACE_TYPE_IO) then
    St = EFI_SUCCESS /\ type = Virtio10BarTypeIo
  else St = EFI_UNSUPPORTED.

(** Less than [n] bytes before the next header of [L] or the end of the
    configuration space. *)
Definition cut_short (L : list hdr) (h : hdr) (n : Z) : Prop :=
  ConfigSpaceSize (h_dom h) < h_off h + n \/
  exists h', h' ∈ L /\ h_off h < h_off h' /\ h_off h' < h_off h + n.
(** A read of [n] bytes at [off] of the capability. *)
Definition cap_answers (L : list hdr) (h : hdr) (off n : Z) (St : EFI_STATUS) (bs : list Z) : Prop :=
  cut_short L h (off + n) /\ St = EFI_BAD_BUFFER_SIZE \/
  ~ cut_short L h (off + n) /\ device_answers (h_off h + off) n St bs.

(** What the driver makes of one vendor capability, given the device's
    answers; every read succeeded. *)
Inductive cap_effect (L : list hdr) (h : hdr) (Device : VIRTIO_1_0_DEV) : VIRTIO_1_0_DEV -> Prop :=
  | cap_short St len :
      cap_answers L h 2 1 St len -> EFI_ERROR St = false -> le_combine len < SIZEOF_VIRTIO_PCI_CAP ->
      cap_effect L h Device Device
  | cap_other St len St' bs :
      cap_answers L h 2 1 St len -> EFI_ERROR St = false -> SIZEOF_VIRTIO_PCI_CAP <= le_combine len ->
      cap_answers L h 0 SIZEOF_VIRTIO_PCI_CAP St' bs -> EFI_ERROR St' = false ->
      ParsedConfig (ConfigType (decode_virtio_cap bs)) Device = None ->
      cap_effect L h Device Device
  | cap_block St len St' bs St'' type Device' :
      cap_answers L h 2 1 St len -> EFI_ERROR St = false -> SIZEOF_VIRTIO_PCI_CAP <= le_combine len ->
      cap_answers L h 0 SIZEOF_VIRTIO_PCI_CAP St' bs -> EFI_ERROR St' = false ->
      bar_type (Cap_Bar (decode_virtio_cap bs)) St'' type -> EFI_ERROR St'' = false ->
      (let c := decode_virtio_cap bs in
       let block e := mkConfig e type (Cap_Bar c) (Cap_Offset c) (Cap_Length c) in
       exists old, ParsedConfig (ConfigType c) Device = Some old /\
       if ConfigType c =? VIRTIO_PCI_CAP_NOTIFY_CFG then
         if le_combine len <? SIZEOF_VIRTIO_PCI_CAP + 4 then
           Device' = set_config (ConfigType c) (block (Exists old)) Device
         else exists St3 mul, cap_answers L h SIZEOF_VIRTIO_PCI_CAP 4 St3 mul /\ EFI_ERROR St3 = false /\
           Device' = set_config (ConfigType c) (block true) (set_multiplier (le_combine mul) Device)
       else Device' = set_config (ConfigType c) (block true) Device) ->
      cap_effect L h Device Device'.

(** Why the driver gives up at one: the read of the length byte, of the
    capability, of the resource descriptor of its BAR, or of the notify
    multiplier failed. *)
Inductive cap_failed (L : list hdr) (h : hdr) (Device : VIRTIO_1_0_DEV) : EFI_STATUS -> Prop :=
  | fail_length St len :
      cap_answers L h 2 1 St len -> EFI_ERROR St = true -> cap_failed L h Device St
  | fail_capability St len St' bs :
      cap_answers L h 2 1 St len -> EFI_ERROR St = false -> SIZEOF_VIRTIO_PCI_CAP <= le_combine len ->
      cap_answers L h 0 SIZEOF_VIRTIO_PCI_CAP St' bs -> EFI_ERROR St' = true -> cap_failed L h Device St'
  | fail_bar St len St' bs old St'' type :
      cap_answers L h 2 1 St len -> EFI_ERROR St = false -> SIZEOF_VIRTIO_PCI_CAP <= le_combine len ->
      cap_answers L h 0 SIZEOF_VIRTIO_PCI_CAP St' bs -> EFI_ERROR St' = false ->
      ParsedConfig (ConfigType (decode_virtio_cap bs)) Device = Some old ->
      bar_type (Cap_Bar (decode_virtio_cap bs)) St'' type -> EFI_ERROR St'' = true -> cap_failed L h Device St''
  | fail_multiplier St len St' bs St3 mul :
      cap_answers L h 2 1 St len -> EFI_ERROR St = false -> SIZEOF_VIRTIO_PCI_CAP + 4 <= le_combine len ->
      cap_answers L h 0 SIZEOF_VIRTIO_PCI_CAP St' bs -> EFI_ERROR St' = false ->
      ConfigType (decode_virtio_cap bs) = VIRTIO_PCI_CAP_NOTIFY_CFG ->
      cap_answers L h SIZEOF_VIRTIO_PCI_CAP 4 St3 mul -> EFI_ERROR St3 = true -> cap_failed L h Device St3.

(** Vendor capabilities in traversal order. *)
Inductive parse_effect (L : list hdr) : list hdr -> VIRTIO_1_0_DEV -> VIRTIO_1_0_DEV -> Prop :=
  | parse_nil Device : parse_effect L [] Device Device
  | parse_cons h l Device Device1 Device2 :
      cap_effect L h Device Device1 -> parse_effect L l Device1 Device2 -> parse_effect L (h :: l) Device Device2.
(** ... up to the first that fails. *)
Inductive parse_stops (L : list hdr) : list hdr -> VIRTIO_1_0_DEV -> EFI_STATUS -> Prop :=
  | stops_here h l Device St : cap_failed L h Device St -> parse_stops L (h :: l) Device St
  | stops_later h l Device Device1 St :
      cap_effect L h Device Device1 -> parse_stops L l Device1 St -> parse_stops L (h :: l) Device St.
End Effects.

Section BindProofs.
Context {W : Type} {PE : PoolEnv W} {B : PciBus W} {BL : PciBusLaws W}.
Context {OCK : OrderedCollection PCI_CAP_KEY ptr W ComparePciCapKey}.
Context {OCO : OrderedCollection Z ptr W ComparePciCapOffsetKey}.
Context {LK : OrderedCollectionLaws OCK} {LO : OrderedCollectionLaws OCO}.
Implicit Types s : st10 (W:=W).

(** Pool memory and PCI capability lists as before; the counters and the
    attribute log changed by these amounts. *)
Record held10 (p r d o i : Z) (k : list attribute_op) s s' : Prop := {
  h_pool : Pool (Core s') = Pool (Core s);
  h_lists : LiveLists (Core s') = LiveLists (Core s);
  h_collections : LiveCollections (Core s') = LiveCollections (Core s);
  h_protodevs : ProtoDevs s' = ProtoDevs s + p;
  h_resources : Resources s' = Resources s + r;
  h_devices : Devices s' = Devices s + d;
  h_opens : Opens10 s' = Opens10 s + o;
  h_interfaces : Interfaces10 s' = Interfaces10 s + i;
  h_attrs : AttrLog s' = AttrLog s ++ k;
}.
Local Abbreviation quiet := (held10 0 0 0 0 0 []).

Lemma held10_trans p r d o i k p' r' d' o' i' k' s s1 s2 :
  held10 p r d o i k s s1 -> held10 p' r' d' o' i' k' s1 s2 ->
  held10 (p + p') (r + r') (d + d') (o + o') (i + i') (k ++ k') s s2.
Proof.
  intros [] []. split; try lia; try congruence. rewrite h_attrs1, h_attrs0. by rewrite (assoc_L (++)).
Qed.
Lemma quiet_trans s s1 s2 : quiet s s1 -> quiet s1 s2 -> quiet s s2.
Proof. intros H1 H2. exact (held10_trans _ _ _ _ _ _ _ _ _ _ _ _ _ _ _ H1 H2). Qed.
Lemma quiet_refl s : quiet s s.
Proof. split; try done; try lia. by rewrite app_nil_r. Qed.
Lemma quiet_env w s : quiet s (set_core (set_env w (Core s)) s).
Proof. split; cbn; try done; try lia. by rewrite app_nil_r. Qed.

Lemma wp_zoom {A} (f : M (st (W:=W)) A) (Q : A -> st10 -> Prop) s :
  wp (zoom f) Q s <-> wp f (fun a c => Q a (set_core c s)) (Core s).
Proof. unfold wp, zoom. by destruct (f (Core s)). Qed.
Lemma wp_env10 {A} (f : W -> A * W) (Q : A -> st10 -> Prop) s :
  (forall a w, Q a (set_core (set_env w (Core s)) s)) -> wp (env10 f) Q s.
Proof. intros HQ. unfold env10. rewrite wp_zoom, wp_cap_env_call. destruct (f _). apply HQ. Qed.
Lemma wp_Count p r d o i (Q : unit -> st10 -> Prop) s : wp (Count p r d o i) Q s <-> Q tt (add_counts p r d o i s).
Proof. done. Qed.

Lemma GetBarType_spec b s : wp (GetBarType b) (fun '(St, type) s' => quiet s s' /\ bar_type b St type) s.
Proof.
  unfold GetBarType. wp_steps. unfold env10. rewrite wp_zoom, wp_cap_env_call.
  destruct (pci_GetBarAttributes b _) as [[St [desc res]] w] eqn:E. wp_steps.
  assert (forall St' type, (if EFI_ERROR St then St' = St
      else if (desc =? ACPI_QWORD_ADDRESS_SPACE_DESCRIPTOR) && (res =? ACPI_ADDRESS_SPACE_TYPE_MEM) then
        St' = EFI_SUCCESS /\ type = Virtio10BarTypeMem
      else if (desc =? ACPI_QWORD_ADDRESS_SPACE_DESCRIPTOR) && (res =? ACPI_ADDRESS_SPACE_TYPE_IO) then
        St' = EFI_SUCCESS /\ type = Virtio10BarTypeIo
      else St' = EFI_UNSUPPORTED) -> bar_type b St' type) as HB.
  { intros St' type H. exists (Env (Core s)), St, desc, res, w. done. }
  destruct (EFI_ERROR St); wp_steps; [split; [apply quiet_env|by apply HB]|].
  rewrite wp_Count. wp_steps. rewrite wp_Count. wp_steps.
  destruct (desc =? _); [destruct (res =? _); [|destruct (res =? _)]|];
    (split; [split; cbn; try done; try lia; by rewrite app_nil_r|by apply HB]).
Qed.

Section Listed.
Context (base : gmap ptr PCI_CAP) (G : list ghost) (CL : PCI_CAP_LIST (OCK:=OCK)).

Lemma wp_CapRead g src size (Q : EFI_STATUS * option (list Z) -> st10 -> Prop) s :
  CapList_ok base G CL (Pool (Core s)) -> g ∈ G -> 0 <= src -> 0 <= size ->
  (forall s', quiet s s' -> (forall bs, cap_answers (g_hdr <$> G) (g_hdr g) src size EFI_BAD_BUFFER_SIZE bs) ->
    Q (EFI_BAD_BUFFER_SIZE, None) s') ->
  (forall St bs s', quiet s s' -> cap_answers (g_hdr <$> G) (g_hdr g) src size St bs -> Q (St, Some bs) s') ->
  wp (zoom (PciCapRead (g_ptr g) src size)) Q s.
Proof.
  intros HC Hg Hs Hz HN HS. rewrite wp_zoom. eapply wp_PciCapRead; [done..| |].
  - intros m (Hm & _ & _ & He) Hlt. apply HN; [destruct s; apply quiet_refl|]. intros bs. left. split; [|done].
    unfold g_off in *. destruct He as [He|(g' & Hg' & He)]; [left; lia|]. right. exists (g_hdr g').
    split; [by apply list_elem_of_fmap_2|]. lia.
  - intros m St bs w (Hm & He & Hl & _) Hle HA. apply HS; [apply quiet_env|]. right. split; [|done].
    unfold g_off in *. intros [Hc|(h' & Hh' & H1 & H2)]; [lia|].
    apply list_elem_of_fmap in Hh' as (g' & -> & Hg'). specialize (Hl g' Hg'). lia.
Qed.

Lemma ParseVendorCap_spec g Dv s :
  CapList_ok base G CL (Pool (Core s)) -> g ∈ G ->
  wp (ParseVendorCap (g_ptr g) Dv) (fun '(St, Dv') s' => quiet s s' /\
    if EFI_ERROR St then cap_failed (g_hdr <$> G) (g_hdr g) Dv St
    else cap_effect (g_hdr <$> G) (g_hdr g) Dv Dv') s.
Proof.
  intros HC Hg. unfold ParseVendorCap, CapRead. wp_steps. apply (wp_CapRead g 2 1); [done..| |].
  { intros s' Hq HA. wp_steps. split; [done|]. by apply (fail_length _ _ _ _ []). }
  intros St len s1 Hq1 HA1. wp_steps. cbn [fst snd]. change (default [] (Some len)) with len.
  destruct (EFI_ERROR St) eqn:HE; wp_steps; [rewrite HE; split; [done|by eapply fail_length]|].
  destruct (Z.ltb_spec (le_combine len) SIZEOF_VIRTIO_PCI_CAP) as [Hl|Hl]; wp_steps.
  { rewrite HE. split; [done|]. by eapply cap_short. }
  apply (wp_CapRead g 0 SIZEOF_VIRTIO_PCI_CAP); [by rewrite (h_pool _ _ _ _ _ _ _ _ Hq1)|done..| |].
  { intros s' Hq HA. wp_steps. split; [by eapply quiet_trans|]. by apply (fail_capability _ _ _ St len _ []). }
  intros St2 bs s2 Hq2 HA2. apply (quiet_trans _ _ _ Hq1) in Hq2 as Hq. wp_steps. cbn [fst snd].
  change (default [] (Some bs)) with bs.
  destruct (EFI_ERROR St2) eqn:HE2; wp_steps; [rewrite HE2; split; [done|by eapply fail_capability]|].
  destruct (ParsedConfig _ Dv) as [old|] eqn:EP; wp_steps; [|rewrite HE2; split; [done|by eapply cap_other]].
  eapply wp_mono; [apply GetBarType_spec|]. intros [St3 type] s3 [Hq3 HB]. apply (quiet_trans _ _ _ Hq) in Hq3.
  destruct (EFI_ERROR St3) eqn:HE3; wp_steps; [rewrite HE3; split; [done|by eapply fail_bar]|].
  pose proof (fun Dv' H => cap_block (g_hdr <$> G) (g_hdr g) Dv St len St2 bs St3 type Dv' HA1 HE Hl HA2 HE2 HB HE3 H)
    as Hblock. cbv zeta in Hblock.
  rewrite EP in Hblock. destruct (ConfigType _ =? VIRTIO_PCI_CAP_NOTIFY_CFG) eqn:EN; wp_steps.
  2:{ rewrite HE3. split; [done|]. apply Hblock. by exists old. }
  destruct (le_combine len <? SIZEOF_VIRTIO_PCI_CAP + 4) eqn:EL; wp_steps.
  { rewrite HE3. split; [done|]. apply Hblock. exists old. done. }
  apply Z.eqb_eq in EN. apply Z.ltb_ge in EL.
  apply (wp_CapRead g SIZEOF_VIRTIO_PCI_CAP 4); [by rewrite (h_pool _ _ _ _ _ _ _ _ Hq3)|done..| |].
  { intros s' Hq4 HA. wp_steps. split; [by eapply quiet_trans|]. by apply (fail_multiplier _ _ _ St len St2 bs _ []). }
  intros St4 mul s4 Hq4 HA4. apply (quiet_trans _ _ _ Hq3) in Hq4. wp_steps.
  destruct (EFI_ERROR St4) eqn:HE4; (split; [done|]); [by eapply fail_multiplier|].
  apply Hblock. exists old. split; [done|]. eauto.
Qed.

Let vendors : list hdr := filter (same PciCapNormal EFI_PCI_CAPABILITY_ID_VENDOR) (g_hdr <$> G).

Lemma vendors_few pool : CapList_ok base G CL pool -> Z.of_nat (length vendors) <= 1024.
Proof.
  intros [R (gs & Hp & Hs & _)].
  trans (Z.of_nat (length G)).
  { unfold vendors. rewrite <-(length_fmap g_hdr G). pose proof (length_filter (same PciCapNormal EFI_PCI_CAPABILITY_ID_VENDOR) (g_hdr <$> G)). lia. }
  rewrite <-Hp, <-(length_fmap g_off gs). apply (offsets_bound 0 1024); [|lia|].
  - clear -Hs. induction gs as [|g gs IH]; [constructor|]. csimpl. inversion Hs as [|? ? Hs' Hall]; subst.
    constructor; [|auto]. rewrite Forall_forall in Hall. intros (g' & E & Hin)%list_elem_of_fmap.
    specialize (Hall g' Hin). lia.
  - apply Forall_fmap. rewrite Hp. eapply Forall_impl; [apply (rep_hdr _ _ _ _ R)|].
    intros g [Hr Ha]. unfold g_off. cbn.
    destruct (h_dom (g_hdr g)); cbn in Hr; unfold PCI_MAX_CONFIG_OFFSET, PCI_EXP_MAX_CONFIG_OFFSET in Hr; lia.
Qed.

(** The loop visits the vendor capabilities from instance [j] on. *)
Lemma VendorLoop_spec fuel : forall j St Dv s,
  CapList_ok base G CL (Pool (Core s)) -> EFI_ERROR St = false -> 0 <= j <= Z.of_nat (length vendors) ->
  (length vendors < fuel + Z.to_nat j)%nat ->
  wp (VendorLoop fuel CL j St Dv) (fun '(St', Dv') s' => quiet s s' /\
    if EFI_ERROR St' then parse_stops (g_hdr <$> G) (drop (Z.to_nat j) vendors) Dv St'
    else parse_effect (g_hdr <$> G) (drop (Z.to_nat j) vendors) Dv Dv') s.
Proof.
  induction fuel as [|fuel IH]; intros j St Dv s HC HE Hj Hf; [lia|]. cbn [VendorLoop].
  pose proof (PciCapListFindCap_spec base G CL _ PciCapNormal EFI_PCI_CAPABILITY_ID_VENDOR j HC) as HF.
  destruct (PciCapListFindCap _ _ _ _) as [Sf [p|]].
  - destruct HF as (_ & Hocc & g & Hg & Hk & <-). change (occ _ _ _) with (Z.of_nat (length vendors)) in Hocc.
    pose proof (vendors_few _ HC) as Hfew.
    assert (vendors !! Z.to_nat j = Some (g_hdr g)) as Hlk.
    { pose proof (number_lookup G g (rep_key _ _ _ _ (proj1 HC)) Hg) as H. by rewrite Hk in H. }
    wp_step. eapply wp_mono; [by apply ParseVendorCap_spec|]. intros [St1 Dv1] s1 [Hq He].
    rewrite (drop_S _ _ _ Hlk).
    destruct (EFI_ERROR St1) eqn:HE1; wp_steps; [rewrite HE1; split; [done|by apply stops_here]|].
    unfold u16. rewrite Z.mod_small by lia.
    eapply wp_mono; [apply IH; [by rewrite (h_pool _ _ _ _ _ _ _ _ Hq)|done|lia|lia]|].
    intros [St2 Dv2] s2 [Hq2 He2]. split; [by eapply quiet_trans|].
    replace (S (Z.to_nat j)) with (Z.to_nat (j + 1)) by lia.
    destruct (EFI_ERROR St2); [by eapply stops_later|by eapply parse_cons].
  - destruct HF as (_ & Hocc). change (occ _ _ _) with (Z.of_nat (length vendors)) in Hocc.
    wp_steps; [by rewrite HE|]. rewrite HE. split; [apply quiet_refl|].
    rewrite drop_ge by lia. constructor.
Qed.
End Listed.

(** The vendor capabilities of the device, in traversal order. *)
Definition vendor_caps (L : list hdr) : list hdr := filter (same PciCapNormal EFI_PCI_CAPABILITY_ID_VENDOR) L.
Definition parsed (Dv Dv' : VIRTIO_1_0_DEV) : Prop :=
  exists L, capability_list L /\ parse_effect L (vendor_caps L) Dv Dv'.
(** Why there is no device: no memory for the PROTO_DEV, no capability
    list, or a vendor capability that failed. *)
Inductive parse_failed (Dv : VIRTIO_1_0_DEV) : EFI_STATUS -> Prop :=
  | no_proto_dev w w' : pool_alloc w = (false, w') -> parse_failed Dv EFI_OUT_OF_RESOURCES
  | no_list c c' St : PciCapListInit PciCapListInit_fuel c = Done (St, None) c' -> parse_failed Dv St
  | stopped L St : capability_list L -> parse_stops L (vendor_caps L) Dv St -> parse_failed Dv St.

Lemma vendor_ParseCapabilities_spec Dv s :
  wp (ParseCapabilities PciCapListInit_fuel Dv) (fun '(St, Dv') s' => quiet s s' /\
    if EFI_ERROR St then parse_failed Dv St else parsed Dv Dv') s.
Proof.
  unfold ParseCapabilities, PciCapPciIoDeviceInit, PciCapPciIoDeviceUninit. wp_steps.
  unfold env10 at 1. rewrite wp_zoom, wp_cap_env_call. destruct (pool_alloc (Env (Core s))) as [[] w] eqn:EA; wp_steps.
  2:{ split; [apply quiet_env|]. by eapply no_proto_dev. }
  rewrite wp_Count. wp_steps. cbn [EFI_ERROR]. change (EFI_ERROR EFI_SUCCESS) with false. cbv iota. wp_steps.
  set (s1 := add_counts 1 0 0 0 0 _).
  assert (held10 1 0 0 0 0 [] s s1) as H1 by (split; cbn; try done; try lia; by rewrite app_nil_r).
  rewrite wp_zoom. destruct (wp_elim _ _ _ (PciCapListInit_spec (Core s1))) as ([St [CL|]] & c2 & EI & HI);
    (apply wp_run; eexists _, _; split; [exact EI|]); revert HI.
  - intros (-> & HL & HCo & G & HC & HCL). wp_steps.
    set (s2 := set_core c2 s1).
    eapply wp_mono; [apply (VendorLoop_spec (Pool (Core s1)) G CL); [done|done|lia|]|].
    { pose proof (vendors_few (Pool (Core s1)) G CL _ HC). unfold PciCapListInit_fuel. lia. }
    intros [St3 Dv3] s3 [Hq He]. wp_steps. rewrite wp_zoom. eapply wp_mono.
    { apply (PciCapListUninit_spec (Pool (Core s1)) G). rewrite (h_pool _ _ _ _ _ _ _ _ Hq). exact HC. }
    intros _ c4 (H4 & H5 & H6). wp_steps. rewrite wp_Count. wp_steps. cbv beta iota. split.
    + destruct Hq, H1. split; cbn in *; try lia; [congruence|]. rewrite h_attrs0. by rewrite app_nil_r.
    + destruct (EFI_ERROR St3); [by eapply stopped|by exists (g_hdr <$> G)].
  - intros (HE & HP & HL & HC). wp_steps. rewrite wp_Count. wp_steps. cbv beta iota.
    rewrite HE. split; [|by eapply no_list].
    destruct H1. split; cbn in *; try lia; congruence.
Qed.

(** ** Driver binding *)
Lemma wp_OpenPciIo (Q : EFI_STATUS -> st10 -> Prop) s :
  (forall St s', EFI_ERROR St = true -> quiet s s' -> Q St s') ->
  (forall St s', EFI_ERROR St = false -> held10 0 0 0 1 0 [] s s' -> Q St s') -> wp OpenPciIo Q s.
Proof.
  intros HN HS. unfold OpenPciIo. wp_steps. apply wp_env10. intros St w.
  destruct (EFI_ERROR St) eqn:HE; wp_steps; [apply HN; [done|apply quiet_env]|].
  rewrite wp_Count. wp_steps. apply HS; [done|]. split; cbn; try done; try lia. by rewrite app_nil_r.
Qed.
Lemma wp_AttributesEnable v (Q : EFI_STATUS -> st10 -> Prop) s :
  (forall St s', EFI_ERROR St = true -> quiet s s' -> Q St s') ->
  (forall St s', EFI_ERROR St = false -> held10 0 0 0 0 0 [AttrEnable v] s s' -> Q St s') ->
  wp (AttributesEnable v) Q s.
Proof.
  intros HN HS. unfold AttributesEnable. wp_steps. apply wp_env10. intros St w.
  destruct (EFI_ERROR St) eqn:HE; wp_steps; [apply HN; [done|apply quiet_env]|].
  apply HS; [done|]. split; cbn; try done; lia.
Qed.
Lemma wp_AttributesSet v (Q : unit -> st10 -> Prop) s :
  (forall s', held10 0 0 0 0 0 [AttrSet v] s s' -> Q tt s') -> wp (AttributesSet v) Q s.
Proof.
  intros HS. unfold AttributesSet. wp_steps. apply wp_env10. intros St w. wp_steps.
  apply HS. split; cbn; try done; lia.
Qed.
Lemma Count_held p r d o i s : held10 p r d o i [] s (add_counts p r d o i s).
Proof. split; cbn; try done. by rewrite app_nil_r. Qed.

(** The labels: the status stays, one device structure and one protocol
    open are given back. *)
Lemma wp_FreeDevice St (Q : EFI_STATUS * option VIRTIO_1_0_DEV -> st10 -> Prop) s :
  (forall s', held10 0 0 (-1) 0 0 [] s s' -> Q (St, None) s') -> wp (FreeDevice St) Q s.
Proof. intros HQ. unfold FreeDevice. wp_steps. rewrite wp_Count. wp_steps. apply HQ, Count_held. Qed.
Lemma wp_ClosePciIo St (Q : EFI_STATUS * option VIRTIO_1_0_DEV -> st10 -> Prop) s :
  (forall s', held10 0 0 (-1) (-1) 0 [] s s' -> Q (St, None) s') -> wp (ClosePciIo St) Q s.
Proof.
  intros HQ. unfold ClosePciIo, ClosePciIoProtocol. wp_steps. rewrite wp_Count. apply wp_FreeDevice. intros s' H.
  apply HQ. exact (held10_trans _ _ _ _ _ _ _ _ _ _ _ _ _ _ _ (Count_held 0 0 0 (-1) 0 s) H).
Qed.

Lemma Virtio10BindingSupported_spec s :
  wp Virtio10BindingSupported (fun St s' => quiet s s' /\
    (EFI_ERROR St = false -> exists w Sr Pci w', cfg_Read 4 0 16 w = (Sr, Pci, w') /\ IsVirtio10 Pci = true)) s.
Proof.
  unfold Virtio10BindingSupported, ReadHeader, ClosePciIoProtocol. wp_steps. apply wp_OpenPciIo.
  { intros St s' HE Hq. rewrite HE. wp_steps. split; [done|congruence]. }
  intros St s1 HE H1. rewrite HE. wp_steps. unfold env10. rewrite wp_zoom, wp_cap_env_call.
  destruct (cfg_Read 4 0 16 (Env (Core s1))) as [[Sr Pci] w] eqn:ER. wp_steps. rewrite wp_Count. wp_steps. split.
  - destruct H1. split; cbn; try congruence; lia.
  - destruct (EFI_ERROR Sr) eqn:HE2; [congruence|]. destruct (IsVirtio10 Pci) eqn:HV; [|done]. eauto 10.
Qed.

(** What Start makes of an announced device. *)
Definition started10 (Dv : VIRTIO_1_0_DEV) : Prop :=
  exists id Dv0, parsed (mkDev10 id 0 zero_config zero_config 0 zero_config) Dv0 /\
    Dv = mkDev10 (DeviceId Dv0) (OriginalPciAttributes Dv) (CommonConfig Dv0) (NotifyConfig Dv0)
           (NotifyOffsetMultiplier Dv0) (SpecificConfig Dv0) /\
    exists w St w', pci_AttributesGet w = (St, OriginalPciAttributes Dv, w') /\ EFI_ERROR St = false.

Lemma Virtio10BindingStart_spec s :
  wp (Virtio10BindingStart PciCapListInit_fuel) (fun '(St, r) s' =>
    match r with
    | Some Dv => St = EFI_SUCCESS /\ started10 Dv /\ held10 0 0 1 1 1 [AttrEnable (SetAttributes Dv)] s s'
    | None => EFI_ERROR St = true /\
        (quiet s s' \/
         exists Dv, started10 Dv /\
           held10 0 0 0 0 0 [AttrEnable (SetAttributes Dv); AttrSet (OriginalPciAttributes Dv)] s s')
    end) s.
Proof.
  unfold Virtio10BindingStart. wp_steps. apply wp_env10. intros [] w; cbn [negb]; wp_steps.
  2:{ split; [done|]. left. apply quiet_env. }
  rewrite wp_Count. wp_steps. set (s1 := add_counts 0 0 1 0 0 _).
  assert (held10 0 0 1 0 0 [] s s1) as H1.
  { exact (held10_trans _ _ _ _ _ _ _ _ _ _ _ _ _ _ _ (quiet_env w s) (Count_held 0 0 1 0 0 _)). }
  apply wp_OpenPciIo; intros St2 s2 HE2 H2; rewrite HE2; apply (held10_trans _ _ _ _ _ _ _ _ _ _ _ _ _ _ _ H1) in H2.
  { apply wp_FreeDevice. intros s' H. split; [done|]. left. exact (held10_trans _ _ _ _ _ _ _ _ _ _ _ _ _ _ _ H2 H). }
  cbn [app Z.add] in H2.
  assert (forall St s3, EFI_ERROR St = true -> quiet s2 s3 ->
    wp (ClosePciIo St) (fun '(St, r) s' => match r with Some Dv => St = EFI_SUCCESS /\ started10 Dv /\ held10 0 0 1 1 1 [AttrEnable (SetAttributes Dv)] s s'
      | None => EFI_ERROR St = true /\ (quiet s s' \/ exists Dv, started10 Dv /\ held10 0 0 0 0 0 [AttrEnable (SetAttributes Dv); AttrSet (OriginalPciAttributes Dv)] s s') end) s3) as Hclose.
  { intros St s3 HE H3. apply wp_ClosePciIo. intros s' H. split; [done|]. left.
    apply (held10_trans _ _ _ _ _ _ _ _ _ _ _ _ _ _ _ H3) in H. exact (held10_trans _ _ _ _ _ _ _ _ _ _ _ _ _ _ _ H2 H). }
  unfold ReadHeader. wp_steps. apply wp_env10. intros [St3 Pci] w3. set (s3 := set_core _ s2). assert (quiet s2 s3) as H3 by apply quiet_env. clearbody s3.
  destruct (EFI_ERROR St3) eqn:HE3; wp_steps; [by apply Hclose|].
  eapply wp_mono; [apply vendor_ParseCapabilities_spec|]. intros [St4 Dv4] s4 [H4 Hp]. apply (quiet_trans _ _ _ H3) in H4.
  destruct (EFI_ERROR St4) eqn:HE4; wp_steps; [by apply Hclose|].
  unfold env10 at 1. rewrite wp_zoom, wp_cap_env_call.
  destruct (pci_AttributesGet (Env (Core s4))) as [[St5 Orig] w5] eqn:E5. set (s5 := set_core _ s4).
  assert (quiet s2 s5) as H5 by (eapply quiet_trans; [exact H4|apply quiet_env]). clearbody s5.
  destruct (EFI_ERROR St5) eqn:HE5; wp_steps; [by apply Hclose|].
  set (Dv := mkDev10 (DeviceId Dv4) Orig _ _ _ _).
  assert (started10 Dv) as HDv.
  { exists (field16 Pci 2 - 0x1040), Dv4. split; [exact Hp|]. split; [done|]. exists (Env (Core s4)), St5, w5. done. }
  apply wp_AttributesEnable; intros St6 s6 HE6 H6; rewrite HE6; apply (held10_trans _ _ _ _ _ _ _ _ _ _ _ _ _ _ _ H5) in H6.
  { by apply Hclose. }
  wp_steps. apply wp_env10. intros St7 w7. set (s7 := set_core _ s6).
  apply (held10_trans _ _ _ _ _ _ _ _ _ _ _ _ _ _ _ H2) in H6.
  pose proof (held10_trans _ _ _ _ _ _ _ _ _ _ _ _ _ _ _ H6 (quiet_env w7 s6)) as H7. fold s7 in H7. clearbody s7.
  destruct (EFI_ERROR St7) eqn:HE7.
  - unfold RestorePciAttributes. wp_steps. apply wp_AttributesSet. intros s8 H8. apply wp_ClosePciIo. intros s9 H9.
    split; [done|]. right. exists Dv. split; [done|]. apply (held10_trans _ _ _ _ _ _ _ _ _ _ _ _ _ _ _ H7) in H8.
    exact (held10_trans _ _ _ _ _ _ _ _ _ _ _ _ _ _ _ H8 H9).
  - wp_steps. rewrite wp_Count. wp_steps. split; [done|]. split; [done|].
    exact (held10_trans _ _ _ _ _ _ _ _ _ _ _ _ _ _ _ H7 (Count_held 0 0 0 0 1 s7)).
Qed.

Lemma Virtio10BindingStop_spec Dv s :
  wp (Virtio10BindingStop Dv) (fun St s' =>
    if EFI_ERROR St then quiet s s'
    else held10 0 0 (-1) (-1) (-1) [AttrSet (OriginalPciAttributes Dv)] s s') s.
Proof.
  unfold Virtio10BindingStop, ClosePciIoProtocol. wp_steps. apply wp_env10. intros St w.
  destruct (EFI_ERROR St) eqn:HE; wp_steps; [rewrite HE; apply quiet_env|].
  apply wp_env10. intros St2 w2. destruct (EFI_ERROR St2) eqn:HE2; wp_steps.
  { rewrite HE2. eapply quiet_trans; [apply (quiet_env w)|]. apply quiet_env. }
  rewrite wp_Count. wp_steps. apply wp_AttributesSet. intros s4 H4. wp_steps. rewrite wp_Count. wp_steps.
  rewrite wp_Count. wp_steps. change (EFI_ERROR EFI_SUCCESS) with false. cbv iota.
  destruct H4. split; cbn in *; try congruence; lia.
Qed.

(** Every located block has its address space enabled. *)
Lemma SetAttributes_covers Dv C :
  C = CommonConfig Dv \/ C = NotifyConfig Dv \/ C = SpecificConfig Dv -> Exists C = true ->
  Z.land (SetAttributes Dv) (match BarType C with Virtio10BarTypeMem => EFI_PCI_IO_ATTRIBUTE_MEMORY | Virtio10BarTypeIo => EFI_PCI_IO_ATTRIBUTE_IO end) <> 0.
Proof.
  intros HC HE. unfold SetAttributes.
  assert (forall C A, UpdateAttributes C A = Z.lor A (if Exists C then match BarType C with
     Virtio10BarTypeMem => EFI_PCI_IO_ATTRIBUTE_MEMORY | Virtio10BarTypeIo => EFI_PCI_IO_ATTRIBUTE_IO end else 0)) as HU.
  { intros C0 A. unfold UpdateAttributes. destruct (Exists C0); [done|]. by rewrite Z.lor_0_r. }
  rewrite !HU, !Z.land_lor_distr_l. destruct HC as [ -> | [ -> | -> ] ]; rewrite HE; destruct (BarType _);
    repeat match goal with |- context [if Exists ?c then _ else _] => destruct (Exists c), (BarType c) end; vm_compute; done.
Qed.
End BindProofs.
