(* ===== verification/Virtio10Claims.v ===== *)
(** * Virtio10Dxe: properties, and a concrete PCI disk *)
From S2P Require Import Prelude Bytes Memory OrderedCollection Virtio VirtioProofs VirtioDriver VirtioMachine VirtioBlk VirtioBlkProofs Virtio10 Virtio10Proofs PciCap PciCapProofs PciCapQueries Virtio10Bind Virtio10BindProofs.

(** The members of the protocol that touch registers. *)
Inductive register_member {W} {P : PciIo W} (Dev : VIRTIO_1_0_DEV) : forall A : Type, vop (world10 (W:=W)) A -> Prop :=
  | m_GetDeviceFeatures : register_member Dev _ (Virtio10GetDeviceFeatures Dev)
  | m_SetGuestFeatures F : register_member Dev _ (Virtio10SetGuestFeatures Dev F)
  | m_SetQueueAddress r shift : register_member Dev _ (Virtio10SetQueueAddress Dev r shift)
  | m_SetQueueSel q : register_member Dev _ (Virtio10SetQueueSel Dev q)
  | m_SetQueueNotify q : register_member Dev _ (Virtio10SetQueueNotify Dev q)
  | m_GetQueueNumMax : register_member Dev _ (Virtio10GetQueueNumMax Dev)
  | m_SetQueueNum n : register_member Dev _ (Virtio10SetQueueNum Dev n)
  | m_GetDeviceStatus : register_member Dev _ (Virtio10GetDeviceStatus Dev)
  | m_SetDeviceStatus v : register_member Dev _ (Virtio10SetDeviceStatus Dev v)
  | m_WriteDevice off n v : 0 <= off -> register_member Dev _ (Virtio10WriteDevice Dev off n v)
  | m_ReadDevice off n b : 0 <= off -> register_member Dev _ (Virtio10ReadDevice Dev off n b).

Section Members.
Context {W : Type} {P : PciIo W} {PL : PciIoLaws W}.

(** C17: over any PCI device, the protocol instance of Virtio10Dxe keeps the
    contract that VirtioLib and the virtio drivers are proved against.  No
    member accesses a register outside the blocks that the device announced.
    Each member that touches registers makes exactly the accesses of its
    program over the registers of the virtio 1.0 specification, in order, and
    stops at the first that is outside its block or that PciIo fails, whose
    status is the answer: both feature words behind their selector; the three
    ring addresses and then the enable bit; the queue selector, size, and
    device status registers; a notification at
    [NotifyOffset * NotifyOffsetMultiplier] (in 32 bits), with the queue
    selector put back first; and the device's own configuration.  Alignments
    and page sizes other than 4096, and reads into a buffer of another size
    than the field, are refused without an access.  Shared pages and mappings
    are those of PciIo. *)
Theorem virtio10_members (Dev : VIRTIO_1_0_DEV) :
  let C := CommonConfig Dev in
  let is_status := fun (St : EFI_STATUS) (_ : list Z) (out : EFI_STATUS) => out = St in
  let is_value := fun (St : EFI_STATUS) (ds : list Z) (out : EFI_STATUS * Z) => out = (St, nth 0%nat ds 0) in
  VirtIoLaws (world10 (W:=W)) (V := mVirtIoTemplate Dev) /\
  (forall A f, register_member Dev A f -> tame (confined Dev) f) /\
  runs (Virtio10GetDeviceFeatures Dev) (get_features_prog Dev) EFI_SUCCESS (fun St ds out =>
    if EFI_ERROR St then out = (St, 0)
    else exists a lo b hi, ds = [a; lo; b; hi] /\ is_u32 lo /\ is_u32 hi /\ out = (EFI_SUCCESS, hi * 2 ^ 32 + lo)) /\
  (forall F, runs (Virtio10SetGuestFeatures Dev F) (set_features_prog Dev F) EFI_SUCCESS
     (fun St _ out => out = if EFI_ERROR St then St else EFI_SUCCESS)) /\
  (forall r shift, runs (Virtio10SetQueueAddress Dev r shift) (queue_address_prog Dev r shift) EFI_SUCCESS is_status) /\
  (forall q, runs (Virtio10SetQueueSel Dev q) (set_reg C Reg_QueueSelect q Finish) EFI_SUCCESS is_status) /\
  (forall q, runs (Virtio10SetQueueNotify Dev q) (queue_notify_prog Dev q) EFI_SUCCESS is_status) /\
  runs (Virtio10GetQueueNumMax Dev) (get_reg C Reg_QueueSize (fun _ => Finish)) EFI_SUCCESS is_value /\
  (forall n, runs (Virtio10SetQueueNum Dev n) (get_reg C Reg_QueueSize (fun _ => Finish)) EFI_SUCCESS
     (fun St ds out => out = if EFI_ERROR St then St else if nth 0%nat ds 0 =? n then EFI_SUCCESS else EFI_UNSUPPORTED)) /\
  runs (Virtio10GetDeviceStatus Dev) (get_reg C Reg_DeviceStatus (fun _ => Finish)) EFI_SUCCESS is_value /\
  (forall v, runs (Virtio10SetDeviceStatus Dev v) (set_reg C Reg_DeviceStatus v Finish) EFI_SUCCESS is_status) /\
  (forall off n v, 0 <= off ->
     runs (Virtio10WriteDevice Dev off n v) (set_reg (SpecificConfig Dev) (off, n) v Finish) EFI_SUCCESS is_status) /\
  (forall off n b, 0 <= off -> runs (Virtio10ReadDevice Dev off n b)
     (if n =? b then get_reg (SpecificConfig Dev) (off, n) (fun _ => Finish) else Finish) EFI_SUCCESS
     (fun St ds out => out = if n =? b then (St, nth 0%nat ds 0) else (EFI_INVALID_PARAMETER, 0))) /\
  (forall v (x : world10 (W:=W)) m, let St := if v =? 4096 then EFI_SUCCESS else EFI_UNSUPPORTED in
     Virtio10SetQueueAlign v x m = (St, m, x) /\ Virtio10SetPageSize v x m = (St, m, x)) /\
  (forall live n w l m, Virtio10AllocateSharedPages live n (w, l) m =
     (let '(r, m', w') := pci_AllocateBuffer live n w m in (r, m', (w', l)))) /\
  (forall n a w l m, Virtio10FreeSharedPages n a (w, l) m = (let '(r, m', w') := pci_FreeBuffer n a w m in (r, m', (w', l)))) /\
  (forall live op host n w l m, Virtio10MapSharedBuffer live op host n (w, l) m =
     (let '(r, m', w') := pci_Map live (match op with
        | VirtioOperationBusMasterRead => EfiPciIoOperationBusMasterRead
        | VirtioOperationBusMasterWrite => EfiPciIoOperationBusMasterWrite
        | VirtioOperationBusMasterCommonBuffer => EfiPciIoOperationBusMasterCommonBuffer end) host n w m in (r, m', (w', l)))) /\
  (forall tok w l m, Virtio10UnmapSharedBuffer tok (w, l) m = (let '(r, m', w') := pci_Unmap tok w m in (r, m', (w', l)))).
Proof.
  split; [apply mVirtIoTemplate_laws|]. split.
  { intros A f Hf. destruct Hf.
    - apply tame_GetDeviceFeatures.
    - apply tame_SetGuestFeatures.
    - apply tame_SetQueueAddress.
    - by apply tame_CommonWrite.
    - apply tame_SetQueueNotify.
    - by apply tame_CommonRead.
    - apply tame_SetQueueNum.
    - by apply tame_CommonRead.
    - by apply tame_CommonWrite.
    - by apply tame_WriteDevice.
    - by apply tame_ReadDevice. }
  split; [apply runs_GetDeviceFeatures|]. split; [apply runs_SetGuestFeatures|]. split; [apply runs_SetQueueAddress|].
  split; [intros; by apply runs_one_set|]. split; [apply runs_SetQueueNotify|]. split; [by apply runs_one_get|].
  split; [apply runs_SetQueueNum|]. split; [by apply runs_one_get|]. split; [intros; by apply runs_one_set|].
  split; [apply runs_WriteDevice|]. split.
  { intros off n b Hoff. destruct (Z.eqb_spec n b) as [<-|Hne]; [by apply runs_ReadDevice|].
    unfold Virtio10ReadDevice. apply Z.eqb_neq in Hne. rewrite Hne. by apply runs_ret. }
  done.
Qed.
End Members.

Section Bind.
Context {W : Type} {PE : PoolEnv W} {B : PciBus W} {BL : PciBusLaws W}.
Context {OCK : OrderedCollection PCI_CAP_KEY ptr W ComparePciCapKey}.
Context {OCO : OrderedCollection Z ptr W ComparePciCapOffsetKey}.
Context {LK : OrderedCollectionLaws OCK} {LO : OrderedCollectionLaws OCO}.

(** C18: on every PCI device [ParseCapabilities] terminates without failing
    an assertion and gives back the capability list, the PROTO_DEV and every
    BAR resource buffer.  When it succeeds, the register blocks are those
    that the device's vendor capabilities describe, read one after the other
    in traversal order, each in memory or I/O space as the resource
    descriptor of its BAR says.  An error is the status of the first failure:
    no memory for the PROTO_DEV, PciCapListInit, or a vendor capability whose
    bytes could not be read or whose BAR is not reported, or is neither in
    memory nor in I/O space.  Its accesses to configuration space, whatever
    offset and size are asked for, are naturally aligned accesses of one,
    two or four bytes that together cover the range once, in order; from a
    configuration space that reads like memory they fetch its bytes. *)
Theorem virtio10_parse :
  (forall Dv (s : st10 (W:=W)), wp (ParseCapabilities PciCapListInit_fuel Dv) (fun '(St, Dv') s' =>
     held10 0 0 0 0 0 [] s s' /\ if EFI_ERROR St then parse_failed Dv St else parsed Dv Dv') s) /\
  (forall (TF : transfer W) o buf size w l, 0 <= o -> 0 <= size -> o + size < 2 ^ 16 ->
     exists St buf' w' k e,
       ProtoDevTransferConfig (S (Z.to_nat size)) TF o buf size w = (St, buf', w') /\
       ProtoDevTransferConfig (S (Z.to_nat size)) (logged TF) o buf size (w, l) = (St, buf', (w', l ++ k)) /\
       tiles o k e /\ (if EFI_ERROR St then e <= o + size else e = o + size)) /\
  (forall (TF : transfer W) (cfg : Z -> Z) o buf size w,
     (forall wd o c bs w, TF wd o c bs w = (EFI_SUCCESS, cfg <$> seqZ o (wd * c), w)) ->
     0 <= o -> 0 <= size -> o + size < 2 ^ 16 -> Z.of_nat (length buf) = size ->
     ProtoDevTransferConfig (S (Z.to_nat size)) TF o buf size w = (EFI_SUCCESS, cfg <$> seqZ o size, w)).
Proof.
  split; [intros; apply vendor_ParseCapabilities_spec|]. split; intros.
  - apply ProtoDevTransferConfig_tiles; done || lia.
  - apply ProtoDevTransferConfig_memory; done || lia.
Qed.

(** C19: the driver binding.  [Supported] takes nothing and accepts only a
    non-transitional virtio device.  [Start] takes one device structure, one
    protocol open and one interface, with the address spaces of the located
    blocks enabled, or reports an error, holds nothing, and has set the PCI
    attributes back to what they were if it had changed them.  [Stop] gives
    back what Start took, attributes included, or fails without effect. *)
Theorem virtio10_binding (s : st10 (W:=W)) :
  wp Virtio10BindingSupported (fun St s' => held10 0 0 0 0 0 [] s s' /\
    (EFI_ERROR St = false -> exists w Sr Pci w', cfg_Read 4 0 16 w = (Sr, Pci, w') /\ IsVirtio10 Pci = true)) s /\
  wp (Virtio10BindingStart PciCapListInit_fuel) (fun '(St, r) s' =>
    match r with
    | Some Dv =>
        St = EFI_SUCCESS /\ started10 Dv /\ held10 0 0 1 1 1 [AttrEnable (SetAttributes Dv)] s s' /\
        (forall C, C = CommonConfig Dv \/ C = NotifyConfig Dv \/ C = SpecificConfig Dv -> Exists C = true ->
           Z.land (SetAttributes Dv) (match BarType C with
             | Virtio10BarTypeMem => EFI_PCI_IO_ATTRIBUTE_MEMORY
             | Virtio10BarTypeIo => EFI_PCI_IO_ATTRIBUTE_IO end) <> 0) /\
        wp (Virtio10BindingStop Dv) (fun St s'' =>
          if EFI_ERROR St then held10 0 0 0 0 0 [] s' s''
          else held10 0 0 0 0 0 [AttrEnable (SetAttributes Dv); AttrSet (OriginalPciAttributes Dv)] s s'') s'
    | None => EFI_ERROR St = true /\
        (held10 0 0 0 0 0 [] s s' \/
         exists Dv, started10 Dv /\
           held10 0 0 0 0 0 [AttrEnable (SetAttributes Dv); AttrSet (OriginalPciAttributes Dv)] s s')
    end) s.
Proof.
  split; [apply Virtio10BindingSupported_spec|].
  eapply wp_mono; [apply Virtio10BindingStart_spec|]. intros [St [Dv|]] s'; [|intros [HE H]; split; [exact HE|exact H]].
  intros (-> & HD & H). split; [done|]. split; [done|]. split; [done|].
  split; [intros C HC HE; by apply SetAttributes_covers|].
  eapply wp_mono; [apply Virtio10BindingStop_spec|]. intros St s'' H2.
  cbv beta in H2 |- *. destruct (EFI_ERROR St); [exact H2|]. exact (held10_trans _ _ _ _ _ _ _ _ _ _ _ _ _ _ _ H H2).
Qed.
End Bind.

(** ** A concrete PCI disk

    Configuration space with four vendor capabilities (the last not
    interesting), registers in BAR 4, and a host that serves a notification at
    once.  The whole stack runs on it: the capability parser, Virtio10Dxe,
    VirtioLib and VirtioBlkDxe. *)
Module Example.
Definition header (o : Z) : Z :=
  nth (Z.to_nat o)
    ([0xF4; 0x1A; 0x42; 0x10; 0; 0; 0x10; 0; 1] ++ replicate 37 0 ++ [0x40; 0; 0; 0; 0; 0; 0x40]) 0.
Definition caps (o : Z) : Z :=
  nth (Z.to_nat (o - 0x40))
    ([0x09; 0x50; 16; 1; 4; 0; 0; 0;  0; 0; 0; 0;  56; 0; 0; 0] ++
     [0x09; 0x64; 20; 2; 4; 0; 0; 0;  0; 0x10; 0; 0;  4; 0; 0; 0;  4; 0; 0; 0] ++
     [0x09; 0x74; 16; 4; 4; 0; 0; 0;  0; 0x20; 0; 0;  64; 0; 0; 0] ++
     [0x09; 0; 16; 5; 0; 0; 0; 0; 0; 0; 0; 0; 0; 0; 0; 0]) 0.
Definition config (o : Z) : Z := if o <? 0x40 then header o else if o <? 0x100 then caps o else 0.
Lemma config_bytes l : Forall is_byte (config <$> l).
Proof.
  apply Forall_fmap, Forall_true. intros o. unfold config, header, caps. cbn beta.
  assert (forall l k, forallb (fun b => (0 <=? b) && (b <? 256)) l = true -> is_byte (nth k l 0)) as H.
  { intros l0 k Hl. unfold is_byte. destruct (nth_in_or_default k l0 0) as [Hin| ->]; [|lia].
    rewrite forallb_forall in Hl. specialize (Hl _ Hin). lia. }
  unfold compose. destruct (o <? 0x40); [|destruct (o <? 0x100); [|done]]; apply H; vm_compute; reflexivity.
Qed.

(** The world: the bytes of BAR 4. *)
Definition W10 : Type := Z -> Z.
Definition registers : W10 := fun o =>
  if o =? 4 then 1 else if o =? 24 then 8 else if o =? 0x2001 then 8 else 0.
Definition ok10 {A} (a : A) : vop W10 A := fun w m => (a, m, w).
#[local] Instance alloc : PoolEnv W10 := fun w => (true, w).
#[local] Instance pci : PciIo W10 := {|
  pci_Read _ wd bar off c := fun w m => ((EFI_SUCCESS, le_combine (mem_get w off (wd * c)) mod 256 ^ (wd * c)), m, w);
  pci_Write _ wd bar off c v := fun w m =>
    (EFI_SUCCESS,
     (if off =? 0x1000 then mem_set (mem_set m second_base [0]) (Used_Idx ring) (mem_get m (Avail_Idx ring) 2) else m),
     mem_set w off (le_split (Z.to_nat (wd * c)) v));
  pci_AllocateBuffer live n := ok10
    match allocate live n with Some a => (EFI_SUCCESS, a) | None => (EFI_OUT_OF_RESOURCES, 0) end;
  pci_FreeBuffer _ _ := ok10 tt;
  pci_Map live op host size := ok10
    match fresh_token live with
    | Some t => if (0 <=? host) && (host <? 2 ^ 64) then (EFI_SUCCESS, size, host, t) else (EFI_UNSUPPORTED, 0, 0, 0)
    | None => (EFI_OUT_OF_RESOURCES, 0, 0, 0)
    end;
  pci_Unmap _ := ok10 EFI_SUCCESS;
  bs_Stall _ := ok10 tt;
|}.
#[local] Instance bus : PciBus W10 := {|
  cfg_Read wd o c w := (EFI_SUCCESS, config <$> seqZ o (wd * c), w);
  cfg_Write _ _ _ w := (EFI_SUCCESS, w);
  pci_GetBarAttributes _ w := (EFI_SUCCESS, (ACPI_QWORD_ADDRESS_SPACE_DESCRIPTOR, ACPI_ADDRESS_SPACE_TYPE_MEM), w);
  pci_AttributesGet w := (EFI_SUCCESS, 7, w);
  pci_AttributesEnable _ w := (EFI_SUCCESS, w);
  pci_AttributesSet _ w := (EFI_SUCCESS, w);
  gbs_OpenProtocol w := (EFI_SUCCESS, w);
  gbs_InstallProtocolInterface w := (EFI_SUCCESS, w);
  gbs_GetProtocol w := (EFI_SUCCESS, w);
  gbs_UninstallProtocolInterface w := (EFI_SUCCESS, w);
|}.
#[local] Instance OCK : OrderedCollection PCI_CAP_KEY ptr W10 ComparePciCapKey :=
  SortedList.collection ComparePciCapKey.
#[local] Instance OCO : OrderedCollection Z ptr W10 ComparePciCapOffsetKey :=
  SortedList.collection ComparePciCapOffsetKey.
#[local] Instance LK : OrderedCollectionLaws OCK := SortedList.laws ComparePciCapKey.
#[local] Instance LO : OrderedCollectionLaws OCO := SortedList.laws ComparePciCapOffsetKey.

#[local] Instance bus_laws : PciBusLaws W10.
Proof.
  intros w wd off c St bs w' Hwd Hc E. injection E as <- <- <-.
  split; [|apply config_bytes]. rewrite length_fmap, length_seqZ, Z2Nat.id; [done|]. by apply Z.mul_nonneg_nonneg.
Qed.
#[local] Instance pci_laws : PciIoLaws W10.
Proof.
  split.
  - intros t wd bar off c w m St v m' w' Hwd Hc E. injection E as _ <- _ _.
    apply Z.mod_pos_bound, Z.pow_pos_nonneg; [done|]. apply Z.mul_nonneg_nonneg; lia.
  - intros live n w m St a m' w' E HS. cbn in E. unfold ok10 in E.
    destruct (allocate live n) as [a'|] eqn:EA; injection E as <- <- <- <-; [|discriminate HS].
    apply allocate_spec in EA as (Hn & Ha & Hm & Hd).
    unfold EFI_PAGE_SIZE, MAX_ADDRESS in *. split_and!; try done; lia.
  - intros live n w m St a m' w' E HS. cbn in E. unfold ok10 in E.
    destruct (allocate live n) as [a'|] eqn:EA; injection E as <- <- <- <-; done.
  - intros live op host size w m St n dev tok m' w' E HS. unfold pci_Map, pci, ok10 in E.
    destruct (fresh_token live) as [t|] eqn:ET.
    + apply fresh_token_spec in ET. destruct ((0 <=? host) && (host <? 2 ^ 64)) eqn:EH;
        injection E as <- <- <- <- <- <-; [|discriminate HS]. split; [done|]. unfold is_u64. lia.
    + injection E as <- <- <- <- <- <-. discriminate HS.
Qed.

Definition s0 : st10 (W:=W10) := mkSt10 (mkSt registers ∅ 0 0) 0 0 0 0 0 [].
Definition disk : VIRTIO_1_0_DEV :=
  mkDev10 2 7 (mkConfig true Virtio10BarTypeMem 4 0 56) (mkConfig true Virtio10BarTypeMem 4 0x1000 4) 4
    (mkConfig true Virtio10BarTypeMem 4 0x2000 64).

Example supported_runs :
  match Virtio10BindingSupported s0 with Done St _ => St = EFI_SUCCESS | Trap _ => False end.
Proof. vm_compute. reflexivity. Qed.

Definition s1 : st10 (W:=W10) := match Virtio10BindingStart PciCapListInit_fuel s0 with Done _ s => s | Trap _ => s0 end.
Lemma start_runs : Virtio10BindingStart PciCapListInit_fuel s0 = Done (EFI_SUCCESS, Some disk) s1.
Proof. vm_compute. reflexivity. Qed.
#[local] Opaque s1.

(** Bring-up of the disk and a read of two sectors, with the accesses to the
    registers that the notification made. *)
#[local] Instance VioDisk : VirtIo (world10 (W:=W10)) := mVirtIoTemplate disk.
Definition v0 : Virtio.st (W:=world10 (W:=W10)) := Virtio.mkSt (registers, []) (fun _ => 0) ∅ ∅ [] 0 0 0 0.
Example disk_runs :
  match VirtioBlkInit zero_dev v0 with
  | Done (Status, dev) s =>
      Status = EFI_SUCCESS /\ LastBlock (BlockIoMedia dev) = 2047 /\
      match VirtioBlkReadBlocks local_request 1 dev 3 1024 0x5000 s with
      | Done Status s' => Status = EFI_SUCCESS /\ (last (Virtio.Env s').2 = Some (reg_access true (NotifyConfig disk) 0 2 0))
      | Trap _ => False
      end
  | Trap _ => False
  end.
Proof. vm_compute. split_and!; reflexivity. Qed.

Lemma virtio10_members_witness :
  VirtIoLaws (world10 (W:=W10)) (V := mVirtIoTemplate disk) /\
  tame (confined disk) (Virtio10SetQueueNotify disk 0).
Proof.
  destruct (virtio10_members (W:=W10) disk) as (HL & HT & _). split; [exact HL|].
  exact (HT _ _ (m_SetQueueNotify disk 0)).
Defined.

Definition blank : VIRTIO_1_0_DEV := mkDev10 2 0 zero_config zero_config 0 zero_config.
Definition s2 : st10 (W:=W10) := match ParseCapabilities PciCapListInit_fuel blank s0 with Done _ s => s | Trap _ => s0 end.
Definition parsed_disk : VIRTIO_1_0_DEV :=
  mkDev10 2 0 (CommonConfig disk) (NotifyConfig disk) (NotifyOffsetMultiplier disk) (SpecificConfig disk).
Lemma parse_runs : ParseCapabilities PciCapListInit_fuel blank s0 = Done (EFI_SUCCESS, parsed_disk) s2.
Proof. vm_compute. reflexivity. Qed.
#[local] Opaque s2.

Lemma virtio10_parse_witness :
  parsed blank parsed_disk /\ ProtoDevs s2 = 0.
Proof.
  pose proof (proj1 (virtio10_parse (W:=W10) (OCK:=OCK) (OCO:=OCO)) blank s0) as H.
  apply (wp_Done _ _ _ _ _ parse_runs) in H. destruct H as [H1 H2].
  split; [exact H2|]. exact (h_protodevs _ _ _ _ _ _ _ _ H1).
Defined.

Lemma virtio10_binding_witness : started10 disk /\ Devices s1 = 1 /\ AttrLog s1 = [AttrEnable 0x8600].
Proof.
  pose proof (proj2 (virtio10_binding (W:=W10) (OCK:=OCK) (OCO:=OCO) s0)) as H.
  apply (wp_Done _ _ _ _ _ start_runs) in H. destruct H as (_ & HD & H & _). split; [exact HD|].
  split; [exact (h_devices _ _ _ _ _ _ _ _ H)|]. exact (h_attrs _ _ _ _ _ _ _ _ H).
Defined.
End Example.
