(* ===== verification/SerializeVars.v ===== *)
(** * SerializeVariablesLib: packed UEFI variables

    Models Platforms/QemuQ35Pkg/Library/SerializeVariablesLib: instances that
    accumulate variables in a growing pool buffer, the iteration over a packed
    buffer, and saving and restoring the variables of the running system.

    Pool blocks are lists of bytes; a pointer is a block and an offset, and an
    access outside its block is a [BadPointer] trap.  The allocator and the
    runtime services are an environment. *)
From S2P Require Import Prelude Bytes.

Definition EFI_SECURITY_VIOLATION : EFI_STATUS := ENCODE_ERROR 26.
Definition SV_SIGNATURE : Z := 0x52415653. (* 'S' 'V' 'A' 'R' *)
Definition SIZEOF_GUID : Z := 16.
Definition AuthMask : Z := Z.lor 0x10 0x20.

Record SV_INSTANCE : Type := mkSv {
  Signature : Z; BufferPtr : option Z; BufferSize : Z; DataSize : Z }.

Abbreviation heap := (gmap Z (list Z)).
Definition ptr : Type := Z * Z.
Definition handle : Type := Z.

Class SvEnv (W : Type) := {
  (** the block and its initial contents *)
  sv_AllocatePool : heap -> Z -> W -> option (Z * list Z) * W;
  sv_AllocateInstance : gmap Z SV_INSTANCE -> W -> option handle * W;
  (** a stack slot *)
  sv_Local : heap -> W -> Z * W;
  rt_SetVariable : list Z -> list Z -> Z -> list Z -> W -> EFI_STATUS * W;
  (** buffer size and contents, vendor; status, size, contents and vendor *)
  rt_GetNextVariableName : Z -> option (list Z) -> list Z -> W -> (EFI_STATUS * Z * list Z * list Z) * W;
  (** name, vendor, buffer size; status, attributes, size, data *)
  rt_GetVariable : list Z -> list Z -> Z -> W -> (EFI_STATUS * Z * Z * list Z) * W;
}.

(** What is passed to SetVariable. *)
Record variable : Type := mkVar { v_name : list Z; v_guid : list Z; v_attrs : Z; v_data : list Z }.

(** Size in bytes of a CHAR16 string with its terminator. *)
Fixpoint StrSize (l : list Z) : option Z :=
  match l with
  | a :: b :: t => if (a =? 0) && (b =? 0) then Some 2 else Z.add 2 <$> StrSize t
  | _ => None
  end.

Section SerializeVariables.
Context {W : Type} {E : SvEnv W}.

Record st : Type := mkSt {
  Env : W; Heap : heap; Insts : gmap Z SV_INSTANCE; Sets : list (variable * EFI_STATUS) }.
Definition set_env (w : W) (s : st) : st := mkSt w (Heap s) (Insts s) (Sets s).
Definition set_heap (h : heap) (s : st) : st := mkSt (Env s) h (Insts s) (Sets s).
Definition set_insts (i : gmap Z SV_INSTANCE) (s : st) : st := mkSt (Env s) (Heap s) i (Sets s).
Definition log_set (v : variable) (r : EFI_STATUS) (s : st) : st :=
  mkSt (Env s) (Heap s) (Insts s) (Sets s ++ [(v, r)]).

Definition call {A} (f : W -> A * W) : M st A := fun s => let '(a, w) := f (Env s) in Done a (set_env w s).

(** *** Memory *)
Definition AllocatePool (n : Z) : M st (option Z) :=
  s ← get;
  r ← call (sv_AllocatePool (Heap s) n);
  match r with
  | Some (b, bs) => modify (fun s => set_heap (<[b := bs]> (Heap s)) s);; mret (Some b)
  | None => mret None
  end.
Definition FreePool (b : Z) : M st unit :=
  s ← get; _ ← deref (Heap s !! b); put (set_heap (delete b (Heap s)) s).
Definition Local (bs : list Z) : M st Z :=
  s ← get;
  b ← call (sv_Local (Heap s));
  modify (fun s => set_heap (<[b := bs]> (Heap s)) s);; mret b.

Definition in_block (bs : list Z) (off n : Z) : bool :=
  (0 <=? off) && (0 <=? n) && (off + n <=? Z.of_nat (length bs)).
Definition slice (bs : list Z) (off n : Z) : list Z := take (Z.to_nat n) (drop (Z.to_nat off) bs).
Definition splice (bs : list Z) (off : Z) (src : list Z) : list Z :=
  take (Z.to_nat off) bs ++ src ++ drop (Z.to_nat off + length src) bs.

Definition read (p : ptr) (n : Z) : M st (list Z) :=
  s ← get;
  bs ← deref (Heap s !! p.1);
  if in_block bs p.2 n then mret (slice bs p.2 n) else trapped BadPointer.
Definition write (p : ptr) (src : list Z) : M st unit :=
  s ← get;
  bs ← deref (Heap s !! p.1);
  if in_block bs p.2 (Z.of_nat (length src))
  then put (set_heap (<[p.1 := splice bs p.2 src]> (Heap s)) s)
  else trapped BadPointer.
Definition read_UINT32 (p : ptr) : M st Z := bs ← read p 4; mret (le_combine bs).
Definition StrSizeAt (p : ptr) : M st Z :=
  s ← get; bs ← deref (Heap s !! p.1); deref (StrSize (drop (Z.to_nat p.2) bs)).

(** *** Instances *)
Definition SV_FROM_HANDLE (h : handle) : M st SV_INSTANCE :=
  s ← get; i ← deref (Insts s !! h); ASSERT (Signature i =? SV_SIGNATURE);; mret i.
Definition store (h : handle) (i : SV_INSTANCE) : M st unit := modify (fun s => set_insts (<[h := i]> (Insts s)) s).

Definition SerializeVariablesNewInstance : M st (EFI_STATUS * handle) :=
  s ← get;
  New ← call (sv_AllocateInstance (Insts s));
  match New with
  | None => mret (EFI_OUT_OF_RESOURCES, 0)
  | Some h => store h (mkSv SV_SIGNATURE None 0 0);; mret (EFI_SUCCESS, h)
  end.

Definition SerializeVariablesFreeInstance (h : handle) : M st EFI_STATUS :=
  Instance ← SV_FROM_HANDLE h;
  if negb (Signature Instance =? SV_SIGNATURE) then mret EFI_INVALID_PARAMETER
  else
    store h (mkSv 0 (BufferPtr Instance) (BufferSize Instance) (DataSize Instance));;
    (match BufferPtr Instance with Some b => FreePool b | None => mret tt end);;
    modify (fun s => set_insts (delete h (Insts s)) s);;
    mret EFI_SUCCESS.

Definition EnsureExtraBufferSpace (h : handle) (Size : Z) : M st EFI_STATUS :=
  Instance ← SV_FROM_HANDLE h;
  let NewSize := u64 (DataSize Instance + Size) in
  if NewSize <=? BufferSize Instance then mret EFI_SUCCESS
  else
    let NewSize := u64 (2 * NewSize) in
    NewBuffer ← AllocatePool NewSize;
    match NewBuffer with
    | None => mret EFI_OUT_OF_RESOURCES
    | Some n =>
        (match BufferPtr Instance with
         | Some b => bs ← read (b, 0) (DataSize Instance); write (n, 0) bs;; FreePool b
         | None => mret tt
         end);;
        store h (mkSv (Signature Instance) (Some n) NewSize (DataSize Instance));;
        mret EFI_SUCCESS
    end.

(** A source of bytes: the address of a local, or a pointer. *)
Inductive source : Type := Value (bs : list Z) | At (p : option ptr).

Definition AppendToBuffer (h : handle) (Data : source) (Size : Z) : M st unit :=
  Instance ← SV_FROM_HANDLE h;
  ASSERT (match Data with At None => false | _ => true end);;
  let NewSize := u64 (DataSize Instance + Size) in
  ASSERT (NewSize <=? BufferSize Instance);;
  bs ← (match Data with
        | Value bs => mret bs
        | At p => p ← deref p; read p Size
        end);
  b ← deref (BufferPtr Instance);
  write (b, DataSize Instance) bs;;
  store h (mkSv (Signature Instance) (BufferPtr Instance) (BufferSize Instance) NewSize).

Definition SerializeVariablesAddVariable (h : handle) (VariableName VendorGuid : option ptr)
    (Attributes DataSize : Z) (Data : option ptr) : M st EFI_STATUS :=
  _ ← SV_FROM_HANDLE h;
  (* the check of the parameters has an empty body *)
  p ← deref VariableName;
  n ← StrSizeAt p;
  let SerializedNameSize := u32 n in
  let SerializedSize := u64 (4 + SerializedNameSize + SIZEOF_GUID + 4 + 4 + DataSize) in
  Status ← EnsureExtraBufferSpace h SerializedSize;
  if EFI_ERROR Status then mret Status
  else
    AppendToBuffer h (Value (le_split 4 SerializedNameSize)) 4;;
    AppendToBuffer h (At VariableName) SerializedNameSize;;
    AppendToBuffer h (At VendorGuid) SIZEOF_GUID;;
    AppendToBuffer h (Value (le_split 4 Attributes)) 4;;
    AppendToBuffer h (Value (le_split 4 (u32 DataSize))) 4;;
    AppendToBuffer h (At Data) DataSize;;
    mret EFI_SUCCESS.

(** [Buffer] and [Size] are optional out-parameters: the result is the status
    and the value left in [*Size]. *)
Definition SerializeVariablesToBuffer (h : handle) (Buffer : option ptr) (Size : option Z)
    : M st (EFI_STATUS * option Z) :=
  Instance ← SV_FROM_HANDLE h;
  match Size with
  | None => mret (EFI_INVALID_PARAMETER, None)
  | Some n =>
      if n <? DataSize Instance then mret (EFI_BUFFER_TOO_SMALL, Some (DataSize Instance))
      else
        match Buffer with
        | None => mret (EFI_INVALID_PARAMETER, Some n)
        | Some p =>
            (if DataSize Instance =? 0 then mret tt
             else b ← deref (BufferPtr Instance); bs ← read (b, 0) (DataSize Instance); write p bs);;
            mret (EFI_SUCCESS, Some (DataSize Instance))
        end
  end.

(** *** Iteration over a packed buffer *)
Definition CALLBACK : Type := option ptr -> option ptr -> Z -> Z -> option ptr -> M st EFI_STATUS.

(** Name, NameSize, Guid, Attributes, DataSize, Data, SizeUsed. *)
Record unpacked : Type := mkUnpacked {
  u_Name : ptr; u_NameSize : Z; u_Guid : ptr; u_Attributes : Z; u_DataSize : Z; u_Data : ptr; u_SizeUsed : Z }.

Definition UnpackVariableFromBuffer (Buffer : ptr) (MaxSize : Z) : M st (EFI_STATUS + unpacked) :=
  let at_ := fun Offset => (Buffer.1, Buffer.2 + Offset) in
  NameSize ← read_UINT32 (at_ 0);
  let Offset := 4 in
  if MaxSize <? Offset then mret (inl EFI_INVALID_PARAMETER) else
  let Name := at_ Offset in
  let Offset := u64 (Offset + NameSize) in
  if MaxSize <? Offset then mret (inl EFI_INVALID_PARAMETER) else
  let Guid := at_ Offset in
  let Offset := u64 (Offset + SIZEOF_GUID) in
  if MaxSize <? Offset then mret (inl EFI_INVALID_PARAMETER) else
  Attributes ← read_UINT32 (at_ Offset);
  let Offset := u64 (Offset + 4) in
  if MaxSize <? Offset then mret (inl EFI_INVALID_PARAMETER) else
  DataSize ← read_UINT32 (at_ Offset);
  let Offset := u64 (Offset + 4) in
  if MaxSize <? Offset then mret (inl EFI_INVALID_PARAMETER) else
  let Data := at_ Offset in
  let Offset := u64 (Offset + DataSize) in
  if MaxSize <? Offset then mret (inl EFI_INVALID_PARAMETER) else
  mret (inr (mkUnpacked Name NameSize Guid Attributes DataSize Data Offset)).

(** The loop.  [AlignedNameMaxSize] is never assigned: the name is
    reallocated whenever it is not empty.  The result is a status to return
    at once, or the values after the loop. *)
Fixpoint IterateLoop (fuel : nat) (cb : CALLBACK) (Buffer : ptr) (MaxSize : Z)
    (Status : EFI_STATUS) (AlignedName : option Z) (TotalSizeUsed : Z)
    : M st (EFI_STATUS + option Z * Z) :=
  if negb (EFI_ERROR Status) && (TotalSizeUsed <? MaxSize) then
    match fuel with
    | O => trapped OutOfFuel
    | S fuel =>
        r ← UnpackVariableFromBuffer (Buffer.1, Buffer.2 + TotalSizeUsed) (MaxSize - TotalSizeUsed);
        match r with
        | inl Status => mret (inl Status)
        | inr u =>
            AlignedName ← (if 0 <? u_NameSize u then
                             (match AlignedName with Some a => FreePool a | None => mret tt end);;
                             AllocatePool (u_NameSize u)
                           else mret AlignedName);
            match AlignedName with
            | None => mret (inl EFI_OUT_OF_RESOURCES)
            | Some a =>
                bs ← read (u_Name u) (u_NameSize u);
                write (a, 0) bs;;
                let TotalSizeUsed := u64 (TotalSizeUsed + u_SizeUsed u) in
                Status ← cb (Some (a, 0)) (Some (u_Guid u)) (u_Attributes u) (u_DataSize u) (Some (u_Data u));
                IterateLoop fuel cb Buffer MaxSize Status (Some a) TotalSizeUsed
            end
        end
    end
  else mret (inr (AlignedName, TotalSizeUsed)).

(** A variable takes at least 28 bytes, so [MaxSize] steps are enough. *)
Definition IterateVariablesInBuffer (cb : CALLBACK) (Buffer : ptr) (MaxSize : Z) : M st EFI_STATUS :=
  r ← IterateLoop (Z.to_nat MaxSize) cb Buffer MaxSize EFI_SUCCESS None 0;
  match r with
  | inl Status => mret Status
  | inr (AlignedName, TotalSizeUsed) =>
      (match AlignedName with Some a => FreePool a | None => mret tt end);;
      mret (if negb (TotalSizeUsed =? MaxSize) then EFI_INVALID_PARAMETER else EFI_SUCCESS)
  end.

Definition IterateVariablesCallbackNop : CALLBACK := fun _ _ _ _ _ => mret EFI_SUCCESS.
Definition IterateVariablesCallbackSetInInstance (h : handle) : CALLBACK :=
  fun n g a d p => SerializeVariablesAddVariable h n g a d p.

(** The runtime service reads its arguments. *)
Definition SetVariable (n g : option ptr) (Attributes DataSize : Z) (p : option ptr) : M st EFI_STATUS :=
  n ← deref n; g ← deref g; p ← deref p;
  k ← StrSizeAt n; name ← read n k; guid ← read g SIZEOF_GUID; data ← read p DataSize;
  Status ← call (rt_SetVariable name guid Attributes data);
  modify (log_set (mkVar name guid Attributes data) Status);; mret Status.

Definition IterateVariablesCallbackSetSystemVariable : CALLBACK := fun n g Attributes d p =>
  Status ← SetVariable n g Attributes d p;
  mret (if (Status =? EFI_SECURITY_VIOLATION) && negb (Z.land Attributes AuthMask =? 0) then EFI_SUCCESS
        else if Status =? EFI_WRITE_PROTECTED then EFI_SUCCESS
        else Status).

Definition SerializeVariablesIterateInstanceVariables (h : handle) (cb : CALLBACK) : M st EFI_STATUS :=
  Instance ← SV_FROM_HANDLE h;
  match BufferPtr Instance with
  | Some b => if negb (DataSize Instance =? 0)
              then IterateVariablesInBuffer cb (b, 0) (DataSize Instance) else mret EFI_SUCCESS
  | None => mret EFI_SUCCESS
  end.

Definition SerializeVariablesSetSerializedVariables (h : handle) : M st EFI_STATUS :=
  SerializeVariablesIterateInstanceVariables h IterateVariablesCallbackSetSystemVariable.

Definition SerializeVariablesNewInstanceFromBuffer (Buffer : ptr) (Size : Z) : M st (EFI_STATUS * handle) :=
  r ← SerializeVariablesNewInstance;
  let '(Status, h) := r in
  if EFI_ERROR Status then mret (Status, h)
  else
    Status ← IterateVariablesInBuffer IterateVariablesCallbackNop Buffer Size;
    if EFI_ERROR Status then _ ← SerializeVariablesFreeInstance h; mret (Status, h)
    else
      Status ← IterateVariablesInBuffer (IterateVariablesCallbackSetInInstance h) Buffer Size;
      if EFI_ERROR Status then _ ← SerializeVariablesFreeInstance h; mret (Status, h)
      else mret (Status, h).

(** *** The variables of the system *)
Definition GetNextVariableName (Size : Z) (Name : option Z) (Guid : Z) : M st (EFI_STATUS * Z) :=
  s ← get;
  content ← (match Name with Some b => bs ← deref (Heap s !! b); mret (Some bs) | None => mret None end);
  guid ← read (Guid, 0) SIZEOF_GUID;
  r ← call (rt_GetNextVariableName Size content guid);
  let '(Status, Size, name, guid) := r in
  (if EFI_ERROR Status then mret tt
   else b ← deref Name; write (b, 0) name;; write (Guid, 0) guid);;
  mret (Status, Size).

Definition GetVariable (Name : option Z) (Guid : Z) (Size : Z) (Data : option Z) : M st (EFI_STATUS * Z * Z) :=
  b ← deref Name;
  n ← StrSizeAt (b, 0); name ← read (b, 0) n; guid ← read (Guid, 0) SIZEOF_GUID;
  r ← call (rt_GetVariable name guid Size);
  let '(Status, Attributes, Size, data) := r in
  (if EFI_ERROR Status then mret tt else d ← deref Data; write (d, 0) data);;
  mret (Status, Attributes, Size).

(** The buffers: name and its size, data and its size. *)
Record buffers : Type := mkBuffers { b_Name : option Z; b_NameSize : Z; b_Data : option Z; b_DataSize : Z }.

(** The body up to the break on GetNextVariableName: [inl] breaks. *)
Definition NextName (Guid : Z) (B : buffers) : M st ((EFI_STATUS + unit) * buffers) :=
  r ← GetNextVariableName (b_NameSize B) (b_Name B) Guid;
  let '(Status, Size) := r in
  if Status =? EFI_BUFFER_TOO_SMALL then
    NewBuffer ← AllocatePool Size;
    match NewBuffer with
    | None => mret (inl EFI_OUT_OF_RESOURCES, B)
    | Some n =>
        b ← deref (b_Name B); bs ← read (b, 0) (b_NameSize B); write (n, 0) bs;;
        FreePool b;;
        let B := mkBuffers (Some n) Size (b_Data B) (b_DataSize B) in
        r ← GetNextVariableName Size (Some n) Guid;
        mret (if EFI_ERROR r.1 then inl (if r.1 =? EFI_NOT_FOUND then EFI_SUCCESS else r.1) else inr tt, B)
    end
  else mret (if EFI_ERROR Status then inl (if Status =? EFI_NOT_FOUND then EFI_SUCCESS else Status) else inr tt, B).

(** The data of the current variable: attributes and size. *)
Definition CurrentData (Guid : Z) (B : buffers) : M st ((EFI_STATUS + Z * Z) * buffers) :=
  r ← GetVariable (b_Name B) Guid (b_DataSize B) (b_Data B);
  let '(Status, Attributes, Size) := r in
  if Status =? EFI_BUFFER_TOO_SMALL then
    (if negb (b_DataSize B =? 0) then d ← deref (b_Data B); FreePool d else mret tt);;
    NewData ← AllocatePool Size;
    match NewData with
    | None =>
        mret (inl EFI_OUT_OF_RESOURCES,
              mkBuffers (b_Name B) (b_NameSize B) None (if b_DataSize B =? 0 then b_DataSize B else 0))
    | Some d =>
        let B := mkBuffers (b_Name B) (b_NameSize B) (Some d) Size in
        r ← GetVariable (b_Name B) Guid Size (Some d);
        let '(Status, Attributes, Size) := r in
        mret (if EFI_ERROR Status then inl Status else inr (Attributes, Size), B)
    end
  else mret (if EFI_ERROR Status then inl Status else inr (Attributes, Size), B).

(** The loop has no bound of its own. *)
Fixpoint SystemLoop (fuel : nat) (cb : CALLBACK) (Guid : Z) (B : buffers) : M st (EFI_STATUS * buffers) :=
  match fuel with
  | O => trapped OutOfFuel
  | S fuel =>
      r ← NextName Guid B;
      let '(x, B) := r in
      match x with
      | inl Status => mret (Status, B)
      | inr _ =>
          r ← CurrentData Guid B;
          let '(x, B) := r in
          match x with
          | inl Status => mret (Status, B)
          | inr (Attributes, Size) =>
              Status ← cb ((fun b => (b, 0)) <$> b_Name B) (Some (Guid, 0)) Attributes Size
                         ((fun b => (b, 0)) <$> b_Data B);
              if EFI_ERROR Status then mret (Status, B) else SystemLoop fuel cb Guid B
          end
      end
  end.

Definition SerializeVariablesIterateSystemVariables (fuel : nat) (cb : CALLBACK) : M st EFI_STATUS :=
  Name ← AllocatePool 2;
  (match Name with Some b => write (b, 0) [0; 0] | None => mret tt end);;
  Guid ← Local (replicate 16 0);   (* its initial contents are not used *)
  r ← SystemLoop fuel cb Guid (mkBuffers Name 2 None 0);
  let '(Status, B) := r in
  (match b_Name B with Some b => FreePool b | None => mret tt end);;
  (match b_Data B with Some b => FreePool b | None => mret tt end);;
  FreePool Guid;;
  mret Status.
End SerializeVariables.
