(* ===== verification/SerializeVarsProofs.v ===== *)
(** * SerializeVariablesLib: packing, growing, iterating *)
From S2P Require Import Prelude Bytes SerializeVars.

Abbreviation len l := (Z.of_nat (length l)).

(** ** The format *)
Definition pack (v : variable) : list Z :=
  le_split 4 (len (v_name v)) ++ v_name v ++ v_guid v ++
  le_split 4 (v_attrs v) ++ le_split 4 (len (v_data v)) ++ v_data v.
Definition packs (vs : list variable) : list Z := concat (pack <$> vs).

(** A variable as the runtime services know it. *)
Record var_ok (v : variable) : Prop := {
  vo_name : StrSize (v_name v) = Some (len (v_name v));
  vo_name_size : len (v_name v) < 2 ^ 32;
  vo_guid : length (v_guid v) = 16%nat;
  vo_attrs : is_u32 (v_attrs v);
  vo_data : len (v_data v) < 2 ^ 32;
}.

Lemma StrSize_bounds : forall l n, StrSize l = Some n -> 2 <= n <= len l.
Proof.
  fix IH 1. intros [|a [|b t]] n; cbn [StrSize]; [done|done|].
  destruct ((a =? 0) && (b =? 0)); [intros [= <-]; cbn; lia|].
  destruct (StrSize t) as [m|] eqn:E; [|done]. intros [= <-]. specialize (IH t m E). cbn [length]. lia.
Qed.
Lemma StrSize_app : forall l n tl, StrSize l = Some n -> StrSize (l ++ tl) = Some n.
Proof.
  fix IH 1. intros [|a [|b t]] n tl; cbn [StrSize app]; [done|done|].
  destruct ((a =? 0) && (b =? 0)); [done|].
  destruct (StrSize t) as [m|] eqn:E; [|done]. intros [= <-]. by rewrite (IH t m tl E).
Qed.

Lemma length_pack v :
  var_ok v -> len (pack v) = 28 + len (v_name v) + len (v_data v).
Proof. intros []. unfold pack. rewrite !length_app, !length_le_split. lia. Qed.

(** ** Slices *)
Lemma slice_middle (a b c : list Z) off n : off = len a -> n = len b -> slice (a ++ b ++ c) off n = b.
Proof.
  intros -> ->. unfold slice. rewrite !Nat2Z.id, drop_app_length. by rewrite take_app_length.
Qed.
Lemma splice_middle (a b b' c : list Z) off : off = len a -> length b = length b' -> splice (a ++ b ++ c) off b' = a ++ b' ++ c.
Proof.
  intros -> Hl. unfold splice. rewrite Nat2Z.id, take_app_length. f_equal. f_equal.
  rewrite <-Hl, drop_app_add, drop_app_length. done.
Qed.
Lemma in_block_middle (a b c : list Z) off n : off = len a -> n = len b -> in_block (a ++ b ++ c) off n = true.
Proof. intros -> ->. unfold in_block. rewrite !length_app. rewrite !andb_true_iff, !Z.leb_le. lia. Qed.
Lemma slice_prefix (b c : list Z) n : n = len b -> slice (b ++ c) 0 n = b.
Proof. apply (slice_middle [] b c 0 n eq_refl). Qed.
Lemma splice_prefix (b b' c : list Z) : length b = length b' -> splice (b ++ c) 0 b' = b' ++ c.
Proof. apply (splice_middle [] b b' c 0 eq_refl). Qed.
Lemma in_block_prefix (b c : list Z) n : n = len b -> in_block (b ++ c) 0 n = true.
Proof. apply (in_block_middle [] b c 0 n eq_refl). Qed.
Lemma slice_all (b : list Z) n : n = len b -> slice b 0 n = b.
Proof. intros H. rewrite <-(app_nil_r b) at 1. by apply slice_prefix. Qed.
Lemma in_block_all (b : list Z) n : n = len b -> in_block b 0 n = true.
Proof. intros H. rewrite <-(app_nil_r b). by apply in_block_prefix. Qed.
(** A slice splits its list. *)
Lemma slice_split bs off n : in_block bs off n = true ->
  exists a c, bs = a ++ slice bs off n ++ c /\ off = len a /\ n = len (slice bs off n).
Proof.
  unfold in_block, slice. rewrite !andb_true_iff, !Z.leb_le. intros [[H1 H2] H3].
  exists (take (Z.to_nat off) bs), (drop (Z.to_nat n) (drop (Z.to_nat off) bs)).
  rewrite !take_drop. split; [done|]. rewrite !length_take, length_drop. lia.
Qed.

Class SvEnvLaws (W : Type) {E : SvEnv W} : Prop := {
  sv_alloc_fresh h n w b bs w' :
    sv_AllocatePool h n w = (Some (b, bs), w') -> h !! b = None /\ len bs = n;
  sv_inst_fresh i w h w' : sv_AllocateInstance i w = (Some h, w') -> i !! h = None;
  sv_local_fresh h w b w' : sv_Local h w = (b, w') -> h !! b = None;
}.

Section SerializeVariables.
Context {W : Type} {E : SvEnv W}.
Implicit Types s : st (W:=W).

(** ** Symbolic execution *)
Lemma wp_sv_call {A} (f : W -> A * W) (Q : A -> st -> Prop) s :
  wp (call f) Q s <-> (let '(a, w) := f (Env s) in Q a (set_env w s)).
Proof. unfold wp, call. by destruct (f (Env s)). Qed.

Lemma wp_read p n bs (Q : list Z -> st -> Prop) s :
  Heap s !! p.1 = Some bs -> in_block bs p.2 n = true -> Q (slice bs p.2 n) s -> wp (read p n) Q s.
Proof.
  intros H1 H2 HQ. unfold read. wp_steps. rewrite wp_deref. exists bs. split; [done|]. rewrite H2. by wp_steps.
Qed.
Lemma wp_write p src bs (Q : unit -> st -> Prop) s :
  Heap s !! p.1 = Some bs -> in_block bs p.2 (len src) = true ->
  Q tt (set_heap (<[p.1 := splice bs p.2 src]> (Heap s)) s) -> wp (write p src) Q s.
Proof.
  intros H1 H2 HQ. unfold write. wp_steps. rewrite wp_deref. exists bs. split; [done|]. rewrite H2. by wp_steps.
Qed.
Lemma wp_FreePool_sv b (Q : unit -> st -> Prop) s :
  is_Some (Heap s !! b) -> Q tt (set_heap (delete b (Heap s)) s) -> wp (FreePool b) Q s.
Proof. intros [bs H] HQ. unfold FreePool. wp_steps. rewrite wp_deref. exists bs. split; [done|]. by wp_steps. Qed.
Lemma wp_SV_FROM_HANDLE h i (Q : SV_INSTANCE -> st -> Prop) s :
  Insts s !! h = Some i -> Signature i = SV_SIGNATURE -> Q i s -> wp (SV_FROM_HANDLE h) Q s.
Proof.
  intros H1 H2 HQ. unfold SV_FROM_HANDLE. wp_steps. rewrite wp_deref. exists i. split; [done|].
  wp_step. wp_step; [by apply Z.eqb_eq|]. by wp_steps.
Qed.

Context {L : SvEnvLaws W}.

(** Some allocation fails. *)
Definition alloc_fails : Prop := exists h n w w', 0 <= n /\ sv_AllocatePool h n w = (None, w').

Lemma wp_Alloc_sv n (Q : option Z -> st -> Prop) s :
  0 <= n ->
  (forall w, alloc_fails -> Q None (set_env w s)) ->
  (forall w b bs, Heap s !! b = None -> len bs = n -> Q (Some b) (set_heap (<[b := bs]> (Heap s)) (set_env w s))) ->
  wp (AllocatePool n) Q s.
Proof.
  intros Hn HN HS. unfold AllocatePool. wp_steps. rewrite wp_sv_call.
  destruct (sv_AllocatePool (Heap s) n (Env s)) as [[[b bs]|] w] eqn:EA; wp_steps; [|apply HN; by exists (Heap s), n, (Env s), w].
  destruct (sv_alloc_fresh _ _ _ _ _ _ EA). by apply HS.
Qed.

(** ** Instances

    [rep s h c rest]: the instance [h] holds the bytes [c], with room for
    [rest]. *)
Definition rep s (h : handle) (c rest : list Z) : Prop :=
  exists i, Insts s !! h = Some i /\ Signature i = SV_SIGNATURE /\
    DataSize i = len c /\ BufferSize i = len (c ++ rest) /\ len (c ++ rest) < 2 ^ 64 /\
    match BufferPtr i with Some b => Heap s !! b = Some (c ++ rest) | None => c = [] /\ rest = [] end.

Definition own s (h : handle) : option Z := Insts s !! h ≫= BufferPtr.
(** The heap without the buffer of [h]. *)
Definition outside s (h : handle) : heap :=
  match own s h with Some b => delete b (Heap s) | None => Heap s end.

(** Only the instance [h] and the environment changed. *)
Record only (h : handle) s s' : Prop := {
  only_outside : outside s' h = outside s h;
  only_insts : delete h (Insts s') = delete h (Insts s);
  only_sets : Sets s' = Sets s;
}.

Lemma only_refl h s : only h s s.
Proof. by split. Qed.
Lemma only_trans h s1 s2 s3 : only h s1 s2 -> only h s2 s3 -> only h s1 s3.
Proof. intros [] []. split; congruence. Qed.
Lemma only_env h s w : only h s (set_env w s).
Proof. by split. Qed.
Lemma rep_env s h c rest w : rep s h c rest -> rep (set_env w s) h c rest.
Proof. done. Qed.

Lemma outside_sub s h b bs : outside s h !! b = Some bs -> Heap s !! b = Some bs /\ own s h <> Some b.
Proof.
  unfold outside. destruct (own s h) as [o|]; [|by split].
  rewrite lookup_delete_Some. intros [Hne H]. split; [done|]. congruence.
Qed.

Lemma EnsureExtraBufferSpace_spec h c rest n s :
  rep s h c rest -> 0 < n -> len c + n <= 2 ^ 62 ->
  wp (EnsureExtraBufferSpace h n) (fun St s' => only h s s' /\
    ((St = EFI_OUT_OF_RESOURCES /\ alloc_fails /\ rep s' h c rest) \/
     (St = EFI_SUCCESS /\ exists rest', rep s' h c rest' /\ n <= len rest'))) s.
Proof.
  intros (i & Hi & Hsig & Hd & Hb & Hb64 & Hbuf) Hn Hmax. unfold EnsureExtraBufferSpace.
  wp_step. eapply wp_SV_FROM_HANDLE; [done..|]. cbv zeta. rewrite Hd.
  assert (u64 (len c + n) = len c + n) as -> by (unfold u64; apply Z.mod_small; lia).
  assert (u64 (2 * (len c + n)) = 2 * (len c + n)) as -> by (unfold u64; apply Z.mod_small; lia).
  assert (rep s h c rest) as Hrep by (by exists i).
  destruct (Z.leb_spec (len c + n) (BufferSize i)) as [Hle|Hgt].
  { wp_steps. split; [apply only_refl|]. right. split; [done|]. exists rest. split; [done|].
    rewrite Hb, length_app in Hle. lia. }
  wp_step. apply wp_Alloc_sv; [lia|..].
  { intros w Hf. wp_steps. split; [apply only_env|]. by left. }
  intros w nb bs Hf Hl.
  set (bs1 := take (length c) bs). set (bs2 := drop (length c) bs).
  assert (length bs1 = length c) as Hl1 by (unfold bs1; rewrite length_take; lia).
  assert (bs = bs1 ++ bs2) as Hbs by (unfold bs1, bs2; by rewrite take_drop).
  assert (len bs2 = len c + 2 * n) as Hl2 by (unfold bs2; rewrite length_drop; lia).
  wp_step. destruct (BufferPtr i) as [b|] eqn:EB.
  - assert (b <> nb) as Hne by congruence.
    wp_step. apply (wp_read _ _ (c ++ rest)).
    { cbn. by rewrite lookup_insert_ne. }
    { by apply in_block_prefix. }
    cbn [fst snd]. rewrite slice_prefix by done.
    wp_step. apply (wp_write _ _ bs); cbn [fst snd Heap set_heap set_env].
    { by rewrite lookup_insert_eq. }
    { rewrite Hbs. apply in_block_prefix. by rewrite Hl1. }
    rewrite Hbs, splice_prefix by done. rewrite insert_insert_eq. cbn [app].
    apply wp_FreePool_sv; [cbn; rewrite lookup_insert_ne by done; eauto|].
    cbn [Heap set_heap set_env]. wp_steps. unfold store. wp_steps. split.
    + split; cbn; [|by rewrite delete_insert_eq|done]. unfold outside, own. cbn. rewrite lookup_insert_eq, Hi. cbn.
      rewrite EB. cbn. rewrite delete_delete, delete_insert_id by done. done.
    + right. split; [done|]. exists bs2. split; [|lia]. eexists. cbn. rewrite lookup_insert_eq. split; [done|].
      cbn. split; [done|]. split; [done|]. split; [rewrite length_app; lia|]. split; [rewrite length_app; lia|].
      rewrite lookup_delete_ne by done. by rewrite lookup_insert_eq.
  - destruct Hbuf as [-> ->]. wp_steps. unfold store. wp_steps. split.
    + split; cbn; [|by rewrite delete_insert_eq|done]. unfold outside, own. cbn. rewrite lookup_insert_eq, Hi. cbn.
      rewrite EB. cbn. by rewrite delete_insert_id.
    + right. split; [done|]. exists bs. split; [|cbn in *; lia]. eexists. cbn. rewrite lookup_insert_eq. split; [done|].
      cbn in *. split; [done|]. split; [done|]. split; [lia|]. split; [lia|]. by rewrite lookup_insert_eq.
Qed.

(** The bytes at a pointer, outside the buffer of [h]. *)
Definition reads (H : heap) (p : ptr) (bs : list Z) : Prop :=
  exists blk, H !! p.1 = Some blk /\ in_block blk p.2 (len bs) = true /\ slice blk p.2 (len bs) = bs.
Definition source_ok s h (src : source) (bs : list Z) : Prop :=
  match src with Value v => v = bs | At (Some p) => reads (outside s h) p bs | At None => False end.

Lemma source_ok_only s s' h src bs : only h s s' -> source_ok s h src bs -> source_ok s' h src bs.
Proof. intros []. destruct src as [|[p|]]; cbn; [done| |done]. by rewrite only_outside0. Qed.

Lemma AppendToBuffer_spec h src bs c rest s n :
  rep s h c rest -> source_ok s h src bs -> len bs <= len rest -> c ++ rest <> [] -> n = len bs ->
  wp (AppendToBuffer h src n) (fun _ s' => only h s s' /\ rep s' h (c ++ bs) (drop (length bs) rest)) s.
Proof.
  intros (i & Hi & Hsig & Hd & Hb & H64 & Hbuf) Hsrc Hroom Hne ->. unfold AppendToBuffer.
  assert (len (c ++ rest) = len c + len rest) as Hlen by (rewrite length_app; lia).
  wp_step. eapply wp_SV_FROM_HANDLE; [done..|]. wp_step. wp_step; [by destruct src as [|[]]|]. cbv zeta.
  assert (u64 (DataSize i + len bs) = len (c ++ bs)) as ->.
  { rewrite length_app, Hd. unfold u64. rewrite Z.mod_small; lia. }
  wp_step. wp_step. { apply Z.leb_le. rewrite Hb, !length_app. lia. }
  destruct (BufferPtr i) as [b|] eqn:EB; [|by destruct Hbuf as [-> ->]].
  assert (own s h = Some b) as Hown by (unfold own; by rewrite Hi).
  assert (rest = take (length bs) rest ++ drop (length bs) rest) as Hrest by (by rewrite take_drop).
  assert (length (take (length bs) rest) = length bs) as Hlt by (rewrite length_take; lia).
  assert (wp (b0 ← deref (Some b); write (b0, DataSize i) bs;;
      store h (mkSv (Signature i) (Some b) (BufferSize i) (len (c ++ bs))))
    (fun _ s' => only h s s' /\ rep s' h (c ++ bs) (drop (length bs) rest)) s) as Hfin.
  { wp_step. rewrite wp_deref. exists b. split; [done|]. wp_step.
    apply (wp_write _ _ (c ++ rest)); cbn [fst snd]; [done| |].
    { rewrite Hrest. apply in_block_middle; [done|]. by rewrite Hlt. }
    assert (splice (c ++ rest) (DataSize i) bs = c ++ bs ++ drop (length bs) rest) as ->.
    { rewrite Hrest at 1. by apply splice_middle. }
    unfold store. wp_steps. split.
    - split; cbn; [|by rewrite delete_insert_eq|done]. unfold outside, own. cbn. rewrite lookup_insert_eq, Hi. cbn.
      rewrite EB. by rewrite delete_insert_eq.
    - eexists. cbn. rewrite lookup_insert_eq. split; [done|]. cbn. split; [done|]. split; [done|].
      rewrite !length_app, length_drop. split; [rewrite Hb, !length_app; lia|]. split; [lia|].
      rewrite lookup_insert_eq. by rewrite (assoc_L (++)). }
  wp_step. destruct src as [v|[p|]]; cbn in Hsrc; [|destruct Hsrc as (blk & H1 & H2 & H3)|done].
  - subst v. wp_steps. exact Hfin.
  - apply outside_sub in H1 as [H1 _]. wp_step. rewrite wp_deref. exists p. split; [done|].
    eapply wp_read; [done..|]. rewrite H3. exact Hfin.
Qed.

(** Several pieces, one after the other. *)
Fixpoint Appends (h : handle) (l : list (source * list Z)) : M (st (W:=W)) unit :=
  match l with [] => mret tt | (src, bs) :: l => AppendToBuffer h src (len bs);; Appends h l end.

Lemma Appends_spec h l c rest s :
  rep s h c rest -> Forall (fun x => source_ok s h x.1 x.2) l -> len (concat (snd <$> l)) <= len rest ->
  c ++ rest <> [] ->
  wp (Appends h l) (fun _ s' => only h s s' /\ exists rest', rep s' h (c ++ concat (snd <$> l)) rest') s.
Proof.
  revert c rest s. induction l as [|[src bs] l IH]; intros c rest s Hr Hl Hroom Hne; cbn [Appends].
  { wp_steps. split; [apply only_refl|]. exists rest. by rewrite app_nil_r. }
  apply Forall_cons in Hl as [H1 Hl]. cbn in H1, Hroom. rewrite length_app in Hroom.
  wp_step. eapply wp_mono; [apply (AppendToBuffer_spec h src bs c rest); [done|done|lia|done|done]|].
  intros _ s1 [Ho1 Hr1]. eapply wp_mono.
  - eapply IH; [exact Hr1| |rewrite length_drop; lia|].
    + eapply Forall_impl; [exact Hl|]. intros x Hx. by eapply source_ok_only.
    + rewrite <-(take_drop (length bs) rest) in Hne. intros [E1 E2]%app_nil.
      apply app_nil in E1 as [-> ->]. cbn in *. by rewrite E2 in Hne.
  - intros _ s2 [Ho2 (rest' & Hr2)]. split; [by eapply only_trans|]. exists rest'. cbn. by rewrite (assoc_L (++)).
Qed.

(** The variable that AddVariable is called with. *)
Record args_ok s h (name guid data : ptr) (v : variable) : Prop := {
  ao_name : reads (outside s h) name (v_name v);
  ao_guid : reads (outside s h) guid (v_guid v);
  ao_data : reads (outside s h) data (v_data v);
}.

Lemma reads_StrSize s h p v : var_ok v -> reads (outside s h) p (v_name v) ->
  wp (StrSizeAt p) (fun n s' => n = len (v_name v) /\ s' = s) s.
Proof.
  intros Hv (blk & H1 & H2 & H3). apply outside_sub in H1 as [H1 _]. unfold StrSizeAt. wp_steps.
  rewrite wp_deref. exists blk. split; [done|]. apply slice_split in H2 as (a & d & Eb & Ho & _). rewrite H3 in Eb.
  rewrite wp_deref. exists (len (v_name v)). split; [|done].
  rewrite Eb, Ho, Nat2Z.id, drop_app_length. apply StrSize_app, vo_name, Hv.
Qed.

Definition pieces (name guid data : ptr) (v : variable) : list (source * list Z) :=
  [(Value (le_split 4 (len (v_name v))), le_split 4 (len (v_name v))); (At (Some name), v_name v);
   (At (Some guid), v_guid v); (Value (le_split 4 (v_attrs v)), le_split 4 (v_attrs v));
   (Value (le_split 4 (len (v_data v))), le_split 4 (len (v_data v))); (At (Some data), v_data v)].

Lemma AddVariable_spec h name guid data v c rest s :
  rep s h c rest -> var_ok v -> args_ok s h name guid data v -> len c + len (pack v) <= 2 ^ 62 ->
  wp (SerializeVariablesAddVariable h (Some name) (Some guid) (v_attrs v) (len (v_data v)) (Some data))
    (fun St s' => only h s s' /\
      ((St = EFI_OUT_OF_RESOURCES /\ alloc_fails /\ rep s' h c rest) \/
       (St = EFI_SUCCESS /\ exists rest', rep s' h (c ++ pack v) rest'))) s.
Proof.
  intros Hrep Hv Ha Hmax. pose proof Hv as [Hname Hnsz Hguid Hattrs Hdsz].
  destruct (StrSize_bounds _ _ Hname) as [Hn2 _]. pose proof (length_pack v Hv) as Hlp.
  unfold SerializeVariablesAddVariable. wp_step. destruct Hrep as (i & Hi & Hsig & Hrep').
  eapply wp_SV_FROM_HANDLE; [done..|]. assert (rep s h c rest) as Hrep by (by exists i). clear Hrep'.
  wp_step. rewrite wp_deref. exists name. split; [done|]. wp_step.
  eapply wp_mono; [by eapply reads_StrSize; [|apply Ha]|]. intros ? ? [-> ->]. cbv zeta.
  assert (u32 (len (v_name v)) = len (v_name v)) as -> by (unfold u32; apply Z.mod_small; lia).
  assert (u32 (len (v_data v)) = len (v_data v)) as -> by (unfold u32; apply Z.mod_small; lia).
  assert (u64 (4 + len (v_name v) + SIZEOF_GUID + 4 + 4 + len (v_data v)) = len (pack v)) as ->
    by (rewrite Hlp; unfold u64, SIZEOF_GUID; rewrite Z.mod_small; lia).
  wp_step. eapply wp_mono; [apply (EnsureExtraBufferSpace_spec h c rest); [done|lia|done]|].
  intros St s1 [Ho1 [(-> & Hf & Hr1)|[-> (rest1 & Hr1 & Hroom)]]].
  { wp_steps. split; [done|]. by left. }
  change (EFI_ERROR EFI_SUCCESS) with false. cbn iota.
  pose proof (Appends_spec h (pieces name guid data v) c rest1 s1 Hr1) as H.
  assert (concat (snd <$> pieces name guid data v) = pack v) as Epk by (cbn; by rewrite app_nil_r).
  rewrite Epk in H. destruct Ha as [Ha1 Ha2 Ha3]. destruct Ho1 as [Hout Hins Hsets].
  assert (Forall (fun x => source_ok s1 h x.1 x.2) (pieces name guid data v)) as Hsrc.
  { unfold pieces, source_ok. rewrite Hout. by repeat constructor. }
  assert (c ++ rest1 <> []) as Hne.
  { intros [-> ->]%app_nil. cbn in *. lia. }
  specialize (H Hsrc Hroom Hne). cbn [Appends pieces] in H. rewrite !length_le_split, Hguid in H.
  change (Z.of_nat 4) with 4 in H. change (Z.of_nat 16) with SIZEOF_GUID in H.
  unfold wp, mbind, M_bind in H |- *.
  repeat match type of H with context [match AppendToBuffer ?a ?b ?n ?s with _ => _ end] =>
    destruct (AppendToBuffer a b n s); [|done] end.
  cbn in H |- *. destruct H as [Ho2 Hr2]. split; [by eapply only_trans|]. by right.
Qed.
End SerializeVariables.

(** * SerializeVariablesLib: iterating over a packed buffer *)
Lemma packs_app vs ws : packs (vs ++ ws) = packs vs ++ packs ws.
Proof. unfold packs. by rewrite fmap_app, concat_app. Qed.
Lemma packs_snoc vs v : packs (vs ++ [v]) = packs vs ++ pack v.
Proof. rewrite packs_app. unfold packs at 2. cbn. by rewrite app_nil_r. Qed.

Lemma packs_cons v vs : packs (v :: vs) = pack v ++ packs vs.
Proof. done. Qed.

(** Each variable takes at least 28 bytes. *)
Lemma packs_length vs : Forall var_ok vs -> (length vs <= length (packs vs))%nat.
Proof.
  induction 1 as [|v vs Hv _ IH]; [done|]. pose proof (length_pack v Hv). unfold packs in *. cbn.
  rewrite length_app. lia.
Qed.

Lemma reads_middle (H : heap) blk (a b c : list Z) off :
  H !! blk = Some (a ++ b ++ c) -> off = len a -> reads H (blk, off) b.
Proof.
  intros HH ->. exists (a ++ b ++ c). cbn. split; [done|]. split; [by apply in_block_middle|by apply slice_middle].
Qed.

(** The fields of a packed variable. *)
Record packed_at (H : heap) (blk off : Z) (v : variable) : Prop := {
  pa_name_size : reads H (blk, off) (le_split 4 (len (v_name v)));
  pa_name : reads H (blk, off + 4) (v_name v);
  pa_guid : reads H (blk, off + (4 + len (v_name v))) (v_guid v);
  pa_attrs : reads H (blk, off + (20 + len (v_name v))) (le_split 4 (v_attrs v));
  pa_data_size : reads H (blk, off + (24 + len (v_name v))) (le_split 4 (len (v_data v)));
  pa_data : reads H (blk, off + (28 + len (v_name v))) (v_data v);
}.

Lemma pack_packed (H : heap) blk pre v post :
  var_ok v -> H !! blk = Some (pre ++ pack v ++ post) -> packed_at H blk (len pre) v.
Proof.
  intros [] HH. unfold pack in HH.
  set (n4 := le_split 4 (len (v_name v))) in *. set (a4 := le_split 4 (v_attrs v)) in *.
  set (d4 := le_split 4 (len (v_data v))) in *.
  assert (length n4 = 4%nat /\ length a4 = 4%nat /\ length d4 = 4%nat) as (L1 & L2 & L3) by (unfold n4, a4, d4; by rewrite !length_le_split).
  rewrite <-!(assoc_L (++)) in HH. split.
  - eapply reads_middle; [exact HH|lia].
  - apply (reads_middle _ _ (pre ++ n4) _ (v_guid v ++ a4 ++ d4 ++ v_data v ++ post));
      [by rewrite <-!(assoc_L (++))|rewrite !length_app; lia].
  - apply (reads_middle _ _ (pre ++ n4 ++ v_name v) _ (a4 ++ d4 ++ v_data v ++ post));
      [by rewrite <-!(assoc_L (++))|rewrite !length_app; lia].
  - apply (reads_middle _ _ (pre ++ n4 ++ v_name v ++ v_guid v) _ (d4 ++ v_data v ++ post));
      [by rewrite <-!(assoc_L (++))|rewrite !length_app; lia].
  - apply (reads_middle _ _ (pre ++ n4 ++ v_name v ++ v_guid v ++ a4) _ (v_data v ++ post));
      [by rewrite <-!(assoc_L (++))|rewrite !length_app; lia].
  - apply (reads_middle _ _ (pre ++ n4 ++ v_name v ++ v_guid v ++ a4 ++ d4) _ post);
      [by rewrite <-!(assoc_L (++))|rewrite !length_app; lia].
Qed.

Section Iterate.
Context {W : Type} {E : SvEnv W}.
Implicit Types s : st (W:=W).

Lemma wp_reads p bs n (Q : list Z -> st -> Prop) s :
  reads (Heap s) p bs -> n = len bs -> Q bs s -> wp (read p n) Q s.
Proof. intros (blk & H1 & H2 & H3) -> HQ. eapply wp_read; [done..|]. by rewrite H3. Qed.

Lemma wp_read_UINT32 p v (Q : Z -> st -> Prop) s :
  reads (Heap s) p (le_split 4 v) -> is_u32 v -> Q v s -> wp (read_UINT32 p) Q s.
Proof.
  intros H Hv HQ. unfold read_UINT32. wp_step. eapply wp_reads; [exact H|by rewrite length_le_split|].
  wp_steps. rewrite le_combine_split. by rewrite Z.mod_small.
Qed.

(** What Unpack finds. *)
Definition unpack_of (blk off : Z) (v : variable) : unpacked :=
  mkUnpacked (blk, off + 4) (len (v_name v)) (blk, off + (4 + len (v_name v))) (v_attrs v)
    (len (v_data v)) (blk, off + (28 + len (v_name v))) (len (pack v)).

Lemma Unpack_spec blk off v MaxSize s :
  var_ok v -> packed_at (Heap s) blk off v -> len (pack v) <= MaxSize -> MaxSize < 2 ^ 64 ->
  wp (UnpackVariableFromBuffer (blk, off) MaxSize) (fun r s' => s' = s /\ r = inr (unpack_of blk off v)) s.
Proof.
  intros Hv [P1 P2 P3 P4 P5 P6] Hmax H64. pose proof (length_pack v Hv) as Hlp. destruct Hv as [_ Hn Hg Ha Hd].
  unfold UnpackVariableFromBuffer. cbv zeta. cbn [fst snd]. rewrite Z.add_0_r.
  assert (forall x, 0 <= x < 2 ^ 64 -> u64 x = x) as Hu by (intros; by apply Z.mod_small).
  wp_step. eapply wp_read_UINT32; [exact P1|unfold is_u32; lia|].
  rewrite (Hu (4 + len (v_name v))) by lia. unfold SIZEOF_GUID.
  assert (4 + len (v_name v) + 16 = 20 + len (v_name v)) as -> by lia. rewrite (Hu (20 + _)) by lia.
  assert (20 + len (v_name v) + 4 = 24 + len (v_name v)) as -> by lia. rewrite (Hu (24 + _)) by lia.
  assert (24 + len (v_name v) + 4 = 28 + len (v_name v)) as -> by lia. rewrite (Hu (28 + len (v_name v))) by lia.
  destruct (Z.ltb_spec MaxSize 4); [lia|]. destruct (Z.ltb_spec MaxSize (4 + len (v_name v))); [lia|].
  destruct (Z.ltb_spec MaxSize (20 + len (v_name v))); [lia|].
  wp_step. eapply wp_read_UINT32; [exact P4|done|].
  destruct (Z.ltb_spec MaxSize (24 + len (v_name v))); [lia|].
  wp_step. eapply wp_read_UINT32; [exact P5|unfold is_u32; lia|].
  destruct (Z.ltb_spec MaxSize (28 + len (v_name v))); [lia|].
  rewrite Hu by lia. rewrite <-Hlp. destruct (Z.ltb_spec MaxSize (len (pack v))); [lia|]. by wp_steps.
Qed.

(** The state without the copy of the name. *)
Definition aligned (A : option Z) s : st (W:=W) :=
  match A with Some a => set_heap (delete a (Heap s)) s | None => s end.
Definition owned (A : option Z) s : Prop := match A with Some a => is_Some (Heap s !! a) | None => True end.

Lemma aligned_lookup A s b bs : Heap (aligned A s) !! b = Some bs -> Heap s !! b = Some bs /\ A <> Some b.
Proof. destruct A as [a|]; cbn; [|done]. rewrite lookup_delete_Some. intros [Hne H]. split; [done|congruence]. Qed.

Lemma wp_free_aligned A (Q : unit -> st -> Prop) s :
  owned A s -> Q tt (aligned A s) ->
  wp (match A with Some a => FreePool a | None => mret tt end) Q s.
Proof. destruct A; cbn; intros HA HQ; [by apply wp_FreePool_sv|by wp_steps]. Qed.

Context {L : SvEnvLaws W}.

(** ** The rule of the loop

    [I done] holds when the callback has accepted the variables [done];
    [J done v] after it has refused [v]. *)
Section Rule.
Context (cb : CALLBACK (W:=W)) (blk : Z) (vs : list variable).
Context (vs_ok : Forall var_ok vs) (vs_len : len (packs vs) < 2 ^ 62).
Context (I : list variable -> st (W:=W) -> Prop) (J : list variable -> variable -> st (W:=W) -> Prop).
Context (I_env : forall done s w, I done s -> I done (set_env w s)).
Context (I_buffer : forall done s, I done s -> exists post, Heap s !! blk = Some (packs vs ++ post)).
Context (I_callback : forall done v todo s a,
  vs = done ++ v :: todo -> Heap s !! a = Some (v_name v) -> I done (aligned (Some a) s) ->
  let u := unpack_of blk (len (packs done)) v in
  packed_at (Heap (aligned (Some a) s)) blk (len (packs done)) v ->
  wp (cb (Some (a, 0)) (Some (u_Guid u)) (u_Attributes u) (u_DataSize u) (Some (u_Data u)))
    (fun Status s' => owned (Some a) s' /\
      if EFI_ERROR Status then J done v (aligned (Some a) s') else I (done ++ [v]) (aligned (Some a) s')) s).

Lemma packed_here done v todo s :
  vs = done ++ v :: todo -> I done s -> packed_at (Heap s) blk (len (packs done)) v.
Proof using vs_ok I_buffer.
  intros Hv HI. destruct (I_buffer _ _ HI) as [post HH].
  eapply (pack_packed _ _ (packs done) v (packs todo ++ post)).
  - pose proof vs_ok as H. rewrite Hv, Forall_app, Forall_cons in H. tauto.
  - rewrite HH, Hv, packs_app, packs_cons. by rewrite <-!(assoc_L (++)).
Qed.

Lemma packed_at_sub (H H' : heap) off v :
  (forall bs, H !! blk = Some bs -> H' !! blk = Some bs) -> packed_at H blk off v -> packed_at H' blk off v.
Proof.
  intros Hs. assert (forall o bs, reads H (blk, o) bs -> reads H' (blk, o) bs) as Hr.
  { intros o bs (b & H1 & H2). exists b. split; [by apply Hs|done]. }
  intros []. split; auto.
Qed.

(** What the loop leaves. *)
Definition loop_post (r : EFI_STATUS + option Z * Z) s' : Prop :=
  match r with
  | inl Status => Status = EFI_OUT_OF_RESOURCES /\ alloc_fails /\ exists done todo, vs = done ++ todo /\ todo <> [] /\ I done s'
  | inr (A, T) => owned A s' /\
      ((T = len (packs vs) /\ I vs (aligned A s')) \/
       exists done v todo, vs = done ++ v :: todo /\ T = len (packs (done ++ [v])) /\ J done v (aligned A s'))
  end.

Lemma IterateLoop_spec todo : forall done fuel Status A s,
  vs = done ++ todo -> (length todo <= fuel)%nat -> EFI_ERROR Status = false -> owned A s ->
  I done (aligned A s) ->
  wp (IterateLoop fuel cb (blk, 0) (len (packs vs)) Status A (len (packs done))) loop_post s.
Proof using All.
  induction todo as [|v todo IH]; intros done fuel Status A s Hv Hfuel HS HA HI.
  { rewrite app_nil_r in Hv. subst done. destruct fuel; cbn [IterateLoop]; rewrite HS, Z.ltb_irrefl; cbn [negb andb];
      wp_steps; (split; [done|]); by left. }
  destruct fuel as [|fuel]; cbn [length] in Hfuel; [lia|]. cbn [IterateLoop]. rewrite HS. cbn [negb andb].
  assert (len (packs vs) = len (packs done) + len (pack v) + len (packs todo)) as Hlen.
  { rewrite Hv, packs_app, packs_cons, !length_app. lia. }
  assert (var_ok v) as Hvok by (pose proof vs_ok as H; rewrite Hv, Forall_app, Forall_cons in H; tauto).
  pose proof (length_pack v Hvok) as Hlp. destruct (StrSize_bounds _ _ (vo_name v Hvok)) as [Hn2 _].
  destruct (Z.ltb_spec (len (packs done)) (len (packs vs))); [|lia].
  pose proof (packed_here done v todo _ Hv HI) as Hp. wp_step. cbn [fst snd]. rewrite Z.add_0_l.
  eapply wp_mono; [apply (Unpack_spec blk (len (packs done)) v); [done| |lia|lia]|].
  { eapply packed_at_sub; [|exact Hp]. intros bs Hbs. by apply aligned_lookup in Hbs as [? _]. }
  intros r s' [-> ->]. cbn [u_NameSize u_Name u_Guid u_Attributes u_DataSize u_Data u_SizeUsed unpack_of].
  destruct (Z.ltb_spec 0 (len (v_name v))); [|lia]. wp_step. wp_step. apply wp_free_aligned; [done|].
  set (s1 := aligned A s) in *. apply wp_Alloc_sv; [lia|..].
  { intros w Hf. wp_steps. split; [done|]. split; [done|]. exists done, (v :: todo). split; [done|]. split; [done|]. by apply I_env. }
  intros w b bs Hf Hl. set (s2 := set_heap _ _).
  assert (packed_at (Heap s2) blk (len (packs done)) v) as Hp2.
  { eapply packed_at_sub; [|exact Hp]. intros x Hx. cbn. rewrite lookup_insert_ne; [done|congruence]. }
  wp_step. eapply wp_reads; [apply Hp2|done|]. wp_step.
  apply (wp_write _ _ bs); cbn [fst snd].
  { cbn. by rewrite lookup_insert_eq. }
  { rewrite <-(app_nil_r bs). apply in_block_prefix. lia. }
  assert (splice bs 0 (v_name v) = v_name v) as ->.
  { rewrite <-(app_nil_r bs), splice_prefix by lia. by rewrite app_nil_r. }
  cbn [Heap s2 set_heap set_env]. rewrite insert_insert_eq. set (s3 := set_heap _ s2).
  assert (aligned (Some b) s3 = set_env w s1) as Hal.
  { unfold s3, s2. cbn. rewrite delete_insert_id by done. by destruct s1. }
  wp_step. eapply wp_mono.
  { apply (I_callback done v todo s3 b Hv); [cbn; by rewrite lookup_insert_eq| |]; rewrite Hal; [by apply I_env|exact Hp]. }
  intros St s' [Ho Hcase].
  assert (u64 (len (packs done) + len (pack v)) = len (packs (done ++ [v]))) as ->.
  { rewrite packs_snoc, length_app. unfold u64. rewrite Z.mod_small; lia. }
  destruct (EFI_ERROR St) eqn:HE.
  - assert (forall T, wp (IterateLoop fuel cb (blk, 0) (len (packs vs)) St (Some b) T)
      (fun r s'' => r = inr (Some b, T) /\ s'' = s') s') as Hexit.
    { intros T. destruct fuel; cbn [IterateLoop]; rewrite HE; cbn [negb andb]; by wp_steps. }
    eapply wp_mono; [apply Hexit|]. intros r s'' [-> ->]. split; [done|]. right. by exists done, v, todo.
  - apply IH; try done; [|lia]. by rewrite Hv, <-(assoc_L (++)).
Qed.

(** The last refusal is not reported: the status of the callback is only
    looked at to leave the loop. *)
Lemma IterateVariablesInBuffer_spec s :
  I [] s ->
  wp (IterateVariablesInBuffer cb (blk, 0) (len (packs vs))) (fun Status s' =>
    (Status = EFI_SUCCESS /\ I vs s') \/
    (Status = EFI_OUT_OF_RESOURCES /\ alloc_fails /\ exists done todo, vs = done ++ todo /\ todo <> [] /\ I done s') \/
    (exists done v todo, vs = done ++ v :: todo /\ J done v s' /\
       Status = match todo with [] => EFI_SUCCESS | _ => EFI_INVALID_PARAMETER end)) s.
Proof using All.
  intros HI. unfold IterateVariablesInBuffer. wp_step. eapply wp_mono.
  { apply (IterateLoop_spec vs []); try done. pose proof (packs_length vs vs_ok). lia. }
  intros [St|[A T]] s' Hpost; cbn in Hpost.
  - wp_steps. destruct Hpost as [-> H]. auto.
  - destruct Hpost as [Ho Hcase]. wp_step. apply wp_free_aligned; [done|]. wp_steps.
    destruct Hcase as [[-> H]|(done & v & todo & Hv & -> & H)].
    + rewrite Z.eqb_refl. auto.
    + right. right. exists done, v, todo. split; [done|]. split; [done|]. destruct todo as [|w todo].
      * rewrite <-Hv, Z.eqb_refl. done.
      * destruct (Z.eqb_spec (len (packs (done ++ [v]))) (len (packs vs))) as [Heq|]; [|done]. exfalso.
        assert (var_ok w) as Hw by (pose proof vs_ok as Hok; rewrite Hv, Forall_app, !Forall_cons in Hok; tauto).
        pose proof (length_pack w Hw). revert Heq. rewrite Hv.
        change (v :: w :: todo) with ([v] ++ [w] ++ todo). rewrite !packs_app, !length_app.
        assert (packs [w] = pack w) as -> by (unfold packs; cbn; by rewrite app_nil_r). lia.
Qed.
End Rule.
End Iterate.
