(* ===== verification/SerializeVarsSystem.v ===== *)
(** * SerializeVariablesLib: saving the variables of the system *)
From S2P Require Import Prelude Bytes SerializeVars SerializeVarsProofs.

(** The position of GetNextVariableName: nothing yet, or the [j]-th variable. *)
Definition cursor (sys : list variable) (content guid : list Z) (k : nat) : Prop :=
  match k with
  | O => exists tl, content = 0 :: 0 :: tl
  | S j => exists v tl, sys !! j = Some v /\ content = v_name v ++ tl /\ guid = v_guid v
  end.

(** The documented behaviour of the runtime services over a store [sys]. *)
Class RuntimeLaws (W : Type) {E : SvEnv W} (sys : list variable) : Prop := {
  next_some content guid k v size w : cursor sys content guid k -> sys !! k = Some v -> len (v_name v) <= size ->
    exists w', rt_GetNextVariableName size (Some content) guid w =
      ((EFI_SUCCESS, len (v_name v), v_name v, v_guid v), w');
  next_small content guid k v size w : cursor sys content guid k -> sys !! k = Some v -> size < len (v_name v) ->
    exists x y w', rt_GetNextVariableName size (Some content) guid w =
      ((EFI_BUFFER_TOO_SMALL, len (v_name v), x, y), w');
  next_end content guid k size w : cursor sys content guid k -> sys !! k = None ->
    exists n x y w', rt_GetNextVariableName size (Some content) guid w = ((EFI_NOT_FOUND, n, x, y), w');
  next_null size guid w : exists n x y w', rt_GetNextVariableName size None guid w =
      ((EFI_INVALID_PARAMETER, n, x, y), w');
  get_some v size w : v ∈ sys -> len (v_data v) <= size ->
    exists w', rt_GetVariable (v_name v) (v_guid v) size w =
      ((EFI_SUCCESS, v_attrs v, len (v_data v), v_data v), w');
  get_small v size w : v ∈ sys -> size < len (v_data v) ->
    exists a d w', rt_GetVariable (v_name v) (v_guid v) size w =
      ((EFI_BUFFER_TOO_SMALL, a, len (v_data v), d), w');
}.

Section System.
Context {W : Type} {E : SvEnv W} {L : SvEnvLaws W}.
Implicit Types s : st (W:=W).

(** The state seen from an instance: its contents, the other blocks, the
    other instances, the calls made. *)
Record view (h : handle) s (c : list Z) (O : heap) (X : gmap Z SV_INSTANCE) (S : list (variable * EFI_STATUS)) : Prop := {
  vw_rep : exists rest, rep s h c rest;
  vw_outside : outside s h = O;
  vw_insts : delete h (Insts s) = X;
  vw_sets : Sets s = S;
}.

Lemma view_env h s c O X S w : view h s c O X S -> view h (set_env w s) c O X S.
Proof. by intros []. Qed.

Lemma view_own h s c O X S b : view h s c O X S -> Heap s !! b = None -> own s h <> Some b.
Proof.
  intros [[rest (i & Hi & Hsig & Hd & Hb & H64 & Hbuf)] _ _ _] Hn Ho. unfold own in Ho. rewrite Hi in Ho. cbn in Ho.
  rewrite Ho in Hbuf. congruence.
Qed.

Lemma view_insert h s c O X S b bs :
  view h s c O X S -> own s h <> Some b ->
  view h (set_heap (<[b := bs]> (Heap s)) s) c (<[b := bs]> O) X S.
Proof.
  intros [[rest (i & Hi & Hsig & Hd & Hb & H64 & Hbuf)] HO HX HS] Ho.
  assert (own (set_heap (<[b := bs]> (Heap s)) s) h = own s h) as Ho' by done. split; try done.
  - exists rest, i. split_and!; try done. unfold own in Ho. rewrite Hi in Ho. cbn in Ho.
    destruct (BufferPtr i) as [o|]; [|done]. cbn. rewrite lookup_insert_ne; [done|congruence].
  - unfold outside in *. rewrite Ho'. destruct (own s h) as [o|]; cbn; [|by rewrite HO].
    rewrite delete_insert_ne by congruence. by rewrite HO.
Qed.

Lemma view_delete h s c O X S b :
  view h s c O X S -> own s h <> Some b ->
  view h (set_heap (delete b (Heap s)) s) c (delete b O) X S.
Proof.
  intros [[rest (i & Hi & Hsig & Hd & Hb & H64 & Hbuf)] HO HX HS] Ho.
  assert (own (set_heap (delete b (Heap s)) s) h = own s h) as Ho' by done. split; try done.
  - exists rest, i. split_and!; try done. unfold own in Ho. rewrite Hi in Ho. cbn in Ho.
    destruct (BufferPtr i) as [o|]; [|done]. cbn. rewrite lookup_delete_ne; [done|congruence].
  - unfold outside in *. rewrite Ho'. destruct (own s h) as [o|]; cbn; [|by rewrite HO].
    rewrite delete_delete. by rewrite HO.
Qed.

Lemma view_lookup h s c O X S b bs : view h s c O X S -> O !! b = Some bs -> Heap s !! b = Some bs /\ own s h <> Some b.
Proof. intros [_ <- _ _]. apply outside_sub. Qed.
Lemma view_reads h s c O X S p bs : view h s c O X S -> reads O p bs -> reads (Heap s) p bs.
Proof. intros Hv (b & H1 & H2). exists b. split; [|done]. by eapply view_lookup. Qed.

(** *** Rules *)
Lemma wp_o_call {A} (f : W -> A * W) h c O X S (Q : A -> st -> Prop) s :
  view h s c O X S -> (forall w, view h (set_env (f (Env s)).2 s) c O X S -> w = Env s -> Q (f w).1 (set_env (f w).2 s)) ->
  wp (call f) Q s.
Proof.
  intros Hv HQ. rewrite wp_sv_call. specialize (HQ (Env s) (view_env _ _ _ _ _ _ _ Hv) eq_refl).
  by destruct (f (Env s)).
Qed.

Lemma wp_o_alloc n h c O X S (Q : option Z -> st -> Prop) s :
  0 <= n -> view h s c O X S ->
  (forall s', alloc_fails -> view h s' c O X S -> Q None s') ->
  (forall s' b bs, O !! b = None -> len bs = n -> view h s' c (<[b := bs]> O) X S -> Q (Some b) s') ->
  wp (AllocatePool n) Q s.
Proof.
  intros Hn Hv HN HS. apply wp_Alloc_sv; [done|..].
  - intros w Hf. apply HN; [done|]. by apply view_env.
  - intros w b bs Hb Hl. apply (HS _ b bs); [|done|].
    + destruct (O !! b) eqn:EO; [|done]. eapply view_lookup in EO as [? _]; [|done]. congruence.
    + apply (view_insert h (set_env w s)); [by apply view_env|]. by eapply (view_own h s).
Qed.

Lemma wp_o_free b h c O X S (Q : unit -> st -> Prop) s :
  view h s c O X S -> is_Some (O !! b) -> (forall s', view h s' c (delete b O) X S -> Q tt s') -> wp (FreePool b) Q s.
Proof.
  intros Hv [bs Hb] HQ. destruct (view_lookup _ _ _ _ _ _ _ _ Hv Hb) as [H1 H2].
  apply wp_FreePool_sv; [eauto|]. apply HQ. by apply view_delete.
Qed.

Lemma wp_o_read p bs n h c O X S (Q : list Z -> st -> Prop) s :
  view h s c O X S -> reads O p bs -> n = len bs -> Q bs s -> wp (read p n) Q s.
Proof. intros Hv Hr -> HQ. eapply wp_reads; [by eapply view_reads|done|done]. Qed.

(** Overwriting the beginning of a block. *)
Lemma wp_o_write b src old h c O X S (Q : unit -> st -> Prop) s :
  view h s c O X S -> O !! b = Some old -> len src <= len old ->
  (forall s', view h s' c (<[b := src ++ drop (length src) old]> O) X S -> Q tt s') -> wp (write (b, 0) src) Q s.
Proof.
  intros Hv Hb Hl HQ. destruct (view_lookup _ _ _ _ _ _ _ _ Hv Hb) as [H1 H2].
  apply (wp_write _ _ old); cbn [fst snd]; [done| |].
  - unfold in_block. rewrite !andb_true_iff, !Z.leb_le. lia.
  - unfold splice. rewrite Nat.add_0_l. apply HQ. by apply view_insert.
Qed.

Lemma wp_o_local bs h c O X S (Q : Z -> st -> Prop) s :
  view h s c O X S -> (forall s' b, O !! b = None -> view h s' c (<[b := bs]> O) X S -> Q b s') ->
  wp (Local bs) Q s.
Proof.
  intros Hv HQ. unfold Local. wp_steps. rewrite wp_sv_call. destruct (sv_Local (Heap s) (Env s)) as [b w] eqn:EL.
  apply sv_local_fresh in EL. wp_steps. apply HQ.
  - destruct (O !! b) eqn:EO; [|done]. eapply view_lookup in EO as [? _]; [|done]. congruence.
  - apply (view_insert h (set_env w s)); [by apply view_env|]. by eapply (view_own h s).
Qed.

Lemma wp_o_add n g d v h c O X S s :
  view h s c O X S -> var_ok v -> reads O n (v_name v) -> reads O g (v_guid v) -> reads O d (v_data v) ->
  len c + len (pack v) <= 2 ^ 62 ->
  wp (SerializeVariablesAddVariable h (Some n) (Some g) (v_attrs v) (len (v_data v)) (Some d))
    (fun St s' => (St = EFI_OUT_OF_RESOURCES /\ alloc_fails /\ view h s' c O X S) \/
                  (St = EFI_SUCCESS /\ view h s' (c ++ pack v) O X S)) s.
Proof.
  intros [[rest Hrep] HO HX HS] Hok Hn Hg Hd Hmax.
  eapply wp_mono; [apply (AddVariable_spec h n g d v c rest); try done; rewrite <-HO in *; done|].
  intros St s' [[H1 H2 H3] [(-> & Hf & H)|[-> [rest' H]]]]; [left|right]; (split; [done|]).
  - split; [done|]. split; [eauto|congruence..].
  - split; [eauto|congruence..].
Qed.

(** *** The temporary buffers

    [held B g H0 O content guid]: next to the blocks [H0] there are exactly
    the name buffer with [content], the vendor [guid] in the local [g], and
    the data buffer of [B], if any. *)
Definition data_held (B : buffers) (H0 D : heap) : Prop :=
  match b_Data B with
  | None => b_DataSize B = 0 /\ D = H0
  | Some d => exists dd, D = <[d := dd]> H0 /\ len dd = b_DataSize B /\ b_DataSize B <> 0 /\ H0 !! d = None
  end.
Definition held (B : buffers) (g : Z) (H0 O : heap) (content guid : list Z) : Prop :=
  exists n D, b_Name B = Some n /\ len content = b_NameSize B /\ length guid = 16%nat /\ n <> g /\
    D !! n = None /\ D !! g = None /\ data_held B H0 D /\ O = <[n := content]> (<[g := guid]> D).

Lemma reads_block (O : heap) b bs : O !! b = Some bs -> reads O (b, 0) bs.
Proof. intros H. exists bs. cbn. split; [done|]. split; [by apply in_block_all|by apply slice_all]. Qed.
Lemma reads_prefix (O : heap) b bs tl : O !! b = Some (bs ++ tl) -> reads O (b, 0) bs.
Proof. intros H. exists (bs ++ tl). cbn. split; [done|]. split; [by apply in_block_prefix|by apply slice_prefix]. Qed.

Context (sys : list variable) {R : RuntimeLaws W sys}.

Lemma GetNext_spec h s c O X S n content g guid k :
  view h s c O X S -> O !! n = Some content -> O !! g = Some guid -> n <> g -> length guid = 16%nat ->
  Forall var_ok sys -> cursor sys content guid k ->
  wp (GetNextVariableName (len content) (Some n) g) (fun '(Status, Size) s' =>
    (sys !! k = None /\ Status = EFI_NOT_FOUND /\ view h s' c O X S) \/
    (exists v, sys !! k = Some v /\
      ((Status = EFI_BUFFER_TOO_SMALL /\ Size = len (v_name v) /\ len content < Size /\ view h s' c O X S) \/
       (Status = EFI_SUCCESS /\ exists tl, len (v_name v ++ tl) = len content /\
          view h s' c (<[g := v_guid v]> (<[n := v_name v ++ tl]> O)) X S)))) s.
Proof.
  intros Hv Hn Hg Hne H16 Hok Hc. unfold GetNextVariableName.
  destruct (view_lookup _ _ _ _ _ _ _ _ Hv Hn) as [Hn' _].
  wp_steps. rewrite wp_deref. exists content. split; [done|]. wp_steps.
  eapply wp_o_read; [exact Hv|by apply reads_block|by rewrite H16|]. wp_step.
  eapply wp_o_call; [exact Hv|]. intros w Hv' ->.
  destruct (sys !! k) as [v|] eqn:Ek.
  - destruct (Z.le_gt_cases (len (v_name v)) (len content)) as [Hle|Hgt].
    + destruct (next_some _ _ _ _ _ (Env s) Hc Ek Hle) as [w' Ew]. rewrite Ew in *. cbn [fst snd] in *.
      change (EFI_ERROR EFI_SUCCESS) with false. cbn iota. wp_step. wp_step. rewrite wp_deref. exists n. split; [done|].
      wp_step. eapply wp_o_write; [exact Hv'|exact Hn|done|]. intros s1 Hv1.
      assert (var_ok v) as Hvok by (eapply Forall_lookup_1; [exact Hok|exact Ek]).
      eapply wp_o_write; [exact Hv1|by rewrite lookup_insert_ne|by rewrite (vo_guid v Hvok), H16|].
      intros s2 Hv2. rewrite (vo_guid v Hvok) in Hv2.
      assert (drop 16 guid = []) as Hd by (apply drop_ge; lia). rewrite Hd, app_nil_r in Hv2.
      wp_steps. right. exists v. split; [done|]. right. split; [done|]. eexists. split; [|exact Hv2].
      rewrite length_app, length_drop. lia.
    + destruct (next_small _ _ _ _ _ (Env s) Hc Ek Hgt) as (x & y & w' & Ew). rewrite Ew in *. cbn [fst snd] in *.
      change (EFI_ERROR EFI_BUFFER_TOO_SMALL) with true. cbn iota. wp_steps. right. exists v. split; [done|]. left. auto.
  - destruct (next_end _ _ _ (len content) (Env s) Hc Ek) as (m & x & y & w' & Ew). rewrite Ew in *. cbn [fst snd] in *.
    change (EFI_ERROR EFI_NOT_FOUND) with true. cbn iota. wp_steps. left. auto.
Qed.

Lemma NextName_spec h s c O X S B g H0 content guid k :
  view h s c O X S -> held B g H0 O content guid -> Forall var_ok sys -> cursor sys content guid k ->
  wp (NextName g B) (fun '(x, B') s' => exists O' content' guid',
    view h s' c O' X S /\ held B' g H0 O' content' guid' /\
    match x with
    | inl Status => (Status = EFI_SUCCESS /\ sys !! k = None) \/ (Status = EFI_OUT_OF_RESOURCES /\ alloc_fails)
    | inr _ => exists v tl, sys !! k = Some v /\ guid' = v_guid v /\ content' = v_name v ++ tl
    end) s.
Proof.
  intros Hv (n & D & Hn & Hlen & H16 & Hne & HDn & HDg & Hdata & HO) Hok Hc.
  assert (O !! n = Some content) as HOn by (rewrite HO; apply lookup_insert_eq).
  assert (O !! g = Some guid) as HOg by (rewrite HO, lookup_insert_ne, lookup_insert_eq; done).
  assert (forall m x y, <[g := y]> (<[m := x]> (<[m := content]> (<[g := guid]> D))) = <[m := x]> (<[g := y]> D) \/ m = g) as Hupd.
  { intros m x y. destruct (decide (m = g)); [by right|left]. rewrite insert_insert_eq.
    rewrite (insert_insert_ne _ g m), insert_insert_eq by congruence. done. }
  unfold NextName. rewrite Hn, <-Hlen. wp_step. eapply wp_mono; [by eapply GetNext_spec|].
  intros [St Size] s1 [(Ek & -> & Hv1)|(v & Ek & [(-> & -> & Hlt & Hv1)|(-> & tl & Htl & Hv1)])]; cbn beta iota.
  - change (EFI_NOT_FOUND =? EFI_BUFFER_TOO_SMALL) with false. cbn iota. wp_steps. exists O, content, guid.
    split; [done|]. split; [by exists n, D|]. by left.
  - rewrite Z.eqb_refl. wp_step. eapply wp_o_alloc; [lia|exact Hv1| |].
    { intros s2 Hf Hv2. wp_steps. exists O, content, guid. split; [done|]. split; [by exists n, D|]. by right. }
    intros s2 m bs Hm Hbs Hv2. assert (m <> n) as Hmn by congruence. assert (m <> g) as Hmg by congruence.
    wp_step. rewrite wp_deref. exists n. split; [done|].
    wp_step. eapply wp_o_read; [exact Hv2|apply reads_block; rewrite lookup_insert_ne by done; exact HOn|done|].
    wp_step. eapply wp_o_write; [exact Hv2|apply lookup_insert_eq|lia|]. intros s3 Hv3.
    wp_step. eapply wp_o_free; [exact Hv3|by rewrite !lookup_insert_ne|]. intros s4 Hv4.
    rewrite insert_insert_eq in Hv4. set (x := content ++ drop (length content) bs) in *.
    assert (delete n (<[m := x]> O) = <[m := x]> (<[g := guid]> D)) as E4.
    { rewrite delete_insert_ne by done. rewrite HO, delete_insert_id; [done|]. by rewrite lookup_insert_ne. }
    rewrite E4 in Hv4. assert (len x = len (v_name v)) as Hlx by (unfold x; rewrite length_app, length_drop; lia).
    assert (D !! m = None) as HDm by (rewrite HO, !lookup_insert_ne in Hm; done).
    assert (cursor sys x guid k) as Hcx.
    { unfold x. destruct k as [|k]; cbn in Hc |- *.
      - destruct Hc as [tl ->]. cbn. eauto.
      - destruct Hc as (u & tl & Hu & -> & ->). exists u. rewrite <-(assoc_L (++)). eauto. }
    wp_step. rewrite <-Hlx. eapply wp_mono; [eapply (GetNext_spec h s4 c _ X S m x g guid k); [exact Hv4|..]|]; try done.
    { apply lookup_insert_eq. } { by rewrite lookup_insert_ne, lookup_insert_eq. }
    intros [St Size'] s5 [(Ek' & _)|(v' & Ek' & [(_ & -> & Hlt' & _)|(-> & tl & Htl & Hv5)])].
    { congruence. } { assert (v' = v) by congruence. subst v'. lia. }
    assert (v' = v) by congruence. subst v'. cbn [fst]. wp_steps.
    rewrite insert_insert_eq in Hv5. rewrite (insert_insert_ne _ g m) in Hv5 by congruence.
    rewrite insert_insert_eq in Hv5.
    eexists _, _, _. split; [exact Hv5|]. split; [|by exists v, tl].
    exists m, D. cbn. split_and!; try done; apply (vo_guid v). eapply Forall_lookup_1; [exact Hok|exact Ek].
  - change (EFI_SUCCESS =? EFI_BUFFER_TOO_SMALL) with false. cbn iota. wp_steps.
    change (EFI_ERROR EFI_SUCCESS) with false. cbn iota.
    destruct (Hupd n (v_name v ++ tl) (v_guid v)) as [E5|]; [|done]. rewrite HO, E5 in Hv1.
    eexists _, _, _. split; [exact Hv1|]. split; [|by exists v, tl].
    exists n, D. split_and!; try done; [lia|]. apply (vo_guid v). eapply Forall_lookup_1; [exact Hok|exact Ek].
Qed.

Lemma GetVariable_spec h s c O X S n g tl v size d :
  view h s c O X S -> O !! n = Some (v_name v ++ tl) -> O !! g = Some (v_guid v) -> v ∈ sys -> var_ok v ->
  (match d with Some d => exists dd, O !! d = Some dd /\ len dd = size | None => size = 0 end) -> v_data v <> [] ->
  wp (GetVariable (Some n) g size d) (fun '(Status, Attributes, Size) s' => Size = len (v_data v) /\
    ((Status = EFI_BUFFER_TOO_SMALL /\ size < len (v_data v) /\ view h s' c O X S) \/
     (Status = EFI_SUCCESS /\ Attributes = v_attrs v /\ exists d' tl', d = Some d' /\
        len (v_data v ++ tl') = size /\ view h s' c (<[d' := v_data v ++ tl']> O) X S))) s.
Proof.
  intros Hv Hn Hg Hin Hok Hd Hne. unfold GetVariable. wp_step. rewrite wp_deref. exists n. split; [done|].
  destruct (view_lookup _ _ _ _ _ _ _ _ Hv Hn) as [Hn' _].
  assert (wp (StrSizeAt (n, 0)) (fun k s' => k = len (v_name v) /\ s' = s) s) as Hstr.
  { unfold StrSizeAt. wp_steps. rewrite wp_deref. cbn. eexists. split; [exact Hn'|]. rewrite wp_deref.
    exists (len (v_name v)). split; [apply StrSize_app, Hok|done]. }
  wp_step. eapply wp_mono; [exact Hstr|]. intros k s' [-> ->].
  wp_step. eapply wp_o_read; [exact Hv|by eapply reads_prefix|done|].
  wp_step. eapply wp_o_read; [exact Hv|by apply reads_block|by rewrite (vo_guid v Hok)|].
  wp_step. eapply wp_o_call; [exact Hv|]. intros w Hv' ->.
  destruct (Z.le_gt_cases (len (v_data v)) size) as [Hle|Hgt].
  - destruct (get_some v size (Env s) Hin Hle) as [w' Ew]. rewrite Ew in *. cbn [fst snd] in *.
    change (EFI_ERROR EFI_SUCCESS) with false. cbn iota.
    assert (0 < len (v_data v)) by (destruct (v_data v); [done|cbn; lia]).
    destruct d as [d|]; [|lia]. destruct Hd as (dd & HOd & Hl). wp_step. wp_step. rewrite wp_deref. exists d.
    split; [done|]. eapply wp_o_write; [exact Hv'|exact HOd|lia|]. intros s1 Hv1. wp_steps. split; [done|]. right.
    split; [done|]. split; [done|]. exists d. eexists. split; [done|]. split; [|exact Hv1].
    rewrite length_app, length_drop. lia.
  - destruct (get_small v size (Env s) Hin Hgt) as (a & x & w' & Ew). rewrite Ew in *. cbn [fst snd] in *.
    change (EFI_ERROR EFI_BUFFER_TOO_SMALL) with true. cbn iota. wp_steps. split; [done|]. left. split; [done|].
    split; [lia|done].
Qed.

Lemma CurrentData_spec h s c O X S B g H0 tl v :
  view h s c O X S -> held B g H0 O (v_name v ++ tl) (v_guid v) -> v ∈ sys -> var_ok v -> v_data v <> [] ->
  wp (CurrentData g B) (fun '(x, B') s' => exists O',
    view h s' c O' X S /\ held B' g H0 O' (v_name v ++ tl) (v_guid v) /\
    match x with
    | inl Status => Status = EFI_OUT_OF_RESOURCES /\ alloc_fails
    | inr (Attributes, Size) => Attributes = v_attrs v /\ Size = len (v_data v) /\
        exists d tl', b_Data B' = Some d /\ O' !! d = Some (v_data v ++ tl')
    end) s.
Proof.
  intros Hv (n & D & Hn & Hlen & H16 & Hne & HDn & HDg & Hdata & HO) Hin Hok Hnd.
  assert (O !! n = Some (v_name v ++ tl)) as HOn by (rewrite HO; apply lookup_insert_eq).
  assert (O !! g = Some (v_guid v)) as HOg by (rewrite HO, lookup_insert_ne, lookup_insert_eq; done).
  assert (0 < len (v_data v)) as Hpos by (destruct (v_data v); [done|cbn; lia]).
  unfold CurrentData. rewrite Hn. wp_step. eapply wp_mono.
  { eapply (GetVariable_spec h s c O X S n g tl v); try done.
    unfold data_held in Hdata. destruct (b_Data B) as [d|]; [|tauto]. destruct Hdata as (dd & -> & Hl & _ & Hd).
    exists dd. split; [|done]. rewrite HO, !lookup_insert_ne by (intros ->; rewrite lookup_insert_eq in *; done).
    apply lookup_insert_eq. }
  intros [[St A] Size] s1 [-> [(-> & Hlt & Hv1)|(-> & -> & d & tl' & Ed & Hl & Hv1)]]; cbn beta iota.
  2:{ change (EFI_SUCCESS =? EFI_BUFFER_TOO_SMALL) with false. cbn iota. wp_steps.
    change (EFI_ERROR EFI_SUCCESS) with false. cbn iota. unfold data_held in Hdata. rewrite Ed in Hdata.
    destruct Hdata as (dd & -> & Hl' & Hnz & Hd0).
    assert (n <> d /\ g <> d) as [Hnd' Hgd'] by (split; intros ->; rewrite lookup_insert_eq in *; done).
    eexists. split; [exact Hv1|]. split; [|split; [done|]; split; [done|]; exists d, tl'; split; [done|apply lookup_insert_eq]].
    exists n, (<[d := v_data v ++ tl']> H0). rewrite lookup_insert_ne in HDn, HDg by done. split_and!; try done.
    - by rewrite lookup_insert_ne. - by rewrite lookup_insert_ne.
    - unfold data_held. rewrite Ed. eauto 10.
    - rewrite HO. rewrite (insert_insert_ne _ d n), (insert_insert_ne _ d g) by congruence. by rewrite insert_insert_eq. }
  rewrite Z.eqb_refl. wp_step.
  (* the old data buffer is released *)
  assert (H0 !! n = None /\ H0 !! g = None) as [HHn HHg].
  { unfold data_held in Hdata. destruct (b_Data B) as [d|]; [|by destruct Hdata as [_ <-]].
    destruct Hdata as (dd & -> & _). rewrite !lookup_insert_None in HDn, HDg. tauto. }
  assert (wp (if negb (b_DataSize B =? 0) then d ← deref (b_Data B); FreePool d else mret tt)
    (fun _ s' => view h s' c (<[n := v_name v ++ tl]> (<[g := v_guid v]> H0)) X S) s1) as Hfree.
  { unfold data_held in Hdata. destruct (b_Data B) as [d|].
    - destruct Hdata as (dd & ED & Hl' & Hnz & Hd0). apply Z.eqb_neq in Hnz. rewrite Hnz. cbn [negb]. wp_step.
      rewrite wp_deref. exists d. split; [done|]. subst D. rewrite !lookup_insert_None in HDn, HDg.
      assert (n <> d /\ g <> d) as [Hnd' Hgd'] by (split; intros ->; tauto).
      eapply wp_o_free; [exact Hv1|rewrite HO, !lookup_insert_ne, lookup_insert_eq by done; eauto|].
      intros s2 Hv2. rewrite HO, !delete_insert_ne in Hv2 by done. by rewrite delete_insert_id in Hv2.
    - destruct Hdata as [-> ->]. cbn [negb]. wp_steps. by rewrite <-HO. }
  eapply wp_mono; [exact Hfree|]. intros [] s2 Hv2. set (O2 := <[n := v_name v ++ tl]> (<[g := v_guid v]> H0)) in Hv2.
  wp_step. eapply wp_o_alloc; [lia|exact Hv2| |].
  { intros s3 Hf Hv3. wp_steps. exists O2. split; [done|]. split; [|done]. exists n, H0. cbn. split_and!; try done.
    by destruct (Z.eqb_spec (b_DataSize B) 0). }
  intros s3 d bs Hd Hbs Hv3. assert (n <> d /\ g <> d) as [Hnd' Hgd'].
  { unfold O2 in Hd. split; intros ->; [by rewrite lookup_insert_eq in Hd|].
    by rewrite lookup_insert_ne, lookup_insert_eq in Hd. }
  assert (H0 !! d = None) as HHd by (unfold O2 in Hd; by rewrite !lookup_insert_ne in Hd).
  cbn [b_Name]. wp_step. eapply wp_mono.
  { eapply (GetVariable_spec h s3 c _ X S n g tl v _ (Some d)); [exact Hv3|..]; try done.
    - rewrite lookup_insert_ne by done. apply lookup_insert_eq.
    - rewrite lookup_insert_ne by done. unfold O2. by rewrite lookup_insert_ne, lookup_insert_eq.
    - exists bs. split; [apply lookup_insert_eq|done]. }
  intros [[St A'] Size] s4 [-> [(-> & Hlt' & _)|(-> & -> & d' & tl' & [= <-] & Hl & Hv4)]]; [lia|].
  wp_steps. change (EFI_ERROR EFI_SUCCESS) with false. cbn iota. rewrite insert_insert_eq in Hv4.
  eexists. split; [exact Hv4|]. split; [|split; [done|]; split; [done|]; exists d, tl'; split; [done|apply lookup_insert_eq]].
  exists n, (<[d := v_data v ++ tl']> H0). cbn. split_and!; try done.
  - by rewrite lookup_insert_ne. - by rewrite lookup_insert_ne.
  - unfold data_held. cbn. exists (v_data v ++ tl'). split_and!; try done; lia.
  - unfold O2. by rewrite (insert_insert_ne _ d n), (insert_insert_ne _ d g) by congruence.
Qed.

(** ** All variables *)
Context (sys_ok : Forall (fun v => var_ok v /\ v_data v <> []) sys).

Lemma sys_vars_ok : Forall var_ok sys.
Proof using sys_ok. eapply Forall_impl; [exact sys_ok|]. by intros v [Hv _]. Qed.

Lemma SystemLoop_spec h X S H0 g c :
  len c + len (packs sys) <= 2 ^ 62 -> forall j k s O B content guid,
  (k + j = length sys)%nat -> view h s (c ++ packs (take k sys)) O X S ->
  held B g H0 O content guid -> cursor sys content guid k ->
  wp (SystemLoop (1 + j) (IterateVariablesCallbackSetInInstance h) g B) (fun '(Status, B') s' =>
    exists O' content' guid' done, held B' g H0 O' content' guid' /\ view h s' (c ++ packs done) O' X S /\
    ((Status = EFI_SUCCESS /\ done = sys) \/
     (Status = EFI_OUT_OF_RESOURCES /\ alloc_fails /\ exists todo, sys = done ++ todo))) s.
Proof using All.
  intros Hmax. induction j as [|j IH]; intros k s O B content guid Hk Hv Hh Hc; cbn [Nat.add SystemLoop].
  all: wp_step; (eapply wp_mono; [apply (NextName_spec h s _ O X S B g H0 content guid k Hv Hh sys_vars_ok Hc)|]);
    intros [[St|u] B1] s1 (O1 & content1 & guid1 & Hv1 & Hh1 & Hx); cbn beta iota.
  1,3: wp_steps; exists O1, content1, guid1, (take k sys); (split; [done|]); (split; [done|]);
    destruct Hx as [[-> Ek]|[-> Hf]]; [left|right]; (split; [done|]);
    [apply take_ge; by apply lookup_ge_None|split; [done|]; exists (drop k sys); by rewrite take_drop].
  { destruct Hx as (v & tl & Ek & _). apply lookup_lt_Some in Ek. lia. }
  destruct Hx as (v & tl & Ek & -> & ->).
  assert (v ∈ sys) as Hin by (by eapply list_elem_of_lookup_2).
  destruct (Forall_lookup_1 _ _ _ _ sys_ok Ek) as [Hvok Hnd].
  wp_step. eapply wp_mono; [by eapply CurrentData_spec|].
  intros [[St|[A Size]] B2] s2 (O2 & Hv2 & Hh2 & Hx); cbn beta iota.
  { wp_steps. destruct Hx as [-> Hf]. exists O2. eexists _, _, (take k sys). split; [exact Hh2|]. split; [done|].
    right. split; [done|]. split; [done|]. exists (drop k sys). by rewrite take_drop. }
  destruct Hx as (-> & -> & d & tl' & Ed & HOd). pose proof Hh2 as (n & D & Hn & _ & _ & Hne & _ & HDg & _ & HO).
  rewrite Hn, Ed. cbn [fmap option_fmap option_map]. unfold IterateVariablesCallbackSetInInstance at 1.
  assert (packs (take (1 + k) sys) = packs (take k sys) ++ pack v) as Epk.
  { change (1 + k)%nat with (Datatypes.S k). rewrite (take_S_r _ _ _ Ek). apply packs_snoc. }
  wp_step. eapply wp_mono.
  { eapply (wp_o_add (n, 0) (g, 0) (d, 0) v h); [exact Hv2|done|..].
    - apply (reads_prefix _ _ _ tl). rewrite HO. apply lookup_insert_eq.
    - apply reads_block. by rewrite HO, lookup_insert_ne, lookup_insert_eq.
    - by eapply reads_prefix.
    - assert (packs sys = packs (take (1 + k) sys) ++ packs (drop (1 + k) sys)) as Ep by (by rewrite <-packs_app, take_drop).
      rewrite Ep, Epk, !length_app in Hmax. rewrite length_app. lia. }
  intros St s3 [(-> & Hf & Hv3)|[-> Hv3]].
  - change (EFI_ERROR EFI_OUT_OF_RESOURCES) with true. cbn iota. wp_steps. exists O2. eexists _, _, (take k sys).
    split; [exact Hh2|]. split; [done|]. right. split; [done|]. split; [done|]. exists (drop k sys). by rewrite take_drop.
  - change (EFI_ERROR EFI_SUCCESS) with false. cbn iota. eapply (IH (1 + k)%nat).
    + lia.
    + rewrite Epk, (assoc_L (++)). exact Hv3.
    + exact Hh2.
    + cbn. exists v, tl. done.
Qed.

Lemma IterateSystemVariables_spec h s c O X S :
  view h s c O X S -> len c + len (packs sys) <= 2 ^ 62 ->
  wp (SerializeVariablesIterateSystemVariables (1 + length sys) (IterateVariablesCallbackSetInInstance h))
    (fun Status s' => exists done todo, sys = done ++ todo /\ view h s' (c ++ packs done) O X S /\
      ((Status = EFI_SUCCESS /\ todo = []) \/ (EFI_ERROR Status = true /\ alloc_fails))) s.
Proof using All.
  intros Hv Hmax. unfold SerializeVariablesIterateSystemVariables. wp_step. eapply wp_o_alloc; [lia|exact Hv|..].
  - intros s1 Hf Hv1. wp_step. wp_step. wp_step. eapply wp_o_local; [exact Hv1|]. intros s2 g Hg Hv2. wp_step.
    assert (wp (SystemLoop (1 + length sys) (IterateVariablesCallbackSetInInstance h) g (mkBuffers None 2 None 0))
      (fun r s' => r = (EFI_INVALID_PARAMETER, mkBuffers None 2 None 0) /\ view h s' c (<[g := replicate 16 0]> O) X S) s2) as Hl.
    { cbn [Nat.add SystemLoop]. wp_step. unfold NextName, GetNextVariableName. cbn [b_Name b_NameSize]. wp_steps.
      eapply wp_o_read; [exact Hv2|apply reads_block, lookup_insert_eq|done|]. wp_step.
      eapply wp_o_call; [exact Hv2|]. intros w Hv3 ->.
      destruct (next_null 2 (replicate 16 0) (Env s2)) as (m & x & y & w' & Ew). rewrite Ew in *. cbn [fst snd] in *.
      change (EFI_ERROR EFI_INVALID_PARAMETER) with true. cbn iota. wp_steps.
      change (EFI_INVALID_PARAMETER =? EFI_BUFFER_TOO_SMALL) with false. cbn iota.
      change (EFI_ERROR EFI_INVALID_PARAMETER) with true. cbn iota. by wp_steps. }
    eapply wp_mono; [exact Hl|]. intros r s3 [-> Hv3]. cbn [b_Name b_Data]. wp_steps.
    eapply wp_o_free; [exact Hv3|rewrite lookup_insert_eq; eauto|]. intros s4 Hv4. wp_steps.
    rewrite delete_insert_id in Hv4 by done. exists [], sys. split; [done|]. split; [by rewrite app_nil_r|]. by right.
  - intros s1 n bs Hn Hbs Hv1. wp_step. eapply wp_o_write; [exact Hv1|apply lookup_insert_eq|cbn; lia|].
    intros s2 Hv2. rewrite insert_insert_eq in Hv2. assert (length bs = 2%nat) as Hb2 by lia.
    assert (drop (length [0; 0]) bs = []) as Hd by (apply drop_ge; cbn; lia). rewrite Hd, app_nil_r in Hv2.
    wp_step. eapply wp_o_local; [exact Hv2|]. intros s3 g Hg Hv3.
    assert (n <> g) as Hne by (intros ->; by rewrite lookup_insert_eq in Hg). rewrite lookup_insert_ne in Hg by done.
    rewrite insert_insert_ne in Hv3 by done.
    wp_step. eapply wp_mono.
    { eapply (SystemLoop_spec h X S O g c Hmax (length sys) 0 s3 _ _ [0; 0] (replicate 16 0)); [done|rewrite app_nil_r; exact Hv3| |].
      - exists n, O. cbn. split_and!; try done.
      - by exists []. }
    intros [St B] s4 (O' & content & guid & done & (n' & D & En & _ & _ & Hne' & HDn & HDg & Hdata & HO) & Hv4 & Hcase).
    cbn beta iota. rewrite En. wp_step. subst O'.
    eapply wp_o_free; [exact Hv4|rewrite lookup_insert_eq; eauto|]. intros s5 Hv5.
    rewrite delete_insert_id in Hv5 by (by rewrite lookup_insert_ne).
    assert (forall s6, view h s6 (c ++ packs done) (<[g := guid]> O) X S ->
      wp (FreePool g;; mret St) (fun Status s' => exists done todo, sys = done ++ todo /\ view h s' (c ++ packs done) O X S /\
        ((Status = EFI_SUCCESS /\ todo = []) \/ (EFI_ERROR Status = true /\ alloc_fails))) s6) as Hfin.
    { intros s6 Hv6. wp_step. eapply wp_o_free; [exact Hv6|rewrite lookup_insert_eq; eauto|]. intros s7 Hv7.
      rewrite delete_insert_id in Hv7 by done. wp_steps. destruct Hcase as [[-> ->]|(-> & Hf & todo & Et)].
      - exists sys, []. split; [by rewrite app_nil_r|]. auto.
      - exists done, todo. auto. }
    wp_step. unfold data_held in Hdata. destruct (b_Data B) as [d|].
    + destruct Hdata as (dd & -> & _ & _ & Hd0). rewrite !lookup_insert_None in HDn, HDg.
      assert (g <> d) as Hgd by (intros ->; tauto).
      eapply wp_o_free; [exact Hv5|rewrite lookup_insert_ne, lookup_insert_eq by done; eauto|]. intros s6 Hv6.
      apply Hfin. rewrite delete_insert_ne, delete_insert_id in Hv6 by done. exact Hv6.
    + destruct Hdata as [_ ->]. wp_step. by apply Hfin.
Qed.
End System.
