(* ===== verification/SerializeVarsClaims.v ===== *)
(** * SerializeVariablesLib: the properties, and a concrete system *)
From S2P Require Import Prelude Bytes SerializeVars SerializeVarsProofs SerializeVarsSystem.

(** What SetSerializedVariables tolerates. *)
Definition tolerated (v : variable) (r : EFI_STATUS) : bool :=
  negb (EFI_ERROR r)
  || (r =? EFI_SECURITY_VIOLATION) && negb (Z.land (v_attrs v) AuthMask =? 0)
  || (r =? EFI_WRITE_PROTECTED).

Section Callbacks.
Context {W : Type} {E : SvEnv W} {L : SvEnvLaws W}.
Implicit Types s : st (W:=W).

Definition worlds s s' : Prop := exists w, s' = set_env w s.

(** Some allocation fails, of a block or of an instance. *)
Definition no_memory : Prop := alloc_fails \/ exists i w w', sv_AllocateInstance i w = (None, w').

Lemma wp_sv_inst (Q : EFI_STATUS * handle -> st -> Prop) s :
  (forall w, no_memory -> Q (EFI_OUT_OF_RESOURCES, 0) (set_env w s)) ->
  (forall w h, Insts s !! h = None ->
     Q (EFI_SUCCESS, h) (set_insts (<[h := mkSv SV_SIGNATURE None 0 0]> (Insts s)) (set_env w s))) ->
  wp SerializeVariablesNewInstance Q s.
Proof.
  intros HN HS. unfold SerializeVariablesNewInstance. wp_steps. rewrite wp_sv_call.
  destruct (sv_AllocateInstance (Insts s) (Env s)) as [[h|] w] eqn:EI; unfold store; wp_steps; [|apply HN; right; eauto].
  apply HS. by eapply sv_inst_fresh.
Qed.

Lemma FreeInstance_spec h c rest s :
  rep s h c rest ->
  wp (SerializeVariablesFreeInstance h) (fun Status s' => Status = EFI_SUCCESS /\
    Heap s' = outside s h /\ Insts s' = delete h (Insts s) /\ Sets s' = Sets s) s.
Proof.
  intros (i & Hi & Hsig & Hd & Hb & H64 & Hbuf). unfold SerializeVariablesFreeInstance, store. wp_step.
  eapply wp_SV_FROM_HANDLE; [done..|]. rewrite Hsig, Z.eqb_refl. cbn [negb]. wp_step. wp_step. wp_step.
  unfold outside, own. rewrite Hi. cbn. destruct (BufferPtr i) as [b|].
  - apply wp_FreePool_sv; [eauto|]. wp_steps. cbn. by rewrite delete_insert_eq.
  - wp_steps. cbn. by rewrite delete_insert_eq.
Qed.

(** *** IterateVariablesCallbackNop *)
Lemma Nop_spec blk vs post s :
  Forall var_ok vs -> len (packs vs) < 2 ^ 62 -> Heap s !! blk = Some (packs vs ++ post) ->
  wp (IterateVariablesInBuffer IterateVariablesCallbackNop (blk, 0) (len (packs vs))) (fun Status s' =>
    worlds s s' /\ (Status = EFI_SUCCESS \/ (Status = EFI_OUT_OF_RESOURCES /\ alloc_fails))) s.
Proof.
  intros Hvs Hlen Hblk. eapply wp_mono.
  - apply (IterateVariablesInBuffer_spec IterateVariablesCallbackNop blk vs Hvs Hlen
      (fun _ s' => worlds s s') (fun _ _ _ => False)).
    + intros done s' w [w' ->]. by exists w.
    + intros done s' [w' ->]. by exists post.
    + intros done v todo s' a Hv Ha HI u Hp. unfold IterateVariablesCallbackNop. wp_steps. split; [by exists (v_name v)|done].
    + exists (Env s). by destruct s.
  - intros St s' [[-> H]|[(-> & Hf & d & t & _ & _ & H)|(d & v & t & _ & [] & _)]]; auto.
Qed.

(** *** IterateVariablesCallbackSetInInstance *)
Lemma rep_lookup s h c rest b bs a :
  rep s h c rest -> outside s h !! b = Some bs -> own s h = Some a -> a <> b.
Proof. intros _ H Ho ->. by apply outside_sub in H as [_ ?]. Qed.

(** Adding a block next to an instance, and removing it. *)
Lemma rep_aligned s h c rest a : rep (aligned (Some a) s) h c rest -> is_Some (Heap s !! a) -> rep s h c rest.
Proof.
  intros (i & Hi & Hsig & Hd & Hb & H64 & Hbuf) _. exists i. split_and!; try done.
  destruct (BufferPtr i); [|done]. cbn in Hbuf. apply lookup_delete_Some in Hbuf. tauto.
Qed.
Lemma own_aligned s h c rest a : rep (aligned (Some a) s) h c rest -> own s h <> Some a.
Proof.
  intros (i & Hi & Hsig & Hd & Hb & H64 & Hbuf) Ho. unfold own in Ho. cbn in Hi. rewrite Hi in Ho. cbn in Ho.
  rewrite Ho in Hbuf. cbn in Hbuf. by rewrite lookup_delete_eq in Hbuf.
Qed.
Lemma outside_aligned s h a : outside (aligned (Some a) s) h = delete a (outside s h).
Proof.
  unfold outside. change (own (aligned (Some a) s) h) with (own s h). destruct (own s h); [|done]. cbn.
  by rewrite delete_delete.
Qed.
Lemma outside_lookup s h b bs : Heap s !! b = Some bs -> own s h <> Some b -> outside s h !! b = Some bs.
Proof. intros Hb Ho. unfold outside. destruct (own s h); [|done]. rewrite lookup_delete_ne; [done|congruence]. Qed.
Lemma aligned_rep s h c rest a :
  rep s h c rest -> own s h <> Some a -> rep (aligned (Some a) s) h c rest.
Proof.
  intros (i & Hi & Hsig & Hd & Hb & H64 & Hbuf) Ho. exists i. split_and!; try done. unfold own in Ho. rewrite Hi in Ho.
  cbn in Ho. destruct (BufferPtr i); [|done]. cbn. rewrite lookup_delete_ne; [done|congruence].
Qed.

Lemma SetInInstance_callback h blk v o a c rest s s1 :
  var_ok v -> len c + len (pack v) <= 2 ^ 62 ->
  Heap s !! a = Some (v_name v) -> rep (aligned (Some a) s) h c rest -> only h s1 (aligned (Some a) s) ->
  is_Some (outside s1 h !! blk) -> packed_at (Heap (aligned (Some a) s)) blk o v ->
  let u := unpack_of blk o v in
  wp (IterateVariablesCallbackSetInInstance h (Some (a, 0)) (Some (u_Guid u)) (u_Attributes u) (u_DataSize u) (Some (u_Data u)))
    (fun Status s' => owned (Some a) s' /\ only h s1 (aligned (Some a) s') /\
      ((Status = EFI_OUT_OF_RESOURCES /\ alloc_fails /\ rep (aligned (Some a) s') h c rest) \/
       (Status = EFI_SUCCESS /\ exists rest', rep (aligned (Some a) s') h (c ++ pack v) rest'))) s.
Proof.
  intros Hv Hmax Ha Hrep Honly [bs Hblk] Hp u. pose proof (own_aligned _ _ _ _ _ Hrep) as Hown.
  pose proof (outside_lookup _ _ _ _ Ha Hown) as Hao.
  assert (forall k x, reads (Heap (aligned (Some a) s)) (blk, k) x -> reads (outside s h) (blk, k) x) as Hr.
  { intros k x (b & H1 & H2). exists b. split; [|done].
    rewrite <-(only_outside _ _ _ Honly), outside_aligned in Hblk.
    apply lookup_delete_Some in Hblk as [_ Hblk']. apply outside_sub in Hblk' as [_ Hne].
    cbn in H1 |- *. apply lookup_delete_Some in H1 as [_ H1]. by apply outside_lookup. }
  destruct Hp as [P1 P2 P3 P4 P5 P6].
  unfold IterateVariablesCallbackSetInInstance, u, unpack_of. cbn [u_Guid u_Attributes u_DataSize u_Data].
  eapply wp_mono; [apply (AddVariable_spec h _ _ _ v c rest); [by eapply rep_aligned|done| |done]|].
  { split; [|by apply Hr..]. exists (v_name v). cbn. split; [done|]. split; [by apply in_block_all|by apply slice_all]. }
  intros St s' [Ho Hcase].
  assert (outside s' h !! a = Some (v_name v)) as Ha' by (by rewrite (only_outside _ _ _ Ho)).
  apply outside_sub in Ha' as [Ha' Hown'].
  split; [by exists (v_name v)|]. split.
  { destruct Ho as [Ho1 Ho2 Ho3], Honly as [Hn1 Hn2 Hn3]. rewrite outside_aligned in Hn1. split.
    - by rewrite outside_aligned, Ho1.
    - cbn in *. by rewrite Ho2.
    - cbn in *. by rewrite Ho3. }
  destruct Hcase as [(-> & Hf & H)|[-> (rest' & H)]].
  - left. split; [done|]. split; [done|]. by apply aligned_rep.
  - right. split; [done|]. exists rest'. by apply aligned_rep.
Qed.

Lemma SetInInstance_spec h blk vs post rest s :
  Forall var_ok vs -> len (packs vs) < 2 ^ 62 -> rep s h [] rest -> outside s h !! blk = Some (packs vs ++ post) ->
  wp (IterateVariablesInBuffer (IterateVariablesCallbackSetInInstance h) (blk, 0) (len (packs vs)))
    (fun Status s' => only h s s' /\
      ((Status = EFI_SUCCESS /\ exists rest', rep s' h (packs vs) rest') \/
       (alloc_fails /\ exists done v todo rest', vs = done ++ v :: todo /\ rep s' h (packs done) rest' /\
         (EFI_ERROR Status = true \/ todo = [] /\ Status = EFI_SUCCESS)))) s.
Proof.
  intros Hvs Hlen Hrep Hblk.
  set (I := fun (done : list variable) (s' : st (W:=W)) => only h s s' /\ exists rest', rep s' h (packs done) rest').
  eapply wp_mono.
  - apply (IterateVariablesInBuffer_spec _ blk vs Hvs Hlen I (fun done v s' => alloc_fails /\ I done s')).
    + intros done s' w [Ho Hr]. split; [by eapply only_trans; [|apply only_env]|done].
    + intros done s' [Ho Hr]. exists post. rewrite <-(only_outside _ _ _ Ho) in Hblk. by apply outside_sub in Hblk as [? _].
    + intros done v todo s' a Hv Ha [Ho [rest' Hr]] u Hp.
      assert (var_ok v) as Hvok by (rewrite Hv, Forall_app, Forall_cons in Hvs; tauto).
      assert (len (packs vs) = len (packs done) + len (pack v) + len (packs todo)) as Hl.
      { rewrite Hv, packs_app, packs_cons, !length_app. lia. }
      eapply wp_mono.
      * apply (SetInInstance_callback h blk v (len (packs done)) a (packs done) rest' s' s); [done|lia|done|exact Hr|exact Ho|by rewrite Hblk|done].
      * intros St s'' (Hown & Ho' & [(-> & Hf & H)|(-> & rest'' & H)]); (split; [done|]).
        -- split; [done|]. split; [done|]. eauto.
        -- split; [done|]. exists rest''. by rewrite packs_snoc.
    + split; [apply only_refl|]. by exists rest.
  - intros St s' [(-> & Ho & Hr)|[(-> & Hf & d & t & Hv & Ht & Ho & [r Hr])|(d & v & t & Hv & (Hf & Ho & [r Hr]) & HS)]];
      (split; [done|]); [by left|right; split; [done|]..].
    + destruct t as [|v t]; [done|]. exists d, v, t, r. split; [done|]. split; [done|]. by left.
    + exists d, v, t, r. split; [done|]. split; [done|]. destruct t; [right|left]; subst St; done.
Qed.

(** *** IterateVariablesCallbackSetSystemVariable *)
Definition answers (done : list variable) (rs : list EFI_STATUS) : Prop :=
  Forall2 (fun v r => tolerated v r = true) done rs.

(** After the calls [calls] of SetVariable. *)
Definition after_calls (calls : list (variable * EFI_STATUS)) s s' : Prop :=
  exists w, s' = mkSt w (Heap s) (Insts s) (Sets s ++ calls).

Lemma reads_aligned s a p bs : reads (Heap (aligned (Some a) s)) p bs -> reads (Heap s) p bs.
Proof. intros (b & H1 & H2). exists b. split; [|done]. cbn in H1. apply lookup_delete_Some in H1. tauto. Qed.

Lemma callback_status v r :
  EFI_ERROR (if (r =? EFI_SECURITY_VIOLATION) && negb (Z.land (v_attrs v) AuthMask =? 0) then EFI_SUCCESS
             else if r =? EFI_WRITE_PROTECTED then EFI_SUCCESS else r) = negb (tolerated v r).
Proof.
  unfold tolerated. destruct ((r =? EFI_SECURITY_VIOLATION) && _) eqn:E1; [by rewrite orb_true_r|].
  destruct (r =? EFI_WRITE_PROTECTED) eqn:E2; [by rewrite orb_true_r|]. by rewrite !orb_false_r, negb_involutive.
Qed.

Lemma SetSystem_callback blk o v a s :
  var_ok v -> Heap s !! a = Some (v_name v) -> packed_at (Heap (aligned (Some a) s)) blk o v ->
  let u := unpack_of blk o v in
  wp (IterateVariablesCallbackSetSystemVariable (Some (a, 0)) (Some (u_Guid u)) (u_Attributes u) (u_DataSize u) (Some (u_Data u)))
    (fun Status s' => exists r, EFI_ERROR Status = negb (tolerated v r) /\ after_calls [(v, r)] s s') s.
Proof.
  intros Hv Ha [P1 P2 P3 P4 P5 P6] u. unfold IterateVariablesCallbackSetSystemVariable, SetVariable, u, unpack_of.
  cbn [u_Guid u_Attributes u_DataSize u_Data]. wp_step. do 3 (wp_step; rewrite wp_deref; eexists; split; [reflexivity|]).
  assert (wp (StrSizeAt (a, 0)) (fun n s' => n = len (v_name v) /\ s' = s) s) as Hstr.
  { unfold StrSizeAt. wp_steps. rewrite wp_deref. cbn. exists (v_name v). split; [done|]. rewrite wp_deref.
    exists (len (v_name v)). split; [apply Hv|done]. }
  wp_step. eapply wp_mono; [exact Hstr|]. intros n s' [-> ->].
  wp_step. apply (wp_read _ _ (v_name v)); [done|by apply in_block_all|].
  cbn [snd]. rewrite slice_all by done.
  wp_step. eapply wp_reads; [by eapply reads_aligned|by rewrite (vo_guid v Hv)|].
  wp_step. eapply wp_reads; [by eapply reads_aligned|done|].
  wp_step. rewrite wp_sv_call. destruct (rt_SetVariable _ _ _ _ _) as [r w]. wp_steps.
  exists r. split; [apply callback_status|]. exists w. unfold log_set, set_env. cbn. by destruct v.
Qed.

Lemma SetSystem_spec blk vs post s :
  Forall var_ok vs -> len (packs vs) < 2 ^ 62 -> Heap s !! blk = Some (packs vs ++ post) ->
  wp (IterateVariablesInBuffer IterateVariablesCallbackSetSystemVariable (blk, 0) (len (packs vs)))
    (fun Status s' =>
      (Status = EFI_SUCCESS /\ exists rs, answers vs rs /\ after_calls (zip vs rs) s s') \/
      (Status = EFI_OUT_OF_RESOURCES /\ alloc_fails /\ exists done todo rs, vs = done ++ todo /\ todo <> [] /\
        answers done rs /\ after_calls (zip done rs) s s') \/
      (exists done v todo rs r, vs = done ++ v :: todo /\ answers done rs /\ tolerated v r = false /\
        after_calls (zip done rs ++ [(v, r)]) s s' /\
        Status = match todo with [] => EFI_SUCCESS | _ => EFI_INVALID_PARAMETER end)) s.
Proof.
  intros Hvs Hlen Hblk. eapply wp_mono.
  - apply (IterateVariablesInBuffer_spec _ blk vs Hvs Hlen
      (fun done s' => exists rs, answers done rs /\ after_calls (zip done rs) s s')
      (fun done v s' => exists rs r, answers done rs /\ tolerated v r = false /\ after_calls (zip done rs ++ [(v, r)]) s s')).
    + intros done s' w (rs & Hrs & [w' ->]). exists rs. split; [done|]. by exists w.
    + intros done s' (rs & Hrs & [w' ->]). by exists post.
    + intros done v todo s' a Hv Ha (rs & Hrs & [w Hs']) u Hp.
      assert (var_ok v) as Hvok by (rewrite Hv, Forall_app, Forall_cons in Hvs; tauto).
      eapply wp_mono; [by apply SetSystem_callback|]. intros St s'' (r & -> & [w' ->]). split; [by exists (v_name v)|].
      assert (length done = length rs) as Hlr by (by eapply Forall2_length).
      injection Hs' as _ Hh Hi Hse. destruct (tolerated v r) eqn:Ht; cbn [negb].
      * exists (rs ++ [r]). split; [by apply Forall2_app, Forall2_cons|]. exists w'. rewrite zip_with_app by done.
        cbn. unfold set_heap. cbn. by rewrite Hh, Hi, Hse, (assoc_L (++)).
      * exists rs, r. split; [done|]. split; [done|]. exists w'. cbn. unfold set_heap. cbn.
        by rewrite Hh, Hi, Hse, (assoc_L (++)).
    + exists []. split; [by constructor|]. exists (Env s). destruct s. cbn. by rewrite app_nil_r.
  - intros St s' [(-> & rs & H)|[(-> & Hf & d & t & Hv & Ht & rs & H)|(d & v & t & Hv & (rs & r & H1 & H2 & H3) & HS)]].
    + eauto.
    + right. left. eauto 10.
    + right. right. eauto 12.
Qed.

(** *** NewInstanceFromBuffer, ToBuffer, SetSerializedVariables *)
Lemma NewInstanceFromBuffer_spec blk vs post s :
  Forall var_ok vs -> len (packs vs) < 2 ^ 62 -> Heap s !! blk = Some (packs vs ++ post) ->
  wp (SerializeVariablesNewInstanceFromBuffer (blk, 0) (len (packs vs))) (fun '(Status, h) s' => Sets s' = Sets s /\
    ((EFI_ERROR Status = true /\ no_memory /\ Heap s' = Heap s /\ Insts s' = Insts s) \/
     (Status = EFI_SUCCESS /\ Insts s !! h = None /\ outside s' h = Heap s /\ delete h (Insts s') = Insts s /\
      exists vs' rest, rep s' h (packs vs') rest /\ (vs' = vs \/ (alloc_fails /\ exists v, vs = vs' ++ [v]))))) s.
Proof.
  intros Hvs Hlen Hblk. unfold SerializeVariablesNewInstanceFromBuffer. wp_step. apply wp_sv_inst.
  { intros w Hno. cbn beta iota. change (EFI_ERROR EFI_OUT_OF_RESOURCES) with true. cbn iota. wp_steps. split; [done|]. by left. }
  intros w h Hh. cbn beta iota. change (EFI_ERROR EFI_SUCCESS) with false. cbn iota. set (s1 := set_insts _ _).
  assert (rep s1 h [] []) as Hr1.
  { eexists. unfold s1. cbn. rewrite lookup_insert_eq. split; [reflexivity|]. by split_and!. }
  assert (outside s1 h = Heap s) as Ho1 by (unfold outside, own, s1; cbn; by rewrite lookup_insert_eq).
  assert (delete h (Insts s1) = Insts s) as Hi1 by (unfold s1; cbn; by rewrite delete_insert_id).
  assert (Sets s1 = Sets s) as Hs1 by done.
  wp_step. eapply wp_mono; [by apply (Nop_spec blk vs post s1)|].
  intros St s2 [[w2 ->] HS]. destruct HS as [->|[-> Hf]].
  2:{ change (EFI_ERROR EFI_OUT_OF_RESOURCES) with true. cbn iota. wp_step.
      eapply wp_mono; [by apply (FreeInstance_spec h [] [])|]. intros St s3 (_ & H1 & H2 & H3). wp_steps.
      change (outside (set_env w2 s1) h) with (outside s1 h) in H1. cbn [Insts set_env] in H2.
      split; [done|]. left. split; [done|]. split; [by left|]. split; congruence. }
  change (EFI_ERROR EFI_SUCCESS) with false. cbn iota. wp_step. eapply wp_mono.
  { apply (SetInInstance_spec h blk vs post []); [done|done|done|]. change (outside (set_env w2 s1) h) with (outside s1 h). by rewrite Ho1. }
  intros St s3 [[H1 H2 H3] Hcase]. change (outside (set_env w2 s1) h) with (outside s1 h) in H1. cbn [Insts Sets set_env] in H2, H3.
  assert (EFI_ERROR St = true -> alloc_fails -> forall c rest, rep s3 h c rest ->
    wp (_ ← SerializeVariablesFreeInstance h; mret (St, h)) (fun '(Status, h) s' => Sets s' = Sets s /\
      ((EFI_ERROR Status = true /\ no_memory /\ Heap s' = Heap s /\ Insts s' = Insts s) \/
       (Status = EFI_SUCCESS /\ Insts s !! h = None /\ outside s' h = Heap s /\ delete h (Insts s') = Insts s /\
        exists vs' rest, rep s' h (packs vs') rest /\ (vs' = vs \/ (alloc_fails /\ exists v, vs = vs' ++ [v]))))) s3) as Hfree.
  { intros HE Hf c rest Hr. wp_step. eapply wp_mono; [by eapply FreeInstance_spec|]. intros ? s4 (_ & F1 & F2 & F3). wp_steps.
    split; [congruence|]. left. split; [done|]. split; [by left|]. split; congruence. }
  assert (forall vs' rest, rep s3 h (packs vs') rest -> St = EFI_SUCCESS ->
    (vs' = vs \/ (alloc_fails /\ exists v, vs = vs' ++ [v])) ->
    wp (mret (St, h)) (fun '(Status, h) s' => Sets s' = Sets s /\
      ((EFI_ERROR Status = true /\ no_memory /\ Heap s' = Heap s /\ Insts s' = Insts s) \/
       (Status = EFI_SUCCESS /\ Insts s !! h = None /\ outside s' h = Heap s /\ delete h (Insts s') = Insts s /\
        exists vs' rest, rep s' h (packs vs') rest /\ (vs' = vs \/ (alloc_fails /\ exists v, vs = vs' ++ [v]))))) s3) as Hdone.
  { intros vs' rest Hr -> Hvs'. wp_steps. split; [done|]. right. split; [done|]. split; [done|]. split; [congruence|].
    split; [congruence|]. eauto. }
  destruct Hcase as [(-> & rest' & Hr)|(Hf & d & v & t & rest' & Hv & Hr & HS)].
  - change (EFI_ERROR EFI_SUCCESS) with false. cbn iota. by eapply Hdone; eauto.
  - destruct HS as [HE|[-> ->]].
    + rewrite HE. by eapply Hfree.
    + change (EFI_ERROR EFI_SUCCESS) with false. cbn iota. by eapply Hdone; eauto.
Qed.

Lemma ToBuffer_spec h c rest blk old n s :
  rep s h c rest -> outside s h !! blk = Some old -> len c <= n -> n <= len old ->
  wp (SerializeVariablesToBuffer h (Some (blk, 0)) (Some n)) (fun r s' =>
    r = (EFI_SUCCESS, Some (len c)) /\
    s' = set_heap (<[blk := c ++ drop (length c) old]> (Heap s)) s) s.
Proof.
  intros (i & Hi & Hsig & Hd & Hb & H64 & Hbuf) Hblk Hn Hold. unfold SerializeVariablesToBuffer. wp_step.
  eapply wp_SV_FROM_HANDLE; [done..|]. rewrite Hd. destruct (Z.ltb_spec n (len c)); [lia|].
  apply outside_sub in Hblk as [Hblk Hne]. wp_step. destruct (Z.eqb_spec (len c) 0) as [H0|H0].
  - assert (c = []) as -> by (by destruct c). wp_steps. cbn. rewrite insert_id by done. split; [done|]. by destruct s.
  - destruct (BufferPtr i) as [b|] eqn:EB; [|by destruct Hbuf as [-> _]]. wp_step. rewrite wp_deref. exists b. split; [done|].
    wp_step. apply (wp_read _ _ (c ++ rest)); [done|by apply in_block_prefix|]. cbn [snd]. rewrite slice_prefix by done.
    apply (wp_write _ _ old); cbn [fst snd]; [done| |].
    + unfold in_block. rewrite !andb_true_iff, !Z.leb_le. lia.
    + unfold splice. cbn [Z.to_nat take Nat.add app]. by wp_steps.
Qed.

Lemma SetSerialized_spec h vs rest s :
  rep s h (packs vs) rest -> Forall var_ok vs -> len (packs vs) < 2 ^ 62 ->
  wp (SerializeVariablesSetSerializedVariables h) (fun Status s' =>
    (Status = EFI_SUCCESS /\ exists rs, answers vs rs /\ after_calls (zip vs rs) s s') \/
    (Status = EFI_OUT_OF_RESOURCES /\ alloc_fails /\ exists done todo rs, vs = done ++ todo /\ todo <> [] /\
      answers done rs /\ after_calls (zip done rs) s s') \/
    (exists done v todo rs r, vs = done ++ v :: todo /\ answers done rs /\ tolerated v r = false /\
      after_calls (zip done rs ++ [(v, r)]) s s' /\
      Status = match todo with [] => EFI_SUCCESS | _ => EFI_INVALID_PARAMETER end)) s.
Proof.
  intros (i & Hi & Hsig & Hd & Hb & H64 & Hbuf) Hvs Hlen.
  unfold SerializeVariablesSetSerializedVariables, SerializeVariablesIterateInstanceVariables. wp_step.
  eapply wp_SV_FROM_HANDLE; [done..|]. rewrite Hd.
  assert (packs vs = [] -> wp (mret EFI_SUCCESS) (fun Status s' =>
    (Status = EFI_SUCCESS /\ exists rs, answers vs rs /\ after_calls (zip vs rs) s s')) s) as Hempty.
  { intros E0. wp_steps. split; [done|]. exists []. pose proof (packs_length vs Hvs) as Hl. rewrite E0 in Hl.
    destruct vs; [|cbn in Hl; lia]. split; [by constructor|]. exists (Env s). cbn. rewrite app_nil_r. by destruct s. }
  destruct (BufferPtr i) as [b|].
  - destruct (Z.eqb_spec (len (packs vs)) 0) as [H0|H0]; cbn [negb].
    + eapply wp_mono; [apply Hempty; by destruct (packs vs)|]. auto.
    + by eapply SetSystem_spec.
  - destruct Hbuf as [E0 _]. eapply wp_mono; [by apply Hempty|]. auto.
Qed.
End Callbacks.

(** ** The properties *)
Section Claims.
Context {W : Type} {E : SvEnv W} {L : SvEnvLaws W}.
Implicit Types s : st (W:=W).

(** Serialize an instance into a buffer and, from the buffer alone, set the
    variables of the system. *)
Definition SaveAndRestore (h : handle) (Buffer : ptr) (Size : Z) : M (st (W:=W)) EFI_STATUS :=
  r ← SerializeVariablesToBuffer h (Some Buffer) (Some Size);
  if EFI_ERROR r.1 then mret r.1
  else
    r2 ← SerializeVariablesNewInstanceFromBuffer Buffer (default 0 r.2);
    if EFI_ERROR r2.1 then mret r2.1 else SerializeVariablesSetSerializedVariables r2.2.

(** C20: Round trip.  Serializing an instance that holds the variables [vs],
    reading the buffer back into a new instance and setting the serialized
    variables calls SetVariable with exactly [vs], in order, name, vendor,
    attributes and data unchanged, up to the first one that is refused; the
    refusal is reported, except that of the last variable.  Only when an
    allocation fails can there be another error, with a prefix of [vs] set, or
    can the last variable be left out. *)
Theorem sv_roundtrip h vs rest blk old n s :
  rep s h (packs vs) rest -> Forall var_ok vs -> len (packs vs) < 2 ^ 62 ->
  outside s h !! blk = Some old -> len (packs vs) <= n -> n <= len old ->
  wp (SaveAndRestore h (blk, 0) n) (fun Status s' =>
    (EFI_ERROR Status = true /\ no_memory /\ exists done todo rs, vs = done ++ todo /\ answers done rs /\
       Sets s' = Sets s ++ zip done rs) \/
    exists vs', (vs' = vs \/ alloc_fails /\ exists v, vs = vs' ++ [v]) /\
      ((Status = EFI_SUCCESS /\ exists rs, answers vs' rs /\ Sets s' = Sets s ++ zip vs' rs) \/
       (exists done v todo rs r, vs' = done ++ v :: todo /\ answers done rs /\ tolerated v r = false /\
          Sets s' = Sets s ++ zip done rs ++ [(v, r)] /\
          Status = match todo with [] => EFI_SUCCESS | _ => EFI_INVALID_PARAMETER end))) s.
Proof.
  intros Hr Hvs Hlen Hblk Hn Hold. unfold SaveAndRestore. wp_step.
  eapply wp_mono; [by eapply ToBuffer_spec|]. intros r s1 [-> ->]. cbn [fst snd default].
  change (EFI_ERROR EFI_SUCCESS) with false. cbn iota. set (s1 := set_heap _ s). wp_step.
  eapply wp_mono; [apply (NewInstanceFromBuffer_spec blk vs (drop (length (packs vs)) old) s1 Hvs Hlen); cbn; apply lookup_insert_eq|].
  change (Sets s1) with (Sets s).
  intros [St h2] s2 [HS [(HE & Hno & _)|(-> & _ & _ & _ & vs' & rest' & Hr2 & Hvs')]]; cbn [fst snd].
  { rewrite HE. wp_steps. left. split; [done|]. split; [done|]. exists [], vs, []. cbn. rewrite app_nil_r.
    split_and!; try done. by constructor. }
  change (EFI_ERROR EFI_SUCCESS) with false. cbn iota.
  assert (exists tl, vs = vs' ++ tl) as [tl Etl].
  { destruct Hvs' as [->|[_ [v ->]]]; [exists []; by rewrite app_nil_r|by exists [v]]. }
  assert (Forall var_ok vs') as Hok by (by rewrite Etl, Forall_app in Hvs; destruct Hvs).
  assert (len (packs vs') < 2 ^ 62) as Hlen' by (rewrite Etl, packs_app, length_app in Hlen; lia).
  eapply wp_mono; [by eapply SetSerialized_spec|].
  intros St s3 [(-> & rs & H1 & [w ->])|[(-> & Hf & d & t & rs & Ev & _ & H1 & [w ->])
    |(d & v & t & rs & r & H1 & H2 & H3 & [w ->] & H4)]]; cbn [Sets]; rewrite HS.
  - right. exists vs'. split; [done|]. left. eauto.
  - left. split; [done|]. split; [by left|]. exists d, (t ++ tl), rs. by rewrite Etl, Ev, <-(assoc_L (++)).
  - right. exists vs'. split; [done|]. right. by exists d, v, t, rs, r.
Qed.

(** C21: SerializeVariablesIterateSystemVariables with the instance callback
    adds all variables of the store to the instance, in the order of the
    enumeration, growing the name and data buffers as the runtime services
    demand, and frees both on every path; it fails, with a prefix added, only
    when an allocation does.  One step per variable and one more are enough. *)
Theorem sv_save_system sys {R : RuntimeLaws W sys} h c rest s :
  rep s h c rest -> Forall (fun v => var_ok v /\ v_data v <> []) sys -> len c + len (packs sys) <= 2 ^ 62 ->
  wp (SerializeVariablesIterateSystemVariables (1 + length sys) (IterateVariablesCallbackSetInInstance h))
    (fun Status s' => only h s s' /\ exists done todo rest', sys = done ++ todo /\ rep s' h (c ++ packs done) rest' /\
      ((Status = EFI_SUCCESS /\ todo = []) \/ (EFI_ERROR Status = true /\ alloc_fails))) s.
Proof.
  intros Hr Hsys Hmax. eapply wp_mono.
  - apply (IterateSystemVariables_spec sys Hsys h s c (outside s h) (delete h (Insts s)) (Sets s)); [|done].
    split; [by exists rest|done..].
  - intros St s' (done & todo & Et & [[rest' Hr'] H1 H2 H3] & Hcase). split; [by split|]. by exists done, todo, rest'.
Qed.

(** SerializeVariablesNewInstanceFromBuffer on a well-formed buffer leaves
    the heap as it was when it fails; when it succeeds, the new instance
    holds exactly the variables of the buffer, or all but the last one: the
    failed allocation of the last variable is not reported. *)
Theorem sv_from_buffer blk vs post s :
  Forall var_ok vs -> len (packs vs) < 2 ^ 62 -> Heap s !! blk = Some (packs vs ++ post) ->
  wp (SerializeVariablesNewInstanceFromBuffer (blk, 0) (len (packs vs))) (fun '(Status, h) s' => Sets s' = Sets s /\
    ((EFI_ERROR Status = true /\ no_memory /\ Heap s' = Heap s /\ Insts s' = Insts s) \/
     (Status = EFI_SUCCESS /\ Insts s !! h = None /\ outside s' h = Heap s /\ delete h (Insts s') = Insts s /\
      exists vs' rest, rep s' h (packs vs') rest /\ (vs' = vs \/ (alloc_fails /\ exists v, vs = vs' ++ [v]))))) s.
Proof. apply NewInstanceFromBuffer_spec. Qed.

(** C22: SerializeVariablesSetSerializedVariables sets the variables in order
    and stops at the first refusal that is not tolerated (a security
    violation of an authenticated variable and a write protection are).  A
    refusal is reported as an invalid parameter, except that of the last
    variable, which is reported as success. *)
Theorem sv_set_serialized h vs rest s :
  rep s h (packs vs) rest -> Forall var_ok vs -> len (packs vs) < 2 ^ 62 ->
  wp (SerializeVariablesSetSerializedVariables h) (fun Status s' =>
    (Status = EFI_SUCCESS /\ exists rs, answers vs rs /\ after_calls (zip vs rs) s s') \/
    (Status = EFI_OUT_OF_RESOURCES /\ alloc_fails /\ exists done todo rs, vs = done ++ todo /\ todo <> [] /\
      answers done rs /\ after_calls (zip done rs) s s') \/
    (exists done v todo rs r, vs = done ++ v :: todo /\ answers done rs /\ tolerated v r = false /\
      after_calls (zip done rs ++ [(v, r)]) s s' /\
      Status = match todo with [] => EFI_SUCCESS | _ => EFI_INVALID_PARAMETER end)) s.
Proof. apply SetSerialized_spec. Qed.
End Claims.

(** ** A concrete system

    The environment counts the allocations that still succeed. *)
Module System.
Definition guid1 : list Z := replicate 16 1.
Definition A_ : list Z := [65; 0; 0; 0].       (* L"A" *)
Definition AB_ : list Z := [65; 0; 66; 0; 0; 0].
Definition v1 : variable := mkVar A_ guid1 7 [1; 2; 3].
Definition v2 : variable := mkVar AB_ guid1 3 [4; 5; 6; 7; 8].
Definition vars : list variable := [v1; v2].

Definition fresh_key {A} (h : gmap Z A) : Z := 1 + foldr Z.max 0 ((map_to_list h).*1).

Lemma max_bound (x : Z) l : x ∈ l -> x <= foldr Z.max 0 l.
Proof. induction 1; cbn; lia. Qed.
Lemma fresh_key_spec {A} (h : gmap Z A) : h !! fresh_key h = None.
Proof.
  destruct (h !! fresh_key h) as [x|] eqn:Ex; [|done]. exfalso.
  assert (fresh_key h ∈ (map_to_list h).*1) as Hin.
  { apply list_elem_of_fmap. exists (fresh_key h, x). split; [done|]. by apply elem_of_map_to_list. }
  apply max_bound in Hin. unfold fresh_key at 1 in Hin. lia.
Qed.

(** Is the string at the beginning of [content] the name of [v]? *)
Definition named (content guid : list Z) (v : variable) : bool :=
  bool_decide (take (length (v_name v)) content = v_name v) && bool_decide (guid = v_guid v).
Definition next (content guid : list Z) : option variable :=
  if bool_decide (take 2 content = [0; 0]) then Some v1
  else if named content guid v1 then Some v2 else None.
Definition find_var (name guid : list Z) : option variable :=
  find (fun v => bool_decide (name = v_name v) && bool_decide (guid = v_guid v)) vars.

#[local] Instance env : SvEnv Z := {|
  sv_AllocatePool h n w :=
    if (0 <? w) && (0 <=? n) then (Some (fresh_key h, replicate (Z.to_nat n) 170), w - 1) else (None, w);
  sv_AllocateInstance i w := (Some (fresh_key i), w);
  sv_Local h w := (fresh_key h, w);
  rt_SetVariable _ _ _ _ w := (EFI_SUCCESS, w);
  rt_GetNextVariableName size content guid w :=
    match content with
    | None => ((EFI_INVALID_PARAMETER, size, [], []), w)
    | Some content =>
        match next content guid with
        | None => ((EFI_NOT_FOUND, size, [], []), w)
        | Some v => if len (v_name v) <=? size then ((EFI_SUCCESS, len (v_name v), v_name v, v_guid v), w)
                    else ((EFI_BUFFER_TOO_SMALL, len (v_name v), [], []), w)
        end
    end;
  rt_GetVariable name guid size w :=
    match find_var name guid with
    | None => ((EFI_NOT_FOUND, 0, size, []), w)
    | Some v => if len (v_data v) <=? size then ((EFI_SUCCESS, v_attrs v, len (v_data v), v_data v), w)
                else ((EFI_BUFFER_TOO_SMALL, 0, len (v_data v), []), w)
    end;
|}.

#[local] Instance env_laws : SvEnvLaws Z.
Proof.
  split.
  - intros h n w b bs w' H. cbn in H. destruct ((0 <? w) && (0 <=? n)) eqn:Eb; [|discriminate H].
    injection H as <- <- <-. split; [apply fresh_key_spec|]. rewrite length_replicate. lia.
  - intros i w h w' H. injection H as <- <-. apply fresh_key_spec.
  - intros h w b w' H. injection H as <- <-. apply fresh_key_spec.
Qed.

Lemma vars_ok : Forall var_ok vars.
Proof. repeat constructor; vm_compute; done. Qed.

Lemma cursor_next content guid k : cursor vars content guid k -> next content guid = vars !! k.
Proof.
  destruct k as [|[|[|k]]]; cbn.
  - by intros [tl ->].
  - intros (v & tl & [= <-] & -> & ->). done.
  - intros (v & tl & [= <-] & -> & ->). done.
  - intros (v & tl & Hv & _). done.
Qed.
Lemma find_vars v : v ∈ vars -> find_var (v_name v) (v_guid v) = Some v.
Proof. unfold vars. rewrite !elem_of_cons, elem_of_nil. intros [->|[->|[]]]; reflexivity. Qed.

#[local] Instance env_store : RuntimeLaws Z vars.
Proof.
  split.
  - intros content guid k v size w Hc Hv Hle. cbn [rt_GetNextVariableName env]. rewrite (cursor_next _ _ _ Hc), Hv. apply Z.leb_le in Hle.
    rewrite Hle. eauto.
  - intros content guid k v size w Hc Hv Hlt. cbn [rt_GetNextVariableName env]. rewrite (cursor_next _ _ _ Hc), Hv. apply Z.leb_gt in Hlt.
    rewrite Hlt. eauto.
  - intros content guid k size w Hc Hv. cbn [rt_GetNextVariableName env]. rewrite (cursor_next _ _ _ Hc), Hv. eauto.
  - intros size guid w. cbn. eauto.
  - intros v size w Hin Hle. cbn [rt_GetVariable env]. rewrite (find_vars v Hin). apply Z.leb_le in Hle. rewrite Hle. eauto.
  - intros v size w Hin Hlt. cbn [rt_GetVariable env]. rewrite (find_vars v Hin). apply Z.leb_gt in Hlt. rewrite Hlt. eauto.
Qed.

Definition buffer : list Z := packs vars.
Definition no_blocks : heap := ∅.
(** An empty instance 1; the buffer is block 9. *)
Definition empty_instance (allocs : Z) : st (W:=Z) :=
  mkSt allocs (<[9 := buffer]> no_blocks) (<[1 := mkSv SV_SIGNATURE None 0 0]> ∅) [].
Definition full_instance (allocs : Z) : st (W:=Z) :=
  mkSt allocs (<[5 := buffer]> (<[9 := replicate 100 0]> no_blocks))
    (<[1 := mkSv SV_SIGNATURE (Some 5) (len buffer) (len buffer)]> ∅) [].

Lemma empty_rep n : rep (empty_instance n) 1 [] [].
Proof. eexists. split; [reflexivity|]. by split_and!. Qed.
Lemma full_rep n : rep (full_instance n) 1 (packs vars) [].
Proof. eexists. split; [reflexivity|]. rewrite app_nil_r. by split_and!. Qed.

(** The model runs: a save of the system yields the packed variables. *)
Example save_runs :
  match SerializeVariablesIterateSystemVariables 3 (IterateVariablesCallbackSetInInstance 1) (empty_instance 100) with
  | Done Status s' => Status = EFI_SUCCESS /\
      (DataSize <$> Insts s' !! 1) = Some (len buffer) /\ map_size (Heap s') = 2%nat
  | Trap _ => False
  end.
Proof. vm_compute. split_and!; reflexivity. Qed.

(** *** What the code does with bad input *)

(** The refusal of the last variable is lost: with three allocations left,
    the import of one variable succeeds and yields an empty instance. *)
Example last_refusal_lost :
  match SerializeVariablesNewInstanceFromBuffer (9, 0) (len (pack v1)) (empty_instance 2) with
  | Done (Status, h) s' => Status = EFI_SUCCESS /\ (DataSize <$> Insts s' !! h) = Some 0
  | Trap _ => False
  end.
Proof. vm_compute. split_and!; reflexivity. Qed.

(** A truncated buffer is read past its end. *)
Example truncated_overread :
  SerializeVariablesNewInstanceFromBuffer (9, 0) 3
    (mkSt 100 (<[9 := [4; 0; 0]]> no_blocks) ∅ []) = Trap BadPointer.
Proof. vm_compute. reflexivity. Qed.

(** A bad second variable leaks the copy of the first name. *)
Example malformed_leak :
  match SerializeVariablesNewInstanceFromBuffer (9, 0) (len (pack v1) + 8)
    (mkSt 100 (<[9 := pack v1 ++ replicate 8 255]> no_blocks) ∅ []) with
  | Done (Status, _) s' => Status = EFI_INVALID_PARAMETER /\ map_size (Heap s') = 2%nat
  | Trap _ => False
  end.
Proof. vm_compute. split_and!; reflexivity. Qed.

(** The NULL parameters that AddVariable documents are not refused. *)
Example null_name_not_refused :
  SerializeVariablesAddVariable 1 None (Some (9, 0)) 7 3 (Some (9, 0)) (empty_instance 100) = Trap BadPointer.
Proof. vm_compute. reflexivity. Qed.

(** *** Witnesses *)
Lemma sv_save_system_witness :
  wp (SerializeVariablesIterateSystemVariables 3 (IterateVariablesCallbackSetInInstance 1))
    (fun Status s' => Status = EFI_SUCCESS -> exists rest, rep s' 1 (packs vars) rest) (empty_instance 100).
Proof.
  eapply wp_mono.
  - apply (sv_save_system vars 1 [] [] (empty_instance 100) (empty_rep 100)).
    + repeat constructor; vm_compute; done.
    + vm_compute. discriminate.
  - intros St s' (_ & d & t & rest & Et & Hr & [[_ ->]|[HE _]]) HS.
    + rewrite app_nil_r in Et. subst d. by exists rest.
    + rewrite HS in HE. discriminate HE.
Defined.

Lemma sv_from_buffer_witness :
  wp (SerializeVariablesNewInstanceFromBuffer (9, 0) (len (packs vars))) (fun _ s' => Sets s' = []) (empty_instance 100).
Proof.
  eapply wp_mono.
  - apply (sv_from_buffer 9 vars [] (empty_instance 100) vars_ok); [vm_compute; reflexivity|].
    rewrite app_nil_r. reflexivity.
  - intros [St h] s' [H _]. exact H.
Defined.

Lemma sv_set_serialized_witness :
  wp (SerializeVariablesSetSerializedVariables 1) (fun _ s' => (Sets s').*1 `prefix_of` vars) (full_instance 100).
Proof.
  eapply wp_mono.
  - apply (sv_set_serialized 1 vars [] (full_instance 100) (full_rep 100) vars_ok). vm_compute. reflexivity.
  - intros St s' [(_ & rs & H1 & [w ->])|[(_ & _ & d & t & rs & Ed & _ & H1 & [w ->])|
      (d & v & t & rs & r & Ed & H1 & _ & [w ->] & _)]]; cbn [Sets full_instance app]; pose proof (Forall2_length _ _ _ H1).
    + rewrite fst_zip by lia. exists []. by rewrite app_nil_r.
    + rewrite fst_zip by lia. by exists t.
    + rewrite fmap_app, fst_zip by lia. exists t. by rewrite <-(assoc_L (++)).
Defined.

(** An allocator that does not fail. *)
Module Total.
#[local] Instance env : SvEnv unit := {|
  sv_AllocatePool h n w := (if 0 <=? n then Some (fresh_key h, replicate (Z.to_nat n) 170) else None, w);
  sv_AllocateInstance i w := (Some (fresh_key i), w);
  sv_Local h w := (fresh_key h, w);
  rt_SetVariable _ _ _ _ w := (EFI_SUCCESS, w);
  rt_GetNextVariableName size content guid w := ((EFI_NOT_FOUND, size, [], []), w);
  rt_GetVariable name guid size w := ((EFI_NOT_FOUND, 0, size, []), w);
|}.
#[local] Instance env_laws : SvEnvLaws unit.
Proof.
  split.
  - intros h n w b bs w' H. cbn in H. destruct (Z.leb_spec 0 n); [|discriminate H].
    injection H as <- <-. split; [apply fresh_key_spec|]. rewrite length_replicate. lia.
  - intros i w h w' H. injection H as <-. apply fresh_key_spec.
  - intros h w b w' H. injection H as <-. apply fresh_key_spec.
Qed.
Lemma never_fails : ~ alloc_fails (W:=unit).
Proof. intros (h & n & w & w' & Hn & H). cbn in H. apply Z.leb_le in Hn. rewrite Hn in H. discriminate H. Qed.

Definition full : st (W:=unit) :=
  mkSt tt (<[5 := buffer]> (<[9 := replicate 100 0]> no_blocks))
    (<[1 := mkSv SV_SIGNATURE (Some 5) (len buffer) (len buffer)]> ∅) [].
Lemma full_ok : rep full 1 (packs vars) [].
Proof. eexists. split; [reflexivity|]. rewrite app_nil_r. by split_and!. Qed.

Definition restored : st (W:=unit) :=
  match SaveAndRestore 1 (9, 0) 100 full with Done _ s' => s' | Trap _ => full end.
Lemma restore_runs : SaveAndRestore 1 (9, 0) 100 full = Done EFI_SUCCESS restored.
Proof. vm_compute. reflexivity. Qed.
Lemma restored_sets : Sets restored = zip vars [EFI_SUCCESS; EFI_SUCCESS].
Proof. vm_compute. reflexivity. Qed.
#[local] Opaque restored.

Lemma sv_roundtrip_witness :
  Sets restored = zip vars [EFI_SUCCESS; EFI_SUCCESS] /\ (Sets restored).*1 `prefix_of` vars.
Proof.
  split; [exact restored_sets|].
  assert (len (packs vars) < 2 ^ 62 /\ outside full 1 !! 9 = Some (replicate 100 0) /\ len (packs vars) <= 100 /\
    100 <= len (replicate 100 0)) as (H1 & H2 & H3 & H4) by (split_and!; vm_compute; done).
  pose proof (sv_roundtrip 1 vars [] 9 (replicate 100 0) 100 full full_ok vars_ok H1 H2 H3 H4) as H.
  apply (wp_Done _ _ _ _ _ restore_runs) in H.
  destruct H as [(HE & _)|(vs' & [->|[Hf _]] & [(_ & rs & Ha & EH)|(d & v & t & rs & r & Ed & Ha & _ & EH & _)])];
    [discriminate HE| | |destruct (never_fails Hf)..]; rewrite EH; cbn [Sets full app]; pose proof (Forall2_length _ _ _ Ha).
  - rewrite fst_zip by lia. exists []. by rewrite app_nil_r.
  - rewrite fmap_app, fst_zip by lia. exists t. by rewrite Ed, <-(assoc_L (++)).
Defined.
End Total.
End System.
