(* ===== verification/AmlString.v ===== *)
(** * AcpiSdtDxe: AML and ASL name strings

    Models QemuPkg/AcpiSdtDxe/AmlString.c.  A buffer is the list of bytes from
    the pointer on; reading past its end is [None] in the readers, and a
    [BadPointer] trap where the code also writes. *)
From S2P Require Import Prelude Bytes.

Definition AML_ROOT_CHAR : Z := 0x5C.
Definition AML_PARENT_PREFIX_CHAR : Z := 0x5E.
Definition AML_DUAL_NAME_PREFIX : Z := 0x2E.
Definition AML_MULTI_NAME_PREFIX : Z := 0x2F.
Definition AML_NAME_CHAR__ : Z := 0x5F.
Definition AML_NAME_SEG_SIZE : nat := 4.

(** Conversion of a UINT8 to CHAR8, which is signed. *)
Definition char8 (b : Z) : Z := if b <? 128 then b else b - 256.
Definition between (lo hi c : Z) : bool := (lo <=? c) && (c <=? hi).

(** The byte at the pointer. *)
Definition peek (p : list Z) : option Z := head p.

Definition AmlIsRootPath (p : list Z) : option bool :=
  a ← peek p;
  if a =? AML_ROOT_CHAR then b ← p !! 1%nat; Some (b =? 0) else Some false.

Definition AmlIsLeadName (Ch : Z) : bool := (Ch =? 0x5F) || between 0x41 0x5A Ch.
Definition AmlIsName (Ch : Z) : bool := AmlIsLeadName Ch || between 0x30 0x39 Ch.

(** The loop of AmlIsNameSeg, over the indices that remain. *)
Fixpoint NameCharsFrom (p : list Z) (indices : list nat) : option bool :=
  match indices with
  | [] => Some true
  | i :: indices => b ← p !! i; if AmlIsName (char8 b) then NameCharsFrom p indices else Some false
  end.
Definition AmlIsNameSeg (p : list Z) : option bool :=
  b ← peek p;
  if AmlIsLeadName (char8 b) then NameCharsFrom p (seq 1 (AML_NAME_SEG_SIZE - 1)) else Some false.

(** The loop over the parent prefix characters, with their count. *)
Fixpoint SkipParents (p : list Z) : option (nat * list Z) :=
  match p with
  | [] => None
  | b :: p' => if b =? AML_PARENT_PREFIX_CHAR then r ← SkipParents p'; Some (S r.1, r.2) else Some (0%nat, p)
  end.

(** The body of the do-while loop, [n] more times; the length parsed. *)
Fixpoint NameSegs (p : list Z) (n : nat) : option (option nat) :=
  match n with
  | O => Some (Some 0%nat)
  | S n =>
      ok ← AmlIsNameSeg p;
      if negb ok then Some None
      else r ← NameSegs (drop AML_NAME_SEG_SIZE p) n; Some (option_map (Nat.add AML_NAME_SEG_SIZE) r)
  end.

(** The segments; the do-while loop parses at least one. *)
Definition SegsSize (p : list Z) (Length SegCount : nat) : option (EFI_STATUS * Z) :=
  r ← NameSegs p (Nat.max 1 SegCount);
  Some (match r with None => (EFI_INVALID_PARAMETER, 0) | Some n => (EFI_SUCCESS, Z.of_nat (Length + n)) end).

(** Root or parent prefix: its length, whether it is the root, the rest. *)
Definition NamePrefix (Buffer : list Z) : option (nat * bool * list Z) :=
  b ← peek Buffer;
  if b =? AML_ROOT_CHAR then Some (1%nat, true, drop 1 Buffer)
  else r ← SkipParents Buffer; Some (r.1, false, r.2).

(** Status and BufferSize, after a prefix of [Length] bytes. *)
Definition NameBodySize (Length : nat) (root : bool) (p : list Z) : option (EFI_STATUS * Z) :=
  c ← peek p;
  if c =? AML_DUAL_NAME_PREFIX then SegsSize (drop 1 p) (Length + 1) 2
  else if c =? AML_MULTI_NAME_PREFIX then
    SegCount ← p !! 1%nat; SegsSize (drop 2 p) (Length + 2) (Z.to_nat SegCount)
  else if c =? 0 then
    Some (if root then (EFI_SUCCESS, 2) else (EFI_INVALID_PARAMETER, 0))
  else SegsSize p Length 1.

Definition AmlGetNameStringSize (Buffer : list Z) : option (EFI_STATUS * Z) :=
  r ← NamePrefix Buffer; NameBodySize r.1.1 r.1.2 r.2.

Definition AmlIsAslLeadName (Ch : Z) : bool := AmlIsLeadName Ch || between 0x61 0x7A Ch.
Definition AmlIsAslName (Ch : Z) : bool := AmlIsAslLeadName Ch || between 0x30 0x39 Ch.

(** The loop for the 2nd to 4th character. *)
Fixpoint AslSegRest (p : list Z) (Length n : nat) : option nat :=
  match n with
  | O => Some 0%nat
  | S n =>
      b ← peek p;
      let '(Length, p) := if AmlIsAslName (char8 b) then (S Length, drop 1 p) else (Length, p) in
      c ← peek p;
      if (c =? 0) || (c =? 0x2E) then Some Length else AslSegRest p Length n
  end.
Definition AmlGetAslNameSegLength (Buffer : list Z) : option nat :=
  b ← peek Buffer;
  if b =? 0 then Some 0%nat
  else
    let '(Length, p) := if AmlIsAslLeadName (char8 b) then (1%nat, drop 1 Buffer) else (0%nat, Buffer) in
    c ← peek p;
    if (c =? 0) || (c =? 0x2E) then Some Length else AslSegRest p Length 3.

(** The number of segments; [None] inside: an invalid segment. *)
Fixpoint AslSegs (fuel : nat) (p : list Z) (SegCount : nat) : option (option nat) :=
  match fuel with
  | O => None
  | S fuel =>
      b ← peek p;
      if b =? 0 then Some (Some SegCount)
      else
        NameLength ← AmlGetAslNameSegLength p;
        if (NameLength =? 0)%nat || (AML_NAME_SEG_SIZE <? NameLength)%nat then Some None
        else
          let p := drop NameLength p in
          c ← peek p;
          if c =? 0 then Some (Some (S SegCount)) else AslSegs fuel (drop 1 p) (S SegCount)
  end.

Definition AslTotalLength (Root Parent SegCount : nat) : nat :=
  if (255 <? SegCount)%nat then 0
  else Root + Parent + SegCount * AML_NAME_SEG_SIZE
       + (if (2 <? SegCount)%nat then 2 else if (SegCount =? 2)%nat then 1 else 0) + 1.

(** TotalLength, Root, Parent, SegCount.  Each segment is at least one byte
    long, so the length of the buffer bounds the loop. *)
Record asl_size : Type := mkAslSize { TotalLength : nat; Root : nat; Parent : nat; SegCount : nat }.
Definition AslSize (Root Parent : nat) (p : list Z) : option asl_size :=
  r ← AslSegs (S (length p)) p 0;
  Some match r with
       | None => mkAslSize 0 Root Parent 0
       | Some SegCount => mkAslSize (AslTotalLength Root Parent SegCount) Root Parent SegCount
       end.
Definition AmlGetAslNameStringSize (Buffer : list Z) : option asl_size :=
  r ← NamePrefix Buffer; AslSize (Nat.b2n r.1.2) (if (r.1.2 : bool) then 0%nat else r.1.1) r.2.

Definition upper (b : Z) : Z := if between 0x61 0x7A b then b - 0x61 + 0x41 else b.

(** *** Functions that write or print *)

(** The allocated path, if any, and the characters printed. *)
Record st : Type := mkSt { AmlPath : list Z; Printed : list Z }.

Definition rd {A} (o : option A) : M st A := deref o.
(** Write at an offset of AmlPath. *)
Definition put_at (off : nat) (bs : list Z) : M st unit :=
  s ← get;
  if (off + length bs <=? length (AmlPath s))%nat
  then put (mkSt (take off (AmlPath s) ++ bs ++ drop (off + length bs) (AmlPath s)) (Printed s))
  else trapped BadPointer.

Definition AmlUpperCaseCopyMem (Dst : nat) (Src : list Z) (Length : nat) : M st unit :=
  bs ← rd (if (Length <=? length Src)%nat then Some (take Length Src) else None);
  put_at Dst (upper <$> bs).

(** The loop over the name segments: from [Buffer] to the offset [AmlBuffer]. *)
Fixpoint EncodeSegs (fuel : nat) (Buffer : list Z) (AmlBuffer : nat) : M st unit :=
  match fuel with
  | O => trapped OutOfFuel
  | S fuel =>
      b ← rd (peek Buffer);
      if b =? 0 then mret tt
      else
        NameLength ← rd (AmlGetAslNameSegLength Buffer);
        ASSERT (negb (NameLength =? 0)%nat && (NameLength <=? AML_NAME_SEG_SIZE)%nat);;
        AmlUpperCaseCopyMem AmlBuffer Buffer NameLength;;
        put_at (AmlBuffer + NameLength) (replicate (AML_NAME_SEG_SIZE - NameLength) AML_NAME_CHAR__);;
        let Buffer := drop NameLength Buffer in
        let AmlBuffer := (AmlBuffer + AML_NAME_SEG_SIZE)%nat in
        c ← rd (peek Buffer);
        if c =? 0 then mret tt else EncodeSegs fuel (drop 1 Buffer) AmlBuffer
  end.

Section Allocator.
Context (AllocatePool : nat -> option (list Z)).

(** The count, before the segments; the offset after it. *)
Definition EncodeCount (AmlBuffer SegCount : nat) : M st nat :=
  if (2 <? SegCount)%nat then
    put_at AmlBuffer [AML_MULTI_NAME_PREFIX];;
    put_at (AmlBuffer + 1) [u8 (Z.of_nat SegCount)];; mret (AmlBuffer + 2)%nat
  else if (SegCount =? 2)%nat then
    put_at AmlBuffer [AML_DUAL_NAME_PREFIX];; mret (AmlBuffer + 1)%nat
  else mret AmlBuffer.

(** Whether a path is returned; it is AmlPath. *)
Definition AmlNameFromAslName (AslPath : list Z) : M st bool :=
  r ← rd (AmlGetAslNameStringSize AslPath);
  if (TotalLength r =? 0)%nat then mret false
  else
    block ← (match AllocatePool (TotalLength r) with Some b => mret b | None => trapped AssertFailed end);
    modify (fun s => mkSt block (Printed s));;
    AmlBuffer ← (if (Root r =? 1)%nat then put_at 0 [AML_ROOT_CHAR];; mret 1%nat
                 else if (0 <? Parent r)%nat
                 then put_at 0 (replicate (Parent r) AML_PARENT_PREFIX_CHAR);; mret (Parent r)
                 else mret 0%nat);
    let Buffer := drop AmlBuffer AslPath in
    AmlBuffer ← EncodeCount AmlBuffer (SegCount r);
    EncodeSegs (S (length Buffer)) Buffer AmlBuffer;;
    put_at (TotalLength r - 1) [0];;
    mret true.
End Allocator.

Definition print (c : Z) : M st unit := modify (fun s => mkSt (AmlPath s) (Printed s ++ [c])).

Definition AmlPrintNameSeg (Buffer : list Z) : M st unit :=
  b0 ← rd (Buffer !! 0%nat); print b0;;
  b1 ← rd (Buffer !! 1%nat); b2 ← rd (Buffer !! 2%nat); b3 ← rd (Buffer !! 3%nat);
  if (b1 =? AML_NAME_CHAR__) && (b2 =? AML_NAME_CHAR__) && (b3 =? AML_NAME_CHAR__) then mret tt
  else
    print b1;;
    if (b2 =? AML_NAME_CHAR__) && (b3 =? AML_NAME_CHAR__) then mret tt
    else print b2;; if b3 =? AML_NAME_CHAR__ then mret tt else print b3.

Fixpoint print_all (n : nat) (c : Z) : M st unit :=
  match n with O => mret tt | S n => print c;; print_all n c end.

(** The segments after the first. *)
Fixpoint PrintSegs (n : nat) (Buffer : list Z) : M st unit :=
  match n with
  | O => mret tt
  | S n => print 0x2E;; AmlPrintNameSeg Buffer;; PrintSegs n (drop AML_NAME_SEG_SIZE Buffer)
  end.

Definition PrintNames (p : list Z) (SegCount : Z) : M st unit :=
  AmlPrintNameSeg p;; PrintSegs (Z.to_nat (SegCount - 1)) (drop AML_NAME_SEG_SIZE p).

Definition AmlPrintNameString (Buffer : list Z) : M st unit :=
  b ← rd (peek Buffer);
  p ← (if b =? AML_ROOT_CHAR then print 0x5C;; mret (drop 1 Buffer)
       else r ← rd (SkipParents Buffer); print_all r.1 0x5E;; mret r.2);
  c ← rd (peek p);
  if c =? AML_DUAL_NAME_PREFIX then PrintNames (drop 1 p) 2
  else if c =? AML_MULTI_NAME_PREFIX then n ← rd (p !! 1%nat); PrintNames (drop 2 p) n
  else if c =? 0 then mret tt
  else PrintNames p 1.
