(* ===== verification/AmlStringProofs.v ===== *)
(** * AcpiSdtDxe: the grammar of AML name strings, and the round trip *)
From S2P Require Import Prelude Bytes AmlString.

(** ** The grammar that AmlGetNameStringSize accepts *)
Definition name_seg (s : list Z) : Prop :=
  length s = AML_NAME_SEG_SIZE /\
  exists c t, s = c :: t /\ AmlIsLeadName (char8 c) = true /\ Forall (fun b => AmlIsName (char8 b) = true) t.

Inductive aml_prefix : bool -> list Z -> Prop :=
  | prefix_root : aml_prefix true [AML_ROOT_CHAR]
  | prefix_parents n : aml_prefix false (replicate n AML_PARENT_PREFIX_CHAR).

(** After a root prefix or not.  A multi-name count of zero stands for one
    segment. *)
Inductive NameBody : bool -> list Z -> Prop :=
  | body_null : NameBody true [0]
  | body_seg root s : name_seg s -> NameBody root s
  | body_dual root s1 s2 : name_seg s1 -> name_seg s2 -> NameBody root (AML_DUAL_NAME_PREFIX :: s1 ++ s2)
  | body_multi root c ss : length ss = Nat.max 1 (Z.to_nat c) -> Forall name_seg ss ->
      NameBody root (AML_MULTI_NAME_PREFIX :: c :: concat ss).

Definition NameString (l : list Z) : Prop :=
  exists root pre body, l = pre ++ body /\ aml_prefix root pre /\ NameBody root body.

Lemma between_spec lo hi c : between lo hi c = true <-> lo <= c <= hi.
Proof. unfold between. rewrite andb_true_iff, !Z.leb_le. done. Qed.

Lemma char8_between lo hi b : 0 <= lo -> hi < 128 -> between lo hi (char8 b) = true -> is_byte b -> lo <= b <= hi.
Proof. intros Hl Hh H Hb. apply between_spec in H. unfold char8, is_byte in *. destruct (Z.ltb_spec b 128); lia. Qed.

(** A name character is none of the special characters. *)
Lemma lead_special b :
  AmlIsLeadName (char8 b) = true -> is_byte b ->
  b <> AML_ROOT_CHAR /\ b <> AML_PARENT_PREFIX_CHAR /\ b <> AML_DUAL_NAME_PREFIX /\ b <> AML_MULTI_NAME_PREFIX /\ b <> 0.
Proof.
  intros H Hb. unfold AmlIsLeadName in H. apply orb_true_iff in H as [H|H].
  - unfold char8, is_byte in *. destruct (Z.ltb_spec b 128); apply Z.eqb_eq in H;
      unfold AML_ROOT_CHAR, AML_PARENT_PREFIX_CHAR, AML_DUAL_NAME_PREFIX, AML_MULTI_NAME_PREFIX; lia.
  - apply char8_between in H; [|lia..|done].
    unfold AML_ROOT_CHAR, AML_PARENT_PREFIX_CHAR, AML_DUAL_NAME_PREFIX, AML_MULTI_NAME_PREFIX; lia.
Qed.

Lemma AmlIsNameSeg_true p :
  AmlIsNameSeg p = Some true <-> exists s tl, p = s ++ tl /\ name_seg s.
Proof.
  split.
  - unfold AmlIsNameSeg, peek. destruct p as [|a p]; [done|]. cbn.
    destruct (AmlIsLeadName (char8 a)) eqn:Ha; [|done].
    destruct p as [|b p]; cbn; [done|]. destruct (AmlIsName (char8 b)) eqn:Hb; [|done].
    destruct p as [|c p]; cbn; [done|]. destruct (AmlIsName (char8 c)) eqn:Hc; [|done].
    destruct p as [|d p]; cbn; [done|]. destruct (AmlIsName (char8 d)) eqn:Hd; [|done]. intros _.
    exists [a; b; c; d], p. split; [done|]. split; [done|]. exists a, [b; c; d]. split; [done|]. split; [done|].
    by repeat constructor.
  - intros (s & tl & -> & Hl & c & t & -> & Hc & Ht). cbn in Hl.
    destruct t as [|t1 [|t2 [|t3 [|]]]]; try discriminate Hl.
    rewrite !Forall_cons in Ht. destruct Ht as (H1 & H2 & H3 & _). unfold AmlIsNameSeg. cbn.
    by rewrite Hc, H1, H2, H3.
Qed.

Lemma name_seg_drop s tl : name_seg s -> drop AML_NAME_SEG_SIZE (s ++ tl) = tl.
Proof. intros [Hl _]. by rewrite <-Hl, drop_app_length. Qed.

Lemma NameSegs_spec n : forall p k, NameSegs p n = Some (Some k) <->
  exists ss tl, p = concat ss ++ tl /\ length ss = n /\ Forall name_seg ss /\ k = (AML_NAME_SEG_SIZE * n)%nat.
Proof.
  induction n as [|n IH]; intros p k; cbn [NameSegs].
  - split.
    + intros [= <-]. by exists [], p.
    + intros ([|] & tl & _ & H & _ & ->); [done|discriminate H].
  - split.
    + destruct (AmlIsNameSeg p) as [[|]|] eqn:E; [|done..]. cbn [negb mbind option_bind].
      apply AmlIsNameSeg_true in E as (s & tl & -> & Hs). rewrite name_seg_drop by done.
      destruct (NameSegs tl n) as [[m|]|] eqn:E2; [|done..]. cbn. intros [= <-].
      apply IH in E2 as (ss & tl' & -> & Hl & Hss & ->). exists (s :: ss), tl'. cbn. rewrite <-(assoc_L (++)).
      split; [done|]. split; [lia|]. split; [by constructor|]. lia.
    + intros ([|s ss] & tl & -> & Hl & Hss & ->); [discriminate Hl|]. apply Forall_cons in Hss as [Hs Hss].
      cbn [concat]. rewrite <-(assoc_L (++)).
      assert (AmlIsNameSeg (s ++ concat ss ++ tl) = Some true) as -> by (apply AmlIsNameSeg_true; exists s, (concat ss ++ tl); done).
      cbn [negb mbind option_bind]. rewrite name_seg_drop by done. injection Hl as Hl.
      assert (NameSegs (concat ss ++ tl) n = Some (Some (AML_NAME_SEG_SIZE * n)%nat)) as -> by (apply IH; exists ss, tl; done).
      cbn [mbind option_bind option_map]. unfold AML_NAME_SEG_SIZE. do 2 f_equal. unfold AML_NAME_SEG_SIZE. lia.
Qed.

Lemma concat_length_segs ss : Forall name_seg ss -> length (concat ss) = (AML_NAME_SEG_SIZE * length ss)%nat.
Proof. induction 1 as [|s ss [Hl _] _ IH]; cbn [concat length]; [done|]. rewrite length_app, IH, Hl. unfold AML_NAME_SEG_SIZE. lia. Qed.

Lemma SegsSize_spec p Length c n :
  SegsSize p Length c = Some (EFI_SUCCESS, n) <->
  exists ss tl, p = concat ss ++ tl /\ length ss = Nat.max 1 c /\ Forall name_seg ss /\
    n = Z.of_nat (Length + length (concat ss)).
Proof.
  unfold SegsSize. split.
  - destruct (NameSegs p (Nat.max 1 c)) as [[k|]|] eqn:E; cbn; [|done..]. intros [= <-].
    apply NameSegs_spec in E as (ss & tl & -> & Hl & Hss & ->). exists ss, tl. split_and!; try done.
    by rewrite concat_length_segs, Hl by done.
  - intros (ss & tl & -> & Hl & Hss & ->).
    assert (NameSegs (concat ss ++ tl) (Nat.max 1 c) = Some (Some (AML_NAME_SEG_SIZE * Nat.max 1 c)%nat)) as ->
      by (apply NameSegs_spec; exists ss, tl; done). cbn [mbind option_bind]. by rewrite concat_length_segs, Hl by done.
Qed.

Lemma SkipParents_spec p n q :
  SkipParents p = Some (n, q) <->
  p = replicate n AML_PARENT_PREFIX_CHAR ++ q /\ exists b t, q = b :: t /\ b <> AML_PARENT_PREFIX_CHAR.
Proof.
  revert n q. induction p as [|b p IH]; intros n q; cbn [SkipParents].
  - split; [done|]. intros [H (c & t & -> & _)]. by destruct n.
  - destruct (Z.eqb_spec b AML_PARENT_PREFIX_CHAR) as [->|Hb].
    + split.
      * destruct (SkipParents p) as [[m r]|] eqn:E; cbn; [|done]. intros [= <- <-].
        destruct (proj1 (IH m r) eq_refl) as [-> H]. split; [done|exact H].
      * intros [H H']. destruct n as [|n]; cbn in H; [subst q; by destruct H' as (? & ? & [= <- <-] & ?)|].
        injection H as H. assert (SkipParents p = Some (n, q)) as -> by (by apply IH). done.
    + split.
      * intros [= <- <-]. split; [done|]. by exists b, p.
      * intros [H H']. destruct n as [|n]; cbn in H; [by subst q|]. by injection H as ->.
Qed.

Lemma SkipParents_no p : (exists b t, p = b :: t /\ b <> AML_PARENT_PREFIX_CHAR) -> SkipParents p = Some (0%nat, p).
Proof. intros H. apply SkipParents_spec. by split. Qed.

(** A body begins with a character that is neither a root nor a parent
    prefix. *)
Lemma NameBody_head root body :
  NameBody root body -> Forall is_byte body ->
  exists b t, body = b :: t /\ b <> AML_ROOT_CHAR /\ b <> AML_PARENT_PREFIX_CHAR.
Proof.
  unfold AML_ROOT_CHAR, AML_PARENT_PREFIX_CHAR, AML_DUAL_NAME_PREFIX, AML_MULTI_NAME_PREFIX.
  destruct 1 as [|root s [_ (c & t & -> & Hc & _)]|root s1 s2 _ _|root c ss _ _]; intros Hb.
  - by exists 0, [].
  - apply Forall_cons in Hb as [Hb _]. apply lead_special in Hc as (H1 & H2 & _); [|done]. by exists c, t.
  - by eexists _, _.
  - by eexists _, _.
Qed.

Lemma NamePrefix_spec l n root q :
  NamePrefix l = Some (n, root, q) <->
  exists pre, l = pre ++ q /\ length pre = n /\ aml_prefix root pre /\
    (root = false -> exists b t, q = b :: t /\ b <> AML_PARENT_PREFIX_CHAR /\ (n = 0%nat -> b <> AML_ROOT_CHAR)).
Proof.
  unfold NamePrefix, peek. destruct l as [|b l]; cbn [head mbind option_bind].
  - split; [done|]. intros (pre & H & _ & Hpre & Hq). destruct Hpre as [|m]; [done|].
    destruct (Hq eq_refl) as (b & t & -> & _). by destruct m.
  - destruct (Z.eqb_spec b AML_ROOT_CHAR) as [->|Hb].
    + split.
      * intros [= <- <- <-]. exists [AML_ROOT_CHAR]. split_and!; [done..|constructor|done].
      * intros (pre & H & Hn & Hpre & Hq). destruct Hpre as [|m]; [injection H as <-; by subst n|].
        destruct (Hq eq_refl) as (b & t & -> & H1 & H2). rewrite length_replicate in Hn. subst m.
        destruct n as [|n]; injection H as H3 H4; [by destruct H2|done].
    + split.
      * destruct (SkipParents (b :: l)) as [[m r]|] eqn:E; cbn; [|done]. intros [= <- <- <-].
        apply SkipParents_spec in E as [E (c & t & -> & Hc)]. exists (replicate m AML_PARENT_PREFIX_CHAR).
        split_and!; [done|apply length_replicate|constructor|]. intros _. exists c, t. split_and!; [done..|].
        intros ->. by injection E as <- _.
      * intros (pre & H & Hn & Hpre & Hq). destruct Hpre as [|m]; [by injection H as H _|].
        destruct (Hq eq_refl) as (c & t & -> & H1 & H2). rewrite length_replicate in Hn. subst m.
        assert (SkipParents (b :: l) = Some (n, c :: t)) as ->; [|done].
        apply SkipParents_spec. split; [done|]. by exists c, t.
Qed.

(** A segment does not begin with a special character. *)
Ltac no_seg H Hs :=
  destruct Hs as [_ (? & ? & -> & Hs & _)]; injection H as <- _; by apply lead_special in Hs as (? & ? & ? & ? & ?).

Lemma NameBodySize_spec (L : nat) (root : bool) p n :
  (root = true -> L = 1%nat) -> Forall is_byte p ->
  NameBodySize L root p = Some (EFI_SUCCESS, n) <->
  exists body tl, p = body ++ tl /\ NameBody root body /\ n = Z.of_nat (L + length body).
Proof.
  intros HL Hp. unfold NameBodySize. destruct p as [|c p]; cbn [peek head mbind option_bind].
  { split; [done|]. intros (body & tl & H & Hb & _). by destruct Hb as [|? ? [_ (? & ? & -> & _)]| |]. }
  apply Forall_cons in Hp as [Hc Hp].
  destruct (Z.eqb_spec c AML_DUAL_NAME_PREFIX) as [->|Hd]; [|destruct (Z.eqb_spec c AML_MULTI_NAME_PREFIX) as [->|Hm];
    [|destruct (Z.eqb_spec c 0) as [->|H0]]].
  - cbn [drop]. rewrite drop_0, SegsSize_spec. split.
    + intros (ss & tl & -> & Hl & Hss & ->). destruct ss as [|s1 [|s2 [|]]]; try discriminate Hl.
      rewrite !Forall_cons in Hss. destruct Hss as (H1 & H2 & _).
      exists (AML_DUAL_NAME_PREFIX :: s1 ++ s2), tl. cbn [concat]. rewrite app_nil_r. split; [done|].
      split; [by constructor|]. cbn [length]. lia.
    + intros (body & tl & H & Hb & ->). inversion Hb as [|? s Hs|? s1 s2 H1 H2|]; subst; try done.
      { no_seg H Hs. }
      injection H as H. exists [s1; s2], tl. cbn [concat]. rewrite app_nil_r. split_and!; [done..|auto|cbn [length]; lia].
  - destruct p as [|k p]; cbn [lookup list_lookup mbind option_bind drop].
    { split; [done|]. intros (body & tl & H & Hb & _). inversion Hb as [|? s Hs|? s1 s2 H1 H2|]; subst; try done.
      no_seg H Hs. }
    rewrite drop_0, SegsSize_spec. split.
    + intros (ss & tl & -> & Hl & Hss & ->). exists (AML_MULTI_NAME_PREFIX :: k :: concat ss), tl.
      split; [done|]. split; [by constructor|]. cbn [length]. lia.
    + intros (body & tl & H & Hb & ->). inversion Hb as [|? s Hs|? s1 s2 H1 H2|? k' ss Hl Hss]; subst; try done.
      { no_seg H Hs. }
      injection H as -> H. exists ss, tl. split_and!; [done..|cbn [length]; lia].
  - destruct root.
    + rewrite (HL eq_refl). split; [intros [= <-]; exists [0], p; split_and!; [done|constructor|done]|].
      intros (body & tl & H & Hb & ->). inversion Hb as [|? s Hs|? s1 s2 H1 H2|]; subst; try done.
      no_seg H Hs.
    + split; [done|]. intros (body & tl & H & Hb & ->). inversion Hb as [|? s Hs|? s1 s2 H1 H2|]; subst; try done.
      no_seg H Hs.
  - rewrite SegsSize_spec. split.
    + intros (ss & tl & -> & Hl & Hss & ->). destruct ss as [|s [|]]; try discriminate Hl.
      apply Forall_cons in Hss as [Hs _]. exists s, tl. cbn [concat]. rewrite app_nil_r. split_and!; [done|by constructor|done].
    + intros (body & tl & H & Hb & ->). inversion Hb as [|? s Hs|? s1 s2 H1 H2|]; subst; try by injection H as ? ?.
      exists [body], tl. cbn [concat]. rewrite app_nil_r. split_and!; [done..|auto|done].
Qed.

Lemma AmlGetNameStringSize_spec l n :
  Forall is_byte l ->
  AmlGetNameStringSize l = Some (EFI_SUCCESS, n) <->
  exists nm tl, l = nm ++ tl /\ n = Z.of_nat (length nm) /\ NameString nm.
Proof.
  intros Hl. unfold AmlGetNameStringSize. split.
  - destruct (NamePrefix l) as [[[m root] q]|] eqn:E; cbn; [|done]. intros H.
    apply NamePrefix_spec in E as (pre & -> & <- & Hpre & _). apply Forall_app in Hl as [_ Hq].
    apply NameBodySize_spec in H as (body & tl & -> & Hb & ->); [|by inversion Hpre|done].
    exists (pre ++ body), tl. rewrite (assoc_L (++)), length_app. split_and!; [done..|]. by exists root, pre, body.
  - intros (nm & tl & -> & -> & root & pre & body & -> & Hpre & Hb).
    rewrite <-(assoc_L (++)) in Hl |- *. pose proof Hl as Hl'. apply Forall_app in Hl' as [_ Hq].
    assert (NamePrefix (pre ++ body ++ tl) = Some (length pre, root, body ++ tl)) as ->.
    { apply NamePrefix_spec. exists pre. split_and!; [done..|]. intros ->.
      apply Forall_app in Hq as [Hq _]. destruct (NameBody_head _ _ Hb Hq) as (b & t & -> & H1 & H2).
      exists b, (t ++ tl). done. }
    cbn [mbind option_bind fst snd]. apply NameBodySize_spec; [by inversion Hpre|done|].
    exists body, tl. by rewrite length_app.
Qed.

(** * AcpiSdtDxe: from ASL paths to AML name strings and back

    A path is what both notations denote; [asl_text] and [aml_text] are its
    two encodings. *)
Record path : Type := mkPath { p_root : bool; p_parents : nat; p_segs : list (list Z) }.

(** An ASL segment: one to four characters, small letters allowed. *)
Definition asl_seg (s : list Z) : Prop :=
  exists c t, s = c :: t /\ (length t <= 3)%nat /\ Forall is_byte s /\ AmlIsAslLeadName (char8 c) = true /\
    Forall (fun b => AmlIsAslName (char8 b) = true) t.

Definition lead_text (P : path) : list Z :=
  if p_root P then [AML_ROOT_CHAR] else replicate (p_parents P) AML_PARENT_PREFIX_CHAR.
(** The segments between dots. *)
Fixpoint dotted (ss : list (list Z)) : list Z :=
  match ss with
  | [] => []
  | s :: ss => s ++ match ss with [] => [] | _ => 0x2E :: dotted ss end
  end.
Definition asl_string (P : path) : list Z := lead_text P ++ dotted (p_segs P).

(** A segment of four capital letters. *)
Definition pad (s : list Z) : list Z := (upper <$> s) ++ replicate (AML_NAME_SEG_SIZE - length s) AML_NAME_CHAR__.
Definition count_text (n : nat) : list Z :=
  if (2 <? n)%nat then [AML_MULTI_NAME_PREFIX; Z.of_nat n] else if (n =? 2)%nat then [AML_DUAL_NAME_PREFIX] else [].
Definition aml_string (P : path) : list Z :=
  lead_text P ++ count_text (length (p_segs P)) ++ concat (pad <$> p_segs P).

Definition wf_path (P : path) : Prop := Forall asl_seg (p_segs P) /\ (length (p_segs P) <= 255)%nat.

(** ** Measuring an ASL path *)
Lemma asl_char b :
  AmlIsAslName (char8 b) = true -> is_byte b ->
  b <> AML_ROOT_CHAR /\ b <> AML_PARENT_PREFIX_CHAR /\ b <> 0x2E /\ b <> 0.
Proof.
  unfold AmlIsAslName, AmlIsAslLeadName, AmlIsLeadName, AML_ROOT_CHAR, AML_PARENT_PREFIX_CHAR.
  rewrite !orb_true_iff, !between_spec, Z.eqb_eq. unfold char8, is_byte. destruct (Z.ltb_spec b 128); lia.
Qed.

Lemma asl_lead b : AmlIsAslLeadName (char8 b) = true -> AmlIsAslName (char8 b) = true.
Proof. unfold AmlIsAslName. by intros ->. Qed.

Definition ends_seg (c : Z) : Prop := c = 0 \/ c = 0x2E.

Lemma ends_seg_true c : ends_seg c -> (c =? 0) || (c =? 0x2E) = true.
Proof. by intros [->| ->]. Qed.
Lemma ends_seg_false b : AmlIsAslName (char8 b) = true -> is_byte b -> (b =? 0) || (b =? 0x2E) = false.
Proof. intros H Hb. apply asl_char in H as (_ & _ & H1 & H2); [|done]. lia. Qed.

Lemma AslSegRest_seg t : forall L n c tl,
  t <> [] -> (length t <= n)%nat -> ends_seg c -> Forall is_byte t -> Forall (fun b => AmlIsAslName (char8 b) = true) t ->
  AslSegRest (t ++ c :: tl) L n = Some (L + length t)%nat.
Proof.
  induction t as [|b t IH]; intros L n c tl Hne Hn Hc Hb Ht; [done|]. destruct n as [|n]; [cbn in Hn; lia|].
  apply Forall_cons in Hb as [Hb0 Hb]. apply Forall_cons in Ht as [Ht0 Ht].
  cbn [app AslSegRest peek head mbind option_bind]. rewrite Ht0. cbn [drop]. rewrite drop_0.
  destruct t as [|b' t].
  - cbn [app peek head mbind option_bind]. rewrite ends_seg_true by done. cbn. f_equal. lia.
  - pose proof Hb as Hb'. pose proof Ht as Ht'. apply Forall_cons in Hb' as [Hb1 _]. apply Forall_cons in Ht' as [Ht1 _].
    rewrite <-app_comm_cons. cbn [peek head mbind option_bind]. rewrite ends_seg_false by done.
    rewrite app_comm_cons, IH; [f_equal; cbn; lia|done|cbn in *; lia|done..].
Qed.

Lemma AmlGetAslNameSegLength_seg s c tl :
  asl_seg s -> ends_seg c -> AmlGetAslNameSegLength (s ++ c :: tl) = Some (length s).
Proof.
  intros (b & t & -> & Hl & Hb & Hlead & Ht) Hc. apply Forall_cons in Hb as [Hb0 Hb].
  pose proof (asl_char b (asl_lead _ Hlead) Hb0) as (_ & _ & _ & H0).
  unfold AmlGetAslNameSegLength. cbn [app peek head mbind option_bind].
  rewrite (proj2 (Z.eqb_neq b 0) H0), Hlead. cbn [drop]. rewrite drop_0.
  destruct t as [|b' t].
  - cbn [app peek head mbind option_bind]. by rewrite ends_seg_true.
  - pose proof Hb as Hb'. pose proof Ht as Ht'. apply Forall_cons in Hb' as [Hb1 _]. apply Forall_cons in Ht' as [Ht1 _].
    rewrite <-app_comm_cons. cbn [peek head mbind option_bind]. rewrite ends_seg_false by done.
    rewrite app_comm_cons, AslSegRest_seg by done. done.
Qed.

Lemma asl_seg_length s : asl_seg s -> (1 <= length s <= AML_NAME_SEG_SIZE)%nat.
Proof. intros (c & t & -> & H & _). cbn. unfold AML_NAME_SEG_SIZE. lia. Qed.

Lemma asl_seg_head s : asl_seg s ->
  exists c t, s = c :: t /\ c <> AML_ROOT_CHAR /\ c <> AML_PARENT_PREFIX_CHAR /\ c <> 0x2E /\ c <> 0.
Proof.
  intros (c & t & -> & _ & Hb & Hc & _). apply Forall_cons in Hb as [Hb _]. exists c, t. split; [done|].
  apply asl_char; [by apply asl_lead|done].
Qed.

(** What follows a segment. *)
Definition after_seg (ss : list (list Z)) (tl : list Z) : list Z :=
  match ss with [] => 0 :: tl | _ => 0x2E :: dotted ss ++ 0 :: tl end.

Lemma dotted_cons s ss tl : dotted (s :: ss) ++ 0 :: tl = s ++ after_seg ss tl.
Proof. cbn [dotted]. rewrite <-(assoc_L (++)). by destruct ss. Qed.

Lemma after_seg_length s ss tl :
  asl_seg s -> AmlGetAslNameSegLength (s ++ after_seg ss tl) = Some (length s).
Proof. intros H. destruct ss; (apply AmlGetAslNameSegLength_seg; [done|]); [by left|by right]. Qed.

Lemma AslSegs_spec ss (tl : list Z) : forall fuel k,
  Forall asl_seg ss -> (length (dotted ss ++ 0%Z :: tl) < fuel)%nat ->
  AslSegs fuel (dotted ss ++ 0 :: tl) k = Some (Some (k + length ss)%nat).
Proof.
  induction ss as [|s ss IH]; intros fuel k Hss Hf; (destruct fuel as [|fuel]; [lia|]).
  { cbn. do 2 f_equal. lia. }
  apply Forall_cons in Hss as [Hs Hss]. rewrite dotted_cons in Hf |- *.
  destruct (asl_seg_head s Hs) as (c & t & E & _ & _ & _ & Hc). pose proof (asl_seg_length s Hs) as Hl.
  cbn [AslSegs]. rewrite after_seg_length by done. rewrite E at 1. rewrite <-app_comm_cons. cbn [peek head mbind option_bind].
  rewrite (proj2 (Z.eqb_neq c 0) Hc), (proj2 (Nat.eqb_neq (length s) 0)), (proj2 (Nat.ltb_ge AML_NAME_SEG_SIZE (length s))) by lia.
  cbn [orb]. rewrite drop_app_length. rewrite length_app in Hf. destruct ss as [|s' ss].
  - cbn. do 2 f_equal. lia.
  - cbn [after_seg] in Hf |- *. cbn [peek head mbind option_bind drop Z.eqb]. rewrite drop_0, IH; [|done|cbn [length] in Hf; lia].
    do 2 f_equal. cbn. lia.
Qed.

Lemma dotted_head P tl : wf_path P ->
  exists b t, dotted (p_segs P) ++ 0 :: tl = b :: t /\ b <> AML_PARENT_PREFIX_CHAR /\ b <> AML_ROOT_CHAR.
Proof.
  intros [H _]. destruct (p_segs P) as [|s ss].
  - exists 0, tl. split; [done|]. unfold AML_PARENT_PREFIX_CHAR, AML_ROOT_CHAR. lia.
  - apply Forall_cons in H as [H _]. destruct (asl_seg_head s H) as (c & t & -> & H1 & H2 & _).
    rewrite dotted_cons. by exists c, (t ++ after_seg ss tl).
Qed.

Lemma lead_prefix P : aml_prefix (p_root P) (lead_text P).
Proof. unfold lead_text. destruct (p_root P); constructor. Qed.

Lemma NamePrefix_asl P tl : wf_path P ->
  NamePrefix (asl_string P ++ 0 :: tl) = Some (length (lead_text P), p_root P, dotted (p_segs P) ++ 0 :: tl).
Proof.
  intros H. unfold asl_string. rewrite <-(assoc_L (++)). apply NamePrefix_spec. exists (lead_text P).
  split_and!; [done..|apply lead_prefix|]. intros _. destruct (dotted_head P tl H) as (b & t & -> & H1 & H2). by exists b, t.
Qed.

Lemma pad_length s : asl_seg s -> length (pad s) = AML_NAME_SEG_SIZE.
Proof. intros H. apply asl_seg_length in H. unfold pad. rewrite length_app, length_fmap, length_replicate. lia. Qed.

Lemma length_pads ss : Forall asl_seg ss -> length (concat (pad <$> ss)) = (AML_NAME_SEG_SIZE * length ss)%nat.
Proof.
  induction 1 as [|s ss Hs _ IH]; [done|]. cbn [fmap list_fmap concat]. rewrite length_app, pad_length, IH by done.
  cbn [length]. lia.
Qed.

Lemma AmlGetAslNameStringSize_spec P tl : wf_path P ->
  AmlGetAslNameStringSize (asl_string P ++ 0 :: tl) =
  Some (mkAslSize (length (aml_string P ++ [0])) (Nat.b2n (p_root P)) (if p_root P then 0%nat else p_parents P) (length (p_segs P))).
Proof.
  intros H. unfold AmlGetAslNameStringSize. rewrite NamePrefix_asl by done. cbn [mbind option_bind fst snd].
  destruct H as [Hss Hn]. unfold AslSize. rewrite AslSegs_spec by (done || lia). cbn [mbind option_bind].
  rewrite Nat.add_0_l. do 2 f_equal.
  - unfold AslTotalLength, aml_string, lead_text, count_text. rewrite (proj2 (Nat.ltb_ge 255 _)) by done.
    rewrite !length_app, length_pads by done.
    destruct (p_root P), (2 <? length (p_segs P))%nat, (length (p_segs P) =? 2)%nat; rewrite ?length_replicate; cbn [length Nat.b2n]; lia.
  - unfold lead_text. destruct (p_root P); [done|]. by rewrite length_replicate.
Qed.

(** ** Encoding *)
Lemma wp_rd {A} (o : option A) a Q s : o = Some a -> Q a s -> wp (rd o) Q s.
Proof. intros -> H. unfold rd. rewrite wp_deref. eauto. Qed.

Lemma wp_put_at off bs (Q : unit -> st -> Prop) s a b c :
  AmlPath s = a ++ b ++ c -> length a = off -> length b = length bs ->
  Q tt (mkSt (a ++ bs ++ c) (Printed s)) -> wp (put_at off bs) Q s.
Proof.
  intros Hp Ha Hb HQ. unfold put_at. wp_steps. rewrite Hp, !length_app.
  destruct (Nat.leb_spec (off + length bs) (length a + (length b + length c))); [|lia].
  rewrite wp_put. rewrite take_app_length' by done. rewrite (assoc_L (++) a b c), drop_app_length'; [done|].
  rewrite length_app. lia.
Qed.

Lemma split_block (b : list Z) n : (n <= length b)%nat -> exists x y, b = x ++ y /\ length x = n /\ length y = (length b - n)%nat.
Proof.
  intros H. exists (take n b), (drop n b). rewrite take_drop, length_take, length_drop. split_and!; [done|lia|done].
Qed.

(** One segment, written over [b]. *)
Lemma wp_seg s tl off (Q : unit -> st -> Prop) σ a b c :
  asl_seg s -> AmlPath σ = a ++ b ++ c -> length a = off -> length b = AML_NAME_SEG_SIZE ->
  Q tt (mkSt (a ++ pad s ++ c) (Printed σ)) ->
  wp (AmlUpperCaseCopyMem off (s ++ tl) (length s);;
      put_at (off + length s) (replicate (AML_NAME_SEG_SIZE - length s) AML_NAME_CHAR__)) Q σ.
Proof.
  intros Hs Hp Ha Hb HQ. pose proof (asl_seg_length s Hs) as Hl.
  destruct (split_block b (length s)) as (x & y & -> & Hx & Hy); [lia|]. rewrite <-(assoc_L (++)) in Hp.
  unfold AmlUpperCaseCopyMem. wp_step. wp_step. eapply wp_rd.
  { rewrite (proj2 (Nat.leb_le _ _)); [reflexivity|]. rewrite length_app. lia. }
  rewrite take_app_length. eapply (wp_put_at _ _ _ _ a x (y ++ c)); [done..| |]; [by rewrite length_fmap|].
  eapply (wp_put_at _ _ _ _ (a ++ (upper <$> s)) y c).
  - cbn. by rewrite <-!(assoc_L (++)).
  - rewrite length_app, length_fmap. lia.
  - rewrite length_replicate, Hy. lia.
  - cbn. unfold pad in HQ. by rewrite <-!(assoc_L (++)) in HQ |- *.
Qed.

Lemma EncodeSegs_spec ss tl : forall fuel off σ a b c (Q : unit -> st -> Prop),
  Forall asl_seg ss -> (length (dotted ss ++ 0%Z :: tl) < fuel)%nat ->
  AmlPath σ = a ++ b ++ c -> length a = off -> length b = (AML_NAME_SEG_SIZE * length ss)%nat ->
  Q tt (mkSt (a ++ concat (pad <$> ss) ++ c) (Printed σ)) ->
  wp (EncodeSegs fuel (dotted ss ++ 0 :: tl) off) Q σ.
Proof.
  induction ss as [|s ss IH]; intros fuel off σ a b c Q Hss Hf Hp Ha Hb HQ; (destruct fuel as [|fuel]; [lia|]).
  { cbn [EncodeSegs dotted app peek head]. wp_step. apply (wp_rd _ 0); [done|]. cbn [Z.eqb]. rewrite wp_ret.
    destruct b; [|discriminate Hb]. cbn in HQ, Hp. rewrite <-Hp in HQ. by destruct σ. }
  apply Forall_cons in Hss as [Hs Hss]. rewrite dotted_cons in Hf |- *.
  destruct (asl_seg_head s Hs) as (h & t & E & _ & _ & _ & Hc). pose proof (asl_seg_length s Hs) as Hl.
  cbn [EncodeSegs]. wp_step. apply (wp_rd _ h); [by rewrite E|]. rewrite (proj2 (Z.eqb_neq h 0) Hc).
  wp_step. eapply wp_rd; [by apply after_seg_length|]. wp_step. rewrite wp_ASSERT. split.
  { rewrite (proj2 (Nat.eqb_neq (length s) 0)), (proj2 (Nat.leb_le (length s) _)) by lia. done. }
  destruct (split_block b AML_NAME_SEG_SIZE) as (x & y & -> & Hx & Hy); [cbn [length] in Hb; lia|].
  rewrite <-(assoc_L (++)) in Hp. rewrite wp_bind_bind.
  eapply (wp_seg s _ off _ σ a x (y ++ c)); [done..|]. wp_step. rewrite drop_app_length.
  assert (length (a ++ pad s) = (off + AML_NAME_SEG_SIZE)%nat) as Ha' by (rewrite length_app, pad_length by done; lia).
  cbn [fmap list_fmap concat] in HQ. rewrite <-(assoc_L (++)), (assoc_L (++) a) in HQ.
  rewrite length_app in Hf, Hb. cbn [length] in Hb. destruct ss as [|s' ss].
  - apply (wp_rd _ 0); [done|]. cbn [Z.eqb]. rewrite wp_ret. cbn in HQ. destruct y; [|cbn [length] in Hb; unfold AML_NAME_SEG_SIZE in *; lia]. by rewrite <-(assoc_L (++)) in HQ.
  - apply (wp_rd _ 0x2E); [done|]. cbn [after_seg Z.eqb drop] in Hf |- *. rewrite drop_0.
    eapply (IH fuel _ _ (a ++ pad s) y c); [done|cbn [length] in Hf; lia| |done| |done].
    + cbn. by rewrite <-!(assoc_L (++)).
    + lia.
Qed.

Definition allocates (AllocatePool : nat -> option (list Z)) : Prop :=
  forall n, exists block, AllocatePool n = Some block /\ length block = n.

Lemma EncodeCount_spec n off σ a b c (Q : nat -> st -> Prop) :
  (n <= 255)%nat -> AmlPath σ = a ++ b ++ c -> length a = off -> length b = length (count_text n) ->
  Q (off + length (count_text n))%nat (mkSt (a ++ count_text n ++ c) (Printed σ)) -> wp (EncodeCount off n) Q σ.
Proof.
  intros Hn Hp Ha Hb HQ. unfold EncodeCount, count_text in *. destruct (Nat.ltb_spec 2 n).
  - destruct b as [|b1 [|b2 [|]]]; try discriminate Hb. wp_step.
    eapply (wp_put_at _ _ _ _ a [b1] (b2 :: c)); [done..|]. wp_step.
    eapply (wp_put_at _ _ _ _ (a ++ [AML_MULTI_NAME_PREFIX]) [b2] c).
    + cbn. by rewrite <-(assoc_L (++)).
    + rewrite length_app. cbn. lia.
    + done.
    + rewrite wp_ret. cbn. rewrite <-(assoc_L (++)). unfold u8. rewrite Z.mod_small by lia. done.
  - destruct (Nat.eqb_spec n 2).
    + destruct b as [|b1 [|]]; try discriminate Hb. wp_step. eapply (wp_put_at _ _ _ _ a [b1] c); done.
    + destruct b; [|discriminate Hb]. rewrite wp_ret. rewrite Nat.add_0_r in HQ. cbn in *. rewrite <-Hp in HQ. by destruct σ.
Qed.

Lemma lead_write P σ b c (Q : nat -> st -> Prop) :
  AmlPath σ = b ++ c -> length b = length (lead_text P) ->
  Q (length (lead_text P)) (mkSt (lead_text P ++ c) (Printed σ)) ->
  wp (if (Nat.b2n (p_root P) =? 1)%nat then put_at 0 [AML_ROOT_CHAR];; mret 1%nat
      else if (0 <? (if p_root P then 0%nat else p_parents P))%nat
      then put_at 0 (replicate (if p_root P then 0%nat else p_parents P) AML_PARENT_PREFIX_CHAR);;
           mret (if p_root P then 0%nat else p_parents P)
      else mret 0%nat) Q σ.
Proof.
  unfold lead_text. destruct (p_root P); cbn [Nat.b2n Nat.eqb]; intros Hp Hb HQ.
  - wp_step. by eapply (wp_put_at _ _ _ _ [] b c).
  - rewrite length_replicate in *. destruct (Nat.ltb_spec 0 (p_parents P)).
    + wp_step. eapply (wp_put_at _ _ _ _ [] b c); [done..|by rewrite length_replicate|done].
    + assert (p_parents P = 0%nat) as E by lia. rewrite E in *. destruct b; [|discriminate Hb].
      cbn in Hp, HQ. rewrite <-Hp in HQ. rewrite wp_ret. by destruct σ.
Qed.

Lemma AmlNameFromAslName_spec alloc P tl σ :
  allocates alloc -> wf_path P ->
  wp (AmlNameFromAslName alloc (asl_string P ++ 0 :: tl))
     (fun r σ' => r = true /\ σ' = mkSt (aml_string P ++ [0]) (Printed σ)) σ.
Proof.
  intros Halloc HP. unfold AmlNameFromAslName. wp_step. eapply wp_rd; [by apply AmlGetAslNameStringSize_spec|].
  cbn [TotalLength Root Parent SegCount]. rewrite length_app. cbn [length].
  rewrite (proj2 (Nat.eqb_neq _ 0)) by lia. destruct (Halloc (length (aml_string P) + 1)%nat) as (block & -> & Hblock).
  wp_step. cbv iota. rewrite wp_ret. wp_step. rewrite wp_modify. unfold aml_string in Hblock. rewrite !length_app in Hblock.
  destruct (split_block block (length (lead_text P))) as (b1 & r1 & -> & H1 & Hr1); [lia|].
  rewrite length_app in Hblock.
  destruct (split_block r1 (length (count_text (length (p_segs P))))) as (b2 & r2 & -> & H2 & Hr2); [lia|].
  rewrite length_app in Hblock.
  destruct (split_block r2 (length (concat (pad <$> p_segs P)))) as (b3 & r3 & -> & H3 & Hr3); [lia|].
  rewrite length_app in Hblock. destruct HP as [Hss Hn].
  wp_step. eapply (lead_write P _ b1); [done..|]. cbn [Printed].
  wp_step. eapply (EncodeCount_spec _ _ _ (lead_text P) b2); [done..|]. cbn [Printed].
  assert (drop (length (lead_text P)) (asl_string P ++ 0 :: tl) = dotted (p_segs P) ++ 0 :: tl) as ->
    by (unfold asl_string; by rewrite <-(assoc_L (++)), drop_app_length).
  wp_step.
  eapply (EncodeSegs_spec _ _ _ _ _ (lead_text P ++ count_text (length (p_segs P))) b3 r3); [done|lia|by rewrite <-(assoc_L (++))|by rewrite length_app|by rewrite H3, length_pads|].
  wp_step. eapply (wp_put_at _ _ _ _ (aml_string P) r3 []); [| |cbn; lia|].
  - cbn. unfold aml_string. by rewrite app_nil_r, <-!(assoc_L (++)).
  - lia.
  - rewrite wp_ret. done.
Qed.
