(* ===== verification/AmlStringClaims.v ===== *)
(** * AcpiSdtDxe: printing AML names, and the claims on name strings *)
From S2P Require Import Prelude Bytes AmlString AmlStringProofs.

(** ** The encoding is in the grammar *)
Lemma upper_lead b : AmlIsAslLeadName (char8 b) = true -> is_byte b -> AmlIsLeadName (char8 (upper b)) = true.
Proof.
  unfold AmlIsAslLeadName, AmlIsLeadName, upper, is_byte.
  rewrite !orb_true_iff, !between_spec, !Z.eqb_eq. intros H Hb. unfold char8 in *.
  destruct (between 0x61 0x7A b) eqn:E;
    [apply between_spec in E|rewrite <-not_true_iff_false, between_spec in E]; repeat case_match; lia.
Qed.

Lemma upper_name b : AmlIsAslName (char8 b) = true -> is_byte b -> AmlIsName (char8 (upper b)) = true.
Proof.
  unfold AmlIsAslName, AmlIsName. rewrite orb_true_iff. intros [H|H] Hb.
  - by rewrite upper_lead.
  - apply orb_true_iff. right. apply char8_between in H; [|lia..|done]. unfold upper.
    destruct (between 0x61 0x7A b) eqn:E; [apply between_spec in E; lia|]. unfold char8. apply between_spec.
    destruct (Z.ltb_spec b 128); lia.
Qed.

Lemma upper_byte b : is_byte b -> is_byte (upper b).
Proof.
  unfold upper, is_byte. destruct (between 0x61 0x7A b) eqn:E; [apply between_spec in E; lia|done].
Qed.

Lemma pad_seg s : asl_seg s -> name_seg (pad s) /\ Forall is_byte (pad s).
Proof.
  intros H. split; [split; [by apply pad_length|]|].
  - destruct H as (c & t & -> & _ & Hb & Hc & Ht). apply Forall_cons in Hb as [Hb0 Hb]. unfold pad. cbn [fmap list_fmap app].
    eexists _, _. split; [done|]. split; [by apply upper_lead|]. apply Forall_app. split.
    + apply Forall_fmap. rewrite Forall_forall in Ht, Hb |- *. intros x Hx. apply upper_name; auto.
    + apply Forall_replicate. done.
  - destruct H as (c & t & -> & _ & Hb & _). unfold pad. apply Forall_app. split.
    + apply Forall_fmap. eapply Forall_impl; [exact Hb|]. intros x Hx. by apply upper_byte.
    + apply Forall_replicate. unfold is_byte, AML_NAME_CHAR__. lia.
Qed.

(** What ends the name: a null name after the root alone, otherwise nothing. *)
Definition null_name (P : path) : list Z := match p_segs P with [] => [0] | _ => [] end.

Lemma pads_segs ss : Forall asl_seg ss -> Forall name_seg (pad <$> ss) /\ Forall is_byte (concat (pad <$> ss)).
Proof.
  induction 1 as [|s ss Hs _ [IH1 IH2]]; [by split|]. apply pad_seg in Hs as [H1 H2]. cbn. split; [by constructor|].
  by apply Forall_app.
Qed.

Lemma aml_string_NameString P :
  wf_path P -> p_root P = true \/ p_segs P <> [] -> NameString (aml_string P ++ null_name P).
Proof.
  intros [Hss Hn] H. exists (p_root P), (lead_text P), (count_text (length (p_segs P)) ++ concat (pad <$> p_segs P) ++ null_name P).
  unfold aml_string, null_name. rewrite <-!(assoc_L (++)). split; [done|]. split; [apply lead_prefix|].
  destruct (pads_segs _ Hss) as [Hsegs _]. destruct (p_segs P) as [|s1 [|s2 [|s3 ss]]]; cbn [length fmap list_fmap] in *.
  - cbn. destruct H as [-> |?]; [constructor|done].
  - cbn. rewrite !app_nil_r. apply Forall_cons in Hsegs as [? _]. by constructor.
  - cbn. rewrite !app_nil_r. rewrite !Forall_cons in Hsegs. destruct Hsegs as (? & ? & _). by constructor.
  - rewrite app_nil_r. unfold count_text. cbn [Nat.ltb Nat.leb app]. constructor; [|done].
    rewrite ?length_fmap. cbn [length] in *. rewrite ?length_fmap. lia.
Qed.

Lemma aml_string_bytes P : wf_path P -> Forall is_byte (aml_string P).
Proof.
  intros [Hss Hn]. unfold aml_string, lead_text, count_text. repeat apply Forall_app_2.
  - unfold is_byte, AML_ROOT_CHAR, AML_PARENT_PREFIX_CHAR. destruct (p_root P).
    + apply Forall_singleton. lia.
    + apply Forall_replicate. lia.
  - unfold is_byte, AML_MULTI_NAME_PREFIX, AML_DUAL_NAME_PREFIX. repeat case_match; repeat constructor; lia.
  - by apply pads_segs.
Qed.

(** ** Printing *)
(** The padding can be told from the name: it does not end in an underscore,
    or is one. *)
Definition printable (s : list Z) : Prop := length s = 1%nat \/ last s <> Some AML_NAME_CHAR__.

Lemma upper_underscore b : (upper b =? AML_NAME_CHAR__) = (b =? AML_NAME_CHAR__).
Proof.
  unfold upper, AML_NAME_CHAR__. destruct (between 0x61 0x7A b) eqn:E; [|done].
  apply between_spec in E. destruct (Z.eqb_spec b 0x5F); lia.
Qed.

(** The state after printing [cs]. *)
Definition prints (cs : list Z) (σ : st) : st := mkSt (AmlPath σ) (Printed σ ++ cs).
Lemma prints_app x y σ : prints (x ++ y) σ = prints y (prints x σ).
Proof. unfold prints. cbn. by rewrite (assoc_L (++)). Qed.
Lemma prints_nil σ : prints [] σ = σ.
Proof. destruct σ. unfold prints. cbn. by rewrite app_nil_r. Qed.

Lemma print_seg_run s tl σ :
  asl_seg s -> printable s -> AmlPrintNameSeg (pad s ++ tl) σ = Done tt (prints (upper <$> s) σ).
Proof.
  intros (c & t & -> & Hl & _) Hp. unfold pad, prints.
  destruct t as [|c1 [|c2 [|c3 [|]]]]; cbn [length] in Hl; [| | | |exfalso; lia].
  - done.
  - destruct Hp as [Hp|Hp]; [discriminate Hp|]. cbn in Hp.
    assert ((c1 =? AML_NAME_CHAR__) = false) as E by (apply Z.eqb_neq; congruence).
    unfold AmlPrintNameSeg, print, rd, modify, deref, mbind, M_bind. cbn -[Z.eqb AML_NAME_CHAR__].
    rewrite upper_underscore, E, Z.eqb_refl. cbn. by rewrite <-!(assoc_L (++)).
  - destruct Hp as [Hp|Hp]; [discriminate Hp|]. cbn in Hp.
    assert ((c2 =? AML_NAME_CHAR__) = false) as E by (apply Z.eqb_neq; congruence).
    unfold AmlPrintNameSeg, print, rd, modify, deref, mbind, M_bind. cbn -[Z.eqb AML_NAME_CHAR__].
    rewrite !upper_underscore, E, Z.eqb_refl, andb_false_r. cbn. by rewrite <-!(assoc_L (++)).
  - destruct Hp as [Hp|Hp]; [discriminate Hp|]. cbn in Hp.
    assert ((c3 =? AML_NAME_CHAR__) = false) as E by (apply Z.eqb_neq; congruence).
    unfold AmlPrintNameSeg, print, rd, modify, deref, mbind, M_bind. cbn -[Z.eqb AML_NAME_CHAR__].
    rewrite !upper_underscore, E, !andb_false_r. cbn. by rewrite <-!(assoc_L (++)).
Qed.

Lemma run_bind {A B} (m : M st A) (f : A -> M st B) σ a σ' :
  m σ = Done a σ' -> (m ≫= f) σ = f a σ'.
Proof. unfold mbind, M_bind. by intros ->. Qed.
Lemma run_rd {A} (o : option A) a σ : o = Some a -> rd o σ = Done a σ.
Proof. by intros ->. Qed.

Lemma print_all_run n c σ : print_all n c σ = Done tt (prints (replicate n c) σ).
Proof.
  revert σ. induction n as [|n IH]; intros σ; [by rewrite prints_nil|]. cbn [print_all replicate].
  rewrite (run_bind _ _ _ tt (prints [c] σ)) by done. rewrite IH, <-prints_app. done.
Qed.

Lemma dotted_upper s ss :
  upper <$> dotted (s :: ss) = (upper <$> s) ++ match ss with [] => [] | _ => 0x2E :: (upper <$> dotted ss) end.
Proof. cbn [dotted]. rewrite fmap_app. by destruct ss. Qed.

Lemma print_names_run ss : forall s tl σ,
  Forall asl_seg (s :: ss) -> Forall printable (s :: ss) ->
  (AmlPrintNameSeg (concat (pad <$> s :: ss) ++ tl);;
   PrintSegs (length ss) (drop AML_NAME_SEG_SIZE (concat (pad <$> s :: ss) ++ tl))) σ =
  Done tt (prints (upper <$> dotted (s :: ss)) σ).
Proof.
  induction ss as [|s' ss IH]; intros s tl σ Hs Hp; apply Forall_cons in Hs as [Hs Hss]; apply Forall_cons in Hp as [Hp Hps];
    cbn [fmap list_fmap concat]; rewrite <-(assoc_L (++)), (run_bind _ _ _ _ _ (print_seg_run _ _ _ Hs Hp)).
  - rewrite dotted_upper, app_nil_r. done.
  - rewrite name_seg_drop by (by apply pad_seg). cbn [length PrintSegs]. rewrite (run_bind _ _ _ tt (prints [0x2E] (prints (upper <$> s) σ))) by done.
    specialize (IH s' tl (prints [0x2E] (prints (upper <$> s) σ)) Hss Hps). cbn [fmap list_fmap concat] in IH.
    etransitivity; [exact IH|]. rewrite (dotted_upper s), <-!prints_app. by rewrite <-?(assoc_L (++)).
Qed.

(** What follows the root or the parents does not look like them. *)
Lemma body_head P tl : wf_path P ->
  exists b t, count_text (length (p_segs P)) ++ concat (pad <$> p_segs P) ++ 0 :: tl = b :: t /\
    b <> AML_PARENT_PREFIX_CHAR /\ b <> AML_ROOT_CHAR.
Proof.
  intros [Hss _]. unfold AML_PARENT_PREFIX_CHAR, AML_ROOT_CHAR. destruct (p_segs P) as [|s1 [|s2 [|s3 ss]]].
  - by exists 0, tl.
  - apply Forall_cons in Hss as [H _]. apply pad_seg in H as [[_ (c & t & Hc & H & _)] Hb]. cbn.
    rewrite Hc in Hb |- *. apply Forall_cons in Hb as [Hb _]. apply lead_special in H as (H1 & H2 & _); [|done].
    cbn. eexists _, _. split; [done|]. split; [exact H2|exact H1].
  - eexists _, _. split; [done|done].
  - eexists _, _. split; [done|done].
Qed.

Lemma AmlPrintNameString_run P tl σ :
  wf_path P -> Forall printable (p_segs P) ->
  AmlPrintNameString (aml_string P ++ 0 :: tl) σ = Done tt (prints (upper <$> asl_string P) σ).
Proof.
  intros HP Hprint. pose proof (body_head P tl HP) as Hhead. unfold aml_string. rewrite <-!(assoc_L (++)).
  set (q := count_text _ ++ _) in *. unfold AmlPrintNameString.
  assert (exists b, peek (lead_text P ++ q) = Some b /\
    forall A (k : list Z -> M st A),
    (p ← (if b =? AML_ROOT_CHAR then print 0x5C;; mret (drop 1 (lead_text P ++ q))
          else r ← rd (SkipParents (lead_text P ++ q)); print_all r.1 0x5E;; mret r.2); k p) σ =
    k q (prints (upper <$> lead_text P) σ)) as (b & Hb & Hrun).
  { unfold lead_text. destruct (p_root P).
    - exists AML_ROOT_CHAR. split; [done|]. intros A k. cbn. by rewrite drop_0.
    - destruct Hhead as (c & t & -> & Hc1 & Hc2). assert (SkipParents (replicate (p_parents P) AML_PARENT_PREFIX_CHAR ++ c :: t) = Some (p_parents P, c :: t)) as ->.
      { apply SkipParents_spec. split; [done|]. by exists c, t. }
      destruct (p_parents P) as [|n]; cbn [replicate app peek head].
      + exists c. split; [done|]. intros A k. rewrite (proj2 (Z.eqb_neq _ _) Hc2). cbn. by rewrite prints_nil.
      + exists AML_PARENT_PREFIX_CHAR. split; [done|]. intros A k. cbn -[print_all].
        unfold mbind at 1, M_bind. rewrite (run_bind _ _ _ _ _ (run_rd _ _ _ eq_refl)). cbn [fst snd].
        rewrite (run_bind _ _ _ _ _ (print_all_run _ _ _)). cbn. by rewrite fmap_replicate. }
  rewrite (run_bind _ _ _ _ _ (run_rd _ _ _ Hb)), Hrun. unfold asl_string. rewrite fmap_app, prints_app.
  set (σ1 := prints (upper <$> lead_text P) σ) in *. subst q. destruct HP as [Hss Hn]. clear Hrun Hb Hhead.
  destruct (p_segs P) as [|s1 ss] eqn:Es.
  { cbn. by rewrite prints_nil. }
  pose proof (print_names_run ss s1 (0 :: tl) σ1 Hss Hprint) as Hrun.
  unfold count_text. destruct ss as [|s2 [|s3 ss]].
  - pose proof Hss as H. apply Forall_cons in H as [H _]. apply pad_seg in H as [[_ (c & t & Hc & H & _)] Hb].
    cbn [length Nat.ltb Nat.leb Nat.eqb app]. cbn [fmap list_fmap concat] in Hrun |- *. rewrite Hc in Hb, Hrun |- *.
    apply Forall_cons in Hb as [Hb _]. apply lead_special in H as (_ & _ & H3 & H4 & H5); [|done].
    rewrite <-!app_comm_cons in Hrun |- *. rewrite (run_bind _ _ _ _ _ (run_rd _ c _ eq_refl)).
    rewrite !(proj2 (Z.eqb_neq c _)) by done. exact Hrun.
  - exact Hrun.
  - cbn [length Nat.ltb Nat.leb app]. rewrite (run_bind _ _ _ _ _ (run_rd _ AML_MULTI_NAME_PREFIX _ eq_refl)).
    cbn [Z.eqb Pos.eqb AML_MULTI_NAME_PREFIX AML_DUAL_NAME_PREFIX].
    rewrite (run_bind _ _ _ (Z.of_nat (S (S (S (length ss))))) σ1) by done. cbn [drop]. rewrite drop_0.
    unfold PrintNames. replace (Z.to_nat (Z.of_nat (S (S (S (length ss)))) - 1)) with (length (s2 :: s3 :: ss)) by (cbn [length]; lia).
    exact Hrun.
Qed.

(** ** The claims *)

(** C23: AmlGetNameStringSize is a recognizer of the AML NameString grammar:
    it succeeds on a buffer of bytes exactly when a NameString is a prefix of
    it (an optional root or any number of parent prefixes, then one segment,
    two after the dual prefix, the counted segments after the multi-name
    prefix, or the null name after the root), and the size it returns is the
    length of that prefix. *)
Theorem aml_name_string_grammar (l : list Z) (n : Z) :
  Forall is_byte l ->
  AmlGetNameStringSize l = Some (EFI_SUCCESS, n) <->
  exists nm tl, l = nm ++ tl /\ n = Z.of_nat (length nm) /\ NameString nm.
Proof. apply AmlGetNameStringSize_spec. Qed.

(** C24: For every path of at most 255 valid ASL segments, AmlNameFromAslName
    writes exactly the AML encoding of the path (root or parents, the dual or
    multi-name prefix, the segments in capitals padded with underscores, the
    terminator) within the block of the size it computed, whatever the block
    held; the result is a NameString that AmlGetNameStringSize measures
    unless it is relative with no segment; and AmlPrintNameString prints back
    the ASL path in capitals. *)
Theorem aml_roundtrip (alloc : nat -> option (list Z)) (P : path) (tl : list Z) (σ : st) :
  allocates alloc -> wf_path P -> Forall printable (p_segs P) ->
  wp (r ← AmlNameFromAslName alloc (asl_string P ++ 0 :: tl);
      name ← gets AmlPath; AmlPrintNameString name;; mret r)
     (fun r σ' =>
        r = true /\ AmlPath σ' = aml_string P ++ [0] /\
        (p_root P = true \/ p_segs P <> [] ->
         AmlGetNameStringSize (AmlPath σ') = Some (EFI_SUCCESS, Z.of_nat (length (aml_string P ++ null_name P)))) /\
        Printed σ' = Printed σ ++ (upper <$> asl_string P)) σ.
Proof.
  intros Halloc HP Hprint. wp_step. eapply wp_mono; [by apply AmlNameFromAslName_spec|].
  intros r σ1 (-> & ->). wp_steps. cbn [AmlPath].
  eapply (proj2 (wp_run _ _ _)). eexists _, _. split; [by apply AmlPrintNameString_run|].
  rewrite wp_ret. cbn. split_and!; [done..| |done]. intros H. apply AmlGetNameStringSize_spec.
  { apply Forall_app. split; [by apply aml_string_bytes|]. by repeat constructor. }
  exists (aml_string P ++ null_name P), (match p_segs P with [] => [] | _ => [0] end). split_and!; [|done|].
  - unfold null_name. destruct (p_segs P); [by rewrite app_nil_r|by rewrite app_nil_r].
  - by apply aml_string_NameString.
Qed.

(** *** Witnesses *)
Module AmlExample.
(* "\_SB.PCI0.ISA" *)
Definition name : list Z := [0x5C; 0x2F; 3; 0x5F; 0x53; 0x42; 0x5F; 0x50; 0x43; 0x49; 0x30; 0x49; 0x53; 0x41; 0x5F].
Definition the_path : path := mkPath true 0 [[0x5F; 0x73; 0x62]; [0x70; 0x63; 0x69; 0x30]; [0x69; 0x73; 0x61]].
Definition alloc (n : nat) : option (list Z) := Some (replicate n 0xAF).

Lemma the_path_wf : wf_path the_path /\ Forall printable (p_segs the_path).
Proof.
  split; [split|].
  - repeat constructor; eexists _, _; (split; [reflexivity|]); unfold is_byte; cbn; repeat constructor; try lia.
  - cbn. lia.
  - cbn. rewrite !Forall_cons. split_and!; [right; discriminate..|by apply Forall_nil].
Qed.

Lemma aml_name_string_grammar_witness :
  AmlGetNameStringSize (name ++ [7; 8]) = Some (EFI_SUCCESS, 15) /\
  exists nm tl, name ++ [7; 8] = nm ++ tl /\ 15 = Z.of_nat (length nm) /\ NameString nm.
Proof.
  split; [reflexivity|]. apply (aml_name_string_grammar (name ++ [7; 8]) 15); [|reflexivity].
  unfold is_byte. repeat constructor; lia.
Defined.

Lemma aml_roundtrip_witness :
  aml_string the_path = name /\
  wp (r ← AmlNameFromAslName alloc (asl_string the_path ++ [0]); n ← gets AmlPath; AmlPrintNameString n;; mret r)
     (fun r σ' => r = true /\ AmlPath σ' = name ++ [0] /\
        (p_root the_path = true \/ p_segs the_path <> [] ->
         AmlGetNameStringSize (AmlPath σ') = Some (EFI_SUCCESS, Z.of_nat (length (name ++ null_name the_path)))) /\
        Printed σ' = [] ++ (upper <$> asl_string the_path)) (mkSt [] []).
Proof.
  split; [reflexivity|]. apply (aml_roundtrip alloc the_path [] (mkSt [] [])); [|apply the_path_wf..].
  intros n. exists (replicate n 0xAF). split; [reflexivity|apply length_replicate].
Defined.

(** The readers are looser than the grammar they accept elsewhere: a segment
    may begin with a digit, and the name it yields is not a NameString. *)
Example digit_segment :
  AmlGetAslNameSegLength [0x31; 0x41; 0x42; 0] = Some 3%nat /\
  AmlGetNameStringSize [0x31; 0x41; 0x42; 0x5F] = Some (EFI_INVALID_PARAMETER, 0).
Proof. done. Qed.
End AmlExample.
