(* ===== verification/AmlParse.v ===== *)
(** * AcpiSdtDxe: the AML parser

    Models QemuPkg/AcpiSdtDxe/Aml.c, AmlOption.c and AmlChild.c.  The state is
    the memory that can be read, as a list of bytes; a pointer is an index
    into it, and a read outside of it is a [BadPointer] trap.  Functions that
    return a status have [None] for EFI_INVALID_PARAMETER, their only error,
    after which no caller uses the out-parameters. *)
From S2P Require Import Prelude Bytes AmlString.

(** ** Data *)
Definition AML_NONE : Z := 0.
Definition AML_OPCODE : Z := 1.
Definition AML_UINT8 : Z := 2.
Definition AML_UINT16 : Z := 3.
Definition AML_UINT32 : Z := 4.
Definition AML_UINT64 : Z := 5.
Definition AML_NAME : Z := 6.
Definition AML_STRING : Z := 7.
Definition AML_OBJECT : Z := 8.

Definition AML_HAS_PKG_LENGTH : Z := 0x1.
Definition AML_IS_NAME_CHAR : Z := 0x2.
Definition AML_HAS_CHILD_OBJ : Z := 0x4.
Definition AML_IN_NAMESPACE : Z := 0x10000.

Definition AML_OP_PARSE_INDEX_GET_OPCODE : Z := 0.
Definition AML_OP_PARSE_INDEX_GET_TERM1 : Z := 1.
Definition AML_OP_PARSE_INDEX_GET_SIZE : Z := 2 ^ 32 - 1.

(** From the ACPI specification. *)
Definition AML_SCOPE_OP : Z := 0x10.
Definition AML_EXT_OP : Z := 0x5B.

Inductive EFI_ACPI_DATA_TYPE : Type :=
  | EFI_ACPI_DATA_TYPE_NONE
  | EFI_ACPI_DATA_TYPE_OPCODE
  | EFI_ACPI_DATA_TYPE_NAME_STRING
  | EFI_ACPI_DATA_TYPE_OP
  | EFI_ACPI_DATA_TYPE_UINT
  | EFI_ACPI_DATA_TYPE_STRING
  | EFI_ACPI_DATA_TYPE_CHILD.
#[export] Instance EFI_ACPI_DATA_TYPE_eq_dec : EqDecision EFI_ACPI_DATA_TYPE.
Proof. solve_decision. Defined.

Record AML_BYTE_ENCODING : Type := mkEncoding {
  OpCode : Z; SubOpCode : Z; MaxIndex : Z; Format : list Z; Attribute : Z;
}.

(** AmlByteEncoding of a root handle is NULL. *)
Record EFI_AML_HANDLE : Type := mkHandle {
  Signature : Z; Buffer : Z; Size : Z; AmlByteEncoding : option AML_BYTE_ENCODING; Modified : bool;
}.

Definition mAmlByteEncoding : list AML_BYTE_ENCODING := [
  mkEncoding 0x00 0 0 [AML_NONE; AML_NONE; AML_NONE; AML_NONE; AML_NONE; AML_NONE] 0; (* ZeroOp *)
  mkEncoding 0x01 0 0 [AML_NONE; AML_NONE; AML_NONE; AML_NONE; AML_NONE; AML_NONE] 0; (* OneOp *)
  mkEncoding 0x06 0 2 [AML_NAME; AML_NAME; AML_NONE; AML_NONE; AML_NONE; AML_NONE] AML_IN_NAMESPACE; (* AliasOp *)
  mkEncoding 0x08 0 2 [AML_NAME; AML_OBJECT; AML_NONE; AML_NONE; AML_NONE; AML_NONE] AML_IN_NAMESPACE; (* NameOp *)
  mkEncoding 0x0A 0 1 [AML_UINT8; AML_NONE; AML_NONE; AML_NONE; AML_NONE; AML_NONE] 0; (* BytePrefix *)
  mkEncoding 0x0B 0 1 [AML_UINT16; AML_NONE; AML_NONE; AML_NONE; AML_NONE; AML_NONE] 0; (* WordPrefix *)
  mkEncoding 0x0C 0 1 [AML_UINT32; AML_NONE; AML_NONE; AML_NONE; AML_NONE; AML_NONE] 0; (* DWordPrefix *)
  mkEncoding 0x0D 0 1 [AML_STRING; AML_NONE; AML_NONE; AML_NONE; AML_NONE; AML_NONE] 0; (* StringPrefix *)
  mkEncoding 0x0E 0 1 [AML_UINT64; AML_NONE; AML_NONE; AML_NONE; AML_NONE; AML_NONE] 0; (* QWordPrefix *)
  mkEncoding AML_SCOPE_OP 0 1 [AML_NAME; AML_NONE; AML_NONE; AML_NONE; AML_NONE; AML_NONE] (Z.lor (Z.lor AML_HAS_PKG_LENGTH AML_HAS_CHILD_OBJ) AML_IN_NAMESPACE); (* ScopeOp *)
  mkEncoding 0x11 0 1 [AML_OBJECT; AML_NONE; AML_NONE; AML_NONE; AML_NONE; AML_NONE] AML_HAS_PKG_LENGTH; (* BufferOp *)
  mkEncoding 0x12 0 1 [AML_UINT8; AML_NONE; AML_NONE; AML_NONE; AML_NONE; AML_NONE] (Z.lor AML_HAS_PKG_LENGTH AML_HAS_CHILD_OBJ); (* PackageOp *)
  mkEncoding 0x13 0 1 [AML_OBJECT; AML_NONE; AML_NONE; AML_NONE; AML_NONE; AML_NONE] (Z.lor AML_HAS_PKG_LENGTH AML_HAS_CHILD_OBJ); (* VarPackageOp *)
  mkEncoding 0x14 0 2 [AML_NAME; AML_UINT8; AML_NONE; AML_NONE; AML_NONE; AML_NONE] (Z.lor (Z.lor AML_HAS_PKG_LENGTH AML_HAS_CHILD_OBJ) AML_IN_NAMESPACE); (* MethodOp *)
  mkEncoding AML_DUAL_NAME_PREFIX 0 0 [AML_NONE; AML_NONE; AML_NONE; AML_NONE; AML_NONE; AML_NONE] AML_IS_NAME_CHAR; (* DualNamePrefix *)
  mkEncoding AML_MULTI_NAME_PREFIX 0 0 [AML_NONE; AML_NONE; AML_NONE; AML_NONE; AML_NONE; AML_NONE] AML_IS_NAME_CHAR; (* MultiNamePrefix *)
  mkEncoding 0x41 0 0 [AML_NONE; AML_NONE; AML_NONE; AML_NONE; AML_NONE; AML_NONE] AML_IS_NAME_CHAR; (* NameChar *)
  mkEncoding 0x42 0 0 [AML_NONE; AML_NONE; AML_NONE; AML_NONE; AML_NONE; AML_NONE] AML_IS_NAME_CHAR; (* NameChar *)
  mkEncoding 0x43 0 0 [AML_NONE; AML_NONE; AML_NONE; AML_NONE; AML_NONE; AML_NONE] AML_IS_NAME_CHAR; (* NameChar *)
  mkEncoding 0x44 0 0 [AML_NONE; AML_NONE; AML_NONE; AML_NONE; AML_NONE; AML_NONE] AML_IS_NAME_CHAR; (* NameChar *)
  mkEncoding 0x45 0 0 [AML_NONE; AML_NONE; AML_NONE; AML_NONE; AML_NONE; AML_NONE] AML_IS_NAME_CHAR; (* NameChar *)
  mkEncoding 0x46 0 0 [AML_NONE; AML_NONE; AML_NONE; AML_NONE; AML_NONE; AML_NONE] AML_IS_NAME_CHAR; (* NameChar *)
  mkEncoding 0x47 0 0 [AML_NONE; AML_NONE; AML_NONE; AML_NONE; AML_NONE; AML_NONE] AML_IS_NAME_CHAR; (* NameChar *)
  mkEncoding 0x48 0 0 [AML_NONE; AML_NONE; AML_NONE; AML_NONE; AML_NONE; AML_NONE] AML_IS_NAME_CHAR; (* NameChar *)
  mkEncoding 0x49 0 0 [AML_NONE; AML_NONE; AML_NONE; AML_NONE; AML_NONE; AML_NONE] AML_IS_NAME_CHAR; (* NameChar *)
  mkEncoding 0x4A 0 0 [AML_NONE; AML_NONE; AML_NONE; AML_NONE; AML_NONE; AML_NONE] AML_IS_NAME_CHAR; (* NameChar *)
  mkEncoding 0x4B 0 0 [AML_NONE; AML_NONE; AML_NONE; AML_NONE; AML_NONE; AML_NONE] AML_IS_NAME_CHAR; (* NameChar *)
  mkEncoding 0x4C 0 0 [AML_NONE; AML_NONE; AML_NONE; AML_NONE; AML_NONE; AML_NONE] AML_IS_NAME_CHAR; (* NameChar *)
  mkEncoding 0x4D 0 0 [AML_NONE; AML_NONE; AML_NONE; AML_NONE; AML_NONE; AML_NONE] AML_IS_NAME_CHAR; (* NameChar *)
  mkEncoding 0x4E 0 0 [AML_NONE; AML_NONE; AML_NONE; AML_NONE; AML_NONE; AML_NONE] AML_IS_NAME_CHAR; (* NameChar *)
  mkEncoding 0x4F 0 0 [AML_NONE; AML_NONE; AML_NONE; AML_NONE; AML_NONE; AML_NONE] AML_IS_NAME_CHAR; (* NameChar *)
  mkEncoding 0x50 0 0 [AML_NONE; AML_NONE; AML_NONE; AML_NONE; AML_NONE; AML_NONE] AML_IS_NAME_CHAR; (* NameChar *)
  mkEncoding 0x51 0 0 [AML_NONE; AML_NONE; AML_NONE; AML_NONE; AML_NONE; AML_NONE] AML_IS_NAME_CHAR; (* NameChar *)
  mkEncoding 0x52 0 0 [AML_NONE; AML_NONE; AML_NONE; AML_NONE; AML_NONE; AML_NONE] AML_IS_NAME_CHAR; (* NameChar *)
  mkEncoding 0x53 0 0 [AML_NONE; AML_NONE; AML_NONE; AML_NONE; AML_NONE; AML_NONE] AML_IS_NAME_CHAR; (* NameChar *)
  mkEncoding 0x54 0 0 [AML_NONE; AML_NONE; AML_NONE; AML_NONE; AML_NONE; AML_NONE] AML_IS_NAME_CHAR; (* NameChar *)
  mkEncoding 0x55 0 0 [AML_NONE; AML_NONE; AML_NONE; AML_NONE; AML_NONE; AML_NONE] AML_IS_NAME_CHAR; (* NameChar *)
  mkEncoding 0x56 0 0 [AML_NONE; AML_NONE; AML_NONE; AML_NONE; AML_NONE; AML_NONE] AML_IS_NAME_CHAR; (* NameChar *)
  mkEncoding 0x57 0 0 [AML_NONE; AML_NONE; AML_NONE; AML_NONE; AML_NONE; AML_NONE] AML_IS_NAME_CHAR; (* NameChar *)
  mkEncoding 0x58 0 0 [AML_NONE; AML_NONE; AML_NONE; AML_NONE; AML_NONE; AML_NONE] AML_IS_NAME_CHAR; (* NameChar *)
  mkEncoding 0x59 0 0 [AML_NONE; AML_NONE; AML_NONE; AML_NONE; AML_NONE; AML_NONE] AML_IS_NAME_CHAR; (* NameChar *)
  mkEncoding 0x5A 0 0 [AML_NONE; AML_NONE; AML_NONE; AML_NONE; AML_NONE; AML_NONE] AML_IS_NAME_CHAR; (* NameChar *)
  mkEncoding AML_EXT_OP 0x01 2 [AML_NAME; AML_UINT8; AML_NONE; AML_NONE; AML_NONE; AML_NONE] AML_IN_NAMESPACE; (* MutexOp *)
  mkEncoding AML_EXT_OP 0x02 1 [AML_NAME; AML_NONE; AML_NONE; AML_NONE; AML_NONE; AML_NONE] AML_IN_NAMESPACE; (* EventOp *)
  mkEncoding AML_EXT_OP 0x12 2 [AML_OBJECT; AML_OBJECT; AML_NONE; AML_NONE; AML_NONE; AML_NONE] 0; (* CondRefOfOp *)
  mkEncoding AML_EXT_OP 0x13 4 [AML_OBJECT; AML_OBJECT; AML_OBJECT; AML_NAME; AML_NONE; AML_NONE] 0; (* CreateFieldOp *)
  mkEncoding AML_EXT_OP 0x1F 6 [AML_OBJECT; AML_OBJECT; AML_OBJECT; AML_OBJECT; AML_OBJECT; AML_OBJECT] 0; (* LoadTableOp *)
  mkEncoding AML_EXT_OP 0x20 2 [AML_NAME; AML_OBJECT; AML_NONE; AML_NONE; AML_NONE; AML_NONE] 0; (* LoadOp *)
  mkEncoding AML_EXT_OP 0x21 1 [AML_OBJECT; AML_NONE; AML_NONE; AML_NONE; AML_NONE; AML_NONE] 0; (* StallOp *)
  mkEncoding AML_EXT_OP 0x22 1 [AML_OBJECT; AML_NONE; AML_NONE; AML_NONE; AML_NONE; AML_NONE] 0; (* SleepOp *)
  mkEncoding AML_EXT_OP 0x23 2 [AML_OBJECT; AML_UINT16; AML_NONE; AML_NONE; AML_NONE; AML_NONE] 0; (* AcquireOp *)
  mkEncoding AML_EXT_OP 0x24 1 [AML_OBJECT; AML_NONE; AML_NONE; AML_NONE; AML_NONE; AML_NONE] 0; (* SignalOp *)
  mkEncoding AML_EXT_OP 0x25 2 [AML_OBJECT; AML_OBJECT; AML_NONE; AML_NONE; AML_NONE; AML_NONE] 0; (* WaitOp *)
  mkEncoding AML_EXT_OP 0x26 1 [AML_OBJECT; AML_NONE; AML_NONE; AML_NONE; AML_NONE; AML_NONE] 0; (* ResetOp *)
  mkEncoding AML_EXT_OP 0x27 1 [AML_OBJECT; AML_NONE; AML_NONE; AML_NONE; AML_NONE; AML_NONE] 0; (* ReleaseOp *)
  mkEncoding AML_EXT_OP 0x28 2 [AML_OBJECT; AML_OBJECT; AML_NONE; AML_NONE; AML_NONE; AML_NONE] 0; (* FromBCDOp *)
  mkEncoding AML_EXT_OP 0x29 2 [AML_OBJECT; AML_OBJECT; AML_NONE; AML_NONE; AML_NONE; AML_NONE] 0; (* ToBCDOp *)
  mkEncoding AML_EXT_OP 0x2A 1 [AML_OBJECT; AML_NONE; AML_NONE; AML_NONE; AML_NONE; AML_NONE] 0; (* UnloadOp *)
  mkEncoding AML_EXT_OP 0x30 0 [AML_NONE; AML_NONE; AML_NONE; AML_NONE; AML_NONE; AML_NONE] 0; (* RevisionOp *)
  mkEncoding AML_EXT_OP 0x31 0 [AML_NONE; AML_NONE; AML_NONE; AML_NONE; AML_NONE; AML_NONE] 0; (* DebugOp *)
  mkEncoding AML_EXT_OP 0x32 3 [AML_UINT8; AML_UINT32; AML_OBJECT; AML_NONE; AML_NONE; AML_NONE] 0; (* FatalOp *)
  mkEncoding AML_EXT_OP 0x33 0 [AML_NONE; AML_NONE; AML_NONE; AML_NONE; AML_NONE; AML_NONE] 0; (* TimerOp *)
  mkEncoding AML_EXT_OP 0x80 4 [AML_NAME; AML_UINT8; AML_OBJECT; AML_OBJECT; AML_NONE; AML_NONE] AML_IN_NAMESPACE; (* OpRegionOp *)
  mkEncoding AML_EXT_OP 0x81 2 [AML_NAME; AML_UINT8; AML_NONE; AML_NONE; AML_NONE; AML_NONE] AML_HAS_PKG_LENGTH; (* FieldOp *)
  mkEncoding AML_EXT_OP 0x82 1 [AML_NAME; AML_NONE; AML_NONE; AML_NONE; AML_NONE; AML_NONE] (Z.lor (Z.lor AML_HAS_PKG_LENGTH AML_HAS_CHILD_OBJ) AML_IN_NAMESPACE); (* DeviceOp *)
  mkEncoding AML_EXT_OP 0x83 4 [AML_NAME; AML_UINT8; AML_UINT32; AML_UINT8; AML_NONE; AML_NONE] (Z.lor (Z.lor AML_HAS_PKG_LENGTH AML_HAS_CHILD_OBJ) AML_IN_NAMESPACE); (* ProcessorOp *)
  mkEncoding AML_EXT_OP 0x84 3 [AML_NAME; AML_UINT8; AML_UINT16; AML_NONE; AML_NONE; AML_NONE] (Z.lor (Z.lor AML_HAS_PKG_LENGTH AML_HAS_CHILD_OBJ) AML_IN_NAMESPACE); (* PowerResOp *)
  mkEncoding AML_EXT_OP 0x85 1 [AML_NAME; AML_NONE; AML_NONE; AML_NONE; AML_NONE; AML_NONE] (Z.lor (Z.lor AML_HAS_PKG_LENGTH AML_HAS_CHILD_OBJ) AML_IN_NAMESPACE); (* ThermalZoneOp *)
  mkEncoding AML_EXT_OP 0x86 3 [AML_NAME; AML_NAME; AML_UINT8; AML_NONE; AML_NONE; AML_NONE] AML_HAS_PKG_LENGTH; (* IndexFieldOp *)
  mkEncoding AML_EXT_OP 0x87 4 [AML_NAME; AML_NAME; AML_OBJECT; AML_UINT8; AML_NONE; AML_NONE] AML_HAS_PKG_LENGTH; (* BankFieldOp *)
  mkEncoding AML_EXT_OP 0x88 4 [AML_NAME; AML_OBJECT; AML_OBJECT; AML_OBJECT; AML_NONE; AML_NONE] AML_IN_NAMESPACE; (* DataRegionOp *)
  mkEncoding AML_ROOT_CHAR 0 0 [AML_NONE; AML_NONE; AML_NONE; AML_NONE; AML_NONE; AML_NONE] AML_IS_NAME_CHAR; (* RootChar *)
  mkEncoding AML_PARENT_PREFIX_CHAR 0 0 [AML_NONE; AML_NONE; AML_NONE; AML_NONE; AML_NONE; AML_NONE] AML_IS_NAME_CHAR; (* ParentPrefixChar *)
  mkEncoding AML_NAME_CHAR__ 0 0 [AML_NONE; AML_NONE; AML_NONE; AML_NONE; AML_NONE; AML_NONE] AML_IS_NAME_CHAR; (* NameChar *)
  mkEncoding 0x60 0 0 [AML_NONE; AML_NONE; AML_NONE; AML_NONE; AML_NONE; AML_NONE] 0; (* Local0Op *)
  mkEncoding 0x61 0 0 [AML_NONE; AML_NONE; AML_NONE; AML_NONE; AML_NONE; AML_NONE] 0; (* Local1Op *)
  mkEncoding 0x62 0 0 [AML_NONE; AML_NONE; AML_NONE; AML_NONE; AML_NONE; AML_NONE] 0; (* Local2Op *)
  mkEncoding 0x63 0 0 [AML_NONE; AML_NONE; AML_NONE; AML_NONE; AML_NONE; AML_NONE] 0; (* Local3Op *)
  mkEncoding 0x64 0 0 [AML_NONE; AML_NONE; AML_NONE; AML_NONE; AML_NONE; AML_NONE] 0; (* Local4Op *)
  mkEncoding 0x65 0 0 [AML_NONE; AML_NONE; AML_NONE; AML_NONE; AML_NONE; AML_NONE] 0; (* Local5Op *)
  mkEncoding 0x66 0 0 [AML_NONE; AML_NONE; AML_NONE; AML_NONE; AML_NONE; AML_NONE] 0; (* Local6Op *)
  mkEncoding 0x67 0 0 [AML_NONE; AML_NONE; AML_NONE; AML_NONE; AML_NONE; AML_NONE] 0; (* Local7Op *)
  mkEncoding 0x68 0 0 [AML_NONE; AML_NONE; AML_NONE; AML_NONE; AML_NONE; AML_NONE] 0; (* Arg0Op *)
  mkEncoding 0x69 0 0 [AML_NONE; AML_NONE; AML_NONE; AML_NONE; AML_NONE; AML_NONE] 0; (* Arg1Op *)
  mkEncoding 0x6A 0 0 [AML_NONE; AML_NONE; AML_NONE; AML_NONE; AML_NONE; AML_NONE] 0; (* Arg2Op *)
  mkEncoding 0x6B 0 0 [AML_NONE; AML_NONE; AML_NONE; AML_NONE; AML_NONE; AML_NONE] 0; (* Arg3Op *)
  mkEncoding 0x6C 0 0 [AML_NONE; AML_NONE; AML_NONE; AML_NONE; AML_NONE; AML_NONE] 0; (* Arg4Op *)
  mkEncoding 0x6D 0 0 [AML_NONE; AML_NONE; AML_NONE; AML_NONE; AML_NONE; AML_NONE] 0; (* Arg5Op *)
  mkEncoding 0x6E 0 0 [AML_NONE; AML_NONE; AML_NONE; AML_NONE; AML_NONE; AML_NONE] 0; (* Arg6Op *)
  mkEncoding 0x70 0 2 [AML_OBJECT; AML_OBJECT; AML_NONE; AML_NONE; AML_NONE; AML_NONE] 0; (* StoreOp *)
  mkEncoding 0x71 0 1 [AML_OBJECT; AML_NONE; AML_NONE; AML_NONE; AML_NONE; AML_NONE] 0; (* RefOfOp *)
  mkEncoding 0x72 0 3 [AML_OBJECT; AML_OBJECT; AML_OBJECT; AML_NONE; AML_NONE; AML_NONE] 0; (* AddOp *)
  mkEncoding 0x73 0 3 [AML_OBJECT; AML_OBJECT; AML_OBJECT; AML_NONE; AML_NONE; AML_NONE] 0; (* ConcatOp *)
  mkEncoding 0x74 0 3 [AML_OBJECT; AML_OBJECT; AML_OBJECT; AML_NONE; AML_NONE; AML_NONE] 0; (* SubtractOp *)
  mkEncoding 0x75 0 1 [AML_OBJECT; AML_NONE; AML_NONE; AML_NONE; AML_NONE; AML_NONE] 0; (* IncrementOp *)
  mkEncoding 0x76 0 1 [AML_OBJECT; AML_NONE; AML_NONE; AML_NONE; AML_NONE; AML_NONE] 0; (* DecrementOp *)
  mkEncoding 0x77 0 3 [AML_OBJECT; AML_OBJECT; AML_OBJECT; AML_NONE; AML_NONE; AML_NONE] 0; (* MultiplyOp *)
  mkEncoding 0x78 0 4 [AML_OBJECT; AML_OBJECT; AML_OBJECT; AML_OBJECT; AML_NONE; AML_NONE] 0; (* DivideOp *)
  mkEncoding 0x79 0 3 [AML_OBJECT; AML_OBJECT; AML_OBJECT; AML_NONE; AML_NONE; AML_NONE] 0; (* ShiftLeftOp *)
  mkEncoding 0x7A 0 3 [AML_OBJECT; AML_OBJECT; AML_OBJECT; AML_NONE; AML_NONE; AML_NONE] 0; (* ShiftRightOp *)
  mkEncoding 0x7B 0 3 [AML_OBJECT; AML_OBJECT; AML_OBJECT; AML_NONE; AML_NONE; AML_NONE] 0; (* AndOp *)
  mkEncoding 0x7C 0 3 [AML_OBJECT; AML_OBJECT; AML_OBJECT; AML_NONE; AML_NONE; AML_NONE] 0; (* NAndOp *)
  mkEncoding 0x7D 0 3 [AML_OBJECT; AML_OBJECT; AML_OBJECT; AML_NONE; AML_NONE; AML_NONE] 0; (* OrOp *)
  mkEncoding 0x7E 0 3 [AML_OBJECT; AML_OBJECT; AML_OBJECT; AML_NONE; AML_NONE; AML_NONE] 0; (* NorOp *)
  mkEncoding 0x7F 0 3 [AML_OBJECT; AML_OBJECT; AML_OBJECT; AML_NONE; AML_NONE; AML_NONE] 0; (* XOrOp *)
  mkEncoding 0x80 0 2 [AML_OBJECT; AML_OBJECT; AML_NONE; AML_NONE; AML_NONE; AML_NONE] 0; (* NotOp *)
  mkEncoding 0x81 0 2 [AML_OBJECT; AML_OBJECT; AML_NONE; AML_NONE; AML_NONE; AML_NONE] 0; (* FindSetLeftBitOp *)
  mkEncoding 0x82 0 2 [AML_OBJECT; AML_OBJECT; AML_NONE; AML_NONE; AML_NONE; AML_NONE] 0; (* FindSetRightBitOp *)
  mkEncoding 0x83 0 1 [AML_OBJECT; AML_NONE; AML_NONE; AML_NONE; AML_NONE; AML_NONE] 0; (* DerefOfOp *)
  mkEncoding 0x84 0 3 [AML_OBJECT; AML_OBJECT; AML_OBJECT; AML_NONE; AML_NONE; AML_NONE] 0; (* ConcatResOp *)
  mkEncoding 0x85 0 3 [AML_OBJECT; AML_OBJECT; AML_OBJECT; AML_NONE; AML_NONE; AML_NONE] 0; (* ModOp *)
  mkEncoding 0x86 0 2 [AML_OBJECT; AML_OBJECT; AML_NONE; AML_NONE; AML_NONE; AML_NONE] 0; (* NotifyOp *)
  mkEncoding 0x87 0 1 [AML_OBJECT; AML_NONE; AML_NONE; AML_NONE; AML_NONE; AML_NONE] 0; (* SizeOfOp *)
  mkEncoding 0x88 0 3 [AML_OBJECT; AML_OBJECT; AML_OBJECT; AML_NONE; AML_NONE; AML_NONE] 0; (* IndexOp *)
  mkEncoding 0x89 0 6 [AML_OBJECT; AML_UINT8; AML_OBJECT; AML_UINT8; AML_OBJECT; AML_OBJECT] 0; (* MatchOp *)
  mkEncoding 0x8A 0 3 [AML_OBJECT; AML_OBJECT; AML_NAME; AML_NONE; AML_NONE; AML_NONE] 0; (* CreateDWordFieldOp *)
  mkEncoding 0x8B 0 3 [AML_OBJECT; AML_OBJECT; AML_NAME; AML_NONE; AML_NONE; AML_NONE] 0; (* CreateWordFieldOp *)
  mkEncoding 0x8C 0 3 [AML_OBJECT; AML_OBJECT; AML_NAME; AML_NONE; AML_NONE; AML_NONE] 0; (* CreateByteFieldOp *)
  mkEncoding 0x8D 0 3 [AML_OBJECT; AML_OBJECT; AML_NAME; AML_NONE; AML_NONE; AML_NONE] 0; (* CreateBitFieldOp *)
  mkEncoding 0x8E 0 1 [AML_OBJECT; AML_NONE; AML_NONE; AML_NONE; AML_NONE; AML_NONE] 0; (* ObjectTypeOp *)
  mkEncoding 0x8F 0 3 [AML_OBJECT; AML_OBJECT; AML_NAME; AML_NONE; AML_NONE; AML_NONE] 0; (* CreateQWordFieldOp *)
  mkEncoding 0x90 0 2 [AML_OBJECT; AML_OBJECT; AML_NONE; AML_NONE; AML_NONE; AML_NONE] 0; (* LAndOp *)
  mkEncoding 0x91 0 2 [AML_OBJECT; AML_OBJECT; AML_NONE; AML_NONE; AML_NONE; AML_NONE] 0; (* LOrOp *)
  mkEncoding 0x92 0 1 [AML_OBJECT; AML_NONE; AML_NONE; AML_NONE; AML_NONE; AML_NONE] 0; (* LNotOp *)
  mkEncoding 0x93 0 2 [AML_OBJECT; AML_OBJECT; AML_NONE; AML_NONE; AML_NONE; AML_NONE] 0; (* LEqualOp *)
  mkEncoding 0x94 0 2 [AML_OBJECT; AML_OBJECT; AML_NONE; AML_NONE; AML_NONE; AML_NONE] 0; (* LGreaterOp *)
  mkEncoding 0x95 0 2 [AML_OBJECT; AML_OBJECT; AML_NONE; AML_NONE; AML_NONE; AML_NONE] 0; (* LLessOp *)
  mkEncoding 0x96 0 2 [AML_OBJECT; AML_OBJECT; AML_NONE; AML_NONE; AML_NONE; AML_NONE] 0; (* ToBufferOp *)
  mkEncoding 0x97 0 2 [AML_OBJECT; AML_OBJECT; AML_NONE; AML_NONE; AML_NONE; AML_NONE] 0; (* ToDecimalStringOp *)
  mkEncoding 0x98 0 2 [AML_OBJECT; AML_OBJECT; AML_NONE; AML_NONE; AML_NONE; AML_NONE] 0; (* ToHexStringOp *)
  mkEncoding 0x99 0 2 [AML_OBJECT; AML_OBJECT; AML_NONE; AML_NONE; AML_NONE; AML_NONE] 0; (* ToIntegerOp *)
  mkEncoding 0x9C 0 3 [AML_OBJECT; AML_OBJECT; AML_OBJECT; AML_NONE; AML_NONE; AML_NONE] 0; (* ToStringOp *)
  mkEncoding 0x9D 0 2 [AML_OBJECT; AML_OBJECT; AML_NONE; AML_NONE; AML_NONE; AML_NONE] 0; (* CopyObjectOp *)
  mkEncoding 0x9E 0 3 [AML_OBJECT; AML_OBJECT; AML_OBJECT; AML_NONE; AML_NONE; AML_NONE] 0; (* MidOp *)
  mkEncoding 0x9F 0 0 [AML_NONE; AML_NONE; AML_NONE; AML_NONE; AML_NONE; AML_NONE] 0; (* ContinueOp *)
  mkEncoding 0xA0 0 1 [AML_OBJECT; AML_NONE; AML_NONE; AML_NONE; AML_NONE; AML_NONE] (Z.lor AML_HAS_PKG_LENGTH AML_HAS_CHILD_OBJ); (* IfOp *)
  mkEncoding 0xA1 0 0 [AML_NONE; AML_NONE; AML_NONE; AML_NONE; AML_NONE; AML_NONE] (Z.lor AML_HAS_PKG_LENGTH AML_HAS_CHILD_OBJ); (* ElseOp *)
  mkEncoding 0xA2 0 1 [AML_OBJECT; AML_NONE; AML_NONE; AML_NONE; AML_NONE; AML_NONE] (Z.lor AML_HAS_PKG_LENGTH AML_HAS_CHILD_OBJ); (* WhileOp *)
  mkEncoding 0xA3 0 0 [AML_NONE; AML_NONE; AML_NONE; AML_NONE; AML_NONE; AML_NONE] 0; (* NoopOp *)
  mkEncoding 0xA4 0 1 [AML_OBJECT; AML_NONE; AML_NONE; AML_NONE; AML_NONE; AML_NONE] 0; (* ReturnOp *)
  mkEncoding 0xA5 0 0 [AML_NONE; AML_NONE; AML_NONE; AML_NONE; AML_NONE; AML_NONE] 0; (* BreakOp *)
  mkEncoding 0xCC 0 0 [AML_NONE; AML_NONE; AML_NONE; AML_NONE; AML_NONE; AML_NONE] 0; (* BreakPointOp *)
  mkEncoding 0xFF 0 0 [AML_NONE; AML_NONE; AML_NONE; AML_NONE; AML_NONE; AML_NONE] 0 (* OnesOp *)
].

Definition mAmlTypeToAcpiType : list EFI_ACPI_DATA_TYPE := [
  EFI_ACPI_DATA_TYPE_NONE; EFI_ACPI_DATA_TYPE_OPCODE; EFI_ACPI_DATA_TYPE_UINT; EFI_ACPI_DATA_TYPE_UINT;
  EFI_ACPI_DATA_TYPE_UINT; EFI_ACPI_DATA_TYPE_UINT; EFI_ACPI_DATA_TYPE_NAME_STRING; EFI_ACPI_DATA_TYPE_STRING;
  EFI_ACPI_DATA_TYPE_CHILD
].

(** ** Reading *)
Definition aml (A : Type) : Type := M (list Z) A.
Definition byte (p : Z) : aml Z := m ← get; deref (if 0 <=? p then m !! Z.to_nat p else None).
(** The bytes from a pointer on, for a reader of [AmlString]. *)
Definition at_ptr {A} (p : Z) (f : list Z -> option A) : aml A :=
  m ← get; deref (if 0 <=? p then f (drop (Z.to_nat p) m) else None).

Definition AmlSearchByOpByte (OpByteBuffer : Z) : aml (option AML_BYTE_ENCODING) :=
  Op ← byte OpByteBuffer;
  SubOp ← (if Op =? AML_EXT_OP then byte (OpByteBuffer + 1) else mret 0);
  mret (find (fun e => (OpCode e =? Op) && (SubOpCode e =? SubOp)) mAmlByteEncoding).

Definition AmlTypeToAcpiType (AmlType : Z) : aml EFI_ACPI_DATA_TYPE :=
  match mAmlTypeToAcpiType !! Z.to_nat AmlType with
  | Some t => mret t
  | None => trapped AssertFailed
  end.

(** The number of bytes of the length, and the length. *)
Definition AmlGetPkgLength (Buffer : Z) : aml (Z * Z) :=
  LeadByte ← byte Buffer;
  let ByteCount := Z.land (Z.shiftr LeadByte 6) 3 in
  RealLength ←
    (if ByteCount =? 0 then mret LeadByte
     else if ByteCount =? 1 then
       b1 ← byte (Buffer + 1);
       mret (Z.lor (Z.shiftl b1 4) (Z.land LeadByte 0xF))
     else if ByteCount =? 2 then
       b1 ← byte (Buffer + 1); b2 ← byte (Buffer + 2);
       mret (Z.lor (Z.shiftl (Z.lor b1 (Z.shiftl b2 8)) 4) (Z.land LeadByte 0xF))
     else
       b1 ← byte (Buffer + 1); b2 ← byte (Buffer + 2); b3 ← byte (Buffer + 3);
       mret (Z.lor (Z.shiftl (Z.lor (Z.lor b1 (Z.shiftl b2 8)) (Z.shiftl b3 16)) 4) (Z.land LeadByte 0xF)));
  mret (ByteCount + 1, RealLength).

(** AsciiStrSize, and AmlGetNameStringSize as a status. *)
Fixpoint StrSize (p : list Z) : option Z :=
  match p with
  | [] => None
  | b :: p => if b =? 0 then Some 1 else n ← StrSize p; Some (n + 1)
  end.
Definition AsciiStrSize (Buffer : Z) : aml Z := at_ptr Buffer StrSize.
Definition NameStringSize (Buffer : Z) : aml (option Z) :=
  r ← at_ptr Buffer AmlGetNameStringSize;
  mret (if EFI_ERROR r.1 then None else Some r.2).

(** ** AmlOption.c *)
Definition has (e : AML_BYTE_ENCODING) (attribute : Z) : bool := negb (Z.land (Attribute e) attribute =? 0).

(** DataType, Data and DataSize; for AML_OP_PARSE_INDEX_GET_SIZE only
    DataSize is stored. *)
Record parsed : Type := mkParsed { DataType : EFI_ACPI_DATA_TYPE; Data : Z; DataSize : Z }.

Section Option_.
(** The recursive call. *)
Context (ObjectSize : AML_BYTE_ENCODING -> Z -> Z -> aml Z).

Definition TermSize (AmlType Buffer MaxBufferSize : Z) (type : EFI_ACPI_DATA_TYPE) : aml (option (EFI_ACPI_DATA_TYPE * Z)) :=
  if AmlType =? AML_UINT8 then mret (Some (type, 1))
  else if AmlType =? AML_UINT16 then mret (Some (type, 2))
  else if AmlType =? AML_UINT32 then mret (Some (type, 4))
  else if AmlType =? AML_UINT64 then mret (Some (type, 8))
  else if AmlType =? AML_STRING then n ← AsciiStrSize Buffer; mret (Some (type, n))
  else if AmlType =? AML_NAME then n ← NameStringSize Buffer; mret (pair type <$> n)
  else if AmlType =? AML_OBJECT then
    e ← AmlSearchByOpByte Buffer;
    match e with
    | None => mret None
    | Some e =>
        if has e AML_IS_NAME_CHAR then
          type ← AmlTypeToAcpiType AML_NAME;
          n ← NameStringSize Buffer; mret (pair type <$> n)
        else
          n ← ObjectSize e Buffer MaxBufferSize;
          mret (if n =? 0 then None else Some (type, n))
    end
  else trapped AssertFailed.

Definition AmlParseOptionTerm (e : AML_BYTE_ENCODING) (Buffer MaxBufferSize TermIndex : Z) : aml (option parsed) :=
  AmlType ← deref (Format e !! Z.to_nat (TermIndex - 1));
  type ← AmlTypeToAcpiType AmlType;
  r ← TermSize AmlType Buffer MaxBufferSize type;
  mret (match r with
        | None => None
        | Some (type, n) => if MaxBufferSize <? n then None else Some (mkParsed type Buffer n)
        end).

(** The loop over the terms, [n] of them: a result of the function, or the
    position where the loop ends. *)
Fixpoint ParseTerms (n : nat) (e : AML_BYTE_ENCODING) (Limit Index TermIndex CurrentBuffer : Z)
    : aml (option parsed + Z) :=
  match n with
  | O => mret (inr CurrentBuffer)
  | S n =>
      if (TermIndex <=? Index) && (CurrentBuffer <? Limit) then
        r ← AmlParseOptionTerm e CurrentBuffer (Limit - CurrentBuffer) TermIndex;
        match r with
        | None => mret (inl None)
        | Some r =>
            if Index =? TermIndex then mret (inl (Some r))
            else ParseTerms n e Limit Index (TermIndex + 1) (CurrentBuffer + DataSize r)
        end
      else mret (inr CurrentBuffer)
  end.

Definition AmlParseOptionCommon (e : AML_BYTE_ENCODING) (Buffer MaxBufferSize Index : Z) : aml (option parsed) :=
  ASSERT ((Index <=? MaxIndex e) || (Index =? AML_OP_PARSE_INDEX_GET_SIZE));;
  if has e AML_IS_NAME_CHAR then
    if negb (Index =? AML_OP_PARSE_INDEX_GET_SIZE) then mret None else
    n ← NameStringSize Buffer;
    mret (match n with
          | None => None
          | Some n => if MaxBufferSize <? n then None else Some (mkParsed EFI_ACPI_DATA_TYPE_NONE 0 n)
          end)
  else
    op ← byte Buffer;
    let OpLength := if op =? AML_EXT_OP then 2 else 1 in
    if Index =? AML_OP_PARSE_INDEX_GET_OPCODE then mret (Some (mkParsed EFI_ACPI_DATA_TYPE_OPCODE Buffer OpLength)) else
    if MaxBufferSize <? OpLength then mret None else
    pkg ← (if has e AML_HAS_PKG_LENGTH then AmlGetPkgLength (Buffer + OpLength) else mret (0, 0));
    let '(PkgOffset, PkgLength) := pkg in
    if has e AML_HAS_PKG_LENGTH && (MaxBufferSize <? OpLength + PkgLength) then mret None else
    let MaxBufferSize := if has e AML_HAS_PKG_LENGTH then OpLength + PkgLength else MaxBufferSize in
    let Limit := Buffer + MaxBufferSize in
    r ← ParseTerms (Z.to_nat (MaxIndex e)) e Limit Index AML_OP_PARSE_INDEX_GET_TERM1 (Buffer + OpLength + PkgOffset);
    match r with
    | inl r => mret r
    | inr CurrentBuffer =>
        if Limit <? CurrentBuffer then mret None else
        if (CurrentBuffer =? Limit) && negb (Index =? AML_OP_PARSE_INDEX_GET_SIZE) then mret None else
        ASSERT (Index =? AML_OP_PARSE_INDEX_GET_SIZE);;
        mret (Some (mkParsed EFI_ACPI_DATA_TYPE_NONE 0
          (if has e AML_HAS_PKG_LENGTH then OpLength + PkgLength else CurrentBuffer - Buffer)))
    end.
End Option_.

(** Nested objects get a smaller MaxBufferSize: the fuel. *)
Fixpoint AmlGetObjectSize (fuel : nat) (e : AML_BYTE_ENCODING) (Buffer MaxBufferSize : Z) : aml Z :=
  match fuel with
  | O => trapped OutOfFuel
  | S fuel =>
      r ← AmlParseOptionCommon (AmlGetObjectSize fuel) e Buffer MaxBufferSize AML_OP_PARSE_INDEX_GET_SIZE;
      mret (match r with Some r => DataSize r | None => 0 end)
  end.
Definition ObjectSize (e : AML_BYTE_ENCODING) (Buffer MaxBufferSize : Z) : aml Z :=
  AmlGetObjectSize (S (Z.to_nat MaxBufferSize)) e Buffer MaxBufferSize.

Definition AmlParseOptionHandleCommon (h : EFI_AML_HANDLE) (Index : Z) : aml (option parsed) :=
  e ← deref (AmlByteEncoding h);
  AmlParseOptionCommon ObjectSize e (Buffer h) (Size h) Index.

(** The last index of a name in Format, from [n] down; 0 if there is none. *)
Fixpoint LastName (e : AML_BYTE_ENCODING) (n : nat) : Z :=
  match n with
  | O => 0
  | S n => if bool_decide (Format e !! n = Some AML_NAME) then Z.of_nat (S n) else LastName e n
  end.
(** [None]: NULL. *)
Definition AmlGetObjectName (h : EFI_AML_HANDLE) : aml (option Z) :=
  e ← deref (AmlByteEncoding h);
  ASSERT (has e AML_IN_NAMESPACE);;
  let TermIndex := LastName e (Z.to_nat (MaxIndex e)) in
  ASSERT (negb (TermIndex =? 0));;
  r ← AmlParseOptionHandleCommon h TermIndex;
  match r with
  | None => mret None
  | Some r => ASSERT (bool_decide (DataType r = EFI_ACPI_DATA_TYPE_NAME_STRING));; mret (Some (Data r))
  end.

Definition AmlGetOffsetAfterLastOption (h : EFI_AML_HANDLE) : aml (option Z) :=
  e ← deref (AmlByteEncoding h);
  r ← AmlParseOptionHandleCommon h (MaxIndex e);
  match r with
  | None => mret None
  | Some r =>
      let Buffer := Data r + DataSize r in
      if bool_decide (DataType r = EFI_ACPI_DATA_TYPE_OPCODE)
      then pkg ← AmlGetPkgLength Buffer; mret (Some (Buffer + pkg.1))
      else mret (Some Buffer)
  end.

(** ** AmlChild.c

    [Some None]: success with no child. *)
Fixpoint ChildFromBuffer (fuel : nat) (Limit CurrentBuffer : Z) : aml (option (option Z)) :=
  if CurrentBuffer <? Limit then
    match fuel with
    | O => trapped OutOfFuel
    | S fuel =>
        e ← AmlSearchByOpByte CurrentBuffer;
        match e with
        | None => mret None
        | Some e =>
            if negb (has e AML_IS_NAME_CHAR) then mret (Some (Some CurrentBuffer)) else
            n ← ObjectSize e CurrentBuffer (Limit - CurrentBuffer);
            if n =? 0 then mret None else ChildFromBuffer fuel Limit (CurrentBuffer + n)
        end
    end
  else mret (Some None).
Definition AmlGetChildFromObjectBuffer (Parent : EFI_AML_HANDLE) (CurrentBuffer : Z) : aml (option (option Z)) :=
  let Limit := Buffer Parent + Size Parent in
  ChildFromBuffer (Z.to_nat (Limit - CurrentBuffer)) Limit CurrentBuffer.

Definition AmlGetChildFromRoot (Parent : EFI_AML_HANDLE) (h : option EFI_AML_HANDLE) : aml (option (option Z)) :=
  let CurrentBuffer := match h with None => Buffer Parent | Some h => Buffer h + Size h end in
  AmlGetChildFromObjectBuffer Parent CurrentBuffer.

(** The loop over the options from [Index] on, [n] of them. *)
Fixpoint ChildFromOptions (n : nat) (Parent h : EFI_AML_HANDLE) (Index : Z) : aml (option (option Z)) :=
  match n with
  | O => mret (Some None)
  | S n =>
      r ← AmlParseOptionHandleCommon Parent Index;
      match r with
      | None => mret None
      | Some r =>
          if bool_decide (DataType r = EFI_ACPI_DATA_TYPE_NONE) then mret (Some None)
          else if bool_decide (DataType r = EFI_ACPI_DATA_TYPE_CHILD) && (Buffer h <? Data r)
          then mret (Some (Some (Data r)))
          else ChildFromOptions n Parent h (Index + 1)
      end
  end.
Definition AmlGetChildFromOptionList (Parent h : EFI_AML_HANDLE) : aml (option (option Z)) :=
  e ← deref (AmlByteEncoding Parent);
  ChildFromOptions (Z.to_nat (MaxIndex e)) Parent h AML_OP_PARSE_INDEX_GET_TERM1.

Definition AmlGetChildFromObjectChildList (Parent h : EFI_AML_HANDLE) : aml (option (option Z)) :=
  e ← deref (AmlByteEncoding Parent);
  if negb (has e AML_HAS_CHILD_OBJ) then mret (Some None) else
  r ← AmlGetOffsetAfterLastOption Parent;
  match r with
  | None => mret None
  | Some CurrentBuffer =>
      if Buffer h <? CurrentBuffer then AmlGetChildFromObjectBuffer Parent CurrentBuffer
      else if Buffer h + Size h <? Buffer Parent + Size Parent
      then AmlGetChildFromObjectBuffer Parent (Buffer h + Size h)
      else mret (Some None)
  end.

Definition AmlGetChildFromNonRoot (Parent : EFI_AML_HANDLE) (h : option EFI_AML_HANDLE) : aml (option (option Z)) :=
  let h := default Parent h in
  r ← AmlGetChildFromOptionList Parent h;
  match r with
  | None => mret None
  | Some (Some p) => mret (Some (Some p))
  | Some None => AmlGetChildFromObjectChildList Parent h
  end.
