(* ===== verification/AmlGrammar.v ===== *)
(** * AcpiSdtDxe: the grammar that the AML parser is checked against

    A table-driven grammar of AML objects, as relations between positions of a
    memory; [lim] is the end of the enclosing package. *)
From S2P Require Import Prelude Bytes AmlString AmlStringProofs AmlParse.

Section Grammar.
Context (m : list Z).

Definition byte_at (p b : Z) : Prop := 0 <= p /\ m !! Z.to_nat p = Some b.
Definition suffix_at (p : Z) (l : list Z) : Prop := 0 <= p /\ drop (Z.to_nat p) m = l.

(** An opcode is one byte, or two after the extension prefix. *)
Definition op_length (p n : Z) : Prop := exists b, byte_at p b /\ n = if b =? AML_EXT_OP then 2 else 1.
Definition encoded_at (p : Z) (e : AML_BYTE_ENCODING) : Prop :=
  e ∈ mAmlByteEncoding /\ byte_at p (OpCode e) /\
  (if OpCode e =? AML_EXT_OP then byte_at (p + 1) (SubOpCode e) else SubOpCode e = 0).

Definition name_at (p n : Z) : Prop :=
  exists nm tl, suffix_at p (nm ++ tl) /\ n = Z.of_nat (length nm) /\ NameString nm.
Definition string_at (p n : Z) : Prop :=
  exists s tl, suffix_at p (s ++ 0 :: tl) /\ Forall (fun b => b <> 0) s /\ n = Z.of_nat (length s) + 1.
(** A package length [L] in [k] bytes: the lead byte alone, or its low four
    bits followed by one to three bytes. *)
Definition pkg_at (p k L : Z) : Prop :=
  exists lead bs tl, suffix_at p (lead :: bs ++ tl) /\ Z.of_nat (length bs) = lead / 64 /\ k = lead / 64 + 1 /\
    L = if lead / 64 =? 0 then lead else lead mod 16 + 16 * le_combine bs.

(** The formats with a fixed size. *)
Definition fixed_size (f : Z) : option Z :=
  if f =? AML_UINT8 then Some 1 else if f =? AML_UINT16 then Some 2 else
  if f =? AML_UINT32 then Some 4 else if f =? AML_UINT64 then Some 8 else None.

Definition formats (e : AML_BYTE_ENCODING) : list Z := take (Z.to_nat (MaxIndex e)) (Format e).

(** Operands that the end of the package cuts off are left out
    ([terms_cut]). *)
Inductive term : Z -> Z -> Z -> EFI_ACPI_DATA_TYPE -> Z -> Prop :=
  | term_fixed f n p lim : fixed_size f = Some n -> p + n <= lim -> term f p lim EFI_ACPI_DATA_TYPE_UINT (p + n)
  | term_string p lim n : string_at p n -> p + n <= lim -> term AML_STRING p lim EFI_ACPI_DATA_TYPE_STRING (p + n)
  | term_name p lim n : name_at p n -> p + n <= lim -> term AML_NAME p lim EFI_ACPI_DATA_TYPE_NAME_STRING (p + n)
  | term_name_object e p lim n : encoded_at p e -> has e AML_IS_NAME_CHAR = true -> name_at p n -> p + n <= lim ->
      term AML_OBJECT p lim EFI_ACPI_DATA_TYPE_NAME_STRING (p + n)
  | term_object e p lim q : encoded_at p e -> has e AML_IS_NAME_CHAR = false -> object e p lim q ->
      term AML_OBJECT p lim EFI_ACPI_DATA_TYPE_CHILD q
with terms : list Z -> Z -> Z -> Z -> Prop :=
  | terms_nil p lim : terms [] p lim p
  | terms_cut f fs p lim : lim <= p -> terms (f :: fs) p lim p
  | terms_cons f fs p lim ty q r : p < lim -> term f p lim ty q -> terms fs q lim r -> terms (f :: fs) p lim r
with object : AML_BYTE_ENCODING -> Z -> Z -> Z -> Prop :=
  | object_name e p lim n : has e AML_IS_NAME_CHAR = true -> name_at p n -> p + n <= lim -> object e p lim (p + n)
  | object_plain e p lim n q : has e AML_IS_NAME_CHAR = false -> has e AML_HAS_PKG_LENGTH = false ->
      op_length p n -> p + n <= lim -> terms (formats e) (p + n) lim q -> q <= lim -> object e p lim q
  | object_package e p lim n k L q : has e AML_IS_NAME_CHAR = false -> has e AML_HAS_PKG_LENGTH = true ->
      op_length p n -> pkg_at (p + n) k L -> p + n + L <= lim ->
      terms (formats e) (p + n + k) (p + n + L) q -> q <= p + n + L -> object e p lim (p + n + L).

Scheme term_ind' := Minimality for term Sort Prop
  with terms_ind' := Minimality for terms Sort Prop
  with object_ind' := Minimality for object Sort Prop.
Combined Scheme grammar_ind from term_ind', terms_ind', object_ind'.

(** The [i]-th operand. *)
Inductive operand : list Z -> Z -> Z -> Z -> parsed -> Prop :=
  | operand_here f fs p lim ty q : p < lim -> term f p lim ty q -> operand (f :: fs) 1 p lim (mkParsed ty p (q - p))
  | operand_later f fs i p lim ty q x : p < lim -> term f p lim ty q -> operand fs i q lim x ->
      operand (f :: fs) (i + 1) p lim x.

(** Where the operands of an object begin and must end. *)
Inductive body_at (e : AML_BYTE_ENCODING) (p lim : Z) : Z -> Z -> Prop :=
  | body_plain n : has e AML_HAS_PKG_LENGTH = false -> op_length p n -> p + n <= lim -> body_at e p lim (p + n) lim
  | body_package n k L : has e AML_HAS_PKG_LENGTH = true -> op_length p n -> p + n <= lim -> pkg_at (p + n) k L -> p + n + L <= lim ->
      body_at e p lim (p + n + k) (p + n + L).

(** A package long enough for its length is enough for its opcode. *)
Lemma name_pos p n : name_at p n -> 0 < n.
Proof.
  intros (nm & tl & _ & -> & root & pre & body & -> & _ & Hb). rewrite length_app.
  assert (0 < length body)%nat; [|lia]. inversion Hb as [|? s Hs| |]; subst; cbn; try lia.
  destruct Hs as [-> _]. unfold AML_NAME_SEG_SIZE. lia.
Qed.
Lemma op_length_pos p n : op_length p n -> 1 <= n <= 2.
Proof. intros (b & _ & ->). destruct (b =? _); lia. Qed.

(** What the grammar derives stays inside its package and is not empty. *)
Lemma grammar_bounds :
  (forall f p lim ty q, term f p lim ty q -> p < q <= lim) /\
  (forall fs p lim q, terms fs p lim q -> p <= q) /\
  (forall e p lim q, object e p lim q -> p < q <= lim).
Proof.
  apply grammar_ind; intros; try lia.
  - assert (0 < n); [|lia]. unfold fixed_size in *. repeat case_match; simplify_eq; lia.
  - destruct H as (s & tl & _ & _ & ->). lia.
  - apply name_pos in H. lia.
  - apply name_pos in H1. lia.
  - apply name_pos in H0. lia.
  - apply op_length_pos in H1. lia.
  - apply op_length_pos in H1. destruct H2 as (lead & bs & tl & (Hp & Hs) & Hk & -> & _). lia.
Qed.
Lemma term_bounds f p lim ty q : term f p lim ty q -> p < q <= lim.
Proof. apply grammar_bounds. Qed.
(** The end of the package may be anywhere behind what is derived. *)
Lemma grammar_shrink :
  (forall f p lim ty q, term f p lim ty q -> forall lim', q <= lim' <= lim -> term f p lim' ty q) /\
  (forall fs p lim q, terms fs p lim q -> forall lim', q <= lim' <= lim -> terms fs p lim' q) /\
  (forall e p lim q, object e p lim q -> forall lim', q <= lim' <= lim -> object e p lim' q).
Proof.
  apply grammar_ind.
  - intros. by econstructor; [|lia].
  - intros. by econstructor; [|lia].
  - intros. by econstructor; [|lia].
  - intros. econstructor; try done. lia.
  - intros e p lim q He Hn _ IH lim' Hl. eapply term_object; [done..|]. by apply IH.
  - intros. constructor.
  - intros. constructor. lia.
  - intros f fs p lim ty q r Hlt Ht IHt Hts IHts lim' Hl. pose proof (term_bounds _ _ _ _ _ Ht).
    pose proof (proj1 (proj2 grammar_bounds) _ _ _ _ Hts). eapply terms_cons; [lia|apply IHt; lia|apply IHts; lia].
  - intros. econstructor; try done. lia.
  - intros e p lim n q Hn Hp Hop Hle Hts IH Hq lim' Hl. pose proof (proj1 (proj2 grammar_bounds) _ _ _ _ Hts).
    eapply object_plain; try done; [lia|apply IH; lia|lia].
  - intros. eapply object_package; try done. lia.
Qed.
Lemma object_shrink e p lim q : object e p lim q -> object e p q q.
Proof. intros H. eapply grammar_shrink; [done|]. apply grammar_bounds in H. lia. Qed.
Lemma object_bounds e p lim q : object e p lim q -> p < q <= lim.
Proof. apply grammar_bounds. Qed.
End Grammar.
