(* ===== verification/AmlParseProofs.v ===== *)
(** * AcpiSdtDxe: the AML parser against its grammar *)
From S2P Require Import Prelude Bytes AmlString AmlStringProofs AmlParse AmlGrammar.

(** ** The encoding table *)
Definition wf_encoding (e : AML_BYTE_ENCODING) : bool :=
  (length (Format e) =? 6)%nat && (0 <=? MaxIndex e) && (MaxIndex e <=? 6) &&
  forallb (fun f => (AML_UINT8 <=? f) && (f <=? AML_OBJECT)) (formats e) &&
  (if has e AML_IN_NAMESPACE then negb (LastName e (Z.to_nat (MaxIndex e)) =? 0) else true) &&
  (if has e AML_IS_NAME_CHAR then MaxIndex e =? 0 else true).

Lemma table_wf e : e ∈ mAmlByteEncoding -> wf_encoding e = true.
Proof.
  assert (forallb wf_encoding mAmlByteEncoding = true) as H by (vm_compute; reflexivity).
  rewrite forallb_forall in H. intros He. apply H. by apply list_elem_of_In.
Qed.

(** Every opcode has one encoding. *)
Lemma table_keys : NoDup ((fun e => (OpCode e, SubOpCode e)) <$> mAmlByteEncoding).
Proof. apply (bool_decide_unpack _). vm_compute. reflexivity. Qed.
Lemma table_sub e : e ∈ mAmlByteEncoding -> OpCode e <> AML_EXT_OP -> SubOpCode e = 0.
Proof.
  assert (forallb (fun e => (OpCode e =? AML_EXT_OP) || (SubOpCode e =? 0)) mAmlByteEncoding = true) as H
    by (vm_compute; reflexivity).
  rewrite forallb_forall in H. intros He Hne. specialize (H e). rewrite <-list_elem_of_In in H. specialize (H He). lia.
Qed.

Lemma find_key (l : list AML_BYTE_ENCODING) a b e :
  NoDup ((fun e => (OpCode e, SubOpCode e)) <$> l) ->
  find (fun e => (OpCode e =? a) && (SubOpCode e =? b)) l = Some e <-> e ∈ l /\ OpCode e = a /\ SubOpCode e = b.
Proof.
  induction l as [|x l IH]; cbn [fmap list_fmap find].
  { intros _. split; [done|]. intros [H _]. by apply not_elem_of_nil in H. }
  intros [Hx Hl]%NoDup_cons. specialize (IH Hl). destruct ((OpCode x =? a) && (SubOpCode x =? b)) eqn:E.
  - split; [intros [= ->]|].
    + split; [by left|lia].
    + intros (H & Ha & Hb). apply elem_of_cons in H as [->|H]; [done|]. destruct Hx.
      apply list_elem_of_fmap. exists e. split; [f_equal; lia|done].
  - rewrite IH. split; [intros (? & ?); split; [by right|done]|]. intros (H & Ha & Hb). split; [|done].
    apply elem_of_cons in H as [->|H]; [lia|done].
Qed.

(** ** Arithmetic of package lengths *)
Lemma lor_shift x y k : 0 <= y < 2 ^ k -> 0 <= k -> Z.lor (Z.shiftl x k) y = 2 ^ k * x + y.
Proof.
  intros Hy Hk. assert (Z.land (Z.shiftl x k) y = 0) as H0.
  2:{ pose proof (Z.add_lor_land (Z.shiftl x k) y) as H. rewrite H0, Z.shiftl_mul_pow2 in H by done.
      rewrite Z.shiftl_mul_pow2 by done. lia. }
  apply Z.bits_inj'. intros i Hi. rewrite Z.land_spec, Z.bits_0, Z.shiftl_spec by done.
  destruct (Z.lt_ge_cases i k).
  - by rewrite (Z.testbit_neg_r x) by lia.
  - destruct (Z.eq_dec y 0) as [->|]; [by rewrite Z.bits_0, andb_false_r|].
    rewrite (Z.bits_above_log2 y), andb_false_r; [done|lia|].
    enough (Z.log2 y < k) by lia. apply Z.log2_lt_pow2; lia.
Qed.
Lemma land_15 x : 0 <= x -> Z.land x 0xF = x mod 16.
Proof. intros. by change 15 with (Z.ones 4); rewrite Z.land_ones by lia. Qed.
Lemma lead_count x : is_byte x -> Z.land (Z.shiftr x 6) 3 = x / 64.
Proof.
  intros Hx. unfold is_byte in Hx. change 3 with (Z.ones 2). rewrite Z.land_ones, Z.shiftr_div_pow2 by lia.
  change (2 ^ 6) with 64. change (2 ^ 2) with 4. rewrite Z.mod_small; [done|lia_div].
Qed.

(** ** Reads *)
Section Proofs.
Context (m : list Z) (T : Z).
(** The parser reads up to four bytes past the end of a table: they are
    there, and zero. *)
Definition padded : Prop :=
  Forall is_byte m /\ 0 <= T /\ forall i, 0 <= i < 4 -> m !! Z.to_nat (T + i) = Some 0.
Context (Hpad : padded).

Lemma pad_byte p : 0 <= p < T + 4 -> exists b, m !! Z.to_nat p = Some b /\ is_byte b.
Proof.
  destruct Hpad as (Hb & HT & Hz). intros Hp.
  destruct (lookup_lt_is_Some_2 m (Z.to_nat p)) as [b Eb].
  { specialize (Hz 3 ltac:(lia)). apply lookup_lt_Some in Hz. lia. }
  exists b. split; [done|]. by eapply Forall_lookup_1 in Eb.
Qed.
Lemma byte_run p : 0 <= p < T + 4 -> exists b, byte p m = Done b m /\ byte_at m p b /\ is_byte b.
Proof.
  intros Hp. destruct (pad_byte p Hp) as (b & Eb & Hb). exists b. split; [|by split; [split; [lia|]|]].
  unfold byte, mbind, M_bind, get, deref. rewrite (proj2 (Z.leb_le 0 p)) by lia. by rewrite Eb.
Qed.
Lemma byte_at_fun p b b' : byte_at m p b -> byte_at m p b' -> b = b'.
Proof. intros [_ H] [_ H']. congruence. Qed.
Lemma suffix_bytes p l : suffix_at m p l -> Forall is_byte l.
Proof. intros [_ <-]. apply Forall_drop, Hpad. Qed.

Lemma op_length_run p : 0 <= p < T + 4 ->
  exists b, byte p m = Done b m /\ forall n, op_length m p n <-> n = if b =? AML_EXT_OP then 2 else 1.
Proof.
  intros Hp. destruct (byte_run p Hp) as (b & Hrun & Hb & _). exists b. split; [done|]. intros n. split.
  - intros (b' & Hb' & ->). by rewrite (byte_at_fun _ _ _ Hb Hb').
  - intros ->. by exists b.
Qed.

Lemma search_run p : 0 <= p < T + 3 ->
  exists o, AmlSearchByOpByte p m = Done o m /\ forall e, encoded_at m p e <-> o = Some e.
Proof.
  intros Hp. destruct (byte_run p ltac:(lia)) as (b & Hrun & Hb & Hby).
  destruct (byte_run (p + 1) ltac:(lia)) as (b' & Hrun' & Hb' & _).
  exists (find (fun e => (OpCode e =? b) && (SubOpCode e =? if b =? AML_EXT_OP then b' else 0)) mAmlByteEncoding).
  split.
  - unfold AmlSearchByOpByte, mbind, M_bind. rewrite Hrun. by destruct (b =? AML_EXT_OP); rewrite ?Hrun'.
  - intros e. rewrite find_key by apply table_keys. unfold encoded_at. split.
    + intros (He & Ho & Hs). rewrite (byte_at_fun _ _ _ Ho Hb) in *. split; [done|]. split; [done|].
      destruct (b =? AML_EXT_OP); [|done]. by eapply byte_at_fun.
    + intros (He & <- & Hs). split; [done|]. split; [done|].
      by destruct (OpCode e =? AML_EXT_OP); [rewrite Hs|].
Qed.

(** *** Strings and names stop at the padding *)
Lemma zero_after p : 0 <= p <= T -> exists k, (k < length (drop (Z.to_nat p) m))%nat /\
  forall i, (i < 4)%nat -> drop (Z.to_nat p) m !! (k + i)%nat = Some 0.
Proof.
  destruct Hpad as (Hb & HT & Hz). intros Hp. exists (Z.to_nat (T - p)). 
  assert (forall i, (i < 4)%nat -> drop (Z.to_nat p) m !! (Z.to_nat (T - p) + i)%nat = Some 0) as H.
  { intros i Hi. rewrite lookup_drop. rewrite <-(Hz (Z.of_nat i)) by lia. f_equal. lia. }
  split; [|done]. specialize (H 0%nat ltac:(lia)). apply lookup_lt_Some in H. lia.
Qed.
End Proofs.

(** A zero at index [k] stops the readers of names. *)
Lemma SkipParents_total l k : l !! k = Some 0 -> exists n q j, SkipParents l = Some (n, q) /\ q = drop n l /\
  (n + j = k)%nat.
Proof.
  revert k. induction l as [|b l IH]; intros k Hk; [done|]. cbn [SkipParents].
  destruct (Z.eqb_spec b AML_PARENT_PREFIX_CHAR) as [->|].
  - destruct k as [|k]; [done|]. destruct (IH k Hk) as (n & q & j & -> & -> & Hn). cbn. exists (S n), (drop n l), j.
    split; [done|]. split; [done|]. lia.
  - exists 0%nat, (b :: l), k. done.
Qed.

Lemma AmlIsNameSeg_total l k : l !! k = Some 0 ->
  exists ok, AmlIsNameSeg l = Some ok /\ (ok = true -> (4 <= k)%nat).
Proof.
  intros Hk. unfold AmlIsNameSeg, peek. cbn -[AmlIsLeadName AmlIsName].
  destruct l as [|a l]; [done|]. cbn -[AmlIsLeadName AmlIsName].
  destruct k as [|k]; [injection Hk as ->; by exists false|]. cbn in Hk.
  destruct (AmlIsLeadName (char8 a)); [|by exists false].
  destruct l as [|b l]; [done|]. cbn -[AmlIsLeadName AmlIsName].
  destruct k as [|k]; [injection Hk as ->; by exists false|]. cbn in Hk.
  destruct (AmlIsName (char8 b)); [|by exists false].
  destruct l as [|c l]; [done|]. cbn -[AmlIsLeadName AmlIsName].
  destruct k as [|k]; [injection Hk as ->; by exists false|]. cbn in Hk.
  destruct (AmlIsName (char8 c)); [|by exists false].
  destruct l as [|d l]; [done|]. cbn -[AmlIsLeadName AmlIsName].
  destruct k as [|k]; [injection Hk as ->; by exists false|].
  destruct (AmlIsName (char8 d)); [exists true; split; [done|lia]|by exists false].
Qed.

Lemma NameSegs_total n : forall l k, l !! k = Some 0 -> is_Some (NameSegs l n).
Proof.
  induction n as [|n IH]; intros l k Hk; cbn [NameSegs]; [by eexists|].
  destruct (AmlIsNameSeg_total l k Hk) as (ok & -> & Hok). cbn [mbind option_bind].
  destruct ok; cbn [negb]; [|by eexists]. specialize (Hok eq_refl).
  destruct (IH (drop AML_NAME_SEG_SIZE l) (k - 4)%nat) as [r ->]; [|by eexists].
  rewrite lookup_drop, <-Hk. f_equal. unfold AML_NAME_SEG_SIZE. lia.
Qed.
Lemma SegsSize_total l L c k : l !! k = Some 0 -> is_Some (SegsSize l L c).
Proof.
  intros Hk. unfold SegsSize. destruct (NameSegs_total (Nat.max 1 c) l k Hk) as [r ->]. cbn. by eexists.
Qed.

Lemma AmlGetNameStringSize_total l k :
  l !! k = Some 0 -> l !! (k + 1)%nat = Some 0 -> l !! (k + 2)%nat = Some 0 -> is_Some (AmlGetNameStringSize l).
Proof.
  intros H0 H1 H2. unfold AmlGetNameStringSize, NamePrefix.
  assert (forall L root q j, (exists i, (j + i)%nat = k /\ q = drop j l) \/ q = drop (S k) l ->
    is_Some (NameBodySize L root q)) as Hbody.
  { intros L root q j Hq.
    assert (exists j', q !! j' = Some 0 /\ q !! S j' = Some 0) as (j' & Hj & Hj').
    { destruct Hq as [(i & Hi & ->)| ->].
      - exists i. rewrite !lookup_drop. replace (j + i)%nat with k by lia. by replace (j + S i)%nat with (k + 1)%nat by lia.
      - exists 0%nat. rewrite !lookup_drop. replace (S k + 0)%nat with (k + 1)%nat by lia.
        by replace (S k + 1)%nat with (k + 2)%nat by lia. }
    unfold NameBodySize. destruct q as [|c q]; [done|]. cbn [peek head mbind option_bind].
    destruct (c =? AML_DUAL_NAME_PREFIX) eqn:E2.
    { destruct j' as [|j']; [by injection Hj as ->|]. by eapply (SegsSize_total _ _ _ j'). }
    destruct (c =? AML_MULTI_NAME_PREFIX) eqn:E3.
    { destruct j' as [|j']; [by injection Hj as ->|]. cbn in Hj, Hj' |- *.
      destruct q as [|n q]; [done|]. cbn [mbind option_bind].
      destruct j' as [|j']; [by apply (SegsSize_total q _ _ 0)|by apply (SegsSize_total q _ _ j')]. }
    destruct (c =? 0); [by eexists|]. by eapply SegsSize_total. }
  destruct l as [|b l']; [done|]. cbn [peek head mbind option_bind].
  destruct (b =? AML_ROOT_CHAR) eqn:Eb; cbn [mbind option_bind fst snd].
  - apply (Hbody _ _ _ 1%nat). destruct k as [|k]; [injection H0 as ->; done|]. left. exists k. done.
  - destruct (SkipParents_total (b :: l') k H0) as (n & q & j & -> & Hq & Hn). cbn [mbind option_bind fst snd].
    apply (Hbody _ _ _ n). left. by exists j.
Qed.

Lemma StrSize_spec l n : StrSize l = Some n <->
  exists s tl, l = s ++ 0 :: tl /\ Forall (fun b => b <> 0) s /\ n = Z.of_nat (length s) + 1.
Proof.
  revert n. induction l as [|b l IH]; intros n; cbn [StrSize].
  { split; [done|]. intros (s & tl & H & _). by destruct s. }
  destruct (Z.eqb_spec b 0) as [->|Hb].
  - split; [intros [= <-]; by exists [], l|]. intros (s & tl & H & Hs & ->). destruct s as [|x s]; [done|].
    injection H as <- _. by apply Forall_cons in Hs as [? _].
  - destruct (StrSize l) as [k|]; cbn [mbind option_bind].
    + split.
      * intros [= <-]. destruct (proj1 (IH k) eq_refl) as (s & tl & -> & Hs & ->).
        exists (b :: s), tl. split; [done|]. split; [by constructor|]. cbn. lia.
      * intros (s & tl & H & Hs & ->). destruct s as [|x s]; [by injection H as -> _|]. injection H as <- ->.
        apply Forall_cons in Hs as [_ Hs].
        assert (Some k = Some (Z.of_nat (length s) + 1)) as [= ->] by (apply IH; by exists s, tl).
        f_equal. cbn. lia.
    + split; [done|]. intros (s & tl & H & Hs & ->). destruct s as [|x s]; [by injection H as -> _|].
      injection H as <- ->. apply Forall_cons in Hs as [_ Hs].
      assert (None = Some (Z.of_nat (length s) + 1)) as [=] by (apply IH; by exists s, tl).
Qed.
Lemma StrSize_total l k : l !! k = Some 0 -> is_Some (StrSize l).
Proof.
  revert k. induction l as [|b l IH]; intros k Hk; [done|]. cbn [StrSize]. destruct (b =? 0) eqn:E; [by eexists|].
  destruct k as [|k]; [by injection Hk as ->|]. destruct (IH k Hk) as [n ->]. by eexists.
Qed.

Lemma segs_status l L c St n : SegsSize l L c = Some (St, n) -> St = EFI_SUCCESS \/ EFI_ERROR St = true.
Proof. unfold SegsSize. destruct (NameSegs l (Nat.max 1 c)) as [[k|]|]; [| |done]; intros [= <- _]; auto. Qed.
Lemma name_status l St n : AmlGetNameStringSize l = Some (St, n) -> St = EFI_SUCCESS \/ EFI_ERROR St = true.
Proof.
  unfold AmlGetNameStringSize. destruct (NamePrefix l) as [[[L root] q]|]; [|done]. cbn [mbind option_bind fst snd].
  unfold NameBodySize. destruct (peek q) as [c|]; [|done]. cbn [mbind option_bind].
  destruct (c =? AML_DUAL_NAME_PREFIX); [apply segs_status|]. destruct (c =? AML_MULTI_NAME_PREFIX).
  - destruct (q !! 1%nat); [apply segs_status|done].
  - destruct (c =? 0); [destruct root; intros [= <- _]; auto|apply segs_status].
Qed.

Section Parser.
Context (m : list Z) (T : Z) (Hpad : padded m T).

Lemma at_ptr_run {A} p (f : list Z -> option A) a : 0 <= p -> f (drop (Z.to_nat p) m) = Some a -> at_ptr p f m = Done a m.
Proof.
  intros Hp Hf. unfold at_ptr, mbind, M_bind, get, deref. rewrite (proj2 (Z.leb_le 0 p)) by done. by rewrite Hf.
Qed.

Lemma name_run p : 0 <= p <= T ->
  exists o, NameStringSize p m = Done o m /\ forall n, name_at m p n <-> o = Some n.
Proof.
  intros Hp. destruct (zero_after _ _ Hpad p Hp) as (k & _ & Hz).
  destruct (AmlGetNameStringSize_total (drop (Z.to_nat p) m) k) as [[St n] E].
  { rewrite <-(Hz 0%nat) by lia. f_equal. lia. }
  { by apply Hz; lia. }
  { by apply Hz; lia. }
  exists (if EFI_ERROR St then None else Some n). split.
  { unfold NameStringSize, mbind, M_bind. rewrite (at_ptr_run _ _ (St, n)); [done|lia|done]. }
  assert (Forall is_byte (drop (Z.to_nat p) m)) as Hby by apply Forall_drop, Hpad.
  assert (St = EFI_SUCCESS \/ EFI_ERROR St = true) as HS.
  { by eapply name_status. }
  intros n'. transitivity (AmlGetNameStringSize (drop (Z.to_nat p) m) = Some (EFI_SUCCESS, n')).
  - rewrite AmlGetNameStringSize_spec by done.
    split; intros (nm & tl & H & ?); exists nm, tl; (split; [|done]); [by destruct H|]. split; [lia|done].
  - rewrite E. destruct HS as [->|HE]; [change (EFI_ERROR EFI_SUCCESS) with false; cbv iota; naive_solver|].
    rewrite HE. split; [|done]. intros [= -> _]. discriminate HE.
Qed.

Lemma string_run p : 0 <= p <= T ->
  exists n, AsciiStrSize p m = Done n m /\ forall n', string_at m p n' <-> n' = n.
Proof.
  intros Hp. destruct (zero_after _ _ Hpad p Hp) as (k & _ & Hz).
  destruct (StrSize_total (drop (Z.to_nat p) m) k) as [n E].
  { rewrite <-(Hz 0%nat) by lia. f_equal. lia. }
  exists n. split; [by apply at_ptr_run; [lia|]|]. intros n'.
  transitivity (StrSize (drop (Z.to_nat p) m) = Some n').
  - rewrite StrSize_spec.
    split; intros (s & tl & H & ?); exists s, tl; (split; [|done]); [by destruct H|]. split; [lia|done].
  - rewrite E. naive_solver.
Qed.

Lemma suffix_cons p b : 0 <= p -> m !! Z.to_nat p = Some b -> drop (Z.to_nat p) m = b :: drop (Z.to_nat (p + 1)) m.
Proof. intros Hp Hb. rewrite (drop_S _ _ _ Hb). f_equal. f_equal. lia. Qed.

(** The bytes of the package length, as the grammar reads them. *)
Lemma pkg_run p : 0 <= p <= T ->
  exists k L, AmlGetPkgLength p m = Done (k, L) m /\ (forall k' L', pkg_at m p k' L' <-> (k' = k /\ L' = L)) /\
    1 <= k <= 4 /\ 0 <= L < 2 ^ 28.
Proof.
  intros Hp. destruct (byte_run m T Hpad p ltac:(lia)) as (b & Hr & [_ Hb] & Hby).
  destruct (byte_run m T Hpad (p + 1) ltac:(lia)) as (b1 & Hr1 & [_ Hb1] & Hby1).
  destruct (byte_run m T Hpad (p + 2) ltac:(lia)) as (b2 & Hr2 & [_ Hb2] & Hby2).
  destruct (byte_run m T Hpad (p + 3) ltac:(lia)) as (b3 & Hr3 & [_ Hb3] & Hby3).
  replace (p + 2) with (p + 1 + 1) in Hb2 by lia. replace (p + 3) with (p + 1 + 1 + 1) in Hb3 by lia.
  apply suffix_cons in Hb as S0; [|lia]. apply suffix_cons in Hb1 as S1; [|lia].
  apply suffix_cons in Hb2 as S2; [|lia]. apply suffix_cons in Hb3 as S3; [|lia].
  remember (drop (Z.to_nat (p + 1 + 1 + 1 + 1)) m) as tl eqn:Etl. clear Etl.
  unfold is_byte in *.
  assert (exists c, c = b / 64) as [c Ec] by eauto. assert (0 <= c < 4) as Hc by lia_div.
  set (bs := take (Z.to_nat c) [b1; b2; b3]).
  exists (c + 1), (if c =? 0 then b else b mod 16 + 16 * le_combine bs).
  assert (Z.of_nat (length bs) = c) as Hlen by (unfold bs; rewrite length_take; cbn; lia).
  assert (suffix_at m p (b :: bs ++ drop (Z.to_nat c) [b1; b2; b3] ++ tl)) as Hsuf.
  { split; [lia|]. rewrite S0, S1, S2, S3. f_equal. unfold bs. by rewrite (assoc_L (++)), take_drop. }
  split; [|split].
  - unfold AmlGetPkgLength, mbind, M_bind. rewrite Hr, lead_count, <-Ec by done.
    assert (c = 0 \/ c = 1 \/ c = 2 \/ c = 3) as [E|[E|[E|E]]] by lia; unfold bs; rewrite E in *.
    + done.
    + change (take _ _) with [b1]. cbn -[Z.mul Z.modulo Z.lor Z.shiftl Z.land]. rewrite Hr1, land_15, lor_shift by lia_div.
      cbn -[Z.mul Z.modulo]. do 2 f_equal. lia.
    + change (take _ _) with [b1; b2]. cbn -[Z.mul Z.modulo Z.lor Z.shiftl Z.land].
      rewrite Hr1, Hr2, land_15 by lia. rewrite (Z.lor_comm b1), (lor_shift b2 b1 8), lor_shift by lia_div.
      cbn -[Z.mul Z.modulo]. do 2 f_equal. lia.
    + change (take _ _) with [b1; b2; b3]. cbn -[Z.mul Z.modulo Z.lor Z.shiftl Z.land].
      rewrite Hr1, Hr2, Hr3, land_15 by lia.
      rewrite (Z.lor_comm b1), (lor_shift b2 b1 8) by lia. rewrite (Z.lor_comm _ (Z.shiftl b3 16)), (lor_shift b3 _ 16) by lia.
      rewrite lor_shift by lia_div. cbn -[Z.mul Z.modulo]. do 2 f_equal. lia.
  - intros k' L'. split.
    + intros (lead & bs' & tl' & [_ Hs'] & Hl' & -> & ->). destruct Hsuf as [_ Hs]. rewrite Hs in Hs'.
      injection Hs' as <- Hs'. rewrite <-Ec in Hl' |- *. split; [done|].
      apply app_inj_1 in Hs' as [<- _]; [done|lia].
    + intros [-> ->]. exists b, bs, (drop (Z.to_nat c) [b1; b2; b3] ++ tl). rewrite <-Ec. auto.
  - split; [lia|]. assert (Forall is_byte bs) as HF by (apply Forall_take; repeat constructor; unfold is_byte; lia).
    apply le_combine_range in HF. rewrite Hlen in HF.
    assert (256 ^ c <= 256 ^ 3) by (apply Z.pow_le_mono_r; lia). destruct (Z.eqb_spec c 0); lia_div.
Qed.

(** ** Objects *)
(** What is promised of the size of an object in at most [N] bytes. *)
Definition size_spec (f : AML_BYTE_ENCODING -> Z -> Z -> aml Z) (N : Z) : Prop :=
  forall e p k, e ∈ mAmlByteEncoding -> 0 <= p -> 0 <= k <= N -> p + k <= T ->
    exists n, f e p k m = Done n m /\ 0 <= n /\ forall q, object m e p (p + k) q <-> n <> 0 /\ q = p + n.

Lemma encoded_table p e : encoded_at m p e -> e ∈ mAmlByteEncoding.
Proof. by intros [? _]. Qed.

Lemma bind_Done {A B} (x : aml A) (f : A -> aml B) a : x m = Done a m -> (a ← x; f a) m = f a m.
Proof. intros H. unfold mbind, M_bind. by rewrite H. Qed.

Definition type_of (f : Z) : EFI_ACPI_DATA_TYPE :=
  if f =? AML_OBJECT then EFI_ACPI_DATA_TYPE_CHILD else if f =? AML_STRING then EFI_ACPI_DATA_TYPE_STRING
  else if f =? AML_NAME then EFI_ACPI_DATA_TYPE_NAME_STRING else EFI_ACPI_DATA_TYPE_UINT.

Lemma TermSize_run f N fmt c k :
  size_spec f N -> AML_UINT8 <= fmt <= AML_OBJECT -> 0 <= c -> 0 <= k <= N -> c + k <= T ->
  exists o, TermSize f fmt c k (type_of fmt) m = Done o m /\
    forall ty n, term m fmt c (c + k) ty (c + n) <-> o = Some (ty, n) /\ n <= k.
Proof.
  intros Hf Hfmt Hc Hk HT. unfold AML_UINT8, AML_OBJECT in Hfmt.
  assert (fmt = 2 \/ fmt = 3 \/ fmt = 4 \/ fmt = 5 \/ fmt = 6 \/ fmt = 7 \/ fmt = 8) as Hcase by lia.
  assert (forall v, fixed_size fmt = Some v -> exists o, (mret (Some (type_of fmt, v)) : aml _) m = Done o m /\
    forall ty n, term m fmt c (c + k) ty (c + n) <-> o = Some (ty, n) /\ n <= k) as Hfix.
  { intros v Hv. eexists. split; [done|]. intros ty n. split.
    - intros Ht. inversion Ht as [? v' ? ? Hv' Hle| | | |]; subst; try discriminate Hv. rewrite Hv in Hv'. injection Hv' as <-.
      assert (n = v) as -> by lia. split; [|lia]. destruct Hcase as [->|[->|[->|[->|[->|[->| ->]]]]]]; by try discriminate Hv.
    - intros [[= <- <-] Hle].
      replace (type_of fmt) with EFI_ACPI_DATA_TYPE_UINT
        by (destruct Hcase as [->|[->|[->|[->|[->|[->| ->]]]]]]; by try discriminate Hv).
      constructor; [done|lia]. }
  destruct Hcase as [->|[->|[->|[->|[->|[->| ->]]]]]]; try (by apply Hfix); clear Hfix.
  - destruct (name_run c ltac:(lia)) as (o & Hrun & Hn). exists (pair (type_of 6) <$> o). split.
    { unfold TermSize. cbn -[type_of]. by rewrite (bind_Done _ _ _ Hrun). }
    intros ty n. split.
    + intros Ht. inversion Ht as [? ? ? ? Hv| |? ? n' Hn' Hle| |]; subst; [discriminate Hv|].
      assert (n' = n) as -> by lia. apply Hn in Hn' as ->. split; [done|lia].
    + intros [H Hle]. destruct o as [n'|]; [|done]. injection H as <- <-. constructor; [by apply Hn|lia].
  - destruct (string_run c ltac:(lia)) as (v & Hrun & Hn). exists (Some (type_of 7, v)). split.
    { unfold TermSize. cbn -[type_of]. by rewrite (bind_Done _ _ _ Hrun). }
    intros ty n. split.
    + intros Ht. inversion Ht as [? ? ? ? Hv|? ? n' Hn' Hle| | |]; subst; [discriminate Hv|].
      assert (n' = n) as -> by lia. apply Hn in Hn' as ->. split; [done|lia].
    + intros [[= <- <-] Hle]. constructor; [by apply Hn|lia].
  - destruct (search_run m T Hpad c ltac:(lia)) as (oe & Hs & He).
    unfold TermSize. cbn -[type_of]. rewrite (bind_Done _ _ _ Hs). destruct oe as [e|].
    2:{ eexists. split; [done|]. intros ty n. split; [|intros [? _]; done].
        intros Ht. inversion Ht as [? ? ? ? Hv| | |e ? ? ? Hen|e ? ? ? Hen]; subst; [discriminate Hv| |]; by apply He in Hen. }
    assert (encoded_at m c e) as Hen by by apply He. destruct (has e AML_IS_NAME_CHAR) eqn:Hname.
    + destruct (name_run c ltac:(lia)) as (o & Hrun & Hn). exists (pair EFI_ACPI_DATA_TYPE_NAME_STRING <$> o). split.
      { rewrite (bind_Done _ _ EFI_ACPI_DATA_TYPE_NAME_STRING) by done. by rewrite (bind_Done _ _ _ Hrun). }
      intros ty n. split.
      * intros Ht. inversion Ht as [? ? ? ? Hv| | |e' ? ? n' Hen' Hname' Hn' Hle|e' ? ? ? Hen' Hname' Ho]; subst; [discriminate Hv| |].
        -- assert (n' = n) as -> by lia. apply Hn in Hn' as ->. split; [done|lia].
        -- apply He in Hen' as [= ->]. congruence.
      * intros [H Hle]. destruct o as [n'|]; [|done]. injection H as <- <-.
        apply (term_name_object _ e); [done|done|by apply Hn|lia].
    + destruct (Hf e c k) as (v & Hrun & Hv & Ho); [by eapply encoded_table|done..|].
      exists (if v =? 0 then None else Some (type_of 8, v)). split; [by rewrite (bind_Done _ _ _ Hrun)|].
      intros ty n. split.
      * intros Ht. inversion Ht as [? ? ? ? Hv'| | |e' ? ? n' Hen' Hname' Hn' Hle|e' ? ? ? Hen' Hname' Hob]; subst; [discriminate Hv'| |].
        -- apply He in Hen' as [= ->]. congruence.
        -- apply He in Hen' as [= ->]. pose proof (object_bounds _ _ _ _ _ Hob). apply Ho in Hob as [Hne Heq].
           rewrite (proj2 (Z.eqb_neq v 0)) by done. assert (v = n) as -> by lia. split; [done|lia].
      * destruct (Z.eqb_spec v 0) as [|Hne]; [by intros [? _]|]. intros [[= <- <-] Hle].
        apply (term_object _ e); [done|done|]. apply Ho. auto.
Qed.

Lemma AmlTypeToAcpiType_run f : AML_UINT8 <= f <= AML_OBJECT -> AmlTypeToAcpiType f m = Done (type_of f) m.
Proof.
  unfold AML_UINT8, AML_OBJECT. intros H.
  assert (f = 2 \/ f = 3 \/ f = 4 \/ f = 5 \/ f = 6 \/ f = 7 \/ f = 8) as Hcase by lia.
  by destruct Hcase as [->|[->|[->|[->|[->|[->| ->]]]]]].
Qed.

(** The operands that remain from index [ti] on. *)
Definition remaining (e : AML_BYTE_ENCODING) (ti : Z) : list Z := drop (Z.to_nat (ti - 1)) (formats e).

Lemma wf_bounds e : e ∈ mAmlByteEncoding -> 0 <= MaxIndex e <= 6 /\ Z.of_nat (length (formats e)) = MaxIndex e.
Proof.
  intros He%table_wf. unfold wf_encoding in He. rewrite !andb_true_iff in He. destruct He as (((((H1 & H2) & H3) & _) & _) & _).
  apply Nat.eqb_eq in H1. split; [lia|]. unfold formats. rewrite length_take. lia.
Qed.
Lemma formats_lookup e ti f : e ∈ mAmlByteEncoding -> 1 <= ti -> formats e !! Z.to_nat (ti - 1) = Some f ->
  Format e !! Z.to_nat (ti - 1) = Some f /\ AML_UINT8 <= f <= AML_OBJECT.
Proof.
  intros He Hti Hf. split; [by apply lookup_take_Some in Hf as [? _]|].
  apply table_wf in He. unfold wf_encoding in He. rewrite !andb_true_iff in He. destruct He as (((_ & H4) & _) & _).
  rewrite forallb_forall in H4. specialize (H4 f). rewrite <-list_elem_of_In in H4.
  specialize (H4 (list_elem_of_lookup_2 _ _ _ Hf)). lia.
Qed.
Lemma remaining_cons e ti : e ∈ mAmlByteEncoding -> 1 <= ti <= MaxIndex e ->
  exists f, Format e !! Z.to_nat (ti - 1) = Some f /\ AML_UINT8 <= f <= AML_OBJECT /\
    remaining e ti = f :: remaining e (ti + 1).
Proof.
  intros He Hti. destruct (wf_bounds e He) as [_ Hl].
  destruct (lookup_lt_is_Some_2 (formats e) (Z.to_nat (ti - 1))) as [f Hf]; [lia|].
  destruct (formats_lookup e ti f) as [HF Hr]; [done|lia|done|]. exists f. split; [done|]. split; [done|].
  unfold remaining. rewrite (drop_S _ _ _ Hf). do 2 f_equal. lia.
Qed.
Lemma remaining_nil e ti : e ∈ mAmlByteEncoding -> MaxIndex e < ti -> remaining e ti = [].
Proof. intros He Hti. destruct (wf_bounds e He). apply drop_ge. lia. Qed.

Lemma Term_run f N e ti c k : size_spec f N -> e ∈ mAmlByteEncoding -> 1 <= ti <= MaxIndex e ->
  0 <= c -> 0 <= k <= N -> c + k <= T ->
  exists fmt o, remaining e ti = fmt :: remaining e (ti + 1) /\ AmlParseOptionTerm f e c k ti m = Done o m /\
    ((o = None /\ forall ty q, ~ term m fmt c (c + k) ty q) \/
     exists ty q, o = Some (mkParsed ty c (q - c)) /\ term m fmt c (c + k) ty q /\
       forall ty' q', term m fmt c (c + k) ty' q' -> ty' = ty /\ q' = q).
Proof.
  intros Hf He Hti Hc Hk HT. destruct (remaining_cons e ti He Hti) as (fmt & Hfmt & Hr & Hrem).
  destruct (TermSize_run f N fmt c k Hf Hr Hc Hk HT) as (o & Hrun & Ho).
  exists fmt, (match o with None => None | Some (type, n) => if k <? n then None else Some (mkParsed type c n) end).
  split; [done|]. split.
  { unfold AmlParseOptionTerm. rewrite (bind_Done _ _ fmt) by (by unfold deref; rewrite Hfmt).
    rewrite (bind_Done _ _ _ (AmlTypeToAcpiType_run fmt Hr)). by rewrite (bind_Done _ _ _ Hrun). }
  assert (forall ty q, term m fmt c (c + k) ty q <-> o = Some (ty, q - c) /\ q - c <= k) as Ho'.
  { intros ty q. rewrite <-Ho. by replace (c + (q - c)) with q by lia. }
  destruct o as [[ty n]|].
  2:{ left. split; [done|]. intros ty q [? _]%Ho'. done. }
  destruct (Z.ltb_spec k n).
  - left. split; [done|]. intros ty' q [[= -> ->] ?]%Ho'. lia.
  - right. exists ty, (c + n). replace (c + n - c) with n by lia. split; [done|]. split; [by apply Ho|].
    intros ty' q' [[= -> ->] _]%Ho'. split; [done|lia].
Qed.

(** The loop, for the size and for an operand. *)
Lemma ParseTerms_size f N e lim n : size_spec f N -> e ∈ mAmlByteEncoding -> lim <= T -> forall ti c,
  1 <= ti -> ti + Z.of_nat n = MaxIndex e + 1 -> 0 <= c -> lim - c <= N ->
  exists r, ParseTerms f n e lim AML_OP_PARSE_INDEX_GET_SIZE ti c m = Done r m /\
    ((r = inl None /\ forall q, ~ terms m (remaining e ti) c lim q) \/
     exists q', r = inr q' /\ forall q, terms m (remaining e ti) c lim q <-> q = q').
Proof.
  intros Hf He HT. destruct (wf_bounds e He) as [HM _]. induction n as [|n IH]; intros ti c Hti Hn Hc HN.
  - exists (inr c). split; [done|]. right. exists c. split; [done|]. intros q. rewrite remaining_nil by (done || lia).
    split; [by inversion 1|]. intros ->. constructor.
  - cbn [ParseTerms]. rewrite (proj2 (Z.leb_le ti AML_OP_PARSE_INDEX_GET_SIZE)) by (unfold AML_OP_PARSE_INDEX_GET_SIZE; lia).
    destruct (remaining_cons e ti He ltac:(lia)) as (fmt0 & _ & _ & Hrem0). cbn [andb].
    destruct (Z.ltb_spec c lim) as [Hlt|Hge].
    2:{ exists (inr c). split; [done|]. right. exists c. split; [done|]. intros q. rewrite Hrem0. split.
        - intros H. inversion H; subst; [done|lia].
        - intros ->. by constructor. }
    destruct (Term_run f N e ti c (lim - c)) as (fmt & o & Hrem & Hrun & Ho); [done|done|lia..|].
    replace (c + (lim - c)) with lim in Ho by lia. rewrite Hrem, (bind_Done _ _ _ Hrun).
    destruct Ho as [[-> Hno]|(ty & q & -> & Ht & Huniq)].
    + exists (inl None). split; [done|]. left. split; [done|]. intros q H.
      inversion H as [|? ? ? ? Hc'|? ? ? ? ty q' ? Hlt' Ht]; subst; [lia|]. by apply Hno in Ht.
    + pose proof (term_bounds _ _ _ _ _ _ Ht). cbn [DataSize].
      rewrite (proj2 (Z.eqb_neq AML_OP_PARSE_INDEX_GET_SIZE ti)) by (unfold AML_OP_PARSE_INDEX_GET_SIZE; lia).
      destruct (IH (ti + 1) (c + (q - c))) as (r & Hr & Hcase); [lia..|].
      replace (c + (q - c)) with q in * by lia. exists r. split; [done|].
      assert (forall q', terms m (fmt :: remaining e (ti + 1)) c lim q' <-> terms m (remaining e (ti + 1)) q lim q') as Hiff.
      { intros q'. split.
        - intros H'. inversion H' as [|? ? ? ? Hc'|? ? ? ? ty' q'' ? Hlt' Ht' Hts]; subst; [lia|].
          by apply Huniq in Ht' as [-> ->].
        - intros H'. by eapply terms_cons. }
      destruct Hcase as [[-> Hno]|(q' & -> & Hq')]; [left|right].
      * split; [done|]. intros q' H'%Hiff. by apply Hno in H'.
      * exists q'. split; [done|]. intros q0. by rewrite Hiff, Hq'.
Qed.

Lemma ParseTerms_operand f N e lim i n : size_spec f N -> e ∈ mAmlByteEncoding -> lim <= T -> i <= MaxIndex e -> forall ti c,
  1 <= ti <= i -> ti + Z.of_nat n = MaxIndex e + 1 -> 0 <= c -> lim - c <= N ->
  exists r, ParseTerms f n e lim i ti c m = Done r m /\
    (forall x, operand m (remaining e ti) (i - ti + 1) c lim x <-> r = inl (Some x)) /\
    (forall q, r = inr q -> lim <= q).
Proof.
  intros Hf He HT Hi. destruct (wf_bounds e He) as [HM _]. induction n as [|n IH]; intros ti c Hti Hn Hc HN; [lia|].
  cbn [ParseTerms]. rewrite (proj2 (Z.leb_le ti i)) by lia. cbn [andb].
  destruct (remaining_cons e ti He ltac:(lia)) as (fmt0 & _ & _ & Hrem0).
  destruct (Z.ltb_spec c lim) as [Hlt|Hge].
  2:{ exists (inr c). split; [done|]. split; [|by intros q [= <-]]. intros x. split; [|done].
      intros H. inversion H; subst; lia. }
  destruct (Term_run f N e ti c (lim - c)) as (fmt & o & Hrem & Hrun & Ho); [done|done|lia..|].
  replace (c + (lim - c)) with lim in Ho by lia. rewrite Hrem, (bind_Done _ _ _ Hrun).
  destruct Ho as [[-> Hno]|(ty & q & -> & Ht & Huniq)].
  { exists (inl None). split; [done|]. split; [|done]. intros x. split; [|done].
    intros H. inversion H as [? ? ? ? ? ? ? Ht|? ? ? ? ? ? ? ? ? Ht]; subst; by apply Hno in Ht. }
  pose proof (term_bounds _ _ _ _ _ _ Ht). cbn [DataSize]. destruct (Z.eqb_spec i ti) as [->|Hne].
  - eexists. split; [done|]. split; [|done]. intros x. replace (ti - ti + 1) with 1 by lia. split.
    + intros Hx. inversion Hx as [? ? ? ? ty' q' ? Ht'|? ? j ? ? ? ? ? ? Ht' Hop Hj]; subst.
      * by apply Huniq in Ht' as [-> ->].
      * assert (0 < j); [|lia]. clear -Hop. induction Hop; lia.
    + intros [= <-]. by constructor.
  - destruct (IH (ti + 1) (c + (q - c))) as (r & Hr & Hx & Hq); [lia..|].
    replace (c + (q - c)) with q in * by lia. exists r. split; [done|]. split; [|done].
    intros x. rewrite <-Hx. split.
    + intros Hop. inversion Hop as [? ? ? ? ty' q' ? Ht'|? ? j ? ? ty' q' ? ? Ht' Hop' Hj]; subst; [lia|].
      apply Huniq in Ht' as [-> ->]. by replace (i - (ti + 1) + 1) with j by lia.
    + intros Hop. replace (i - ti + 1) with (i - (ti + 1) + 1 + 1) by lia. by eapply operand_later.
Qed.

Lemma name_char_no_operands e : e ∈ mAmlByteEncoding -> has e AML_IS_NAME_CHAR = true -> MaxIndex e = 0.
Proof. intros He%table_wf Hn. unfold wf_encoding in He. rewrite Hn, !andb_true_iff in He. lia. Qed.

Lemma op_length_fun p n n' : op_length m p n -> op_length m p n' -> n = n'.
Proof. intros (b & Hb & ->) (b' & Hb' & ->). by rewrite (byte_at_fun m _ _ _ Hb Hb'). Qed.
Lemma pkg_fun p k L k' L' : 0 <= p <= T -> pkg_at m p k L -> pkg_at m p k' L' -> k = k' /\ L = L'.
Proof.
  intros Hp H H'. destruct (pkg_run p Hp) as (k0 & L0 & _ & Hiff & _).
  apply Hiff in H as [-> ->]. by apply Hiff in H' as [-> ->].
Qed.

(** The head of an object: where its operands are, or that it does not fit. *)
Definition Head (e : AML_BYTE_ENCODING) (p k : Z) : aml (option (Z * Z * Z)) :=
  op ← byte p;
  let OpLength := if op =? AML_EXT_OP then 2 else 1 in
  if k <? OpLength then mret None else
  pkg ← (if has e AML_HAS_PKG_LENGTH then AmlGetPkgLength (p + OpLength) else mret (0, 0));
  let '(PkgOffset, PkgLength) := pkg in
  if has e AML_HAS_PKG_LENGTH && (k <? OpLength + PkgLength) then mret None else
  let k := if has e AML_HAS_PKG_LENGTH then OpLength + PkgLength else k in
  mret (Some (p + OpLength + PkgOffset, p + k, OpLength + PkgLength)).

Lemma Head_run e p k : 0 <= p -> 0 <= k -> p + k <= T ->
  exists o, Head e p k m = Done o m /\
    ((o = None /\ forall c lim, ~ body_at m e p (p + k) c lim) \/
     exists c lim n, o = Some (c, lim, n) /\ (forall c' lim', body_at m e p (p + k) c' lim' <-> c' = c /\ lim' = lim) /\
       p < c /\ lim <= p + k /\
       if has e AML_HAS_PKG_LENGTH then lim = p + n /\ (exists op kk L, op_length m p op /\ pkg_at m (p + op) kk L /\
         c = p + op + kk /\ lim = p + op + L) else lim = p + k /\ op_length m p (c - p) /\ c <= p + k).
Proof.
  intros Hp Hk HT. destruct (op_length_run m T Hpad p ltac:(lia)) as (b & Hrun & Hop).
  unfold Head. rewrite (bind_Done _ _ _ Hrun). remember (if b =? AML_EXT_OP then 2 else 1) as n eqn:En.
  assert (1 <= n <= 2) by (subst; destruct (b =? _); lia).
  destruct (Z.ltb_spec k n).
  { eexists. split; [done|]. left. split; [done|]. intros c lim Hb. inversion Hb; subst.
    - match goal with H : op_length _ _ _ |- _ => apply Hop in H as -> end. lia.
    - match goal with H : op_length _ _ _ |- _ => apply Hop in H as -> end. lia. }
  destruct (has e AML_HAS_PKG_LENGTH) eqn:Hpkg.
  - destruct (pkg_run (p + n) ltac:(lia)) as (kk & L & Hr & Hiff & Hkk & HL). rewrite (bind_Done _ _ _ Hr). cbn [andb].
    destruct (Z.ltb_spec k (n + L)).
    + eexists. split; [done|]. left. split; [done|]. intros c lim Hb. inversion Hb as [|n' k' L' ? Ho ? Hp']; subst; [congruence|].
      apply Hop in Ho as ->. apply Hiff in Hp' as [-> ->]. lia.
    + eexists. split; [done|]. right. eexists _, _, _. split; [done|]. split.
      * intros c' lim'. split.
        -- intros Hb. inversion Hb as [|n' k' L' ? Ho ? Hp']; subst; [congruence|].
           apply Hop in Ho as ->. apply Hiff in Hp' as [-> ->]. split; lia.
        -- intros [-> ->]. rewrite Z.add_assoc. constructor; [done|by apply Hop|lia|by apply Hiff|lia].
      * split_and!; [lia|lia|lia|]. exists n, kk, L. split_and!; [by apply Hop|by apply Hiff|lia|lia].
  - eexists. split; [done|]. right. eexists _, _, _. split; [done|]. split.
    + intros c' lim'. split.
      * intros Hb. inversion Hb as [n' ? Ho|]; subst; [|congruence]. apply Hop in Ho as ->. split; lia.
      * intros [-> ->]. rewrite Z.add_0_r. constructor; [done|by apply Hop|lia].
    + split_and!; try lia. apply Hop. lia.
Qed.

(** AmlParseOptionCommon is its head, the loop, and the final checks. *)
Lemma Common_head f e p k i : has e AML_IS_NAME_CHAR = false -> i <> AML_OP_PARSE_INDEX_GET_OPCODE ->
  AmlParseOptionCommon f e p k i m =
  (ASSERT ((i <=? MaxIndex e) || (i =? AML_OP_PARSE_INDEX_GET_SIZE));;
   h ← Head e p k;
   match h with
   | None => mret None
   | Some (c, Limit, n) =>
       r ← ParseTerms f (Z.to_nat (MaxIndex e)) e Limit i AML_OP_PARSE_INDEX_GET_TERM1 c;
       match r with
       | inl r => mret r
       | inr CurrentBuffer =>
           if Limit <? CurrentBuffer then mret None else
           if (CurrentBuffer =? Limit) && negb (i =? AML_OP_PARSE_INDEX_GET_SIZE) then mret None else
           ASSERT (i =? AML_OP_PARSE_INDEX_GET_SIZE);;
           mret (Some (mkParsed EFI_ACPI_DATA_TYPE_NONE 0 (if has e AML_HAS_PKG_LENGTH then n else CurrentBuffer - p)))
       end
   end) m.
Proof.
  intros Hn Hi. unfold AmlParseOptionCommon, Head. rewrite Hn. apply assert_bind. intros _.
  unfold mbind, M_bind. destruct (byte p m) as [b y|]; [|done]. rewrite (proj2 (Z.eqb_neq i _)) by done.
  destruct (k <? _); [done|]. destruct (has e AML_HAS_PKG_LENGTH).
  - destruct (AmlGetPkgLength _ y) as [[po pl] z|]; [|done]. by destruct (true && _).
  - done.
Qed.

Lemma remaining_1 e : remaining e AML_OP_PARSE_INDEX_GET_TERM1 = formats e.
Proof. done. Qed.

(** The size of an object. *)
Lemma Common_size f e p k N : size_spec f N -> k <= N + 1 -> e ∈ mAmlByteEncoding -> 0 <= p -> 0 <= k -> p + k <= T ->
  exists o, AmlParseOptionCommon f e p k AML_OP_PARSE_INDEX_GET_SIZE m = Done o m /\
    ((o = None /\ forall q, ~ object m e p (p + k) q) \/
     exists q, o = Some (mkParsed EFI_ACPI_DATA_TYPE_NONE 0 (q - p)) /\ forall q', object m e p (p + k) q' <-> q' = q).
Proof.
  intros Hf HN He Hp Hk HT. destruct (has e AML_IS_NAME_CHAR) eqn:Hname.
  - destruct (name_run p ltac:(lia)) as (o & Hrun & Ho).
    exists (match o with None => None | Some n => if k <? n then None else Some (mkParsed EFI_ACPI_DATA_TYPE_NONE 0 n) end).
    split.
    { unfold AmlParseOptionCommon. rewrite Z.eqb_refl, orb_true_r, Hname. rewrite (bind_Done _ _ tt) by done.
      cbn [negb]. by rewrite (bind_Done _ _ _ Hrun). }
    assert (forall q, object m e p (p + k) q <-> exists n, o = Some n /\ n <= k /\ q = p + n) as Hob.
    { intros q. split.
      - intros H. inversion H as [? ? ? n ? Hn| |]; subst; [|congruence..]. apply Ho in Hn. exists n. split; [done|]. lia.
      - intros (n & Hn & Hle & ->). constructor; [done|by apply Ho|lia]. }
    destruct o as [n|]; [destruct (Z.ltb_spec k n)|].
    + left. split; [done|]. intros q (n' & [= <-] & ? & ?)%Hob. lia.
    + right. exists (p + n). replace (p + n - p) with n by lia. split; [done|]. intros q. rewrite Hob. naive_solver.
    + left. split; [done|]. intros q (n' & ? & _)%Hob. done.
  - rewrite Common_head, Z.eqb_refl, orb_true_r by done. rewrite (bind_Done _ _ tt) by done.
    destruct (Head_run e p k Hp Hk HT) as (o & Hrun & Ho). rewrite (bind_Done _ _ _ Hrun).
    assert (forall q, object m e p (p + k) q <-> exists c lim r, body_at m e p (p + k) c lim /\ terms m (formats e) c lim r /\
      r <= lim /\ q = if has e AML_HAS_PKG_LENGTH then lim else r) as Hob.
    { intros q. split.
      - intros H. inversion H as [|? ? ? n r ? Hpk ? ? ? ?|? ? ? n kk L r ? Hpk Hop ? ? ? ?]; subst; [congruence|..]; rewrite Hpk.
        + eexists _, _, _. split; [by apply body_plain|]. done.
        + eexists _, _, _. split; [apply body_package; try done|done].
          match goal with H : pkg_at _ _ _ _ |- _ => destruct H as (lead & bs & tl & Hs & Hl & _ & ->) end.
          pose proof (suffix_bytes m T Hpad _ _ Hs) as HF. apply Forall_cons in HF as [Hb HF].
          apply Forall_app in HF as [HF _]. apply le_combine_range in HF. unfold is_byte in Hb.
          destruct (lead / 64 =? 0); lia_div.
      - intros (c & lim & r & Hb & Ht & Hr & ->). inversion Hb as [n Hpk ? ?|n kk L Hpk ? ? ? ?]; subst; rewrite Hpk.
        + by eapply object_plain.
        + by eapply object_package. }
    destruct Ho as [[-> Hno]|(c & lim & n & -> & Hbody & Hc & Hlim & Hkind)].
    { eexists. split; [done|]. left. split; [done|]. intros q (c & lim & r & Hb & _)%Hob. by apply Hno in Hb. }
    destruct (wf_bounds e He) as [HM _].
    destruct (ParseTerms_size f N e lim (Z.to_nat (MaxIndex e)) Hf He ltac:(lia) AML_OP_PARSE_INDEX_GET_TERM1 c)
      as (r & Hr & Hcase); [unfold AML_OP_PARSE_INDEX_GET_TERM1; lia..|].
    rewrite (bind_Done _ _ _ Hr). rewrite remaining_1 in Hcase. destruct Hcase as [[-> Hno]|(q & -> & Hq)].
    { eexists. split; [done|]. left. split; [done|]. intros q (c' & lim' & r' & Hb & Ht & _)%Hob.
      apply Hbody in Hb as [-> ->]. by apply Hno in Ht. }
    destruct (Z.ltb_spec lim q).
    { eexists. split; [done|]. left. split; [done|]. intros q' (c' & lim' & r' & Hb & Ht & Hle & _)%Hob.
      apply Hbody in Hb as [-> ->]. apply Hq in Ht as ->. lia. }
    rewrite andb_false_r. rewrite (bind_Done _ _ tt) by done. eexists. split; [done|]. right.
    exists (if has e AML_HAS_PKG_LENGTH then lim else q). split.
    + destruct (has e AML_HAS_PKG_LENGTH); [|done]. do 2 f_equal. lia.
    + intros q'. rewrite Hob. split.
      * intros (c' & lim' & r' & Hb & Ht & Hle & ->). apply Hbody in Hb as [-> ->]. by apply Hq in Ht as ->.
      * intros ->. exists c, lim, q. split; [by apply Hbody|]. split; [by apply Hq|]. split; [lia|done].
Qed.

Lemma AmlGetObjectSize_spec fuel : size_spec (AmlGetObjectSize fuel) (Z.of_nat fuel - 1).
Proof.
  induction fuel as [|fuel IH]; intros e p k He Hp Hk HT; [lia|]. cbn [AmlGetObjectSize].
  destruct (Common_size _ e p k _ IH ltac:(lia) He Hp ltac:(lia) HT) as (o & Hrun & Ho).
  rewrite (bind_Done _ _ _ Hrun). destruct Ho as [[-> Hno]|(q & -> & Hq)].
  - exists 0. split; [done|]. split; [done|]. intros q. split; [by intros ?%Hno|naive_solver].
  - assert (p < q) by (apply (object_bounds m e p (p + k)); by apply Hq).
    exists (q - p). split; [done|]. split; [lia|]. intros q'. rewrite Hq. split; [intros ->; lia|lia].
Qed.
Lemma ObjectSize_spec N : size_spec ObjectSize N.
Proof. intros e p k He Hp Hk HT. apply AmlGetObjectSize_spec; try done. lia. Qed.

(** An operand. *)
Lemma Common_operand e p k i : e ∈ mAmlByteEncoding -> 0 <= p -> 0 <= k -> p + k <= T -> 1 <= i <= MaxIndex e ->
  exists o, AmlParseOptionCommon ObjectSize e p k i m = Done o m /\
    forall x, o = Some x <-> exists c lim, body_at m e p (p + k) c lim /\ operand m (formats e) i c lim x.
Proof.
  intros He Hp Hk HT Hi. destruct (wf_bounds e He) as [HM _].
  assert (has e AML_IS_NAME_CHAR = false) as Hname.
  { destruct (has e AML_IS_NAME_CHAR) eqn:E; [|done]. apply (name_char_no_operands e He) in E. lia. }
  rewrite Common_head by (done || unfold AML_OP_PARSE_INDEX_GET_OPCODE; lia).
  rewrite (proj2 (Z.leb_le i (MaxIndex e))) by lia. cbn [orb]. rewrite (bind_Done _ _ tt) by done.
  destruct (Head_run e p k Hp Hk HT) as (o & Hrun & Ho). rewrite (bind_Done _ _ _ Hrun).
  destruct Ho as [[-> Hno]|(c & lim & n & -> & Hbody & Hc & Hlim & _)].
  { eexists. split; [done|]. intros x. split; [done|]. intros (c & lim & Hb & _). by apply Hno in Hb. }
  destruct (ParseTerms_operand ObjectSize k e lim i (Z.to_nat (MaxIndex e)) (ObjectSize_spec k) He ltac:(lia) ltac:(lia)
    AML_OP_PARSE_INDEX_GET_TERM1 c) as (r & Hr & Hx & Hq); [unfold AML_OP_PARSE_INDEX_GET_TERM1; lia..|].
  rewrite (bind_Done _ _ _ Hr). rewrite remaining_1 in Hx.
  unfold AML_OP_PARSE_INDEX_GET_TERM1 in Hx. replace (i - 1 + 1) with i in Hx by lia.
  assert (forall x, (exists c lim, body_at m e p (p + k) c lim /\ operand m (formats e) i c lim x) <-> r = inl (Some x)) as Hiff.
  { intros x. rewrite <-Hx. split.
    - intros (c' & lim' & Hb & H). by apply Hbody in Hb as [-> ->].
    - intros H. exists c, lim. split; [by apply Hbody|done]. }
  destruct r as [o|q].
  - exists o. split; [done|]. intros x. rewrite Hiff. naive_solver.
  - specialize (Hq q eq_refl). exists None. split; [|intros x; rewrite Hiff; done].
    destruct (Z.ltb_spec lim q); [done|]. assert (q = lim) as -> by lia.
    rewrite Z.eqb_refl, (proj2 (Z.eqb_neq i _)) by (unfold AML_OP_PARSE_INDEX_GET_SIZE; lia). done.
Qed.
End Parser.
