(* ===== verification/AmlChildProofs.v ===== *)
(** * AcpiSdtDxe: enumeration of child objects, and names *)
From stdpp Require Import sorting.
From S2P Require Import Prelude Bytes AmlString AmlStringProofs AmlParse AmlGrammar AmlParseProofs.
#[local] Open Scope Z_scope.

Section Children.
Context (m : list Z).

(** All operands are there; the last position is their end. *)
Inductive operands : list Z -> Z -> Z -> list parsed -> Z -> Prop :=
  | operands_nil p lim : operands [] p lim [] p
  | operands_cons f fs p lim ty q xs r : p < lim -> term m f p lim ty q -> operands fs q lim xs r ->
      operands (f :: fs) p lim (mkParsed ty p (q - p) :: xs) r.

(** The objects of a term list; name strings, which invoke methods, are
    skipped. *)
Inductive listed (lim : Z) : Z -> list Z -> Prop :=
  | listed_end p : lim <= p -> listed lim p []
  | listed_name p e q l : p < lim -> encoded_at m p e -> has e AML_IS_NAME_CHAR = true -> object m e p lim q ->
      listed lim q l -> listed lim p l
  | listed_object p e q l : p < lim -> encoded_at m p e -> has e AML_IS_NAME_CHAR = false -> object m e p lim q ->
      listed lim q l -> listed lim p (p :: l).

Definition child_operands (xs : list parsed) : list Z :=
  Data <$> filter (fun x => DataType x = EFI_ACPI_DATA_TYPE_CHILD) xs.

(** A handle of an object that fills its buffer. *)
Definition opened (h : EFI_AML_HANDLE) (e : AML_BYTE_ENCODING) : Prop :=
  AmlByteEncoding h = Some e /\ e ∈ mAmlByteEncoding /\ 0 <= Buffer h /\ object m e (Buffer h) (Buffer h + Size h) (Buffer h + Size h).

(** The children of an object, in the order of their positions. *)
Definition children (h : EFI_AML_HANDLE) (cs : list Z) : Prop :=
  exists e c xs r objs, opened h e /\ has e AML_IS_NAME_CHAR = false /\
    body_at m e (Buffer h) (Buffer h + Size h) c (Buffer h + Size h) /\
    operands (formats e) c (Buffer h + Size h) xs r /\
    (if has e AML_HAS_CHILD_OBJ then listed (Buffer h + Size h) r objs else objs = []) /\
    cs = child_operands xs ++ objs.

Lemma operands_bounds fs p lim xs r : operands fs p lim xs r ->
  p <= r /\ Forall (fun x => p <= Data x /\ Data x + DataSize x <= r /\ 0 < DataSize x) xs /\
  StronglySorted (fun x y => Data x + DataSize x <= Data y) xs.
Proof.
  induction 1 as [|f fs p lim ty q xs r Hlt Ht _ (Hr & HF & HS)]; [split; [lia|]; split; constructor|].
  pose proof (term_bounds _ _ _ _ _ _ Ht). split; [lia|]. split.
  - constructor; [cbn; lia|]. eapply Forall_impl; [exact HF|]. cbn. intros x. lia.
  - constructor; [done|]. eapply Forall_impl; [exact HF|]. cbn. intros x. lia.
Qed.
Lemma operands_operand fs p lim xs r : operands fs p lim xs r -> forall (n : nat) x,
  xs !! n = Some x -> operand m fs (Z.of_nat n + 1) p lim x.
Proof.
  induction 1 as [|f fs p lim ty q xs r Hlt Ht Ho IH]; intros n x Hx; [done|]. destruct n as [|n].
  - injection Hx as <-. by constructor.
  - replace (Z.of_nat (S n) + 1) with (Z.of_nat n + 1 + 1) by lia. eapply operand_later; [done..|]. by apply IH.
Qed.
Lemma operands_length fs p lim xs r : operands fs p lim xs r -> length xs = length fs.
Proof. induction 1; cbn; congruence. Qed.
Lemma listed_bounds lim p l : listed lim p l -> Forall (fun x => p <= x < lim) l.
Proof.
  induction 1 as [| |p e q l Hlt He Hn Ho _ IH]; [constructor| |].
  - pose proof (object_bounds _ _ _ _ _ H2). eapply Forall_impl; [exact IHlisted|]. cbn. intros. lia.
  - pose proof (object_bounds _ _ _ _ _ Ho). constructor; [lia|]. eapply Forall_impl; [exact IH|]. cbn. intros. lia.
Qed.

Context (T : Z) (Hpad : padded m T).

Lemma operand_run h e i x c : opened h e -> Buffer h + Size h <= T -> 1 <= i <= MaxIndex e ->
  body_at m e (Buffer h) (Buffer h + Size h) c (Buffer h + Size h) -> operand m (formats e) i c (Buffer h + Size h) x ->
  AmlParseOptionHandleCommon h i m = Done (Some x) m.
Proof.
  intros (He & Ht & Hp & Hob) HT Hi Hb Hop. apply object_bounds in Hob.
  unfold AmlParseOptionHandleCommon. rewrite He. rewrite (bind_Done _ _ _ e) by done.
  destruct (Common_operand m T Hpad e (Buffer h) (Size h) i) as (o & -> & Ho); [done|lia..|].
  f_equal. apply Ho. eauto.
Qed.

(** The term list from a position on. *)
Lemma ChildFromBuffer_run lim fuel : lim <= T -> forall p l, listed lim p l -> 0 <= p -> (Z.to_nat (lim - p) <= fuel)%nat ->
  ChildFromBuffer fuel lim p m = Done (Some (head l)) m.
Proof.
  intros HT. induction fuel as [|fuel IH]; intros p l Hl Hp Hf; cbn [ChildFromBuffer].
  - destruct (Z.ltb_spec p lim); [lia|]. inversion Hl; subst; [done|lia..].
  - destruct (Z.ltb_spec p lim) as [Hlt|]; [|inversion Hl; subst; [done|lia..]].
    destruct (search_run m T Hpad p ltac:(lia)) as (o & Hs & He). rewrite (bind_Done _ _ _ _ Hs).
    inversion Hl as [|? e q ? _ Hen Hn Ho Hl'|? e q l' _ Hen Hn Ho Hl']; subst; [lia|..];
      pose proof (encoded_table _ _ _ Hen); apply He in Hen as ->; rewrite Hn; cbn [negb]; [|done].
    destruct (ObjectSize_spec m T Hpad (lim - p) e p (lim - p)) as (n & Hrun & _ & Hq); [done|lia..|].
    rewrite (bind_Done _ _ _ _ Hrun). replace (p + (lim - p)) with lim in Hq by lia.
    pose proof (object_bounds _ _ _ _ _ Ho). apply Hq in Ho as [Hne ->].
    rewrite (proj2 (Z.eqb_neq n 0)) by done. apply IH; [done|lia|lia].
Qed.

(** The operands: the first child beyond the position of [h]. *)
Lemma ChildFromOptions_run Parent e h c xs r n : opened Parent e -> Buffer Parent + Size Parent <= T ->
  body_at m e (Buffer Parent) (Buffer Parent + Size Parent) c (Buffer Parent + Size Parent) ->
  operands (formats e) c (Buffer Parent + Size Parent) xs r -> forall i, 1 <= i -> i + Z.of_nat n = MaxIndex e + 1 ->
  ChildFromOptions n Parent h i m =
    Done (Some (head (filter (fun p => Buffer h < p) (child_operands (drop (Z.to_nat (i - 1)) xs))))) m.
Proof.
  intros Ho HT Hb Hxs. pose proof Ho as (_ & Ht & _). destruct (wf_bounds e Ht) as [HM Hlen].
  pose proof (operands_length _ _ _ _ _ Hxs) as Hl.
  induction n as [|n IH]; intros i Hi Hn; cbn [ChildFromOptions].
  { rewrite drop_ge by lia. done. }
  destruct (lookup_lt_is_Some_2 xs (Z.to_nat (i - 1))) as [x Hx]; [lia|].
  pose proof (operands_operand _ _ _ _ _ Hxs _ _ Hx) as Hop. replace (Z.of_nat (Z.to_nat (i - 1)) + 1) with i in Hop by lia.
  rewrite (bind_Done _ _ _ _ (operand_run Parent e i x c Ho HT ltac:(lia) Hb Hop)).
  rewrite (drop_S _ _ _ Hx). replace (S (Z.to_nat (i - 1))) with (Z.to_nat (i + 1 - 1)) by lia.
  unfold child_operands. rewrite filter_cons.
  assert (DataType x <> EFI_ACPI_DATA_TYPE_NONE) as Hne.
  { clear -Hop. induction Hop as [? ? ? ? ty ? ? Ht|]; [|done]. cbn. by inversion Ht. }
  rewrite (bool_decide_false _ Hne). destruct (decide (DataType x = EFI_ACPI_DATA_TYPE_CHILD)) as [Hc|Hc].
  - rewrite (bool_decide_true _ Hc). cbn [andb fmap list_fmap]. rewrite filter_cons.
    destruct (Z.ltb_spec (Buffer h) (Data x)); [by rewrite decide_True|]. rewrite decide_False by lia.
    apply (IH (i + 1)); lia.
  - rewrite (bool_decide_false _ Hc). cbn [andb]. apply (IH (i + 1)); lia.
Qed.

Lemma OffsetAfterLast_run h e c xs r : opened h e -> Buffer h + Size h <= T -> has e AML_IS_NAME_CHAR = false ->
  has e AML_HAS_PKG_LENGTH = true ->
  body_at m e (Buffer h) (Buffer h + Size h) c (Buffer h + Size h) ->
  operands (formats e) c (Buffer h + Size h) xs r -> AmlGetOffsetAfterLastOption h m = Done (Some r) m.
Proof.
  intros Ho HT Hn Hpk Hb Hxs. pose proof Ho as (He & Ht & Hp & Hob). destruct (wf_bounds e Ht) as [HM Hlen].
  pose proof (operands_length _ _ _ _ _ Hxs) as Hl. apply object_bounds in Hob.
  unfold AmlGetOffsetAfterLastOption. rewrite He. rewrite (bind_Done _ _ _ e) by done.
  destruct (Z.eq_dec (MaxIndex e) 0) as [E0|Hne].
  - assert (formats e = []) as Hf by (apply nil_length_inv; lia). rewrite Hf in Hxs. inversion Hxs; subst. rewrite E0.
    assert (exists n, op_length m (Buffer h) n /\ exists kk L, pkg_at m (Buffer h + n) kk L /\ r = Buffer h + n + kk /\
      Buffer h + n <= T) as (n & Hop & kk & L & Hpkg & Hr & HnT).
    { inversion Hb; [congruence|]. eexists. split; [done|]. eexists _, _. split; [done|]. split; [lia|lia]. }
    unfold AmlParseOptionHandleCommon. rewrite He.
    destruct (op_length_run m T Hpad (Buffer h)) as (b & Hrun & Hop'); [lia|]. apply Hop' in Hop as ->.
    assert (AmlParseOptionCommon ObjectSize e (Buffer h) (Size h) 0 m =
      Done (Some (mkParsed EFI_ACPI_DATA_TYPE_OPCODE (Buffer h) (if b =? AML_EXT_OP then 2 else 1))) m) as E.
    { unfold AmlParseOptionCommon. rewrite E0. rewrite (bind_Done _ _ _ tt) by done. rewrite Hn.
      by rewrite (bind_Done _ _ _ _ Hrun). }
    rewrite (bind_Done _ _ _ (Some (mkParsed EFI_ACPI_DATA_TYPE_OPCODE (Buffer h) (if b =? AML_EXT_OP then 2 else 1)))) by done.
    cbn [DataType Data DataSize]. rewrite bool_decide_true by done.
    destruct (pkg_run m T Hpad (Buffer h + if b =? AML_EXT_OP then 2 else 1)) as (k0 & L0 & Hpr & Hiff & _).
    { destruct (b =? _); lia. }
    rewrite (bind_Done _ _ _ _ Hpr). apply Hiff in Hpkg as [-> _]. cbn [fst]. by rewrite Hr.
  - destruct (lookup_lt_is_Some_2 xs (Z.to_nat (MaxIndex e - 1))) as [x Hx]; [lia|].
    pose proof (operands_operand _ _ _ _ _ Hxs _ _ Hx) as Hop.
    replace (Z.of_nat (Z.to_nat (MaxIndex e - 1)) + 1) with (MaxIndex e) in Hop by lia.
    rewrite (bind_Done _ _ _ _ (operand_run h e (MaxIndex e) x c Ho HT ltac:(lia) Hb Hop)).
    assert (Data x + DataSize x = r /\ DataType x <> EFI_ACPI_DATA_TYPE_OPCODE) as [Hr Hty].
    { assert (last xs = Some x) as Hlast.
      { rewrite last_lookup, <-Hx. f_equal. lia. }
      clear -Hxs Hlast. induction Hxs as [|f fs p lim ty q xs r Hlt Ht Hxs IH]; [done|].
      destruct xs as [|y xs]; [|by apply IH]. cbn in Hlast. injection Hlast as <-. inversion Hxs; subst. cbn.
      split; [lia|]. by inversion Ht. }
    rewrite bool_decide_false by done. by rewrite Hr.
Qed.

Lemma child_obj_package e : e ∈ mAmlByteEncoding -> has e AML_HAS_CHILD_OBJ = true -> has e AML_HAS_PKG_LENGTH = true.
Proof.
  assert (forallb (fun e => negb (has e AML_HAS_CHILD_OBJ) || has e AML_HAS_PKG_LENGTH) mAmlByteEncoding = true) as H
    by (vm_compute; reflexivity).
  rewrite forallb_forall in H. intros He Hc. specialize (H e). rewrite <-list_elem_of_In, Hc in H. by apply H.
Qed.

Lemma object_fun e p lim q q' : e ∈ mAmlByteEncoding -> 0 <= p -> lim <= T -> object m e p lim q -> object m e p lim q' -> q = q'.
Proof.
  intros He Hp HT H H'. pose proof (object_bounds _ _ _ _ _ H).
  destruct (ObjectSize_spec m T Hpad (lim - p) e p (lim - p)) as (n & _ & _ & Hq); [done|lia..|].
  replace (p + (lim - p)) with lim in Hq by lia. apply Hq in H as [_ ->]. by apply Hq in H' as [_ ->].
Qed.
Lemma encoded_fun p e e' : 0 <= p < T + 3 -> encoded_at m p e -> encoded_at m p e' -> e = e'.
Proof.
  intros Hp H H'. destruct (search_run m T Hpad p Hp) as (o & _ & Ho). apply Ho in H. apply Ho in H'. congruence.
Qed.

(** After an object of a term list, the rest of the list. *)
Lemma listed_after lim p l i x e q : lim <= T -> 0 <= p -> listed lim p l -> l !! i = Some x ->
  encoded_at m x e -> object m e x lim q -> listed lim q (drop (S i) l).
Proof.
  intros HT Hp Hl. revert i Hp. induction Hl as [|p e' q' l Hlt He' Hn Ho Hl IH|p e' q' l Hlt He' Hn Ho Hl IH]; intros i Hp Hx He Hob; [done| |].
  - pose proof (object_bounds _ _ _ _ _ Ho). apply IH; [lia|done..].
  - pose proof (object_bounds _ _ _ _ _ Ho). destruct i as [|i].
    + injection Hx as <-. cbn [drop].
      assert (e = e') as -> by (eapply encoded_fun; [|exact He|exact He']; lia).
      by rewrite (object_fun _ _ _ _ _ (encoded_table _ _ _ He') Hp HT Hob Ho).
    + apply IH; [lia|done..].
Qed.

Lemma ascending_head l i b : StronglySorted Z.lt l -> l !! i = Some b -> head (filter (fun x => b < x) l) = l !! S i.
Proof.
  intros Hs. revert i. induction Hs as [|a l Hs IH HF]; intros i Hi; [done|]. rewrite filter_cons. destruct i as [|i].
  - injection Hi as ->. rewrite decide_False by lia. cbn. clear IH Hs. induction HF; [done|].
    rewrite filter_cons, decide_True by done. done.
  - cbn in Hi. rewrite Forall_lookup in HF. specialize (HF _ _ Hi). rewrite decide_False by lia. by apply IH.
Qed.
Lemma filter_all l b : Forall (fun x => b < x) l -> filter (fun x => b < x) l = l.
Proof. induction 1; [done|]. rewrite filter_cons, decide_True by done. congruence. Qed.
Lemma filter_below_none l b : Forall (fun x => x <= b) l -> filter (fun x => b < x) l = [].
Proof. induction 1; [done|]. rewrite filter_cons, decide_False by lia. done. Qed.

Lemma Forall_filtered {A} (P Q : A -> Prop) `{!forall x, Decision (Q x)} l : Forall P l -> Forall P (filter Q l).
Proof. induction 1; [constructor|]. rewrite filter_cons. destruct (decide _); [by constructor|done]. Qed.
Lemma child_operands_bounds fs p lim xs r : operands fs p lim xs r ->
  Forall (fun x => p <= x < r) (child_operands xs) /\ StronglySorted Z.lt (child_operands xs).
Proof.
  intros H. apply operands_bounds in H as (_ & HF & HS). unfold child_operands. split.
  - apply Forall_fmap, Forall_filtered. eapply Forall_impl; [exact HF|]. cbn. lia.
  - induction HS as [|x xs HS IH Hx]; [constructor|]. apply Forall_cons in HF as [Hx' HF]. specialize (IH HF).
    rewrite filter_cons. destruct (decide _); [|done]. cbn. constructor; [done|].
    apply Forall_fmap, Forall_filtered. eapply Forall_impl; [exact Hx|]. cbn. lia.
Qed.
Lemma listed_ascending lim p l : listed lim p l -> StronglySorted Z.lt l.
Proof.
  induction 1 as [| |p e q l Hlt He Hn Ho Hl IH]; [constructor|done|]. constructor; [done|].
  pose proof (object_bounds _ _ _ _ _ Ho). eapply Forall_impl; [exact (listed_bounds _ _ _ Hl)|]. cbn. lia.
Qed.

Lemma ascending_app (l1 l2 : list Z) r : StronglySorted Z.lt l1 -> StronglySorted Z.lt l2 ->
  Forall (fun x => x < r) l1 -> Forall (fun x => r <= x) l2 -> StronglySorted Z.lt (l1 ++ l2).
Proof.
  intros H1 H2 HF1 HF2. induction H1 as [|a l H1 IH Ha]; [done|]. apply Forall_cons in HF1 as [Ha' HF1].
  cbn. constructor; [by apply IH|]. apply Forall_app. split; [done|]. eapply Forall_impl; [exact HF2|]. cbn. lia.
Qed.

Lemma body_start e p lim c lim' : body_at m e p lim c lim' -> p < c.
Proof.
  intros Hb. inversion Hb; subst; match goal with H : op_length _ _ _ |- _ => apply op_length_pos in H end; [lia|].
  match goal with H : pkg_at _ _ _ _ |- _ => destruct H as (lead & bs & tl & _ & Hl & -> & _) end. lia.
Qed.
Lemma child_operands_limit fs p lim xs r : operands fs p lim xs r -> Forall (fun x => x < lim) (child_operands xs).
Proof.
  intros H. unfold child_operands. apply Forall_fmap, Forall_filtered.
  induction H as [|f fs p lim ty q xs r Hlt Ht Ho IH]; [constructor|]. by constructor.
Qed.

(** The object list of a parent. *)
Lemma ChildList_run Parent h e c xs r objs : opened Parent e -> Buffer Parent + Size Parent <= T ->
  has e AML_IS_NAME_CHAR = false -> body_at m e (Buffer Parent) (Buffer Parent + Size Parent) c (Buffer Parent + Size Parent) ->
  operands (formats e) c (Buffer Parent + Size Parent) xs r ->
  (if has e AML_HAS_CHILD_OBJ then listed (Buffer Parent + Size Parent) r objs else objs = []) ->
  (Buffer h < r -> AmlGetChildFromObjectChildList Parent h m = Done (Some (head objs)) m) /\
  (forall i ec, objs !! i = Some (Buffer h) -> encoded_at m (Buffer h) ec ->
     object m ec (Buffer h) (Buffer Parent + Size Parent) (Buffer h + Size h) ->
     AmlGetChildFromObjectChildList Parent h m = Done (Some (objs !! S i)) m).
Proof.
  intros Ho HT Hn Hb Hxs Hobjs. pose proof Ho as (He & Ht & Hp & _). pose proof (operands_bounds _ _ _ _ _ Hxs) as (Hcr & _).
  assert (Buffer Parent < c) as Hc by by eapply body_start.
  unfold AmlGetChildFromObjectChildList. rewrite He. rewrite (bind_Done _ _ _ e) by done.
  destruct (has e AML_HAS_CHILD_OBJ) eqn:Hco; cbn [negb].
  2:{ subst objs. split; [done|]. intros i ec Hi. by rewrite lookup_nil in Hi. }
  rewrite (bind_Done _ _ _ _ (OffsetAfterLast_run Parent e c xs r Ho HT Hn (child_obj_package e Ht Hco) Hb Hxs)).
  unfold AmlGetChildFromObjectBuffer. split.
  - intros Hlt. rewrite (proj2 (Z.ltb_lt _ _) Hlt). apply ChildFromBuffer_run; [done|done|lia|lia].
  - intros i ec Hi Hen Hob. pose proof (listed_bounds _ _ _ Hobjs) as HF. rewrite Forall_lookup in HF.
    specialize (HF _ _ Hi). cbn in HF. rewrite (proj2 (Z.ltb_ge (Buffer h) r)) by lia.
    assert (0 <= r) as Hr by lia.
    pose proof (object_bounds _ _ _ _ _ Hob). pose proof (listed_after _ _ _ _ _ _ _ HT Hr Hobjs Hi Hen Hob) as Hrest.
    replace (objs !! S i) with (head (drop (S i) objs)) by (rewrite head_lookup, lookup_drop; f_equal; lia).
    destruct (Z.ltb_spec (Buffer h + Size h) (Buffer Parent + Size Parent)).
    + apply ChildFromBuffer_run; [done|done|lia|lia].
    + inversion Hrest; subst; [done|lia..].
Qed.

(** A handle of the child at a position. *)
Definition child_handle (Parent ch : EFI_AML_HANDLE) (x : Z) : Prop :=
  Buffer ch = x /\ exists e, encoded_at m x e /\ object m e x (Buffer Parent + Size Parent) (x + Size ch).

Lemma children_spec Parent cs : children Parent cs -> Buffer Parent + Size Parent <= T ->
  StronglySorted Z.lt cs /\ Forall (fun x => Buffer Parent < x < Buffer Parent + Size Parent) cs /\
  AmlGetChildFromNonRoot Parent None m = Done (Some (head cs)) m /\
  forall i ch x, cs !! i = Some x -> child_handle Parent ch x ->
    AmlGetChildFromNonRoot Parent (Some ch) m = Done (Some (cs !! S i)) m.
Proof.
  intros (e & c & xs & r & objs & Ho & Hn & Hb & Hxs & Hobjs & ->) HT.
  pose proof Ho as (He & Ht & Hp & Hob). destruct (wf_bounds e Ht) as [HM Hlen]. apply object_bounds in Hob.
  destruct (child_operands_bounds _ _ _ _ _ Hxs) as [HF HS]. pose proof (operands_bounds _ _ _ _ _ Hxs) as (Hcr & _).
  assert (Buffer Parent < c) as Hc by by eapply body_start.
  assert (StronglySorted Z.lt objs /\ Forall (fun x => r <= x < Buffer Parent + Size Parent) objs) as [HSo HFo].
  { destruct (has e AML_HAS_CHILD_OBJ); [|subst objs; split; constructor].
    split; [by eapply listed_ascending|by apply listed_bounds]. }
  assert (Forall (fun x => x < Buffer Parent + Size Parent) (child_operands xs)) as HFlim by by eapply child_operands_limit.
  assert (forall h, AmlGetChildFromNonRoot Parent (Some h) m =
    (match head (filter (fun p => Buffer h < p) (child_operands xs)) with
     | Some p => mret (Some (Some p)) | None => AmlGetChildFromObjectChildList Parent h end) m) as Hnext.
  { intros h.
    assert (AmlGetChildFromOptionList Parent h m =
      Done (Some (head (filter (fun p => Buffer h < p) (child_operands xs)))) m) as E.
    { unfold AmlGetChildFromOptionList. rewrite He. rewrite (bind_Done _ _ _ e) by done.
      apply (ChildFromOptions_run Parent e h c xs r (Z.to_nat (MaxIndex e)) Ho HT Hb Hxs); unfold AML_OP_PARSE_INDEX_GET_TERM1; lia. }
    unfold AmlGetChildFromNonRoot. cbn [default]. rewrite (bind_Done _ _ _ _ E). by destruct (head _). }
  split; [|split; [|split]].
  - eapply (ascending_app _ _ r); [done..| |]; [eapply Forall_impl; [exact HF|]|eapply Forall_impl; [exact HFo|]]; cbn; lia.
  - apply Forall_app. split.
    + rewrite Forall_forall in HF, HFlim |- *. intros x Hx. specialize (HF x Hx). specialize (HFlim x Hx). lia.
    + eapply Forall_impl; [exact HFo|]. cbn. lia.
  - change (AmlGetChildFromNonRoot Parent None) with (AmlGetChildFromNonRoot Parent (Some Parent)). rewrite Hnext.
    rewrite filter_all by (eapply Forall_impl; [exact HF|]; cbn; lia).
    destruct (child_operands xs) as [|o l]; [|done]. cbn [head app].
    apply (ChildList_run Parent Parent e c xs r objs); [done..|lia].
  - intros i ch x Hi (Hx & ec & Hen & Hoc). rewrite Hnext. apply lookup_app_Some in Hi as [Hi|[Hle Hi]].
    + rewrite Hx, (ascending_head _ i x) by done.
      pose proof (Forall_lookup_1 _ _ _ _ HF Hi) as Hxr. cbn in Hxr.
      destruct (child_operands xs !! S i) as [y|] eqn:Ey.
      * rewrite (lookup_app_l_Some _ _ _ _ Ey). done.
      * apply lookup_ge_None in Ey. pose proof (lookup_lt_Some _ _ _ Hi).
        rewrite lookup_app_r by lia. replace (S i - length (child_operands xs))%nat with 0%nat by lia.
        rewrite <-head_lookup. apply (ChildList_run Parent ch e c xs r objs); [done..|lia].
    + pose proof (Forall_lookup_1 _ _ _ _ HFo Hi) as Hxr. cbn in Hxr.
      rewrite filter_below_none by (eapply Forall_impl; [exact HF|]; cbn; lia). cbn [head].
      rewrite lookup_app_r by lia. replace (S i - length (child_operands xs))%nat with (S (i - length (child_operands xs))) by lia.
      eapply (ChildList_run Parent ch e c xs r objs); [done..|by rewrite Hx|by rewrite Hx|by rewrite Hx].
Qed.
End Children.
