(* ===== verification/AmlSdt.v ===== *)
(** * AcpiSdtDxe: handles, the name space, and EFI_ACPI_SDT_PROTOCOL

    Models QemuPkg/AcpiSdtDxe/AmlNamespace.c and AcpiSdt.c.  Handles and nodes
    of the name space are pool objects, in a heap of each; a pointer to one is
    its key, and a linked list of nodes the list of its keys. *)
From S2P Require Import Prelude Bytes AmlString AmlParse.

Definition EFI_AML_HANDLE_SIGNATURE : Z := 0x53484145.
Definition EFI_AML_ROOT_HANDLE_SIGNATURE : Z := 0x48524145.

Record EFI_AML_NODE_LIST : Type := mkNode {
  Name : list Z; Node_Buffer : option Z; Node_Size : Z; Children : list Z; Parent : option Z;
  Node_Encoding : option AML_BYTE_ENCODING;
}.

(** [Mem]: the memory that holds the tables. *)
Record sdt : Type := mkSdt {
  Mem : list Z; Nodes : gmap Z EFI_AML_NODE_LIST; Handles : gmap Z EFI_AML_HANDLE; Fresh : Z;
}.
Definition set_nodes (N : gmap Z EFI_AML_NODE_LIST) (s : sdt) : sdt := mkSdt (Mem s) N (Handles s) (Fresh s).
Definition set_handles (H : gmap Z EFI_AML_HANDLE) (s : sdt) : sdt := mkSdt (Mem s) (Nodes s) H (Fresh s).
Definition set_mem (m : list Z) (s : sdt) : sdt := mkSdt m (Nodes s) (Handles s) (Fresh s).

(** The parser reads. *)
Definition parse {A} (x : aml A) : M sdt A := fun s =>
  match x (Mem s) with Done a _ => Done a s | Trap t => Trap t end.
Definition rd {A} (o : option A) : M sdt A := deref o.

(** EFI_ACPI_SDT_HEADER *)
Definition SIZEOF_SDT_HEADER : Z := 36.
Definition OFFSET_OF_Length : Z := 4.
Definition OFFSET_OF_Checksum : Z := 9.
Definition read_bytes (p : Z) (n : nat) : M sdt (list Z) :=
  s ← get;
  if (0 <=? p) && (p + Z.of_nat n <=? Z.of_nat (length (Mem s)))
  then mret (take n (drop (Z.to_nat p) (Mem s))) else trapped BadPointer.
Definition write_bytes (p : Z) (bs : list Z) : M sdt unit :=
  s ← get;
  if (0 <=? p) && (p + Z.of_nat (length bs) <=? Z.of_nat (length (Mem s)))
  then put (set_mem (take (Z.to_nat p) (Mem s) ++ bs ++ drop (Z.to_nat p + length bs) (Mem s)) s)
  else trapped BadPointer.
Definition TableLength (Table : Z) : M sdt Z := bs ← read_bytes (Table + OFFSET_OF_Length) 4; mret (le_combine bs).

Section Sdt.
(** Whether an allocation succeeds; the table and the key of an index. *)
Context (AllocatePool : Z -> bool) (GetAcpiTable : nat -> option (Z * Z)).

(** ** Handles *)
Definition NewHandle (h : EFI_AML_HANDLE) : M sdt Z :=
  s ← get; ASSERT (AllocatePool (Fresh s));;
  put (mkSdt (Mem s) (Nodes s) (<[Fresh s := h]> (Handles s)) (Fresh s + 1));; mret (Fresh s).
Definition GetHandle (id : Z) : M sdt EFI_AML_HANDLE := s ← get; rd (Handles s !! id).
Definition SetHandle (id : Z) (h : EFI_AML_HANDLE) : M sdt unit := modify (fun s => set_handles (<[id := h]> (Handles s)) s).
Definition FreeHandle (id : Z) : M sdt unit :=
  _ ← GetHandle id; modify (fun s => set_handles (delete id (Handles s)) s).

(** The status, and the handle. *)
Definition SdtOpenEx (Buffer BufferSize : Z) : M sdt (EFI_STATUS * option Z) :=
  e ← parse (AmlSearchByOpByte Buffer);
  match e with
  | None => mret (EFI_INVALID_PARAMETER, None)
  | Some e =>
      if has e AML_IS_NAME_CHAR then mret (EFI_INVALID_PARAMETER, None) else
      id ← NewHandle (mkHandle EFI_AML_HANDLE_SIGNATURE Buffer 0 (Some e) false);
      Size ← parse (ObjectSize e Buffer BufferSize);
      SetHandle id (mkHandle EFI_AML_HANDLE_SIGNATURE Buffer Size (Some e) false);;
      if Size =? 0 then FreeHandle id;; mret (EFI_INVALID_PARAMETER, None) else
      mret (EFI_SUCCESS, Some id)
  end.

(** AcpiPlatformChecksum, with the sum over the bytes as stored. *)
Definition AcpiPlatformChecksum (Buffer Size ChecksumOffset : Z) : M sdt unit :=
  write_bytes (Buffer + ChecksumOffset) [0];;
  bs ← read_bytes Buffer (Z.to_nat Size);
  let Sum := foldl (fun Sum b => u8 (Sum + b)) 0 bs in
  write_bytes (Buffer + ChecksumOffset) [u8 (0xff - Sum + 1)].

(** The loop over the installed tables. *)
Fixpoint FindTableByBuffer (fuel : nat) (Index : nat) (Buffer : Z) : M sdt (option Z) :=
  match fuel with
  | O => trapped OutOfFuel
  | S fuel =>
      match GetAcpiTable Index with
      | None => mret None
      | Some (Table, _) =>
          n ← TableLength Table;
          if (Table <=? Buffer) && (Buffer <? Table + n) then mret (Some Table)
          else FindTableByBuffer fuel (S Index) Buffer
      end
  end.
Fixpoint FindAcpiTableByKey (fuel : nat) (Index : nat) (TargetKey : Z) : M sdt (option Z) :=
  match fuel with
  | O => trapped OutOfFuel
  | S fuel =>
      match GetAcpiTable Index with
      | None => mret None
      | Some (Table, Key) => if Key =? TargetKey then mret (Some Table) else FindAcpiTableByKey fuel (S Index) TargetKey
      end
  end.

Section Protocol.
(** Fuel for the loop over the tables. *)
Context (tables : nat).

Definition SdtUpdateAmlChecksum (Buffer : Z) : M sdt bool :=
  t ← FindTableByBuffer tables 0 Buffer;
  match t with
  | None => mret false
  | Some Table => n ← TableLength Table; AcpiPlatformChecksum Table n OFFSET_OF_Checksum;; mret true
  end.
Definition SdtGetRemainingAmlBufferSize (Buffer : Z) : M sdt (option Z) :=
  t ← FindTableByBuffer tables 0 Buffer;
  match t with
  | None => mret None
  | Some Table => n ← TableLength Table; mret (Some (Table + n - Buffer))
  end.

Definition SdtOpenSdtTable (TableKey : Z) : M sdt (EFI_STATUS * option Z) :=
  t ← FindAcpiTableByKey tables 0 TableKey;
  match t with
  | None => mret (EFI_NOT_FOUND, None)
  | Some Table =>
      n ← TableLength Table;
      id ← NewHandle (mkHandle EFI_AML_ROOT_HANDLE_SIGNATURE (Table + SIZEOF_SDT_HEADER) (u64 (n - SIZEOF_SDT_HEADER)) None false);
      mret (EFI_SUCCESS, Some id)
  end.

(** [Handle]: whether the pointer is not NULL.  The pointers that GetOption,
    SetOption and GetChild assert to be there are. *)
Definition OpenSdt (TableKey : Z) (Handle : bool) : M sdt (EFI_STATUS * option Z) :=
  if negb Handle then mret (EFI_INVALID_PARAMETER, None) else SdtOpenSdtTable TableKey.

(** [None]: NULL. *)
Definition Open (Buffer : option Z) (Handle : bool) : M sdt (EFI_STATUS * option Z) :=
  match Buffer with
  | None => mret (EFI_INVALID_PARAMETER, None)
  | Some Buffer =>
      if negb Handle then mret (EFI_INVALID_PARAMETER, None) else
      n ← SdtGetRemainingAmlBufferSize Buffer;
      match n with None => mret (EFI_INVALID_PARAMETER, None) | Some MaxSize => SdtOpenEx Buffer MaxSize end
  end.

Definition valid_signature (h : EFI_AML_HANDLE) : bool :=
  (Signature h =? EFI_AML_ROOT_HANDLE_SIGNATURE) || (Signature h =? EFI_AML_HANDLE_SIGNATURE).
Definition Close (Handle : option Z) : M sdt EFI_STATUS :=
  match Handle with
  | None => mret EFI_INVALID_PARAMETER
  | Some id =>
      h ← GetHandle id;
      if negb (valid_signature h) then mret EFI_INVALID_PARAMETER else
      ok ← (if Modified h then SdtUpdateAmlChecksum (Buffer h) else mret true);
      if negb ok then mret EFI_INVALID_PARAMETER else
      FreeHandle id;; mret EFI_SUCCESS
  end.

(** The out-parameters that are stored; for an index beyond the operands
    only DataType. *)
Definition GetOption (Handle : option Z) (Index : Z) : M sdt (EFI_STATUS * option parsed) :=
  match Handle with
  | None => mret (EFI_INVALID_PARAMETER, None)
  | Some id =>
      h ← GetHandle id;
      if negb (Signature h =? EFI_AML_HANDLE_SIGNATURE) then mret (EFI_INVALID_PARAMETER, None) else
      e ← rd (AmlByteEncoding h);
      if MaxIndex e <? Index then mret (EFI_SUCCESS, Some (mkParsed EFI_ACPI_DATA_TYPE_NONE 0 0)) else
      r ← parse (AmlParseOptionHandleCommon h Index);
      mret (match r with None => (EFI_INVALID_PARAMETER, None) | Some r => (EFI_SUCCESS, Some r) end)
  end.

(** [New]: the caller's bytes. *)
Definition SetOption (Handle : option Z) (Index : Z) (New : list Z) (NewSize : nat) : M sdt EFI_STATUS :=
  match Handle with
  | None => mret EFI_INVALID_PARAMETER
  | Some id =>
      h ← GetHandle id;
      if negb (Signature h =? EFI_AML_HANDLE_SIGNATURE) then mret EFI_INVALID_PARAMETER else
      e ← rd (AmlByteEncoding h);
      if MaxIndex e <? Index then mret EFI_INVALID_PARAMETER else
      r ← parse (AmlParseOptionHandleCommon h Index);
      match r with
      | None => mret EFI_INVALID_PARAMETER
      | Some r =>
          if bool_decide (DataType r = EFI_ACPI_DATA_TYPE_NONE) then mret EFI_INVALID_PARAMETER else
          if DataSize r <? Z.of_nat NewSize then mret EFI_BAD_BUFFER_SIZE else
          bs ← rd (if (NewSize <=? length New)%nat then Some (take NewSize New) else None);
          write_bytes (Data r) bs;;
          SetHandle id (mkHandle (Signature h) (Buffer h) (Size h) (AmlByteEncoding h) true);;
          mret EFI_SUCCESS
      end
  end.

(** The status, and [*Handle] after the call. *)
Definition GetChild (ParentHandle Handle : option Z) : M sdt (EFI_STATUS * option Z) :=
  match ParentHandle with
  | None => mret (EFI_INVALID_PARAMETER, Handle)
  | Some pid =>
      h ← (match Handle with None => mret None | Some id => h ← GetHandle id; mret (Some h) end);
      if match h with Some h => negb (Signature h =? EFI_AML_HANDLE_SIGNATURE) | None => false end
      then mret (EFI_INVALID_PARAMETER, Handle) else
      p ← GetHandle pid;
      if negb (valid_signature p) then mret (EFI_INVALID_PARAMETER, Handle) else
      r ← parse (if Signature p =? EFI_AML_ROOT_HANDLE_SIGNATURE then AmlGetChildFromRoot p h else AmlGetChildFromNonRoot p h);
      match r with
      | None => mret (EFI_INVALID_PARAMETER, Handle)
      | Some None => mret (EFI_SUCCESS, None)
      | Some (Some b) =>
          r ← SdtOpenEx b (Buffer p + Size p - b);
          mret (if EFI_ERROR r.1 then (r.1, Handle) else r)
      end
  end.

(** ** AmlNamespace.c *)
Definition GetNode (id : Z) : M sdt EFI_AML_NODE_LIST := s ← get; rd (Nodes s !! id).
Definition SetNode (id : Z) (n : EFI_AML_NODE_LIST) : M sdt unit := modify (fun s => set_nodes (<[id := n]> (Nodes s)) s).

Definition AmlCreateNode (NameSeg : list Z) (Parent : option Z) (e : option AML_BYTE_ENCODING) : M sdt Z :=
  s ← get; ASSERT (AllocatePool (Fresh s));;
  nm ← rd (if (AML_NAME_SEG_SIZE <=? length NameSeg)%nat then Some (take AML_NAME_SEG_SIZE NameSeg) else None);
  put (mkSdt (Mem s) (<[Fresh s := mkNode nm None 0 [] Parent e]> (Nodes s)) (Handles s) (Fresh s + 1));;
  mret (Fresh s).

(** The loop over the children; CompareMem of four bytes. *)
Fixpoint FindChild (NameSeg : list Z) (l : list Z) : M sdt (option Z) :=
  match l with
  | [] => mret None
  | id :: l =>
      n ← GetNode id;
      if bool_decide (Name n = take AML_NAME_SEG_SIZE NameSeg) then mret (Some id) else FindChild NameSeg l
  end.

Definition AmlFindNodeInThis (NameSeg : list Z) (ParentNode : Z) (Create : bool) : M sdt (option Z) :=
  n ← GetNode ParentNode;
  o ← FindChild NameSeg (Children n);
  match o with
  | Some id => mret (Some id)
  | None =>
      if negb Create then mret None else
      id ← AmlCreateNode NameSeg (Some ParentNode) None;
      n ← GetNode ParentNode;
      SetNode ParentNode (mkNode (Name n) (Node_Buffer n) (Node_Size n) (Children n ++ [id]) (Parent n) (Node_Encoding n));;
      mret (Some id)
  end.

(** The loop over the parent prefixes. *)
Fixpoint Ascend (p : list Z) (Root Current : Z) : M sdt (Z * list Z) :=
  match p with
  | [] => trapped BadPointer
  | b :: p' =>
      if b =? AML_PARENT_PREFIX_CHAR then
        n ← GetNode Current;
        match Parent n with
        | Some up => Ascend p' Root up
        | None => ASSERT (Current =? Root);; Ascend p' Root Current
        end
      else mret (Current, p)
  end.

(** The do-while loop over the segments, [n] of them. *)
Fixpoint FindSegs (n : nat) (p : list Z) (Current : Z) (Create : bool) : M sdt (option Z) :=
  match n with
  | O => mret (Some Current)
  | S n =>
      o ← AmlFindNodeInThis p Current Create;
      match o with
      | None => mret None
      | Some id => FindSegs n (drop AML_NAME_SEG_SIZE p) id Create
      end
  end.

Definition AmlFindNodeInTheTree (NameString : list Z) (Root ParentNode : Z) (Create : bool) : M sdt (option Z) :=
  b ← rd (peek NameString);
  r ← (if b =? AML_ROOT_CHAR then mret (Root, drop 1 NameString) else Ascend NameString Root ParentNode);
  let '(Current, p) := r in
  c ← rd (peek p);
  if c =? AML_DUAL_NAME_PREFIX then FindSegs 2 (drop 1 p) Current Create
  else if c =? AML_MULTI_NAME_PREFIX then
    SegCount ← rd (p !! 1%nat); FindSegs (Nat.max 1 (Z.to_nat SegCount)) (drop 2 p) Current Create
  else if c =? 0 then ASSERT (Current =? Root);; mret (Some Current)
  else FindSegs 1 p Current Create.

Definition AmlInsertNodeToTree (NameString : list Z) (Buffer Size Root ParentNode : Z) : M sdt (option Z) :=
  o ← AmlFindNodeInTheTree NameString Root ParentNode true;
  match o with
  | None => trapped AssertFailed
  | Some id =>
      n ← GetNode id;
      op ← parse (byte Buffer);
      match Node_Buffer n with
      | None =>
          (if negb (op =? AML_SCOPE_OP) then
             e ← parse (AmlSearchByOpByte Buffer);
             SetNode id (mkNode (Name n) (Some Buffer) Size (Children n) (Parent n) e)
           else mret tt);;
          mret (Some id)
      | Some _ => if op =? AML_SCOPE_OP then mret (Some id) else mret None
      end
  end.

(** Success, or EFI_INVALID_PARAMETER. *)
Section Construct.
Context (Construct : EFI_AML_HANDLE -> Z -> Z -> M sdt bool).
Fixpoint ConstructRest (fuel : nat) (Limit Root ParentNode CurrentBuffer : Z) : M sdt bool :=
  if CurrentBuffer <? Limit then
    match fuel with
    | O => trapped OutOfFuel
    | S fuel =>
        r ← SdtOpenEx CurrentBuffer (Limit - CurrentBuffer);
        match r with
        | (Status, Some id) =>
            h ← GetHandle id;
            ok ← Construct h Root ParentNode;
            if negb ok then mret true else
            _ ← Close (Some id);
            ConstructRest fuel Limit Root ParentNode (CurrentBuffer + Size h)
        | (Status, None) => mret true
        end
    end
  else mret true.
Definition AmlConstructNodeListForChild (h : EFI_AML_HANDLE) (Root ParentNode : Z) : M sdt bool :=
  e ← rd (AmlByteEncoding h);
  if negb (has e AML_HAS_CHILD_OBJ) then mret true else
  r ← parse (AmlGetOffsetAfterLastOption h);
  match r with
  | None => mret false
  | Some CurrentBuffer =>
      ConstructRest (Z.to_nat (Buffer h + Size h - CurrentBuffer)) (Buffer h + Size h) Root ParentNode CurrentBuffer
  end.
End Construct.

Fixpoint AmlConstructNodeList (fuel : nat) (h : EFI_AML_HANDLE) (Root ParentNode : Z) : M sdt bool :=
  match fuel with
  | O => trapped OutOfFuel
  | S fuel =>
      e ← rd (AmlByteEncoding h);
      if negb (has e AML_IN_NAMESPACE) then mret true else
      o ← parse (AmlGetObjectName h);
      match o with
      | None => mret false
      | Some NameString =>
          s ← get;
          o ← AmlInsertNodeToTree (drop (Z.to_nat NameString) (Mem s)) (Buffer h) (Size h) Root ParentNode;
          match o with
          | None => trapped AssertFailed
          | Some id => AmlConstructNodeListForChild (AmlConstructNodeList fuel) h Root id
          end
      end
  end.

(** The subtree of a node is freed; [fuel]: the recursion goes no deeper than
    the number of nodes. *)
Fixpoint AmlDestructNodeList (fuel : nat) (Node : Z) : M sdt unit :=
  match fuel with
  | O => trapped OutOfFuel
  | S fuel =>
      n ← GetNode Node;
      (fix Loop (l : list Z) : M sdt unit :=
         match l with
         | [] => mret tt
         | id :: l =>
             n ← GetNode Node;
             SetNode Node (mkNode (Name n) (Node_Buffer n) (Node_Size n) l (Parent n) (Node_Encoding n));;
             AmlDestructNodeList fuel id;; Loop l
         end) (Children n);;
      _ ← GetNode Node;
      modify (fun s => set_nodes (delete Node (Nodes s)) s)
  end.

(** The status and the object found.  [junk]: the last two bytes of
    RootNameSeg, which the code does not set. *)
Definition AmlFindPath (junk : Z * Z) (h : EFI_AML_HANDLE) (AmlPath : list Z) (FromRoot : bool)
    : M sdt (EFI_STATUS * option Z) :=
  Root ← AmlCreateNode [AML_ROOT_CHAR; 0; junk.1; junk.2] None (AmlByteEncoding h);
  ok ← AmlConstructNodeList (S (Z.to_nat (Size h))) h Root Root;
  if negb ok then mret (EFI_INVALID_PARAMETER, None) else
  Current ← (if FromRoot then mret (Some Root) else n ← GetNode Root; mret (head (Children n)));
  o ← (match Current with
       | Some c => AmlFindNodeInTheTree AmlPath Root c false
       | None => mret None
       end);
  b ← (match o with Some id => n ← GetNode id; mret (Node_Buffer n) | None => mret None end);
  s ← get;
  AmlDestructNodeList (size (Nodes s)) Root;;
  mret (EFI_SUCCESS, b).

(** ** Paths *)
Definition SdtFindPathFromNonRoot (junk : Z * Z) (id : Z) (AmlPath : list Z) : M sdt (EFI_STATUS * option Z) :=
  h ← GetHandle id;
  r ← AmlFindPath junk h AmlPath false;
  let '(Status, b) := r in
  if EFI_ERROR Status then mret (EFI_INVALID_PARAMETER, None) else
  match b with
  | None => mret (EFI_SUCCESS, None)
  | Some b => SdtOpenEx b (Buffer h + Size h - b)
  end.

Definition SdtDuplicateHandle (h : EFI_AML_HANDLE) : M sdt Z := NewHandle h.

(** The loop over the children of the root. *)
Fixpoint FindInChildren (junk : Z * Z) (fuel : nat) (HandleIn : Z) (ChildHandle : option Z) (AmlPath : list Z)
    : M sdt (EFI_STATUS * option Z) :=
  match fuel with
  | O => trapped OutOfFuel
  | S fuel =>
      r ← GetChild (Some HandleIn) ChildHandle;
      let '(Status, ChildHandle) := r in
      if EFI_ERROR Status then mret (EFI_INVALID_PARAMETER, None) else
      match ChildHandle with
      | None => mret (EFI_SUCCESS, None)
      | Some id =>
          h ← GetHandle id;
          r ← AmlFindPath junk h AmlPath true;
          let '(Status, b) := r in
          if EFI_ERROR Status then mret (EFI_INVALID_PARAMETER, None) else
          match b with
          | Some b =>
              r ← SdtOpenEx b (Buffer h + Size h - b);
              if negb (EFI_ERROR r.1) then mret r else FindInChildren junk fuel HandleIn ChildHandle AmlPath
          | None => FindInChildren junk fuel HandleIn ChildHandle AmlPath
          end
      end
  end.
Definition SdtFindPathFromRoot (junk : Z * Z) (fuel : nat) (id : Z) (AmlPath : list Z) : M sdt (EFI_STATUS * option Z) :=
  root ← rd (AmlIsRootPath AmlPath);
  if root : bool then h ← GetHandle id; id ← SdtDuplicateHandle h; mret (EFI_SUCCESS, Some id)
  else FindInChildren junk fuel id None AmlPath.

(** [alloc]: the pool block of a path, of [AmlString]. *)
Definition FindPath (alloc : nat -> option (list Z)) (junk : Z * Z) (fuel : nat) (HandleIn : option Z) (AcpiPath : list Z)
    : M sdt (EFI_STATUS * option Z) :=
  match HandleIn with
  | None => mret (EFI_INVALID_PARAMETER, None)
  | Some id =>
      match AmlNameFromAslName alloc AcpiPath (mkSt [] []) with
      | Trap t => trapped t
      | Done false _ => mret (EFI_INVALID_PARAMETER, None)
      | Done true σ =>
          h ← GetHandle id;
          if Signature h =? EFI_AML_ROOT_HANDLE_SIGNATURE then SdtFindPathFromRoot junk fuel id (AmlPath σ)
          else if Signature h =? EFI_AML_HANDLE_SIGNATURE then SdtFindPathFromNonRoot junk id (AmlPath σ)
          else mret (EFI_INVALID_PARAMETER, None)
      end
  end.
End Protocol.
End Sdt.
