(* ===== verification/AmlSdtProofs.v ===== *)
(** * AcpiSdtDxe: handles and options *)
From S2P Require Import Prelude Bytes AmlString AmlStringProofs AmlParse AmlGrammar AmlParseProofs AmlSdt.

Lemma wp_parse {A} (x : aml A) a m' (Q : A -> sdt -> Prop) s : x (Mem s) = Done a m' -> Q a s -> wp (parse x) Q s.
Proof. unfold wp, parse. by intros ->. Qed.
Lemma wp_rd_sdt {A} (o : option A) a (Q : A -> sdt -> Prop) s : o = Some a -> Q a s -> wp (rd o) Q s.
Proof. intros -> HQ. exact HQ. Qed.

(** Keys in use are below [Fresh]. *)
Definition keys_ok (s : sdt) : Prop :=
  (forall id, is_Some (Handles s !! id) -> id < Fresh s) /\ (forall id, is_Some (Nodes s !! id) -> id < Fresh s).
Lemma fresh_key {A} (M : gmap Z A) f : (forall id, is_Some (M !! id) -> id < f) -> M !! f = None.
Proof. intros H. destruct (M !! f) eqn:E; [|done]. assert (f < f); [|lia]. apply H. by rewrite E. Qed.
Lemma keys_insert {A} (M : gmap Z A) f x : (forall id, is_Some (M !! id) -> id < f) -> forall id, is_Some (<[f := x]> M !! id) -> id < f + 1.
Proof. intros H id. destruct (decide (id = f)) as [->|Hne]; [lia|]. rewrite lookup_insert_ne by done. intros ?%H. lia. Qed.

(** ** Bytes of the memory *)
Definition bytes_of (m : list Z) (p : Z) (n : nat) : list Z := take n (drop (Z.to_nat p) m).
Definition written (m : list Z) (p : Z) (bs : list Z) : list Z :=
  take (Z.to_nat p) m ++ bs ++ drop (Z.to_nat p + length bs) m.
Definition inside (m : list Z) (p n : Z) : Prop := 0 <= p /\ 0 <= n /\ p + n <= Z.of_nat (length m).

Lemma wp_read_bytes p n (Q : list Z -> sdt -> Prop) s :
  inside (Mem s) p (Z.of_nat n) -> Q (bytes_of (Mem s) p n) s -> wp (read_bytes p n) Q s.
Proof.
  intros (Hp & _ & Hl) HQ. unfold read_bytes. wp_step. wp_step.
  rewrite (proj2 (Z.leb_le 0 p)), (proj2 (Z.leb_le (p + Z.of_nat n) _)) by lia. cbn [andb]. by wp_step.
Qed.
Lemma wp_write_bytes p bs (Q : unit -> sdt -> Prop) s :
  inside (Mem s) p (Z.of_nat (length bs)) -> Q tt (set_mem (written (Mem s) p bs) s) -> wp (write_bytes p bs) Q s.
Proof.
  intros (Hp & _ & Hl) HQ. unfold write_bytes. wp_step. wp_step.
  rewrite (proj2 (Z.leb_le 0 p)), (proj2 (Z.leb_le (p + Z.of_nat (length bs)) _)) by lia. cbn [andb]. by wp_step.
Qed.

Lemma length_written m p bs : inside m p (Z.of_nat (length bs)) -> length (written m p bs) = length m.
Proof. intros (? & ? & ?). unfold written. rewrite !length_app, length_take, length_drop. lia. Qed.
Lemma written_inside m p bs i : inside m p (Z.of_nat (length bs)) -> (i < length bs)%nat ->
  written m p bs !! (Z.to_nat p + i)%nat = bs !! i.
Proof.
  intros (? & ? & ?) Hi. unfold written. rewrite lookup_app_r; rewrite length_take; [|lia].
  replace (Z.to_nat p + i - Z.to_nat p `min` length m)%nat with i by lia. by apply lookup_app_l.
Qed.
Lemma written_outside m p bs i : inside m p (Z.of_nat (length bs)) ->
  (i < Z.to_nat p \/ Z.to_nat p + length bs <= i)%nat -> written m p bs !! i = m !! i.
Proof.
  intros (? & ? & ?) Hi. unfold written. destruct Hi as [Hi|Hi].
  - rewrite lookup_app_l by (rewrite length_take; lia). by apply lookup_take_lt.
  - rewrite lookup_app_r by (rewrite length_take; lia). rewrite length_take, lookup_app_r by lia. rewrite lookup_drop. f_equal. lia.
Qed.
Lemma length_bytes_of m p n : inside m p (Z.of_nat n) -> length (bytes_of m p n) = n.
Proof. intros (? & ? & ?). unfold bytes_of. rewrite length_take, length_drop. lia. Qed.
Lemma bytes_of_lookup m p n i : 0 <= p -> (i < n)%nat -> bytes_of m p n !! i = m !! (Z.to_nat p + i)%nat.
Proof. intros Hp Hi. unfold bytes_of. by rewrite lookup_take_lt, lookup_drop by done. Qed.
Lemma bytes_of_outside m p bs q n : inside m p (Z.of_nat (length bs)) -> 0 <= q ->
  q + Z.of_nat n <= p \/ p + Z.of_nat (length bs) <= q -> bytes_of (written m p bs) q n = bytes_of m q n.
Proof.
  intros Hin Hq Hd. apply list_eq. intros i. destruct (decide (i < n)%nat).
  - rewrite !bytes_of_lookup by done. destruct Hin as (? & ? & ?). apply written_outside; [done|lia].
  - rewrite !lookup_ge_None_2; [done|..]; unfold bytes_of; rewrite length_take; lia.
Qed.
Lemma byte_of_written m p bs q : inside m p (Z.of_nat (length bs)) -> 0 <= q ->
  written m p bs !! Z.to_nat q = if (p <=? q) && (q <? p + Z.of_nat (length bs)) then bs !! Z.to_nat (q - p) else m !! Z.to_nat q.
Proof.
  intros Hin Hq. destruct Hin as (? & ? & ?) eqn:E. clear E. destruct (Z.leb_spec p q), (Z.ltb_spec q (p + Z.of_nat (length bs))); cbn [andb].
  - replace (Z.to_nat q) with (Z.to_nat p + Z.to_nat (q - p))%nat by lia. apply written_inside; [done|lia].
  - apply written_outside; [done|lia].
  - apply written_outside; [done|lia].
  - apply written_outside; [done|lia].
Qed.

(** ** The checksum *)
Definition sum_bytes (l : list Z) : Z := foldr Z.add 0 l.
Lemma sum_bytes_app l1 l2 : sum_bytes (l1 ++ l2) = sum_bytes l1 + sum_bytes l2.
Proof. induction l1; cbn; [done|]. unfold sum_bytes in *. lia. Qed.
Lemma foldl_u8 l a : foldl (fun Sum b => u8 (Sum + b)) (u8 a) l = u8 (a + sum_bytes l).
Proof.
  revert a. induction l as [|b l IH]; intros a; cbn [foldl sum_bytes foldr]; [by rewrite Z.add_0_r|].
  replace (u8 (u8 a + b)) with (u8 (a + b)) by (unfold u8; rewrite Z.add_mod_idemp_l; done).
  rewrite IH. f_equal. unfold sum_bytes. lia.
Qed.
Lemma sum_insert l i x y : l !! i = Some x -> sum_bytes (<[i := y]> l) = sum_bytes l - x + y.
Proof.
  revert i. induction l as [|a l IH]; intros i Hi; [done|]. destruct i as [|i]; cbn.
  - injection Hi as ->. lia.
  - specialize (IH i Hi). change (a + sum_bytes (<[i:=y]> l) = a + sum_bytes l - x + y). lia.
Qed.

(** A table that sums to zero, and only the checksum byte changed. *)
Lemma AcpiPlatformChecksum_spec Table n s (Q : unit -> sdt -> Prop) :
  inside (Mem s) Table n -> OFFSET_OF_Checksum < n ->
  (forall c, is_byte c -> u8 (sum_bytes (bytes_of (written (Mem s) (Table + OFFSET_OF_Checksum) [c]) Table (Z.to_nat n))) = 0 ->
     Q tt (set_mem (written (Mem s) (Table + OFFSET_OF_Checksum) [c]) s)) ->
  wp (AcpiPlatformChecksum Table n OFFSET_OF_Checksum) Q s.
Proof.
  intros Hin Hn HQ. unfold AcpiPlatformChecksum, OFFSET_OF_Checksum in *. destruct Hin as (H1 & H2 & H3).
  assert (forall m, length m = length (Mem s) -> inside m (Table + 9) (Z.of_nat (length [0]))) as Hck
    by (intros m Hm; unfold inside; cbn; lia).
  wp_step. apply wp_write_bytes; [by apply Hck|]. wp_step.
  apply wp_read_bytes; cbn [Mem set_mem].
  { unfold inside. rewrite length_written by by apply Hck. lia. }
  cbv zeta. set (m0 := written (Mem s) (Table + 9) [0]). change 0 with (u8 0) at 1. rewrite foldl_u8, Z.add_0_l.
  set (S := sum_bytes (bytes_of m0 Table (Z.to_nat n))). apply wp_write_bytes; cbn [Mem set_mem].
  { apply Hck. unfold m0. by rewrite length_written by by apply Hck. }
  set (c := u8 (255 - u8 S + 1)).
  assert (written m0 (Table + 9) [c] = written (Mem s) (Table + 9) [c]) as Hw.
  { apply list_eq_same_length with (length (Mem s)).
    - by rewrite length_written by by apply Hck.
    - rewrite length_written; [|apply Hck]; unfold m0; by rewrite length_written by by apply Hck.
    - intros i x y Hi Hx Hy.
      assert (length m0 = length (Mem s)) as Hl0 by (unfold m0; by rewrite length_written by by apply Hck).
      replace i with (Z.to_nat (Z.of_nat i)) in Hx, Hy by lia.
      rewrite byte_of_written in Hx by (by apply Hck || lia). rewrite byte_of_written in Hy by (by apply Hck || lia).
      destruct ((Table + 9 <=? Z.of_nat i) && _) eqn:E; [cbn [length] in *; congruence|].
      unfold m0 in Hx. rewrite byte_of_written in Hx by (by apply Hck || lia). cbn [length] in *. rewrite E in Hx. congruence. }
  assert (u8 (sum_bytes (bytes_of (written (Mem s) (Table + 9) [c]) Table (Z.to_nat n))) = 0) as Hsum.
  { assert (bytes_of m0 Table (Z.to_nat n) !! 9%nat = Some 0) as H0.
    { rewrite bytes_of_lookup by lia. unfold m0. replace (Z.to_nat Table + 9)%nat with (Z.to_nat (Table + 9) + 0)%nat by lia.
      by rewrite written_inside by (by apply Hck || (cbn; lia)). }
    assert (bytes_of (written (Mem s) (Table + 9) [c]) Table (Z.to_nat n) = <[9%nat := c]> (bytes_of m0 Table (Z.to_nat n))) as ->.
    { apply list_eq. intros i. destruct (decide (i = 9%nat)) as [->|Hne].
      - rewrite list_lookup_insert_eq by (by eapply lookup_lt_Some). rewrite bytes_of_lookup by lia.
        replace (Z.to_nat Table + 9)%nat with (Z.to_nat (Table + 9) + 0)%nat by lia.
        by rewrite written_inside by (by apply Hck || (cbn; lia)).
      - rewrite list_lookup_insert_ne by done. destruct (decide (i < Z.to_nat n)%nat).
        + rewrite !bytes_of_lookup by done. unfold m0. rewrite !written_outside; [done|by apply Hck|cbn; lia|by apply Hck|cbn; lia].
        + rewrite !lookup_ge_None_2; [done|..]; unfold bytes_of; rewrite length_take; lia. }
    rewrite (sum_insert _ _ _ _ H0). fold S. unfold c, u8. lia_div. }
  specialize (HQ c). unfold set_mem in *. cbn in *. rewrite Hw. apply HQ; [|done].
  unfold c, u8, is_byte. apply Z.mod_pos_bound. lia.
Qed.

Section Sdt.
Context (AllocatePool : Z -> bool) (GetAcpiTable : nat -> option (Z * Z)).
Context (Pool : forall f, AllocatePool f = true).

Lemma wp_NewHandle h (Q : Z -> sdt -> Prop) s :
  Q (Fresh s) (mkSdt (Mem s) (Nodes s) (<[Fresh s := h]> (Handles s)) (Fresh s + 1)) -> wp (NewHandle AllocatePool h) Q s.
Proof. intros HQ. unfold NewHandle. wp_step. wp_step. rewrite Pool. wp_step. wp_step; [done|]. wp_step. wp_step. by wp_step. Qed.
Lemma wp_GetHandle id h (Q : EFI_AML_HANDLE -> sdt -> Prop) s : Handles s !! id = Some h -> Q h s -> wp (GetHandle id) Q s.
Proof. intros H HQ. unfold GetHandle. wp_step. wp_step. by eapply wp_rd_sdt. Qed.
Lemma wp_FreeHandle id h (Q : unit -> sdt -> Prop) s :
  Handles s !! id = Some h -> Q tt (set_handles (delete id (Handles s)) s) -> wp (FreeHandle id) Q s.
Proof. intros H HQ. unfold FreeHandle. wp_step. eapply wp_GetHandle; [done|]. by wp_step. Qed.

(** A handle is opened on an object of the grammar that lies in the buffer,
    or refused. *)
Lemma SdtOpenEx_spec T b k s (Q : EFI_STATUS * option Z -> sdt -> Prop) :
  padded (Mem s) T -> keys_ok s -> 0 <= b -> 0 <= k -> b + k <= T ->
  (forall f, (forall e q, encoded_at (Mem s) b e -> has e AML_IS_NAME_CHAR = false -> ~ object (Mem s) e b (b + k) q) ->
     f = Fresh s \/ f = Fresh s + 1 -> Q (EFI_INVALID_PARAMETER, None) (mkSdt (Mem s) (Nodes s) (Handles s) f)) ->
  (forall e n, encoded_at (Mem s) b e -> has e AML_IS_NAME_CHAR = false -> 0 < n <= k -> object (Mem s) e b (b + k) (b + n) ->
     Q (EFI_SUCCESS, Some (Fresh s))
       (mkSdt (Mem s) (Nodes s) (<[Fresh s := mkHandle EFI_AML_HANDLE_SIGNATURE b n (Some e) false]> (Handles s)) (Fresh s + 1))) ->
  wp (SdtOpenEx AllocatePool b k) Q s.
Proof.
  intros Hpad [HkH HkN] Hb Hk HT Hno Hyes. unfold SdtOpenEx.
  destruct (search_run (Mem s) T Hpad b ltac:(lia)) as (o & Hs & He).
  wp_step. eapply wp_parse; [exact Hs|]. destruct o as [e|].
  2:{ wp_step. destruct s. apply Hno; [|by left]. intros e q Hen. by apply He in Hen. }
  assert (encoded_at (Mem s) b e) as Hen by by apply He.
  assert (forall e', encoded_at (Mem s) b e' -> e' = e) as Hfun by (intros e' H'; apply He in H'; congruence).
  destruct (has e AML_IS_NAME_CHAR) eqn:Hn.
  { wp_step. destruct s. apply Hno; [|by left]. intros e' q He' Hn'. rewrite (Hfun _ He') in Hn'. congruence. }
  wp_step. apply wp_NewHandle. wp_step.
  destruct (ObjectSize_spec (Mem s) T Hpad k e b k) as (n & Hrun & Hn0 & Hq); [by eapply encoded_table|lia..|].
  eapply wp_parse; [exact Hrun|]. wp_step. unfold SetHandle. wp_step. cbn [Handles]. rewrite insert_insert_eq.
  destruct (Z.eqb_spec n 0) as [->|Hne].
  - wp_step. eapply wp_FreeHandle; [apply lookup_insert_eq|]. wp_step. unfold set_handles. cbn [Handles Mem Nodes Fresh].
    rewrite delete_insert_id by by apply fresh_key. apply Hno; [|by right].
    intros e' q He' _ Ho. rewrite (Hfun _ He') in Ho. apply Hq in Ho as [? _]. done.
  - wp_step. assert (object (Mem s) e b (b + k) (b + n)) as Ho by (apply Hq; auto).
    pose proof (object_bounds _ _ _ _ _ Ho). apply Hyes; [done|done|lia|done].
Qed.

Section Protocol.
Context (tables : nat).

(** The first installed table that contains a pointer. *)
Definition contains (m : list Z) (b : Z) (t : Z * Z) : Prop :=
  inside m (t.1 + OFFSET_OF_Length) 4 /\ t.1 <= b < t.1 + le_combine (bytes_of m (t.1 + OFFSET_OF_Length) 4).
Definition outside (m : list Z) (b : Z) (t : Z * Z) : Prop :=
  inside m (t.1 + OFFSET_OF_Length) 4 /\ ~ (t.1 <= b < t.1 + le_combine (bytes_of m (t.1 + OFFSET_OF_Length) 4)).
Definition first_table (m : list Z) (b : Z) (i : nat) (t : Z * Z) : Prop :=
  (i < tables)%nat /\ GetAcpiTable i = Some t /\ contains m b t /\
  forall j, (j < i)%nat -> exists t', GetAcpiTable j = Some t' /\ outside m b t'.

Lemma wp_TableLength t (Q : Z -> sdt -> Prop) s : inside (Mem s) (t + OFFSET_OF_Length) 4 ->
  Q (le_combine (bytes_of (Mem s) (t + OFFSET_OF_Length) 4)) s -> wp (TableLength t) Q s.
Proof. intros. unfold TableLength. wp_step. apply wp_read_bytes; [done|]. by wp_step. Qed.

Lemma FindTableByBuffer_found b i t s (Q : option Z -> sdt -> Prop) :
  first_table (Mem s) b i t -> Q (Some t.1) s -> wp (FindTableByBuffer GetAcpiTable tables 0 b) Q s.
Proof.
  intros (Hi & Ht & Hc & Hj) HQ.
  assert (forall d k, (k + d)%nat = i -> forall fuel, (d < fuel)%nat -> wp (FindTableByBuffer GetAcpiTable fuel k b) Q s) as H.
  { induction d as [|d IH]; intros k Hk fuel Hf; (destruct fuel as [|fuel]; [lia|]); cbn [FindTableByBuffer].
    - assert (k = i) as -> by lia. rewrite Ht. destruct t as [t key]. destruct Hc as [Hin Hc]. cbn [fst] in *.
      wp_step. apply wp_TableLength; [done|].
      rewrite (proj2 (Z.leb_le t b)), (proj2 (Z.ltb_lt b _)) by lia. cbn [andb]. by wp_step.
    - destruct (Hj k) as ([t' key'] & -> & Hin & Ho); [lia|]. cbn [fst] in *. wp_step. apply wp_TableLength; [done|].
      destruct ((t' <=? b) && _) eqn:E; [lia|]. apply IH; lia. }
  by apply (H i 0%nat).
Qed.

(** Close of a changed object. *)
Lemma Close_spec id h i t s : keys_ok s -> Handles s !! id = Some h -> valid_signature h = true -> Modified h = true ->
  first_table (Mem s) (Buffer h) i t ->
  let n := le_combine (bytes_of (Mem s) (t.1 + OFFSET_OF_Length) 4) in
  inside (Mem s) t.1 n -> OFFSET_OF_Checksum < n ->
  wp (Close GetAcpiTable tables (Some id)) (fun Status s' => Status = EFI_SUCCESS /\
    exists c, is_byte c /\ s' = mkSdt (written (Mem s) (t.1 + OFFSET_OF_Checksum) [c]) (Nodes s) (delete id (Handles s)) (Fresh s) /\
      u8 (sum_bytes (bytes_of (Mem s') t.1 (Z.to_nat n))) = 0) s.
Proof.
  intros Hk Hh Hv Hm Hft n Hin Hn. unfold Close. wp_step. eapply wp_GetHandle; [done|]. rewrite Hv. cbn [negb].
  rewrite Hm. wp_step. unfold SdtUpdateAmlChecksum. wp_step. eapply FindTableByBuffer_found; [done|].
  wp_step. apply wp_TableLength; [apply Hft|]. wp_step. apply AcpiPlatformChecksum_spec; [done|done|].
  intros c Hc Hsum. wp_step. cbn [negb]. wp_step. eapply wp_FreeHandle; [done|]. wp_step. split; [done|]. by exists c.
Qed.

(** SetOption: the one change is the bytes of the operand. *)
Lemma SetOption_spec T id h e i (New : list Z) (n : nat) s :
  padded (Mem s) T -> Handles s !! id = Some h -> Signature h = EFI_AML_HANDLE_SIGNATURE ->
  AmlByteEncoding h = Some e -> e ∈ mAmlByteEncoding -> 0 <= Buffer h -> 0 <= Size h -> Buffer h + Size h <= T ->
  1 <= i <= MaxIndex e -> (n <= length New)%nat ->
  wp (SetOption (Some id) i New n) (fun Status s' =>
    (forall x, AmlParseOptionHandleCommon h i (Mem s) = Done (Some x) (Mem s) <->
       exists c lim, body_at (Mem s) e (Buffer h) (Buffer h + Size h) c lim /\ operand (Mem s) (formats e) i c lim x) /\
    ((Status = EFI_INVALID_PARAMETER /\ s' = s /\ AmlParseOptionHandleCommon h i (Mem s) = Done None (Mem s)) \/
     exists x, AmlParseOptionHandleCommon h i (Mem s) = Done (Some x) (Mem s) /\
       Buffer h < Data x /\ Data x + DataSize x <= Buffer h + Size h /\
       ((Status = EFI_BAD_BUFFER_SIZE /\ s' = s /\ DataSize x < Z.of_nat n) \/
        (Status = EFI_SUCCESS /\ Z.of_nat n <= DataSize x /\
         s' = mkSdt (written (Mem s) (Data x) (take n New)) (Nodes s)
           (<[id := mkHandle (Signature h) (Buffer h) (Size h) (AmlByteEncoding h) true]> (Handles s)) (Fresh s))))) s.
Proof.
  intros Hpad Hh Hsig He Ht Hb Hs HT Hi Hn. unfold SetOption. wp_step. eapply wp_GetHandle; [done|].
  rewrite Hsig, Z.eqb_refl. cbn [negb]. wp_step. eapply wp_rd_sdt; [done|]. rewrite (proj2 (Z.ltb_ge _ _)) by lia.
  destruct (Common_operand (Mem s) T Hpad e (Buffer h) (Size h) i) as (o & Hrun & Ho); [done..|].
  assert (AmlParseOptionHandleCommon h i (Mem s) = Done o (Mem s)) as Hrun'.
  { unfold AmlParseOptionHandleCommon. rewrite He. by rewrite (bind_Done _ _ _ e). }
  rewrite Hrun'. wp_step. eapply wp_parse; [exact Hrun'|].
  assert (forall x, Done o (Mem s) = Done (Some x) (Mem s) <-> exists c lim, body_at (Mem s) e (Buffer h) (Buffer h + Size h) c lim /\
    operand (Mem s) (formats e) i c lim x) as Hiff.
  { intros x. rewrite <-Ho. split; [by intros [= ->]|by intros ->]. }
  destruct o as [x|].
  2:{ wp_step. split; [done|]. by left. }
  destruct (proj1 (Ho x) eq_refl) as (c & lim & Hbody & Hop).
  assert (DataType x <> EFI_ACPI_DATA_TYPE_NONE /\ c <= Data x /\ Data x + DataSize x <= lim) as (Hne & Hc & Hlim).
  { clear -Hop. induction Hop as [? ? ? ? ty ? ? Hterm|? ? ? ? ? ? ? ? ? Hterm _ IH].
    - pose proof (term_bounds _ _ _ _ _ _ Hterm). cbn. split; [by inversion Hterm|lia].
    - pose proof (term_bounds _ _ _ _ _ _ Hterm). destruct IH as (? & ? & ?). split; [done|lia]. }
  assert (Buffer h < c /\ lim <= Buffer h + Size h) as [Hc' Hl'].
  { inversion Hbody; subst; match goal with H : op_length _ _ _ |- _ => apply op_length_pos in H end; [lia|].
    match goal with H : pkg_at _ _ _ _ |- _ => destruct H as (lead & bs & tl & _ & Hl & -> & _) end. lia. }
  rewrite bool_decide_false by done. destruct (Z.ltb_spec (DataSize x) (Z.of_nat n)).
  { wp_step. split; [done|]. right. exists x. split; [done|]. split; [lia|]. split; [lia|]. by left. }
  wp_step. rewrite (proj2 (Nat.leb_le _ _)) by done. eapply wp_rd_sdt; [done|]. wp_step.
  assert (length (take n New) = n) as Hlen by (rewrite length_take; lia).
  apply wp_write_bytes.
  { rewrite Hlen. destruct (pad_byte (Mem s) T Hpad (T + 3)) as (z & Hz & _); [lia|]. apply lookup_lt_Some in Hz. unfold inside. lia. }
  wp_step. unfold SetHandle. wp_step. wp_step. split; [done|]. right. exists x. split; [done|]. split; [lia|]. split; [lia|].
  right. split; [done|]. split; [lia|]. done.
Qed.
End Protocol.
End Sdt.
