(* ===== verification/AmlNamespaceProofs.v ===== *)
(** * AcpiSdtDxe: the tree of the name space *)
From S2P Require Import Prelude Bytes AmlString AmlStringProofs AmlParse AmlGrammar AmlParseProofs AmlChildProofs AmlSdt AmlSdtProofs.

(** ** Trees *)
Inductive ntree : Type :=
  | NT (id : Z) (name : list Z) (buffer : option Z) (size : Z) (e : option AML_BYTE_ENCODING) (kids : list ntree).
Definition nid (t : ntree) : Z := match t with NT id _ _ _ _ _ => id end.
Definition nname (t : ntree) : list Z := match t with NT _ nm _ _ _ _ => nm end.
Definition nbuffer (t : ntree) : option Z := match t with NT _ _ b _ _ _ => b end.
Definition nkids (t : ntree) : list ntree := match t with NT _ _ _ _ _ kids => kids end.

Lemma ntree_ind' (P : ntree -> Prop) :
  (forall id nm b sz e kids, Forall P kids -> P (NT id nm b sz e kids)) -> forall t, P t.
Proof.
  intros H. fix IH 1. intros [id nm b sz e kids]. apply H. induction kids as [|k kids IHk]; constructor; [apply IH|exact IHk].
Qed.

(** The nodes of a tree, as the heap has them. *)
Fixpoint nodes (par : option Z) (t : ntree) : list (Z * EFI_AML_NODE_LIST) :=
  match t with
  | NT id nm b sz e kids => (id, mkNode nm b sz (map nid kids) par e) :: concat (map (nodes (Some id)) kids)
  end.
Definition ids (t : ntree) : list Z := (nodes None t).*1.
Lemma ids_par par t : (nodes par t).*1 = ids t.
Proof. by destruct t. Qed.
Lemma ids_eq id nm b sz e kids : ids (NT id nm b sz e kids) = id :: concat (map ids kids).
Proof.
  unfold ids. cbn. f_equal. induction kids as [|k kids IH]; [done|]. cbn. rewrite fmap_app, IH. f_equal. apply ids_par.
Qed.
Lemma nid_ids t : nid t ∈ ids t.
Proof. destruct t. rewrite ids_eq. by left. Qed.

(** The tree is the whole of what is in the heap [N] beyond [N0]. *)
Definition tree_heap (N0 N : gmap Z EFI_AML_NODE_LIST) (t : ntree) : Prop :=
  NoDup (ids t) /\ (forall x, x ∈ ids t -> N0 !! x = None) /\ N = list_to_map (nodes None t) ∪ N0.

Lemma heap_lookup N0 N t x n : tree_heap N0 N t -> (x, n) ∈ nodes None t -> N !! x = Some n.
Proof.
  intros (Hnd & _ & ->) Hx. apply lookup_union_Some_l. by apply elem_of_list_to_map_1.
Qed.
Lemma heap_node N0 N t x : tree_heap N0 N t -> x ∈ ids t -> exists n, (x, n) ∈ nodes None t /\ N !! x = Some n.
Proof.
  intros HT Hx. unfold ids in Hx. apply list_elem_of_fmap in Hx as ([y n] & -> & Hx). exists n. split; [done|].
  by eapply heap_lookup.
Qed.

(** *** Parents and children *)
Lemma node_parent t : forall par x n, (x, n) ∈ nodes par t ->
  (x = nid t /\ Parent n = par) \/ exists q, Parent n = Some q /\ q ∈ ids t.
Proof.
  induction t as [id nm b sz e kids IH] using ntree_ind'. intros par x n Hx. cbn in Hx. apply elem_of_cons in Hx as [[= -> ->]|Hx].
  { by left. }
  right. apply list_elem_of_In, in_concat in Hx as (l & Hl & Hx). apply in_map_iff in Hl as (k & <- & Hk).
  apply list_elem_of_In in Hx, Hk. rewrite Forall_forall in IH. rewrite ids_eq.
  destruct (IH k Hk _ _ _ Hx) as [[-> ->]|(q & -> & Hq)].
  - exists id. split; [done|by left].
  - exists q. split; [done|]. right. apply list_elem_of_In, in_concat. exists (ids k).
    split; [apply in_map_iff; exists k; split; [done|by apply list_elem_of_In]|by apply list_elem_of_In].
Qed.

(** The subtree at a node. *)
Inductive sub : ntree -> ntree -> Prop :=
  | sub_here t : sub t t
  | sub_kid k kid t : kid ∈ nkids t -> sub k kid -> sub k t.
Lemma sub_nodes s t : sub s t -> forall par, exists par', forall p, p ∈ nodes par' s -> p ∈ nodes par t.
Proof.
  induction 1 as [t|k kid t Hk Hs IH]; intros par; [by exists par|].
  destruct t as [id nm b sz e kids]. cbn in Hk. destruct (IH (Some id)) as [par' H]. exists par'. intros p Hp.
  cbn. right. apply list_elem_of_In, in_concat. exists (nodes (Some id) kid). split; [|by apply list_elem_of_In, H].
  apply in_map_iff. exists kid. split; [done|by apply list_elem_of_In].
Qed.
Lemma sub_trans a b c : sub a b -> sub b c -> sub a c.
Proof. intros Hab Hbc. induction Hbc; [done|]. eapply sub_kid; [done|auto]. Qed.
Lemma ids_sub t : forall x, x ∈ ids t -> exists s, sub s t /\ nid s = x.
Proof.
  induction t as [id nm b sz e kids IH] using ntree_ind'. intros x Hx. rewrite ids_eq in Hx. apply elem_of_cons in Hx as [->|Hx].
  { eexists. split; [apply sub_here|done]. }
  apply list_elem_of_In, in_concat in Hx as (l & Hl & Hx). apply in_map_iff in Hl as (k & <- & Hk).
  apply list_elem_of_In in Hx, Hk. rewrite Forall_forall in IH. destruct (IH k Hk x Hx) as (s & Hs & <-).
  exists s. split; [|done]. by eapply sub_kid.
Qed.
Lemma sub_ids s t : sub s t -> forall x, x ∈ ids s -> x ∈ ids t.
Proof.
  intros Hs x Hx. destruct (sub_nodes s t Hs None) as [par' H]. rewrite <-(ids_par par' s) in Hx.
  apply list_elem_of_fmap in Hx as ([y n] & -> & Hx). unfold ids. apply list_elem_of_fmap. by exists (y, n); split; [|apply H].
Qed.
Lemma heap_sub N0 N t s : tree_heap N0 N t -> sub s t -> exists n, N !! nid s = Some n /\ Name n = nname s /\
  Node_Buffer n = nbuffer s /\ Children n = map nid (nkids s).
Proof.
  intros HT Hs. destruct (sub_nodes s t Hs None) as [par' H]. destruct s as [id nm b sz e kids]. eexists. split.
  - eapply heap_lookup; [done|]. apply H. cbn. by left.
  - done.
Qed.

(** ** Changes *)
Fixpoint set_buffer (x : Z) (b : option Z) (sz : Z) (e : option AML_BYTE_ENCODING) (t : ntree) : ntree :=
  match t with
  | NT id nm b0 sz0 e0 kids =>
      let kids := map (set_buffer x b sz e) kids in
      if id =? x then NT id nm b sz e kids else NT id nm b0 sz0 e0 kids
  end.
Fixpoint add_kid (x : Z) (k : Z) (name : list Z) (t : ntree) : ntree :=
  match t with
  | NT id nm b sz e kids =>
      let kids := map (add_kid x k name) kids in
      NT id nm b sz e (if id =? x then kids ++ [NT k name None 0 None []] else kids)
  end.
Definition set_in (x : Z) (g : EFI_AML_NODE_LIST -> EFI_AML_NODE_LIST) (l : list (Z * EFI_AML_NODE_LIST)) :=
  map (fun p => if p.1 =? x then (p.1, g p.2) else p) l.
Definition with_buffer b sz e (n : EFI_AML_NODE_LIST) : EFI_AML_NODE_LIST := mkNode (Name n) b sz (Children n) (Parent n) e.
Definition with_kid k (n : EFI_AML_NODE_LIST) : EFI_AML_NODE_LIST :=
  mkNode (Name n) (Node_Buffer n) (Node_Size n) (Children n ++ [k]) (Parent n) (Node_Encoding n).

Lemma nid_set_buffer x b sz e t : nid (set_buffer x b sz e t) = nid t.
Proof. destruct t; cbn. by destruct (_ =? _). Qed.
Lemma nid_add_kid x k nm t : nid (add_kid x k nm t) = nid t.
Proof. by destruct t. Qed.
Lemma map_nid (f : ntree -> ntree) l : (forall t, nid (f t) = nid t) -> map nid (map f l) = map nid l.
Proof. intros H. induction l; cbn; [done|]. by rewrite H, IHl. Qed.

Lemma nodes_set_buffer x b sz e t : forall par, nodes par (set_buffer x b sz e t) = set_in x (with_buffer b sz e) (nodes par t).
Proof.
  induction t as [id nm b0 sz0 e0 kids IH] using ntree_ind'. intros par.
  assert (concat (map (nodes (Some id)) (map (set_buffer x b sz e) kids)) = set_in x (with_buffer b sz e) (concat (map (nodes (Some id)) kids))) as Hk.
  { induction IH as [|k kids Hk _ IHk]; [done|]. cbn. rewrite Hk, IHk. unfold set_in. by rewrite map_app. }
  cbn. destruct (id =? x); cbn; rewrite (map_nid (set_buffer x b sz e)) by apply nid_set_buffer; by f_equal.
Qed.
Lemma nodes_add_kid x k nm t : forall par, nodes par (add_kid x k nm t) ≡ₚ set_in x (with_kid k) (nodes par t) ++
  concat (map (fun p => if p.1 =? x then [(k, mkNode nm None 0 [] (Some x) None)] else []) (nodes par t)).
Proof.
  induction t as [id nm0 b0 sz0 e0 kids IH] using ntree_ind'. intros par.
  assert (concat (map (nodes (Some id)) (map (add_kid x k nm) kids)) ≡ₚ set_in x (with_kid k) (concat (map (nodes (Some id)) kids)) ++
    concat (map (fun p => if p.1 =? x then [(k, mkNode nm None 0 [] (Some x) None)] else []) (concat (map (nodes (Some id)) kids)))) as Hk.
  { induction IH as [|kid kids Hk _ IHk]; [done|]. cbn. rewrite Hk, IHk. unfold set_in. rewrite !map_app, concat_app. solve_Permutation. }
  cbn. destruct (Z.eqb_spec id x) as [->|Hne]; cbn.
  - unfold with_kid at 1. cbn. rewrite map_app, map_nid by apply nid_add_kid. cbn. constructor.
    rewrite map_app, concat_app, Hk. cbn. solve_Permutation.
  - rewrite map_nid by apply nid_add_kid. constructor. exact Hk.
Qed.

Lemma set_in_fst x g l : (set_in x g l).*1 = l.*1.
Proof. induction l as [|[y n] l IH]; [done|]. cbn. f_equal; [by destruct (y =? x)|exact IH]. Qed.
Lemma list_to_map_set_in x g l : list_to_map (set_in x g l) = alter g x (list_to_map l : gmap Z EFI_AML_NODE_LIST).
Proof.
  induction l as [|[y n] l IH]; [apply map_eq; intros i; cbn; rewrite lookup_alter, lookup_empty; by case_decide|]. apply map_eq. intros i.
  change (set_in x g ((y, n) :: l)) with ((if y =? x then (y, g n) else (y, n)) :: set_in x g l).
  destruct (Z.eqb_spec y x) as [->|Hne]; cbn; rewrite IH.
  - destruct (decide (i = x)) as [->|]; [by rewrite lookup_alter_eq, !lookup_insert_eq|].
    rewrite lookup_insert_ne, !lookup_alter_ne, lookup_insert_ne by done. done.
  - destruct (decide (i = y)) as [->|]; [by rewrite lookup_insert_eq, lookup_alter_ne, lookup_insert_eq|].
    rewrite lookup_insert_ne by done. destruct (decide (i = x)) as [->|]; [by rewrite !lookup_alter_eq, lookup_insert_ne|].
    by rewrite !lookup_alter_ne, lookup_insert_ne.
Qed.

Lemma ids_set_buffer x b sz e t : ids (set_buffer x b sz e t) = ids t.
Proof. unfold ids. rewrite nodes_set_buffer. apply set_in_fst. Qed.
Lemma heap_set_buffer N0 N t x n b sz e : tree_heap N0 N t -> (x, n) ∈ nodes None t ->
  tree_heap N0 (<[x := with_buffer b sz e n]> N) (set_buffer x b sz e t).
Proof.
  intros (Hnd & Hdis & ->) Hx. unfold tree_heap. rewrite ids_set_buffer. split; [done|]. split; [done|].
  rewrite nodes_set_buffer, list_to_map_set_in, insert_union_l. f_equal.
  apply map_eq. intros i. destruct (decide (i = x)) as [->|]; [|by rewrite lookup_insert_ne, lookup_alter_ne].
  rewrite lookup_insert_eq, lookup_alter_eq. by rewrite (elem_of_list_to_map_1 _ _ n).
Qed.

Lemma one_match {A} x (l : list (Z * A)) (y : list (Z * EFI_AML_NODE_LIST)) : NoDup l.*1 -> x ∈ l.*1 ->
  concat (map (fun p => if p.1 =? x then y else []) l) = y.
Proof.
  intros Hnd Hx. induction l as [|[z a] l IH]; [by apply not_elem_of_nil in Hx|]. cbn in *.
  apply NoDup_cons in Hnd as [Hz Hnd]. destruct (Z.eqb_spec z x) as [->|Hne].
  - enough (concat (map (fun p => if p.1 =? x then y else []) l) = []) as -> by by rewrite app_nil_r.
    clear -Hz. induction l as [|[w b] l IH]; [done|]. cbn in *. apply not_elem_of_cons in Hz as [? Hz].
    rewrite (proj2 (Z.eqb_neq w x)) by done. by apply IH.
  - apply elem_of_cons in Hx as [?|Hx]; [done|]. by apply IH.
Qed.
Lemma nodes_add_kid_in x k nm t : NoDup (ids t) -> x ∈ ids t ->
  nodes None (add_kid x k nm t) ≡ₚ set_in x (with_kid k) (nodes None t) ++ [(k, mkNode nm None 0 [] (Some x) None)].
Proof. intros Hnd Hx. rewrite nodes_add_kid. by rewrite one_match. Qed.
Lemma ids_add_kid x k nm t : NoDup (ids t) -> x ∈ ids t -> ids (add_kid x k nm t) ≡ₚ ids t ++ [k].
Proof. intros Hnd Hx. unfold ids. rewrite nodes_add_kid_in by done. by rewrite fmap_app, set_in_fst. Qed.

Lemma heap_add_kid N0 N t x n k nm : tree_heap N0 N t -> (x, n) ∈ nodes None t -> N !! k = None ->
  tree_heap N0 (<[x := with_kid k n]> (<[k := mkNode nm None 0 [] (Some x) None]> N)) (add_kid x k nm t).
Proof.
  intros HT Hx Hk. pose proof HT as (Hnd & Hdis & HN).
  assert (x ∈ ids t) as Hxi by (unfold ids; apply list_elem_of_fmap; by exists (x, n)).
  assert (k ∉ ids t) as Hki.
  { intros Hki. destruct (heap_node _ _ _ _ HT Hki) as (n' & _ & Hn'). congruence. }
  assert (NoDup (ids (add_kid x k nm t))) as Hnd'.
  { rewrite ids_add_kid by done. apply NoDup_app. split; [done|]. split; [|apply NoDup_singleton].
    intros y Hy ->%list_elem_of_singleton. done. }
  split; [done|]. split.
  { intros y Hy. rewrite ids_add_kid in Hy by done. apply elem_of_app in Hy as [Hy|Hy%list_elem_of_singleton]; [by apply Hdis|].
    subst y. rewrite HN in Hk. by apply lookup_union_None in Hk as [_ ?]. }
  rewrite (list_to_map_proper _ _ Hnd' (nodes_add_kid_in x k nm t Hnd Hxi)).
  assert (x <> k) by congruence.
  rewrite list_to_map_app, list_to_map_set_in. cbn. subst N. apply map_eq. intros i.
  assert ((list_to_map (nodes None t) : gmap Z EFI_AML_NODE_LIST) !! x = Some n) as Hxm by by apply elem_of_list_to_map_1.
  assert ((list_to_map (nodes None t) : gmap Z EFI_AML_NODE_LIST) !! k = None) as Hkm by by apply lookup_union_None in Hk as [? _].
  rewrite !lookup_insert, !lookup_union, lookup_alter, lookup_insert, lookup_empty.
  repeat case_decide; subst; rewrite ?Hxm, ?Hkm; cbn; try done.
  all: by destruct (list_to_map (nodes None t) !! i), (N0 !! i).
Qed.
