(* ===== verification/AmlNamespaceFind.v ===== *)
(** * AcpiSdtDxe: finding and inserting names *)
From S2P Require Import Prelude Bytes AmlString AmlStringProofs AmlParse AmlGrammar AmlParseProofs AmlChildProofs AmlSdt AmlSdtProofs AmlNamespaceProofs.

(** ** Names as paths

    A name has a root prefix or a number of parent prefixes, and segments; a
    name without segments ends in a null byte. *)
Inductive body_text : list Z -> list (list Z) -> Prop :=
  | text_null tl : body_text (0 :: tl) []
  | text_seg s tl : name_seg s -> body_text (s ++ tl) [s]
  | text_dual s1 s2 tl : name_seg s1 -> name_seg s2 -> body_text (AML_DUAL_NAME_PREFIX :: s1 ++ s2 ++ tl) [s1; s2]
  | text_multi c ss tl : length ss = Nat.max 1 (Z.to_nat c) -> Forall name_seg ss ->
      body_text (AML_MULTI_NAME_PREFIX :: c :: concat ss ++ tl) ss.
Definition path_text (l : list Z) (root : bool) (ups : nat) (segs : list (list Z)) : Prop :=
  exists body, l = (if root then [AML_ROOT_CHAR] else replicate ups AML_PARENT_PREFIX_CHAR) ++ body /\ body_text body segs.

Lemma body_segs body segs : body_text body segs -> Forall name_seg segs.
Proof. destruct 1; rewrite ?Forall_cons, ?Forall_nil; done. Qed.
Lemma name_path nm tl : NameString nm -> exists root ups segs, path_text (nm ++ tl) root ups segs.
Proof.
  intros (root & pre & body & -> & Hpre & Hb).
  assert (exists segs, body_text (body ++ tl) segs) as [segs Hs].
  { inversion Hb as [|? s Hs|? s1 s2 H1 H2|? c ss Hl Hss]; subst.
    - exists []. constructor.
    - exists [body]. by constructor.
    - exists [s1; s2]. cbn. rewrite <-(assoc_L (++)). by constructor.
    - exists ss. cbn. by constructor. }
  inversion Hpre as [|n]; subst.
  - exists true, 0%nat, segs, (body ++ tl). by rewrite <-(assoc_L (++)).
  - exists false, n, segs, (body ++ tl). by rewrite <-(assoc_L (++)).
Qed.

(** ** What a path means in a heap of nodes *)
Section Meaning.
Context (N : gmap Z EFI_AML_NODE_LIST).
Definition is_named (nm : list Z) (id : Z) : bool :=
  match N !! id with Some k => bool_decide (Name k = nm) | None => false end.
Definition kid_named (x : Z) (nm : list Z) : option Z := n ← N !! x; find (is_named nm) (Children n).
Fixpoint descend (x : Z) (segs : list (list Z)) : option Z :=
  match segs with
  | [] => Some x
  | s :: segs => y ← kid_named x s; descend y segs
  end.
Definition up (x : Z) : Z := match N !! x with Some n => default x (Parent n) | None => x end.
Definition resolve (Root x : Z) (root : bool) (ups : nat) (segs : list (list Z)) : option Z :=
  descend (if root then Root else Nat.iter ups up x) segs.

(** Children and parents are nodes. *)
Definition linked (l : list Z) : Prop :=
  forall x, x ∈ l -> exists n, N !! x = Some n /\ (forall c, c ∈ Children n -> c ∈ l) /\ (forall p, Parent n = Some p -> p ∈ l).
End Meaning.

Lemma tree_linked N0 N t : tree_heap N0 N t -> linked N (ids t).
Proof.
  intros HT x Hx. destruct (heap_node _ _ _ _ HT Hx) as (n & Hin & Hn). exists n. split; [done|]. split.
  - intros c Hc. destruct (ids_sub _ _ Hx) as (q & Hs & <-). destruct (heap_sub _ _ _ _ HT Hs) as (n' & Hn' & _ & _ & Hch).
    assert (n' = n) as -> by congruence. rewrite Hch in Hc. apply list_elem_of_In, in_map_iff in Hc as (k & <- & Hk%list_elem_of_In).
    apply (sub_ids k t); [|apply nid_ids]. eapply sub_trans; [eapply sub_kid; [exact Hk|apply sub_here]|done].
  - intros p Hp. destruct (node_parent _ _ _ _ Hin) as [[_ Hr]|(p' & Hp' & Hin')]; congruence.
Qed.
Lemma tree_parent N0 N t x n : tree_heap N0 N t -> x ∈ ids t -> N !! x = Some n -> Parent n = None -> x = nid t.
Proof.
  intros HT Hx Hn Hp. destruct (heap_node _ _ _ _ HT Hx) as (n' & Hin & Hn'). assert (n' = n) as -> by congruence.
  destruct (node_parent _ _ _ _ Hin) as [[-> _]|(p' & Hp' & _)]; congruence.
Qed.

Lemma find_some {A} (f : A -> bool) l x : find f l = Some x -> x ∈ l /\ f x = true.
Proof. intros H%List.find_some. by rewrite list_elem_of_In. Qed.
Lemma kid_in N l x nm y : linked N l -> x ∈ l -> kid_named N x nm = Some y -> y ∈ l /\ exists n, N !! y = Some n /\ Name n = nm.
Proof.
  intros HL Hx. destruct (HL x Hx) as (n & Hn & Hc & _). unfold kid_named. rewrite Hn. cbn.
  intros [Hy Hnm]%find_some. split; [by apply Hc|]. unfold is_named in Hnm. destruct (N !! y) as [k|]; [|done].
  exists k. split; [done|]. by apply bool_decide_eq_true in Hnm.
Qed.
Lemma descend_in N l x segs y : linked N l -> x ∈ l -> descend N x segs = Some y -> y ∈ l /\
  forall s, last segs = Some s -> exists n, N !! y = Some n /\ Name n = s.
Proof.
  intros HL. revert x. induction segs as [|s segs IH]; intros x Hx; cbn [descend].
  - intros [= <-]. split; [done|]. intros s [=].
  - destruct (kid_named N x s) as [z|] eqn:E; [|done]. cbn. intros Hd. destruct (kid_in _ _ _ _ _ HL Hx E) as [Hz Hnz].
    destruct (IH z Hz Hd) as [Hy Hl]. split; [done|]. intros s' Hs'. destruct segs as [|s2 segs]; [|by apply Hl].
    cbn in Hs', Hd. injection Hs' as <-. by injection Hd as <-.
Qed.
Lemma up_in N l x : linked N l -> x ∈ l -> up N x ∈ l.
Proof. intros HL Hx. unfold up. destruct (HL _ Hx) as (n & -> & _ & Hp). destruct (Parent n); cbn; auto. Qed.
Lemma iter_in N l x k : linked N l -> x ∈ l -> Nat.iter k (up N) x ∈ l.
Proof. intros HL Hx. induction k as [|k IH]; [done|]. by apply (up_in _ _ _ HL). Qed.

(** ** Searching *)
Lemma wp_GetNode x n (Q : EFI_AML_NODE_LIST -> sdt -> Prop) s : Nodes s !! x = Some n -> Q n s -> wp (GetNode x) Q s.
Proof. intros H HQ. unfold GetNode. wp_step. wp_step. by eapply wp_rd_sdt. Qed.

Section Search.
Context (AllocatePool : Z -> bool) (s : sdt) (l : list Z).
Context (HL : linked (Nodes s) l).

Lemma FindChild_run nm ids (Q : option Z -> sdt -> Prop) : (forall c, c ∈ ids -> c ∈ l) ->
  Q (find (is_named (Nodes s) (take AML_NAME_SEG_SIZE nm)) ids) s -> wp (FindChild nm ids) Q s.
Proof.
  induction ids as [|x ids IH]; intros Hin HQ; cbn [FindChild]; [by wp_step|]. cbn [find] in HQ.
  destruct (HL x) as (n & Hn & _); [apply Hin; by left|]. wp_step. eapply wp_GetNode; [done|].
  unfold is_named at 1 in HQ. rewrite Hn in HQ. destruct (bool_decide _); [by wp_step|].
  apply IH; [|done]. intros c Hc. apply Hin. by right.
Qed.
Lemma FindNodeInThis_run nm x (Q : option Z -> sdt -> Prop) : x ∈ l ->
  Q (kid_named (Nodes s) x (take AML_NAME_SEG_SIZE nm)) s -> wp (AmlFindNodeInThis AllocatePool nm x false) Q s.
Proof.
  intros Hx HQ. destruct (HL x Hx) as (n & Hn & Hc & _). unfold AmlFindNodeInThis. wp_step. eapply wp_GetNode; [done|].
  wp_step. apply FindChild_run; [done|]. unfold kid_named in HQ. rewrite Hn in HQ. cbn in HQ.
  destruct (find _ _); cbn [negb]; by wp_step.
Qed.
Lemma FindSegs_run segs x tl (Q : option Z -> sdt -> Prop) : x ∈ l -> Forall name_seg segs ->
  Q (descend (Nodes s) x segs) s -> wp (FindSegs AllocatePool (length segs) (concat segs ++ tl) x false) Q s.
Proof.
  intros Hx HF. revert x Hx. induction HF as [|nm segs Hnm _ IH]; intros x Hx HQ; cbn [FindSegs length]; [by wp_step|].
  cbn [concat]. rewrite <-(assoc_L (++)). wp_step. apply FindNodeInThis_run; [done|].
  assert (take AML_NAME_SEG_SIZE (nm ++ concat segs ++ tl) = nm) as -> by (destruct Hnm as [<- _]; by rewrite take_app_length).
  cbn [descend] in HQ. destruct (kid_named (Nodes s) x nm) as [y|] eqn:E; [|by wp_step]. cbn in HQ.
  rewrite name_seg_drop by done. apply IH; [|done]. by eapply kid_in.
Qed.
End Search.

(** The parent prefixes; the parent of the root is the root. *)
Lemma Ascend_run N0 t s ups b q x (Q : Z * list Z -> sdt -> Prop) :
  tree_heap N0 (Nodes s) t -> x ∈ ids t -> b <> AML_PARENT_PREFIX_CHAR ->
  Q (Nat.iter ups (up (Nodes s)) x, b :: q) s ->
  wp (Ascend (replicate ups AML_PARENT_PREFIX_CHAR ++ b :: q) (nid t) x) Q s.
Proof.
  intros HT Hx Hb. revert x Hx. induction ups as [|ups IH]; intros x Hx HQ; cbn [replicate app Ascend].
  - rewrite (proj2 (Z.eqb_neq b _)) by done. by wp_step.
  - rewrite Z.eqb_refl. destruct (tree_linked _ _ _ HT x Hx) as (n & Hn & _ & Hp). wp_step. eapply wp_GetNode; [done|].
    assert (Nat.iter (S ups) (up (Nodes s)) x = Nat.iter ups (up (Nodes s)) (up (Nodes s) x)) as E by by rewrite Nat.iter_succ_r.
    assert (up (Nodes s) x = default x (Parent n)) as Eu by (unfold up; by rewrite Hn).
    rewrite E, Eu in HQ. destruct (Parent n) as [p|] eqn:Ep; cbn [default] in HQ.
    + apply IH; [by apply Hp|done].
    + rewrite (tree_parent _ _ _ _ _ HT Hx Hn Ep) in *. rewrite Z.eqb_refl. wp_step. wp_step; [done|]. apply IH; [apply nid_ids|done].
Qed.

(** ** Inserting

    A heap that extends another keeps its nodes, their names, parents and
    objects, and only appends children. *)
Definition extends (N N' : gmap Z EFI_AML_NODE_LIST) : Prop :=
  forall x n, N !! x = Some n -> exists n' k, N' !! x = Some n' /\ Name n' = Name n /\ Parent n' = Parent n /\
    Children n' = Children n ++ k /\ forall b, Node_Buffer n = Some b -> Node_Buffer n' = Some b.
Lemma extends_refl N : extends N N.
Proof. intros x n Hn. exists n, []. by rewrite app_nil_r. Qed.
Lemma extends_trans N1 N2 N3 : extends N1 N2 -> extends N2 N3 -> extends N1 N3.
Proof.
  intros H12 H23 x n Hn. destruct (H12 x n Hn) as (n2 & k & Hn2 & HN & HP & HC & HB).
  destruct (H23 x n2 Hn2) as (n3 & k3 & Hn3 & HN3 & HP3 & HC3 & HB3). exists n3, (k ++ k3).
  rewrite HN3, HP3, HC3, HN, HP, HC, (assoc_L (++)). repeat split; auto.
Qed.

Lemma find_app {A} (f g : A -> bool) l k x : (forall y, y ∈ l -> g y = f y) -> find f l = Some x -> find g (l ++ k) = Some x.
Proof.
  induction l as [|y l IH]; intros Hfg; [done|]. cbn [find app]. rewrite (Hfg y) by by left.
  destruct (f y); [done|]. apply IH. intros z Hz. apply Hfg. by right.
Qed.
Section Extends.
Context (N N' : gmap Z EFI_AML_NODE_LIST) (l : list Z) (HE : extends N N') (HL : linked N l).
Lemma kid_extends x nm y : x ∈ l -> kid_named N x nm = Some y -> kid_named N' x nm = Some y.
Proof.
  intros Hx. destruct (HL x Hx) as (n & Hn & Hc & _). destruct (HE x n Hn) as (n' & k & Hn' & _ & _ & Hk & _).
  unfold kid_named. rewrite Hn, Hn'. cbn. rewrite Hk. apply find_app. intros z Hz.
  destruct (HL z (Hc z Hz)) as (m & Hm & _). destruct (HE z m Hm) as (m' & ? & Hm' & Hnm & _).
  unfold is_named. by rewrite Hm, Hm', Hnm.
Qed.
Lemma descend_extends segs x y : x ∈ l -> descend N x segs = Some y -> descend N' x segs = Some y.
Proof.
  revert x. induction segs as [|nm segs IH]; intros x Hx; cbn [descend]; [done|].
  destruct (kid_named N x nm) as [z|] eqn:E; [|done]. cbn. intros Hd. rewrite (kid_extends _ _ _ Hx E). cbn.
  apply IH; [|done]. by eapply kid_in.
Qed.
Lemma up_extends x : x ∈ l -> up N' x = up N x.
Proof.
  intros Hx. destruct (HL _ Hx) as (n & Hn & _). destruct (HE _ n Hn) as (n' & ? & Hn' & _ & HP & _).
  unfold up. by rewrite Hn, Hn', HP.
Qed.
Lemma iter_extends k x : x ∈ l -> Nat.iter k (up N') x = Nat.iter k (up N) x.
Proof.
  intros Hx. induction k as [|k IH]; [done|]. change (up N' (Nat.iter k (up N') x) = up N (Nat.iter k (up N) x)).
  rewrite IH. by apply up_extends, iter_in.
Qed.
Lemma resolve_extends Root x root ups segs y : Root ∈ l -> x ∈ l ->
  resolve N Root x root ups segs = Some y -> resolve N' Root x root ups segs = Some y.
Proof.
  intros HR Hx. unfold resolve. rewrite iter_extends by done. destruct root; apply descend_extends; [done|by apply iter_in].
Qed.
End Extends.

Lemma extends_add_kid N x n k node : N !! x = Some n -> N !! k = None -> extends N (<[x := with_kid k n]> (<[k := node]> N)).
Proof.
  intros Hx Hk y m Hy. destruct (decide (y = x)) as [->|Hne].
  - assert (m = n) as -> by congruence. exists (with_kid k n), [k]. by rewrite lookup_insert_eq.
  - exists m, []. rewrite lookup_insert_ne by done. rewrite lookup_insert_ne by congruence. by rewrite app_nil_r.
Qed.
Lemma extends_set_buffer N x n b sz e : N !! x = Some n -> Node_Buffer n = None -> extends N (<[x := with_buffer b sz e n]> N).
Proof.
  intros Hx Hnone y m Hy. destruct (decide (y = x)) as [->|Hne].
  - assert (m = n) as -> by congruence. exists (with_buffer b sz e n), []. rewrite lookup_insert_eq. cbn. rewrite app_nil_r, Hnone. done.
  - exists m, []. rewrite lookup_insert_ne by done. by rewrite app_nil_r.
Qed.

(** * AcpiSdtDxe: building the name space *)
(** The tree in the heap of a state, where [D b nm]: an object at [b] may be
    stored under the name [nm]. *)
Definition space (D : Z -> list Z -> Prop) (N0 : gmap Z EFI_AML_NODE_LIST) (s : sdt) (t : ntree) : Prop :=
  tree_heap N0 (Nodes s) t /\ keys_ok s /\
  forall x n b, x ∈ ids t -> Nodes s !! x = Some n -> Node_Buffer n = Some b -> D b (Name n).
(** What construction does to a state: the tables are not changed, handles
    that were open stay, and names stay where they are. *)
Record later (s : sdt) (t : ntree) (s' : sdt) (t' : ntree) : Prop := mkLater {
  later_mem : Mem s' = Mem s;
  later_handles : forall id, id < Fresh s -> Handles s' !! id = Handles s !! id;
  later_fresh : Fresh s <= Fresh s';
  later_nodes : extends (Nodes s) (Nodes s');
  later_root : nid t' = nid t;
  later_ids : forall x, x ∈ ids t -> x ∈ ids t';
}.
Lemma later_refl s t : later s t s t.
Proof. split; [done|done|lia|apply extends_refl|done|done]. Qed.
Lemma later_trans s1 t1 s2 t2 s3 t3 : later s1 t1 s2 t2 -> later s2 t2 s3 t3 -> later s1 t1 s3 t3.
Proof.
  intros [M1 H1 F1 N1 R1 I1] [M2 H2 F2 N2 R2 I2]. split; [congruence| |lia|by eapply extends_trans|congruence|auto].
  intros id Hid. rewrite H2 by lia. by apply H1.
Qed.

Section Build.
Context (AllocatePool : Z -> bool) (Pool : forall f, AllocatePool f = true).
Context (D : Z -> list Z -> Prop) (N0 : gmap Z EFI_AML_NODE_LIST).

Lemma wp_AmlCreateNode nm par e (Q : Z -> sdt -> Prop) s : (AML_NAME_SEG_SIZE <= length nm)%nat ->
  Q (Fresh s) (mkSdt (Mem s) (<[Fresh s := mkNode (take AML_NAME_SEG_SIZE nm) None 0 [] par e]> (Nodes s)) (Handles s) (Fresh s + 1)) ->
  wp (AmlCreateNode AllocatePool nm par e) Q s.
Proof.
  intros Hl HQ. unfold AmlCreateNode. wp_step. wp_step. rewrite Pool. wp_step. wp_step; [done|].
  rewrite (proj2 (Nat.leb_le _ _)) by done. wp_step. eapply wp_rd_sdt; [done|]. wp_step. wp_step. by wp_step.
Qed.

Lemma AmlFindNodeInThis_create nm tl x s t (Q : option Z -> sdt -> Prop) :
  space D N0 s t -> x ∈ ids t -> length nm = AML_NAME_SEG_SIZE ->
  (forall s' t' y, space D N0 s' t' -> later s t s' t' -> kid_named (Nodes s') x nm = Some y -> Q (Some y) s') ->
  wp (AmlFindNodeInThis AllocatePool (nm ++ tl) x true) Q s.
Proof.
  intros (HT & Hk & HD) Hx Hl HQ. pose proof (tree_linked _ _ _ HT) as HL.
  destruct (heap_node _ _ _ _ HT Hx) as (n & Hin & Hn). destruct (HL x Hx) as (n' & Hn' & Hc & _).
  assert (n' = n) as -> by congruence.
  assert (take AML_NAME_SEG_SIZE (nm ++ tl) = nm) as Etake by (by rewrite <-Hl, take_app_length).
  unfold AmlFindNodeInThis. wp_step. eapply wp_GetNode; [done|]. wp_step. apply (FindChild_run s (ids t) HL); [done|].
  rewrite Etake. destruct (find _ _) as [y|] eqn:Ef.
  { wp_step. apply (HQ s t); [done|apply later_refl|]. unfold kid_named. by rewrite Hn. }
  cbn [negb]. wp_step. apply wp_AmlCreateNode; [rewrite length_app; lia|]. rewrite Etake.
  set (k := Fresh s). assert (Nodes s !! k = None) as Hfree by apply fresh_key, Hk.
  assert (x <> k) as Hxk by congruence.
  wp_step. eapply wp_GetNode; [cbn; by rewrite lookup_insert_ne|]. wp_step. unfold SetNode. wp_step. wp_step.
  unfold set_nodes. cbn [Mem Nodes Handles Fresh]. set (node := mkNode nm None 0 [] (Some x) None).
  change (mkNode (Name n) _ _ _ _ _) with (with_kid k n).
  pose proof (heap_add_kid N0 (Nodes s) t x n k nm HT Hin Hfree) as HT'.
  assert (extends (Nodes s) (<[x := with_kid k n]> (<[k := node]> (Nodes s)))) as HE by by apply extends_add_kid.
  assert (forall z, z ∈ ids (add_kid x k nm t) <-> z ∈ ids t \/ z = k) as Hids.
  { intros z. rewrite ids_add_kid by (apply HT || done). by rewrite elem_of_app, list_elem_of_singleton. }
  apply (HQ _ (add_kid x k nm t)); [split; [exact HT'|split]| |].
  - destruct Hk as [HkH HkN]. split; cbn [Handles Nodes Fresh].
    + intros id Hid%HkH. fold k in Hid |- *. lia.
    + intros id [m Hm]. destruct (decide (id = k)) as [->|]; [lia|].
      assert (id < Fresh s); [|unfold k; lia]. apply HkN. destruct (decide (id = x)) as [->|]; [by rewrite Hn|].
      rewrite !lookup_insert_ne in Hm by done. by rewrite Hm.
  - intros z m b Hz Hm Hb. cbn [Nodes] in Hm. rewrite lookup_insert in Hm. case_decide.
    + subst z. injection Hm as <-. cbn in *. by apply (HD x n).
    + rewrite lookup_insert in Hm. case_decide; [by injection Hm as <-|]. apply (HD z m); [|done..].
      apply Hids in Hz as [?|?]; [done|congruence].
  - split; [done|done|cbn; lia|exact HE|apply nid_add_kid|]. intros z Hz. apply Hids. by left.
  - unfold kid_named. cbn [Nodes]. rewrite lookup_insert_eq. cbn [mbind option_bind with_kid Children].
    set (N' := <[x := with_kid k n]> (<[k := node]> (Nodes s))).
    assert (is_named N' nm k = true) as Hkn.
    { unfold is_named, N'. rewrite lookup_insert_ne, lookup_insert_eq by done. by apply bool_decide_eq_true. }
    assert (forall c, c ∈ Children n -> is_named N' nm c = is_named (Nodes s) nm c) as Hsame.
    { intros c Hcc. destruct (HL c (Hc c Hcc)) as (m & Hm & _). destruct (HE c m Hm) as (m' & ? & Hm' & Hnm & _).
      unfold is_named. fold N' in Hm'. by rewrite Hm, Hm', Hnm. }
    clear -Hkn Hsame Ef. induction (Children n) as [|c l IH]; cbn [find app]; [by rewrite Hkn|].
    cbn [find] in Ef. rewrite Hsame by by left. destruct (is_named (Nodes s) nm c); [done|]. apply IH; [done|].
    intros z Hz. apply Hsame. by right.
Qed.

Lemma FindSegs_create segs tl x s t (Q : option Z -> sdt -> Prop) :
  space D N0 s t -> x ∈ ids t -> Forall name_seg segs ->
  (forall s' t' y, space D N0 s' t' -> later s t s' t' -> descend (Nodes s') x segs = Some y -> Q (Some y) s') ->
  wp (FindSegs AllocatePool (length segs) (concat segs ++ tl) x true) Q s.
Proof.
  intros HS Hx HF. revert x s t HS Hx. induction HF as [|nm segs Hnm _ IH]; intros x s t HS Hx HQ; cbn [FindSegs length].
  { wp_step. by apply (HQ s t); [|apply later_refl|]. }
  cbn [concat]. rewrite <-(assoc_L (++)). wp_step. apply (AmlFindNodeInThis_create nm _ x s t); [done|done|apply Hnm|].
  intros s1 t1 y HS1 HL1 Hy. rewrite name_seg_drop by done.
  assert (linked (Nodes s1) (ids t1)) as Hlk by (eapply tree_linked; apply HS1).
  assert (y ∈ ids t1) as Hy1 by (eapply kid_in; [exact Hlk|by apply (later_ids _ _ _ _ HL1)|exact Hy]).
  apply (IH y s1 t1); [done|done|]. intros s2 t2 z HS2 HL2 Hz. apply (HQ s2 t2); [done|by eapply later_trans|].
  cbn [descend]. rewrite (kid_extends _ _ _ (later_nodes _ _ _ _ HL2) Hlk x nm y); [done| |done].
  by apply (later_ids _ _ _ _ HL1).
Qed.

(** The first byte of a body tells the forms apart. *)
Lemma body_find segs body x (create : bool) Root (Q : option Z -> sdt -> Prop) s :
  body_text body segs -> Forall is_byte body ->
  (segs <> [] -> forall tl, wp (FindSegs AllocatePool (length segs) (concat segs ++ tl) x create) Q s) ->
  (segs = [] -> x = Root -> Q (Some x) s) ->
  wpe (c ← rd (peek body);
       if c =? AML_DUAL_NAME_PREFIX then FindSegs AllocatePool 2 (drop 1 body) x create
       else if c =? AML_MULTI_NAME_PREFIX then
         SegCount ← rd (body !! 1%nat); FindSegs AllocatePool (Nat.max 1 (Z.to_nat SegCount)) (drop 2 body) x create
       else if c =? 0 then ASSERT (x =? Root);; mret (Some x)
       else FindSegs AllocatePool 1 body x create) Q asserted s.
Proof.
  intros Hb Hby Hsegs Hnull. inversion Hb as [tl|nm tl Hnm|s1 s2 tl H1 H2|c ss tl Hl HF]; subst.
  - cbn [peek head]. apply wpe_bind_wp. eapply wp_rd_sdt; [done|]. cbn [Z.eqb].
    change (0 =? AML_DUAL_NAME_PREFIX) with false. change (0 =? AML_MULTI_NAME_PREFIX) with false. cbv iota.
    apply wpe_bind, wpe_ASSERT; [done|]. intros ->%Z.eqb_eq. apply wp_wpe. wp_step. by apply Hnull.
  - destruct Hnm as (Hl4 & c & r & -> & Hc & Hr). cbn [app peek head]. apply wpe_bind_wp. eapply wp_rd_sdt; [done|].
    apply Forall_cons in Hby as [Hcb _]. destruct (lead_special c Hc Hcb) as (_ & _ & Hd & Hm & Hz).
    rewrite !(proj2 (Z.eqb_neq c _)) by done. apply wp_wpe. specialize (Hsegs ltac:(done) tl).
    cbn [length concat] in Hsegs. by rewrite app_nil_r in Hsegs.
  - cbn [peek head]. apply wpe_bind_wp. eapply wp_rd_sdt; [done|]. rewrite Z.eqb_refl. apply wp_wpe.
    specialize (Hsegs ltac:(done) tl). cbn [length concat] in Hsegs. rewrite app_nil_r, <-(assoc_L (++)) in Hsegs. exact Hsegs.
  - cbn [peek head]. apply wpe_bind_wp. eapply wp_rd_sdt; [done|].
    change (AML_MULTI_NAME_PREFIX =? AML_DUAL_NAME_PREFIX) with false. rewrite Z.eqb_refl. cbv iota.
    apply wpe_bind_wp. eapply wp_rd_sdt; [done|]. rewrite <-Hl. apply wp_wpe. apply Hsegs. intros ->. cbn in Hl. lia.
Qed.
Lemma body_text_head body segs : body_text body segs -> Forall is_byte body ->
  exists b q, body = b :: q /\ b <> AML_PARENT_PREFIX_CHAR /\ b <> AML_ROOT_CHAR.
Proof.
  intros Hb Hby. inversion Hb as [tl|nm tl Hnm|s1 s2 tl H1 H2|c ss tl Hl HF]; subst.
  - by exists 0, tl.
  - destruct Hnm as (Hl4 & c & r & -> & Hc & Hr). apply Forall_cons in Hby as [Hcb _].
    destruct (lead_special c Hc Hcb) as (? & ? & _). by exists c, (r ++ tl).
  - by eexists _, _.
  - by eexists _, _.
Qed.

(** Where the search for a path starts. *)
Lemma find_start l root ups segs x s t (create : bool) (Q : option Z -> sdt -> Prop) :
  tree_heap N0 (Nodes s) t -> x ∈ ids t -> path_text l root ups segs -> Forall is_byte l ->
  let c := if root then nid t else Nat.iter ups (up (Nodes s)) x in
  (segs <> [] -> forall tl, wp (FindSegs AllocatePool (length segs) (concat segs ++ tl) c create) Q s) ->
  (segs = [] -> c = nid t -> Q (Some c) s) ->
  wpe (AmlFindNodeInTheTree AllocatePool l (nid t) x create) Q asserted s.
Proof.
  intros HT Hx (body & -> & Hb) Hby c Hsegs Hnull. unfold AmlFindNodeInTheTree.
  assert (Forall is_byte body) as Hby' by (apply Forall_app in Hby as [_ ?]; done).
  destruct (body_text_head _ _ Hb Hby') as (b & q & E & Hpar & Hroot). destruct root.
  - cbn [app peek head]. apply wpe_bind_wp. eapply wp_rd_sdt; [done|]. rewrite Z.eqb_refl. apply wpe_bind_wp. wp_step.
    change (drop 1 (AML_ROOT_CHAR :: body)) with body. by apply (body_find segs).
  - apply wpe_bind_wp. destruct ups as [|ups].
    + rewrite E at 1. cbn [replicate app peek head]. eapply wp_rd_sdt; [done|]. rewrite (proj2 (Z.eqb_neq b _)) by done.
      apply wpe_bind_wp. rewrite E at 1. apply (Ascend_run N0 t s 0 b q x); [done..|]. rewrite <-E. by apply (body_find segs).
    + cbn [replicate app peek head]. eapply wp_rd_sdt; [done|].
      change (AML_PARENT_PREFIX_CHAR =? AML_ROOT_CHAR) with false. cbv iota.
      apply wpe_bind_wp. change (AML_PARENT_PREFIX_CHAR :: replicate ups AML_PARENT_PREFIX_CHAR ++ body) with
        (replicate (S ups) AML_PARENT_PREFIX_CHAR ++ body). rewrite E at 1.
      apply (Ascend_run N0 t s (S ups) b q x); [done..|]. rewrite <-E. by apply (body_find segs).
Qed.

(** Searching finds what the path means. *)
Lemma AmlFindNodeInTheTree_find l root ups segs x s t :
  tree_heap N0 (Nodes s) t -> x ∈ ids t -> path_text l root ups segs -> Forall is_byte l ->
  wpe (AmlFindNodeInTheTree AllocatePool l (nid t) x false)
    (fun o s' => s' = s /\ o = resolve (Nodes s) (nid t) x root ups segs) asserted s.
Proof.
  intros HT Hx Hp Hby. pose proof (tree_linked _ _ _ HT) as HL. destruct Hp as (body & El & Hb).
  apply (find_start l root ups segs x s t); [done|done|by exists body|done| |].
  - intros _ tl. apply (FindSegs_run _ s (ids t) HL); [destruct root; [apply nid_ids|by apply iter_in]|by eapply body_segs|done].
  - intros -> _. done.
Qed.

Lemma AmlFindNodeInTheTree_create l root ups segs x s t (Q : option Z -> sdt -> Prop) :
  space D N0 s t -> x ∈ ids t -> path_text l root ups segs -> Forall is_byte l ->
  (forall s' t' y, space D N0 s' t' -> later s t s' t' -> y ∈ ids t' ->
     resolve (Nodes s') (nid t) x root ups segs = Some y -> Q (Some y) s') ->
  wpe (AmlFindNodeInTheTree AllocatePool l (nid t) x true) Q asserted s.
Proof.
  intros HS Hx Hp Hby HQ. pose proof HS as (HT & _). pose proof (tree_linked _ _ _ HT) as HL. destruct Hp as (body & El & Hb).
  assert ((if root then nid t else Nat.iter ups (up (Nodes s)) x) ∈ ids t) as Hc
    by (destruct root; [apply nid_ids|by apply iter_in]).
  apply (find_start l root ups segs x s t); [done|done|by exists body|done| |].
  - intros _ tl. apply (FindSegs_create segs tl _ s t); [done|done|by eapply body_segs|].
    intros s' t' y HS' HL' Hy. pose proof (tree_linked _ _ _ (proj1 HS')) as Hlk.
    apply (HQ s' t'); [done|done| |].
    + by eapply descend_in; [exact Hlk|apply (later_ids _ _ _ _ HL'), Hc|exact Hy].
    + unfold resolve. by rewrite (iter_extends _ _ _ (later_nodes _ _ _ _ HL') HL).
  - intros -> E. apply (HQ s t); [done|apply later_refl|done|done].
Qed.
End Build.
