(* ===== verification/AmlNamespaceBuild.v ===== *)
(** * AcpiSdtDxe: the name space of an object, and its end *)
From S2P Require Import Prelude Bytes AmlString AmlStringProofs AmlParse AmlGrammar AmlParseProofs AmlChildProofs AmlSdt AmlSdtProofs AmlNamespaceProofs AmlNamespaceFind.

(** The object of the name space at [b], between [lo] and [hi]: [nm] is the
    last segment of its name. *)
Definition declared (m : list Z) (lo hi b : Z) (nm : list Z) : Prop :=
  exists sz e root ups segs p c lim n, lo <= b /\ 0 < sz /\ b + sz <= hi /\ encoded_at m b e /\ has e AML_IN_NAMESPACE = true /\ OpCode e <> AML_SCOPE_OP /\
    body_at m e b (b + sz) c lim /\ operand m (formats e) (LastName e (Z.to_nat (MaxIndex e))) c lim (mkParsed EFI_ACPI_DATA_TYPE_NAME_STRING p n) /\
    path_text (drop (Z.to_nat p) m) root ups segs /\ (last segs = Some nm \/ segs = []).

(** An operand whose format is a name. *)
Lemma operand_name m fs i p lim x : operand m fs i p lim x -> forall k, i = Z.of_nat k + 1 -> fs !! k = Some AML_NAME ->
  x = mkParsed EFI_ACPI_DATA_TYPE_NAME_STRING (Data x) (DataSize x) /\ name_at m (Data x) (DataSize x).
Proof.
  induction 1 as [f fs p lim ty q Hlt Ht|f fs i p lim ty q x Hlt Ht Ho IH]; intros k Hk Hf.
  - assert (k = 0%nat) as -> by lia. injection Hf as ->. inversion Ht as [? n ? ? Hfix| |? ? n Hn| |]; subst.
    + done.
    + cbn. replace (p + n - p) with n by lia. done.
  - assert (0 < i) by (clear -Ho; induction Ho; lia). destruct k as [|k]; [lia|]. apply (IH k); [lia|done].
Qed.
Lemma LastName_spec e n : (LastName e n = 0 /\ forall k, (k < n)%nat -> Format e !! k <> Some AML_NAME) \/
  exists k, LastName e n = Z.of_nat k + 1 /\ (k < n)%nat /\ Format e !! k = Some AML_NAME.
Proof.
  induction n as [|n IH]; cbn [LastName]; [left; split; [done|lia]|]. case_bool_decide as Hf.
  - right. exists n. split; [lia|]. split; [lia|done].
  - destruct IH as [[H0 Hno]|(k & Hk & Hlt & Hf')]; [left|right].
    + split; [done|]. intros k Hk. destruct (decide (k = n)) as [->|]; [done|]. apply Hno. lia.
    + exists k. split; [done|]. split; [lia|done].
Qed.
Lemma last_name e : e ∈ mAmlByteEncoding -> has e AML_IN_NAMESPACE = true ->
  exists k, LastName e (Z.to_nat (MaxIndex e)) = Z.of_nat k + 1 /\ formats e !! k = Some AML_NAME /\ Z.of_nat k + 1 <= MaxIndex e.
Proof.
  intros He Hns. pose proof (table_wf e He) as Hwf. unfold wf_encoding in Hwf. rewrite !andb_true_iff in Hwf.
  destruct Hwf as ((_ & H5) & _). rewrite Hns in H5.
  destruct (LastName_spec e (Z.to_nat (MaxIndex e))) as [[E0 _]|(k & -> & Hlt & Hf)]; [by rewrite E0 in H5|].
  exists k. split; [done|]. unfold formats. rewrite lookup_take_lt by done. split; [done|lia].
Qed.

Section Name.
Context (m : list Z) (T : Z) (Hpad : padded m T).

Lemma AmlGetObjectName_run h e : AmlByteEncoding h = Some e -> e ∈ mAmlByteEncoding -> has e AML_IN_NAMESPACE = true ->
  0 <= Buffer h -> 0 <= Size h -> Buffer h + Size h <= T ->
  exists o, AmlGetObjectName h m = Done o m /\ forall p, o = Some p -> exists root ups segs c lim n,
    body_at m e (Buffer h) (Buffer h + Size h) c lim /\
    operand m (formats e) (LastName e (Z.to_nat (MaxIndex e))) c lim (mkParsed EFI_ACPI_DATA_TYPE_NAME_STRING p n) /\
    path_text (drop (Z.to_nat p) m) root ups segs /\ 0 <= p.
Proof.
  intros He Ht Hns Hb Hs HT. destruct (last_name e Ht Hns) as (k & Hk & Hf & Hle).
  unfold AmlGetObjectName. rewrite He. rewrite (bind_Done _ _ _ e) by done. rewrite Hns.
  rewrite (bind_Done _ _ _ tt) by done. rewrite Hk. rewrite (proj2 (Z.eqb_neq _ 0)) by lia. cbn [negb].
  rewrite (bind_Done _ _ _ tt) by done.
  destruct (Common_operand m T Hpad e (Buffer h) (Size h) (Z.of_nat k + 1)) as (o & Hrun & Ho); [done|lia..|].
  assert (AmlParseOptionHandleCommon h (Z.of_nat k + 1) m = Done o m) as Hrun'.
  { unfold AmlParseOptionHandleCommon. rewrite He. by rewrite (bind_Done _ _ _ e). }
  rewrite (bind_Done _ _ _ _ Hrun'). destruct o as [x|]; [|by exists None].
  destruct (proj1 (Ho x) eq_refl) as (c & lim & Hbody & Hop).
  destruct (operand_name _ _ _ _ _ _ Hop k eq_refl Hf) as [Hx (nm & tl & (Hp0 & Hdrop) & Hn & Hname)].
  destruct (name_path nm tl Hname) as (root & ups & segs & Hpath).
  rewrite Hx. cbn [DataType]. rewrite bool_decide_true by done. rewrite (bind_Done _ _ _ tt) by done.
  eexists. split; [done|]. intros p [= <-]. exists root, ups, segs, c, lim, (DataSize x). rewrite <-Hx. cbn [Data]. rewrite Hdrop. done.
Qed.

(** Where the objects of a term list begin. *)
Lemma OffsetAfterLast_total h e : opened m h e -> Buffer h + Size h <= T -> has e AML_IS_NAME_CHAR = false ->
  has e AML_HAS_PKG_LENGTH = true ->
  exists o, AmlGetOffsetAfterLastOption h m = Done o m /\ forall p, o = Some p -> Buffer h < p.
Proof.
  intros Ho HT Hn Hpk. pose proof Ho as (He & Ht & Hp & Hob). destruct (wf_bounds e Ht) as [HM _].
  pose proof (object_bounds _ _ _ _ _ Hob) as Hbd.
  unfold AmlGetOffsetAfterLastOption. rewrite He. rewrite (bind_Done _ _ _ e) by done.
  destruct (Z.eq_dec (MaxIndex e) 0) as [E0|Hne].
  - assert (exists n, op_length m (Buffer h) n /\ Buffer h + n <= T) as (n & Hop & HnT).
    { inversion Hob; try congruence. eexists. split; [done|].
      match goal with H : pkg_at _ _ _ _ |- _ => destruct H as (lead & bs & tl & _ & Hl & -> & _) end.
      match goal with H : terms _ _ _ _ _ |- _ => apply grammar_bounds in H end. lia. }
    destruct (op_length_run m T Hpad (Buffer h)) as (b & Hrun & Hop'); [lia|]. apply Hop' in Hop as ->.
    assert (AmlParseOptionHandleCommon h 0 m =
      Done (Some (mkParsed EFI_ACPI_DATA_TYPE_OPCODE (Buffer h) (if b =? AML_EXT_OP then 2 else 1))) m) as E.
    { unfold AmlParseOptionHandleCommon. rewrite He, (bind_Done _ _ _ e) by done.
      unfold AmlParseOptionCommon. rewrite E0. rewrite (bind_Done _ _ _ tt) by done. rewrite Hn.
      by rewrite (bind_Done _ _ _ _ Hrun). }
    rewrite E0. rewrite (bind_Done _ _ _ _ E). cbn [DataType Data DataSize]. rewrite bool_decide_true by done.
    destruct (pkg_run m T Hpad (Buffer h + if b =? AML_EXT_OP then 2 else 1)) as (k0 & L0 & Hpr & _ & Hk & _).
    { destruct (b =? _); lia. }
    rewrite (bind_Done _ _ _ _ Hpr). eexists. split; [done|]. intros p [= <-]. cbn [fst]. destruct (b =? _); lia.
  - destruct (Common_operand m T Hpad e (Buffer h) (Size h) (MaxIndex e)) as (o & Hrun & Hiff); [done|lia..|].
    assert (AmlParseOptionHandleCommon h (MaxIndex e) m = Done o m) as Hrun'.
    { unfold AmlParseOptionHandleCommon. rewrite He. by rewrite (bind_Done _ _ _ e). }
    rewrite (bind_Done _ _ _ _ Hrun'). destruct o as [x|]; [|by exists None].
    destruct (proj1 (Hiff x) eq_refl) as (c & lim & Hbody & Hop). apply body_start in Hbody.
    assert (c <= Data x /\ 0 < DataSize x /\ DataType x <> EFI_ACPI_DATA_TYPE_OPCODE) as (Hx1 & Hx2 & Hty).
    { clear -Hop. induction Hop as [? ? ? ? ty ? ? Hterm|? ? ? ? ? ? ? ? ? Hterm _ IH].
      - pose proof (term_bounds _ _ _ _ _ _ Hterm). cbn. split; [lia|]. split; [lia|by inversion Hterm].
      - pose proof (term_bounds _ _ _ _ _ _ Hterm). destruct IH as (? & ? & ?). split; [lia|done]. }
    rewrite bool_decide_false by done. eexists. split; [done|]. intros p [= <-]. lia.
Qed.
End Name.

Section Build.
Context (AllocatePool : Z -> bool) (Pool : forall f, AllocatePool f = true) (GetAcpiTable : nat -> option (Z * Z)) (tables : nat).

Lemma AmlInsertNodeToTree_spec D N0 T l root ups segs b sz e x s t (Q : option Z -> sdt -> Prop) :
  padded (Mem s) T -> 0 <= b < T ->
  space D N0 s t -> x ∈ ids t -> path_text l root ups segs -> Forall is_byte l -> encoded_at (Mem s) b e ->
  (OpCode e <> AML_SCOPE_OP -> forall nm, last segs = Some nm \/ segs = [] -> D b nm) ->
  (forall s' t', space D N0 s' t' -> later s t s' t' -> Q None s') ->
  (forall s' t' y, space D N0 s' t' -> later s t s' t' -> y ∈ ids t' ->
     resolve (Nodes s') (nid t) x root ups segs = Some y ->
     (OpCode e <> AML_SCOPE_OP -> exists n, Nodes s' !! y = Some n /\ Node_Buffer n = Some b) -> Q (Some y) s') ->
  wpe (AmlInsertNodeToTree AllocatePool l b sz (nid t) x) Q asserted s.
Proof.
  intros Hpad Hb HS Hx Hp Hby Hen HD Hno Hyes. unfold AmlInsertNodeToTree. apply wpe_bind.
  eapply (AmlFindNodeInTheTree_create AllocatePool Pool D N0); [done..|].
  intros s1 t1 y HS1 HL1 Hy Hres. cbv beta. pose proof HS1 as (HT1 & Hk1 & HD1).
  destruct (heap_node _ _ _ _ HT1 Hy) as (n & Hin & Hn).
  apply wpe_bind_wp. eapply wp_GetNode; [done|].
  pose proof (later_mem _ _ _ _ HL1) as HM.
  destruct (byte_run (Mem s) T Hpad b ltac:(lia)) as (op & Hrun & Hop & _).
  assert (op = OpCode e) as -> by (destruct Hen as (_ & He & _); by eapply byte_at_fun).
  apply wpe_bind_wp. eapply wp_parse; [by rewrite HM|].
  destruct (Node_Buffer n) as [b0|] eqn:Eb.
  { destruct (Z.eqb_spec (OpCode e) AML_SCOPE_OP); apply wp_wpe; wp_step; [by apply (Hyes s1 t1)|by apply (Hno s1 t1)]. }
  destruct (Z.eqb_spec (OpCode e) AML_SCOPE_OP) as [|Hop']; cbn [negb].
  { apply wp_wpe. wp_step. wp_step. wp_step. by apply (Hyes s1 t1). }
  destruct (search_run (Mem s) T Hpad b ltac:(lia)) as (o & Hs & He). apply He in Hen as ->.
  apply wp_wpe. wp_step. wp_step. eapply wp_parse; [rewrite HM; exact Hs|]. unfold SetNode. wp_step. wp_step.
  set (n' := mkNode _ _ _ _ _ _). assert (n' = with_buffer (Some b) sz (Some e) n) as En by done.
  pose proof (heap_set_buffer N0 (Nodes s1) t1 y n (Some b) sz (Some e) HT1 Hin) as HT2.
  assert (extends (Nodes s1) (<[y := n']> (Nodes s1))) as HE by (rewrite En; by apply extends_set_buffer).
  pose proof (tree_linked _ _ _ HT1) as HL.
  assert (forall nm, last segs = Some nm \/ segs = [] -> D b nm) as HDb by by apply HD.
  apply (Hyes _ (set_buffer y (Some b) sz (Some e) t1)).
  - split; [exact HT2|]. split.
    + destruct Hk1 as [HkH HkN]. split; [done|]. cbn [set_nodes Nodes Fresh]. intros id [z Hz].
      destruct (decide (id = y)) as [->|]; [apply HkN; by rewrite Hn|]. rewrite lookup_insert_ne in Hz by done.
      apply HkN. by rewrite Hz.
    + intros z k b' Hz Hk Hb'. rewrite ids_set_buffer in Hz. cbn [set_nodes Nodes] in Hk. rewrite lookup_insert in Hk. case_decide.
      * subst z. injection Hk as <-. cbn in Hb'. injection Hb' as <-. apply HDb. cbn [Name n'].
        destruct (last segs) as [nm|] eqn:El; [|right; by apply last_None].
        left. f_equal. assert (x ∈ ids t1) as Hx1 by by apply (later_ids _ _ _ _ HL1).
        unfold resolve in Hres. eapply (descend_in _ (ids t1)) in Hres as [_ Hl]; [|done|].
        2:{ destruct root; [rewrite <-(later_root _ _ _ _ HL1); apply nid_ids|by apply iter_in]. }
        destruct (Hl nm El) as (k & Hk & <-). congruence.
      * by apply (HD1 z k).
  - eapply later_trans; [exact HL1|]. split; [done|done|cbn; lia|exact HE|apply nid_set_buffer|]. intros z. by rewrite ids_set_buffer.
  - by rewrite ids_set_buffer.
  - cbn [set_nodes Nodes]. eapply (resolve_extends _ _ (ids t1)); [exact HE|exact HL| |by apply (later_ids _ _ _ _ HL1)|exact Hres].
    rewrite <-(later_root _ _ _ _ HL1). apply nid_ids.
  - intros _. exists n'. cbn [set_nodes Nodes]. by rewrite lookup_insert_eq.
Qed.

(** *** Construction *)
Section Construct.
Context (m : list Z) (T : Z) (Hpad : padded m T) (lo hi : Z) (Hlo : 0 <= lo) (Hhi : hi <= T) (N0 : gmap Z EFI_AML_NODE_LIST).
#[local] Abbreviation D := (declared m lo hi).

(** An open handle on an object between [lo] and [hi]. *)
Definition within (h : EFI_AML_HANDLE) (e : AML_BYTE_ENCODING) : Prop :=
  opened m h e /\ encoded_at m (Buffer h) e /\ has e AML_IS_NAME_CHAR = false /\ lo <= Buffer h /\ Buffer h + Size h <= hi.
(** The object of a handle is in the tree, under its name. *)
Definition entered (N : gmap Z EFI_AML_NODE_LIST) (Root x : Z) (h : EFI_AML_HANDLE) (e : AML_BYTE_ENCODING) : Prop :=
  has e AML_IN_NAMESPACE = true -> exists p root ups segs y, AmlGetObjectName h m = Done (Some p) m /\
    path_text (drop (Z.to_nat p) m) root ups segs /\ resolve N Root x root ups segs = Some y /\
    (OpCode e <> AML_SCOPE_OP -> exists n, N !! y = Some n /\ Node_Buffer n = Some (Buffer h)).

(** The object of a handle is in the tree with all that its term list
    declares: each object of the list in turn, up to one that does not open
    or whose construction fails.  The flag: construction succeeded. *)
Definition names (N : gmap Z EFI_AML_NODE_LIST) (Root x : Z) (h : EFI_AML_HANDLE) (e : AML_BYTE_ENCODING) (y : Z) : Prop :=
  exists p root ups segs, AmlGetObjectName h m = Done (Some p) m /\
    path_text (drop (Z.to_nat p) m) root ups segs /\ resolve N Root x root ups segs = Some y /\
    (OpCode e <> AML_SCOPE_OP -> exists n, N !! y = Some n /\ Node_Buffer n = Some (Buffer h)).
Inductive filed (N : gmap Z EFI_AML_NODE_LIST) (Root : Z) : bool -> Z -> EFI_AML_HANDLE -> AML_BYTE_ENCODING -> Prop :=
  | filed_other x h e : has e AML_IN_NAMESPACE = false -> filed N Root true x h e
  | filed_unnamed x h e : has e AML_IN_NAMESPACE = true -> AmlGetObjectName h m = Done None m -> filed N Root false x h e
  | filed_leaf x h e y : has e AML_IN_NAMESPACE = true -> names N Root x h e y -> has e AML_HAS_CHILD_OBJ = false ->
      filed N Root true x h e
  | filed_cut x h e y : has e AML_IN_NAMESPACE = true -> names N Root x h e y -> has e AML_HAS_CHILD_OBJ = true ->
      AmlGetOffsetAfterLastOption h m = Done None m -> filed N Root false x h e
  | filed_list x h e y c : has e AML_IN_NAMESPACE = true -> names N Root x h e y -> has e AML_HAS_CHILD_OBJ = true ->
      AmlGetOffsetAfterLastOption h m = Done (Some c) m -> filed_terms N Root y c (Buffer h + Size h) ->
      filed N Root true x h e
with filed_terms (N : gmap Z EFI_AML_NODE_LIST) (Root : Z) : Z -> Z -> Z -> Prop :=
  | filed_end y c lim : lim <= c -> filed_terms N Root y c lim
  | filed_unopened y c lim : c < lim ->
      (forall e q, encoded_at m c e -> has e AML_IS_NAME_CHAR = false -> ~ object m e c lim q) -> filed_terms N Root y c lim
  | filed_stop y c lim e n : encoded_at m c e -> has e AML_IS_NAME_CHAR = false -> 0 < n -> object m e c lim (c + n) ->
      filed N Root false y (mkHandle EFI_AML_HANDLE_SIGNATURE c n (Some e) false) e -> filed_terms N Root y c lim
  | filed_next y c lim e n : encoded_at m c e -> has e AML_IS_NAME_CHAR = false -> 0 < n -> object m e c lim (c + n) ->
      filed N Root true y (mkHandle EFI_AML_HANDLE_SIGNATURE c n (Some e) false) e -> filed_terms N Root y (c + n) lim ->
      filed_terms N Root y c lim.
Scheme filed_mut := Minimality for filed Sort Prop with filed_terms_mut := Minimality for filed_terms Sort Prop.
Combined Scheme filed_both from filed_mut, filed_terms_mut.

(** What is filed stays so. *)
Section Stays.
Context (N N' : gmap Z EFI_AML_NODE_LIST) (Root : Z) (l : list Z) (HE : extends N N') (HL : linked N l) (HR : Root ∈ l).
Lemma names_extends x h e y : x ∈ l -> names N Root x h e y -> names N' Root x h e y /\ y ∈ l.
Proof.
  intros Hx (p & root & ups & segs & Hnm & Hp & Hres & Hb). split.
  - exists p, root, ups, segs. split; [done|]. split; [done|]. split; [by eapply resolve_extends|].
    intros Hs. destruct (Hb Hs) as (n & Hn & Hbuf). destruct (HE y n Hn) as (n' & k & Hn' & _ & _ & _ & Hb'). eauto.
  - unfold resolve in Hres. eapply descend_in; [exact HL| |exact Hres]. destruct root; [done|by apply iter_in].
Qed.
Lemma filed_extends : (forall ok x h e, filed N Root ok x h e -> x ∈ l -> filed N' Root ok x h e) /\
  (forall y c lim, filed_terms N Root y c lim -> y ∈ l -> filed_terms N' Root y c lim).
Proof.
  apply filed_both; intros.
  - by apply filed_other.
  - by apply filed_unnamed.
  - edestruct names_extends as [? ?]; [| |by eapply filed_leaf]; done.
  - edestruct names_extends as [? ?]; [| |by eapply filed_cut]; done.
  - edestruct names_extends as [? ?]; [| |eapply filed_list; eauto]; done.
  - by apply filed_end.
  - by apply filed_unopened.
  - eapply filed_stop; eauto.
  - eapply filed_next; eauto.
Qed.
End Stays.
Lemma filed_entered N Root x h e : filed N Root true x h e -> entered N Root x h e.
Proof.
  intros H Hns. inversion H as [? ? ? Hno| |? ? ? y _ Hn _| |? ? ? y c _ Hn _ _ _]; subst; [congruence|..];
    destruct Hn as (p & root & ups & segs & Hn); by exists p, root, ups, segs, y.
Qed.

Definition builds (Construct : EFI_AML_HANDLE -> Z -> Z -> M sdt bool) (size : Z) : Prop :=
  forall h e x s t, within h e -> Size h < size -> Mem s = m -> space D N0 s t -> x ∈ ids t ->
    wpe (Construct h (nid t) x) (fun ok s' => exists t', space D N0 s' t' /\ later s t s' t' /\
      filed (Nodes s') (nid t) ok x h e) asserted s.

(** The objects of a term list. *)
Lemma ConstructRest_spec Construct size lim x fuel : builds Construct size -> lim <= hi -> forall c s t,
  lo <= c -> lim - c < size -> (Z.to_nat (lim - c) <= fuel)%nat -> Mem s = m -> space D N0 s t -> x ∈ ids t ->
  wpe (ConstructRest AllocatePool GetAcpiTable tables Construct fuel lim (nid t) x c)
    (fun ok s' => exists t', space D N0 s' t' /\ later s t s' t' /\ ok = true /\ filed_terms (Nodes s') (nid t) x c lim) asserted s.
Proof.
  intros HC Hlim. induction fuel as [|fuel IH]; intros c s t Hc Hsz Hf Hm HS Hx; cbn [ConstructRest].
  { destruct (Z.ltb_spec c lim); [lia|]. exists t. split; [done|]. split; [apply later_refl|]. split; [done|by apply filed_end]. }
  destruct (Z.ltb_spec c lim).
  2:{ exists t. split; [done|]. split; [apply later_refl|]. split; [done|by apply filed_end]. }
  pose proof HS as (HT & Hk & HD). apply wpe_bind_wp.
  apply (SdtOpenEx_spec AllocatePool Pool T c (lim - c) s); [by rewrite Hm|done|lia..| |]; rewrite Hm.
  { intros f Hno Hfr. cbn [fst]. exists t. replace (c + (lim - c)) with lim in Hno by lia. assert (keys_ok (mkSdt m (Nodes s) (Handles s) f)) as Hk'.
    { destruct Hk as [HkH HkN]. split; cbn; intros id Hid; [apply HkH in Hid|apply HkN in Hid]; lia. }
    split; [by split; [exact HT|split]|]. split; [|split; [done|by apply filed_unopened]].
    split; [done|done|cbn; lia|apply extends_refl|done|done]. }
  intros e n Hen Hn Hsize Hob. cbn [fst].
  set (h := mkHandle EFI_AML_HANDLE_SIGNATURE c n (Some e) false).
  set (s1 := mkSdt m (Nodes s) (<[Fresh s := h]> (Handles s)) (Fresh s + 1)).
  assert (space D N0 s1 t) as HS1.
  { split; [exact HT|]. split; [|exact HD]. destruct Hk as [HkH HkN].
    split; cbn [s1 Handles Nodes Fresh]; [by apply keys_insert|]. intros id Hid%HkN. lia. }
  assert (later s t s1 t) as HL1.
  { split; [done| |cbn; lia|apply extends_refl|done|done]. intros id Hid. cbn. by rewrite lookup_insert_ne by lia. }
  apply wpe_bind_wp. eapply wp_GetHandle; [apply lookup_insert_eq|].
  apply wpe_bind. replace (c + (lim - c)) with lim in Hob by lia. assert (object m e c (c + n) (c + n)) as Hself.
  { clear -Hob Hpad Hsize Hhi Hlim Hc Hlo Hen. by eapply object_shrink. }
  eapply wpe_mono; [apply (HC h e x s1 t); [|cbn; lia|done|exact HS1|done]|].
  { split; [split; [done|split; [by eapply encoded_table|split; [cbn; lia|exact Hself]]]|].
    split; [exact Hen|]. split; [done|]. cbn. lia. }
  intros ok s2 (t2 & HS2 & HL2 & Hfiled). pose proof (later_trans _ _ _ _ _ _ HL1 HL2) as HL12.
  destruct ok; cbn [negb].
  2:{ exists t2. split; [done|]. split; [done|]. split; [done|]. eapply (filed_stop _ _ _ _ _ e n); [done|done|lia|done|exact Hfiled]. }
  assert (Handles s2 !! Fresh s = Some h) as Hh2.
  { rewrite (later_handles _ _ _ _ HL2) by (cbn; lia). apply lookup_insert_eq. }
  apply wpe_bind_wp. unfold Close. wp_step. eapply wp_GetHandle; [done|]. change (valid_signature h) with true.
  change (Modified h) with false. cbn [negb]. wp_step. wp_step. cbn [negb]. wp_step.
  eapply wp_FreeHandle; [done|]. wp_step.
  set (s3 := set_handles (delete (Fresh s) (Handles s2)) s2).
  assert (space D N0 s3 t2) as HS3.
  { destruct HS2 as (HT2 & [HkH HkN] & HD2). split; [exact HT2|]. split; [|exact HD2]. split; [|exact HkN].
    cbn. intros id [z Hz]. apply HkH. apply lookup_delete_Some in Hz as [_ ->]. done. }
  assert (later s t s3 t2) as HL3.
  { destruct HL12 as [M1 H1 F1 E1 R1 I1]. split; [done| |done|done|done|done]. intros id Hid. cbn.
    rewrite lookup_delete_ne by lia. by apply H1. }
  assert (Size h = n) as -> by done.
  pose proof (later_root _ _ _ _ HL12) as HR12.
  assert (x ∈ ids t2) as Hx2 by by apply (later_ids _ _ _ _ HL3).
  rewrite <-HR12 in Hfiled |- *. eapply wpe_mono; [apply (IH (c + n) s3 t2)|]; [lia|lia|lia| |done|done|].
  { by rewrite (later_mem _ _ _ _ HL3). }
  intros ok' s4 (t4 & HS4 & HL4 & -> & Hrest). exists t4. split; [done|]. split; [by eapply later_trans|]. split; [done|].
  eapply (filed_next _ _ _ _ _ e n); [done|done|lia|done| |done].
  eapply (filed_extends (Nodes s2) _ _ (ids t2)); [apply (later_nodes _ _ _ _ HL4)|by eapply tree_linked, HS2|apply nid_ids|exact Hfiled|done].
Qed.

Lemma AmlConstructNodeListForChild_spec Construct h e x s t :
  within h e -> builds Construct (Size h) -> Mem s = m -> space D N0 s t -> x ∈ ids t ->
  wpe (AmlConstructNodeListForChild AllocatePool GetAcpiTable tables Construct h (nid t) x)
    (fun ok s' => exists t', space D N0 s' t' /\ later s t s' t' /\
      if has e AML_HAS_CHILD_OBJ then exists o, AmlGetOffsetAfterLastOption h m = Done o m /\
        match o with Some c => ok = true /\ filed_terms (Nodes s') (nid t) x c (Buffer h + Size h) | None => ok = false end
      else ok = true) asserted s.
Proof.
  intros (Ho & Hen & Hn & Hl & Hh) HC Hm HS Hx. pose proof Ho as (He & Ht & Hp & Hob). apply object_bounds in Hob.
  unfold AmlConstructNodeListForChild. rewrite He. apply wpe_bind_wp. eapply wp_rd_sdt; [done|].
  destruct (has e AML_HAS_CHILD_OBJ) eqn:Hco; cbn [negb]; [|exists t; split; [done|]; split; [apply later_refl|done]].
  destruct (OffsetAfterLast_total m T Hpad h e) as (o & Hrun & Hpos); [done|lia|done|by apply child_obj_package|].
  apply wpe_bind_wp. eapply wp_parse; [by rewrite Hm|]. destruct o as [c|].
  2:{ exists t. split; [done|]. split; [apply later_refl|]. by exists None. }
  specialize (Hpos c eq_refl). eapply wpe_mono; [eapply (ConstructRest_spec _ (Size h)); [done|lia..|done|done|done]|].
  intros ok s' (t' & HS' & HL' & Hf). exists t'. split; [done|]. split; [done|]. by exists (Some c).
Qed.

Lemma AmlConstructNodeList_spec fuel : builds (AmlConstructNodeList AllocatePool GetAcpiTable tables fuel) (Z.of_nat fuel).
Proof.
  induction fuel as [|fuel IH]; intros h e x s t Hw Hsz Hm HS Hx.
  { destruct Hw as ((_ & _ & _ & Hob) & _). apply object_bounds in Hob. lia. }
  pose proof Hw as (Ho & Hen & Hn & Hl & Hh). pose proof Ho as (He & Ht & Hp & Hob). apply object_bounds in Hob.
  cbn [AmlConstructNodeList]. apply wpe_bind_wp. rewrite He. eapply wp_rd_sdt; [done|].
  destruct (has e AML_IN_NAMESPACE) eqn:Hns; cbn [negb].
  2:{ exists t. split; [done|]. split; [apply later_refl|by apply filed_other]. }
  destruct (AmlGetObjectName_run m T Hpad h e) as (o & Hrun & Hname); [done..|lia|lia|].
  apply wpe_bind_wp. eapply wp_parse; [by rewrite Hm|].
  destruct o as [p|]; [|exists t; split; [done|]; split; [apply later_refl|by apply filed_unnamed]].
  destruct (Hname p eq_refl) as (root & ups & segs & c & lim & n & Hbody & Hop & Hpath & Hp0).
  apply wpe_bind_wp. wp_step. apply wpe_bind.
  eapply (AmlInsertNodeToTree_spec D N0 T _ root ups segs (Buffer h) (Size h) e x s t); rewrite ?Hm; [done|lia|done|done|done| |done| | |].
  - apply Forall_drop, Hpad.
  - intros Hs nm Hnm. exists (Size h), e, root, ups, segs, p, c, lim, n. repeat (split; [lia || done|]). done.
  - intros s1 t1 _ _. done.
  - intros s1 t1 y HS1 HL1 Hy Hres Hbuf. cbv beta. rewrite <-(later_root _ _ _ _ HL1).
    assert (names (Nodes s1) (nid t) x h e y) as Hnames by (by exists p, root, ups, segs).
    eapply wpe_mono; [apply (AmlConstructNodeListForChild_spec _ h e y s1 t1)|]; [done| |by rewrite (later_mem _ _ _ _ HL1)|done|done|].
    + intros h' e' x' s' t' Hw' Hsz'. apply IH; [done|lia].
    + intros ok s2 (t2 & HS2 & HL2 & Hok). exists t2. split; [done|]. split; [by eapply later_trans|].
      rewrite (later_root _ _ _ _ HL1) in Hok |- *.
      destruct (names_extends (Nodes s1) (Nodes s2) (nid t) (ids t1) (later_nodes _ _ _ _ HL2)
        (tree_linked _ _ _ (proj1 HS1))) with (x := x) (h := h) (e := e) (y := y) as [Hn2 _]; [| |done|].
      * rewrite <-(later_root _ _ _ _ HL1). apply nid_ids.
      * by apply (later_ids _ _ _ _ HL1).
      * destruct (has e AML_HAS_CHILD_OBJ) eqn:Hc; [|subst ok; by eapply filed_leaf].
        destruct Hok as ([c'|] & Hoff & Hok); [destruct Hok as [-> Hok]; by eapply filed_list|subst ok; by eapply filed_cut].
Qed.
End Construct.
End Build.

(** * AcpiSdtDxe: freeing the name space, and AmlFindPath *)
(** ** AmlDestructNodeList frees a tree, and nothing else *)
Definition freed (l : list Z) (s s' : sdt) : Prop :=
  Mem s' = Mem s /\ Handles s' = Handles s /\ Fresh s' = Fresh s /\
  forall x, Nodes s' !! x = if bool_decide (x ∈ l) then None else Nodes s !! x.
(** The heap has the nodes of a tree. *)
Definition has_tree (s : sdt) (par : option Z) (t : ntree) : Prop := forall x n, (x, n) ∈ nodes par t -> Nodes s !! x = Some n.

Lemma kid_nodes par id nm b sz e kids k x n : k ∈ kids -> (x, n) ∈ nodes (Some id) k -> (x, n) ∈ nodes par (NT id nm b sz e kids).
Proof.
  intros Hk Hx. cbn. right. apply list_elem_of_In, in_concat. exists (nodes (Some id) k). split; [|by apply list_elem_of_In].
  apply in_map_iff. exists k. split; [done|by apply list_elem_of_In].
Qed.
Lemma nodes_ids par t x n : (x, n) ∈ nodes par t -> x ∈ ids t.
Proof. intros H. rewrite <-(ids_par par). apply list_elem_of_fmap. by exists (x, n). Qed.

Lemma AmlDestructNodeList_spec t : forall fuel par s, (length (ids t) <= fuel)%nat -> NoDup (ids t) -> has_tree s par t ->
  wp (AmlDestructNodeList fuel (nid t)) (fun _ s' => freed (ids t) s s') s.
Proof.
  induction t as [id nm b sz e kids IH] using ntree_ind'. intros fuel par s Hf Hnd Hs. rewrite ids_eq in *.
  destruct fuel as [|fuel]; [cbn in Hf; lia|]. cbn [AmlDestructNodeList nid]. apply NoDup_cons in Hnd as [Hid Hnd].
  wp_step. eapply wp_GetNode; [apply Hs; cbn; by left|]. cbn [Children]. wp_step.
  set (node l := mkNode nm b sz l par e).
  set (Loop := fix Loop (l : list Z) : M sdt unit := match l with [] => mret tt | _ => _ end).
  assert (forall ks done s', kids = done ++ ks ->
    freed (concat (map ids done)) (set_nodes (<[id := node (map nid ks)]> (Nodes s)) s) s' ->
    wp (Loop (map nid ks)) (fun _ s' => freed (concat (map ids kids)) (set_nodes (<[id := node []]> (Nodes s)) s) s') s') as HLoop.
  { induction ks as [|k ks IHks]; intros dn s1 Hk Hfr; cbn [map Loop].
    { wp_step. rewrite Hk, app_nil_r. exact Hfr. }
    destruct Hfr as (HM & HH & HF & HN). cbn [set_nodes Mem Handles Fresh Nodes] in *.
    assert (id ∉ concat (map ids dn)) as Hidd.
    { intros Hin. apply Hid. rewrite Hk, map_app, concat_app. apply elem_of_app. by left. }
    assert (k ∈ kids) as Hkin by (rewrite Hk; apply elem_of_app; right; by left).
    rewrite Hk, map_app, concat_app in Hnd. cbn [map concat] in Hnd. apply NoDup_app in Hnd as (_ & Hdisj & Hndk).
    apply NoDup_app in Hndk as (Hndk & Hdisj2 & _).
    wp_step. eapply wp_GetNode; [rewrite HN, bool_decide_false by done; apply lookup_insert_eq|]. wp_step. unfold SetNode. wp_step. wp_step.
    rewrite Forall_forall in IH. eapply wp_mono; [apply (IH k Hkin fuel (Some id))|].
    - cbn in Hf. rewrite Hk, map_app, concat_app, length_app in Hf. cbn in Hf. rewrite length_app in Hf. lia.
    - done.
    - intros x n Hx. cbn [set_nodes Nodes]. pose proof (nodes_ids _ _ _ _ Hx) as Hxi.
      assert (x <> id) as Hne.
      { intros ->. apply Hid. apply list_elem_of_In, in_concat. exists (ids k). split; [|by apply list_elem_of_In].
        apply in_map_iff. exists k. split; [done|by apply list_elem_of_In]. }
      rewrite lookup_insert_ne by done. rewrite HN, bool_decide_false.
      2:{ intros Hin. apply (Hdisj x Hin). apply elem_of_app. by left. }
      rewrite lookup_insert_ne by done. apply Hs. by eapply kid_nodes.
    - cbv beta. intros _ s2 (HM2 & HH2 & HF2 & HN2). cbn [set_nodes Mem Handles Fresh Nodes] in *.
      apply (IHks (dn ++ [k])); [by rewrite <-(assoc_L (++))|].
      split; [cbn; congruence|]. split; [cbn; congruence|]. split; [cbn; congruence|]. intros x. rewrite HN2. cbn [set_nodes Nodes].
      rewrite map_app, concat_app. cbn [map concat]. rewrite app_nil_r.
      destruct (decide (x ∈ ids k)) as [Hxk|Hxk].
      { rewrite !bool_decide_true; [done|apply elem_of_app; by right|done]. }
      rewrite (bool_decide_false _ Hxk). destruct (decide (x = id)) as [->|Hne].
      { rewrite lookup_insert_eq, bool_decide_false; [by rewrite lookup_insert_eq|]. intros [?|?]%elem_of_app; done. }
      rewrite !lookup_insert_ne by done. rewrite HN.
      destruct (decide (x ∈ concat (map ids dn))) as [Hxd|Hxd].
      { rewrite !bool_decide_true; [done|apply elem_of_app; by left|done]. }
      rewrite (bool_decide_false _ Hxd), bool_decide_false; [by rewrite lookup_insert_ne|]. intros [?|?]%elem_of_app; done. }
  eapply wp_mono; [apply (HLoop kids [] s); [done|]|].
  - split; [done|]. split; [done|]. split; [done|]. intros x. cbn. destruct (decide (x = id)) as [->|]; [|by rewrite lookup_insert_ne].
    rewrite lookup_insert_eq. apply Hs. cbn. by left.
  - cbv beta. intros _ s1 (HM & HH & HF & HN). cbn [set_nodes Mem Handles Fresh Nodes] in *. wp_step.
    eapply wp_GetNode; [rewrite HN, bool_decide_false by done; apply lookup_insert_eq|]. wp_step.
    split; [done|]. split; [done|]. split; [done|]. intros x. cbn [set_nodes Nodes].
    destruct (decide (x = id)) as [->|Hne].
    { rewrite lookup_delete_eq, bool_decide_true; [done|by left]. }
    rewrite lookup_delete_ne, HN by done. rewrite lookup_insert_ne by done.
    destruct (decide (x ∈ concat (map ids kids))) as [Hx|Hx].
    + rewrite !bool_decide_true; [done|by right|done].
    + rewrite !bool_decide_false; [done| |done]. by intros [?|?]%elem_of_cons.
Qed.

(** ** A text is one path *)
Lemma segs_fun ss : Forall name_seg ss -> forall ss' tl tl', Forall name_seg ss' -> length ss = length ss' ->
  concat ss ++ tl = concat ss' ++ tl' -> ss = ss'.
Proof.
  induction 1 as [|s ss [Hl _] _ IH]; intros [|s' ss'] tl tl' HF Hlen E; [done..|]. apply Forall_cons in HF as [[Hl' _] HF].
  cbn [concat] in E. rewrite <-!(assoc_L (++)) in E. apply app_inj_1 in E as [-> E]; [|congruence].
  f_equal. eapply IH; [done| |exact E]. by injection Hlen.
Qed.
Lemma seg_first s : name_seg s -> Forall is_byte s -> exists c r, s = c :: r /\
  c <> AML_ROOT_CHAR /\ c <> AML_PARENT_PREFIX_CHAR /\ c <> AML_DUAL_NAME_PREFIX /\ c <> AML_MULTI_NAME_PREFIX /\ c <> 0.
Proof.
  intros (_ & c & r & -> & Hc & _) Hb. apply Forall_cons in Hb as [Hb _]. exists c, r. split; [done|]. by apply lead_special.
Qed.
Lemma body_fun body segs segs' : body_text body segs -> body_text body segs' -> Forall is_byte body -> segs = segs'.
Proof.
  intros H H' Hb. inversion H as [tl|s tl Hs|s1 s2 tl H1 H2|c ss tl Hl HF]; subst.
  - inversion H' as [|s tl' Hs E| |]; subst; [done|]. exfalso. destruct Hs as (_ & c & r & -> & Hc & _). by injection E as -> _.
  - assert (Forall is_byte s) as Hbs by (by apply Forall_app in Hb as [? _]).
    destruct (seg_first s Hs Hbs) as (c & r & -> & _ & _ & Hd & Hm & Hz).
    inversion H' as [tl' E|s' tl' Hs' E|s1 s2 tl' H1 H2 E|c' ss tl' Hl HF E]; subst; try congruence.
    f_equal. destruct Hs as [Hl _], Hs' as [Hl' _]. apply (app_inj_1 s' (c :: r)) in E as [? _]; [done|congruence].
  - inversion H' as [|s tl' Hs E|s1' s2' tl' H1' H2' E|]; subst.
    + exfalso. destruct Hs as (_ & c & r & -> & Hc & _). by injection E as -> _.
    + assert (forall a b, name_seg a -> name_seg b -> Forall name_seg [a; b]) as HF2 by (intros; rewrite !Forall_cons, Forall_nil; done).
      apply (segs_fun [s1; s2] (HF2 _ _ H1 H2) [s1'; s2'] tl tl'); [by apply HF2|done|].
      cbn. by rewrite !app_nil_r, <-!(assoc_L (++)).
  - inversion H' as [|s tl' Hs E| |c' ss' tl' Hl' HF' E]; subst.
    + exfalso. destruct Hs as (_ & c' & r & -> & Hc & _). by injection E as -> _.
    + eapply segs_fun; [done|done|congruence|by symmetry].
Qed.
Lemma path_fun l root ups segs root' ups' segs' : path_text l root ups segs -> path_text l root' ups' segs' -> Forall is_byte l ->
  root = root' /\ segs = segs' /\ (root = false -> ups = ups').
Proof.
  intros (body & -> & Hb) (body' & E & Hb') Hby.
  assert (Forall is_byte body) as Hby1 by (by apply Forall_app in Hby as [_ ?]).
  assert (Forall is_byte body') as Hby2 by (rewrite E in Hby; by apply Forall_app in Hby as [_ ?]).
  destruct (body_text_head _ _ Hb Hby1) as (b & q & -> & Hp & Hr). destruct (body_text_head _ _ Hb' Hby2) as (b' & q' & -> & Hp' & Hr').
  destruct root, root'.
  - injection E as E1 E2. rewrite <-E1, <-E2 in *. split; [done|]. split; [by eapply body_fun|done].
  - exfalso. destruct ups'; cbn in E; [by injection E as <- _|done].
  - exfalso. destruct ups; cbn in E; [by injection E as -> _|done].
  - assert (ups = ups' /\ b :: q = b' :: q') as [-> Eb].
    { clear -E Hp Hp'. revert ups' E. induction ups as [|u IH]; intros [|u'] E; cbn in E.
      - done.
      - by injection E as -> _.
      - by injection E as <- _.
      - injection E as E. destruct (IH u' E) as [-> ?]. done. }
    rewrite <-Eb in *. split; [done|]. split; [by eapply body_fun|done].
Qed.

(** ** AmlFindPath *)
Section Path.
Context (AllocatePool : Z -> bool) (Pool : forall f, AllocatePool f = true) (GetAcpiTable : nat -> option (Z * Z)) (tables : nat).

Definition found (m : list Z) (h : EFI_AML_HANDLE) (segs : list (list Z)) (b : Z) : Prop :=
  exists nm, declared m (Buffer h) (Buffer h + Size h) b nm /\ forall sg, last segs = Some sg -> nm = sg.

(** What the tree [N] at [R] answers to a path: from the root, or from the
    first object of the tree. *)
Definition sought (N : gmap Z EFI_AML_NODE_LIST) (R : Z) (FromRoot : bool) (root : bool) (ups : nat) (segs : list (list Z)) : option Z :=
  c ← (if FromRoot then Some R else rn ← N !! R; head (Children rn));
  y ← resolve N R c root ups segs; n ← N !! y; Node_Buffer n.
(** The object of a handle has no readable name or no readable term list. *)
Definition unreadable (m : list Z) (h : EFI_AML_HANDLE) (e : AML_BYTE_ENCODING) : Prop :=
  has e AML_IN_NAMESPACE = true /\ (AmlGetObjectName h m = Done None m \/
    has e AML_HAS_CHILD_OBJ = true /\ AmlGetOffsetAfterLastOption h m = Done None m).

Lemma AmlFindPath_spec T h e junk l root ups segs FromRoot s :
  padded (Mem s) T -> opened (Mem s) h e -> encoded_at (Mem s) (Buffer h) e -> has e AML_IS_NAME_CHAR = false ->
  Buffer h + Size h <= T -> keys_ok s -> path_text l root ups segs -> Forall is_byte l ->
  wpe (AmlFindPath AllocatePool GetAcpiTable tables junk h l FromRoot) (fun r s' =>
    Mem s' = Mem s /\ keys_ok s' /\ (forall id, id < Fresh s -> Handles s' !! id = Handles s !! id) /\
    (r = (EFI_INVALID_PARAMETER, None) /\ unreadable (Mem s) h e \/
     exists o N R, r = (EFI_SUCCESS, o) /\ Nodes s' = Nodes s /\
       filed (Mem s) N R true R h e /\ o = sought N R FromRoot root ups segs /\
       (forall b, o = Some b -> found (Mem s) h segs b) /\
       (FromRoot = true -> has e AML_IN_NAMESPACE = true -> OpCode e <> AML_SCOPE_OP ->
        (forall p, AmlGetObjectName h (Mem s) = Done (Some p) (Mem s) -> path_text (drop (Z.to_nat p) (Mem s)) root ups segs) ->
        o = Some (Buffer h)))) asserted s.
Proof.
  intros Hpad Ho Hen Hn HT Hk Hp Hby. pose proof Ho as (He & Ht & Hp0 & Hob). apply object_bounds in Hob.
  pose proof Hk as [HkH HkN]. unfold AmlFindPath. apply wpe_bind_wp. apply wp_AmlCreateNode; [done|unfold AML_NAME_SEG_SIZE; cbn; lia|].
  cbn [take AML_NAME_SEG_SIZE]. set (R := Fresh s). set (rnm := [_; _; _; _]).
  set (s1 := mkSdt _ _ _ _). set (t1 := NT R rnm None 0 (AmlByteEncoding h) []).
  assert (Nodes s !! R = None) as HR by by apply fresh_key.
  assert (tree_heap (Nodes s) (Nodes s1) t1) as HT1.
  { split; [cbn; apply NoDup_singleton|]. split; [intros x Hx%list_elem_of_singleton; by subst x|].
    cbn. by rewrite insert_empty, <-insert_union_singleton_l. }
  assert (space (declared (Mem s) (Buffer h) (Buffer h + Size h)) (Nodes s) s1 t1) as HS1.
  { split; [done|]. split.
    - split; cbn [s1 Handles Nodes Fresh]; [intros id Hid%HkH; lia|by apply keys_insert].
    - intros x n b Hx%list_elem_of_singleton Hnx Hb. subst x. cbn in Hnx. rewrite lookup_insert_eq in Hnx. by injection Hnx as <-. }
  apply wpe_bind. eapply wpe_mono.
  { apply (AmlConstructNodeList_spec AllocatePool Pool GetAcpiTable tables (Mem s) T Hpad (Buffer h) (Buffer h + Size h) Hp0 HT
      (Nodes s) (S (Z.to_nat (Size h))) h e R s1 t1); [|lia|done|done|by left].
    split; [done|]. split; [done|]. split; [done|]. lia. }
  intros ok s2 (t2 & HS2 & HL2 & Hfiled). cbv beta. pose proof HS2 as (HT2 & Hk2 & HD2).
  pose proof (tree_linked _ _ _ HT2) as Hlk. pose proof (later_root _ _ _ _ HL2) as HR2. cbn [nid t1] in HR2.
  assert (forall id, id < Fresh s -> Handles s2 !! id = Handles s !! id) as Hh2
    by (intros id Hid; rewrite (later_handles _ _ _ _ HL2) by (cbn; lia); done).
  destruct ok; cbn [negb].
  2:{ split; [by apply (later_mem _ _ _ _ HL2)|]. split; [done|]. split; [done|]. left. split; [done|].
      inversion Hfiled; subst; split; auto. }
  cbn [nid t1] in Hfiled. pose proof (filed_entered _ _ _ _ _ _ Hfiled) as Hent.
  assert (R ∈ ids t2) as HRin by (rewrite <-HR2; apply nid_ids).
  destruct (Hlk R HRin) as (rn & Hrn & Hrc & _).
  apply wpe_bind_wp.
  match goal with |- wp _ ?K _ => set (Post := K) end.
  assert (forall Current, (forall c, Current = Some c -> c ∈ ids t2) -> (FromRoot = true -> Current = Some R) ->
    Current = (if FromRoot then Some R else rn ← Nodes s2 !! R; head (Children rn)) -> Post Current s2) as HPost.
  2:{ destruct FromRoot; [wp_step; apply HPost; [by intros c [= <-]|done..]|].
      wp_step. eapply wp_GetNode; [done|]. wp_step. apply HPost; [|done|by rewrite Hrn].
      intros c Hc. apply Hrc. destruct (Children rn); [done|]. injection Hc as ->. by left. }
  intros Current Hcin Hcur Hstart. subst Post. cbv beta. apply wpe_bind.
  eapply (wpe_mono asserted _ (fun o s' => s' = s2 /\ (Current = None -> o = None) /\ forall c, Current = Some c -> o = resolve (Nodes s2) R c root ups segs /\
    (forall y, o = Some y -> y ∈ ids t2))).
  { destruct Current as [c|]; [|done].
    eapply wpe_mono; [rewrite <-HR2; eapply (AmlFindNodeInTheTree_find AllocatePool (Nodes s)); [done|by apply Hcin|done|done]|].
    cbv beta. rewrite HR2. intros o s' [-> ->]. split; [done|]. split; [done|]. intros c' [= <-]. split; [done|]. intros y Hy.
    unfold resolve in Hy. eapply descend_in; [exact Hlk| |exact Hy]. destruct root; [done|by apply iter_in, Hcin]. }
  intros o s' (-> & Hnone & Hres). cbv beta. apply wpe_bind_wp.
  match goal with |- wp _ ?K _ => set (Post := K) end.
  assert (forall b, (forall x, b = Some x -> found (Mem s) h segs x) ->
    (FromRoot = true -> has e AML_IN_NAMESPACE = true -> OpCode e <> AML_SCOPE_OP ->
     (forall p, AmlGetObjectName h (Mem s) = Done (Some p) (Mem s) -> path_text (drop (Z.to_nat p) (Mem s)) root ups segs) ->
     b = Some (Buffer h)) -> b = sought (Nodes s2) R FromRoot root ups segs -> Post b s2) as HPost.
  { intros b Hb1 Hb2 Hb3. subst Post. cbv beta. apply wpe_bind_wp. wp_step. apply wpe_bind_wp. rewrite <-HR2.
    eapply wp_mono; [apply (AmlDestructNodeList_spec t2 _ None); [|by apply HT2|]|].
    - destruct HT2 as (Hnd & Hdis & ->). rewrite map_size_disj_union.
      + rewrite map_size_list_to_map by exact Hnd. unfold ids. rewrite length_fmap. lia.
      + apply map_disjoint_spec. intros x y z Hy Hz. apply elem_of_list_to_map_2, nodes_ids in Hy. by rewrite (Hdis x Hy) in Hz.
    - intros x n Hx. by eapply heap_lookup.
    - cbv beta. intros _ s3 (HM & HH & HF & HN). unfold wpe. cbn. split; [rewrite HM; apply (later_mem _ _ _ _ HL2)|].
      assert (Nodes s3 = Nodes s) as HNs.
      { apply map_eq. intros x. rewrite HN. destruct HT2 as (Hnd & Hdis & HN2). case_bool_decide as Hx.
        - symmetry. by apply Hdis.
        - rewrite HN2. rewrite lookup_union_r; [done|]. by apply not_elem_of_list_to_map_1. }
      split.
      { destruct Hk2 as [HkH2 HkN2]. split; rewrite HF; [rewrite HH; exact HkH2|]. rewrite HNs. intros id Hid%HkN.
        pose proof (later_fresh _ _ _ _ HL2) as Hfr. cbn in Hfr. lia. }
      split; [intros id Hid; rewrite HH; apply Hh2; by rewrite HR2 in Hid|].
      right. exists b, (Nodes s2), R. done. }
  assert (forall y n, o = Some y -> Nodes s2 !! y = Some n -> Current <> None -> forall b, Node_Buffer n = Some b -> found (Mem s) h segs b) as Hfound.
  { intros y n -> Hny Hc b Hb. destruct Current as [c|]; [|done]. destruct (Hres c eq_refl) as [Hr Hin].
    exists (Name n). split; [by apply (HD2 y n b); [apply Hin|..]|]. intros sg Hsg. unfold resolve in Hr. symmetry in Hr.
    eapply descend_in in Hr as [_ Hl]; [|exact Hlk|destruct root; [done|by apply iter_in, Hcin]].
    destruct (Hl sg Hsg) as (n' & Hn' & <-). congruence. }
  assert (FromRoot = true -> has e AML_IN_NAMESPACE = true -> OpCode e <> AML_SCOPE_OP ->
     (forall p, AmlGetObjectName h (Mem s) = Done (Some p) (Mem s) -> path_text (drop (Z.to_nat p) (Mem s)) root ups segs) ->
     exists y n, o = Some y /\ Nodes s2 !! y = Some n /\ Node_Buffer n = Some (Buffer h)) as Hown.
  { intros HF Hns Hop Hnm. specialize (Hcur HF) as ->. destruct (Hres R eq_refl) as [Hr _].
    destruct (Hent Hns) as (p & root' & ups' & segs' & y & Hrun & Hp' & Hr' & Hb). specialize (Hnm p Hrun).
    destruct (path_fun _ _ _ _ _ _ _ Hp' Hnm) as (-> & -> & Hups); [apply Forall_drop, Hpad|].
    destruct (Hb Hop) as (n & Hny & Hnb). exists y, n. split; [|done]. rewrite Hr, <-Hr'. unfold resolve.
    destruct root; [done|]. by rewrite Hups. }
  destruct o as [y|].
  - destruct Current as [c|]; [|by specialize (Hnone eq_refl)].
    destruct (Hres c eq_refl) as [_ Hin]. destruct (Hlk y (Hin y eq_refl)) as (n & Hny & _).
    wp_step. eapply wp_GetNode; [done|]. wp_step. apply HPost; [by eapply Hfound| |].
    { intros H1 H2 H3 H4. destruct (Hown H1 H2 H3 H4) as (y' & n' & [= <-] & Hn' & Hb). congruence. }
    unfold sought. rewrite <-Hstart. cbn. destruct (Hres c eq_refl) as [<- _]. cbn. by rewrite Hny.
  - wp_step. apply HPost; [done| |].
    2:{ unfold sought. rewrite <-Hstart. destruct Current as [c|]; [|done]. cbn. by destruct (Hres c eq_refl) as [<- _]. }
    intros H1 H2 H3 H4. by destruct (Hown H1 H2 H3 H4) as (y' & n' & [=] & _).
Qed.
End Path.
