(* ===== verification/AmlSdtClaims.v ===== *)
(** * AcpiSdtDxe: the properties of the ACPI SDT protocol *)
From stdpp Require Import sorting.
From S2P Require Import Prelude Bytes AmlString AmlStringProofs AmlParse AmlGrammar AmlParseProofs AmlChildProofs AmlSdt AmlSdtProofs AmlNamespaceProofs AmlNamespaceFind AmlNamespaceBuild.
#[local] Open Scope Z_scope.

(** C25: The parser is the grammar.  Over any memory of bytes in which four
    zero bytes follow the last byte [T] of the tables, for every entry of the
    opcode table and every buffer that ends there, parsing ends without a
    fault; AmlGetObjectSize returns the size of the one object of the grammar
    that begins at the buffer and lies in it, and 0 exactly when there is
    none; AmlParseOptionCommon returns for each index the operand that the
    grammar has there, with its type, position and size, and an error exactly
    when there is none. *)
Theorem aml_parser_grammar (m : list Z) (T : Z) (e : AML_BYTE_ENCODING) (p k : Z) :
  padded m T -> e ∈ mAmlByteEncoding -> 0 <= p -> 0 <= k -> p + k <= T ->
  (exists n, ObjectSize e p k m = Done n m /\ 0 <= n <= k /\ forall q, object m e p (p + k) q <-> n <> 0 /\ q = p + n) /\
  (forall i, 1 <= i <= MaxIndex e -> exists o, AmlParseOptionCommon ObjectSize e p k i m = Done o m /\
     forall x, o = Some x <-> exists c lim, body_at m e p (p + k) c lim /\ operand m (formats e) i c lim x).
Proof.
  intros Hpad He Hp Hk HT. split.
  - destruct (ObjectSize_spec m T Hpad k e p k) as (n & Hrun & Hn & Hq); [done|lia..|].
    exists n. split; [done|]. split; [|done]. split; [done|].
    destruct (Z.eq_dec n 0) as [->|Hne]; [done|].
    assert (object m e p (p + k) (p + n)) as Ho by (apply Hq; auto). apply object_bounds in Ho. lia.
  - intros i Hi. by apply (Common_operand m T).
Qed.

(** C26: GetChild enumerates the children of an object: for an open object
    whose operands are complete, called first without a child and then with
    a handle of each child it returned, AmlGetChildFromNonRoot returns the
    operands that are objects and then the objects of the term list (name
    strings, which invoke methods, are skipped), each exactly once, in the
    order of their positions inside the parent, and then success with no
    child. *)
Theorem aml_children (m : list Z) (T : Z) (Parent : EFI_AML_HANDLE) (cs : list Z) :
  padded m T -> children m Parent cs -> Buffer Parent + Size Parent <= T ->
  AmlGetChildFromNonRoot Parent None m = Done (Some (head cs)) m /\
  (forall i ch x, cs !! i = Some x -> child_handle m Parent ch x ->
     AmlGetChildFromNonRoot Parent (Some ch) m = Done (Some (cs !! S i)) m) /\
  (forall i j x, cs !! i = Some x -> cs !! j = Some x -> i = j) /\
  Forall (fun x => Buffer Parent < x < Buffer Parent + Size Parent) cs.
Proof.
  intros Hpad Hc HT. destruct (children_spec m T Hpad Parent cs Hc HT) as (Hs & HF & Hfirst & Hnext).
  split; [done|]. split; [done|]. split; [|done]. intros i j x Hi Hj.
  assert (forall l : list Z, StronglySorted Z.lt l -> forall a b y, l !! a = Some y -> l !! b = Some y -> a = b) as H.
  { induction 1 as [|z l _ IH Hz]; intros [|a] [|b] y Ha Hb; try done.
    - cbn in Ha, Hb. injection Ha as ->. rewrite Forall_lookup in Hz. specialize (Hz _ _ Hb). lia.
    - cbn in Ha, Hb. injection Hb as ->. rewrite Forall_lookup in Hz. specialize (Hz _ _ Ha). lia.
    - f_equal. by eapply IH. }
  by eapply H.
Qed.

Section Sdt.
Context (AllocatePool : Z -> bool) (GetAcpiTable : nat -> option (Z * Z)) (tables : nat).

(** SetOption refuses an operand that is not there, and new contents
    that are longer than the operand, and changes nothing; else it overwrites
    the first bytes of the operand, which lies behind the opcode and inside
    the object, changes no other byte, and marks the handle. *)
Theorem aml_set_option (T id : Z) (h : EFI_AML_HANDLE) (e : AML_BYTE_ENCODING) (i : Z) (New : list Z) (n : nat) (s : sdt) :
  padded (Mem s) T -> Handles s !! id = Some h -> Signature h = EFI_AML_HANDLE_SIGNATURE ->
  AmlByteEncoding h = Some e -> e ∈ mAmlByteEncoding -> 0 <= Buffer h -> 0 <= Size h -> Buffer h + Size h <= T ->
  1 <= i <= MaxIndex e -> (n <= length New)%nat ->
  wp (SetOption (Some id) i New n) (fun Status s' =>
    (forall x, AmlParseOptionHandleCommon h i (Mem s) = Done (Some x) (Mem s) <->
       exists c lim, body_at (Mem s) e (Buffer h) (Buffer h + Size h) c lim /\ operand (Mem s) (formats e) i c lim x) /\
    ((Status = EFI_INVALID_PARAMETER /\ s' = s /\ AmlParseOptionHandleCommon h i (Mem s) = Done None (Mem s)) \/
     exists x, AmlParseOptionHandleCommon h i (Mem s) = Done (Some x) (Mem s) /\
       Buffer h < Data x /\ Data x + DataSize x <= Buffer h + Size h /\
       ((Status = EFI_BAD_BUFFER_SIZE /\ s' = s /\ DataSize x < Z.of_nat n) \/
        (Status = EFI_SUCCESS /\ Z.of_nat n <= DataSize x /\
         s' = mkSdt (written (Mem s) (Data x) (take n New)) (Nodes s)
           (<[id := mkHandle (Signature h) (Buffer h) (Size h) (AmlByteEncoding h) true]> (Handles s)) (Fresh s))))) s.
Proof. apply SetOption_spec. Qed.

(** C28: Closing a handle through which a table was changed finds the first
    installed table that contains the object, stores a checksum that makes
    all bytes of the table sum to zero, changes no other byte, and frees the
    handle. *)
Theorem aml_close (id : Z) (h : EFI_AML_HANDLE) (i : nat) (t : Z * Z) (s : sdt) :
  keys_ok s -> Handles s !! id = Some h -> valid_signature h = true -> Modified h = true ->
  first_table GetAcpiTable tables (Mem s) (Buffer h) i t ->
  let n := le_combine (bytes_of (Mem s) (t.1 + OFFSET_OF_Length) 4) in
  inside (Mem s) t.1 n -> OFFSET_OF_Checksum < n ->
  wp (Close GetAcpiTable tables (Some id)) (fun Status s' => Status = EFI_SUCCESS /\
    exists c, is_byte c /\ s' = mkSdt (written (Mem s) (t.1 + OFFSET_OF_Checksum) [c]) (Nodes s) (delete id (Handles s)) (Fresh s) /\
      u8 (sum_bytes (bytes_of (Mem s') t.1 (Z.to_nat n))) = 0) s.
Proof. apply Close_spec. Qed.

End Sdt.

(** *** Witnesses: a table with Scope (\_SB_) {Device (PCI0) {Name (_UID, One)}} *)
Module AmlTable.
Definition name_uid : list Z := [0x08; 0x5F; 0x55; 0x49; 0x44; 1].
Definition device : list Z := [0x5B; 0x82; 0x0B; 0x50; 0x43; 0x49; 0x30] ++ name_uid.
Definition scope : list Z := [0x10; 0x13; 0x5C; 0x5F; 0x53; 0x42; 0x5F] ++ device.
Definition header : list Z := [0x53; 0x53; 0x44; 0x54; 56; 0; 0; 0; 2; 0] ++ replicate 26 0x20.
Definition mem : list Z := header ++ scope ++ [0; 0; 0; 0].
Definition ScopeOp : AML_BYTE_ENCODING := mkEncoding 0x10 0 1 [AML_NAME; AML_NONE; AML_NONE; AML_NONE; AML_NONE; AML_NONE] (Z.lor AML_HAS_PKG_LENGTH (Z.lor AML_HAS_CHILD_OBJ AML_IN_NAMESPACE)).
Definition DeviceOp : AML_BYTE_ENCODING := mkEncoding AML_EXT_OP 0x82 1 [AML_NAME; AML_NONE; AML_NONE; AML_NONE; AML_NONE; AML_NONE] (Z.lor AML_HAS_PKG_LENGTH (Z.lor AML_HAS_CHILD_OBJ AML_IN_NAMESPACE)).
Definition NameOp : AML_BYTE_ENCODING := mkEncoding 0x08 0 2 [AML_NAME; AML_OBJECT; AML_NONE; AML_NONE; AML_NONE; AML_NONE] AML_IN_NAMESPACE.

Lemma in_table e : (exists b, find (fun e' => (OpCode e' =? OpCode e) && (SubOpCode e' =? b)) mAmlByteEncoding = Some e) -> e ∈ mAmlByteEncoding.
Proof. intros [b H]. by apply find_some in H as [? _]. Qed.
Lemma tabled : ScopeOp ∈ mAmlByteEncoding /\ DeviceOp ∈ mAmlByteEncoding /\ NameOp ∈ mAmlByteEncoding.
Proof. split; [|split]; apply in_table; [exists 0|exists 0x82|exists 0]; vm_compute; reflexivity. Qed.
Lemma mem_padded : padded mem 56.
Proof.
  split; [|split; [lia|]].
  - unfold is_byte. repeat (apply Forall_cons; split; [lia|]). apply Forall_nil. done.
  - intros i Hi. assert (i = 0 \/ i = 1 \/ i = 2 \/ i = 3) as [->|[->|[->| ->]]] by lia; reflexivity.
Qed.

Lemma aml_parser_grammar_witness :
  (exists n, ObjectSize ScopeOp 36 20 mem = Done n mem /\ 0 <= n <= 20 /\ forall q, object mem ScopeOp 36 (36 + 20) q <-> n <> 0 /\ q = 36 + n) /\
  (forall i, 1 <= i <= 1 -> exists o, AmlParseOptionCommon ObjectSize ScopeOp 36 20 i mem = Done o mem /\
     forall x, o = Some x <-> exists c lim, body_at mem ScopeOp 36 (36 + 20) c lim /\ operand mem (formats ScopeOp) i c lim x).
Proof. apply (aml_parser_grammar mem 56); [apply mem_padded|apply tabled|lia..]. Defined.

(** An object from a run of the parser. *)
Lemma object_of_run e p k n : e ∈ mAmlByteEncoding -> 0 <= p -> 0 <= k -> p + k <= 56 -> n <> 0 ->
  ObjectSize e p k mem = Done n mem -> object mem e p (p + k) (p + n).
Proof.
  intros He Hp Hk HT Hn Hrun. destruct (ObjectSize_spec mem 56 mem_padded k e p k) as (n' & Hrun' & _ & Hq); [done|lia..|].
  rewrite Hrun in Hrun'. injection Hrun' as <-. by apply Hq.
Qed.
Definition the_scope : EFI_AML_HANDLE := mkHandle EFI_AML_HANDLE_SIGNATURE 36 20 (Some ScopeOp) false.
Definition the_device : EFI_AML_HANDLE := mkHandle EFI_AML_HANDLE_SIGNATURE 43 13 (Some DeviceOp) false.
Lemma scope_opened : opened mem the_scope ScopeOp.
Proof.
  split; [done|]. split; [apply tabled|]. split; [cbn; lia|].
  apply (object_of_run ScopeOp 36 20 20); [apply tabled|lia..|vm_compute; reflexivity].
Qed.
Lemma device_object : object mem DeviceOp 43 56 56.
Proof. apply (object_of_run DeviceOp 43 13 13); [apply tabled|lia..|vm_compute; reflexivity]. Qed.
Lemma scope_encoded : encoded_at mem 36 ScopeOp.
Proof. split; [apply tabled|]. split; [|done]. split; [lia|done]. Qed.
Lemma device_encoded : encoded_at mem 43 DeviceOp.
Proof. split; [apply tabled|]. split; (split; [lia|done]). Qed.
Lemma seg_ok a b c d : AmlIsLeadName (char8 a) = true -> forallb (fun x => AmlIsName (char8 x)) [b; c; d] = true -> name_seg [a; b; c; d].
Proof.
  intros Ha Hr. split; [done|]. exists a, [b; c; d]. split; [done|]. split; [done|].
  apply Forall_forall. rewrite forallb_forall in Hr. intros x Hx%list_elem_of_In. by apply Hr.
Qed.

Lemma scope_children : children mem the_scope [43].
Proof.
  exists ScopeOp, 38, [mkParsed EFI_ACPI_DATA_TYPE_NAME_STRING 38 5], 43, [43].
  split; [apply scope_opened|]. split; [done|]. split; [|split; [|split; [|done]]].
  - apply (body_package mem ScopeOp 36 56 1 1 0x13); [done| |cbn; lia| |cbn; lia].
    + exists 0x10. split; [split; [lia|done]|done].
    + exists 0x13, [], (drop 38 mem). split; [split; [lia|done]|]. done.
  - apply (operands_cons mem AML_NAME [] 38 56 EFI_ACPI_DATA_TYPE_NAME_STRING 43 [] 43); [lia| |apply operands_nil].
    apply (term_name mem 38 56 5); [|lia]. exists [0x5C; 0x5F; 0x53; 0x42; 0x5F], (drop 43 mem).
    split; [split; [lia|done]|]. split; [done|]. exists true, [0x5C], [0x5F; 0x53; 0x42; 0x5F]. split; [done|].
    split; [apply prefix_root|]. apply body_seg. by apply seg_ok.
  - change (has ScopeOp AML_HAS_CHILD_OBJ) with true. cbv iota.
    eapply (listed_object mem 56 43 DeviceOp 56); [lia|apply device_encoded|done|apply device_object|]. by apply listed_end.
Qed.

Lemma aml_children_witness :
  AmlGetChildFromNonRoot the_scope None mem = Done (Some (Some 43)) mem /\
  (forall i ch x, [43] !! i = Some x -> child_handle mem the_scope ch x ->
     AmlGetChildFromNonRoot the_scope (Some ch) mem = Done (Some ([43] !! S i)) mem) /\
  (forall i j x, [43] !! i = Some x -> [43] !! j = Some x -> i = j) /\
  Forall (fun x => 36 < x < 36 + 20) [43].
Proof. apply (aml_children mem 56 the_scope [43]); [apply mem_padded|apply scope_children|cbn; lia]. Defined.

(** The second argument of Name (_UID, One) is an object of one byte. *)
Definition the_name : EFI_AML_HANDLE := mkHandle EFI_AML_HANDLE_SIGNATURE 50 6 (Some NameOp) false.
Definition st0 : sdt := mkSdt mem ∅ {[ 0 := the_name ]} 1.
Lemma st0_keys : keys_ok st0.
Proof.
  split; cbn; intros id [x Hx]; [|by rewrite lookup_empty in Hx].
  apply lookup_singleton_Some in Hx as [<- _]. lia.
Qed.
Lemma aml_set_option_witness :
  (exists s, SetOption (Some 0) 2 [0] 1 st0 = Done EFI_SUCCESS s) /\
  wp (SetOption (Some 0) 2 [0] 1) (fun Status s' =>
    (forall x, AmlParseOptionHandleCommon the_name 2 mem = Done (Some x) mem <->
       exists c lim, body_at mem NameOp 50 (50 + 6) c lim /\ operand mem (formats NameOp) 2 c lim x) /\
    ((Status = EFI_INVALID_PARAMETER /\ s' = st0 /\ AmlParseOptionHandleCommon the_name 2 mem = Done None mem) \/
     exists x, AmlParseOptionHandleCommon the_name 2 mem = Done (Some x) mem /\
       50 < Data x /\ Data x + DataSize x <= 50 + 6 /\
       ((Status = EFI_BAD_BUFFER_SIZE /\ s' = st0 /\ DataSize x < 1) \/
        (Status = EFI_SUCCESS /\ 1 <= DataSize x /\
         s' = mkSdt (written mem (Data x) [0]) ∅ (<[0 := mkHandle EFI_AML_HANDLE_SIGNATURE 50 6 (Some NameOp) true]> {[ 0 := the_name ]}) 1)))) st0.
Proof.
  split; [eexists; vm_compute; reflexivity|].
  apply (aml_set_option 56 0 the_name NameOp 2 [0] 1 st0); [apply mem_padded|done|done|done|apply tabled|cbn; lia..].
Defined.

Definition changed : EFI_AML_HANDLE := mkHandle EFI_AML_HANDLE_SIGNATURE 50 6 (Some NameOp) true.
Definition st1 : sdt := mkSdt (written mem 55 [0]) ∅ {[ 0 := changed ]} 1.
Definition one_table (i : nat) : option (Z * Z) := match i with O => Some (0, 7) | _ => None end.
Lemma st1_keys : keys_ok st1.
Proof.
  split; cbn; intros id [x Hx]; [|by rewrite lookup_empty in Hx].
  apply lookup_singleton_Some in Hx as [<- _]. lia.
Qed.
Lemma aml_close_witness :
  wp (Close one_table 2 (Some 0)) (fun Status s' => Status = EFI_SUCCESS /\
    exists c, is_byte c /\ s' = mkSdt (written (Mem st1) 9 [c]) ∅ (delete 0 {[ 0 := changed ]}) 1 /\
      u8 (sum_bytes (bytes_of (Mem s') 0 56)) = 0) st1.
Proof.
  apply (aml_close one_table 2 0 changed 0 (0, 7) st1); [apply st1_keys|done|done|done| | |].
  - split; [lia|]. split; [done|]. split; [|lia]. split; [vm_compute; repeat split; discriminate|]. vm_compute. split; [discriminate|done].
  - vm_compute. repeat split; discriminate.
  - done.
Defined.

(** The object \PCI0 in Device (PCI0) itself. *)
Definition st2 : sdt := mkSdt mem ∅ {[ 0 := the_device ]} 1.
Lemma st2_keys : keys_ok st2.
Proof.
  split; cbn; intros id [x Hx]; [|by rewrite lookup_empty in Hx].
  apply lookup_singleton_Some in Hx as [<- _]. lia.
Qed.
Definition pool (f : Z) : bool := true.
Definition st3 : sdt :=
  match AmlFindPath pool one_table 2 (0, 0) the_device [0x50; 0x43; 0x49; 0x30; 0] true st2 with Done _ s => s | Trap _ => st2 end.
Lemma find_pci0 : AmlFindPath pool one_table 2 (0, 0) the_device [0x50; 0x43; 0x49; 0x30; 0] true st2 = Done (EFI_SUCCESS, Some 43) st3.
Proof. vm_compute. reflexivity. Qed.
#[local] Opaque st3.
(** A second object of a term list is found. *)
Example find_second :
  let m := [0x5B; 0x82; 0x11; 0x50; 0x43; 0x49; 0x30] ++ name_uid ++ [0x08; 0x5F; 0x41; 0x44; 0x52; 1] ++ [0; 0; 0; 0] in
  exists s, AmlFindPath pool one_table 2 (0, 0) (mkHandle EFI_AML_HANDLE_SIGNATURE 0 19 (Some DeviceOp) false)
    [0x2E; 0x50; 0x43; 0x49; 0x30; 0x5F; 0x41; 0x44; 0x52] true (mkSdt m ∅ ∅ 0) = Done (EFI_SUCCESS, Some 13) s.
Proof. eexists. vm_compute. reflexivity. Qed.

(** A buffer whose last byte is the extension prefix is read past its end. *)
Example reads_past_the_end : SdtOpenEx pool 0 1 (mkSdt [0x5B] ∅ ∅ 0) = Trap BadPointer.
Proof. vm_compute. reflexivity. Qed.
(** Add with two of its three operands cut off is an object. *)
Example cut_object : ObjectSize (mkEncoding 0x72 0 3 [AML_OBJECT; AML_OBJECT; AML_OBJECT; AML_NONE; AML_NONE; AML_NONE] 0) 0 2 [0x72; 1; 0; 0; 0; 0] = Done 2 [0x72; 1; 0; 0; 0; 0].
Proof. vm_compute. reflexivity. Qed.
(** Two objects of one name fail an assertion. *)
Example duplicate_name :
  let m := [0x5B; 0x82; 0x11; 0x50; 0x43; 0x49; 0x30] ++ name_uid ++ name_uid ++ [0; 0; 0; 0] in
  AmlFindPath pool one_table 2 (0, 0) (mkHandle EFI_AML_HANDLE_SIGNATURE 0 19 (Some DeviceOp) false) [0x50; 0x43; 0x49; 0x30; 0] true
    (mkSdt m ∅ ∅ 0) = Trap AssertFailed.
Proof. vm_compute. reflexivity. Qed.
End AmlTable.
