(* ===== verification/FwCfg.v ===== *)
(** * QemuFwCfgLib: QEMU's firmware configuration device

    Models QemuPkg/Library/QemuFwCfgLib: QemuFwCfgLib.c with the PEI variant
    QemuFwCfgPei.c.  The ports and the DMA engine of the device are a class;
    the CPU is little-endian, the device's DMA structure and its file
    directory are big-endian. *)
From S2P Require Import Prelude Bytes.

Definition QemuFwCfgItemSignature : Z := 0x0000.
Definition QemuFwCfgItemInterfaceVersion : Z := 0x0001.
Definition QemuFwCfgItemFileDir : Z := 0x0019.
Definition QEMU_FW_CFG_FNAME_SIZE : Z := 56.
Definition FW_CFG_F_DMA : Z := 2.
Definition FW_CFG_DMA_CTL_ERROR : Z := 1.
Definition FW_CFG_DMA_CTL_READ : Z := 2.
Definition FW_CFG_DMA_CTL_SKIP : Z := 4.
Definition FW_CFG_DMA_CTL_WRITE : Z := 16.
Definition FW_CFG_IO_SELECTOR : Z := 0x510.
Definition FW_CFG_IO_DATA : Z := 0x511.
Definition FW_CFG_IO_DMA_ADDRESS : Z := 0x514.
Definition MAX_UINT32 : Z := 0xFFFFFFFF.
(** SIGNATURE_32 ('Q', 'E', 'M', 'U') *)
Definition QEMU_SIGNATURE : Z := 0x554D4551.

(** All fields as stored, in big endian. *)
Record FW_CFG_DMA_ACCESS : Type := mkAccess { Control : Z; Length : Z; Address : Z }.

(** A buffer in memory: its address and what it holds. *)
Record buf : Type := mkBuf { Addr : Z; Data : list Z }.

(** BaseLib's byte order reversals. *)
Class SwapBytes := { SwapBytes16 : Z -> Z; SwapBytes32 : Z -> Z; SwapBytes64 : Z -> Z }.

(** IoLib on the ports of the device, and its DMA engine: what it has done
    with the access structure and the data buffer, both found in memory at
    addresses it was given, when the CPU looks again. *)
Class FwDevice (W : Type) := {
  IoWrite16 : W -> Z -> Z -> W;
  IoWrite32 : W -> Z -> Z -> W;
  IoReadFifo8 : W -> Z -> Z -> list Z * W;
  IoWriteFifo8 : W -> Z -> list Z -> W;
  dma_step : W -> Z -> FW_CFG_DMA_ACCESS -> buf -> FW_CFG_DMA_ACCESS * list Z * W;
}.

Section FwCfgLib.
Context {W : Type} {SB : SwapBytes} {FD : FwDevice W}.
Context (MemEncryptSevIsEnabled : bool) (AsciiStrCmp : list Z -> list Z -> Z).
(** The address of InternalQemuFwCfgDmaBytes' structure, an uninitialized
    local buffer of a size, and the polls after which the model gives up. *)
Context (AccessAddress : Z) (local : Z -> buf) (polls : nat).

Record st : Type := mkSt { Dev : W; mQemuFwCfgSupported : bool; mQemuFwCfgDmaSupported : bool }.

Definition io {A} (f : W -> A * W) : M st A :=
  fun s => let '(a, w) := f (Dev s) in Done a (mkSt w (mQemuFwCfgSupported s) (mQemuFwCfgDmaSupported s)).
Definition out (f : W -> W) : M st unit := io (fun w => (tt, f w)).

Definition InternalQemuFwCfgIsAvailable : M st bool := gets mQemuFwCfgSupported.
Definition InternalQemuFwCfgDmaIsAvailable : M st bool := gets mQemuFwCfgDmaSupported.
Definition QemuFwCfgIsAvailable : M st bool := InternalQemuFwCfgIsAvailable.

Definition QemuFwCfgSelectItem (QemuFwCfgItem : Z) : M st unit :=
  out (fun w => IoWrite16 w FW_CFG_IO_SELECTOR (u16 QemuFwCfgItem)).

(** The do-while loop; the contents of the buffer when it ends. *)
Fixpoint WaitDma (fuel : nat) (Access : FW_CFG_DMA_ACCESS) (Buffer : buf) : M st (list Z) :=
  match fuel with
  | O => trapped OutOfFuel
  | S fuel =>
      r ← io (fun w => dma_step w AccessAddress Access Buffer);
      let Status := SwapBytes32 (Control r.1) in
      ASSERT (Z.land Status FW_CFG_DMA_CTL_ERROR =? 0);;
      if negb (Status =? 0) then WaitDma fuel r.1 (mkBuf (Addr Buffer) r.2) else mret r.2
  end.

Definition InternalQemuFwCfgDmaBytes (Size : Z) (Buffer : buf) (Control : Z) : M st (list Z) :=
  ASSERT ((Control =? FW_CFG_DMA_CTL_WRITE) || (Control =? FW_CFG_DMA_CTL_READ) || (Control =? FW_CFG_DMA_CTL_SKIP));;
  if Size =? 0 then mret (Data Buffer)
  else
    ASSERT (negb MemEncryptSevIsEnabled);;
    let Access := mkAccess (SwapBytes32 Control) (SwapBytes32 Size) (SwapBytes64 (Addr Buffer)) in
    let AccessHigh := u32 (Z.shiftr AccessAddress 32) in
    let AccessLow := u32 AccessAddress in
    out (fun w => IoWrite32 w FW_CFG_IO_DMA_ADDRESS (SwapBytes32 AccessHigh));;
    out (fun w => IoWrite32 w (FW_CFG_IO_DMA_ADDRESS + 4) (SwapBytes32 AccessLow));;
    WaitDma polls Access Buffer.

(** The contents of a buffer after [bs] was stored at its start. *)
Definition overwrite (bs data : list Z) : list Z := bs ++ drop (length bs) data.

Definition InternalQemuFwCfgReadBytes (Size : Z) (Buffer : buf) : M st (list Z) :=
  dma ← InternalQemuFwCfgDmaIsAvailable;
  if dma && (Size <=? MAX_UINT32) then InternalQemuFwCfgDmaBytes (u32 Size) Buffer FW_CFG_DMA_CTL_READ
  else bs ← io (fun w => IoReadFifo8 w FW_CFG_IO_DATA Size); mret (overwrite bs (Data Buffer)).

Definition QemuFwCfgReadBytes (Size : Z) (Buffer : buf) : M st (list Z) :=
  available ← InternalQemuFwCfgIsAvailable;
  if available : bool then InternalQemuFwCfgReadBytes Size Buffer
  else mret (overwrite (replicate (Z.to_nat Size) 0) (Data Buffer)).

Definition QemuFwCfgWriteBytes (Size : Z) (Buffer : buf) : M st unit :=
  available ← InternalQemuFwCfgIsAvailable;
  if available : bool then
    dma ← InternalQemuFwCfgDmaIsAvailable;
    if dma && (Size <=? MAX_UINT32) then InternalQemuFwCfgDmaBytes (u32 Size) Buffer FW_CFG_DMA_CTL_WRITE;; mret tt
    else out (fun w => IoWriteFifo8 w FW_CFG_IO_DATA (take (Z.to_nat Size) (Data Buffer)))
  else mret tt.

(** The loop that reads chunks and throws them away; it takes at most one
    step a byte. *)
Fixpoint SkipChunks (fuel : nat) (Size : Z) : M st unit :=
  if 0 <? Size then
    match fuel with
    | O => trapped OutOfFuel
    | S fuel =>
        let ChunkSize := Z.min Size 256 in
        _ ← io (fun w => IoReadFifo8 w FW_CFG_IO_DATA ChunkSize);
        SkipChunks fuel (Size - ChunkSize)
    end
  else mret tt.

Definition QemuFwCfgSkipBytes (Size : Z) : M st unit :=
  available ← InternalQemuFwCfgIsAvailable;
  if negb available then mret tt
  else
    dma ← InternalQemuFwCfgDmaIsAvailable;
    if dma && (Size <=? MAX_UINT32) then
      InternalQemuFwCfgDmaBytes (u32 Size) (mkBuf 0 []) FW_CFG_DMA_CTL_SKIP;; mret tt
    else SkipChunks (Z.to_nat Size) Size.

(** Reading a local variable of [n] bytes. *)
Definition ReadInteger (n : Z) : M st Z :=
  Result ← QemuFwCfgReadBytes n (local n); mret (le_combine Result).
Definition QemuFwCfgRead8 : M st Z := ReadInteger 1.
Definition QemuFwCfgRead16 : M st Z := ReadInteger 2.
Definition QemuFwCfgRead32 : M st Z := ReadInteger 4.
Definition QemuFwCfgRead64 : M st Z := ReadInteger 8.

(** The loop over [n] more directory entries: Status, and Item and Size. *)
Fixpoint FindFileLoop (Name : list Z) (n : nat) : M st (EFI_STATUS * option (Z * Z)) :=
  match n with
  | O => mret (EFI_NOT_FOUND, None)
  | S n =>
      FileSize ← QemuFwCfgRead32;
      FileSelect ← QemuFwCfgRead16;
      _ ← QemuFwCfgRead16;
      FName ← InternalQemuFwCfgReadBytes QEMU_FW_CFG_FNAME_SIZE (local QEMU_FW_CFG_FNAME_SIZE);
      if AsciiStrCmp Name FName =? 0
      then mret (EFI_SUCCESS, Some (SwapBytes16 FileSelect, SwapBytes32 FileSize))
      else FindFileLoop Name n
  end.
Definition QemuFwCfgFindFile (Name : list Z) : M st (EFI_STATUS * option (Z * Z)) :=
  available ← InternalQemuFwCfgIsAvailable;
  if negb available then mret (EFI_UNSUPPORTED, None)
  else
    QemuFwCfgSelectItem QemuFwCfgItemFileDir;;
    Count ← QemuFwCfgRead32;
    FindFileLoop Name (Z.to_nat (SwapBytes32 Count)).

Definition QemuFwCfgInitialize : M st EFI_STATUS :=
  modify (fun s => mkSt (Dev s) true false);;
  QemuFwCfgSelectItem QemuFwCfgItemSignature;;
  Signature ← QemuFwCfgRead32;
  QemuFwCfgSelectItem QemuFwCfgItemInterfaceVersion;;
  Revision ← QemuFwCfgRead32;
  if negb (Signature =? QEMU_SIGNATURE) || (Revision <? 1) then
    modify (fun s => mkSt (Dev s) false (mQemuFwCfgDmaSupported s));; mret EFI_SUCCESS
  else if Z.land Revision FW_CFG_F_DMA =? 0 then mret EFI_SUCCESS
  else if MemEncryptSevIsEnabled then mret EFI_SUCCESS
  else modify (fun s => mkSt (Dev s) (mQemuFwCfgSupported s) true);; mret EFI_SUCCESS.
End FwCfgLib.
Arguments st W : clear implicits.
