(* ===== verification/FwCfgProofs.v ===== *)
(** * QemuFwCfgLib: the library refines an item with an offset

    [view] is what the device shows: the selected item, the offset in it and
    the bytes of all items.  The library's operations are [v_select],
    [v_bytes], [v_skip] and [v_write] on it; only DMA writes, since the device
    ignores what is written to its data port, and only DMA reports errors, at
    which the library's assertion stops. *)
From S2P Require Import Prelude Bytes FwCfg.

Record view : Type := mkView { item : Z; offset : Z; content : Z -> Z -> Z }.

Definition v_select (k : Z) (v : view) : view := mkView k 0 (content v).
Definition v_skip (n : Z) (v : view) : view := mkView (item v) (offset v + n) (content v).
Definition v_bytes (n : Z) (v : view) : list Z := (fun i => content v (item v) (offset v + i)) <$> seqZ 0 n.
Definition v_write (bs : list Z) (v : view) : view :=
  if bool_decide (bs = []) then v else
  mkView (item v) (offset v + Z.of_nat (length bs))
    (fun k i => if (k =? item v) && (offset v <=? i) && (i <? offset v + Z.of_nat (length bs))
                then nth (Z.to_nat (i - offset v)) bs 0 else content v k i).

Class SwapLaws {SB : SwapBytes} : Prop := {
  SwapBytes16_spec x : SwapBytes16 x = le_combine (rev (le_split 2 x));
  SwapBytes32_spec x : SwapBytes32 x = le_combine (rev (le_split 4 x));
  SwapBytes64_spec x : SwapBytes64 x = le_combine (rev (le_split 8 x));
}.

(** The device, as docs/specs/fw_cfg of QEMU has it.  Writes to the data
    register are no-ops since QEMU 2.4.  A DMA transfer ends within [dma_left]
    more steps, and the structure is left alone before; at the end it is done,
    with a zero control word, or it failed, with the error bit set and
    whatever effect it had by then. *)
Class FwLaws (W : Type) {SB : SwapBytes} {FD : FwDevice W} (polls : nat) : Type := {
  view_of : W -> view;
  dma_high : W -> Z;
  dma_pending : W -> option Z;
  dma_left : W -> nat;
  dma_left_bound w : (dma_left w < polls)%nat;
  select_spec w k : view_of (IoWrite16 w FW_CFG_IO_SELECTOR k) = v_select k (view_of w);
  fifo_read_spec w n bs w' :
    0 <= n -> IoReadFifo8 w FW_CFG_IO_DATA n = (bs, w') ->
    bs = v_bytes n (view_of w) /\ view_of w' = v_skip n (view_of w);
  fifo_write_spec w bs : view_of (IoWriteFifo8 w FW_CFG_IO_DATA bs) = view_of w;
  dma_high_spec w x : let w' := IoWrite32 w FW_CFG_IO_DMA_ADDRESS x in
    view_of w' = view_of w /\ dma_high w' = SwapBytes32 x;
  dma_low_spec w x : let w' := IoWrite32 w (FW_CFG_IO_DMA_ADDRESS + 4) x in
    view_of w' = view_of w /\ dma_pending w' = Some (dma_high w * 2 ^ 32 + SwapBytes32 x);
  dma_step_spec w a acc B acc' data w' :
    dma_pending w = Some a -> dma_step w a acc B = (acc', data, w') ->
    SwapBytes64 (Address acc) = Addr B ->
    let n := SwapBytes32 (Length acc) in
    let ctl := SwapBytes32 (Control acc) in
    (acc' = acc /\ dma_pending w' = Some a /\ (dma_left w' < dma_left w)%nat /\ view_of w' = view_of w /\
     length data = length (Data B) /\ (ctl <> FW_CFG_DMA_CTL_READ -> data = Data B) /\
     drop (Z.to_nat n) data = drop (Z.to_nat n) (Data B)) \/
    Z.land (SwapBytes32 (Control acc')) FW_CFG_DMA_CTL_ERROR <> 0 \/
    (SwapBytes32 (Control acc') = 0 /\
     (ctl = FW_CFG_DMA_CTL_READ -> (Z.to_nat n <= length (Data B))%nat ->
      data = overwrite (v_bytes n (view_of w)) (Data B) /\ view_of w' = v_skip n (view_of w)) /\
     (ctl = FW_CFG_DMA_CTL_SKIP -> data = Data B /\ view_of w' = v_skip n (view_of w)) /\
     (ctl = FW_CFG_DMA_CTL_WRITE -> (Z.to_nat n <= length (Data B))%nat ->
      data = Data B /\ view_of w' = v_write (take (Z.to_nat n) (Data B)) (view_of w)));
}.

Lemma length_v_bytes n v : length (v_bytes n v) = Z.to_nat n.
Proof. unfold v_bytes. by rewrite length_fmap, length_seqZ. Qed.
Lemma v_bytes_nonpos n v : n <= 0 -> v_bytes n v = [].
Proof. intros. unfold v_bytes. by rewrite seqZ_nil by lia. Qed.
Lemma v_skip_0 v : v_skip 0 v = v.
Proof. destruct v. unfold v_skip. cbn. by rewrite Z.add_0_r. Qed.
Lemma v_skip_skip n m v : v_skip m (v_skip n v) = v_skip (n + m) v.
Proof. unfold v_skip. cbn. by rewrite Z.add_assoc. Qed.
Lemma v_bytes_app n m v : 0 <= n -> 0 <= m -> v_bytes (n + m) v = v_bytes n v ++ v_bytes m (v_skip n v).
Proof.
  intros Hn Hm. unfold v_bytes. rewrite seqZ_app, fmap_app by done. f_equal. cbn [v_skip item offset content].
  replace (0 + n) with (n + 0) by lia. rewrite <-(fmap_add_seqZ n 0 m), <-list_fmap_compose. apply list_fmap_ext. intros i x _. cbn. by rewrite Z.add_assoc.
Qed.

Section swap.
Context {SB : SwapBytes} {SL : SwapLaws}.

Lemma swap_involutive (n : nat) (swap : Z -> Z) x :
  (forall x, swap x = le_combine (rev (le_split n x))) -> 0 <= x < 256 ^ Z.of_nat n -> swap (swap x) = x.
Proof.
  intros Hs Hx. rewrite (Hs (swap x)), Hs. set (l := rev (le_split n x)).
  assert (length l = n) as Hl by (unfold l; by rewrite length_rev, length_le_split).
  rewrite <-Hl at 1. rewrite le_split_combine.
  - unfold l. rewrite rev_involutive, le_combine_split. by apply Z.mod_small.
  - unfold l. apply Forall_rev. apply le_split_bytes.
Qed.
Lemma Swap32_Swap32 x : is_u32 x -> SwapBytes32 (SwapBytes32 x) = x.
Proof. apply (swap_involutive 4), SwapBytes32_spec. Qed.
Lemma Swap64_Swap64 x : is_u64 x -> SwapBytes64 (SwapBytes64 x) = x.
Proof. apply (swap_involutive 8), SwapBytes64_spec. Qed.
End swap.

Section refine.
Context {W : Type} {SB : SwapBytes} {SL : SwapLaws} {FD : FwDevice W} {polls : nat} {FL : FwLaws W polls}.
Context (Sev : bool) (AsciiStrCmp : list Z -> list Z -> Z) (AccessAddress : Z) (local : Z -> buf).
Context (HAccess : is_u64 AccessAddress).

(** A buffer of at least [n] bytes. *)
Definition wf_buf (n : Z) (B : buf) : Prop := is_u64 (Addr B) /\ (Z.to_nat n <= length (Data B))%nat.
Context (Hlocal : forall n, 0 <= n -> wf_buf n (local n) /\ length (Data (local n)) = Z.to_nat n).

(** The library was initialized; DMA is not used under SEV. *)
Definition ready (s : st W) : Prop :=
  mQemuFwCfgSupported s = true /\ (mQemuFwCfgDmaSupported s = true -> Sev = false).
Definition vw (s : st W) : view := view_of (Dev s).
(** Only the device changed. *)
Definition same_lib (s s' : st W) : Prop :=
  mQemuFwCfgSupported s' = mQemuFwCfgSupported s /\ mQemuFwCfgDmaSupported s' = mQemuFwCfgDmaSupported s.

Lemma same_lib_ready s s' : same_lib s s' -> ready s -> ready s'.
Proof. unfold same_lib, ready. intros [-> ->]. done. Qed.
Lemma same_lib_trans s1 s2 s3 : same_lib s1 s2 -> same_lib s2 s3 -> same_lib s1 s3.
Proof. unfold same_lib. intros [-> ->] [-> ->]. done. Qed.

Definition on_dev (s : st W) (w : W) : st W := mkSt w (mQemuFwCfgSupported s) (mQemuFwCfgDmaSupported s).
Lemma on_dev_same s w : same_lib s (on_dev s w).
Proof. done. Qed.

Lemma wp_io {A} (f : W -> A * W) (Q : A -> st W -> Prop) s :
  (forall a w, f (Dev s) = (a, w) -> Q a (on_dev s w)) -> wp (io f) Q s.
Proof. intros H. unfold wp, io. destruct (f (Dev s)) as [a w] eqn:E. by apply H. Qed.
Lemma wp_out (f : W -> W) (Q : unit -> st W -> Prop) s : Q tt (on_dev s (f (Dev s))) -> wp (out f) Q s.
Proof. intros H. unfold out. apply wp_io. intros a w [= <- <-]. done. Qed.

Lemma wp_gets_eq {A} (f : st W -> A) a (Q : A -> st W -> Prop) s : f s = a -> Q a s -> wp (gets f) Q s.
Proof. intros <-. done. Qed.

Lemma select_refines k s (Q : unit -> st W -> Prop) :
  is_u16 k ->
  (forall s', same_lib s s' -> vw s' = v_select k (vw s) -> Q tt s') -> wp (QemuFwCfgSelectItem k) Q s.
Proof.
  intros Hk H. unfold QemuFwCfgSelectItem. apply wp_out. apply H; [done|]. unfold vw. cbn.
  rewrite select_spec. unfold u16. by rewrite Z.mod_small.
Qed.

(** [m] stops at an assertion if [error], and ends in [Q] if not. *)
Definition ends (error : bool) {A} (m : M (st W) A) (Q : A -> st W -> Prop) (s : st W) : Prop :=
  if error then m s = Trap AssertFailed else wp m Q s.
Lemma ends_bind error {A B} (m : M (st W) A) (f : A -> M (st W) B) P Q s :
  ends error m P s -> (forall a s', P a s' -> wp (f a) Q s') -> ends error (m ≫= f) Q s.
Proof.
  unfold ends. destruct error; intros H Hf.
  - unfold mbind, M_bind. by rewrite H.
  - rewrite wp_bind. by eapply wp_mono.
Qed.
Lemma ends_mono error {A} (m : M (st W) A) (P Q : A -> st W -> Prop) s :
  ends error m P s -> (forall a s', P a s' -> Q a s') -> ends error m Q s.
Proof. unfold ends. destruct error; [done|]. intros. by eapply wp_mono. Qed.
Lemma ends_gets error {A B} (f : st W -> A) (k : A -> M (st W) B) Q s :
  ends error (k (f s)) Q s -> ends error (gets f ≫= k) Q s.
Proof. done. Qed.
Lemma ends_out error {B} (f : W -> W) (k : unit -> M (st W) B) Q s :
  ends error (k tt) Q (on_dev s (f (Dev s))) -> ends error (out f ≫= k) Q s.
Proof. done. Qed.
Lemma ends_io error {A B} (f : W -> A * W) (k : A -> M (st W) B) Q s a w :
  f (Dev s) = (a, w) -> ends error (k a) Q (on_dev s w) -> ends error (io f ≫= k) Q s.
Proof. intros E. unfold ends, wp, io, mbind, M_bind. by rewrite E. Qed.
Lemma ends_ext error {A} (m m' : M (st W) A) Q s : m s = m' s -> ends error m' Q s -> ends error m Q s.
Proof. unfold ends, wp. by intros ->. Qed.
Lemma ends_ASSERT error {B} b (k : unit -> M (st W) B) Q s :
  b = true -> ends error (k tt) Q s -> ends error (ASSERT b ≫= k) Q s.
Proof. by intros ->. Qed.

(** Whether the device ends a transfer with the error bit, polled as it is. *)
Fixpoint dma_error (fuel : nat) (w : W) (acc : FW_CFG_DMA_ACCESS) (B : buf) : bool :=
  match fuel with
  | O => false
  | S fuel =>
      let '(acc', data, w') := dma_step w AccessAddress acc B in
      let Status := SwapBytes32 (Control acc') in
      negb (Z.land Status FW_CFG_DMA_CTL_ERROR =? 0) ||
      (negb (Status =? 0) && dma_error fuel w' acc' (mkBuf (Addr B) data))
  end.

(** What a DMA transfer does, by its control word. *)
Definition dma_done (ctl n : Z) (B : list Z) (v : view) (data : list Z) (v' : view) : Prop :=
  (ctl = FW_CFG_DMA_CTL_READ -> data = overwrite (v_bytes n v) B /\ v' = v_skip n v) /\
  (ctl = FW_CFG_DMA_CTL_SKIP -> v' = v_skip n v) /\
  (ctl = FW_CFG_DMA_CTL_WRITE -> v' = v_write (take (Z.to_nat n) B) v).

Lemma overwrite_drop bs (d1 d2 : list Z) : drop (length bs) d1 = drop (length bs) d2 -> overwrite bs d1 = overwrite bs d2.
Proof. unfold overwrite. by intros ->. Qed.

Lemma WaitDma_spec ctl n a : forall fuel d s,
  let acc := mkAccess (SwapBytes32 ctl) (SwapBytes32 n) (SwapBytes64 a) in
  is_u32 ctl -> is_u32 n -> is_u64 a -> Z.land ctl FW_CFG_DMA_CTL_ERROR = 0 -> ctl <> 0 ->
  dma_pending (Dev s) = Some AccessAddress -> (dma_left (Dev s) < fuel)%nat ->
  (ctl = FW_CFG_DMA_CTL_SKIP \/ (Z.to_nat n <= length d)%nat) ->
  ends (dma_error fuel (Dev s) acc (mkBuf a d)) (WaitDma AccessAddress fuel acc (mkBuf a d))
     (fun data s' => same_lib s s' /\ dma_done ctl n d (vw s) data (vw s')) s.
Proof.
  cbv zeta. induction fuel as [|fuel IH]; intros d s Hc Hn Ha Herr Hc0 Hp Hl Hlen; [lia|]. cbn [WaitDma dma_error].
  destruct (dma_step (Dev s) AccessAddress _ _) as [[acc' data] w] eqn:E. eapply ends_io; [exact E|]. cbv zeta. cbn [fst snd].
  pose proof (dma_step_spec _ _ _ _ _ _ _ Hp E) as H. cbn [Address Control Length Addr Data] in H |- *.
  rewrite !Swap32_Swap32, Swap64_Swap64 in H by done. specialize (H eq_refl).
  destruct H as [(-> & Hp' & Hl' & Hv & Hlen' & Hd & Hdrop)|[He|(H0 & Hr & Hs & Hw)]].
  - cbn [Control]. rewrite Swap32_Swap32, Herr, (proj2 (Z.eqb_neq ctl 0)) by done. cbn [Z.eqb negb orb andb].
    eapply ends_mono.
    { eapply (ends_ASSERT _ true); [done|].
      apply (IH data (on_dev s w)); try done; [cbn; lia|]. rewrite Hlen'. exact Hlen. }
    unfold vw. cbn [Dev on_dev]. rewrite Hv. intros data' s' [Hs' (H1 & H2 & H3)]. split; [done|]. split_and!.
    + intros ->. destruct (H1 eq_refl) as [-> ->]. split; [|done]. apply overwrite_drop. by rewrite length_v_bytes.
    + exact H2.
    + intros ->. rewrite <-(Hd ltac:(done)). by apply H3.
  - by rewrite (proj2 (Z.eqb_neq _ 0) He).
  - rewrite H0. cbn [Z.land Z.eqb negb orb andb]. apply (ends_ASSERT false true); [done|]. unfold ends. rewrite wp_ret.
    split; [done|]. unfold vw. cbn [Dev on_dev]. split_and!.
    + intros ->. destruct Hlen as [?|Hlen]; [done|]. by apply Hr.
    + intros ->. by apply Hs.
    + intros ->. destruct Hlen as [?|Hlen]; [done|]. by apply Hw.
Qed.

(** The device once it has been given the address of the structure. *)
Definition dma_start (w : W) : W :=
  IoWrite32 (IoWrite32 w FW_CFG_IO_DMA_ADDRESS (SwapBytes32 (u32 (Z.shiftr AccessAddress 32))))
    (FW_CFG_IO_DMA_ADDRESS + 4) (SwapBytes32 (u32 AccessAddress)).
(** Whether the device reports an error for a transfer of [n] bytes. *)
Definition dma_fails (s : st W) (n : Z) (B : buf) (ctl : Z) : bool :=
  negb (n =? 0) &&
  dma_error polls (dma_start (Dev s)) (mkAccess (SwapBytes32 ctl) (SwapBytes32 n) (SwapBytes64 (Addr B))) B.

Lemma dma_start_spec w : view_of (dma_start w) = view_of w /\ dma_pending (dma_start w) = Some AccessAddress.
Proof.
  unfold dma_start. destruct (dma_high_spec w (SwapBytes32 (u32 (Z.shiftr AccessAddress 32)))) as [Hv1 Hh1].
  set (w1 := IoWrite32 w _ _) in *. destruct (dma_low_spec w1 (SwapBytes32 (u32 AccessAddress))) as [Hv2 Hp2].
  split; [congruence|]. rewrite Hp2, Hh1, !Swap32_Swap32 by (unfold is_u32, u32 in *; apply Z.mod_pos_bound; lia).
  f_equal. unfold u32. unfold is_u64 in HAccess. rewrite Z.shiftr_div_pow2 by lia.
  rewrite (Z.mod_small (AccessAddress / 2 ^ 32)) by (split; [apply Z.div_pos|apply Z.div_lt_upper_bound]; lia).
  pose proof (Z.div_mod AccessAddress (2 ^ 32)). lia.
Qed.

Lemma DmaBytes_spec n B ctl s :
  ready s -> mQemuFwCfgDmaSupported s = true -> is_u32 n -> is_u64 (Addr B) ->
  ctl = FW_CFG_DMA_CTL_READ \/ ctl = FW_CFG_DMA_CTL_SKIP \/ ctl = FW_CFG_DMA_CTL_WRITE ->
  ctl = FW_CFG_DMA_CTL_SKIP \/ (Z.to_nat n <= length (Data B))%nat ->
  ends (dma_fails s n B ctl) (InternalQemuFwCfgDmaBytes Sev AccessAddress polls n B ctl)
     (fun data s' => same_lib s s' /\ dma_done ctl n (Data B) (vw s) data (vw s')) s.
Proof.
  intros [_ Hsev] Hdma Hn Ha Hc Hlen. specialize (Hsev Hdma). unfold InternalQemuFwCfgDmaBytes, dma_fails.
  apply ends_ASSERT; [by destruct Hc as [->|[->| ->]]|]. destruct (Z.eqb_spec n 0) as [->|Hn0]; cbn [negb andb].
  { unfold ends. rewrite wp_ret. split; [done|]. unfold dma_done. rewrite v_skip_0, (v_bytes_nonpos 0) by lia. split_and!; [done..|].
    intros _. cbn [Z.to_nat]. by rewrite take_0. }
  apply ends_ASSERT; [by rewrite Hsev|]. cbv zeta. apply ends_out, ends_out. cbn [Dev on_dev].
  destruct (dma_start_spec (Dev s)) as [Hv Hp]. unfold dma_start in *. set (w2 := IoWrite32 (IoWrite32 _ _ _) _ _) in *.
  assert (is_u32 ctl /\ Z.land ctl FW_CFG_DMA_CTL_ERROR = 0 /\ ctl <> 0) as (Hcu & Herr & Hc0)
    by (destruct Hc as [->|[->| ->]]; by split_and!).
  destruct B as [a d]. eapply ends_mono.
  - apply (WaitDma_spec ctl n a polls d (on_dev s w2)); try done. apply dma_left_bound.
  - unfold vw at 1. cbn [Dev on_dev]. rewrite Hv. intros data s' [H1 H2]. by split.
Qed.

(** Whether a transfer of [n] bytes goes over DMA, and fails there. *)
Definition over_dma (s : st W) (n : Z) : bool := mQemuFwCfgDmaSupported s && (n <=? MAX_UINT32).
Definition fails (s : st W) (n : Z) (B : buf) (ctl : Z) : bool := over_dma s n && dma_fails s n B ctl.

(** The choice of the transport. *)
Lemma transport_ends {A} n B ctl s (P : list Z -> M (st W) A) (F : M (st W) A) (Q : A -> st W -> Prop) :
  ready s -> 0 <= n -> is_u64 (Addr B) ->
  ctl = FW_CFG_DMA_CTL_READ \/ ctl = FW_CFG_DMA_CTL_SKIP \/ ctl = FW_CFG_DMA_CTL_WRITE ->
  ctl = FW_CFG_DMA_CTL_SKIP \/ (Z.to_nat n <= length (Data B))%nat ->
  (over_dma s n = true -> forall data s', same_lib s s' -> dma_done ctl n (Data B) (vw s) data (vw s') -> wp (P data) Q s') ->
  (over_dma s n = false -> wp F Q s) ->
  ends (fails s n B ctl)
    (dma ← InternalQemuFwCfgDmaIsAvailable;
     if dma && (n <=? MAX_UINT32) then data ← InternalQemuFwCfgDmaBytes Sev AccessAddress polls (u32 n) B ctl; P data else F) Q s.
Proof.
  intros Hr Hn Ha Hc Hlen HP HF. apply ends_gets. fold (over_dma s n). unfold fails. destruct (over_dma s n) eqn:Ho; [|by apply HF].
  cbn [andb]. unfold over_dma, MAX_UINT32 in Ho. apply andb_prop in Ho as [Hdma Hn32]. apply Z.leb_le in Hn32.
  assert (u32 n = n) as -> by (apply Z.mod_small; lia).
  eapply ends_bind; [apply DmaBytes_spec; try done; unfold is_u32; lia|]. intros data s' [Hs Hd]. by apply HP.
Qed.

Lemma InternalReadBytes_ends n B s :
  ready s -> 0 <= n -> wf_buf n B ->
  ends (fails s n B FW_CFG_DMA_CTL_READ) (InternalQemuFwCfgReadBytes Sev AccessAddress polls n B)
     (fun data s' => same_lib s s' /\ data = overwrite (v_bytes n (vw s)) (Data B) /\ vw s' = v_skip n (vw s)) s.
Proof.
  intros Hr Hn [Ha Hlen].
  eapply ends_ext; [|apply (transport_ends n B _ s mret (bs ← io (fun w => IoReadFifo8 w FW_CFG_IO_DATA n); mret (overwrite bs (Data B)))); auto].
  - unfold InternalQemuFwCfgReadBytes, mbind, M_bind, mret, M_ret. destruct (InternalQemuFwCfgDmaIsAvailable s); [|done].
    destruct (_ && _); [|done]. by destruct (InternalQemuFwCfgDmaBytes _ _ _ _ _ _ _).
  - intros _ data s' Hs (H1 & _). destruct (H1 eq_refl). done.
  - intros _. wp_step. apply wp_io. intros bs w Hio. apply fifo_read_spec in Hio as [-> Hv]; [|done]. done.
Qed.

Lemma ReadBytes_ends n B s :
  ready s -> 0 <= n -> wf_buf n B ->
  ends (fails s n B FW_CFG_DMA_CTL_READ) (QemuFwCfgReadBytes Sev AccessAddress polls n B)
     (fun data s' => same_lib s s' /\ data = overwrite (v_bytes n (vw s)) (Data B) /\ vw s' = v_skip n (vw s)) s.
Proof.
  intros Hr Hn HB. unfold QemuFwCfgReadBytes. apply ends_gets. rewrite (proj1 Hr). by apply InternalReadBytes_ends.
Qed.

Lemma WriteBytes_ends n B s :
  ready s -> 0 <= n -> wf_buf n B ->
  ends (fails s n B FW_CFG_DMA_CTL_WRITE) (QemuFwCfgWriteBytes Sev AccessAddress polls n B)
     (fun _ s' => same_lib s s' /\
        vw s' = if over_dma s n then v_write (take (Z.to_nat n) (Data B)) (vw s) else vw s) s.
Proof.
  intros Hr Hn [Ha Hlen]. unfold QemuFwCfgWriteBytes. apply ends_gets. rewrite (proj1 Hr).
  apply transport_ends; auto.
  - intros -> data s' Hs (_ & _ & H1). rewrite wp_ret. by split; [|apply H1].
  - intros ->. apply wp_out. split; [done|]. unfold vw. cbn [Dev on_dev]. apply fifo_write_spec.
Qed.

Lemma SkipChunks_spec fuel : forall n s,
  n <= Z.of_nat fuel -> wp (SkipChunks fuel n) (fun _ s' => same_lib s s' /\ vw s' = v_skip (Z.max 0 n) (vw s)) s.
Proof.
  induction fuel as [|fuel IH]; intros n s Hn; cbn [SkipChunks]; destruct (Z.ltb_spec 0 n); try lia.
  1, 3: rewrite wp_ret; replace (Z.max 0 n) with 0 by lia; by rewrite v_skip_0.
  cbv zeta. wp_step. apply wp_io. intros bs w Hio. apply fifo_read_spec in Hio as [-> Hv]; [|lia].
  eapply wp_mono; [apply IH; lia|]. intros _ s' [Hs ->]. split; [done|]. unfold vw. cbn [Dev on_dev]. rewrite Hv, v_skip_skip.
  f_equal. lia.
Qed.

Lemma SkipBytes_ends n s :
  ready s -> 0 <= n ->
  ends (fails s n (mkBuf 0 []) FW_CFG_DMA_CTL_SKIP) (QemuFwCfgSkipBytes Sev AccessAddress polls n)
     (fun _ s' => same_lib s s' /\ vw s' = v_skip n (vw s)) s.
Proof.
  intros Hr Hn. unfold QemuFwCfgSkipBytes. apply ends_gets. rewrite (proj1 Hr). cbn [negb].
  apply transport_ends; auto; [unfold is_u64; cbn; lia| |].
  - intros _ data s' Hs (_ & H1 & _). rewrite wp_ret. by split; [|apply H1].
  - intros _. eapply wp_mono; [apply SkipChunks_spec; lia|]. by replace (Z.max 0 n) with n by lia.
Qed.

(** ** Clients that only read, from a device that can store into their buffers *)
Definition reads_succeed : Prop :=
  forall s n B, ready s -> wf_buf n B -> fails s n B FW_CFG_DMA_CTL_READ = false.
Context (Hreads : reads_succeed).

Lemma InternalReadBytes_refines n B s :
  ready s -> 0 <= n -> wf_buf n B ->
  wp (InternalQemuFwCfgReadBytes Sev AccessAddress polls n B)
     (fun data s' => same_lib s s' /\ data = overwrite (v_bytes n (vw s)) (Data B) /\ vw s' = v_skip n (vw s)) s.
Proof. intros Hr Hn HB. pose proof (InternalReadBytes_ends n B s Hr Hn HB) as H. by rewrite Hreads in H. Qed.

Lemma ReadBytes_refines n B s :
  ready s -> 0 <= n -> wf_buf n B ->
  wp (QemuFwCfgReadBytes Sev AccessAddress polls n B)
     (fun data s' => same_lib s s' /\ data = overwrite (v_bytes n (vw s)) (Data B) /\ vw s' = v_skip n (vw s)) s.
Proof. intros Hr Hn HB. pose proof (ReadBytes_ends n B s Hr Hn HB) as H. by rewrite Hreads in H. Qed.

Lemma overwrite_all bs (d : list Z) : length d = length bs -> overwrite bs d = bs.
Proof. intros H. unfold overwrite. by rewrite <-H, drop_all, app_nil_r. Qed.

Lemma ReadInteger_refines n s (Q : Z -> st W -> Prop) :
  ready s -> 0 <= n ->
  (forall s', same_lib s s' -> vw s' = v_skip n (vw s) -> Q (le_combine (v_bytes n (vw s))) s') ->
  wp (ReadInteger Sev AccessAddress local polls n) Q s.
Proof.
  intros Hr Hn HQ. destruct (Hlocal n Hn) as [HB HBl]. unfold ReadInteger. wp_step. eapply wp_mono; [by apply ReadBytes_refines|].
  intros data s' (Hs & -> & Hv). rewrite wp_ret, overwrite_all by (by rewrite length_v_bytes). by apply HQ.
Qed.
End refine.
