(* ===== verification/FwCfgClaims.v ===== *)
(** * QemuFwCfgLib: the directory, and the claims *)
From S2P Require Import Prelude Bytes FwCfg FwCfgProofs.

(** One directory entry of fw_cfg. *)
Record entry : Type := mkEntry { e_size : Z; e_select : Z; e_reserved : Z; e_name : list Z }.
Definition wf_entry (e : entry) : Prop :=
  is_u32 (e_size e) /\ is_u16 (e_select e) /\ length (e_name e) = Z.to_nat QEMU_FW_CFG_FNAME_SIZE /\ 0 ∈ e_name e.
Definition entry_bytes (e : entry) : list Z :=
  rev (le_split 4 (e_size e)) ++ rev (le_split 2 (e_select e)) ++ rev (le_split 2 (e_reserved e)) ++ e_name e.
Definition dir_bytes (l : list entry) : list Z :=
  rev (le_split 4 (Z.of_nat (length l))) ++ concat (entry_bytes <$> l).

(** The first entry of a name. *)
Fixpoint find_entry (Name : list Z) (l : list entry) : EFI_STATUS * option (Z * Z) :=
  match l with
  | [] => (EFI_NOT_FOUND, None)
  | e :: l => if bool_decide (cstr Name = cstr (e_name e)) then (EFI_SUCCESS, Some (e_select e, e_size e))
              else find_entry Name l
  end.

(** [l] is what comes next. *)
Definition ahead (l : list Z) (v : view) : Prop := v_bytes (Z.of_nat (length l)) v = l.

Lemma ahead_app a b v : ahead (a ++ b) v -> v_bytes (Z.of_nat (length a)) v = a /\ ahead b (v_skip (Z.of_nat (length a)) v).
Proof.
  unfold ahead. rewrite length_app, Nat2Z.inj_add, v_bytes_app by lia. intros H.
  apply app_inj_1 in H as [H1 H2]; [done|]. rewrite length_v_bytes. lia.
Qed.

(** What an item holds from its start. *)
Definition holds (k : Z) (l : list Z) (v : view) : Prop := ahead l (v_select k v).

Class StrLaws (AsciiStrCmp : list Z -> list Z -> Z) : Prop :=
  AsciiStrCmp_0 a b : 0 ∈ a -> 0 ∈ b -> AsciiStrCmp a b = 0 <-> cstr a = cstr b.

Section claims.
Context {W : Type} {SB : SwapBytes} {SL : SwapLaws} {FD : FwDevice W} {polls : nat} {FL : FwLaws W polls}.
Context (Sev : bool) (AsciiStrCmp : list Z -> list Z -> Z) {SC : StrLaws AsciiStrCmp}.
Context (AccessAddress : Z) (local : Z -> buf) (HAccess : is_u64 AccessAddress).
Context (Hlocal : forall n, 0 <= n -> wf_buf n (local n) /\ length (Data (local n)) = Z.to_nat n).

Context (Hreads : reads_succeed (polls := polls) Sev AccessAddress).

Lemma swap_be (n : nat) (swap : Z -> Z) x :
  (forall x, swap x = le_combine (rev (le_split n x))) -> 0 <= x < 256 ^ Z.of_nat n ->
  swap (le_combine (rev (le_split n x))) = x.
Proof. intros Hs Hx. rewrite <-Hs. by apply (swap_involutive n). Qed.

(** Reading an integer stored ahead. *)
Lemma read_ahead (n : nat) l rest s (Q : Z -> st W -> Prop) :
  ready Sev s -> length l = n -> ahead (l ++ rest) (vw s) ->
  (forall s', same_lib s s' -> content (vw s') = content (vw s) -> ahead rest (vw s') -> Q (le_combine l) s') ->
  wp (ReadInteger Sev AccessAddress local polls (Z.of_nat n)) Q s.
Proof.
  intros Hr Hl Ha HQ. apply ahead_app in Ha as [H1 H2]. rewrite Hl in H1, H2.
  apply ReadInteger_refines; [done..|lia|]. intros s' Hs Hv. rewrite H1. apply HQ; rewrite ?Hv; done.
Qed.

Lemma FindFileLoop_spec Name l : forall s,
  ready Sev s -> 0 ∈ Name -> Forall wf_entry l -> ahead (concat (entry_bytes <$> l)) (vw s) ->
  wp (FindFileLoop Sev AsciiStrCmp AccessAddress local polls Name (length l))
     (fun r s' => r = find_entry Name l /\ same_lib s s') s.
Proof.
  induction l as [|e l IH]; intros s Hr HN Hl Ha; cbn [FindFileLoop length].
  { by rewrite wp_ret. }
  apply Forall_cons in Hl as [(Hsz & Hsel & Hnm & H0) Hl]. cbn [fmap list_fmap concat] in Ha. unfold entry_bytes in Ha.
  rewrite <-!(assoc_L (++)) in Ha.
  wp_step. apply (read_ahead 4 _ _ s _ Hr) with (2 := Ha); [by rewrite length_rev, length_le_split|].
  intros s1 Hs1 _ Ha1. pose proof (same_lib_ready _ _ _ Hs1 Hr) as Hr1.
  wp_step. apply (read_ahead 2 _ _ s1 _ Hr1) with (2 := Ha1); [by rewrite length_rev, length_le_split|].
  intros s2 Hs2 _ Ha2. pose proof (same_lib_ready _ _ _ Hs2 Hr1) as Hr2.
  wp_step. apply (read_ahead 2 _ _ s2 _ Hr2) with (2 := Ha2); [by rewrite length_rev, length_le_split|].
  intros s3 Hs3 _ Ha3. pose proof (same_lib_ready _ _ _ Hs3 Hr2) as Hr3.
  assert (same_lib s s3) as Hs03 by eauto using same_lib_trans.
  apply ahead_app in Ha3 as [Hnm3 Ha4]. rewrite Hnm in Hnm3, Ha4.
  destruct (Hlocal QEMU_FW_CFG_FNAME_SIZE) as [HB HBl]; [done|].
  wp_step. eapply wp_mono; [by apply InternalReadBytes_refines|]. intros FName s4 (Hs4 & -> & Hv4).
  rewrite overwrite_all by (by rewrite length_v_bytes). change QEMU_FW_CFG_FNAME_SIZE with (Z.of_nat 56) in *.
  change (Z.of_nat (Z.to_nat (Z.of_nat 56))) with (Z.of_nat 56) in Hnm3, Ha4. rewrite Hnm3. rewrite <-Hv4 in Ha4.
  cbn [find_entry].
  assert ((AsciiStrCmp Name (e_name e) =? 0) = bool_decide (cstr Name = cstr (e_name e))) as ->.
  { pose proof (AsciiStrCmp_0 Name (e_name e) HN H0) as Hcmp. case_bool_decide as Hb.
    - apply Z.eqb_eq. by apply Hcmp.
    - apply Z.eqb_neq. by rewrite Hcmp. }
  case_bool_decide.
  - rewrite wp_ret. split; [|by eauto using same_lib_trans].
    rewrite (swap_be 2 _ _ SwapBytes16_spec), (swap_be 4 _ _ SwapBytes32_spec) by done. done.
  - eapply wp_mono; [apply IH; eauto using same_lib_ready|]. intros r s5 [-> Hs5]. eauto using same_lib_trans.
Qed.

Lemma select_holds k l s (Q : unit -> st W -> Prop) :
  is_u16 k -> holds k l (vw s) ->
  (forall s', same_lib s s' -> content (vw s') = content (vw s) -> ahead l (vw s') -> Q tt s') ->
  wp (QemuFwCfgSelectItem k) Q s.
Proof. intros Hk Hl HQ. apply select_refines; [done|]. intros s' Hs Hv. apply HQ; by rewrite ?Hv. Qed.

Lemma FindFile_spec Name l s :
  ready Sev s -> 0 ∈ Name -> Forall wf_entry l -> Z.of_nat (length l) < 2 ^ 32 ->
  holds QemuFwCfgItemFileDir (dir_bytes l) (vw s) ->
  wp (QemuFwCfgFindFile Sev AsciiStrCmp AccessAddress local polls Name)
     (fun r s' => r = find_entry Name l /\ same_lib s s') s.
Proof.
  intros Hr HN Hl Hlen Hdir. unfold QemuFwCfgFindFile. wp_step. eapply wp_gets_eq; [apply Hr|]. cbn [negb].
  wp_step. eapply select_holds; [done|exact Hdir|]. intros s1 Hs1 _ Ha1.
  wp_step. eapply (read_ahead 4 _ _ s1); [by eapply same_lib_ready|by rewrite length_rev, length_le_split|exact Ha1|].
  intros s2 Hs2 _ Ha2. rewrite (swap_be 4 _ _ SwapBytes32_spec) by (cbn; lia). rewrite Nat2Z.id.
  eapply wp_mono; [apply FindFileLoop_spec; eauto using same_lib_ready|]. intros r s3 [-> Hs3].
  eauto using same_lib_trans.
Qed.

Lemma Initialize_spec sig rev s :
  length sig = 4%nat -> length rev = 4%nat ->
  holds QemuFwCfgItemSignature sig (vw s) -> holds QemuFwCfgItemInterfaceVersion rev (vw s) ->
  wp (QemuFwCfgInitialize Sev AccessAddress local polls)
     (fun Status s' =>
        Status = EFI_SUCCESS /\ content (vw s') = content (vw s) /\
        mQemuFwCfgSupported s' = (le_combine sig =? QEMU_SIGNATURE) && (1 <=? le_combine rev) /\
        (mQemuFwCfgSupported s' = true ->
         mQemuFwCfgDmaSupported s' = negb (Z.land (le_combine rev) FW_CFG_F_DMA =? 0) && negb Sev)) s.
Proof.
  intros Hls Hlr Hsig Hrev. unfold QemuFwCfgInitialize. wp_step. rewrite wp_modify.
  assert (ready Sev (mkSt (Dev s) true false)) as Hr by (split; [done|done]).
  wp_step. eapply select_holds; [done|exact Hsig|]. intros s1 Hs1 Hc1 Ha1.
  pose proof (same_lib_ready _ _ _ Hs1 Hr) as Hr1. rewrite <-(app_nil_r sig) in Ha1.
  wp_step. eapply (read_ahead 4 sig []); [done|done|exact Ha1|]. intros s2 Hs2 Hc2 _.
  pose proof (same_lib_ready _ _ _ Hs2 Hr1) as Hr2.
  assert (holds QemuFwCfgItemInterfaceVersion rev (vw s2)) as Hrev2 by (unfold holds, v_select; rewrite Hc2, Hc1; exact Hrev).
  wp_step. eapply select_holds; [done|exact Hrev2|]. intros s3 Hs3 Hc3 Ha3.
  pose proof (same_lib_ready _ _ _ Hs3 Hr2) as Hr3. rewrite <-(app_nil_r rev) in Ha3.
  wp_step. eapply (read_ahead 4 rev []); [done|done|exact Ha3|]. intros s4 Hs4 Hc4 _.
  assert (content (vw s4) = content (vw s)) as Hc by (rewrite Hc4, Hc3, Hc2, Hc1; done).
  assert (same_lib (mkSt (Dev s) true false) s4) as [Hsup Hdma] by eauto using same_lib_trans. cbn in Hsup, Hdma.
  rewrite Z.leb_antisym. destruct (le_combine sig =? QEMU_SIGNATURE); cbn [negb orb andb]; [|done].
  destruct (le_combine rev <? 1); cbn [negb]; [done|].
  destruct (Z.land (le_combine rev) FW_CFG_F_DMA =? 0); cbn [negb andb]; [done|].
  destruct Sev; cbn [negb]; done.
Qed.

(** C38: Once initialized, the library reads, writes and skips the selected
    item at its offset, for every size, and its DMA loop ends.  Reads and skips
    do the same over both transports: the buffer holds the item's next bytes
    and the offset advances by the size.  Over DMA the bytes of the buffer
    reach the item; without DMA, or from 4 GiB on, the data port drops them, and
    nothing changes.  Exactly when the device ends a DMA transfer with the
    error bit set does the call stop at the library's assertion. *)
Theorem fwcfg_transport (n : Z) (B : buf) (s : st W) :
  ready Sev s -> 0 <= n -> wf_buf n B ->
  ends (fails (polls := polls) AccessAddress s n B FW_CFG_DMA_CTL_READ)
     (QemuFwCfgReadBytes Sev AccessAddress polls n B)
     (fun data s' => same_lib s s' /\ data = overwrite (v_bytes n (vw s)) (Data B) /\ vw s' = v_skip n (vw s)) s /\
  ends (fails (polls := polls) AccessAddress s n B FW_CFG_DMA_CTL_WRITE)
     (QemuFwCfgWriteBytes Sev AccessAddress polls n B)
     (fun _ s' => same_lib s s' /\
        vw s' = if over_dma s n then v_write (take (Z.to_nat n) (Data B)) (vw s) else vw s) s /\
  ends (fails (polls := polls) AccessAddress s n (mkBuf 0 []) FW_CFG_DMA_CTL_SKIP)
     (QemuFwCfgSkipBytes Sev AccessAddress polls n)
     (fun _ s' => same_lib s s' /\ vw s' = v_skip n (vw s)) s.
Proof. intros Hr Hn HB. auto using ReadBytes_ends, WriteBytes_ends, SkipBytes_ends. Qed.

(** After QemuFwCfgInitialize the interface is available exactly when the
    device shows the signature and a revision, DMA is used exactly when the
    revision offers it and SEV is off, and QemuFwCfgFindFile then returns the
    selector and size of the first directory entry of the name, not found
    when there is none, and unsupported when the interface is not available. *)
Theorem fwcfg_find_file (sig rev Name : list Z) (l : list entry) (s : st W) :
  length sig = 4%nat -> length rev = 4%nat ->
  holds QemuFwCfgItemSignature sig (vw s) -> holds QemuFwCfgItemInterfaceVersion rev (vw s) ->
  holds QemuFwCfgItemFileDir (dir_bytes l) (vw s) ->
  0 ∈ Name -> Forall wf_entry l -> Z.of_nat (length l) < 2 ^ 32 ->
  wp (QemuFwCfgInitialize Sev AccessAddress local polls;;
      QemuFwCfgFindFile Sev AsciiStrCmp AccessAddress local polls Name)
     (fun r s' =>
        let supported := (le_combine sig =? QEMU_SIGNATURE) && (1 <=? le_combine rev) in
        mQemuFwCfgSupported s' = supported /\
        (supported = true -> mQemuFwCfgDmaSupported s' = negb (Z.land (le_combine rev) FW_CFG_F_DMA =? 0) && negb Sev) /\
        r = if supported then find_entry Name l else (EFI_UNSUPPORTED, None)) s.
Proof.
  intros Hls Hlr Hsig Hrev Hdir HN Hl Hlen. wp_step. eapply wp_mono; [by apply (Initialize_spec sig rev)|].
  intros Status s1 (_ & Hc & Hsup & Hdma). cbv zeta.
  destruct ((le_combine sig =? QEMU_SIGNATURE) && (1 <=? le_combine rev)) eqn:Hok.
  - specialize (Hdma Hsup). eapply wp_mono.
    + eapply FindFile_spec; [|done..|].
      * split; [done|]. rewrite Hdma. by destruct (Z.land (le_combine rev) FW_CFG_F_DMA =? 0), Sev.
      * unfold holds, v_select. rewrite Hc. exact Hdir.
    + intros r s2 [-> [-> ->]]. done.
  - unfold QemuFwCfgFindFile. wp_step. eapply wp_gets_eq; [done|]. cbn [negb]. rewrite wp_ret. done.
Qed.
End claims.

(** *** A machine *)
Module FwExample.
#[local] Instance swap_inst : SwapBytes := {
  SwapBytes16 x := le_combine (rev (le_split 2 x));
  SwapBytes32 x := le_combine (rev (le_split 4 x));
  SwapBytes64 x := le_combine (rev (le_split 8 x));
}.
#[local] Instance swap_laws : SwapLaws.
Proof. split; done. Qed.

(** The device runs a transfer when the CPU first looks at the structure; it
    lets only item 6 be written. *)
Record dev : Type := mkDev { d_view : view; d_high : Z; d_pending : option Z }.
Definition set_view (v : view) (d : dev) : dev := mkDev v (d_high d) (d_pending d).
#[local] Instance dev_inst : FwDevice dev := {
  IoWrite16 d port v := if port =? FW_CFG_IO_SELECTOR then set_view (v_select v (d_view d)) d else d;
  IoWrite32 d port v :=
    if port =? FW_CFG_IO_DMA_ADDRESS then mkDev (d_view d) (SwapBytes32 v) (d_pending d)
    else mkDev (d_view d) (d_high d) (Some (d_high d * 2 ^ 32 + SwapBytes32 v));
  IoReadFifo8 d port n := (v_bytes n (d_view d), set_view (v_skip n (d_view d)) d);
  IoWriteFifo8 d port bs := d;
  dma_step d a acc B :=
    let n := SwapBytes32 (Length acc) in
    let ctl := SwapBytes32 (Control acc) in
    let done := mkAccess 0 (Length acc) (Address acc) in
    if ctl =? FW_CFG_DMA_CTL_READ then
      (done, overwrite (v_bytes n (d_view d)) (Data B), mkDev (v_skip n (d_view d)) (d_high d) None)
    else if ctl =? FW_CFG_DMA_CTL_SKIP then (done, Data B, mkDev (v_skip n (d_view d)) (d_high d) None)
    else if negb (item (d_view d) =? 6) then (mkAccess (SwapBytes32 FW_CFG_DMA_CTL_ERROR) (Length acc) (Address acc), Data B, mkDev (d_view d) (d_high d) None)
    else (done, Data B, mkDev (v_write (take (Z.to_nat n) (Data B)) (d_view d)) (d_high d) None);
}.
#[local] Program Instance dev_laws : FwLaws dev 1 := {
  view_of := d_view; dma_high := d_high; dma_pending := d_pending; dma_left _ := 0%nat;
}.
Next Obligation. intros. cbn. lia. Qed.
Next Obligation. done. Qed.
Next Obligation. intros w n bs w' _ [= <- <-]. done. Qed.
Next Obligation. done. Qed.
Next Obligation. done. Qed.
Next Obligation. done. Qed.
Next Obligation.
  intros w a acc B acc' data w' _ Hstep _ n ctl. right. cbn [dma_step dev_inst] in Hstep. fold n ctl in Hstep.
  destruct (Z.eqb_spec ctl FW_CFG_DMA_CTL_READ) as [Hc|Hc]; [|destruct (Z.eqb_spec ctl FW_CFG_DMA_CTL_SKIP) as [Hc'|Hc'];
    [|destruct (item (d_view w) =? 6); cbn [negb] in Hstep]]; injection Hstep as <- <- <-;
    [right..|left; vm_compute; discriminate]; (split; [done|]); split_and!; intros Hctl; rewrite ?Hctl in *; try done.
Qed.
Lemma reads_ok a : reads_succeed (polls := 1) false a.
Proof.
  intros s n B _ _. unfold fails, dma_fails. destruct (over_dma s n), (n =? 0); [done| |done..].
  cbn [negb andb dma_error dma_step dev_inst Control].
  assert (SwapBytes32 (SwapBytes32 FW_CFG_DMA_CTL_READ) = FW_CFG_DMA_CTL_READ) as -> by (vm_compute; reflexivity).
  by vm_compute.
Qed.

Definition strcmp (a b : list Z) : Z := if bool_decide (cstr a = cstr b) then 0 else 1.
#[local] Instance strcmp_laws : StrLaws strcmp.
Proof. intros a b _ _. unfold strcmp. case_bool_decide; naive_solver. Qed.

Definition local_buf (n : Z) : buf := mkBuf 0x8000 (replicate (Z.to_nat n) 0xAA).
Lemma local_ok n : 0 <= n -> wf_buf n (local_buf n) /\ length (Data (local_buf n)) = Z.to_nat n.
Proof.
  intros _. unfold wf_buf, local_buf, is_u64. cbn. rewrite length_replicate. split; [|done]. lia.
Qed.

Lemma access_ok : is_u64 0x12345678F0.
Proof. unfold is_u64. lia. Qed.

Definition pad56 (l : list Z) : list Z := l ++ replicate (56 - length l) 0.
Definition the_dir : list entry :=
  [mkEntry 36 0x22 0 (pad56 [97; 47; 98]); mkEntry 0x10203 0x8004 7 (pad56 [99]); mkEntry 1 2 3 (pad56 [99])].
(** Items 0, 1 and 0x19; the other items are zero. *)
Definition the_content (k i : Z) : Z :=
  let l := if k =? 0 then [0x51; 0x45; 0x4D; 0x55] else if k =? 1 then [3; 0; 0; 0] else if k =? 0x19 then dir_bytes the_dir else [] in
  if i <? 0 then 0 else default 0 (l !! Z.to_nat i).
Definition the_state : st dev := mkSt (mkDev (mkView 5 6 the_content) 0 None) false true.

Lemma fwcfg_find_file_witness :
  le_combine [0x51; 0x45; 0x4D; 0x55] = QEMU_SIGNATURE /\
  wp (QemuFwCfgInitialize false 0x12345678F0 local_buf 1;;
      QemuFwCfgFindFile false strcmp 0x12345678F0 local_buf 1 [99; 0])
     (fun r s' =>
        let supported := (le_combine [0x51; 0x45; 0x4D; 0x55] =? QEMU_SIGNATURE) && (1 <=? le_combine [3; 0; 0; 0]) in
        mQemuFwCfgSupported s' = supported /\
        (supported = true -> mQemuFwCfgDmaSupported s' = negb (Z.land (le_combine [3; 0; 0; 0]) FW_CFG_F_DMA =? 0) && negb false) /\
        r = if supported then find_entry [99; 0] the_dir else (EFI_UNSUPPORTED, None)) the_state.
Proof.
  split; [reflexivity|].
  apply (fwcfg_find_file (FL := dev_laws) false strcmp 0x12345678F0 local_buf access_ok local_ok (reads_ok _)
           [0x51; 0x45; 0x4D; 0x55] [3; 0; 0; 0] [99; 0] the_dir the_state).
  - reflexivity.
  - reflexivity.
  - vm_compute. reflexivity.
  - vm_compute. reflexivity.
  - vm_compute. reflexivity.
  - apply list_elem_of_lookup_2 with 1%nat. reflexivity.
  - repeat constructor; try (cbn; lia); apply list_elem_of_lookup_2 with 55%nat; reflexivity.
  - reflexivity.
Defined.

(** The run: with DMA, the second entry. *)
Example find_run :
  match (QemuFwCfgInitialize false 0x12345678F0 local_buf 1;;
         QemuFwCfgFindFile false strcmp 0x12345678F0 local_buf 1 [99; 0]) the_state with
  | Done r s => r = (EFI_SUCCESS, Some (0x8004, 0x10203)) /\ mQemuFwCfgDmaSupported s = true
  | Trap _ => False
  end.
Proof. vm_compute. done. Qed.

(** Two bytes of three, on a state of the library. *)
Definition the_buf : buf := mkBuf 0x9000 [1; 2; 3].
Definition transports (s : st dev) : Prop :=
  ends (fails (polls := 1) 0x12345678F0 s 2 the_buf FW_CFG_DMA_CTL_READ)
     (QemuFwCfgReadBytes false 0x12345678F0 1 2 the_buf)
     (fun data s' => same_lib s s' /\ data = overwrite (v_bytes 2 (vw s)) (Data the_buf) /\ vw s' = v_skip 2 (vw s)) s /\
  ends (fails (polls := 1) 0x12345678F0 s 2 the_buf FW_CFG_DMA_CTL_WRITE)
     (QemuFwCfgWriteBytes false 0x12345678F0 1 2 the_buf)
     (fun _ s' => same_lib s s' /\
        vw s' = if over_dma s 2 then v_write (take (Z.to_nat 2) (Data the_buf)) (vw s) else vw s) s /\
  ends (fails (polls := 1) 0x12345678F0 s 2 (mkBuf 0 []) FW_CFG_DMA_CTL_SKIP)
     (QemuFwCfgSkipBytes false 0x12345678F0 1 2)
     (fun _ s' => same_lib s s' /\ vw s' = v_skip 2 (vw s)) s.
Definition on_item (k : Z) (dma : bool) : st dev := mkSt (mkDev (mkView k 6 the_content) 0 None) true dma.

(** A writable item and another over DMA, and the data port. *)
Lemma fwcfg_transport_witness :
  fails (polls := 1) 0x12345678F0 (on_item 6 true) 2 the_buf FW_CFG_DMA_CTL_WRITE = false /\
  fails (polls := 1) 0x12345678F0 (on_item 5 true) 2 the_buf FW_CFG_DMA_CTL_WRITE = true /\
  transports (on_item 6 true) /\ transports (on_item 5 true) /\ transports (on_item 6 false).
Proof.
  assert (wf_buf 2 the_buf) as HB by (split; [unfold is_u64; cbn; lia|cbn; lia]).
  pose proof (fwcfg_transport (FL := dev_laws) false 0x12345678F0 access_ok 2 the_buf) as H.
  split_and!; [vm_compute; reflexivity..| | |].
  - exact (H (on_item 6 true) ltac:(split; done) ltac:(lia) HB).
  - exact (H (on_item 5 true) ltac:(split; done) ltac:(lia) HB).
  - exact (H (on_item 6 false) ltac:(split; done) ltac:(lia) HB).
Defined.

(** The runs: the write over DMA, the refused one, and the lost one. *)
Example fw_write_runs :
  let bytes s := v_bytes 2 (mkView 6 6 (content (vw (s : st dev)))) in
  match QemuFwCfgWriteBytes false 0x12345678F0 1 2 the_buf (on_item 6 true) with Done _ s => bytes s = [1; 2] | Trap _ => False end /\
  QemuFwCfgWriteBytes false 0x12345678F0 1 2 the_buf (on_item 5 true) = Trap AssertFailed /\
  match QemuFwCfgWriteBytes false 0x12345678F0 1 2 the_buf (on_item 6 false) with Done _ s => bytes s = [0; 0] | Trap _ => False end.
Proof. vm_compute. done. Qed.
End FwExample.
