(* ===== verification/FwCfgApi.v ===== *)
(** * QemuFwCfgLib as its clients use it

    An interface for the modules that read fw_cfg, with the laws they rely on,
    and the instance that QemuFwCfgLib's model and its refinement provide on a
    device that reports no error for the reads ([reads_succeed]; at such an
    error the library stops in its assertion, and no client goes on). *)
From S2P Require Import Prelude Bytes FwCfg FwCfgProofs.

(** QemuFwCfgLib, as its clients use it. *)
Class FwCfgApi (W : Type) := {
  fw_available : W -> bool * W;
  fw_select : W -> Z -> W;
  fw_read : W -> Z -> list Z * W;
}.

Class FwCfgApiLaws (W : Type) {FW : FwCfgApi W} := {
  fw_inv : W -> Prop;
  fw_view : W -> view;
  fw_keep : W -> W -> Prop := fun w w' => fw_inv w' /\ content (fw_view w') = content (fw_view w);
  fw_byte w k i : fw_inv w -> is_byte (content (fw_view w) k i);
  fw_available_spec w r w' : fw_inv w -> fw_available w = (r, w') -> fw_keep w w';
  fw_select_spec w k : fw_inv w -> is_u16 k -> fw_inv (fw_select w k) /\ fw_view (fw_select w k) = v_select k (fw_view w);
  fw_read_spec w n bs w' : fw_inv w -> 0 <= n -> fw_read w n = (bs, w') ->
    bs = v_bytes n (fw_view w) /\ fw_view w' = v_skip n (fw_view w) /\ fw_inv w';
}.

(** The run of a program, from a state where it does not trap. *)
Definition run {S A} (a0 : A) (m : M S A) (s : S) : A * S :=
  match m s with Done a s' => (a, s') | Trap _ => (a0, s) end.
Lemma run_wp {S A} (a0 : A) (m : M S A) Q s a s' : wp m Q s -> run a0 m s = (a, s') -> Q a s'.
Proof. unfold wp, run. destruct (m s); [|done]. by intros H [= <- <-]. Qed.

Section library.
Context {W : Type} {SB : SwapBytes} {SL : SwapLaws} {FD : FwDevice W} {polls : nat} {FL : FwLaws W polls}.
Context (Sev : bool) (AccessAddress : Z) (local : Z -> buf).

(** Clients read into buffers of their own; [local] gives one of a size. *)
Definition lib_api : FwCfgApi (st W) := {|
  fw_available s := run false QemuFwCfgIsAvailable s;
  fw_select s k := (run tt (QemuFwCfgSelectItem k) s).2;
  fw_read s n := run [] (QemuFwCfgReadBytes Sev AccessAddress polls n (local n)) s;
|}.

Context (HAccess : is_u64 AccessAddress) (Hreads : reads_succeed (polls := polls) Sev AccessAddress).
Context (Hlocal : forall n, 0 <= n -> wf_buf n (local n) /\ length (Data (local n)) = Z.to_nat n).

Definition lib_inv (s : st W) : Prop := ready Sev s /\ forall k i, is_byte (content (vw s) k i).

Lemma lib_available (s : st W) r s' : run false QemuFwCfgIsAvailable s = (r, s') -> s' = s.
Proof. by intros [= _ <-]. Qed.

Lemma lib_select (s : st W) k :
  lib_inv s -> is_u16 k ->
  lib_inv (run tt (QemuFwCfgSelectItem k) s).2 /\ vw (run tt (QemuFwCfgSelectItem k) s).2 = v_select k (vw s).
Proof.
  intros [Hr Hb] Hk. destruct (run tt (QemuFwCfgSelectItem k) s) as [[] s'] eqn:E.
  apply (run_wp _ _ (fun _ s' => same_lib s s' /\ vw s' = v_select k (vw s))) in E as [Hs Hv]; [|by apply select_refines].
  split; [split|]; [by eapply same_lib_ready|cbn; by rewrite Hv|done].
Qed.

Lemma lib_read (s : st W) n bs s' :
  lib_inv s -> 0 <= n -> run [] (QemuFwCfgReadBytes Sev AccessAddress polls n (local n)) s = (bs, s') ->
  bs = v_bytes n (vw s) /\ vw s' = v_skip n (vw s) /\ lib_inv s'.
Proof.
  intros [Hr Hb] Hn E. destruct (Hlocal n Hn) as [HB Hl].
  pose proof (ReadBytes_refines Sev AccessAddress HAccess Hreads n (local n) s Hr Hn HB) as H.
  apply (run_wp [] _ _ _ _ _ H) in E as (Hs & -> & Hv). rewrite overwrite_all by (by rewrite length_v_bytes).
  split; [done|]. split; [done|]. split; [by eapply same_lib_ready|by rewrite Hv].
Qed.

Definition lib_laws : @FwCfgApiLaws (st W) lib_api.
Proof.
  refine (@Build_FwCfgApiLaws _ lib_api lib_inv vw _ _ _ _).
  - intros s k i H. apply (proj2 H).
  - intros s r s' H E. by apply lib_available in E as ->.
  - intros s k. apply lib_select.
  - intros s n bs s'. apply lib_read.
Defined.
End library.
