(* ===== verification/KernelFs.v ===== *)
(** * QemuKernelLoaderFsDxe: the kernel, initrd and command line as files

    Models Platforms/QemuQ35Pkg/QemuKernelLoaderFsDxe.  The blobs downloaded
    from fw_cfg are blocks of the pool; a file handle is a [STUB_FILE] of the
    pool.  fw_cfg is used through the interface that QemuFwCfgLib provides. *)
From S2P Require Import Prelude Bytes FwCfgApi.

(** Services of the firmware. *)
Class KernelEnv (W : Type) := {
  (** AllocatePool: the block, with whatever it holds. *)
  pool_block : W -> Z -> option (list Z) * W;
  GetTime : W -> EFI_STATUS * list Z * W;
  (** BlobVerifierLib, on a name, the data if any, and the size *)
  VerifyBlob : W -> list Z -> option (list Z) -> Z -> EFI_STATUS * W;
  InstallMultipleProtocolInterfaces : W -> Z -> EFI_STATUS * W;
  UninstallMultipleProtocolInterfaces : W -> Z -> EFI_STATUS * W;
}.
(** BaseLib on CHAR16 strings. *)
Class StrLib := { StrCmp : list Z -> list Z -> Z; StrLen : list Z -> Z }.
(** The layout of the structures of the UEFI specification, and the size of a
    STUB_FILE, which embeds one. *)
Class InfoLayout := {
  OFFSET_OF_FileName : Z;
  sizeof_EFI_FILE_INFO : Z;
  sizeof_EFI_FILE_SYSTEM_INFO : Z;
  sizeof_EFI_FILE_SYSTEM_VOLUME_LABEL : Z;
  sizeof_STUB_FILE : Z;
}.

Definition KernelBlobTypeKernel : nat := 0.
Definition KernelBlobTypeInitrd : nat := 1.
Definition KernelBlobTypeMax : nat := 3.
Definition SIZE_1MB : Z := 0x100000.
Definition MAX_UINT64 : Z := 0xFFFFFFFFFFFFFFFF.
Definition EFI_FILE_MODE_READ : Z := 1.
Definition EFI_FILE_MODE_WRITE : Z := 2.
Definition EFI_FILE_MODE_CREATE : Z := 0x8000000000000000.
Definition EFI_FILE_READ_ONLY : Z := 1.
Definition EFI_FILE_DIRECTORY : Z := 0x10.
Definition EFI_WARN_DELETE_FAILURE : EFI_STATUS := 2.

Definition ptr : Type := Z.
Record FW_ITEM : Type := mkItem { SizeKey : Z; DataKey : Z; ItemSize : Z }.
Record KERNEL_BLOB : Type := mkBlob { Name : list Z; FwCfgItem : list FW_ITEM; Size : Z; Data : option ptr }.
Record STUB_FILE : Type := mkStub { BlobType : nat; Position : Z }.

Definition KERNEL_NAME : list Z := [107; 101; 114; 110; 101; 108; 0; 0].
Definition INITRD_NAME : list Z := [105; 110; 105; 116; 114; 100; 0; 0].
Definition CMDLINE_NAME : list Z := [99; 109; 100; 108; 105; 110; 101; 0].
(** mKernelBlob before the entry point runs. *)
Definition KernelBlobTable : list KERNEL_BLOB :=
  [mkBlob KERNEL_NAME [mkItem 0x17 0x18 0; mkItem 0x08 0x11 0] 0 None;
   mkBlob INITRD_NAME [mkItem 0x0b 0x12 0; mkItem 0 0 0] 0 None;
   mkBlob CMDLINE_NAME [mkItem 0x14 0x15 0; mkItem 0 0 0] 0 None].

Record EFI_FILE_INFO : Type := mkInfo {
  InfoSize : Z; FileSize : Z; PhysicalSize : Z;
  CreateTime : list Z; LastAccessTime : list Z; ModificationTime : list Z;
  Attribute : Z; FileName : list Z;
}.
Record EFI_FILE_SYSTEM_INFO : Type := mkFsInfo {
  FsSize : Z; ReadOnly : bool; VolumeSize : Z; FreeSpace : Z; BlockSize : Z; VolumeLabel : list Z;
}.
(** What a call stores into the caller's buffer. *)
Inductive stored : Type :=
  | Nothing
  | Bytes (l : list Z)
  | FileInfo (i : EFI_FILE_INFO)
  | FileSystemInfo (i : EFI_FILE_SYSTEM_INFO)
  | FileSystemVolumeLabel (l : list Z).
(** Status, BufferSize on return, and the buffer. *)
Definition reply : Type := EFI_STATUS * Z * stored.

Inductive info_type : Type := gEfiFileInfoGuid | gEfiFileSystemInfoGuid | gEfiFileSystemVolumeLabelInfoIdGuid | OtherGuid.

Section KernelFs.
Context {W : Type} {FW : FwCfgApi W} {KE : KernelEnv W} {SL : StrLib} {IL : InfoLayout}.

Record st : Type := mkSt {
  Env : W;
  mKernelBlob : list KERNEL_BLOB;
  mTotalBlobBytes : Z;
  mInitTime : list Z;
  Pool : gmap ptr (list Z);
  Files : gmap ptr STUB_FILE;
  Protocols : list Z;
}.

(** *** Access to the state *)
Definition set_env (w : W) (s : st) : st :=
  mkSt w (mKernelBlob s) (mTotalBlobBytes s) (mInitTime s) (Pool s) (Files s) (Protocols s).
Definition set_blobs (l : list KERNEL_BLOB) (s : st) : st :=
  mkSt (Env s) l (mTotalBlobBytes s) (mInitTime s) (Pool s) (Files s) (Protocols s).
Definition set_total (n : Z) (s : st) : st :=
  mkSt (Env s) (mKernelBlob s) n (mInitTime s) (Pool s) (Files s) (Protocols s).
Definition set_time (t : list Z) (s : st) : st :=
  mkSt (Env s) (mKernelBlob s) (mTotalBlobBytes s) t (Pool s) (Files s) (Protocols s).
Definition set_pool (P : gmap ptr (list Z)) (s : st) : st :=
  mkSt (Env s) (mKernelBlob s) (mTotalBlobBytes s) (mInitTime s) P (Files s) (Protocols s).
Definition set_files (F : gmap ptr STUB_FILE) (s : st) : st :=
  mkSt (Env s) (mKernelBlob s) (mTotalBlobBytes s) (mInitTime s) (Pool s) F (Protocols s).
Definition set_protocols (l : list Z) (s : st) : st :=
  mkSt (Env s) (mKernelBlob s) (mTotalBlobBytes s) (mInitTime s) (Pool s) (Files s) l.

Definition call {A} (f : W -> A * W) : M st A :=
  fun s => let '(a, w) := f (Env s) in Done a (set_env w s).
Definition blob (i : nat) : M st KERNEL_BLOB := s ← get; deref (mKernelBlob s !! i).
Definition set_blob (i : nat) (b : KERNEL_BLOB) : M st unit :=
  modify (fun s => set_blobs (<[i := b]> (mKernelBlob s)) s).
Definition file (This : ptr) : M st STUB_FILE := s ← get; deref (Files s !! This).
Definition set_file (This : ptr) (f : STUB_FILE) : M st unit := modify (fun s => set_files (<[This := f]> (Files s)) s).

Definition AllocatePool (n : Z) : M st (option ptr) :=
  r ← call (fun w => pool_block w n);
  match r with
  | None => mret None
  | Some block =>
      s ← get;
      let p := fresh (dom (Pool s) ∪ dom (Files s)) in
      put (set_pool (<[p := block]> (Pool s)) s);; mret (Some p)
  end.
(** A STUB_FILE in a new block. *)
Definition AllocateStub (f : STUB_FILE) : M st (option ptr) :=
  r ← call (fun w => pool_block w sizeof_STUB_FILE);
  match r with
  | None => mret None
  | Some block =>
      s ← get;
      let p := fresh (dom (Pool s) ∪ dom (Files s)) in
      put (set_files (<[p := f]> (Files s)) s);; mret (Some p)
  end.
Definition FreePool (p : ptr) : M st unit :=
  s ← get; _ ← deref (Pool s !! p); put (set_pool (delete p (Pool s)) s).
Definition FreeStub (p : ptr) : M st unit :=
  s ← get; _ ← deref (Files s !! p); put (set_files (delete p (Files s)) s).
(** A store into a block of the pool, and a copy out of it. *)
Definition store_at (p : ptr) (off : Z) (bs : list Z) : M st unit :=
  s ← get; block ← deref (Pool s !! p);
  if (0 <=? off) && (off + Z.of_nat (length bs) <=? Z.of_nat (length block))
  then put (set_pool (<[p := take (Z.to_nat off) block ++ bs ++ drop (Z.to_nat off + length bs) block]> (Pool s)) s)
  else trapped BadPointer.
Definition copy_from (p : ptr) (off n : Z) : M st (list Z) :=
  s ← get; block ← deref (Pool s !! p);
  if (0 <=? off) && (0 <=? n) && (off + n <=? Z.of_nat (length block))
  then mret (take (Z.to_nat n) (drop (Z.to_nat off) block)) else trapped BadPointer.

Definition QemuFwCfgSelectItem (k : Z) : M st unit := call (fun w => (tt, fw_select w k)).
Definition QemuFwCfgReadBytes (n : Z) : M st (list Z) := call (fun w => fw_read w n).
Definition QemuFwCfgRead32 : M st Z := bs ← QemuFwCfgReadBytes 4; mret (le_combine bs).

(** ** The file protocol *)
Definition StubFileClose (This : ptr) : M st EFI_STATUS := FreeStub This;; mret EFI_SUCCESS.
Definition StubFileDelete (This : ptr) : M st EFI_STATUS := FreeStub This;; mret EFI_WARN_DELETE_FAILURE.

(** Name, FileSize and Attribute. *)
Definition FileProperties (t : nat) : M st (list Z * Z * Z) :=
  if (t =? KernelBlobTypeMax)%nat
  then mret ([0x5C; 0], Z.of_nat KernelBlobTypeMax, Z.lor EFI_FILE_READ_ONLY EFI_FILE_DIRECTORY)
  else b ← blob t; mret (Name b, Size b, EFI_FILE_READ_ONLY).

Definition ConvertKernelBlobTypeToFileInfo (t : nat) (BufferSize : Z) : M st reply :=
  r ← FileProperties t;
  let '(Name, FileSize, Attribute) := r in
  let NameSize := (StrLen Name + 1) * 2 in
  let FileInfoSize := OFFSET_OF_FileName + NameSize in
  ASSERT (sizeof_EFI_FILE_INFO <=? FileInfoSize);;
  if BufferSize <? FileInfoSize then mret (EFI_BUFFER_TOO_SMALL, FileInfoSize, Nothing)
  else
    time ← gets mInitTime;
    mret (EFI_SUCCESS, FileInfoSize,
          FileInfo (mkInfo FileInfoSize FileSize FileSize time time time Attribute (take (Z.to_nat (NameSize / 2)) Name))).

Definition StubFileRead (This : ptr) (BufferSize : Z) : M st reply :=
  StubFile ← file This;
  if (BlobType StubFile =? KernelBlobTypeMax)%nat then
    if Position StubFile =? Z.of_nat KernelBlobTypeMax then mret (EFI_SUCCESS, 0, Nothing)
    else
      r ← ConvertKernelBlobTypeToFileInfo (Z.to_nat (Position StubFile)) BufferSize;
      if EFI_ERROR r.1.1 then mret r
      else set_file This (mkStub (BlobType StubFile) (u64 (Position StubFile + 1)));;
           mret (EFI_SUCCESS, r.1.2, r.2)
  else
    Blob ← blob (BlobType StubFile);
    if Size Blob <? Position StubFile then mret (EFI_DEVICE_ERROR, BufferSize, Nothing)
    else
      let Left := Size Blob - Position StubFile in
      let BufferSize := if Left <? BufferSize then Left else BufferSize in
      out ← (match Data Blob with
             | Some p => bs ← copy_from p (Position StubFile) BufferSize; mret (Bytes bs)
             | None => mret Nothing
             end);
      set_file This (mkStub (BlobType StubFile) (u64 (Position StubFile + BufferSize)));;
      mret (EFI_SUCCESS, BufferSize, out).

Definition StubFileWrite (This : ptr) : M st EFI_STATUS :=
  StubFile ← file This;
  mret (if (BlobType StubFile =? KernelBlobTypeMax)%nat then EFI_UNSUPPORTED else EFI_WRITE_PROTECTED).

Definition StubFileGetPosition (This : ptr) : M st (EFI_STATUS * option Z) :=
  StubFile ← file This;
  mret (if (BlobType StubFile =? KernelBlobTypeMax)%nat then (EFI_UNSUPPORTED, None)
        else (EFI_SUCCESS, Some (Position StubFile))).

Definition StubFileSetPosition (This : ptr) (Pos : Z) : M st EFI_STATUS :=
  StubFile ← file This;
  if (BlobType StubFile =? KernelBlobTypeMax)%nat then
    if Pos =? 0 then set_file This (mkStub (BlobType StubFile) 0);; mret EFI_SUCCESS
    else mret EFI_UNSUPPORTED
  else
    Blob ← blob (BlobType StubFile);
    set_file This (mkStub (BlobType StubFile) (if Pos =? MAX_UINT64 then Size Blob else Pos));;
    mret EFI_SUCCESS.

Definition StubFileGetInfo (This : ptr) (InformationType : info_type) (BufferSize : Z) : M st reply :=
  StubFile ← file This;
  match InformationType with
  | gEfiFileInfoGuid => ConvertKernelBlobTypeToFileInfo (BlobType StubFile) BufferSize
  | gEfiFileSystemInfoGuid =>
      if BufferSize <? sizeof_EFI_FILE_SYSTEM_INFO then mret (EFI_BUFFER_TOO_SMALL, sizeof_EFI_FILE_SYSTEM_INFO, Nothing)
      else
        total ← gets mTotalBlobBytes;
        mret (EFI_SUCCESS, sizeof_EFI_FILE_SYSTEM_INFO,
              FileSystemInfo (mkFsInfo sizeof_EFI_FILE_SYSTEM_INFO true total 0 1 [0]))
  | gEfiFileSystemVolumeLabelInfoIdGuid =>
      if BufferSize <? sizeof_EFI_FILE_SYSTEM_VOLUME_LABEL
      then mret (EFI_BUFFER_TOO_SMALL, sizeof_EFI_FILE_SYSTEM_VOLUME_LABEL, Nothing)
      else mret (EFI_SUCCESS, sizeof_EFI_FILE_SYSTEM_VOLUME_LABEL, FileSystemVolumeLabel [0])
  | OtherGuid => mret (EFI_UNSUPPORTED, BufferSize, Nothing)
  end.
Definition StubFileSetInfo (This : ptr) : M st EFI_STATUS := mret EFI_WRITE_PROTECTED.
Definition StubFileFlush (This : ptr) : M st EFI_STATUS := mret EFI_WRITE_PROTECTED.

(** The loop over the names: the index where it stops. *)
Fixpoint LocateFile (FileName : list Z) (n t : nat) : M st nat :=
  match n with
  | O => mret t
  | S n => b ← blob t; if StrCmp FileName (Name b) =? 0 then mret t else LocateFile FileName n (S t)
  end.

Definition StubFileOpen (This : ptr) (FileName : list Z) (OpenMode : Z) : M st (EFI_STATUS * option ptr) :=
  if OpenMode =? EFI_FILE_MODE_READ then
    StubFile ← file This;
    if negb (BlobType StubFile =? KernelBlobTypeMax)%nat then mret (EFI_UNSUPPORTED, None)
    else
      t ← LocateFile FileName KernelBlobTypeMax 0;
      if (t =? KernelBlobTypeMax)%nat then mret (EFI_NOT_FOUND, None)
      else
        NewStubFile ← AllocateStub (mkStub t 0);
        mret (match NewStubFile with None => (EFI_OUT_OF_RESOURCES, None) | Some p => (EFI_SUCCESS, Some p) end)
  else if (OpenMode =? Z.lor EFI_FILE_MODE_READ EFI_FILE_MODE_WRITE)
       || (OpenMode =? Z.lor EFI_FILE_MODE_READ (Z.lor EFI_FILE_MODE_WRITE EFI_FILE_MODE_CREATE))
  then mret (EFI_WRITE_PROTECTED, None)
  else mret (EFI_INVALID_PARAMETER, None).

Definition StubFileSystemOpenVolume : M st (EFI_STATUS * option ptr) :=
  StubFile ← AllocateStub (mkStub KernelBlobTypeMax 0);
  mret (match StubFile with None => (EFI_OUT_OF_RESOURCES, None) | Some p => (EFI_SUCCESS, Some p) end).

(** A valid device path: the type and subtype of its first node. *)
Record DEVICE_PATH : Type := mkPath { Path_Valid : bool; Path_Type : Z; Path_SubType : Z }.
Definition END_DEVICE_PATH_TYPE : Z := 0x7F.
Definition END_ENTIRE_DEVICE_PATH_SUBTYPE : Z := 0xFF.

(** Buffer is NULL or not; BufferSize is NULL or a size. *)
Definition InitrdLoadFile2 (FilePath : DEVICE_PATH) (BootPolicy : bool) (BufferSize : option Z) (Buffer : bool)
  : M st (EFI_STATUS * option Z * stored) :=
  InitrdBlob ← blob KernelBlobTypeInitrd;
  ASSERT (0 <? Size InitrdBlob);;
  if BootPolicy then mret (EFI_UNSUPPORTED, BufferSize, Nothing)
  else match BufferSize with
  | None => mret (EFI_INVALID_PARAMETER, None, Nothing)
  | Some n =>
      if negb (Path_Valid FilePath) then mret (EFI_INVALID_PARAMETER, Some n, Nothing)
      else if negb (Path_Type FilePath =? END_DEVICE_PATH_TYPE)
              || negb (Path_SubType FilePath =? END_ENTIRE_DEVICE_PATH_SUBTYPE)
      then mret (EFI_NOT_FOUND, Some n, Nothing)
      else if negb Buffer || (n <? Size InitrdBlob) then mret (EFI_BUFFER_TOO_SMALL, Some (Size InitrdBlob), Nothing)
      else
        p ← deref (Data InitrdBlob); bs ← copy_from p 0 (Size InitrdBlob);
        mret (EFI_SUCCESS, Some (Size InitrdBlob), Bytes bs)
  end.

(** ** Downloading the blobs *)
Definition set_item (i : nat) (n : Z) (b : KERNEL_BLOB) : KERNEL_BLOB :=
  mkBlob (Name b) (alter (fun it => mkItem (SizeKey it) (DataKey it) n) i (FwCfgItem b)) (Size b) (Data b).
Definition set_size (n : Z) (b : KERNEL_BLOB) : KERNEL_BLOB := mkBlob (Name b) (FwCfgItem b) n (Data b).
Definition set_data (p : option ptr) (b : KERNEL_BLOB) : KERNEL_BLOB := mkBlob (Name b) (FwCfgItem b) (Size b) p.
Definition upd_blob (t : nat) (f : KERNEL_BLOB -> KERNEL_BLOB) : M st unit := b ← blob t; set_blob t (f b).

(** The loops of FetchBlob go over the indices of FwCfgItem that remain. *)
Fixpoint ReadSizes (t : nat) (indices : list nat) : M st unit :=
  match indices with
  | [] => mret tt
  | Idx :: indices =>
      b ← blob t; item ← deref (FwCfgItem b !! Idx);
      if SizeKey item =? 0 then mret tt
      else
        QemuFwCfgSelectItem (SizeKey item);;
        n ← QemuFwCfgRead32;
        upd_blob t (fun b => set_size (u32 (Size b + n)) (set_item Idx n b));;
        ReadSizes t indices
  end.

(** One item, in chunks; each takes a step. *)
Fixpoint ReadChunks (fuel : nat) (p : ptr) (ChunkData ItemSize Left : Z) : M st unit :=
  if 0 <? Left then
    match fuel with
    | O => trapped OutOfFuel
    | S fuel =>
        let Chunk := if Left <? SIZE_1MB then Left else SIZE_1MB in
        bs ← QemuFwCfgReadBytes Chunk;
        store_at p (ChunkData + (ItemSize - Left)) bs;;
        ReadChunks fuel p ChunkData ItemSize (Left - Chunk)
    end
  else mret tt.

Fixpoint ReadItems (t : nat) (p : ptr) (ChunkData : Z) (indices : list nat) : M st unit :=
  match indices with
  | [] => mret tt
  | Idx :: indices =>
      b ← blob t; item ← deref (FwCfgItem b !! Idx);
      if DataKey item =? 0 then mret tt
      else
        QemuFwCfgSelectItem (DataKey item);;
        ReadChunks (S (Z.to_nat (ItemSize item / SIZE_1MB))) p ChunkData (ItemSize item) (ItemSize item);;
        ReadItems t p (ChunkData + ItemSize item) indices
  end.

Definition FetchBlob (t : nat) : M st EFI_STATUS :=
  upd_blob t (set_size 0);;
  ReadSizes t (seq 0 2);;
  b ← blob t;
  if Size b =? 0 then mret EFI_SUCCESS
  else
    p ← AllocatePool (Size b);
    upd_blob t (set_data p);;
    match p with
    | None => mret EFI_OUT_OF_RESOURCES
    | Some p => ReadItems t p 0 (seq 0 2);; mret EFI_SUCCESS
    end.

(** *** The entry point, label by label *)
Definition FileSystemProtocol : Z := 1.
Definition InitrdProtocol : Z := 2.

Definition Install (proto : Z) : M st EFI_STATUS :=
  Status ← call (fun w => InstallMultipleProtocolInterfaces w proto);
  (if EFI_ERROR Status then mret tt else modify (fun s => set_protocols (proto :: Protocols s) s));;
  mret Status.
Definition Uninstall (proto : Z) : M st EFI_STATUS :=
  Status ← call (fun w => UninstallMultipleProtocolInterfaces w proto);
  (if EFI_ERROR Status then mret tt else modify (fun s => set_protocols (filter (fun x => x <> proto) (Protocols s)) s));;
  mret Status.

Fixpoint FreeBlobs (Status : EFI_STATUS) (t : nat) : M st EFI_STATUS :=
  match t with
  | O => mret Status
  | S t =>
      b ← blob t;
      (match Data b with
       | Some p => FreePool p;; upd_blob t (fun b => set_data None (set_size 0 b))
       | None => mret tt
       end);;
      FreeBlobs Status t
  end.

Definition UninstallFileSystemHandle : M st EFI_STATUS :=
  Status ← Uninstall FileSystemProtocol;
  ASSERT (negb (EFI_ERROR Status));;
  FreeBlobs Status KernelBlobTypeMax.

Definition InstallProtocols : M st EFI_STATUS :=
  KernelBlob ← blob KernelBlobTypeKernel;
  match Data KernelBlob with
  | None => FreeBlobs EFI_NOT_FOUND KernelBlobTypeMax
  | Some _ =>
      Status ← Install FileSystemProtocol;
      if EFI_ERROR Status then FreeBlobs Status KernelBlobTypeMax
      else
        InitrdBlob ← blob KernelBlobTypeInitrd;
        if 0 <? Size InitrdBlob then
          Status ← Install InitrdProtocol;
          if EFI_ERROR Status then UninstallFileSystemHandle else mret EFI_SUCCESS
        else mret EFI_SUCCESS
  end.

(** The data a blob points to. *)
Definition blob_data (b : KERNEL_BLOB) : M st (option (list Z)) :=
  match Data b with
  | None => mret None
  | Some p => s ← get; block ← deref (Pool s !! p); mret (Some block)
  end.

(** The loop over the blobs, [n] more of them. *)
Fixpoint FetchBlobs (n t : nat) : M st EFI_STATUS :=
  match n with
  | O => InstallProtocols
  | S n =>
      Status ← FetchBlob t;
      if EFI_ERROR Status then FreeBlobs Status t
      else
        CurrentBlob ← blob t;
        data ← blob_data CurrentBlob;
        Status ← call (fun w => VerifyBlob w (Name CurrentBlob) data (Size CurrentBlob));
        if EFI_ERROR Status then FreeBlobs Status t
        else
          modify (fun s => set_total (u64 (mTotalBlobBytes s + Size CurrentBlob)) s);;
          FetchBlobs n (S t)
  end.

Definition QemuKernelLoaderFsDxeEntrypoint : M st EFI_STATUS :=
  available ← call fw_available;
  if negb available then mret EFI_NOT_FOUND
  else
    r ← call (fun w => let '(Status, t, w') := GetTime w in ((Status, t), w'));
    modify (set_time r.2);;
    if EFI_ERROR r.1 then mret r.1 else FetchBlobs KernelBlobTypeMax 0.
End KernelFs.
