(* ===== verification/KernelFsProofs.v ===== *)
(** * QemuKernelLoaderFsDxe: downloading the blobs *)
From S2P Require Import Prelude Bytes FwCfgProofs FwCfgApi KernelFs.

(** The services leave the items of fw_cfg alone; any of them may fail. *)
Class KernelLaws (W : Type) {FW : FwCfgApi W} {KE : KernelEnv W} := {
  kernel_fw :: FwCfgApiLaws W;
  pool_block_spec w n r w' : fw_inv w -> pool_block w n = (r, w') ->
    fw_keep w w' /\ (forall block, r = Some block -> length block = Z.to_nat n);
  GetTime_spec w Status t w' : fw_inv w -> GetTime w = (Status, t, w') -> fw_keep w w';
  VerifyBlob_spec w name data n Status w' : fw_inv w -> VerifyBlob w name data n = (Status, w') -> fw_keep w w';
  Install_spec w proto Status w' : fw_inv w -> InstallMultipleProtocolInterfaces w proto = (Status, w') -> fw_keep w w';
  Uninstall_spec w proto Status w' : fw_inv w -> UninstallMultipleProtocolInterfaces w proto = (Status, w') -> fw_keep w w';
}.

(** ** What fw_cfg holds for a blob *)
Section contents.
Context (c : Z -> Z -> Z).
Definition bytes_at (k n : Z) : list Z := v_bytes n (mkView k 0 c).
Definition item_length (it : FW_ITEM) : Z := le_combine (bytes_at (SizeKey it) 4).
Definition item_bytes (it : FW_ITEM) : list Z := bytes_at (DataKey it) (item_length it).
(** The items before the first zero key. *)
Fixpoint active (its : list FW_ITEM) : list FW_ITEM :=
  match its with [] => [] | it :: its => if SizeKey it =? 0 then [] else it :: active its end.
Definition blob_bytes (its : list FW_ITEM) : list Z := concat (item_bytes <$> active its).
(** The items with their sizes. *)
Fixpoint sized (its : list FW_ITEM) : list FW_ITEM :=
  match its with
  | [] => []
  | it :: r => if SizeKey it =? 0 then its else mkItem (SizeKey it) (DataKey it) (item_length it) :: sized r
  end.
Definition wf_items (its : list FW_ITEM) : Prop :=
  Forall (fun it => is_u16 (SizeKey it) /\ is_u16 (DataKey it) /\ (DataKey it = 0 <-> SizeKey it = 0)) its.

Lemma item_length_range it : (forall k i, is_byte (c k i)) -> is_u32 (item_length it).
Proof.
  intros H. unfold item_length, is_u32, bytes_at. pose proof (le_combine_range (v_bytes 4 (mkView (SizeKey it) 0 c))) as Hr.
  rewrite length_v_bytes in Hr. apply Hr. unfold v_bytes. apply Forall_fmap, Forall_forall. intros i _. apply H.
Qed.

Lemma length_item_bytes it : (forall k i, is_byte (c k i)) -> Z.of_nat (length (item_bytes it)) = item_length it.
Proof.
  intros H. unfold item_bytes, bytes_at. rewrite length_v_bytes, Z2Nat.id; [done|]. apply (item_length_range it) in H.
  unfold is_u32 in H. lia.
Qed.

Lemma blob_bytes_cons it its :
  blob_bytes (it :: its) = if SizeKey it =? 0 then [] else item_bytes it ++ blob_bytes its.
Proof. unfold blob_bytes. cbn [active]. by destruct (SizeKey it =? 0). Qed.
End contents.

Section proofs.
Context {W : Type} {FW : FwCfgApi W} {KE : KernelEnv W} {SL : StrLib} {IL : InfoLayout} {KL : KernelLaws W}.
Implicit Types s : st (W := W).

Definition con s : Z -> Z -> Z := content (fw_view (Env s)).
Definition inv s : Prop := fw_inv (Env s).

(** A step that only talks to the environment, and keeps the items. *)
Lemma wp_call {A} (f : W -> A * W) (Q : A -> st -> Prop) s :
  (forall a w, f (Env s) = (a, w) -> Q a (set_env w s)) -> wp (call f) Q s.
Proof. intros H. unfold wp, call. destruct (f (Env s)) as [a w] eqn:E. by apply H. Qed.

Lemma wp_blob t b (Q : KERNEL_BLOB -> st -> Prop) s : mKernelBlob s !! t = Some b -> Q b s -> wp (blob t) Q s.
Proof. intros Hb HQ. unfold blob. wp_steps. rewrite wp_deref. eauto. Qed.

Lemma wp_upd_blob t f b (Q : unit -> st -> Prop) s :
  mKernelBlob s !! t = Some b -> Q tt (set_blobs (<[t := f b]> (mKernelBlob s)) s) -> wp (upd_blob t f) Q s.
Proof. intros Hb HQ. unfold upd_blob. wp_step. eapply wp_blob; [done|]. exact HQ. Qed.

Lemma wp_select k (Q : unit -> st -> Prop) s :
  inv s -> is_u16 k ->
  (forall w, fw_inv w -> fw_view w = mkView k 0 (con s) -> Q tt (set_env w s)) -> wp (QemuFwCfgSelectItem k) Q s.
Proof.
  intros Hi Hk HQ. unfold QemuFwCfgSelectItem. apply wp_call. intros [] w [= <-].
  destruct (fw_select_spec (Env s) k Hi Hk). by apply HQ.
Qed.

Lemma wp_fw_read n (Q : list Z -> st -> Prop) s :
  inv s -> 0 <= n ->
  (forall w, fw_inv w -> fw_view w = v_skip n (fw_view (Env s)) -> Q (v_bytes n (fw_view (Env s))) (set_env w s)) ->
  wp (QemuFwCfgReadBytes n) Q s.
Proof.
  intros Hi Hn HQ. unfold QemuFwCfgReadBytes. apply wp_call. intros bs w Hr.
  apply fw_read_spec in Hr as (-> & Hv & Hw); [|done..]. by apply HQ.
Qed.

(** *** The sizes *)
(** Only the environment and blob [t] changed. *)
Definition blob_set s t b w : st := set_env w (set_blobs (<[t := b]> (mKernelBlob s)) s).

Lemma blob_set_set s t b1 w1 b2 w2 : blob_set (blob_set s t b1 w1) t b2 w2 = blob_set s t b2 w2.
Proof. unfold blob_set. cbn. by rewrite list_insert_insert_eq. Qed.
Lemma blob_set_same s t b w : mKernelBlob s !! t = Some b -> blob_set s t b w = set_env w s.
Proof. intros H. unfold blob_set. rewrite list_insert_id by done. by destruct s. Qed.
Lemma blob_set_lookup s t b w b0 : mKernelBlob s !! t = Some b0 -> mKernelBlob (blob_set s t b w) !! t = Some b.
Proof. intros H. cbn. apply list_lookup_insert_eq. by apply lookup_lt_Some in H. Qed.

Lemma ReadSizes_spec t its : forall pre s b,
  inv s -> wf_items its -> mKernelBlob s !! t = Some b -> FwCfgItem b = pre ++ its -> 0 <= Size b ->
  Size b + Z.of_nat (length (blob_bytes (con s) its)) < 2 ^ 32 ->
  wp (ReadSizes t (seq (length pre) (length its)))
     (fun _ s' => exists w, fw_inv w /\ content (fw_view w) = con s /\
        s' = blob_set s t (mkBlob (Name b) (pre ++ sized (con s) its)
                             (Size b + Z.of_nat (length (blob_bytes (con s) its))) (Data b)) w) s.
Proof.
  induction its as [|it its IH]; intros pre s b Hi Hwf Hb Hits H0 Hsz; cbn [length seq ReadSizes].
  { rewrite wp_ret. exists (Env s). split; [done|]. split; [done|]. cbn. rewrite Z.add_0_r, <-Hits.
    rewrite blob_set_same; [by destruct s|]. rewrite Hb. by destruct b. }
  apply Forall_cons in Hwf as [(Hk & _ & _) Hwf]. rewrite blob_bytes_cons in *. cbn [sized].
  wp_step. eapply wp_blob; [exact Hb|]. wp_step. rewrite wp_deref. exists it. split.
  { rewrite Hits. by rewrite lookup_app_r, Nat.sub_diag by lia. }
  destruct (Z.eqb_spec (SizeKey it) 0) as [Hz|Hz].
  { rewrite wp_ret. exists (Env s). split; [done|]. split; [done|]. cbn. rewrite Z.add_0_r, <-Hits.
    rewrite blob_set_same; [by destruct s|]. rewrite Hb. by destruct b. }
  assert (forall k i, is_byte (con s k i)) as Hbyte by (intros; by apply fw_byte).
  rewrite length_app, Nat2Z.inj_add, length_item_bytes in Hsz |- * by done.
  wp_step. apply wp_select; [done..|]. intros w1 Hw1 Hv1. unfold QemuFwCfgRead32. wp_step. wp_step.
  apply wp_fw_read; [done|done|]. intros w2 Hw2 Hv2. cbn [Env set_env] in Hv2 |- *. rewrite Hv1 in Hv2 |- *. rewrite wp_ret.
  change (le_combine (v_bytes 4 (mkView (SizeKey it) 0 (con s)))) with (item_length (con s) it).
  wp_step. eapply wp_upd_blob; [done|].
  pose proof (item_length_range _ it Hbyte) as Hr. unfold is_u32 in Hr.
  set (b' := set_size _ _). set (s2 := set_blobs _ _).
  assert (b' = mkBlob (Name b) ((pre ++ [mkItem (SizeKey it) (DataKey it) (item_length (con s) it)]) ++ its)
                 (Size b + item_length (con s) it) (Data b)) as Hb'.
  { unfold b', set_size, set_item. cbn. f_equal.
    - rewrite Hits, alter_app_r_alt, Nat.sub_diag by lia. by rewrite <-(assoc_L (++)).
    - unfold u32. apply Z.mod_small. lia. }
  assert (s2 = blob_set s t b' w2) as Hs2 by done.
  assert (con s2 = con s) as Hc2 by (unfold con, s2; cbn; by rewrite Hv2).
  specialize (IH (pre ++ [mkItem (SizeKey it) (DataKey it) (item_length (con s) it)]) s2 b').
  rewrite length_app, Nat.add_1_r in IH. eapply wp_mono.
  - apply IH; rewrite ?Hc2; [exact Hw2|done|rewrite Hs2; by eapply blob_set_lookup|by rewrite Hb'|rewrite Hb'; cbn; lia|rewrite Hb'; cbn [Size]; lia].
  - intros [] s' (w & Hw & Hcw & ->). exists w. rewrite Hc2 in *. split; [done|]. split; [done|].
    rewrite Hs2, blob_set_set. rewrite Hb'. cbn [Name Size Data]. by rewrite <-(assoc_L (++)), Z.add_assoc.
Qed.

(** *** The data *)
(** Only the environment and block [p] changed. *)
Definition block_set s p block w : st := set_env w (set_pool (<[p := block]> (Pool s)) s).

Lemma block_set_set s p b1 w1 b2 w2 : block_set (block_set s p b1 w1) p b2 w2 = block_set s p b2 w2.
Proof. unfold block_set. cbn. by rewrite insert_insert_eq. Qed.
Lemma block_set_same s p block : Pool s !! p = Some block -> block_set s p block (Env s) = s.
Proof. intros H. unfold block_set. rewrite insert_id by done. by destruct s. Qed.

Lemma wp_store_at p off bs a m d (Q : unit -> st -> Prop) s :
  Pool s !! p = Some (a ++ m ++ d) -> off = Z.of_nat (length a) -> length m = length bs ->
  Q tt (set_pool (<[p := a ++ bs ++ d]> (Pool s)) s) -> wp (store_at p off bs) Q s.
Proof.
  intros Hp -> Hm HQ. unfold store_at. wp_steps. rewrite wp_deref. eexists. split; [exact Hp|].
  rewrite !length_app. rewrite (proj2 (Z.leb_le 0 _)), (proj2 (Z.leb_le (_ + _) _)) by lia. cbn [andb].
  rewrite wp_put, Nat2Z.id, take_app_length. rewrite (assoc_L (++) a m d), drop_app_length'; [done|].
  rewrite length_app. lia.
Qed.

Lemma ReadChunks_spec fuel : forall Left p off N s a m d,
  inv s -> 0 <= Left -> Left <= Z.of_nat fuel * SIZE_1MB -> Pool s !! p = Some (a ++ m ++ d) ->
  Z.of_nat (length a) = off + (N - Left) -> Z.of_nat (length m) = Left ->
  wp (ReadChunks fuel p off N Left)
     (fun _ s' => exists w, fw_inv w /\ content (fw_view w) = con s /\
        s' = block_set s p (a ++ v_bytes Left (fw_view (Env s)) ++ d) w) s.
Proof.
  unfold SIZE_1MB. induction fuel as [|fuel IH]; intros Left p off N s a m d Hi H0 Hf Hp Ha Hm; cbn [ReadChunks];
    destruct (Z.ltb_spec 0 Left) as [Hpos|Hpos]; try lia.
  1, 3: rewrite wp_ret; exists (Env s); split; [done|]; split; [done|]; rewrite v_bytes_nonpos by done;
    destruct m; [|cbn in Hm; lia]; by rewrite block_set_same.
  cbv zeta. unfold SIZE_1MB. set (Chunk := if Left <? 0x100000 then Left else 0x100000).
  assert (0 < Chunk <= Left /\ (Chunk = Left \/ Chunk = 0x100000)) as (HC & HC')
    by (unfold Chunk; destruct (Z.ltb_spec Left 0x100000); lia).
  wp_step. apply wp_fw_read; [done|lia|]. intros w Hw Hv. set (bs := v_bytes Chunk (fw_view (Env s))).
  assert (length bs = Z.to_nat Chunk) as Hbs by (unfold bs; by rewrite length_v_bytes).
  wp_step. eapply (wp_store_at p _ bs a (take (Z.to_nat Chunk) m) (drop (Z.to_nat Chunk) m ++ d)).
  - cbn. rewrite Hp. do 2 f_equal. by rewrite (assoc_L (++)), take_drop.
  - lia.
  - rewrite length_take. lia.
  - set (s1 := set_pool _ _). assert (s1 = block_set s p (a ++ bs ++ drop (Z.to_nat Chunk) m ++ d) w) as Hs1 by done.
    assert (con s1 = con s) as Hc1 by (unfold con; rewrite Hs1; cbn; by rewrite Hv).
    eapply wp_mono.
    + apply (IH (Left - Chunk) p off N s1 (a ++ bs) (drop (Z.to_nat Chunk) m) d); [done|lia|lia| | |].
      * rewrite Hs1. cbn. rewrite lookup_insert_eq. by rewrite <-(assoc_L (++)).
      * rewrite length_app. lia.
      * rewrite length_drop. lia.
    + intros [] s' (w' & Hw' & Hcw & ->). exists w'. rewrite Hc1 in Hcw. split; [done|]. split; [done|].
      rewrite Hs1, block_set_set. cbn [block_set Env set_env set_pool]. rewrite Hv. f_equal. rewrite <-!(assoc_L (++)). f_equal.
      rewrite (assoc_L (++)). f_equal. unfold bs. rewrite <-v_bytes_app by lia. f_equal. lia.
Qed.

Lemma ReadItems_spec t p its : forall pre off s b a m d,
  inv s -> wf_items its -> mKernelBlob s !! t = Some b -> FwCfgItem b = pre ++ sized (con s) its ->
  Pool s !! p = Some (a ++ m ++ d) -> off = Z.of_nat (length a) -> length m = length (blob_bytes (con s) its) ->
  wp (ReadItems t p off (seq (length pre) (length its)))
     (fun _ s' => exists w, fw_inv w /\ content (fw_view w) = con s /\
        s' = block_set s p (a ++ blob_bytes (con s) its ++ d) w) s.
Proof.
  induction its as [|it its IH]; intros pre off s b a m d Hi Hwf Hb Hits Hp Hoff Hm; cbn [length seq ReadItems].
  { rewrite wp_ret. exists (Env s). split; [done|]. split; [done|]. destruct m; [|discriminate Hm]. by rewrite block_set_same. }
  apply Forall_cons in Hwf as [(_ & Hk & Hz) Hwf]. rewrite blob_bytes_cons in *. cbn [sized] in Hits.
  wp_step. eapply wp_blob; [exact Hb|]. wp_step. rewrite wp_deref.
  assert (forall k i, is_byte (con s k i)) as Hbyte by (intros; by apply fw_byte).
  destruct (Z.eqb_spec (SizeKey it) 0) as [Hsk|Hsk].
  { exists it. split; [rewrite Hits; by rewrite lookup_app_r, Nat.sub_diag by lia|].
    rewrite (proj2 (Z.eqb_eq _ _) (proj2 Hz Hsk)). rewrite wp_ret. exists (Env s). split; [done|]. split; [done|].
    destruct m; [|discriminate Hm]. by rewrite block_set_same. }
  eexists. split; [rewrite Hits; by rewrite lookup_app_r, Nat.sub_diag by lia|]. cbn [DataKey ItemSize].
  rewrite (proj2 (Z.eqb_neq (DataKey it) 0)) by naive_solver.
  pose proof (item_length_range _ it Hbyte) as Hr. unfold is_u32 in Hr. pose proof (length_item_bytes _ it Hbyte) as Hl.
  rewrite length_app in Hm. wp_step. apply wp_select; [done..|]. intros w1 Hw1 Hv1.
  wp_step. eapply wp_mono.
  - apply (ReadChunks_spec _ (item_length (con s) it) p off _ (set_env w1 s) a (take (length (item_bytes (con s) it)) m)
             (drop (length (item_bytes (con s) it)) m ++ d)); [done|lia| | |lia|rewrite length_take; lia].
    + unfold SIZE_1MB. pose proof (Z.div_mod (item_length (con s) it) 0x100000).
      pose proof (Z.mod_pos_bound (item_length (con s) it) 0x100000). pose proof (Z.div_pos (item_length (con s) it) 0x100000). lia.
    + cbn. rewrite Hp. do 2 f_equal. by rewrite (assoc_L (++)), take_drop.
  - intros [] s1 (w2 & Hw2 & Hc2 & ->). cbn [Env set_env] in Hc2 |- *. rewrite Hv1. unfold con in Hc2. cbn [Env set_env] in Hc2.
    rewrite Hv1 in Hc2. cbn [content] in Hc2.
    change (v_bytes (item_length (con s) it) (mkView (DataKey it) 0 (con s))) with (item_bytes (con s) it).
    set (s2 := block_set _ _ _ _). assert (con s2 = con s) as Hcs2 by (unfold con at 1; cbn; by rewrite Hc2).
    specialize (IH (pre ++ [mkItem (SizeKey it) (DataKey it) (item_length (con s) it)]) (off + item_length (con s) it) s2 b
                  (a ++ item_bytes (con s) it) (drop (length (item_bytes (con s) it)) m) d).
    rewrite (length_app pre), Nat.add_1_r in IH. rewrite Hcs2 in IH. eapply wp_mono.
    + apply IH; [done|done|done| | | |].
      * rewrite Hits. by rewrite <-(assoc_L (++)).
      * cbn. rewrite lookup_insert_eq. by rewrite <-(assoc_L (++)).
      * rewrite length_app. lia.
      * rewrite length_drop. lia.
    + intros [] s' (w & Hw & Hcw & ->). exists w. split; [done|]. split; [done|].
      unfold s2. rewrite <-!(assoc_L (++)). unfold block_set. cbn. by rewrite insert_insert_eq.
Qed.

Definition fetched (c : Z -> Z -> Z) (b : KERNEL_BLOB) (p : option ptr) : KERNEL_BLOB :=
  mkBlob (Name b) (sized c (FwCfgItem b)) (Z.of_nat (length (blob_bytes c (FwCfgItem b)))) p.

(** FetchBlob stores the blob of fw_cfg in a new block, nothing if it is
    empty; only an allocation can fail. *)
Lemma FetchBlob_spec t s b :
  inv s -> mKernelBlob s !! t = Some b -> wf_items (FwCfgItem b) -> length (FwCfgItem b) = 2%nat -> Data b = None ->
  Z.of_nat (length (blob_bytes (con s) (FwCfgItem b))) < 2 ^ 32 ->
  wp (FetchBlob t)
     (fun Status s' => exists w, fw_inv w /\ content (fw_view w) = con s /\
        let c := con s in let data := blob_bytes c (FwCfgItem b) in
        (Status = EFI_SUCCESS /\ data = [] /\ s' = blob_set s t (fetched c b None) w) \/
        (Status = EFI_OUT_OF_RESOURCES /\ data <> [] /\ s' = blob_set s t (fetched c b None) w /\
           exists w0 w1, fw_inv w0 /\ content (fw_view w0) = c /\ pool_block w0 (Z.of_nat (length data)) = (None, w1)) \/
        (Status = EFI_SUCCESS /\ data <> [] /\ exists p, Pool s !! p = None /\ Files s !! p = None /\
           s' = block_set (blob_set s t (fetched c b (Some p)) w) p data w)) s.
Proof.
  intros Hi Hb Hwf Hlen Hd Hsz. set (c := con s) in *. set (data := blob_bytes c (FwCfgItem b)) in *.
  unfold FetchBlob. wp_step. eapply wp_upd_blob; [exact Hb|]. set (s1 := set_blobs _ _).
  assert (s1 = blob_set s t (set_size 0 b) (Env s)) as Hs1 by (unfold s1, blob_set; by destruct s).
  assert (con s1 = c) as Hc1 by done.
  wp_step. rewrite <-Hlen. eapply wp_mono.
  { apply (ReadSizes_spec t (FwCfgItem b) [] s1 (set_size 0 b)); rewrite ?Hc1; [done|done| |done|done|exact Hsz].
    rewrite Hs1. by eapply blob_set_lookup. }
  intros [] s2 (w2 & Hw2 & Hc2 & ->). rewrite Hc1 in Hc2 |- *. rewrite Hs1, blob_set_set. cbn [Name Size Data set_size app].
  rewrite Z.add_0_l, Hd. fold (fetched c b None). set (s2 := blob_set _ _ _ _).
  assert (mKernelBlob s2 !! t = Some (fetched c b None)) as Hb2 by (by eapply blob_set_lookup).
  wp_step. eapply wp_blob; [exact Hb2|]. cbn [Size fetched]. fold data. destruct (Z.eqb_spec (Z.of_nat (length data)) 0) as [Hz|Hz].
  { rewrite wp_ret. exists w2. split; [done|]. split; [done|]. left. destruct data; [done|discriminate Hz]. }
  assert (data <> []) as Hne by (intros E; by rewrite E in Hz).
  wp_step. unfold AllocatePool. wp_step. apply wp_call. intros r w3 Halloc. pose proof Halloc as Halloc0.
  apply pool_block_spec in Halloc as [[Hw3 Hc3] Hblock]; [|done]. cbn [Env s2 blob_set set_env] in Hc3. rewrite Hc2 in Hc3.
  assert (set_env w3 s2 = blob_set s t (fetched c b None) w3) as -> by done.
  assert (mKernelBlob (blob_set s t (fetched c b None) w3) !! t = Some (fetched c b None)) as Hb3 by (by eapply blob_set_lookup).
  destruct r as [block|].
  - specialize (Hblock block eq_refl). wp_steps. set (p := fresh _).
    assert (p ∉ dom (Pool s) ∪ dom (Files s)) as Hp by apply is_fresh.
    apply not_elem_of_union in Hp as [Hp1 Hp2]. apply not_elem_of_dom in Hp1. apply not_elem_of_dom in Hp2.
    eapply wp_upd_blob; [exact Hb3|]. set (s4 := set_blobs _ _).
    assert (s4 = block_set (blob_set s t (fetched c b (Some p)) w3) p block w3) as Hs4.
    { unfold s4, block_set, blob_set. cbn. by rewrite list_insert_insert_eq. }
    wp_step. eapply wp_mono.
    + apply (ReadItems_spec t p (FwCfgItem b) [] 0 s4 (fetched c b (Some p)) [] block []).
      * by rewrite Hs4.
      * done.
      * rewrite Hs4. cbn. apply list_lookup_insert_eq. by apply lookup_lt_Some in Hb.
      * rewrite Hs4. unfold con. cbn. by rewrite Hc3.
      * rewrite Hs4. cbn. rewrite lookup_insert_eq. by rewrite app_nil_r.
      * done.
      * rewrite Hblock. rewrite Hs4. unfold con. cbn. rewrite Hc3, Nat2Z.id. done.
    + intros [] s5 (w5 & Hw5 & Hc5 & ->). rewrite wp_ret. exists w5. split; [done|].
      assert (con s4 = c) as Hc4 by (rewrite Hs4; exact Hc3). rewrite Hc4 in Hc5 |- *. split; [done|]. right. right.
      split; [done|]. split; [done|]. exists p. split; [done|]. split; [done|]. cbn [app]. rewrite app_nil_r. fold data.
      rewrite Hs4. unfold block_set. cbn. by rewrite insert_insert_eq.
  - wp_steps. eapply wp_upd_blob; [exact Hb3|]. rewrite wp_ret. exists w3. split; [done|]. split; [done|]. right. left.
    split; [done|]. split; [done|]. split; [|by exists w2, w3]. unfold blob_set. cbn. by rewrite list_insert_insert_eq.
Qed.
End proofs.

(** * QemuKernelLoaderFsDxe: the entry point *)
(** What fw_cfg holds for blob [t]. *)
Definition blob_of (c : Z -> Z -> Z) (t : nat) : list Z :=
  match KernelBlobTable !! t with Some b => blob_bytes c (FwCfgItem b) | None => [] end.

Section entry.
Context {W : Type} {FW : FwCfgApi W} {KE : KernelEnv W} {SL : StrLib} {IL : InfoLayout} {KL : KernelLaws W}.
Implicit Types s : st (W := W).
(** The contents of fw_cfg, the pool before, and the time of the start. *)
Context (c : Z -> Z -> Z) (P0 : gmap ptr (list Z)) (time : list Z).
Context (Hsizes : forall t, Z.of_nat (length (blob_of c t)) < 2 ^ 32).

(** The pool and mKernelBlob once the first [k] blobs are downloaded. *)
Inductive progress : nat -> gmap ptr (list Z) -> list KERNEL_BLOB -> Prop :=
  | progress_0 : progress 0 P0 KernelBlobTable
  | progress_empty k P l b : progress k P l -> KernelBlobTable !! k = Some b -> blob_of c k = [] ->
      progress (S k) P (<[k := fetched c b None]> l)
  | progress_data k P l b p : progress k P l -> KernelBlobTable !! k = Some b -> blob_of c k <> [] -> P !! p = None ->
      progress (S k) (<[p := blob_of c k]> P) (<[k := fetched c b (Some p)]> l).

Lemma progress_rest k P l : progress k P l -> length l = 3%nat /\ forall t, (k <= t)%nat -> l !! t = KernelBlobTable !! t.
Proof.
  induction 1 as [|k P l b H [IH1 IH2] Hb He|k P l b p H [IH1 IH2] Hb He Hp]; [done|split..].
  1, 3: by rewrite length_insert.
  all: intros t Ht; rewrite list_lookup_insert_ne by lia; apply IH2; lia.
Qed.

Lemma progress_pool k P l : progress k P l -> P0 ⊆ P.
Proof.
  induction 1 as [| |k P l b p H IH Hb He Hp]; [done..|]. etrans; [exact IH|]. by apply insert_subseteq.
Qed.

(** Blob [t] as the file system will find it. *)
Definition ready_blob (P : gmap ptr (list Z)) (l : list KERNEL_BLOB) (t : nat) : Prop :=
  exists b0 b, KernelBlobTable !! t = Some b0 /\ l !! t = Some b /\ Name b = Name b0 /\
    Size b = Z.of_nat (length (blob_of c t)) /\
    match Data b with
    | None => blob_of c t = []
    | Some p => blob_of c t <> [] /\ P0 !! p = None /\ P !! p = Some (blob_of c t)
    end.

Lemma progress_ready k P l : progress k P l -> forall t, (t < k)%nat -> ready_blob P l t.
Proof.
  induction 1 as [|k P l b H IH Hb He|k P l b p H IH Hb He Hp]; intros t Ht; [lia|..];
    destruct (progress_rest _ _ _ H) as [Hl _];
    assert (k < 3)%nat by (by apply lookup_lt_Some in Hb); destruct (decide (t = k)) as [->|Hne].
  - exists b, (fetched c b None). rewrite list_lookup_insert_eq by lia. split_and!; try done.
    unfold blob_of. by rewrite Hb.
  - destruct (IH t) as (b0 & b1 & H1 & H2 & H3); [lia|]. exists b0, b1. by rewrite list_lookup_insert_ne by done.
  - exists b, (fetched c b (Some p)). rewrite list_lookup_insert_eq by lia. split_and!; try done.
    + unfold blob_of. by rewrite Hb.
    + split; [done|]. split; [|by rewrite lookup_insert_eq]. eapply lookup_weaken_None; [exact Hp|]. by eapply progress_pool.
  - destruct (IH t) as (b0 & b1 & H1 & H2 & H3 & H4 & H5); [lia|]. exists b0, b1. rewrite list_lookup_insert_ne by done.
    split_and!; try done. destruct (Data b1) as [q|]; [|done]. destruct H5 as (H6 & H7 & H8). split_and!; [done..|].
    rewrite lookup_insert_ne; [done|]. intros ->. congruence.
Qed.

(** Freeing the first [k] blobs leaves what else is in the pool. *)
Lemma FreeBlobs_spec Status L k P l : progress k P l -> forall s,
  (forall t, (t < k)%nat -> mKernelBlob s !! t = l !! t) -> Pool s = L ∪ P -> L ##ₘ P ->
  wp (FreeBlobs Status k) (fun r s' => r = Status /\ Pool s' = L ∪ P0 /\ Protocols s' = Protocols s) s.
Proof.
  induction 1 as [|k P l b H IH Hb He|k P l b p H IH Hb He Hp]; intros s Hl HP Hd; cbn [FreeBlobs].
  - by rewrite wp_ret.
  - destruct (progress_rest _ _ _ H) as [Hlen _]. assert (k < 3)%nat by (by apply lookup_lt_Some in Hb).
    wp_step. eapply (wp_blob k (fetched c b None)); [rewrite Hl by lia; rewrite list_lookup_insert_eq by lia; done|].
    cbn [Data fetched]. wp_step. rewrite wp_ret. apply IH; [|done|done]. intros t Ht. rewrite Hl by lia.
    by rewrite list_lookup_insert_ne by lia.
  - destruct (progress_rest _ _ _ H) as [Hlen _]. assert (k < 3)%nat by (by apply lookup_lt_Some in Hb).
    apply map_disjoint_insert_r in Hd as [HpL Hd].
    assert (mKernelBlob s !! k = Some (fetched c b (Some p))) as Hk by (rewrite Hl by lia; by rewrite list_lookup_insert_eq by lia).
    wp_step. eapply wp_blob; [exact Hk|]. cbn [Data fetched].
    wp_step. wp_step. unfold FreePool. wp_steps. rewrite wp_deref. exists (blob_of c k). split.
    { rewrite HP, lookup_union_r by done. by rewrite lookup_insert_eq. }
    rewrite wp_put. eapply wp_upd_blob; [exact Hk|]. eapply wp_mono; [apply IH|].
    + intros t Ht. cbn. rewrite list_lookup_insert_ne by lia. rewrite Hl by lia. by rewrite list_lookup_insert_ne by lia.
    + cbn. rewrite HP, delete_union, (delete_id L), delete_insert_id; done.
    + done.
    + done.
Qed.

Definition blob_length (t : nat) : Z := Z.of_nat (length (blob_of c t)).

(** *** The answers of the services *)
Definition served (w : W) : Prop := fw_inv w /\ content (fw_view w) = c.
Definition blob_name (t : nat) : list Z := match KernelBlobTable !! t with Some b => Name b | None => [] end.
Definition verifier_says (t : nat) (Status : EFI_STATUS) : Prop :=
  exists w w', served w /\
    VerifyBlob w (blob_name t) (if bool_decide (blob_of c t = []) then None else Some (blob_of c t)) (blob_length t) = (Status, w').
Definition verified (t : nat) : Prop := exists Status, verifier_says t Status /\ EFI_ERROR Status = false.

(** The three blobs are served, and no more than their blocks is held. *)
Definition loaded (s : st (W:=W)) : Prop :=
  (forall t, (t < KernelBlobTypeMax)%nat -> ready_blob (Pool s) (mKernelBlob s) t /\ verified t) /\ P0 ⊆ Pool s /\
  mTotalBlobBytes s = blob_length 0 + blob_length 1 + blob_length 2 /\ mInitTime s = time /\
  blob_of c KernelBlobTypeKernel <> [] /\
  Protocols s = (if bool_decide (blob_of c KernelBlobTypeInitrd = []) then [FileSystemProtocol] else [InitrdProtocol; FileSystemProtocol]).
(** No protocol, and the pool as before but for [L]. *)
Definition dropped (L : gmap ptr (list Z)) (s : st (W:=W)) : Prop :=
  Protocols s = [] /\ Pool s = L ∪ P0 /\ L ##ₘ P0.

(** Why it fails, with what status, and which block stays: there was no
    memory for a blob, the verifier refused one (its block stays), there is no
    kernel, or the file system could not be installed. *)
Inductive failed : EFI_STATUS -> gmap ptr (list Z) -> Prop :=
  | failed_memory t w w' :
      (t < KernelBlobTypeMax)%nat -> (forall t', (t' < t)%nat -> verified t') -> served w -> blob_of c t <> [] ->
      pool_block w (blob_length t) = (None, w') -> failed EFI_OUT_OF_RESOURCES ∅
  | failed_verify t Status L :
      (t < KernelBlobTypeMax)%nat -> (forall t', (t' < t)%nat -> verified t') -> verifier_says t Status ->
      EFI_ERROR Status = true ->
      (if bool_decide (blob_of c t = []) then L = ∅ else exists p, L = {[p := blob_of c t]}) -> failed Status L
  | failed_kernel :
      (forall t, (t < KernelBlobTypeMax)%nat -> verified t) -> blob_of c KernelBlobTypeKernel = [] -> failed EFI_NOT_FOUND ∅
  | failed_install w w' Status :
      (forall t, (t < KernelBlobTypeMax)%nat -> verified t) -> blob_of c KernelBlobTypeKernel <> [] -> served w ->
      InstallMultipleProtocolInterfaces w FileSystemProtocol = (Status, w') -> EFI_ERROR Status = true -> failed Status ∅.
(** The initrd's protocol could not be installed, and what uninstalling the
    file system answered then. *)
Definition undo_says (Status : EFI_STATUS) : Prop :=
  (forall t, (t < KernelBlobTypeMax)%nat -> verified t) /\
  blob_of c KernelBlobTypeKernel <> [] /\ blob_of c KernelBlobTypeInitrd <> [] /\
  exists w w' w'' Status', served w /\ InstallMultipleProtocolInterfaces w InitrdProtocol = (Status', w') /\
    EFI_ERROR Status' = true /\ UninstallMultipleProtocolInterfaces w' FileSystemProtocol = (Status, w'').

Definition outcome (Status : EFI_STATUS) (s : st (W:=W)) : Prop :=
  (Status = EFI_SUCCESS /\ loaded s) \/
  (EFI_ERROR Status = true /\ exists L, failed Status L /\ dropped L s) \/
  (EFI_ERROR Status = false /\ undo_says Status /\ dropped ∅ s).
(** The assertion that uninstalling succeeds. *)
Definition undo_refused (t : trap) : Prop :=
  asserted t /\ exists Status, undo_says Status /\ EFI_ERROR Status = true.

Lemma FreeBlobs_dropped Status L k l s P :
  progress k P l -> (forall t, (t < k)%nat -> mKernelBlob s !! t = l !! t) -> Pool s = L ∪ P -> L ##ₘ P -> Protocols s = [] ->
  wp (FreeBlobs Status k) (fun r s' => r = Status /\ dropped L s') s.
Proof.
  intros H Hl HP Hd Hpr. eapply wp_mono; [by eapply FreeBlobs_spec|]. intros r s' (-> & HP' & Hpr'). split; [done|].
  split_and!; [congruence|done|]. eapply map_disjoint_weaken_r; [exact Hd|]. by eapply progress_pool.
Qed.

Lemma FreeBlobs_outcome Status k s :
  progress k (Pool s) (mKernelBlob s) -> Protocols s = [] -> EFI_ERROR Status = true -> failed Status ∅ ->
  wpe (FreeBlobs Status k) outcome undo_refused s.
Proof.
  intros H Hpr HS Hf. apply wp_wpe. eapply wp_mono.
  - eapply (FreeBlobs_dropped Status ∅); [exact H|done|by rewrite map_empty_union|apply map_disjoint_empty_l|done].
  - intros r s' (-> & Hd). right. left. split; [done|]. by exists ∅.
Qed.

Lemma keep_served s w : inv s -> con s = c -> fw_keep (Env s) w -> served w.
Proof. intros Hi Hc [Hw Hcw]. split; [done|]. rewrite Hcw. exact Hc. Qed.

Lemma wp_Install proto s (Q : EFI_STATUS -> st -> Prop) :
  inv s ->
  (forall Status w, InstallMultipleProtocolInterfaces (Env s) proto = (Status, w) -> fw_keep (Env s) w ->
     Q Status (set_protocols (if EFI_ERROR Status then Protocols s else proto :: Protocols s) (set_env w s))) ->
  wp (Install proto) Q s.
Proof.
  intros Hi HQ. unfold Install. wp_step. apply wp_call. intros Status w HI. pose proof HI as Hk. apply Install_spec in Hk; [|done].
  specialize (HQ Status w HI Hk). wp_step. destruct (EFI_ERROR Status); [by destruct s|done].
Qed.

(** The label that undoes the file system's installation. *)
Lemma Undo_spec s w Status' w' :
  inv s -> served w -> progress KernelBlobTypeMax (Pool s) (mKernelBlob s) -> Protocols s = [FileSystemProtocol] ->
  (forall t, (t < KernelBlobTypeMax)%nat -> verified t) ->
  blob_of c KernelBlobTypeKernel <> [] -> blob_of c KernelBlobTypeInitrd <> [] ->
  InstallMultipleProtocolInterfaces w InitrdProtocol = (Status', w') -> EFI_ERROR Status' = true -> Env s = w' ->
  wpe UninstallFileSystemHandle outcome undo_refused s.
Proof.
  intros Hi Hw H Hpr Hver Hk Hin HI HS HE. unfold UninstallFileSystemHandle. apply wpe_bind_wp. unfold Uninstall. wp_step.
  apply wp_call. intros Status w2 Hu. rewrite HE in Hu.
  assert (undo_says Status) as Hundo by (repeat split; try done; by exists w, w', w2, Status').
  destruct (EFI_ERROR Status) eqn:HS2; wp_steps; rewrite HS2; cbn [negb].
  - apply wpe_bind, wpe_ASSERT_if; [|done]. intros _. split; [done|]. by exists Status.
  - apply wpe_bind, wpe_ASSERT_if; [done|]. intros _. apply wp_wpe. eapply wp_mono.
    + eapply (FreeBlobs_dropped Status ∅); [exact H|done|by rewrite map_empty_union|apply map_disjoint_empty_l|].
      cbn. by rewrite Hpr.
    + intros r s' (-> & Hd). right. by right.
Qed.

Lemma InstallProtocols_spec s :
  inv s -> con s = c -> progress KernelBlobTypeMax (Pool s) (mKernelBlob s) -> Protocols s = [] ->
  mTotalBlobBytes s = blob_length 0 + blob_length 1 + blob_length 2 -> mInitTime s = time ->
  (forall t, (t < KernelBlobTypeMax)%nat -> verified t) ->
  wpe InstallProtocols outcome undo_refused s.
Proof.
  intros Hi Hc H Hpr Htot Htime Hver. pose proof (progress_ready _ _ _ H) as Hready.
  destruct (Hready KernelBlobTypeKernel) as (b0 & b & _ & Hb & _ & _ & Hdata); [unfold KernelBlobTypeKernel, KernelBlobTypeMax; lia|].
  destruct (Hready KernelBlobTypeInitrd) as (i0 & i & _ & Hib & _ & Hisz & _); [unfold KernelBlobTypeInitrd, KernelBlobTypeMax; lia|].
  assert (forall pr w, blob_of c KernelBlobTypeKernel <> [] ->
            pr = (if bool_decide (blob_of c KernelBlobTypeInitrd = []) then [FileSystemProtocol] else [InitrdProtocol; FileSystemProtocol]) ->
            loaded (set_protocols pr (set_env w s))) as Hload.
  { intros pr w Hk Hp. split; [by auto|]. split_and!; [by eapply progress_pool|done..]. }
  unfold InstallProtocols. apply wpe_bind_wp. eapply wp_blob; [exact Hb|].
  destruct (Data b) as [p|]; [|apply FreeBlobs_outcome; [done..|by constructor]]. destruct Hdata as (Hne & _ & _).
  apply wpe_bind_wp, wp_Install; [done|]. intros Status w HI Hw. rewrite Hpr.
  pose proof (keep_served s w Hi Hc Hw) as Hsv. destruct (EFI_ERROR Status) eqn:HS.
  { apply FreeBlobs_outcome; [done..|]. by apply (failed_install (Env s) w). }
  apply wpe_bind_wp. eapply wp_blob; [exact Hib|]. rewrite Hisz.
  destruct (Z.ltb_spec 0 (Z.of_nat (length (blob_of c KernelBlobTypeInitrd)))) as [Hl|Hl].
  - assert (blob_of c KernelBlobTypeInitrd <> []) as Hine by (intros E; rewrite E in Hl; cbn in Hl; lia).
    apply wpe_bind_wp, wp_Install; [apply Hw|]. intros Status2 w2 HI2 Hw2. cbn [Env set_protocols set_env Protocols] in HI2, Hw2 |- *.
    destruct (EFI_ERROR Status2) eqn:HS2.
    + eapply (Undo_spec _ w Status2 w2); try done. apply Hw2.
    + left. split; [done|]. change (loaded (set_protocols [InitrdProtocol; FileSystemProtocol] (set_env w2 s))).
      apply Hload; [done|]. by rewrite bool_decide_eq_false_2.
  - assert (blob_of c KernelBlobTypeInitrd = []) as Hie by (destruct (blob_of c KernelBlobTypeInitrd); [done|cbn in Hl; lia]).
    left. split; [done|]. apply Hload; [done|]. by rewrite bool_decide_eq_true_2.
Qed.

Definition total_before (t : nat) : Z :=
  match t with 0%nat => 0 | 1%nat => blob_length 0 | 2%nat => blob_length 0 + blob_length 1 | _ => blob_length 0 + blob_length 1 + blob_length 2 end.

(** The verifier's part of the loop, once blob [t] is in place. *)
Lemma VerifyBlob_spec_loop n t s b s1 p P :
  (S n + t = KernelBlobTypeMax)%nat -> KernelBlobTable !! t = Some b -> progress t (Pool s) (mKernelBlob s) ->
  inv s1 -> con s1 = c -> Protocols s1 = [] -> mTotalBlobBytes s1 = total_before t ->
  (forall t', (t' < t)%nat -> verified t') ->
  mKernelBlob s1 = <[t := fetched c b p]> (mKernelBlob s) -> Pool s1 = P ∪ Pool s -> P ##ₘ Pool s ->
  match p with
  | None => blob_of c t = [] /\ P = ∅
  | Some q => blob_of c t <> [] /\ P = {[q := blob_of c t]}
  end ->
  (forall s2, inv s2 -> con s2 = c -> Pool s2 = Pool s1 -> mKernelBlob s2 = mKernelBlob s1 -> Protocols s2 = [] ->
     mInitTime s2 = mInitTime s1 -> mTotalBlobBytes s2 = total_before (S t) -> verified t ->
     wpe (FetchBlobs n (S t)) outcome undo_refused s2) ->
  wpe (CurrentBlob ← blob t; data ← blob_data CurrentBlob;
       Status ← call (fun w => VerifyBlob w (Name CurrentBlob) data (Size CurrentBlob));
       if EFI_ERROR Status then FreeBlobs Status t
       else modify (fun s => set_total (u64 (mTotalBlobBytes s + Size CurrentBlob)) s);; FetchBlobs n (S t)) outcome undo_refused s1.
Proof.
  intros Hnt Hb H Hi1 Hc1 Hpr1 Htot1 Hver Hl1 HP HPd Hp Hnext. destruct (progress_rest _ _ _ H) as [Hlen _].
  unfold KernelBlobTypeMax in Hnt.
  assert (blob_bytes c (FwCfgItem b) = blob_of c t) as Hbo by (unfold blob_of; by rewrite Hb).
  assert (mKernelBlob s1 !! t = Some (fetched c b p)) as Hb1 by (rewrite Hl1; by rewrite list_lookup_insert_eq by lia).
  apply wpe_bind_wp. eapply wp_blob; [exact Hb1|]. apply wpe_bind_wp. eapply (proj2 (wp_run _ _ _)).
  exists (if bool_decide (blob_of c t = []) then None else Some (blob_of c t)), s1. split.
  { unfold blob_data. destruct p as [q|]; destruct Hp as [Hne HPq]; cbn [Data fetched].
    - rewrite bool_decide_eq_false_2 by done. unfold mbind, M_bind, get, deref. rewrite HP, HPq.
      by rewrite (lookup_union_Some_l _ _ q (blob_of c t)) by apply lookup_singleton_eq.
    - by rewrite bool_decide_eq_true_2. }
  apply wpe_bind_wp, wp_call. intros Status w Hv. cbn [Name Size fetched] in Hv |- *. rewrite Hbo in Hv |- *. fold (blob_length t) in Hv |- *.
  assert (verifier_says t Status) as Hsays.
  { exists (Env s1), w. unfold blob_name. rewrite Hb. done. }
  apply VerifyBlob_spec in Hv as [Hw2 Hc2]; [|done]. destruct (EFI_ERROR Status) eqn:HS.
  - apply wp_wpe. eapply wp_mono.
    + eapply (FreeBlobs_dropped Status P t (mKernelBlob s) _ (Pool s)); [exact H| |exact HP|done|exact Hpr1].
      intros t' Ht'. cbn. rewrite Hl1. by rewrite list_lookup_insert_ne by lia.
    + intros r s' (-> & Hdr). right. left. split; [done|]. exists P. split; [|done].
      apply (failed_verify t); [unfold KernelBlobTypeMax; lia|done..|].
      destruct p as [q|]; destruct Hp as [Hne ->]; [rewrite bool_decide_eq_false_2 by done; by exists q|by rewrite bool_decide_eq_true_2].
  - apply wpe_bind_wp. rewrite wp_modify. apply Hnext; [done|unfold con; cbn; by rewrite Hc2|done..| |by exists Status].
    cbn. rewrite Htot1. unfold u64. pose proof (Hsizes 0). pose proof (Hsizes 1). pose proof (Hsizes 2).
    fold (blob_length 0) (blob_length 1) (blob_length 2) in *.
    assert (t = 0 \/ t = 1 \/ t = 2)%nat as [->|[->| ->]] by lia; cbn [total_before]; rewrite Z.mod_small; unfold blob_length in *; lia.
Qed.

Lemma FetchBlobs_spec n : forall t s,
  (n + t = KernelBlobTypeMax)%nat -> inv s -> con s = c -> progress t (Pool s) (mKernelBlob s) -> Protocols s = [] ->
  mTotalBlobBytes s = total_before t -> mInitTime s = time -> (forall t', (t' < t)%nat -> verified t') ->
  wpe (FetchBlobs n t) outcome undo_refused s.
Proof.
  unfold KernelBlobTypeMax. induction n as [|n IH]; intros t s Hnt Hi Hc H Hpr Htot Htime Hver; cbn [FetchBlobs].
  { assert (t = 3%nat) as -> by lia. by apply InstallProtocols_spec. }
  destruct (lookup_lt_is_Some_2 KernelBlobTable t) as [b Hb]; [cbn; lia|].
  destruct (progress_rest _ _ _ H) as [Hlen Hrest].
  assert (mKernelBlob s !! t = Some b) as Hsb by (rewrite Hrest by lia; done).
  assert (blob_bytes c (FwCfgItem b) = blob_of c t) as Hbo by (unfold blob_of; by rewrite Hb).
  assert (wf_items (FwCfgItem b) /\ length (FwCfgItem b) = 2%nat /\ Data b = None) as (Hwf & Hl2 & Hd).
  { clear -Hb. do 3 (destruct t as [|t]; [injection Hb as <-; cbn; split_and!; [|done..];
      unfold wf_items, is_u16; repeat constructor; cbn; lia|]). discriminate Hb. }
  apply wpe_bind_wp. eapply wp_mono.
  { apply (FetchBlob_spec t s b); [done|done|done|done|done|]. by rewrite Hc, Hbo. }
  intros Status s1 (w & Hw & Hcw & Hcase). rewrite Hc in Hcw, Hcase. cbv zeta in Hcase. rewrite Hbo in Hcase.
  assert (forall s2, Pool s2 = Pool s1 -> mKernelBlob s2 = mKernelBlob s1 -> progress (S t) (Pool s1) (mKernelBlob s1) ->
            verified t -> inv s2 -> con s2 = c -> Protocols s2 = [] -> mInitTime s2 = time -> mTotalBlobBytes s2 = total_before (S t) ->
            wpe (FetchBlobs n (S t)) outcome undo_refused s2) as Hnext.
  { intros s2 HP2 Hl2' Hprog Hvt Hi2 Hc2 Hpr2 Ht2 Htot2. apply IH; try done; [lia|by rewrite HP2, Hl2'|].
    intros t' Ht'. destruct (decide (t' = t)) as [->|]; [done|]. apply Hver. lia. }
  destruct Hcase as [(-> & He & ->)|[(-> & Hne & -> & w0 & w1 & Hw0 & Hc0 & Hnone)|(-> & Hne & p & Hp & _ & ->)]].
  - cbn [EFI_ERROR]. apply (VerifyBlob_spec_loop n t s b _ None ∅); try done.
    + cbn. by rewrite map_empty_union.
    + apply map_disjoint_empty_l.
    + intros s2 Hi2 Hc2 HP2 Hl2' Hpr2 Ht2 Htot2 Hvt. apply Hnext; try done; [by apply progress_empty|by rewrite Ht2].
  - apply wp_wpe. eapply wp_mono.
    + eapply (FreeBlobs_dropped EFI_OUT_OF_RESOURCES ∅ t (mKernelBlob s) _ (Pool s));
        [exact H| |by rewrite map_empty_union|apply map_disjoint_empty_l|done].
      intros t' Ht'. cbn. by rewrite list_lookup_insert_ne by lia.
    + intros r s' (-> & Hdr). right. left. split; [done|]. exists ∅. split; [|done].
      apply (failed_memory t w0 w1); try done. unfold KernelBlobTypeMax. lia.
  - apply (VerifyBlob_spec_loop n t s b _ (Some p) {[p := blob_of c t]}); try done.
    + cbn. by rewrite insert_union_singleton_l.
    + by apply map_disjoint_singleton_l_2.
    + intros s2 Hi2 Hc2 HP2 Hl2' Hpr2 Ht2 Htot2 Hvt. apply Hnext; try done; [by apply progress_data|by rewrite Ht2].
Qed.
End entry.
