(* ===== verification/KernelFsClaims.v ===== *)
(** * QemuKernelLoaderFsDxe: the file protocol, and the claims *)
From S2P Require Import Prelude Bytes FwCfgProofs FwCfgApi KernelFs KernelFsProofs.

Class StrLibLaws {SL : StrLib} : Prop := {
  StrCmp_0 a b : 0 ∈ a -> 0 ∈ b -> StrCmp a b = 0 <-> cstr a = cstr b;
  StrLen_spec a : 0 ∈ a -> StrLen a = Z.of_nat (length (cstr a));
}.
(** The structure that ends in a character is at most as long as with the
    names of the blobs. *)
Class LayoutLaws {IL : InfoLayout} : Prop := {
  FileName_offset : 0 <= OFFSET_OF_FileName;
  FileInfo_names : sizeof_EFI_FILE_INFO <= OFFSET_OF_FileName + 14;
}.

(** The blob of a name. *)
Definition find_name (FileName : list Z) : option nat :=
  fst <$> list_find (fun b => cstr FileName = cstr (Name b)) KernelBlobTable.

Section session.
Context {W : Type} {FW : FwCfgApi W} {KE : KernelEnv W} {SL : StrLib} {IL : InfoLayout}.

(** Reads of the sizes [ns], one after the other. *)
Fixpoint reads (This : ptr) (ns : list Z) : M (st (W := W)) (list reply) :=
  match ns with
  | [] => mret []
  | n :: ns => r ← StubFileRead This n; l ← reads This ns; mret (r :: l)
  end.

(** A client: opens a file of the root, seeks, reads, closes. *)
Definition session (Root : ptr) (FileName : list Z) (Pos : Z) (ns : list Z) : M (st (W := W)) (EFI_STATUS * list reply) :=
  r ← StubFileOpen Root FileName EFI_FILE_MODE_READ;
  match r.2 with
  | None => mret (r.1, [])
  | Some f => StubFileSetPosition f Pos;; l ← reads f ns; StubFileClose f;; mret (r.1, l)
  end.
End session.

(** What reading a file holding [data] from [pos] answers. *)
Fixpoint expected (data : list Z) (pos : Z) (ns : list Z) : list reply :=
  match ns with
  | [] => []
  | n :: ns =>
      if Z.of_nat (length data) <? pos then (EFI_DEVICE_ERROR, n, Nothing) :: expected data pos ns
      else
        let m := Z.min n (Z.of_nat (length data) - pos) in
        (EFI_SUCCESS, m, if bool_decide (data = []) then Nothing else Bytes (take (Z.to_nat m) (drop (Z.to_nat pos) data)))
          :: expected data (pos + m) ns
  end.
Definition reply_bytes (r : reply) : list Z := match r.2 with Bytes l => l | _ => [] end.

Lemma expected_bytes data : forall ns pos,
  0 <= pos <= Z.of_nat (length data) -> Forall (fun n => 0 <= n) ns ->
  concat (reply_bytes <$> expected data pos ns) = take (Z.to_nat (foldr Z.add 0 ns)) (drop (Z.to_nat pos) data).
Proof.
  induction ns as [|n ns IH]; intros pos Hp Hns; [done|]. apply Forall_cons in Hns as [Hn Hns]. cbn [expected foldr].
  assert (0 <= foldr Z.add 0 ns) as Hsum by (clear -Hns; induction Hns; cbn; lia).
  destruct (Z.ltb_spec (Z.of_nat (length data)) pos); [lia|]. cbn [fmap list_fmap concat].
  rewrite IH by (done || lia). set (m := Z.min n _).
  assert (reply_bytes (EFI_SUCCESS, m, if bool_decide (data = []) then Nothing else Bytes (take (Z.to_nat m) (drop (Z.to_nat pos) data)))
          = take (Z.to_nat m) (drop (Z.to_nat pos) data)) as ->.
  { case_bool_decide as Hd; [|done]. subst data. by rewrite drop_nil, take_nil. }
  destruct (Z.le_gt_cases n (Z.of_nat (length data) - pos)) as [Hle|Hgt].
  - assert (m = n) as -> by lia. rewrite !Z2Nat.inj_add by lia. rewrite <-drop_drop. by rewrite <-take_take_drop.
  - assert (m = Z.of_nat (length data) - pos) as -> by lia. rewrite (drop_ge _ (Z.to_nat (pos + _))) by lia.
    rewrite take_nil, app_nil_r. rewrite !take_ge; [done|rewrite length_drop; lia|rewrite length_drop; lia].
Qed.

Section claims.
Context {W : Type} {FW : FwCfgApi W} {KE : KernelEnv W} {SL : StrLib} {IL : InfoLayout} {KL : KernelLaws W}.
Context {SLL : StrLibLaws} {LL : LayoutLaws}.
Implicit Types s : st (W := W).
Context (c : Z -> Z -> Z) (P0 : gmap ptr (list Z)) (Hsizes : forall t, Z.of_nat (length (blob_of c t)) < 2 ^ 32).

(** The blobs are in place. *)
Definition serves s : Prop := forall t, (t < KernelBlobTypeMax)%nat -> ready_blob c P0 (Pool s) (mKernelBlob s) t.

Lemma wp_file This f (Q : STUB_FILE -> st -> Prop) s : Files s !! This = Some f -> Q f s -> wp (file This) Q s.
Proof. intros Hf HQ. unfold file. wp_steps. rewrite wp_deref. eauto. Qed.

Definition with_file s (This : ptr) (f : STUB_FILE) : st := set_files (<[This := f]> (Files s)) s.
Lemma with_file_with_file s This f1 f2 : with_file (with_file s This f1) This f2 = with_file s This f2.
Proof. unfold with_file. cbn. by rewrite insert_insert_eq. Qed.

Lemma StubFileRead_spec This t pos n s :
  serves s -> (t < KernelBlobTypeMax)%nat -> Files s !! This = Some (mkStub t pos) -> is_u64 pos -> 0 <= n ->
  wp (StubFileRead This n)
     (fun r s' => exists pos', is_u64 pos' /\ s' = with_file s This (mkStub t pos') /\
        forall ns, expected (blob_of c t) pos (n :: ns) = r :: expected (blob_of c t) pos' ns) s.
Proof.
  intros Hs Ht Hf Hpos Hn. destruct (Hs t Ht) as (b0 & b & _ & Hb & _ & Hsz & Hd). pose proof (Hsizes t) as Hlt.
  unfold is_u64 in *. unfold StubFileRead. wp_step. eapply wp_file; [exact Hf|]. cbn [BlobType Position].
  rewrite (proj2 (Nat.eqb_neq _ _)) by lia. wp_step. eapply wp_blob; [exact Hb|]. rewrite Hsz. cbn [expected].
  destruct (Z.ltb_spec (Z.of_nat (length (blob_of c t))) pos) as [Hlt'|Hle].
  { rewrite wp_ret. exists pos. split; [done|]. split; [|done]. unfold with_file. rewrite insert_id by done. by destruct s. }
  cbv zeta. set (m := if _ <? n then _ else n). assert (m = Z.min n (Z.of_nat (length (blob_of c t)) - pos)) as Hm
    by (unfold m; destruct (Z.ltb_spec (Z.of_nat (length (blob_of c t)) - pos) n); lia). clearbody m. rewrite <-Hm.
  wp_step. eapply (proj2 (wp_run _ _ _)).
  exists (if bool_decide (blob_of c t = []) then Nothing else Bytes (take (Z.to_nat m) (drop (Z.to_nat pos) (blob_of c t)))), s.
  split.
  - destruct (Data b) as [p|].
    + destruct Hd as (Hne & _ & Hp). rewrite bool_decide_eq_false_2 by done.
      unfold copy_from, mbind, M_bind, get, deref. rewrite Hp.
      rewrite (proj2 (Z.leb_le 0 pos)), (proj2 (Z.leb_le 0 m)), (proj2 (Z.leb_le (pos + m) _)) by lia. done.
    + by rewrite bool_decide_eq_true_2.
  - wp_steps. unfold set_file. exists (pos + m). split; [lia|]. split; [|done]. unfold u64. by rewrite Z.mod_small by lia.
Qed.

Lemma reads_spec This t ns : forall pos s,
  serves s -> (t < KernelBlobTypeMax)%nat -> Files s !! This = Some (mkStub t pos) -> is_u64 pos ->
  Forall (fun n => 0 <= n) ns ->
  wp (reads This ns)
     (fun l s' => l = expected (blob_of c t) pos ns /\ exists f, s' = with_file s This f) s.
Proof.
  induction ns as [|n ns IH]; intros pos s Hs Ht Hf Hpos Hns; cbn [reads].
  { rewrite wp_ret. split; [done|]. exists (mkStub t pos). unfold with_file. rewrite insert_id by done. by destruct s. }
  apply Forall_cons in Hns as [Hn Hns]. wp_step. eapply wp_mono; [by eapply StubFileRead_spec|].
  intros r s1 (pos' & Hpos' & -> & Hexp). wp_step. eapply wp_mono.
  { eapply IH; [exact Hs|exact Ht|cbn; by rewrite lookup_insert_eq|exact Hpos'|exact Hns]. }
  intros l s2 (-> & f & ->). rewrite wp_ret, Hexp. split; [done|]. exists f. by rewrite with_file_with_file.
Qed.

Lemma find_name_cases FileName :
  find_name FileName =
  if bool_decide (cstr FileName = cstr KERNEL_NAME) then Some 0%nat
  else if bool_decide (cstr FileName = cstr INITRD_NAME) then Some 1%nat
  else if bool_decide (cstr FileName = cstr CMDLINE_NAME) then Some 2%nat else None.
Proof.
  unfold find_name, KernelBlobTable. cbn [list_find Name].
  destruct (decide (cstr FileName = cstr KERNEL_NAME)); [by rewrite bool_decide_eq_true_2|]. rewrite bool_decide_eq_false_2 by done.
  destruct (decide (cstr FileName = cstr INITRD_NAME)); [by rewrite bool_decide_eq_true_2|]. rewrite bool_decide_eq_false_2 by done.
  destruct (decide (cstr FileName = cstr CMDLINE_NAME)); [by rewrite bool_decide_eq_true_2|]. by rewrite bool_decide_eq_false_2 by done.
Qed.

Lemma StrCmp_bool a b : 0 ∈ a -> 0 ∈ b -> (StrCmp a b =? 0) = bool_decide (cstr a = cstr b).
Proof.
  intros Ha Hb. pose proof (StrCmp_0 a b Ha Hb). case_bool_decide; [apply Z.eqb_eq|apply Z.eqb_neq]; naive_solver.
Qed.

Lemma name_terminated b t : KernelBlobTable !! t = Some b -> 0 ∈ Name b.
Proof.
  intros H. do 3 (destruct t as [|t]; [injection H as <-; apply list_elem_of_In; cbn; tauto|]). discriminate H.
Qed.

Lemma LocateFile_spec FileName s (Q : nat -> st -> Prop) :
  serves s -> 0 ∈ FileName -> Q (default KernelBlobTypeMax (find_name FileName)) s ->
  wp (LocateFile FileName KernelBlobTypeMax 0) Q s.
Proof.
  intros Hs H0 HQ. rewrite find_name_cases in HQ. unfold serves, KernelBlobTypeMax in *.
  destruct (Hs 0%nat) as (b0 & b & Hb0 & Hb & Hn & _); [lia|].
  destruct (Hs 1%nat) as (b0' & b' & Hb0' & Hb' & Hn' & _); [lia|].
  destruct (Hs 2%nat) as (b0'' & b'' & Hb0'' & Hb'' & Hn'' & _); [lia|].
  cbn [LocateFile]. wp_step. eapply wp_blob; [exact Hb|]. rewrite Hn, StrCmp_bool by eauto using name_terminated.
  injection Hb0 as <-. cbn [Name]. case_bool_decide; [exact HQ|].
  wp_step. eapply wp_blob; [exact Hb'|]. rewrite Hn', StrCmp_bool by eauto using name_terminated.
  injection Hb0' as <-. cbn [Name]. case_bool_decide; [exact HQ|].
  wp_step. eapply wp_blob; [exact Hb''|]. rewrite Hn'', StrCmp_bool by eauto using name_terminated.
  injection Hb0'' as <-. cbn [Name]. case_bool_decide; exact HQ.
Qed.

Lemma wp_AllocateStub f s (Q : option ptr -> st -> Prop) :
  inv s ->
  (forall w, Q None (set_env w s)) ->
  (forall w p, Files s !! p = None -> Q (Some p) (set_files (<[p := f]> (Files s)) (set_env w s))) ->
  wp (AllocateStub f) Q s.
Proof.
  intros Hi HN HS. unfold AllocateStub. wp_step. apply wp_call. intros r w _. destruct r as [block|]; [|apply HN].
  wp_steps. set (p := fresh _). cbn [Files set_env]. apply HS.
  assert (p ∉ dom (Pool s) ∪ dom (Files s)) as Hp by apply is_fresh.
  apply not_elem_of_union in Hp as [_ Hp]. by apply not_elem_of_dom in Hp.
Qed.

Lemma find_name_lt FileName t : find_name FileName = Some t -> (t < KernelBlobTypeMax)%nat.
Proof. rewrite find_name_cases. unfold KernelBlobTypeMax. intros H. repeat case_bool_decide; simplify_eq; lia. Qed.

(** Where a seek leads. *)
Definition seek (t : nat) (Pos : Z) : Z := if Pos =? MAX_UINT64 then Z.of_nat (length (blob_of c t)) else Pos.

Lemma session_spec Root FileName Pos ns d s :
  serves s -> inv s -> Files s !! Root = Some (mkStub KernelBlobTypeMax d) -> 0 ∈ FileName -> is_u64 Pos ->
  Forall (fun n => 0 <= n) ns ->
  wp (session Root FileName Pos ns)
     (fun r s' => (exists w, s' = set_env w s) /\
        match find_name FileName with
        | None => r = (EFI_NOT_FOUND, [])
        | Some t => r = (EFI_OUT_OF_RESOURCES, []) \/ r = (EFI_SUCCESS, expected (blob_of c t) (seek t Pos) ns)
        end) s.
Proof.
  intros Hs Hi HR H0 HP Hns. unfold session, StubFileOpen. rewrite Z.eqb_refl. wp_step. wp_step. eapply wp_file; [exact HR|].
  cbn [BlobType]. rewrite Nat.eqb_refl. cbn [negb]. wp_step. apply LocateFile_spec; [done|done|].
  destruct (find_name FileName) as [t|] eqn:Hfind; unfold default, id.
  2: { rewrite Nat.eqb_refl. wp_step. cbn [fst snd]. rewrite wp_ret. split; [|done]. exists (Env s). by destruct s. }
  apply find_name_lt in Hfind.
  rewrite (proj2 (Nat.eqb_neq t KernelBlobTypeMax)) by lia.
  wp_step. apply wp_AllocateStub; [done| |].
  { intros w. wp_step. cbn [fst snd]. rewrite wp_ret. split; [by exists w|]. by left. }
  intros w f Hf. wp_step. cbn [fst snd]. destruct (Hs t Hfind) as (b0 & b & _ & Hb & _ & Hsz & _).
  set (s1 := set_files _ _). assert (Files s1 !! f = Some (mkStub t 0)) as Hf1 by (cbn; by rewrite lookup_insert_eq).
  wp_step. unfold StubFileSetPosition. wp_step. eapply wp_file; [exact Hf1|]. cbn [BlobType].
  rewrite (proj2 (Nat.eqb_neq t KernelBlobTypeMax)) by lia. wp_step. eapply wp_blob; [exact Hb|]. rewrite Hsz. fold (seek t Pos).
  wp_step. unfold set_file. rewrite wp_modify, wp_ret.
  set (s2 := set_files _ s1). assert (s2 = with_file (set_env w s) f (mkStub t (seek t Pos))) as Hs2.
  { unfold s2, with_file. cbn. by rewrite insert_insert_eq. }
  wp_step. eapply wp_mono.
  { apply (reads_spec f t ns (seek t Pos) s2); [exact Hs|exact Hfind|rewrite Hs2; cbn; by rewrite lookup_insert_eq| |exact Hns].
    unfold seek. destruct (Pos =? MAX_UINT64); [|done]. pose proof (Hsizes t). unfold is_u64. lia. }
  intros l s3 (-> & g & ->). rewrite Hs2, with_file_with_file. wp_step. unfold StubFileClose, FreeStub. wp_steps.
  rewrite wp_deref. exists g. cbn [Files with_file set_files set_env]. rewrite lookup_insert_eq. split; [done|].
  rewrite wp_put, wp_ret. split; [|by right]. exists w. unfold with_file. cbn. rewrite delete_insert_id by done. done.
Qed.

(** *** Directories *)
Definition need (t : nat) : Z :=
  OFFSET_OF_FileName + (Z.of_nat (length (match KernelBlobTable !! t with Some b => cstr (Name b) | None => [] end)) + 1) * 2.
Definition entry_info (time : list Z) (t : nat) : EFI_FILE_INFO :=
  let name := match KernelBlobTable !! t with Some b => cstr (Name b) ++ [0] | None => [] end in
  mkInfo (need t) (Z.of_nat (length (blob_of c t))) (Z.of_nat (length (blob_of c t))) time time time EFI_FILE_READ_ONLY name.

Lemma blob_names t b : KernelBlobTable !! t = Some b ->
  6 <= Z.of_nat (length (cstr (Name b))) /\
  take (Z.to_nat (Z.of_nat (length (cstr (Name b))) + 1)) (Name b) = cstr (Name b) ++ [0].
Proof.
  intros H. do 3 (destruct t as [|t]; [injection H as <-; split; [cbn; lia|reflexivity]|]). discriminate H.
Qed.

Lemma ConvertInfo_spec t n s (Q : reply -> st -> Prop) :
  serves s -> (t < KernelBlobTypeMax)%nat ->
  Q (if n <? need t then (EFI_BUFFER_TOO_SMALL, need t, Nothing) else (EFI_SUCCESS, need t, FileInfo (entry_info (mInitTime s) t))) s ->
  wp (ConvertKernelBlobTypeToFileInfo t n) Q s.
Proof.
  intros Hs Ht HQ. destruct (Hs t Ht) as (b0 & b & Hb0 & Hb & Hn & Hsz & _). destruct (blob_names t b0 Hb0) as [Hlen Htake].
  unfold ConvertKernelBlobTypeToFileInfo, FileProperties. rewrite (proj2 (Nat.eqb_neq t KernelBlobTypeMax)) by lia.
  wp_step. wp_step. eapply wp_blob; [exact Hb|]. rewrite wp_ret, Hn, Hsz, StrLen_spec by eauto using name_terminated.
  unfold need, entry_info in HQ. fold (need t) in HQ. rewrite Hb0 in HQ. unfold need in HQ. rewrite Hb0 in HQ.
  set (k := (Z.of_nat (length (cstr (Name b0))) + 1) * 2) in *.
  pose proof FileInfo_names. pose proof FileName_offset. wp_step. rewrite wp_ASSERT. split; [apply Z.leb_le; lia|].
  destruct (n <? OFFSET_OF_FileName + k); [exact HQ|]. wp_steps. rewrite <-Htake in HQ.
  unfold k at 3. by rewrite Z.div_mul by lia.
Qed.

(** C40: Reading a blob's file.  Once the blobs are loaded, a client that opens
    a name below the root finds the blob of exactly that name or nothing; it
    may seek anywhere (the largest position is the end) and read any sequence
    of sizes: a read beyond the end is a device error, any other returns the
    next bytes of the blob up to its end and advances, so the reads together
    give the contiguous bytes from the position on.  Closing gives everything
    back, and neither the blobs nor the other handles change. *)
Theorem kernel_fs_read (Root : ptr) (FileName : list Z) (Pos : Z) (ns : list Z) (d : Z) (s : st (W := W)) :
  serves s -> inv s -> Files s !! Root = Some (mkStub KernelBlobTypeMax d) -> 0 ∈ FileName -> is_u64 Pos ->
  Forall (fun n => 0 <= n) ns ->
  wp (session Root FileName Pos ns)
     (fun r s' =>
        (exists w, s' = set_env w s) /\
        match find_name FileName with
        | None => r = (EFI_NOT_FOUND, [])
        | Some t =>
            r = (EFI_OUT_OF_RESOURCES, []) \/
            r = (EFI_SUCCESS, expected (blob_of c t) (seek t Pos) ns) /\
            (seek t Pos <= Z.of_nat (length (blob_of c t)) ->
             concat (reply_bytes <$> r.2) = take (Z.to_nat (foldr Z.add 0 ns)) (drop (Z.to_nat (seek t Pos)) (blob_of c t)))
        end) s.
Proof.
  intros Hs Hi HR H0 HP Hns. eapply wp_mono; [by eapply session_spec|]. intros r s' [Hs' Hr]. split; [done|].
  destruct (find_name FileName) as [t|]; [|done]. destruct Hr as [->| ->]; [by left|]. right. split; [done|].
  intros Hle. apply expected_bytes; [|done]. split; [|done]. unfold seek, is_u64 in *. destruct (Pos =? MAX_UINT64); lia.
Qed.

(** Scanning the root directory returns the information of the three
    files in order, each time advancing, then an empty entry; a buffer that
    is too small gets the size needed and leaves the position.  Asking for
    the information of the root itself fails the assertion of
    ConvertKernelBlobTypeToFileInfo whenever EFI_FILE_INFO is longer than its
    fields up to a name of one character, as it is on X64. *)
Theorem kernel_fs_directory (Root : ptr) (t : nat) (n : Z) (s : st (W := W)) :
  serves s -> Files s !! Root = Some (mkStub KernelBlobTypeMax (Z.of_nat t)) -> (t <= KernelBlobTypeMax)%nat ->
  wp (StubFileRead Root n)
     (fun r s' =>
        if (t =? KernelBlobTypeMax)%nat then r = (EFI_SUCCESS, 0, Nothing) /\ s' = s
        else if n <? need t then r = (EFI_BUFFER_TOO_SMALL, need t, Nothing) /\ s' = s
        else r = (EFI_SUCCESS, need t, FileInfo (entry_info (mInitTime s) t)) /\
             s' = with_file s Root (mkStub KernelBlobTypeMax (Z.of_nat (S t)))) s /\
  (OFFSET_OF_FileName + 4 < sizeof_EFI_FILE_INFO -> StubFileGetInfo Root gEfiFileInfoGuid n s = Trap AssertFailed).
Proof.
  intros Hs HR Ht. split.
  - unfold StubFileRead. wp_step. eapply wp_file; [exact HR|]. cbn [BlobType Position]. rewrite Nat.eqb_refl.
    destruct (Nat.eqb_spec t KernelBlobTypeMax) as [->|Hne].
    { rewrite Z.eqb_refl. by rewrite wp_ret. }
    rewrite (proj2 (Z.eqb_neq (Z.of_nat t) _)) by lia. rewrite Nat2Z.id.
    wp_step. apply ConvertInfo_spec; [done|lia|]. destruct (n <? need t); cbn [fst snd].
    + change (EFI_ERROR EFI_BUFFER_TOO_SMALL) with true. by rewrite wp_ret.
    + change (EFI_ERROR EFI_SUCCESS) with false. cbv iota. unfold set_file. wp_steps. split; [done|]. unfold with_file. do 3 f_equal.
      unfold u64. rewrite Z.mod_small; [lia|]. unfold KernelBlobTypeMax in Ht. lia.
  - intros Hsz. unfold StubFileGetInfo, file, mbind, M_bind, get, deref. rewrite HR.
    cbn [BlobType]. unfold ConvertKernelBlobTypeToFileInfo, FileProperties. rewrite Nat.eqb_refl.
    unfold mbind, M_bind, mret, M_ret. rewrite StrLen_spec by (apply list_elem_of_In; cbn; tauto).
    unfold ASSERT. rewrite (proj2 (Z.leb_gt _ _)); [done|]. cbn. lia.
Qed.
End claims.


(** *** A machine *)
Module KernelFsExample.
Definition the_items : list (Z * list Z) :=
  [(0x17, [3; 0; 0; 0]); (0x18, [1; 2; 3]); (0x08, [5; 0; 0; 0]); (0x11, [4; 5; 6; 7; 8]);
   (0x0b, [2; 0; 0; 0]); (0x12, [21; 22])].
(** Past its end an item reads as zero. *)
Definition the_content (k i : Z) : Z :=
  match list_find (fun e => e.1 = k) the_items with
  | Some (_, (_, l)) => if i <? 0 then 0 else default 0 (l !! Z.to_nat i)
  | None => 0
  end.
#[local] Instance api : FwCfgApi view := {
  fw_available w := (true, w);
  fw_select w k := v_select k w;
  fw_read w n := (v_bytes n w, v_skip n w);
}.
(** Whether the initrd's protocol can be installed, and whether uninstalling works. *)
Section env.
Context (initrd_ok uninstall_ok : bool).
Definition env : KernelEnv view := {|
  pool_block w n := (Some (replicate (Z.to_nat n) 0xEE), w);
  GetTime w := (EFI_SUCCESS, [1; 2; 3], w);
  VerifyBlob w name data n := (EFI_SUCCESS, w);
  InstallMultipleProtocolInterfaces w p := (if (p =? InitrdProtocol) && negb initrd_ok then EFI_OUT_OF_RESOURCES else EFI_SUCCESS, w);
  UninstallMultipleProtocolInterfaces w p := (if uninstall_ok then EFI_SUCCESS else EFI_ACCESS_DENIED, w);
|}.
End env.
#[local] Instance env_ok : KernelEnv view := env true true.
#[local] Program Instance api_laws : FwCfgApiLaws view := {
  fw_inv w := forall k i, is_byte (content w k i); fw_view w := w;
}.
Next Obligation. intros w k i H. apply H. Qed.
Next Obligation. intros w r w' H [= <- <-]. done. Qed.
Next Obligation. done. Qed.
Next Obligation. intros w n bs w' H _ [= <- <-]. done. Qed.
Definition laws (initrd_ok uninstall_ok : bool) : KernelLaws view (KE := env initrd_ok uninstall_ok).
Proof.
  refine (@Build_KernelLaws view _ _ api_laws _ _ _ _ _).
  - intros w n r w' H [= <- <-]. split; [done|]. intros block [= <-]. apply length_replicate.
  - intros w Status t w' H [= <- <- <-]. done.
  - intros w name data n Status w' H [= <- <-]. done.
  - intros w proto Status w' H [= <- <-]. done.
  - intros w proto Status w' H [= <- <-]. done.
Defined.
#[local] Instance laws_ok : KernelLaws view := laws true true.
#[local] Instance str : StrLib := {
  StrCmp a b := if bool_decide (cstr a = cstr b) then 0 else 1;
  StrLen a := Z.of_nat (length (cstr a));
}.
#[local] Instance str_laws : StrLibLaws.
Proof. split; [|done]. intros a b _ _. cbn. case_bool_decide; naive_solver. Qed.
(** The layout on X64. *)
#[local] Instance layout : InfoLayout := {
  OFFSET_OF_FileName := 80; sizeof_EFI_FILE_INFO := 88; sizeof_EFI_FILE_SYSTEM_INFO := 40;
  sizeof_EFI_FILE_SYSTEM_VOLUME_LABEL := 2; sizeof_STUB_FILE := 144;
}.
#[local] Instance layout_laws : LayoutLaws.
Proof. split; cbn; lia. Qed.

Definition start : st (W := view) := mkSt (mkView 7 7 the_content) KernelBlobTable 0 [] ∅ ∅ [].
Lemma start_inv : inv start.
Proof.
  intros k i. unfold is_byte. cbn. unfold the_content. destruct (list_find _ _) as [[j [k' l]]|] eqn:E; [|lia].
  apply list_find_Some in E as (Hj & _ & _). destruct (i <? 0); [lia|].
  destruct (l !! Z.to_nat i) as [b|] eqn:Hb; cbn; [|lia].
  assert (Forall (fun e : Z * list Z => Forall (fun b => 0 <= b < 256) e.2) the_items) as H by (repeat constructor; cbn; lia).
  eapply Forall_lookup_1 in H; [|exact Hj]. cbn in H. by eapply Forall_lookup_1 in H.
Qed.
Lemma start_sizes t : Z.of_nat (length (blob_of (con start) t)) < 2 ^ 32.
Proof. destruct t as [|[|[|t]]]; vm_compute; reflexivity. Qed.


(** With a root handle, after the entry point. *)
Definition final : st (W := view) :=
  match QemuKernelLoaderFsDxeEntrypoint start with
  | Done _ s => with_file s 1000 (mkStub KernelBlobTypeMax 0)
  | Trap _ => start
  end.
Lemma final_serves : serves the_content ∅ final.
Proof.
  intros t Ht. destruct t as [|[|[|t]]]; [..|unfold KernelBlobTypeMax in Ht; lia];
    eexists _, _; (split; [reflexivity|]); (split; [vm_compute; reflexivity|]); split_and!; try (vm_compute; reflexivity).
  - cbn -[blob_of]. split_and!; [discriminate|reflexivity|vm_compute; reflexivity].
  - cbn -[blob_of]. split_and!; [discriminate|reflexivity|vm_compute; reflexivity].
Qed.
Lemma final_inv : inv final.
Proof. exact start_inv. Qed.

(** "kernel", from offset 2, in reads of 3, 100 and 1 bytes. *)
Lemma kernel_fs_read_witness :
  expected (blob_of the_content 0) 2 [3; 100; 1] = [(EFI_SUCCESS, 3, Bytes [3; 4; 5]); (EFI_SUCCESS, 3, Bytes [6; 7; 8]); (EFI_SUCCESS, 0, Bytes [])] /\
  wp (session 1000 KERNEL_NAME 2 [3; 100; 1])
     (fun r s' =>
        (exists w, s' = set_env w final) /\
        match find_name KERNEL_NAME with
        | None => r = (EFI_NOT_FOUND, [])
        | Some t =>
            r = (EFI_OUT_OF_RESOURCES, []) \/
            r = (EFI_SUCCESS, expected (blob_of the_content t) (seek the_content t 2) [3; 100; 1]) /\
            (seek the_content t 2 <= Z.of_nat (length (blob_of the_content t)) ->
             concat (reply_bytes <$> r.2) = take (Z.to_nat (foldr Z.add 0 [3; 100; 1])) (drop (Z.to_nat (seek the_content t 2)) (blob_of the_content t)))
        end) final.
Proof.
  split; [vm_compute; reflexivity|].
  apply (kernel_fs_read the_content ∅ start_sizes 1000 KERNEL_NAME 2 [3; 100; 1] 0 final final_serves final_inv).
  - vm_compute. reflexivity.
  - apply list_elem_of_In. cbn. tauto.
  - unfold is_u64. lia.
  - repeat constructor; lia.
Defined.

Lemma kernel_fs_directory_witness :
  wp (StubFileRead 1000 96)
     (fun r s' =>
        if (0 =? KernelBlobTypeMax)%nat then r = (EFI_SUCCESS, 0, Nothing) /\ s' = final
        else if 96 <? need 0 then r = (EFI_BUFFER_TOO_SMALL, need 0, Nothing) /\ s' = final
        else r = (EFI_SUCCESS, need 0, FileInfo (entry_info the_content (mInitTime final) 0)) /\
             s' = with_file final 1000 (mkStub KernelBlobTypeMax (Z.of_nat 1))) final /\
  (OFFSET_OF_FileName + 4 < sizeof_EFI_FILE_INFO -> StubFileGetInfo 1000 gEfiFileInfoGuid 96 final = Trap AssertFailed).
Proof.
  apply (kernel_fs_directory the_content ∅ 1000 0 96 final final_serves); [vm_compute; reflexivity|].
  unfold KernelBlobTypeMax. lia.
Defined.

(** The initrd's protocol cannot be installed: everything is undone, and the
    entry point reports success; or the assertion on the undoing fails. *)
Example success_without_file_system :
  match QemuKernelLoaderFsDxeEntrypoint (KE := env false true) start with
  | Done Status s => Status = EFI_SUCCESS /\ Protocols s = [] /\ Pool s = ∅
  | Trap _ => False
  end /\
  QemuKernelLoaderFsDxeEntrypoint (KE := env false false) start = Trap AssertFailed.
Proof. vm_compute. done. Qed.
End KernelFsExample.
