(* ===== verification/PciDriver.v ===== *)
(** * Drivers of PCI devices: their environment

    What the drivers of a PCI device share: the state of the services they
    use, opening EFI_PCI_IO_PROTOCOL, and the accounting of what a driver
    holds. *)
From S2P Require Import Prelude Bytes Memory OrderedCollection Virtio Virtio10 Virtio10Bind.

(** The world of the services, the register accesses, the pages in use; pool
    blocks, protocol opens, interfaces; changes of the PCI attributes. *)
Record pci_driver (W : Type) : Type := mkPciDriver {
  World : W; IoLog : list access; SharedPages : list (Z * Z); PoolBlocks : Z; Opened : Z; Installed : Z; Attrs : list attribute_op;
}.
Arguments mkPciDriver {W}. Arguments World {W}. Arguments IoLog {W}. Arguments SharedPages {W}. Arguments PoolBlocks {W}.
Arguments Opened {W}. Arguments Installed {W}. Arguments Attrs {W}.

Section PciDriver.
Context {W : Type} {PE : PoolEnv W} {B : PciBus W}.
#[local] Abbreviation M := (M (pci_driver W)).

Definition with_world (w : W) (s : pci_driver W) : pci_driver W :=
  mkPciDriver w (IoLog s) (SharedPages s) (PoolBlocks s) (Opened s) (Installed s) (Attrs s).
Definition with_access (a : access) (s : pci_driver W) : pci_driver W :=
  mkPciDriver (World s) (IoLog s ++ [a]) (SharedPages s) (PoolBlocks s) (Opened s) (Installed s) (Attrs s).
Definition with_pages (l : list (Z * Z)) (s : pci_driver W) : pci_driver W :=
  mkPciDriver (World s) (IoLog s) l (PoolBlocks s) (Opened s) (Installed s) (Attrs s).
Definition with_counts (d o i : Z) (s : pci_driver W) : pci_driver W :=
  mkPciDriver (World s) (IoLog s) (SharedPages s) (PoolBlocks s + d) (Opened s + o) (Installed s + i) (Attrs s).
Definition with_attr (a : attribute_op) (s : pci_driver W) : pci_driver W :=
  mkPciDriver (World s) (IoLog s) (SharedPages s) (PoolBlocks s) (Opened s) (Installed s) (Attrs s ++ [a]).
Definition ask {A} (f : W -> A * W) : M A := s ← get; let '(a, w) := f (World s) in put (with_world w s);; mret a.
Definition tally (d o i : Z) : M unit := modify (with_counts d o i).

Definition OpenPci : M EFI_STATUS :=
  Status ← ask gbs_OpenProtocol; (if EFI_ERROR Status then mret tt else tally 0 1 0);; mret Status.
Definition SetPciAttributes (v : Z) : M unit := _ ← ask (pci_AttributesSet v); modify (with_attr (AttrSet v)).

(** ** What is held *)
Implicit Types s : pci_driver W.
Lemma wp_ask {A} (f : W -> A * W) (Q : A -> pci_driver W -> Prop) s :
  (forall a w, f (World s) = (a, w) -> Q a (with_world w s)) -> wp (ask f) Q s.
Proof. intros HQ. unfold ask. wp_step. wp_step. destruct (f (World s)) as [a w] eqn:E. wp_step. wp_step. wp_step. by apply HQ. Qed.
Lemma wp_tally d o i s (Q : unit -> pci_driver W -> Prop) : wp (tally d o i) Q s <-> Q tt (with_counts d o i s).
Proof. done. Qed.

(** Registers and pages as before; the counters and the log of attributes
    changed by these amounts. *)
Record held_pci (d o i : Z) (k : list attribute_op) s s' : Prop := mkHeldPci {
  hd_log : IoLog s' = IoLog s;
  hd_pages : SharedPages s' = SharedPages s;
  hd_pool : PoolBlocks s' = PoolBlocks s + d;
  hd_opened : Opened s' = Opened s + o;
  hd_installed : Installed s' = Installed s + i;
  hd_attrs : Attrs s' = Attrs s ++ k;
}.
Lemma held_pci_trans d o i k d' o' i' k' s s1 s2 : held_pci d o i k s s1 -> held_pci d' o' i' k' s1 s2 ->
  held_pci (d + d') (o + o') (i + i') (k ++ k') s s2.
Proof. intros [] []. split; try lia; try congruence. rewrite hd_attrs1, hd_attrs0. by rewrite (assoc_L (++)). Qed.
Lemma held_pci_eq d o i k d' o' i' k' s s' : held_pci d o i k s s' -> d = d' -> o = o' -> i = i' -> k = k' -> held_pci d' o' i' k' s s'.
Proof. by intros ? -> -> -> ->. Qed.
Lemma held_pci_world w s : held_pci 0 0 0 [] s (with_world w s).
Proof. split; cbn; try done; try lia. by rewrite app_nil_r. Qed.
Lemma held_pci_counts d o i s : held_pci d o i [] s (with_counts d o i s).
Proof. split; cbn; try done. by rewrite app_nil_r. Qed.
Lemma held_pci_attr a s : held_pci 0 0 0 [a] s (with_attr a s).
Proof. split; cbn; try done; lia. Qed.

Lemma held_pci_refl s : held_pci 0 0 0 [] s s.
Proof. split; try done; try lia. by rewrite app_nil_r. Qed.

Lemma wp_SetPciAttributes v d o i k s0 s (Q : unit -> pci_driver W -> Prop) : held_pci d o i k s0 s ->
  (forall s', held_pci d o i (k ++ [AttrSet v]) s0 s' -> Q tt s') -> wp (SetPciAttributes v) Q s.
Proof.
  intros H HQ. unfold SetPciAttributes. wp_step. apply wp_ask. intros St w _. wp_step. apply HQ.
  eapply held_pci_eq; [eapply held_pci_trans; [eapply held_pci_trans; [exact H|apply held_pci_world]|apply held_pci_attr]|lia|lia|lia|by rewrite app_nil_r].
Qed.
Lemma wp_OpenPci d o i k s0 s (Q : EFI_STATUS -> pci_driver W -> Prop) : held_pci d o i k s0 s ->
  (forall St s', held_pci d (if EFI_ERROR St then o else o + 1) i k s0 s' -> Q St s') -> wp OpenPci Q s.
Proof.
  intros H HQ. unfold OpenPci. wp_step. apply wp_ask. intros St w _. wp_step. specialize (HQ St).
  destruct (EFI_ERROR St); [wp_step|apply wp_tally]; wp_step; apply HQ.
  - eapply held_pci_eq; [eapply held_pci_trans; [exact H|apply held_pci_world]|lia|lia|lia|apply app_nil_r].
  - eapply held_pci_eq; [eapply held_pci_trans; [eapply held_pci_trans; [exact H|apply held_pci_world]|apply held_pci_counts]|lia|lia|lia|by rewrite !app_nil_r].
Qed.
Lemma wp_ask_held {A} (f : W -> A * W) d o i k s0 s (Q : A -> pci_driver W -> Prop) : held_pci d o i k s0 s ->
  (forall a w s', f (World s) = (a, w) -> held_pci d o i k s0 s' -> Q a s') -> wp (ask f) Q s.
Proof.
  intros H HQ. apply wp_ask. intros a w E. eapply HQ; [exact E|].
  eapply held_pci_eq; [eapply held_pci_trans; [exact H|apply held_pci_world]|lia|lia|lia|apply app_nil_r].
Qed.
End PciDriver.
