(* ===== verification/VirtioPci.v ===== *)
(** * VirtioPciDeviceDxe: the virtio 0.9.5 transport over PCI

    Models QemuPkg/VirtioPciDeviceDxe: the members of VIRTIO_DEVICE_PROTOCOL
    (VirtioPciFunctions.c) over the registers in BAR 0, and the driver binding
    (VirtioPciDevice.c).  EFI_PCI_IO_PROTOCOL, the page allocator and the boot
    services are adversarial; every register access is logged. *)
From S2P Require Import Prelude Bytes Memory OrderedCollection Virtio Virtio10 Virtio10Bind PciDriver.

Definition VIRTIO_DEVICE_SPECIFIC_CONFIGURATION_OFFSET_PCI : Z := 20.
Definition VIRTIO_PCI_OFFSET_DEVICE_FEATURES : Z := 0x00.
Definition VIRTIO_PCI_OFFSET_GUEST_FEATURES : Z := 0x04.
Definition VIRTIO_PCI_OFFSET_QUEUE_ADDRESS : Z := 0x08.
Definition VIRTIO_PCI_OFFSET_QUEUE_SIZE : Z := 0x0C.
Definition VIRTIO_PCI_OFFSET_QUEUE_SELECT : Z := 0x0E.
Definition VIRTIO_PCI_OFFSET_QUEUE_NOTIFY : Z := 0x10.
Definition VIRTIO_PCI_OFFSET_QUEUE_DEVICE_STATUS : Z := 0x12.
Definition MAX_UINT32 : Z := 2 ^ 32 - 1.
Definition PCI_BAR_IDX0 : Z := 0.

(** Io.Read and Io.Write, width in bytes, buffers as numbers; AllocatePages
    of MemoryAllocationLib, given the pages in use. *)
Class PciBar0 (W : Type) := {
  io_Read : Z -> Z -> Z -> Z -> W -> EFI_STATUS * Z * W;      (* Width Bar Offset Count *)
  io_Write : Z -> Z -> Z -> Z -> Z -> W -> EFI_STATUS * W;
  AllocatePages : list (Z * Z) -> Z -> W -> option Z * W;
}.
Class PciBar0Laws (W : Type) {P : PciBar0 W} : Prop := {
  io_Read_range wd bar off c w St v w' : 0 < wd -> 0 <= c -> io_Read wd bar off c w = (St, v, w') -> 0 <= v < 256 ^ (wd * c);
  AllocatePages_fresh live n w a w' : AllocatePages live n w = (Some a, w') ->
    a <> 0 /\ a mod EFI_PAGE_SIZE = 0 /\ Forall (fun r => a + EFI_PAGE_SIZE * n <= r.1 \/ r.1 + EFI_PAGE_SIZE * r.2 <= a) live;
}.

(** VIRTIO_PCI_DEVICE with the protocol instance it holds. *)
Record VIRTIO_PCI_DEVICE : Type := mkPciDevice {
  Pci_Revision : Z; Pci_SubSystemDeviceId : Z; Pci_OriginalAttributes : Z; DeviceSpecificConfigurationOffset : Z;
}.
Section VirtioPci.
Context {W : Type} {P : PciBar0 W} {PE : PoolEnv W} {B : PciBus W}.
#[local] Abbreviation M := (M (pci_driver W)).

(** ** VirtioPciDevice.c: register accesses *)
Definition IoWidth (FieldSize : Z) : option (Z * Z) :=
  if FieldSize =? 1 then Some (1, 1) else if FieldSize =? 2 then Some (2, 1)
  else if FieldSize =? 8 then Some (4, 2) else if FieldSize =? 4 then Some (4, 1) else None.
Definition VirtioPciIoRead (FieldOffset FieldSize BufferSize : Z) : M (EFI_STATUS * Z) :=
  ASSERT (FieldSize =? BufferSize);;
  match IoWidth FieldSize with
  | None => ASSERT false;; mret (EFI_INVALID_PARAMETER, 0)
  | Some (Width, Count) =>
      r ← ask (io_Read Width PCI_BAR_IDX0 FieldOffset Count);
      modify (with_access (mkAccess false Virtio10BarTypeIo PCI_BAR_IDX0 FieldOffset Width Count r.2));;
      mret r
  end.
Definition VirtioPciIoWrite (FieldOffset FieldSize Value : Z) : M EFI_STATUS :=
  match IoWidth FieldSize with
  | None => ASSERT false;; mret EFI_INVALID_PARAMETER
  | Some (Width, Count) =>
      let data := Value mod 256 ^ (Width * Count) in
      Status ← ask (io_Write Width PCI_BAR_IDX0 FieldOffset Count data);
      modify (with_access (mkAccess true Virtio10BarTypeIo PCI_BAR_IDX0 FieldOffset Width Count data));;
      mret Status
  end.

(** ** VirtioPciFunctions.c: the members

    [out]: the pointer for the result is not NULL. *)
Definition VirtioPciDeviceRead (Dev : VIRTIO_PCI_DEVICE) (FieldOffset FieldSize BufferSize : Z) : M (EFI_STATUS * Z) :=
  VirtioPciIoRead (u64 (DeviceSpecificConfigurationOffset Dev + FieldOffset)) FieldSize BufferSize.
Definition VirtioPciDeviceWrite (Dev : VIRTIO_PCI_DEVICE) (FieldOffset FieldSize Value : Z) : M EFI_STATUS :=
  VirtioPciIoWrite (u64 (DeviceSpecificConfigurationOffset Dev + FieldOffset)) FieldSize Value.
Definition VirtioPciGetDeviceFeatures (out : bool) : M (EFI_STATUS * option Z) :=
  if negb out then mret (EFI_INVALID_PARAMETER, None) else
  r ← VirtioPciIoRead VIRTIO_PCI_OFFSET_DEVICE_FEATURES 4 4;
  mret (r.1, if EFI_ERROR r.1 then None else Some r.2).
Definition VirtioPciGetQueueSize (out : bool) : M (EFI_STATUS * Z) :=
  if negb out then mret (EFI_INVALID_PARAMETER, 0) else VirtioPciIoRead VIRTIO_PCI_OFFSET_QUEUE_SIZE 2 2.
Definition VirtioPciGetDeviceStatus (out : bool) : M (EFI_STATUS * Z) :=
  if negb out then mret (EFI_INVALID_PARAMETER, 0) else VirtioPciIoRead VIRTIO_PCI_OFFSET_QUEUE_DEVICE_STATUS 1 1.
Definition VirtioPciSetGuestFeatures (Features : Z) : M EFI_STATUS :=
  if MAX_UINT32 <? Features then mret EFI_UNSUPPORTED else VirtioPciIoWrite VIRTIO_PCI_OFFSET_GUEST_FEATURES 4 Features.
Definition VirtioPciSetQueueAddress (Ring : VRING) (RingBaseShift : Z) : M EFI_STATUS :=
  ASSERT (RingBaseShift =? 0);;
  VirtioPciIoWrite VIRTIO_PCI_OFFSET_QUEUE_ADDRESS 4 (u32 (Z.shiftr (Base Ring) 12)).
Definition VirtioPciSetQueueSel (Sel : Z) : M EFI_STATUS := VirtioPciIoWrite VIRTIO_PCI_OFFSET_QUEUE_SELECT 2 Sel.
Definition VirtioPciSetQueueAlignment (Alignment : Z) : M EFI_STATUS := mret EFI_SUCCESS.
Definition VirtioPciSetPageSize (PageSize : Z) : M EFI_STATUS :=
  mret (if PageSize =? EFI_PAGE_SIZE then EFI_SUCCESS else EFI_UNSUPPORTED).
Definition VirtioPciSetQueueNotify (Index : Z) : M EFI_STATUS := VirtioPciIoWrite VIRTIO_PCI_OFFSET_QUEUE_NOTIFY 2 Index.
Definition VirtioPciSetQueueSize (Size : Z) : M EFI_STATUS := mret EFI_SUCCESS.
Definition VirtioPciSetDeviceStatus (DeviceStatus : Z) : M EFI_STATUS :=
  VirtioPciIoWrite VIRTIO_PCI_OFFSET_QUEUE_DEVICE_STATUS 1 DeviceStatus.
Definition VirtioPciAllocateSharedPages (NumPages : Z) : M (EFI_STATUS * option Z) :=
  s ← get;
  Buffer ← ask (AllocatePages (SharedPages s) NumPages);
  match Buffer with
  | None => mret (EFI_OUT_OF_RESOURCES, None)
  | Some a => modify (fun s => with_pages ((a, NumPages) :: SharedPages s) s);; mret (EFI_SUCCESS, Some a)
  end.
(** FreePages asserts that the pages were allocated. *)
Definition VirtioPciFreeSharedPages (NumPages HostAddress : Z) : M unit :=
  s ← get;
  match list_find (.= (HostAddress, NumPages)) (SharedPages s) with
  | None => trapped AssertFailed
  | Some (i, _) => put (with_pages (delete i (SharedPages s)) s)
  end.
(** The status, the number of bytes, the device address and the mapping. *)
Definition VirtioPciMapSharedBuffer (Operation : VIRTIO_MAP_OPERATION) (HostAddress NumberOfBytes : Z) : M (EFI_STATUS * Z * Z * Z) :=
  mret (EFI_SUCCESS, NumberOfBytes, HostAddress, 0).
Definition VirtioPciUnmapSharedBuffer (Mapping : Z) : M EFI_STATUS := mret EFI_SUCCESS.

(** ** VirtioPciDevice.c: the driver binding *)
Definition ReadPci : M (EFI_STATUS * list Z) := ask (cfg_Read 4 0 16).
Definition IsVirtio095 (Pci : list Z) : bool :=
  (field16 Pci 0 =? VIRTIO_VENDOR_ID) && (0x1000 <=? field16 Pci 2) && (field16 Pci 2 <=? 0x103F) && (nth 8 Pci 0 =? 0).
Definition VirtioPciDeviceBindingSupported : M EFI_STATUS :=
  Status ← OpenPci;
  if EFI_ERROR Status then mret Status else
  r ← ReadPci;
  let Status := if r.1 =? EFI_SUCCESS then if IsVirtio095 r.2 then EFI_SUCCESS else EFI_UNSUPPORTED else r.1 in
  tally 0 (-1) 0;; mret Status.

Definition VirtioPciInit (OriginalPciAttributes : Z) : M (EFI_STATUS * VIRTIO_PCI_DEVICE) :=
  r ← ReadPci;
  if EFI_ERROR r.1 then mret (r.1, mkPciDevice 0 0 OriginalPciAttributes 0) else
  mret (EFI_SUCCESS, mkPciDevice (VIRTIO_SPEC_REVISION 0 9 5) (field16 r.2 0x2E) OriginalPciAttributes
    VIRTIO_DEVICE_SPECIFIC_CONFIGURATION_OFFSET_PCI).
Definition VirtioPciUninit : M unit := mret tt.

(** The labels of Start. *)
Definition FreeVirtioPci (Status : EFI_STATUS) : M (EFI_STATUS * option VIRTIO_PCI_DEVICE) := tally (-1) 0 0;; mret (Status, None).
Definition ClosePci (Status : EFI_STATUS) : M (EFI_STATUS * option VIRTIO_PCI_DEVICE) := tally 0 (-1) 0;; FreeVirtioPci Status.
Definition RestorePci (Original : Z) (Status : EFI_STATUS) : M (EFI_STATUS * option VIRTIO_PCI_DEVICE) :=
  SetPciAttributes Original;; ClosePci Status.
Definition UninitDev (Original : Z) (Status : EFI_STATUS) : M (EFI_STATUS * option VIRTIO_PCI_DEVICE) :=
  VirtioPciUninit;; RestorePci Original Status.
Definition IoBusMaster : Z := Z.lor EFI_PCI_IO_ATTRIBUTE_IO EFI_PCI_IO_ATTRIBUTE_BUS_MASTER.
Definition VirtioPciDeviceBindingStart : M (EFI_STATUS * option VIRTIO_PCI_DEVICE) :=
  ok ← ask pool_alloc;
  if negb ok then mret (EFI_OUT_OF_RESOURCES, None) else
  tally 1 0 0;;
  Status ← OpenPci;
  if EFI_ERROR Status then FreeVirtioPci Status else
  r ← ask pci_AttributesGet;
  let '(Status, Original) := r in
  if EFI_ERROR Status then ClosePci Status else
  Status ← ask (pci_AttributesEnable IoBusMaster);
  if EFI_ERROR Status then ClosePci Status else
  modify (with_attr (AttrEnable IoBusMaster));;
  r ← VirtioPciInit Original;
  let '(Status, Device) := r in
  if EFI_ERROR Status then RestorePci Original Status else
  Status ← ask gbs_InstallProtocolInterface;
  if EFI_ERROR Status then UninitDev Original Status else
  tally 0 0 1;; mret (EFI_SUCCESS, Some Device).

(** [CloseStatus]: what CloseProtocol returns, the status of Stop. *)
Definition VirtioPciDeviceBindingStop (Device : VIRTIO_PCI_DEVICE) (CloseStatus : EFI_STATUS) : M EFI_STATUS :=
  Status ← ask gbs_GetProtocol;
  if EFI_ERROR Status then mret Status else
  Status ← ask gbs_UninstallProtocolInterface;
  if EFI_ERROR Status then mret Status else
  tally 0 0 (-1);;
  VirtioPciUninit;;
  SetPciAttributes (Pci_OriginalAttributes Device);;
  tally 0 (-1) 0;;
  tally (-1) 0 0;;
  mret CloseStatus.
End VirtioPci.
