(* ===== verification/VirtioPciClaims.v ===== *)
(** * VirtioPciDeviceDxe: theorems, and a concrete device *)
From S2P Require Import Prelude Bytes Memory OrderedCollection Virtio Virtio10 Virtio10Bind PciDriver VirtioPci.

Section Members.
Context {W : Type} {P : PciBar0 W} {PL : PciBar0Laws W} {PE : PoolEnv W} {B : PciBus W}.
Implicit Types s : pci_driver W.

(** One access of BAR 0 and nothing else: what PciIo answered, and the log. *)
Definition one_access (write : bool) (off wd c v : Z) (St : EFI_STATUS) s s' : Prop :=
  (if write then io_Write wd PCI_BAR_IDX0 off c v (World s) = (St, World s')
   else io_Read wd PCI_BAR_IDX0 off c (World s) = (St, v, World s')) /\
  s' = with_access (mkAccess write Virtio10BarTypeIo PCI_BAR_IDX0 off wd c v) (with_world (World s') s).

Lemma IoRead_spec off n wd c s : IoWidth n = Some (wd, c) ->
  wp (VirtioPciIoRead off n n) (fun r s' => one_access false off wd c r.2 r.1 s s' /\ 0 <= r.2 < 256 ^ n) s.
Proof.
  intros Hw. unfold VirtioPciIoRead. wp_step. wp_step; [apply Z.eqb_refl|]. rewrite Hw. wp_step. apply wp_ask. intros [St v] w E.
  wp_step. wp_step. wp_step. split; [split; [exact E|done]|]. cbn [snd].
  assert (wd * c = n /\ 0 < wd /\ 0 <= c) as (<- & Hwd & Hc).
  { unfold IoWidth in Hw. destruct (Z.eqb_spec n 1), (Z.eqb_spec n 2), (Z.eqb_spec n 8), (Z.eqb_spec n 4); injection Hw as <- <- || discriminate Hw; lia. }
  by eapply io_Read_range.
Qed.
Lemma IoWrite_spec off n wd c v s : IoWidth n = Some (wd, c) -> 0 <= v ->
  wp (VirtioPciIoWrite off n v) (fun St s' => one_access true off wd c (v mod 256 ^ n) St s s') s.
Proof.
  intros Hw Hv. unfold VirtioPciIoWrite. rewrite Hw.
  assert (wd * c = n) as <-.
  { unfold IoWidth in Hw. destruct (Z.eqb_spec n 1), (Z.eqb_spec n 2), (Z.eqb_spec n 8), (Z.eqb_spec n 4); injection Hw as <- <- || discriminate Hw; lia. }
  wp_step. apply wp_ask. intros St w E. wp_step. wp_step. wp_step. by split.
Qed.

Lemma page_number base : 0 <= base < 2 ^ 44 -> base mod EFI_PAGE_SIZE = 0 ->
  u32 (Z.shiftr base 12) mod 256 ^ 4 = base / EFI_PAGE_SIZE.
Proof.
  intros Hb Hm. unfold EFI_PAGE_SIZE, u32 in *. rewrite Z.shiftr_div_pow2 by done. change (2 ^ 12) with 4096.
  assert (0 <= base / 4096 < 2 ^ 32) by lia_div. change (256 ^ 4) with (2 ^ 32). by rewrite !Z.mod_small by (try apply Z.mod_pos_bound; lia).
Qed.

(** The register accesses of the members: the register, the value moved, and
    the answer made of what PciIo answered, a status and (of a read) a value. *)
Definition is_status (r St : EFI_STATUS) (_ : Z) : Prop := r = St.
Definition is_value (r : EFI_STATUS * Z) (St : EFI_STATUS) (v : Z) : Prop := r = (St, v).
Definition is_features (r : EFI_STATUS * option Z) (St : EFI_STATUS) (v : Z) : Prop := r = (St, if EFI_ERROR St then None else Some v).
Inductive member : forall A : Type, M (pci_driver W) A -> bool -> Z * Z * Z -> (Z -> Prop) -> (A -> EFI_STATUS -> Z -> Prop) -> Prop :=
  | m_features : member _ (VirtioPciGetDeviceFeatures true) false (VIRTIO_PCI_OFFSET_DEVICE_FEATURES, 4, 1) is_u32 is_features
  | m_guest F : 0 <= F <= MAX_UINT32 -> member _ (VirtioPciSetGuestFeatures F) true (VIRTIO_PCI_OFFSET_GUEST_FEATURES, 4, 1) (eq F) is_status
  | m_address r : 0 <= Base r < 2 ^ 44 -> Base r mod EFI_PAGE_SIZE = 0 ->
      member _ (VirtioPciSetQueueAddress r 0) true (VIRTIO_PCI_OFFSET_QUEUE_ADDRESS, 4, 1) (fun v => v * EFI_PAGE_SIZE = Base r) is_status
  | m_select q : is_u16 q -> member _ (VirtioPciSetQueueSel q) true (VIRTIO_PCI_OFFSET_QUEUE_SELECT, 2, 1) (eq q) is_status
  | m_notify q : is_u16 q -> member _ (VirtioPciSetQueueNotify q) true (VIRTIO_PCI_OFFSET_QUEUE_NOTIFY, 2, 1) (eq q) is_status
  | m_size : member _ (VirtioPciGetQueueSize true) false (VIRTIO_PCI_OFFSET_QUEUE_SIZE, 2, 1) is_u16 is_value
  | m_status : member _ (VirtioPciGetDeviceStatus true) false (VIRTIO_PCI_OFFSET_QUEUE_DEVICE_STATUS, 1, 1) is_u8 is_value
  | m_set_status v : is_u8 v -> member _ (VirtioPciSetDeviceStatus v) true (VIRTIO_PCI_OFFSET_QUEUE_DEVICE_STATUS, 1, 1) (eq v) is_status
  | m_write Dev off n v wd c : IoWidth n = Some (wd, c) -> 0 <= v < 256 ^ n ->
      member _ (VirtioPciDeviceWrite Dev off n v) true (u64 (DeviceSpecificConfigurationOffset Dev + off), wd, c) (eq v) is_status
  | m_read Dev off n wd c : IoWidth n = Some (wd, c) ->
      member _ (VirtioPciDeviceRead Dev off n n) false (u64 (DeviceSpecificConfigurationOffset Dev + off), wd, c) (fun v => 0 <= v < 256 ^ n) is_value.
Lemma member_access A (f : M (pci_driver W) A) write reg ok ans : member A f write reg ok ans ->
  forall s, wp f (fun r s' => exists St v, one_access write reg.1.1 reg.1.2 reg.2 v St s s' /\ ok v /\ ans r St v) s.
Proof.
  assert (forall o n wd c v s, IoWidth n = Some (wd, c) -> 0 <= v < 256 ^ n ->
    wp (VirtioPciIoWrite o n v) (fun r s' => exists St v', one_access true o wd c v' St s s' /\ v = v' /\ is_status r St v') s) as Hwr.
  { intros o n wd c v s Hw Hv. eapply wp_mono; [by apply IoWrite_spec; [|apply Hv]|]. intros St s'. rewrite Z.mod_small by lia. by eexists _, _. }
  assert (forall o n wd c s, IoWidth n = Some (wd, c) ->
    wp (VirtioPciIoRead o n n) (fun r s' => exists St v, one_access false o wd c v St s s' /\ 0 <= v < 256 ^ n /\ r = (St, v)) s) as Hrd.
  { intros o n wd c s Hw. eapply wp_mono; [by apply IoRead_spec|]. intros [St v] s' [Ha Hr]. by eexists _, _. }
  intros Hm s. destruct Hm; cbn [fst snd].
  - unfold VirtioPciGetDeviceFeatures. cbn [negb]. wp_step. eapply wp_mono; [by apply (Hrd _ 4)|].
    intros r s' (St & v & Ha & Hv & ->). wp_step. by exists St, v.
  - unfold VirtioPciSetGuestFeatures. rewrite (proj2 (Z.ltb_ge MAX_UINT32 _)) by lia. by apply (Hwr _ 4); [|unfold MAX_UINT32 in *; lia].
  - unfold VirtioPciSetQueueAddress. wp_step. wp_step; [done|]. eapply wp_mono; [eapply (IoWrite_spec _ 4); [reflexivity|]|].
    { unfold u32. apply Z.mod_pos_bound. done. }
    intros St s' Ha. rewrite page_number in Ha by done. eexists _, _. split; [exact Ha|]. split; [|done].
    match goal with H : Base r mod _ = 0 |- _ => pose proof (Z.div_mod (Base r) EFI_PAGE_SIZE ltac:(done)) as Hd; rewrite H in Hd end. lia.
  - by apply (Hwr _ 2).
  - by apply (Hwr _ 2).
  - by apply (Hrd _ 2).
  - by apply (Hrd _ 1).
  - by apply (Hwr _ 1).
  - by apply Hwr.
  - by apply Hrd.
Qed.

End Members.

Section Binding.
Context {W : Type} {P : PciBar0 W} {PE : PoolEnv W} {B : PciBus W}.
Implicit Types s : pci_driver W.

Lemma wp_FreeVirtioPci St d o i k s0 s (Q : EFI_STATUS * option VIRTIO_PCI_DEVICE -> pci_driver W -> Prop) : held_pci d o i k s0 s ->
  (forall s', held_pci (d - 1) o i k s0 s' -> Q (St, None) s') -> wp (FreeVirtioPci St) Q s.
Proof.
  intros H HQ. unfold FreeVirtioPci. wp_step. apply wp_tally. wp_step. apply HQ.
  eapply held_pci_eq; [eapply held_pci_trans; [exact H|apply held_pci_counts]|lia|lia|lia|apply app_nil_r].
Qed.
Lemma wp_ClosePci St d o i k s0 s (Q : EFI_STATUS * option VIRTIO_PCI_DEVICE -> pci_driver W -> Prop) : held_pci d o i k s0 s ->
  (forall s', held_pci (d - 1) (o - 1) i k s0 s' -> Q (St, None) s') -> wp (ClosePci St) Q s.
Proof.
  intros H HQ. unfold ClosePci. wp_step. apply wp_tally. eapply wp_FreeVirtioPci; [|exact HQ].
  eapply held_pci_eq; [eapply held_pci_trans; [exact H|apply held_pci_counts]|lia|lia|lia|apply app_nil_r].
Qed.
Lemma wp_RestorePci v St d o i k s0 s (Q : EFI_STATUS * option VIRTIO_PCI_DEVICE -> pci_driver W -> Prop) : held_pci d o i k s0 s ->
  (forall s', held_pci (d - 1) (o - 1) i (k ++ [AttrSet v]) s0 s' -> Q (St, None) s') -> wp (RestorePci v St) Q s.
Proof.
  intros H HQ. unfold RestorePci. wp_step. eapply wp_SetPciAttributes; [exact H|]. intros s' H'. by eapply wp_ClosePci.
Qed.
(** What Start makes of a device. *)
Definition started095 (Device : VIRTIO_PCI_DEVICE) : Prop :=
  Pci_Revision Device = VIRTIO_SPEC_REVISION 0 9 5 /\ DeviceSpecificConfigurationOffset Device = 20 /\
  (exists w St Pci w', cfg_Read 4 0 16 w = (St, Pci, w') /\ EFI_ERROR St = false /\ Pci_SubSystemDeviceId Device = field16 Pci 0x2E) /\
  exists w St w', pci_AttributesGet w = (St, Pci_OriginalAttributes Device, w') /\ EFI_ERROR St = false.
(** C35: the driver binding.  [Supported] takes nothing, and reports success
    only for a legacy or transitional virtio device.  [Start] takes one device
    structure, one protocol open and one interface, with I/O space and bus
    mastering enabled, or reports an error, holds nothing, and has set the
    attributes back if it had changed them.  [Stop] gives everything back or
    fails without effect. *)
Theorem virtio_pci_binding s :
  wp VirtioPciDeviceBindingSupported (fun St s' => held_pci 0 0 0 [] s s' /\
    (St = EFI_SUCCESS -> exists w Pci w', cfg_Read 4 0 16 w = (EFI_SUCCESS, Pci, w') /\ IsVirtio095 Pci = true)) s /\
  wp VirtioPciDeviceBindingStart (fun '(St, r) s' =>
    match r with
    | Some Device => St = EFI_SUCCESS /\ started095 Device /\ held_pci 1 1 1 [AttrEnable IoBusMaster] s s' /\
        forall Close, EFI_ERROR Close = false -> wp (VirtioPciDeviceBindingStop Device Close) (fun St s'' =>
          if EFI_ERROR St then held_pci 0 0 0 [] s' s''
          else held_pci 0 0 0 [AttrEnable IoBusMaster; AttrSet (Pci_OriginalAttributes Device)] s s'') s'
    | None => EFI_ERROR St = true /\ (held_pci 0 0 0 [] s s' \/
        exists Original, held_pci 0 0 0 [AttrEnable IoBusMaster; AttrSet Original] s s' /\
          exists w Sg w', pci_AttributesGet w = (Sg, Original, w') /\ EFI_ERROR Sg = false)
    end) s.
Proof.
  pose proof (held_pci_refl s) as H0. split.
  { unfold VirtioPciDeviceBindingSupported. wp_step. eapply wp_OpenPci; [exact H0|]. intros St s1 H1.
    destruct (EFI_ERROR St) eqn:E; cbv iota; [wp_step; split; [exact H1|intros ->; discriminate E]|]. wp_step. eapply wp_ask_held; [exact H1|].
    intros [Sr Pci] w s2 Er H2. cbv zeta. cbn [fst snd]. wp_step. apply wp_tally. wp_step. split.
    - eapply held_pci_eq; [eapply held_pci_trans; [exact H2|apply held_pci_counts]|lia|lia|lia|apply app_nil_r].
    - destruct (Z.eqb_spec Sr EFI_SUCCESS) as [->|Hne]; [|done]. destruct (IsVirtio095 Pci) eqn:Ev; [|done]. eauto. }
  unfold VirtioPciDeviceBindingStart. wp_step. eapply wp_ask_held; [exact H0|]. intros ok w s1 _ H1.
  destruct ok; cbn [negb]; cbv iota; [|wp_step; split; [done|by left]]. wp_step. apply wp_tally.
  assert (held_pci 1 0 0 [] s (with_counts 1 0 0 s1)) as H2.
  { eapply held_pci_eq; [eapply held_pci_trans; [exact H1|apply held_pci_counts]|lia|lia|lia|apply app_nil_r]. }
  wp_step. eapply wp_OpenPci; [exact H2|]. intros St s3 H3. destruct (EFI_ERROR St) eqn:E3; cbv iota.
  { eapply wp_FreeVirtioPci; [exact H3|]. intros s' H'. split; [done|by left]. }
  wp_step. eapply wp_ask_held; [exact H3|]. intros [St4 Original] w4 s4 Eg H4. destruct (EFI_ERROR St4) eqn:E4; cbv iota.
  { eapply wp_ClosePci; [exact H4|]. intros s' H'. split; [done|by left]. }
  wp_step. eapply wp_ask_held; [exact H4|]. intros St5 w5 s5 _ H5. destruct (EFI_ERROR St5) eqn:E5; cbv iota.
  { eapply wp_ClosePci; [exact H5|]. intros s' H'. split; [done|by left]. }
  wp_step. wp_step. assert (held_pci 1 1 0 [AttrEnable IoBusMaster] s (with_attr (AttrEnable IoBusMaster) s5)) as H6.
  { eapply held_pci_eq; [eapply held_pci_trans; [exact H5|apply held_pci_attr]|lia|lia|lia|done]. }
  assert (forall St s', EFI_ERROR St = true -> held_pci 1 1 0 [AttrEnable IoBusMaster] s s' ->
    wp (RestorePci Original St) (fun '(St, r) s' => match r with Some _ => False | None => EFI_ERROR St = true /\ (held_pci 0 0 0 [] s s' \/
        exists Original, held_pci 0 0 0 [AttrEnable IoBusMaster; AttrSet Original] s s' /\
          exists w Sg w', pci_AttributesGet w = (Sg, Original, w') /\ EFI_ERROR Sg = false) end) s') as Hrestore.
  { intros St' s' HE H'. eapply wp_RestorePci; [exact H'|]. intros s'' H''. split; [done|]. right. exists Original. split; [exact H''|]. eauto. }
  unfold VirtioPciInit. wp_step. wp_step. eapply wp_ask_held; [exact H6|]. intros [St7 Pci] w7 s7 Er H7. cbn [fst snd].
  destruct (EFI_ERROR St7) eqn:E7; cbv iota.
  { wp_step. rewrite E7. eapply wp_mono; [by apply Hrestore|]. by intros [? []] ?. }
  wp_step. change (EFI_ERROR EFI_SUCCESS) with false. cbv iota. wp_step. eapply wp_ask_held; [exact H7|]. intros St8 w8 s8 _ H8.
  destruct (EFI_ERROR St8) eqn:E8; cbv iota.
  { unfold UninitDev, VirtioPciUninit. wp_step. wp_step. eapply wp_mono; [by apply Hrestore|]. by intros [? []] ?. }
  wp_step. apply wp_tally. wp_step. split; [done|]. split.
  { split; [done|]. split; [done|]. cbn [Pci_SubSystemDeviceId Pci_OriginalAttributes]. split; [by eexists _, _, _, _|by eexists _, _, _]. }
  assert (held_pci 1 1 1 [AttrEnable IoBusMaster] s (with_counts 0 0 1 s8)) as H9.
  { eapply held_pci_eq; [eapply held_pci_trans; [exact H8|apply held_pci_counts]|lia|lia|lia|done]. }
  split; [exact H9|]. intros Close HC. set (s9 := with_counts 0 0 1 s8) in *. clearbody s9. pose proof (held_pci_refl s9) as H10.
  unfold VirtioPciDeviceBindingStop. wp_step. eapply wp_ask_held; [exact H10|]. intros Sa wa sa _ Ha.
  destruct (EFI_ERROR Sa) eqn:Ea; cbv iota; [wp_step; by rewrite Ea|]. wp_step. eapply wp_ask_held; [exact Ha|]. intros Sb wb sb _ Hb.
  destruct (EFI_ERROR Sb) eqn:Eb; cbv iota; [wp_step; by rewrite Eb|]. wp_step. apply wp_tally. unfold VirtioPciUninit. wp_step. wp_step. wp_step.
  eapply wp_SetPciAttributes; [eapply held_pci_trans; [exact Hb|apply held_pci_counts]|]. intros sc Hc. wp_step. apply wp_tally. wp_step. apply wp_tally.
  wp_step. rewrite HC. eapply held_pci_eq; [eapply held_pci_trans; [exact H9|eapply held_pci_trans; [eapply held_pci_trans; [exact Hc|apply held_pci_counts]|apply held_pci_counts]]|lia|lia|lia|].
  by rewrite !app_nil_r.
Qed.
End Binding.

(** ** A concrete device

    A legacy entropy device whose queue has 8 entries. *)
Module Legacy.
#[local] Instance bar0 : PciBar0 unit := {|
  io_Read wd bar off c w := (EFI_SUCCESS, (if off =? VIRTIO_PCI_OFFSET_QUEUE_SIZE then 8 else 0) mod 256 ^ (wd * c), w);
  io_Write _ _ _ _ _ w := (EFI_SUCCESS, w);
  AllocatePages live _ w := (match live with [] => Some 0x100000 | _ => None end, w);
|}.
#[local] Instance bar0_laws : PciBar0Laws unit.
Proof.
  split.
  - intros wd bar off c w St v w' Hwd Hc E. injection E as _ <- _. apply Z.mod_pos_bound, Z.pow_pos_nonneg; [done|].
    apply Z.mul_nonneg_nonneg; lia.
  - intros live n w a w' E. destruct live; [|discriminate E]. injection E as <- _. split; [done|]. split; [done|]. by apply Forall_nil.
Qed.
#[local] Instance pool : PoolEnv unit := fun w => (true, w).
Definition config : list Z := [0xF4; 0x1A; 0x05; 0x10] ++ replicate 42 0 ++ [4; 0] ++ replicate 16 0.
#[local] Instance bus : PciBus unit := {|
  cfg_Read wd o c w := (EFI_SUCCESS, take (Z.to_nat (wd * c)) (drop (Z.to_nat o) config), w);
  cfg_Write _ _ _ w := (EFI_SUCCESS, w);
  pci_GetBarAttributes _ w := (EFI_SUCCESS, (ACPI_QWORD_ADDRESS_SPACE_DESCRIPTOR, ACPI_ADDRESS_SPACE_TYPE_IO), w);
  pci_AttributesGet w := (EFI_SUCCESS, 7, w);
  pci_AttributesEnable _ w := (EFI_SUCCESS, w);
  pci_AttributesSet _ w := (EFI_SUCCESS, w);
  gbs_OpenProtocol w := (EFI_SUCCESS, w);
  gbs_InstallProtocolInterface w := (EFI_SUCCESS, w);
  gbs_GetProtocol w := (EFI_SUCCESS, w);
  gbs_UninstallProtocolInterface w := (EFI_SUCCESS, w);
|}.
Definition idle : pci_driver unit := mkPciDriver tt [] [] 0 0 0 [].
Definition entropy : VIRTIO_PCI_DEVICE := mkPciDevice (VIRTIO_SPEC_REVISION 0 9 5) 4 7 20.
Definition running : pci_driver unit := mkPciDriver tt [] [] 1 1 1 [AttrEnable 0x500].
Lemma legacy_start_runs : VirtioPciDeviceBindingStart idle = Done (EFI_SUCCESS, Some entropy) running.
Proof. vm_compute. reflexivity. Qed.
Lemma virtio_pci_binding_witness : started095 entropy /\ held_pci 1 1 1 [AttrEnable IoBusMaster] idle running.
Proof.
  pose proof (proj2 (virtio_pci_binding (W:=unit) idle)) as H. apply (wp_Done _ _ _ _ _ legacy_start_runs) in H.
  destruct H as (_ & HD & H & _). split; [exact HD|exact H].
Defined.
End Legacy.
