(* ===== verification/Sata.v ===== *)
(** * SataControllerDxe: EFI_IDE_CONTROLLER_INIT_PROTOCOL

    Models QemuPkg/SataControllerDxe/SataController.c: the calculation of
    transfer modes from ATA IDENTIFY data, the members of the protocol over
    the arrays of the devices, and the driver binding. *)
From S2P Require Import Prelude Bytes Memory OrderedCollection Virtio Virtio10 Virtio10Bind PciDriver.

Definition AHCI_BAR_INDEX : Z := 0x05.
Definition R_AHCI_CAP : Z := 0x0.
Definition B_AHCI_CAP_NPS : Z := 0x1f.
Definition B_AHCI_CAP_SPM : Z := 0x20000.
Definition AHCI_MAX_DEVICES : Z := 0x01.
Definition AHCI_MULTI_MAX_DEVICES : Z := 0x0F.
Definition IDE_MAX_CHANNEL : Z := 0x02.
Definition IDE_MAX_DEVICES : Z := 0x02.
(** From the PCI and UEFI specifications. *)
Definition PCI_CLASSCODE_OFFSET : Z := 0x09.
Definition EFI_PCI_DEVICE_ENABLE : Z :=
  Z.lor EFI_PCI_IO_ATTRIBUTE_IO (Z.lor EFI_PCI_IO_ATTRIBUTE_MEMORY EFI_PCI_IO_ATTRIBUTE_BUS_MASTER).
Definition IS_PCI_IDE (ClassCode : list Z) : bool := (nth 2 ClassCode 0 =? 1) && (nth 1 ClassCode 0 =? 1).
Definition IS_PCI_SATADPA (ClassCode : list Z) : bool := (nth 2 ClassCode 0 =? 1) && (nth 1 ClassCode 0 =? 6).

(** EFI_IDENTIFY_DATA: the 256 words of the answer to IDENTIFY DEVICE. *)
Definition identify_data : Type := list Z.
Definition id_word (d : identify_data) (i : nat) : Z := nth i d 0.
Definition pio_cycle_timing (d : identify_data) : Z := id_word d 51.
Definition field_validity (d : identify_data) : Z := id_word d 53.
Definition advanced_pio_modes (d : identify_data) : Z := id_word d 64.
Definition min_pio_cycle_time_with_flow_control (d : identify_data) : Z := id_word d 68.
Definition ultra_dma_mode (d : identify_data) : Z := id_word d 88.
Record EFI_ATA_MODE : Type := mkMode { Valid : bool; Mode : Z }.
Record EFI_ATA_COLLECTIVE_MODE : Type := mkModes {
  PioMode : EFI_ATA_MODE; SingleWordDmaMode : EFI_ATA_MODE; MultiWordDmaMode : EFI_ATA_MODE; UdmaMode : EFI_ATA_MODE;
}.
Definition no_mode : EFI_ATA_MODE := mkMode false 0.
Definition no_modes : EFI_ATA_COLLECTIVE_MODE := mkModes no_mode no_mode no_mode no_mode.

(** ** Modes *)
Definition MIN (a b : Z) : Z := if a <? b then a else b.
(** The loop over the bits of AdvancedPioMode, [n] of them from [Index] on. *)
Fixpoint AdvancedLoop (n : nat) (Index AdvancedPioMode Temp : Z) : Z :=
  match n with
  | O => Temp
  | S n => AdvancedLoop n (Index + 1) (Z.shiftr AdvancedPioMode 1) (if negb (Z.land AdvancedPioMode 1 =? 0) then Index else Temp)
  end.
(** The status, and the mode when it is set. *)
Definition CalculateBestPioMode (IdentifyData : identify_data) (DisPioMode : option Z) : EFI_STATUS * option Z :=
  let PioMode := u8 (Z.shiftr (pio_cycle_timing IdentifyData) 8) in
  if Z.land (field_validity IdentifyData) 0x02 =? 0x02 then
    let Temp := AdvancedLoop 8 0 (advanced_pio_modes IdentifyData) 0xff in
    let AdvancedPioMode := if negb (Temp =? 0xff) then u16 (Temp + 3) else PioMode in
    let PioMode := u16 (MIN AdvancedPioMode 4) in
    let MinimumPioCycleTime := min_pio_cycle_time_with_flow_control IdentifyData in
    let PioMode :=
      if MinimumPioCycleTime <=? 120 then u16 (MIN 4 PioMode)
      else if MinimumPioCycleTime <=? 180 then u16 (MIN 3 PioMode)
      else if MinimumPioCycleTime <=? 240 then u16 (MIN 2 PioMode)
      else 0 in
    let select (PioMode : Z) := (EFI_SUCCESS, Some (if PioMode <? 2 then 1 else PioMode)) in
    match DisPioMode with
    | Some Dis =>
        if Dis <? 2 then (EFI_UNSUPPORTED, None)
        else select (if Dis <=? PioMode then u16 (Dis - 1) else PioMode)
    | None => select PioMode
    end
  else
    let select (PioMode : Z) := (EFI_SUCCESS, Some (if PioMode <? 2 then 1 else 2)) in
    match DisPioMode with
    | Some Dis =>
        if Dis <? 2 then (EFI_UNSUPPORTED, None)
        else select (if PioMode =? Dis then u16 (PioMode - 1) else PioMode)
    | None => select PioMode
    end.

(** The loop: 6 bits are left. *)
Fixpoint UdmaLoop (fuel : nat) (DeviceUDmaMode TempMode : Z) : option Z :=
  match fuel with
  | O => None
  | S fuel =>
      let DeviceUDmaMode := Z.shiftr DeviceUDmaMode 1 in
      if negb (DeviceUDmaMode =? 0) then UdmaLoop fuel DeviceUDmaMode (u16 (TempMode + 1)) else Some TempMode
  end.
Definition CalculateBestUdmaMode (IdentifyData : identify_data) (DisUDmaMode : option Z) : EFI_STATUS * option Z :=
  if Z.land (field_validity IdentifyData) 0x04 =? 0 then (EFI_UNSUPPORTED, None) else
  let DeviceUDmaMode := Z.land (ultra_dma_mode IdentifyData) 0x3f in
  match UdmaLoop 7 DeviceUDmaMode 0 with
  | None => (EFI_UNSUPPORTED, None)
  | Some TempMode =>
      match DisUDmaMode with
      | Some Dis => if Dis =? 0 then (EFI_UNSUPPORTED, Some 0) else (EFI_SUCCESS, Some (if Dis <=? TempMode then u16 (Dis - 1) else TempMode))
      | None => (EFI_SUCCESS, Some TempMode)
      end
  end.

(** ** The protocol members *)
Record EFI_SATA_CONTROLLER_PRIVATE_DATA : Type := mkSata {
  OriginalAttributes : Z; ChannelCount : Z; DeviceCount : Z;
  DisqualifiedModes : list EFI_ATA_COLLECTIVE_MODE; IdentifyData : list identify_data; IdentifyValid : list bool;
}.
Definition with_disqualified (l : list EFI_ATA_COLLECTIVE_MODE) (p : EFI_SATA_CONTROLLER_PRIVATE_DATA) :=
  mkSata (OriginalAttributes p) (ChannelCount p) (DeviceCount p) l (IdentifyData p) (IdentifyValid p).
Definition with_identify (l : list identify_data) (v : list bool) (p : EFI_SATA_CONTROLLER_PRIVATE_DATA) :=
  mkSata (OriginalAttributes p) (ChannelCount p) (DeviceCount p) (DisqualifiedModes p) l v.

(** The registers of an AHCI controller. *)
Class AhciBar (W : Type) := {
  mem_Read : Z -> Z -> Z -> Z -> W -> EFI_STATUS * Z * W;     (* Width Bar Offset Count *)
  mem_Write : Z -> Z -> Z -> Z -> Z -> W -> EFI_STATUS * W;
}.

Section Sata.
Context {W : Type} {A : AhciBar W} {PE : PoolEnv W} {B : PciBus W}.

(** A member works on the private data and on the services. *)
Definition ide_state : Type := pci_driver W * EFI_SATA_CONTROLLER_PRIVATE_DATA.
#[local] Abbreviation M := (M ide_state).
Definition service {R} (f : Prelude.M (pci_driver W) R) : M R := fun s =>
  match f s.1 with Done a d => Done a (d, s.2) | Trap t => Trap t end.
Definition private : M EFI_SATA_CONTROLLER_PRIVATE_DATA := s ← get; mret s.2.
Definition set_private (p : EFI_SATA_CONTROLLER_PRIVATE_DATA) : M unit := s ← get; put (s.1, p).

Definition FlatDeviceIndex (Channel Device : Z) : M Z :=
  p ← private;
  ASSERT (Channel <? ChannelCount p);;
  ASSERT (Device <? DeviceCount p);;
  mret (Channel * DeviceCount p + Device).
(** An element of an array, and its update. *)
Definition element {E} (l : list E) (i : Z) : M E := deref (if 0 <=? i then l !! Z.to_nat i else None).
Definition replaced {E} (l : list E) (i : Z) (e : E) : M (list E) := _ ← element l i; mret (<[Z.to_nat i := e]> l).

(** The status, Enabled, and MaxDevices when it is set. *)
Definition IdeInitGetChannelInfo (Channel : Z) : M (EFI_STATUS * bool * option Z) :=
  p ← private;
  mret (if Channel <? ChannelCount p then (EFI_SUCCESS, true, Some (DeviceCount p)) else (EFI_INVALID_PARAMETER, false, None)).
Definition IdeInitNotifyPhase (Phase Channel : Z) : M EFI_STATUS := mret EFI_SUCCESS.
Definition IdeInitSubmitData (Channel Device : Z) (Data : option identify_data) : M EFI_STATUS :=
  p ← private;
  if (ChannelCount p <=? Channel) || (DeviceCount p <=? Device) then mret EFI_INVALID_PARAMETER else
  DeviceIndex ← FlatDeviceIndex Channel Device;
  match Data with
  | Some d =>
      l ← replaced (IdentifyData p) DeviceIndex d;
      v ← replaced (IdentifyValid p) DeviceIndex true;
      set_private (with_identify l v p);; mret EFI_SUCCESS
  | None =>
      v ← replaced (IdentifyValid p) DeviceIndex false;
      set_private (with_identify (IdentifyData p) v p);; mret EFI_SUCCESS
  end.
Definition IdeInitDisqualifyMode (Channel Device : Z) (BadModes : option EFI_ATA_COLLECTIVE_MODE) : M EFI_STATUS :=
  p ← private;
  match BadModes with
  | None => mret EFI_INVALID_PARAMETER
  | Some b =>
      if (ChannelCount p <=? Channel) || (DeviceCount p <=? Device) then mret EFI_INVALID_PARAMETER else
      DeviceIndex ← FlatDeviceIndex Channel Device;
      l ← replaced (DisqualifiedModes p) DeviceIndex b;
      set_private (with_disqualified l p);; mret EFI_SUCCESS
  end.
(** [if (!EFI_ERROR (Status))]: a mode of the result. *)
Definition mode_of (r : EFI_STATUS * option Z) : EFI_ATA_MODE := if EFI_ERROR r.1 then no_mode else mkMode true (default 0 r.2).
(** The 16-bit view of a disqualified mode. *)
Definition disqualified (m : EFI_ATA_MODE) : option Z := if Valid m then Some (u16 (Mode m)) else None.
(** [out]: SupportedModes is not NULL.  The caller owns the modes. *)
Definition IdeInitCalculateMode (Channel Device : Z) (out : bool) : M (EFI_STATUS * option EFI_ATA_COLLECTIVE_MODE) :=
  p ← private;
  if (ChannelCount p <=? Channel) || negb out || (DeviceCount p <=? Device) then mret (EFI_INVALID_PARAMETER, None) else
  ok ← service (ask pool_alloc);
  if negb ok then ASSERT false;; mret (EFI_OUT_OF_RESOURCES, None) else
  service (tally 1 0 0);;
  DeviceIndex ← FlatDeviceIndex Channel Device;
  d ← element (IdentifyData p) DeviceIndex;
  v ← element (IdentifyValid p) DeviceIndex;
  b ← element (DisqualifiedModes p) DeviceIndex;
  if negb v then service (tally (-1) 0 0);; mret (EFI_NOT_READY, None) else
  mret (EFI_SUCCESS, Some (mkModes (mode_of (CalculateBestPioMode d (disqualified (PioMode b)))) no_mode no_mode
    (mode_of (CalculateBestUdmaMode d (disqualified (UdmaMode b)))))).
Definition IdeInitSetTiming (Channel Device : Z) (Modes : EFI_ATA_COLLECTIVE_MODE) : M EFI_STATUS := mret EFI_SUCCESS.

(** ** The driver binding *)
#[local] Abbreviation D := (Prelude.M (pci_driver W)).
Definition AhciReadReg (Offset : Z) : D Z := r ← ask (mem_Read 4 AHCI_BAR_INDEX Offset 1); mret r.2.
Definition AhciWriteReg (Offset Data : Z) : D unit := _ ← ask (mem_Write 4 AHCI_BAR_INDEX Offset 1 Data); mret tt.
Definition ReadClass : D (EFI_STATUS * list Z) := ask (cfg_Read 1 PCI_CLASSCODE_OFFSET 3).
(** OpenProtocol with GET_PROTOCOL takes no reference. *)
Definition SataControllerSupported : D EFI_STATUS :=
  Status ← ask gbs_OpenProtocol;
  if EFI_ERROR Status then mret Status else
  r ← ReadClass;
  mret (if EFI_ERROR r.1 then EFI_UNSUPPORTED else if IS_PCI_IDE r.2 || IS_PCI_SATADPA r.2 then EFI_SUCCESS else EFI_UNSUPPORTED).

Definition zero_pool : D bool := ok ← ask pool_alloc; (if ok : bool then tally 1 0 0 else mret tt);; mret ok.
(** The labels of Start. *)
#[local] Abbreviation answer := (EFI_STATUS * option EFI_SATA_CONTROLLER_PRIVATE_DATA)%type.
Definition Bail (Status : EFI_STATUS) : D answer := mret (Status, None).
Definition ClosePciIo_sata (Status : EFI_STATUS) : D answer := tally 0 (-1) 0;; Bail Status.
Definition RestorePciAttributes_sata (Original : Z) (Status : EFI_STATUS) : D answer := SetPciAttributes Original;; ClosePciIo_sata Status.
Definition FreeSataPrivateData (Original : Z) (Status : EFI_STATUS) : D answer := tally (-1) 0 0;; RestorePciAttributes_sata Original Status.
Definition FreeDisqualifiedModes (Original : Z) (Status : EFI_STATUS) : D answer := tally (-1) 0 0;; FreeSataPrivateData Original Status.
Definition FreeIdentifyData (Original : Z) (Status : EFI_STATUS) : D answer := tally (-1) 0 0;; FreeDisqualifiedModes Original Status.
Definition FreeIdentifyValid (Original : Z) (Status : EFI_STATUS) : D answer := tally (-1) 0 0;; FreeIdentifyData Original Status.

(** Channels and devices per channel. *)
Definition CountDevices (ClassCode : list Z) : D (Z * Z) :=
  if IS_PCI_IDE ClassCode then mret (IDE_MAX_CHANNEL, IDE_MAX_DEVICES)
  else if IS_PCI_SATADPA ClassCode then
    Data32 ← AhciReadReg R_AHCI_CAP;
    mret (u8 (Z.land Data32 B_AHCI_CAP_NPS + 1),
      if Z.land Data32 B_AHCI_CAP_SPM =? B_AHCI_CAP_SPM then AHCI_MULTI_MAX_DEVICES else AHCI_MAX_DEVICES)
  else mret (0, 0).
Definition SataControllerStart : D answer :=
  Status ← OpenPci;
  if EFI_ERROR Status then Bail Status else
  r ← ask pci_AttributesGet;
  let '(Status, Original) := r in
  if EFI_ERROR Status then ClosePciIo_sata Status else
  Status ← ask (pci_AttributesEnable EFI_PCI_DEVICE_ENABLE);
  if EFI_ERROR Status then ClosePciIo_sata Status else
  modify (with_attr (AttrEnable EFI_PCI_DEVICE_ENABLE));;
  ok ← zero_pool;
  if negb ok then RestorePciAttributes_sata Original EFI_OUT_OF_RESOURCES else
  r ← ReadClass;
  let '(Status, ClassCode) := r in
  if EFI_ERROR Status then FreeSataPrivateData Original Status else
  c ← CountDevices ClassCode;
  let n := Z.to_nat (c.1 * c.2) in
  ok ← zero_pool;
  if negb ok then FreeSataPrivateData Original EFI_OUT_OF_RESOURCES else
  ok ← zero_pool;
  if negb ok then FreeDisqualifiedModes Original EFI_OUT_OF_RESOURCES else
  ok ← zero_pool;
  if negb ok then FreeIdentifyData Original EFI_OUT_OF_RESOURCES else
  Status ← ask gbs_InstallProtocolInterface;
  if EFI_ERROR Status then FreeIdentifyValid Original Status else
  tally 0 0 1;;
  mret (Status, Some (mkSata Original c.1 c.2 (replicate n no_modes) (replicate n (replicate 256 0)) (replicate n false))).

(** [CloseStatus]: what CloseProtocol returns, the status of Stop. *)
Definition SataControllerStop (p : EFI_SATA_CONTROLLER_PRIVATE_DATA) (CloseStatus : EFI_STATUS) : D EFI_STATUS :=
  Status ← ask gbs_GetProtocol;
  if EFI_ERROR Status then mret EFI_UNSUPPORTED else
  Status ← ask gbs_UninstallProtocolInterface;
  if EFI_ERROR Status then mret Status else
  tally 0 0 (-1);;
  tally (-1) 0 0;; tally (-1) 0 0;; tally (-1) 0 0;; tally (-1) 0 0;;
  SetPciAttributes (OriginalAttributes p);;
  tally 0 (-1) 0;;
  mret CloseStatus.
End Sata.
