(* ===== verification/SataClaims.v ===== *)
(** * SataControllerDxe: theorems, and a concrete controller *)
From S2P Require Import Prelude Bytes Memory OrderedCollection Virtio Virtio10 Virtio10Bind PciDriver Sata.

(** ** Modes *)
Fixpoint top_bit (n : nat) (a : Z) : option Z :=
  match n with O => None | S n => if Z.testbit a (Z.of_nat n) then Some (Z.of_nat n) else top_bit n a end.
Lemma top_bit_shift n a : top_bit (S n) a =
  match top_bit n (Z.shiftr a 1) with Some j => Some (j + 1) | None => if Z.testbit a 0 then Some 0 else None end.
Proof.
  induction n as [|n IH]; [done|]. cbn [top_bit] in *. rewrite Z.shiftr_spec by lia.
  replace (Z.of_nat n + 1) with (Z.of_nat (S n)) by lia. destruct (Z.testbit a (Z.of_nat (S n))); [f_equal; lia|]. exact IH.
Qed.
Lemma AdvancedLoop_spec n : forall i a t, AdvancedLoop n i a t = match top_bit n a with Some j => i + j | None => t end.
Proof.
  induction n as [|n IH]; intros i a t; [done|]. rewrite top_bit_shift. cbn [AdvancedLoop]. rewrite IH.
  destruct (top_bit n (Z.shiftr a 1)) as [j|]; [lia|].
  assert (negb (Z.land a 1 =? 0) = Z.testbit a 0) as ->; [|destruct (Z.testbit a 0); [lia|done]].
  rewrite Z.bit0_odd. change 1 with (Z.ones 1). rewrite Z.land_ones by done. change (2 ^ 1) with 2. rewrite Zmod_odd.
  by destruct (Z.odd a).
Qed.
Lemma top_bit_range n a j : top_bit n a = Some j -> 0 <= j < Z.of_nat n /\ Z.testbit a j = true.
Proof.
  induction n as [|n IH]; cbn [top_bit]; [done|]. destruct (Z.testbit a (Z.of_nat n)) eqn:E; [intros [= <-]; split; [lia|done]|].
  intros [? ?]%IH. split; [lia|done].
Qed.
Lemma UdmaLoop_spec fuel : forall d t, 0 <= d < 2 ^ Z.of_nat fuel -> 0 <= t -> t + Z.of_nat fuel < 2 ^ 16 -> (0 < fuel)%nat ->
  UdmaLoop fuel d t = Some (t + Z.log2 d).
Proof.
  induction fuel as [|fuel IH]; intros d t Hd Ht Hf H0; [lia|]. cbn [UdmaLoop]. rewrite Z.shiftr_div_pow2 by done. change (2 ^ 1) with 2.
  destruct (Z.eqb_spec (d / 2) 0) as [E|E]; cbn [negb].
  - assert (d = 0 \/ d = 1) as [->| ->] by lia_div; f_equal; cbn; lia.
  - assert (2 <= d) by lia_div. rewrite Nat2Z.inj_succ, Z.pow_succ_r in Hd by lia.
    assert (u16 (t + 1) = t + 1) as -> by (unfold u16; apply Z.mod_small; lia).
    rewrite IH.
    + f_equal. pose proof (Z.log2_shiftr d 1 ltac:(lia)) as Hl. rewrite Z.shiftr_div_pow2 in Hl by done. change (2 ^ 1) with 2 in Hl.
      rewrite Hl. pose proof (Z.log2_le_mono 2 d ltac:(lia)) as Hm. change (Z.log2 2) with 1 in Hm. lia.
    + split; [apply Z.div_pos; lia|]. apply Z.div_lt_upper_bound; lia.
    + lia.
    + lia.
    + destruct fuel; [|lia]. cbn in Hd. lia.
Qed.

(** What the device says of itself: the mode of word 51, or of the advanced
    modes when words 64 to 70 are valid; the mode that its cycle time allows;
    the highest UDMA mode. *)
Definition pio_timing (d : identify_data) : Z := u8 (Z.shiftr (pio_cycle_timing d) 8).
Definition words_valid (d : identify_data) : bool := Z.land (field_validity d) 0x02 =? 0x02.
Definition advanced_pio (d : identify_data) : Z :=
  Z.min 4 (match top_bit 8 (advanced_pio_modes d) with Some j => j + 3 | None => pio_timing d end).
Definition cycle_pio (d : identify_data) : Z :=
  let t := min_pio_cycle_time_with_flow_control d in if t <=? 120 then 4 else if t <=? 180 then 3 else if t <=? 240 then 2 else 0.
Definition below (Dis : option Z) (m : Z) : Z := match Dis with Some k => Z.min m (k - 1) | None => m end.
Definition refused (least : Z) (Dis : option Z) : bool := match Dis with Some k => k <? least | None => false end.
Definition highest_udma (d : identify_data) : Z := Z.log2 (Z.land (ultra_dma_mode d) 0x3f).

Lemma pio_timing_range d : 0 <= pio_timing d < 256.
Proof. apply Z.mod_pos_bound. done. Qed.
Lemma advanced_range d : 0 <= advanced_pio d <= 4.
Proof.
  unfold advanced_pio. pose proof (pio_timing_range d). destruct (top_bit 8 (advanced_pio_modes d)) as [j|] eqn:E; [|lia].
  apply top_bit_range in E. lia.
Qed.
Lemma MIN_min a b : MIN a b = Z.min a b.
Proof. unfold MIN. destruct (Z.ltb_spec a b); lia. Qed.
Lemma u16_small v : 0 <= v < 2 ^ 16 -> u16 v = v.
Proof. intros. by apply Z.mod_small. Qed.
Lemma at_least_one m : 0 <= m -> (if m <? 2 then 1 else m) = Z.max 1 m.
Proof. intros. destruct (Z.ltb_spec m 2); lia. Qed.

Lemma CalculateBestPioMode_valid d Dis : words_valid d = true -> (forall k, Dis = Some k -> is_u16 k) ->
  CalculateBestPioMode d Dis =
    if refused 2 Dis then (EFI_UNSUPPORTED, None) else (EFI_SUCCESS, Some (Z.max 1 (below Dis (Z.min (advanced_pio d) (cycle_pio d))))).
Proof.
  intros Hv Hk. unfold CalculateBestPioMode. fold (words_valid d). rewrite Hv. fold (pio_timing d).
  rewrite AdvancedLoop_spec. pose proof (pio_timing_range d) as Hp. pose proof (advanced_range d) as Ha.
  assert (u16 (MIN (if negb (match top_bit 8 (advanced_pio_modes d) with Some j => 0 + j | None => 0xff end =? 0xff)
     then u16 (match top_bit 8 (advanced_pio_modes d) with Some j => 0 + j | None => 0xff end + 3) else pio_timing d) 4) = advanced_pio d) as ->.
  { unfold advanced_pio in *. rewrite MIN_min. destruct (top_bit 8 (advanced_pio_modes d)) as [j|] eqn:E.
    - apply top_bit_range in E as [Hj _]. rewrite (proj2 (Z.eqb_neq (0 + j) 0xff)) by lia. cbn [negb].
      rewrite (u16_small (0 + j + 3)) by lia. rewrite u16_small by lia. lia.
    - cbn [negb Z.eqb]. change (Pos.eqb 255 255) with true. cbn [negb]. rewrite u16_small; lia. }
  cbv zeta.
  assert ((if min_pio_cycle_time_with_flow_control d <=? 120 then u16 (MIN 4 (advanced_pio d))
     else if min_pio_cycle_time_with_flow_control d <=? 180 then u16 (MIN 3 (advanced_pio d))
     else if min_pio_cycle_time_with_flow_control d <=? 240 then u16 (MIN 2 (advanced_pio d)) else 0) = Z.min (advanced_pio d) (cycle_pio d)) as ->.
  { unfold cycle_pio. rewrite !MIN_min. repeat destruct (_ <=? _); rewrite ?u16_small; lia. }
  assert (0 <= cycle_pio d <= 4) as Hc by (unfold cycle_pio; repeat destruct (_ <=? _); lia).
  destruct Dis as [k|]; cbn [refused below]; [|by rewrite at_least_one by lia].
  specialize (Hk k eq_refl). unfold is_u16 in Hk. destruct (Z.ltb_spec k 2); [done|]. do 2 f_equal.
  destruct (Z.leb_spec k (Z.min (advanced_pio d) (cycle_pio d))); rewrite ?u16_small, at_least_one; lia.
Qed.
Lemma CalculateBestPioMode_invalid d Dis : words_valid d = false -> (forall k, Dis = Some k -> is_u16 k) ->
  CalculateBestPioMode d Dis =
    if refused 2 Dis then (EFI_UNSUPPORTED, None)
    else (EFI_SUCCESS, Some (if (pio_timing d <? 2) || bool_decide (Dis = Some 2 /\ pio_timing d = 2) then 1 else 2)).
Proof.
  intros Hv Hk. unfold CalculateBestPioMode. fold (words_valid d). rewrite Hv. fold (pio_timing d). pose proof (pio_timing_range d).
  cbv zeta. destruct Dis as [k|]; cbn [refused].
  - specialize (Hk k eq_refl). unfold is_u16 in Hk. destruct (Z.ltb_spec k 2); [done|]. do 2 f_equal.
    case_bool_decide as Hb.
    + destruct Hb as [[= ->] ->]. done.
    + rewrite orb_false_r. destruct (Z.eqb_spec (pio_timing d) k) as [E|E]; [|done]. rewrite u16_small by lia.
      assert (k <> 2) by (intros ->; apply Hb; done). destruct (Z.ltb_spec (pio_timing d - 1) 2), (Z.ltb_spec (pio_timing d) 2); lia.
  - rewrite bool_decide_eq_false_2 by (intros [? _]; done). by rewrite orb_false_r.
Qed.
Lemma CalculateBestUdmaMode_eq d Dis : (forall k, Dis = Some k -> is_u16 k) ->
  CalculateBestUdmaMode d Dis =
    if Z.land (field_validity d) 0x04 =? 0 then (EFI_UNSUPPORTED, None)
    else if refused 1 Dis then (EFI_UNSUPPORTED, Some 0) else (EFI_SUCCESS, Some (below Dis (highest_udma d))).
Proof.
  intros Hk. unfold CalculateBestUdmaMode. destruct (_ =? 0); [done|].
  assert (0 <= Z.land (ultra_dma_mode d) 0x3f < 2 ^ 6) as Hr.
  { change 0x3f with (Z.ones 6). rewrite Z.land_ones by done. apply Z.mod_pos_bound. done. }
  rewrite UdmaLoop_spec by (try done; lia). rewrite Z.add_0_l. fold (highest_udma d).
  assert (0 <= highest_udma d < 6) as Hh.
  { split; [apply Z.log2_nonneg|]. unfold highest_udma. destruct (Z.eq_dec (Z.land (ultra_dma_mode d) 0x3f) 0) as [->|]; [done|].
    apply Z.log2_lt_pow2; lia. }
  destruct Dis as [k|]; cbn [refused below]; [|done]. specialize (Hk k eq_refl). unfold is_u16 in Hk.
  destruct (Z.eqb_spec k 0), (Z.ltb_spec k 1); try lia; [done|]. do 2 f_equal. destruct (Z.leb_spec k (highest_udma d)); rewrite ?u16_small; lia.
Qed.

(** C36: the modes are the best that the device offers, that its cycle time
    allows and that are below the disqualified one: with valid identify words
    the PIO mode is the minimum of the three (mode 1 stands for the modes below
    2), so it is never a disqualified mode; the UDMA mode is the highest bit of
    word 88, below the disqualified mode.  Without valid words the PIO mode is
    that of word 51, 1 for the modes below 2 and 2 for the others; the mode
    below a disqualified one is taken only when the device names exactly that
    mode, so a device that names mode 3 or more keeps mode 2 when mode 2 is
    disqualified, the one case where the result is a disqualified mode.  When
    every PIO mode, or UDMA mode 0, is disqualified there is no mode. *)
Theorem sata_modes (d : identify_data) (Dis : option Z) : (forall k, Dis = Some k -> is_u16 k) ->
  CalculateBestPioMode d Dis =
    (if refused 2 Dis then (EFI_UNSUPPORTED, None)
     else (EFI_SUCCESS, Some
       (if words_valid d then Z.max 1 (below Dis (Z.min (advanced_pio d) (cycle_pio d)))
        else if decide (pio_timing d < 2 \/ pio_timing d = 2 /\ Dis = Some 2) then 1 else 2))) /\
  (forall k m, Dis = Some k -> CalculateBestPioMode d Dis = (EFI_SUCCESS, Some m) ->
     k <= m <-> words_valid d = false /\ m = 2 /\ k = 2 /\ 3 <= pio_timing d) /\
  CalculateBestUdmaMode d Dis =
    if Z.land (field_validity d) 0x04 =? 0 then (EFI_UNSUPPORTED, None)
    else if refused 1 Dis then (EFI_UNSUPPORTED, Some 0) else (EFI_SUCCESS, Some (below Dis (highest_udma d))).
Proof.
  intros Hk. assert (CalculateBestPioMode d Dis =
    (if refused 2 Dis then (EFI_UNSUPPORTED, None)
     else (EFI_SUCCESS, Some
       (if words_valid d then Z.max 1 (below Dis (Z.min (advanced_pio d) (cycle_pio d)))
        else if decide (pio_timing d < 2 \/ pio_timing d = 2 /\ Dis = Some 2) then 1 else 2)))) as Heq.
  { destruct (words_valid d) eqn:Hv; [by apply CalculateBestPioMode_valid|]. rewrite CalculateBestPioMode_invalid by done.
    destruct (refused 2 Dis); [done|]. do 2 f_equal. case_bool_decide as Hb.
    - destruct Hb as [-> ->]. by rewrite orb_true_r, decide_True by auto.
    - rewrite orb_false_r. destruct (Z.ltb_spec (pio_timing d) 2); [by rewrite decide_True by auto|].
      rewrite decide_False; [done|]. intros [?|[? ?]]; [lia|by apply Hb]. }
  split; [exact Heq|]. split; [|by apply CalculateBestUdmaMode_eq].
  intros k m -> E. rewrite Heq in E. cbn [refused below] in E. pose proof (pio_timing_range d).
  destruct (Z.ltb_spec k 2); [discriminate E|]. injection E as <-. destruct (words_valid d).
  - split; [lia|]. by intros [? _].
  - destruct (decide _) as [Hd|Hd].
    + split; [lia|]. intros (_ & ? & _). lia.
    + split; [|lia]. intros Hle. assert (k = 2) as -> by lia. split; [done|]. split; [done|]. split; [done|].
      destruct (Z.eq_dec (pio_timing d) 2); [exfalso; apply Hd; auto|]. lia.
Qed.

(** ** The protocol members *)
Section Members.
Context {W : Type} {A : AhciBar W} {PE : PoolEnv W} {B : PciBus W}.
#[local] Abbreviation M := (M (ide_state (W:=W))).

(** The arrays have an element for each device of each channel. *)
Record sata_ok (p : EFI_SATA_CONTROLLER_PRIVATE_DATA) : Prop := mkSataOk {
  so_channels : 0 <= ChannelCount p; so_devices : 0 <= DeviceCount p;
  so_modes : Z.of_nat (length (DisqualifiedModes p)) = ChannelCount p * DeviceCount p;
  so_data : Z.of_nat (length (IdentifyData p)) = ChannelCount p * DeviceCount p;
  so_valid : Z.of_nat (length (IdentifyValid p)) = ChannelCount p * DeviceCount p;
}.
Definition present (p : EFI_SATA_CONTROLLER_PRIVATE_DATA) (c d : Z) : bool := (c <? ChannelCount p) && (d <? DeviceCount p).
Definition flat (p : EFI_SATA_CONTROLLER_PRIVATE_DATA) (c d : Z) : nat := Z.to_nat (c * DeviceCount p + d).
(** The abstract state: what was submitted for each device, and the modes
    that it must not use. *)
Definition submitted (p : EFI_SATA_CONTROLLER_PRIVATE_DATA) (c d : Z) : option identify_data :=
  if default false (IdentifyValid p !! flat p c d) then IdentifyData p !! flat p c d else None.
Definition bad_modes (p : EFI_SATA_CONTROLLER_PRIVATE_DATA) (c d : Z) : EFI_ATA_COLLECTIVE_MODE :=
  default no_modes (DisqualifiedModes p !! flat p c d).

Lemma flat_bound p c d : sata_ok p -> 0 <= c -> 0 <= d -> present p c d = true ->
  0 <= c * DeviceCount p + d < ChannelCount p * DeviceCount p.
Proof. intros [] Hc Hd [H1 H2]%andb_true_iff. apply Z.ltb_lt in H1, H2. nia. Qed.
Lemma flat_inj p c d c' d' : sata_ok p -> 0 <= c -> 0 <= d -> 0 <= c' -> 0 <= d' -> present p c d = true -> present p c' d' = true ->
  flat p c d = flat p c' d' -> c = c' /\ d = d'.
Proof.
  intros [] Hc Hd Hc' Hd' [_ H2]%andb_true_iff [_ H4]%andb_true_iff E. apply Z.ltb_lt in H2, H4. unfold flat in E.
  assert (c * DeviceCount p + d = c' * DeviceCount p + d') as E' by nia. assert (c = c') by nia. nia.
Qed.
Lemma wp_Flat p c d w (Q : Z -> ide_state -> Prop) : present p c d = true -> Q (c * DeviceCount p + d) (w, p) -> wp (FlatDeviceIndex (W:=W) c d) Q (w, p).
Proof. intros [H1 H2]%andb_true_iff HQ. unfold FlatDeviceIndex, private. wp_step. wp_step. wp_step. wp_step. cbn [snd]. wp_step. wp_step; [done|]. wp_step. wp_step; [done|]. by wp_step. Qed.
Lemma wp_element {E} (l : list E) i s (Q : E -> ide_state (W:=W) -> Prop) : 0 <= i < Z.of_nat (length l) ->
  (forall e, l !! Z.to_nat i = Some e -> Q e s) -> wp (element l i) Q s.
Proof.
  intros Hi HQ. unfold element. rewrite (proj2 (Z.leb_le 0 i)) by lia. rewrite wp_deref.
  destruct (lookup_lt_is_Some_2 l (Z.to_nat i)) as [e He]; [lia|]. exists e. split; [done|by apply HQ].
Qed.
Lemma wp_replaced {E} (l : list E) i (e : E) s (Q : list E -> ide_state (W:=W) -> Prop) : 0 <= i < Z.of_nat (length l) ->
  Q (<[Z.to_nat i := e]> l) s -> wp (replaced l i e) Q s.
Proof. intros Hi HQ. unfold replaced. wp_step. apply wp_element; [done|]. intros _ _. by wp_step. Qed.
Lemma present_tests p c d : (ChannelCount p <=? c) || (DeviceCount p <=? d) = negb (present p c d).
Proof. unfold present. destruct (Z.leb_spec (ChannelCount p) c), (Z.ltb_spec c (ChannelCount p)), (Z.leb_spec (DeviceCount p) d), (Z.ltb_spec d (DeviceCount p)); try lia; done. Qed.
Lemma lookup_replaced {E} p c d c' d' (l : list E) (e : E) : sata_ok p -> 0 <= c -> 0 <= d -> 0 <= c' -> 0 <= d' ->
  present p c d = true -> present p c' d' = true -> Z.of_nat (length l) = ChannelCount p * DeviceCount p ->
  <[flat p c d := e]> l !! flat p c' d' = if decide (c' = c /\ d' = d) then Some e else l !! flat p c' d'.
Proof.
  intros Hp Hc Hd Hc' Hd' H1 H2 Hl. pose proof (flat_bound p c d Hp Hc Hd H1). destruct (decide (c' = c /\ d' = d)) as [[-> ->]|Hne].
  - apply list_lookup_insert_eq. unfold flat. lia.
  - apply list_lookup_insert_ne. intros E0. apply Hne. destruct (flat_inj p c d c' d') as [-> ->]; done.
Qed.

Lemma wp_private w p (Q : EFI_SATA_CONTROLLER_PRIVATE_DATA -> ide_state -> Prop) : Q p (w, p) -> wp (private (W:=W)) Q (w, p).
Proof. intros HQ. unfold private. wp_step. wp_step. by wp_step. Qed.
Lemma wp_set_private w p p' (Q : unit -> ide_state -> Prop) : Q tt (w, p') -> wp (set_private (W:=W) p') Q (w, p).
Proof. intros HQ. unfold set_private. wp_step. wp_step. by wp_step. Qed.
Lemma wp_service {R} (f : Prelude.M (pci_driver W) R) w p (Q : R -> ide_state -> Prop) :
  wp f (fun r w' => Q r (w', p)) w -> wp (service f) Q (w, p).
Proof. unfold wp, service. cbn [fst snd]. by destruct (f w). Qed.

Section Device.
Context (w : pci_driver W) (p : EFI_SATA_CONTROLLER_PRIVATE_DATA) (c d : Z) (Hp : sata_ok p) (Hc : 0 <= c) (Hd : 0 <= d).
Lemma absent_refused Data Bad out : present p c d = false -> Bad <> None ->
  wp (IdeInitSubmitData c d Data) (fun St s' => St = EFI_INVALID_PARAMETER /\ s' = (w, p)) (w, p) /\
  wp (IdeInitDisqualifyMode c d Bad) (fun St s' => St = EFI_INVALID_PARAMETER /\ s' = (w, p)) (w, p) /\
  wp (IdeInitCalculateMode c d out) (fun r s' => r = (EFI_INVALID_PARAMETER, None) /\ s' = (w, p)) (w, p).
Proof.
  intros Hn HB. pose proof (present_tests p c d) as Ht. rewrite Hn in Ht. cbn [negb] in Ht. split; [|split].
  - unfold IdeInitSubmitData. wp_step. apply wp_private. rewrite Ht. by wp_step.
  - unfold IdeInitDisqualifyMode. wp_step. apply wp_private. destruct Bad; [|done]. rewrite Ht. by wp_step.
  - unfold IdeInitCalculateMode. wp_step. apply wp_private.
    assert (((ChannelCount p <=? c) || negb out || (DeviceCount p <=? d)) = true) as ->; [|by wp_step].
    apply orb_true_iff in Ht as [->| ->]; [done|]. by rewrite orb_true_r.
Qed.
Context (Hpr : present p c d = true).
Lemma SubmitData_spec Data :
  wp (IdeInitSubmitData c d Data) (fun St s' => St = EFI_SUCCESS /\ s'.1 = w /\ sata_ok s'.2 /\
    forall c' d', 0 <= c' -> 0 <= d' -> present p c' d' = true ->
      present s'.2 c' d' = true /\ bad_modes s'.2 c' d' = bad_modes p c' d' /\
      submitted s'.2 c' d' = if decide (c' = c /\ d' = d) then Data else submitted p c' d') (w, p).
Proof.
  pose proof Hp as [Hcc Hdc Hlm Hld Hlv]. pose proof (present_tests p c d) as Ht. rewrite Hpr in Ht. cbn [negb] in Ht.
  pose proof (flat_bound p c d Hp Hc Hd Hpr) as Hb. unfold IdeInitSubmitData. wp_step. apply wp_private. rewrite Ht.
  wp_step. apply wp_Flat; [done|].
  destruct Data as [x|].
  - wp_step. apply wp_replaced; [lia|]. wp_step. apply wp_replaced; [lia|]. fold (flat p c d). wp_step. apply wp_set_private. wp_step.
    split; [done|]. split; [done|]. split; [split; cbn; rewrite ?length_insert; done|].
    intros c' d' Hc' Hd' Hpr'. split; [exact Hpr'|]. split; [done|]. unfold submitted. cbn [snd IdentifyValid IdentifyData with_identify].
    change (flat (with_identify _ _ p) c' d') with (flat p c' d'). rewrite !lookup_replaced by done. by destruct (decide (c' = c /\ d' = d)).
  - wp_step. apply wp_replaced; [lia|]. fold (flat p c d). wp_step. apply wp_set_private. wp_step.
    split; [done|]. split; [done|]. split; [split; cbn; rewrite ?length_insert; done|].
    intros c' d' Hc' Hd' Hpr'. split; [exact Hpr'|]. split; [done|]. unfold submitted. cbn [snd IdentifyValid IdentifyData with_identify].
    change (flat (with_identify _ _ p) c' d') with (flat p c' d'). rewrite lookup_replaced by done. by destruct (decide (c' = c /\ d' = d)).
Qed.
Lemma DisqualifyMode_spec Bad :
  wp (IdeInitDisqualifyMode c d (Some Bad)) (fun St s' => St = EFI_SUCCESS /\ s'.1 = w /\ sata_ok s'.2 /\
    forall c' d', 0 <= c' -> 0 <= d' -> present p c' d' = true ->
      present s'.2 c' d' = true /\ submitted s'.2 c' d' = submitted p c' d' /\
      bad_modes s'.2 c' d' = if decide (c' = c /\ d' = d) then Bad else bad_modes p c' d') (w, p).
Proof.
  pose proof Hp as [Hcc Hdc Hlm Hld Hlv]. pose proof (present_tests p c d) as Ht. rewrite Hpr in Ht. cbn [negb] in Ht.
  pose proof (flat_bound p c d Hp Hc Hd Hpr) as Hb. unfold IdeInitDisqualifyMode. wp_step. apply wp_private. rewrite Ht.
  wp_step. apply wp_Flat; [done|]. wp_step. apply wp_replaced; [lia|]. fold (flat p c d). wp_step. apply wp_set_private. wp_step.
  split; [done|]. split; [done|]. split; [split; cbn; rewrite ?length_insert; done|].
  intros c' d' Hc' Hd' Hpr'. split; [exact Hpr'|]. split; [done|]. unfold bad_modes. cbn [snd DisqualifiedModes with_disqualified].
  change (flat (with_disqualified _ p) c' d') with (flat p c' d'). rewrite lookup_replaced by done. by destruct (decide (c' = c /\ d' = d)).
Qed.
Lemma CalculateMode_spec : (forall w, (pool_alloc (W:=W) w).1 = true) ->
  wp (IdeInitCalculateMode c d true) (fun r s' => s'.2 = p /\
    match submitted p c d with
    | None => r = (EFI_NOT_READY, None) /\ held_pci 0 0 0 [] w s'.1
    | Some x => held_pci 1 0 0 [] w s'.1 /\
        r = (EFI_SUCCESS, Some (mkModes (mode_of (CalculateBestPioMode x (disqualified (PioMode (bad_modes p c d))))) no_mode no_mode
               (mode_of (CalculateBestUdmaMode x (disqualified (UdmaMode (bad_modes p c d)))))))
    end) (w, p).
Proof.
  intros Hpool. pose proof Hp as [Hcc Hdc Hlm Hld Hlv]. pose proof (present_tests p c d) as Ht. rewrite Hpr in Ht. cbn [negb] in Ht.
  pose proof (flat_bound p c d Hp Hc Hd Hpr) as Hb. unfold IdeInitCalculateMode. wp_step. apply wp_private. cbn [negb]. rewrite orb_false_r, Ht.
  wp_step. apply wp_service. eapply wp_ask_held; [apply held_pci_refl|]. intros ok w1 s1 E H1.
  pose proof (Hpool (World w)) as Hok. rewrite E in Hok. cbn [fst] in Hok. subst ok. cbn [negb].
  wp_step. apply wp_service. apply wp_tally. set (s2 := with_counts 1 0 0 s1). assert (held_pci 1 0 0 [] w s2) as H2.
  { eapply held_pci_eq; [eapply held_pci_trans; [exact H1|apply held_pci_counts]|lia|lia|lia|done]. }
  clearbody s2. wp_step. apply wp_Flat; [done|]. wp_step. apply wp_element; [lia|]. intros x Hx. wp_step. apply wp_element; [lia|]. intros v Hv.
  wp_step. apply wp_element; [lia|]. intros b Hbm. fold (flat p c d) in Hx, Hv, Hbm.
  unfold submitted, bad_modes. rewrite Hx, Hv, Hbm. cbn [default]. destruct v; cbn [negb].
  - wp_step. by split.
  - wp_step. apply wp_service. apply wp_tally. wp_step. split; [done|]. split; [done|]. cbn [fst].
    eapply held_pci_eq; [eapply held_pci_trans; [exact H2|apply held_pci_counts]|lia|lia|lia|done].
Qed.
End Device.

(** C37: the protocol keeps, for each device of each channel, the identify data
    last submitted and the modes last disqualified: the flat arrays refine this
    table.  A call of DisqualifyMode replaces the modes of the call before (its
    comment promises that several calls add up).  A member changes the entry of its device only, refuses a device
    that does not exist without a change, and keeps the arrays well formed;
    CalculateMode answers from the entry of its device (EFI_NOT_READY when
    nothing was submitted) and leaves one pool block to the caller when it
    succeeds.  The pool has memory: CalculateMode asserts its allocation. *)
Theorem sata_ide_init (w : pci_driver W) p c d : sata_ok p -> 0 <= c -> 0 <= d -> (forall w, (pool_alloc (W:=W) w).1 = true) ->
  (present p c d = false -> forall Data Bad out, Bad <> None ->
     wp (IdeInitSubmitData c d Data) (fun St s' => St = EFI_INVALID_PARAMETER /\ s' = (w, p)) (w, p) /\
     wp (IdeInitDisqualifyMode c d Bad) (fun St s' => St = EFI_INVALID_PARAMETER /\ s' = (w, p)) (w, p) /\
     wp (IdeInitCalculateMode c d out) (fun r s' => r = (EFI_INVALID_PARAMETER, None) /\ s' = (w, p)) (w, p)) /\
  (present p c d = true -> forall Data Bad,
     wp (IdeInitSubmitData c d Data) (fun St s' => St = EFI_SUCCESS /\ s'.1 = w /\ sata_ok s'.2 /\
       forall c' d', 0 <= c' -> 0 <= d' -> present p c' d' = true ->
         present s'.2 c' d' = true /\ bad_modes s'.2 c' d' = bad_modes p c' d' /\
         submitted s'.2 c' d' = if decide (c' = c /\ d' = d) then Data else submitted p c' d') (w, p) /\
     wp (IdeInitDisqualifyMode c d (Some Bad)) (fun St s' => St = EFI_SUCCESS /\ s'.1 = w /\ sata_ok s'.2 /\
       forall c' d', 0 <= c' -> 0 <= d' -> present p c' d' = true ->
         present s'.2 c' d' = true /\ submitted s'.2 c' d' = submitted p c' d' /\
         bad_modes s'.2 c' d' = if decide (c' = c /\ d' = d) then Bad else bad_modes p c' d') (w, p) /\
     wp (IdeInitCalculateMode c d true) (fun r s' => s'.2 = p /\
       match submitted p c d with
       | None => r = (EFI_NOT_READY, None) /\ held_pci 0 0 0 [] w s'.1
       | Some x => held_pci 1 0 0 [] w s'.1 /\
           r = (EFI_SUCCESS, Some (mkModes (mode_of (CalculateBestPioMode x (disqualified (PioMode (bad_modes p c d))))) no_mode no_mode
                  (mode_of (CalculateBestUdmaMode x (disqualified (UdmaMode (bad_modes p c d)))))))
       end) (w, p)).
Proof.
  intros Hp Hc Hd Hpool. split; [intros Hn Data Bad out HB; by apply absent_refused|].
  intros Hpr Data Bad. split; [by apply SubmitData_spec|]. split; [by apply DisqualifyMode_spec|by apply CalculateMode_spec].
Qed.
End Members.

(** ** The driver binding *)
Section Binding.
Context {W : Type} {A : AhciBar W} {PE : PoolEnv W} {B : PciBus W}.
Implicit Types s : pci_driver W.
Lemma lookup_replicate_default n i : default false (replicate n false !! i) = false.
Proof. destruct (replicate n false !! i) as [b|] eqn:E; [|done]. by apply lookup_replicate in E as [-> _]. Qed.
#[local] Abbreviation answer := (EFI_STATUS * option EFI_SATA_CONTROLLER_PRIVATE_DATA)%type.

Lemma wp_tally_held d o i k s0 s d' o' i' (Q : unit -> pci_driver W -> Prop) : held_pci d o i k s0 s ->
  (forall s', held_pci (d + d') (o + o') (i + i') k s0 s' -> Q tt s') -> wp (tally d' o' i') Q s.
Proof.
  intros H HQ. apply wp_tally, HQ. eapply held_pci_eq; [eapply held_pci_trans; [exact H|apply held_pci_counts]|lia|lia|lia|by rewrite app_nil_r].
Qed.
Lemma wp_zero_pool d o i k s0 s (Q : bool -> pci_driver W -> Prop) : held_pci d o i k s0 s ->
  (forall (ok : bool) s', held_pci (if ok then d + 1 else d) o i k s0 s' -> Q ok s') -> wp zero_pool Q s.
Proof.
  intros H HQ. unfold zero_pool. wp_step. eapply wp_ask_held; [exact H|]. intros ok w s' _ H'. wp_step. destruct ok.
  - eapply wp_tally_held; [exact H'|]. intros s2 H2. wp_step. apply HQ. by rewrite !Z.add_0_r in H2.
  - wp_step. wp_step. by apply HQ.
Qed.
(** The labels give back what they name, and the labels after them. *)
Lemma wp_labels Original St k s0 (Q : answer -> pci_driver W -> Prop) :
  (forall s, held_pci 0 1 0 k s0 s -> (forall s', held_pci 0 0 0 k s0 s' -> Q (St, None) s') -> wp (ClosePciIo_sata St) Q s) /\
  ((forall s', held_pci 0 0 0 (k ++ [AttrSet Original]) s0 s' -> Q (St, None) s') ->
   (forall s, held_pci 0 1 0 k s0 s -> wp (RestorePciAttributes_sata Original St) Q s) /\
   (forall s, held_pci 1 1 0 k s0 s -> wp (FreeSataPrivateData Original St) Q s) /\
   (forall s, held_pci 2 1 0 k s0 s -> wp (FreeDisqualifiedModes Original St) Q s) /\
   (forall s, held_pci 3 1 0 k s0 s -> wp (FreeIdentifyData Original St) Q s) /\
   (forall s, held_pci 4 1 0 k s0 s -> wp (FreeIdentifyValid Original St) Q s)).
Proof.
  assert (forall k s (P : answer -> pci_driver W -> Prop), held_pci 0 1 0 k s0 s -> (forall s', held_pci 0 0 0 k s0 s' -> P (St, None) s') -> wp (ClosePciIo_sata St) P s) as HC.
  { intros k' s P H HP. unfold ClosePciIo_sata, Bail. wp_step. eapply wp_tally_held; [exact H|]. intros s' H'. wp_step. by apply HP. }
  split; [intros s; apply HC|]. intros HQ.
  assert (forall s, held_pci 0 1 0 k s0 s -> wp (RestorePciAttributes_sata Original St) Q s) as HR.
  { intros s H. unfold RestorePciAttributes_sata. wp_step. eapply wp_SetPciAttributes; [exact H|]. intros s' H'. by eapply HC. }
  assert (forall s, held_pci 1 1 0 k s0 s -> wp (FreeSataPrivateData Original St) Q s) as H1.
  { intros s H. unfold FreeSataPrivateData. wp_step. eapply wp_tally_held; [exact H|]. intros s' H'. by apply HR. }
  assert (forall s, held_pci 2 1 0 k s0 s -> wp (FreeDisqualifiedModes Original St) Q s) as H2.
  { intros s H. unfold FreeDisqualifiedModes. wp_step. eapply wp_tally_held; [exact H|]. intros s' H'. by apply H1. }
  assert (forall s, held_pci 3 1 0 k s0 s -> wp (FreeIdentifyData Original St) Q s) as H3.
  { intros s H. unfold FreeIdentifyData. wp_step. eapply wp_tally_held; [exact H|]. intros s' H'. by apply H2. }
  split; [done|]. split; [done|]. split; [done|]. split; [done|]. intros s H. unfold FreeIdentifyValid.
  wp_step. eapply wp_tally_held; [exact H|]. intros s' H'. by apply H3.
Qed.
Lemma wp_CountDevices cc d o i k s0 s (Q : Z * Z -> pci_driver W -> Prop) : held_pci d o i k s0 s ->
  (forall c s', 0 <= c.1 <= 32 -> 0 <= c.2 <= 15 -> held_pci d o i k s0 s' -> Q c s') -> wp (CountDevices cc) Q s.
Proof.
  intros H HQ. unfold CountDevices. destruct (IS_PCI_IDE cc); [wp_step; by apply HQ|]. destruct (IS_PCI_SATADPA cc); [|wp_step; by apply HQ].
  unfold AhciReadReg. wp_step. wp_step. eapply wp_ask_held; [exact H|]. intros [St v] w s' _ H'. wp_step. wp_step. cbn [snd]. apply HQ; [| |done]; cbn [fst snd].
  - unfold B_AHCI_CAP_NPS. change 0x1f with (Z.ones 5). rewrite Z.land_ones by done. change (2 ^ 5) with 32. unfold u8.
    pose proof (Z.mod_pos_bound v 32 ltac:(done)). rewrite Z.mod_small; lia.
  - destruct (_ =? _); done.
Qed.

(** The driver binding: Start takes four pool blocks, one protocol open and
    one interface, with the device enabled and arrays for its devices, or
    reports an error, holds nothing and has the attributes restored; Stop
    gives everything back or fails without effect. *)
Definition sata_absent (St : EFI_STATUS) s s' : Prop := EFI_ERROR St = true /\ (held_pci 0 0 0 [] s s' \/
  exists Original, held_pci 0 0 0 [AttrEnable EFI_PCI_DEVICE_ENABLE; AttrSet Original] s s').
Lemma SataControllerStart_spec s :
  wp SataControllerStart (fun '(St, r) s' =>
    match r with
    | Some p => EFI_ERROR St = false /\ sata_ok p /\ (forall c d, submitted p c d = None) /\
        held_pci 4 1 1 [AttrEnable EFI_PCI_DEVICE_ENABLE] s s'
    | None => sata_absent St s s'
    end) s.
Proof.
  pose proof (held_pci_refl s) as H0. unfold SataControllerStart. wp_step. eapply wp_OpenPci; [exact H0|]. intros St s1 H1.
  destruct (EFI_ERROR St) eqn:E1; cbv iota; [unfold Bail; wp_step; split; [done|by left]|]. rewrite Z.add_0_l in H1.
  assert (forall St s', EFI_ERROR St = true -> held_pci 0 1 0 [] s s' -> wp (ClosePciIo_sata St) (fun '(St, r) s' => match r with
    | Some p => EFI_ERROR St = false /\ sata_ok p /\ (forall c d, submitted p c d = None) /\ held_pci 4 1 1 [AttrEnable EFI_PCI_DEVICE_ENABLE] s s'
    | None => sata_absent St s s' end) s') as Hclose.
  { intros St' s' HE H'. eapply (proj1 (wp_labels 0 St' [] s _)); [exact H'|]. intros s'' H''. split; [done|by left]. }
  wp_step. eapply wp_ask_held; [exact H1|]. intros [St2 Original] w2 s2 _ H2. destruct (EFI_ERROR St2) eqn:E2; cbv iota; [by apply Hclose|].
  wp_step. eapply wp_ask_held; [exact H2|]. intros St3 w3 s3 _ H3. destruct (EFI_ERROR St3) eqn:E3; cbv iota; [by apply Hclose|].
  wp_step. wp_step. assert (held_pci 0 1 0 [AttrEnable EFI_PCI_DEVICE_ENABLE] s (with_attr (AttrEnable EFI_PCI_DEVICE_ENABLE) s3)) as H4.
  { eapply held_pci_eq; [eapply held_pci_trans; [exact H3|apply held_pci_attr]|lia|lia|lia|done]. }
  clear Hclose. pose proof (fun (St : EFI_STATUS) (HE : EFI_ERROR St = true) => proj2 (wp_labels Original St [AttrEnable EFI_PCI_DEVICE_ENABLE] s (fun '(St, r) s' => match r with
    | Some p => EFI_ERROR St = false /\ sata_ok p /\ (forall c d, submitted p c d = None) /\ held_pci 4 1 1 [AttrEnable EFI_PCI_DEVICE_ENABLE] s s'
    | None => sata_absent St s s' end)) (fun s' H' => conj HE (or_intror (ex_intro _ Original H')))) as Hl.
  wp_step. eapply wp_zero_pool; [exact H4|]. intros ok s5 H5. destruct ok; cbn [negb]; cbv iota; [|destruct (Hl EFI_OUT_OF_RESOURCES eq_refl) as (HR & _); by apply HR].
  wp_step. unfold ReadClass. eapply wp_ask_held; [exact H5|]. intros [St6 cc] w6 s6 _ H6. destruct (EFI_ERROR St6) eqn:E6; cbv iota; [destruct (Hl St6 E6) as (_ & H1' & _); by apply H1'|].
  wp_step. eapply wp_CountDevices; [exact H6|]. intros c s7 Hc1 Hc2 H7. cbv zeta.
  wp_step. eapply wp_zero_pool; [exact H7|]. intros ok s8 H8. destruct ok; cbn [negb]; cbv iota; [|destruct (Hl EFI_OUT_OF_RESOURCES eq_refl) as (_ & H1' & _); by apply H1'].
  wp_step. eapply wp_zero_pool; [exact H8|]. intros ok s9 H9. destruct ok; cbn [negb]; cbv iota; [|destruct (Hl EFI_OUT_OF_RESOURCES eq_refl) as (_ & _ & H2' & _); by apply H2'].
  wp_step. eapply wp_zero_pool; [exact H9|]. intros ok s10 H10. destruct ok; cbn [negb]; cbv iota; [|destruct (Hl EFI_OUT_OF_RESOURCES eq_refl) as (_ & _ & _ & H3' & _); by apply H3'].
  wp_step. eapply wp_ask_held; [exact H10|]. intros St11 w11 s11 _ H11. destruct (EFI_ERROR St11) eqn:E11; cbv iota; [destruct (Hl St11 E11) as (_ & _ & _ & _ & H4'); by apply H4'|].
  wp_step. eapply wp_tally_held; [exact H11|]. intros s12 H12. wp_step. split; [done|]. split; [split; cbn; rewrite ?length_replicate; nia|].
  split; [|exact H12]. intros c' d'. unfold submitted. cbn [IdentifyValid]. rewrite lookup_replicate_default. done.
Qed.
Lemma SataControllerStop_spec p Close s : EFI_ERROR Close = false ->
  wp (SataControllerStop p Close) (fun St s' =>
    if EFI_ERROR St then held_pci 0 0 0 [] s s' else held_pci (-4) (-1) (-1) [AttrSet (OriginalAttributes p)] s s') s.
Proof.
  intros HC. pose proof (held_pci_refl s) as H0. unfold SataControllerStop. wp_step. eapply wp_ask_held; [exact H0|]. intros St w s1 _ H1.
  destruct (EFI_ERROR St) eqn:E1; cbv iota; [by wp_step|]. wp_step. eapply wp_ask_held; [exact H1|]. intros St2 w2 s2 _ H2.
  destruct (EFI_ERROR St2) eqn:E2; cbv iota; [wp_step; by rewrite E2|].
  wp_step. eapply wp_tally_held; [exact H2|]. intros s3 H3. wp_step. eapply wp_tally_held; [exact H3|]. intros s4 H4.
  wp_step. eapply wp_tally_held; [exact H4|]. intros s5 H5. wp_step. eapply wp_tally_held; [exact H5|]. intros s6 H6.
  wp_step. eapply wp_tally_held; [exact H6|]. intros s7 H7. wp_step. eapply wp_SetPciAttributes; [exact H7|]. intros s8 H8.
  wp_step. eapply wp_tally_held; [exact H8|]. intros s9 H9. wp_step. by rewrite HC.
Qed.
End Binding.

(** ** A concrete controller

    Two channels with two devices each. *)
Module Ide.
#[local] Instance pool : PoolEnv unit := fun w => (true, w).
Definition controller : EFI_SATA_CONTROLLER_PRIVATE_DATA :=
  mkSata 7 2 2 (replicate 4 no_modes) (replicate 4 []) [false; false; false; true].
Definition services : pci_driver unit := mkPciDriver tt [] [] 4 1 1 [AttrEnable EFI_PCI_DEVICE_ENABLE].
(** A drive from before the advanced modes, that claims PIO mode 3. *)
Definition old_drive : identify_data := replicate 51 0 ++ [0x300].

Lemma sata_modes_witness :
  CalculateBestPioMode old_drive (Some 2) = (EFI_SUCCESS, Some 2) /\ words_valid old_drive = false /\ 3 <= pio_timing old_drive.
Proof.
  assert (forall k, Some 2 = Some k -> is_u16 k) as Hk by (by intros k [= <-]).
  destruct (sata_modes old_drive (Some 2) Hk) as (_ & H & _).
  assert (CalculateBestPioMode old_drive (Some 2) = (EFI_SUCCESS, Some 2)) as E by reflexivity. split; [exact E|].
  destruct (proj1 (H 2 2 eq_refl E) (Z.le_refl 2)) as (Hw & _ & _ & Ht). split; [exact Hw|exact Ht].
Defined.
Lemma sata_ide_init_witness : wp (IdeInitSubmitData 1 0 (Some old_drive)) (fun St s' => St = EFI_SUCCESS /\ submitted s'.2 1 0 = Some old_drive) (services, controller).
Proof.
  assert (sata_ok controller) as Hok by (by split).
  assert (forall w : unit, (pool_alloc w).1 = true) as Hpool by done.
  destruct (sata_ide_init services controller 1 0 Hok ltac:(lia) ltac:(lia) Hpool) as [_ H].
  destruct (H eq_refl (Some old_drive) no_modes) as [Hs _]. eapply wp_mono; [exact Hs|].
  intros St s' (HSt & _ & _ & Hv). split; [exact HSt|]. destruct (Hv 1 0 ltac:(lia) ltac:(lia) eq_refl) as (_ & _ & E). exact E.
Defined.
End Ide.
