(* ===== verification/FlashFvb.v ===== *)
(** * QemuFlashFvbServicesRuntimeDxe: the flash and the volume block protocol

    Models Platforms/QemuQ35Pkg/QemuFlashFvbServicesRuntimeDxe: QemuFlash.c,
    QemuFlashDxe.c, QemuFlashSmm.c, FvbInfo.c and FwBlockService.c.  The
    flash of the machine is a parameter, at offsets from the physical base of
    the firmware device; an access outside of it is a [BadPointer] trap. *)
From S2P Require Import Prelude Bytes.

Class PFlash (W : Type) := {
  fl_read : Z -> W -> Z;
  fl_write : Z -> Z -> W -> W;
}.

Definition WRITE_BYTE_CMD : Z := 0x10.
Definition BLOCK_ERASE_CMD : Z := 0x20.
Definition CLEAR_STATUS_CMD : Z := 0x50.
Definition READ_STATUS_CMD : Z := 0x70.
Definition BLOCK_ERASE_CONFIRM_CMD : Z := 0xd0.
Definition READ_ARRAY_CMD : Z := 0xff.
Definition CLEARED_ARRAY_STATUS : Z := 0x00.

(** From the PI specification. *)
Definition EFI_VOLUME_CORRUPTED : EFI_STATUS := ENCODE_ERROR 10.
Definition EFI_FVB2_READ_DISABLED_CAP : Z := 0x1.
Definition EFI_FVB2_READ_ENABLED_CAP : Z := 0x2.
Definition EFI_FVB2_READ_STATUS : Z := 0x4.
Definition EFI_FVB2_WRITE_DISABLED_CAP : Z := 0x8.
Definition EFI_FVB2_WRITE_ENABLED_CAP : Z := 0x10.
Definition EFI_FVB2_WRITE_STATUS : Z := 0x20.
Definition EFI_FVB2_LOCK_CAP : Z := 0x40.
Definition EFI_FVB2_LOCK_STATUS : Z := 0x80.
Definition EFI_FVB2_STICKY_WRITE : Z := 0x200.
Definition EFI_FVB2_MEMORY_MAPPED : Z := 0x400.
Definition EFI_FVB2_ERASE_POLARITY : Z := 0x800.
Definition EFI_FVB2_READ_LOCK_CAP : Z := 0x1000.
Definition EFI_FVB2_READ_LOCK_STATUS : Z := 0x2000.
Definition EFI_FVB2_WRITE_LOCK_CAP : Z := 0x4000.
Definition EFI_FVB2_WRITE_LOCK_STATUS : Z := 0x8000.
Definition EFI_FVB2_ALIGNMENT : Z := 0x1F0000.
Definition EFI_FVB2_ALIGNMENT_16 : Z := 0x40000.
Definition EFI_FVB2_STATUS : Z := Z.lor EFI_FVB2_READ_STATUS (Z.lor EFI_FVB2_WRITE_STATUS EFI_FVB2_LOCK_STATUS).
Definition EFI_FVH_SIGNATURE : Z := 0x4856465F.
Definition EFI_FVH_REVISION : Z := 2.
Definition EFI_LBA_LIST_TERMINATOR : Z := 2 ^ 64 - 1.
Definition EFI_SYSTEM_NV_DATA_FV_GUID : list Z :=
  [0x8D; 0x2B; 0xF1; 0xFF; 0x96; 0x76; 0x8B; 0x4C; 0xA9; 0x85; 0x27; 0x47; 0x07; 0x5B; 0x4F; 0x50].

(** Offsets in EFI_FIRMWARE_VOLUME_HEADER, and of the header in
    EFI_FW_VOL_INSTANCE. *)
Definition OFF_FvLength : Z := 32.
Definition OFF_Signature : Z := 40.
Definition OFF_Attributes : Z := 44.
Definition OFF_HeaderLength : Z := 48.
Definition OFF_Checksum : Z := 50.
Definition OFF_ExtHeaderOffset : Z := 52.
Definition OFF_Revision : Z := 55.
Definition OFF_BlockMap : Z := 56.
Definition SIZEOF_FV_HEADER : Z := 64.
Definition SIZEOF_BLOCK_MAP_ENTRY : Z := 8.
Definition OFF_NumOfBlocks : Z := 8.
Definition OFF_VolumeHeader : Z := 16.
Definition SIZEOF_FW_VOL_INSTANCE : Z := 80.

(** FvInstance: the bytes of its pool block, the instances one after the
    other. *)
Record ESAL_FWB_GLOBAL : Type := mkGlobal { NumFv : Z; FvInstance : list Z }.
Inductive device_path : Type :=
  | FV_MEMMAP_DEVICE_PATH (StartingAddress EndingAddress : Z)
  | FV_PIWG_DEVICE_PATH (FvName : list Z).
Record EFI_FW_VOL_BLOCK_DEVICE : Type := mkFvbDevice { DevicePath : device_path; Instance : Z }.

(** The PCDs. *)
Record pcds : Type := mkPcds {
  PcdOvmfFdBaseAddress : Z; PcdOvmfFirmwareFdSize : Z; PcdOvmfFirmwareBlockSize : Z;
  PcdOvmfFlashNvStorageVariableBase : Z; PcdFlashNvStorageVariableSize : Z; PcdFlashNvStorageFtwWorkingSize : Z;
  PcdFlashNvStorageFtwSpareSize : Z; PcdOvmfFlashNvStorageEventLogSize : Z;
  PcdOvmfFlashNvStorageFtwWorkingBase : Z; PcdOvmfFlashNvStorageFtwSpareBase : Z; PcdSmmSmramRequire : bool;
}.

(** The DXE driver and the SMM driver (QemuFlashDxe.c, QemuFlashSmm.c). *)
Inductive module_type : Type := Dxe | Smm.

(** Calls to other modules that are recorded. *)
Inductive event : Type :=
  | LocateDevicePath (p : device_path)
  | InstallMultipleProtocolInterfaces (d : EFI_FW_VOL_BLOCK_DEVICE)
  | HandleProtocol
  | ReinstallProtocolInterface (d : EFI_FW_VOL_BLOCK_DEVICE)
  | SmmInstallFvb (d : EFI_FW_VOL_BLOCK_DEVICE)
  | SmmInstallDevicePath (d : EFI_FW_VOL_BLOCK_DEVICE)
  | CreateEventEx
  | RemoveMemorySpace (Base Length : Z)
  | AddMemorySpace (Base Length : Z)
  | AllocateMemorySpace (Base Length : Z)
  | GetMemorySpaceDescriptor (Base : Z)
  | SetMemorySpaceAttributes (Base Length Attributes : Z)
  | MemEncryptSevClearMmioPageEncMask (Base Pages : Z)
  | PcdSet (Token Value : Z).

(** [Virt]: where the processor sees the flash; [Pools]: the allocations so
    far. *)
Record fvb (W : Type) : Type := mkFvb {
  Dev : W; Virt : Z; mFlashBase : Z; mFdBlockSize : Z; mFdBlockCount : Z; mSevEsFlashPhysBase : Z;
  Checksummed : bool; FvbInfo : list Z; mFvbModuleGlobal : option ESAL_FWB_GLOBAL; Pools : nat; Log : list event;
}.
Arguments mkFvb {W}. Arguments Dev {W}. Arguments Virt {W}. Arguments mFlashBase {W}. Arguments mFdBlockSize {W}.
Arguments mFdBlockCount {W}. Arguments mSevEsFlashPhysBase {W}. Arguments Checksummed {W}. Arguments FvbInfo {W}.
Arguments mFvbModuleGlobal {W}. Arguments Pools {W}. Arguments Log {W}.

Section Flash.
Context {W : Type} `{PFlash W} (pcd : pcds) (module : module_type) (MemEncryptSevEsIsEnabled : bool).
#[local] Abbreviation M := (M (fvb W)).

Definition set_dev (d : W) (s : fvb W) : fvb W :=
  mkFvb d (Virt s) (mFlashBase s) (mFdBlockSize s) (mFdBlockCount s) (mSevEsFlashPhysBase s) (Checksummed s) (FvbInfo s) (mFvbModuleGlobal s) (Pools s) (Log s).
Definition set_flash (base size count : Z) (s : fvb W) : fvb W :=
  mkFvb (Dev s) (Virt s) base size count (mSevEsFlashPhysBase s) (Checksummed s) (FvbInfo s) (mFvbModuleGlobal s) (Pools s) (Log s).
Definition set_sev_base (b : Z) (s : fvb W) : fvb W :=
  mkFvb (Dev s) (Virt s) (mFlashBase s) (mFdBlockSize s) (mFdBlockCount s) b (Checksummed s) (FvbInfo s) (mFvbModuleGlobal s) (Pools s) (Log s).
Definition set_info (c : bool) (i : list Z) (s : fvb W) : fvb W :=
  mkFvb (Dev s) (Virt s) (mFlashBase s) (mFdBlockSize s) (mFdBlockCount s) (mSevEsFlashPhysBase s) c i (mFvbModuleGlobal s) (Pools s) (Log s).
Definition set_global (g : option ESAL_FWB_GLOBAL) (s : fvb W) : fvb W :=
  mkFvb (Dev s) (Virt s) (mFlashBase s) (mFdBlockSize s) (mFdBlockCount s) (mSevEsFlashPhysBase s) (Checksummed s) (FvbInfo s) g (Pools s) (Log s).
Definition set_pools (n : nat) (s : fvb W) : fvb W :=
  mkFvb (Dev s) (Virt s) (mFlashBase s) (mFdBlockSize s) (mFdBlockCount s) (mSevEsFlashPhysBase s) (Checksummed s) (FvbInfo s) (mFvbModuleGlobal s) n (Log s).
Definition logged (e : event) (s : fvb W) : fvb W :=
  mkFvb (Dev s) (Virt s) (mFlashBase s) (mFdBlockSize s) (mFdBlockCount s) (mSevEsFlashPhysBase s) (Checksummed s) (FvbInfo s) (mFvbModuleGlobal s) (Pools s) (Log s ++ [e]).

(** ** QemuFlash.c *)
Definition in_fd (o : Z) : bool := (0 <=? o) && (o <? PcdOvmfFirmwareFdSize pcd).
(** [*Ptr], and [*Ptr = Value]. *)
Definition ptr_read (Ptr : Z) : M Z :=
  s ← get; let o := Ptr - Virt s in if in_fd o then mret (fl_read o (Dev s)) else trapped BadPointer.
Definition ptr_write (Ptr Value : Z) : M unit :=
  s ← get; let o := Ptr - Virt s in if in_fd o then put (set_dev (fl_write o Value (Dev s)) s) else trapped BadPointer.
(** VMGEXIT: a write to a physical address. *)
Definition phys_write (PhysAddr Value : Z) : M unit :=
  s ← get; let o := PhysAddr - PcdOvmfFdBaseAddress pcd in
  if in_fd o then put (set_dev (fl_write o Value (Dev s)) s) else trapped BadPointer.

Definition QemuFlashPtrWrite (Ptr Value : Z) : M unit :=
  match module with
  | Dxe =>
      if MemEncryptSevEsIsEnabled then
        s ← get;
        phys_write (if mSevEsFlashPhysBase s =? 0 then Ptr else mSevEsFlashPhysBase s + (Ptr - mFlashBase s)) Value
      else ptr_write Ptr Value
  | Smm => ptr_write Ptr Value
  end.

Definition QemuFlashPtr (Lba Offset : Z) : M Z :=
  s ← get; mret (u64 (mFlashBase s + u64 (Lba * mFdBlockSize s) + Offset)).

(** The probe loop, from [Offset] on, [n] offsets. *)
Fixpoint Probe (n : nat) (Offset : Z) : M (option Z) :=
  match n with
  | O => mret None
  | S n =>
      Ptr ← QemuFlashPtr 0 Offset;
      ProbeUint8 ← ptr_read Ptr;
      if negb (ProbeUint8 =? CLEAR_STATUS_CMD) && negb (ProbeUint8 =? READ_STATUS_CMD) && negb (ProbeUint8 =? CLEARED_ARRAY_STATUS)
      then mret (Some Ptr) else Probe n (Offset + 1)
  end.

Definition QemuFlashDetected : M bool :=
  s ← get;
  o ← Probe (Z.to_nat (mFdBlockSize s)) 0;
  match o with
  | None => mret false
  | Some Ptr =>
      if MemEncryptSevEsIsEnabled then mret true else
      OriginalUint8 ← ptr_read Ptr;
      ptr_write Ptr CLEAR_STATUS_CMD;;
      ProbeUint8 ← ptr_read Ptr;
      if negb (OriginalUint8 =? CLEAR_STATUS_CMD) && (ProbeUint8 =? CLEAR_STATUS_CMD)
      then ptr_write Ptr OriginalUint8;; mret false
      else
        ptr_write Ptr READ_STATUS_CMD;;
        ProbeUint8 ← ptr_read Ptr;
        if ProbeUint8 =? OriginalUint8 then mret false
        else if ProbeUint8 =? READ_STATUS_CMD then ptr_write Ptr OriginalUint8;; mret false
        else if ProbeUint8 =? CLEARED_ARRAY_STATUS then ptr_write Ptr READ_ARRAY_CMD;; mret true
        else mret false
  end.

(** CopyMem from the flash. *)
Fixpoint ReadBytes (n : nat) (Ptr : Z) : M (list Z) :=
  match n with
  | O => mret []
  | S n => b ← ptr_read Ptr; bs ← ReadBytes n (Ptr + 1); mret (b :: bs)
  end.
(** The status, and what Buffer gets. *)
Definition QemuFlashRead (Lba Offset NumBytes : Z) : M (EFI_STATUS * list Z) :=
  s ← get;
  if mFdBlockCount s <=? Lba then mret (EFI_INVALID_PARAMETER, []) else
  Ptr ← QemuFlashPtr Lba Offset;
  bs ← ReadBytes (Z.to_nat NumBytes) Ptr;
  mret (EFI_SUCCESS, bs).

(** The programming loop, for the bytes that are left; the pointer after it. *)
Fixpoint Program (bs : list Z) (Ptr : Z) : M Z :=
  match bs with
  | [] => mret Ptr
  | b :: bs => QemuFlashPtrWrite Ptr WRITE_BYTE_CMD;; QemuFlashPtrWrite Ptr b;; Program bs (Ptr + 1)
  end.
Definition QemuFlashWrite (Lba Offset NumBytes : Z) (Buffer : list Z) : M EFI_STATUS :=
  s ← get;
  if mFdBlockCount s <=? Lba then mret EFI_INVALID_PARAMETER else
  Ptr ← QemuFlashPtr Lba Offset;
  bs ← deref (if NumBytes <=? Z.of_nat (length Buffer) then Some (take (Z.to_nat NumBytes) Buffer) else None);
  Ptr ← Program bs Ptr;
  (if 0 <? NumBytes then QemuFlashPtrWrite (Ptr - 1) READ_ARRAY_CMD else mret tt);;
  mret EFI_SUCCESS.

Definition QemuFlashEraseBlock (Lba : Z) : M EFI_STATUS :=
  s ← get;
  if mFdBlockCount s <=? Lba then mret EFI_INVALID_PARAMETER else
  Ptr ← QemuFlashPtr Lba 0;
  QemuFlashPtrWrite Ptr BLOCK_ERASE_CMD;;
  QemuFlashPtrWrite Ptr BLOCK_ERASE_CONFIRM_CMD;;
  mret EFI_SUCCESS.

Definition QemuFlashInitialize (BeforeProbe : Z -> Z -> Z -> M unit) : M EFI_STATUS :=
  let base := PcdOvmfFdBaseAddress pcd in
  let size := PcdOvmfFirmwareBlockSize pcd in
  (if size =? 0 then trapped DivideByZero else mret tt);;
  ASSERT (PcdOvmfFirmwareFdSize pcd mod size =? 0);;
  modify (set_flash base size (PcdOvmfFirmwareFdSize pcd / size));;
  BeforeProbe base size (PcdOvmfFirmwareFdSize pcd / size);;
  ok ← QemuFlashDetected;
  if negb ok then ASSERT (negb (PcdSmmSmramRequire pcd));; mret EFI_WRITE_PROTECTED else mret EFI_SUCCESS.

(** ** FwBlockService.c: instances *)
Definition Global : M ESAL_FWB_GLOBAL := s ← get; deref (mFvbModuleGlobal s).
(** A field of [n] bytes at an offset of FvInstance. *)
Definition field (l : list Z) (off : Z) (n : nat) : option Z :=
  if (0 <=? off) && (off + Z.of_nat n <=? Z.of_nat (length l)) then Some (le_combine (take n (drop (Z.to_nat off) l))) else None.
Definition update (l : list Z) (off : Z) (bs : list Z) : option (list Z) :=
  if (0 <=? off) && (off + Z.of_nat (length bs) <=? Z.of_nat (length l))
  then Some (take (Z.to_nat off) l ++ bs ++ drop (Z.to_nat off + length bs) l) else None.

Fixpoint NextInstances (n : nat) (l : list Z) (off : Z) : M Z :=
  match n with
  | O => mret off
  | S n =>
      HeaderLength ← deref (field l (off + OFF_VolumeHeader + OFF_HeaderLength) 2);
      NextInstances n l (off + HeaderLength + (SIZEOF_FW_VOL_INSTANCE - SIZEOF_FV_HEADER))
  end.
(** The instance, as its offset. *)
Definition GetFvbInstance (Instance : Z) : M (EFI_STATUS * Z) :=
  g ← Global;
  if NumFv g <=? Instance then mret (EFI_INVALID_PARAMETER, 0) else
  off ← NextInstances (Z.to_nat Instance) (FvInstance g) 0;
  mret (EFI_SUCCESS, off).
Definition FwhInstance (Instance : Z) : M (list Z * Z) :=
  r ← GetFvbInstance Instance;
  ASSERT (negb (EFI_ERROR r.1));;
  g ← Global; mret (FvInstance g, r.2).

Definition FvbGetPhysicalAddress (Instance : Z) : M Z := r ← FwhInstance Instance; deref (field r.1 r.2 8).
Definition FvbGetVolumeAttributes (Instance : Z) : M Z :=
  r ← FwhInstance Instance; deref (field r.1 (r.2 + OFF_VolumeHeader + OFF_Attributes) 4).

(** The address, the length and the number of blocks. *)
Fixpoint BlockMapWalk (fuel : nat) (l : list Z) (BlockMap FvBase Lba StartLba Offset : Z) : M (option (Z * Z * Z)) :=
  match fuel with
  | O => trapped OutOfFuel
  | S fuel =>
      NumBlocks ← deref (field l BlockMap 4);
      BlockLength ← deref (field l (BlockMap + 4) 4);
      if (NumBlocks =? 0) || (BlockLength =? 0) then mret None else
      let NextLba := u64 (StartLba + NumBlocks) in
      if (StartLba <=? Lba) && (Lba <? NextLba)
      then mret (Some (u64 (FvBase + u64 (Offset + u64 ((Lba - StartLba) * BlockLength))), BlockLength, NextLba - Lba))
      else BlockMapWalk fuel l (BlockMap + SIZEOF_BLOCK_MAP_ENTRY) FvBase Lba NextLba (u64 (Offset + u32 (NumBlocks * BlockLength)))
  end.
Definition FvbGetLbaAddress (Instance Lba : Z) : M (EFI_STATUS * option (Z * Z * Z)) :=
  r ← FwhInstance Instance;
  FvBase ← deref (field r.1 r.2 8);
  o ← BlockMapWalk (S (length r.1)) r.1 (r.2 + OFF_VolumeHeader + OFF_BlockMap) FvBase Lba 0 0;
  mret (match o with None => (EFI_INVALID_PARAMETER, None) | Some x => (EFI_SUCCESS, Some x) end).

Definition Capabilities : Z :=
  Z.lor EFI_FVB2_READ_DISABLED_CAP (Z.lor EFI_FVB2_READ_ENABLED_CAP (Z.lor EFI_FVB2_WRITE_DISABLED_CAP
    (Z.lor EFI_FVB2_WRITE_ENABLED_CAP EFI_FVB2_LOCK_CAP))).
Definition UnchangedAttributes : Z :=
  Z.lor Capabilities (Z.lor EFI_FVB2_STICKY_WRITE (Z.lor EFI_FVB2_MEMORY_MAPPED (Z.lor EFI_FVB2_ERASE_POLARITY
    (Z.lor EFI_FVB2_READ_LOCK_CAP (Z.lor EFI_FVB2_WRITE_LOCK_CAP EFI_FVB2_ALIGNMENT))))).
Definition set (x bit : Z) : bool := negb (Z.land x bit =? 0).

(** The checks of FvbSetVolumeAttributes, in order. *)
Definition CheckAttributes (OldAttributes Attributes : Z) : EFI_STATUS :=
  let Caps := Z.land OldAttributes Capabilities in
  let OldStatus := Z.land OldAttributes EFI_FVB2_STATUS in
  let NewStatus := Z.land Attributes EFI_FVB2_STATUS in
  if negb (Z.lxor (Z.land OldAttributes UnchangedAttributes) (Z.land Attributes UnchangedAttributes) =? 0) then EFI_INVALID_PARAMETER
  else if set OldAttributes EFI_FVB2_LOCK_STATUS && negb (Z.lxor OldStatus NewStatus =? 0) then EFI_ACCESS_DENIED
  else if negb (set Caps EFI_FVB2_READ_DISABLED_CAP) && negb (set NewStatus EFI_FVB2_READ_STATUS) then EFI_INVALID_PARAMETER
  else if negb (set Caps EFI_FVB2_READ_ENABLED_CAP) && set NewStatus EFI_FVB2_READ_STATUS then EFI_INVALID_PARAMETER
  else if negb (set Caps EFI_FVB2_WRITE_DISABLED_CAP) && negb (set NewStatus EFI_FVB2_WRITE_STATUS) then EFI_INVALID_PARAMETER
  else if negb (set Caps EFI_FVB2_WRITE_ENABLED_CAP) && set NewStatus EFI_FVB2_WRITE_STATUS then EFI_INVALID_PARAMETER
  else if negb (set Caps EFI_FVB2_LOCK_CAP) && set NewStatus EFI_FVB2_LOCK_STATUS then EFI_INVALID_PARAMETER
  else EFI_SUCCESS.
(** The status, and [*Attributes] after the call. *)
Definition FvbSetVolumeAttributes (Instance Attributes : Z) : M (EFI_STATUS * Z) :=
  r ← FwhInstance Instance;
  let p := r.2 + OFF_VolumeHeader + OFF_Attributes in
  OldAttributes ← deref (field r.1 p 4);
  let Status := CheckAttributes OldAttributes Attributes in
  if EFI_ERROR Status then mret (Status, Attributes) else
  let New := Z.lor (Z.land OldAttributes (Z.land 0xFFFFFFFF (Z.lnot EFI_FVB2_STATUS))) (Z.land Attributes EFI_FVB2_STATUS) in
  l ← deref (update r.1 p (le_split 4 New));
  g ← Global;
  modify (set_global (Some (mkGlobal (NumFv g) l)));;
  mret (EFI_SUCCESS, New).

(** ** The protocol members, of a device *)
Definition FvbProtocolGetPhysicalAddress (d : EFI_FW_VOL_BLOCK_DEVICE) : M Z := FvbGetPhysicalAddress (Instance d).
Definition FvbProtocolGetBlockSize (d : EFI_FW_VOL_BLOCK_DEVICE) (Lba : Z) : M (EFI_STATUS * option (Z * Z)) :=
  r ← FvbGetLbaAddress (Instance d) Lba;
  mret (r.1, match r.2 with None => None | Some (_, Length, Num) => Some (Length, Num) end).
Definition FvbProtocolGetAttributes (d : EFI_FW_VOL_BLOCK_DEVICE) : M Z := FvbGetVolumeAttributes (Instance d).
Definition FvbProtocolSetAttributes (d : EFI_FW_VOL_BLOCK_DEVICE) (Attributes : Z) : M (EFI_STATUS * Z) :=
  FvbSetVolumeAttributes (Instance d) Attributes.

(** The variable arguments are a list; both loops read it up to the
    terminator. *)
Fixpoint CheckLbas (NumOfBlocks : Z) (args : list Z) : M EFI_STATUS :=
  match args with
  | StartingLba :: rest =>
      if StartingLba =? EFI_LBA_LIST_TERMINATOR then mret EFI_SUCCESS else
      match rest with
      | NumOfLba :: rest =>
          if (NumOfLba =? 0) || (NumOfBlocks <? u64 (StartingLba + NumOfLba)) then mret EFI_INVALID_PARAMETER
          else CheckLbas NumOfBlocks rest
      | [] => trapped BadPointer
      end
  | [] => trapped BadPointer
  end.
Fixpoint EraseRange (n : nat) (StartingLba : Z) : M EFI_STATUS :=
  match n with
  | O => mret EFI_SUCCESS
  | S n =>
      Status ← QemuFlashEraseBlock StartingLba;
      if EFI_ERROR Status then mret Status else EraseRange n (u64 (StartingLba + 1))
  end.
Fixpoint EraseLbas (args : list Z) : M EFI_STATUS :=
  match args with
  | StartingLba :: rest =>
      if StartingLba =? EFI_LBA_LIST_TERMINATOR then mret EFI_SUCCESS else
      match rest with
      | NumOfLba :: rest =>
          Status ← EraseRange (Z.to_nat NumOfLba) StartingLba;
          if EFI_ERROR Status then mret Status else EraseLbas rest
      | [] => trapped BadPointer
      end
  | [] => trapped BadPointer
  end.
Definition FvbProtocolEraseBlocks (d : EFI_FW_VOL_BLOCK_DEVICE) (args : list Z) : M EFI_STATUS :=
  r ← FwhInstance (Instance d);
  NumOfBlocks ← deref (field r.1 (r.2 + OFF_NumOfBlocks) 8);
  Status ← CheckLbas NumOfBlocks args;
  if EFI_ERROR Status then mret Status else EraseLbas args.
Definition FvbProtocolWrite (d : EFI_FW_VOL_BLOCK_DEVICE) (Lba Offset NumBytes : Z) (Buffer : list Z) : M EFI_STATUS :=
  QemuFlashWrite Lba Offset NumBytes Buffer.
Definition FvbProtocolRead (d : EFI_FW_VOL_BLOCK_DEVICE) (Lba Offset NumBytes : Z) : M (EFI_STATUS * list Z) :=
  QemuFlashRead Lba Offset NumBytes.
End Flash.
