(* ===== verification/FlashFvbInit.v ===== *)
(** * QemuFlashFvbServicesRuntimeDxe: initialization, and the module types

    Models FvbInfo.c, FvbInitialize and what it calls of FwBlockService.c,
    and the hooks of FwBlockServiceDxe.c, FwBlockServiceSmm.c and
    QemuFlashDxe.c, QemuFlashSmm.c. *)
From S2P Require Import Prelude Bytes FlashFvb.

(** The checksums of BaseLib over 16-bit units. *)
Class Sum16 := { CalculateSum16 : list Z -> Z; CalculateCheckSum16 : list Z -> Z }.

Section Init.
Context {W : Type} `{PFlash W} `{Sum16} (pcd : pcds) (module : module_type) (MemEncryptSevIsEnabled MemEncryptSevEsIsEnabled : bool).
(** AllocateRuntimePool and AllocateCopyPool: the contents of a block of a
    size, by the number of earlier calls. *)
Context (AllocateRuntimePool : nat -> Z -> option (list Z)).
#[local] Abbreviation M := (M (fvb W)).

Definition Allocate (Size : Z) : M (option (list Z)) :=
  s ← get; put (set_pools (S (Pools s)) s);; mret (AllocateRuntimePool (Pools s) Size).

(** ** Headers

    A header is read through a pointer, into the flash or to [FvbInfo]. *)
Definition header : Type := Z -> nat -> M (list Z).
Definition flash_header (Ptr : Z) : header := fun off n => ReadBytes pcd n (Ptr + off).
Definition info_header : header := fun off n =>
  s ← get; deref (if off + Z.of_nat n <=? Z.of_nat (length (FvbInfo s)) then Some (take n (drop (Z.to_nat off) (FvbInfo s))) else None).
Definition hfield (h : header) (off : Z) (n : nat) : M Z := bs ← h off n; mret (le_combine bs).

Definition ValidateFvHeader (FwVolHeader : header) : M EFI_STATUS :=
  Revision ← hfield FwVolHeader OFF_Revision 1;
  if negb (Revision =? EFI_FVH_REVISION) then mret EFI_NOT_FOUND else
  Signature ← hfield FwVolHeader OFF_Signature 4;
  if negb (Signature =? EFI_FVH_SIGNATURE) then mret EFI_NOT_FOUND else
  FvLength ← hfield FwVolHeader OFF_FvLength 8;
  if FvLength =? 2 ^ 64 - 1 then mret EFI_NOT_FOUND else
  HeaderLength ← hfield FwVolHeader OFF_HeaderLength 2;
  if negb (Z.land HeaderLength 1 =? 0) then mret EFI_NOT_FOUND else
  bs ← FwVolHeader 0 (Z.to_nat HeaderLength);
  mret (if negb (CalculateSum16 bs =? 0) then EFI_NOT_FOUND else EFI_SUCCESS).

(** ** FvbInfo.c: the one entry of mPlatformFvbMediaInfo *)
Definition NvLength : Z :=
  u32 (PcdFlashNvStorageVariableSize pcd + PcdFlashNvStorageFtwWorkingSize pcd + PcdFlashNvStorageFtwSpareSize pcd
       + PcdOvmfFlashNvStorageEventLogSize pcd).
Definition mPlatformFvbMediaInfo : list Z :=
  replicate 16 0 ++ EFI_SYSTEM_NV_DATA_FV_GUID ++ le_split 8 NvLength ++ le_split 4 EFI_FVH_SIGNATURE ++
  le_split 4 (Z.lor EFI_FVB2_MEMORY_MAPPED (Z.lor EFI_FVB2_READ_ENABLED_CAP (Z.lor EFI_FVB2_READ_STATUS
    (Z.lor EFI_FVB2_WRITE_ENABLED_CAP (Z.lor EFI_FVB2_WRITE_STATUS (Z.lor EFI_FVB2_ERASE_POLARITY EFI_FVB2_ALIGNMENT_16)))))) ++
  le_split 2 (SIZEOF_FV_HEADER + SIZEOF_BLOCK_MAP_ENTRY) ++ le_split 2 0 ++ le_split 2 0 ++ [0] ++ [2] ++
  le_split 4 (NvLength / PcdOvmfFirmwareBlockSize pcd) ++ le_split 4 (PcdOvmfFirmwareBlockSize pcd) ++
  le_split 4 0 ++ le_split 4 0.

(** The header is in [FvbInfo]; [false]: EFI_NOT_FOUND. *)
Definition GetFvbInfo (FvLength : Z) : M bool :=
  s ← get;
  (if Checksummed s then mret tt else
     i ← deref (update (FvbInfo s) OFF_Checksum (le_split 2 0));
     HeaderLength ← deref (field i OFF_HeaderLength 2);
     let Checksum := CalculateCheckSum16 (take (Z.to_nat HeaderLength) i) in
     i ← deref (update i OFF_Checksum (le_split 2 Checksum));
     modify (set_info true i));;
  mret (NvLength =? FvLength).

(** ** InitializeVariableFvHeader *)
Fixpoint EraseStore (fuel : nat) (Offset End BlockSize : Z) : M unit :=
  if Offset <? End then
    match fuel with
    | O => trapped OutOfFuel
    | S fuel =>
        Status ← QemuFlashEraseBlock pcd module MemEncryptSevEsIsEnabled (Offset / BlockSize);
        ASSERT (negb (EFI_ERROR Status));;
        EraseStore fuel (u64 (Offset + BlockSize)) End BlockSize
    end
  else mret tt.

Definition InitializeVariableFvHeader : M EFI_STATUS :=
  let FwVolHeader := PcdOvmfFlashNvStorageVariableBase pcd in
  let Length := NvLength in
  let BlockSize := PcdOvmfFirmwareBlockSize pcd in
  Status ← ValidateFvHeader (flash_header FwVolHeader);
  Status ← (if EFI_ERROR Status then mret Status else
    FvLength ← hfield (flash_header FwVolHeader) OFF_FvLength 8;
    if negb (FvLength =? Length) then mret EFI_VOLUME_CORRUPTED else
    MapLength ← hfield (flash_header FwVolHeader) (OFF_BlockMap + 4) 4;
    mret (if negb (MapLength =? BlockSize) then EFI_VOLUME_CORRUPTED else Status));
  if negb (EFI_ERROR Status) then mret Status else
  ok ← GetFvbInfo Length;
  ASSERT ok;;
  let Start := u64 (FwVolHeader - PcdOvmfFdBaseAddress pcd) in
  (if BlockSize =? 0 then trapped DivideByZero else mret tt);;
  ASSERT ((Start mod BlockSize =? 0) && (Length mod BlockSize =? 0));;
  HeaderLength ← hfield info_header OFF_HeaderLength 2;
  ASSERT (HeaderLength <=? BlockSize);;
  EraseStore (Z.to_nat Length) Start (u64 (Start + Length)) BlockSize;;
  s ← get;
  Status ← QemuFlashWrite pcd module MemEncryptSevEsIsEnabled (Start / BlockSize) 0 HeaderLength (FvbInfo s);
  ASSERT (negb (EFI_ERROR Status));;
  mret Status.

(** ** The hooks of a module type *)
Record hooks : Type := mkHooks {
  QemuFlashBeforeProbe : Z -> Z -> Z -> M unit;
  InstallProtocolInterfaces : EFI_FW_VOL_BLOCK_DEVICE -> M unit;
  MarkIoMemoryRangeForRuntimeAccess : Z -> Z -> M unit;
  SetPcdFlashNvStorageBaseAddresses : M unit;
  InstallVirtualAddressChangeHandler : M unit;
  UpdateQemuFlashVariablesEnable : M unit;
}.

(** The loop over the block map of the instance. *)
Fixpoint CountBlocks (fuel : nat) (l : list Z) (Ptr NumOfBlocks : Z) : M Z :=
  match fuel with
  | O => trapped OutOfFuel
  | S fuel =>
      NumBlocks ← deref (field l Ptr 4);
      if NumBlocks =? 0 then mret NumOfBlocks else
      _ ← deref (field l (Ptr + 4) 4);
      CountBlocks fuel l (Ptr + SIZEOF_BLOCK_MAP_ENTRY) (u64 (NumOfBlocks + NumBlocks))
  end.

Definition FvbInitialize (h : hooks) : M EFI_STATUS :=
  Status ← QemuFlashInitialize pcd MemEncryptSevEsIsEnabled (QemuFlashBeforeProbe h);
  if EFI_ERROR Status then mret EFI_WRITE_PROTECTED else
  g ← Allocate 16; ASSERT (bool_decide (is_Some g));;
  let BaseAddress := PcdOvmfFdBaseAddress pcd in
  let Length := PcdOvmfFirmwareFdSize pcd in
  Status ← InitializeVariableFvHeader;
  if EFI_ERROR Status then mret EFI_WRITE_PROTECTED else
  Status ← ValidateFvHeader (flash_header BaseAddress);
  o ← (if EFI_ERROR Status then ok ← GetFvbInfo Length; mret (if ok : bool then Some info_header else None)
       else mret (Some (flash_header BaseAddress)));
  match o with
  | None => mret EFI_WRITE_PROTECTED
  | Some FwVolHeader =>
      HeaderLength ← hfield FwVolHeader OFF_HeaderLength 2;
      let BufferSize := u32 (SIZEOF_FW_VOL_INSTANCE + HeaderLength - SIZEOF_FV_HEADER) in
      l ← Allocate BufferSize; ASSERT (bool_decide (is_Some l));;
      l ← deref l;
      (* FvBase, and the copy of the header *)
      let FwVolHeader := flash_header (PcdOvmfFlashNvStorageVariableBase pcd) in
      l ← deref (update l 0 (le_split 8 BaseAddress));
      HeaderLength ← hfield FwVolHeader OFF_HeaderLength 2;
      bs ← FwVolHeader 0 (Z.to_nat HeaderLength);
      l ← deref (update l OFF_VolumeHeader bs);
      NumOfBlocks ← CountBlocks (S (length l)) l (OFF_VolumeHeader + OFF_BlockMap) 0;
      l ← deref (update l OFF_NumOfBlocks (le_split 8 NumOfBlocks));
      d ← Allocate 88; ASSERT (bool_decide (is_Some d));;
      modify (set_global (Some (mkGlobal 1 l)));;
      ExtHeaderOffset ← deref (field l (OFF_VolumeHeader + OFF_ExtHeaderOffset) 2);
      FvLength ← deref (field l (OFF_VolumeHeader + OFF_FvLength) 8);
      c ← Allocate (if ExtHeaderOffset =? 0 then 28 else 24); _ ← deref c;
      path ← (if ExtHeaderOffset =? 0 then mret (FV_MEMMAP_DEVICE_PATH BaseAddress (u64 (BaseAddress + FvLength - 1)))
              else name ← ReadBytes pcd 16 (BaseAddress + ExtHeaderOffset); mret (FV_PIWG_DEVICE_PATH name));
      InstallProtocolInterfaces h (mkFvbDevice path 0);;
      MarkIoMemoryRangeForRuntimeAccess h BaseAddress Length;;
      SetPcdFlashNvStorageBaseAddresses h;;
      InstallVirtualAddressChangeHandler h;;
      UpdateQemuFlashVariablesEnable h;;
      mret EFI_SUCCESS
  end.

(** ** The DXE driver

    [svc]: the statuses of services; [at_end]: whether LocateDevicePath
    consumed the whole path; [Descriptor]: the attributes of the range;
    [EfiConvertPointer]: the runtime address of an address. *)
Context (svc : event -> EFI_STATUS) (at_end : bool) (Descriptor : Z) (EfiConvertPointer : Z -> Z).
Definition call (e : event) : M EFI_STATUS := modify (logged e);; mret (svc e).
Definition call_ok (e : event) : M unit := Status ← call e; ASSERT (negb (EFI_ERROR Status)).

Definition DxeInstallProtocolInterfaces (d : EFI_FW_VOL_BLOCK_DEVICE) : M unit :=
  ASSERT (negb (PcdSmmSmramRequire pcd));;
  Status ← call (LocateDevicePath (DevicePath d));
  if EFI_ERROR Status then call_ok (InstallMultipleProtocolInterfaces d)
  else if at_end then call_ok HandleProtocol;; call_ok (ReinstallProtocolInterface d)
  else ASSERT false.

Fixpoint ConvertInstances (n : nat) (l : list Z) (off : Z) : M (list Z) :=
  match n with
  | O => mret l
  | S n =>
      FvBase ← deref (field l off 8);
      l ← deref (update l off (le_split 8 (EfiConvertPointer FvBase)));
      HeaderLength ← deref (field l (off + OFF_VolumeHeader + OFF_HeaderLength) 2);
      ConvertInstances n l (off + HeaderLength + (SIZEOF_FW_VOL_INSTANCE - SIZEOF_FV_HEADER))
  end.
Definition QemuFlashConvertPointers : M unit :=
  s ← get;
  (if MemEncryptSevEsIsEnabled then put (set_sev_base (mFlashBase s) s) else mret tt);;
  s ← get; put (set_flash (EfiConvertPointer (mFlashBase s)) (mFdBlockSize s) (mFdBlockCount s) s).
(** The pointers to the pool blocks are converted with the blocks. *)
Definition FvbVirtualAddressChangeEvent : M unit :=
  g ← Global;
  l ← ConvertInstances (Z.to_nat (NumFv g)) (FvInstance g) 0;
  modify (set_global (Some (mkGlobal (NumFv g) l)));;
  QemuFlashConvertPointers.

Definition DxeMarkIoMemoryRangeForRuntimeAccess (BaseAddress Length : Z) : M unit :=
  _ ← call (RemoveMemorySpace BaseAddress Length);
  call_ok (AddMemorySpace BaseAddress Length);;
  call_ok (AllocateMemorySpace BaseAddress Length);;
  call_ok (GetMemorySpaceDescriptor BaseAddress);;
  call_ok (SetMemorySpaceAttributes BaseAddress Length (Z.lor Descriptor (2 ^ 63)));;
  if MemEncryptSevIsEnabled then call_ok (MemEncryptSevClearMmioPageEncMask BaseAddress (EFI_SIZE_TO_PAGES Length)) else mret tt.
(** The tokens PcdFlashNvStorageVariableBase64, PcdFlashNvStorageFtwWorkingBase,
    PcdFlashNvStorageFtwSpareBase, PcdOvmfFlashVariablesEnable are 0 to 3. *)
Definition DxeSetPcdFlashNvStorageBaseAddresses : M unit :=
  call_ok (PcdSet 0 (PcdOvmfFlashNvStorageVariableBase pcd));;
  call_ok (PcdSet 1 (PcdOvmfFlashNvStorageFtwWorkingBase pcd));;
  call_ok (PcdSet 2 (PcdOvmfFlashNvStorageFtwSpareBase pcd)).
Definition UpdateVariablesEnable : M unit := call_ok (PcdSet 3 1).
Definition DxeHooks : hooks := {|
  QemuFlashBeforeProbe _ _ _ := mret tt;
  InstallProtocolInterfaces := DxeInstallProtocolInterfaces;
  MarkIoMemoryRangeForRuntimeAccess := DxeMarkIoMemoryRangeForRuntimeAccess;
  SetPcdFlashNvStorageBaseAddresses := DxeSetPcdFlashNvStorageBaseAddresses;
  InstallVirtualAddressChangeHandler := call_ok CreateEventEx;
  UpdateQemuFlashVariablesEnable := UpdateVariablesEnable;
|}.

(** ** The SMM driver *)
Definition SmmBeforeProbe (BaseAddress FdBlockSize FdBlockCount : Z) : M unit :=
  ASSERT (PcdSmmSmramRequire pcd);;
  if negb MemEncryptSevIsEnabled then mret tt else
  call_ok (MemEncryptSevClearMmioPageEncMask BaseAddress (EFI_SIZE_TO_PAGES (u64 (FdBlockSize * FdBlockCount)))).
Definition SmmInstallProtocolInterfaces (d : EFI_FW_VOL_BLOCK_DEVICE) : M unit :=
  ASSERT (PcdSmmSmramRequire pcd);; call_ok (SmmInstallFvb d);; call_ok (SmmInstallDevicePath d).
Definition SmmHooks : hooks := {|
  QemuFlashBeforeProbe := SmmBeforeProbe;
  InstallProtocolInterfaces := SmmInstallProtocolInterfaces;
  MarkIoMemoryRangeForRuntimeAccess _ _ := mret tt;
  SetPcdFlashNvStorageBaseAddresses := mret tt;
  InstallVirtualAddressChangeHandler := mret tt;
  UpdateQemuFlashVariablesEnable := UpdateVariablesEnable;
|}.

(** ** The Standalone MM driver (FwBlockServiceStandaloneMm.c) *)
Definition MmHooks (PcdOvmfFlashVariablesEnable : bool) : hooks := {|
  QemuFlashBeforeProbe := SmmBeforeProbe;
  InstallProtocolInterfaces := SmmInstallProtocolInterfaces;
  MarkIoMemoryRangeForRuntimeAccess _ _ := mret tt;
  SetPcdFlashNvStorageBaseAddresses := mret tt;
  InstallVirtualAddressChangeHandler := mret tt;
  UpdateQemuFlashVariablesEnable := ASSERT PcdOvmfFlashVariablesEnable;
|}.
Definition FvbInitializeStandaloneMm (PcdOvmfFlashVariablesEnable : bool) : M EFI_STATUS :=
  FvbInitialize (MmHooks PcdOvmfFlashVariablesEnable).
End Init.
