(* ===== verification/FlashDevice.v ===== *)
(** * The flash device

    What the firmware relies on of a flash with the Intel command set, as the
    machine has it: a class of laws, and a device that has them.  The device
    is [reading] (an access returns the array), or shows its status; in both
    it is [idle] and takes a command. *)
From S2P Require Import Prelude Bytes FlashFvb.

Definition change (a : list Z) (o : Z) (f : Z -> Z) : list Z := alter f (Z.to_nat o) a.
Definition erased (a : list Z) (o n : Z) : list Z :=
  take (Z.to_nat o) a ++ replicate (Z.to_nat n) 0xff ++ drop (Z.to_nat (o + n)) a.

Class PFlashLaws (W : Type) `{PFlash W} := {
  fl_size : Z;
  fl_block : Z;
  program : Z -> Z -> Z;
  array : W -> list Z;
  reading : W -> Prop;
  idle : W -> Prop;
  array_length w : Z.of_nat (length (array w)) = fl_size;
  array_bytes w : Forall is_byte (array w);
  block_pos : 0 < fl_block;
  program_erased v : is_byte v -> program 0xff v = v;
  reading_idle w : reading w -> idle w;
  read_array w o : reading w -> 0 <= o < fl_size -> array w !! Z.to_nat o = Some (fl_read o w);
  write_read_array w o : idle w -> 0 <= o < fl_size ->
    reading (fl_write o READ_ARRAY_CMD w) /\ array (fl_write o READ_ARRAY_CMD w) = array w;
  write_program w o v : idle w -> 0 <= o < fl_size -> is_byte v ->
    let w' := fl_write o v (fl_write o WRITE_BYTE_CMD w) in
    idle w' /\ array w' = change (array w) o (fun x => program x v);
  (* the status after an erase is not an erased byte *)
  write_erase w o : idle w -> 0 <= o -> o mod fl_block = 0 -> o + fl_block <= fl_size ->
    let w' := fl_write o BLOCK_ERASE_CONFIRM_CMD (fl_write o BLOCK_ERASE_CMD w) in
    idle w' /\ array w' = erased (array w) o fl_block /\ (forall o', 0 <= o' < fl_size -> fl_read o' w' <> 0xff);
  write_clear w o : reading w -> 0 <= o < fl_size ->
    let w' := fl_write o CLEAR_STATUS_CMD w in reading w' /\ array w' = array w /\
    let w'' := fl_write o READ_STATUS_CMD w' in
    idle w'' /\ array w'' = array w /\ fl_read o w'' = CLEARED_ARRAY_STATUS;
}.

(** What a machine may have there instead: a ROM, which ignores writes, or
    RAM. *)
Class PlainMemory (W : Type) `{PFlash W} := {
  pm_size : Z;
  pm_writable : bool;
  pm_array : W -> list Z;
  pm_length w : Z.of_nat (length (pm_array w)) = pm_size;
  pm_bytes w : Forall is_byte (pm_array w);
  pm_read w o : 0 <= o < pm_size -> pm_array w !! Z.to_nat o = Some (fl_read o w);
  pm_write w o v : 0 <= o < pm_size -> is_byte v ->
    pm_array (fl_write o v w) = if pm_writable then <[Z.to_nat o := v]> (pm_array w) else pm_array w;
}.

(** ** A device *)
Module Chip.
Inductive chip_mode : Type := ReadArray | ReadStatus | ProgramSetup | EraseSetup.
Definition bytes_ok (l : list Z) : bool := forallb (fun b => (0 <=? b) && (b <? 256)) l.
(** [chip_size] bytes in blocks of [chip_block]. *)
Record chip (size : Z) : Type := mkChip {
  cells : list Z; mode : chip_mode; status : Z; cells_ok : (Z.of_nat (length cells) =? size) && bytes_ok cells = true;
}.
Arguments mkChip {size}. Arguments cells {size}. Arguments mode {size}. Arguments status {size}. Arguments cells_ok {size}.
Section Chip.
Context (size block : Z) (Hblock : 0 < block).
Definition byte (v : Z) : Z := v mod 256.

Lemma bytes_spec l : bytes_ok l = true <-> Forall is_byte l.
Proof.
  unfold bytes_ok. rewrite forallb_forall, Forall_forall. split; intros H x Hx; specialize (H x); rewrite list_elem_of_In in *;
    specialize (H Hx); unfold is_byte in *; lia.
Qed.
Lemma program_ok (l : list Z) o v : (Z.of_nat (length l) =? size) && bytes_ok l = true ->
  (Z.of_nat (length (change l o (fun _ => byte v))) =? size) && bytes_ok (change l o (fun _ => byte v)) = true.
Proof.
  intros [Hl Hb]%andb_true_iff. apply andb_true_iff. unfold change. rewrite length_alter. split; [done|].
  apply bytes_spec. apply bytes_spec in Hb. apply Forall_lookup. intros i x Hi. destruct (decide (i = Z.to_nat o)) as [->|Hne].
  - rewrite list_lookup_alter_eq in Hi. destruct (l !! Z.to_nat o); [|done]. injection Hi as <-. unfold byte, is_byte.
    apply Z.mod_pos_bound. lia.
  - rewrite list_lookup_alter_ne in Hi by done. by eapply Forall_lookup_1.
Qed.
Lemma erase_ok (l : list Z) o : (Z.of_nat (length l) =? size) && bytes_ok l = true -> 0 <= o -> o + block <= size ->
  (Z.of_nat (length (erased l o block)) =? size) && bytes_ok (erased l o block) = true.
Proof.
  intros [Hl Hb]%andb_true_iff Ho Hs. apply Z.eqb_eq in Hl. apply andb_true_iff. unfold erased. split.
  - apply Z.eqb_eq. rewrite !length_app, length_take, length_replicate, length_drop. lia.
  - apply bytes_spec. apply bytes_spec in Hb. rewrite !Forall_app. split; [by apply Forall_take|]. split; [|by apply Forall_drop].
    apply Forall_replicate. unfold is_byte. lia.
Qed.

Definition chip_program (o v : Z) (w : chip size) : chip size :=
  mkChip (change (cells w) o (fun _ => byte v)) ReadStatus 0x80 (program_ok _ o v (cells_ok w)).
Definition chip_erase (o : Z) (w : chip size) : chip size :=
  match decide (0 <= o /\ o + block <= size) with
  | left H => mkChip (erased (cells w) o block) ReadStatus 0x80 (erase_ok _ o (cells_ok w) (proj1 H) (proj2 H))
  | right _ => w
  end.
Definition set_mode (m : chip_mode) (st : Z) (w : chip size) : chip size := mkChip (cells w) m st (cells_ok w).
Definition chip_write (o v : Z) (w : chip size) : chip size :=
  match mode w with
  | ProgramSetup => chip_program o v w
  | EraseSetup => if v =? BLOCK_ERASE_CONFIRM_CMD then chip_erase (o - o mod block) w else set_mode ReadArray (status w) w
  | _ =>
      if v =? WRITE_BYTE_CMD then set_mode ProgramSetup (status w) w
      else if v =? BLOCK_ERASE_CMD then set_mode EraseSetup (status w) w
      else if v =? CLEAR_STATUS_CMD then set_mode ReadArray 0 w
      else if v =? READ_STATUS_CMD then set_mode ReadStatus (status w) w
      else set_mode ReadArray (status w) w
  end.
Definition chip_read (o : Z) (w : chip size) : Z :=
  match mode w with ReadArray => nth (Z.to_nat o) (cells w) 0 | _ => status w end.
#[local] Instance chip_pflash : PFlash (chip size) := {| fl_read := chip_read; fl_write := chip_write |}.

Definition chip_idle (w : chip size) : Prop := mode w = ReadArray \/ mode w = ReadStatus.
Lemma cells_length (w : chip size) : Z.of_nat (length (cells w)) = size.
Proof. pose proof (cells_ok w) as [H _]%andb_true_iff. by apply Z.eqb_eq. Qed.
Lemma chip_command w o v : chip_idle w -> chip_write o v w =
  if v =? WRITE_BYTE_CMD then set_mode ProgramSetup (status w) w
  else if v =? BLOCK_ERASE_CMD then set_mode EraseSetup (status w) w
  else if v =? CLEAR_STATUS_CMD then set_mode ReadArray 0 w
  else if v =? READ_STATUS_CMD then set_mode ReadStatus (status w) w
  else set_mode ReadArray (status w) w.
Proof. unfold chip_write. intros [E|E]; by rewrite E. Qed.

#[refine] Instance chip_laws : PFlashLaws (chip size) := {|
  fl_size := size; fl_block := block; program _ v := byte v; array (w : chip size) := cells w;
  reading (w : chip size) := mode w = ReadArray; idle := chip_idle;
|}.
Proof.
  - apply cells_length.
  - intros w. pose proof (cells_ok w) as [_ H]%andb_true_iff. by apply bytes_spec.
  - done.
  - intros v Hv. unfold byte, is_byte in *. by apply Z.mod_small.
  - intros w. by left.
  - intros w o Hm Ho. cbn. unfold chip_read. rewrite Hm, nth_lookup. rewrite <-(cells_length w) in Ho.
    destruct (lookup_lt_is_Some_2 (cells w) (Z.to_nat o)) as [x ->]; [lia|done].
  - intros w o Hi Ho. cbn. by rewrite chip_command.
  - intros w o v Hi Ho Hv. cbn. rewrite (chip_command w o WRITE_BYTE_CMD Hi). change (WRITE_BYTE_CMD =? WRITE_BYTE_CMD) with true.
    cbv iota. split; [by right|done].
  - intros w o Hi Ho Hm Hs. cbn. rewrite (chip_command w o BLOCK_ERASE_CMD Hi).
    change (BLOCK_ERASE_CMD =? WRITE_BYTE_CMD) with false. change (BLOCK_ERASE_CMD =? BLOCK_ERASE_CMD) with true. cbv iota.
    unfold chip_write, set_mode. cbn [mode]. rewrite Z.eqb_refl, Hm, Z.sub_0_r. unfold chip_erase.
    destruct (decide _) as [?|Hn]; [|lia]. split; [by right|]. split; [done|]. done.
  - intros w o Hm Ho. cbn. rewrite (chip_command w o CLEAR_STATUS_CMD) by by left.
    change (CLEAR_STATUS_CMD =? WRITE_BYTE_CMD) with false. change (CLEAR_STATUS_CMD =? BLOCK_ERASE_CMD) with false.
    rewrite Z.eqb_refl. split; [done|]. split; [done|]. split; [by right|done].
Defined.
End Chip.
End Chip.

(** ** A ROM *)
Module Rom.
Record rom (size : Z) : Type := mkRom { contents : list Z; rom_ok : (Z.of_nat (length contents) =? size) && Chip.bytes_ok contents = true }.
Arguments mkRom {size}. Arguments contents {size}. Arguments rom_ok {size}.
#[local] Instance rom_pflash (size : Z) : PFlash (rom size) := {| fl_read o w := nth (Z.to_nat o) (contents w) 0; fl_write _ _ w := w |}.
#[local, refine] Instance rom_plain (size : Z) : PlainMemory (rom size) := {|
  pm_size := size; pm_writable := false; pm_array (w : rom size) := contents w;
|}.
Proof.
  - intros w. pose proof (rom_ok w) as [Hl _]%andb_true_iff. by apply Z.eqb_eq.
  - intros w. pose proof (rom_ok w) as [_ Hb]%andb_true_iff. by apply Chip.bytes_spec.
  - intros w o Ho. cbn. rewrite nth_lookup. pose proof (rom_ok w) as [Hl%Z.eqb_eq _]%andb_true_iff.
    destruct (lookup_lt_is_Some_2 (contents w) (Z.to_nat o)) as [x ->]; [lia|done].
  - done.
Defined.
End Rom.
