(* ===== verification/FlashFvbProofs.v ===== *)
(** * QemuFlashFvbServicesRuntimeDxe: reading, programming and erasing *)
From S2P Require Import Prelude Bytes FlashFvb FlashDevice.

Section Flash.
Context {W : Type} `{PFlashLaws W} (pcd : pcds) (module : module_type) (SevEs : bool).
#[local] Abbreviation FdSize := (PcdOvmfFirmwareFdSize pcd).
#[local] Abbreviation BlockSize := (PcdOvmfFirmwareBlockSize pcd).

(** The flash is where the driver believes it is.  The flash that keeps
    variables is at the start of the firmware device. *)
Record ready (s : fvb W) : Prop := mkReady {
  ready_base : mFlashBase s = Virt s;
  ready_block : mFdBlockSize s = BlockSize;
  ready_count : mFdBlockCount s * BlockSize = FdSize;
  ready_low : 0 <= Virt s;
  ready_high : Virt s + FdSize <= 2 ^ 64 - 1;
  ready_unit : BlockSize = fl_block;
  ready_flash : fl_size <= FdSize;
  ready_sev : module = Dxe -> SevEs = true ->
    if mSevEsFlashPhysBase s =? 0 then Virt s = PcdOvmfFdBaseAddress pcd else mSevEsFlashPhysBase s = PcdOvmfFdBaseAddress pcd;
}.
Lemma ready_dev d s : ready s -> ready (set_dev d s).
Proof. intros [A B C D E F G I]. split; done. Qed.

Section At.
Context (s : fvb W) (R : ready s).
Lemma block_size_pos : 0 < BlockSize.
Proof. rewrite (ready_unit s R). apply block_pos. Qed.

Lemma wp_ptr_read o (Q : Z -> fvb W -> Prop) : 0 <= o < fl_size -> Q (fl_read o (Dev s)) s -> wp (ptr_read pcd (mFlashBase s + o)) Q s.
Proof.
  intros Ho HQ. destruct R. unfold ptr_read. wp_step. wp_step. cbv zeta. rewrite ready_base0.
  replace (Virt s + o - Virt s) with o by lia. unfold in_fd.
  rewrite (proj2 (Z.leb_le 0 o)), (proj2 (Z.ltb_lt o FdSize)) by lia. cbn [andb]. by wp_step.
Qed.
Lemma wp_ptr_write o v (Q : unit -> fvb W -> Prop) : 0 <= o < fl_size ->
  Q tt (set_dev (fl_write o v (Dev s)) s) -> wp (ptr_write pcd (mFlashBase s + o) v) Q s.
Proof.
  intros Ho HQ. destruct R. unfold ptr_write. wp_step. wp_step. cbv zeta. rewrite ready_base0.
  replace (Virt s + o - Virt s) with o by lia. unfold in_fd.
  rewrite (proj2 (Z.leb_le 0 o)), (proj2 (Z.ltb_lt o FdSize)) by lia. cbn [andb]. by wp_step.
Qed.
Lemma wp_QemuFlashPtrWrite o v (Q : unit -> fvb W -> Prop) : 0 <= o < fl_size ->
  Q tt (set_dev (fl_write o v (Dev s)) s) -> wp (QemuFlashPtrWrite pcd module SevEs (mFlashBase s + o) v) Q s.
Proof.
  intros Ho HQ. unfold QemuFlashPtrWrite. destruct module eqn:Em; [|by apply wp_ptr_write].
  destruct SevEs eqn:Es; [|by apply wp_ptr_write]. destruct R. specialize (ready_sev0 Em Es).
  wp_step. wp_step. unfold phys_write. wp_step. wp_step. cbv zeta.
  assert ((if mSevEsFlashPhysBase s =? 0 then mFlashBase s + o else mSevEsFlashPhysBase s + (mFlashBase s + o - mFlashBase s))
    - PcdOvmfFdBaseAddress pcd = o) as -> by (destruct (mSevEsFlashPhysBase s =? 0); lia).
  unfold in_fd. rewrite (proj2 (Z.leb_le 0 o)), (proj2 (Z.ltb_lt o FdSize)) by lia. cbn [andb]. by wp_step.
Qed.
Lemma wp_QemuFlashPtr Lba Offset (Q : Z -> fvb W -> Prop) : 0 <= Lba -> 0 <= Offset -> Lba * BlockSize + Offset <= FdSize ->
  Q (mFlashBase s + (Lba * BlockSize + Offset)) s -> wp (QemuFlashPtr Lba Offset) Q s.
Proof.
  intros Hl Ho Hin HQ. destruct R. pose proof block_size_pos. unfold QemuFlashPtr. wp_step. wp_step. wp_step.
  rewrite ready_block0, ready_base0 in *.
  assert (0 <= Lba * BlockSize) by nia.
  assert (u64 (Virt s + u64 (Lba * BlockSize) + Offset) = Virt s + (Lba * BlockSize + Offset)) as ->; [|done].
  unfold u64. rewrite (Z.mod_small (Lba * BlockSize)) by lia. rewrite Z.mod_small by lia. lia.
Qed.
End At.

(** ** Reading *)
Definition slice (a : list Z) (o : Z) (n : nat) : list Z := take n (drop (Z.to_nat o) a).
Lemma slice_S a o n b : 0 <= o -> a !! Z.to_nat o = Some b -> slice a o (S n) = b :: slice a (o + 1) n.
Proof.
  intros Ho Hb. unfold slice. rewrite (drop_S _ _ _ Hb). cbn [take]. by replace (S (Z.to_nat o)) with (Z.to_nat (o + 1)) by lia.
Qed.
Lemma wp_ReadBytes n : forall o s (Q : list Z -> fvb W -> Prop), ready s -> reading (Dev s) -> 0 <= o -> o + Z.of_nat n <= fl_size ->
  Q (slice (array (Dev s)) o n) s -> wp (ReadBytes pcd n (mFlashBase s + o)) Q s.
Proof.
  induction n as [|n IH]; intros o s Q R Hr Ho Hn HQ; cbn [ReadBytes]; [by wp_step|].
  wp_step. apply wp_ptr_read; [done|lia|]. wp_step. replace (mFlashBase s + o + 1) with (mFlashBase s + (o + 1)) by lia.
  apply IH; [done|done|lia|lia|]. wp_step. rewrite (slice_S _ _ _ (fl_read o (Dev s))) in HQ; [done|done|]. apply read_array; [done|lia].
Qed.

Lemma QemuFlashRead_spec Lba Offset n s : ready s -> reading (Dev s) -> 0 <= Lba -> 0 <= Offset -> 0 <= n ->
  Lba < mFdBlockCount s -> Lba * BlockSize + Offset + n <= fl_size ->
  wp (QemuFlashRead pcd Lba Offset n) (fun r s' => r = (EFI_SUCCESS, slice (array (Dev s)) (Lba * BlockSize + Offset) (Z.to_nat n)) /\ s' = s) s.
Proof.
  intros R Hr Hl Ho Hn Hc Hin. pose proof (block_size_pos s R). pose proof (ready_flash s R). unfold QemuFlashRead. wp_step. wp_step.
  rewrite (proj2 (Z.leb_gt (mFdBlockCount s) Lba)) by lia. wp_step. apply wp_QemuFlashPtr; [done|lia..|].
  wp_step. apply wp_ReadBytes; [done|done|nia|lia|]. by wp_step.
Qed.

(** ** Programming *)
Fixpoint programmed (a : list Z) (o : Z) (bs : list Z) : list Z :=
  match bs with
  | [] => a
  | b :: bs => programmed (change a o (fun x => program x b)) (o + 1) bs
  end.
Lemma programmed_lookup bs : forall a o i, 0 <= o ->
  programmed a o bs !! i = if decide (Z.to_nat o <= i < Z.to_nat o + length bs)%nat
    then b ← bs !! (i - Z.to_nat o)%nat; x ← a !! i; Some (program x b) else a !! i.
Proof.
  induction bs as [|b bs IH]; intros a o i Ho; cbn [programmed length].
  { by rewrite decide_False by lia. }
  rewrite IH by lia. unfold change. destruct (decide (i = Z.to_nat o)) as [->|Hne].
  - rewrite decide_False, decide_True by lia. rewrite list_lookup_alter_eq, Nat.sub_diag. cbn. by destruct (a !! _).
  - rewrite list_lookup_alter_ne by done. repeat case_decide; try lia; [|done].
    replace (i - Z.to_nat o)%nat with (S (i - Z.to_nat (o + 1)))%nat by lia. done.
Qed.
Lemma length_programmed bs : forall a o, length (programmed a o bs) = length a.
Proof. induction bs as [|b bs IH]; intros a o; cbn [programmed]; [done|]. rewrite IH. apply length_alter. Qed.
(** Erased bytes take the values, and the rest is as before. *)
Lemma programmed_outside bs a o q n : 0 <= o -> 0 <= q -> q + Z.of_nat n <= o \/ o + Z.of_nat (length bs) <= q ->
  slice (programmed a o bs) q n = slice a q n.
Proof.
  intros Ho Hq Hd. apply list_eq. intros i. unfold slice. destruct (decide (i < n)%nat).
  - rewrite !lookup_take_lt, !lookup_drop, programmed_lookup by done. rewrite decide_False by lia. done.
  - rewrite !lookup_take_ge by lia. done.
Qed.
Lemma programmed_inside bs a o : 0 <= o -> o + Z.of_nat (length bs) <= Z.of_nat (length a) -> Forall is_byte bs ->
  slice a o (length bs) = replicate (length bs) 0xff -> slice (programmed a o bs) o (length bs) = bs.
Proof.
  intros Ho Hl Hb He. apply list_eq. intros i. unfold slice in *. destruct (decide (i < length bs)%nat) as [Hi|Hi].
  - rewrite lookup_take_lt, lookup_drop, programmed_lookup by done. rewrite decide_True by lia.
    replace (Z.to_nat o + i - Z.to_nat o)%nat with i by lia. destruct (lookup_lt_is_Some_2 bs i Hi) as [b Eb]. rewrite Eb. cbn.
    assert (a !! (Z.to_nat o + i)%nat = Some 0xff) as ->.
    { rewrite <-lookup_drop, <-(lookup_take_lt _ (length bs)) by done. rewrite He. by apply lookup_replicate_2. }
    cbn. f_equal. apply program_erased. by eapply Forall_lookup_1.
  - rewrite lookup_take_ge by lia. symmetry. apply lookup_ge_None_2. lia.
Qed.

Lemma wp_Program bs : forall o s (Q : Z -> fvb W -> Prop), ready s -> idle (Dev s) -> Forall is_byte bs -> 0 <= o ->
  o + Z.of_nat (length bs) <= fl_size ->
  (forall d, idle d -> array d = programmed (array (Dev s)) o bs -> (bs = [] -> d = Dev s) ->
     Q (mFlashBase s + (o + Z.of_nat (length bs))) (set_dev d s)) ->
  wp (Program pcd module SevEs bs (mFlashBase s + o)) Q s.
Proof.
  induction bs as [|b bs IH]; intros o s Q R Hi Hb Ho Hn HQ; cbn [Program].
  { wp_step. specialize (HQ (Dev s) Hi eq_refl (fun _ => eq_refl)). cbn [length] in HQ. rewrite Z.add_0_r in HQ. by destruct s. }
  apply Forall_cons in Hb as [Hb Hbs]. cbn [length] in *. wp_step. apply wp_QemuFlashPtrWrite; [done|lia|].
  set (s1 := set_dev _ s). wp_step. change (mFlashBase s) with (mFlashBase s1).
  apply wp_QemuFlashPtrWrite; [by apply ready_dev|lia|]. cbn [Dev s1 set_dev].
  destruct (write_program (Dev s) o b Hi ltac:(lia) Hb) as [Hi' Ha]. set (d := fl_write o b _) in *.
  change (mFlashBase s1) with (mFlashBase (set_dev d s1)). replace (mFlashBase (set_dev d s1) + o + 1) with (mFlashBase (set_dev d s1) + (o + 1)) by lia.
  apply IH; [by apply ready_dev, ready_dev|done|done|lia|lia|]. intros d' Hd' Ha' _. cbn [mFlashBase set_dev s1 Dev] in *.
  replace (o + 1 + Z.of_nat (length bs)) with (o + Z.of_nat (S (length bs))) by lia. apply HQ; [done| |done].
  by rewrite Ha', Ha.
Qed.

(** What programming leaves of the state. *)
Definition writes (s : fvb W) (o : Z) (bs : list Z) (s' : fvb W) : Prop :=
  s' = set_dev (Dev s') s /\ array (Dev s') = programmed (array (Dev s)) o bs /\
  (bs = [] -> s' = s) /\ (bs <> [] -> reading (Dev s')) /\ idle (Dev s').
Lemma QemuFlashWrite_spec Lba Offset n Buffer s : ready s -> idle (Dev s) -> 0 <= Lba -> 0 <= Offset ->
  0 <= n <= Z.of_nat (length Buffer) -> Forall is_byte Buffer ->
  Lba < mFdBlockCount s -> Lba * BlockSize + Offset + n <= fl_size ->
  wp (QemuFlashWrite pcd module SevEs Lba Offset n Buffer)
    (fun Status s' => Status = EFI_SUCCESS /\ writes s (Lba * BlockSize + Offset) (take (Z.to_nat n) Buffer) s') s.
Proof.
  intros R Hi Hl Ho Hn Hb Hc Hin. pose proof (block_size_pos s R). pose proof (ready_flash s R). unfold QemuFlashWrite. wp_step. wp_step.
  rewrite (proj2 (Z.leb_gt (mFdBlockCount s) Lba)) by lia. wp_step. apply wp_QemuFlashPtr; [done|lia..|].
  rewrite (proj2 (Z.leb_le n _)) by lia. wp_step. rewrite wp_deref. eexists. split; [done|].
  set (o := Lba * BlockSize + Offset) in *. set (bs := take (Z.to_nat n) Buffer).
  assert (Z.of_nat (length bs) = n) as Hbl by (unfold bs; rewrite length_take; lia).
  assert (0 <= o) by nia. wp_step. apply wp_Program; [done|done|by apply Forall_take|done|lia|]. intros d Hd Ha Hnil. rewrite Hbl.
  destruct (Z.ltb_spec 0 n) as [Hpos|Hz].
  - wp_step. change (mFlashBase s) with (mFlashBase (set_dev d s)).
    replace (mFlashBase (set_dev d s) + (o + n) - 1) with (mFlashBase (set_dev d s) + (o + n - 1)) by lia.
    apply wp_QemuFlashPtrWrite; [by apply ready_dev|lia|]. cbn [Dev set_dev]. wp_step. split; [done|].
    destruct (write_read_array d (o + n - 1) Hd ltac:(lia)) as [Hr Ha'].
    split; [done|]. cbn [Dev set_dev]. split; [by rewrite Ha'|]. split; [|split; [done|by apply reading_idle]].
    intros E. rewrite E in Hbl. cbn in Hbl. lia.
  - wp_step. wp_step. wp_step. split; [done|]. assert (bs = []) as E by (apply nil_length_inv; lia).
    split; [done|]. split; [done|]. split; [intros _; rewrite (Hnil E); by destruct s|]. split; [by intros ?|done].
Qed.

(** ** Erasing *)
Definition erases (s : fvb W) (a : list Z) (s' : fvb W) : Prop :=
  s' = set_dev (Dev s') s /\ array (Dev s') = a /\ idle (Dev s').
Lemma QemuFlashEraseBlock_spec Lba s : ready s -> idle (Dev s) -> 0 <= Lba -> Lba * BlockSize + BlockSize <= fl_size ->
  wp (QemuFlashEraseBlock pcd module SevEs Lba)
    (fun Status s' => Status = EFI_SUCCESS /\ erases s (erased (array (Dev s)) (Lba * BlockSize) BlockSize) s' /\
       forall o, 0 <= o < fl_size -> fl_read o (Dev s') <> 0xff) s.
Proof.
  intros R Hi Hl Hin. pose proof (block_size_pos s R). pose proof (ready_flash s R). unfold QemuFlashEraseBlock. wp_step. wp_step.
  assert (Lba < mFdBlockCount s) by (pose proof (ready_count s R); nia).
  rewrite (proj2 (Z.leb_gt (mFdBlockCount s) Lba)) by lia. wp_step. apply wp_QemuFlashPtr; [done|lia..|].
  rewrite Z.add_0_r. wp_step. apply wp_QemuFlashPtrWrite; [done|nia|]. set (s1 := set_dev _ s). wp_step.
  change (mFlashBase s) with (mFlashBase s1). apply wp_QemuFlashPtrWrite; [by apply ready_dev|nia|]. wp_step.
  pose proof (ready_unit s R) as E.
  destruct (write_erase (Dev s) (Lba * fl_block) Hi) as (Hi' & Ha & Hst); [nia|apply Z.mod_mul; lia|lia|].
  rewrite <-E in Hi', Ha, Hst.
  split; [done|]. split; [split; [done|]; split; [exact Ha|exact Hi']|exact Hst].
Qed.

(** The arguments of EraseBlocks: ranges of blocks. *)
Fixpoint args_of (rs : list (Z * Z)) : list Z :=
  match rs with [] => [EFI_LBA_LIST_TERMINATOR] | (l, n) :: rs => l :: n :: args_of rs end.
Fixpoint erased_blocks (a : list Z) (Lba : Z) (n : nat) : list Z :=
  match n with O => a | S n => erased_blocks (erased a (Lba * BlockSize) BlockSize) (Lba + 1) n end.
Definition erased_ranges (a : list Z) (rs : list (Z * Z)) : list Z := foldl (fun a r => erased_blocks a r.1 (Z.to_nat r.2)) a rs.

Lemma EraseRange_spec n : forall Lba s, ready s -> idle (Dev s) -> 0 <= Lba -> (Lba + Z.of_nat n) * BlockSize <= fl_size ->
  wp (EraseRange pcd module SevEs n Lba) (fun Status s' => Status = EFI_SUCCESS /\ erases s (erased_blocks (array (Dev s)) Lba n) s') s.
Proof.
  induction n as [|n IH]; intros Lba s R Hi Hl Hin; cbn [EraseRange erased_blocks].
  { wp_step. split; [done|]. split; [by destruct s|done]. }
  pose proof (block_size_pos s R) as Hbs. wp_step. eapply wp_mono; [apply QemuFlashEraseBlock_spec; [done|done|done|nia]|].
  intros Status s' (-> & (Hs & Ha & Hi') & _). change (EFI_ERROR EFI_SUCCESS) with false. cbv iota.
  assert (u64 (Lba + 1) = Lba + 1) as ->.
  { unfold u64. apply Z.mod_small. pose proof (ready_high s R). pose proof (ready_low s R). pose proof (ready_flash s R). nia. }
  eapply wp_mono; [apply IH; [rewrite Hs; by apply ready_dev|done|lia|nia]|].
  intros St s2 (-> & Hs2 & Ha2 & Hi2). split; [done|]. split; [rewrite Hs2, Hs; done|]. split; [by rewrite Ha2, Ha|done].
Qed.
Lemma CheckLbas_spec N rs s (Q : EFI_STATUS -> fvb W -> Prop) : Forall (fun r => r.1 <> EFI_LBA_LIST_TERMINATOR) rs ->
  Q (if forallb (fun r => negb ((r.2 =? 0) || (N <? u64 (r.1 + r.2)))) rs then EFI_SUCCESS else EFI_INVALID_PARAMETER) s ->
  wp (CheckLbas N (args_of rs)) Q s.
Proof.
  induction 1 as [|[l n] rs Hne _ IH]; intros HQ; cbn [args_of CheckLbas]; [rewrite Z.eqb_refl; by wp_step|]. cbn [fst snd] in *.
  rewrite (proj2 (Z.eqb_neq l _)) by done. cbn [forallb fst snd] in HQ.
  destruct ((n =? 0) || _); cbn [negb andb] in HQ; [by wp_step|]. by apply IH.
Qed.
Lemma EraseLbas_spec rs : forall s, ready s -> idle (Dev s) ->
  Forall (fun r => r.1 <> EFI_LBA_LIST_TERMINATOR /\ 0 <= r.1 /\ 0 <= r.2 /\ (r.1 + r.2) * BlockSize <= fl_size) rs ->
  wp (EraseLbas pcd module SevEs (args_of rs))
    (fun Status s' => Status = EFI_SUCCESS /\ erases s (erased_ranges (array (Dev s)) rs) s') s.
Proof.
  induction rs as [|[l n] rs IH]; intros s R Hi HF; cbn [args_of EraseLbas].
  { rewrite Z.eqb_refl. wp_step. split; [done|]. split; [by destruct s|done]. }
  apply Forall_cons in HF as [(Hne & Hl & Hn & Hin) HF]. cbn [fst snd] in *. rewrite (proj2 (Z.eqb_neq l _)) by done.
  wp_step. eapply wp_mono; [apply EraseRange_spec; [done|done|done|]|].
  { rewrite Z2Nat.id by done. done. }
  intros Status s' (-> & Hs & Ha & Hi'). change (EFI_ERROR EFI_SUCCESS) with false. cbv iota.
  eapply wp_mono; [apply IH; [rewrite Hs; by apply ready_dev|done|done]|].
  intros St s2 (-> & Hs2 & Ha2 & Hi2). split; [done|]. split; [rewrite Hs2, Hs; done|]. split; [|done].
  rewrite Ha2. unfold erased_ranges. cbn [foldl fst snd]. by rewrite Ha.
Qed.
(** A range behind the device ends the loop; the ranges before it are erased. *)
Lemma EraseLbas_behind pre r post : forall s, ready s -> idle (Dev s) ->
  Forall (fun r => r.1 <> EFI_LBA_LIST_TERMINATOR /\ 0 <= r.1 /\ 0 <= r.2 /\ (r.1 + r.2) * BlockSize <= fl_size) pre ->
  r.1 <> EFI_LBA_LIST_TERMINATOR -> mFdBlockCount s <= r.1 -> 0 < r.2 ->
  wp (EraseLbas pcd module SevEs (args_of (pre ++ r :: post)))
    (fun Status s' => Status = EFI_INVALID_PARAMETER /\ erases s (erased_ranges (array (Dev s)) pre) s') s.
Proof.
  induction pre as [|[l n] pre IH]; intros s R Hi HF Hne Hc Hn.
  { destruct r as [l n]. cbn [app args_of EraseLbas fst snd] in *. rewrite (proj2 (Z.eqb_neq l _)) by done.
    assert (Z.to_nat n = S (Z.to_nat n - 1)) as -> by lia. cbn [EraseRange]. wp_step. wp_step. unfold QemuFlashEraseBlock.
    wp_step. wp_step. rewrite (proj2 (Z.leb_le _ _)) by done. wp_step. change (EFI_ERROR EFI_INVALID_PARAMETER) with true.
    cbv iota. wp_step. change (EFI_ERROR EFI_INVALID_PARAMETER) with true. cbv iota. wp_step.
    split; [done|]. split; [by destruct s|done]. }
  apply Forall_cons in HF as [(Hne' & Hl & Hn' & Hin) HF]. cbn [app args_of EraseLbas fst snd] in *.
  rewrite (proj2 (Z.eqb_neq l _)) by done.
  wp_step. eapply wp_mono; [apply EraseRange_spec; [done|done|done|by rewrite Z2Nat.id]|].
  intros Status s' (-> & Hs & Ha & Hi'). change (EFI_ERROR EFI_SUCCESS) with false. cbv iota.
  eapply wp_mono; [apply IH; [rewrite Hs; by apply ready_dev|done|done|done|by rewrite Hs|done]|].
  intros St s2 (-> & Hs2 & Ha2 & Hi2). split; [done|]. split; [rewrite Hs2, Hs; done|]. split; [|done].
  rewrite Ha2. unfold erased_ranges. cbn [foldl fst snd]. by rewrite Ha.
Qed.
End Flash.
