(* ===== verification/FlashFvbInstance.v ===== *)
(** * QemuFlashFvbServicesRuntimeDxe: the volume instance, its attributes and its block map *)
From S2P Require Import Prelude Bytes FlashFvb.

(** ** Fields *)
Lemma field_some l off n : 0 <= off -> off + Z.of_nat n <= Z.of_nat (length l) ->
  field l off n = Some (le_combine (take n (drop (Z.to_nat off) l))).
Proof. intros H1 H2. unfold field. by rewrite (proj2 (Z.leb_le 0 off)), (proj2 (Z.leb_le (off + Z.of_nat n) _)) by done. Qed.
Lemma field_inv l off n v : field l off n = Some v ->
  0 <= off /\ off + Z.of_nat n <= Z.of_nat (length l) /\ v = le_combine (take n (drop (Z.to_nat off) l)).
Proof. unfold field. destruct (Z.leb_spec 0 off), (Z.leb_spec (off + Z.of_nat n) (Z.of_nat (length l))); cbn; [|done..]. intros [= <-]. done. Qed.
Definition patch (l : list Z) (off : Z) (bs : list Z) : list Z := take (Z.to_nat off) l ++ bs ++ drop (Z.to_nat off + length bs) l.
Lemma update_some l off bs : 0 <= off -> off + Z.of_nat (length bs) <= Z.of_nat (length l) -> update l off bs = Some (patch l off bs).
Proof. intros H1 H2. unfold update. by rewrite (proj2 (Z.leb_le 0 off)), (proj2 (Z.leb_le (off + Z.of_nat (length bs)) _)) by done. Qed.
Lemma length_patch l off bs : 0 <= off -> off + Z.of_nat (length bs) <= Z.of_nat (length l) -> length (patch l off bs) = length l.
Proof. intros. unfold patch. rewrite !length_app, length_take, length_drop. lia. Qed.
Lemma patch_lookup l off bs i : 0 <= off -> off + Z.of_nat (length bs) <= Z.of_nat (length l) ->
  patch l off bs !! i = if decide (Z.to_nat off <= i < Z.to_nat off + length bs)%nat then bs !! (i - Z.to_nat off)%nat else l !! i.
Proof.
  intros H1 H2. unfold patch. case_decide as Hd.
  - rewrite lookup_app_r by (rewrite length_take; lia). rewrite length_take, lookup_app_l by lia. f_equal. lia.
  - destruct (decide (i < Z.to_nat off)%nat).
    + rewrite lookup_app_l by (rewrite length_take; lia). by rewrite lookup_take_lt.
    + rewrite lookup_app_r by (rewrite length_take; lia). rewrite length_take, lookup_app_r by lia. rewrite lookup_drop. f_equal. lia.
Qed.
Lemma patch_inside l off bs : 0 <= off -> off + Z.of_nat (length bs) <= Z.of_nat (length l) ->
  take (length bs) (drop (Z.to_nat off) (patch l off bs)) = bs.
Proof.
  intros H1 H2. apply list_eq. intros i. destruct (decide (i < length bs)%nat).
  - rewrite lookup_take_lt, lookup_drop, patch_lookup by done. rewrite decide_True by lia. f_equal. lia.
  - rewrite lookup_take_ge by lia. symmetry. apply lookup_ge_None_2. lia.
Qed.
Lemma patch_outside l off bs q n : 0 <= off -> off + Z.of_nat (length bs) <= Z.of_nat (length l) -> 0 <= q ->
  q + Z.of_nat n <= off \/ off + Z.of_nat (length bs) <= q ->
  take n (drop (Z.to_nat q) (patch l off bs)) = take n (drop (Z.to_nat q) l).
Proof.
  intros H1 H2 Hq Hd. apply list_eq. intros i. destruct (decide (i < n)%nat).
  - rewrite !lookup_take_lt, !lookup_drop, patch_lookup by done. by rewrite decide_False by lia.
  - by rewrite !lookup_take_ge by lia.
Qed.
Lemma field_patch l off v (n : nat) : 0 <= off -> off + Z.of_nat n <= Z.of_nat (length l) ->
  field (patch l off (le_split n v)) off n = Some (v mod 256 ^ Z.of_nat n).
Proof.
  intros H1 H2. pose proof (length_le_split n v) as Hl. rewrite field_some; [|done|rewrite length_patch; rewrite ?Hl; lia].
  f_equal. rewrite <-le_combine_split. f_equal. rewrite <-Hl at 1. apply patch_inside; rewrite ?Hl; lia.
Qed.
Lemma field_patch_ne l off bs q n : 0 <= off -> off + Z.of_nat (length bs) <= Z.of_nat (length l) ->
  q + Z.of_nat n <= off \/ off + Z.of_nat (length bs) <= q -> field (patch l off bs) q n = field l q n.
Proof.
  intros H1 H2 Hd. unfold field. rewrite length_patch by done. destruct (Z.leb_spec 0 q); [|done].
  cbn [andb]. destruct (_ <=? _); [|done]. do 2 f_equal. by apply patch_outside.
Qed.

Section Instance.
Context {W : Type}.
Implicit Types s : fvb W.

(** The one instance. *)
Definition holds_instance (s : fvb W) (l : list Z) : Prop :=
  mFvbModuleGlobal s = Some (mkGlobal 1 l) /\ (80 <= length l)%nat /\ Forall is_byte l.
Lemma wp_FwhInstance l s (Q : list Z * Z -> fvb W -> Prop) : holds_instance s l -> Q (l, 0) s -> wp (FwhInstance 0) Q s.
Proof.
  intros (Hg & _) HQ. unfold FwhInstance, GetFvbInstance, Global. wp_step. wp_step. wp_step. wp_step.
  rewrite Hg, wp_deref. eexists. split; [done|]. cbn [NumFv Z.leb Z.compare FvInstance].
  change (Z.to_nat 0) with O. cbn [NextInstances]. wp_step. wp_step. wp_step. wp_step. wp_step; [done|].
  wp_step. wp_step. wp_step. rewrite Hg, wp_deref. eexists. split; [done|]. by wp_step.
Qed.

(** ** Attributes *)
Lemma set_testbit x k : 0 <= k -> set x (2 ^ k) = Z.testbit x k.
Proof.
  intros Hk. unfold set. destruct (Z.testbit x k) eqn:E.
  - destruct (Z.eqb_spec (Z.land x (2 ^ k)) 0) as [H0|]; [|done]. exfalso.
    assert (Z.testbit (Z.land x (2 ^ k)) k = true) as Ht by (rewrite Z.land_spec, E, Z.pow2_bits_true by done; done).
    by rewrite H0, Z.bits_0 in Ht.
  - assert (Z.land x (2 ^ k) = 0) as ->; [|done]. apply Z.bits_inj. intros i. rewrite Z.land_spec, Z.bits_0.
    destruct (Z.eq_dec i k) as [->|Hne]; [by rewrite E|]. rewrite Z.pow2_bits_false by congruence. apply andb_false_r.
Qed.
Lemma set_land x m k : 0 <= k -> set (Z.land x m) (2 ^ k) = Z.testbit x k && Z.testbit m k.
Proof. intros. rewrite set_testbit by done. apply Z.land_spec. Qed.

(** What a change of attributes asks for is allowed by the header. *)
Definition same_fixed (old new : Z) : Prop := Z.land new UnchangedAttributes = Z.land old UnchangedAttributes.
Definition same_status (old new : Z) : Prop := Z.land new EFI_FVB2_STATUS = Z.land old EFI_FVB2_STATUS.
#[global] Instance same_fixed_dec old new : Decision (same_fixed old new) := Z.eq_dec _ _.
#[global] Instance same_status_dec old new : Decision (same_status old new) := Z.eq_dec _ _.
Definition locked (old : Z) : bool := Z.testbit old 7.
Definition capable (old new : Z) : bool :=
  (if Z.testbit new 2 then Z.testbit old 1 else Z.testbit old 0) &&
  (if Z.testbit new 5 then Z.testbit old 4 else Z.testbit old 3) &&
  (if Z.testbit new 7 then Z.testbit old 6 else true).

Lemma lxor_neq a b : negb (Z.lxor a b =? 0) = negb (a =? b).
Proof. destruct (Z.eqb_spec a b) as [->|Hne]; [by rewrite Z.lxor_nilpotent|]. destruct (Z.eqb_spec (Z.lxor a b) 0) as [E|]; [|done].
  by apply Z.lxor_eq in E. Qed.
Lemma capable_if (rd re r wd we w lc l : bool) (S I : Z) :
  (if negb rd && negb r then I else if negb re && r then I else if negb wd && negb w then I else if negb we && w then I
   else if negb lc && l then I else S) =
  if (if r then re else rd) && (if w then we else wd) && (if l then lc else true) then S else I.
Proof. by destruct rd, re, r, wd, we, w, lc, l. Qed.
Lemma CheckAttributes_eq old new : CheckAttributes old new =
  if negb (Z.land old UnchangedAttributes =? Z.land new UnchangedAttributes) then EFI_INVALID_PARAMETER
  else if locked old && negb (Z.land old EFI_FVB2_STATUS =? Z.land new EFI_FVB2_STATUS) then EFI_ACCESS_DENIED
  else if capable old new then EFI_SUCCESS else EFI_INVALID_PARAMETER.
Proof.
  unfold CheckAttributes. cbv zeta. rewrite !lxor_neq.
  change EFI_FVB2_LOCK_STATUS with (2 ^ 7). rewrite set_testbit by lia. fold (locked old).
  assert (forall k m b, Z.testbit m k = true -> 0 <= k -> set (Z.land b m) (2 ^ k) = Z.testbit b k) as Hset
    by (intros k m b Hm Hk; rewrite set_land, Hm by done; apply andb_true_r).
  change EFI_FVB2_READ_DISABLED_CAP with (2 ^ 0). rewrite (Hset 0 Capabilities old) by done.
  change EFI_FVB2_READ_ENABLED_CAP with (2 ^ 1). rewrite (Hset 1 Capabilities old) by done.
  change EFI_FVB2_READ_STATUS with (2 ^ 2). rewrite !(Hset 2 EFI_FVB2_STATUS new) by done.
  change EFI_FVB2_WRITE_DISABLED_CAP with (2 ^ 3). rewrite (Hset 3 Capabilities old) by done.
  change EFI_FVB2_WRITE_ENABLED_CAP with (2 ^ 4). rewrite (Hset 4 Capabilities old) by done.
  change EFI_FVB2_WRITE_STATUS with (2 ^ 5). rewrite !(Hset 5 EFI_FVB2_STATUS new) by done.
  change EFI_FVB2_LOCK_CAP with (2 ^ 6). rewrite (Hset 6 Capabilities old) by done.
  change EFI_FVB2_LOCK_STATUS with (2 ^ 7). rewrite (Hset 7 EFI_FVB2_STATUS new) by done.
  rewrite capable_if. done.
Qed.
Lemma CheckAttributes_spec old new :
  (CheckAttributes old new = EFI_SUCCESS <-> same_fixed old new /\ (locked old = true -> same_status old new) /\ capable old new = true) /\
  (CheckAttributes old new = EFI_ACCESS_DENIED <-> same_fixed old new /\ locked old = true /\ ~ same_status old new) /\
  (CheckAttributes old new = EFI_SUCCESS \/ EFI_ERROR (CheckAttributes old new) = true).
Proof.
  rewrite CheckAttributes_eq. unfold same_fixed, same_status.
  assert (EFI_SUCCESS <> EFI_ACCESS_DENIED /\ EFI_SUCCESS <> EFI_INVALID_PARAMETER /\ EFI_INVALID_PARAMETER <> EFI_ACCESS_DENIED)
    as (D1 & D2 & D3) by (split; [|split]; discriminate).
  destruct (Z.eqb_spec (Z.land old UnchangedAttributes) (Z.land new UnchangedAttributes)) as [E1|E1]; cbn [negb].
  2:{ split; [split; [congruence|intros [? _]; congruence]|]. split; [split; [congruence|intros [? _]; congruence]|by right]. }
  destruct (locked old) eqn:El; cbn [andb];
    [destruct (Z.eqb_spec (Z.land old EFI_FVB2_STATUS) (Z.land new EFI_FVB2_STATUS)) as [E2|E2]; cbn [negb]|].
  - destruct (capable old new); cbv iota; (split; [split; [intros; split; [congruence|]; split; congruence|intros (_ & _ & ?); congruence]|]);
      (split; [split; [congruence|intros (_ & _ & ?); congruence]|auto]).
  - split; [split; [congruence|intros (_ & H & _); specialize (H eq_refl); congruence]|].
    split; [split; [intros _; split; [congruence|]; split; [done|congruence]|done]|by right].
  - destruct (capable old new); cbv iota; (split; [split; [intros; split; [congruence|]; split; congruence|intros (_ & _ & ?); congruence]|]);
      (split; [split; [congruence|intros (_ & ? & _); congruence]|auto]).
Qed.

(** The bits that a granted change gives. *)
Definition new_attributes (old new : Z) : Z :=
  Z.lor (Z.land old (Z.land 0xFFFFFFFF (Z.lnot EFI_FVB2_STATUS))) (Z.land new EFI_FVB2_STATUS).
Lemma new_attributes_status old new : Z.land (new_attributes old new) EFI_FVB2_STATUS = Z.land new EFI_FVB2_STATUS.
Proof.
  apply Z.bits_inj. intros i. unfold new_attributes. rewrite !Z.land_spec, Z.lor_spec, !Z.land_spec.
  destruct (Z.testbit EFI_FVB2_STATUS i) eqn:E; rewrite ?andb_true_r, ?andb_false_r; [|done].
  destruct (Z.leb_spec 0 i); [|by rewrite !Z.testbit_neg_r by lia].
  by rewrite Z.lnot_spec, E, !andb_false_r by done.
Qed.
Lemma new_attributes_rest old new i : is_u32 old -> 0 <= i -> Z.testbit EFI_FVB2_STATUS i = false ->
  Z.testbit (new_attributes old new) i = Z.testbit old i.
Proof.
  intros Ho Hi E. unfold new_attributes. rewrite Z.lor_spec, !Z.land_spec, Z.lnot_spec, E, andb_false_r, orb_false_r by done. cbn [negb].
  rewrite andb_true_r. destruct (Z.ltb_spec i 32).
  - change 0xFFFFFFFF with (Z.ones 32). rewrite Z.ones_spec_low by lia. apply andb_true_r.
  - assert (Z.testbit old i = false) as ->; [|done]. destruct (Z.eq_dec old 0) as [->|Hne]; [apply Z.bits_0|].
    apply Z.bits_above_log2; [unfold is_u32 in Ho; lia|]. apply Z.log2_lt_pow2; [unfold is_u32 in Ho; lia|].
    unfold is_u32 in Ho. apply Z.lt_le_trans with (2 ^ 32); [lia|]. apply Z.pow_le_mono_r; lia.
Qed.
Lemma new_attributes_range old new : is_u32 old -> is_u32 (new_attributes old new).
Proof.
  intros Ho. assert (0 <= new_attributes old new) as H0.
  { unfold new_attributes, is_u32 in *. apply Z.lor_nonneg. split; apply Z.land_nonneg; [lia|right; done]. }
  assert (Z.log2 (new_attributes old new) < 32) as Hl.
  { destruct (Z.eq_dec (new_attributes old new) 0) as [->|Hne]; [done|]. apply Z.lt_nge. intros Hge.
    pose proof (Z.bit_log2 (new_attributes old new) ltac:(lia)) as Hb. revert Hb.
    assert (Z.testbit EFI_FVB2_STATUS (Z.log2 (new_attributes old new)) = false) as E by (apply Z.bits_above_log2; [done|change (Z.log2 EFI_FVB2_STATUS) with 7; lia]).
    rewrite (new_attributes_rest old new _ Ho (Z.log2_nonneg _) E).
    rewrite (Z.bits_above_log2 old); [done|unfold is_u32 in Ho; lia|].
    destruct (Z.eq_dec old 0) as [->|]; [cbn; lia|]. apply Z.lt_le_trans with 32; [|done].
    apply Z.log2_lt_pow2; unfold is_u32 in Ho; lia. }
  destruct (Z.eq_dec (new_attributes old new) 0) as [->|Hne]; [done|]. split; [done|]. apply Z.log2_lt_pow2; lia.
Qed.

Definition attributes_of (l : list Z) : option Z := field l (OFF_VolumeHeader + OFF_Attributes) 4.
Lemma attributes_some l : (80 <= length l)%nat -> Forall is_byte l -> exists a, attributes_of l = Some a /\ is_u32 a.
Proof.
  intros Hl Hb. unfold attributes_of. change (OFF_VolumeHeader + OFF_Attributes) with 60.
  eexists. split; [apply field_some; [done|lia]|].
  assert (Forall is_byte (take 4 (drop (Z.to_nat 60) l))) as Hb' by by apply Forall_take, Forall_drop.
  pose proof (le_combine_range _ Hb') as Hr. rewrite length_take, length_drop in Hr.
  replace (4 `min` (length l - Z.to_nat 60))%nat with 4%nat in Hr by lia. exact Hr.
Qed.
Lemma FvbSetVolumeAttributes_spec l old new s : holds_instance s l -> attributes_of l = Some old ->
  wp (FvbSetVolumeAttributes 0 new) (fun r s' =>
    if EFI_ERROR (CheckAttributes old new) then r = (CheckAttributes old new, new) /\ s' = s else
    r = (EFI_SUCCESS, new_attributes old new) /\
    exists l', s' = set_global (Some (mkGlobal 1 l')) s /\ holds_instance s' l' /\
      attributes_of l' = Some (new_attributes old new) /\
      forall off n, off + Z.of_nat n <= 60 \/ 64 <= off -> field l' off n = field l off n) s.
Proof.
  intros Hi Ha. pose proof Hi as (Hg & Hl & Hb). unfold FvbSetVolumeAttributes. wp_step. eapply wp_FwhInstance; [done|]. cbn [fst snd].
  cbv zeta. wp_step. rewrite wp_deref. exists old. split; [exact Ha|]. cbv zeta.
  destruct (EFI_ERROR (CheckAttributes old new)) eqn:E; [by wp_step|]. fold (new_attributes old new).
  assert (is_u32 old) as Ho by (destruct (attributes_some l Hl Hb) as (a & Ha' & ?); congruence).
  change (0 + OFF_VolumeHeader + OFF_Attributes) with 60.
  wp_step. rewrite wp_deref. eexists. split; [apply update_some; [done|rewrite length_le_split; lia]|].
  set (l' := patch l 60 _). wp_step. unfold Global. wp_step. wp_step. rewrite Hg, wp_deref. eexists. split; [done|]. cbn [NumFv].
  wp_step. wp_step. wp_step. split; [done|]. exists l'. split; [done|].
  assert (60 + Z.of_nat (length (le_split 4 (new_attributes old new))) <= Z.of_nat (length l)) as Hfit by (rewrite length_le_split; lia).
  split; [split; [done|]; split; [unfold l'; rewrite length_patch by done; done|]|].
  - unfold l', patch. rewrite !Forall_app. split; [by apply Forall_take|]. split; [apply le_split_bytes|by apply Forall_drop].
  - split.
    + unfold attributes_of, l'. change (OFF_VolumeHeader + OFF_Attributes) with 60. rewrite field_patch by lia. f_equal. apply Z.mod_small. exact (new_attributes_range old new Ho).
    + intros off n Hd. unfold l'. apply field_patch_ne; [done|done|]. rewrite length_le_split. lia.
Qed.

(** ** The block map

    The entries up to the terminator; what they say of a block: its offset,
    its length, and the number of blocks of its entry from there on. *)
Inductive map_at (l : list Z) : Z -> list (Z * Z) -> Prop :=
  | map_end p n k : field l p 4 = Some n -> field l (p + 4) 4 = Some k -> n = 0 \/ k = 0 -> map_at l p []
  | map_entry p n k es : field l p 4 = Some n -> field l (p + 4) 4 = Some k -> n <> 0 -> k <> 0 ->
      map_at l (p + SIZEOF_BLOCK_MAP_ENTRY) es -> map_at l p ((n, k) :: es).
Fixpoint lookup_lba (es : list (Z * Z)) (Lba : Z) : option (Z * Z * Z) :=
  match es with
  | [] => None
  | (n, k) :: es =>
      if Lba <? n then Some (Lba * k, k, n - Lba)
      else match lookup_lba es (Lba - n) with Some (o, k', m) => Some (n * k + o, k', m) | None => None end
  end.
Definition total_blocks (es : list (Z * Z)) : Z := foldr (fun e t => e.1 + t) 0 es.
Definition total_bytes (es : list (Z * Z)) : Z := foldr (fun e t => e.1 * e.2 + t) 0 es.

Lemma map_length l p es : map_at l p es -> 0 <= p /\ p + 8 + 8 * Z.of_nat (length es) <= Z.of_nat (length l).
Proof.
  induction 1 as [p n k Hn Hk|p n k es Hn Hk _ _ _ [IH1 IH2]]; apply field_inv in Hn as (? & ? & _); apply field_inv in Hk as (? & ? & _); cbn [length].
  - lia.
  - unfold SIZEOF_BLOCK_MAP_ENTRY in *. lia.
Qed.
Lemma field_bounds l p n v : Forall is_byte l -> field l p n = Some v -> 0 <= v < 256 ^ Z.of_nat n.
Proof.
  intros Hb (H1 & H2 & ->)%field_inv. assert (Forall is_byte (take n (drop (Z.to_nat p) l))) as Hb' by by apply Forall_take, Forall_drop.
  pose proof (le_combine_range _ Hb') as Hr. rewrite length_take, length_drop in Hr. by replace (n `min` (length l - Z.to_nat p))%nat with n in Hr by lia.
Qed.
Lemma total_pos l p es : Forall is_byte l -> map_at l p es -> 0 <= total_blocks es /\ 0 <= total_bytes es.
Proof.
  intros Hb. induction 1 as [|p n k es Hn Hk _ _ _ [IH1 IH2]]; [done|]. cbn.
  pose proof (field_bounds _ _ _ _ Hb Hn). pose proof (field_bounds _ _ _ _ Hb Hk). unfold total_blocks, total_bytes in *. nia.
Qed.

Lemma BlockMapWalk_spec l FvBase es : Forall is_byte l -> 0 <= FvBase -> forall p, map_at l p es -> forall fuel Lba Start Off s,
  (length es < fuel)%nat -> 0 <= Start <= Lba -> 0 <= Off -> Start + total_blocks es < 2 ^ 64 ->
  FvBase + Off + total_bytes es < 2 ^ 64 -> Forall (fun e => e.1 * e.2 < 2 ^ 32) es ->
  wp (BlockMapWalk fuel l p FvBase Lba Start Off) (fun o s' => s' = s /\
    o = match lookup_lba es (Lba - Start) with Some (a, k, m) => Some (FvBase + (Off + a), k, m) | None => None end) s.
Proof.
  intros Hb HF p Hm. induction Hm as [p n k Hn Hk H0|p n k es Hn Hk Hn0 Hk0 Hm IH]; intros fuel Lba Start Off s Hf HS HO Ht Hb64 H32;
    (destruct fuel as [|fuel]; [cbn in Hf; lia|]); cbn [BlockMapWalk].
  - wp_step. rewrite wp_deref. exists n. split; [done|]. wp_step. rewrite wp_deref. exists k. split; [done|].
    assert ((n =? 0) || (k =? 0) = true) as -> by lia. by wp_step.
  - pose proof (field_bounds _ _ _ _ Hb Hn) as Hnr. pose proof (field_bounds _ _ _ _ Hb Hk) as Hkr.
    pose proof (total_pos _ _ _ Hb Hm) as [Hp1 Hp2]. apply Forall_cons in H32 as [Hnk H32]. cbn [fst snd length] in *.
    change (total_blocks ((n, k) :: es)) with (n + total_blocks es) in Ht.
    change (total_bytes ((n, k) :: es)) with (n * k + total_bytes es) in Hb64.
    wp_step. rewrite wp_deref. exists n. split; [done|]. wp_step. rewrite wp_deref. exists k. split; [done|].
    assert ((n =? 0) || (k =? 0) = false) as -> by lia. cbv zeta.
    assert (0 <= n * k) by nia.
    assert (u64 (Start + n) = Start + n) as -> by (unfold u64; apply Z.mod_small; lia).
    cbn [lookup_lba]. rewrite (proj2 (Z.leb_le Start Lba)) by lia. cbn [andb].
    destruct (Z.ltb_spec Lba (Start + n)) as [Hlt|Hge].
    + rewrite (proj2 (Z.ltb_lt (Lba - Start) n)) by lia. wp_step. split; [done|].
      assert (0 <= (Lba - Start) * k <= n * k) by nia.
      unfold u64. rewrite (Z.mod_small ((Lba - Start) * k)), (Z.mod_small (Off + _)), (Z.mod_small (FvBase + _)) by lia.
      by replace (Start + n - Lba) with (n - (Lba - Start)) by lia.
    + rewrite (proj2 (Z.ltb_ge (Lba - Start) n)) by lia.
      assert (u64 (Off + u32 (n * k)) = Off + n * k) as ->.
      { unfold u64, u32. rewrite (Z.mod_small (n * k)) by lia. apply Z.mod_small. lia. }
      eapply wp_mono; [apply (IH fuel Lba (Start + n) (Off + n * k)); [lia|lia|lia|lia|lia|done]|].
      intros o s' [-> ->]. split; [done|]. replace (Lba - (Start + n)) with (Lba - Start - n) by lia.
      destruct (lookup_lba es (Lba - Start - n)) as [[[a k'] m]|]; [|done].
      by replace (Off + n * k + a) with (Off + (n * k + a)) by lia.
Qed.
End Instance.
