(* ===== verification/FlashFvbStart.v ===== *)
(** * QemuFlashFvbServicesRuntimeDxe: detection and the variable store *)
From S2P Require Import Prelude Bytes FlashFvb FlashFvbInit FlashDevice FlashFvbProofs FlashFvbInstance.

(** ** What BaseLib's checksums are *)
Fixpoint sum16 (l : list Z) : Z :=
  match l with a :: b :: l => a + 256 * b + sum16 l | _ => 0 end.
Class Sum16Laws `{Sum16} := {
  CalculateSum16_law l : Forall is_byte l -> Nat.even (length l) = true -> CalculateSum16 l = sum16 l mod 2 ^ 16;
  CalculateCheckSum16_law l : Forall is_byte l -> Nat.even (length l) = true -> CalculateCheckSum16 l = (- sum16 l) mod 2 ^ 16;
}.
Lemma sum16_app (x y : list Z) n : length x = (2 * n)%nat -> sum16 (x ++ y) = sum16 x + sum16 y.
Proof.
  revert x. induction n as [|n IH]; intros x Hx.
  - by apply nil_length_inv in Hx as ->.
  - destruct x as [|a [|b x]]; [discriminate Hx|cbn in Hx; lia|]. cbn [app sum16]. rewrite IH; [lia|]. cbn in Hx. lia.
Qed.

Section Start.
Context {W : Type} `{PFlashLaws W} `{Sum16Laws} (pcd : pcds) (module : module_type) (Sev SevEs : bool).
#[local] Abbreviation FdBase := (PcdOvmfFdBaseAddress pcd).
#[local] Abbreviation FdSize := (PcdOvmfFirmwareFdSize pcd).
#[local] Abbreviation BlockSize := (PcdOvmfFirmwareBlockSize pcd).
#[local] Abbreviation Length := (NvLength pcd).

(** The platform: the variable store begins the firmware device, and takes
    whole blocks of the flash. *)
Record layout : Prop := mkLayout {
  lay_base : PcdOvmfFlashNvStorageVariableBase pcd = FdBase;
  lay_low : 0 <= FdBase;
  lay_high : FdBase + FdSize <= 2 ^ 64 - 1;
  lay_block : BlockSize = fl_block;
  lay_block_u32 : 72 <= BlockSize < 2 ^ 32;
  lay_whole : FdSize mod BlockSize = 0;
  lay_flash : fl_size <= FdSize;
  lay_header : 2 ^ 16 + 16 <= fl_size;
  lay_store : 0 < Length <= fl_size;
  lay_blocks : Length mod BlockSize = 0;
}.
Context (L : layout).

(** ** Detection *)
Definition probe_byte (b : Z) : bool := negb (b =? CLEAR_STATUS_CMD) && negb (b =? READ_STATUS_CMD) && negb (b =? CLEARED_ARRAY_STATUS).
Definition probe_found (a : list Z) : Prop := exists o b, 0 <= o < BlockSize /\ a !! Z.to_nat o = Some b /\ probe_byte b = true.

Lemma wp_Probe (s : fvb W) (R : ready pcd module SevEs s) n : forall o (Q : option Z -> fvb W -> Prop), reading (Dev s) -> 0 <= o ->
  o + Z.of_nat n <= BlockSize -> BlockSize <= fl_size ->
  ((forall i b, o <= i < o + Z.of_nat n -> array (Dev s) !! Z.to_nat i = Some b -> probe_byte b = false) -> Q None s) ->
  (forall i b, o <= i < o + Z.of_nat n -> array (Dev s) !! Z.to_nat i = Some b -> probe_byte b = true -> Q (Some (mFlashBase s + i)) s) ->
  wp (Probe pcd n o) Q s.
Proof.
  induction n as [|n IH]; intros o Q Hr Ho Hn Hbs Hno Hyes; cbn [Probe]; [wp_step; apply Hno; lia|].
  pose proof (ready_flash _ _ _ s R). wp_step. apply (wp_QemuFlashPtr pcd module SevEs); [done|lia|lia|lia|].
  rewrite Z.mul_0_l, Z.add_0_l. wp_step. apply (wp_ptr_read pcd module SevEs); [done|lia|].
  assert (array (Dev s) !! Z.to_nat o = Some (fl_read o (Dev s))) as Hb by (apply read_array; [done|lia]).
  fold (probe_byte (fl_read o (Dev s))). destruct (probe_byte (fl_read o (Dev s))) eqn:E.
  - wp_step. apply (Hyes o (fl_read o (Dev s))); [lia|done|done].
  - apply IH; [done|lia|lia|done| |].
    + intros Hall. apply Hno. intros i b Hi Hib. destruct (Z.eq_dec i o) as [->|Hne]; [congruence|]. apply (Hall i b); [lia|done].
    + intros i b Hi. apply Hyes. lia.
Qed.

Lemma QemuFlashDetected_spec (s : fvb W) : ready pcd module SevEs s -> reading (Dev s) -> BlockSize <= fl_size ->
  wp (QemuFlashDetected pcd SevEs) (fun ok s' => s' = set_dev (Dev s') s /\ array (Dev s') = array (Dev s) /\ reading (Dev s') /\
    (ok = true <-> probe_found (array (Dev s))) /\ (ok = false \/ SevEs = true -> s' = s)) s.
Proof.
  intros R Hr Hbs. pose proof (block_size_pos pcd module SevEs s R). pose proof (ready_flash _ _ _ s R).
  unfold QemuFlashDetected. wp_step. wp_step. rewrite (ready_block _ _ _ s R).
  assert (s = set_dev (Dev s) s) as Es by by destruct s.
  wp_step. apply wp_Probe; [done|done|lia|lia|done| |].
  { intros Hno. wp_step. split; [done|]. split; [done|]. split; [done|]. split; [|done].
    split; [done|]. intros (o & b & Ho & Hb & Hp). rewrite (Hno o b) in Hp; [done|lia|done]. }
  intros o b Ho Hb Hp. assert (probe_found (array (Dev s))) as Hf by (exists o, b; split; [lia|done]).
  destruct SevEs eqn:Esev.
  { wp_step. split; [done|]. split; [done|]. split; [done|]. split; [done|done]. }
  assert (ready pcd module false s) as R' by done. clear R.
  assert (fl_read o (Dev s) = b) as Eb.
  { pose proof (read_array (Dev s) o Hr ltac:(lia)) as Hra. congruence. }
  destruct (write_clear (Dev s) o Hr ltac:(lia)) as (Hr1 & Ha1 & Hi2 & Ha2 & Hs2).
  set (d1 := fl_write o CLEAR_STATUS_CMD (Dev s)) in *. set (d2 := fl_write o READ_STATUS_CMD d1) in *.
  assert (fl_read o d1 = b) as Eb1.
  { pose proof (read_array d1 o Hr1 ltac:(lia)) as Hra. rewrite Ha1, Hb in Hra. congruence. }
  apply andb_true_iff in Hp as [[Hp1 Hp2]%andb_true_iff Hp3]. rewrite negb_true_iff in Hp1, Hp2, Hp3.
  wp_step. apply (wp_ptr_read pcd module false); [done|lia|]. rewrite Eb.
  wp_step. apply (wp_ptr_write pcd module false); [done|lia|]. fold d1.
  wp_step. change (mFlashBase s) with (mFlashBase (set_dev d1 s)).
  apply (wp_ptr_read pcd module false); [by apply ready_dev|lia|]. cbn [Dev set_dev]. rewrite Eb1, Hp1. cbn [negb andb].
  wp_step. apply (wp_ptr_write pcd module false); [by apply ready_dev|lia|]. cbn [Dev set_dev]. fold d2.
  wp_step. change (mFlashBase (set_dev d1 s)) with (mFlashBase (set_dev d2 (set_dev d1 s))).
  apply (wp_ptr_read pcd module false); [by apply ready_dev, ready_dev|lia|]. cbn [Dev set_dev]. rewrite Hs2.
  assert ((CLEARED_ARRAY_STATUS =? b) = false) as -> by (unfold CLEARED_ARRAY_STATUS in *; lia).
  change (CLEARED_ARRAY_STATUS =? READ_STATUS_CMD) with false. rewrite Z.eqb_refl.
  wp_step. apply (wp_ptr_write pcd module false); [by apply ready_dev, ready_dev|lia|]. cbn [Dev set_dev].
  destruct (write_read_array d2 o Hi2 ltac:(lia)) as [Hr3 Ha3]. wp_step. cbn [Dev set_dev].
  split; [done|]. split; [by rewrite Ha3|]. split; [done|]. split; [done|]. intros [?|?]; done.
Qed.

(** ** Headers in the flash *)
Definition afield (a : list Z) (off : Z) (n : nat) : Z := le_combine (slice a off n).
Definition header_length (a : list Z) : Z := afield a OFF_HeaderLength 2.
Definition header_ok (a : list Z) : bool :=
  (afield a OFF_Revision 1 =? EFI_FVH_REVISION) && (afield a OFF_Signature 4 =? EFI_FVH_SIGNATURE) &&
  negb (afield a OFF_FvLength 8 =? 2 ^ 64 - 1) && (Z.land (header_length a) 1 =? 0) &&
  (CalculateSum16 (slice a 0 (Z.to_nat (header_length a))) =? 0).
Definition store_ok (a : list Z) : bool :=
  header_ok a && (afield a OFF_FvLength 8 =? Length) && (afield a (OFF_BlockMap + 4) 4 =? BlockSize).

(** The flash is at its physical address. *)
Definition at_start (s : fvb W) : Prop := ready pcd module SevEs s /\ mFlashBase s = FdBase /\ reading (Dev s).

Lemma wp_flash_header off n s (Q : list Z -> fvb W -> Prop) : at_start s -> 0 <= off -> off + Z.of_nat n <= fl_size ->
  Q (slice (array (Dev s)) off n) s -> wp (flash_header pcd FdBase off n) Q s.
Proof. intros (R & E & Hr) Ho Hn HQ. unfold flash_header. rewrite <-E. by apply (wp_ReadBytes pcd module SevEs). Qed.
Lemma wp_hfield off n s (Q : Z -> fvb W -> Prop) : at_start s -> 0 <= off -> off + Z.of_nat n <= fl_size ->
  Q (afield (array (Dev s)) off n) s -> wp (hfield (flash_header pcd FdBase) off n) Q s.
Proof. intros A Ho Hn HQ. unfold hfield. wp_step. apply wp_flash_header; [done..|]. by wp_step. Qed.
Lemma slice_length (a : list Z) o n : 0 <= o -> o + Z.of_nat n <= Z.of_nat (length a) -> length (slice a o n) = n.
Proof. intros. unfold slice. rewrite length_take, length_drop. lia. Qed.
Lemma afield_range (a : list Z) o n : Forall is_byte a -> 0 <= o -> o + Z.of_nat n <= Z.of_nat (length a) -> 0 <= afield a o n < 256 ^ Z.of_nat n.
Proof.
  intros Hb Ho Hn. assert (Forall is_byte (slice a o n)) as Hb' by by apply Forall_take, Forall_drop.
  pose proof (le_combine_range _ Hb') as Hr. by rewrite slice_length in Hr.
Qed.
Lemma header_length_range (s : fvb W) : 0 <= header_length (array (Dev s)) < 2 ^ 16.
Proof.
  pose proof (lay_header L). pose proof (array_length (Dev s)). unfold OFF_HeaderLength.
  apply (afield_range (array (Dev s)) OFF_HeaderLength 2); [apply array_bytes|done|unfold OFF_HeaderLength; lia].
Qed.
Lemma wp_ValidateFvHeader s (Q : EFI_STATUS -> fvb W -> Prop) : at_start s ->
  Q (if header_ok (array (Dev s)) then EFI_SUCCESS else EFI_NOT_FOUND) s -> wp (ValidateFvHeader (flash_header pcd FdBase)) Q s.
Proof.
  intros A HQ. pose proof (lay_header L). pose proof (header_length_range s) as Hh. unfold ValidateFvHeader, header_ok in *. unfold header_length in *.
  unfold OFF_Revision, OFF_Signature, OFF_FvLength, OFF_HeaderLength in *.
  wp_step. apply wp_hfield; [done|lia|lia|]. destruct (afield _ 55 1 =? _); cbn [negb andb] in *; [|by wp_step].
  wp_step. apply wp_hfield; [done|lia|lia|]. destruct (afield _ 40 4 =? _); cbn [negb andb] in *; [|by wp_step].
  wp_step. apply wp_hfield; [done|lia|lia|]. destruct (afield _ 32 8 =? _); cbn [negb andb] in *; [by wp_step|].
  wp_step. apply wp_hfield; [done|lia|lia|]. destruct (Z.land _ 1 =? 0); cbn [negb andb] in *; [|by wp_step].
  wp_step. apply wp_flash_header; [done|lia|lia|]. wp_step. by destruct (_ =? 0).
Qed.
End Start.

(** * QemuFlashFvbServicesRuntimeDxe: the header of the variable store *)
Section Media.
Context {W : Type} `{PFlashLaws W} `{Sum16Laws} (pcd : pcds) (module : module_type) (SevEs : bool).
#[local] Abbreviation BlockSize := (PcdOvmfFirmwareBlockSize pcd).
#[local] Abbreviation Length := (NvLength pcd).
Context (L : layout pcd).

(** The entry of mPlatformFvbMediaInfo, with a checksum. *)
Definition info_head : list Z :=
  replicate 16 0 ++ EFI_SYSTEM_NV_DATA_FV_GUID ++ le_split 8 Length ++ le_split 4 EFI_FVH_SIGNATURE ++ le_split 4 0x40c36 ++ le_split 2 72.
Definition info_tail : list Z :=
  le_split 2 0 ++ [0; 2] ++ le_split 4 (Length / BlockSize) ++ le_split 4 BlockSize ++ replicate 8 0.
Definition info_with (c : Z) : list Z := info_head ++ le_split 2 c ++ info_tail.
Definition checksum : Z := CalculateCheckSum16 (info_with 0).
Definition good_info : list Z := info_with checksum.

Lemma media_info : mPlatformFvbMediaInfo pcd = info_with 0.
Proof. reflexivity. Qed.
Lemma info_length c : length (info_with c) = 72%nat.
Proof. reflexivity. Qed.
Lemma info_bytes c : Forall is_byte (info_with c).
Proof.
  unfold info_with, info_head, info_tail. rewrite !Forall_app. repeat split; try apply le_split_bytes; try (apply Forall_replicate; done);
    unfold EFI_SYSTEM_NV_DATA_FV_GUID; repeat (apply Forall_cons; split; [done|]); apply Forall_nil; done.
Qed.
Lemma info_patch c d : patch (info_with c) OFF_Checksum (le_split 2 d) = info_with d.
Proof. reflexivity. Qed.
Lemma info_update c d : update (info_with c) OFF_Checksum (le_split 2 d) = Some (info_with d).
Proof. apply update_some; [done|]. rewrite info_length, length_le_split. done. Qed.

Lemma info_field c o n l : slice (info_with c) o n = l -> afield (info_with c) o n = le_combine l.
Proof. unfold afield. by intros ->. Qed.
Lemma info_revision c : afield (info_with c) OFF_Revision 1 = EFI_FVH_REVISION.
Proof. reflexivity. Qed.
Lemma info_signature c : afield (info_with c) OFF_Signature 4 = EFI_FVH_SIGNATURE.
Proof. reflexivity. Qed.
Lemma info_header_length c : afield (info_with c) OFF_HeaderLength 2 = 72.
Proof. reflexivity. Qed.
Lemma info_fv_length c : afield (info_with c) OFF_FvLength 8 = Length.
Proof.
  rewrite (info_field _ _ _ (le_split 8 Length)) by reflexivity. rewrite le_combine_split. apply Z.mod_small.
  unfold NvLength, u32. pose proof (Z.mod_pos_bound (PcdFlashNvStorageVariableSize pcd + PcdFlashNvStorageFtwWorkingSize pcd
    + PcdFlashNvStorageFtwSpareSize pcd + PcdOvmfFlashNvStorageEventLogSize pcd) (2 ^ 32)). lia.
Qed.
Lemma info_map_length c : afield (info_with c) (OFF_BlockMap + 4) 4 = BlockSize.
Proof.
  rewrite (info_field _ _ _ (le_split 4 BlockSize)) by reflexivity. rewrite le_combine_split. apply Z.mod_small.
  pose proof (lay_block_u32 _ L). lia.
Qed.
Lemma info_checksum : CalculateSum16 (slice good_info 0 72) = 0.
Proof.
  assert (slice good_info 0 72 = good_info) as -> by (unfold slice; rewrite drop_0; apply take_ge; unfold good_info; by rewrite info_length).
  rewrite CalculateSum16_law by (done || apply info_bytes).
  unfold good_info, info_with. rewrite (sum16_app info_head _ 25), (sum16_app (le_split 2 _) _ 1) by done.
  unfold checksum. rewrite CalculateCheckSum16_law by (done || apply info_bytes).
  unfold info_with. rewrite (sum16_app info_head _ 25), (sum16_app (le_split 2 0) _ 1) by done.
  assert (forall v, 0 <= v < 2 ^ 16 -> sum16 (le_split 2 v) = v) as Hs.
  { intros v Hv. pose proof (le_combine_split 2 v) as E. rewrite (Z.mod_small v) in E by exact Hv. cbn [le_split le_combine] in E. cbn [le_split sum16]. lia. }
  rewrite (Hs 0) by lia. set (x := sum16 info_head) in *. set (y := sum16 info_tail) in *. rewrite Hs by (apply Z.mod_pos_bound; lia).
  change (2 ^ 16) with 65536. rewrite Z.add_0_l. rewrite <-Z.add_mod_idemp_r by lia. rewrite Z.add_mod_idemp_l by lia.
  rewrite Z.add_mod_idemp_r by lia. replace (x + (- (x + y) + y)) with 0 by lia. done.
Qed.
Lemma afield_slice (a : list Z) o n m : 0 <= o -> o + Z.of_nat n <= Z.of_nat m -> afield (slice a 0 m) o n = afield a o n.
Proof.
  intros Ho Hn. unfold afield, slice. rewrite drop_0, !take_drop_commute, take_take. do 2 f_equal. f_equal. lia.
Qed.
(** A flash that begins with this header has a variable store. *)
Lemma good_store (a : list Z) : slice a 0 72 = good_info -> store_ok pcd a = true.
Proof.
  intros E.
  assert (forall o n, 0 <= o -> o + Z.of_nat n <= 72 -> afield a o n = afield good_info o n) as Hf.
  { intros o n Ho Hn. rewrite <-E. symmetry. by apply afield_slice. }
  pose proof info_checksum as Hc. assert (slice good_info 0 72 = good_info) as Eg by (unfold slice; rewrite drop_0; apply take_ge; unfold good_info; by rewrite info_length).
  unfold store_ok, header_ok, header_length. rewrite !Hf by done. unfold good_info at 1 2 3 4 5 6 7.
  rewrite info_revision, info_signature, info_header_length, info_fv_length, info_map_length.
  change (Z.to_nat 72) with 72%nat. rewrite E. rewrite Eg in Hc. rewrite Hc, !Z.eqb_refl. cbn [andb negb].
  assert ((Length =? 2 ^ 64 - 1) = false) as ->; [|done]. apply Z.eqb_neq. unfold NvLength, u32.
  pose proof (Z.mod_pos_bound (PcdFlashNvStorageVariableSize pcd + PcdFlashNvStorageFtwWorkingSize pcd
    + PcdFlashNvStorageFtwSpareSize pcd + PcdOvmfFlashNvStorageEventLogSize pcd) (2 ^ 32)). lia.
Qed.

(** ** GetFvbInfo *)
Definition info_ok (s : fvb W) : Prop := FvbInfo s = if Checksummed s then good_info else mPlatformFvbMediaInfo pcd.
Lemma wp_GetFvbInfo n (s : fvb W) (Q : bool -> fvb W -> Prop) : info_ok s ->
  Q (Length =? n) (set_info true good_info s) -> wp (GetFvbInfo pcd n) Q s.
Proof.
  unfold info_ok. intros Hi HQ. unfold GetFvbInfo. wp_step. wp_step. destruct (Checksummed s) eqn:Ec.
  - wp_step. wp_step. wp_step. assert (set_info true good_info s = s) as E by (unfold set_info; rewrite <-Hi, <-Ec; by destruct s). by rewrite E in HQ.
  - rewrite Hi, media_info, info_update. wp_step. wp_step. rewrite wp_deref. eexists. split; [done|].
    wp_step. rewrite wp_deref. exists 72. split; [done|]. cbv zeta.
    assert (take (Z.to_nat 72) (info_with 0) = info_with 0) as -> by done. fold checksum. rewrite info_update.
    wp_step. rewrite wp_deref. eexists. split; [done|]. wp_step. by wp_step.
Qed.

(** ** Erasing the store *)
Lemma erased_lookup a o n i : 0 <= o -> 0 <= n -> o + n <= Z.of_nat (length a) ->
  erased a o n !! i = if decide (Z.to_nat o <= i < Z.to_nat (o + n))%nat then Some 0xff else a !! i.
Proof.
  intros Ho Hn Hin. unfold erased. case_decide as Hd.
  - rewrite lookup_app_r by (rewrite length_take; lia). rewrite length_take, lookup_app_l by (rewrite length_replicate; lia).
    apply lookup_replicate_2. lia.
  - destruct (decide (i < Z.to_nat o)%nat).
    + rewrite lookup_app_l by (rewrite length_take; lia). by rewrite lookup_take_lt.
    + rewrite lookup_app_r by (rewrite length_take; lia). rewrite length_take, lookup_app_r by (rewrite length_replicate; lia).
      rewrite length_replicate, lookup_drop. f_equal. lia.
Qed.
Lemma length_erased a o n : 0 <= o -> 0 <= n -> o + n <= Z.of_nat (length a) -> length (erased a o n) = length a.
Proof. intros. unfold erased. rewrite !length_app, length_take, length_replicate, length_drop. lia. Qed.
Lemma erased_blocks_lookup n : forall a b i, 0 <= b -> 0 <= BlockSize -> (b + Z.of_nat n) * BlockSize <= Z.of_nat (length a) ->
  erased_blocks pcd a b n !! i =
  if decide (Z.to_nat (b * BlockSize) <= i < Z.to_nat ((b + Z.of_nat n) * BlockSize))%nat then Some 0xff else a !! i.
Proof.
  induction n as [|n IH]; intros a b i Hb Hbs Hin; cbn [erased_blocks].
  { rewrite decide_False; [done|]. replace (b + Z.of_nat 0) with b by lia. lia. }
  assert (0 <= b * BlockSize) by nia. assert (b * BlockSize + BlockSize <= Z.of_nat (length a)) by nia.
  rewrite IH by (try rewrite length_erased; try lia; try nia). rewrite erased_lookup by lia.
  replace (b + 1 + Z.of_nat n) with (b + Z.of_nat (S n)) by lia. replace ((b + 1) * BlockSize) with (b * BlockSize + BlockSize) by lia.
  assert (b * BlockSize + BlockSize <= (b + Z.of_nat (S n)) * BlockSize) by nia.
  repeat case_decide; try done; lia.
Qed.
Lemma length_erased_blocks n : forall a b, 0 <= b -> 0 <= BlockSize -> (b + Z.of_nat n) * BlockSize <= Z.of_nat (length a) ->
  length (erased_blocks pcd a b n) = length a.
Proof.
  induction n as [|n IH]; intros a b Hb Hbs Hin; cbn [erased_blocks]; [done|].
  assert (0 <= b * BlockSize) by nia. assert (b * BlockSize + BlockSize <= Z.of_nat (length a)) by nia.
  rewrite IH, length_erased; rewrite ?length_erased; lia || nia || done.
Qed.
End Media.

(** * QemuFlashFvbServicesRuntimeDxe: InitializeVariableFvHeader and FvbInitialize *)
Section Boot.
Context {W : Type} `{PFlashLaws W} `{Sum16Laws} (pcd : pcds) (module : module_type) (SevEs : bool).
#[local] Abbreviation FdBase := (PcdOvmfFdBaseAddress pcd).
#[local] Abbreviation FdSize := (PcdOvmfFirmwareFdSize pcd).
#[local] Abbreviation BlockSize := (PcdOvmfFirmwareBlockSize pcd).
#[local] Abbreviation Length := (NvLength pcd).
Context (L : layout pcd).

(** ** The variable store *)
Lemma EraseStore_spec n : forall fuel b (s : fvb W), ready pcd module SevEs s -> idle (Dev s) -> 0 <= b -> (b + Z.of_nat n) * BlockSize <= fl_size ->
  (n <= fuel)%nat ->
  wp (EraseStore pcd module SevEs fuel (b * BlockSize) ((b + Z.of_nat n) * BlockSize) BlockSize)
    (fun _ s' => erases s (erased_blocks pcd (array (Dev s)) b n) s') s.
Proof.
  induction n as [|n IH]; intros fuel b s R Hi Hb Hin Hf; destruct fuel as [|fuel]; try lia; cbn [EraseStore erased_blocks].
  1, 2: replace (b + Z.of_nat 0) with b by lia; rewrite Z.ltb_irrefl; wp_step; split; [by destruct s|done].
  pose proof (block_size_pos pcd module SevEs s R) as Hbs. rewrite (proj2 (Z.ltb_lt (b * BlockSize) _)) by nia.
  rewrite Z.div_mul by lia. wp_step. eapply wp_mono; [apply QemuFlashEraseBlock_spec; [done|done|done|nia]|].
  intros Status s' (-> & (Hs & Ha & Hi') & _). wp_step. wp_step; [done|].
  assert (u64 (b * BlockSize + BlockSize) = (b + 1) * BlockSize) as ->.
  { unfold u64. rewrite Z.mod_small; [lia|]. pose proof (lay_flash _ L). pose proof (lay_low _ L). pose proof (lay_high _ L). nia. }
  replace (b + Z.of_nat (S n)) with (b + 1 + Z.of_nat n) by lia.
  eapply wp_mono; [apply IH; [rewrite Hs; by apply ready_dev|done|lia|nia|lia]|].
  intros _ s2 (Hs2 & Ha2 & Hi2). split; [rewrite Hs2, Hs; done|]. split; [by rewrite Ha2, Ha|done].
Qed.

(** The array after a new store is made. *)
Definition fresh_store (a : list Z) : list Z := programmed (erased_blocks pcd a 0 (Z.to_nat (Length / BlockSize))) 0 (good_info pcd).
Lemma store_span : (0 + Z.of_nat (Z.to_nat (Length / BlockSize))) * BlockSize = Length.
Proof.
  pose proof (lay_block_u32 _ L). pose proof (lay_store _ L). pose proof (lay_blocks _ L).
  assert (0 <= Length / BlockSize) by (apply Z.div_pos; lia). rewrite Z2Nat.id by done.
  pose proof (Z.div_mod Length BlockSize ltac:(lia)). lia.
Qed.
Lemma store_fits : 72 <= Length.
Proof.
  pose proof (lay_block_u32 _ L). pose proof (lay_store _ L). pose proof (lay_blocks _ L).
  pose proof (Z.div_mod Length BlockSize ltac:(lia)). assert (1 <= Length / BlockSize) by nia. nia.
Qed.
Lemma fresh_lookup a i : Z.of_nat (length a) = fl_size ->
  fresh_store a !! i = if decide (i < 72)%nat then good_info pcd !! i else if decide (i < Z.to_nat Length)%nat then Some 0xff else a !! i.
Proof.
  intros Hl. unfold fresh_store. pose proof store_span as Hs. pose proof store_fits. pose proof (lay_block_u32 _ L). pose proof (lay_store _ L).
  rewrite programmed_lookup by done. change (length (good_info pcd)) with 72%nat.
  rewrite erased_blocks_lookup by (try done; lia). rewrite Z.mul_0_l, Hs. change (Z.to_nat 0) with O. rewrite Nat.add_0_l.
  destruct (decide (i < 72)%nat) as [Hi|Hi].
  - rewrite decide_True by lia. rewrite Nat.sub_0_r. rewrite decide_True by lia. cbn [mbind option_bind].
    destruct (good_info pcd !! i) as [x|] eqn:E; cbn [mbind option_bind]; [|done]. f_equal. apply program_erased.
    eapply Forall_lookup_1; [apply info_bytes|exact E].
  - rewrite decide_False by lia. repeat case_decide; lia || done.
Qed.
Lemma fresh_header a : Z.of_nat (length a) = fl_size -> slice (fresh_store a) 0 72 = good_info pcd.
Proof.
  intros Hl. apply list_eq. intros i. unfold slice. rewrite drop_0. destruct (decide (i < 72)%nat).
  - rewrite lookup_take_lt, fresh_lookup by done. by rewrite decide_True.
  - rewrite lookup_take_ge by lia. symmetry. apply lookup_ge_None_2. change (length (good_info pcd)) with 72%nat. lia.
Qed.

Lemma ready_with (s s' : fvb W) : ready pcd module SevEs s -> Virt s' = Virt s -> mFlashBase s' = mFlashBase s ->
  mFdBlockSize s' = mFdBlockSize s -> mFdBlockCount s' = mFdBlockCount s -> mSevEsFlashPhysBase s' = mSevEsFlashPhysBase s ->
  ready pcd module SevEs s'.
Proof. intros [A B C D E F G I] E1 E2 E3 E4 E5. split; rewrite ?E1, ?E2, ?E3, ?E4, ?E5; done. Qed.
Lemma wp_info_header_length (s : fvb W) (Q : Z -> fvb W -> Prop) : FvbInfo s = good_info pcd -> Q 72 s -> wp (hfield info_header OFF_HeaderLength 2) Q s.
Proof.
  intros E HQ. unfold hfield, info_header. wp_step. wp_step. wp_step. rewrite E, wp_deref. eexists. split; [done|]. wp_step.
  exact HQ.
Qed.

Lemma InitializeVariableFvHeader_spec (s : fvb W) : at_start pcd module SevEs s -> info_ok pcd s ->
  wp (InitializeVariableFvHeader pcd module SevEs) (fun Status s' => Status = EFI_SUCCESS /\
    if store_ok pcd (array (Dev s)) then s' = s
    else s' = set_dev (Dev s') (set_info true (good_info pcd) s) /\ array (Dev s') = fresh_store (array (Dev s)) /\ reading (Dev s')) s.
Proof.
  intros A Hi. pose proof A as (R & Hbase & Hr). pose proof (lay_header _ L) as Hh. pose proof (array_length (Dev s)) as Hal.
  pose proof (lay_block_u32 _ L). pose proof (lay_store _ L). pose proof (lay_low _ L). pose proof (lay_blocks _ L) as Hlb.
  unfold InitializeVariableFvHeader. rewrite (lay_base _ L). cbv zeta.
  wp_step. apply (wp_ValidateFvHeader pcd module SevEs L); [done|]. wp_step.
  eapply (wp_mono _ (fun St s' => s' = s /\ EFI_ERROR St = negb (store_ok pcd (array (Dev s))) /\ (EFI_ERROR St = false -> St = EFI_SUCCESS))).
  { unfold store_ok. destruct (header_ok (array (Dev s))); cbn [andb negb]; [|change (EFI_ERROR EFI_NOT_FOUND) with true; cbv iota; by wp_step].
    change (EFI_ERROR EFI_SUCCESS) with false. cbv iota. wp_step. unfold OFF_FvLength, OFF_BlockMap in *.
    apply (wp_hfield pcd module SevEs); [done|lia|lia|]. destruct (afield _ 32 8 =? Length); cbn [andb negb]; [|by wp_step].
    wp_step. apply (wp_hfield pcd module SevEs); [done|lia|lia|]. wp_step. by destruct (afield _ (56 + 4) 4 =? BlockSize). }
  intros St s' (-> & HE & HS). rewrite HE, negb_involutive. destruct (store_ok pcd (array (Dev s))).
  { wp_step. split; [by apply HS|done]. }
  wp_step. apply wp_GetFvbInfo; [done|]. rewrite Z.eqb_refl. wp_step. wp_step; [done|].
  rewrite (proj2 (Z.eqb_neq BlockSize 0)) by lia. wp_step. wp_step. rewrite Z.sub_diag. change (u64 0) with 0. rewrite Zmod_0_l, Hlb.
  wp_step. wp_step; [done|]. set (s1 := set_info true (good_info pcd) s).
  wp_step. apply wp_info_header_length; [done|]. wp_step. wp_step; [lia|]. rewrite Zdiv_0_l, Z.add_0_l.
  assert (u64 Length = Length) as -> by (pose proof (lay_flash _ L); pose proof (lay_high _ L); unfold u64; apply Z.mod_small; lia).
  wp_step. pose proof (EraseStore_spec (Z.to_nat (Length / BlockSize)) (Z.to_nat Length) 0 s1) as He.
  rewrite store_span in He. rewrite Z.mul_0_l in He. eapply wp_mono; [apply He; clear He|].
  { by apply (ready_with s). }
  { by apply reading_idle. }
  { done. } { lia. }
  { pose proof store_span. assert (0 <= Length / BlockSize) by (apply Z.div_pos; lia). nia. }
  intros _ s2 (Hs2 & Ha2 & Hi2). cbn [s1 set_info Dev] in Ha2. wp_step. wp_step. wp_step.
  assert (FvbInfo s2 = good_info pcd) as E2 by by rewrite Hs2. rewrite E2.
  eapply wp_mono; [apply (QemuFlashWrite_spec pcd module SevEs)|].
  { rewrite Hs2. apply ready_dev. by apply (ready_with s). }
  { done. } { done. } { done. } { done. } { apply info_bytes. }
  { rewrite Hs2. cbn [mFdBlockCount set_dev s1 set_info]. pose proof (ready_count _ _ _ s R). pose proof (ready_flash _ _ _ s R). nia. }
  { pose proof store_fits. lia. }
  intros Status s3 (-> & Hs3 & Ha3 & _ & Hr3 & _). wp_step. wp_step; [done|]. wp_step. split; [done|].
  split; [rewrite Hs3, Hs2; done|]. split; [|by apply Hr3]. rewrite Ha3, Ha2. done.
Qed.
End Boot.

(** * QemuFlashFvbServicesRuntimeDxe: FvbInitialize *)
(** ** Counting the blocks of a map *)
Section Count.
Context {W : Type}.
Definition map_ends (l : list Z) (p : Z) (es : list (Z * Z)) : Prop :=
  map_at l p es /\ field l (p + SIZEOF_BLOCK_MAP_ENTRY * Z.of_nat (length es)) 4 = Some 0.
Lemma map_ends_shift d l l' p es : (forall q n v, field l q n = Some v -> field l' (d + q) n = Some v) ->
  map_ends l p es -> map_ends l' (d + p) es.
Proof.
  intros Hf [Hm He]. split; [|rewrite <-Z.add_assoc; by apply Hf]. clear He.
  induction Hm as [p n k Hn Hk H0|p n k es Hn Hk Hn0 Hk0 _ IH].
  - apply (map_end l' (d + p) n k); [by apply Hf|rewrite <-Z.add_assoc; by apply Hf|done].
  - apply map_entry; [by apply Hf|rewrite <-Z.add_assoc; by apply Hf|done|done|]. by rewrite <-Z.add_assoc.
Qed.
Lemma total_blocks_bound l p es : Forall is_byte l -> map_at l p es -> total_blocks es <= Z.of_nat (length es) * 2 ^ 32.
Proof.
  intros Hb. induction 1 as [|p n k es Hn _ _ _ _ IH]; [done|]. pose proof (field_bounds _ _ _ _ Hb Hn) as Hr.
  change (total_blocks ((n, k) :: es)) with (n + total_blocks es). cbn [length]. lia.
Qed.
Lemma CountBlocks_spec l es : Forall is_byte l -> forall p, map_ends l p es -> forall fuel c (s : fvb W), (length es < fuel)%nat ->
  0 <= c -> c + total_blocks es < 2 ^ 64 -> wp (CountBlocks fuel l p c) (fun n s' => n = c + total_blocks es /\ s' = s) s.
Proof.
  intros Hb. induction es as [|[n k] es IH]; intros p [Hm He] fuel c s Hf Hc Ht; (destruct fuel as [|fuel]; [cbn in Hf; lia|]); cbn [CountBlocks].
  - cbn [length] in He. rewrite Z.mul_0_r, Z.add_0_r in He. wp_step. rewrite wp_deref. exists 0. split; [done|]. rewrite Z.eqb_refl. wp_step.
    split; [cbn; lia|done].
  - inversion Hm as [|p' n' k' es' Hn Hk Hn0 Hk0 Hm']; subst. pose proof (field_bounds _ _ _ _ Hb Hn).
    pose proof (total_pos _ _ _ Hb Hm') as [? _]. change (total_blocks ((n, k) :: es)) with (n + total_blocks es) in *.
    wp_step. rewrite wp_deref. exists n. split; [done|]. rewrite (proj2 (Z.eqb_neq n 0)) by done.
    wp_step. rewrite wp_deref. exists k. split; [done|].
    assert (u64 (c + n) = c + n) as -> by (unfold u64; apply Z.mod_small; lia).
    eapply wp_mono; [apply (IH (p + SIZEOF_BLOCK_MAP_ENTRY))|].
    + split; [done|]. rewrite <-He. f_equal. cbn [length]. lia.
    + cbn [length] in Hf. lia.
    + lia.
    + lia.
    + intros m s' [-> ->]. split; [lia|done].
Qed.
End Count.

(** ** The hooks

    What the hooks of a module type do is to record calls. *)
Section Hooks.
Context {W : Type}.
#[local] Abbreviation M := (M (fvb W)).
Definition logs (es : list event) (s : fvb W) : fvb W := foldl (fun s e => logged e s) s es.
Definition emits (m : M unit) (es : list event) : Prop := forall s (Q : unit -> fvb W -> Prop), Q tt (logs es s) -> wp m Q s.
Record hook_events : Type := mkHookEvents {
  ev_before : Z -> Z -> Z -> list event; ev_install : EFI_FW_VOL_BLOCK_DEVICE -> list event; ev_mark : Z -> Z -> list event;
  ev_base : list event; ev_handler : list event; ev_enable : list event;
}.
Record hooks_emit (h : @hooks W) (ev : hook_events) : Prop := mkHooksEmit {
  emits_before b z c : emits (QemuFlashBeforeProbe h b z c) (ev_before ev b z c);
  emits_install d : emits (InstallProtocolInterfaces h d) (ev_install ev d);
  emits_mark b l : emits (MarkIoMemoryRangeForRuntimeAccess h b l) (ev_mark ev b l);
  emits_base : emits (SetPcdFlashNvStorageBaseAddresses h) (ev_base ev);
  emits_handler : emits (InstallVirtualAddressChangeHandler h) (ev_handler ev);
  emits_enable : emits (UpdateQemuFlashVariablesEnable h) (ev_enable ev);
}.
Lemma logs_app es1 es2 s : logs es2 (logs es1 s) = logs (es1 ++ es2) s.
Proof. unfold logs. by rewrite foldl_app. Qed.
Lemma logs_eq es (s : fvb W) : logs es s = mkFvb (Dev s) (Virt s) (mFlashBase s) (mFdBlockSize s) (mFdBlockCount s) (mSevEsFlashPhysBase s)
  (Checksummed s) (FvbInfo s) (mFvbModuleGlobal s) (Pools s) (Log s ++ es).
Proof.
  revert s. induction es as [|e es IH]; intros s; cbn [logs foldl]; [rewrite app_nil_r; by destruct s|].
  unfold logs in IH. rewrite IH. cbn. by rewrite <-app_assoc.
Qed.
Lemma emits_tt : emits (mret tt) [].
Proof. intros s Q HQ. by wp_step. Qed.
Lemma emits_seq (m m' : M unit) es es' : emits m es -> emits m' es' -> emits (m;; m') (es ++ es').
Proof. intros Hm Hm' s Q HQ. wp_step. apply Hm, Hm'. by rewrite logs_app. Qed.
Lemma emits_call svc e : svc e = EFI_SUCCESS -> emits (call_ok svc e) [e].
Proof.
  intros E s Q HQ. unfold call_ok, call. wp_step. wp_step. wp_step. wp_step. rewrite E. wp_step; [done|]. exact HQ.
Qed.
Lemma emits_assert b : b = true -> emits (ASSERT b) [].
Proof. intros -> s Q HQ. by wp_step. Qed.
Lemma emits_any svc e (m : M unit) es : emits m es -> emits (_ ← call svc e; m) (e :: es).
Proof. intros Hm s Q HQ. unfold call. wp_step. wp_step. wp_step. wp_step. by apply Hm. Qed.
End Hooks.

(** The hooks of the two drivers, when the services succeed. *)
Section Drivers.
Context {W : Type} `{PFlash W} (pcd : pcds) (Sev : bool) (svc : event -> EFI_STATUS) (at_end : bool) (Descriptor : Z).
Definition sev_mark (b n : Z) : list event := if Sev then [MemEncryptSevClearMmioPageEncMask b (EFI_SIZE_TO_PAGES n)] else [].
Definition dxe_events : hook_events := {|
  ev_before _ _ _ := [];
  ev_install d := [LocateDevicePath (DevicePath d); InstallMultipleProtocolInterfaces d];
  ev_mark b n := [RemoveMemorySpace b n; AddMemorySpace b n; AllocateMemorySpace b n; GetMemorySpaceDescriptor b;
    SetMemorySpaceAttributes b n (Z.lor Descriptor (2 ^ 63))] ++ sev_mark b n;
  ev_base := [PcdSet 0 (PcdOvmfFlashNvStorageVariableBase pcd); PcdSet 1 (PcdOvmfFlashNvStorageFtwWorkingBase pcd);
    PcdSet 2 (PcdOvmfFlashNvStorageFtwSpareBase pcd)];
  ev_handler := [CreateEventEx];
  ev_enable := [PcdSet 3 1];
|}.
Definition smm_events : hook_events := {|
  ev_before b z c := sev_mark b (u64 (z * c));
  ev_install d := [SmmInstallFvb d; SmmInstallDevicePath d];
  ev_mark _ _ := []; ev_base := []; ev_handler := []; ev_enable := [PcdSet 3 1];
|}.
(** No device path of the volume exists yet, and nothing else fails. *)
Definition services_succeed : Prop := forall e, svc e = EFI_SUCCESS \/ (exists p, e = LocateDevicePath p) \/ (exists b n, e = RemoveMemorySpace b n).
Lemma DxeHooks_emit : PcdSmmSmramRequire pcd = false -> services_succeed -> (forall p, svc (LocateDevicePath p) = EFI_NOT_FOUND) ->
  hooks_emit (W := W) (DxeHooks pcd Sev svc at_end Descriptor) dxe_events.
Proof.
  intros Hp Hs Hl. assert (forall e, (forall p, e <> LocateDevicePath p) -> (forall b n, e <> RemoveMemorySpace b n) -> svc e = EFI_SUCCESS) as Hok.
  { intros e H1 H2. destruct (Hs e) as [|[[p ->]|(b & n & ->)]]; [done|by destruct (H1 p)|by destruct (H2 b n)]. }
  split; cbn.
  - intros _ _ _. apply emits_tt.
  - intros d. unfold DxeInstallProtocolInterfaces. apply (emits_seq _ _ []); [by apply emits_assert; rewrite Hp|].
    intros s Q HQ. unfold call. wp_step. wp_step. wp_step. wp_step. rewrite Hl. change (EFI_ERROR EFI_NOT_FOUND) with true. cbv iota.
    by apply emits_call; [apply Hok|].
  - intros b n. unfold DxeMarkIoMemoryRangeForRuntimeAccess. apply emits_any.
    repeat (apply (emits_seq _ _ [_]); [by apply emits_call, Hok|]).
    unfold sev_mark. destruct Sev; [by apply emits_call, Hok|apply emits_tt].
  - unfold DxeSetPcdFlashNvStorageBaseAddresses. repeat (apply (emits_seq _ _ [_]); [by apply emits_call, Hok|]). by apply emits_call, Hok.
  - by apply emits_call, Hok.
  - by apply emits_call, Hok.
Qed.
Lemma SmmHooks_emit : PcdSmmSmramRequire pcd = true -> services_succeed ->
  hooks_emit (W := W) (SmmHooks pcd Sev svc) smm_events.
Proof.
  intros Hp Hs. assert (forall e, (forall p, e <> LocateDevicePath p) -> (forall b n, e <> RemoveMemorySpace b n) -> svc e = EFI_SUCCESS) as Hok.
  { intros e H1 H2. destruct (Hs e) as [|[[p ->]|(b & n & ->)]]; [done|by destruct (H1 p)|by destruct (H2 b n)]. }
  split; cbn.
  - intros b z c. unfold SmmBeforeProbe. apply (emits_seq _ _ []); [by apply emits_assert|].
    unfold sev_mark. destruct Sev; cbn [negb]; [by apply emits_call, Hok|apply emits_tt].
  - intros d. unfold SmmInstallProtocolInterfaces. apply (emits_seq _ _ []); [by apply emits_assert|].
    apply (emits_seq _ _ [_]); [by apply emits_call, Hok|]. by apply emits_call, Hok.
  - intros _ _. apply emits_tt.
  - apply emits_tt.
  - apply emits_tt.
  - by apply emits_call, Hok.
Qed.
End Drivers.

(** ** The instance that FvbInitialize builds *)
Lemma field_shift (hdr l : list Z) q n v : drop 16 l = hdr -> (16 <= length l)%nat -> field hdr q n = Some v -> field l (16 + q) n = Some v.
Proof.
  intros E H16 (H1 & H2 & ->)%field_inv. rewrite field_some; [|lia|].
  - f_equal. f_equal. f_equal. rewrite <-E, drop_drop. f_equal. lia.
  - apply (f_equal length) in E. rewrite length_drop in E. lia.
Qed.
Section Build.
Context (base : Z) (Hbase : 0 <= base < 2 ^ 64) (l0 hdr : list Z) (Hl : length l0 = (16 + length hdr)%nat)
  (Hb0 : Forall is_byte l0) (Hbh : Forall is_byte hdr).
Definition with_base : list Z := patch l0 0 (le_split 8 base).
Definition with_header : list Z := patch with_base OFF_VolumeHeader hdr.
Definition built (total : Z) : list Z := patch with_header OFF_NumOfBlocks (le_split 8 total).
Lemma patch_bytes l o bs : Forall is_byte l -> Forall is_byte bs -> Forall is_byte (patch l o bs).
Proof. intros. unfold patch. rewrite !Forall_app. split; [by apply Forall_take|]. split; [done|by apply Forall_drop]. Qed.
Lemma length_with_base : length with_base = (16 + length hdr)%nat.
Proof. unfold with_base. rewrite length_patch; [done|done|rewrite length_le_split; lia]. Qed.
Lemma length_with_header : length with_header = (16 + length hdr)%nat.
Proof. unfold with_header. pose proof length_with_base. rewrite length_patch; [done|done|unfold OFF_VolumeHeader; lia]. Qed.
Lemma length_built t : length (built t) = (16 + length hdr)%nat.
Proof. unfold built. pose proof length_with_header. rewrite length_patch; [done|done|rewrite length_le_split; unfold OFF_NumOfBlocks; lia]. Qed.
Lemma with_header_bytes : Forall is_byte with_header.
Proof. apply patch_bytes; [|done]. apply patch_bytes; [done|apply le_split_bytes]. Qed.
Lemma built_bytes t : Forall is_byte (built t).
Proof. apply patch_bytes; [apply with_header_bytes|apply le_split_bytes]. Qed.
Lemma base_update : update l0 0 (le_split 8 base) = Some with_base.
Proof. apply update_some; [done|]. rewrite length_le_split. lia. Qed.
Lemma header_update : update with_base OFF_VolumeHeader hdr = Some with_header.
Proof. pose proof length_with_base. apply update_some; [done|]. unfold OFF_VolumeHeader. lia. Qed.
Lemma total_update t : update with_header OFF_NumOfBlocks (le_split 8 t) = Some (built t).
Proof. pose proof length_with_header. apply update_some; [done|]. rewrite length_le_split. unfold OFF_NumOfBlocks. lia. Qed.
Lemma with_header_slice : drop 16 with_header = hdr.
Proof.
  pose proof length_with_base as Hw. unfold with_header, patch. change (Z.to_nat OFF_VolumeHeader) with 16%nat. rewrite (drop_ge with_base) by lia.
  rewrite app_nil_r, drop_app_length'; [done|]. rewrite length_take. lia.
Qed.
Lemma built_slice t : drop 16 (built t) = hdr.
Proof.
  pose proof length_with_header as Hw. rewrite <-with_header_slice. unfold built, patch. change (Z.to_nat OFF_NumOfBlocks) with 8%nat. rewrite length_le_split.
  rewrite app_assoc, drop_app_length'; [done|]. rewrite length_app, length_take, length_le_split. lia.
Qed.
Lemma built_base t : field (built t) 0 8 = Some base.
Proof.
  pose proof length_with_header as Hw. pose proof length_with_base as Hw'. unfold built. rewrite field_patch_ne; [|done|rewrite length_le_split; unfold OFF_NumOfBlocks; lia|left; done].
  unfold with_header. rewrite field_patch_ne; [|done|unfold OFF_VolumeHeader; lia|left; done].
  unfold with_base. rewrite field_patch by lia. f_equal. apply Z.mod_small. exact Hbase.
Qed.
Lemma built_total t : 0 <= t < 2 ^ 64 -> field (built t) OFF_NumOfBlocks 8 = Some t.
Proof.
  intros Ht. pose proof length_with_header as Hw. unfold built. rewrite field_patch by (unfold OFF_NumOfBlocks; lia). f_equal. apply Z.mod_small. exact Ht.
Qed.
End Build.

(** ** FvbInitialize *)
Section Entry.
Context {W : Type} `{PFlashLaws W} `{Sum16Laws} (pcd : pcds) (module : module_type) (SevEs : bool).
Context (AllocateRuntimePool : nat -> Z -> option (list Z)) (h : @hooks W) (ev : hook_events).
#[local] Abbreviation FdBase := (PcdOvmfFdBaseAddress pcd).
#[local] Abbreviation FdSize := (PcdOvmfFirmwareFdSize pcd).
#[local] Abbreviation BlockSize := (PcdOvmfFirmwareBlockSize pcd).
Context (L : layout pcd) (Hev : hooks_emit h ev).

(** Before the driver starts. *)
Record boot_state (s : fvb W) : Prop := mkBoot {
  boot_virt : Virt s = FdBase; boot_reading : reading (Dev s); boot_info : info_ok pcd s; boot_sev : mSevEsFlashPhysBase s = 0;
}.
Definition set_up (s : fvb W) : fvb W := logs (ev_before ev FdBase BlockSize (FdSize / BlockSize)) (set_flash FdBase BlockSize (FdSize / BlockSize) s).
Lemma set_up_start (s : fvb W) d : boot_state s -> reading d -> at_start pcd module SevEs (set_dev d (set_up s)).
Proof.
  intros [Hv Hr Hi Hs] Hd. pose proof (lay_block_u32 _ L). unfold set_up. rewrite logs_eq.
  split; [|done]. split; cbn [set_dev set_flash mFlashBase Virt mFdBlockSize mFdBlockCount mSevEsFlashPhysBase]; try done.
  - pose proof (Z.div_mod FdSize BlockSize ltac:(lia)) as E. rewrite (lay_whole _ L) in E. lia.
  - rewrite Hv. apply (lay_low _ L).
  - rewrite Hv. apply (lay_high _ L).
  - apply (lay_block _ L).
  - apply (lay_flash _ L).
  - intros _ _. by rewrite Hs.
Qed.
Lemma QemuFlashInitialize_spec (s : fvb W) : boot_state s -> (PcdSmmSmramRequire pcd = false \/ probe_found pcd (array (Dev s))) ->
  wp (QemuFlashInitialize pcd SevEs (QemuFlashBeforeProbe h)) (fun St s' =>
    s' = set_dev (Dev s') (set_up s) /\ array (Dev s') = array (Dev s) /\ reading (Dev s') /\
    ((St = EFI_SUCCESS /\ probe_found pcd (array (Dev s))) \/ (St = EFI_WRITE_PROTECTED /\ ~ probe_found pcd (array (Dev s))))) s.
Proof.
  intros B Hp. pose proof (lay_block_u32 _ L). pose proof (lay_store _ L). pose proof (lay_blocks _ L).
  pose proof (set_up_start s (Dev s) B (boot_reading s B)) as (R & _ & Hr).
  assert (set_dev (Dev s) (set_up s) = set_up s) as E by (unfold set_up; by rewrite logs_eq). rewrite E in R, Hr.
  assert (Dev (set_up s) = Dev s) as Ed by (unfold set_up; by rewrite logs_eq).
  unfold QemuFlashInitialize. cbv zeta. rewrite (proj2 (Z.eqb_neq BlockSize 0)) by lia. wp_step. wp_step. wp_step. wp_step.
  { by rewrite (lay_whole _ L). }
  wp_step. wp_step. wp_step. apply (emits_before h ev Hev). fold (set_up s). wp_step.
  eapply wp_mono; [apply (QemuFlashDetected_spec pcd module SevEs); [done|done|]|].
  { pose proof (Z.div_mod (NvLength pcd) BlockSize ltac:(lia)). assert (1 <= NvLength pcd / BlockSize) by nia. nia. }
  intros ok s' (Hs' & Ha & Hr' & Hiff & _). rewrite Ed in Ha, Hiff.
  destruct ok; cbn [negb].
  - wp_step. split; [done|]. split; [done|]. split; [done|]. left. split; [done|by apply Hiff].
  - assert (~ probe_found pcd (array (Dev s))) as Hn by (intros Hf; by apply Hiff in Hf). wp_step. wp_step.
    { by destruct Hp as [->|]. }
    wp_step. split; [done|]. split; [done|]. split; [done|]. by right.
Qed.
(** The allocations succeed, with a block of the size asked for. *)
Context (Hpool : forall k n, 0 <= n -> exists l, AllocateRuntimePool k n = Some l /\ length l = Z.to_nat n /\ Forall is_byte l).

Definition store_array (a : list Z) : list Z := if store_ok pcd a then a else fresh_store pcd a.
(** The header of the store names no extended header, and its block map
    ends in the header. *)
Definition boot_map (a : list Z) (es : list (Z * Z)) : Prop :=
  map_ends (slice a 0 (Z.to_nat (header_length a))) OFF_BlockMap es /\ afield a OFF_ExtHeaderOffset 2 = 0.
Definition the_device (a : list Z) : EFI_FW_VOL_BLOCK_DEVICE :=
  mkFvbDevice (FV_MEMMAP_DEVICE_PATH FdBase (u64 (FdBase + afield a OFF_FvLength 8 - 1))) 0.
Definition start_events (a : list Z) : list event :=
  ev_install ev (the_device a) ++ ev_mark ev FdBase FdSize ++ ev_base ev ++ ev_handler ev ++ ev_enable ev.
Record started (s : fvb W) (a : list Z) (es : list (Z * Z)) (s' : fvb W) : Prop := mkStarted {
  st_at : at_start pcd module SevEs s';
  st_array : array (Dev s') = a;
  st_log : Log s' = Log s ++ ev_before ev FdBase BlockSize (FdSize / BlockSize) ++ start_events a;
  st_instance : exists l, holds_instance s' l /\ drop 16 l = slice a 0 (Z.to_nat (header_length a)) /\
    field l 0 8 = Some FdBase /\ field l OFF_NumOfBlocks 8 = Some (total_blocks es);
}.

Lemma wp_Allocate n (s : fvb W) (Q : option (list Z) -> fvb W -> Prop) : 0 <= n ->
  (forall l, length l = Z.to_nat n -> Forall is_byte l -> Q (Some l) (set_pools (S (Pools s)) s)) -> wp (Allocate AllocateRuntimePool n) Q s.
Proof.
  intros Hn HQ. destruct (Hpool (Pools s) n Hn) as (l & E & Hl & Hb). unfold Allocate. wp_step. wp_step. wp_step. wp_step. wp_step.
  rewrite E. by apply HQ.
Qed.

(** From the copy of the header on. *)
Lemma at_start_pools n (s : fvb W) : at_start pcd module SevEs s -> at_start pcd module SevEs (set_pools n s).
Proof. intros (R & E & Hr). split; [|done]. by apply (ready_with pcd module SevEs s). Qed.
Lemma store_header_ok (a : list Z) : store_ok pcd a = true -> header_ok a = true.
Proof. unfold store_ok. by intros [[? _]%andb_true_iff _]%andb_true_iff. Qed.
Lemma store_array_ok (a : list Z) : Z.of_nat (length a) = fl_size -> store_ok pcd (store_array a) = true.
Proof.
  intros Hl. unfold store_array. destruct (store_ok pcd a) eqn:E; [done|]. apply (good_store pcd L). by apply (fresh_header pcd L).
Qed.

Lemma header_copy (a : list Z) : Z.of_nat (length a) = fl_size -> Forall is_byte a ->
  let hdr := slice a 0 (Z.to_nat (header_length a)) in
  Z.of_nat (length hdr) = header_length a /\ 0 <= header_length a < 2 ^ 16 /\ Forall is_byte hdr /\
  forall o n, 0 <= o -> o + Z.of_nat n <= header_length a -> field hdr o n = Some (afield a o n).
Proof.
  intros Hl Hb. pose proof (lay_header _ L) as Hh. cbv zeta.
  assert (0 <= header_length a < 2 ^ 16) as Hr by (apply (afield_range a OFF_HeaderLength 2); [done|done|unfold OFF_HeaderLength; lia]).
  assert (length (slice a 0 (Z.to_nat (header_length a))) = Z.to_nat (header_length a)) as Hn by (apply slice_length; lia).
  split; [lia|]. split; [done|]. split; [by apply Forall_take, Forall_drop|].
  intros o n Ho Hon. rewrite field_some by lia. f_equal. rewrite <-(afield_slice a o n (Z.to_nat (header_length a))) by lia. done.
Qed.

Lemma wp_start_hooks d (s : fvb W) (Q : EFI_STATUS -> fvb W -> Prop) :
  Q EFI_SUCCESS (logs (ev_install ev d ++ ev_mark ev FdBase FdSize ++ ev_base ev ++ ev_handler ev ++ ev_enable ev) s) ->
  wp (InstallProtocolInterfaces h d;; MarkIoMemoryRangeForRuntimeAccess h FdBase FdSize;; SetPcdFlashNvStorageBaseAddresses h;;
      InstallVirtualAddressChangeHandler h;; UpdateQemuFlashVariablesEnable h;; mret EFI_SUCCESS) Q s.
Proof.
  intros HQ. wp_step. apply (emits_install h ev Hev). wp_step. apply (emits_mark h ev Hev). wp_step. apply (emits_base h ev Hev).
  wp_step. apply (emits_handler h ev Hev). wp_step. apply (emits_enable h ev Hev). wp_step. by rewrite !logs_app.
Qed.
Lemma at_start_after (s s' : fvb W) a : at_start pcd module SevEs s -> array (Dev s) = a ->
  (if store_ok pcd (array (Dev s)) then s' = s
   else s' = set_dev (Dev s') (set_info true (good_info pcd) s) /\ array (Dev s') = fresh_store pcd (array (Dev s)) /\ reading (Dev s')) ->
  at_start pcd module SevEs s' /\ array (Dev s') = store_array a /\ Log s' = Log s.
Proof.
  intros A <- Hs. unfold store_array. destruct (store_ok pcd (array (Dev s))); [by subst s'|]. destruct Hs as (E & Ea & Er).
  destruct A as (R & Eb & _). split; [|by rewrite E].
  split; [rewrite E; by apply ready_dev, (ready_with pcd module SevEs s)|]. split; [by rewrite E|done].
Qed.

Lemma FvbInitialize_spec (s : fvb W) es : boot_state s -> probe_found pcd (array (Dev s)) -> boot_map (store_array (array (Dev s))) es ->
  wp (FvbInitialize pcd module SevEs AllocateRuntimePool h)
    (fun St s' => St = EFI_SUCCESS /\ started s (store_array (array (Dev s))) es s') s.
Proof.
  intros B Hf Hmap. set (a := array (Dev s)) in *. pose proof (lay_header _ L) as Hh. pose proof (lay_low _ L). pose proof (lay_high _ L).
  unfold FvbInitialize. wp_step. eapply wp_mono; [apply QemuFlashInitialize_spec; [done|by right]|].
  intros St s1 (Hs1 & Ha1 & Hr1 & [[-> _]|[_ Hn]]); [|by destruct Hn]. change (EFI_ERROR EFI_SUCCESS) with false. cbv iota.
  wp_step. apply wp_Allocate; [done|]. intros lg _ _. wp_step. wp_step; [done|]. cbv zeta.
  set (s2 := set_pools _ s1). assert (at_start pcd module SevEs s2) as A2.
  { apply at_start_pools. rewrite Hs1. by apply set_up_start. }
  assert (info_ok pcd s2) as Hi2 by (unfold s2; rewrite Hs1; unfold set_up; rewrite logs_eq; apply (boot_info s B)).
  wp_step. eapply wp_mono; [apply (InitializeVariableFvHeader_spec pcd module SevEs L); [done|done]|].
  intros St s3 (-> & Hs3). change (EFI_ERROR EFI_SUCCESS) with false. cbv iota.
  destruct (at_start_after s2 s3 a A2 Ha1 Hs3) as (A3 & Ha3 & Hl3).
  clear Hs3. set (a' := store_array a) in *. assert (Z.of_nat (length a') = fl_size) as Hla by (rewrite <-Ha3; apply array_length).
  assert (Forall is_byte a') as Hba by (rewrite <-Ha3; apply array_bytes).
  assert (store_ok pcd a' = true) as Hok by (apply store_array_ok; unfold a; apply array_length).
  destruct (header_copy a' Hla Hba) as (Hln & Hrange & Hhb & Hfield). set (hdr := slice a' 0 (Z.to_nat (header_length a'))) in *.
  destruct Hmap as [Hmap Hext]. fold hdr in Hmap. pose proof (map_length _ _ _ (proj1 Hmap)) as [_ Hfit]. unfold OFF_BlockMap in Hfit.
  wp_step. apply (wp_ValidateFvHeader pcd module SevEs L); [done|]. rewrite Ha3, (store_header_ok a') by done.
  change (EFI_ERROR EFI_SUCCESS) with false. cbv iota. wp_step. wp_step. wp_step.
  apply (wp_hfield pcd module SevEs); [done|done|unfold OFF_HeaderLength; lia|]. rewrite Ha3. fold (header_length a').
  assert (u32 (SIZEOF_FW_VOL_INSTANCE + header_length a' - SIZEOF_FV_HEADER) = 16 + header_length a') as ->.
  { unfold u32, SIZEOF_FW_VOL_INSTANCE, SIZEOF_FV_HEADER. rewrite Z.mod_small; lia. }
  wp_step. apply wp_Allocate; [lia|]. intros l0 Hl0 Hb0. assert (length l0 = (16 + length hdr)%nat) as Hl0' by lia.
  wp_step. wp_step; [done|]. wp_step. rewrite wp_deref. exists l0. split; [done|]. set (s4 := set_pools _ s3).
  assert (at_start pcd module SevEs s4) as A4 by by apply at_start_pools.
  wp_step. rewrite wp_deref, (base_update FdBase l0 hdr) by done. eexists. split; [done|].
  rewrite (lay_base _ L). wp_step. apply (wp_hfield pcd module SevEs); [done|done|unfold OFF_HeaderLength; lia|].
  change (array (Dev s4)) with (array (Dev s3)). rewrite Ha3. fold (header_length a').
  wp_step. apply (wp_flash_header pcd module SevEs); [done|done|lia|]. change (array (Dev s4)) with (array (Dev s3)). rewrite Ha3. fold hdr.
  wp_step. rewrite wp_deref, (header_update FdBase l0 hdr) by done. eexists. split; [done|].
  wp_step. eapply wp_mono; [apply (CountBlocks_spec _ es); [by apply with_header_bytes| | |done|]|].
  { apply (map_ends_shift OFF_VolumeHeader hdr); [|exact Hmap]. intros q n v. apply (field_shift hdr); [by apply (with_header_slice FdBase l0 hdr)|].
    rewrite (length_with_header FdBase l0 hdr) by done. lia. }
  { rewrite (length_with_header FdBase l0 hdr) by done. lia. }
  { pose proof (total_blocks_bound _ _ _ Hhb (proj1 Hmap)). lia. }
  intros t s5 [-> ->]. rewrite Z.add_0_l. set (t := total_blocks es) in *.
  assert (0 <= t < 2 ^ 64) as Ht by (pose proof (total_blocks_bound _ _ _ Hhb (proj1 Hmap)); pose proof (total_pos _ _ _ Hhb (proj1 Hmap)); lia).
  wp_step. rewrite wp_deref, (total_update FdBase l0 hdr) by done. eexists. split; [done|]. set (l := built FdBase l0 hdr t).
  assert (drop 16 l = hdr) as Hdrop by by apply (built_slice FdBase l0 hdr). assert (length l = (16 + length hdr)%nat) as Hll by by apply (length_built FdBase l0 hdr).
  wp_step. apply wp_Allocate; [done|]. intros ld _ _. wp_step. wp_step; [done|]. wp_step. wp_step.
  wp_step. rewrite wp_deref. exists 0. split.
  { apply (field_shift hdr); [done|lia|]. rewrite <-Hext. apply Hfield; unfold OFF_ExtHeaderOffset; lia. }
  wp_step. rewrite wp_deref. exists (afield a' OFF_FvLength 8). split.
  { apply (field_shift hdr); [done|lia|]. apply Hfield; unfold OFF_FvLength; lia. }
  wp_step. apply wp_Allocate; [done|]. intros lc _ _. wp_step. rewrite wp_deref. exists lc. split; [done|]. rewrite Z.eqb_refl.
  wp_step. wp_step. fold (the_device a'). apply wp_start_hooks. split; [done|]. rewrite logs_eq. fold (start_events a').
  destruct A4 as (R4 & Eb4 & Hr4). split; cbn [Dev array set_pools set_global s4 Log].
  - split; [|done]. by apply (ready_with pcd module SevEs s4).
  - done.
  - rewrite Hl3. cbn [s2 set_pools Log]. rewrite Hs1. unfold set_up. rewrite logs_eq. cbn. by rewrite <-app_assoc.
  - exists l. split; [split; [done|]; split; [lia|by apply (built_bytes FdBase l0 hdr)]|]. split; [done|].
    split; [pose proof (lay_flash _ L); apply (built_base FdBase); done || lia|by apply (built_total FdBase l0 hdr)].
Qed.
End Entry.

(** * QemuFlashFvbServicesRuntimeDxe: EraseBlocks and its ranges *)
Section Ranges.
Context {W : Type} `{PFlashLaws W} (pcd : pcds) (module : module_type) (SevEs : bool).
#[local] Abbreviation BlockSize := (PcdOvmfFirmwareBlockSize pcd).

(** A range of blocks is accepted when it is not empty and ends in the
    volume; the ranges cover a byte when one of them does. *)
Definition range_ok (N : Z) (r : Z * Z) : Prop := 0 <= r.1 /\ 0 < r.2 /\ r.1 + r.2 <= N.
Definition covered (rs : list (Z * Z)) (i : Z) : Prop := Exists (fun r => r.1 * BlockSize <= i < (r.1 + r.2) * BlockSize) rs.
#[global] Instance range_ok_dec N r : Decision (range_ok N r).
Proof. unfold range_ok. apply _. Defined.
#[global] Instance covered_dec rs i : Decision (covered rs i).
Proof. unfold covered. apply _. Defined.

(** What the check of a range accepts, and the ranges whose end it
    misjudges, because the sum wraps. *)
Definition accepted (N : Z) (r : Z * Z) : Prop := r.2 <> 0 /\ (r.1 + r.2) mod 2 ^ 64 <= N.
#[global] Instance accepted_dec N r : Decision (accepted N r).
Proof. unfold accepted. apply _. Defined.
Definition wraps (r : Z * Z) : bool := 2 ^ 64 <=? r.1 + r.2.
Fixpoint before_wrap (rs : list (Z * Z)) : list (Z * Z) :=
  match rs with [] => [] | r :: rs => if wraps r then [] else r :: before_wrap rs end.

Lemma accepted_range N r : 0 <= r.1 -> 0 <= r.2 -> wraps r = false -> accepted N r <-> range_ok N r.
Proof.
  unfold wraps, accepted, range_ok. rewrite Z.leb_gt. intros H1 H2 H3. rewrite Z.mod_small by lia. lia.
Qed.
Lemma ranges_check N rs :
  forallb (fun r => negb ((r.2 =? 0) || (N <? u64 (r.1 + r.2)))) rs = bool_decide (Forall (accepted N) rs).
Proof.
  induction rs as [|r rs IH]; cbn [forallb]; [done|]. rewrite IH.
  assert (negb ((r.2 =? 0) || (N <? u64 (r.1 + r.2))) = bool_decide (accepted N r)) as ->.
  { unfold accepted, u64. destruct (Z.eqb_spec r.2 0), (Z.ltb_spec N ((r.1 + r.2) mod 2 ^ 64)); cbn [orb negb]; symmetry;
      rewrite ?bool_decide_eq_true, ?bool_decide_eq_false; lia. }
  rewrite <-bool_decide_and. apply bool_decide_ext. by rewrite Forall_cons.
Qed.
Lemma before_wrap_split rs : if existsb wraps rs then exists r post, rs = before_wrap rs ++ r :: post /\ wraps r = true
  else before_wrap rs = rs.
Proof.
  induction rs as [|r rs IH]; cbn [existsb before_wrap]; [done|]. destruct (wraps r) eqn:E; cbn [orb]; [by exists r, rs|].
  destruct (existsb wraps rs); [|by rewrite IH]. destruct IH as (r' & post & E' & Hr'). exists r', post. cbn. by rewrite <-E'.
Qed.
Lemma before_wrap_ok N rs : Forall (fun r => 0 <= r.1 /\ 0 <= r.2) rs -> Forall (accepted N) rs -> Forall (range_ok N) (before_wrap rs).
Proof.
  intros HF. induction HF as [|r rs [H1 H2] _ IH]; intros HA; cbn [before_wrap]; [done|]. apply Forall_cons in HA as [Ha HA].
  destruct (wraps r) eqn:E; [done|]. apply Forall_cons. split; [by apply accepted_range|by apply IH].
Qed.

Lemma length_erased_ranges N rs : 0 <= BlockSize -> forall a, Forall (range_ok N) rs -> N * BlockSize <= Z.of_nat (length a) ->
  length (erased_ranges pcd a rs) = length a.
Proof.
  intros Hbs. unfold erased_ranges. induction rs as [|[b n] rs IH]; intros a Hrs Hin; cbn [foldl fst snd]; [done|].
  apply Forall_cons in Hrs as [(Hb & Hn & Hbn) Hrs]. cbn [fst snd] in *.
  assert (length (erased_blocks pcd a b (Z.to_nat n)) = length a) as E by (apply length_erased_blocks; [done|done|rewrite Z2Nat.id by lia; nia]).
  rewrite IH by (done || rewrite E; done). exact E.
Qed.
Lemma erased_ranges_lookup N rs : 0 <= BlockSize -> forall a i, Forall (range_ok N) rs -> N * BlockSize <= Z.of_nat (length a) ->
  erased_ranges pcd a rs !! i = if decide (covered rs (Z.of_nat i)) then Some 0xff else a !! i.
Proof.
  intros Hbs. unfold erased_ranges. induction rs as [|[b n] rs IH]; intros a i Hrs Hin; cbn [foldl fst snd].
  { rewrite decide_False; [done|]. unfold covered. intros Hx. inversion Hx. }
  apply Forall_cons in Hrs as [(Hb & Hn & Hbn) Hrs]. cbn [fst snd] in *.
  assert ((b + Z.of_nat (Z.to_nat n)) * BlockSize <= Z.of_nat (length a)) as Hfit by (rewrite Z2Nat.id by lia; nia).
  assert (length (erased_blocks pcd a b (Z.to_nat n)) = length a) as E by by apply length_erased_blocks.
  rewrite IH by (done || rewrite E; done). rewrite erased_blocks_lookup by done. rewrite Z2Nat.id by lia.
  assert (covered ((b, n) :: rs) (Z.of_nat i) <-> b * BlockSize <= Z.of_nat i < (b + n) * BlockSize \/ covered rs (Z.of_nat i)) as Hc.
  { unfold covered. by rewrite Exists_cons. }
  assert (0 <= b * BlockSize) by nia.
  destruct (decide (covered rs (Z.of_nat i))); [by rewrite decide_True by tauto|].
  destruct (decide (b * BlockSize <= Z.of_nat i < (b + n) * BlockSize)).
  - by rewrite !decide_True by (tauto || lia).
  - by rewrite !decide_False by (tauto || lia).
Qed.

(** ** The protocol member *)
Definition volume (s : fvb W) (N : Z) : Prop :=
  exists l, holds_instance s l /\ field l OFF_NumOfBlocks 8 = Some N /\ N * BlockSize <= fl_size.
(** 64-bit ranges; one whose sum wraps starts behind the firmware device. *)
Definition lba_args (s : fvb W) (rs : list (Z * Z)) : Prop :=
  Forall (fun r => (0 <= r.1 < 2 ^ 64 /\ 0 <= r.2 < 2 ^ 64) /\ r.1 <> EFI_LBA_LIST_TERMINATOR /\ (wraps r = true -> mFdBlockCount s <= r.1)) rs.
Lemma wp_EraseBlocks N rs p s (Q : EFI_STATUS -> fvb W -> Prop) : ready pcd module SevEs s -> idle (Dev s) -> volume s N -> lba_args s rs ->
  (~ Forall (accepted N) rs -> Q EFI_INVALID_PARAMETER s) ->
  (Forall (accepted N) rs -> forall s', erases s (erased_ranges pcd (array (Dev s)) (before_wrap rs)) s' ->
     Q (if existsb wraps rs then EFI_INVALID_PARAMETER else EFI_SUCCESS) s') ->
  wp (FvbProtocolEraseBlocks pcd module SevEs (mkFvbDevice p 0) (args_of rs)) Q s.
Proof.
  intros R Hi (l & Hl & HN & Hin) Ha Hbad Hgood. pose proof (block_size_pos pcd module SevEs s R). unfold FvbProtocolEraseBlocks.
  wp_step. eapply wp_FwhInstance; [done|]. cbn [fst snd].
  wp_step. rewrite wp_deref. exists N. split; [done|]. wp_step. apply CheckLbas_spec.
  { eapply Forall_impl; [exact Ha|]. cbn. tauto. }
  rewrite ranges_check. destruct (decide (Forall (accepted N) rs)) as [Hok|Hno].
  2:{ rewrite bool_decide_eq_false_2 by done. change (EFI_ERROR EFI_INVALID_PARAMETER) with true. cbv iota. wp_step. by apply Hbad. }
  rewrite bool_decide_eq_true_2 by done. change (EFI_ERROR EFI_SUCCESS) with false. cbv iota.
  assert (Forall (range_ok N) (before_wrap rs)) as Hr.
  { apply before_wrap_ok; [|done]. eapply Forall_impl; [exact Ha|]. cbn. intros r Hr. lia. }
  assert (forall pre, Forall (range_ok N) pre -> Forall (fun r => r.1 <> EFI_LBA_LIST_TERMINATOR) pre ->
    Forall (fun r => r.1 <> EFI_LBA_LIST_TERMINATOR /\ 0 <= r.1 /\ 0 <= r.2 /\ (r.1 + r.2) * BlockSize <= fl_size) pre) as Hfit.
  { intros pre Hr1 Ht. apply Forall_forall. intros r Hin'. rewrite Forall_forall in Hr1, Ht.
    destruct (Hr1 r Hin') as (? & ? & ?). split; [by apply Ht|]. split; [done|]. split; [lia|nia]. }
  assert (Forall (fun r => r.1 <> EFI_LBA_LIST_TERMINATOR) rs) as Hterm by (eapply Forall_impl; [exact Ha|]; cbn; tauto).
  pose proof (before_wrap_split rs) as Hsplit. specialize (Hgood Hok). destruct (existsb wraps rs).
  - destruct Hsplit as (r & post & E & Hw). rewrite E in Hterm. apply Forall_app in Hterm as [Ht1 Ht2].
    rewrite E in Ha, Hok. apply Forall_app in Ha as [_ Ha], Hok as [_ Hok]. apply Forall_cons in Ha as [((_ & Hr2) & Hne & Hc) _].
    apply Forall_cons in Hok as [[Hn0 _] _]. apply Forall_cons in Ht2 as [_ _]. rewrite E at 1.
    eapply wp_mono; [apply (EraseLbas_behind pcd module SevEs (before_wrap rs) r post s R Hi); [by apply Hfit|done|by apply Hc|]|].
    { lia. }
    intros St s' [-> He]. by apply Hgood.
  - rewrite Hsplit in Hr, Hgood. eapply wp_mono; [apply (EraseLbas_spec pcd module SevEs rs s R Hi); by apply Hfit|].
    intros St s' [-> He]. by apply Hgood.
Qed.
(** After an erase the accesses show the status. *)
Lemma wp_EraseBlock_status Lba p N s (Q : EFI_STATUS -> fvb W -> Prop) : ready pcd module SevEs s -> idle (Dev s) -> volume s N -> 0 <= Lba < N ->
  (forall s', erases s (erased (array (Dev s)) (Lba * BlockSize) BlockSize) s' -> (forall o, 0 <= o < fl_size -> fl_read o (Dev s') <> 0xff) -> Q EFI_SUCCESS s') ->
  wp (FvbProtocolEraseBlocks pcd module SevEs (mkFvbDevice p 0) (args_of [(Lba, 1)])) Q s.
Proof.
  intros R Hi (l & Hl & HN & Hin) HL HQ. pose proof (block_size_pos pcd module SevEs s R). pose proof (ready_flash _ _ _ s R).
  pose proof (ready_high _ _ _ s R). pose proof (ready_low _ _ _ s R). unfold FvbProtocolEraseBlocks.
  assert (N <= 2 ^ 64 - 1) as HNmax by nia.
  wp_step. eapply wp_FwhInstance; [done|]. cbn [fst snd].
  wp_step. rewrite wp_deref. exists N. split; [done|]. wp_step. apply CheckLbas_spec.
  { apply Forall_cons. split; [unfold EFI_LBA_LIST_TERMINATOR; cbn [fst]; lia|done]. }
  rewrite ranges_check.
  rewrite bool_decide_eq_true_2 by (apply Forall_cons; split; [unfold accepted; cbn [fst snd]; rewrite Z.mod_small; lia|done]).
  change (EFI_ERROR EFI_SUCCESS) with false. cbv iota. cbn [args_of EraseLbas].
  rewrite (proj2 (Z.eqb_neq Lba _)) by (unfold EFI_LBA_LIST_TERMINATOR; lia). change (Z.to_nat 1) with 1%nat. cbn [EraseRange].
  wp_step. wp_step. eapply wp_mono; [apply (QemuFlashEraseBlock_spec pcd module SevEs); [done|done|lia|nia]|].
  intros St s' (-> & He & Hst). change (EFI_ERROR EFI_SUCCESS) with false. cbv iota. wp_step.
  change (EFI_ERROR EFI_SUCCESS) with false. rewrite Z.eqb_refl. cbv iota. wp_step. by apply HQ.
Qed.
End Ranges.
