(* ===== verification/FlashFvbClaims.v ===== *)
(** * QemuFlashFvbServicesRuntimeDxe: theorems *)
From S2P Require Import Prelude Bytes FlashFvb FlashDevice FlashFvbProofs FlashFvbInstance FlashFvbInit FlashFvbStart.

Section Claims.
Context {W : Type} `{PFlashLaws W} (pcd : pcds) (module : module_type) (SevEs : bool).
#[local] Abbreviation BlockSize := (PcdOvmfFirmwareBlockSize pcd).

(** C30: erase a block, program bytes in it and read them back: the three
    calls succeed and the bytes read are the bytes written; the rest of the
    block is erased, and the other blocks keep what they had. *)
Theorem fvb_erase_write_read (s : fvb W) N p Lba Offset Buffer : ready pcd module SevEs s -> idle (Dev s) -> volume pcd s N ->
  0 <= Lba < N -> 0 <= Offset -> Buffer <> [] -> Offset + Z.of_nat (length Buffer) <= BlockSize -> Forall is_byte Buffer ->
  let d := mkFvbDevice p 0 in
  let n := Z.of_nat (length Buffer) in
  wp (e ← FvbProtocolEraseBlocks pcd module SevEs d (args_of [(Lba, 1)]);
      w ← FvbProtocolWrite pcd module SevEs d Lba Offset n Buffer;
      r ← FvbProtocolRead pcd d Lba Offset n; mret (e, w, r))
    (fun r s' => r = (EFI_SUCCESS, EFI_SUCCESS, (EFI_SUCCESS, Buffer)) /\ s' = set_dev (Dev s') s /\
       forall i, array (Dev s') !! i =
         let o := Z.of_nat i - Lba * BlockSize in
         if decide (0 <= o < BlockSize) then if decide (Offset <= o < Offset + n) then Buffer !! Z.to_nat (o - Offset) else Some 0xff
         else array (Dev s) !! i) s.
Proof.
  intros R Hi HV HL HO Hne Hin Hb d n. pose proof HV as (l & Hl & HN & Hfit). pose proof (block_size_pos pcd module SevEs s R) as Hbs.
  pose proof (ready_flash _ _ _ s R) as Hf. pose proof (array_length (Dev s)) as Hal.
  assert (Lba * BlockSize + BlockSize <= fl_size) as HLb by nia. assert (0 <= Lba * BlockSize) as HL0 by nia.
  assert (length Buffer <> O) as Hlen by (by destruct Buffer). set (o := Lba * BlockSize + Offset).
  wp_step. eapply (wp_EraseBlock_status pcd module SevEs Lba p N); [done..|]. intros s1 (Hs1 & Ha1 & Hi1) _.
  assert (ready pcd module SevEs s1) as R1 by (rewrite Hs1; by apply ready_dev).
  assert (Lba < mFdBlockCount s1) as Hc by (pose proof (ready_count _ _ _ s1 R1); nia).
  wp_step. unfold FvbProtocolWrite. eapply wp_mono; [apply (QemuFlashWrite_spec pcd module SevEs); try done; lia|].
  intros St s2 (-> & Hs2 & Ha2 & _ & Hr2 & _). assert (take (Z.to_nat n) Buffer = Buffer) as Et by (apply take_ge; lia).
  rewrite Et in Ha2, Hr2. specialize (Hr2 Hne). fold o in Ha2.
  assert (ready pcd module SevEs s2) as R2 by (rewrite Hs2; by apply ready_dev).
  assert (mFdBlockCount s2 = mFdBlockCount s1) as Hcnt by (by rewrite Hs2).
  assert (length (erased (array (Dev s)) (Lba * BlockSize) BlockSize) = length (array (Dev s))) as Hle by (apply length_erased; lia).
  wp_step. unfold FvbProtocolRead. eapply wp_mono; [apply (QemuFlashRead_spec pcd module SevEs); try done; lia|].
  intros r s3 [-> ->]. wp_step. fold o.
  assert (slice (array (Dev s2)) o (Z.to_nat n) = Buffer) as ->.
  { rewrite Ha2, Ha1. unfold n. rewrite Nat2Z.id. apply programmed_inside; [lia|rewrite Hle; lia|done|].
    apply list_eq. intros i. unfold slice. destruct (decide (i < length Buffer)%nat).
    - rewrite lookup_take_lt, lookup_drop, erased_lookup by lia. rewrite decide_True by lia. by rewrite lookup_replicate_2.
    - rewrite lookup_take_ge by lia. symmetry. apply lookup_ge_None_2. rewrite length_replicate. lia. }
  split; [done|]. split; [by rewrite Hs2, Hs1|]. intros i. cbv zeta. rewrite Ha2, Ha1, programmed_lookup, erased_lookup by lia.
  destruct (decide (0 <= Z.of_nat i - Lba * BlockSize < BlockSize)).
  - destruct (decide (Offset <= Z.of_nat i - Lba * BlockSize < Offset + n)).
    + rewrite decide_True, decide_True by lia. replace (i - Z.to_nat o)%nat with (Z.to_nat (Z.of_nat i - Lba * BlockSize - Offset)) by lia.
      destruct (lookup_lt_is_Some_2 Buffer (Z.to_nat (Z.of_nat i - Lba * BlockSize - Offset))) as [b Eb]; [lia|]. rewrite Eb. cbn.
      f_equal. apply program_erased. by eapply Forall_lookup_1.
    + rewrite decide_False, decide_True by lia. done.
  - rewrite decide_False, decide_False by lia. done.
Qed.

(** C31: EraseBlocks checks all its ranges before it erases.  When one of
    them is empty or ends behind the volume the flash stays as it is and the
    status is EFI_INVALID_PARAMETER; otherwise exactly the bytes of the ranges
    become 0xff.  The end of a range is computed modulo [2 ^ 64]: a range
    behind the firmware device whose end wraps to a block of the volume passes
    the check, and then the ranges before it are erased although the status is
    EFI_INVALID_PARAMETER.  The ranges are pairs of 64-bit integers; one that
    wraps is assumed to start behind the device. *)
Theorem fvb_erase_blocks (s : fvb W) N p rs : ready pcd module SevEs s -> idle (Dev s) -> volume pcd s N -> lba_args s rs ->
  wp (FvbProtocolEraseBlocks pcd module SevEs (mkFvbDevice p 0) (args_of rs)) (fun St s' =>
    if decide (Forall (accepted N) rs) then
      St = (if existsb wraps rs then EFI_INVALID_PARAMETER else EFI_SUCCESS) /\ s' = set_dev (Dev s') s /\ idle (Dev s') /\
      forall i, array (Dev s') !! i = if decide (covered pcd (before_wrap rs) (Z.of_nat i)) then Some 0xff else array (Dev s) !! i
    else St = EFI_INVALID_PARAMETER /\ s' = s) s.
Proof.
  intros R Hi HV Ha. pose proof (block_size_pos pcd module SevEs s R). apply (wp_EraseBlocks pcd module SevEs N); [done..| |].
  - intros Hno. by rewrite decide_False.
  - intros Hok s' (Hs & Har & Hi'). rewrite decide_True by done. split; [done|]. split; [done|]. split; [done|]. intros i. rewrite Har.
    destruct HV as (l & _ & _ & Hfit). pose proof (array_length (Dev s)). apply (erased_ranges_lookup pcd N); [lia| |lia].
    apply before_wrap_ok; [|done]. eapply Forall_impl; [exact Ha|]. cbn. lia.
Qed.

(** C32: an erase leaves the flash in its status mode: a read of erased bytes
    right after EraseBlocks succeeds, and returns none of them. *)
Theorem fvb_read_after_erase (s : fvb W) N p Lba : ready pcd module SevEs s -> idle (Dev s) -> volume pcd s N -> 0 <= Lba < N ->
  let d := mkFvbDevice p 0 in
  wp (e ← FvbProtocolEraseBlocks pcd module SevEs d (args_of [(Lba, 1)]); r ← FvbProtocolRead pcd d Lba 0 1; mret (e, r))
    (fun r s' => exists b, r = (EFI_SUCCESS, (EFI_SUCCESS, [b])) /\ b <> 0xff /\ array (Dev s') !! Z.to_nat (Lba * BlockSize) = Some 0xff) s.
Proof.
  intros R Hi HV HL d. pose proof HV as (l & Hl & HN & Hfit). pose proof (block_size_pos pcd module SevEs s R) as Hbs.
  pose proof (ready_flash _ _ _ s R) as Hf. pose proof (array_length (Dev s)) as Hal.
  assert (Lba * BlockSize + BlockSize <= fl_size) as HLb by nia. assert (0 <= Lba * BlockSize) as HL0 by nia.
  wp_step. eapply (wp_EraseBlock_status pcd module SevEs Lba p N); [done..|]. intros s1 (Hs1 & Ha1 & Hi1) Hst.
  assert (ready pcd module SevEs s1) as R1 by (rewrite Hs1; by apply ready_dev).
  assert (Lba < mFdBlockCount s1) as Hc by (pose proof (ready_count _ _ _ s1 R1); nia).
  wp_step. unfold FvbProtocolRead, QemuFlashRead. wp_step. wp_step. rewrite (proj2 (Z.leb_gt (mFdBlockCount s1) Lba)) by lia.
  wp_step. apply (wp_QemuFlashPtr pcd module SevEs); [done|lia..|]. rewrite Z.add_0_r. wp_step. change (Z.to_nat 1) with 1%nat. cbn [ReadBytes].
  wp_step. apply (wp_ptr_read pcd module SevEs); [done|lia|]. wp_step. wp_step. wp_step. wp_step. wp_step.
  exists (fl_read (Lba * BlockSize) (Dev s1)). split; [done|]. split; [apply Hst; lia|].
  rewrite Ha1, erased_lookup by lia. by rewrite decide_True by lia.
Qed.

(** C33: SetAttributes changes the status bits of the volume and no other bit,
    never those of a locked volume, and only as far as the capabilities allow;
    otherwise it reports EFI_ACCESS_DENIED (the lock) or EFI_INVALID_PARAMETER
    and changes nothing.  GetAttributes returns what SetAttributes stored, and
    no field of the instance but the attributes changes. *)
Theorem fvb_set_attributes (s : fvb W) l p old new : holds_instance s l -> attributes_of l = Some old ->
  let d := mkFvbDevice p 0 in
  wp (r ← FvbProtocolSetAttributes d new; a ← FvbProtocolGetAttributes d; mret (r, a)) (fun r s' =>
    if decide (same_fixed old new) then
      if locked old && negb (bool_decide (same_status old new)) then r = ((EFI_ACCESS_DENIED, new), old) /\ s' = s
      else if capable old new then
        exists a, r = ((EFI_SUCCESS, a), a) /\ Z.land a EFI_FVB2_STATUS = Z.land new EFI_FVB2_STATUS /\
          (forall i, 0 <= i -> Z.testbit EFI_FVB2_STATUS i = false -> Z.testbit a i = Z.testbit old i) /\
          exists l', s' = set_global (Some (mkGlobal 1 l')) s /\ forall off n, off + Z.of_nat n <= 60 \/ 64 <= off -> field l' off n = field l off n
      else r = ((EFI_INVALID_PARAMETER, new), old) /\ s' = s
    else r = ((EFI_INVALID_PARAMETER, new), old) /\ s' = s) s.
Proof.
  intros Hi Ha d. pose proof Hi as (_ & Hl & Hb).
  assert (is_u32 old) as Ho by (destruct (attributes_some l Hl Hb) as (a & Ha' & ?); congruence).
  assert (forall v t l' Q, holds_instance t l' -> attributes_of l' = Some v -> Q v t -> wp (FvbProtocolGetAttributes (W := W) d) Q t) as Hget.
  { intros v t l' Q Ht Hv HQ. unfold FvbProtocolGetAttributes, FvbGetVolumeAttributes. wp_step. eapply wp_FwhInstance; [exact Ht|].
    cbn [fst snd]. rewrite wp_deref. exists v. split; [exact Hv|done]. }
  wp_step. unfold FvbProtocolSetAttributes. eapply wp_mono; [apply (FvbSetVolumeAttributes_spec l old new s Hi Ha)|].
  intros r s' Hr. pose proof (CheckAttributes_eq old new) as Hc.
  assert (forall e, CheckAttributes old new = e -> EFI_ERROR e = true -> wp (a ← FvbProtocolGetAttributes d; mret (r, a)) (fun r s' => r = ((e, new), old) /\ s' = s) s') as Herr.
  { intros e He Hee. rewrite He, Hee in Hr. destruct Hr as [-> ->]. wp_step. eapply Hget; [done..|]. by wp_step. }
  unfold same_fixed, same_status. destruct (decide (Z.land new UnchangedAttributes = Z.land old UnchangedAttributes)) as [E|Hne].
  2: { rewrite (proj2 (Z.eqb_neq _ _)) in Hc by congruence. by apply Herr. }
  rewrite E, Z.eqb_refl in Hc. cbn [negb] in Hc.
  assert ((Z.land old EFI_FVB2_STATUS =? Z.land new EFI_FVB2_STATUS) = bool_decide (Z.land new EFI_FVB2_STATUS = Z.land old EFI_FVB2_STATUS)) as Eb.
  { destruct (Z.eqb_spec (Z.land old EFI_FVB2_STATUS) (Z.land new EFI_FVB2_STATUS)); symmetry; rewrite ?bool_decide_eq_true, ?bool_decide_eq_false; congruence. }
  rewrite Eb in Hc. destruct (locked old && _); [by apply Herr|]. destruct (capable old new); [|by apply Herr].
  rewrite Hc in Hr. change (EFI_ERROR EFI_SUCCESS) with false in Hr. cbv iota in Hr. destruct Hr as (-> & l' & Hs & Hi' & Ha' & Hf).
  wp_step. eapply Hget; [done..|]. wp_step. eexists. split; [done|]. split; [apply new_attributes_status|].
  split; [intros i; by apply new_attributes_rest|]. by exists l'.
Qed.

(** GetBlockSize walks the block map of the volume: a block that the map
    has gets its length and the number of blocks of that length from there
    on, with its address, and one behind the map EFI_INVALID_PARAMETER. *)
Theorem fvb_block_size (s : fvb W) l p base es Lba : holds_instance s l -> field l 0 8 = Some base ->
  map_at l (OFF_VolumeHeader + OFF_BlockMap) es -> 0 <= Lba -> total_blocks es < 2 ^ 64 -> base + total_bytes es < 2 ^ 64 ->
  Forall (fun e => e.1 * e.2 < 2 ^ 32) es ->
  wp (a ← FvbGetLbaAddress 0 Lba; b ← FvbProtocolGetBlockSize (mkFvbDevice p 0) Lba; mret (a, b)) (fun r s' => s' = s /\
    r = match lookup_lba es Lba with
        | Some (o, k, m) => ((EFI_SUCCESS, Some (base + o, k, m)), (EFI_SUCCESS, Some (k, m)))
        | None => ((EFI_INVALID_PARAMETER, None), (EFI_INVALID_PARAMETER, None))
        end) s.
Proof.
  intros Hi HB Hm HL Ht Hby H32. pose proof Hi as (_ & Hl & Hb). pose proof (map_length _ _ _ Hm) as [_ Hlen].
  pose proof (field_bounds _ _ _ _ Hb HB).
  assert (forall Q, Q (match lookup_lba es Lba with Some (o, k, m) => (EFI_SUCCESS, Some (base + o, k, m)) | None => (EFI_INVALID_PARAMETER, None) end) s ->
    wp (FvbGetLbaAddress 0 Lba) Q s) as Hw.
  { intros Q HQ. unfold FvbGetLbaAddress. wp_step. eapply wp_FwhInstance; [done|]. cbn [fst snd]. wp_step. rewrite wp_deref.
    exists base. split; [done|]. wp_step. rewrite Z.add_0_l.
    eapply wp_mono; [eapply (BlockMapWalk_spec l base es Hb); [lia|exact Hm|unfold OFF_VolumeHeader, OFF_BlockMap in *; lia|lia|lia|lia|lia|done]|].
    intros o s' [-> ->]. rewrite Z.sub_0_r. wp_step. destruct (lookup_lba es Lba) as [[[a k] m]|]; exact HQ. }
  wp_step. apply Hw. wp_step. unfold FvbProtocolGetBlockSize. wp_step. cbn [Instance]. apply Hw. wp_step. wp_step. split; [done|].
  destruct (lookup_lba es Lba) as [[[a k] m]|]; done.
Qed.
End Claims.

Definition driver_hooks {W} `{PFlash W} (pcd : pcds) (module : module_type) (Sev : bool) (svc : event -> EFI_STATUS)
    (at_end : bool) (Descriptor : Z) : @hooks W :=
  match module with Dxe => DxeHooks pcd Sev svc at_end Descriptor | Smm => SmmHooks pcd Sev svc end.

(** ** Detection, where there is no flash *)
Section Plain.
Context {W : Type} `{PlainMemory W} (pcd : pcds).
#[local] Abbreviation FdBase := (PcdOvmfFdBaseAddress pcd).
#[local] Abbreviation FdSize := (PcdOvmfFirmwareFdSize pcd).
#[local] Abbreviation BlockSize := (PcdOvmfFirmwareBlockSize pcd).
(** The memory begins the firmware device, and has a block. *)
Record plain_layout : Prop := mkPlainLayout {
  pl_low : 0 <= FdBase; pl_high : FdBase + FdSize <= 2 ^ 64 - 1;
  pl_block : 0 < BlockSize <= pm_size; pl_whole : FdSize mod BlockSize = 0; pl_size : pm_size <= FdSize;
}.
Definition plain_at (s : fvb W) : Prop := plain_layout /\ Virt s = FdBase /\ mFlashBase s = FdBase /\ mFdBlockSize s = BlockSize.

Lemma plain_in s o : plain_at s -> 0 <= o < pm_size -> in_fd pcd (mFlashBase s + o - Virt s) = true /\ mFlashBase s + o - Virt s = o.
Proof.
  intros (L & -> & -> & _) Ho. pose proof (pl_size L). split; [|lia]. unfold in_fd.
  rewrite (proj2 (Z.leb_le _ _)), (proj2 (Z.ltb_lt _ _)) by lia. done.
Qed.
Lemma plain_read s o (Q : Z -> fvb W -> Prop) : plain_at s -> 0 <= o < pm_size -> Q (fl_read o (Dev s)) s ->
  wp (ptr_read pcd (mFlashBase s + o)) Q s.
Proof.
  intros Hs Ho HQ. unfold ptr_read. wp_step. wp_step. cbv zeta. destruct (plain_in s o Hs Ho) as [-> ->]. by wp_step.
Qed.
Lemma plain_write s o v (Q : unit -> fvb W -> Prop) : plain_at s -> 0 <= o < pm_size ->
  Q tt (set_dev (fl_write o v (Dev s)) s) -> wp (ptr_write pcd (mFlashBase s + o) v) Q s.
Proof.
  intros Hs Ho HQ. unfold ptr_write. wp_step. wp_step. cbv zeta. destruct (plain_in s o Hs Ho) as [-> ->]. by wp_step.
Qed.
Lemma plain_Probe s n : plain_at s -> forall o (Q : option Z -> fvb W -> Prop), 0 <= o -> o + Z.of_nat n <= BlockSize -> Q None s ->
  (forall i, 0 <= i < pm_size -> probe_byte (fl_read i (Dev s)) = true -> Q (Some (mFlashBase s + i)) s) -> wp (Probe pcd n o) Q s.
Proof.
  intros Hs. induction n as [|n IH]; intros o Q Ho Hn Hno Hyes; cbn [Probe]; [by wp_step|].
  pose proof Hs as (L & Hv & Hb & _). destruct L. unfold QemuFlashPtr. wp_step. wp_step. wp_step. wp_step.
  assert (u64 (mFlashBase s + u64 (0 * mFdBlockSize s) + o) = mFlashBase s + o) as ->.
  { rewrite Z.mul_0_l. unfold u64. rewrite (Z.mod_small 0) by lia. rewrite Z.mod_small by lia. lia. }
  wp_step. apply plain_read; [done|lia|]. fold (probe_byte (fl_read o (Dev s))). destruct (probe_byte _) eqn:E.
  - wp_step. by apply Hyes; [lia|].
  - apply IH; [lia|lia|done|done].
Qed.

(** A ROM or RAM is not taken for a flash, and is left as it was. *)
Lemma plain_Detected s : plain_at s ->
  wp (QemuFlashDetected pcd false) (fun ok s' => ok = false /\ s' = set_dev (Dev s') s /\ pm_array (Dev s') = pm_array (Dev s)) s.
Proof.
  intros Hs. pose proof Hs as (L & Hv & Hb & Hz). pose proof (pl_block L). unfold QemuFlashDetected. wp_step. wp_step. rewrite Hz. wp_step.
  apply plain_Probe; [done|lia|lia| |]; [by wp_step; split; [|split; [destruct s|]]|]. intros o Ho Hp.
  unfold probe_byte in Hp. rewrite !andb_true_iff, !negb_true_iff, !Z.eqb_neq in Hp. destruct Hp as [[Hp1 Hp2] Hp3].
  assert (forall d, plain_at (set_dev d s)) as Hat by done.
  pose proof (pm_bytes (Dev s)) as Hby. pose proof (pm_read (Dev s) o Ho) as Hr. set (b := fl_read o (Dev s)) in *.
  assert (is_byte b) as Hbb by (by eapply Forall_lookup_1).
  wp_step. apply plain_read; [done|done|]. fold b. wp_step. apply plain_write; [done|done|].
  set (d1 := fl_write o CLEAR_STATUS_CMD (Dev s)).
  pose proof (pm_write (Dev s) o CLEAR_STATUS_CMD Ho ltac:(by vm_compute)) as Hw1. fold d1 in Hw1.
  pose proof (pm_read d1 o Ho) as Hr1. rewrite Hw1 in Hr1.
  wp_step. change (mFlashBase s) with (mFlashBase (set_dev d1 s)). apply plain_read; [done|done|]. cbn [Dev set_dev].
  rewrite (proj2 (Z.eqb_neq b _)) by done. cbn [negb andb]. destruct pm_writable eqn:Ew.
  - rewrite list_lookup_insert_eq in Hr1 by (pose proof (pm_length (Dev s)); lia). injection Hr1 as <-. rewrite Z.eqb_refl.
    wp_step. apply plain_write; [done|done|]. wp_step. split; [done|]. split; [done|]. cbn [Dev set_dev].
    rewrite (pm_write d1 o b Ho Hbb), Ew, Hw1, list_insert_insert_eq. by apply list_insert_id.
  - rewrite Hr in Hr1. injection Hr1 as <-. rewrite (proj2 (Z.eqb_neq b _)) by done.
    wp_step. apply plain_write; [done|done|]. cbn [Dev set_dev]. set (d2 := fl_write o READ_STATUS_CMD d1).
    pose proof (pm_write d1 o READ_STATUS_CMD Ho ltac:(by vm_compute)) as Hw2. fold d2 in Hw2. rewrite Ew, Hw1 in Hw2.
    pose proof (pm_read d2 o Ho) as Hr2. rewrite Hw2, Hr in Hr2. injection Hr2 as Hr2.
    wp_step. change (mFlashBase (set_dev d1 s)) with (mFlashBase (set_dev d2 s)). apply plain_read; [done|done|].
    cbn [Dev set_dev]. rewrite <-Hr2, Z.eqb_refl. wp_step. done.
Qed.
Lemma plain_Initialize (s : fvb W) pool Sev svc at_end Descriptor `{Sum16} : PcdSmmSmramRequire pcd = false -> plain_layout -> Virt s = FdBase ->
  wp (FvbInitialize pcd Dxe false pool (driver_hooks pcd Dxe Sev svc at_end Descriptor))
    (fun St s' => St = EFI_WRITE_PROTECTED /\ pm_array (Dev s') = pm_array (Dev s) /\
       mFvbModuleGlobal s' = mFvbModuleGlobal s /\ Log s' = Log s) s.
Proof.
  intros Hsmm L Hv. pose proof (pl_block L). unfold FvbInitialize, QemuFlashInitialize. cbv zeta. wp_step.
  rewrite (proj2 (Z.eqb_neq BlockSize 0)) by lia. wp_step. wp_step. wp_step. wp_step.
  { by rewrite (pl_whole L). }
  wp_step. wp_step. wp_step. unfold driver_hooks, DxeHooks. cbn [QemuFlashBeforeProbe]. wp_step. wp_step.
  eapply wp_mono; [by apply plain_Detected|]. intros ok s' (-> & Hs & Ha). cbn [negb]. wp_step. wp_step.
  { by rewrite Hsmm. }
  wp_step. change (EFI_ERROR EFI_WRITE_PROTECTED) with true. cbv iota. wp_step.
  split; [done|]. split; [exact Ha|]. by rewrite Hs.
Qed.
End Plain.

(** ** Initialization *)
Section Initialize.
Context {W : Type} `{PFlashLaws W} `{Sum16Laws} (pcd : pcds) (module : module_type) (Sev SevEs : bool).
Context (AllocateRuntimePool : nat -> Z -> option (list Z)) (svc : event -> EFI_STATUS) (at_end : bool) (Descriptor : Z).
#[local] Abbreviation BlockSize := (PcdOvmfFirmwareBlockSize pcd).
Definition driver_events : hook_events :=
  match module with Dxe => dxe_events pcd Sev Descriptor | Smm => smm_events Sev end.
(** The driver is the one of the platform, and its services succeed. *)
Record platform : Prop := mkPlatform {
  plat_layout : layout pcd;
  plat_smm : PcdSmmSmramRequire pcd = match module with Dxe => false | Smm => true end;
  plat_services : services_succeed svc;
  plat_locate p : svc (LocateDevicePath p) = EFI_NOT_FOUND;
  plat_pool k n : 0 <= n -> exists l, AllocateRuntimePool k n = Some l /\ length l = Z.to_nat n /\ Forall is_byte l;
}.
#[local] Abbreviation hooks_here := (driver_hooks pcd module Sev svc at_end Descriptor).
Lemma driver_emits : platform -> hooks_emit hooks_here driver_events.
Proof.
  intros P. pose proof (plat_smm P) as Hs. unfold driver_hooks, driver_events. destruct module.
  - by apply DxeHooks_emit; [|apply P|apply P].
  - by apply SmmHooks_emit; [|apply P].
Qed.

(** The block map of a store that the driver makes: all of its blocks. *)
Lemma fresh_map (a : list Z) : layout pcd -> Z.of_nat (length a) = fl_size ->
  boot_map (fresh_store pcd a) [(NvLength pcd / BlockSize, BlockSize)].
Proof.
  intros L Hl. pose proof (lay_block_u32 _ L). pose proof (lay_store _ L). pose proof (lay_blocks _ L).
  pose proof (fresh_header pcd L a Hl) as Hf.
  assert (forall o n, 0 <= o -> o + Z.of_nat n <= 72 -> afield (fresh_store pcd a) o n = afield (good_info pcd) o n) as Ha.
  { intros o n Ho Hn. rewrite <-Hf. symmetry. by apply afield_slice. }
  unfold boot_map, header_length. rewrite !Ha by done. split; [|done].
  unfold good_info at 1. rewrite info_header_length. change (Z.to_nat 72) with 72%nat. rewrite Hf.
  assert (forall o n, 0 <= o -> o + Z.of_nat n <= 72 -> field (good_info pcd) o n = Some (afield (good_info pcd) o n)) as Hfi.
  { intros o n Ho Hn. rewrite field_some; [done|done|]. change (length (good_info pcd)) with 72%nat. lia. }
  assert (0 < NvLength pcd < 2 ^ 32) as HN.
  { split; [lia|]. unfold NvLength, u32. apply Z.mod_pos_bound. lia. }
  pose proof (Z.div_mod (NvLength pcd) BlockSize ltac:(lia)) as Hd. assert (1 <= NvLength pcd / BlockSize < 2 ^ 32) as Hq by nia.
  assert (field (good_info pcd) 56 4 = Some (NvLength pcd / BlockSize)) as E1.
  { rewrite Hfi by done. f_equal. unfold good_info. rewrite (info_field _ _ _ _ (le_split 4 (NvLength pcd / BlockSize))) by reflexivity.
    rewrite le_combine_split. apply Z.mod_small. lia. }
  assert (field (good_info pcd) 60 4 = Some BlockSize) as E2.
  { rewrite Hfi by done. f_equal. apply (info_map_length pcd L). }
  split; [|done]. apply map_entry; [exact E1|exact E2|lia|lia|]. apply (map_end _ _ 0 0); [done|done|by left].
Qed.

(** C29: FvbInitialize detects the flash by its answers to commands.  Behind
    a ROM or a RAM, and behind a flash where no byte can be probed, the DXE
    driver returns EFI_WRITE_PROTECTED, publishes nothing, and leaves the
    memory as it was (not under SEV-ES, where the driver takes any memory that
    can be probed for a flash).  On a flash it keeps a valid variable store as
    it is, or erases the store and writes a header with a right checksum (the
    other bytes of the flash do not change); the instance of the volume gets
    the base address, the header of the store and the number of blocks of its
    block map; the protocols of the module type are published, once. *)
Theorem fvb_initialize :
  (forall s : fvb W, platform -> boot_state pcd s ->
    let a := array (Dev s) in
    (probe_found pcd a -> forall es, boot_map (store_array pcd a) es ->
       wp (FvbInitialize pcd module SevEs AllocateRuntimePool hooks_here)
         (fun St s' => St = EFI_SUCCESS /\ started pcd module SevEs driver_events s (store_array pcd a) es s') s) /\
    (~ probe_found pcd a -> module = Dxe ->
       wp (FvbInitialize pcd module SevEs AllocateRuntimePool hooks_here)
         (fun St s' => St = EFI_WRITE_PROTECTED /\ array (Dev s') = a /\ reading (Dev s') /\
            mFvbModuleGlobal s' = mFvbModuleGlobal s /\ Log s' = Log s) s) /\
    store_ok pcd (store_array pcd a) = true /\
    (store_ok pcd a = false -> boot_map (store_array pcd a) [(NvLength pcd / BlockSize, BlockSize)] /\
       forall i, (Z.to_nat (NvLength pcd) <= i)%nat -> store_array pcd a !! i = a !! i)) /\
  (forall (W' : Type) (P' : PFlash W') (PM : PlainMemory W') (s : fvb W'), PcdSmmSmramRequire pcd = false ->
     plain_layout (W := W') pcd -> Virt s = PcdOvmfFdBaseAddress pcd ->
     wp (FvbInitialize (W := W') pcd Dxe false AllocateRuntimePool (driver_hooks pcd Dxe Sev svc at_end Descriptor))
       (fun St s' => St = EFI_WRITE_PROTECTED /\ pm_array (Dev s') = pm_array (Dev s) /\
          mFvbModuleGlobal s' = mFvbModuleGlobal s /\ Log s' = Log s) s).
Proof.
  split.
  - intros s P B a. pose proof (plat_layout P) as L. pose proof (driver_emits P) as Hev.
    assert (Z.of_nat (length a) = fl_size) as Hl by apply array_length. split; [|split; [|split]].
    + intros Hf es Hm. apply (FvbInitialize_spec pcd module SevEs AllocateRuntimePool hooks_here driver_events L Hev (plat_pool P)); done.
    + intros Hn Hmod. unfold FvbInitialize. wp_step. eapply wp_mono.
      { apply (QemuFlashInitialize_spec pcd module SevEs hooks_here driver_events L Hev); [done|]. left. rewrite (plat_smm P). by rewrite Hmod. }
      intros St s' (Hs & Ha & Hr & [[_ Hf]|[-> _]]); [done|]. change (EFI_ERROR EFI_WRITE_PROTECTED) with true. cbv iota. wp_step.
      split; [done|]. split; [done|]. split; [done|]. rewrite Hs. unfold set_up. rewrite logs_eq. cbn. split; [done|].
      unfold driver_events. rewrite Hmod. cbn. apply app_nil_r.
    + by apply store_array_ok.
    + intros E. unfold store_array. rewrite E. split; [by apply fresh_map|]. intros i Hi. rewrite (fresh_lookup pcd L) by done.
      pose proof (store_fits pcd L). by rewrite !decide_False by lia.
  - intros W' P' PM s Hsmm L Hv. by apply plain_Initialize.
Qed.
End Initialize.

(** ** Witnesses

    A small flash of four blocks, and a flash with room for a store. *)
Module Small.
Definition pcd : pcds := mkPcds 0x1000 64 16 0x1000 32 16 16 0 0x1020 0x1030 false.
#[local] Instance flash : PFlash (Chip.chip 64) := Chip.chip_pflash 64 16 eq_refl.
#[local] Instance flash_laws : PFlashLaws (Chip.chip 64) := Chip.chip_laws 64 16 eq_refl.
Definition device : Chip.chip 64 := @Chip.mkChip 64 (replicate 64 0) Chip.ReadArray 0 eq_refl.
Definition fv : list Z := le_split 8 0x1000 ++ le_split 8 4 ++ replicate 44 0 ++ le_split 4 0x7f ++ replicate 8 0 ++
  le_split 4 3 ++ le_split 4 16 ++ le_split 4 1 ++ le_split 4 8 ++ replicate 8 0.
Definition state : fvb (Chip.chip 64) := mkFvb device 0x1000 0x1000 16 4 0 false [] (Some (mkGlobal 1 fv)) 0 [].
Definition path : device_path := FV_MEMMAP_DEVICE_PATH 0x1000 0x103f.
Lemma is_ready : ready pcd Dxe false state.
Proof. by split. Qed.
Lemma fv_held : holds_instance state fv.
Proof. split; [done|]. split; [vm_compute; lia|]. apply Chip.bytes_spec. reflexivity. Qed.
Lemma fv_volume : volume pcd state 4.
Proof. exists fv. split; [exact fv_held|]. split; [reflexivity|done]. Qed.

Lemma fvb_erase_write_read_witness : exists Q, wp
  (e ← FvbProtocolEraseBlocks pcd Dxe false (mkFvbDevice path 0) (args_of [(2, 1)]);
   w ← FvbProtocolWrite pcd Dxe false (mkFvbDevice path 0) 2 3 2 [7; 9];
   r ← FvbProtocolRead pcd (mkFvbDevice path 0) 2 3 2; mret (e, w, r)) Q state.
Proof.
  eexists. apply (fvb_erase_write_read pcd Dxe false state 4 path 2 3 [7; 9] is_ready).
  - by left.
  - exact fv_volume.
  - lia.
  - lia.
  - done.
  - done.
  - apply Chip.bytes_spec. reflexivity.
Defined.
Lemma fvb_erase_blocks_witness :
  (exists Q, wp (FvbProtocolEraseBlocks pcd Dxe false (mkFvbDevice path 0) (args_of [(0, 1); (2, 2)])) Q state) /\
  wp (FvbProtocolEraseBlocks pcd Dxe false (mkFvbDevice path 0) (args_of [(0, 1); (2 ^ 64 - 3, 4)])) (fun St s' =>
    St = EFI_INVALID_PARAMETER /\ array (Dev s') !! O = Some 0xff) state.
Proof.
  split.
  - eexists. apply (fvb_erase_blocks pcd Dxe false state 4 path [(0, 1); (2, 2)] is_ready).
    + by left.
    + exact fv_volume.
    + apply Forall_cons. split; [done|]. apply Forall_cons. split; [done|]. apply Forall_nil. done.
  - eapply wp_mono; [apply (fvb_erase_blocks pcd Dxe false state 4 path [(0, 1); (2 ^ 64 - 3, 4)] is_ready)|].
    + by left.
    + exact fv_volume.
    + apply Forall_cons. split; [done|]. apply Forall_cons. split; [done|]. apply Forall_nil. done.
    + cbv beta. intros St s'. rewrite decide_True.
      2:{ apply Forall_cons. split; [done|]. apply Forall_cons. split; [done|]. apply Forall_nil. done. }
      intros (-> & _ & _ & Ha). split; [reflexivity|]. specialize (Ha O). exact Ha.
Defined.
Lemma fvb_read_after_erase_witness : exists Q, wp
  (e ← FvbProtocolEraseBlocks pcd Dxe false (mkFvbDevice path 0) (args_of [(1, 1)]);
   r ← FvbProtocolRead pcd (mkFvbDevice path 0) 1 0 1; mret (e, r)) Q state.
Proof.
  eexists. apply (fvb_read_after_erase pcd Dxe false state 4 path 1 is_ready).
  - by left.
  - exact fv_volume.
  - lia.
Defined.
Lemma fvb_set_attributes_witness : exists Q, wp (r ← FvbProtocolSetAttributes (mkFvbDevice path 0) 0x5f;
  a ← FvbProtocolGetAttributes (mkFvbDevice path 0); mret (r, a)) Q state.
Proof. eexists. apply (fvb_set_attributes state fv path 0x7f 0x5f fv_held). reflexivity. Defined.
Lemma fvb_block_size_witness : wp (a ← FvbGetLbaAddress 0 3; b ← FvbProtocolGetBlockSize (mkFvbDevice path 0) 3; mret (a, b))
  (fun r s' => s' = state /\ r = ((EFI_SUCCESS, Some (0x1030, 8, 1)), (EFI_SUCCESS, Some (8, 1)))) state.
Proof.
  apply (fvb_block_size state fv path 0x1000 [(3, 16); (1, 8)] 3 fv_held).
  - reflexivity.
  - apply (map_entry _ _ 3 16); [reflexivity|reflexivity|done|done|]. apply (map_entry _ _ 1 8); [reflexivity|reflexivity|done|done|].
    apply (map_end _ _ 0 0); [reflexivity|reflexivity|by left].
  - lia.
  - vm_compute. reflexivity.
  - vm_compute. reflexivity.
  - apply Forall_cons. split; [done|]. apply Forall_cons. split; [done|]. apply Forall_nil. done.
Defined.
End Small.

Module Large.
Definition pcd : pcds := mkPcds 0xffc00000 0x20000 0x1000 0xffc00000 0xe000 0x1000 0x1000 0 0xffc0e000 0xffc0f000 false.
#[local] Instance flash : PFlash (Chip.chip 0x20000) := Chip.chip_pflash 0x20000 0x1000 eq_refl.
#[local] Instance flash_laws : PFlashLaws (Chip.chip 0x20000) := Chip.chip_laws 0x20000 0x1000 eq_refl.
#[local] Instance sums : Sum16 := {| CalculateSum16 l := sum16 l mod 2 ^ 16; CalculateCheckSum16 l := (- sum16 l) mod 2 ^ 16 |}.
#[local] Instance sums_laws : Sum16Laws.
Proof. by split. Qed.
Definition blank : list Z := replicate (Z.to_nat 0x20000) 0xff.
Lemma blank_ok : (Z.of_nat (length blank) =? 0x20000) && Chip.bytes_ok blank = true.
Proof.
  unfold blank. rewrite length_replicate, Z2Nat.id by done. cbn [andb]. apply andb_true_iff. split; [done|]. apply Chip.bytes_spec.
  by apply Forall_replicate.
Qed.
Definition device : Chip.chip 0x20000 := Chip.mkChip blank Chip.ReadArray 0 blank_ok.
Definition state : fvb (Chip.chip 0x20000) := mkFvb device 0xffc00000 0 0 0 0 false (mPlatformFvbMediaInfo pcd) None 0 [].
Definition svc (e : event) : EFI_STATUS := match e with LocateDevicePath _ => EFI_NOT_FOUND | _ => EFI_SUCCESS end.
Definition pool (_ : nat) (n : Z) : option (list Z) := Some (replicate (Z.to_nat n) 0).
Lemma is_platform : platform pcd Dxe pool svc.
Proof.
  split; [by split| | | |]; [done| |done|].
  - intros e. destruct e; try (by left); right; left; by eexists.
  - intros k n Hn. eexists. split; [done|]. rewrite length_replicate. split; [done|by apply Forall_replicate].
Qed.
Lemma blank_store : store_ok pcd blank = false.
Proof.
  assert (afield blank OFF_Revision 1 = 0xff) as E.
  { unfold afield, slice, blank. rewrite drop_replicate, take_replicate. unfold OFF_Revision.
    replace (Z.to_nat 0x20000 - Z.to_nat 55)%nat with (S (Z.to_nat 0x20000 - Z.to_nat 56)) by lia. done. }
  unfold store_ok, header_ok. by rewrite E.
Qed.
Lemma blank_probe : probe_found pcd blank.
Proof.
  exists 0, 0xff. split; [|split; [unfold blank; apply lookup_replicate_2; lia|reflexivity]].
  change (PcdOvmfFirmwareBlockSize pcd) with 0x1000. lia.
Qed.
Definition rom : fvb (Rom.rom 0x20000) :=
  mkFvb (Rom.mkRom blank blank_ok) 0xffc00000 0 0 0 0 false (mPlatformFvbMediaInfo pcd) None 0 [].
#[local] Instance rom_flash : PFlash (Rom.rom 0x20000) := Rom.rom_pflash 0x20000.
#[local] Instance rom_memory : PlainMemory (Rom.rom 0x20000) := Rom.rom_plain 0x20000.
Lemma fvb_initialize_witness :
  wp (FvbInitialize pcd Dxe false pool (driver_hooks pcd Dxe false svc false 0))
    (fun St s' => St = EFI_SUCCESS /\ started pcd Dxe false (driver_events pcd Dxe false 0) state (store_array pcd blank) [(16, 0x1000)] s') state /\
  wp (FvbInitialize pcd Dxe false pool (driver_hooks pcd Dxe false svc false 0))
    (fun St s' => St = EFI_WRITE_PROTECTED /\ pm_array (Dev s') = pm_array (Dev rom) /\ mFvbModuleGlobal s' = mFvbModuleGlobal rom /\ Log s' = Log rom) rom.
Proof.
  assert (array (Dev state) = blank) as E by reflexivity.
  assert (boot_state pcd state) as B by (split; reflexivity).
  destruct (fvb_initialize pcd Dxe false false pool svc false 0) as [Hall Hrom]. split.
  - specialize (Hall state is_platform B). cbv zeta in Hall. rewrite E in Hall.
    destruct Hall as (H1 & _ & _ & H4). destruct (H4 blank_store) as [Hmap _]. clear Hrom H4 E B.
    assert (NvLength pcd / PcdOvmfFirmwareBlockSize pcd = 16) as E16 by reflexivity. rewrite E16 in Hmap.
    assert (PcdOvmfFirmwareBlockSize pcd = 0x1000) as Eb by reflexivity. rewrite Eb in Hmap.
    exact (H1 blank_probe _ Hmap).
  - refine (Hrom _ rom_flash rom_memory rom eq_refl _ eq_refl).
    assert (pm_size (W := Rom.rom 0x20000) = 0x20000) as Epm by reflexivity.
    split; rewrite ?Epm; unfold pcd; cbn [PcdOvmfFdBaseAddress PcdOvmfFirmwareFdSize PcdOvmfFirmwareBlockSize]; lia || reflexivity.
Defined.
End Large.
